(* ===== verification/_CoqProject ===== *)
-Q . S2P
Prelude.v
Mem.v
Types.v
Forecast.v
FlowSync.v
Wqe.v
PostSend.v
SendSafe.v
SendQueue.v
SendDecode.v
Builder.v
BuilderProps.v
Mkey.v
MkeyProps.v
Table.v
Recv.v
RecvProps.v
Cancel.v
Srq.v
SrqProps.v
Sizes.v
SizesProps.v
SizesFit.v
Ops.v
OpsProps.v
SendFifo.v
Dbrec.v
DbrecProps.v
DbrecSpec.v
TagMatch.v
CqTypes.v
Cq.v
CqPoll.v
CqRing.v
CqProps.v
CqClean.v
SendComplete.v
CqPollProps.v
CqLazy.v
CqTerm.v
TagProps.v
Bitmap.v
BitmapProps.v
BitmapOps.v
Buddy.v
BuddyTree.v
BuddyProps.v
BuddySpec.v
Buf.v
BufProps.v
BufSpec.v
BufOrder.v
IcmPool.v
IcmPoolProps.v
IcmPoolSpec.v
Double.v
Server.v
ServerPath.v
ServerProps.v
ServerSpec.v
SyncWire.v
IntervalSet.v
IntervalProps.v
Vfio.v
VfioCmd.v
VfioProps.v
VfioMsg.v
VfioEvents.v
