(* ===== verification/Prelude.v ===== *)
(** * Verification of SDNware

    SDNware is a fork of rdma-core whose mlx5 driver predicts the traffic of every batch of
    send requests and hands the prediction to a controller that routes it.  The program's own
    code and the data path it lives in are C functions of src/rdma-core-37.8/providers/mlx5;
    the records leave the host through src/sync/client.cpp and reach the controller, src/sync/server.cpp.

    ** The parts and how they interact

    An application posts requests ([mlx5_post_send], or a session of the builder
    [ibv_wr_start] .. [ibv_wr_complete]).  [flow_forecast] walks the list first and appends a
    record to a table in shared memory, which the client drains to a socket.  The driver then
    encodes each request as an element of the send ring and rings the doorbell.  Receives go
    to a receive queue or to a shared one.  The device writes completions into the ring of a
    completion queue; polling finds the queue of an entry through the tables of the context,
    returns the identifier the application gave, delivers data that came inside the entry and
    gives the element back.  Creation sizes the rings, so that what posting accepts fits.
    The memory of rings, doorbell records and steering comes from allocators of the driver's own.
    A device can also be driven from user space (mlx5_vfio.c): the driver then chooses the addresses
    the device sees, lends it pages, sends commands through mailboxes and reads its events.

    The controller reads the records of all hosts, estimates the rate of each pair, and once a
    second routes every pair with traffic along the path whose busiest link is least busy.

    ** Files

    Shared:
    - Prelude: machine integers as [Z] with their wrap-around, alignment, arrays, notations,
      the hint database [mlx5].
    - Mem: byte memory, big-endian stores and loads, [memcpy], and [Writes], the class of
      memory transformers with a bounded footprint; [meq] with its [Proper] instances.
    - Types: constants and structures of verbs.h, mlx5.h, mlx5dv.h, wqe.h.

    Forecast: Forecast ([flow_forecast], qp.c 845-983) and FlowSync (the loop of
    sync/client.cpp).  The table is a queue for both: class [RecordQueue].

    Controller: Double (IEEE 754 doubles over SpecFloat), Server (sync/server.cpp: tables,
    rates, the search for a path, routes and requests), SyncWire ([sock_read], [sock_write],
    records as bytes, the main loop).  ServerPath is the graph and its walks, ServerProps the
    tables, ServerSpec the promises.

    Sending: Wqe (segment writers, qp.c 57-706; the state-and-error monad [W]), PostSend
    ([_mlx5_post_send], [post_send_db], the BlueFlame copy), Builder (every [mlx5_send_wr_*]
    function), Ops (the tables of functions by QP type, memory windows), Mkey (memory keys, signatures and crypto, qp.c 2278-3448), Cancel
    ([mlx5dv_qp_cancel_posted_send_wrs]), Sizes (verbs.c 1463-1809 and the queue part of
    [create_qp]).

    Receiving: Recv ([mlx5_post_recv], [mlx5_post_wq_recv], the copies of inline data), Srq
    (srq.c), TagMatch ([mlx5_post_srq_ops], [mlx5_tm_release_tag]).

    Completions: CqTypes (entries, the state of a poll, the monad [P] of computations that
    may fault), Cq ([mlx5_parse_cqe] and its cases), CqPoll ([mlx5_poll_cq], [mlx5_start_poll]
    and its companions, the readers, the table of functions), CqRing (creation, cleaning,
    resizing, arming).

    Objects: Table (the two-level tables of QPs, SRQs, user indices and mkeys; class
    [PtrTable]).

    Memory: Dbrec (dbrec.c), Buf (buf.c and bitmap.h: chunks of huge pages, contiguous pages, the
    order of attempts), Bitmap and BitmapOps (the bitmaps of ccan), Buddy (dr_buddy.c) with BuddyTree, the
    tiling of its memory, and IcmPool (dr_icm_pool.c, the pool of steering memory).

    User-space device: IntervalSet (util/interval_set.c), Vfio (addresses, mappings and pages of
    mlx5_vfio.c), VfioCmd (its mailboxes, commands, page requests and events).

    A C structure is a record of the fields the code uses, a pointer to data an address of
    [mem], a pointer to an object an index of a store.  A function that cannot fail and only
    writes memory is a memory transformer; one that returns an error is a value of [outcome]
    or of an error code; a null dereference, a read outside an array or a loop that does not
    end is a fault ([None], [FcFault], [PostFault]).  Device actions the order of which matters
    (barriers, doorbell records, MMIO writes, lock releases) are a trace.

    ** What the theorems show

    End to end.  SendComplete: posting and polling together are a queue of requests
    ([send_poll_refines]): polls return the identifiers of the accepted requests in order,
    space comes back with its completion.  SendFifo: the device always finds exactly the
    outstanding requests in the ring ([send_queue_fifo]).

    Sending.  SendSafe: no byte outside the ring and the doorbell record is written
    ([post_send_memory_safe], the triples [Safe]).  SendQueue: slots, counters, the prefix an
    error leaves, the order of the doorbell.  SendDecode: what is encoded decodes to the
    request, inline data included.  SizesProps, SizesFit: creation grants what was asked for,
    and every accepted request fits its element ([accepted_wqe_fits], the bounds [Sized]).
    BuilderProps: the builder and [mlx5_post_send] build the same bytes, sessions roll back.
    MkeyProps: memory safety of every sequence of mkey calls, round trips of the layouts.

    Forecast.  The predicted bytes are those of a packet-level reference definition; the table
    keeps its invariant; the client delivers every record while the table does not fill.

    Controller.  SyncWire: the records [flow_forecast] appends reach the controller, however
    reads cut the stream between records ([forecasts_reach_controller]), and a pass of the main
    loop keeps the tables well formed ([main_pass_tables_ok]).  ServerSpec: the route stored for
    a pair is a path no busier than any other, found within as many passes as there are
    switches, and requests follow exactly its changes ([get_route_widest]); when the search
    does not end ([get_route_hangs]); where flows, rates and policy routes go wrong
    ([withdraw_misses_last_hop], [tx_speed_wraps], [policy_routes_only_grow]).

    Receiving.  RecvProps, SrqProps: what is posted, and that inline data lands in the buffers
    of the request; a shared queue refines three lists of elements.  TagProps: tag matching
    refines a pool of tags and a queue of operations ([tag_list_refines]).

    Completions.  CqProps: the ring is a queue ([cq_fifo]).  CqClean: cleaning removes exactly
    the entries of a queue that goes away.  CqPollProps: who holds the lock in a polling
    session, and the table of functions.  CqLazy: the two polling interfaces report the same
    completions ([lazy_poll_matches_eager], relational triples [Rel] over computations that
    are [Blind] to the interface).  CqTerm: parsing stops within a lap of the ring.

    Objects.  Table: the tables refine finite maps.  OpsProps: which functions a table gets, and
    what binding a memory window posts.

    Memory.  DbrecProps, DbrecSpec: doorbell records in use lie apart, both operations end.
    BufProps: the order of a block is the logarithm rounded up, chunks are taken first-fit.
    BufSpec: buffers of huge pages lie apart and nothing leaks ([huge_bufs_apart], rule induction
    over [huge_reach]).  BufOrder: which allocator a buffer comes from and goes back to.
    BitmapProps, BitmapOps: the words of ccan's bitmaps against single bits.  BuddyProps, BuddySpec: the
    buddy allocator refines a set of blocks.  IcmPoolProps, IcmPoolSpec: chunks of steering
    memory lie apart over every interleaving of threads with a synchronisation, and a
    synchronisation returns what was freed.

    User-space device.  IntervalProps: the list of free ranges is a set of addresses
    ([interval_set_refines]).  VfioProps: in every reachable state the pages lent to the firmware
    are mapped to one place and in no other use ([vfio_pages_apart], rule induction over
    [vfio_step]).  VfioMsg: the device reads through its own addresses what the driver wrote, and
    the driver gets what the device answered ([command_roundtrip]).  VfioEvents: a page request
    lends all of its pages or none ([give_pages_exact]), which entries of the event queue are events
    ([event_owned_exact]), what failures leave behind ([failed_enlarge_dangles],
    [failed_completion_strands]).

    Theorems named [.._overruns], [.._faults], [.._loses_..], [.._misses] and the like state
    where the code leaves its intent, with the input that shows it.

    ** Bounds and fuel

    [bf_fuel] bounds the BlueFlame copy by the size of an element, [find_page] and
    [search_page] by the number of pages, [parse_fuel] the passes of [mlx5_parse_cqe] by the
    entries of the ring and one ([CqTerm.parse_terminates]: more changes nothing), the loops of
    Cancel by the blocks of the ring; each is shown to be enough where a theorem says that the
    code returns.  The search of [get_route] gets as many passes as there are switches less one,
    the searches of Buf one round per bit, the loop over orders of contiguous pages 32 rounds
    (it makes at most 12).  [mlx5_vfio_alloc_page] gets two rounds, since a new block has a free page
    ([alloc_page_spec]); the copies over mailboxes get a round per byte and copy one or more; the
    chains of mailboxes one per mailbox.  Counters are kept at their width; rings have a power of two elements as
    creation makes them.

    ** Not modelled

    The spin locks of QPs and SRQs: one thread is inside a queue at a time (the lock of a
    completion queue is a flag, since sessions hold it across calls; the poller that frees
    send elements while a post runs appears as the tails each overflow check reads).  Answers
    of the kernel, of allocators, of clocks and of [inet_ntop] are arguments.  Debug output and
    code compiled only with MLX5_DEBUG change nothing and are left out.  The kernel interface
    (the rest of verbs.c and mlx5.c), the set-up and the verbs of mlx5_vfio.c, steering above its memory, libibverbs, the
    other providers and the tools are unchanged from upstream.  Of the controller, the HTTP
    requests are output and the answers data, accepting connections in its second thread is
    left out; the route daemon is Python around a solver. *)

From stdpp Require Import base numbers list.
From stdpp Require Export options.
From Stdlib Require Export ZArith Lia Bool.

Declare Scope mlx5_scope.
Delimit Scope mlx5_scope with mlx5.
#[global] Open Scope Z_scope.

(** * Machine integers

    A C integer is a [Z]; the conversions below are the implicit and explicit
    casts of the source, written where the source performs them. *)

Definition u8 (x : Z) : Z := x mod 2 ^ 8.
Definition u16 (x : Z) : Z := x mod 2 ^ 16.
Definition u32 (x : Z) : Z := x mod 2 ^ 32.
Definition u64 (x : Z) : Z := x mod 2 ^ 64.
Definition s32 (x : Z) : Z := (x + 2 ^ 31) mod 2 ^ 32 - 2 ^ 31.
Definition s64 (x : Z) : Z := (x + 2 ^ 63) mod 2 ^ 64 - 2 ^ 63.

(** [flags & bit] used as a condition. *)
Definition has_flag (flags bit : Z) : bool := negb (Z.land flags bit =? 0).

(** [x << n] on an unsigned value that the source keeps in 64 bits or less. *)
Notation "x '.<<' n" := (Z.shiftl x n) (at level 40, left associativity) : mlx5_scope.
Notation "x '.|' y" := (Z.lor x y) (at level 50, left associativity) : mlx5_scope.
Notation "x '.&' y" := (Z.land x y) (at level 40, left associativity) : mlx5_scope.

Lemma u32_small x : 0 <= x < 2 ^ 32 -> u32 x = x.
Proof. apply Z.mod_small. Qed.

Lemma u32_range x : 0 <= u32 x < 2 ^ 32.
Proof. by apply Z.mod_pos_bound. Qed.

Lemma u32_add_l a b : u32 (u32 a + b) = u32 (a + b).
Proof. unfold u32. by rewrite Zplus_mod_idemp_l. Qed.

Lemma u32_add_r a b : u32 (a + u32 b) = u32 (a + b).
Proof. unfold u32. by rewrite Zplus_mod_idemp_r. Qed.

Lemma s32_small x : - 2 ^ 31 <= x < 2 ^ 31 -> s32 x = x.
Proof. intros ?. unfold s32. rewrite Z.mod_small; lia. Qed.

Lemma s32_range x : - 2 ^ 31 <= s32 x < 2 ^ 31.
Proof.
  unfold s32. pose proof (Z.mod_pos_bound (x + 2 ^ 31) (2 ^ 32) ltac:(lia)). lia.
Qed.

Lemma s64_small x : - 2 ^ 63 <= x < 2 ^ 63 -> s64 x = x.
Proof. intros ?. unfold s64. rewrite Z.mod_small; lia. Qed.

Lemma u64_small x : 0 <= x < 2 ^ 64 -> u64 x = x.
Proof. apply Z.mod_small. Qed.

Lemma u16_range x : 0 <= u16 x < 2 ^ 16.
Proof. by apply Z.mod_pos_bound. Qed.

Lemma u8_range x : 0 <= u8 x < 2 ^ 8.
Proof. by apply Z.mod_pos_bound. Qed.

(** Masking with [2^k - 1], the ring index of every queue of the driver. *)
Lemma land_pow2_pred x k : 0 <= k -> Z.land x (2 ^ k - 1) = x mod 2 ^ k.
Proof.
  intros ?. rewrite <- Z.land_ones by lia. f_equal.
  rewrite Z.ones_equiv. lia.
Qed.

Lemma land_pow2_bound x n k :
  0 <= k -> n = 2 ^ k -> 0 <= Z.land x (n - 1) < n.
Proof.
  intros ? ->. rewrite land_pow2_pred by done. apply Z.mod_pos_bound. lia.
Qed.

(** Packing a field of [k] bits below another *)
Lemma lor_shl_add x o k : 0 <= k -> 0 <= o < 2 ^ k -> Z.lor (Z.shiftl x k) o = x * 2 ^ k + o.
Proof.
  intros Hk Ho. assert (Z.land (Z.shiftl x k) o = 0) as E.
  { apply Z.bits_inj'. intros i Hi. rewrite Z.land_spec, Z.bits_0, Z.shiftl_spec by lia.
    destruct (Z.ltb_spec i k); [by rewrite Z.testbit_neg_r by lia|].
    destruct (Z.eq_dec o 0) as [->|]; [by rewrite Z.bits_0, andb_false_r|].
    rewrite (Z.bits_above_log2 o) by (try apply Z.lt_le_trans with k; try apply Z.log2_lt_pow2; lia).
    apply andb_false_r. }
  rewrite <- Z.lxor_lor, <- Z.add_nocarry_lxor by done. by rewrite Z.shiftl_mul_pow2.
Qed.

(** A ring of [2^k] slots with [k <= 32]: advancing a 32-bit counter that wraps
    moves the slot index by one modulo the ring size. *)
Lemma ring_index_wrap x n k :
  0 <= k <= 32 -> Z.land (u32 (x + n)) (2 ^ k - 1) = (x + n) mod 2 ^ k.
Proof.
  intros ?. rewrite land_pow2_pred by lia. unfold u32.
  replace (2 ^ 32) with (2 ^ k * 2 ^ (32 - k))
    by (rewrite <- Z.pow_add_r by lia; f_equal; lia).
  rewrite Z.rem_mul_r by lia.
  rewrite Z.mul_comm, Z.mod_add by lia. by apply Z.mod_mod; lia.
Qed.

(** * Arithmetic helpers of util/util.h *)

(** [align(val, align)]: unsigned long arithmetic. *)
Definition align (val a : Z) : Z := Z.land (u64 (val + a - 1)) (u64 (Z.lnot (a - 1))).

(** [DIV_ROUND_UP(n, d)]. *)
Definition DIV_ROUND_UP (n d : Z) : Z := u64 (n + d - 1) / d.

Lemma u64_lnot_ones k : 0 <= k <= 64 -> u64 (Z.lnot (2 ^ k - 1)) = Z.shiftl (Z.ones (64 - k)) k.
Proof.
  intros ?. unfold u64, Z.lnot. rewrite Z.shiftl_mul_pow2, Z.ones_equiv by lia.
  replace ((Z.pred (2 ^ (64 - k))) * 2 ^ k) with (2 ^ 64 - 2 ^ k)
    by (rewrite <- Z.sub_1_r, Z.mul_sub_distr_r, <- Z.pow_add_r by lia; f_equal; [f_equal|]; lia).
  pose proof (Z.pow_le_mono_r 2 k 64). assert (0 < 2 ^ k) by (apply Z.pow_pos_nonneg; lia).
  symmetry. apply (Z.mod_unique_pos _ _ (-1)); lia.
Qed.

(** .. to a power of two, where the sum does not wrap *)
Lemma align_up v k :
  0 <= k <= 64 -> 0 <= v -> v + 2 ^ k - 1 < 2 ^ 64 -> align v (2 ^ k) = 2 ^ k * ((v + 2 ^ k - 1) / 2 ^ k).
Proof.
  intros Hk Hv Hs. unfold align. rewrite u64_lnot_ones by lia.
  assert (0 < 2 ^ k) by (apply Z.pow_pos_nonneg; lia).
  set (w := v + 2 ^ k - 1). unfold u64. rewrite (Z.mod_small w) by (unfold w; lia).
  assert (0 <= w < 2 ^ 64) as Hw by (unfold w; lia). clearbody w.
  replace (2 ^ k * (w / 2 ^ k)) with (Z.shiftl (Z.shiftr w k) k)
    by (rewrite Z.shiftl_mul_pow2, Z.shiftr_div_pow2 by lia; lia).
  apply Z.bits_inj'. intros i Hi. rewrite Z.land_spec, !Z.shiftl_spec by lia.
  destruct (Z.ltb_spec i k).
  - rewrite !(Z.testbit_neg_r _ (i - k)) by lia. by rewrite andb_false_r.
  - rewrite Z.shiftr_spec by lia. replace (i - k + k) with i by lia.
    destruct (Z.ltb_spec (i - k) (64 - k)).
    + rewrite Z.ones_spec_low by lia. by rewrite andb_true_r.
    + rewrite Z.ones_spec_high, andb_false_r by lia. symmetry.
      destruct (decide (w = 0)) as [->|]; [by rewrite Z.bits_0|].
      apply Z.bits_above_log2; [lia|]. apply Z.log2_lt_pow2; [lia|].
      apply Z.lt_le_trans with (2 ^ 64); [lia|]. apply Z.pow_le_mono_r; lia.
Qed.

Lemma align_pow2 v k :
  0 <= k <= 62 -> 0 <= v < 2 ^ 63 -> align v (2 ^ k) = 2 ^ k * ((v + 2 ^ k - 1) / 2 ^ k).
Proof. intros Hk Hv. assert (2 ^ k <= 2 ^ 62) by (apply Z.pow_le_mono_r; lia). apply align_up; lia. Qed.

Lemma align_16 v : 0 <= v < 2 ^ 63 -> align v 16 = 16 * ((v + 15) / 16).
Proof.
  intros ?. change (align v 16) with (align v (2 ^ 4)). rewrite align_pow2 by lia.
  change (2 ^ 4) with 16. do 2 f_equal. lia.
Qed.

Lemma align_4 v : 0 <= v < 2 ^ 63 -> align v 4 = 4 * ((v + 3) / 4).
Proof.
  intros ?. change (align v 4) with (align v (2 ^ 2)). rewrite align_pow2 by lia.
  change (2 ^ 2) with 4. do 2 f_equal. lia.
Qed.

Lemma align_64 v : 0 <= v < 2 ^ 63 -> align v 64 = 64 * ((v + 63) / 64).
Proof.
  intros ?. change (align v 64) with (align v (2 ^ 6)). rewrite align_pow2 by lia.
  change (2 ^ 6) with 64. do 2 f_equal. lia.
Qed.

Lemma DIV_ROUND_UP_64 v :
  0 <= v < 2 ^ 63 -> DIV_ROUND_UP v 64 = (v + 63) / 64.
Proof.
  intros ?. unfold DIV_ROUND_UP, u64.
  replace (v + 64 - 1) with (v + 63) by lia. rewrite Z.mod_small; lia.
Qed.

(** ccan's [ilog32] and [ilog64]: the number of bits of the argument *)
Definition ilog (v : Z) : Z := if v =? 0 then 0 else Z.log2 v + 1.
Definition roundup_pow_of_two (n : Z) : Z := if n =? 1 then 1 else u64 (Z.shiftl 1 (ilog (u64 (n - 1)))).

Lemma roundup_log2_up n : 1 <= n <= 2 ^ 62 -> roundup_pow_of_two n = 2 ^ Z.log2_up n.
Proof.
  intros Hn. unfold roundup_pow_of_two. destruct (Z.eqb_spec n 1) as [->|]; [done|].
  assert (Hl : 0 <= Z.log2_up n <= 62) by (split; [apply Z.log2_up_nonneg|apply Z.log2_up_le_pow2; lia]).
  rewrite (u64_small (n - 1)) by lia. unfold ilog. rewrite (proj2 (Z.eqb_neq _ _)) by lia.
  rewrite Z.log2_up_eqn in * by lia. rewrite <- Z.sub_1_r in *.
  replace (Z.log2 (n - 1) + 1) with (Z.succ (Z.log2 (n - 1))) by lia. rewrite Z.shiftl_mul_pow2, Z.mul_1_l by lia.
  apply u64_small. split; [apply Z.pow_nonneg; lia|]. apply Z.pow_lt_mono_r; lia.
Qed.

Lemma ilog_ones k : 1 <= k -> ilog (2 ^ k - 1) = k.
Proof.
  intros Hk. unfold ilog. assert (2 ^ 1 <= 2 ^ k) by (apply Z.pow_le_mono_r; lia).
  rewrite (proj2 (Z.eqb_neq _ _)) by lia. rewrite Z.sub_1_r, Z.log2_pred_pow2 by lia. lia.
Qed.

(** Sizes that are powers of two and fit an [int] *)
Lemma size_small k : 0 <= k <= 30 -> s32 (2 ^ k) = 2 ^ k /\ 1 <= 2 ^ k <= 2 ^ 30.
Proof.
  intros Hk. assert (2 ^ 0 <= 2 ^ k <= 2 ^ 30) by (split; apply Z.pow_le_mono_r; lia).
  split; [apply s32_small|]; lia.
Qed.

(** * Arrays

    A C array of integers is a list; [aget]/[aset] are the reads and writes at
    an index the callers keep in range. *)

Definition aget (l : list Z) (i : Z) : Z := nth (Z.to_nat i) l 0.
Definition aset (l : list Z) (i v : Z) : list Z := <[Z.to_nat i := v]> l.

Lemma length_aset l i v : length (aset l i v) = length l.
Proof. apply length_insert. Qed.

Lemma aget_lookup l i x : l !! Z.to_nat i = Some x -> aget l i = x.
Proof. intros H. unfold aget. by apply nth_lookup_Some. Qed.

Lemma aget_aset_eq l i v :
  0 <= i < Z.of_nat (length l) -> aget (aset l i v) i = v.
Proof.
  intros ?. apply aget_lookup. apply list_lookup_insert_eq. lia.
Qed.

Lemma aget_aset_ne l i j v :
  0 <= i -> 0 <= j -> i <> j -> aget (aset l i v) j = aget l j.
Proof.
  intros ???. unfold aget, aset. rewrite !nth_lookup.
  by rewrite list_lookup_insert_ne by lia.
Qed.

(** * Sums *)

Definition sumZ {A} (f : A -> Z) (l : list A) : Z := foldr (fun x s => f x + s) 0 l.

Lemma sumZ_app {A} (f : A -> Z) l1 l2 : sumZ f (l1 ++ l2) = sumZ f l1 + sumZ f l2.
Proof. induction l1 as [|x l1 IH]; simpl; [done|]. rewrite IH. lia. Qed.

Lemma sumZ_nonneg {A} (f : A -> Z) l : Forall (fun x => 0 <= f x) l -> 0 <= sumZ f l.
Proof. induction 1; simpl; lia. Qed.

(** A C accumulation loop over a list computes the mathematical sum as long as
    the sum fits the accumulator. *)
Lemma fold_wrap_sum {A} (wrap : Z -> Z) (B : Z) (f : A -> Z) l acc :
  (forall x, 0 <= x < B -> wrap x = x) ->
  0 <= acc -> Forall (fun x => 0 <= f x) l -> acc + sumZ f l < B ->
  fold_left (fun a x => wrap (a + f x)) l acc = acc + sumZ f l.
Proof.
  intros Hw. revert acc. induction l as [|x l IH]; intros acc ? Hl Hb; simpl in *; [lia|].
  apply Forall_cons in Hl as [Hx Hl]. pose proof (sumZ_nonneg f l Hl).
  rewrite Hw by lia. rewrite IH; [lia|lia|done|lia].
Qed.

(** * Proof automation *)

Create HintDb mlx5.
Create Rewrite HintDb mlx5.
#[export] Hint Rewrite length_aset : mlx5.
#[export] Hint Resolve u32_range s32_range u16_range u8_range : mlx5.

(** Case analysis on the boolean conditions of translated code; the comparison
    facts stay in the boolean form that [lia] reads. *)
Ltac destruct_ifs :=
  repeat match goal with
  | |- context [if ?b then _ else _] => destruct b eqn:?
  end.

Ltac destruct_ifs_in H :=
  repeat match type of H with
  | context [if ?b then _ else _] => destruct b eqn:?
  end.

(** Drop the conversions whose argument [lia] shows to be in range. *)
Ltac wrap_solve :=
  repeat match goal with
  | |- context [u64 ?x] => rewrite (u64_small x) by lia
  | |- context [u32 ?x] => rewrite (u32_small x) by lia
  | |- context [s64 ?x] => rewrite (s64_small x) by lia
  | |- context [s32 ?x] => rewrite (s32_small x) by lia
  end.

(** [lia] on goals with [/] and [mod] by constants *)
Ltac div_lia := Z.to_euclidean_division_equations; lia.
