(* ===== verification/Mem.v ===== *)
(** Byte memory of the process.

    The driver builds work-queue elements by storing big-endian fields at byte
    addresses of a queue buffer, and copies user data with [memcpy].  Memory is a
    total map from addresses to bytes, a pointer is an address; the stores below
    are the assignments [p->field = htobeNN(v)] and the libc calls of the source.
    A store changes exactly the bytes it names, so "never writes outside the
    queue" is a statement about all other addresses.

    Two memories are equal when they agree on every address ([meq]); every
    operation is [Proper] for that equivalence. *)

From stdpp Require Import base numbers list.
From S2P Require Import Prelude.

Definition mem : Type := Z -> Z.

(** Big-endian store of the low [n] bytes of [v] at [p]. *)
Definition store_be (n : nat) (p v : Z) (m : mem) : mem := fun a =>
  if (p <=? a) && (a <? p + Z.of_nat n)
  then Z.land (Z.shiftr v (8 * (p + Z.of_nat n - 1 - a))) 255
  else m a.
Arguments store_be n%_nat p v m : simpl never.

(** Big-endian load of [n] bytes at [p]. *)
Fixpoint load_be (n : nat) (p : Z) (m : mem) : Z :=
  match n with
  | O => 0
  | S k => m p * 2 ^ (8 * Z.of_nat k) + load_be k (p + 1) m
  end.
Arguments load_be n%_nat p m : simpl never.

(** [memset(p, c, n)] and [memcpy(dst, src, n)]. *)
Definition memset (p c n : Z) (m : mem) : mem := fun a =>
  if (p <=? a) && (a <? p + n) then u8 c else m a.
Definition memcpy (dst src n : Z) (m : mem) : mem := fun a =>
  if (dst <=? a) && (a <? dst + n) then m (src + (a - dst)) else m a.
Arguments memset p c n m : simpl never.
Arguments memcpy dst src n m : simpl never.

(** * Equality of memories *)

Definition meq (m1 m2 : mem) : Prop := forall a, m1 a = m2 a.
Infix "=m=" := meq (at level 70) : mlx5_scope.
Open Scope mlx5_scope.

#[global] Instance meq_equivalence : Equivalence meq.
Proof.
  split; [by intros ?? | by intros ??? a; symmetry | intros x y z H1 H2 a].
  by rewrite H1.
Qed.

#[global] Instance store_be_proper n p v : Proper (meq ==> meq) (store_be n p v).
Proof. intros ?? E a. unfold store_be. by rewrite E. Qed.

#[global] Instance memset_proper p c n : Proper (meq ==> meq) (memset p c n).
Proof. intros ?? E a. unfold memset. by rewrite E. Qed.

#[global] Instance memcpy_proper d s n : Proper (meq ==> meq) (memcpy d s n).
Proof. intros ?? E a. unfold memcpy. by rewrite !E. Qed.

(** A load reads only its own bytes. *)
Lemma load_be_ext n p m1 m2 :
  (forall a, p <= a < p + Z.of_nat n -> m1 a = m2 a) ->
  load_be n p m1 = load_be n p m2.
Proof.
  revert p. induction n as [|n IH]; intros p E; [done|].
  unfold load_be; fold load_be. rewrite E by lia. f_equal.
  apply IH. intros a ?. apply E. lia.
Qed.

#[global] Instance load_be_proper n p : Proper (meq ==> eq) (load_be n p).
Proof. intros ?? E. apply load_be_ext. intros; apply E. Qed.

(** * Loads after stores *)

Lemma land_255 x : Z.land x 255 = x mod 2 ^ 8.
Proof. change 255 with (2 ^ 8 - 1). apply land_pow2_pred. lia. Qed.

Lemma load_store_suffix k n p v m :
  (k <= n)%nat ->
  load_be k (p + Z.of_nat n - Z.of_nat k) (store_be n p v m) = v mod 2 ^ (8 * Z.of_nat k).
Proof.
  induction k as [|k IH]; intros Hk.
  { simpl. by rewrite Z.mod_1_r. }
  unfold load_be; fold load_be.
  replace (p + Z.of_nat n - Z.of_nat (S k) + 1) with (p + Z.of_nat n - Z.of_nat k) by lia.
  rewrite IH by lia. unfold store_be.
  rewrite (proj2 (Z.leb_le _ _)), (proj2 (Z.ltb_lt _ _)) by lia. simpl andb. cbv iota.
  replace (p + Z.of_nat n - 1 - (p + Z.of_nat n - Z.of_nat (S k))) with (Z.of_nat k) by lia.
  rewrite land_255, Z.shiftr_div_pow2 by lia.
  replace (8 * Z.of_nat (S k)) with (8 * Z.of_nat k + 8) by lia.
  rewrite (Z.pow_add_r 2) by lia. rewrite Z.rem_mul_r by lia. lia.
Qed.

Lemma load_store_same n p v m :
  load_be n p (store_be n p v m) = v mod 2 ^ (8 * Z.of_nat n).
Proof.
  rewrite <- (load_store_suffix n n p v m) by lia. f_equal. lia.
Qed.

(** Bytes outside the window of a write. *)
Lemma store_be_outside n p v m a :
  a < p \/ p + Z.of_nat n <= a -> store_be n p v m a = m a.
Proof. intros ?. unfold store_be. destruct_ifs; [lia|done]. Qed.

Lemma memset_outside p c n m a : a < p \/ p + n <= a -> memset p c n m a = m a.
Proof. intros ?. unfold memset. destruct_ifs; [lia|done]. Qed.

Lemma memcpy_outside d s n m a : a < d \/ d + n <= a -> memcpy d s n m a = m a.
Proof. intros ?. unfold memcpy. destruct_ifs; [lia|done]. Qed.

Lemma memcpy_inside d s n m a : d <= a < d + n -> memcpy d s n m a = m (s + (a - d)).
Proof. intros ?. unfold memcpy. destruct_ifs; [done|lia]. Qed.

Lemma memcpy_nonpos d s n m : n <= 0 -> memcpy d s n m =m= m.
Proof. intros ? a. apply memcpy_outside. lia. Qed.

Lemma load_store_other n p n' p' v m :
  p + Z.of_nat n <= p' \/ p' + Z.of_nat n' <= p ->
  load_be n p (store_be n' p' v m) = load_be n p m.
Proof. intros ?. apply load_be_ext. intros. apply store_be_outside. lia. Qed.

Lemma load_memset_other n p p' c k m :
  p + Z.of_nat n <= p' \/ p' + k <= p ->
  load_be n p (memset p' c k m) = load_be n p m.
Proof. intros ?. apply load_be_ext. intros. apply memset_outside. lia. Qed.

Lemma load_memcpy_other n p d s k m :
  p + Z.of_nat n <= d \/ d + k <= p ->
  load_be n p (memcpy d s k m) = load_be n p m.
Proof. intros ?. apply load_be_ext. intros. apply memcpy_outside. lia. Qed.

Lemma load_memset_zero n p p' k m :
  p' <= p -> p + Z.of_nat n <= p' + k -> load_be n p (memset p' 0 k m) = 0.
Proof.
  revert p. induction n as [|n IH]; intros p ??; [done|].
  unfold load_be; fold load_be. rewrite IH by lia.
  unfold memset. destruct_ifs; [|lia]. change (u8 0) with 0. lia.
Qed.

(** [load_solve] normalises a load over a stack of writes whose windows [lia]
    can compare. *)
Ltac load_step :=
  first
    [ rewrite load_store_same
    | rewrite load_store_other by lia
    | rewrite load_memset_other by lia
    | rewrite load_memcpy_other by lia
    | rewrite load_memset_zero by lia ].
Ltac load_solve := repeat load_step.

(** [outside_solve] does the same for one byte outside every window. *)
Ltac outside_step :=
  first
    [ rewrite store_be_outside by lia
    | rewrite memset_outside by lia
    | rewrite memcpy_outside by lia ].
Ltac outside_solve := repeat outside_step.

(** * Windows

    [Writes f lo hi]: the memory transformer [f] changes no byte outside
    [lo, hi).  The hints cover the primitive writes, sequencing and conditionals,
    with [lia] for the bounds, so that [eauto with writes] finds the footprint of
    a segment writer. *)
Class Writes (f : mem -> mem) (lo hi : Z) : Prop :=
  writes_outside : forall m a, a < lo \/ hi <= a -> f m a = m a.

Lemma Writes_weaken f lo hi lo' hi' :
  Writes f lo hi -> lo' <= lo -> hi <= hi' -> Writes f lo' hi'.
Proof. intros H ?? m a ?. apply H. lia. Qed.

Lemma Writes_id lo hi : Writes (fun m => m) lo hi.
Proof. by intros m a ?. Qed.

Lemma Writes_store n p v lo hi :
  lo <= p -> p + Z.of_nat n <= hi -> Writes (store_be n p v) lo hi.
Proof. intros ?? m a ?. apply store_be_outside. lia. Qed.

Lemma Writes_memset p c n lo hi : lo <= p -> p + n <= hi -> Writes (memset p c n) lo hi.
Proof. intros ?? m a ?. apply memset_outside. lia. Qed.

Lemma Writes_memcpy d s n lo hi : lo <= d -> d + n <= hi -> Writes (memcpy d s n) lo hi.
Proof. intros ?? m a ?. apply memcpy_outside. lia. Qed.

Lemma Writes_compose f g lo hi :
  Writes f lo hi -> Writes g lo hi -> Writes (fun m => g (f m)) lo hi.
Proof. intros Hf Hg m a ?. rewrite Hg by lia. by apply Hf. Qed.

Lemma Writes_if (b : bool) f g lo hi :
  (b = true -> Writes f lo hi) -> (b = false -> Writes g lo hi) ->
  Writes (fun m => if b then f m else g m) lo hi.
Proof. destruct b; intros Hf Hg m a ?; [by apply Hf | by apply Hg]. Qed.

Create HintDb writes discriminated.
#[export] Hint Resolve Writes_id Writes_store Writes_memset Writes_memcpy
  Writes_compose Writes_if : writes.
#[export] Hint Extern 1 (_ <= _) => lia : writes.

(** Two writes with disjoint windows commute when neither reads the other. *)
Lemma store_store_comm n p v n' p' v' m :
  p + Z.of_nat n <= p' \/ p' + Z.of_nat n' <= p ->
  store_be n p v (store_be n' p' v' m) =m= store_be n' p' v' (store_be n p v m).
Proof. intros ? a. unfold store_be. destruct_ifs; (done || lia). Qed.

(** The [i]-th byte from the left of an [n]-byte big-endian store. *)
Lemma store_be_inside n p v m a :
  p <= a < p + Z.of_nat n ->
  store_be n p v m a = (v / 2 ^ (8 * (p + Z.of_nat n - 1 - a))) mod 2 ^ 8.
Proof.
  intros ?. unfold store_be. destruct_ifs; [|lia].
  by rewrite land_255, Z.shiftr_div_pow2 by lia.
Qed.
