(* ===== verification/Types.v ===== *)
(** Data types and constants of the verbs API and of the mlx5 provider.

    Enumerations whose values the code compares numerically, masks or stores in
    integers (opcodes, flags, QP types, states) are [Z] constants with the values
    of the headers (libibverbs/verbs.h, providers/mlx5/mlx5dv.h, mlx5.h, wqe.h).
    Segment sizes and field offsets are those of the packed structures of
    mlx5dv.h and wqe.h. *)

From stdpp Require Import base numbers list.
From S2P Require Import Prelude Mem.

(** * libibverbs/verbs.h *)

(** [enum ibv_wr_opcode] *)
Definition IBV_WR_RDMA_WRITE : Z := 0.
Definition IBV_WR_RDMA_WRITE_WITH_IMM : Z := 1.
Definition IBV_WR_SEND : Z := 2.
Definition IBV_WR_SEND_WITH_IMM : Z := 3.
Definition IBV_WR_RDMA_READ : Z := 4.
Definition IBV_WR_ATOMIC_CMP_AND_SWP : Z := 5.
Definition IBV_WR_ATOMIC_FETCH_AND_ADD : Z := 6.
Definition IBV_WR_LOCAL_INV : Z := 7.
Definition IBV_WR_BIND_MW : Z := 8.
Definition IBV_WR_SEND_WITH_INV : Z := 9.
Definition IBV_WR_TSO : Z := 10.
Definition IBV_WR_DRIVER1 : Z := 11.

(** [enum ibv_send_flags] *)
Definition IBV_SEND_FENCE : Z := 1.
Definition IBV_SEND_SIGNALED : Z := 2.
Definition IBV_SEND_SOLICITED : Z := 4.
Definition IBV_SEND_INLINE : Z := 8.
Definition IBV_SEND_IP_CSUM : Z := 16.

(** [enum ibv_qp_type] *)
Definition IBV_QPT_RC : Z := 2.
Definition IBV_QPT_UC : Z := 3.
Definition IBV_QPT_UD : Z := 4.
Definition IBV_QPT_RAW_PACKET : Z := 8.
Definition IBV_QPT_XRC_SEND : Z := 9.
Definition IBV_QPT_XRC_RECV : Z := 10.
Definition IBV_QPT_DRIVER : Z := 255.

(** [enum ibv_qp_state] *)
Definition IBV_QPS_RESET : Z := 0.
Definition IBV_QPS_INIT : Z := 1.
Definition IBV_QPS_RTR : Z := 2.
Definition IBV_QPS_RTS : Z := 3.

(** [enum ibv_mtu] *)
Definition IBV_MTU_256 : Z := 1.
Definition IBV_MTU_512 : Z := 2.
Definition IBV_MTU_1024 : Z := 3.
Definition IBV_MTU_2048 : Z := 4.
Definition IBV_MTU_4096 : Z := 5.

(** [enum ibv_access_flags], [enum ibv_mw_type] *)
Definition IBV_ACCESS_LOCAL_WRITE : Z := 1.
Definition IBV_ACCESS_REMOTE_WRITE : Z := 2.
Definition IBV_ACCESS_REMOTE_READ : Z := 4.
Definition IBV_ACCESS_REMOTE_ATOMIC : Z := 8.
Definition IBV_ACCESS_ZERO_BASED : Z := 32.
Definition IBV_MW_TYPE_1 : Z := 1.
Definition IBV_MW_TYPE_2 : Z := 2.
Definition IBV_MR_TYPE_MR : Z := 0.

(** [enum ibv_wc_status] and [enum ibv_wc_opcode] *)
Definition IBV_WC_SUCCESS : Z := 0.
Definition IBV_WC_LOC_LEN_ERR : Z := 1.
Definition IBV_WC_REM_INV_REQ_ERR : Z := 9.
Definition IBV_WC_GENERAL_ERR : Z := 21.
Definition IBV_WC_SEND : Z := 0.
Definition IBV_WC_RDMA_WRITE : Z := 1.
Definition IBV_WC_RDMA_READ : Z := 2.
Definition IBV_WC_COMP_SWAP : Z := 3.
Definition IBV_WC_FETCH_ADD : Z := 4.
Definition IBV_WC_BIND_MW : Z := 5.
Definition IBV_WC_LOCAL_INV : Z := 6.
Definition IBV_WC_TSO : Z := 7.
Definition IBV_WC_DRIVER1 : Z := 135.
Definition IBV_WC_DRIVER2 : Z := 136.
Definition IBV_WC_DRIVER3 : Z := 137.

(** errno values returned by the data path *)
Definition ENOENT : Z := 2.
Definition ENOMEM : Z := 12.
Definition EINVAL : Z := 22.
Definition EOPNOTSUPP : Z := 95.

(** [struct ibv_sge] *)
Record ibv_sge : Type := mk_sge { sge_addr : Z; sge_length : Z; sge_lkey : Z }.

(** [struct ibv_data_buf] *)
Record ibv_data_buf : Type := mk_buf { dbuf_addr : Z; dbuf_length : Z }.

(** [struct ibv_mr] with the [mr_type] of its [struct verbs_mr] and the
    [alloc_flags] of its [struct mlx5_mr] *)
Record ibv_mr : Type := mk_mr { mr_lkey : Z; mr_type : Z; mr_alloc_flags : Z }.

(** [struct ibv_mw_bind_info]; [bi_mr] is null or a region *)
Record ibv_mw_bind_info : Type := mk_bind_info {
  bi_mr : option ibv_mr;
  bi_addr : Z;
  bi_length : Z;
  bi_access_flags : Z
}.

(** [struct ibv_mw] *)
Record ibv_mw : Type := mk_mw { mw_rkey : Z; mw_type : Z }.

(** [struct ibv_send_wr].  The chain through [next] is a list of these; the
    [num_sge] entries of [sg_list] are the list [sg_list].  The unions are laid
    out as separate fields, of which the code reads the ones its opcode selects;
    [ud_av] is the address of the [struct mlx5_wqe_av] of the address handle. *)
Record ibv_send_wr : Type := mk_wr {
  wr_id : Z;
  sg_list : list ibv_sge;
  opcode : Z;
  send_flags : Z;
  imm_data : Z;
  invalidate_rkey : Z;
  rdma_remote_addr : Z;
  rdma_rkey : Z;
  atomic_remote_addr : Z;
  atomic_compare_add : Z;
  atomic_swap : Z;
  atomic_rkey : Z;
  ud_av : Z;
  ud_remote_qpn : Z;
  ud_remote_qkey : Z;
  xrc_remote_srqn : Z;
  bind_mw : ibv_mw;
  bind_rkey : Z;
  bind_info : ibv_mw_bind_info;
  tso_hdr : Z;
  tso_hdr_sz : Z;
  tso_mss : Z
}.

Definition num_sge (wr : ibv_send_wr) : Z := Z.of_nat (length (sg_list wr)).

(** [wr->sg_list[i]] for an index below [num_sge] *)
Definition sge_at (l : list ibv_sge) (i : Z) : ibv_sge :=
  nth (Z.to_nat i) l (mk_sge 0 0 0).

(** [struct ibv_recv_wr] *)
Record ibv_recv_wr : Type := mk_rwr { rwr_id : Z; rwr_sg_list : list ibv_sge }.

Definition rwr_num_sge (wr : ibv_recv_wr) : Z := Z.of_nat (length (rwr_sg_list wr)).

(** * providers/mlx5: opcodes, control bits, sizes *)

Definition MLX5_OPCODE_NOP : Z := 0x00.
Definition MLX5_OPCODE_SEND_INVAL : Z := 0x01.
Definition MLX5_OPCODE_RDMA_WRITE : Z := 0x08.
Definition MLX5_OPCODE_RDMA_WRITE_IMM : Z := 0x09.
Definition MLX5_OPCODE_SEND : Z := 0x0a.
Definition MLX5_OPCODE_SEND_IMM : Z := 0x0b.
Definition MLX5_OPCODE_TSO : Z := 0x0e.
Definition MLX5_OPCODE_RDMA_READ : Z := 0x10.
Definition MLX5_OPCODE_ATOMIC_CS : Z := 0x11.
Definition MLX5_OPCODE_ATOMIC_FA : Z := 0x12.
Definition MLX5_OPCODE_SET_PSV : Z := 0x20.
Definition MLX5_OPCODE_UMR : Z := 0x25.
Definition MLX5_OPCODE_TAG_MATCHING : Z := 0x28.
Definition MLX5_OPCODE_MMO : Z := 0x2f.

Definition MLX5_INVALID_LKEY : Z := 0x100.
Definition MLX5_EXTENDED_UD_AV : Z := 0x80000000.
Definition MLX5_INLINE_SEG : Z := 0x80000000.
Definition MLX5_WQE_CTRL_CQ_UPDATE : Z := 8.
Definition MLX5_WQE_CTRL_SOLICITED : Z := 2.
Definition MLX5_WQE_CTRL_FENCE : Z := 128.
Definition MLX5_WQE_CTRL_INITIATOR_SMALL_FENCE : Z := 32.
Definition MLX5_SEND_WQE_BB : Z := 64.
Definition MLX5_SEND_WQE_SHIFT : Z := 6.
Definition MLX5_ETH_WQE_L3_CSUM : Z := 64.
Definition MLX5_ETH_WQE_L4_CSUM : Z := 128.
Definition MLX5_RCV_DBR : Z := 0.
Definition MLX5_SND_DBR : Z := 1.
Definition MLX5_QP_FLAGS_USE_UNDERLAY : Z := 1.
Definition MLX5_CSUM_SUPPORT_RAW_OVER_ETH : Z := 1.
Definition MLX5_CSUM_SUPPORT_UNDERLAY_UD : Z := 2.
Definition MLX5_IPOIB_INLINE_MIN_HEADER_SIZE : Z := 4.
Definition MLX5_SOURCE_QPN_INLINE_MAX_HEADER_SIZE : Z := 18.
Definition MLX5_ETH_L2_INLINE_HEADER_SIZE : Z := 18.
Definition MLX5_ETH_L2_MIN_HEADER_SIZE : Z := 14.

Definition MLX5_WQE_UMR_CTRL_FLAG_INLINE : Z := 2 ^ 7.
Definition MLX5_WQE_UMR_CTRL_FLAG_CHECK_FREE : Z := 2 ^ 5.
Definition MLX5_WQE_UMR_CTRL_FLAG_TRNSLATION_OFFSET : Z := 2 ^ 4.
Definition MLX5_WQE_UMR_CTRL_FLAG_CHECK_QPN : Z := 2 ^ 3.
Definition MLX5_WQE_UMR_CTRL_MKEY_MASK_LEN : Z := 2 ^ 0.
Definition MLX5_WQE_UMR_CTRL_MKEY_MASK_START_ADDR : Z := 2 ^ 6.
Definition MLX5_WQE_UMR_CTRL_MKEY_MASK_SIG_ERR : Z := 2 ^ 9.
Definition MLX5_WQE_UMR_CTRL_MKEY_MASK_BSF_ENABLE : Z := 2 ^ 12.
Definition MLX5_WQE_UMR_CTRL_MKEY_MASK_MKEY : Z := 2 ^ 13.
Definition MLX5_WQE_UMR_CTRL_MKEY_MASK_QPN : Z := 2 ^ 14.
Definition MLX5_WQE_UMR_CTRL_MKEY_MASK_ACCESS_LOCAL_WRITE : Z := 2 ^ 18.
Definition MLX5_WQE_UMR_CTRL_MKEY_MASK_ACCESS_REMOTE_READ : Z := 2 ^ 19.
Definition MLX5_WQE_UMR_CTRL_MKEY_MASK_ACCESS_REMOTE_WRITE : Z := 2 ^ 20.
Definition MLX5_WQE_UMR_CTRL_MKEY_MASK_ACCESS_ATOMIC : Z := 2 ^ 21.
Definition MLX5_WQE_UMR_CTRL_MKEY_MASK_FREE : Z := 2 ^ 29.
Definition MLX5_WQE_MKEY_CONTEXT_FREE : Z := 2 ^ 6.
Definition MLX5_WQE_MKEY_CONTEXT_ACCESS_FLAGS_ATOMIC : Z := 2 ^ 6.
Definition MLX5_WQE_MKEY_CONTEXT_ACCESS_FLAGS_REMOTE_WRITE : Z := 2 ^ 5.
Definition MLX5_WQE_MKEY_CONTEXT_ACCESS_FLAGS_REMOTE_READ : Z := 2 ^ 4.
Definition MLX5_WQE_MKEY_CONTEXT_ACCESS_FLAGS_LOCAL_WRITE : Z := 2 ^ 3.

(** [sizeof] of the segment structures *)
Definition sizeof_ctrl_seg : Z := 16.
Definition sizeof_xrc_seg : Z := 16.
Definition sizeof_raddr_seg : Z := 16.
Definition sizeof_atomic_seg : Z := 16.
Definition sizeof_data_seg : Z := 16.
Definition sizeof_inline_seg : Z := 4.
Definition sizeof_datagram_seg : Z := 48.
Definition sizeof_eth_pad : Z := 16.
Definition sizeof_eth_seg : Z := 32.
Definition sizeof_umr_ctrl_seg : Z := 48.
Definition sizeof_mkey_context_seg : Z := 64.
Definition sizeof_tm_seg : Z := 32.

(** [struct mlx5_sg_copy_ptr] *)
Record mlx5_sg_copy_ptr : Type := mk_scp { scp_index : Z; scp_offset : Z }.

(** [struct mlx5_bf]: the BlueFlame register of a QP *)
Record mlx5_bf : Type := mk_bf {
  bf_reg : Z;
  bf_need_lock : bool;
  bf_offset : Z;
  bf_buf_size : Z;
  bf_uuarn : Z
}.

Definition set_bf_offset (v : Z) (b : mlx5_bf) : mlx5_bf :=
  mk_bf (bf_reg b) (bf_need_lock b) v (bf_buf_size b) (bf_uuarn b).

(** The fields of [struct mlx5_context] the data path reads *)
Record mlx5_context : Type := mk_ctx {
  eth_min_inline_size : Z;
  prefer_bf : bool;
  shut_up_bf : bool;
  dump_fill_mkey : Z;
  dma_max_size : Z
}.

(** [struct mlx5_wq]: one work queue.  [wrid], [wqe_head] and [wr_data] are the
    per-slot arrays, of [wqe_cnt] entries; [qend] is the end address of the ring. *)
Record mlx5_wq : Type := mk_wq {
  wrid : list Z;
  wqe_head : list Z;
  wqe_cnt : Z;
  max_post : Z;
  wq_head : Z;
  wq_tail : Z;
  cur_post : Z;
  max_gs : Z;
  wqe_shift : Z;
  wq_offset : Z;
  qend : Z;
  wr_data : list Z
}.

Definition set_wrid (v : list Z) (r : mlx5_wq) : mlx5_wq :=
  mk_wq v (wqe_head r) (wqe_cnt r) (max_post r) (wq_head r) (wq_tail r) (cur_post r)
    (max_gs r) (wqe_shift r) (wq_offset r) (qend r) (wr_data r).
Definition set_wqe_head (v : list Z) (r : mlx5_wq) : mlx5_wq :=
  mk_wq (wrid r) v (wqe_cnt r) (max_post r) (wq_head r) (wq_tail r) (cur_post r) (max_gs r)
    (wqe_shift r) (wq_offset r) (qend r) (wr_data r).
Definition set_wq_head (v : Z) (r : mlx5_wq) : mlx5_wq :=
  mk_wq (wrid r) (wqe_head r) (wqe_cnt r) (max_post r) v (wq_tail r) (cur_post r) (max_gs r)
    (wqe_shift r) (wq_offset r) (qend r) (wr_data r).
Definition set_wq_tail (v : Z) (r : mlx5_wq) : mlx5_wq :=
  mk_wq (wrid r) (wqe_head r) (wqe_cnt r) (max_post r) (wq_head r) v (cur_post r) (max_gs r)
    (wqe_shift r) (wq_offset r) (qend r) (wr_data r).
Definition set_cur_post (v : Z) (r : mlx5_wq) : mlx5_wq :=
  mk_wq (wrid r) (wqe_head r) (wqe_cnt r) (max_post r) (wq_head r) (wq_tail r) v (max_gs r)
    (wqe_shift r) (wq_offset r) (qend r) (wr_data r).
Definition set_wr_data (v : list Z) (r : mlx5_wq) : mlx5_wq :=
  mk_wq (wrid r) (wqe_head r) (wqe_cnt r) (max_post r) (wq_head r) (wq_tail r) (cur_post r)
    (max_gs r) (wqe_shift r) (wq_offset r) (qend r) v.

(** [struct mlx5_qp] with the fields of its [struct ibv_qp] ([qp_num], [qp_type],
    [qp_state]) and [struct ibv_qp_ex] ([ex_wr_id], [ex_wr_flags]) that the data path reads.
    A null pointer is 0; [cur_mkey] names an mkey of the mkey store. *)
Record mlx5_qp : Type := mk_qp {
  qp_num : Z;
  qp_type : Z;
  qp_state : Z;
  ex_wr_id : Z;
  ex_wr_flags : Z;
  qp_buf : Z;
  max_inline_data : Z;
  inl_wqe : bool;
  cur_setters_cnt : Z;
  num_mkey_setters : Z;
  fm_cache_rb : Z;
  err : Z;
  nreq : Z;
  cur_size : Z;
  cur_post_rb : Z;
  cur_eth : Z;
  cur_data : Z;
  cur_ctrl : Z;
  cur_mkey : option Z;
  fm_cache : Z;
  sq_signal_bits : Z;
  sq_start : Z;
  sq : mlx5_wq;
  qp_db : Z;
  rq : mlx5_wq;
  wq_sig : bool;
  qp_cap_cache : Z;
  atomics_enabled : bool;
  max_tso : Z;
  max_tso_header : Z;
  qp_flags : Z
}.

Definition set_ex_wr_id (v : Z) (r : mlx5_qp) : mlx5_qp :=
  mk_qp (qp_num r) (qp_type r) (qp_state r) v (ex_wr_flags r) (qp_buf r) (max_inline_data r)
    (inl_wqe r) (cur_setters_cnt r) (num_mkey_setters r) (fm_cache_rb r) (err r) (nreq r)
    (cur_size r) (cur_post_rb r) (cur_eth r) (cur_data r) (cur_ctrl r) (cur_mkey r)
    (fm_cache r) (sq_signal_bits r) (sq_start r) (sq r) (qp_db r) (rq r) (wq_sig r)
    (qp_cap_cache r) (atomics_enabled r) (max_tso r) (max_tso_header r) (qp_flags r).
Definition set_ex_wr_flags (v : Z) (r : mlx5_qp) : mlx5_qp :=
  mk_qp (qp_num r) (qp_type r) (qp_state r) (ex_wr_id r) v (qp_buf r) (max_inline_data r)
    (inl_wqe r) (cur_setters_cnt r) (num_mkey_setters r) (fm_cache_rb r) (err r) (nreq r)
    (cur_size r) (cur_post_rb r) (cur_eth r) (cur_data r) (cur_ctrl r) (cur_mkey r)
    (fm_cache r) (sq_signal_bits r) (sq_start r) (sq r) (qp_db r) (rq r) (wq_sig r)
    (qp_cap_cache r) (atomics_enabled r) (max_tso r) (max_tso_header r) (qp_flags r).
Definition set_inl_wqe (v : bool) (r : mlx5_qp) : mlx5_qp :=
  mk_qp (qp_num r) (qp_type r) (qp_state r) (ex_wr_id r) (ex_wr_flags r) (qp_buf r)
    (max_inline_data r) v (cur_setters_cnt r) (num_mkey_setters r) (fm_cache_rb r) (err r)
    (nreq r) (cur_size r) (cur_post_rb r) (cur_eth r) (cur_data r) (cur_ctrl r) (cur_mkey r)
    (fm_cache r) (sq_signal_bits r) (sq_start r) (sq r) (qp_db r) (rq r) (wq_sig r)
    (qp_cap_cache r) (atomics_enabled r) (max_tso r) (max_tso_header r) (qp_flags r).
Definition set_cur_setters_cnt (v : Z) (r : mlx5_qp) : mlx5_qp :=
  mk_qp (qp_num r) (qp_type r) (qp_state r) (ex_wr_id r) (ex_wr_flags r) (qp_buf r)
    (max_inline_data r) (inl_wqe r) v (num_mkey_setters r) (fm_cache_rb r) (err r) (nreq r)
    (cur_size r) (cur_post_rb r) (cur_eth r) (cur_data r) (cur_ctrl r) (cur_mkey r)
    (fm_cache r) (sq_signal_bits r) (sq_start r) (sq r) (qp_db r) (rq r) (wq_sig r)
    (qp_cap_cache r) (atomics_enabled r) (max_tso r) (max_tso_header r) (qp_flags r).
Definition set_num_mkey_setters (v : Z) (r : mlx5_qp) : mlx5_qp :=
  mk_qp (qp_num r) (qp_type r) (qp_state r) (ex_wr_id r) (ex_wr_flags r) (qp_buf r)
    (max_inline_data r) (inl_wqe r) (cur_setters_cnt r) v (fm_cache_rb r) (err r) (nreq r)
    (cur_size r) (cur_post_rb r) (cur_eth r) (cur_data r) (cur_ctrl r) (cur_mkey r)
    (fm_cache r) (sq_signal_bits r) (sq_start r) (sq r) (qp_db r) (rq r) (wq_sig r)
    (qp_cap_cache r) (atomics_enabled r) (max_tso r) (max_tso_header r) (qp_flags r).
Definition set_fm_cache_rb (v : Z) (r : mlx5_qp) : mlx5_qp :=
  mk_qp (qp_num r) (qp_type r) (qp_state r) (ex_wr_id r) (ex_wr_flags r) (qp_buf r)
    (max_inline_data r) (inl_wqe r) (cur_setters_cnt r) (num_mkey_setters r) v (err r)
    (nreq r) (cur_size r) (cur_post_rb r) (cur_eth r) (cur_data r) (cur_ctrl r) (cur_mkey r)
    (fm_cache r) (sq_signal_bits r) (sq_start r) (sq r) (qp_db r) (rq r) (wq_sig r)
    (qp_cap_cache r) (atomics_enabled r) (max_tso r) (max_tso_header r) (qp_flags r).
Definition set_err (v : Z) (r : mlx5_qp) : mlx5_qp :=
  mk_qp (qp_num r) (qp_type r) (qp_state r) (ex_wr_id r) (ex_wr_flags r) (qp_buf r)
    (max_inline_data r) (inl_wqe r) (cur_setters_cnt r) (num_mkey_setters r) (fm_cache_rb r) v
    (nreq r) (cur_size r) (cur_post_rb r) (cur_eth r) (cur_data r) (cur_ctrl r) (cur_mkey r)
    (fm_cache r) (sq_signal_bits r) (sq_start r) (sq r) (qp_db r) (rq r) (wq_sig r)
    (qp_cap_cache r) (atomics_enabled r) (max_tso r) (max_tso_header r) (qp_flags r).
Definition set_nreq (v : Z) (r : mlx5_qp) : mlx5_qp :=
  mk_qp (qp_num r) (qp_type r) (qp_state r) (ex_wr_id r) (ex_wr_flags r) (qp_buf r)
    (max_inline_data r) (inl_wqe r) (cur_setters_cnt r) (num_mkey_setters r) (fm_cache_rb r)
    (err r) v (cur_size r) (cur_post_rb r) (cur_eth r) (cur_data r) (cur_ctrl r) (cur_mkey r)
    (fm_cache r) (sq_signal_bits r) (sq_start r) (sq r) (qp_db r) (rq r) (wq_sig r)
    (qp_cap_cache r) (atomics_enabled r) (max_tso r) (max_tso_header r) (qp_flags r).
Definition set_cur_size (v : Z) (r : mlx5_qp) : mlx5_qp :=
  mk_qp (qp_num r) (qp_type r) (qp_state r) (ex_wr_id r) (ex_wr_flags r) (qp_buf r)
    (max_inline_data r) (inl_wqe r) (cur_setters_cnt r) (num_mkey_setters r) (fm_cache_rb r)
    (err r) (nreq r) v (cur_post_rb r) (cur_eth r) (cur_data r) (cur_ctrl r) (cur_mkey r)
    (fm_cache r) (sq_signal_bits r) (sq_start r) (sq r) (qp_db r) (rq r) (wq_sig r)
    (qp_cap_cache r) (atomics_enabled r) (max_tso r) (max_tso_header r) (qp_flags r).
Definition set_cur_post_rb (v : Z) (r : mlx5_qp) : mlx5_qp :=
  mk_qp (qp_num r) (qp_type r) (qp_state r) (ex_wr_id r) (ex_wr_flags r) (qp_buf r)
    (max_inline_data r) (inl_wqe r) (cur_setters_cnt r) (num_mkey_setters r) (fm_cache_rb r)
    (err r) (nreq r) (cur_size r) v (cur_eth r) (cur_data r) (cur_ctrl r) (cur_mkey r)
    (fm_cache r) (sq_signal_bits r) (sq_start r) (sq r) (qp_db r) (rq r) (wq_sig r)
    (qp_cap_cache r) (atomics_enabled r) (max_tso r) (max_tso_header r) (qp_flags r).
Definition set_cur_eth (v : Z) (r : mlx5_qp) : mlx5_qp :=
  mk_qp (qp_num r) (qp_type r) (qp_state r) (ex_wr_id r) (ex_wr_flags r) (qp_buf r)
    (max_inline_data r) (inl_wqe r) (cur_setters_cnt r) (num_mkey_setters r) (fm_cache_rb r)
    (err r) (nreq r) (cur_size r) (cur_post_rb r) v (cur_data r) (cur_ctrl r) (cur_mkey r)
    (fm_cache r) (sq_signal_bits r) (sq_start r) (sq r) (qp_db r) (rq r) (wq_sig r)
    (qp_cap_cache r) (atomics_enabled r) (max_tso r) (max_tso_header r) (qp_flags r).
Definition set_cur_data (v : Z) (r : mlx5_qp) : mlx5_qp :=
  mk_qp (qp_num r) (qp_type r) (qp_state r) (ex_wr_id r) (ex_wr_flags r) (qp_buf r)
    (max_inline_data r) (inl_wqe r) (cur_setters_cnt r) (num_mkey_setters r) (fm_cache_rb r)
    (err r) (nreq r) (cur_size r) (cur_post_rb r) (cur_eth r) v (cur_ctrl r) (cur_mkey r)
    (fm_cache r) (sq_signal_bits r) (sq_start r) (sq r) (qp_db r) (rq r) (wq_sig r)
    (qp_cap_cache r) (atomics_enabled r) (max_tso r) (max_tso_header r) (qp_flags r).
Definition set_cur_ctrl (v : Z) (r : mlx5_qp) : mlx5_qp :=
  mk_qp (qp_num r) (qp_type r) (qp_state r) (ex_wr_id r) (ex_wr_flags r) (qp_buf r)
    (max_inline_data r) (inl_wqe r) (cur_setters_cnt r) (num_mkey_setters r) (fm_cache_rb r)
    (err r) (nreq r) (cur_size r) (cur_post_rb r) (cur_eth r) (cur_data r) v (cur_mkey r)
    (fm_cache r) (sq_signal_bits r) (sq_start r) (sq r) (qp_db r) (rq r) (wq_sig r)
    (qp_cap_cache r) (atomics_enabled r) (max_tso r) (max_tso_header r) (qp_flags r).
Definition set_cur_mkey (v : option Z) (r : mlx5_qp) : mlx5_qp :=
  mk_qp (qp_num r) (qp_type r) (qp_state r) (ex_wr_id r) (ex_wr_flags r) (qp_buf r)
    (max_inline_data r) (inl_wqe r) (cur_setters_cnt r) (num_mkey_setters r) (fm_cache_rb r)
    (err r) (nreq r) (cur_size r) (cur_post_rb r) (cur_eth r) (cur_data r) (cur_ctrl r) v
    (fm_cache r) (sq_signal_bits r) (sq_start r) (sq r) (qp_db r) (rq r) (wq_sig r)
    (qp_cap_cache r) (atomics_enabled r) (max_tso r) (max_tso_header r) (qp_flags r).
Definition set_fm_cache (v : Z) (r : mlx5_qp) : mlx5_qp :=
  mk_qp (qp_num r) (qp_type r) (qp_state r) (ex_wr_id r) (ex_wr_flags r) (qp_buf r)
    (max_inline_data r) (inl_wqe r) (cur_setters_cnt r) (num_mkey_setters r) (fm_cache_rb r)
    (err r) (nreq r) (cur_size r) (cur_post_rb r) (cur_eth r) (cur_data r) (cur_ctrl r)
    (cur_mkey r) v (sq_signal_bits r) (sq_start r) (sq r) (qp_db r) (rq r) (wq_sig r)
    (qp_cap_cache r) (atomics_enabled r) (max_tso r) (max_tso_header r) (qp_flags r).
Definition set_sq (v : mlx5_wq) (r : mlx5_qp) : mlx5_qp :=
  mk_qp (qp_num r) (qp_type r) (qp_state r) (ex_wr_id r) (ex_wr_flags r) (qp_buf r)
    (max_inline_data r) (inl_wqe r) (cur_setters_cnt r) (num_mkey_setters r) (fm_cache_rb r)
    (err r) (nreq r) (cur_size r) (cur_post_rb r) (cur_eth r) (cur_data r) (cur_ctrl r)
    (cur_mkey r) (fm_cache r) (sq_signal_bits r) (sq_start r) v (qp_db r) (rq r) (wq_sig r)
    (qp_cap_cache r) (atomics_enabled r) (max_tso r) (max_tso_header r) (qp_flags r).
Definition set_rq (v : mlx5_wq) (r : mlx5_qp) : mlx5_qp :=
  mk_qp (qp_num r) (qp_type r) (qp_state r) (ex_wr_id r) (ex_wr_flags r) (qp_buf r)
    (max_inline_data r) (inl_wqe r) (cur_setters_cnt r) (num_mkey_setters r) (fm_cache_rb r)
    (err r) (nreq r) (cur_size r) (cur_post_rb r) (cur_eth r) (cur_data r) (cur_ctrl r)
    (cur_mkey r) (fm_cache r) (sq_signal_bits r) (sq_start r) (sq r) (qp_db r) v (wq_sig r)
    (qp_cap_cache r) (atomics_enabled r) (max_tso r) (max_tso_header r) (qp_flags r).


(** What the CPU does to the device, in program order: barriers, the doorbell
    record, the spinlock or write-combining section and the BlueFlame page. *)
Inductive dev_event : Type :=
| EvBarrier                              (* udma_to_device_barrier *)
| EvDbrec (addr value : Z)               (* *db = htobe32(value) *)
| EvWcStart (locked : bool)              (* mmio_wc_spinlock / mmio_wc_start *)
| EvMmio64 (addr value : Z)              (* mmio_write64_be *)
| EvBfCopy (addr : Z) (bytes : list Z)   (* mmio_memcpy_x64 of 64 bytes *)
| EvFlush                                (* mmio_flush_writes *)
| EvUnlock.                              (* mlx5_spin_unlock(&bf->lock) *)

(** [autounfold with consts] replaces the named constants by their values, for [lia]. *)
Create HintDb consts.
#[export] Hint Unfold
  IBV_WR_RDMA_WRITE IBV_WR_RDMA_WRITE_WITH_IMM IBV_WR_SEND IBV_WR_SEND_WITH_IMM 
  IBV_WR_RDMA_READ IBV_WR_ATOMIC_CMP_AND_SWP IBV_WR_ATOMIC_FETCH_AND_ADD IBV_WR_LOCAL_INV 
  IBV_WR_BIND_MW IBV_WR_SEND_WITH_INV IBV_WR_TSO IBV_WR_DRIVER1 IBV_SEND_FENCE 
  IBV_SEND_SIGNALED IBV_SEND_SOLICITED IBV_SEND_INLINE IBV_SEND_IP_CSUM IBV_QPT_RC 
  IBV_QPT_UC IBV_QPT_UD IBV_QPT_RAW_PACKET IBV_QPT_XRC_SEND IBV_QPT_XRC_RECV IBV_QPT_DRIVER 
  IBV_QPS_RESET IBV_QPS_INIT IBV_QPS_RTR IBV_QPS_RTS IBV_MTU_256 IBV_MTU_512 IBV_MTU_1024 
  IBV_MTU_2048 IBV_MTU_4096 IBV_ACCESS_LOCAL_WRITE IBV_ACCESS_REMOTE_WRITE 
  IBV_ACCESS_REMOTE_READ IBV_ACCESS_REMOTE_ATOMIC IBV_ACCESS_ZERO_BASED IBV_MW_TYPE_1 
  IBV_MW_TYPE_2 IBV_MR_TYPE_MR IBV_WC_SUCCESS IBV_WC_LOC_LEN_ERR IBV_WC_REM_INV_REQ_ERR 
  IBV_WC_GENERAL_ERR IBV_WC_SEND IBV_WC_RDMA_WRITE IBV_WC_RDMA_READ IBV_WC_COMP_SWAP 
  IBV_WC_FETCH_ADD IBV_WC_BIND_MW IBV_WC_LOCAL_INV IBV_WC_TSO IBV_WC_DRIVER1 IBV_WC_DRIVER2 
  IBV_WC_DRIVER3 ENOENT ENOMEM EINVAL EOPNOTSUPP MLX5_OPCODE_NOP MLX5_OPCODE_SEND_INVAL 
  MLX5_OPCODE_RDMA_WRITE MLX5_OPCODE_RDMA_WRITE_IMM MLX5_OPCODE_SEND MLX5_OPCODE_SEND_IMM 
  MLX5_OPCODE_TSO MLX5_OPCODE_RDMA_READ MLX5_OPCODE_ATOMIC_CS MLX5_OPCODE_ATOMIC_FA 
  MLX5_OPCODE_SET_PSV MLX5_OPCODE_UMR MLX5_OPCODE_TAG_MATCHING MLX5_OPCODE_MMO 
  MLX5_INVALID_LKEY MLX5_EXTENDED_UD_AV MLX5_INLINE_SEG MLX5_WQE_CTRL_CQ_UPDATE 
  MLX5_WQE_CTRL_SOLICITED MLX5_WQE_CTRL_FENCE MLX5_WQE_CTRL_INITIATOR_SMALL_FENCE 
  MLX5_SEND_WQE_BB MLX5_SEND_WQE_SHIFT MLX5_ETH_WQE_L3_CSUM MLX5_ETH_WQE_L4_CSUM 
  MLX5_RCV_DBR MLX5_SND_DBR MLX5_QP_FLAGS_USE_UNDERLAY MLX5_CSUM_SUPPORT_RAW_OVER_ETH 
  MLX5_CSUM_SUPPORT_UNDERLAY_UD MLX5_IPOIB_INLINE_MIN_HEADER_SIZE 
  MLX5_SOURCE_QPN_INLINE_MAX_HEADER_SIZE MLX5_ETH_L2_INLINE_HEADER_SIZE 
  MLX5_ETH_L2_MIN_HEADER_SIZE MLX5_WQE_UMR_CTRL_FLAG_INLINE 
  MLX5_WQE_UMR_CTRL_FLAG_CHECK_FREE MLX5_WQE_UMR_CTRL_FLAG_TRNSLATION_OFFSET 
  MLX5_WQE_UMR_CTRL_FLAG_CHECK_QPN MLX5_WQE_UMR_CTRL_MKEY_MASK_LEN 
  MLX5_WQE_UMR_CTRL_MKEY_MASK_START_ADDR MLX5_WQE_UMR_CTRL_MKEY_MASK_SIG_ERR 
  MLX5_WQE_UMR_CTRL_MKEY_MASK_BSF_ENABLE MLX5_WQE_UMR_CTRL_MKEY_MASK_MKEY 
  MLX5_WQE_UMR_CTRL_MKEY_MASK_QPN MLX5_WQE_UMR_CTRL_MKEY_MASK_ACCESS_LOCAL_WRITE 
  MLX5_WQE_UMR_CTRL_MKEY_MASK_ACCESS_REMOTE_READ 
  MLX5_WQE_UMR_CTRL_MKEY_MASK_ACCESS_REMOTE_WRITE MLX5_WQE_UMR_CTRL_MKEY_MASK_ACCESS_ATOMIC 
  MLX5_WQE_UMR_CTRL_MKEY_MASK_FREE MLX5_WQE_MKEY_CONTEXT_FREE 
  MLX5_WQE_MKEY_CONTEXT_ACCESS_FLAGS_ATOMIC MLX5_WQE_MKEY_CONTEXT_ACCESS_FLAGS_REMOTE_WRITE 
  MLX5_WQE_MKEY_CONTEXT_ACCESS_FLAGS_REMOTE_READ 
  MLX5_WQE_MKEY_CONTEXT_ACCESS_FLAGS_LOCAL_WRITE sizeof_ctrl_seg sizeof_xrc_seg 
  sizeof_raddr_seg sizeof_atomic_seg sizeof_data_seg sizeof_inline_seg sizeof_datagram_seg 
  sizeof_eth_pad sizeof_eth_seg sizeof_umr_ctrl_seg sizeof_mkey_context_seg sizeof_tm_seg : consts.
Ltac unfold_consts := autounfold with consts in *.
