(* ===== verification/Forecast.v ===== *)
(** Traffic forecasting: [flow_forecast] of providers/mlx5/qp.c.

    Every call of [_mlx5_post_send] first walks the chain of work requests,
    predicts the bytes it will put on the wire in both directions and appends a
    record to a table in System V shared memory, where the client of sync/ reads
    it (file FlowSync).  This file models the shared table, the prediction and
    the whole of [flow_forecast].

    Parameters of the model: [inet_ntop6] is the text of [inet_ntop(AF_INET6, .)],
    [attr] what [ibv_query_qp] left in [qp_attr], [clock] the time read by
    [clock_gettime], [dev_name] the device name.  A null or out-of-range pointer
    access of the C code is the outcome [FcFault]. *)

From stdpp Require Import base numbers list.
From S2P Require Import Prelude Types.

(** * The shared table *)

Definition FLOW_NUM : Z := 10000.
Definition CACHE_NUM : Z := 521.

(** [Amount]: one forecast record; the character arrays are byte lists. *)
Record Amount : Type := mk_amount {
  am_gid : list Z;
  am_name : list Z;
  am_ip : list Z;
  am_tx : Z;
  am_rx : Z;
  am_tm : Z
}.

(** [Cache]: path MTU and destination of a QP number. *)
Record Cache : Type := mk_cache { ca_qp_num : Z; ca_path_mtu : Z; ca_gid : list Z }.

(** [SHM]: consumer index [t], producer index [h], the records and the cache. *)
Record SHM : Type := mk_shm {
  shm_t : Z;
  shm_h : Z;
  shm_amount : list Amount;
  shm_cache : list Cache
}.

Definition zero_amount : Amount :=
  mk_amount (replicate 16 0) (replicate 64 0) (replicate 32 0) 0 0 0.
Definition zero_cache : Cache := mk_cache 0 0 (replicate 16 0).

(** [alloc_shared_memory] of sync/common.hpp: the segment zeroed, both indices 0. *)
Definition shm_init : SHM :=
  mk_shm 0 0 (replicate (Z.to_nat FLOW_NUM) zero_amount) (replicate (Z.to_nat CACHE_NUM) zero_cache).

Record shm_wf (s : SHM) : Prop := {
  wf_t : 0 <= shm_t s < FLOW_NUM;
  wf_h : 0 <= shm_h s < FLOW_NUM;
  wf_amount : length (shm_amount s) = Z.to_nat FLOW_NUM;
  wf_cache : length (shm_cache s) = Z.to_nat CACHE_NUM
}.

(** * C strings *)

(** [strncpy(dst, src, n)]: at most [n] characters up to the terminator, then
    zero padding to [n]; the rest of [dst] keeps its value. *)
Fixpoint strncpy_chars (n : nat) (src : list Z) : list Z :=
  match n with
  | O => []
  | S k =>
      match src with
      | [] => 0 :: strncpy_chars k []
      | c :: rest => if c =? 0 then replicate (S k) 0 else c :: strncpy_chars k rest
      end
  end.

Definition strncpy (dst src : list Z) (n : nat) : list Z :=
  strncpy_chars n src ++ drop n dst.

(** The characters of a buffer before its terminator. *)
Fixpoint cstr (buf : list Z) : list Z :=
  match buf with
  | [] => []
  | c :: rest => if c =? 0 then [] else c :: cstr rest
  end.

(** [strrchr(buf, ':') + 1], [None] when [strrchr] returns null. *)
Fixpoint after_last_colon (s : list Z) : option (list Z) :=
  match s with
  | [] => None
  | c :: rest =>
      match after_last_colon rest with
      | Some r => Some r
      | None => if c =? 58 then Some rest else None
      end
  end.

(** [inet_ntop(AF_INET6, gid, dgid, sizeof(dgid))] on the zeroed [char dgid[30]]:
    the text and its terminator when they fit, otherwise [ENOSPC] and the buffer
    is left as it was. *)
Definition ntop_into_30 (text : list Z) : list Z :=
  if (length text <? 30)%nat then text ++ replicate (30 - length text) 0 else replicate 30 0.

(** * The prediction *)

(** [flow_size] of the first loop: [long long] sum of all lengths of the chain. *)
Definition flow_size (wrs : list ibv_send_wr) : Z :=
  fold_left (fun acc wr =>
    fold_left (fun a s => s64 (a + sge_length s)) (sg_list wr) acc) wrs 0.

(** [length] of one request: [uint64_t] sum. *)
Definition wr_length (wr : ibv_send_wr) : Z :=
  fold_left (fun a s => u64 (a + sge_length s)) (sg_list wr) 0.

(** The [switch (path_mtu)]. *)
Definition mtu_bytes (path_mtu : Z) : Z :=
  if path_mtu =? IBV_MTU_512 then 512
  else if path_mtu =? IBV_MTU_1024 then 1024
  else if path_mtu =? IBV_MTU_2048 then 2048
  else if path_mtu =? IBV_MTU_4096 then 4096
  else 256.

Definition packet_header : Z := 62.

(** Body of the second loop for one request: ([_send_amount], [_recv_amount]). *)
Definition wr_amounts (mtu : Z) (wr : ibv_send_wr) : Z * Z :=
  let length := wr_length wr in
  let num_packet := u64 (length + mtu - 1) / mtu in
  let amount := u64 (length + num_packet * packet_header) in
  if opcode wr =? IBV_WR_RDMA_READ then
    let recv := u64 (amount + 4) in
    let recv := if mtu <? length then u64 (recv + 4) else recv in
    (78, recv)
  else
    let recv := if mtu <? length then 66 * 2 else 66 in
    if opcode wr =? IBV_WR_SEND_WITH_IMM then (u64 (amount + 4), recv)
    else if opcode wr =? IBV_WR_RDMA_WRITE then (u64 (amount + 16), recv)
    else if opcode wr =? IBV_WR_RDMA_WRITE_WITH_IMM then (u64 (amount + 20), recv)
    else if (opcode wr =? IBV_WR_ATOMIC_FETCH_AND_ADD)
         || (opcode wr =? IBV_WR_ATOMIC_CMP_AND_SWP)
    then (u64 (amount + 90), 74)
    else (amount, recv).

(** ([send_amount], [recv_amount]) of a chain, zero unless the QP is RC. *)
Definition forecast_amounts (qp_type mtu : Z) (wrs : list ibv_send_wr) : Z * Z :=
  if qp_type =? IBV_QPT_RC then
    fold_left (fun '(s, r) wr =>
      let '(ws, wrv) := wr_amounts mtu wr in (u64 (s + ws), u64 (r + wrv))) wrs (0, 0)
  else (0, 0).

(** * The operation *)

Record qp_attr : Type := mk_qp_attr { qa_path_mtu : Z; qa_dgid : list Z }.

Inductive forecast_result : Type :=
| FcFault                        (* access through a null or invalid pointer *)
| FcDone (s : option SHM).

(** Result of the cache lookup: path MTU, destination, updated cache. *)
Definition cache_lookup (inet_ntop6 : list Z -> list Z) (attr : qp_attr) (qp_num : Z)
    (cache : list Cache) : option (Z * list Z * list Cache) :=
  let key := Z.to_nat (qp_num mod CACHE_NUM) in
  let e := nth key cache zero_cache in
  if ca_qp_num e =? qp_num then
    Some (ca_path_mtu e, strncpy (replicate 16 0) (ca_gid e) 16, cache)
  else
    let dgid := ntop_into_30 (inet_ntop6 (qa_dgid attr)) in
    match after_last_colon (cstr dgid) with
    | None => None
    | Some last =>
        let gid := strncpy (replicate 16 0) last 16 in
        let path_mtu := u8 (qa_path_mtu attr) in
        Some (path_mtu, gid, <[key := mk_cache qp_num path_mtu (strncpy (ca_gid e) gid 16)]> cache)
    end.

(** Append at [shm->amount[shm->h]], advance [h]; [ip] is left to the client. *)
Definition push_amount (gid name : list Z) (tx rx tm : Z) (s : SHM) : SHM :=
  let i := Z.to_nat (shm_h s) in
  let old := nth i (shm_amount s) zero_amount in
  let a := mk_amount (strncpy (am_gid old) gid 16) (strncpy (am_name old) name 64)
                     (am_ip old) tx rx tm in
  mk_shm (shm_t s) (Z.rem (shm_h s + 1) FLOW_NUM) (<[i := a]> (shm_amount s)) (shm_cache s).

Section FlowForecast.
Context (inet_ntop6 : list Z -> list Z).

Definition flow_forecast (attr : qp_attr) (dev_name : list Z) (clock : Z * Z)
    (qp : mlx5_qp) (wrs : list ibv_send_wr) (shm : option SHM) : forecast_result :=
  if flow_size wrs <? 1024 then FcDone shm
  else match shm with
  | None => FcFault
  | Some s =>
    match cache_lookup inet_ntop6 attr (qp_num qp) (shm_cache s) with
    | None => FcFault
    | Some (path_mtu, gid, cache') =>
        let s := mk_shm (shm_t s) (shm_h s) (shm_amount s) cache' in
        let mtu := mtu_bytes path_mtu in
        let '(send_amount, recv_amount) := forecast_amounts (qp_type qp) mtu wrs in
        let s := if 4096 <? u64 (recv_amount + send_amount)
                 then push_amount gid dev_name send_amount recv_amount
                        (u64 (s64 (fst clock * 1000000000 + snd clock))) s
                 else s in
        FcDone (Some s)
    end
  end.

End FlowForecast.

(** * Correctness *)

(** ** Reference: packet-by-packet accounting

    A message of [len] bytes is sent as packets of at most [mtu] payload bytes;
    [segments] lists the payload sizes. *)
Fixpoint segs (fuel : nat) (mtu len : Z) : list Z :=
  match fuel with
  | O => []
  | S k => if len <=? 0 then [] else Z.min mtu len :: segs k mtu (len - mtu)
  end.

Definition segments (mtu len : Z) : list Z := segs (Z.to_nat ((len + mtu - 1) / mtu)) mtu len.

(** Bytes of the extended headers and acknowledgements the code accounts for. *)
Definition ext_header (op : Z) : Z :=
  if op =? IBV_WR_SEND_WITH_IMM then 4
  else if op =? IBV_WR_RDMA_WRITE then 16
  else if op =? IBV_WR_RDMA_WRITE_WITH_IMM then 20
  else if (op =? IBV_WR_ATOMIC_FETCH_AND_ADD) || (op =? IBV_WR_ATOMIC_CMP_AND_SWP) then 90
  else 0.

Definition on_wire (mtu len : Z) : Z := sumZ (fun p => p + packet_header) (segments mtu len).

Definition ref_send (mtu : Z) (wr : ibv_send_wr) : Z :=
  if opcode wr =? IBV_WR_RDMA_READ then 78
  else on_wire mtu (sumZ sge_length (sg_list wr)) + ext_header (opcode wr).

Definition ref_recv (mtu : Z) (wr : ibv_send_wr) : Z :=
  let len := sumZ sge_length (sg_list wr) in
  let last := if mtu <? len then 2 else 1 in
  if opcode wr =? IBV_WR_RDMA_READ then on_wire mtu len + 4 * last
  else if (opcode wr =? IBV_WR_ATOMIC_FETCH_AND_ADD) || (opcode wr =? IBV_WR_ATOMIC_CMP_AND_SWP)
  then 74 else 66 * last.

(** [uint32_t] lengths. *)
Definition sge_ok (s : ibv_sge) : Prop := 0 <= sge_length s < 2 ^ 32.
Definition wr_ok (wr : ibv_send_wr) : Prop :=
  Forall sge_ok (sg_list wr) /\ num_sge wr < 2 ^ 16.

Lemma segs_spec mtu fuel len :
  0 < mtu -> 0 <= len -> (len + mtu - 1) / mtu <= Z.of_nat fuel ->
  sumZ (fun p => p + packet_header) (segs fuel mtu len)
    = len + (len + mtu - 1) / mtu * packet_header
  /\ Forall (fun p => 0 < p <= mtu) (segs fuel mtu len)
  /\ Z.of_nat (length (segs fuel mtu len)) = (len + mtu - 1) / mtu.
Proof.
  intros Hm. revert len. induction fuel as [|k IH]; intros len Hl Hf.
  - assert (len = 0) as -> by (assert (len + mtu - 1 < mtu * 1) by (apply Z.nle_gt; intros ?;
      pose proof (Z.div_le_lower_bound (len + mtu - 1) mtu 1 Hm); lia); lia).
    simpl. rewrite Z.div_small by lia. split_and!; [lia|constructor|done].
  - simpl. destruct (Z.leb_spec len 0).
    + assert (len = 0) as -> by lia. simpl. rewrite Z.div_small by lia.
      split_and!; [lia|constructor|done].
    + destruct (Z.leb_spec len mtu).
      * assert ((len + mtu - 1) / mtu = 1) as E
          by (symmetry; apply Z.div_unique with (len - 1); lia).
        rewrite Z.min_r by lia.
        assert (segs k mtu (len - mtu) = []) as ->
          by (destruct k; simpl; [done|]; destruct (Z.leb_spec (len - mtu) 0); [done|lia]).
        simpl. rewrite E. split_and!; [lia|repeat constructor; lia|done].
      * assert ((len + mtu - 1) / mtu = (len - mtu + mtu - 1) / mtu + 1) as E.
        { replace (len + mtu - 1) with (len - mtu + mtu - 1 + 1 * mtu) by lia.
          by rewrite Z.div_add by lia. }
        destruct (IH (len - mtu)) as (I1 & I2 & I3); [lia..|].
        rewrite Z.min_l by lia. simpl. rewrite I1, E.
        split_and!; [lia|constructor; [lia|done]|lia].
Qed.

Lemma on_wire_closed mtu len :
  0 < mtu -> 0 <= len ->
  on_wire mtu len = len + (len + mtu - 1) / mtu * packet_header.
Proof.
  intros. unfold on_wire, segments. apply segs_spec; [done|done|].
  rewrite Z2Nat.id; [lia|]. apply Z.div_pos; lia.
Qed.

Lemma mtu_bytes_cases p : 256 <= mtu_bytes p <= 4096.
Proof. unfold mtu_bytes. destruct_ifs; lia. Qed.

Lemma sum_bound (l : list ibv_sge) :
  Forall sge_ok l -> 0 <= sumZ sge_length l <= Z.of_nat (length l) * 2 ^ 32.
Proof.
  induction 1 as [|s l Hs _ IH]; simpl; [lia|]. unfold sge_ok in Hs. lia.
Qed.

Lemma wr_length_exact wr : wr_ok wr -> wr_length wr = sumZ sge_length (sg_list wr).
Proof.
  intros [Hs Hn]. unfold wr_length, num_sge in *.
  pose proof (sum_bound _ Hs).
  rewrite (fold_wrap_sum u64 (2 ^ 64)); [lia|apply u64_small|lia| |].
  - eapply Forall_impl; [exact Hs|]. unfold sge_ok. intros; simpl in *; lia.
  - lia.
Qed.

Lemma wr_amounts_exact mtu wr :
  256 <= mtu <= 4096 -> wr_ok wr ->
  wr_amounts mtu wr = (ref_send mtu wr, ref_recv mtu wr)
  /\ 0 <= ref_send mtu wr < 2 ^ 55 /\ 0 <= ref_recv mtu wr < 2 ^ 55.
Proof.
  intros Hm Hw. pose proof (wr_length_exact wr Hw) as E. destruct Hw as [Hs Hn].
  pose proof (sum_bound _ Hs) as B. unfold num_sge in Hn.
  unfold wr_amounts, ref_send, ref_recv. rewrite E.
  set (len := sumZ sge_length (sg_list wr)) in *.
  rewrite !on_wire_closed by lia. unfold packet_header.
  assert (0 <= (len + mtu - 1) / mtu <= len + 1).
  { split; [apply Z.div_pos; lia|]. apply Z.div_le_upper_bound; nia. }
  rewrite (u64_small (len + mtu - 1)) by lia.
  set (n := (len + mtu - 1) / mtu) in *.
  rewrite (u64_small (len + n * 62)) by lia.
  unfold ext_header. unfold_consts. destruct_ifs; wrap_solve;
    (split; [f_equal; lia | lia]).
Qed.

Lemma forecast_fold_exact mtu wrs s r :
  256 <= mtu <= 4096 -> Forall wr_ok wrs ->
  0 <= s -> 0 <= r ->
  s + Z.of_nat (length wrs) * 2 ^ 55 < 2 ^ 64 ->
  r + Z.of_nat (length wrs) * 2 ^ 55 < 2 ^ 64 ->
  fold_left (fun '(s, r) wr =>
      let '(ws, wrv) := wr_amounts mtu wr in (u64 (s + ws), u64 (r + wrv))) wrs (s, r)
  = (s + sumZ (ref_send mtu) wrs, r + sumZ (ref_recv mtu) wrs).
Proof.
  intros Hm H. revert s r. induction H as [|wr wrs Hw _ IH]; intros s r ?? Bs Br; simpl in *.
  { f_equal; lia. }
  destruct (wr_amounts_exact mtu wr Hm Hw) as (E & B1 & B2). rewrite E.
  wrap_solve. rewrite IH by lia. f_equal; lia.
Qed.


(** ** The table invariant *)

Lemma push_amount_wf gid name tx rx tm s :
  shm_wf s -> shm_wf (push_amount gid name tx rx tm s).
Proof.
  intros [Ht Hh Ha Hc]. split; simpl; [done| |by rewrite length_insert|done].
  rewrite Z.rem_mod_nonneg by (unfold FLOW_NUM in *; lia).
  apply Z.mod_pos_bound. done.
Qed.

Lemma cache_lookup_length ntop attr q cache p g cache' :
  cache_lookup ntop attr q cache = Some (p, g, cache') -> length cache' = length cache.
Proof.
  unfold cache_lookup. destruct_ifs; [by intros [= _ _ <-]|].
  destruct (after_last_colon _); [|done]. intros [= _ _ <-]. by rewrite length_insert.
Qed.

(** [flow_forecast] keeps the shared table well formed: the producer index
    stays inside the table whatever the chain, and the consumer index is never
    touched. *)
Theorem flow_forecast_preserves_wf ntop attr name clk qp wrs s s' :
  shm_wf s -> flow_forecast ntop attr name clk qp wrs (Some s) = FcDone (Some s') ->
  shm_wf s' /\ shm_t s' = shm_t s.
Proof.
  intros Hs. unfold flow_forecast.
  destruct (flow_size wrs <? 1024); [by intros [= <-]|].
  destruct (cache_lookup _ _ _ _) as [[[p g] c']|] eqn:E; [|done].
  destruct (forecast_amounts _ _ _) as [tx rx]. intros [= <-].
  assert (shm_wf (mk_shm (shm_t s) (shm_h s) (shm_amount s) c')) as Hc.
  { destruct Hs as [?? ? Hc]. split; simpl; [done..|].
    by rewrite (cache_lookup_length _ _ _ _ _ _ _ E). }
  destruct_ifs; [|done]. by split; [apply push_amount_wf|].
Qed.

Definition forecast_wr (op len : Z) : ibv_send_wr :=
  mk_wr 7 [mk_sge 4096 len 1] op 0 0 0 0 0 0 0 0 0 0 0 0 0 (mk_mw 0 0) 0
    (mk_bind_info None 0 0 0) 0 0 0.

Definition forecast_wq : mlx5_wq := mk_wq [] [] 0 0 0 0 0 0 0 0 0 [].
Definition forecast_qp : mlx5_qp :=
  mk_qp 42 IBV_QPT_RC 3 0 0 0 0 false 0 0 0 0 0 0 0 0 0 0 None 0 0 0 forecast_wq 0
    forecast_wq false 0 true 0 0 0.

(** The text of the IPv4-mapped address ::ffff:10.0.0.2 *)
Definition mapped_text (_ : list Z) : list Z :=
  [58; 58; 102; 102; 102; 102; 58; 49; 48; 46; 48; 46; 48; 46; 50].

Lemma shm_init_wf : shm_wf shm_init.
Proof.
  split; [by unfold FLOW_NUM; simpl; lia..| |]; apply length_replicate.
Qed.

(** Whether a forecast ran to its end with the table attached. *)
Definition fc_done (r : forecast_result) : bool :=
  match r with FcDone (Some _) => true | _ => false end.


Lemma flow_forecast_preserves_wf_witness :
  match flow_forecast mapped_text (mk_qp_attr 3 []) [] (1, 2) forecast_qp
          [forecast_wr IBV_WR_SEND 8192] (Some shm_init) with
  | FcDone (Some s') => shm_wf s' /\ shm_t s' = shm_t shm_init
  | _ => False
  end.
Proof.
  destruct (flow_forecast _ _ _ _ _ _ _) as [|[s'|]] eqn:E.
  2: exact (flow_forecast_preserves_wf _ _ _ _ _ _ _ _ shm_init_wf E).
  all: apply (f_equal fc_done) in E; vm_compute in E; discriminate E.
Defined.

(** ** String lemmas *)

Lemma strncpy_chars_nil n : strncpy_chars n [] = replicate n 0.
Proof. induction n as [|n IH]; simpl; [done|by rewrite IH]. Qed.

Lemma length_strncpy_chars n s : length (strncpy_chars n s) = n.
Proof.
  revert s. induction n as [|n IH]; intros s; simpl; [done|].
  destruct s as [|c s]; simpl; [by rewrite IH|].
  destruct (c =? 0); simpl; [by rewrite length_replicate|by rewrite IH].
Qed.

Lemma strncpy_chars_idemp n s y :
  strncpy_chars n (strncpy_chars n s ++ y) = strncpy_chars n s.
Proof.
  revert s. induction n as [|n IH]; intros s; simpl; [done|].
  destruct s as [|c s]; simpl.
  - by rewrite strncpy_chars_nil.
  - destruct (Z.eqb_spec c 0) as [->|]; simpl; [done|].
    destruct (Z.eqb_spec c 0); [done|]. by rewrite IH.
Qed.

Definition char_ok (c : Z) : Prop := c <> 0 /\ c <> 58.

Lemma cstr_app_zeros s k : Forall char_ok s -> cstr (s ++ replicate k 0) = s.
Proof.
  induction 1 as [|c s [Hc _] _ IH]; simpl; [by destruct k|].
  destruct (Z.eqb_spec c 0); [done|]. by rewrite IH.
Qed.

Lemma cstr_nonzero_app p s :
  Forall (fun c => c <> 0) p -> cstr (p ++ s) = p ++ cstr s.
Proof.
  induction 1 as [|c p Hc _ IH]; simpl; [done|].
  destruct (Z.eqb_spec c 0); [done|]. by rewrite IH.
Qed.

Lemma after_last_colon_none s : Forall char_ok s -> after_last_colon s = None.
Proof.
  induction 1 as [|c s [_ Hc] _ IH]; simpl; [done|].
  rewrite IH. by destruct (Z.eqb_spec c 58).
Qed.

Lemma after_last_colon_app p s :
  Forall char_ok s -> after_last_colon (p ++ 58 :: s) = Some s.
Proof.
  intros Hs. induction p as [|c p IH]; simpl.
  - by rewrite after_last_colon_none.
  - by rewrite IH.
Qed.

Lemma strncpy_chars_small n s :
  Forall char_ok s -> (length s <= n)%nat ->
  strncpy_chars n s = s ++ replicate (n - length s) 0.
Proof.
  intros Hs. revert n. induction Hs as [|c s [Hc _] _ IH]; intros n Hn; simpl in *.
  - by rewrite strncpy_chars_nil, Nat.sub_0_r.
  - destruct n as [|n]; [lia|]. simpl. destruct (Z.eqb_spec c 0); [done|].
    rewrite IH by lia. done.
Qed.

(** ** Records *)

(** When a flow is large enough to be recorded, exactly one record is
    appended at the producer index, with the predicted amounts, the resolved
    destination and the time stamp; every other slot of the table and the
    consumer index keep their values. *)
Theorem flow_forecast_appends ntop attr name clk qp wrs s p g c tx rx :
  shm_wf s -> 1024 <= flow_size wrs ->
  cache_lookup ntop attr (qp_num qp) (shm_cache s) = Some (p, g, c) ->
  forecast_amounts (qp_type qp) (mtu_bytes p) wrs = (tx, rx) ->
  4096 < u64 (rx + tx) ->
  exists s' a, flow_forecast ntop attr name clk qp wrs (Some s) = FcDone (Some s')
    /\ shm_amount s' !! Z.to_nat (shm_h s) = Some a
    /\ am_tx a = tx /\ am_rx a = rx /\ am_tm a = u64 (s64 (fst clk * 1000000000 + snd clk))
    /\ take 16 (am_gid a) = strncpy_chars 16 g
    /\ take 64 (am_name a) = strncpy_chars 64 name
    /\ (forall i, i <> Z.to_nat (shm_h s) -> shm_amount s' !! i = shm_amount s !! i)
    /\ shm_h s' = (shm_h s + 1) mod FLOW_NUM /\ shm_t s' = shm_t s.
Proof.
  intros [Ht Hh Ha Hc] Hf El Ea Hr. unfold flow_forecast.
  rewrite (proj2 (Z.ltb_ge _ _) Hf), El, Ea, (proj2 (Z.ltb_lt _ _) Hr).
  unfold push_amount; simpl shm_h; simpl shm_t; simpl shm_amount.
  eexists _, _. split; [reflexivity|]. simpl.
  rewrite list_lookup_insert_eq by (rewrite Ha; lia).
  split; [reflexivity|]. simpl.
  split_and!; try done.
  - unfold strncpy. by rewrite take_app_length' by (by rewrite length_strncpy_chars).
  - unfold strncpy. by rewrite take_app_length' by (by rewrite length_strncpy_chars).
  - intros i Hi. by rewrite list_lookup_insert_ne.
  - apply Z.rem_mod_nonneg; unfold FLOW_NUM in *; lia.
Qed.

Lemma flow_forecast_appends_witness :
  exists s' a, flow_forecast mapped_text (mk_qp_attr 3 []) [] (1, 2) forecast_qp
      [forecast_wr IBV_WR_SEND 8192] (Some shm_init) = FcDone (Some s')
    /\ shm_amount s' !! 0%nat = Some a /\ am_tx a = 8688 /\ am_rx a = 132.
Proof.
  destruct (cache_lookup mapped_text (mk_qp_attr 3 []) 42 (shm_cache shm_init))
    as [[[p g] c]|] eqn:El; [|by vm_compute in El].
  assert (p = 3) as -> by
    (apply (f_equal (option_map (fun x => fst (fst x)))) in El; vm_compute in El; congruence).
  destruct (flow_forecast_appends mapped_text (mk_qp_attr 3 []) [] (1, 2) forecast_qp
    [forecast_wr IBV_WR_SEND 8192] shm_init 3 g c 8688 132) as (s' & a & E & Ea & ? & ? & _).
  - apply shm_init_wf.
  - vm_compute; discriminate.
  - exact El.
  - vm_compute; reflexivity.
  - vm_compute; reflexivity.
  - exists s', a. by split_and!.
Defined.

(** The prefix of the text of an IPv4-mapped address: ::ffff: *)
Definition v4_mapped_prefix : list Z := [58; 58; 102; 102; 102; 102; 58].

Lemma cache_lookup_v4_mapped ntop attr q cache ip :
  ca_qp_num (nth (Z.to_nat (q mod CACHE_NUM)) cache zero_cache) <> q ->
  ntop (qa_dgid attr) = v4_mapped_prefix ++ ip ->
  Forall char_ok ip -> (length ip <= 15)%nat ->
  exists c, cache_lookup ntop attr q cache
    = Some (u8 (qa_path_mtu attr), ip ++ replicate (16 - length ip) 0, c).
Proof.
  intros Hm Ht Hip Hl. unfold cache_lookup.
  rewrite (proj2 (Z.eqb_neq _ _) Hm), Ht. unfold ntop_into_30.
  rewrite length_app. change (length v4_mapped_prefix) with 7%nat.
  rewrite (proj2 (Nat.ltb_lt _ _)) by lia.
  rewrite <- app_assoc, cstr_nonzero_app by (repeat constructor; discriminate).
  rewrite cstr_app_zeros by done.
  change v4_mapped_prefix with (take 6 v4_mapped_prefix ++ [58]).
  rewrite <- app_assoc. simpl ([58] ++ ip). rewrite after_last_colon_app by done.
  eexists. unfold strncpy. rewrite strncpy_chars_small by (done || lia).
  rewrite drop_ge by (rewrite length_replicate; lia). by rewrite app_nil_r.
Qed.

(** A first forecast towards a RoCE destination with an IPv4-mapped GID
    never faults and records the dotted IPv4 address as the destination: the
    C string in [gid] is exactly the text after the last colon. *)
Theorem flow_forecast_v4_destination ntop attr name clk qp wrs s ip :
  shm_wf s -> 1024 <= flow_size wrs ->
  ca_qp_num (nth (Z.to_nat (qp_num qp mod CACHE_NUM)) (shm_cache s) zero_cache) <> qp_num qp ->
  ntop (qa_dgid attr) = v4_mapped_prefix ++ ip ->
  Forall char_ok ip -> (length ip <= 15)%nat ->
  exists s', flow_forecast ntop attr name clk qp wrs (Some s) = FcDone (Some s')
    /\ (shm_h s' <> shm_h s -> exists a, shm_amount s' !! Z.to_nat (shm_h s) = Some a
          /\ cstr (am_gid a) = ip).
Proof.
  intros Hs Hf Hm Ht Hip Hl.
  destruct (cache_lookup_v4_mapped _ _ _ _ _ Hm Ht Hip Hl) as [c El].
  unfold flow_forecast. rewrite (proj2 (Z.ltb_ge _ _) Hf), El.
  destruct (forecast_amounts _ _ _) as [tx rx].
  eexists. split; [reflexivity|]. destruct (_ <? _); [|done]. intros _.
  unfold push_amount; simpl. destruct Hs as [Ht' Hh Ha Hc].
  eexists. rewrite list_lookup_insert_eq by (rewrite Ha; lia). split; [reflexivity|].
  simpl. unfold strncpy.
  rewrite <- (strncpy_chars_small 16 ip) by (done || lia).
  replace (strncpy_chars 16 (strncpy_chars 16 ip)) with (strncpy_chars 16 ip)
    by (rewrite <- (app_nil_r (strncpy_chars 16 ip)) at 2; by rewrite strncpy_chars_idemp).
  rewrite strncpy_chars_small by (done || lia). rewrite <- app_assoc.
  rewrite cstr_nonzero_app by (eapply Forall_impl; [exact Hip|by intros ? []]).
  replace (16 - length ip)%nat with (S (15 - length ip)) by lia. simpl. apply app_nil_r.
Qed.

Lemma flow_forecast_v4_destination_witness :
  exists s', flow_forecast mapped_text (mk_qp_attr 3 []) [] (1, 2) forecast_qp
      [forecast_wr IBV_WR_SEND 8192] (Some shm_init) = FcDone (Some s')
    /\ (shm_h s' <> 0 -> exists a, shm_amount s' !! Z.to_nat 0 = Some a
         /\ cstr (am_gid a) = [49; 48; 46; 48; 46; 48; 46; 50]).
Proof.
  apply (flow_forecast_v4_destination mapped_text (mk_qp_attr 3 []) [] (1, 2) forecast_qp
    [forecast_wr IBV_WR_SEND 8192] shm_init).
  - apply shm_init_wf.
  - vm_compute; discriminate.
  - vm_compute; discriminate.
  - reflexivity.
  - repeat constructor; discriminate.
  - simpl; lia.
Defined.

(** The QP cache is coherent with itself and never expires: once a QP number
    has been resolved, every later lookup of that number returns the same path MTU
    and destination, without consulting the QP's current attributes. *)
Theorem cache_lookup_sticky ntop attr q cache p g cache' :
  length cache = Z.to_nat CACHE_NUM ->
  cache_lookup ntop attr q cache = Some (p, g, cache') ->
  forall ntop' attr', cache_lookup ntop' attr' q cache' = Some (p, g, cache').
Proof.
  intros Hlen H ntop' attr'.
  assert (Z.to_nat (q mod CACHE_NUM) < length cache)%nat as Hk.
  { rewrite Hlen. pose proof (Z.mod_pos_bound q CACHE_NUM). unfold CACHE_NUM in *. lia. }
  unfold cache_lookup in H. destruct (ca_qp_num _ =? q) eqn:E.
  { injection H as <- <- <-. unfold cache_lookup. by rewrite E. }
  destruct (after_last_colon _) as [r|]; [|done].
  injection H as <- <- <-. unfold cache_lookup.
  rewrite nth_lookup, list_lookup_insert_eq by done. simpl. rewrite Z.eqb_refl.
  unfold strncpy. by rewrite !strncpy_chars_idemp.
Qed.

Lemma cache_lookup_sticky_witness :
  match cache_lookup mapped_text (mk_qp_attr 3 []) 42 (shm_cache shm_init) with
  | Some (p, g, c) => cache_lookup (fun _ => []) (mk_qp_attr 5 []) 42 c = Some (p, g, c)
  | None => False
  end.
Proof.
  destruct (cache_lookup mapped_text _ _ _) as [[[p g] c]|] eqn:E;
    [|by vm_compute in E].
  refine (cache_lookup_sticky _ _ _ _ _ _ _ _ E _ _). apply length_replicate.
Defined.

Lemma cstr_zeros k : cstr (replicate k 0) = [].
Proof. by destruct k. Qed.

(** The destination text is written into a 30-byte buffer, smaller than the
    longest IPv6 text: for a first forecast whose address text has 30 characters or
    more (a GID with few zero groups), the buffer stays empty, [strrchr] finds no
    colon and the code reads through the null result. *)
Theorem flow_forecast_long_gid_faults ntop attr name clk qp wrs s :
  1024 <= flow_size wrs ->
  ca_qp_num (nth (Z.to_nat (qp_num qp mod CACHE_NUM)) (shm_cache s) zero_cache) <> qp_num qp ->
  (30 <= length (ntop (qa_dgid attr)))%nat ->
  flow_forecast ntop attr name clk qp wrs (Some s) = FcFault.
Proof.
  intros Hf Hm Hl. unfold flow_forecast, cache_lookup.
  rewrite (proj2 (Z.ltb_ge _ _) Hf), (proj2 (Z.eqb_neq _ _) Hm).
  unfold ntop_into_30. rewrite (proj2 (Nat.ltb_ge _ _) Hl).
  by rewrite cstr_zeros.
Qed.

(** 2001:0db8:1111:2222:3333:4444:5555:6666 has 38 characters. *)
Lemma flow_forecast_long_gid_faults_witness :
  flow_forecast (fun _ => replicate 38 49) (mk_qp_attr 3 []) [] (1, 2) forecast_qp
    [forecast_wr IBV_WR_SEND 8192] (Some shm_init) = FcFault.
Proof.
  apply flow_forecast_long_gid_faults; [by vm_compute|by vm_compute|].
  rewrite length_replicate. lia.
Defined.
