(* ===== verification/FlowSync.v ===== *)
(** The reader of the forecast table: the main loop of sync/client.cpp.

    The client polls the shared table, fills in the sender address of every new
    record and writes the records to the controller's socket.  [client_drain] is
    one iteration of the loop when the producer is quiet; [cstep] is the same
    iteration as single accesses to shared memory, interleaved with the producer
    (the mutex calls around both are commented out in the source).

    The table promises its users a FIFO queue: [contents] is the abstract queue a
    table represents, and the class [RecordQueue] states the two laws producer and
    consumer rely on. *)

From stdpp Require Import base numbers list relations.
From S2P Require Import Prelude Types Forecast.

(** * One iteration of the client *)

Section Client.

(** [name_to_ip], built from show_gids at start-up; an unknown name maps to the
    empty string ([std::map::operator[]]). *)
Context (name_to_ip : list Z -> list Z).

(** [strncpy(shm->amount[idx].ip, name_to_ip[shm->amount[idx].name].c_str(), 32)] *)
Definition fill_ip (a : Amount) : Amount :=
  mk_amount (am_gid a) (am_name a) (strncpy (am_ip a) (name_to_ip (cstr (am_name a))) 32)
            (am_tx a) (am_rx a) (am_tm a).

(** [for (idx = i; idx < i + n; idx++)] over the records. *)
Fixpoint fill_range (i n : nat) (l : list Amount) : list Amount :=
  match n with
  | O => l
  | S k => fill_range (S i) k (<[i := fill_ip (nth i l zero_amount)]> l)
  end.

(** The records at indices [i .. j-1]. *)
Definition slice (i j : nat) (l : list Amount) : list Amount := take (j - i) (drop i l).

Definition set_t (t : Z) (s : SHM) : SHM := mk_shm t (shm_h s) (shm_amount s) (shm_cache s).
Definition set_amount (l : list Amount) (s : SHM) : SHM :=
  mk_shm (shm_t s) (shm_h s) l (shm_cache s).

(** The branch [shm->t < shm->h]: fill, write [t, h), advance [t]. *)
Definition drain_up (s : SHM) : list Amount * SHM :=
  let t := Z.to_nat (shm_t s) in
  let h := Z.to_nat (shm_h s) in
  let l := fill_range t (h - t) (shm_amount s) in
  (slice t h l, set_t (shm_h s) (set_amount l s)).

(** One pass of the loop body: the records written to the socket, the table after. *)
Definition client_drain (s : SHM) : list Amount * SHM :=
  if shm_t s <? shm_h s then drain_up s
  else if shm_h s <? shm_t s then
    let t := Z.to_nat (shm_t s) in
    let n := Z.to_nat FLOW_NUM in
    let l := fill_range t (n - t) (shm_amount s) in
    let s1 := set_t 0 (set_amount l s) in
    let w1 := slice t n l in
    if shm_t s1 <? shm_h s1 then
      let '(w2, s2) := drain_up s1 in (w1 ++ w2, s2)
    else (w1, s1)
  else ([], s).

(** * The queue a table represents *)

Definition contents (s : SHM) : list Amount :=
  let t := Z.to_nat (shm_t s) in
  let h := Z.to_nat (shm_h s) in
  if shm_t s <=? shm_h s then slice t h (shm_amount s)
  else drop t (shm_amount s) ++ take h (shm_amount s).

Lemma take_insert_snoc (h : nat) (a : Amount) l :
  (h < length l)%nat -> take (S h) (<[h := a]> l) = take h l ++ [a].
Proof.
  intros ?. erewrite take_S_r by (by apply list_lookup_insert_eq).
  by rewrite take_insert_ge by lia.
Qed.

Lemma slice_insert_snoc (t h : nat) (a : Amount) l :
  (t <= h < length l)%nat -> slice t (S h) (<[h := a]> l) = slice t h l ++ [a].
Proof.
  intros ?. unfold slice. rewrite drop_insert_ge by lia.
  replace (S h - t)%nat with (S (h - t)) by lia.
  apply take_insert_snoc. rewrite length_drop. lia.
Qed.

Lemma length_contents s :
  shm_wf s -> Z.of_nat (length (contents s)) =
    if shm_t s <=? shm_h s then shm_h s - shm_t s else FLOW_NUM - shm_t s + shm_h s.
Proof.
  intros [Ht Hh Ha _]. unfold contents, slice. destruct_ifs.
  - rewrite length_take, length_drop, Ha. lia.
  - rewrite length_app, length_take, length_drop, Ha. lia.
Qed.

(** The record a push leaves at the producer index. *)
Definition pushed gid name tx rx tm (s : SHM) : Amount :=
  let old := nth (Z.to_nat (shm_h s)) (shm_amount s) zero_amount in
  mk_amount (strncpy (am_gid old) gid 16) (strncpy (am_name old) name 64) (am_ip old) tx rx tm.

Lemma push_contents gid name tx rx tm s :
  shm_wf s -> Z.of_nat (length (contents s)) < FLOW_NUM - 1 ->
  contents (push_amount gid name tx rx tm s) = contents s ++ [pushed gid name tx rx tm s].
Proof.
  intros Hs Hlen. rewrite length_contents in Hlen by done. destruct Hs as [Ht Hh Ha _].
  unfold contents, push_amount; simpl. fold (pushed gid name tx rx tm s).
  rewrite Z.rem_mod_nonneg by (unfold FLOW_NUM in *; lia).
  destruct (Z.leb_spec (shm_t s) (shm_h s)).
  - destruct (decide (shm_h s = FLOW_NUM - 1)) as [E|].
    + replace ((shm_h s + 1) mod FLOW_NUM) with 0
        by (rewrite E; by vm_compute).
      rewrite (proj2 (Z.leb_gt _ _)) by lia. simpl take. rewrite app_nil_r.
      rewrite <- slice_insert_snoc by (rewrite Ha; lia). unfold slice.
      rewrite take_ge; [done|]. rewrite length_drop, length_insert, Ha. lia.
    + rewrite Z.mod_small by lia. rewrite (proj2 (Z.leb_le _ _)) by lia.
      rewrite <- slice_insert_snoc by (rewrite Ha; lia). f_equal. lia.
  - rewrite Z.mod_small by lia. rewrite (proj2 (Z.leb_gt _ _)) by lia.
    rewrite drop_insert_lt by lia.
    replace (Z.to_nat (shm_h s + 1)) with (S (Z.to_nat (shm_h s))) by lia.
    rewrite take_insert_snoc by (rewrite Ha; lia). by rewrite app_assoc.
Qed.

(** The table has no room for its last slot and does not check for it: a push
    when 9999 records are pending makes both indices equal, so all 10000 records
    disappear from the queue the client reads. *)
Theorem push_on_full_loses_everything gid name tx rx tm s :
  shm_wf s -> Z.of_nat (length (contents s)) = FLOW_NUM - 1 ->
  contents (push_amount gid name tx rx tm s) = []
  /\ client_drain (push_amount gid name tx rx tm s) = ([], push_amount gid name tx rx tm s).
Proof.
  intros Hs Hlen. rewrite length_contents in Hlen by done. destruct Hs as [Ht Hh Ha _].
  assert (shm_t s = Z.rem (shm_h s + 1) FLOW_NUM) as E.
  { rewrite Z.rem_mod_nonneg by (unfold FLOW_NUM in *; lia).
    destruct (Z.leb_spec (shm_t s) (shm_h s)).
    - replace (shm_h s) with (FLOW_NUM - 1) by lia. vm_compute (_ mod _). lia.
    - rewrite Z.mod_small by lia. lia. }
  unfold contents, client_drain, push_amount; simpl. rewrite <- E.
  rewrite Z.leb_refl, Z.ltb_irrefl. unfold slice. by rewrite Nat.sub_diag.
Qed.

Lemma fill_range_spec n i l :
  (i + n <= length l)%nat ->
  fill_range i n l = take i l ++ (fill_ip <$> take n (drop i l)) ++ drop (i + n) l.
Proof.
  revert i l. induction n as [|n IH]; intros i l Hl; simpl.
  { by rewrite Nat.add_0_r, take_drop. }
  destruct (lookup_lt_is_Some_2 l i) as [a Ea]; [lia|].
  rewrite (nth_lookup_Some _ _ _ _ Ea).
  rewrite IH by (rewrite length_insert; lia).
  rewrite take_insert_snoc, drop_insert_lt, drop_insert_lt by lia.
  rewrite (drop_S l a i Ea). simpl. rewrite <- app_assoc. simpl.
  by replace (i + S n)%nat with (S (i + n)) by lia.
Qed.

Lemma length_fill_range n i l : length (fill_range i n l) = length l.
Proof.
  revert i l. induction n as [|n IH]; intros i l; simpl; [done|].
  by rewrite IH, length_insert.
Qed.

Lemma slice_fill_range t h l :
  (t <= h <= length l)%nat -> slice t h (fill_range t (h - t) l) = fill_ip <$> slice t h l.
Proof.
  intros ?. rewrite fill_range_spec by lia. unfold slice.
  rewrite drop_app_length' by (rewrite length_take; lia).
  rewrite take_app_length'; [done|]. rewrite length_fmap, length_take, length_drop. lia.
Qed.

Lemma take_fill_range h i n l : (h <= i)%nat -> (i + n <= length l)%nat ->
  take h (fill_range i n l) = take h l.
Proof.
  intros ??. rewrite fill_range_spec by lia.
  rewrite take_app_le by (rewrite length_take; lia). rewrite take_take. f_equal. lia.
Qed.

Lemma slice_full t l : slice t (length l) l = drop t l.
Proof. unfold slice. rewrite take_ge; [done|]. rewrite length_drop. lia. Qed.

Lemma slice_nil t l : slice t t l = [].
Proof. unfold slice. by rewrite Nat.sub_diag. Qed.

(** One client pass delivers the queue in order and leaves it empty. *)
Lemma client_drain_spec s :
  shm_wf s ->
  fst (client_drain s) = fill_ip <$> contents s
  /\ contents (snd (client_drain s)) = []
  /\ shm_wf (snd (client_drain s)).
Proof.
  intros [Ht Hh Ha Hc]. unfold client_drain, contents.
  destruct (Z.ltb_spec (shm_t s) (shm_h s)).
  { rewrite (proj2 (Z.leb_le (shm_t s) _)) by lia. simpl. rewrite Z.leb_refl.
    rewrite slice_nil. split_and!; [|done|].
    - apply slice_fill_range. rewrite Ha. lia.
    - split; simpl; [done..| |done]. by rewrite length_fill_range. }
  destruct (Z.ltb_spec (shm_h s) (shm_t s)).
  2: { assert (shm_t s = shm_h s) as E by lia. rewrite E. simpl. rewrite E, Z.leb_refl.
       rewrite slice_nil. by split_and!. }
  rewrite (proj2 (Z.leb_gt (shm_t s) _)) by lia. simpl.
  rewrite <- Ha, <- slice_full, fmap_app.
  destruct (Z.ltb_spec 0 (shm_h s)); simpl.
  - rewrite Z.leb_refl, slice_nil. split_and!; [|done|].
    + rewrite slice_fill_range by (rewrite ?Ha; lia). f_equal.
      rewrite slice_fill_range by (rewrite length_fill_range, ?Ha; lia).
      f_equal. unfold slice. rewrite drop_0, Nat.sub_0_r.
      by rewrite take_fill_range by (rewrite ?Ha; lia).
    + split; simpl; [unfold FLOW_NUM in *; lia..| |done]. by rewrite !length_fill_range.
  - assert (shm_h s = 0) as -> by lia. simpl. rewrite app_nil_r. split_and!.
    + rewrite slice_fill_range by (rewrite ?Ha; lia). done.
    + done.
    + split; simpl; [unfold FLOW_NUM in *; lia..| |done]. by rewrite !length_fill_range.
Qed.

End Client.

(** * The contract between producer and client *)

(** Arguments of one append by [flow_forecast]. *)
Record push_args : Type := mk_push {
  pa_gid : list Z; pa_name : list Z; pa_tx : Z; pa_rx : Z; pa_tm : Z
}.

(** The part of a record the producer writes. *)
Definition rec_key (a : Amount) : list Z * list Z * Z * Z * Z :=
  (take 16 (am_gid a), take 64 (am_name a), am_tx a, am_rx a, am_tm a).
Definition arg_key (p : push_args) : list Z * list Z * Z * Z * Z :=
  (strncpy_chars 16 (pa_gid p), strncpy_chars 64 (pa_name p), pa_tx p, pa_rx p, pa_tm p).

Definition push (p : push_args) (s : SHM) : SHM :=
  push_amount (pa_gid p) (pa_name p) (pa_tx p) (pa_rx p) (pa_tm p) s.

(** What the table promises: a bounded FIFO of records. *)
Class RecordQueue {Q : Type} (qpush : push_args -> Q -> Q) (qdrain : Q -> list Amount * Q) := {
  rq_wf : Q -> Prop;
  rq_queue : Q -> list Amount;
  rq_capacity : Z;
  rq_push_wf p q : rq_wf q -> rq_wf (qpush p q);
  rq_push_queue p q :
    rq_wf q -> Z.of_nat (length (rq_queue q)) < rq_capacity ->
    rec_key <$> rq_queue (qpush p q) = (rec_key <$> rq_queue q) ++ [arg_key p];
  rq_drain_wf q : rq_wf q -> rq_wf (snd (qdrain q));
  rq_drain_queue q :
    rq_wf q -> rec_key <$> fst (qdrain q) = rec_key <$> rq_queue q
               /\ rq_queue (snd (qdrain q)) = []
}.

Inductive table_op : Type := OpPush (p : push_args) | OpDrain.

Section Delivery.
Context {Q : Type} {qpush : push_args -> Q -> Q} {qdrain : Q -> list Amount * Q}
        `{RQ : !RecordQueue qpush qdrain}.

(** Run a sequence of operations; collect what the client wrote to the socket. *)
Fixpoint run_ops (ops : list table_op) (q : Q) : list Amount * Q :=
  match ops with
  | [] => ([], q)
  | OpPush p :: ops => run_ops ops (qpush p q)
  | OpDrain :: ops =>
      let '(w, q1) := qdrain q in let '(ws, q2) := run_ops ops q1 in (w ++ ws, q2)
  end.

(** At most [cap] records are pending before every push, [n] of them at the start. *)
Fixpoint bounded (cap n : Z) (ops : list table_op) : bool :=
  match ops with
  | [] => true
  | OpPush _ :: ops => (n <? cap) && bounded cap (n + 1) ops
  | OpDrain :: ops => bounded cap 0 ops
  end.

Definition pushes (ops : list table_op) : list push_args :=
  omap (fun o => match o with OpPush p => Some p | OpDrain => None end) ops.

Lemma delivery_in_order ops q :
  rq_wf q -> bounded rq_capacity (Z.of_nat (length (rq_queue q))) ops = true ->
  let '(ws, q') := run_ops ops q in
  (rec_key <$> ws) ++ (rec_key <$> rq_queue q')
  = (rec_key <$> rq_queue q) ++ (arg_key <$> pushes ops).
Proof.
  revert q. induction ops as [|[p|] ops IH]; intros q Hq Hb; simpl in *.
  - by rewrite app_nil_r.
  - apply andb_true_iff in Hb as [Hn Hb].
    pose proof (rq_push_queue p q Hq ltac:(lia)) as E.
    specialize (IH (qpush p q) (rq_push_wf p q Hq)).
    replace (Z.of_nat (length (rq_queue (qpush p q))))
      with (Z.of_nat (length (rq_queue q)) + 1) in IH.
    2: { apply (f_equal length) in E. rewrite length_app, !length_fmap in E. simpl in E. lia. }
    specialize (IH Hb). destruct (run_ops ops (qpush p q)) as [ws q'].
    rewrite IH, E, <- app_assoc. done.
  - destruct (rq_drain_queue q Hq) as [E1 E2]. pose proof (rq_drain_wf q Hq) as Hw.
    destruct (qdrain q) as [w q1]; simpl in *.
    specialize (IH q1 Hw). rewrite E2 in IH. specialize (IH Hb).
    destruct (run_ops ops q1) as [ws q2]. simpl in IH.
    by rewrite fmap_app, <- app_assoc, IH, E1.
Qed.

End Delivery.

(** ** The shared table implements the contract *)

Lemma rec_key_fill_ip n a : rec_key (fill_ip n a) = rec_key a.
Proof. done. Qed.

Lemma rec_key_pushed p s :
  rec_key (pushed (pa_gid p) (pa_name p) (pa_tx p) (pa_rx p) (pa_tm p) s) = arg_key p.
Proof.
  unfold rec_key, arg_key, pushed, strncpy. cbn [am_gid am_name am_tx am_rx am_tm].
  rewrite !take_app_length' by (by rewrite length_strncpy_chars). done.
Qed.

#[global] Program Instance shm_record_queue name_to_ip :
    RecordQueue push (client_drain name_to_ip) := {
  rq_wf := shm_wf;
  rq_queue := contents;
  rq_capacity := FLOW_NUM - 1
}.
Next Obligation. intros ? p q Hq. by apply push_amount_wf. Qed.
Next Obligation.
  intros ? p q Hq Hn. unfold push. rewrite push_contents by done.
  rewrite fmap_app. simpl. by rewrite rec_key_pushed.
Qed.
Next Obligation. intros n q Hq. by apply (client_drain_spec n q Hq). Qed.
Next Obligation.
  intros n q Hq. destruct (client_drain_spec n q Hq) as (-> & E & _). split; [|done].
  rewrite <- list_fmap_compose. by apply list_fmap_ext.
Qed.

(** Starting from the freshly allocated table, for any interleaving of
    appends and client passes in which fewer than 10000 records are ever pending,
    the client delivers exactly the appended records, in order and without
    duplicates; what is not yet delivered is still queued. *)
Theorem client_delivers_all name_to_ip ops :
  bounded (FLOW_NUM - 1) 0 ops = true ->
  let '(ws, s) := run_ops (qpush := push) (qdrain := client_drain name_to_ip) ops shm_init in
  (rec_key <$> ws) ++ (rec_key <$> contents s) = arg_key <$> pushes ops.
Proof.
  intros Hb.
  assert (contents shm_init = []) as E by apply slice_nil.
  pose proof (delivery_in_order (RQ := shm_record_queue name_to_ip) ops shm_init shm_init_wf) as H.
  cbn [rq_queue rq_capacity shm_record_queue] in H. rewrite E in H. exact (H Hb).
Qed.

Definition push_ab : list table_op :=
  [OpPush (mk_push [97] [] 1 2 3); OpDrain; OpPush (mk_push [98] [] 4 5 6); OpDrain].

Lemma client_delivers_all_witness :
  bounded (FLOW_NUM - 1) 0 push_ab = true /\
  let '(ws, s) := run_ops (qpush := push) (qdrain := client_drain (fun _ => [])) push_ab shm_init in
  (rec_key <$> ws) ++ (rec_key <$> contents s) = arg_key <$> pushes push_ab.
Proof. split; [reflexivity|]. apply (client_delivers_all (fun _ => []) push_ab). reflexivity. Defined.

(** A table with 9999 pending records. *)
Definition full_shm : SHM := mk_shm 0 (FLOW_NUM - 1) (shm_amount shm_init) (shm_cache shm_init).

Lemma push_on_full_loses_everything_witness :
  contents (push_amount [] [] 1 2 3 full_shm) = [].
Proof.
  apply (push_on_full_loses_everything (fun _ => [])); [|by vm_compute].
  destruct shm_init_wf. split; simpl; [unfold FLOW_NUM; lia..|done|done].
Defined.

(** * The client against a running producer

    One step is one access of the client to the shared table, or one append of
    the producer, in any order. *)

Inductive cpc : Type :=
| PCheck                 (* if (shm->t < shm->h) ... else if (shm->t > shm->h) *)
| PFill (idx : Z)        (* for (idx = shm->t; idx < shm->h; idx++) *)
| PWrite                 (* sock_write of [t, h) *)
| PSet                   (* shm->t = shm->h *)
| PFillHi (idx : Z)      (* for (idx = shm->t; idx < flow_NUM; idx++) *)
| PWriteHi               (* sock_write of [t, flow_NUM); shm->t = 0 *)
| PCheck0.               (* if (shm->t < shm->h) after the wrap *)

Record cstate : Type := mk_cst { c_pc : cpc; c_shm : SHM; c_sent : list Amount }.

Section Interleaving.
Context (name_to_ip : list Z -> list Z).

Definition fill_at (i : Z) (s : SHM) : SHM :=
  set_amount (<[Z.to_nat i := fill_ip name_to_ip (nth (Z.to_nat i) (shm_amount s) zero_amount)]>
    (shm_amount s)) s.

Inductive cstep : cstate -> cstate -> Prop :=
| step_check_up s w : shm_t s < shm_h s ->
    cstep (mk_cst PCheck s w) (mk_cst (PFill (shm_t s)) s w)
| step_check_hi s w : shm_h s < shm_t s ->
    cstep (mk_cst PCheck s w) (mk_cst (PFillHi (shm_t s)) s w)
| step_check_idle s w : shm_t s = shm_h s ->
    cstep (mk_cst PCheck s w) (mk_cst PCheck s w)
| step_fill i s w : i < shm_h s ->
    cstep (mk_cst (PFill i) s w) (mk_cst (PFill (i + 1)) (fill_at i s) w)
| step_fill_done i s w : shm_h s <= i ->
    cstep (mk_cst (PFill i) s w) (mk_cst PWrite s w)
| step_write s w :
    cstep (mk_cst PWrite s w)
          (mk_cst PSet s (w ++ slice (Z.to_nat (shm_t s)) (Z.to_nat (shm_h s)) (shm_amount s)))
| step_set s w :
    cstep (mk_cst PSet s w) (mk_cst PCheck (set_t (shm_h s) s) w)
| step_fill_hi i s w : i < FLOW_NUM ->
    cstep (mk_cst (PFillHi i) s w) (mk_cst (PFillHi (i + 1)) (fill_at i s) w)
| step_fill_hi_done i s w : FLOW_NUM <= i ->
    cstep (mk_cst (PFillHi i) s w) (mk_cst PWriteHi s w)
| step_write_hi s w :
    cstep (mk_cst PWriteHi s w)
          (mk_cst PCheck0 (set_t 0 s)
             (w ++ slice (Z.to_nat (shm_t s)) (Z.to_nat FLOW_NUM) (shm_amount s)))
| step_check0_up s w : shm_t s < shm_h s ->
    cstep (mk_cst PCheck0 s w) (mk_cst (PFill (shm_t s)) s w)
| step_check0_none s w : shm_h s <= shm_t s ->
    cstep (mk_cst PCheck0 s w) (mk_cst PCheck s w).

(** A step of the whole system: the client, or the producer appending [p]. *)
Inductive sstep : cstate -> cstate -> Prop :=
| step_client c c' : cstep c c' -> sstep c c'
| step_produce pc s w p : sstep (mk_cst pc s w) (mk_cst pc (push p s) w).

Lemma fill_steps n i s w :
  0 <= i -> shm_h s = i + Z.of_nat n ->
  rtc cstep (mk_cst (PFill i) s w)
    (mk_cst PWrite (set_amount (fill_range name_to_ip (Z.to_nat i) n (shm_amount s)) s) w).
Proof.
  revert i s. induction n as [|n IH]; intros i s Hi Hh.
  - eapply rtc_l; [apply step_fill_done; lia|]. destruct s; apply rtc_refl.
  - eapply rtc_l; [apply step_fill; lia|]. specialize (IH (i + 1) (fill_at i s)).
    replace (Z.to_nat (i + 1)) with (S (Z.to_nat i)) in IH by lia.
    apply IH; simpl; lia.
Qed.

Lemma fill_hi_steps n i s w :
  0 <= i -> FLOW_NUM = i + Z.of_nat n ->
  rtc cstep (mk_cst (PFillHi i) s w)
    (mk_cst PWriteHi (set_amount (fill_range name_to_ip (Z.to_nat i) n (shm_amount s)) s) w).
Proof.
  revert i s. induction n as [|n IH]; intros i s Hi Hh.
  - eapply rtc_l; [apply step_fill_hi_done; lia|]. destruct s; apply rtc_refl.
  - eapply rtc_l; [apply step_fill_hi; lia|]. specialize (IH (i + 1) (fill_at i s)).
    replace (Z.to_nat (i + 1)) with (S (Z.to_nat i)) in IH by lia.
    apply IH; simpl; lia.
Qed.

Lemma up_steps s w :
  shm_wf s -> shm_t s <= shm_h s ->
  rtc cstep (mk_cst (PFill (shm_t s)) s w)
    (mk_cst PCheck (snd (drain_up name_to_ip s)) (w ++ fst (drain_up name_to_ip s))).
Proof.
  intros [Ht Hh Ha Hc] ?.
  etrans; [apply (fill_steps (Z.to_nat (shm_h s) - Z.to_nat (shm_t s))); lia|].
  eapply rtc_l; [apply step_write|]. eapply rtc_l; [apply step_set|]. apply rtc_refl.
Qed.

(** While the producer is quiet, the single-access client computes exactly
    one [client_drain]: some run of client steps goes from the check at the top of
    the loop back to it, with the records and the table of [client_drain]. *)
Theorem client_steps_refine_drain s w :
  shm_wf s ->
  rtc cstep (mk_cst PCheck s w)
    (mk_cst PCheck (snd (client_drain name_to_ip s)) (w ++ fst (client_drain name_to_ip s))).
Proof.
  intros Hs. unfold client_drain.
  destruct (Z.ltb_spec (shm_t s) (shm_h s)).
  { eapply rtc_l; [by apply step_check_up|]. apply up_steps; [done|lia]. }
  destruct (Z.ltb_spec (shm_h s) (shm_t s)).
  2: { rewrite app_nil_r. apply rtc_refl. }
  pose proof Hs as [Ht Hh Ha Hc].
  eapply rtc_l; [by apply step_check_hi|].
  etrans; [apply (fill_hi_steps (Z.to_nat FLOW_NUM - Z.to_nat (shm_t s))); lia|].
  eapply rtc_l; [apply step_write_hi|]. cbn [shm_t shm_h set_t set_amount shm_amount].
  destruct (Z.ltb_spec 0 (shm_h s)).
  - eapply rtc_l; [by apply step_check0_up|].
    set (s1 := set_t 0 _). rewrite (surjective_pairing (drain_up name_to_ip s1)).
    cbn [fst snd]. rewrite (app_assoc w). apply up_steps; [|simpl; lia].
    split; simpl; [unfold FLOW_NUM in *; lia..| |done]. by rewrite length_fill_range.
  - eapply rtc_l; [by apply step_check0_none|]. apply rtc_refl.
Qed.

(** Without the mutex a record can be lost: if the producer appends between
    the client's [sock_write] and its [shm->t = shm->h], the client reports the
    older records, finds its queue empty and never sends the new one. *)
Theorem unlocked_append_is_lost (s : SHM) w (p : push_args) :
  shm_wf s -> shm_t s < shm_h s -> shm_h s + 1 < FLOW_NUM ->
  exists s1 s',
    let w' := w ++ (fill_ip name_to_ip <$> contents s) in
    rtc cstep (mk_cst PCheck s w) (mk_cst PSet s1 w')
    /\ sstep (mk_cst PSet s1 w') (mk_cst PSet (push p s1) w')
    /\ cstep (mk_cst PSet (push p s1) w') (mk_cst PCheck s' w')
    /\ contents s' = [] /\ shm_h s' = shm_h s + 1.
Proof.
  intros Hs Htr Hroom. pose proof Hs as [Ht Hh Ha Hc].
  set (l := fill_range name_to_ip (Z.to_nat (shm_t s))
              (Z.to_nat (shm_h s) - Z.to_nat (shm_t s)) (shm_amount s)).
  exists (set_amount l s), (set_t (shm_h s + 1) (push p (set_amount l s))).
  assert (Z.rem (shm_h s + 1) FLOW_NUM = shm_h s + 1) as E by (apply Z.rem_small; lia).
  intros w'. split_and!.
  - eapply rtc_l; [by apply step_check_up|].
    etrans; [apply (fill_steps (Z.to_nat (shm_h s) - Z.to_nat (shm_t s))); lia|].
    eapply rtc_l; [apply step_write|]. fold l. subst w'.
    cbn [shm_t shm_h shm_amount set_amount].
    assert (slice (Z.to_nat (shm_t s)) (Z.to_nat (shm_h s)) l = fill_ip name_to_ip <$> contents s)
      as ->; [|apply rtc_refl].
    unfold contents. rewrite (proj2 (Z.leb_le (shm_t s) _)) by lia.
    apply slice_fill_range. rewrite Ha. lia.
  - apply step_produce.
  - rewrite <- E. apply step_set.
  - unfold contents. simpl. rewrite E, Z.leb_refl. apply slice_nil.
  - simpl. done.
Qed.

End Interleaving.

(** A table with one pending record. *)
Definition one_shm : SHM := push (mk_push [97] [] 1 2 3) shm_init.

Lemma one_shm_wf : shm_wf one_shm.
Proof. apply push_amount_wf, shm_init_wf. Qed.

Lemma client_steps_refine_drain_witness :
  rtc (cstep (fun _ => [])) (mk_cst PCheck one_shm [])
    (mk_cst PCheck (snd (client_drain (fun _ => []) one_shm))
       ([] ++ fst (client_drain (fun _ => []) one_shm))).
Proof. apply client_steps_refine_drain, one_shm_wf. Defined.

Lemma unlocked_append_is_lost_witness :
  let p := mk_push [98] [] 4 5 6 in
  exists s1 s',
    let w' := [] ++ (fill_ip (fun _ => []) <$> contents one_shm) in
    rtc (cstep (fun _ => [])) (mk_cst PCheck one_shm []) (mk_cst PSet s1 w')
    /\ sstep (fun _ => []) (mk_cst PSet s1 w') (mk_cst PSet (push p s1) w')
    /\ cstep (fun _ => []) (mk_cst PSet (push p s1) w') (mk_cst PCheck s' w')
    /\ contents s' = [] /\ shm_h s' = shm_h one_shm + 1.
Proof.
  apply (unlocked_append_is_lost (fun _ => []) one_shm [] (mk_push [98] [] 4 5 6));
    [apply one_shm_wf|by vm_compute|by vm_compute].
Defined.
