(* ===== verification/Wqe.v ===== *)
(** Work-queue elements of the send queue (providers/mlx5/qp.c, wqe.h).

    The opcode table, the ring of 64-byte basic blocks, the overflow check and the
    functions that write one segment of a work-queue element.  A function that
    writes through a fixed pointer is a memory transformer.  A function that
    moves the caller's [seg] and [size] ([void **seg, int *size]), can fail, or
    both, is a computation of [W]: a state-and-error monad whose state holds the
    caller's locals and survives an error return, because the source leaves the
    bytes it wrote and the locals it changed in place when it returns an error. *)

From stdpp Require Import base numbers list.
From S2P Require Import Prelude Mem Types.

(** * The opcode table *)

(** [mlx5_ib_opcode[]], indexed by [enum ibv_wr_opcode] *)
Definition mlx5_ib_opcode : list Z :=
  [ MLX5_OPCODE_RDMA_WRITE; MLX5_OPCODE_RDMA_WRITE_IMM; MLX5_OPCODE_SEND;
    MLX5_OPCODE_SEND_IMM; MLX5_OPCODE_RDMA_READ; MLX5_OPCODE_ATOMIC_CS;
    MLX5_OPCODE_ATOMIC_FA; MLX5_OPCODE_UMR; MLX5_OPCODE_UMR;
    MLX5_OPCODE_SEND_INVAL; MLX5_OPCODE_TSO; MLX5_OPCODE_UMR ].

(** * The ring *)

Definition mlx5_get_send_wqe (qp : mlx5_qp) (n : Z) : Z :=
  sq_start qp + Z.shiftl n MLX5_SEND_WQE_SHIFT.

Definition mlx5_init_qp_indices (qp : mlx5_qp) : mlx5_qp :=
  set_rq (set_wq_tail 0 (set_wq_head 0 (rq qp)))
    (set_sq (set_cur_post 0 (set_wq_tail 0 (set_wq_head 0 (sq qp)))) qp).

(** [mlx5_wq_overflow(wq, nreq, cq)].  A poller may advance [wq->tail]
    concurrently: [tail1] is the value of the unlocked read, [tail2] the one read
    under [cq->lock]. *)
Definition mlx5_wq_overflow (wq : mlx5_wq) (nreq tail1 tail2 : Z) : bool :=
  let cur := u32 (wq_head wq - tail1) in
  if u32 (cur + nreq) <? max_post wq then false
  else let cur := u32 (wq_head wq - tail2) in u32 (cur + nreq) >=? max_post wq.

(** * Segment writers *)

Definition set_raddr_seg (rseg remote_addr rkey : Z) (m : mem) : mem :=
  store_be 4 (rseg + 12) 0
    (store_be 4 (rseg + 8) rkey (store_be 8 rseg remote_addr m)).

(** [_set_atomic_seg] / [set_atomic_seg]: a fetch-and-add leaves [compare] as it is *)
Definition set_atomic_seg (aseg opcode swap compare_add : Z) (m : mem) : mem :=
  if opcode =? IBV_WR_ATOMIC_CMP_AND_SWP
  then store_be 8 (aseg + 8) compare_add (store_be 8 aseg swap m)
  else store_be 8 aseg compare_add m.

(** [_set_datagram_seg]: copy the address vector, then the QPN and the Q_Key *)
Definition _set_datagram_seg (dseg av remote_qpn remote_qkey : Z) (m : mem) : mem :=
  store_be 4 dseg remote_qkey
    (store_be 4 (dseg + 8) (Z.lor remote_qpn MLX5_EXTENDED_UD_AV)
       (memcpy dseg av sizeof_datagram_seg m)).

Definition set_datagram_seg (dseg : Z) (wr : ibv_send_wr) (m : mem) : mem :=
  _set_datagram_seg dseg (ud_av wr) (ud_remote_qpn wr) (ud_remote_qkey wr) m.

Definition set_data_ptr_seg (dseg : Z) (sg : ibv_sge) (offset : Z) (m : mem) : mem :=
  store_be 8 (dseg + 8) (sge_addr sg + offset)
    (store_be 4 (dseg + 4) (sge_lkey sg)
       (store_be 4 dseg (sge_length sg - offset) m)).

Definition MLX5_ATOMIC_SIZE : Z := 8.

Definition set_data_ptr_seg_atomic (dseg : Z) (sg : ibv_sge) (m : mem) : mem :=
  store_be 8 (dseg + 8) (sge_addr sg)
    (store_be 4 (dseg + 4) (sge_lkey sg) (store_be 4 dseg MLX5_ATOMIC_SIZE m)).

Definition set_data_ptr_seg_end (dseg : Z) (m : mem) : mem :=
  store_be 8 (dseg + 8) 0
    (store_be 4 (dseg + 4) MLX5_INVALID_LKEY (store_be 4 dseg 0 m)).

(** [send_ieth]; immediate data is the number whose big-endian bytes the caller
    supplied in [imm_data]. *)
Definition send_ieth (wr : ibv_send_wr) : Z :=
  if (opcode wr =? IBV_WR_SEND_WITH_IMM) || (opcode wr =? IBV_WR_RDMA_WRITE_WITH_IMM)
  then imm_data wr
  else if opcode wr =? IBV_WR_SEND_WITH_INV then invalidate_rkey wr
  else 0.

(** [calc_sig] of mlx5.h: the complement of the xor of [size] bytes *)
Fixpoint xor_bytes (n : nat) (p : Z) (m : mem) (res : Z) : Z :=
  match n with
  | O => res
  | S n' => xor_bytes n' (p + 1) m (Z.lxor res (m p))
  end.

Definition calc_sig (wqe size : Z) (m : mem) : Z :=
  u8 (Z.lnot (xor_bytes (Z.to_nat size) wqe m 0)).

(** [wq_sig(ctrl)]; the ring is read linearly from [ctrl] *)
Definition wq_sig_of (ctrl : Z) (m : mem) : Z :=
  calc_sig ctrl (Z.shiftl (Z.land (load_be 4 (ctrl + 4) m) 0x3f) 4) m.

(** [mlx5_get_atomic_laddr]: the local address and byte count of an atomic WQE *)
Definition mlx5_get_atomic_laddr (qp : mlx5_qp) (idx : Z) (m : mem) : Z * Z :=
  let dpseg := mlx5_get_send_wqe qp idx + sizeof_ctrl_seg + sizeof_raddr_seg
               + sizeof_atomic_seg in
  (load_be 8 (dpseg + 8) m, 8).

(** * Computations over the caller's locals *)

Inductive outcome : Type := Ok | Err (e : Z) | Fault.

#[global] Instance outcome_eq_dec : EqDecision outcome.
Proof. solve_decision. Defined.

(** The locals of [_mlx5_post_send] that one work request changes, with the memory
    and the slot [sq.wr_data[idx]]. *)
Record wqe_st : Type := mk_ws {
  ws_mem : mem;
  ws_seg : Z;
  ws_size : Z;
  ws_scp : mlx5_sg_copy_ptr;
  ws_max_tso : Z;
  ws_next_fence : Z;
  ws_wr_data : Z
}.

Definition set_ws_mem (v : mem) (s : wqe_st) : wqe_st :=
  mk_ws v (ws_seg s) (ws_size s) (ws_scp s) (ws_max_tso s) (ws_next_fence s) (ws_wr_data s).
Definition set_ws_seg (v : Z) (s : wqe_st) : wqe_st :=
  mk_ws (ws_mem s) v (ws_size s) (ws_scp s) (ws_max_tso s) (ws_next_fence s) (ws_wr_data s).
Definition set_ws_size (v : Z) (s : wqe_st) : wqe_st :=
  mk_ws (ws_mem s) (ws_seg s) v (ws_scp s) (ws_max_tso s) (ws_next_fence s) (ws_wr_data s).
Definition set_ws_scp (v : mlx5_sg_copy_ptr) (s : wqe_st) : wqe_st :=
  mk_ws (ws_mem s) (ws_seg s) (ws_size s) v (ws_max_tso s) (ws_next_fence s) (ws_wr_data s).
Definition set_ws_max_tso (v : Z) (s : wqe_st) : wqe_st :=
  mk_ws (ws_mem s) (ws_seg s) (ws_size s) (ws_scp s) v (ws_next_fence s) (ws_wr_data s).
Definition set_ws_next_fence (v : Z) (s : wqe_st) : wqe_st :=
  mk_ws (ws_mem s) (ws_seg s) (ws_size s) (ws_scp s) (ws_max_tso s) v (ws_wr_data s).
Definition set_ws_wr_data (v : Z) (s : wqe_st) : wqe_st :=
  mk_ws (ws_mem s) (ws_seg s) (ws_size s) (ws_scp s) (ws_max_tso s) (ws_next_fence s) v.

Definition W : Type := wqe_st -> outcome * wqe_st.

Definition w_ok : W := fun s => (Ok, s).
Definition w_err (e : Z) : W := fun s => (Err e, s).
Definition w_fault : W := fun s => (Fault, s).
Definition w_seq (c1 c2 : W) : W := fun s =>
  match c1 s with (Ok, s') => c2 s' | r => r end.
Definition w_do (f : wqe_st -> wqe_st) : W := fun s => (Ok, f s).
Definition w_if (b : bool) (c1 c2 : W) : W := if b then c1 else c2.
Definition w_when (b : bool) (c : W) : W := if b then c else w_ok.

Declare Scope w_scope.
Delimit Scope w_scope with W.
Notation "c1 ;; c2" := (w_seq c1 c2) : w_scope.
Open Scope w_scope.

(** Write a segment at [seg]. *)
Definition w_put (f : Z -> mem -> mem) : W :=
  w_do (fun s => set_ws_mem (f (ws_seg s) (ws_mem s)) s).

(** [seg += n; size += n / 16] *)
Definition w_advance (n : Z) : W :=
  w_do (fun s => set_ws_seg (ws_seg s + n) (set_ws_size (ws_size s + n / 16) s)).

(** [if (seg == qend) seg = mlx5_get_send_wqe(qp, 0)] *)
Definition w_wrap (qp : mlx5_qp) : W :=
  w_do (fun s => if ws_seg s =? qend (sq qp) then set_ws_seg (mlx5_get_send_wqe qp 0) s else s).

(** * Inline data *)

(** The loop of [set_data_inl_seg] from the entry [sg_copy_ptr->index] on: [None]
    is the [ENOMEM] return, [Some inl_len] the total inlined. *)
Fixpoint inl_copy (qp : mlx5_qp) (l : list ibv_sge) (offset wqe inl_len : Z) (m : mem)
  : option Z * mem :=
  match l with
  | [] => (Some inl_len, m)
  | sg :: l' =>
    let addr := u64 (sge_addr sg + offset) in
    let len := s32 (sge_length sg - offset) in
    let inl_len := s32 (inl_len + len) in
    if max_inline_data qp <? inl_len then (None, m)
    else if qend (sq qp) <? wqe + len then
      let copy := s32 (qend (sq qp) - wqe) in
      let m := memcpy wqe addr (u64 copy) m in
      let wqe := mlx5_get_send_wqe qp 0 in
      let len := s32 (len - copy) in
      inl_copy qp l' 0 (wqe + len) inl_len (memcpy wqe (addr + copy) (u64 len) m)
    else inl_copy qp l' 0 (wqe + len) inl_len (memcpy wqe addr (u64 len) m)
  end.

(** [set_data_inl_seg(qp, wr, seg, &sz, &sg_copy_ptr)] with the caller's
    [size += sz]; [sz] is left alone on error. *)
Definition set_data_inl_seg (qp : mlx5_qp) (wr : ibv_send_wr) : W := fun s =>
  let seg := ws_seg s in
  match inl_copy qp (drop (Z.to_nat (scp_index (ws_scp s))) (sg_list wr))
          (scp_offset (ws_scp s)) (seg + sizeof_inline_seg) 0 (ws_mem s) with
  | (None, m) => (Err ENOMEM, set_ws_mem m s)
  | (Some inl_len, m) =>
    if inl_len =? 0 then (Ok, set_ws_mem m s)
    else (Ok, set_ws_mem (store_be 4 seg (Z.lor inl_len MLX5_INLINE_SEG) m)
                (set_ws_size (ws_size s + align (inl_len + 4) 16 / 16) s))
  end.

(** * Ethernet headers *)

(** The loop of [copy_eth_inline_headers] for a first entry shorter than the L2
    header: [j], [rest], and the last [length] and [inl_hdr_copy_size]. *)
Fixpoint eth_hdr_loop (eseg : Z) (l : list (Z * Z)) (j rest length copy : Z) (m : mem)
  : Z * Z * Z * Z * mem :=
  match l with
  | [] => (j, rest, length, copy, m)
  | (addr, len) :: l' =>
    if 0 <? rest then
      let copy := Z.min len rest in
      let m := memcpy (eseg + 14 + (MLX5_ETH_L2_INLINE_HEADER_SIZE - rest)) addr copy m in
      eth_hdr_loop eseg l' (j + 1) (u32 (rest - copy)) len copy m
    else (j, rest, length, copy, m)
  end.

(** [copy_eth_inline_headers(ibqp, list, nelem, eseg, sg_copy_ptr, is_sge)] on the
    address/length pairs of the scatter list or of the data buffers *)
Definition copy_eth_inline_headers (ctx : mlx5_context) (l : list (Z * Z)) (eseg : Z)
    (m : mem) (scp : mlx5_sg_copy_ptr) : outcome * mem * mlx5_sg_copy_ptr :=
  let inl_hdr_size := eth_min_inline_size ctx in
  match l with
  | [] => (Err EINVAL, m, scp)
  | (addr, length) :: _ =>
    let '(j, rest, length, copy, m) :=
      if MLX5_ETH_L2_INLINE_HEADER_SIZE <=? length then
        (0, 0, length, inl_hdr_size, memcpy (eseg + 14) addr inl_hdr_size m)
      else
        let '(j, rest, length, copy, m) :=
          eth_hdr_loop eseg l 0 inl_hdr_size length 0 m in
        (if j =? 0 then j else j - 1, rest, length, copy, m) in
    if negb (rest =? 0) then (Err EINVAL, m, scp)
    else
      let m := store_be 2 (eseg + 12) inl_hdr_size m in
      if length =? copy then (Ok, m, mk_scp (j + 1) 0)
      else (Ok, m, mk_scp j copy)
  end.

Definition sge_pair (sg : ibv_sge) : Z * Z := (sge_addr sg, sge_length sg).

(** [set_tso_eth_seg(&seg, hdr, hdr_sz, mss, qp, &size)] *)
Definition set_tso_eth_seg (qp : mlx5_qp) (hdr hdr_sz mss : Z) : W := fun s =>
  let eseg := ws_seg s in
  let m := ws_mem s in
  if (hdr_sz <? MLX5_ETH_L2_MIN_HEADER_SIZE) || (max_tso_header qp <? hdr_sz)
  then (Err EINVAL, s)
  else
    let rest := hdr_sz in
    let m := store_be 2 (eseg + 12) hdr_sz (store_be 2 (eseg + 6) mss m) in
    let left_len := u64 (qend (sq qp) - (eseg + 14)) in
    let copy_sz := Z.min left_len rest in
    let m := memcpy (eseg + 14) hdr copy_sz m in
    let a := align (u64 (copy_sz - 2)) 16 in
    let s := set_ws_mem m (set_ws_seg (ws_seg s + (a - 16)) (set_ws_size (ws_size s + (a / 16 - 1)) s)) in
    if copy_sz <? rest then
      let seg := mlx5_get_send_wqe qp 0 in
      let rest := rest - copy_sz in
      let m := memcpy seg (hdr + copy_sz) rest (ws_mem s) in
      (Ok, set_ws_mem m
             (set_ws_seg (seg + align rest 16) (set_ws_size (ws_size s + align rest 16 / 16) s)))
    else (Ok, s).

(** * Memory windows *)

(** [ALIGN(x, log_a)] and [get_klm_octo]: entries rounded up to eight, in octowords *)
Definition ALIGN (x log_a : Z) : Z :=
  Z.land (x + Z.shiftl 1 log_a - 1) (Z.lnot (Z.shiftl 1 log_a - 1)).
Definition get_klm_octo (nentries : Z) : Z := u16 (ALIGN nentries 3 / 2).

(** [set_umr_control_seg], the writes at [ctrl] *)
Definition umr_control_seg (type : Z) (bi : ibv_mw_bind_info) (ctrl : Z) (m : mem) : mem :=
  let t2 := type =? IBV_MW_TYPE_2 in
  let len := negb (bi_length bi =? 0) in
  let flags := Z.lor (Z.lor MLX5_WQE_UMR_CTRL_FLAG_TRNSLATION_OFFSET MLX5_WQE_UMR_CTRL_FLAG_INLINE)
    (if t2 then if len then MLX5_WQE_UMR_CTRL_FLAG_CHECK_FREE else MLX5_WQE_UMR_CTRL_FLAG_CHECK_QPN
     else 0) in
  let mask :=
    Z.lor (Z.lor MLX5_WQE_UMR_CTRL_MKEY_MASK_FREE MLX5_WQE_UMR_CTRL_MKEY_MASK_MKEY)
    (Z.lor (if t2 then MLX5_WQE_UMR_CTRL_MKEY_MASK_QPN else 0)
      (if len then
         Z.lor MLX5_WQE_UMR_CTRL_MKEY_MASK_LEN
        (Z.lor MLX5_WQE_UMR_CTRL_MKEY_MASK_START_ADDR
        (Z.lor MLX5_WQE_UMR_CTRL_MKEY_MASK_ACCESS_LOCAL_WRITE
        (Z.lor MLX5_WQE_UMR_CTRL_MKEY_MASK_ACCESS_REMOTE_READ
        (Z.lor MLX5_WQE_UMR_CTRL_MKEY_MASK_ACCESS_REMOTE_WRITE
               MLX5_WQE_UMR_CTRL_MKEY_MASK_ACCESS_ATOMIC))))
       else 0)) in
  let m := memset (ctrl + 16) 0 32 (memset (ctrl + 1) 0 3 (store_be 2 (ctrl + 6) 0 m)) in
  store_be 2 (ctrl + 4) (get_klm_octo (if len then 1 else 0))
    (store_be 8 (ctrl + 8) mask (store_be 1 ctrl flags m)).

Definition set_umr_control_seg (type : Z) (bi : ibv_mw_bind_info) : W :=
  w_put (umr_control_seg type bi) ;; w_advance sizeof_umr_ctrl_seg.

(** [set_umr_mkey_seg], the writes at [mkey] *)
Definition umr_mkey_seg (type rkey : Z) (bi : ibv_mw_bind_info) (qpn mkey : Z) (m : mem) : mem :=
  let f bit flag := if has_flag (bi_access_flags bi) bit then flag else 0 in
  let m := store_be 4 (mkey + 4)
    (Z.lor (Z.land rkey 0xFF)
       (if (type =? IBV_MW_TYPE_1) || (bi_length bi =? 0) then 0xFFFFFF00
        else u32 (Z.shiftl qpn 8))) m in
  if negb (bi_length bi =? 0) then
    let m := store_be 1 mkey 0 m in
    let m := store_be 1 (mkey + 2)
      (Z.lor (f IBV_ACCESS_LOCAL_WRITE MLX5_WQE_MKEY_CONTEXT_ACCESS_FLAGS_LOCAL_WRITE)
      (Z.lor (f IBV_ACCESS_REMOTE_WRITE MLX5_WQE_MKEY_CONTEXT_ACCESS_FLAGS_REMOTE_WRITE)
      (Z.lor (f IBV_ACCESS_REMOTE_READ MLX5_WQE_MKEY_CONTEXT_ACCESS_FLAGS_REMOTE_READ)
             (f IBV_ACCESS_REMOTE_ATOMIC MLX5_WQE_MKEY_CONTEXT_ACCESS_FLAGS_ATOMIC)))) m in
    let m := store_be 8 (mkey + 16)
      (if has_flag (bi_access_flags bi) IBV_ACCESS_ZERO_BASED then 0 else bi_addr bi) m in
    store_be 8 (mkey + 24) (bi_length bi) m
  else store_be 1 mkey MLX5_WQE_MKEY_CONTEXT_FREE m.

Definition set_umr_mkey_seg (type rkey : Z) (bi : ibv_mw_bind_info) (qpn : Z) : W :=
  w_put (umr_mkey_seg type rkey bi qpn) ;; w_advance sizeof_mkey_context_seg.

(** [set_umr_data_seg]: one KLM in a 64-byte block; it dereferences
    [bind_info->mr]. *)
Definition umr_data_seg (lkey : Z) (bi : ibv_mw_bind_info) (data : Z) (m : mem) : mem :=
  memset (data + 16) 0 48
    (store_be 8 (data + 8) (bi_addr bi)
       (store_be 4 (data + 4) lkey (store_be 4 data (bi_length bi) m))).

Definition set_umr_data_seg (bi : ibv_mw_bind_info) : W :=
  match bi_mr bi with
  | None => w_fault
  | Some mr => w_put (umr_data_seg (mr_lkey mr) bi) ;; w_advance 64
  end.

(** [set_bind_wr(qp, type, rkey, bind_info, qpn, &seg, &size)]; the [MW_DEBUG]
    checks are not compiled in. *)
Definition set_bind_wr (qp : mlx5_qp) (type rkey : Z) (bi : ibv_mw_bind_info) (qpn : Z) : W :=
  if 2 ^ 31 <? bi_length bi then w_err EOPNOTSUPP
  else
    set_umr_control_seg type bi ;;
    w_wrap qp ;;
    set_umr_mkey_seg type rkey bi qpn ;;
    if bi_length bi =? 0 then w_ok
    else w_wrap qp ;; set_umr_data_seg bi.

(** [struct ibv_mw_bind_info bind_info = {}] *)
Definition null_bind_info : ibv_mw_bind_info := mk_bind_info None 0 0 0.
