(* ===== verification/PostSend.v ===== *)
(** [mlx5_post_send] (providers/mlx5/qp.c): the list of work requests, the segments
    each QP type and opcode needs, the data segments, the accounting of the queue
    and the doorbell.

    [post_send_wr] is one iteration of the loop of [_mlx5_post_send]; the locals that
    the source declares outside the loop are fields of [ps_st] and persist from
    one work request to the next.  The queue tail is advanced by a concurrent
    poller: [tails n] are the two values the overflow check of the [n]-th request
    may read. *)

From stdpp Require Import base numbers list.
From S2P Require Import Prelude Mem Types Wqe Forecast.

(** * Segments selected by the QP type *)

(** [mlx5_post_send_underlay]; the first scatter entry is dereferenced *)
Definition mlx5_post_send_underlay (qp : mlx5_qp) (wr : ibv_send_wr) : W := fun s =>
  if opcode wr =? IBV_WR_SEND_WITH_IMM then (Err EINVAL, s)
  else
    let eseg := ws_seg s + sizeof_eth_pad in
    let m := memset (ws_seg s) 0 sizeof_eth_pad (ws_mem s) in
    let m := store_be 4 (eseg + 8) 0 (store_be 8 eseg 0 m) in
    let csum := has_flag (send_flags wr) IBV_SEND_IP_CSUM in
    if csum && negb (has_flag (qp_cap_cache qp) MLX5_CSUM_SUPPORT_UNDERLAY_UD)
    then (Err EINVAL, set_ws_mem m s)
    else
      let m := if csum then
          store_be 1 (eseg + 4)
            (Z.lor (load_be 1 (eseg + 4) m) (Z.lor MLX5_ETH_WQE_L3_CSUM MLX5_ETH_WQE_L4_CSUM)) m
        else m in
      match sg_list wr with
      | [] => (Fault, set_ws_mem m s)
      | sg0 :: _ =>
        let big := MLX5_SOURCE_QPN_INLINE_MAX_HEADER_SIZE <=? sge_length sg0 in
        let copy :=
          if big && has_flag (send_flags wr) IBV_SEND_INLINE
          then MLX5_SOURCE_QPN_INLINE_MAX_HEADER_SIZE
          else MLX5_IPOIB_INLINE_MIN_HEADER_SIZE in
        if negb big && (sge_length sg0 <? copy) then (Err EINVAL, set_ws_mem m s)
        else
          let m := store_be 2 (eseg + 12) copy (memcpy (eseg + 14) (sge_addr sg0) copy m) in
          let scp := if sge_length sg0 =? copy
            then mk_scp (scp_index (ws_scp s) + 1) (scp_offset (ws_scp s))
            else mk_scp (scp_index (ws_scp s)) copy in
          (Ok, set_ws_scp scp (set_ws_mem m
                 (set_ws_seg (eseg + sizeof_eth_seg)
                    (set_ws_size (ws_size s + (sizeof_eth_pad + sizeof_eth_seg) / 16) s))))
      end.

(** [ctrl->imm = htobe32(v)] *)
Definition w_imm (ctrl v : Z) : W :=
  w_do (fun s => set_ws_mem (store_be 4 (ctrl + 12) v (ws_mem s)) s).

Definition w_raddr (remote_addr rkey : Z) : W :=
  w_put (fun seg => set_raddr_seg seg remote_addr rkey) ;; w_advance sizeof_raddr_seg.

(** [case IBV_WR_BIND_MW] *)
Definition w_bind_mw (qp : mlx5_qp) (ctrl : Z) (wr : ibv_send_wr) : W :=
  w_do (set_ws_next_fence MLX5_WQE_CTRL_INITIATOR_SMALL_FENCE) ;;
  w_imm ctrl (mw_rkey (bind_mw wr)) ;;
  set_bind_wr qp (mw_type (bind_mw wr)) (bind_rkey wr) (bind_info wr) (qp_num qp) ;;
  w_do (set_ws_wr_data IBV_WC_BIND_MW).

(** [case IBV_WR_LOCAL_INV] *)
Definition w_local_inv (qp : mlx5_qp) (ctrl : Z) (wr : ibv_send_wr) : W :=
  w_do (set_ws_next_fence MLX5_WQE_CTRL_INITIATOR_SMALL_FENCE) ;;
  w_imm ctrl (invalidate_rkey wr) ;;
  set_bind_wr qp IBV_MW_TYPE_2 0 null_bind_info (qp_num qp) ;;
  w_do (set_ws_wr_data IBV_WC_LOCAL_INV).

(** [case IBV_QPT_XRC_SEND], before it falls through *)
Definition xrc_segs (wr : ibv_send_wr) : W :=
  if (opcode wr =? IBV_WR_BIND_MW) || (opcode wr =? IBV_WR_LOCAL_INV) then w_ok
  else w_put (fun seg => store_be 4 seg (xrc_remote_srqn wr)) ;; w_advance sizeof_xrc_seg.

(** [case IBV_QPT_RC] *)
Definition rc_segs (qp : mlx5_qp) (ctrl : Z) (wr : ibv_send_wr) : W :=
  let op := opcode wr in
  if (op =? IBV_WR_RDMA_READ) || (op =? IBV_WR_RDMA_WRITE) || (op =? IBV_WR_RDMA_WRITE_WITH_IMM)
  then w_raddr (rdma_remote_addr wr) (rdma_rkey wr)
  else if (op =? IBV_WR_ATOMIC_CMP_AND_SWP) || (op =? IBV_WR_ATOMIC_FETCH_AND_ADD) then
    if atomics_enabled qp then
      w_raddr (atomic_remote_addr wr) (atomic_rkey wr) ;;
      w_put (fun seg => set_atomic_seg seg op (atomic_swap wr) (atomic_compare_add wr)) ;;
      w_advance sizeof_atomic_seg
    else w_err EOPNOTSUPP
  else if op =? IBV_WR_BIND_MW then w_bind_mw qp ctrl wr
  else if op =? IBV_WR_LOCAL_INV then w_local_inv qp ctrl wr
  else w_ok.

(** [case IBV_QPT_UC] *)
Definition uc_segs (qp : mlx5_qp) (ctrl : Z) (wr : ibv_send_wr) : W :=
  let op := opcode wr in
  if (op =? IBV_WR_RDMA_WRITE) || (op =? IBV_WR_RDMA_WRITE_WITH_IMM)
  then w_raddr (rdma_remote_addr wr) (rdma_rkey wr)
  else if op =? IBV_WR_BIND_MW then w_bind_mw qp ctrl wr
  else if op =? IBV_WR_LOCAL_INV then w_local_inv qp ctrl wr
  else w_ok.

(** [case IBV_QPT_UD] *)
Definition ud_segs (qp : mlx5_qp) (wr : ibv_send_wr) : W :=
  w_put (fun seg => set_datagram_seg seg wr) ;;
  w_advance sizeof_datagram_seg ;;
  w_wrap qp ;;
  w_when (has_flag (qp_flags qp) MLX5_QP_FLAGS_USE_UNDERLAY) (mlx5_post_send_underlay qp wr).

(** The call of [copy_eth_inline_headers] and the adjustment of [seg] and [size] *)
Definition raw_inline_hdr (ctx : mlx5_context) (wr : ibv_send_wr) : W := fun s =>
  let n := 16 + eth_min_inline_size ctx in
  match copy_eth_inline_headers ctx (sge_pair <$> sg_list wr) (ws_seg s) (ws_mem s) (ws_scp s) with
  | (Ok, m, scp) =>
    (Ok, set_ws_scp scp (set_ws_mem m
           (set_ws_seg (ws_seg s + Z.land n (Z.lnot 0xf))
              (set_ws_size (ws_size s + Z.shiftr n 4) s))))
  | (o, m, scp) => (o, set_ws_scp scp (set_ws_mem m s))
  end.

(** [case IBV_QPT_RAW_PACKET] *)
Definition raw_segs (ctx : mlx5_context) (qp : mlx5_qp) (wr : ibv_send_wr) : W :=
  w_put (fun seg => memset seg 0 sizeof_eth_seg) ;;
  (if has_flag (send_flags wr) IBV_SEND_IP_CSUM then
     if has_flag (qp_cap_cache qp) MLX5_CSUM_SUPPORT_RAW_OVER_ETH then
       w_put (fun seg m => store_be 1 (seg + 4)
         (Z.lor (load_be 1 (seg + 4) m) (Z.lor MLX5_ETH_WQE_L3_CSUM MLX5_ETH_WQE_L4_CSUM)) m)
     else w_err EINVAL
   else w_ok) ;;
  if opcode wr =? IBV_WR_TSO then
    w_do (set_ws_max_tso (max_tso qp)) ;;
    set_tso_eth_seg qp (tso_hdr wr) (tso_hdr_sz wr) (tso_mss wr) ;;
    w_advance sizeof_eth_seg
  else raw_inline_hdr ctx wr.

(** [switch (ibqp->qp_type)] *)
Definition qp_type_segs (ctx : mlx5_context) (qp : mlx5_qp) (ctrl : Z) (wr : ibv_send_wr) : W :=
  let t := qp_type qp in
  if t =? IBV_QPT_XRC_SEND then xrc_segs wr ;; rc_segs qp ctrl wr
  else if t =? IBV_QPT_RC then rc_segs qp ctrl wr
  else if t =? IBV_QPT_UC then uc_segs qp ctrl wr
  else if t =? IBV_QPT_UD then ud_segs qp wr
  else if t =? IBV_QPT_RAW_PACKET then raw_segs ctx qp wr
  else w_ok.

(** * Data segments *)

Definition is_atomic_op (op : Z) : bool :=
  (op =? IBV_WR_ATOMIC_CMP_AND_SWP) || (op =? IBV_WR_ATOMIC_FETCH_AND_ADD).

(** One non-empty scatter entry at [dpseg] *)
Definition data_seg (op : Z) (sg : ibv_sge) : W := fun s =>
  if is_atomic_op op then
    (w_put (fun dp => set_data_ptr_seg_atomic dp sg) ;;
     w_do (set_ws_scp (mk_scp (scp_index (ws_scp s)) 0)) ;;
     w_advance sizeof_data_seg) s
  else if (op =? IBV_WR_TSO) && (ws_max_tso s <? sge_length sg) then (Err EINVAL, s)
  else
    (w_when (op =? IBV_WR_TSO) (w_do (set_ws_max_tso (ws_max_tso s - sge_length sg))) ;;
     w_put (fun dp => set_data_ptr_seg dp sg (scp_offset (ws_scp s))) ;;
     w_do (set_ws_scp (mk_scp (scp_index (ws_scp s)) 0)) ;;
     w_advance sizeof_data_seg) s.

(** [for (i = sg_copy_ptr.index; i < wr->num_sge; ++i)] *)
Fixpoint data_loop (qp : mlx5_qp) (op : Z) (l : list ibv_sge) : W :=
  match l with
  | [] => w_ok
  | sg :: l' =>
    w_wrap qp ;;
    w_when (negb (sge_length sg =? 0)) (data_seg op sg) ;;
    data_loop qp op l'
  end.

(** [wr->send_flags & IBV_SEND_INLINE && wr->num_sge] *)
Definition is_inline (wr : ibv_send_wr) : bool :=
  has_flag (send_flags wr) IBV_SEND_INLINE && negb (num_sge wr =? 0).

Definition data_segs (qp : mlx5_qp) (wr : ibv_send_wr) : W := fun s =>
  if is_inline wr then set_data_inl_seg qp wr s
  else data_loop qp (opcode wr) (drop (Z.to_nat (scp_index (ws_scp s))) (sg_list wr)) s.

(** * One work request *)

(** The state of the loop: the QP, the memory, and the locals declared outside. *)
Record ps_st : Type := mk_ps {
  ps_qp : mlx5_qp;
  ps_mem : mem;
  ps_ctrl : Z;
  ps_size : Z;
  ps_inl : bool;
  ps_scp : mlx5_sg_copy_ptr;
  ps_max_tso : Z;
  ps_next_fence : Z
}.

(** The checks before a request touches the queue *)
Definition post_send_guards (qp : mlx5_qp) (nreq : Z) (tails : Z * Z) (wr : ibv_send_wr) : outcome :=
  if (opcode wr <? 0) || (Z.of_nat (length mlx5_ib_opcode) <=? opcode wr) then Err EINVAL
  else if mlx5_wq_overflow (sq qp) nreq tails.1 tails.2 then Err ENOMEM
  else if max_gs (sq qp) <? num_sge wr then Err ENOMEM
  else Ok.

Definition fm_ce_se (signal_bits fence flags : Z) : Z :=
  Z.lor (Z.lor (Z.lor signal_bits fence)
           (if has_flag flags IBV_SEND_SIGNALED then MLX5_WQE_CTRL_CQ_UPDATE else 0))
        (if has_flag flags IBV_SEND_SOLICITED then MLX5_WQE_CTRL_SOLICITED else 0).

(** The control segment before the opcode and the size are known *)
Definition ctrl_begin (qp : mlx5_qp) (ctrl fence : Z) (wr : ibv_send_wr) (m : mem) : mem :=
  store_be 1 (ctrl + 11) (fm_ce_se (sq_signal_bits qp) fence (send_flags wr))
    (store_be 4 (ctrl + 12) (send_ieth wr) (store_be 4 (ctrl + 8) 0 m)).

(** The control segment once they are *)
Definition ctrl_end (qp : mlx5_qp) (ctrl mlx5_opcode size : Z) (m : mem) : mem :=
  let m := store_be 4 (ctrl + 4) (Z.lor size (u32 (Z.shiftl (qp_num qp) 8)))
    (store_be 4 ctrl
       (Z.lor (Z.shiftl (Z.land (cur_post (sq qp)) 0xffff) 8) mlx5_opcode) m) in
  if wq_sig qp then store_be 1 (ctrl + 8) (wq_sig_of ctrl m) m else m.

Definition sq_idx (qp : mlx5_qp) : Z := Z.land (cur_post (sq qp)) (wqe_cnt (sq qp) - 1).

(** [qp->sq.wr_data[idx] = v] *)
Definition set_slot_wr_data (idx v : Z) (qp : mlx5_qp) : mlx5_qp :=
  set_sq (set_wr_data (aset (wr_data (sq qp)) idx v) (sq qp)) qp.

(** The accounting at the end of an iteration *)
Definition slot_done (idx id nreq size : Z) (qp : mlx5_qp) : mlx5_qp :=
  let w := sq qp in
  set_sq
    (set_cur_post (u32 (cur_post w + DIV_ROUND_UP (size * 16) MLX5_SEND_WQE_BB))
       (set_wqe_head (aset (wqe_head w) idx (u32 (wq_head w + nreq)))
          (set_wrid (aset (wrid w) idx id) w))) qp.

(** The body of the loop of [_mlx5_post_send] for the [nreq]-th request *)
Definition post_send_wr (ctx : mlx5_context) (nreq : Z) (tails : Z * Z) (wr : ibv_send_wr)
    (s : ps_st) : outcome * ps_st :=
  let qp := ps_qp s in
  match post_send_guards qp nreq tails wr with
  | Ok =>
    let fence := if has_flag (send_flags wr) IBV_SEND_FENCE then MLX5_WQE_CTRL_FENCE
                 else ps_next_fence s in
    let idx := sq_idx qp in
    let ctrl := mlx5_get_send_wqe qp idx in
    let ws0 := mk_ws (ctrl_begin qp ctrl fence wr (ps_mem s)) (ctrl + sizeof_ctrl_seg)
                 (sizeof_ctrl_seg / 16) (ps_scp s) (ps_max_tso s) 0 0 in
    let '(o, ws) := (qp_type_segs ctx qp ctrl wr ;; data_segs qp wr) ws0 in
    let qp1 := set_slot_wr_data idx (ws_wr_data ws) qp in
    match o with
    | Ok =>
      let m := ctrl_end qp ctrl (aget mlx5_ib_opcode (opcode wr)) (ws_size ws) (ws_mem ws) in
      (Ok, mk_ps (slot_done idx (wr_id wr) nreq (ws_size ws) qp1) m ctrl (ws_size ws)
             (ps_inl s || is_inline wr) (ws_scp ws) (ws_max_tso ws) (ws_next_fence ws))
    | _ =>
      (o, mk_ps qp1 (ws_mem ws) ctrl (ws_size ws) (ps_inl s) (ws_scp ws) (ws_max_tso ws)
            (ws_next_fence ws))
    end
  | o => (o, s)
  end.

(** [for (nreq = 0; wr; ++nreq, wr = wr->next)]: the outcome, the number of requests
    posted, and the state at [out:].  On an error the request at position
    [nreq] is [*bad_wr]. *)
Fixpoint post_send_loop (ctx : mlx5_context) (tails : Z -> Z * Z) (nreq : Z)
    (l : list ibv_send_wr) (s : ps_st) : outcome * Z * ps_st :=
  match l with
  | [] => (Ok, nreq, s)
  | wr :: l' =>
    match post_send_wr ctx nreq (tails nreq) wr s with
    | (Ok, s') => post_send_loop ctx tails (nreq + 1) l' s'
    | (o, s') => (o, nreq, s')
    end
  end.

(** * Doorbell *)

(** The [n] bytes at [p], as the device receives them *)
Definition read_bytes (p : Z) (n : nat) (m : mem) : list Z :=
  (fun i => m (p + Z.of_nat i)) <$> seq 0 n.

(** [mlx5_bf_copy]: 64-byte blocks, wrapping at the end of the queue.  [None]: out
    of fuel. *)
Fixpoint mlx5_bf_copy (fuel : nat) (qp : mlx5_qp) (dst src bytecnt : Z) (m : mem)
  : option (list dev_event) :=
  match fuel with
  | O => None
  | S fuel =>
    let ev := EvBfCopy dst (read_bytes src 64 m) in
    let bytecnt := u32 (bytecnt - 64) in
    let dst := dst + 64 in
    let src := src + 64 in
    let src := if src =? qend (sq qp) then sq_start qp else src in
    if 0 <? bytecnt then cons ev <$> mlx5_bf_copy fuel qp dst src bytecnt m
    else Some [ev]
  end.

(** The QP with its BlueFlame register, the memory and what the device has been
    told, oldest first. *)
Record send_st : Type := mk_ss {
  ss_qp : mlx5_qp;
  ss_bf : mlx5_bf;
  ss_mem : mem;
  ss_trace : list dev_event
}.

(** The blocks of a work-queue element of [size] 16-byte units *)
Definition bf_fuel (size : Z) : nat := Z.to_nat (align (size * 16) 64 / 64).

Definition use_bf (ctx : mlx5_context) (bf : mlx5_bf) (nreq : Z) (inl : bool) (size : Z) : bool :=
  negb (shut_up_bf ctx) && (nreq =? 1) && negb (bf_uuarn bf =? 0)
  && (inl || prefer_bf ctx) && (1 <? size) && (size <=? bf_buf_size bf / 16).

(** [post_send_db(qp, bf, nreq, inl, size, ctrl)] *)
Definition post_send_db (ctx : mlx5_context) (nreq : Z) (inl : bool) (size ctrl : Z)
    (s : send_st) : send_st :=
  if nreq =? 0 then s
  else
    let qp := set_sq (set_wq_head (u32 (wq_head (sq (ss_qp s)) + nreq)) (sq (ss_qp s))) (ss_qp s) in
    let bf := ss_bf s in
    let dbv := Z.land (cur_post (sq qp)) 0xffff in
    let db := qp_db qp + 4 * MLX5_SND_DBR in
    let m := store_be 4 db dbv (ss_mem s) in
    let reg := bf_reg bf + bf_offset bf in
    let ring :=
      if use_bf ctx bf nreq inl size
      then default [] (mlx5_bf_copy (bf_fuel size) qp reg ctrl (align (size * 16) 64) m)
      else [EvMmio64 reg (load_be 8 ctrl m)] in
    mk_ss qp (set_bf_offset (Z.lxor (bf_offset bf) (bf_buf_size bf)) bf) m
      (ss_trace s ++ [EvBarrier; EvDbrec db dbv; EvWcStart (bf_need_lock bf)]
         ++ ring ++ [EvFlush] ++ if bf_need_lock bf then [EvUnlock] else []).

(** * [_mlx5_post_send] *)

(** Result of the call: the crash of [flow_forecast] or of a null dereference, or
    the return value, the number of requests posted and the final state. *)
Inductive post_result : Type :=
| PostFault
| PostDone (ret nreq : Z) (shm : option SHM) (st : send_st).

(** From [mlx5_spin_lock(&qp->sq.lock)] to [out:] and the return *)
Definition post_send_locked (ctx : mlx5_context) (tails : Z -> Z * Z) (l : list ibv_send_wr)
    (s : send_st) : outcome * Z * send_st :=
  let qp := ss_qp s in
  let ps0 := mk_ps qp (ss_mem s) 0 0 false (mk_scp 0 0) 0 (fm_cache qp) in
  let '(o, nreq, ps) := post_send_loop ctx tails 0 l ps0 in
  let qp := set_fm_cache (ps_next_fence ps) (ps_qp ps) in
  (o, nreq, post_send_db ctx nreq (ps_inl ps) (ps_size ps) (ps_ctrl ps)
              (mk_ss qp (ss_bf s) (ps_mem ps) (ss_trace s))).

Section PostSendEntry.
Context (inet_ntop6 : list Z -> list Z).

(** [_mlx5_post_send(ibqp, wr, bad_wr)], which [mlx5_post_send] calls: the forecast,
    then the queue *)
Definition _mlx5_post_send (attr : qp_attr) (dev_name : list Z) (clock : Z * Z)
    (ctx : mlx5_context) (tails : Z -> Z * Z) (wrs : list ibv_send_wr)
    (shm : option SHM) (s : send_st) : post_result :=
  match flow_forecast inet_ntop6 attr dev_name clock (ss_qp s) wrs shm with
  | FcFault => PostFault
  | FcDone shm' =>
    match post_send_locked ctx tails wrs s with
    | (Ok, n, s') => PostDone 0 n shm' s'
    | (Err e, n, s') => PostDone e n shm' s'
    | (Fault, _, _) => PostFault
    end
  end.

End PostSendEntry.
