(* ===== verification/SendSafe.v ===== *)
(** Memory safety of the send path.

    [sq_wf] is the invariant of a send queue.  [Safe] is a Hoare triple for the
    computations of [W] with a frame built in: from a state that satisfies the
    precondition the computation changes no byte outside the ring, whatever its
    outcome, and a successful outcome satisfies the postcondition.  The main
    results: a whole call of [mlx5_post_send] writes only the ring and the send
    doorbell record, and keeps the invariant. *)

From stdpp Require Import base numbers list.
From S2P Require Import Prelude Mem Types Wqe Forecast PostSend.

(** * The queue invariant *)

Definition ring_len (qp : mlx5_qp) : Z := 64 * wqe_cnt (sq qp).

Record sq_wf (qp : mlx5_qp) : Prop := {
  wf_cnt : exists k, 0 <= k <= 31 /\ wqe_cnt (sq qp) = 2 ^ k;
  wf_qend : qend (sq qp) = sq_start qp + ring_len qp;
  wf_addr : 0 < sq_start qp /\ qend (sq qp) < 2 ^ 63;
  wf_wrid : Z.of_nat (length (wrid (sq qp))) = wqe_cnt (sq qp);
  wf_wqe_head : Z.of_nat (length (wqe_head (sq qp))) = wqe_cnt (sq qp);
  wf_wr_data : Z.of_nat (length (wr_data (sq qp))) = wqe_cnt (sq qp);
  wf_cur_post : 0 <= cur_post (sq qp) < 2 ^ 32;
  wf_head : 0 <= wq_head (sq qp) < 2 ^ 32
}.

Lemma wf_cnt_pos qp : sq_wf qp -> 0 < wqe_cnt (sq qp).
Proof. intros [[k [? ->]] _ _ _ _ _ _ _]. apply Z.pow_pos_nonneg; lia. Qed.

Lemma sq_idx_range qp : sq_wf qp -> 0 <= sq_idx qp < wqe_cnt (sq qp).
Proof. intros [[k [? E]] _ _ _ _ _ _ _]. unfold sq_idx. rewrite E. apply land_pow2_bound with k; [lia|done]. Qed.

Lemma get_send_wqe_eq qp n : mlx5_get_send_wqe qp n = sq_start qp + 64 * n.
Proof.
  unfold mlx5_get_send_wqe, MLX5_SEND_WQE_SHIFT. rewrite Z.shiftl_mul_pow2 by lia. lia.
Qed.

(** * Frames *)

(** Nothing outside [lo, hi) changes. *)
Definition frame (lo hi : Z) (m m' : mem) : Prop := forall a, a < lo \/ hi <= a -> m' a = m a.

#[global] Instance frame_refl lo hi : Reflexive (frame lo hi).
Proof. by intros m a. Qed.

#[global] Instance frame_trans lo hi : Transitive (frame lo hi).
Proof. intros m1 m2 m3 H1 H2 a ?. rewrite H2 by done. by apply H1. Qed.

Lemma frame_writes f lo hi m : Writes f lo hi -> frame lo hi m (f m).
Proof. intros H a ?. by apply H. Qed.

(** The bytes of the ring *)
Definition ring_frame (qp : mlx5_qp) : mem -> mem -> Prop := frame (sq_start qp) (qend (sq qp)).

(** * Safe triples *)

Definition Safe (qp : mlx5_qp) (P : wqe_st -> Prop) (c : W) (Q : wqe_st -> Prop) : Prop :=
  forall s, P s -> ring_frame qp (ws_mem s) (ws_mem (c s).2) /\ ((c s).1 = Ok -> Q (c s).2).

Lemma Safe_seq qp P Q R c1 c2 : Safe qp P c1 Q -> Safe qp Q c2 R -> Safe qp P (c1 ;; c2) R.
Proof.
  intros H1 H2 s Hs. unfold w_seq. destruct (H1 s Hs) as [F1 Q1].
  destruct (c1 s) as [o s1]; simpl in *. destruct o; try (split; [done|done]).
  destruct (H2 s1 (Q1 eq_refl)) as [F2 Q2]. split; [by etrans|done].
Qed.

Lemma Safe_weaken qp (P P' Q Q' : wqe_st -> Prop) c :
  Safe qp P c Q -> (forall s, P' s -> P s) -> (forall s, Q s -> Q' s) -> Safe qp P' c Q'.
Proof. intros H HP HQ s Hs. destruct (H s (HP s Hs)). auto. Qed.

Lemma Safe_if qp P Q (b : bool) (c1 c2 : W) :
  (b = true -> Safe qp P c1 Q) -> (b = false -> Safe qp P c2 Q) ->
  Safe qp P (if b then c1 else c2) Q.
Proof. destruct b; auto. Qed.

Lemma Safe_ok qp (P Q : wqe_st -> Prop) : (forall s, P s -> Q s) -> Safe qp P w_ok Q.
Proof. intros H s ?. split; [reflexivity|]. simpl. auto. Qed.

Lemma Safe_err qp P Q e : Safe qp P (w_err e) Q.
Proof. by intros s ?. Qed.

Lemma Safe_fault qp P Q : Safe qp P w_fault Q.
Proof. by intros s ?. Qed.

(** Steps that leave memory alone *)
Lemma Safe_do qp (P Q : wqe_st -> Prop) f :
  (forall s, ws_mem (f s) = ws_mem s) -> (forall s, P s -> Q (f s)) -> Safe qp P (w_do f) Q.
Proof. intros E H s ?. unfold w_do; simpl. rewrite E. split; [reflexivity|auto]. Qed.

(** ** Positions of [seg] *)

(** [seg] is [k] bytes into a basic block of the ring. *)
Definition at_bb (qp : mlx5_qp) (k : Z) (s : wqe_st) : Prop :=
  exists i, 0 <= i < wqe_cnt (sq qp) /\ ws_seg s = sq_start qp + 64 * i + k.

(** [seg] is a multiple of 16 bytes into the ring, its end included. *)
Definition at_16 (qp : mlx5_qp) (s : wqe_st) : Prop :=
  exists o, 0 <= 16 * o <= ring_len qp /\ ws_seg s = sq_start qp + 16 * o.

(** ... its end excluded *)
Definition at_16_in (qp : mlx5_qp) (s : wqe_st) : Prop :=
  at_16 qp s /\ ws_seg s < qend (sq qp).

Lemma at_bb_at_16 qp k s : 0 <= k <= 64 -> (k mod 16 = 0) -> at_bb qp k s -> at_16 qp s.
Proof.
  intros ? Hk (i & ? & E). unfold at_16, ring_len. exists (4 * i + k / 16). split; div_lia.
Qed.

Lemma at_bb_in qp k s :
  sq_wf qp -> 0 <= k < 64 -> (k mod 16 = 0) -> at_bb qp k s -> at_16_in qp s.
Proof.
  intros Hw ?? H. split; [by apply at_bb_at_16 with k; [lia|..]|].
  destruct H as (i & ? & ->). rewrite (wf_qend _ Hw). unfold ring_len. lia.
Qed.

Lemma Safe_put_bb qp k n f :
  sq_wf qp -> 0 <= k -> k + n <= 64 ->
  (forall p, Writes (f p) p (p + n)) ->
  Safe qp (at_bb qp k) (w_put f) (at_bb qp k).
Proof.
  intros Hw ?? Hf s (i & ? & E). split; [|intros _; exists i; auto].
  apply frame_writes. eapply Writes_weaken; [apply Hf|lia|].
  rewrite (wf_qend _ Hw). unfold ring_len. lia.
Qed.

Lemma Safe_advance_bb qp k n :
  Safe qp (at_bb qp k) (w_advance n) (at_bb qp (k + n)).
Proof. apply Safe_do; [done|]. intros s (i & ? & E). exists i. simpl. split; [done|lia]. Qed.

(** A write of [n] bytes followed by [seg += n]: the shape of every segment. *)
Lemma Safe_seg_bb qp k n f :
  sq_wf qp -> 0 <= k -> k + n <= 64 -> (forall p, Writes (f p) p (p + n)) ->
  Safe qp (at_bb qp k) (w_put f ;; w_advance n) (at_bb qp (k + n)).
Proof. intros. eapply Safe_seq; [by eapply Safe_put_bb|apply Safe_advance_bb]. Qed.

Lemma Safe_wrap_bb qp : sq_wf qp -> Safe qp (at_bb qp 64) (w_wrap qp) (at_bb qp 0).
Proof.
  intros Hw. pose proof (wf_qend _ Hw) as Eq. pose proof (wf_cnt_pos _ Hw). unfold ring_len in *.
  apply Safe_do; [intros s; by destruct_ifs|].
  intros s (i & ? & E). destruct (ws_seg s =? qend (sq qp)) eqn:Ew.
  - exists 0. simpl. rewrite get_send_wqe_eq. lia.
  - exists (i + 1). lia.
Qed.

Lemma Safe_wrap_16 qp : sq_wf qp -> Safe qp (at_16 qp) (w_wrap qp) (at_16_in qp).
Proof.
  intros Hw. pose proof (wf_qend _ Hw) as Eq. pose proof (wf_cnt_pos _ Hw).
  apply Safe_do; [intros s; by destruct_ifs|].
  intros s (o & Ho & E). unfold at_16_in, at_16, ring_len in *.
  destruct (ws_seg s =? qend (sq qp)) eqn:Ew; simpl.
  - rewrite get_send_wqe_eq. split; [exists 0; lia|lia].
  - split; [exists o; lia|lia].
Qed.

Lemma Safe_seg_16 qp f :
  sq_wf qp -> (forall p, Writes (f p) p (p + 16)) ->
  Safe qp (at_16_in qp) (w_put f) (at_16_in qp).
Proof.
  intros Hw Hf s [(o & Ho & E) Hlt]. split; [|intros _; split; [exists o; auto|done]].
  apply frame_writes. pose proof (wf_qend _ Hw). unfold ring_len in *.
  eapply Writes_weaken; [apply Hf|lia|lia].
Qed.

Lemma Safe_advance_16 qp :
  sq_wf qp -> Safe qp (at_16_in qp) (w_advance 16) (at_16 qp).
Proof.
  intros Hw. apply Safe_do; [done|]. intros s [(o & Ho & E) Hlt].
  pose proof (wf_qend _ Hw). unfold ring_len, at_16 in *. exists (o + 1). simpl. unfold ring_len. lia.
Qed.

(** * Footprints of the segment writers *)

Ltac footprint :=
  intros ? ? ?; cbv zeta; destruct_ifs; by outside_solve.

Section Footprints.
Context (p : Z).

Lemma raddr_footprint a k : Writes (set_raddr_seg p a k) p (p + 16).
Proof. unfold set_raddr_seg. footprint. Qed.

Lemma atomic_footprint op sw ca : Writes (set_atomic_seg p op sw ca) p (p + 16).
Proof. unfold set_atomic_seg. footprint. Qed.

Lemma datagram_footprint wr : Writes (set_datagram_seg p wr) p (p + 48).
Proof. unfold set_datagram_seg, _set_datagram_seg, sizeof_datagram_seg. footprint. Qed.

Lemma umr_control_footprint t bi : Writes (umr_control_seg t bi p) p (p + 48).
Proof. intros m a ?. unfold umr_control_seg. cbv zeta. by outside_solve. Qed.

Lemma umr_mkey_footprint t k bi q : Writes (umr_mkey_seg t k bi q p) p (p + 64).
Proof. intros m a ?. unfold umr_mkey_seg. cbv zeta. destruct (negb _); by outside_solve. Qed.

Lemma umr_data_footprint k bi : Writes (umr_data_seg k bi p) p (p + 64).
Proof. unfold umr_data_seg. footprint. Qed.

Lemma data_ptr_footprint sg o : Writes (set_data_ptr_seg p sg o) p (p + 16).
Proof. unfold set_data_ptr_seg. footprint. Qed.

Lemma data_ptr_atomic_footprint sg : Writes (set_data_ptr_seg_atomic p sg) p (p + 16).
Proof. unfold set_data_ptr_seg_atomic. footprint. Qed.

Lemma data_ptr_end_footprint : Writes (set_data_ptr_seg_end p) p (p + 16).
Proof. unfold set_data_ptr_seg_end. footprint. Qed.

Lemma ctrl_begin_footprint qp fence wr : Writes (ctrl_begin qp p fence wr) p (p + 16).
Proof. unfold ctrl_begin. footprint. Qed.

Lemma ctrl_end_footprint qp op size : Writes (ctrl_end qp p op size) p (p + 16).
Proof. unfold ctrl_end. footprint. Qed.

End Footprints.

#[export] Hint Resolve raddr_footprint atomic_footprint datagram_footprint
  umr_control_footprint umr_mkey_footprint umr_data_footprint data_ptr_footprint
  data_ptr_atomic_footprint data_ptr_end_footprint ctrl_begin_footprint ctrl_end_footprint
  : writes.

(** * The switch on the QP type *)

Section SafeSwitch.
#[local] Set Default Proof Using "Type*".
Context (qp : mlx5_qp) (Hw : sq_wf qp).

Lemma Safe_imm i k v :
  0 <= i < wqe_cnt (sq qp) ->
  Safe qp (at_bb qp k) (w_imm (mlx5_get_send_wqe qp i) v) (at_bb qp k).
Proof.
  intros Hi s (j & ? & E). split; [|intros _; by exists j].
  apply frame_writes. pose proof (wf_qend _ Hw). rewrite get_send_wqe_eq.
  unfold ring_len in *. apply Writes_store; simpl; lia.
Qed.

Lemma Safe_keep_bb k f :
  (forall s, ws_mem (f s) = ws_mem s) -> (forall s, ws_seg (f s) = ws_seg s) ->
  Safe qp (at_bb qp k) (w_do f) (at_bb qp k).
Proof. intros ? E. apply Safe_do; [done|]. intros s (i & ?). exists i. by rewrite E. Qed.

Lemma Safe_set_bind_wr ty rkey bi qpn :
  Safe qp (at_bb qp 16) (set_bind_wr qp ty rkey bi qpn) (at_bb qp 64).
Proof.
  unfold set_bind_wr. apply Safe_if; [intros _; apply Safe_err|intros _].
  eapply Safe_seq; [apply (Safe_seg_bb qp 16 48); [exact Hw|lia|lia|eauto with writes]|].
  eapply Safe_seq; [by apply Safe_wrap_bb|].
  eapply Safe_seq; [apply (Safe_seg_bb qp 0 64); [exact Hw|lia|lia|eauto with writes]|].
  apply Safe_if; [intros _; by apply Safe_ok|intros _].
  eapply Safe_seq; [by apply Safe_wrap_bb|].
  unfold set_umr_data_seg. destruct (bi_mr bi); [|apply Safe_fault].
  apply (Safe_seg_bb qp 0 64); [exact Hw|lia|lia|eauto with writes].
Qed.

Lemma Safe_bind_mw i wr :
  0 <= i < wqe_cnt (sq qp) ->
  Safe qp (at_bb qp 16) (w_bind_mw qp (mlx5_get_send_wqe qp i) wr) (at_bb qp 64).
Proof.
  intros Hi. unfold w_bind_mw.
  eapply Safe_seq; [by apply Safe_keep_bb|]. eapply Safe_seq; [by apply Safe_imm|].
  eapply Safe_seq; [apply Safe_set_bind_wr|by apply Safe_keep_bb].
Qed.

Lemma Safe_local_inv i wr :
  0 <= i < wqe_cnt (sq qp) ->
  Safe qp (at_bb qp 16) (w_local_inv qp (mlx5_get_send_wqe qp i) wr) (at_bb qp 64).
Proof.
  intros Hi. unfold w_local_inv.
  eapply Safe_seq; [by apply Safe_keep_bb|]. eapply Safe_seq; [by apply Safe_imm|].
  eapply Safe_seq; [apply Safe_set_bind_wr|by apply Safe_keep_bb].
Qed.

(** An inline request is safe when its header segments end before a basic-block
    boundary: the code does not wrap [seg] before the inline header. *)
Definition inline_ok (wr : ibv_send_wr) : bool :=
  negb (is_inline wr) ||
  negb ((opcode wr =? IBV_WR_BIND_MW) || (opcode wr =? IBV_WR_LOCAL_INV) || (opcode wr =? IBV_WR_TSO)
        || ((qp_type qp =? IBV_QPT_XRC_SEND) && is_atomic_op (opcode wr))).

(** Where the data segments may start *)
Definition data_start (wr : ibv_send_wr) (s : wqe_st) : Prop :=
  at_16 qp s /\ (is_inline wr = true -> ws_seg s < qend (sq qp)).

Lemma at_bb_data_start k wr s :
  0 <= k < 64 -> k mod 16 = 0 -> at_bb qp k s -> data_start wr s.
Proof. intros ?? H. destruct (at_bb_in qp k s Hw) as [? ?]; [done..|]. by split. Qed.

Lemma at_bb_64_data_start wr s :
  is_inline wr = false -> at_bb qp 64 s -> data_start wr s.
Proof. intros E H. split; [by apply (at_bb_at_16 qp 64)|by rewrite E]. Qed.

Lemma Safe_raddr k a r :
  0 <= k -> k + 16 <= 64 -> Safe qp (at_bb qp k) (w_raddr a r) (at_bb qp (k + 16)).
Proof. intros. apply Safe_seg_bb; [exact Hw|done|done|eauto with writes]. Qed.

(** The fence, memory-window and local-invalidate cases shared by RC and UC *)
Lemma inline_ok_umr wr :
  inline_ok wr = true -> opcode wr = IBV_WR_BIND_MW \/ opcode wr = IBV_WR_LOCAL_INV ->
  is_inline wr = false.
Proof.
  unfold inline_ok. destruct (is_inline wr); [|done]. intros H [E|E]; by rewrite E in H.
Qed.

Lemma Safe_umr_cases i wr :
  0 <= i < wqe_cnt (sq qp) -> inline_ok wr = true ->
  let ctrl := mlx5_get_send_wqe qp i in
  Safe qp (at_bb qp 16)
    (if opcode wr =? IBV_WR_BIND_MW then w_bind_mw qp ctrl wr
     else if opcode wr =? IBV_WR_LOCAL_INV then w_local_inv qp ctrl wr else w_ok)
    (data_start wr).
Proof.
  intros Hi Hin ctrl. apply Safe_if; [intros E|intros _; apply Safe_if; intros E].
  - eapply Safe_weaken; [by apply Safe_bind_mw|done|]. intros s.
    apply at_bb_64_data_start, inline_ok_umr; [done|]. left. by apply Z.eqb_eq.
  - eapply Safe_weaken; [by apply Safe_local_inv|done|]. intros s.
    apply at_bb_64_data_start, inline_ok_umr; [done|]. right. by apply Z.eqb_eq.
  - apply Safe_ok. intros s. by apply at_bb_data_start.
Qed.

Lemma Safe_rc_segs i k wr :
  0 <= i < wqe_cnt (sq qp) -> inline_ok wr = true ->
  k = 16 \/ (k = 32 /\ qp_type qp = IBV_QPT_XRC_SEND /\
             opcode wr <> IBV_WR_BIND_MW /\ opcode wr <> IBV_WR_LOCAL_INV) ->
  Safe qp (at_bb qp k) (rc_segs qp (mlx5_get_send_wqe qp i) wr) (data_start wr).
Proof.
  intros Hi Hin Hk. unfold rc_segs. cbv zeta.
  apply Safe_if; [intros _|intros _; apply Safe_if; [intros Ea|intros _]].
  - eapply Safe_weaken; [apply (Safe_raddr k); lia|done|].
    intros s. apply at_bb_data_start; [lia|]. destruct Hk as [->|[-> _]]; done.
  - apply Safe_if; [intros _|intros _; apply Safe_err].
    apply Safe_weaken with (P := at_bb qp k) (Q := at_bb qp (k + 16 + 16)); [|done|].
    + eapply Safe_seq; [apply (Safe_raddr k); lia|].
      apply Safe_seg_bb; unfold_consts; [exact Hw|lia|lia|eauto with writes].
    + intros s. destruct Hk as [->|(-> & Hx & _)]; [by apply at_bb_data_start|].
      apply at_bb_64_data_start. unfold inline_ok, is_atomic_op in Hin. rewrite Ea, Hx in Hin.
      destruct (is_inline wr); [|done]. rewrite !orb_true_r in Hin. done.
  - destruct Hk as [->|(-> & Hx & Hb & Hl)]; [by apply Safe_umr_cases|].
    rewrite (proj2 (Z.eqb_neq _ _) Hb), (proj2 (Z.eqb_neq _ _) Hl).
    apply Safe_ok. intros s. by apply at_bb_data_start.
Qed.

Lemma Safe_uc_segs i wr :
  0 <= i < wqe_cnt (sq qp) -> inline_ok wr = true ->
  Safe qp (at_bb qp 16) (uc_segs qp (mlx5_get_send_wqe qp i) wr) (data_start wr).
Proof.
  intros Hi Hin. unfold uc_segs. cbv zeta. apply Safe_if; [intros _|intros _; by apply Safe_umr_cases].
  eapply Safe_weaken; [apply (Safe_raddr 16); lia|done|]. intros s. by apply at_bb_data_start.
Qed.

Lemma Safe_xrc_segs i wr :
  0 <= i < wqe_cnt (sq qp) -> inline_ok wr = true -> qp_type qp = IBV_QPT_XRC_SEND ->
  Safe qp (at_bb qp 16) (xrc_segs wr ;; rc_segs qp (mlx5_get_send_wqe qp i) wr) (data_start wr).
Proof.
  intros Hi Hin Hx. unfold xrc_segs.
  destruct ((opcode wr =? IBV_WR_BIND_MW) || (opcode wr =? IBV_WR_LOCAL_INV)) eqn:E.
  - eapply Safe_seq; [by apply Safe_ok|]. apply Safe_rc_segs; auto.
  - apply orb_false_iff in E as [?%Z.eqb_neq ?%Z.eqb_neq].
    eapply Safe_seq; [|apply (Safe_rc_segs i 32); auto 10].
    apply (Safe_seg_bb qp 16 16); [exact Hw|lia|lia|].
    intros p. apply Writes_store; simpl; lia.
Qed.

Lemma Safe_ud_segs wr :
  has_flag (qp_flags qp) MLX5_QP_FLAGS_USE_UNDERLAY = false ->
  Safe qp (at_bb qp 16) (ud_segs qp wr) (data_start wr).
Proof.
  intros E. unfold ud_segs. rewrite E.
  eapply Safe_seq; [apply (Safe_put_bb qp 16 48); [exact Hw|lia|lia|eauto with writes]|].
  eapply Safe_seq; [apply Safe_advance_bb|]. change (16 + sizeof_datagram_seg) with 64.
  eapply Safe_seq; [by apply Safe_wrap_bb|]. apply Safe_ok.
  intros s. by apply at_bb_data_start.
Qed.

End SafeSwitch.

(** * Raw packets *)

(** The entry that [sg_copy_ptr] designates is at least [offset] bytes long. *)
Definition scp_ok (l : list ibv_sge) (scp : mlx5_sg_copy_ptr) : Prop :=
  0 <= scp_index scp /\ 0 <= scp_offset scp /\
  (scp_offset scp = 0 \/
   exists sg, l !! Z.to_nat (scp_index scp) = Some sg /\ scp_offset scp <= sge_length sg).

Lemma eth_hdr_loop_spec eseg l j rest length0 copy m :
  0 <= rest <= 18 -> Forall (fun e => 0 <= e.2 < 2 ^ 32) l -> 0 <= j ->
  let '(j', rest', length', copy', m') := eth_hdr_loop eseg l j rest length0 copy m in
  frame (eseg + 14) (eseg + 32) m m' /\ 0 <= rest' <= rest /\
  (j' = j /\ length' = length0 /\ copy' = copy \/
   exists e, j < j' /\ l !! Z.to_nat (j' - 1 - j) = Some e /\ e.2 = length' /\ 0 <= copy' <= length').
Proof.
  revert j rest length0 copy m.
  induction l as [|[addr len] l IH]; intros j rest length0 copy m Hr Hl Hj; simpl.
  { split; [reflexivity|]. auto with lia. }
  destruct (Z.ltb_spec 0 rest); [|split; [reflexivity|]; auto with lia].
  apply Forall_cons in Hl as [Hlen Hl]. simpl in Hlen.
  rewrite u32_small by lia.
  set (m1 := memcpy _ _ _ m).
  assert (frame (eseg + 14) (eseg + 32) m m1) as F1.
  { apply frame_writes, Writes_memcpy; unfold_consts; lia. }
  specialize (IH (j + 1) (rest - Z.min len rest) len (Z.min len rest) m1 ltac:(lia) Hl ltac:(lia)).
  destruct (eth_hdr_loop _ _ _ _ _ _ _) as [[[[j' rest'] length'] copy'] m'].
  destruct IH as (F2 & Hr' & IH). split; [by etrans|]. split; [lia|]. right.
  destruct IH as [(-> & -> & ->)|(e & ? & He & ? & ?)].
  - exists (addr, len). simpl. split_and!; try lia; try done.
    replace (j + 1 - 1 - j) with 0 by lia. done.
  - exists e. split_and!; try lia; try done.
    replace (Z.to_nat (j' - 1 - j)) with (S (Z.to_nat (j' - 1 - (j + 1)))) by lia. done.
Qed.

Lemma copy_eth_inline_headers_spec ctx sgs eseg m scp :
  0 <= eth_min_inline_size ctx <= 18 ->
  Forall (fun sg => 0 <= sge_length sg < 2 ^ 32) sgs ->
  let '(o, m', scp') := copy_eth_inline_headers ctx (sge_pair <$> sgs) eseg m scp in
  frame eseg (eseg + 32) m m' /\ (o = Ok -> scp_ok sgs scp').
Proof.
  intros Hn Hs. unfold copy_eth_inline_headers.
  destruct sgs as [|sg0 sgs]; [by split|]. cbn [fmap list_fmap sge_pair].
  change ((sge_addr sg0, sge_length sg0) :: (sge_pair <$> sgs)) with (sge_pair <$> (sg0 :: sgs)).
  assert (forall m1, frame (eseg + 14) (eseg + 32) m m1 ->
    frame eseg (eseg + 32) m (store_be 2 (eseg + 12) (eth_min_inline_size ctx) m1)) as Hst.
  { intros m1 F. transitivity m1; [intros a ?; apply F; lia|].
    apply frame_writes, Writes_store; simpl; lia. }
  destruct (Z.leb_spec MLX5_ETH_L2_INLINE_HEADER_SIZE (sge_length sg0)) as [Hb|Hb].
  - unfold_consts. simpl negb. cbv iota.
    assert (frame (eseg + 14) (eseg + 32) m (memcpy (eseg + 14) (sge_addr sg0) (eth_min_inline_size ctx) m)).
    { apply frame_writes, Writes_memcpy; lia. }
    destruct (Z.eqb_spec (sge_length sg0) (eth_min_inline_size ctx)); split; auto; intros _.
    + split; simpl; auto with lia.
    + split_and!; simpl; [lia..|]. right. exists sg0. split; [done|lia].
  - assert (Forall (fun e : Z * Z => 0 <= e.2 < 2 ^ 32) (sge_pair <$> (sg0 :: sgs))) as Hl.
    { apply Forall_fmap. by eapply Forall_impl; [exact Hs|]. }
    pose proof (eth_hdr_loop_spec eseg _ 0 (eth_min_inline_size ctx) (sge_length sg0) 0 m
      Hn Hl ltac:(lia)) as H.
    destruct (eth_hdr_loop _ _ _ _ _ _ _) as [[[[j r] len] cp] m1].
    destruct H as (F & Hr & H).
    destruct (negb (r =? 0)).
    { split; [|done]. intros a ?. apply F. lia. }
    destruct H as [(-> & -> & ->)|(e & Hj & He & Hlen & Hcp)].
    + rewrite Z.eqb_refl. apply Forall_cons in Hs as [? _].
      destruct (sge_length sg0 =? 0); split; auto; intros _; split; simpl; auto with lia.
    + rewrite (proj2 (Z.eqb_neq j 0)) by lia.
      destruct (Z.eqb_spec len cp); split; auto; intros _; split; simpl; auto with lia.
      split; [lia|]. right. rewrite list_lookup_fmap in He.
      replace (j - 1 - 0) with (j - 1) in He by lia.
      destruct ((sg0 :: sgs) !! Z.to_nat (j - 1)) as [sg|]; [|done]. simplify_eq/=.
      exists sg. split; [done|lia].
Qed.

Lemma land_not_15 x : Z.land x (Z.lnot 15) = 16 * (x / 16).
Proof.
  change 15 with (Z.ones 4). rewrite <- Z.ldiff_land, Z.ldiff_ones_r by lia.
  rewrite Z.shiftl_mul_pow2, Z.shiftr_div_pow2 by lia. change (2 ^ 4) with 16. lia.
Qed.

(** What the data segments need of the header segments *)
Definition data_ready (qp : mlx5_qp) (wr : ibv_send_wr) (s : wqe_st) : Prop :=
  data_start qp wr s /\ (is_inline wr = true -> scp_ok (sg_list wr) (ws_scp s)).

(** Limits the provider sets at creation, and what the caller must respect *)
Record send_limits (ctx : mlx5_context) (qp : mlx5_qp) : Prop := {
  lim_inline_hdr : 0 <= eth_min_inline_size ctx <= 18;
  lim_inline_data : max_inline_data qp <= ring_len qp;
  lim_tso_header : max_tso_header qp <= ring_len qp;
  lim_ring : ring_len qp <= 2 ^ 30;
  lim_underlay : has_flag (qp_flags qp) MLX5_QP_FLAGS_USE_UNDERLAY = false
}.

(** Lengths are 32-bit; the inline path computes in [int] and needs entries below
    2^30 for its sum not to overflow. *)
Definition length_bound (wr : ibv_send_wr) : Z := if is_inline wr then 2 ^ 30 else 2 ^ 32.

Definition lengths_ok (wr : ibv_send_wr) : Prop :=
  Forall (fun sg => 0 <= sge_length sg < length_bound wr) (sg_list wr).

Definition wr_safe (qp : mlx5_qp) (wr : ibv_send_wr) : bool :=
  inline_ok qp wr && bool_decide (lengths_ok wr).

Lemma wr_safe_inv qp wr : wr_safe qp wr = true -> inline_ok qp wr = true /\ lengths_ok wr.
Proof. unfold wr_safe. intros [? H%bool_decide_eq_true]%andb_true_iff. done. Qed.

Section SafeRaw.
#[local] Set Default Proof Using "Type*".
Context (ctx : mlx5_context) (qp : mlx5_qp) (Hw : sq_wf qp) (Hlim : send_limits ctx qp).

Lemma Safe_tso hdr hdr_sz mss wr :
  is_inline wr = false ->
  Safe qp (at_bb qp 16) (set_tso_eth_seg qp hdr hdr_sz mss ;; w_advance sizeof_eth_seg)
    (data_start qp wr).
Proof.
  intros Hnin s (i & Hi & E). pose proof (wf_qend _ Hw) as Eq. pose proof (lim_tso_header _ _ Hlim).
  pose proof (wf_addr _ Hw). unfold w_seq, set_tso_eth_seg.
  destruct ((hdr_sz <? MLX5_ETH_L2_MIN_HEADER_SIZE) || (max_tso_header qp <? hdr_sz)) eqn:Eg;
    [by split|].
  unfold_consts. apply orb_false_iff in Eg as [? ?].
  rewrite (u64_small (qend _ - _)) by (unfold ring_len in *; lia).
  set (copy := Z.min (qend (sq qp) - (ws_seg s + 14)) hdr_sz).
  assert (14 <= copy) by (unfold ring_len in *; lia).
  rewrite (u64_small (copy - 2)), (align_16 (copy - 2)) by (unfold ring_len in *; lia).
  set (m1 := memcpy (ws_seg s + 14) hdr copy _).
  assert (ring_frame qp (ws_mem s) m1) as F1.
  { unfold m1. unfold ring_len in *. etrans; [apply (frame_writes (store_be 2 (ws_seg s + 6) mss))|].
    { apply Writes_store; simpl; lia. }
    etrans; [apply (frame_writes (store_be 2 (ws_seg s + 12) hdr_sz))|].
    { apply Writes_store; simpl; lia. }
    apply frame_writes, Writes_memcpy; lia. }
  simpl. rewrite get_send_wqe_eq. destruct (Z.ltb_spec copy hdr_sz) as [Hc|Hc].
  - rewrite (align_16 (hdr_sz - copy)) by (unfold ring_len in *; lia).
    simpl. split.
    + etrans; [exact F1|]. apply frame_writes, Writes_memcpy; unfold ring_len in *; lia.
    + intros _. split; [|by rewrite Hnin]. exists ((hdr_sz - copy + 15) / 16 + 2).
      simpl. unfold ring_len in *. split; div_lia.
  - simpl. split; [done|]. intros _. split; [|by rewrite Hnin].
    exists (4 * i + 1 + (copy - 2 + 15) / 16 - 1 + 2). simpl. unfold ring_len in *. split; div_lia.
Qed.

Lemma Safe_raw_inline_hdr wr :
  lengths_ok wr ->
  Safe qp (at_bb qp 16) (raw_inline_hdr ctx wr) (data_ready qp wr).
Proof.
  intros Hl s (i & Hi & E). pose proof (wf_qend _ Hw) as Eq.
  pose proof (lim_inline_hdr _ _ Hlim) as Hn. unfold raw_inline_hdr.
  pose proof (copy_eth_inline_headers_spec ctx (sg_list wr) (ws_seg s) (ws_mem s) (ws_scp s) Hn)
    as H. destruct (copy_eth_inline_headers _ _ _ _ _) as [[o m] scp].
  destruct H as [F Hscp].
  { eapply Forall_impl; [exact Hl|]. unfold length_bound. intros sg ?. destruct (is_inline wr); lia. }
  assert (ring_frame qp (ws_mem s) m) as F'.
  { intros a ?. apply F. unfold ring_len in *. lia. }
  destruct o; simpl; try (by split). split; [done|]. intros _.
  split; [|auto]. rewrite land_not_15.
  apply (at_bb_data_start qp Hw (16 + 16 * ((16 + eth_min_inline_size ctx) / 16))); [div_lia|div_lia|].
  exists i. simpl. split; [done|lia].
Qed.

Lemma Safe_raw_segs wr :
  inline_ok qp wr = true -> lengths_ok wr ->
  Safe qp (at_bb qp 16) (raw_segs ctx qp wr) (data_ready qp wr).
Proof.
  intros Hin Hl. unfold raw_segs. eapply Safe_seq.
  { apply (Safe_put_bb qp 16 32); [exact Hw|lia|lia|]. intros p. apply Writes_memset; unfold_consts; lia. }
  eapply Safe_seq with (Q := at_bb qp 16).
  { apply Safe_if; [intros _|intros _; by apply Safe_ok].
    apply Safe_if; [intros _|intros _; apply Safe_err].
    apply (Safe_put_bb qp 16 32); [exact Hw|lia|lia|]. intros p m a ?. by outside_solve. }
  apply Safe_if; [intros Et|intros _; by apply Safe_raw_inline_hdr].
  assert (is_inline wr = false) as Hni.
  { unfold inline_ok in Hin. rewrite Et, orb_true_r in Hin. by destruct (is_inline wr). }
  eapply Safe_seq; [by apply Safe_keep_bb|].
  eapply Safe_weaken; [by apply (Safe_tso _ _ _ wr)|done|].
  intros s ?. split; [done|]. by rewrite Hni.
Qed.

End SafeRaw.

(** * Data segments *)

Section SafeData.
#[local] Set Default Proof Using "Type*".
Context (ctx : mlx5_context) (qp : mlx5_qp) (Hw : sq_wf qp) (Hlim : send_limits ctx qp).

(** The offset into the first entry of what remains *)
Definition offset_ok (l : list ibv_sge) (offset : Z) : Prop :=
  offset = 0 \/ exists sg l', l = sg :: l' /\ 0 <= offset <= sge_length sg.

Lemma inl_copy_frame l offset wqe total m :
  Forall (fun sg => 0 <= sge_length sg < 2 ^ 30) l -> offset_ok l offset ->
  sq_start qp <= wqe <= qend (sq qp) -> 0 <= total <= ring_len qp ->
  ring_frame qp m (inl_copy qp l offset wqe total m).2.
Proof.
  pose proof (wf_qend _ Hw) as Eq. pose proof (lim_inline_data _ _ Hlim).
  pose proof (lim_ring _ _ Hlim). pose proof (wf_addr _ Hw).
  revert offset wqe total m. induction l as [|sg l IH]; intros offset wqe total m Hl Ho Hwq Ht.
  { reflexivity. }
  apply Forall_cons in Hl as [Hsg Hl].
  assert (0 <= offset <= sge_length sg) as Hoff by (destruct Ho as [->|(?&?&?&?)]; simplify_eq; lia).
  cbn [inl_copy]. cbv zeta. rewrite (s32_small (sge_length sg - offset)) by lia.
  set (len := sge_length sg - offset) in *.
  destruct (max_inline_data qp <? s32 (total + len)) eqn:Em; [reflexivity|].
  assert (s32 (total + len) = total + len) as Es.
  { apply s32_small. lia. }
  rewrite Es in *.
  destruct (qend (sq qp) <? wqe + len) eqn:Ew.
  - rewrite (s32_small (qend (sq qp) - wqe)) by lia.
    rewrite (s32_small (len - _)) by lia.
    rewrite (u64_small (qend (sq qp) - wqe)), (u64_small (len - _)) by lia.
    rewrite get_send_wqe_eq. etrans; [|apply IH; [done|by left|lia|lia]].
    transitivity (memcpy wqe (u64 (sge_addr sg + offset)) (qend (sq qp) - wqe) m);
      apply frame_writes, Writes_memcpy; lia.
  - rewrite (u64_small len) by lia. etrans; [|apply IH; [done|by left|lia|lia]].
    apply frame_writes, Writes_memcpy; lia.
Qed.

Lemma scp_ok_drop l scp : scp_ok l scp -> offset_ok (drop (Z.to_nat (scp_index scp)) l) (scp_offset scp).
Proof.
  intros (? & ? & [E|(sg & Hsg & ?)]); [by left|]. right.
  exists sg, (drop (S (Z.to_nat (scp_index scp))) l). split; [by apply drop_S|lia].
Qed.

Lemma Safe_data_inl wr :
  lengths_ok wr ->
  is_inline wr = true ->
  Safe qp (data_ready qp wr) (set_data_inl_seg qp wr) (fun _ => True).
Proof.
  intros Hl Hi s [[(o & Ho & E) Hlt] Hscp]. specialize (Hlt Hi). specialize (Hscp Hi).
  pose proof (wf_qend _ Hw) as Eq. unfold set_data_inl_seg, sizeof_inline_seg.
  set (l := drop _ _).
  pose proof (inl_copy_frame l (scp_offset (ws_scp s)) (ws_seg s + 4) 0 (ws_mem s)) as F.
  destruct (inl_copy _ _ _ _ _ _) as [r m1].
  assert (ring_frame qp (ws_mem s) m1) as F1.
  { unfold lengths_ok, length_bound in Hl. rewrite Hi in Hl. apply F; [by apply Forall_drop|by apply scp_ok_drop|unfold ring_len in *; lia|].
    pose proof (wf_cnt_pos _ Hw). unfold ring_len. lia. }
  destruct r as [n|]; [|by split]. destruct (n =? 0); [by split|]. simpl. split; [|done].
  etrans; [exact F1|]. apply frame_writes, Writes_store; simpl; unfold ring_len in *; lia.
Qed.

Lemma Safe_data_seg op sg : Safe qp (at_16_in qp) (data_seg op sg) (at_16 qp).
Proof.
  intros s Hs. unfold data_seg. destruct (is_atomic_op op); [|destruct ((op =? IBV_WR_TSO) && _); [by split|]].
  - eapply Safe_seq; [|eapply Safe_seq|exact Hs].
    + apply Safe_seg_16; [exact Hw|eauto with writes].
    + apply (Safe_do qp (at_16_in qp) (at_16_in qp)); done.
    + by apply Safe_advance_16.
  - eapply (Safe_seq qp (at_16_in qp) (at_16_in qp)); [| |exact Hs].
    + apply Safe_if; intros _; [apply Safe_do; done|by apply Safe_ok].
    + eapply Safe_seq; [apply Safe_seg_16; [exact Hw|eauto with writes]|].
      eapply Safe_seq; [apply (Safe_do qp (at_16_in qp) (at_16_in qp)); done|by apply Safe_advance_16].
Qed.

Lemma Safe_data_loop op l : Safe qp (at_16 qp) (data_loop qp op l) (at_16 qp).
Proof.
  induction l as [|sg l IH]; simpl; [by apply Safe_ok|].
  eapply Safe_seq; [by apply Safe_wrap_16|]. eapply Safe_seq; [|exact IH].
  apply Safe_if; intros _; [apply Safe_data_seg|]. apply Safe_ok. by intros s [? _].
Qed.

Lemma Safe_data_segs wr :
  lengths_ok wr ->
  Safe qp (data_ready qp wr) (data_segs qp wr) (fun _ => True).
Proof.
  intros Hl s Hs. unfold data_segs. destruct (is_inline wr) eqn:Ei.
  - by apply Safe_data_inl.
  - destruct Hs as [[H16 _] _]. destruct (Safe_data_loop (opcode wr)
      (drop (Z.to_nat (scp_index (ws_scp s))) (sg_list wr)) s H16). by split.
Qed.

End SafeData.

(** * [sg_copy_ptr] stays (0, 0) on queues without inline headers *)

Definition scp0 : mlx5_sg_copy_ptr := mk_scp 0 0.

Definition KeepsScp0 (c : W) : Prop := forall s, ws_scp s = scp0 -> ws_scp (c s).2 = scp0.

Lemma KeepsScp0_seq c1 c2 : KeepsScp0 c1 -> KeepsScp0 c2 -> KeepsScp0 (c1 ;; c2).
Proof.
  intros H1 H2 s Hs. unfold w_seq. specialize (H1 s Hs). destruct (c1 s) as [[] s1]; auto.
Qed.

Lemma KeepsScp0_do f : (forall s, ws_scp (f s) = ws_scp s) -> KeepsScp0 (w_do f).
Proof. intros H s Hs. simpl. by rewrite H. Qed.

Create HintDb scp0 discriminated.
#[export] Hint Resolve KeepsScp0_seq : scp0.
#[export] Hint Extern 2 (KeepsScp0 (w_do _)) => apply KeepsScp0_do; intros ?; by destruct_ifs : scp0.
#[export] Hint Extern 2 (KeepsScp0 (w_wrap _)) => apply KeepsScp0_do; intros ?; by destruct_ifs : scp0.
#[export] Hint Extern 2 (KeepsScp0 (w_put _)) => by apply KeepsScp0_do : scp0.
#[export] Hint Extern 2 (KeepsScp0 (w_advance _)) => by apply KeepsScp0_do : scp0.
#[export] Hint Extern 2 (KeepsScp0 (w_imm _ _)) => by apply KeepsScp0_do : scp0.
#[export] Hint Extern 1 (KeepsScp0 w_ok) => by intros ?? : scp0.
#[export] Hint Extern 1 (KeepsScp0 (w_err _)) => by intros ?? : scp0.
#[export] Hint Extern 1 (KeepsScp0 w_fault) => by intros ?? : scp0.
#[export] Hint Extern 2 (KeepsScp0 (if ?b then _ else _)) => destruct b : scp0.

Lemma KeepsScp0_bind qp ty k bi q : KeepsScp0 (set_bind_wr qp ty k bi q).
Proof.
  unfold set_bind_wr, set_umr_control_seg, set_umr_mkey_seg, set_umr_data_seg.
  destruct (bi_mr bi); auto 20 with scp0.
Qed.
#[export] Hint Resolve KeepsScp0_bind : scp0.

Lemma KeepsScp0_rc qp ctrl wr : KeepsScp0 (rc_segs qp ctrl wr).
Proof. unfold rc_segs, w_raddr, w_bind_mw, w_local_inv. cbv zeta. auto 20 with scp0. Qed.

Lemma KeepsScp0_uc qp ctrl wr : KeepsScp0 (uc_segs qp ctrl wr).
Proof. unfold uc_segs, w_raddr, w_bind_mw, w_local_inv. cbv zeta. auto 20 with scp0. Qed.

Lemma KeepsScp0_xrc wr : KeepsScp0 (xrc_segs wr).
Proof. unfold xrc_segs. auto 20 with scp0. Qed.

Lemma KeepsScp0_ud qp wr :
  has_flag (qp_flags qp) MLX5_QP_FLAGS_USE_UNDERLAY = false -> KeepsScp0 (ud_segs qp wr).
Proof. intros E. unfold ud_segs, w_when. rewrite E. auto 20 with scp0. Qed.
#[export] Hint Resolve KeepsScp0_rc KeepsScp0_uc KeepsScp0_xrc KeepsScp0_ud : scp0.

Lemma KeepsScp0_type_segs ctx qp ctrl wr :
  has_flag (qp_flags qp) MLX5_QP_FLAGS_USE_UNDERLAY = false ->
  qp_type qp <> IBV_QPT_RAW_PACKET -> KeepsScp0 (qp_type_segs ctx qp ctrl wr).
Proof.
  intros E Hr. unfold qp_type_segs. rewrite (proj2 (Z.eqb_neq _ _) Hr). auto 20 with scp0.
Qed.

Lemma KeepsScp0_data_seg op sg : KeepsScp0 (data_seg op sg).
Proof.
  intros s Hs. unfold data_seg, w_seq, w_do, w_when. destruct (is_atomic_op op); simpl; [by rewrite Hs|].
  destruct (_ && _); [done|]. destruct (op =? IBV_WR_TSO); simpl; by rewrite Hs.
Qed.
#[export] Hint Resolve KeepsScp0_data_seg : scp0.

Lemma KeepsScp0_data_loop qp op l : KeepsScp0 (data_loop qp op l).
Proof. induction l; simpl; unfold w_when; auto 20 with scp0. Qed.

Lemma KeepsScp0_data_segs qp wr : KeepsScp0 (data_segs qp wr).
Proof.
  intros s Hs. unfold data_segs, set_data_inl_seg. destruct (is_inline wr).
  - destruct (inl_copy _ _ _ _ _ _) as [[n|] m]; [destruct (n =? 0)|]; done.
  - by apply KeepsScp0_data_loop.
Qed.
#[export] Hint Resolve KeepsScp0_data_segs KeepsScp0_type_segs : scp0.

Lemma Safe_type_segs ctx qp i wr :
  sq_wf qp -> send_limits ctx qp -> wr_safe qp wr = true -> 0 <= i < wqe_cnt (sq qp) ->
  Safe qp (fun s => at_bb qp 16 s /\ (qp_type qp <> IBV_QPT_RAW_PACKET -> ws_scp s = scp0))
    (qp_type_segs ctx qp (mlx5_get_send_wqe qp i) wr) (data_ready qp wr).
Proof.
  intros Hw Hlim [Hin Hl]%wr_safe_inv Hi s [Hs Hscp].
  pose proof (lim_underlay _ _ Hlim) as Hu.
  destruct (decide (qp_type qp = IBV_QPT_RAW_PACKET)) as [E|E].
  { unfold qp_type_segs. rewrite E. apply (Safe_raw_segs ctx); auto. }
  specialize (Hscp E).
  assert (Safe qp (at_bb qp 16) (qp_type_segs ctx qp (mlx5_get_send_wqe qp i) wr) (data_start qp wr)) as H.
  { unfold qp_type_segs. rewrite (proj2 (Z.eqb_neq _ _) E). cbv zeta.
    apply Safe_if; [intros Ht; apply Safe_xrc_segs; [done..|by apply Z.eqb_eq]|intros _].
    apply Safe_if; [intros _; apply Safe_rc_segs; auto|intros _].
    apply Safe_if; [intros _; by apply Safe_uc_segs|intros _].
    apply Safe_if; [intros _; by apply Safe_ud_segs|intros _].
    apply Safe_ok. intros s'. by apply at_bb_data_start. }
  destruct (H s Hs) as [F Q]. split; [done|]. intros Ho. split; [auto|]. intros _.
  rewrite (KeepsScp0_type_segs ctx qp _ wr Hu E s Hscp). split; simpl; auto with lia.
Qed.

(** * The whole call *)

(** What an iteration may change of the QP: slots of the arrays and [cur_post]. *)
Record sq_step (qp qp' : mlx5_qp) : Prop := {
  step_qp : qp' = set_sq (sq qp') qp;
  step_sq : sq qp' = mk_wq (wrid (sq qp')) (wqe_head (sq qp')) (wqe_cnt (sq qp)) (max_post (sq qp))
    (wq_head (sq qp)) (wq_tail (sq qp)) (cur_post (sq qp')) (max_gs (sq qp)) (wqe_shift (sq qp))
    (wq_offset (sq qp)) (qend (sq qp)) (wr_data (sq qp'))
}.

#[global] Instance sq_step_refl : Reflexive sq_step.
Proof. intros qp. split; [by destruct qp|by destruct (sq qp)]. Qed.

#[global] Instance sq_step_trans : Transitive sq_step.
Proof.
  intros q1 q2 q3 [E1 S1] [E2 S2]. split.
  - rewrite E2. rewrite E1. done.
  - rewrite S2 at 1. rewrite S1. done.
Qed.

Lemma sq_step_limits ctx qp qp' : sq_step qp qp' -> send_limits ctx qp -> send_limits ctx qp'.
Proof.
  intros [E S] [H1 H2 H3 H4 H5]. rewrite E, S. split; unfold ring_len in *; simpl; auto.
Qed.

Lemma sq_step_safe qp qp' wr : sq_step qp qp' -> wr_safe qp' wr = wr_safe qp wr.
Proof. intros [E _]. rewrite E. done. Qed.

Lemma set_slot_wr_data_step idx v qp : sq_step qp (set_slot_wr_data idx v qp).
Proof. by split. Qed.

Lemma slot_done_step idx id nreq size qp : sq_step qp (slot_done idx id nreq size qp).
Proof. by split. Qed.

Lemma set_slot_wr_data_wf idx v qp : sq_wf qp -> sq_wf (set_slot_wr_data idx v qp).
Proof. intros []. split; simpl; auto. by rewrite length_aset. Qed.

Lemma slot_done_wf idx id nreq size qp : sq_wf qp -> sq_wf (slot_done idx id nreq size qp).
Proof. intros []. split; simpl; rewrite ?length_aset; auto with mlx5. Qed.

(** The loop invariant relative to the QP at the start of the call *)
Record ps_inv (ctx : mlx5_context) (qp : mlx5_qp) (s : ps_st) : Prop := {
  inv_step : sq_step qp (ps_qp s);
  inv_wf : sq_wf (ps_qp s);
  inv_scp : qp_type qp <> IBV_QPT_RAW_PACKET -> ps_scp s = scp0
}.

Lemma post_send_wr_inv ctx qp nreq tails wr s :
  send_limits ctx qp -> wr_safe qp wr = true -> ps_inv ctx qp s ->
  ps_inv ctx qp (post_send_wr ctx nreq tails wr s).2 /\
  ring_frame qp (ps_mem s) (ps_mem (post_send_wr ctx nreq tails wr s).2).
Proof.
  intros Hlim Hsafe [Hstep Hw Hscp]. unfold post_send_wr.
  destruct (post_send_guards _ _ _ _); [|by split; [split|]..].
  set (q := ps_qp s) in *. set (ctrl := mlx5_get_send_wqe q (sq_idx q)).
  set (ws0 := mk_ws _ _ _ _ _ _ _).
  pose proof (sq_idx_range q Hw) as Hidx.
  assert (Hq : ring_frame q = ring_frame qp) by (destruct Hstep as [E S]; unfold ring_frame; by rewrite E, S).
  assert (Hty : qp_type q = qp_type qp) by (destruct Hstep as [E S]; by rewrite E).
  rewrite <- Hq. rewrite <- Hty in Hscp.
  pose proof (sq_step_limits _ _ _ Hstep Hlim) as Hlim'.
  rewrite <- (sq_step_safe _ _ _ Hstep) in Hsafe.
  assert (Hcf : forall f m, Writes f ctrl (ctrl + 16) -> ring_frame q m (f m)).
  { intros f m Hf. apply frame_writes. eapply Writes_weaken; [exact Hf|..];
      unfold ctrl; rewrite get_send_wqe_eq; pose proof (wf_qend _ Hw); unfold ring_len in *; lia. }
  assert (F0 : ring_frame q (ps_mem s) (ws_mem ws0)) by (apply Hcf; eauto with writes).
  assert (Safe q (fun s => at_bb q 16 s /\ (qp_type q <> IBV_QPT_RAW_PACKET -> ws_scp s = scp0))
    (qp_type_segs ctx q ctrl wr ;; data_segs q wr) (fun _ => True)) as HS.
  { eapply Safe_seq; [by apply Safe_type_segs|].
    apply (Safe_data_segs ctx); [done|done|]. by apply wr_safe_inv in Hsafe as [_ ?]. }
  destruct (HS ws0) as [F1 _].
  { split; [|done]. exists (sq_idx q). split; [done|].
    unfold ws0, ctrl. simpl. rewrite get_send_wqe_eq. done. }
  assert (K : qp_type q <> IBV_QPT_RAW_PACKET ->
    ws_scp ((qp_type_segs ctx q ctrl wr ;; data_segs q wr) ws0).2 = scp0).
  { intros Hr. pose proof (lim_underlay _ _ Hlim'). apply KeepsScp0_seq; auto with scp0. }
  destruct ((qp_type_segs ctx q ctrl wr ;; data_segs q wr) ws0) as [o ws]. simpl in F1, K.
  rewrite Hty in K. destruct o; simpl.
  - split; [split|].
    + etrans; [exact Hstep|]. etrans; [apply set_slot_wr_data_step|apply slot_done_step].
    + by apply slot_done_wf, set_slot_wr_data_wf.
    + done.
    + etrans; [exact F0|]. etrans; [exact F1|]. apply Hcf; eauto with writes.
  - split; [split; [etrans; [exact Hstep|apply set_slot_wr_data_step]|by apply set_slot_wr_data_wf|done]|by etrans].
  - split; [split; [etrans; [exact Hstep|apply set_slot_wr_data_step]|by apply set_slot_wr_data_wf|done]|by etrans].
Qed.

Lemma post_send_loop_inv ctx qp tails nreq l s :
  send_limits ctx qp -> forallb (wr_safe qp) l = true -> ps_inv ctx qp s ->
  ps_inv ctx qp (post_send_loop ctx tails nreq l s).2 /\
  ring_frame qp (ps_mem s) (ps_mem (post_send_loop ctx tails nreq l s).2).
Proof.
  intros Hlim. revert nreq s. induction l as [|wr l IH]; intros nreq s Hl Hi; simpl; [by split|].
  simpl in Hl. apply andb_true_iff in Hl as [Hwr Hl].
  destruct (post_send_wr_inv ctx qp nreq (tails nreq) wr s Hlim Hwr Hi) as [Hi' F].
  destruct (post_send_wr _ _ _ _ _) as [o s']. simpl in *.
  destruct o; [|done..]. destruct (IH (nreq + 1) s' Hl Hi') as [? F']. split; [done|by etrans].
Qed.

(** The send doorbell record of the QP *)
Definition snd_dbr (qp : mlx5_qp) : Z := qp_db qp + 4 * MLX5_SND_DBR.

(** A call writes only the ring and the doorbell record. *)
Lemma post_send_locked_frame ctx tails wrs s :
  sq_wf (ss_qp s) -> send_limits ctx (ss_qp s) -> forallb (wr_safe (ss_qp s)) wrs = true ->
  let s' := (post_send_locked ctx tails wrs s).2 in
  sq_wf (ss_qp s') /\
  sq_start (ss_qp s') = sq_start (ss_qp s) /\ qend (sq (ss_qp s')) = qend (sq (ss_qp s)) /\
  forall a, a < sq_start (ss_qp s) \/ qend (sq (ss_qp s)) <= a ->
    a < snd_dbr (ss_qp s) \/ snd_dbr (ss_qp s) + 4 <= a ->
    ss_mem s' a = ss_mem s a.
Proof.
  intros Hw Hlim Hl. unfold post_send_locked.
  set (ps0 := mk_ps _ _ _ _ _ _ _ _).
  destruct (post_send_loop_inv ctx (ss_qp s) tails 0 wrs ps0 Hlim Hl) as [[[E S] Hw' _] F].
  { split; [reflexivity|done|done]. }
  destruct (post_send_loop _ _ _ _ _) as [[o n] ps]. simpl in *.
  unfold post_send_db. destruct (n =? 0); simpl.
  - split; [by destruct Hw'; split|]. rewrite E, S. simpl. split_and!; [done..|]. intros a ??. by apply F.
  - split; [destruct Hw'; split; simpl; auto with mlx5|]. rewrite E, S. simpl. split_and!; [done..|].
    intros a ??. rewrite store_be_outside by (unfold snd_dbr in *; simpl; lia). by apply F.
Qed.


(** * Witnesses *)

(** A queue of four basic blocks at 4096, posting at its last block *)
Definition demo_wq (cnt start post : Z) : mlx5_wq :=
  mk_wq (replicate (Z.to_nat cnt) 0) (replicate (Z.to_nat cnt) 0) cnt cnt 0 0 post 4 6 0
    (start + 64 * cnt) (replicate (Z.to_nat cnt) 0).

Definition demo_qp (ty post : Z) : mlx5_qp :=
  mk_qp 0x1234 ty IBV_QPS_RTS 0 0 0 64 false 0 0 0 0 0 0 0 0 0 0 None 0 0 4096
    (demo_wq 4 4096 post) 512 (demo_wq 4 4096 0) false 0 true 0 0 0.

Definition demo_ctx : mlx5_context := mk_ctx 18 false false 0 0.
Definition demo_bf : mlx5_bf := mk_bf 65536 true 0 256 1.

Definition demo_wr (op flags : Z) (l : list ibv_sge) : ibv_send_wr :=
  mk_wr 77 l op flags 5 6 7 8 9 10 11 12 8192 13 14 15 (mk_mw 16 IBV_MW_TYPE_2) 17
    (mk_bind_info (Some (mk_mr 18 0 0)) 19 20 7) 8192 34 1400.

Definition demo_send (ty post : Z) : send_st := mk_ss (demo_qp ty post) demo_bf (fun a => a mod 256) [].

Lemma demo_wf ty post : 0 <= post < 2 ^ 32 -> sq_wf (demo_qp ty post).
Proof. intros ?. split; simpl; unfold ring_len; simpl; try lia. exists 2. lia. Qed.

Lemma demo_limits ty post : send_limits demo_ctx (demo_qp ty post).
Proof. split; unfold ring_len; simpl; [lia..|done]. Qed.


(** The exclusion of [inline_ok] is needed: on an XRC queue an atomic request
    flagged inline whose headers end at the end of the ring is accepted, and
    the code writes the inline header and its data past [qend]. *)
Theorem xrc_atomic_inline_overruns :
  let s := demo_send IBV_QPT_XRC_SEND 3 in
  let wr := demo_wr IBV_WR_ATOMIC_FETCH_AND_ADD IBV_SEND_INLINE [mk_sge 9001 8 1] in
  let '(o, n, s') := post_send_locked demo_ctx (fun _ => (0, 0)) [wr] s in
  o = Ok /\ n = 1 /\ load_be 4 (qend (sq (ss_qp s))) (ss_mem s') = 0x80000008 /\
  ss_mem s' (qend (sq (ss_qp s)) + 4) <> ss_mem s (qend (sq (ss_qp s)) + 4).
Proof. vm_compute. by split_and!. Qed.
