(* ===== verification/SendQueue.v ===== *)
(** Accounting of the send queue: the overflow check, the slots a completion reads
    back, what an error in the middle of a list leaves behind, and the order and
    the contents of the doorbell writes. *)

From stdpp Require Import base numbers list.
From S2P Require Import Prelude Mem Types Wqe Forecast PostSend SendSafe.

(** * Overflow *)

(** Entries in flight when the tail is [t] *)
Definition in_flight (wq : mlx5_wq) (t : Z) : Z := u32 (wq_head wq - t).

(** The overflow check is exact under a concurrent poller: a request is
    refused only if the queue is full at the tail read under the lock, and when
    it is accepted there is room for it at every tail [t] the poller can have
    reached since (the tail only moves towards the head). *)
Theorem wq_overflow_exact wq nreq tail1 tail2 :
  0 <= nreq -> in_flight wq tail1 + nreq < 2 ^ 32 -> in_flight wq tail2 + nreq < 2 ^ 32 ->
  (mlx5_wq_overflow wq nreq tail1 tail2 = true -> max_post wq <= in_flight wq tail2 + nreq) /\
  (mlx5_wq_overflow wq nreq tail1 tail2 = false ->
   forall t, in_flight wq t <= in_flight wq tail1 -> in_flight wq t <= in_flight wq tail2 ->
   in_flight wq t + nreq < max_post wq).
Proof.
  intros Hn H1 H2. unfold mlx5_wq_overflow, in_flight in *.
  pose proof (u32_range (wq_head wq - tail1)). pose proof (u32_range (wq_head wq - tail2)).
  rewrite (u32_small (u32 (wq_head wq - tail1) + nreq)) by lia.
  rewrite (u32_small (u32 (wq_head wq - tail2) + nreq)) by lia.
  destruct (Z.ltb_spec (u32 (wq_head wq - tail1) + nreq) (max_post wq)).
  - split; [done|]. intros _ t ??. lia.
  - split; [lia|]. intros ? t ??. lia.
Qed.

Lemma wq_overflow_exact_witness :
  let wq := set_wq_head 2 (demo_wq 4 4096 0) in
  mlx5_wq_overflow wq 1 (2 ^ 32 - 1) 0 = false /\ in_flight wq 0 + 1 < max_post wq.
Proof.
  intros wq.
  assert (mlx5_wq_overflow wq 1 (2 ^ 32 - 1) 0 = false) as E by reflexivity.
  split; [exact E|].
  apply (proj2 (wq_overflow_exact wq 1 (2 ^ 32 - 1) 0 ltac:(lia) ltac:(by vm_compute)
    ltac:(by vm_compute)) E 0); by vm_compute.
Defined.

(** * One request *)

(** The basic blocks of an element of [size] 16-byte units *)
Definition nbb (size : Z) : Z := DIV_ROUND_UP (size * 16) MLX5_SEND_WQE_BB.

(** What a successful iteration does to the accounting *)
Lemma post_send_wr_ok ctx nreq tails wr s s' :
  sq_wf (ps_qp s) -> post_send_wr ctx nreq tails wr s = (Ok, s') ->
  let w := sq (ps_qp s) in let w' := sq (ps_qp s') in
  wrid w' = aset (wrid w) (sq_idx (ps_qp s)) (wr_id wr) /\
  wqe_head w' = aset (wqe_head w) (sq_idx (ps_qp s)) (u32 (wq_head w + nreq)) /\
  cur_post w' = u32 (cur_post w + nbb (ps_size s')) /\
  wq_head w' = wq_head w /\ wqe_cnt w' = wqe_cnt w /\ sq_wf (ps_qp s') /\
  fm_cache (ps_qp s') = fm_cache (ps_qp s).
Proof.
  intros Hw. unfold post_send_wr. destruct (post_send_guards _ _ _ _); [|done..].
  destruct (w_seq _ _ _) as [o ws]. destruct o; [|done..]. intros [= <-]. simpl. split_and!; try done.
  by apply slot_done_wf, set_slot_wr_data_wf.
Qed.

(** A failing iteration keeps everything but the slot of [wr_data]. *)
Lemma post_send_wr_err ctx nreq tails wr s o s' :
  o <> Ok -> post_send_wr ctx nreq tails wr s = (o, s') ->
  let w := sq (ps_qp s) in let w' := sq (ps_qp s') in
  wrid w' = wrid w /\ wqe_head w' = wqe_head w /\ cur_post w' = cur_post w /\
  wq_head w' = wq_head w /\ wqe_cnt w' = wqe_cnt w.
Proof.
  intros Ho. unfold post_send_wr. destruct (post_send_guards _ _ _ _); [|by intros [= _ <-]..].
  destruct (w_seq _ _ _) as [o' ws]. destruct o'; intros [= <- <-]; done.
Qed.

(** * The list *)

(** A run of the loop that posts [l] in full, with the size of each element *)
Inductive posts (ctx : mlx5_context) (tails : Z -> Z * Z) :
    Z -> list ibv_send_wr -> list Z -> ps_st -> ps_st -> Prop :=
| posts_nil n s : posts ctx tails n [] [] s s
| posts_cons n wr l sizes s s1 s2 :
    post_send_wr ctx n (tails n) wr s = (Ok, s1) ->
    posts ctx tails (n + 1) l sizes s1 s2 ->
    posts ctx tails n (wr :: l) (ps_size s1 :: sizes) s s2.

(** The loop posts a prefix; it stops at the end of the list or at a failing
    request. *)
Lemma post_send_loop_posts ctx tails l nreq s o n s' :
  post_send_loop ctx tails nreq l s = (o, n, s') ->
  exists k sizes s1, n = nreq + Z.of_nat k /\ (k <= length l)%nat /\
    posts ctx tails nreq (take k l) sizes s s1 /\
    (o = Ok /\ k = length l /\ s' = s1 \/
     exists wr, l !! k = Some wr /\ o <> Ok /\ post_send_wr ctx n (tails n) wr s1 = (o, s')).
Proof.
  revert nreq s. induction l as [|wr l IH]; intros nreq s; simpl.
  { intros [= <- <- <-]. exists 0%nat, [], s. split_and!; [lia|simpl; lia|constructor|auto]. }
  destruct (post_send_wr ctx nreq (tails nreq) wr s) as [o1 s1] eqn:E1.
  destruct (decide (o1 = Ok)) as [->|Hne].
  - intros H. destruct (IH _ _ H) as (k & sizes & s2 & -> & Hk & Hp & Hend).
    exists (S k), (ps_size s1 :: sizes), s2. split_and!; [lia|simpl; lia|by econstructor|].
    destruct Hend as [(-> & -> & ->)|(w & Hw & Ho & Hwr)]; [by left|]. right. exists w. eauto.
  - intros H. assert ((o1, nreq, s1) = (o, n, s')) as [= -> -> ->] by (destruct o1; done).
    exists 0%nat, [], s. split_and!; [lia|lia|constructor|]. right. exists wr. auto.
Qed.

(** ** Sizes only grow while an element is built *)

Definition Grows (P : wqe_st -> Prop) (c : W) : Prop :=
  forall s, P s -> ws_size s <= ws_size (c s).2.

Definition anyst (_ : wqe_st) : Prop := True.

Lemma Grows_seq P c1 c2 : Grows P c1 -> Grows anyst c2 -> Grows P (c1 ;; c2).
Proof.
  intros H1 H2 s Hs. unfold w_seq. specialize (H1 s Hs).
  destruct (c1 s) as [[] s1]; simpl in *; [|done..]. specialize (H2 s1 I). lia.
Qed.

Lemma Grows_seq_safe qp P Q c1 c2 :
  Grows P c1 -> Safe qp P c1 Q -> Grows Q c2 -> Grows P (c1 ;; c2).
Proof.
  intros H1 HS H2 s Hs. unfold w_seq. specialize (H1 s Hs). destruct (HS s Hs) as [_ HQ].
  destruct (c1 s) as [[] s1]; simpl in *; [|done..]. specialize (H2 s1 (HQ eq_refl)). lia.
Qed.

Lemma Grows_do P f : (forall s, ws_size (f s) = ws_size s) -> Grows P (w_do f).
Proof. intros E s _. simpl. rewrite E. lia. Qed.

Lemma Grows_advance P n : 0 <= n -> Grows P (w_advance n).
Proof. intros Hn s _. simpl. div_lia. Qed.

Lemma Grows_weaken (P : wqe_st -> Prop) c : Grows anyst c -> Grows P c.
Proof. intros H s _. by apply H. Qed.

Create HintDb grows discriminated.
#[export] Hint Resolve Grows_seq : grows.
#[export] Hint Extern 2 (Grows _ (w_do _)) => apply Grows_do; intros ?; by destruct_ifs : grows.
#[export] Hint Extern 2 (Grows _ (w_wrap _)) => apply Grows_do; intros ?; by destruct_ifs : grows.
#[export] Hint Extern 2 (Grows _ (w_put _)) => by apply Grows_do : grows.
#[export] Hint Extern 2 (Grows _ (w_imm _ _)) => by apply Grows_do : grows.
#[export] Hint Extern 2 (Grows _ (w_advance _)) => apply Grows_advance; unfold_consts; lia : grows.
#[export] Hint Extern 1 (Grows _ w_ok) => by intros ?? : grows.
#[export] Hint Extern 1 (Grows _ (w_err _)) => by intros ?? : grows.
#[export] Hint Extern 1 (Grows _ w_fault) => by intros ?? : grows.
#[export] Hint Extern 2 (Grows _ (if ?b then _ else _)) => destruct b : grows.

Lemma Grows_bind P qp ty k bi q : Grows P (set_bind_wr qp ty k bi q).
Proof.
  unfold set_bind_wr, set_umr_control_seg, set_umr_mkey_seg, set_umr_data_seg.
  destruct (bi_mr bi); auto 20 with grows.
Qed.
#[export] Hint Resolve Grows_bind : grows.

Lemma Grows_rc P qp ctrl wr : Grows P (rc_segs qp ctrl wr).
Proof. unfold rc_segs, w_raddr, w_bind_mw, w_local_inv. cbv zeta. auto 20 with grows. Qed.

Lemma Grows_uc P qp ctrl wr : Grows P (uc_segs qp ctrl wr).
Proof. unfold uc_segs, w_raddr, w_bind_mw, w_local_inv. cbv zeta. auto 20 with grows. Qed.

Lemma Grows_xrc P wr : Grows P (xrc_segs wr).
Proof. unfold xrc_segs. auto 20 with grows. Qed.

Lemma Grows_underlay P qp wr : Grows P (mlx5_post_send_underlay qp wr).
Proof.
  intros s _. unfold mlx5_post_send_underlay. cbv zeta.
  destruct (_ =? _); [done|]. destruct (_ && _); [done|]. destruct (sg_list wr); [done|].
  destruct (_ && _); [done|]. simpl. change ((sizeof_eth_pad + sizeof_eth_seg) / 16) with 3. lia.
Qed.
#[export] Hint Resolve Grows_rc Grows_uc Grows_xrc Grows_underlay : grows.

Lemma Grows_ud P qp wr : Grows P (ud_segs qp wr).
Proof. unfold ud_segs, w_when. auto 20 with grows. Qed.

Lemma align_nonneg v a : 0 <= align v a.
Proof.
  unfold align. apply Z.land_nonneg. left. unfold u64. apply Z.mod_pos_bound. lia.
Qed.

Lemma Grows_tso qp hdr sz mss : sq_wf qp -> Grows (at_bb qp 16) (set_tso_eth_seg qp hdr sz mss).
Proof.
  intros Hw s (i & Hi & E). pose proof (wf_qend _ Hw) as Eq. pose proof (wf_addr _ Hw).
  unfold set_tso_eth_seg. destruct (_ || _) eqn:Eg; [done|].
  unfold_consts. unfold ring_len in *. apply orb_false_iff in Eg as [? ?].
  rewrite (u64_small (qend _ - _)) by lia.
  set (copy := Z.min _ _). rewrite (u64_small (copy - 2)), (align_16 (copy - 2)) by lia.
  pose proof (align_nonneg (sz - copy) 16).
  destruct (copy <? sz); simpl; div_lia.
Qed.

Lemma Grows_raw ctx qp wr :
  sq_wf qp -> 0 <= eth_min_inline_size ctx -> Grows (at_bb qp 16) (raw_segs ctx qp wr).
Proof.
  intros Hw Hn. unfold raw_segs. eapply Grows_seq_safe with (qp := qp) (Q := at_bb qp 16).
  { auto with grows. }
  { apply (Safe_put_bb qp 16 32); [exact Hw|lia|lia|].
    intros p. apply Writes_memset; unfold_consts; lia. }
  eapply Grows_seq_safe with (qp := qp) (Q := at_bb qp 16).
  { auto 20 with grows. }
  { apply Safe_if; [intros _|intros _; by apply Safe_ok].
    apply Safe_if; [intros _|intros _; apply Safe_err].
    apply (Safe_put_bb qp 16 32); [exact Hw|lia|lia|]. intros p m a ?. by outside_solve. }
  destruct (opcode wr =? IBV_WR_TSO).
  - eapply Grows_seq_safe with (qp := qp) (Q := at_bb qp 16);
      [auto with grows|by apply Safe_keep_bb|].
    apply Grows_seq; [by apply Grows_tso|auto with grows].
  - intros s _. unfold raw_inline_hdr. destruct (copy_eth_inline_headers _ _ _ _ _) as [[o m] scp].
    destruct o; simpl; [|done..].
    pose proof (proj2 (Z.shiftr_nonneg (16 + eth_min_inline_size ctx) 4)). lia.
Qed.

Lemma Grows_data_segs P qp wr : Grows P (data_segs qp wr).
Proof.
  intros s _. unfold data_segs. destruct (is_inline wr).
  - unfold set_data_inl_seg. destruct (inl_copy _ _ _ _ _ _) as [[n|] m]; [|done].
    pose proof (align_nonneg (n + 4) 16). destruct (n =? 0); simpl; [done|div_lia].
  - set (l := drop _ _). clearbody l. assert (forall sg op, Grows anyst (data_seg op sg)) as Hd.
    { intros sg op s' _. unfold data_seg. destruct (is_atomic_op op); [|destruct (_ && _); [done|]].
      - by eapply (Grows_seq anyst); [auto with grows..|].
      - eapply (Grows_seq anyst); [|auto 20 with grows|done]. unfold w_when. auto with grows. }
    assert (Grows anyst (data_loop qp (opcode wr) l)) as H; [|by apply H].
    induction l as [|sg l IH]; simpl; unfold w_when; auto with grows.
Qed.

(** An accepted request occupies at least one block. *)
Lemma post_send_wr_size ctx nreq tails wr s s' :
  sq_wf (ps_qp s) -> 0 <= eth_min_inline_size ctx ->
  post_send_wr ctx nreq tails wr s = (Ok, s') -> 1 <= ps_size s'.
Proof.
  intros Hw Hn. unfold post_send_wr. destruct (post_send_guards _ _ _ _); [|done..].
  set (q := ps_qp s) in *. set (ws0 := mk_ws _ _ _ _ _ _ _).
  assert (Grows (at_bb q 16) (qp_type_segs ctx q (mlx5_get_send_wqe q (sq_idx q)) wr ;; data_segs q wr)) as G.
  { apply Grows_seq; [|apply Grows_data_segs]. unfold qp_type_segs. cbv zeta.
    destruct (_ =? _); [auto with grows|]. destruct (_ =? _); [auto with grows|].
    destruct (_ =? _); [auto with grows|]. destruct (_ =? _); [apply Grows_ud|].
    destruct (_ =? _); [by apply Grows_raw|auto with grows]. }
  specialize (G ws0). destruct (w_seq _ _ ws0) as [o ws]. simpl in G.
  destruct o; [|done..]. intros [= <-]. simpl. apply G.
  exists (sq_idx q). split; [by apply sq_idx_range|]. simpl. by rewrite get_send_wqe_eq.
Qed.

(** ** Slots *)

Lemma nbb_pos z : 1 <= z < 2 ^ 31 -> 1 <= nbb z.
Proof. intros ?. unfold nbb, MLX5_SEND_WQE_BB. rewrite DIV_ROUND_UP_64 by lia. div_lia. Qed.

(** Slot index [d] blocks after [c] in a ring of [cnt] *)
Definition slot_at (c cnt d : Z) : Z := (c + d) mod cnt.

Lemma slot_at_inj c cnt d1 d2 :
  0 < cnt -> 0 <= d1 < cnt -> 0 <= d2 < cnt -> slot_at c cnt d1 = slot_at c cnt d2 -> d1 = d2.
Proof.
  unfold slot_at. intros ??? E.
  assert ((d1 - d2) mod cnt = 0) as Hm.
  { replace (d1 - d2) with ((c + d1) - (c + d2)) by lia. by rewrite Zminus_mod, E, Z.sub_diag. }
  apply Z.mod_divide in Hm as [q Hq]; [|lia].
  destruct (Z.lt_trichotomy q 0) as [?|[->|?]]; nia.
Qed.

Lemma slot_at_range c cnt d : 0 < cnt -> 0 <= slot_at c cnt d < cnt.
Proof. intros. by apply Z.mod_pos_bound. Qed.

(** The block after a run of [n] starts at the masked counter, even across the
    wrap of the 32-bit counter. *)
Lemma slot_at_u32 qp c n d :
  sq_wf qp -> slot_at (u32 (c + n)) (wqe_cnt (sq qp)) d = slot_at c (wqe_cnt (sq qp)) (n + d).
Proof.
  intros Hw. destruct (wf_cnt _ Hw) as (k & Hk & ->). unfold slot_at.
  rewrite <- (Zplus_mod_idemp_l (u32 _)), <- (land_pow2_pred (u32 _)), ring_index_wrap by lia.
  rewrite Zplus_mod_idemp_l. f_equal. lia.
Qed.

Lemma sq_idx_slot qp : sq_wf qp -> sq_idx qp = slot_at (cur_post (sq qp)) (wqe_cnt (sq qp)) 0.
Proof.
  intros Hw. destruct (wf_cnt _ Hw) as (k & Hk & E). unfold sq_idx, slot_at.
  rewrite E, land_pow2_pred, Z.add_0_r by lia. done.
Qed.

(** What a run of the loop leaves in the per-slot arrays *)
Lemma posts_slots ctx tails n l sizes s s' :
  0 <= eth_min_inline_size ctx -> posts ctx tails n l sizes s s' -> sq_wf (ps_qp s) ->
  Forall (fun z => z < 2 ^ 31) sizes -> sumZ nbb sizes <= wqe_cnt (sq (ps_qp s)) ->
  let w := sq (ps_qp s) in let w' := sq (ps_qp s') in
  let slot d := slot_at (cur_post w) (wqe_cnt w) d in
  0 <= sumZ nbb sizes /\
  (forall i wr, l !! i = Some wr ->
     aget (wrid w') (slot (sumZ nbb (take i sizes))) = wr_id wr /\
     aget (wqe_head w') (slot (sumZ nbb (take i sizes))) = u32 (wq_head w + (n + Z.of_nat i))) /\
  (forall d, sumZ nbb sizes <= d < wqe_cnt w ->
     aget (wrid w') (slot d) = aget (wrid w) (slot d) /\
     aget (wqe_head w') (slot d) = aget (wqe_head w) (slot d)).
Proof.
  intros Hn Hp. induction Hp as [n s|n wr l sizes s s1 s2 E Hp IH]; intros Hw Hz Hsum; simpl.
  { split; [lia|]. by split; [intros i ? ?|]. }
  apply Forall_cons in Hz as [Hz1 Hz]. simpl in Hsum.
  pose proof (post_send_wr_size _ _ _ _ _ _ Hw Hn E) as Hsz.
  pose proof (nbb_pos (ps_size s1) ltac:(lia)) as Hb.
  destruct (post_send_wr_ok _ _ _ _ _ _ Hw E) as (Ew & Eh & Ec & Ehd & Ecnt & Hw1 & _).
  pose proof (wf_cnt_pos _ Hw) as Hcnt.
  set (c := cur_post (sq (ps_qp s))) in *. set (cnt := wqe_cnt (sq (ps_qp s))) in *.
  cbv zeta in IH. rewrite Ecnt, Ec, Ehd, Ew, Eh in IH. specialize (IH Hw1 Hz ltac:(lia)) as (Hnn & Hslots & Hrest).
  set (b := nbb (ps_size s1)) in *.
  assert (forall d, slot_at (u32 (c + b)) cnt d = slot_at c cnt (b + d)) as Hs
    by (intros d; unfold cnt; by apply slot_at_u32).
  rewrite (sq_idx_slot _ Hw) in Hrest. fold c cnt in Hrest.
  assert (forall d, 0 < d < cnt -> slot_at c cnt 0 <> slot_at c cnt d) as Hne.
  { intros d Hd Heq. apply slot_at_inj in Heq; lia. }
  pose proof (slot_at_range c cnt 0 Hcnt) as H0.
  assert (Hold : forall d, b + sumZ nbb sizes <= d < cnt ->
     aget (wrid (sq (ps_qp s2))) (slot_at c cnt d) = aget (wrid (sq (ps_qp s))) (slot_at c cnt d) /\
     aget (wqe_head (sq (ps_qp s2))) (slot_at c cnt d) = aget (wqe_head (sq (ps_qp s))) (slot_at c cnt d)).
  { intros d Hd. specialize (Hrest (d - b) ltac:(lia)). rewrite Hs in Hrest.
    replace (b + (d - b)) with d in Hrest by lia. destruct Hrest as [-> ->].
    pose proof (slot_at_range c cnt d Hcnt). specialize (Hne d ltac:(lia)).
    by rewrite !aget_aset_ne by lia. }
  split; [lia|]. split; [|exact Hold].
  intros [|i] wr' Hi; simpl in *.
  - injection Hi as <-.
    specialize (Hrest (cnt - b) ltac:(lia)). rewrite Hs in Hrest.
    assert (slot_at c cnt (b + (cnt - b)) = slot_at c cnt 0) as E0.
    { unfold slot_at. replace (c + (b + (cnt - b))) with (c + 1 * cnt) by lia.
      by rewrite Z.mod_add, Z.add_0_r by lia. }
    rewrite E0 in Hrest. destruct Hrest as [-> ->].
    pose proof (wf_wrid _ Hw). pose proof (wf_wqe_head _ Hw).
    rewrite !aget_aset_eq by lia. split; [done|]. f_equal. lia.
  - destruct (Hslots i wr' Hi) as [H1 H2]. rewrite Hs in H1, H2.
    change (foldr (fun x s => nbb x + s) 0 (take i sizes)) with (sumZ nbb (take i sizes)).
    fold b. rewrite H1, H2. split; [done|]. f_equal. lia.
Qed.

(** The locals at the start of the loop *)
Definition loop_start (s : send_st) : ps_st :=
  mk_ps (ss_qp s) (ss_mem s) 0 0 false (mk_scp 0 0) 0 (fm_cache (ss_qp s)).

Lemma post_send_db_sq ctx n inl size ctrl s :
  let w := sq (ss_qp s) in let w' := sq (ss_qp (post_send_db ctx n inl size ctrl s)) in
  0 <= wq_head w < 2 ^ 32 ->
  wrid w' = wrid w /\ wqe_head w' = wqe_head w /\ cur_post w' = cur_post w /\
  wq_head w' = u32 (wq_head w + n).
Proof.
  intros w w' ?. subst w w'. unfold post_send_db. destruct (Z.eqb_spec n 0) as [->|]; [|done].
  rewrite Z.add_0_r, u32_small by done. done.
Qed.

Lemma posts_counters ctx tails n l sizes s s' :
  posts ctx tails n l sizes s s' -> sq_wf (ps_qp s) ->
  length sizes = length l /\ sq_wf (ps_qp s') /\
  wq_head (sq (ps_qp s')) = wq_head (sq (ps_qp s)) /\
  cur_post (sq (ps_qp s')) = u32 (cur_post (sq (ps_qp s)) + sumZ nbb sizes).
Proof.
  intros Hp. induction Hp as [n s|n wr l sizes s s1 s2 E Hp IH]; intros Hw; simpl.
  { rewrite Z.add_0_r, u32_small by (destruct Hw; lia). done. }
  destruct (post_send_wr_ok _ _ _ _ _ _ Hw E) as (_ & _ & Ec & Eh & _ & Hw1 & _).
  destruct (IH Hw1) as (-> & Hw2 & -> & ->). rewrite Ec, Eh, u32_add_l.
  split_and!; [done..|]. f_equal. lia.
Qed.

(** C6.  The bookkeeping a completion relies on.  However a call ends, it posts a
    prefix of the list (all of it when it succeeds), advances [head] by the number
    posted and [cur_post] by their blocks; and as long as these fit the ring,
    the slot of the [i]-th element holds its [wr_id] and the value from which the
    completion handler recomputes the tail, across any wrap of the ring or of
    the 32-bit counters. *)
Theorem post_send_bookkeeping ctx tails wrs s o n s' :
  sq_wf (ss_qp s) -> 0 <= eth_min_inline_size ctx ->
  post_send_locked ctx tails wrs s = (o, n, s') ->
  exists sizes ps,
    let w := sq (ss_qp s) in let w' := sq (ss_qp s') in
    posts ctx tails 0 (take (Z.to_nat n) wrs) sizes (loop_start s) ps /\
    0 <= n <= Z.of_nat (length wrs) /\ (o = Ok -> n = Z.of_nat (length wrs)) /\
    wq_head w' = u32 (wq_head w + n) /\ cur_post w' = u32 (cur_post w + sumZ nbb sizes) /\
    (Forall (fun z => z < 2 ^ 31) sizes -> sumZ nbb sizes <= wqe_cnt w ->
     forall i wr, (i < Z.to_nat n)%nat -> wrs !! i = Some wr ->
       let slot := slot_at (cur_post w) (wqe_cnt w) (sumZ nbb (take i sizes)) in
       aget (wrid w') slot = wr_id wr /\ aget (wqe_head w') slot = u32 (wq_head w + Z.of_nat i)).
Proof.
  intros Hw Hn H. unfold post_send_locked in H. fold (loop_start s) in H.
  destruct (post_send_loop ctx tails 0 wrs (loop_start s)) as [[o1 n1] ps] eqn:E.
  injection H as -> -> <-.
  destruct (post_send_loop_posts _ _ _ _ _ _ _ _ E) as (k & sizes & ps1 & En & Hk & Hp & Hend).
  rewrite Z.add_0_l in En. subst n.
  destruct (posts_counters _ _ _ _ _ _ _ Hp Hw) as (Hlen & Hw1 & Eh & Ec).
  exists sizes, ps1.
  assert (wrid (sq (ps_qp ps)) = wrid (sq (ps_qp ps1)) /\
    wqe_head (sq (ps_qp ps)) = wqe_head (sq (ps_qp ps1)) /\
    cur_post (sq (ps_qp ps)) = cur_post (sq (ps_qp ps1)) /\
    wq_head (sq (ps_qp ps)) = wq_head (sq (ps_qp ps1))) as (E1 & E2 & E3 & E4).
  { destruct Hend as [(_ & _ & ->)|(wr & _ & Ho & Hwr)]; [done|].
    destruct (post_send_wr_err _ _ _ _ _ _ _ Ho Hwr) as (? & ? & ? & ? & _). done. }
  destruct (post_send_db_sq ctx (Z.of_nat k) (ps_inl ps) (ps_size ps) (ps_ctrl ps)
    (mk_ss (set_fm_cache (ps_next_fence ps) (ps_qp ps)) (ss_bf s) (ps_mem ps) (ss_trace s)))
    as (D1 & D2 & D3 & D4).
  { simpl. rewrite E4, Eh. apply Hw. }
  cbv zeta. rewrite D1, D2, D3, D4, Nat2Z.id. simpl. rewrite E1, E2, E3, E4, Eh, Ec.
  split_and!; [done|lia|lia| |done|done|].
  { intros ->. destruct Hend as [(_ & -> & _)|(? & _ & ? & _)]; done. }
  intros Hz Hsum i wr Hi Hwr.
  destruct (posts_slots _ _ _ _ _ _ _ Hn Hp Hw Hz Hsum) as (_ & Hs & _).
  apply Hs. by rewrite lookup_take_lt by lia.
Qed.

Definition demo_wrs : list ibv_send_wr :=
  [demo_wr IBV_WR_RDMA_WRITE 2 [mk_sge 8192 100 1; mk_sge 9000 28 2; mk_sge 9100 1 3];
   demo_wr IBV_WR_SEND 8 [mk_sge 8192 50 1]].

Lemma post_send_bookkeeping_witness :
  let r := post_send_locked demo_ctx (fun _ => (0, 0)) demo_wrs (demo_send IBV_QPT_RC 3) in
  wq_head (sq (ss_qp r.2)) = 2.
Proof.
  intros r.
  destruct (post_send_bookkeeping demo_ctx (fun _ => (0, 0)) demo_wrs (demo_send IBV_QPT_RC 3)
    r.1.1 r.1.2 r.2) as (sizes & ps & _ & _ & Hn & Hh & _).
  - apply demo_wf. lia.
  - simpl. lia.
  - by rewrite <- !surjective_pairing.
  - rewrite Hh, Hn by (by vm_compute). reflexivity.
Defined.

(** * Errors in the middle of a list *)

(** An error at request [n] leaves the counters and the slots exactly as if
    only the first [n] requests had been posted: the failing element is never
    made visible to the device. *)
Theorem post_send_error_prefix ctx tails wrs s e n s' :
  sq_wf (ss_qp s) -> post_send_locked ctx tails wrs s = (Err e, n, s') ->
  exists s1, post_send_locked ctx tails (take (Z.to_nat n) wrs) s = (Ok, n, s1) /\
    wq_head (sq (ss_qp s')) = wq_head (sq (ss_qp s1)) /\
    cur_post (sq (ss_qp s')) = cur_post (sq (ss_qp s1)) /\
    wrid (sq (ss_qp s')) = wrid (sq (ss_qp s1)) /\
    wqe_head (sq (ss_qp s')) = wqe_head (sq (ss_qp s1)).
Proof.
  intros Hw H. unfold post_send_locked in *. fold (loop_start s) in *.
  destruct (post_send_loop ctx tails 0 wrs (loop_start s)) as [[o1 n1] ps] eqn:E.
  injection H as -> -> <-.
  destruct (post_send_loop_posts _ _ _ _ _ _ _ _ E) as (k & sizes & ps1 & En & Hk & Hp & Hend).
  rewrite Z.add_0_l in En. subst n. rewrite Nat2Z.id.
  destruct Hend as [(? & _)|(wr & _ & Ho & Hwr)]; [done|].
  destruct (post_send_wr_err _ _ _ _ _ _ _ Ho Hwr) as (E1 & E2 & E3 & E4 & _).
  assert (forall nr l sz a b, posts ctx tails nr l sz a b ->
    post_send_loop ctx tails nr l a = (Ok, nr + Z.of_nat (length l), b)) as Hloop.
  { induction 1 as [nr a|nr w l sz a b c Ea Hp' IH]; simpl; [by rewrite Z.add_0_r|].
    rewrite Ea, IH.
    replace (nr + 1 + Z.of_nat (length l)) with (nr + Z.of_nat (S (length l))) by lia. done. }
  rewrite (Hloop _ _ _ _ _ Hp), length_take_le, Z.add_0_l by done.
  destruct (posts_counters _ _ _ _ _ _ _ Hp Hw) as (_ & Hw1 & _).
  pose proof (wf_head _ Hw1) as Hh.
  eexists. split; [done|].
  destruct (post_send_db_sq ctx (Z.of_nat k) (ps_inl ps) (ps_size ps) (ps_ctrl ps)
    (mk_ss (set_fm_cache (ps_next_fence ps) (ps_qp ps)) (ss_bf s) (ps_mem ps) (ss_trace s)))
    as (-> & -> & -> & ->); [simpl; by rewrite E4|].
  destruct (post_send_db_sq ctx (Z.of_nat k) (ps_inl ps1) (ps_size ps1) (ps_ctrl ps1)
    (mk_ss (set_fm_cache (ps_next_fence ps1) (ps_qp ps1)) (ss_bf s) (ps_mem ps1) (ss_trace s)))
    as (-> & -> & -> & ->); [done|].
  simpl. by rewrite E1, E2, E3, E4.
Qed.

(** A list whose second request has too many entries *)
Definition bad_wrs : list ibv_send_wr :=
  [demo_wr IBV_WR_SEND 2 [mk_sge 8192 100 1];
   demo_wr IBV_WR_SEND 2 (replicate 5 (mk_sge 8192 100 1));
   demo_wr IBV_WR_SEND 2 []].

Lemma post_send_error_prefix_witness :
  let r := post_send_locked demo_ctx (fun _ => (0, 0)) bad_wrs (demo_send IBV_QPT_RC 3) in
  exists s1,
    post_send_locked demo_ctx (fun _ => (0, 0)) (take 1 bad_wrs) (demo_send IBV_QPT_RC 3)
      = (Ok, 1, s1) /\
    wq_head (sq (ss_qp r.2)) = wq_head (sq (ss_qp s1)) /\
    cur_post (sq (ss_qp r.2)) = cur_post (sq (ss_qp s1)) /\
    wrid (sq (ss_qp r.2)) = wrid (sq (ss_qp s1)) /\
    wqe_head (sq (ss_qp r.2)) = wqe_head (sq (ss_qp s1)).
Proof.
  intros r. apply (post_send_error_prefix demo_ctx (fun _ => (0, 0)) bad_wrs (demo_send IBV_QPT_RC 3)
    ENOMEM 1 r.2).
  - apply demo_wf. lia.
  - assert (r.1 = (Err ENOMEM, 1)) as E by (by vm_compute).
    rewrite <- E. apply surjective_pairing.
Defined.

(** * Doorbells *)

(** ** BlueFlame *)

(** The block [i] blocks after block [idx] of the ring *)
Definition ring_block (qp : mlx5_qp) (idx i : Z) : Z :=
  mlx5_get_send_wqe qp (slot_at idx (wqe_cnt (sq qp)) i).

Lemma bf_copy_blocks qp n dst idx m :
  sq_wf qp -> 0 <= idx < wqe_cnt (sq qp) -> (0 < n)%nat -> Z.of_nat n < 2 ^ 25 ->
  mlx5_bf_copy n qp dst (mlx5_get_send_wqe qp idx) (64 * Z.of_nat n) m =
  Some ((fun i => EvBfCopy (dst + 64 * Z.of_nat i) (read_bytes (ring_block qp idx (Z.of_nat i)) 64 m))
          <$> seq 0 n).
Proof.
  intros Hw. revert dst idx. induction n as [|n IH]; intros dst idx Hi Hn Hb; [lia|].
  cbn [mlx5_bf_copy]. cbv zeta. pose proof (wf_qend _ Hw) as Eq. pose proof (wf_cnt_pos _ Hw).
  assert (forall j, 0 <= j < wqe_cnt (sq qp) -> slot_at j (wqe_cnt (sq qp)) 0 = j) as Hs0.
  { intros j ?. unfold slot_at. rewrite Z.add_0_r. by apply Z.mod_small. }
  assert ((if mlx5_get_send_wqe qp idx + 64 =? qend (sq qp) then sq_start qp
           else mlx5_get_send_wqe qp idx + 64)
          = mlx5_get_send_wqe qp (slot_at idx (wqe_cnt (sq qp)) 1)) as ->.
  { rewrite !get_send_wqe_eq. unfold ring_len, slot_at in *.
    destruct (Z.eqb_spec (sq_start qp + 64 * idx + 64) (qend (sq qp))) as [E|E].
    - replace (idx + 1) with (wqe_cnt (sq qp)) by lia. rewrite Z.mod_same by lia. lia.
    - rewrite Z.mod_small by lia. lia. }
  rewrite u32_small by lia. replace (64 * Z.of_nat (S n) - 64) with (64 * Z.of_nat n) by lia.
  cbn [seq fmap list_fmap]. unfold ring_block at 1. rewrite Hs0 by done.
  replace (dst + 64 * Z.of_nat 0) with dst by lia.
  destruct n as [|n]; [done|]. rewrite (proj2 (Z.ltb_lt 0 _)) by lia.
  rewrite IH by (try apply slot_at_range; lia). cbn [fmap option_fmap option_map]. f_equal. f_equal.
  rewrite <- (fmap_S_seq 0 (S n)), <- list_fmap_compose. apply list_fmap_ext. intros i x _. simpl.
  f_equal; [lia|]. unfold ring_block, slot_at. rewrite Zplus_mod_idemp_l.
  replace (idx + 1 + Z.of_nat x) with (idx + Z.of_nat (S x)) by lia. done.
Qed.

Lemma bf_copy_size qp reg idx size m :
  sq_wf qp -> 0 <= idx < wqe_cnt (sq qp) -> 1 <= size < 2 ^ 20 ->
  mlx5_bf_copy (bf_fuel size) qp reg (mlx5_get_send_wqe qp idx) (align (size * 16) 64) m =
  Some ((fun i => EvBfCopy (reg + 64 * Z.of_nat i) (read_bytes (ring_block qp idx (Z.of_nat i)) 64 m))
          <$> seq 0 (Z.to_nat (nbb size))).
Proof.
  intros Hw Hi Hs. unfold bf_fuel, nbb, MLX5_SEND_WQE_BB.
  rewrite align_64, DIV_ROUND_UP_64 by lia.
  replace (64 * ((size * 16 + 63) / 64) / 64) with ((size * 16 + 63) / 64) by div_lia.
  replace (64 * ((size * 16 + 63) / 64)) with (64 * Z.of_nat (Z.to_nat ((size * 16 + 63) / 64)))
    by div_lia.
  apply bf_copy_blocks; [done|done|div_lia|div_lia].
Qed.

Lemma use_bf_size ctx bf n inl size :
  use_bf ctx bf n inl size = true -> bf_buf_size bf < 2 ^ 20 -> 1 <= size < 2 ^ 20.
Proof. unfold use_bf. rewrite !andb_true_iff. intros. div_lia. Qed.

Lemma sq_wf_set_head qp h : sq_wf qp -> 0 <= h < 2 ^ 32 -> sq_wf (set_sq (set_wq_head h (sq qp)) qp).
Proof. by intros [] ?; split. Qed.

(** A doorbell rung by BlueFlame terminates and hands the device the element
    exactly: after the barrier and the record, one 64-byte write per basic block,
    at consecutive register addresses, in ring order and wrapping at the end of
    the queue. *)
Theorem blueflame_exact ctx inl size idx s :
  sq_wf (ss_qp s) -> 0 <= idx < wqe_cnt (sq (ss_qp s)) -> bf_buf_size (ss_bf s) < 2 ^ 20 ->
  use_bf ctx (ss_bf s) 1 inl size = true ->
  let q := ss_qp s in let bf := ss_bf s in
  let v := Z.land (cur_post (sq q)) 0xffff in
  let m' := store_be 4 (snd_dbr q) v (ss_mem s) in
  ss_trace (post_send_db ctx 1 inl size (mlx5_get_send_wqe q idx) s) =
  ss_trace s ++ [EvBarrier; EvDbrec (snd_dbr q) v; EvWcStart (bf_need_lock bf)] ++
  ((fun i => EvBfCopy (bf_reg bf + bf_offset bf + 64 * Z.of_nat i)
               (read_bytes (ring_block q idx (Z.of_nat i)) 64 m')) <$> seq 0 (Z.to_nat (nbb size)))
  ++ [EvFlush] ++ if bf_need_lock bf then [EvUnlock] else [].
Proof.
  intros Hw Hi Hb Hu. cbv zeta. unfold post_send_db. simpl Z.eqb. cbv iota zeta.
  set (q1 := set_sq _ _).
  assert (sq_wf q1) by (apply sq_wf_set_head; auto with mlx5).
  change (mlx5_get_send_wqe (ss_qp s) idx) with (mlx5_get_send_wqe q1 idx).
  rewrite Hu, bf_copy_size; [done..|]. by eapply use_bf_size.
Qed.

Lemma blueflame_exact_witness :
  let s := demo_send IBV_QPT_RC 3 in
  let m' := store_be 4 516 3 (ss_mem s) in
  ss_trace (post_send_db demo_ctx 1 true 6 (4096 + 192) s) =
  [EvBarrier; EvDbrec 516 3; EvWcStart true;
   EvBfCopy 65536 (read_bytes (4096 + 192) 64 m'); EvBfCopy 65600 (read_bytes 4096 64 m');
   EvFlush; EvUnlock].
Proof.
  intros s m'. etransitivity; [apply (blueflame_exact demo_ctx true 6 3 s)|].
  - apply demo_wf. lia.
  - simpl. lia.
  - simpl. lia.
  - reflexivity.
  - reflexivity.
Defined.

(** ** Order of the doorbell writes

    What the device requires of one doorbell, as an automaton over the trace: the
    descriptors are made visible (barrier) before the doorbell record, the record
    before the write-combining section, at least one register write in the
    section, all flushed before the section ends. *)
Inductive db_phase : Type :=
| DbIdle | DbBarrier | DbRecord | DbOpen (locked : bool) | DbRung (locked : bool) | DbFlushed.

Definition db_step (p : db_phase) (e : dev_event) : option db_phase :=
  match p, e with
  | DbIdle, EvBarrier => Some DbBarrier
  | DbBarrier, EvDbrec _ _ => Some DbRecord
  | DbRecord, EvWcStart l => Some (DbOpen l)
  | (DbOpen l | DbRung l), (EvMmio64 _ _ | EvBfCopy _ _) => Some (DbRung l)
  | DbRung true, EvFlush => Some DbFlushed
  | DbRung false, EvFlush => Some DbIdle
  | DbFlushed, EvUnlock => Some DbIdle
  | _, _ => None
  end.

Fixpoint db_run (p : db_phase) (t : list dev_event) : option db_phase :=
  match t with
  | [] => Some p
  | e :: t' => match db_step p e with Some p' => db_run p' t' | None => None end
  end.

Lemma db_run_app p t1 t2 :
  db_run p (t1 ++ t2) = match db_run p t1 with Some p' => db_run p' t2 | None => None end.
Proof.
  revert p. induction t1 as [|e t1 IH]; intros p; simpl; [done|].
  destruct (db_step p e); [apply IH|done].
Qed.

Lemma db_run_bf_copies p l (n : nat) (f : nat -> dev_event) :
  (forall i, exists a b, f i = EvBfCopy a b) -> (0 < n)%nat ->
  p = DbOpen l \/ p = DbRung l -> forall k, db_run p (f <$> seq k n) = Some (DbRung l).
Proof.
  intros Hf. revert p. induction n as [|n IH]; intros p Hn Hp k; [lia|].
  simpl. destruct (Hf k) as (a & b & ->).
  assert (db_step p (EvBfCopy a b) = Some (DbRung l)) as ->.
  { destruct Hp as [Hp|Hp]; rewrite Hp; by destruct l. }
  destruct n as [|n]; [done|]. apply IH; [lia|by right].
Qed.

(** [ctrl] designates a block of the ring of [q]. *)
Definition ctrl_in (q : mlx5_qp) (s : ps_st) : Prop :=
  exists i, 0 <= i < wqe_cnt (sq q) /\ ps_ctrl s = mlx5_get_send_wqe q i.

Lemma post_send_wr_ctrl ctx q nreq tails wr s :
  ps_inv ctx q s ->
  let r := post_send_wr ctx nreq tails wr s in
  ctrl_in q r.2 \/ (r.1 <> Ok /\ r.2 = s).
Proof.
  intros [[Eq Es] Hw _]. unfold post_send_wr.
  destruct (post_send_guards _ _ _ _); [|by right..]. left.
  destruct (w_seq _ _ _) as [o ws]. pose proof (sq_idx_range _ Hw) as Hr. rewrite Es in Hr.
  exists (sq_idx (ps_qp s)). split; [exact Hr|].
  unfold mlx5_get_send_wqe. rewrite Eq. by destruct o.
Qed.

Lemma post_send_loop_ctrl ctx q tails nreq l s o n s' :
  send_limits ctx q -> forallb (wr_safe q) l = true -> ps_inv ctx q s ->
  post_send_loop ctx tails nreq l s = (o, n, s') ->
  nreq <= n /\ (ctrl_in q s \/ nreq < n -> ctrl_in q s').
Proof.
  intros Hlim. revert nreq s. induction l as [|wr l IH]; intros nreq s Hl Hi; simpl.
  { intros [= _ <- <-]. split; [lia|]. intros [?|?]; [done|lia]. }
  simpl in Hl. apply andb_true_iff in Hl as [Hwr Hl].
  destruct (post_send_wr_inv ctx q nreq (tails nreq) wr s Hlim Hwr Hi) as [Hi' _].
  pose proof (post_send_wr_ctrl ctx q nreq (tails nreq) wr s Hi) as Hc.
  destruct (post_send_wr ctx nreq (tails nreq) wr s) as [o1 s1]. simpl in Hi', Hc.
  destruct (decide (o1 = Ok)) as [->|Hne].
  - intros H. destruct (IH _ _ Hl Hi' H) as [Hle Hin]. split; [lia|]. intros _. apply Hin.
    destruct Hc as [?|[? _]]; [by left|done].
  - intros H. assert ((o1, nreq, s1) = (o, n, s')) as [= -> -> ->] by (by destruct o1).
    split; [lia|]. intros [?|?]; [|lia]. destruct Hc as [?|[_ ->]]; done.
Qed.

Lemma post_send_db_trace ctx n inl size i s :
  sq_wf (ss_qp s) -> 0 <= i < wqe_cnt (sq (ss_qp s)) -> bf_buf_size (ss_bf s) < 2 ^ 20 ->
  db_run DbIdle (ss_trace s) = Some DbIdle ->
  db_run DbIdle (ss_trace (post_send_db ctx n inl size (mlx5_get_send_wqe (ss_qp s) i) s)) = Some DbIdle.
Proof.
  intros Hw Hi Hb Ht. unfold post_send_db. destruct (n =? 0); [done|].
  set (q := set_sq _ _). set (m := store_be _ _ _ _). set (reg := bf_reg _ + _). simpl.
  rewrite db_run_app, Ht. simpl. rewrite db_run_app.
  set (ring := if use_bf _ _ _ _ _ then _ else _).
  assert (forall l, db_run (DbOpen l) ring = Some (DbRung l)) as Hring.
  { intros l. unfold ring. destruct (use_bf ctx (ss_bf s) n inl size) eqn:Eu; [|done].
    pose proof (use_bf_size _ _ _ _ _ Eu Hb) as Hs.
    change (mlx5_get_send_wqe (ss_qp s) i) with (mlx5_get_send_wqe q i).
    assert (sq_wf q) as Hq by (apply sq_wf_set_head; auto with mlx5).
    rewrite (bf_copy_size q reg i size m) by done.
    simpl. apply db_run_bf_copies; [eauto| |by left].
    pose proof (nbb_pos size). lia. }
  rewrite Hring. by destruct (bf_need_lock (ss_bf s)).
Qed.

(** C38.  Every call of [mlx5_post_send] drives the device through whole doorbell
    sequences only: from a trace accepted by the automaton to one accepted again,
    on every path, errors included. *)
Theorem post_send_doorbell_order ctx tails wrs s :
  sq_wf (ss_qp s) -> send_limits ctx (ss_qp s) -> forallb (wr_safe (ss_qp s)) wrs = true ->
  bf_buf_size (ss_bf s) < 2 ^ 20 ->
  db_run DbIdle (ss_trace s) = Some DbIdle ->
  db_run DbIdle (ss_trace (post_send_locked ctx tails wrs s).2) = Some DbIdle.
Proof.
  intros Hw Hlim Hl Hb Ht. unfold post_send_locked. fold (loop_start s).
  assert (ps_inv ctx (ss_qp s) (loop_start s)) as Hi by (by split).
  destruct (post_send_loop_inv ctx (ss_qp s) tails 0 wrs (loop_start s) Hlim Hl Hi) as [[[Eq Es] Hw' _] _].
  destruct (post_send_loop ctx tails 0 wrs (loop_start s)) as [[o n] ps] eqn:E.
  destruct (post_send_loop_ctrl _ _ _ _ _ _ _ _ _ Hlim Hl Hi E) as [Hn Hc]. simpl in *.
  destruct (decide (n = 0)) as [->|Hne]; [done|].
  destruct (Hc ltac:(right; lia)) as (i & Hir & Ei). rewrite Ei.
  set (s1 := mk_ss _ _ _ _).
  assert (mlx5_get_send_wqe (ss_qp s) i = mlx5_get_send_wqe (ss_qp s1) i) as ->.
  { unfold mlx5_get_send_wqe, s1. simpl. by rewrite Eq. }
  apply post_send_db_trace; [by destruct Hw'; split| |done|done].
  unfold s1. simpl. by rewrite Es.
Qed.

Lemma post_send_doorbell_order_witness :
  db_run DbIdle (ss_trace (post_send_locked demo_ctx (fun _ => (0, 0))
    [demo_wr IBV_WR_SEND IBV_SEND_INLINE [mk_sge 8192 50 1]] (demo_send IBV_QPT_RC 3)).2) = Some DbIdle.
Proof.
  apply post_send_doorbell_order; [apply demo_wf; lia|apply demo_limits|by vm_compute|by vm_compute|done].
Defined.

(** When a request fails after its slot has been claimed, the doorbell of the
    requests before it is rung with the control segment of the failing slot,
    whose first eight bytes still hold what the ring held before the call. *)
Theorem post_send_error_rings_failing_slot :
  let s := demo_send IBV_QPT_RC 0 in
  let q := ss_qp s in
  let bad := mk_wr 78 [] IBV_WR_BIND_MW 2 0 0 0 0 0 0 0 0 0 0 0 0 (mk_mw 16 IBV_MW_TYPE_2) 0
               (mk_bind_info None 0 (2 ^ 32) 0) 0 0 0 in
  let '(o, n, s') := post_send_locked demo_ctx (fun _ => (0, 0))
      [demo_wr IBV_WR_SEND 2 [mk_sge 8192 100 1]; bad] s in
  o = Err EOPNOTSUPP /\ n = 1 /\
  EvMmio64 65536 (load_be 8 (mlx5_get_send_wqe q 1) (ss_mem s)) ∈ ss_trace s' /\
  load_be 8 (mlx5_get_send_wqe q 1) (ss_mem s) <> load_be 8 (mlx5_get_send_wqe q 0) (ss_mem s').
Proof.
  vm_compute. split_and!; [done..| |done].
  do 3 (apply list_elem_of_further). apply list_elem_of_here.
Qed.
