(* ===== verification/SendDecode.v ===== *)
(** The element as the device reads it.

    A decoder of transport work-queue elements (RC, UC and XRC sends, RDMA and
    atomics) written against the hardware layout: the control segment, then
    16-byte units taken in ring order.  The main results are round trips: what
    [mlx5_post_send] encodes, the device decodes to the work request, for
    scatter lists and for inline data, across the wrap of the ring. *)

From stdpp Require Import base numbers list.
From S2P Require Import Prelude Mem Types Wqe Forecast PostSend SendSafe SendQueue.

(** * Units of an element *)

(** Address of the [k]-th 16-byte unit of the element at [ctrl] *)
Definition unit_at (qp : mlx5_qp) (ctrl k : Z) : Z :=
  sq_start qp + (ctrl - sq_start qp + 16 * k) mod ring_len qp.

Section Units.
#[local] Set Default Proof Using "Type*".
Context (qp : mlx5_qp) (Hw : sq_wf qp) (idx : Z) (Hidx : 0 <= idx < wqe_cnt (sq qp)).

Definition ctrl_of : Z := mlx5_get_send_wqe qp idx.

Lemma ring_len_pos : 0 < ring_len qp.
Proof. pose proof (wf_cnt_pos _ Hw). unfold ring_len. lia. Qed.

(** Position of a unit in the ring, in units *)
Definition unit_pos (k : Z) : Z := (4 * idx + k) mod (4 * wqe_cnt (sq qp)).

Lemma unit_at_pos k : unit_at qp ctrl_of k = sq_start qp + 16 * unit_pos k.
Proof.
  unfold unit_at, unit_pos, ctrl_of, ring_len. rewrite get_send_wqe_eq. f_equal.
  replace (sq_start qp + 64 * idx - sq_start qp + 16 * k) with (16 * (4 * idx + k)) by lia.
  replace (64 * wqe_cnt (sq qp)) with (16 * (4 * wqe_cnt (sq qp))) by lia.
  pose proof (wf_cnt_pos _ Hw). by rewrite Z.mul_mod_distr_l by lia.
Qed.

Lemma unit_pos_range k : 0 <= unit_pos k < 4 * wqe_cnt (sq qp).
Proof. apply Z.mod_pos_bound. pose proof (wf_cnt_pos _ Hw). lia. Qed.

(** The units of the first block do not wrap. *)
Lemma unit_at_low k : 0 <= k < 4 -> unit_at qp ctrl_of k = ctrl_of + 16 * k.
Proof.
  intros ?. rewrite unit_at_pos. unfold unit_pos, ctrl_of. rewrite get_send_wqe_eq.
  rewrite Z.mod_small by lia. lia.
Qed.

Lemma unit_at_inj k1 k2 :
  0 <= k1 < 4 * wqe_cnt (sq qp) -> 0 <= k2 < 4 * wqe_cnt (sq qp) -> k1 <> k2 ->
  unit_at qp ctrl_of k1 + 16 <= unit_at qp ctrl_of k2 \/
  unit_at qp ctrl_of k2 + 16 <= unit_at qp ctrl_of k1.
Proof.
  intros H1 H2 Hne. rewrite !unit_at_pos.
  assert (unit_pos k1 <> unit_pos k2); [|lia].
  intros E. apply Hne. apply (slot_at_inj (4 * idx) (4 * wqe_cnt (sq qp))); [lia|done..].
Qed.

Lemma unit_at_next k :
  unit_at qp ctrl_of k + 16 = unit_at qp ctrl_of (k + 1) \/
  (unit_at qp ctrl_of k + 16 = qend (sq qp) /\ unit_at qp ctrl_of (k + 1) = sq_start qp).
Proof.
  rewrite !unit_at_pos. pose proof (wf_qend _ Hw) as ->. unfold ring_len.
  pose proof (unit_pos_range k) as Hk. unfold unit_pos in *.
  set (n := 4 * wqe_cnt (sq qp)) in *.
  assert ((4 * idx + (k + 1)) mod n = ((4 * idx + k) mod n + 1) mod n) as ->.
  { rewrite Zplus_mod_idemp_l. f_equal. lia. }
  destruct (Z.eq_dec ((4 * idx + k) mod n + 1) n) as [E|E].
  - right. rewrite E, Z.mod_same by lia. lia.
  - left. rewrite (Z.mod_small (_ + 1)) by lia. lia.
Qed.

(** [seg] stands at unit [k], before or after the wrap. *)
Definition at_unit (k : Z) (s : wqe_st) : Prop :=
  ws_seg s = unit_at qp ctrl_of k \/
  (ws_seg s = qend (sq qp) /\ unit_at qp ctrl_of k = sq_start qp).

Lemma unit_at_range k : sq_start qp <= unit_at qp ctrl_of k /\ unit_at qp ctrl_of k + 16 <= qend (sq qp).
Proof.
  rewrite unit_at_pos, (wf_qend _ Hw). unfold ring_len. pose proof (unit_pos_range k). lia.
Qed.

Lemma wrap_at_unit k s :
  at_unit k s ->
  exists s', w_wrap qp s = (Ok, s') /\ ws_seg s' = unit_at qp ctrl_of k /\
    s' = set_ws_seg (unit_at qp ctrl_of k) s.
Proof.
  intros H. unfold w_wrap, w_do. eexists. split; [done|].
  pose proof (unit_at_range k). destruct (Z.eqb_spec (ws_seg s) (qend (sq qp))) as [E|E].
  - destruct H as [H|[_ H]]; [lia|]. simpl. rewrite get_send_wqe_eq, H.
    replace (sq_start qp + 64 * 0) with (sq_start qp) by lia. done.
  - destruct H as [H|[H _]]; [|done]. rewrite <- H. split; [done|]. by destruct s.
Qed.

End Units.

(** * Data segments *)

(** What the device reads in a data segment: byte count, key, address *)
Definition read_data (m : mem) (p : Z) : Z * Z * Z :=
  (load_be 4 p m, load_be 4 (p + 4) m, load_be 8 (p + 8) m).

(** What it must read for an entry of a request with opcode [op] *)
Definition data_view (op : Z) (sg : ibv_sge) : Z * Z * Z :=
  (if is_atomic_op op then 8 else sge_length sg, sge_lkey sg, sge_addr sg).

Definition nonempty (l : list ibv_sge) : list ibv_sge :=
  filter (fun sg => sge_length sg <> 0) l.

(** A scatter entry as the C type allows it *)
Definition sge_range (sg : ibv_sge) : Prop :=
  0 <= sge_length sg < 2 ^ 32 /\ 0 <= sge_lkey sg < 2 ^ 32 /\ 0 <= sge_addr sg < 2 ^ 64.

Lemma read_data_ext m1 m2 p :
  (forall a, p <= a < p + 16 -> m1 a = m2 a) -> read_data m1 p = read_data m2 p.
Proof.
  intros H. unfold read_data. f_equal; [f_equal|]; apply load_be_ext; intros; apply H; simpl in *; lia.
Qed.

Section DataLoop.
#[local] Set Default Proof Using "Type*".
Context (qp : mlx5_qp) (Hw : sq_wf qp) (idx : Z) (Hidx : 0 <= idx < wqe_cnt (sq qp)).
Notation unit k := (unit_at qp (ctrl_of qp idx) k).

(** One entry, written at a unit *)
Lemma data_seg_at op sg k s :
  op <> IBV_WR_TSO -> sge_range sg -> scp_offset (ws_scp s) = 0 -> ws_seg s = unit k ->
  exists s', data_seg op sg s = (Ok, s') /\ at_unit qp idx (k + 1) s' /\
    ws_size s' = ws_size s + 1 /\ ws_scp s' = ws_scp s /\ ws_next_fence s' = ws_next_fence s /\
    ws_wr_data s' = ws_wr_data s /\ ws_max_tso s' = ws_max_tso s /\
    read_data (ws_mem s') (unit k) = data_view op sg /\
    frame (unit k) (unit k + 16) (ws_mem s) (ws_mem s').
Proof.
  intros Hop (Hl & Hk & Ha) Hoff Hseg. unfold data_seg, data_view.
  rewrite (proj2 (Z.eqb_neq _ _) Hop). simpl andb. cbv iota.
  assert (mk_scp (scp_index (ws_scp s)) 0 = ws_scp s) as Escp by (rewrite <- Hoff; by destruct (ws_scp s)).
  destruct (is_atomic_op op); eexists; (split; [reflexivity|]); simpl; rewrite Hseg, ?Hoff;
    unfold at_unit, sizeof_data_seg; cbn [ws_seg set_ws_seg].
  - split_and!; try done.
    + destruct (unit_at_next qp Hw idx Hidx k) as [E|[E1 E2]]; [by left|by right].
    + unfold read_data, set_data_ptr_seg_atomic. load_solve. unfold MLX5_ATOMIC_SIZE.
      by rewrite !Z.mod_small by (simpl; lia).
    + apply frame_writes. eauto with writes.
  - split_and!; try done.
    + destruct (unit_at_next qp Hw idx Hidx k) as [E|[E1 E2]]; [by left|by right].
    + unfold read_data, set_data_ptr_seg. load_solve. rewrite Z.sub_0_r, Z.add_0_r.
      by rewrite !Z.mod_small by (simpl; lia).
    + apply frame_writes. eauto with writes.
Qed.

(** Addresses outside the units [k, k + n) *)
Definition outside_units (k n a : Z) : Prop :=
  forall j, 0 <= j < n -> a < unit (k + j) \/ unit (k + j) + 16 <= a.

(** The loop writes the non-empty entries to consecutive units and nothing else. *)
Lemma data_loop_at op l k s :
  op <> IBV_WR_TSO -> Forall sge_range l -> scp_offset (ws_scp s) = 0 -> at_unit qp idx k s ->
  0 <= k -> k + Z.of_nat (length (nonempty l)) <= 4 * wqe_cnt (sq qp) ->
  exists s', data_loop qp op l s = (Ok, s') /\
    ws_size s' = ws_size s + Z.of_nat (length (nonempty l)) /\
    ws_next_fence s' = ws_next_fence s /\ ws_wr_data s' = ws_wr_data s /\
    (forall j sg, nonempty l !! j = Some sg ->
       read_data (ws_mem s') (unit (k + Z.of_nat j)) = data_view op sg) /\
    (forall a, outside_units k (Z.of_nat (length (nonempty l))) a -> ws_mem s' a = ws_mem s a).
Proof.
  intros Hop. revert k s. induction l as [|sg l IH]; intros k s Hl Hoff Hat Hk Hfit.
  { exists s. simpl. split_and!; try done; try lia. }
  apply Forall_cons in Hl as [Hsg Hl]. cbn [data_loop]. unfold w_seq at 1.
  destruct (wrap_at_unit qp Hw idx Hidx k s Hat) as (s1 & -> & Hseg & Es1). unfold w_seq at 1.
  assert (scp_offset (ws_scp s1) = 0) as Hoff1 by (by subst s1).
  assert (ws_mem s1 = ws_mem s) as Hm1 by (by subst s1).
  assert (ws_size s1 = ws_size s /\ ws_next_fence s1 = ws_next_fence s /\
    ws_wr_data s1 = ws_wr_data s) as (Hz1 & Hf1 & Hd1) by (by subst s1).
  clear Es1. unfold nonempty in *. rewrite filter_cons in Hfit |- *.
  destruct (decide (sge_length sg <> 0)) as [Hne|He].
  - rewrite (proj2 (Z.eqb_neq _ _) Hne). cbn [negb w_when].
    destruct (data_seg_at op sg k s1 Hop Hsg Hoff1 Hseg)
      as (s2 & -> & Hat2 & Hz2 & Hscp2 & Hf2 & Hd2 & _ & Hrd & Hfr).
    cbn [length] in Hfit |- *.
    destruct (IH (k + 1) s2) as (s3 & -> & Hz3 & Hf3 & Hd3 & Hrd3 & Hfr3);
      [done|by rewrite Hscp2|done|lia|lia|].
    exists s3. split_and!; [done|lia|congruence|congruence| |].
    + intros [|j] sg' Hj; simpl in Hj.
      * injection Hj as <-. rewrite Z.add_0_r, <- Hrd. apply read_data_ext. intros a Ha.
        apply Hfr3. intros j Hj.
        destruct (unit_at_inj qp Hw idx Hidx k (k + 1 + j)); lia.
      * rewrite <- (Hrd3 j sg' Hj). f_equal. f_equal. lia.
    + intros a Ha. rewrite Hfr3, <- Hm1.
      * apply Hfr. specialize (Ha 0). rewrite Z.add_0_r in Ha. apply Ha. lia.
      * intros j Hj. specialize (Ha (j + 1)). replace (k + 1 + j) with (k + (j + 1)) by lia.
        apply Ha. lia.
  - assert (sge_length sg = 0) as E0 by lia. rewrite E0. simpl negb. cbn [w_when w_ok].
    destruct (IH k s1) as (s3 & -> & Hz3 & Hf3 & Hd3 & Hrd3 & Hfr3); [done|done|by left|lia|lia|].
    exists s3. split_and!; [done|lia|congruence|congruence|done|]. intros a Ha. rewrite <- Hm1. auto.
Qed.

End DataLoop.

(** * Headers *)

(** A transport element as the device decodes it *)
Record dev_wqe : Type := mk_dw {
  dw_opcode : Z;
  dw_index : Z;
  dw_qpn : Z;
  dw_ds : Z;
  dw_fm_ce_se : Z;
  dw_imm : Z;
  dw_srqn : option Z;
  dw_raddr : option (Z * Z);
  dw_atomic : option (Z * option Z);
  dw_data : list (Z * Z * Z)
}.

Definition opc_atomic (opc : Z) : bool :=
  (opc =? MLX5_OPCODE_ATOMIC_CS) || (opc =? MLX5_OPCODE_ATOMIC_FA).
Definition opc_raddr (opc : Z) : bool :=
  (opc =? MLX5_OPCODE_RDMA_WRITE) || (opc =? MLX5_OPCODE_RDMA_WRITE_IMM)
  || (opc =? MLX5_OPCODE_RDMA_READ) || opc_atomic opc.

Definition is_xrc (qp : mlx5_qp) : bool := qp_type qp =? IBV_QPT_XRC_SEND.

(** First unit of the remote address, and of the data segments *)
Definition raddr_unit (qp : mlx5_qp) : Z := 1 + Z.b2z (is_xrc qp).
Definition data_unit (qp : mlx5_qp) (opc : Z) : Z :=
  raddr_unit qp + Z.b2z (opc_raddr opc) + Z.b2z (opc_atomic opc).

Definition decode_wqe (qp : mlx5_qp) (ctrl : Z) (m : mem) : dev_wqe :=
  let w0 := load_be 4 ctrl m in
  let w1 := load_be 4 (ctrl + 4) m in
  let opc := Z.land w0 0xff in
  let ds := Z.land w1 0x3f in
  let r := unit_at qp ctrl (raddr_unit qp) in
  let a := unit_at qp ctrl (raddr_unit qp + 1) in
  mk_dw opc (Z.land (Z.shiftr w0 8) 0xffff) (Z.shiftr w1 8) ds
    (load_be 1 (ctrl + 11) m) (load_be 4 (ctrl + 12) m)
    (if is_xrc qp then Some (load_be 4 (unit_at qp ctrl 1) m) else None)
    (if opc_raddr opc then Some (load_be 8 r m, load_be 4 (r + 8) m) else None)
    (if opc_atomic opc
     then Some (load_be 8 a m,
                if opc =? MLX5_OPCODE_ATOMIC_CS then Some (load_be 8 (a + 8) m) else None)
     else None)
    ((fun j => read_data m (unit_at qp ctrl (data_unit qp opc + Z.of_nat j)))
       <$> seq 0 (Z.to_nat (ds - data_unit qp opc))).

(** The transport opcodes a queue of each type accepts *)
Definition transport_ops (ty : Z) : list Z :=
  if ty =? IBV_QPT_UC then
    [IBV_WR_RDMA_WRITE; IBV_WR_RDMA_WRITE_WITH_IMM; IBV_WR_SEND; IBV_WR_SEND_WITH_IMM;
     IBV_WR_SEND_WITH_INV]
  else if (ty =? IBV_QPT_RC) || (ty =? IBV_QPT_XRC_SEND) then
    [IBV_WR_RDMA_WRITE; IBV_WR_RDMA_WRITE_WITH_IMM; IBV_WR_SEND; IBV_WR_SEND_WITH_IMM;
     IBV_WR_SEND_WITH_INV; IBV_WR_RDMA_READ; IBV_WR_ATOMIC_CMP_AND_SWP; IBV_WR_ATOMIC_FETCH_AND_ADD]
  else [].
Definition transport_wr (qp : mlx5_qp) (wr : ibv_send_wr) : bool :=
  existsb (Z.eqb (opcode wr)) (transport_ops (qp_type qp))
  && (atomics_enabled qp || negb (is_atomic_op (opcode wr))).

Definition wr_opc (wr : ibv_send_wr) : Z := aget mlx5_ib_opcode (opcode wr).

(** What the device must decode *)
Definition wqe_spec (qp : mlx5_qp) (fence : Z) (wr : ibv_send_wr) : dev_wqe :=
  let op := opcode wr in
  let opc := wr_opc wr in
  mk_dw opc (Z.land (cur_post (sq qp)) 0xffff) (qp_num qp)
    (data_unit qp opc + Z.of_nat (length (nonempty (sg_list wr))))
    (u8 (fm_ce_se (sq_signal_bits qp) fence (send_flags wr))) (send_ieth wr)
    (if is_xrc qp then Some (xrc_remote_srqn wr) else None)
    (if is_atomic_op op then Some (atomic_remote_addr wr, atomic_rkey wr)
     else if opc_raddr opc then Some (rdma_remote_addr wr, rdma_rkey wr) else None)
    (if op =? IBV_WR_ATOMIC_CMP_AND_SWP then Some (atomic_swap wr, Some (atomic_compare_add wr))
     else if op =? IBV_WR_ATOMIC_FETCH_AND_ADD then Some (atomic_compare_add wr, None) else None)
    (data_view op <$> nonempty (sg_list wr)).

(** The fields have the widths of their C types. *)
Record wr_range (wr : ibv_send_wr) : Prop := {
  rg_imm : 0 <= send_ieth wr < 2 ^ 32;
  rg_rdma : 0 <= rdma_remote_addr wr < 2 ^ 64 /\ 0 <= rdma_rkey wr < 2 ^ 32;
  rg_atomic : 0 <= atomic_remote_addr wr < 2 ^ 64 /\ 0 <= atomic_rkey wr < 2 ^ 32;
  rg_operands : 0 <= atomic_swap wr < 2 ^ 64 /\ 0 <= atomic_compare_add wr < 2 ^ 64;
  rg_srqn : 0 <= xrc_remote_srqn wr < 2 ^ 32;
  rg_sges : Forall sge_range (sg_list wr)
}.

(** The bytes the header segments write *)
Definition hdr_mem (qp : mlx5_qp) (ctrl : Z) (wr : ibv_send_wr) (m : mem) : mem :=
  let op := opcode wr in
  let r := ctrl + 16 * raddr_unit qp in
  let m := if is_xrc qp then store_be 4 (ctrl + 16) (xrc_remote_srqn wr) m else m in
  let m := if is_atomic_op op then set_raddr_seg r (atomic_remote_addr wr) (atomic_rkey wr) m
           else if opc_raddr (wr_opc wr) then set_raddr_seg r (rdma_remote_addr wr) (rdma_rkey wr) m
           else m in
  if is_atomic_op op then set_atomic_seg (r + 16) op (atomic_swap wr) (atomic_compare_add wr) m
  else m.

Lemma transport_wr_cases qp wr :
  transport_wr qp wr = true ->
  (qp_type qp = IBV_QPT_UC \/ qp_type qp = IBV_QPT_RC \/ qp_type qp = IBV_QPT_XRC_SEND) /\
  existsb (Z.eqb (opcode wr)) (transport_ops (qp_type qp)) = true /\
  (is_atomic_op (opcode wr) = true -> atomics_enabled qp = true).
Proof.
  unfold transport_wr, transport_ops. intros [H1 H2]%andb_true_iff. split; [|split; [done|]].
  - destruct (Z.eqb_spec (qp_type qp) IBV_QPT_UC); [auto|].
    destruct (Z.eqb_spec (qp_type qp) IBV_QPT_RC); [auto|].
    destruct (Z.eqb_spec (qp_type qp) IBV_QPT_XRC_SEND); [auto|done].
  - intros E. rewrite E, orb_false_r in H2. done.
Qed.

(** The header segments, executed *)
Lemma transport_hdr ctx qp ctrl wr s :
  transport_wr qp wr = true -> ws_seg s = ctrl + 16 -> ws_size s = 1 ->
  exists s', qp_type_segs ctx qp ctrl wr s = (Ok, s') /\
    ws_seg s' = ctrl + 16 * data_unit qp (wr_opc wr) /\ ws_size s' = data_unit qp (wr_opc wr) /\
    ws_scp s' = ws_scp s /\ ws_next_fence s' = ws_next_fence s /\ ws_wr_data s' = ws_wr_data s /\
    ws_mem s' = hdr_mem qp ctrl wr (ws_mem s).
Proof.
  intros (Hty & Hop & Hat)%transport_wr_cases Hseg Hsz.
  unfold qp_type_segs, hdr_mem, data_unit, raddr_unit, is_xrc, wr_opc.
  destruct s as [m seg size scp mt nf wd]; simpl in Hseg, Hsz; subst seg size.
  destruct Hty as [E|[E|E]]; rewrite E in *; simpl in Hop; rewrite !orb_true_iff, !Z.eqb_eq in Hop;
    destruct_or?; try done;
    match goal with H : opcode wr = _ |- _ => rename H into Ho end;
    unfold rc_segs, uc_segs, xrc_segs; rewrite Ho in *; simpl;
    try (rewrite (Hat eq_refl)); eexists; (split; [reflexivity|]); simpl; split_and!;
    try done; try lia;
    unfold sizeof_xrc_seg, sizeof_raddr_seg, sizeof_atomic_seg; try lia;
    change (1 + 1) with 2; rewrite <- !(Z.add_assoc ctrl); done.
Qed.

(** The header loads back. *)
Section HeaderLoads.
#[local] Set Default Proof Using "Type*".
Context (qp : mlx5_qp) (Hw : sq_wf qp) (idx : Z) (Hidx : 0 <= idx < wqe_cnt (sq qp)).
Context (wr : ibv_send_wr) (Htr : transport_wr qp wr = true) (Hrg : wr_range wr).
Notation ctrl := (ctrl_of qp idx).
Notation unit k := (unit_at qp ctrl k).

Lemma raddr_unit_range : 1 <= raddr_unit qp <= 2.
Proof. unfold raddr_unit. destruct (is_xrc qp); simpl; lia. Qed.

Lemma hdr_mem_below m a : a < ctrl + 16 -> hdr_mem qp ctrl wr m a = m a.
Proof.
  intros Ha. pose proof raddr_unit_range. unfold hdr_mem. cbv zeta.
  set (r := ctrl + 16 * raddr_unit qp).
  assert (forall f g, Writes f r (r + 16) -> Writes g (r + 16) (r + 16 + 16) ->
    forall m', f m' a = m' a /\ g m' a = m' a) as Hfg.
  { intros f g Hf Hg m'. split; [apply Hf|apply Hg]; lia. }
  destruct (is_atomic_op _); [|destruct (opc_raddr _)].
  - rewrite (proj2 (Hfg id _ (Writes_id _ _) (atomic_footprint _ _ _ _) _)).
    rewrite (proj1 (Hfg _ id (raddr_footprint _ _ _) (Writes_id _ _) _)).
    destruct (is_xrc qp); by outside_solve.
  - rewrite (proj1 (Hfg _ id (raddr_footprint _ _ _) (Writes_id _ _) _)).
    destruct (is_xrc qp); by outside_solve.
  - destruct (is_xrc qp); by outside_solve.
Qed.

Lemma hdr_mem_above m a :
  ctrl + 16 * data_unit qp (wr_opc wr) <= a -> hdr_mem qp ctrl wr m a = m a.
Proof.
  pose proof raddr_unit_range. unfold hdr_mem, data_unit, wr_opc. cbv zeta.
  destruct (transport_wr_cases _ _ Htr) as (_ & Hop & _).
  set (r := ctrl + 16 * raddr_unit qp). intros Ha.
  assert (forall f g, Writes f r (r + 16) -> Writes g (r + 16) (r + 16 + 16) ->
    (r + 16 <= a -> forall m', f m' a = m' a) /\ (r + 32 <= a -> forall m', g m' a = m' a)) as Hfg.
  { intros f g Hf Hg. split; intros ? m'; [apply Hf|apply Hg]; lia. }
  assert (is_atomic_op (opcode wr) = opc_atomic (aget mlx5_ib_opcode (opcode wr))) as Ea.
  { unfold transport_ops in Hop. destruct (_ =? _); [|destruct (_ || _)]; simpl in Hop;
      rewrite ?orb_true_iff, ?Z.eqb_eq in Hop; destruct_or?; try done;
      match goal with H : opcode wr = _ |- _ => by rewrite H end. }
  rewrite Ea. destruct (opc_atomic _) eqn:Eo.
  - assert (opc_raddr (aget mlx5_ib_opcode (opcode wr)) = true) as Er
      by (unfold opc_raddr; by rewrite Eo, orb_true_r).
    rewrite Er in Ha. simpl in Ha.
    rewrite (proj2 (Hfg id _ (Writes_id _ _) (atomic_footprint _ _ _ _))) by lia.
    rewrite (proj1 (Hfg _ id (raddr_footprint _ _ _) (Writes_id _ _))) by lia.
    unfold raddr_unit in *. destruct (is_xrc qp); [|done]. simpl in *. by outside_solve.
  - destruct (opc_raddr _); simpl in Ha.
    + rewrite (proj1 (Hfg _ id (raddr_footprint _ _ _) (Writes_id _ _))) by lia.
      unfold raddr_unit in *. destruct (is_xrc qp); [|done]. simpl in *. by outside_solve.
    + unfold raddr_unit in *. destruct (is_xrc qp); [|done]. simpl in *. by outside_solve.
Qed.

Lemma data_unit_range : 1 <= data_unit qp (wr_opc wr) <= 4.
Proof.
  pose proof raddr_unit_range. unfold data_unit.
  destruct (opc_raddr _), (opc_atomic _); simpl; lia.
Qed.

(** The remote address, operands and SRQ number read back from the headers *)
Lemma hdr_mem_fields m :
  let r := ctrl + 16 * raddr_unit qp in
  let h := hdr_mem qp ctrl wr m in
  let sp := wqe_spec qp 0 wr in
  (if is_xrc qp then Some (load_be 4 (ctrl + 16) h) else None) = dw_srqn sp /\
  (if opc_raddr (wr_opc wr) then Some (load_be 8 r h, load_be 4 (r + 8) h) else None) = dw_raddr sp /\
  (if opc_atomic (wr_opc wr)
   then Some (load_be 8 (r + 16) h,
          if wr_opc wr =? MLX5_OPCODE_ATOMIC_CS then Some (load_be 8 (r + 16 + 8) h) else None)
   else None) = dw_atomic sp.
Proof.
  destruct Hrg as [_ [Hr1 Hr2] [Ha1 Ha2] [Ho1 Ho2] Hs _].
  destruct (transport_wr_cases _ _ Htr) as (Hty & Hop & _). cbv zeta.
  unfold hdr_mem, wqe_spec, raddr_unit, is_xrc, wr_opc, transport_ops, set_raddr_seg, set_atomic_seg in *.
  cbv zeta. simpl dw_srqn. simpl dw_raddr. simpl dw_atomic.
  destruct Hty as [E|[E|E]]; rewrite E in *; simpl in Hop; rewrite !orb_true_iff, !Z.eqb_eq in Hop;
    destruct_or?; try done;
    match goal with H : opcode wr = _ |- _ => rewrite H in * end; simpl; split_and!; try done;
    load_solve; by rewrite ?Z.mod_small by (simpl; lia).
Qed.

End HeaderLoads.

(** * One element *)

Definition wr_units (qp : mlx5_qp) (wr : ibv_send_wr) : Z :=
  data_unit qp (wr_opc wr) + Z.of_nat (length (nonempty (sg_list wr))).

Definition wr_fence (next_fence : Z) (wr : ibv_send_wr) : Z :=
  if has_flag (send_flags wr) IBV_SEND_FENCE then MLX5_WQE_CTRL_FENCE else next_fence.

(** Requests of the theorem: transport opcodes with a scatter list, fields in range,
    an element the 6-bit size field and the ring can hold *)
Record scatter_wr (qp : mlx5_qp) (wr : ibv_send_wr) : Prop := {
  sw_op : transport_wr qp wr = true;
  sw_range : wr_range wr;
  sw_inline : is_inline wr = false;
  sw_units : wr_units qp wr <= 63;
  sw_ring : wr_units qp wr <= 4 * wqe_cnt (sq qp)
}.

Lemma wr_opc_range wr qp : transport_wr qp wr = true -> 0 <= wr_opc wr < 2 ^ 8.
Proof.
  intros (Hty & Hop & _)%transport_wr_cases. unfold wr_opc, transport_ops in *.
  destruct Hty as [E|[E|E]]; rewrite E in *; simpl in Hop; rewrite !orb_true_iff, !Z.eqb_eq in Hop;
    destruct_or?; try done; match goal with H : opcode wr = _ |- _ => rewrite H end;
    vm_compute; split; congruence.
Qed.

(** The words of the control segment *)
Lemma ctrl_end_words qp ctrl opc size m :
  0 <= opc < 2 ^ 8 -> 0 <= size < 2 ^ 6 -> 0 <= qp_num qp < 2 ^ 24 ->
  let m' := ctrl_end qp ctrl opc size m in
  load_be 4 ctrl m' = Z.land (cur_post (sq qp)) 0xffff * 2 ^ 8 + opc /\
  load_be 4 (ctrl + 4) m' = qp_num qp * 2 ^ 8 + size.
Proof.
  intros Ho Hs Hq.
  assert (0 <= Z.land (cur_post (sq qp)) 0xffff < 2 ^ 16) as Hc.
  { apply (land_pow2_bound (cur_post (sq qp)) (2 ^ 16) 16); lia. }
  assert (u32 (Z.shiftl (qp_num qp) 8) = Z.shiftl (qp_num qp) 8) as Eq.
  { rewrite Z.shiftl_mul_pow2 by lia. apply u32_small. lia. }
  unfold ctrl_end. rewrite Eq, (Z.lor_comm size), !lor_shl_add by lia.
  destruct (wq_sig qp); split; load_solve; rewrite Z.mod_small by (simpl; lia); done.
Qed.

Lemma word_fields hi lo : 0 <= lo < 2 ^ 8 ->
  Z.land (hi * 2 ^ 8 + lo) 0xff = lo /\ Z.shiftr (hi * 2 ^ 8 + lo) 8 = hi.
Proof.
  intros ?. rewrite land_255, Z.shiftr_div_pow2 by lia. split; div_lia.
Qed.

Section OneElement.
#[local] Set Default Proof Using "Type*".
Context (qp : mlx5_qp) (Hw : sq_wf qp) (Hqpn : 0 <= qp_num qp < 2 ^ 24).
Context (idx : Z) (Hidx : 0 <= idx < wqe_cnt (sq qp)).
Context (wr : ibv_send_wr) (Hwr : scatter_wr qp wr).
Notation ctrl := (ctrl_of qp idx).
Notation unit k := (unit_at qp ctrl k).

(** A memory that holds the element: its control words, its headers and data *)
Record holds (fence : Z) (m : mem) : Prop := {
  hd_w0 : load_be 4 ctrl m = Z.land (cur_post (sq qp)) 0xffff * 2 ^ 8 + wr_opc wr;
  hd_w1 : load_be 4 (ctrl + 4) m = qp_num qp * 2 ^ 8 + wr_units qp wr;
  hd_fm : load_be 1 (ctrl + 11) m = u8 (fm_ce_se (sq_signal_bits qp) fence (send_flags wr));
  hd_imm : load_be 4 (ctrl + 12) m = send_ieth wr;
  hd_hdr : exists m0, forall a, ctrl + 16 <= a < ctrl + 16 * data_unit qp (wr_opc wr) ->
             m a = hdr_mem qp ctrl wr m0 a;
  hd_data : forall j sg, nonempty (sg_list wr) !! j = Some sg ->
             read_data m (unit (data_unit qp (wr_opc wr) + Z.of_nat j)) = data_view (opcode wr) sg
}.

Lemma holds_decode fence m : holds fence m -> decode_wqe qp ctrl m = wqe_spec qp fence wr.
Proof.
  intros [H0 H1 Hf Hi [m0 Hh] Hd]. destruct Hwr as [Htr Hrg Hin Hu Hr].
  pose proof (wr_opc_range _ _ Htr) as Ho.
  pose proof (data_unit_range qp Hw idx Hidx wr Htr Hrg) as Hdu.
  pose proof (raddr_unit_range qp Hw idx Hidx wr Htr Hrg) as Hru.
  destruct (hdr_mem_fields qp Hw idx Hidx wr Htr Hrg m0) as (F1 & F2 & F3).
  unfold decode_wqe. rewrite H0, H1, Hf, Hi.
  destruct (word_fields (Z.land (cur_post (sq qp)) 0xffff) (wr_opc wr) Ho) as [-> ->].
  assert (0 <= wr_units qp wr < 2 ^ 8) as Hub by (unfold wr_units in *; lia).
  destruct (word_fields (qp_num qp) (wr_units qp wr) Hub) as [_ ->].
  assert (Z.land (qp_num qp * 2 ^ 8 + wr_units qp wr) 63 = wr_units qp wr) as ->.
  { change 63 with (2 ^ 6 - 1). rewrite land_pow2_pred by lia. div_lia. }
  assert (Z.land (Z.land (cur_post (sq qp)) 65535) 65535 = Z.land (cur_post (sq qp)) 65535) as ->.
  { by rewrite <- Z.land_assoc. }
  assert (Hld : forall n p, (ctrl + 16 <= p) -> p + Z.of_nat n <= ctrl + 16 * data_unit qp (wr_opc wr) ->
    load_be n p m = load_be n p (hdr_mem qp ctrl wr m0)).
  { intros n p ??. apply load_be_ext. intros a ?. apply Hh. lia. }
  unfold wqe_spec. cbv zeta. unfold wqe_spec in F1, F2, F3. cbn [dw_srqn dw_raddr dw_atomic] in F1, F2, F3.
  f_equal.
  - rewrite <- F1. destruct (is_xrc qp) eqn:Ex; [|done]. f_equal.
    rewrite unit_at_low, Z.mul_1_r by (done || lia).
    apply Hld; [lia|]. unfold data_unit, raddr_unit. rewrite Ex.
    destruct (opc_raddr _), (opc_atomic _); simpl; lia.
  - rewrite <- F2. destruct (opc_raddr (wr_opc wr)) eqn:Er; [|done].
    rewrite unit_at_low by (done || lia).
    assert (raddr_unit qp + 1 <= data_unit qp (wr_opc wr)).
    { unfold data_unit. rewrite Er. destruct (opc_atomic _); simpl; lia. }
    rewrite !Hld by (simpl; lia). done.
  - rewrite <- F3. destruct (opc_atomic (wr_opc wr)) eqn:Ea; [|done].
    assert (raddr_unit qp + 2 <= data_unit qp (wr_opc wr)).
    { unfold data_unit, opc_raddr. rewrite Ea, orb_true_r. simpl. lia. }
    rewrite unit_at_low by (done || lia).
    replace (ctrl + 16 * (raddr_unit qp + 1)) with (ctrl + 16 * raddr_unit qp + 16) by lia.
    rewrite !Hld by (simpl; lia). done.
  - unfold wr_units. replace (Z.to_nat _) with (length (nonempty (sg_list wr))) by lia.
    apply list_eq. intros j. rewrite !list_lookup_fmap.
    destruct (nonempty (sg_list wr) !! j) as [sg|] eqn:Ej; simpl.
    + apply lookup_lt_Some in Ej as Hj. rewrite lookup_seq_lt by done. simpl. f_equal. by apply Hd.
    + apply lookup_ge_None in Ej. by rewrite lookup_seq_ge.
Qed.

(** Bytes of no unit of the element *)
Definition off_element (a : Z) : Prop :=
  forall k, 0 <= k < wr_units qp wr -> a < unit k \/ unit k + 16 <= a.

(** The element survives writes elsewhere. *)
Lemma holds_frame fence m m' :
  holds fence m -> (forall k a, 0 <= k < wr_units qp wr -> unit k <= a < unit k + 16 -> m' a = m a) ->
  holds fence m'.
Proof.
  intros [H0 H1 Hf Hi [m0 Hh] Hd] E. destruct Hwr as [Htr Hrg Hin Hu Hr].
  pose proof (data_unit_range qp Hw idx Hidx wr Htr Hrg) as Hdu.
  assert (Hc : forall a, ctrl <= a < ctrl + 16 -> m' a = m a).
  { intros a ?. apply (E 0); [unfold wr_units in *; lia|]. rewrite unit_at_low by (done || lia). lia. }
  split.
  - rewrite <- H0. apply load_be_ext. intros; apply Hc. simpl in *; lia.
  - rewrite <- H1. apply load_be_ext. intros; apply Hc. simpl in *; lia.
  - rewrite <- Hf. apply load_be_ext. intros; apply Hc. simpl in *; lia.
  - rewrite <- Hi. apply load_be_ext. intros; apply Hc. simpl in *; lia.
  - exists m0. intros a Ha. rewrite <- Hh by done.
    apply (E ((a - ctrl) / 16)); [unfold wr_units in *; div_lia|].
    rewrite unit_at_low by (try done; div_lia). div_lia.
  - intros j sg Hj. rewrite <- (Hd j sg Hj). apply read_data_ext. intros a Ha.
    apply lookup_lt_Some in Hj. apply (E (data_unit qp (wr_opc wr) + Z.of_nat j));
      [unfold wr_units in *; lia|done].
Qed.

(** The element is there once the control segment is closed over a memory that has
    the opened control segment, the headers and the data. *)
Lemma ctrl_end_holds fence m0 m :
  (forall a, ctrl <= a < ctrl + 16 -> m a = ctrl_begin qp ctrl fence wr m0 a) ->
  (forall a, ctrl + 16 <= a < ctrl + 16 * data_unit qp (wr_opc wr) ->
     m a = hdr_mem qp ctrl wr (ctrl_begin qp ctrl fence wr m0) a) ->
  (forall j sg, nonempty (sg_list wr) !! j = Some sg ->
     read_data m (unit (data_unit qp (wr_opc wr) + Z.of_nat j)) = data_view (opcode wr) sg) ->
  holds fence (ctrl_end qp ctrl (wr_opc wr) (wr_units qp wr) m).
Proof.
  intros Hc Hh Hd. destruct Hwr as [Htr Hrg Hin Hu Hr].
  pose proof (wr_opc_range _ _ Htr) as Ho.
  pose proof (data_unit_range qp Hw idx Hidx wr Htr Hrg) as Hdu.
  destruct (ctrl_end_words qp ctrl (wr_opc wr) (wr_units qp wr) m Ho) as [W0 W1];
    [unfold wr_units in *; lia|done|].
  pose proof (rg_imm _ Hrg) as Hi.
  assert (Hkeep : forall n p, ctrl + 9 <= p -> load_be n p (ctrl_end qp ctrl (wr_opc wr) (wr_units qp wr) m) = load_be n p m).
  { intros n p ?. unfold ctrl_end. destruct (wq_sig qp); by load_solve. }
  split; [done|done| | | |].
  - rewrite Hkeep by lia.
    rewrite (load_be_ext 1 (ctrl + 11) m (ctrl_begin qp ctrl fence wr m0)) by (intros; apply Hc; simpl in *; lia).
    unfold ctrl_begin. by load_solve.
  - rewrite Hkeep by lia.
    rewrite (load_be_ext 4 (ctrl + 12) m (ctrl_begin qp ctrl fence wr m0)) by (intros; apply Hc; simpl in *; lia).
    unfold ctrl_begin. load_solve. by rewrite Z.mod_small by (simpl; lia).
  - exists (ctrl_begin qp ctrl fence wr m0). intros a Ha. rewrite <- Hh by done.
    apply (ctrl_end_footprint ctrl). lia.
  - intros j sg Hj. rewrite <- (Hd j sg Hj). apply read_data_ext. intros a Ha.
    apply (ctrl_end_footprint ctrl).
    apply lookup_lt_Some in Hj. set (k := data_unit _ _ + _) in *.
    destruct (unit_at_inj qp Hw idx Hidx 0 k) as [E|E]; try (unfold k, wr_units in *; lia);
      rewrite (unit_at_low qp Hw idx Hidx 0) in E by lia; lia.
Qed.

(** A byte of the header area belongs to a unit of the element. *)
Lemma off_element_hdr a :
  off_element a -> a < ctrl \/ ctrl + 16 * data_unit qp (wr_opc wr) <= a.
Proof.
  intros Ha. destruct Hwr as [Htr Hrg Hin Hu Hr].
  pose proof (data_unit_range qp Hw idx Hidx wr Htr Hrg) as Hdu.
  destruct (decide (ctrl <= a < ctrl + 16 * data_unit qp (wr_opc wr))) as [H|H]; [|lia].
  specialize (Ha ((a - ctrl) / 16)). rewrite unit_at_low in Ha by (try done; div_lia).
  unfold wr_units in Ha. div_lia.
Qed.

(** [seg] after the headers *)
Lemma at_unit_hdr s :
  ws_seg s = ctrl + 16 * data_unit qp (wr_opc wr) -> at_unit qp idx (data_unit qp (wr_opc wr)) s.
Proof.
  intros Hseg. destruct Hwr as [Htr Hrg Hin Hu Hr].
  pose proof (data_unit_range qp Hw idx Hidx wr Htr Hrg) as Hdu.
  set (h := data_unit qp (wr_opc wr)) in *. unfold at_unit. rewrite Hseg.
  destruct (decide (h < 4)) as [?|?]; [left; by rewrite unit_at_low by (done || lia)|].
  replace h with 4 by lia.
  destruct (unit_at_next qp Hw idx Hidx 3) as [E|[E1 E2]];
    rewrite (unit_at_low qp Hw idx Hidx 3) in * by lia; change (3 + 1) with 4 in *;
    [left; lia|right; split; lia].
Qed.

End OneElement.

(** One iteration of [mlx5_post_send] on such a request: it succeeds, leaves the
    element in the ring and touches nothing else. *)
Lemma post_send_wr_element ctx nreq tails wr s :
  let qp := ps_qp s in
  sq_wf qp -> 0 <= qp_num qp < 2 ^ 24 -> scatter_wr qp wr -> ps_scp s = scp0 ->
  post_send_guards qp nreq tails wr = Ok ->
  exists s', post_send_wr ctx nreq tails wr s = (Ok, s') /\
    ps_size s' = wr_units qp wr /\ ps_next_fence s' = 0 /\ ps_scp s' = scp0 /\
    holds qp (sq_idx qp) wr (wr_fence (ps_next_fence s) wr) (ps_mem s') /\
    (forall a, off_element qp (sq_idx qp) wr a -> ps_mem s' a = ps_mem s a).
Proof.
  intros qp Hw Hqpn Hwr Hscp Hg. pose proof (sq_idx_range qp Hw) as Hidx.
  pose proof Hwr as [Htr Hrg Hin Hu Hr].
  set (idx := sq_idx qp) in *. set (fence := wr_fence (ps_next_fence s) wr).
  pose proof (data_unit_range qp Hw idx Hidx wr Htr Hrg) as Hdu.
  unfold post_send_wr. fold qp. rewrite Hg. fold idx. fold (wr_fence (ps_next_fence s) wr). fold fence.
  fold (ctrl_of qp idx). set (ctrl := ctrl_of qp idx) in *.
  set (ws0 := mk_ws _ _ _ _ _ _ _). unfold w_seq.
  destruct (transport_hdr ctx qp ctrl wr ws0 Htr eq_refl eq_refl)
    as (s1 & -> & Hseg & Hsz & Hscp1 & Hf1 & Hd1 & Hm1).
  assert (ws_scp s1 = scp0) as Hs1 by (by rewrite Hscp1).
  unfold data_segs. rewrite Hin, Hs1.
  change (drop (Z.to_nat (scp_index scp0)) (sg_list wr)) with (sg_list wr).
  set (h := data_unit qp (wr_opc wr)) in *.
  assert (op_not_tso : opcode wr <> IBV_WR_TSO).
  { destruct (transport_wr_cases _ _ Htr) as (_ & Hop & _). intros E. rewrite E in Hop.
    unfold transport_ops in Hop. destruct_ifs_in Hop; done. }
  destruct (data_loop_at qp Hw idx Hidx (opcode wr) (sg_list wr) h s1 op_not_tso (rg_sges _ Hrg))
    as (s2 & E2 & Hsz2 & Hf2 & Hd2 & Hrd & Hfr);
    [by rewrite Hs1|by apply at_unit_hdr|lia|done|].
  rewrite E2. eexists. split; [reflexivity|]. simpl.
  assert (ws_size s2 = wr_units qp wr) as Hsize by (unfold wr_units; fold h; lia).
  assert (Hlow : forall a, ctrl <= a < ctrl + 16 * h -> ws_mem s2 a = ws_mem s1 a).
  { intros a Ha. apply Hfr. intros j Hj. fold ctrl.
    destruct (unit_at_inj qp Hw idx Hidx ((a - ctrl) / 16) (h + j)) as [E|E]; try (unfold wr_units in *; div_lia);
      rewrite (unit_at_low qp Hw idx Hidx ((a - ctrl) / 16)) in E by div_lia;
      fold ctrl in E; div_lia. }
  split_and!.
  - done.
  - by rewrite Hf2, Hf1.
  - pose proof (KeepsScp0_data_loop qp (opcode wr) (sg_list wr) s1 Hs1) as K. by rewrite E2 in K.
  - rewrite Hsize. apply (ctrl_end_holds qp Hw Hqpn idx Hidx wr Hwr fence (ps_mem s)).
    + intros a Ha. fold ctrl in Ha. rewrite Hlow, Hm1 by lia.
      apply (hdr_mem_below qp Hw idx Hidx wr Htr Hrg). fold ctrl. lia.
    + intros a Ha. fold ctrl h in Ha. rewrite Hlow, Hm1 by lia. done.
    + done.
  - intros a Ha. apply (off_element_hdr qp Hw Hqpn idx Hidx wr Hwr) in Ha as Hb. fold ctrl h in Hb.
    rewrite (ctrl_end_footprint ctrl) by lia.
    rewrite Hfr by (intros j Hj; apply Ha; unfold wr_units; fold h; lia).
    rewrite Hm1. destruct Hb as [Hb|Hb].
    + rewrite (hdr_mem_below qp Hw idx Hidx wr Htr Hrg) by (fold ctrl; lia).
      apply (ctrl_begin_footprint ctrl). lia.
    + rewrite (hdr_mem_above qp Hw idx Hidx wr Htr Hrg) by (fold ctrl h; lia).
      apply (ctrl_begin_footprint ctrl). lia.
Qed.

(** * A list of requests *)

(** The block [d] blocks after the one [c] points to *)
Definition block_at (qp : mlx5_qp) (c d : Z) : Z :=
  mlx5_get_send_wqe qp (slot_at c (wqe_cnt (sq qp)) d).

(** A unit of the element at [c] lies in its block. *)
Lemma unit_block qp c k :
  sq_wf qp -> 0 <= k ->
  unit_at qp (ctrl_of qp (slot_at c (wqe_cnt (sq qp)) 0)) k = block_at qp c (k / 4) + 16 * (k mod 4).
Proof.
  intros Hw Hk. pose proof (wf_cnt_pos _ Hw). pose proof (slot_at_range c (wqe_cnt (sq qp)) 0 ltac:(done)).
  rewrite unit_at_pos by done. unfold block_at, unit_pos. rewrite get_send_wqe_eq.
  set (x := slot_at c (wqe_cnt (sq qp)) 0) in *.
  assert (slot_at c (wqe_cnt (sq qp)) (k / 4) = (x + k / 4) mod wqe_cnt (sq qp)) as ->.
  { unfold x, slot_at. rewrite Z.add_0_r, Zplus_mod_idemp_l. done. }
  rewrite Z.rem_mul_r by lia.
  replace ((4 * x + k) mod 4) with (k mod 4) by div_lia.
  replace ((4 * x + k) / 4) with (x + k / 4) by div_lia. lia.
Qed.

(** Bytes of none of the [n] blocks after [c] *)
Definition off_blocks (qp : mlx5_qp) (c n a : Z) : Prop :=
  forall d, 0 <= d < n -> a < block_at qp c d \/ block_at qp c d + 64 <= a.

Lemma block_at_disjoint qp c d1 d2 :
  sq_wf qp -> 0 <= d1 < wqe_cnt (sq qp) -> 0 <= d2 < wqe_cnt (sq qp) -> d1 <> d2 ->
  block_at qp c d1 + 64 <= block_at qp c d2 \/ block_at qp c d2 + 64 <= block_at qp c d1.
Proof.
  intros Hw H1 H2 Hne. unfold block_at. rewrite !get_send_wqe_eq.
  assert (slot_at c (wqe_cnt (sq qp)) d1 <> slot_at c (wqe_cnt (sq qp)) d2); [|lia].
  intros E. apply slot_at_inj in E; [done|lia|done|done].
Qed.

Definition wr_blocks (qp : mlx5_qp) (wr : ibv_send_wr) : Z := nbb (wr_units qp wr).

Lemma wr_units_pos qp wr : 1 <= wr_units qp wr.
Proof.
  unfold wr_units, data_unit, raddr_unit. destruct (is_xrc qp), (opc_raddr _), (opc_atomic _); simpl; lia.
Qed.

Lemma unit_in_blocks qp wr k :
  wr_units qp wr <= 63 -> 0 <= k < wr_units qp wr -> 0 <= k / 4 < wr_blocks qp wr.
Proof.
  intros ??. unfold wr_blocks, nbb, MLX5_SEND_WQE_BB. rewrite DIV_ROUND_UP_64 by lia. div_lia.
Qed.

(** The QP with the producer counter at [c], the view of an element posted there *)
Definition qp_at (qp : mlx5_qp) (c : Z) : mlx5_qp := set_sq (set_cur_post c (sq qp)) qp.

Lemma holds_step q0 q idx wr fence m :
  sq_step q0 q -> holds q idx wr fence m -> holds (qp_at q0 (cur_post (sq q))) idx wr fence m.
Proof.
  intros [E S] H. rewrite E, S in H. destruct H. by split.
Qed.

Lemma scatter_wr_step q0 q wr : sq_step q0 q -> scatter_wr q0 wr -> scatter_wr q wr.
Proof. intros [E S] H. rewrite E, S. destruct H. by split. Qed.

Lemma wr_units_step q0 q wr : sq_step q0 q -> wr_units q wr = wr_units q0 wr.
Proof. intros [E S]. by rewrite E. Qed.

Lemma block_at_step q0 q c d : sq_step q0 q -> block_at q c d = block_at q0 c d.
Proof. intros [E S]. rewrite E, S. done. Qed.

Lemma post_send_wr_step ctx nreq tails wr s s' :
  post_send_wr ctx nreq tails wr s = (Ok, s') -> sq_step (ps_qp s) (ps_qp s').
Proof.
  unfold post_send_wr. destruct (post_send_guards _ _ _ _); [|done..].
  destruct (w_seq _ _ _) as [o ws]; destruct o; [|done..]. intros [= <-]. simpl.
  etrans; [apply set_slot_wr_data_step|apply slot_done_step].
Qed.

Lemma posts_step ctx q tails n l sizes s s' :
  posts ctx tails n l sizes s s' -> sq_step q (ps_qp s) -> sq_step q (ps_qp s').
Proof.
  induction 1 as [|n wr l sizes s s1 s2 E Hp IH]; [done|]. intros Hs. apply IH.
  etrans; [exact Hs|]. by eapply post_send_wr_step.
Qed.

(** The doorbell record is the only memory the doorbell writes. *)
Lemma post_send_db_mem ctx n inl size ctrl s a :
  a < snd_dbr (ss_qp s) \/ snd_dbr (ss_qp s) + 4 <= a ->
  ss_mem (post_send_db ctx n inl size ctrl s) a = ss_mem s a.
Proof.
  intros Ha. unfold post_send_db. destruct (n =? 0); [done|]. apply store_be_outside.
  unfold snd_dbr in Ha. simpl in *. lia.
Qed.

(** The element of each request, and the bytes left alone *)
Lemma posts_hold ctx q0 tails n l sizes s s2 :
  posts ctx tails n l sizes s s2 ->
  sq_step q0 (ps_qp s) -> sq_wf (ps_qp s) -> 0 <= qp_num q0 < 2 ^ 24 ->
  Forall (scatter_wr q0) l -> ps_scp s = scp0 ->
  sumZ (wr_blocks q0) l <= wqe_cnt (sq q0) ->
  let c := cur_post (sq (ps_qp s)) in
  (forall i wr, l !! i = Some wr ->
     let d := sumZ (wr_blocks q0) (take i l) in
     holds (qp_at q0 (u32 (c + d))) (slot_at c (wqe_cnt (sq q0)) d) wr
       (wr_fence (if decide (i = 0%nat) then ps_next_fence s else 0) wr) (ps_mem s2)) /\
  (forall a, off_blocks q0 c (sumZ (wr_blocks q0) l) a -> ps_mem s2 a = ps_mem s a).
Proof.
  intros Hp. induction Hp as [n s|n wr l sizes s s1 s2 E Hp IH]; intros Hstep Hw Hq Hl Hscp Hsum.
  { by split; [intros i ? ?|]. }
  apply Forall_cons in Hl as [Hwr Hl]. simpl in Hsum.
  set (b := wr_blocks q0 wr) in *. set (total := sumZ (wr_blocks q0) l) in *.
  assert (Hqn : qp_num (ps_qp s) = qp_num q0) by (destruct Hstep as [Eq _]; by rewrite Eq).
  assert (Hcnt : wqe_cnt (sq (ps_qp s)) = wqe_cnt (sq q0)) by (destruct Hstep as [_ Es]; by rewrite Es).
  assert (Hg : post_send_guards (ps_qp s) n (tails n) wr = Ok).
  { unfold post_send_wr in E. by destruct (post_send_guards _ _ _ _). }
  pose proof (scatter_wr_step _ _ _ Hstep Hwr) as Hwr'.
  destruct (post_send_wr_element ctx n (tails n) wr s Hw ltac:(by rewrite Hqn) Hwr' Hscp Hg)
    as (s1' & E' & Hsz & Hnf & Hscp1 & Hh & Hfr).
  rewrite E in E'. injection E' as <-.
  destruct (post_send_wr_ok _ _ _ _ _ _ Hw E) as (_ & _ & Hc1 & _ & Hcnt1 & Hw1 & _).
  assert (Hstep1 : sq_step q0 (ps_qp s1)).
  { etrans; [exact Hstep|]. by eapply post_send_wr_step. }
  rewrite (wr_units_step _ _ _ Hstep) in Hsz.
  assert (Hb : 1 <= b) by (apply nbb_pos; pose proof (wr_units_pos q0 wr);
    pose proof (sw_units _ _ Hwr); lia).
  assert (Hcr : cur_post (sq (ps_qp s1)) = u32 (cur_post (sq (ps_qp s)) + b)) by (by rewrite Hc1, Hsz).
  set (c := cur_post (sq (ps_qp s))) in *. cbv zeta in IH. rewrite Hcr, Hnf in IH.
  assert (Htot : 0 <= total).
  { unfold total. apply sumZ_nonneg. eapply Forall_impl; [exact Hl|]. intros w Hsw. unfold wr_blocks.
    pose proof (nbb_pos (wr_units q0 w)). pose proof (wr_units_pos q0 w).
    pose proof (sw_units _ _ Hsw). lia. }
  destruct (IH Hstep1 Hw1 Hq Hl Hscp1 ltac:(lia)) as [Hel Hoff]. clear IH.
  assert (Hslot : forall d, slot_at (u32 (c + b)) (wqe_cnt (sq q0)) d = slot_at c (wqe_cnt (sq q0)) (b + d)).
  { intros d. rewrite <- Hcnt. by apply slot_at_u32. }
  assert (Hblk : forall d, block_at q0 (u32 (c + b)) d = block_at q0 c (b + d)).
  { intros d. unfold block_at. by rewrite Hslot. }
  assert (Hunit : forall k, 0 <= k < wr_units q0 wr ->
    unit_at (ps_qp s) (ctrl_of (ps_qp s) (sq_idx (ps_qp s))) k = block_at q0 c (k / 4) + 16 * (k mod 4)).
  { intros k Hk. rewrite sq_idx_slot, unit_block, (block_at_step _ _ _ _ Hstep) by (done || lia). done. }
  split.
  - intros [|i] wr' Hi; simpl in Hi.
    + injection Hi as <-. simpl. rewrite Z.add_0_r, u32_small by apply Hw.
      rewrite <- Hcnt. replace (slot_at c (wqe_cnt (sq (ps_qp s))) 0) with (sq_idx (ps_qp s))
        by (by rewrite sq_idx_slot).
      apply holds_step; [done|].
      eapply holds_frame; [done|by rewrite Hqn|by apply sq_idx_range|done|exact Hh|].
      intros k a Hk Ha. rewrite (wr_units_step _ _ _ Hstep) in Hk. rewrite Hunit in Ha by done.
      apply Hoff. intros d Hd. rewrite Hblk.
      pose proof (unit_in_blocks q0 wr k (sw_units _ _ Hwr) Hk) as Hkb. fold b in Hkb.
      pose proof (Z.mod_pos_bound k 4 ltac:(lia)).
      assert (Hw0 : sq_wf (ps_qp s)) by done.
      destruct (block_at_disjoint (ps_qp s) c (k / 4) (b + d) Hw0) as [HH|HH]; try lia;
        rewrite !(block_at_step _ _ _ _ Hstep) in HH; lia.
    + specialize (Hel i wr' Hi). cbv zeta in Hel |- *. simpl take. simpl sumZ. fold b.
      rewrite u32_add_l, Hslot in Hel.
      replace (c + b + sumZ (wr_blocks q0) (take i l)) with (c + (b + sumZ (wr_blocks q0) (take i l))) in Hel by lia.
      by destruct (decide (i = 0%nat)), (decide (S i = 0%nat)).
  - change (sumZ (wr_blocks q0) (wr :: l)) with (b + total).
    intros a Ha. rewrite Hoff, Hfr; [done| |].
    + intros k Hk. rewrite (wr_units_step _ _ _ Hstep) in Hk. rewrite Hunit by done.
      pose proof (unit_in_blocks q0 wr k (sw_units _ _ Hwr) Hk) as Hkb. fold b in Hkb.
      pose proof (Z.mod_pos_bound k 4 ltac:(lia)). specialize (Ha (k / 4)). lia.
    + intros d Hd. rewrite Hblk. apply Ha. lia.
Qed.

(** C3.  Round trip of the send path.  When [mlx5_post_send] accepts a list of
    transport requests (RC, UC or XRC; sends, RDMA, atomics) that fits the ring,
    the device reading the ring afterwards decodes, at the block of each request,
    exactly that request: opcode, producer index, QP number, size, flags with the
    fence owed to it, immediate or invalidated key, remote address, operands
    and every non-empty scatter entry, even where an element wraps around the
    end of the ring. *)
Theorem post_send_device_decodes ctx tails wrs s n s' :
  let q := ss_qp s in
  sq_wf q -> 0 <= qp_num q < 2 ^ 24 -> 0 <= eth_min_inline_size ctx ->
  snd_dbr q + 4 <= sq_start q \/ qend (sq q) <= snd_dbr q ->
  Forall (scatter_wr q) wrs -> sumZ (wr_blocks q) wrs <= wqe_cnt (sq q) ->
  post_send_locked ctx tails wrs s = (Ok, n, s') ->
  forall i wr, wrs !! i = Some wr ->
    let d := sumZ (wr_blocks q) (take i wrs) in
    let owed := if decide (i = 0%nat) then fm_cache q else 0 in
    decode_wqe q (block_at q (cur_post (sq q)) d) (ss_mem s') =
    wqe_spec (qp_at q (u32 (cur_post (sq q) + d))) (wr_fence owed wr) wr.
Proof.
  intros q Hw Hq Hn Hdb Hl Hsum H i wr Hi.
  unfold post_send_locked in H. fold (loop_start s) in H. fold q in H.
  destruct (post_send_loop ctx tails 0 wrs (loop_start s)) as [[o1 n1] ps] eqn:E.
  injection H as -> -> <-.
  destruct (post_send_loop_posts _ _ _ _ _ _ _ _ E) as (k & sizes & ps1 & En & Hk & Hp & Hend).
  destruct Hend as [(_ & -> & ->)|(? & _ & ? & _)]; [|done].
  rewrite firstn_all in Hp.
  destruct (posts_hold ctx q _ _ _ _ _ _ Hp) as [Hel _]; [done|done|done|done|done|done|].
  specialize (Hel i wr Hi). cbv zeta in Hel |- *. simpl (cur_post _) in Hel.
  set (c := cur_post (sq q)) in *. set (d := sumZ (wr_blocks q) (take i wrs)) in *.
  simpl in Hel. fold q in Hel.
  assert (Hqw : sq_wf (qp_at q (u32 (c + d)))) by (destruct Hw; split; simpl; auto with mlx5).
  assert (Hidx : 0 <= slot_at c (wqe_cnt (sq q)) d < wqe_cnt (sq q))
    by (apply slot_at_range, wf_cnt_pos; done).
  assert (Hwr : scatter_wr (qp_at q (u32 (c + d))) wr).
  { eapply Forall_lookup in Hi; [|exact Hl]. destruct Hi. by split. }
  change (decode_wqe q (block_at q c d)) with
    (decode_wqe (qp_at q (u32 (c + d))) (ctrl_of (qp_at q (u32 (c + d))) (slot_at c (wqe_cnt (sq q)) d))).
  apply (holds_decode _ Hqw Hq _ Hidx _ Hwr).
  eapply (holds_frame _ Hqw Hq _ Hidx _ Hwr); [exact Hel|].
  intros j a Hj Ha. pose proof (unit_at_range _ Hqw _ Hidx j) as Hr.
  change (sq_start (qp_at q _)) with (sq_start q) in Hr. change (qend (sq (qp_at q _))) with (qend (sq q)) in Hr.
  pose proof (posts_step ctx q _ _ _ _ _ _ Hp ltac:(reflexivity)) as [Eq _].
  assert (sq_start q <= a < qend (sq q)) as Hin by lia.
  apply post_send_db_mem. cbn [ss_qp]. rewrite Eq.
  change (snd_dbr (set_fm_cache _ _)) with (snd_dbr q). lia.
Qed.

Lemma demo_wr_range op fl l : Forall sge_range l -> wr_range (demo_wr op fl l).
Proof. intros H. split; [unfold send_ieth|..]; simpl; try lia; [destruct_ifs; lia|done]. Qed.

Lemma post_send_device_decodes_witness :
  let s := demo_send IBV_QPT_RC 3 in let q := ss_qp s in
  let wrs := [demo_wr IBV_WR_ATOMIC_CMP_AND_SWP 2 [mk_sge 8192 8 1; mk_sge 9000 28 2];
              demo_wr IBV_WR_SEND_WITH_IMM 3 [mk_sge 9100 0 3; mk_sge 9200 7 4]] in
  let r := post_send_locked demo_ctx (fun _ => (0, 0)) wrs s in
  r.1 = (Ok, 2) /\
  decode_wqe q (block_at q 3 2) (ss_mem r.2) =
  mk_dw MLX5_OPCODE_SEND_IMM 5 0x1234 2 136 5 None None None [(7, 4, 9200)].
Proof.
  intros s q wrs r. assert (r.1 = (Ok, 2)) as E by (by vm_compute). split; [exact E|].
  etransitivity; [apply (post_send_device_decodes demo_ctx (fun _ => (0, 0)) wrs s 2 r.2) with (i := 1%nat)|].
  - apply demo_wf. lia.
  - simpl. lia.
  - simpl. lia.
  - vm_compute. left. congruence.
  - repeat constructor; try (by vm_compute); apply demo_wr_range; repeat constructor; simpl; lia.
  - by vm_compute.
  - rewrite <- E. apply surjective_pairing.
  - reflexivity.
  - by vm_compute.
Defined.

(** * Inline data *)

(** The [i]-th byte from [p] in ring order *)
Definition ring_byte (qp : mlx5_qp) (p i : Z) : Z :=
  sq_start qp + (p - sq_start qp + i) mod ring_len qp.

(** The bytes of a scatter list, in order *)
Definition gather (m : mem) (l : list ibv_sge) : list Z :=
  mjoin ((fun sg => read_bytes (sge_addr sg) (Z.to_nat (sge_length sg)) m) <$> l).

(** A source buffer lies outside the ring and inside the address space. *)
Definition src_ok (qp : mlx5_qp) (sg : ibv_sge) : Prop :=
  0 <= sge_addr sg /\ 0 <= sge_length sg /\ sge_addr sg + sge_length sg < 2 ^ 64 /\
  (sge_addr sg + sge_length sg <= sq_start qp \/ qend (sq qp) <= sge_addr sg).

Section Inline.
#[local] Set Default Proof Using "Type*".
Context (qp : mlx5_qp) (Hw : sq_wf qp).

Lemma ring_byte_cases p i :
  sq_start qp <= p <= qend (sq qp) -> 0 <= i < ring_len qp ->
  ring_byte qp p i = (if p + i <? qend (sq qp) then p + i else p + i - ring_len qp).
Proof.
  intros Hp Hi. unfold ring_byte. pose proof (wf_qend _ Hw) as Eq.
  destruct (Z.ltb_spec (p + i) (qend (sq qp))).
  - rewrite Z.mod_small by lia. lia.
  - replace (p - sq_start qp + i) with (p - sq_start qp + i - ring_len qp + 1 * ring_len qp) by lia.
    rewrite Z.mod_add by lia. rewrite Z.mod_small by lia. lia.
Qed.

(** One entry of the copy loop *)
Definition copy_one (p addr len : Z) (m : mem) : Z * mem :=
  if qend (sq qp) <? p + len then
    let c := qend (sq qp) - p in
    (sq_start qp + (len - c), memcpy (sq_start qp) (addr + c) (len - c) (memcpy p addr c m))
  else (p + len, memcpy p addr len m).

Lemma copy_one_spec p addr len m :
  sq_start qp <= p <= qend (sq qp) -> 0 <= len <= ring_len qp ->
  addr + len <= sq_start qp \/ qend (sq qp) <= addr ->
  let '(p', m') := copy_one p addr len m in
  sq_start qp <= p' <= qend (sq qp) /\
  (forall i, ring_byte qp p' i = ring_byte qp p (len + i)) /\
  (forall i, 0 <= i < len -> m' (ring_byte qp p i) = m (addr + i)) /\
  (forall a, (forall i, 0 <= i < len -> a <> ring_byte qp p i) -> m' a = m a).
Proof.
  intros Hp Hl Hs. unfold copy_one. pose proof (wf_qend _ Hw) as Eq.
  destruct (Z.ltb_spec (qend (sq qp)) (p + len)) as [Hlt|Hge].
  - split_and!; [lia..| | |].
    + intros i. unfold ring_byte. f_equal.
      replace (sq_start qp + (len - (qend (sq qp) - p)) - sq_start qp + i)
        with (p - sq_start qp + (len + i) + (-1) * ring_len qp) by lia.
      rewrite Z.mod_add; lia.
    + intros i Hi. rewrite ring_byte_cases by lia. destruct (Z.ltb_spec (p + i) (qend (sq qp))).
      * rewrite memcpy_outside by lia. rewrite memcpy_inside by lia. f_equal. lia.
      * rewrite memcpy_inside, memcpy_outside by lia. f_equal. lia.
    + intros a Ha. destruct (decide (p <= a < qend (sq qp))) as [H1|H1].
      { specialize (Ha (a - p) ltac:(lia)). rewrite ring_byte_cases in Ha by lia.
        destruct (Z.ltb_spec (p + (a - p)) (qend (sq qp))); lia. }
      destruct (decide (sq_start qp <= a < sq_start qp + (len - (qend (sq qp) - p)))) as [H2|H2].
      { specialize (Ha (a - p + ring_len qp) ltac:(lia)). rewrite ring_byte_cases in Ha by lia.
        destruct (Z.ltb_spec (p + (a - p + ring_len qp)) (qend (sq qp))); lia. }
      by rewrite !memcpy_outside by lia.
  - split_and!; [lia..| | |].
    + intros i. unfold ring_byte. do 2 f_equal. lia.
    + intros i Hi. destruct (decide (p + i = qend (sq qp))); [lia|].
      rewrite ring_byte_cases by lia. destruct (Z.ltb_spec (p + i) (qend (sq qp))); [|lia].
      rewrite memcpy_inside by lia. f_equal. lia.
    + intros a Ha. apply memcpy_outside. destruct (decide (p <= a < p + len)) as [H1|H1]; [|lia].
      specialize (Ha (a - p) ltac:(lia)). rewrite ring_byte_cases in Ha by lia.
      destruct (Z.ltb_spec (p + (a - p)) (qend (sq qp))); lia.
Qed.

Lemma ring_byte_range p i : sq_start qp <= ring_byte qp p i < qend (sq qp).
Proof.
  unfold ring_byte. rewrite (wf_qend _ Hw). pose proof (wf_cnt_pos _ Hw).
  pose proof (Z.mod_pos_bound (p - sq_start qp + i) (ring_len qp)). unfold ring_len in *. lia.
Qed.

Lemma ring_byte_inj p i j :
  0 <= i < ring_len qp -> 0 <= j < ring_len qp -> ring_byte qp p i = ring_byte qp p j -> i = j.
Proof.
  intros Hi Hj E. apply (slot_at_inj (p - sq_start qp) (ring_len qp)); [lia|done|done|].
  unfold ring_byte in E. unfold slot_at. lia.
Qed.

Lemma read_bytes_ext p n m1 m2 :
  (forall a, p <= a < p + Z.of_nat n -> m1 a = m2 a) -> read_bytes p n m1 = read_bytes p n m2.
Proof.
  intros H. unfold read_bytes. apply list_fmap_ext. intros i x Hx. apply lookup_seq in Hx as [-> Hx].
  apply H. lia.
Qed.

Lemma gather_ext l m1 m2 :
  Forall (src_ok qp) l -> (forall a, a < sq_start qp \/ qend (sq qp) <= a -> m1 a = m2 a) ->
  gather m1 l = gather m2 l.
Proof.
  intros Hl Hm. unfold gather. f_equal. induction Hl as [|sg l Hsg Hl IH]; [done|].
  cbn [fmap list_fmap]. f_equal; [|done]. destruct Hsg as (? & ? & ? & ?).
  apply read_bytes_ext. intros a ?. apply Hm. lia.
Qed.

Definition total_len (l : list ibv_sge) : Z := sumZ sge_length l.

(** The copy loop lays the gathered bytes out in ring order from [p] on. *)
Lemma inl_copy_gather l p total m :
  Forall (src_ok qp) l -> sq_start qp <= p <= qend (sq qp) -> 0 <= total ->
  total + total_len l <= max_inline_data qp -> max_inline_data qp < 2 ^ 30 ->
  total_len l <= ring_len qp -> ring_len qp <= 2 ^ 30 ->
  exists m', inl_copy qp l 0 p total m = (Some (total + total_len l), m') /\
    (forall i, 0 <= i < total_len l -> Some (m' (ring_byte qp p i)) = gather m l !! Z.to_nat i) /\
    (forall a, (forall i, 0 <= i < total_len l -> a <> ring_byte qp p i) -> m' a = m a).
Proof.
  intros Hl. revert p total m.
  induction Hl as [|sg l Hsg Hl IH]; intros p total m Hp Ht Hmax Hlim Hfit Hring.
  { exists m. unfold total_len. simpl. rewrite Z.add_0_r. split_and!; [done|lia|done]. }
  destruct Hsg as (Ha & Hlen & Hend & Hdis).
  assert (Forall (fun sg => 0 <= sge_length sg) l) as Hpos
    by (eapply Forall_impl; [exact Hl|]; intros sg' (_ & ? & _); done).
  pose proof (sumZ_nonneg sge_length l Hpos) as Hnn.
  unfold total_len in *. simpl in Hmax, Hfit |- *.
  set (len := sge_length sg) in *. set (rest := sumZ sge_length l) in *.
  pose proof (wf_qend _ Hw) as Eq. pose proof (wf_addr _ Hw).
  cbn [inl_copy]. cbv zeta. rewrite Z.add_0_r, Z.sub_0_r, (u64_small (sge_addr sg)) by lia.
  fold len. rewrite (s32_small len), (s32_small (total + len)) by lia.
  destruct (Z.ltb_spec (max_inline_data qp) (total + len)); [lia|].
  pose proof (copy_one_spec p (sge_addr sg) len m Hp ltac:(lia) Hdis) as Hc.
  assert ((if qend (sq qp) <? p + len
           then inl_copy qp l 0 (mlx5_get_send_wqe qp 0 + s32 (len - s32 (qend (sq qp) - p))) (total + len)
             (memcpy (mlx5_get_send_wqe qp 0) (sge_addr sg + s32 (qend (sq qp) - p))
                (u64 (s32 (len - s32 (qend (sq qp) - p))))
                (memcpy p (sge_addr sg) (u64 (s32 (qend (sq qp) - p))) m))
           else inl_copy qp l 0 (p + len) (total + len) (memcpy p (sge_addr sg) (u64 len) m))
          = inl_copy qp l 0 (copy_one p (sge_addr sg) len m).1 (total + len)
              (copy_one p (sge_addr sg) len m).2) as ->.
  { unfold copy_one. rewrite get_send_wqe_eq, Z.mul_0_r, Z.add_0_r.
    destruct (Z.ltb_spec (qend (sq qp)) (p + len)).
    - rewrite (s32_small (qend (sq qp) - p)) by lia. rewrite (s32_small (len - _)) by lia.
      rewrite (u64_small (qend (sq qp) - p)), (u64_small (len - _)) by lia. done.
    - rewrite (u64_small len) by lia. done. }
  destruct (copy_one p (sge_addr sg) len m) as [p' m1]. cbn [fst snd].
  destruct Hc as (Hp' & Hnext & Hin & Hout).
  destruct (IH p' (total + len) m1) as (m' & -> & Hin' & Hout'); [done|lia..|].
  assert (Hg : gather m1 l = gather m l).
  { apply gather_ext; [done|]. intros a Ho. apply Hout. intros i _. pose proof (ring_byte_range p i). lia. }
  exists m'. split_and!.
  - do 2 f_equal. lia.
  - intros i Hi. change (gather m (sg :: l)) with
      (read_bytes (sge_addr sg) (Z.to_nat (sge_length sg)) m ++ gather m l). destruct (decide (i < len)) as [Hlt|Hge].
    + rewrite lookup_app_l by (unfold read_bytes; rewrite length_fmap, length_seq; lia).
      unfold read_bytes. rewrite list_lookup_fmap, lookup_seq_lt by lia. simpl.
      rewrite Hout'; [|intros j Hj; rewrite Hnext; intros E; apply ring_byte_inj in E; lia].
      rewrite Hin by lia. do 2 f_equal. lia.
    + rewrite lookup_app_r by (unfold read_bytes; rewrite length_fmap, length_seq; lia).
      unfold read_bytes. rewrite length_fmap, length_seq, <- Hg.
      replace (Z.to_nat i - Z.to_nat (sge_length sg))%nat with (Z.to_nat (i - len)) by lia.
      rewrite <- Hin', Hnext by lia. do 3 f_equal. lia.
  - intros a Hi. rewrite Hout', Hout; [done| |].
    + intros i Hr. apply Hi. lia.
    + intros i Hr. rewrite Hnext. apply Hi. lia.
Qed.

End Inline.

(** Round trip of inline data.  On a header that ends inside the ring,
    [set_data_inl_seg] succeeds whenever the data fits [max_inline_data], records
    the length with the inline bit, accounts for it in 16-byte units, and the
    device reading the ring in order from the inline header finds exactly the
    bytes of the scatter entries, across the wrap; nothing else is written. *)
Theorem inline_data_round_trip qp wr s :
  let T := total_len (sg_list wr) in
  sq_wf qp -> Forall (src_ok qp) (sg_list wr) -> ws_scp s = scp0 -> at_16_in qp s ->
  0 < T <= max_inline_data qp -> max_inline_data qp < 2 ^ 30 ->
  T + 4 <= ring_len qp -> ring_len qp <= 2 ^ 30 ->
  exists s', set_data_inl_seg qp wr s = (Ok, s') /\
    load_be 4 (ws_seg s) (ws_mem s') = MLX5_INLINE_SEG + T /\
    ws_size s' = ws_size s + (T + 4 + 15) / 16 /\
    (forall i, 0 <= i < T ->
       Some (ws_mem s' (ring_byte qp (ws_seg s + 4) i)) = gather (ws_mem s) (sg_list wr) !! Z.to_nat i) /\
    (forall a, (forall i, -4 <= i < T -> a <> ring_byte qp (ws_seg s + 4) i) -> ws_mem s' a = ws_mem s a).
Proof.
  intros T Hw Hl Hscp [(o & Ho & Eo) Hlt] HT Hmax Hfit Hring.
  pose proof (wf_qend _ Hw) as Eq. unfold set_data_inl_seg. rewrite Hscp.
  change (drop (Z.to_nat (scp_index scp0)) (sg_list wr)) with (sg_list wr).
  assert (ws_seg s + 16 <= qend (sq qp)) as Hseg by (unfold ring_len in *; lia).
  assert (sq_start qp <= ws_seg s) as Hseg' by lia.
  destruct (inl_copy_gather qp Hw (sg_list wr) (ws_seg s + 4) 0 (ws_mem s))
    as (m' & E & Hin & Hout); [done|lia|lia|fold T; lia|done|fold T; lia|done|].
  fold T in E, Hin, Hout. unfold sizeof_inline_seg. change (scp_offset scp0) with 0. rewrite E.
  rewrite Z.add_0_l. destruct (Z.eqb_spec T 0); [lia|].
  assert (Hrb : forall i, -4 <= i < T -> ring_byte qp (ws_seg s + 4) i = ring_byte qp (ws_seg s) (i + 4)).
  { intros i _. unfold ring_byte. do 2 f_equal. lia. }
  assert (Hhd : forall a, ws_seg s <= a < ws_seg s + 4 -> a = ring_byte qp (ws_seg s) (a - ws_seg s)).
  { intros a Ha. rewrite ring_byte_cases by (done || lia).
    destruct (Z.ltb_spec (ws_seg s + (a - ws_seg s)) (qend (sq qp))); lia. }
  eexists. split; [reflexivity|]. simpl. split_and!.
  - load_solve. rewrite Z.lor_comm. change MLX5_INLINE_SEG with (Z.shiftl 1 31).
    rewrite lor_shl_add, Z.mod_small by (simpl; lia). done.
  - rewrite align_16 by lia. f_equal. div_lia.
  - intros i Hi. rewrite <- Hin by done. f_equal. apply store_be_outside. rewrite Hrb by lia.
    destruct (decide (ws_seg s <= ring_byte qp (ws_seg s) (i + 4) < ws_seg s + 4)) as [Hb|Hb]; [|simpl; lia].
    apply Hhd in Hb as Hb'. apply ring_byte_inj in Hb'; [lia|done|lia|].
    pose proof (ring_byte_range qp Hw (ws_seg s) (i + 4)). lia.
  - intros a Ha. rewrite store_be_outside, Hout; [done|intros i Hi; apply Ha; lia|].
    destruct (decide (ws_seg s <= a < ws_seg s + 4)) as [Hb|Hb]; [|simpl; lia].
    exfalso. apply (Ha (a - ws_seg s - 4)); [lia|]. rewrite Hrb by lia.
    replace (a - ws_seg s - 4 + 4) with (a - ws_seg s) by lia. by apply Hhd.
Qed.

Lemma inline_data_round_trip_witness :
  let q := demo_qp IBV_QPT_RC 3 in
  let wr := demo_wr IBV_WR_SEND 8 [mk_sge 9001 30 1; mk_sge 9100 25 1] in
  let s := mk_ws (fun a => a mod 256) (4096 + 208) 1 scp0 0 0 0 in
  exists s', set_data_inl_seg q wr s = (Ok, s') /\
    load_be 4 (ws_seg s) (ws_mem s') = MLX5_INLINE_SEG + 55 /\ ws_size s' = 1 + (55 + 4 + 15) / 16.
Proof.
  intros q wr s.
  destruct (inline_data_round_trip q wr s) as (s' & H1 & H2 & H3 & _).
  - apply demo_wf. lia.
  - repeat constructor; simpl; lia.
  - reflexivity.
  - split; [exists 13|]; unfold ring_len; simpl; lia.
  - simpl. unfold total_len. simpl. lia.
  - simpl. lia.
  - unfold total_len, ring_len. simpl. lia.
  - unfold ring_len. simpl. lia.
  - exists s'. auto.
Defined.
