(* ===== verification/Builder.v ===== *)
(** The work-request builder API (providers/mlx5/qp.c, [mlx5_send_wr_*]): the verbs
    [wr_start], one builder and its setters per request, [wr_complete] or
    [wr_abort].  The construction state lives in the QP ([cur_ctrl], [cur_data],
    [cur_size], [cur_setters_cnt], [err], [nreq], and the rollback copies); an error
    is recorded in [err] and reported by [wr_complete].  Every operation is a
    function on the QP and the memory. *)

From stdpp Require Import base numbers list.
From S2P Require Import Prelude Mem Types Wqe PostSend.

Record bst : Type := mk_b { b_qp : mlx5_qp; b_mem : mem }.

Definition b_set (f : mlx5_qp -> mlx5_qp) (b : bst) : bst := mk_b (f (b_qp b)) (b_mem b).
Definition b_put (f : mem -> mem) (b : bst) : bst := mk_b (b_qp b) (f (b_mem b)).

(** [if (!mqp->err) mqp->err = e] *)
Definition b_fail (e : Z) (b : bst) : bst := if err (b_qp b) =? 0 then b_set (set_err e) b else b.

(** * Session *)

Definition mlx5_send_wr_start (qp : mlx5_qp) : mlx5_qp :=
  set_inl_wqe false (set_nreq 0 (set_err 0
    (set_fm_cache_rb (fm_cache qp) (set_cur_post_rb (cur_post (sq qp)) qp)))).

(** The rollback shared by [wr_complete] on error and [wr_abort] *)
Definition wr_rollback (qp : mlx5_qp) : mlx5_qp :=
  set_fm_cache (fm_cache_rb qp) (set_sq (set_cur_post (cur_post_rb qp) (sq qp)) qp).

Definition mlx5_send_wr_complete (ctx : mlx5_context) (s : send_st) : Z * send_st :=
  let qp := ss_qp s in
  if negb (err qp =? 0) then (err qp, mk_ss (wr_rollback qp) (ss_bf s) (ss_mem s) (ss_trace s))
  else (err qp, post_send_db ctx (nreq qp) (inl_wqe qp) (cur_size qp) (cur_ctrl qp) s).

Definition mlx5_send_wr_abort (qp : mlx5_qp) : mlx5_qp := wr_rollback qp.

(** * Opening and closing an element *)

(** What [wr_data] records for the completion *)
Definition slot_wr_data (ib_op mlx5_op : Z) : Z :=
  if ib_op =? IBV_WR_BIND_MW then IBV_WC_BIND_MW
  else if ib_op =? IBV_WR_LOCAL_INV then IBV_WC_LOCAL_INV
  else if ib_op =? IBV_WR_DRIVER1 then IBV_WC_DRIVER1
  else if mlx5_op =? MLX5_OPCODE_MMO then IBV_WC_DRIVER3
  else 0.

(** [wrid[idx]], [wqe_head[idx]] and [wr_data[idx]] of the element being opened *)
Definition claim_slot (idx data : Z) (qp : mlx5_qp) : mlx5_qp :=
  let w := sq qp in
  set_sq (set_wr_data (aset (wr_data w) idx data)
    (set_wqe_head (aset (wqe_head w) idx (u32 (wq_head w + nreq qp)))
      (set_wrid (aset (wrid w) idx (ex_wr_id qp)) w))) qp.

Definition _common_wqe_init_op (tails : Z * Z) (ib_op mlx5_op : Z) (b : bst) : bst :=
  let qp := b_qp b in
  if mlx5_wq_overflow (sq qp) (nreq qp) tails.1 tails.2 then b_fail ENOMEM b
  else
    let idx := sq_idx qp in
    let ctrl := mlx5_get_send_wqe qp idx in
    let fence := if has_flag (ex_wr_flags qp) IBV_SEND_FENCE then MLX5_WQE_CTRL_FENCE
                 else fm_cache qp in
    let m := store_be 4 (ctrl + 8) 0 (b_mem b) in
    let m := store_be 1 (ctrl + 11) (fm_ce_se (sq_signal_bits qp) fence (ex_wr_flags qp)) m in
    let m := store_be 4 ctrl
      (Z.lor (Z.shiftl (Z.land (cur_post (sq qp)) 0xffff) 8) (u8 mlx5_op)) m in
    mk_b (set_cur_ctrl ctrl (set_fm_cache 0 (claim_slot idx (slot_wr_data ib_op mlx5_op) qp))) m.

Definition _common_wqe_init (tails : Z * Z) (ib_op : Z) : bst -> bst :=
  _common_wqe_init_op tails ib_op (aget mlx5_ib_opcode ib_op).

(** [__wqe_finalize]: the signature, and the blocks of the element *)
Definition __wqe_finalize (b : bst) : bst :=
  let qp := b_qp b in
  let m := if wq_sig qp then store_be 1 (cur_ctrl qp + 8) (wq_sig_of (cur_ctrl qp) (b_mem b)) (b_mem b)
           else b_mem b in
  mk_b (set_sq (set_cur_post (u32 (cur_post (sq qp) + u32 (cur_size qp + 3) / 4)) (sq qp)) qp) m.

Definition _common_wqe_finalize (b : bst) : bst :=
  let qp := b_qp b in
  __wqe_finalize
    (b_put (store_be 4 (cur_ctrl qp + 4) (Z.lor (cur_size qp) (u32 (Z.shiftl (qp_num qp) 8)))) b).

(** * Builders *)

(** [cur_data], [cur_size], [nreq++] and [cur_setters_cnt = 0] *)
Definition b_opened (data size : Z) (b : bst) : bst :=
  b_set (fun qp => set_cur_setters_cnt 0 (set_nreq (nreq qp + 1)
           (set_cur_size size (set_cur_data data qp)))) b.

Definition wrap_ptr (qp : mlx5_qp) (p : Z) : Z :=
  if p =? qend (sq qp) then mlx5_get_send_wqe qp 0 else p.

Definition _mlx5_send_wr_send (tails : Z * Z) (ib_op : Z) (b : bst) : bst :=
  let b := _common_wqe_init tails ib_op b in
  let qp := b_qp b in
  let sz := if (qp_type qp =? IBV_QPT_UD) || (qp_type qp =? IBV_QPT_DRIVER) then sizeof_datagram_seg
            else if qp_type qp =? IBV_QPT_XRC_SEND then sizeof_xrc_seg else 0 in
  b_opened (wrap_ptr qp (cur_ctrl qp + sizeof_ctrl_seg + sz)) ((sizeof_ctrl_seg + sz) / 16) b.

Definition mlx5_send_wr_send_other (tails : Z * Z) : bst -> bst := _mlx5_send_wr_send tails IBV_WR_SEND.

Definition b_imm (v : Z) (b : bst) : bst := b_put (store_be 4 (cur_ctrl (b_qp b) + 12) v) b.

Definition mlx5_send_wr_send_imm (tails : Z * Z) (imm : Z) (b : bst) : bst :=
  b_imm imm (_mlx5_send_wr_send tails IBV_WR_SEND_WITH_IMM b).

Definition mlx5_send_wr_send_inv (tails : Z * Z) (invalidate_rkey : Z) (b : bst) : bst :=
  b_imm invalidate_rkey (_mlx5_send_wr_send tails IBV_WR_SEND_WITH_INV b).

(** The zeroed Ethernet segment and its checksum flags; [None]: checksum offload
    unsupported *)
Definition eth_begin (qp : mlx5_qp) (eseg : Z) (m : mem) : option mem * mem :=
  let m := memset eseg 0 sizeof_eth_seg m in
  if has_flag (ex_wr_flags qp) IBV_SEND_IP_CSUM then
    if has_flag (qp_cap_cache qp) MLX5_CSUM_SUPPORT_RAW_OVER_ETH then
      let m := store_be 1 (eseg + 4)
        (Z.lor (load_be 1 (eseg + 4) m) (Z.lor MLX5_ETH_WQE_L3_CSUM MLX5_ETH_WQE_L4_CSUM)) m in
      (Some m, m)
    else (None, m)
  else (Some m, m).

Definition mlx5_send_wr_send_eth (ctx : mlx5_context) (tails : Z * Z) (b : bst) : bst :=
  let inl_hdr_size := eth_min_inline_size ctx in
  let b := _common_wqe_init tails IBV_WR_SEND b in
  let eseg := cur_ctrl (b_qp b) + sizeof_ctrl_seg in
  let eseg_sz := Z.land (16 + inl_hdr_size) (Z.lnot 0xf) in
  match eth_begin (b_qp b) eseg (b_mem b) with
  | (None, m) =>
    let b := b_set (fun qp => if inl_hdr_size =? 0 then qp else set_cur_eth eseg qp) (b_put (fun _ => m) b) in
    b_fail EINVAL b
  | (Some m, _) =>
    b_set (fun qp => set_nreq (nreq qp + 1) (set_cur_size (Z.shiftr (sizeof_ctrl_seg + eseg_sz) 4)
             (set_cur_data (eseg + eseg_sz) (if inl_hdr_size =? 0 then qp else set_cur_eth eseg qp))))
      (b_put (fun _ => m) b)
  end.

Definition mlx5_send_wr_send_tso (tails : Z * Z) (hdr hdr_sz mss : Z) (b : bst) : bst :=
  let b := _common_wqe_init tails IBV_WR_TSO b in
  let qp := b_qp b in
  let eseg := cur_ctrl qp + sizeof_ctrl_seg in
  match eth_begin qp eseg (b_mem b) with
  | (None, m) => b_fail EINVAL (b_put (fun _ => m) b)
  | (Some m, _) =>
    match set_tso_eth_seg qp hdr hdr_sz mss (mk_ws m eseg 0 (mk_scp 0 0) 0 0 0) with
    | (Ok, ws) =>
      b_set (fun qp => set_nreq (nreq qp + 1) (set_cur_eth 0
               (set_cur_size (ws_size ws + Z.shiftr (sizeof_ctrl_seg + sizeof_eth_seg) 4)
                  (set_cur_data (ws_seg ws + sizeof_eth_seg) qp))))
        (b_put (fun _ => ws_mem ws) b)
    | (Err e, ws) => b_fail e (b_put (fun _ => ws_mem ws) b)
    | (Fault, ws) => b_put (fun _ => ws_mem ws) b
    end
  end.

(** Size of the transport segment between the control and the remote address *)
Definition rdma_transport_sz (qp : mlx5_qp) : Z :=
  if qp_type qp =? IBV_QPT_DRIVER then sizeof_datagram_seg
  else if qp_type qp =? IBV_QPT_XRC_SEND then sizeof_xrc_seg else 0.

Definition _mlx5_send_wr_rdma (tails : Z * Z) (rkey remote_addr ib_op : Z) (b : bst) : bst :=
  let b := _common_wqe_init tails ib_op b in
  let qp := b_qp b in
  let sz := rdma_transport_sz qp in
  let raddr_seg := wrap_ptr qp (cur_ctrl qp + sizeof_ctrl_seg + sz) in
  b_opened (raddr_seg + sizeof_raddr_seg) ((sizeof_ctrl_seg + sz + sizeof_raddr_seg) / 16)
    (b_put (set_raddr_seg raddr_seg remote_addr rkey) b).

Definition mlx5_send_wr_rdma_write (tails : Z * Z) (rkey remote_addr : Z) : bst -> bst :=
  _mlx5_send_wr_rdma tails rkey remote_addr IBV_WR_RDMA_WRITE.

Definition mlx5_send_wr_rdma_write_imm (tails : Z * Z) (rkey remote_addr imm : Z) (b : bst) : bst :=
  b_imm imm (_mlx5_send_wr_rdma tails rkey remote_addr IBV_WR_RDMA_WRITE_WITH_IMM b).

Definition mlx5_send_wr_rdma_read (tails : Z * Z) (rkey remote_addr : Z) : bst -> bst :=
  _mlx5_send_wr_rdma tails rkey remote_addr IBV_WR_RDMA_READ.

Definition _mlx5_send_wr_atomic (tails : Z * Z) (rkey remote_addr compare_add swap ib_op : Z)
    (b : bst) : bst :=
  let b := _common_wqe_init tails ib_op b in
  let qp := b_qp b in
  let sz := rdma_transport_sz qp in
  let raddr_seg := wrap_ptr qp (cur_ctrl qp + sizeof_ctrl_seg + sz) in
  b_opened (wrap_ptr qp (raddr_seg + sizeof_raddr_seg + sizeof_atomic_seg))
    ((sizeof_ctrl_seg + sz + sizeof_raddr_seg + sizeof_atomic_seg) / 16)
    (b_put (fun m => set_atomic_seg (raddr_seg + sizeof_raddr_seg) ib_op swap compare_add
                       (set_raddr_seg raddr_seg remote_addr rkey m)) b).

Definition mlx5_send_wr_atomic_cmp_swp (tails : Z * Z) (rkey remote_addr compare swap : Z)
  : bst -> bst :=
  _mlx5_send_wr_atomic tails rkey remote_addr compare swap IBV_WR_ATOMIC_CMP_AND_SWP.

Definition mlx5_send_wr_atomic_fetch_add (tails : Z * Z) (rkey remote_addr add : Z) : bst -> bst :=
  _mlx5_send_wr_atomic tails rkey remote_addr add 0 IBV_WR_ATOMIC_FETCH_AND_ADD.

(** [_build_umr_wqe]; a null [bind_info->mr] with a length is dereferenced, which
    leaves the state of the fault. *)
Definition _build_umr_wqe (tails : Z * Z) (orig_rkey new_rkey : Z) (bi : ibv_mw_bind_info)
    (ib_op : Z) (b : bst) : outcome * bst :=
  let b := b_imm orig_rkey (_common_wqe_init tails ib_op b) in
  let qp := b_qp b in
  match set_bind_wr qp IBV_MW_TYPE_2 new_rkey bi (qp_num qp)
          (mk_ws (b_mem b) (cur_ctrl qp + sizeof_ctrl_seg) (sizeof_ctrl_seg / 16) (mk_scp 0 0) 0 0 0) with
  | (Ok, ws) =>
    (Ok, _common_wqe_finalize
      (b_set (fun qp => set_nreq (nreq qp + 1)
                (set_fm_cache MLX5_WQE_CTRL_INITIATOR_SMALL_FENCE (set_cur_size (ws_size ws) qp)))
         (b_put (fun _ => ws_mem ws) b)))
  | (Err e, ws) => (Ok, b_fail e (b_put (fun _ => ws_mem ws) b))
  | (Fault, ws) => (Fault, b_put (fun _ => ws_mem ws) b)
  end.

Definition mlx5_send_wr_bind_mw (tails : Z * Z) (mw : ibv_mw) (rkey : Z) (bi : ibv_mw_bind_info)
  : bst -> outcome * bst :=
  _build_umr_wqe tails (mw_rkey mw) rkey bi IBV_WR_BIND_MW.

Definition mlx5_send_wr_local_inv (tails : Z * Z) (invalidate_rkey : Z) : bst -> outcome * bst :=
  _build_umr_wqe tails invalidate_rkey 0 null_bind_info IBV_WR_LOCAL_INV.

(** * Setters *)

(** [byte_count], [lkey], [addr] of a data segment *)
Definition write_data_seg (dseg len lkey addr : Z) (m : mem) : mem :=
  store_be 8 (dseg + 8) addr (store_be 4 (dseg + 4) lkey (store_be 4 dseg len m)).

Definition add_cur_size (n : Z) (qp : mlx5_qp) : mlx5_qp := set_cur_size (u32 (cur_size qp + n)) qp.

Definition _mlx5_send_wr_set_sge (lkey addr length : Z) (b : bst) : bst :=
  if length =? 0 then b
  else b_set (add_cur_size 1) (b_put (write_data_seg (cur_data (b_qp b)) length lkey addr) b).

(** The tail of a setter of a queue whose requests need two setters *)
Definition second_setter (b : bst) : bst :=
  if cur_setters_cnt (b_qp b) =? 2 - 1 then _common_wqe_finalize b
  else b_set (fun qp => set_cur_setters_cnt (u8 (cur_setters_cnt qp + 1)) qp) b.

Definition mlx5_send_wr_set_sge_rc_uc (lkey addr length : Z) (b : bst) : bst :=
  _common_wqe_finalize (_mlx5_send_wr_set_sge lkey addr length b).

Definition mlx5_send_wr_set_sge_ud_xrc_dc (lkey addr length : Z) (b : bst) : bst :=
  second_setter (_mlx5_send_wr_set_sge lkey addr length b).

(** The inline header of a raw-packet setter: [None] on error, else the bytes of
    the first entry it consumed *)
Definition eth_headers (ctx : mlx5_context) (l : list (Z * Z)) (b : bst)
  : option mlx5_sg_copy_ptr * bst :=
  let eseg := cur_eth (b_qp b) in
  if eseg =? 0 then (Some (mk_scp 0 0), b)
  else match copy_eth_inline_headers ctx l eseg (b_mem b) (mk_scp 0 0) with
       | (Ok, m, scp) => (Some scp, b_put (fun _ => m) b)
       | (Err e, m, _) => (None, b_fail e (b_put (fun _ => m) b))
       | (Fault, m, _) => (None, b_put (fun _ => m) b)
       end.

Definition mlx5_send_wr_set_sge_eth (ctx : mlx5_context) (lkey addr length : Z) (b : bst) : bst :=
  match eth_headers ctx [(addr, length)] b with
  | (None, b) => b
  | (Some scp, b) =>
    _common_wqe_finalize
      (_mlx5_send_wr_set_sge lkey (u64 (addr + scp_offset scp)) (u32 (length - scp_offset scp)) b)
  end.

(** The loop of [_mlx5_send_wr_set_sge_list] at [dseg] *)
Fixpoint sge_list_loop (qp : mlx5_qp) (l : list ibv_sge) (dseg : Z) (size : Z) (m : mem) : Z * mem :=
  match l with
  | [] => (size, m)
  | sg :: l' =>
    let dseg := wrap_ptr qp dseg in
    if sge_length sg =? 0 then sge_list_loop qp l' dseg size m
    else sge_list_loop qp l' (dseg + sizeof_data_seg) (u32 (size + 1))
           (write_data_seg dseg (sge_length sg) (sge_lkey sg) (sge_addr sg) m)
  end.

Definition _mlx5_send_wr_set_sge_list (l : list ibv_sge) (b : bst) : bst :=
  let qp := b_qp b in
  if max_gs (sq qp) <? Z.of_nat (length l) then b_fail ENOMEM b
  else let '(size, m) := sge_list_loop qp l (cur_data qp) (cur_size qp) (b_mem b) in
       mk_b (set_cur_size size qp) m.

Definition mlx5_send_wr_set_sge_list_rc_uc (l : list ibv_sge) (b : bst) : bst :=
  _common_wqe_finalize (_mlx5_send_wr_set_sge_list l b).

Definition mlx5_send_wr_set_sge_list_ud_xrc_dc (l : list ibv_sge) (b : bst) : bst :=
  second_setter (_mlx5_send_wr_set_sge_list l b).

(** The loop of [mlx5_send_wr_set_sge_list_eth]: the first entry starts at
    [offset], and an empty remainder keeps it *)
Fixpoint sge_list_eth_loop (qp : mlx5_qp) (l : list ibv_sge) (offset dseg size : Z) (m : mem) : Z * mem :=
  match l with
  | [] => (size, m)
  | sg :: l' =>
    let len := u32 (sge_length sg - offset) in
    if len =? 0 then sge_list_eth_loop qp l' offset dseg size m
    else let dseg := wrap_ptr qp dseg in
         sge_list_eth_loop qp l' 0 (dseg + sizeof_data_seg) (u32 (size + 1))
           (write_data_seg dseg len (sge_lkey sg) (sge_addr sg + offset) m)
  end.

Definition mlx5_send_wr_set_sge_list_eth (ctx : mlx5_context) (l : list ibv_sge) (b : bst) : bst :=
  let qp := b_qp b in
  if max_gs (sq qp) <? Z.of_nat (length l) then b_fail ENOMEM b
  else match eth_headers ctx (sge_pair <$> l) b with
       | (None, b) => b
       | (Some scp, b) =>
         let qp := b_qp b in
         let '(size, m) := sge_list_eth_loop qp (drop (Z.to_nat (scp_index scp)) l) (scp_offset scp)
                             (cur_data qp) (cur_size qp) (b_mem b) in
         _common_wqe_finalize (mk_b (set_cur_size size qp) m)
       end.

(** ** Inline data *)

(** [memcpy_to_wqe_and_update]: the new destination and the memory;
    [memcpy_to_wqe] is its second component. *)
Definition memcpy_to_wqe_and_update (qp : mlx5_qp) (dest src n : Z) (m : mem) : Z * mem :=
  if qend (sq qp) <? dest + n then
    let copy := u64 (qend (sq qp) - dest) in
    let m := memcpy dest src copy m in
    let dest := mlx5_get_send_wqe qp 0 in
    let n := u64 (n - copy) in
    (dest + n, memcpy dest (src + copy) n m)
  else (dest + n, memcpy dest src n m).

Definition memcpy_to_wqe (qp : mlx5_qp) (dest src n : Z) (m : mem) : mem :=
  (memcpy_to_wqe_and_update qp dest src n m).2.

Definition inline_units (length : Z) : Z := DIV_ROUND_UP (u64 (length + sizeof_inline_seg)) 16.

Definition _mlx5_send_wr_set_inline_data (addr length : Z) (b : bst) : bst :=
  let qp := b_qp b in
  let dseg := cur_data qp in
  if u64 (max_inline_data qp) <? length then b_fail ENOMEM b
  else
    let b := b_set (set_inl_wqe true) b in
    if length =? 0 then b
    else
      b_set (add_cur_size (inline_units length))
        (b_put (fun m => store_be 4 dseg (Z.lor length MLX5_INLINE_SEG)
                           (memcpy_to_wqe qp (dseg + sizeof_inline_seg) addr length m)) b).

Definition mlx5_send_wr_set_inline_data_rc_uc (addr length : Z) (b : bst) : bst :=
  _common_wqe_finalize (_mlx5_send_wr_set_inline_data addr length b).

Definition mlx5_send_wr_set_inline_data_ud_xrc_dc (addr length : Z) (b : bst) : bst :=
  second_setter (_mlx5_send_wr_set_inline_data addr length b).

Definition mlx5_send_wr_set_inline_data_eth (ctx : mlx5_context) (addr length : Z) (b : bst) : bst :=
  match eth_headers ctx [(addr, length)] b with
  | (None, b) => b
  | (Some scp, b) =>
    _common_wqe_finalize
      (_mlx5_send_wr_set_inline_data (addr + scp_offset scp) (u64 (length - scp_offset scp)) b)
  end.

(** The copy loop over buffers: [None] when the data exceeds the maximum *)
Fixpoint inline_list_loop (qp : mlx5_qp) (l : list ibv_data_buf) (offset wqe total : Z) (m : mem)
  : option Z * mem :=
  match l with
  | [] => (Some total, m)
  | buf :: l' =>
    let len := u64 (dbuf_length buf - offset) in
    let total := u64 (total + len) in
    if u64 (max_inline_data qp) <? total then (None, m)
    else let '(wqe, m) := memcpy_to_wqe_and_update qp wqe (dbuf_addr buf + offset) len m in
         inline_list_loop qp l' 0 wqe total m
  end.

(** The inline header once the data is in *)
Definition inline_header (dseg total : Z) (b : bst) : bst :=
  if total =? 0 then b
  else b_set (add_cur_size (inline_units total))
         (b_put (store_be 4 dseg (Z.lor total MLX5_INLINE_SEG)) b).

Definition _mlx5_send_wr_set_inline_data_list (l : list ibv_data_buf) (b : bst) : bst :=
  let qp := b_qp b in
  let dseg := cur_data qp in
  match inline_list_loop qp l 0 (dseg + sizeof_inline_seg) 0 (b_mem b) with
  | (None, m) => b_fail ENOMEM (b_put (fun _ => m) b)
  | (Some total, m) => inline_header dseg total (b_set (set_inl_wqe true) (b_put (fun _ => m) b))
  end.

Definition mlx5_send_wr_set_inline_data_list_rc_uc (l : list ibv_data_buf) (b : bst) : bst :=
  _common_wqe_finalize (_mlx5_send_wr_set_inline_data_list l b).

Definition mlx5_send_wr_set_inline_data_list_ud_xrc_dc (l : list ibv_data_buf) (b : bst) : bst :=
  second_setter (_mlx5_send_wr_set_inline_data_list l b).

Definition buf_pair (buf : ibv_data_buf) : Z * Z := (dbuf_addr buf, dbuf_length buf).

Definition mlx5_send_wr_set_inline_data_list_eth (ctx : mlx5_context) (l : list ibv_data_buf)
    (b : bst) : bst :=
  match eth_headers ctx (buf_pair <$> l) b with
  | (None, b) => b
  | (Some scp, b) =>
    let qp := b_qp b in
    let dseg := cur_data qp in
    match inline_list_loop qp (drop (Z.to_nat (scp_index scp)) l) (scp_offset scp)
            (dseg + sizeof_inline_seg) 0 (b_mem b) with
    | (None, m) => b_fail EINVAL (b_put (fun _ => m) b)
    | (Some total, m) =>
      _common_wqe_finalize (b_set (set_inl_wqe true) (inline_header dseg total (b_put (fun _ => m) b)))
    end
  end.

(** ** Addresses *)

Definition mlx5_send_wr_set_ud_addr (av remote_qpn remote_qkey : Z) (b : bst) : bst :=
  second_setter
    (b_put (_set_datagram_seg (cur_ctrl (b_qp b) + sizeof_ctrl_seg) av remote_qpn remote_qkey) b).

Definition mlx5_send_wr_set_xrc_srqn (remote_srqn : Z) (b : bst) : bst :=
  second_setter (b_put (store_be 4 (cur_ctrl (b_qp b) + sizeof_ctrl_seg) remote_srqn) b).

Definition mlx5_send_wr_set_dc_addr (av remote_dctn remote_dc_key : Z) (b : bst) : bst :=
  let dseg := cur_ctrl (b_qp b) + sizeof_ctrl_seg in
  second_setter
    (b_put (fun m =>
       let m := memcpy dseg av sizeof_datagram_seg m in
       let m := store_be 4 (dseg + 8)
         (Z.lor (load_be 4 (dseg + 8) m) (Z.lor remote_dctn MLX5_EXTENDED_UD_AV)) m in
       store_be 8 dseg remote_dc_key m) b).

Definition mlx5_send_wr_set_dc_addr_stream (av remote_dctn remote_dc_key stream_id : Z) (b : bst) : bst :=
  mlx5_send_wr_set_dc_addr av remote_dctn remote_dc_key
    (b_put (store_be 2 (cur_ctrl (b_qp b) + 9) stream_id) b).

(** * Raw elements and memory copies *)

Definition raw_wqe_init (tails : Z * Z) (b : bst) : bst :=
  let qp := b_qp b in
  if mlx5_wq_overflow (sq qp) (nreq qp) tails.1 tails.2 then b_fail ENOMEM b
  else
    let idx := sq_idx qp in
    b_set (fun _ => set_cur_ctrl (mlx5_get_send_wqe qp idx)
                      (set_fm_cache 0 (claim_slot idx IBV_WC_DRIVER2 qp))) b.

(** [mlx5_wr_raw_wqe(qp, wqe)]: the caller's element at [wqe], with the producer
    index put in *)
Definition mlx5_wr_raw_wqe (tails : Z * Z) (wqe : Z) (b : bst) : bst :=
  let ds := Z.land (load_be 4 (wqe + 4) (b_mem b)) 0x3f in
  let opmod := load_be 4 wqe (b_mem b) in
  let b := raw_wqe_init tails b in
  let qp := b_qp b in
  let ctrl := cur_ctrl qp in
  let wq_left := s32 (qend (sq qp) - ctrl) in
  let n := Z.shiftl ds 4 in
  let b :=
    if n <=? wq_left then b_put (memcpy ctrl wqe n) b
    else b_put (fun m => memcpy (mlx5_get_send_wqe qp 0) (wqe + wq_left) (u64 (n - wq_left))
                           (memcpy ctrl wqe (u64 wq_left) m)) b in
  let b := b_put (store_be 4 ctrl (Z.lor (Z.land opmod 0xff0000ff)
                    (Z.shiftl (Z.land (cur_post (sq qp)) 0xffff) 8))) b in
  __wqe_finalize (b_set (fun qp => set_nreq (nreq qp + 1) (set_cur_size ds qp)) b).

Definition MLX5_OPC_MOD_MMO_DMA : Z := 1.
Definition MLX5_DMA_MMO_MAX_SIZE : Z := 2 ^ 31.

(** [mlx5_wr_memcpy]; [opaque_lkey] and [opaque_buf] are those of the protection
    domain *)
Definition mlx5_wr_memcpy (ctx : mlx5_context) (opaque_lkey opaque_buf : Z) (tails : Z * Z)
    (dest_lkey dest_addr src_lkey src_addr length : Z) (b : bst) : bst :=
  if (length =? 0) || (dma_max_size ctx <? length) then b_fail EINVAL b
  else
    let length := if length =? MLX5_DMA_MMO_MAX_SIZE then 0 else length in
    let b := _common_wqe_init_op tails (-1) MLX5_OPCODE_MMO b in
    let w := cur_ctrl (b_qp b) in
    let b := b_put (fun m =>
      let m := store_be 4 w (Z.lor (Z.land (load_be 4 w m) 0xffffff) (Z.shiftl MLX5_OPC_MOD_MMO_DMA 24)) m in
      let m := store_be 8 (w + 24) opaque_buf (store_be 4 (w + 20) opaque_lkey (store_be 4 (w + 16) 0 m)) in
      write_data_seg (w + 48) length dest_lkey dest_addr
        (write_data_seg (w + 32) length src_lkey src_addr m)) b in
    _common_wqe_finalize (b_set (fun qp => set_nreq (nreq qp + 1) (set_cur_size 4 qp)) b).
