(* ===== verification/BuilderProps.v ===== *)
(** Correctness of the builder API: rollback of a session, sticky errors,
    equivalence with [mlx5_post_send], and what an overflow does to the element
    built before. *)

From stdpp Require Import base numbers list.
From S2P Require Import Prelude Mem Types Wqe Forecast PostSend SendSafe SendQueue SendDecode Builder.

(** * Sessions *)

(** The calls between [wr_start] and [wr_complete] or [wr_abort] *)
Inductive bop : Type :=
| BSend (t : Z * Z)
| BSendImm (t : Z * Z) (imm : Z)
| BSendInv (t : Z * Z) (rkey : Z)
| BSendEth (ctx : mlx5_context) (t : Z * Z)
| BSendTso (t : Z * Z) (hdr hdr_sz mss : Z)
| BRdmaWrite (t : Z * Z) (rkey raddr : Z)
| BRdmaWriteImm (t : Z * Z) (rkey raddr imm : Z)
| BRdmaRead (t : Z * Z) (rkey raddr : Z)
| BCmpSwp (t : Z * Z) (rkey raddr compare swap : Z)
| BFetchAdd (t : Z * Z) (rkey raddr add : Z)
| BBindMw (t : Z * Z) (mw : ibv_mw) (rkey : Z) (bi : ibv_mw_bind_info)
| BLocalInv (t : Z * Z) (rkey : Z)
| BRawWqe (t : Z * Z) (wqe : Z)
| BMemcpy (ctx : mlx5_context) (lk buf : Z) (t : Z * Z) (dl da sl sa len : Z)
| BSge (lkey addr len : Z) | BSge2 (lkey addr len : Z) | BSgeEth (ctx : mlx5_context) (lkey addr len : Z)
| BSges (l : list ibv_sge) | BSges2 (l : list ibv_sge) | BSgesEth (ctx : mlx5_context) (l : list ibv_sge)
| BInl (addr len : Z) | BInl2 (addr len : Z) | BInlEth (ctx : mlx5_context) (addr len : Z)
| BInls (l : list ibv_data_buf) | BInls2 (l : list ibv_data_buf)
| BInlsEth (ctx : mlx5_context) (l : list ibv_data_buf)
| BUdAddr (av qpn qkey : Z) | BXrcSrqn (srqn : Z) | BDcAddr (av dctn key : Z)
| BDcAddrStream (av dctn key stream : Z)
| BWrId (id : Z) | BWrFlags (flags : Z).

Definition b_step (o : bop) : bst -> bst :=
  match o with
  | BSend t => mlx5_send_wr_send_other t
  | BSendImm t imm => mlx5_send_wr_send_imm t imm
  | BSendInv t k => mlx5_send_wr_send_inv t k
  | BSendEth ctx t => mlx5_send_wr_send_eth ctx t
  | BSendTso t h n mss => mlx5_send_wr_send_tso t h n mss
  | BRdmaWrite t k a => mlx5_send_wr_rdma_write t k a
  | BRdmaWriteImm t k a i => mlx5_send_wr_rdma_write_imm t k a i
  | BRdmaRead t k a => mlx5_send_wr_rdma_read t k a
  | BCmpSwp t k a c s => mlx5_send_wr_atomic_cmp_swp t k a c s
  | BFetchAdd t k a c => mlx5_send_wr_atomic_fetch_add t k a c
  | BBindMw t mw k bi => fun b => (mlx5_send_wr_bind_mw t mw k bi b).2
  | BLocalInv t k => fun b => (mlx5_send_wr_local_inv t k b).2
  | BRawWqe t w => mlx5_wr_raw_wqe t w
  | BMemcpy ctx lk buf t dl da sl sa n => mlx5_wr_memcpy ctx lk buf t dl da sl sa n
  | BSge k a n => mlx5_send_wr_set_sge_rc_uc k a n
  | BSge2 k a n => mlx5_send_wr_set_sge_ud_xrc_dc k a n
  | BSgeEth ctx k a n => mlx5_send_wr_set_sge_eth ctx k a n
  | BSges l => mlx5_send_wr_set_sge_list_rc_uc l
  | BSges2 l => mlx5_send_wr_set_sge_list_ud_xrc_dc l
  | BSgesEth ctx l => mlx5_send_wr_set_sge_list_eth ctx l
  | BInl a n => mlx5_send_wr_set_inline_data_rc_uc a n
  | BInl2 a n => mlx5_send_wr_set_inline_data_ud_xrc_dc a n
  | BInlEth ctx a n => mlx5_send_wr_set_inline_data_eth ctx a n
  | BInls l => mlx5_send_wr_set_inline_data_list_rc_uc l
  | BInls2 l => mlx5_send_wr_set_inline_data_list_ud_xrc_dc l
  | BInlsEth ctx l => mlx5_send_wr_set_inline_data_list_eth ctx l
  | BUdAddr av q k => mlx5_send_wr_set_ud_addr av q k
  | BXrcSrqn n => mlx5_send_wr_set_xrc_srqn n
  | BDcAddr av d k => mlx5_send_wr_set_dc_addr av d k
  | BDcAddrStream av d k s => mlx5_send_wr_set_dc_addr_stream av d k s
  | BWrId id => b_set (set_ex_wr_id id)
  | BWrFlags f => b_set (set_ex_wr_flags f)
  end.

Definition b_run (ops : list bop) (b : bst) : bst := fold_left (fun b o => b_step o b) ops b.

(** What no call of a session changes, and the first error that stays *)
Record keeps (q q' : mlx5_qp) : Prop := {
  kp_post_rb : cur_post_rb q' = cur_post_rb q;
  kp_fm_rb : fm_cache_rb q' = fm_cache_rb q;
  kp_head : wq_head (sq q') = wq_head (sq q);
  kp_tail : wq_tail (sq q') = wq_tail (sq q);
  kp_cnt : wqe_cnt (sq q') = wqe_cnt (sq q);
  kp_qend : qend (sq q') = qend (sq q);
  kp_start : sq_start q' = sq_start q;
  kp_db : qp_db q' = qp_db q;
  kp_err : err q <> 0 -> err q' = err q
}.

#[global] Instance keeps_refl : Reflexive keeps.
Proof. by intros q. Qed.
#[global] Instance keeps_trans : Transitive keeps.
Proof.
  intros q1 q2 q3 [] []. split; try congruence.
  intros He. specialize (kp_err0 He). rewrite <- kp_err0. apply kp_err1. congruence.
Qed.

Definition Keeps (f : bst -> bst) : Prop := forall b, keeps (b_qp b) (b_qp (f b)).

Lemma Keeps_compose f g : Keeps f -> Keeps g -> Keeps (fun b => g (f b)).
Proof. intros Hf Hg b. etrans; [apply Hf|apply Hg]. Qed.

Lemma Keeps_b_set f : (forall q, keeps q (f q)) -> Keeps (b_set f).
Proof. intros H b. apply H. Qed.

Lemma keeps_b_put f b : keeps (b_qp b) (b_qp (b_put f b)).
Proof. reflexivity. Qed.

Lemma keeps_b_fail e b : keeps (b_qp b) (b_qp (b_fail e b)).
Proof. unfold b_fail. destruct (Z.eqb_spec (err (b_qp b)) 0); [|done]. by split. Qed.

Lemma keeps_finalize b : keeps (b_qp b) (b_qp (_common_wqe_finalize b)).
Proof. by split. Qed.

Lemma keeps_init_op t i o b : keeps (b_qp b) (b_qp (_common_wqe_init_op t i o b)).
Proof.
  unfold _common_wqe_init_op. cbv zeta.
  destruct (mlx5_wq_overflow _ _ _ _); [apply keeps_b_fail|by split].
Qed.

Lemma keeps_second b : keeps (b_qp b) (b_qp (second_setter b)).
Proof. unfold second_setter. destruct (_ =? _); [apply keeps_finalize|by split]. Qed.

Lemma keeps_opened d s b : keeps (b_qp b) (b_qp (b_opened d s b)).
Proof. by split. Qed.

Lemma keeps_eth_headers ctx l b : keeps (b_qp b) (b_qp (eth_headers ctx l b).2).
Proof.
  unfold eth_headers. cbv zeta. destruct (_ =? 0); [done|].
  destruct (copy_eth_inline_headers _ _ _ _ _) as [[[] m] scp]; try done. apply (keeps_b_fail _ (b_put _ b)).
Qed.

Lemma keeps_sge k a n b : keeps (b_qp b) (b_qp (_mlx5_send_wr_set_sge k a n b)).
Proof. unfold _mlx5_send_wr_set_sge. destruct (_ =? 0); [done|by split]. Qed.

Lemma keeps_sges l b : keeps (b_qp b) (b_qp (_mlx5_send_wr_set_sge_list l b)).
Proof.
  unfold _mlx5_send_wr_set_sge_list. cbv zeta. destruct (_ <? _); [apply keeps_b_fail|].
  destruct (sge_list_loop _ _ _ _ _). by split.
Qed.

Lemma keeps_inl a n b : keeps (b_qp b) (b_qp (_mlx5_send_wr_set_inline_data a n b)).
Proof.
  unfold _mlx5_send_wr_set_inline_data. cbv zeta. destruct (_ <? _); [apply keeps_b_fail|].
  destruct (_ =? 0); by split.
Qed.

Lemma keeps_inline_header d t b : keeps (b_qp b) (b_qp (inline_header d t b)).
Proof. unfold inline_header. destruct (_ =? 0); [done|by split]. Qed.

Lemma keeps_inls l b : keeps (b_qp b) (b_qp (_mlx5_send_wr_set_inline_data_list l b)).
Proof.
  unfold _mlx5_send_wr_set_inline_data_list. cbv zeta.
  destruct (inline_list_loop _ _ _ _ _ _) as [[t|] m]; [|apply (keeps_b_fail _ (b_put _ b))].
  etrans; [|apply keeps_inline_header]. by split.
Qed.

Lemma keeps_umr t o n bi op b : keeps (b_qp b) (b_qp (_build_umr_wqe t o n bi op b).2).
Proof.
  unfold _build_umr_wqe. cbv zeta. etrans; [apply (keeps_init_op t op (aget mlx5_ib_opcode op))|].
  fold (_common_wqe_init t op b). set (b1 := _common_wqe_init t op b).
  destruct (set_bind_wr _ _ _ _ _ _) as [[] ws]; simpl; [by split|apply (keeps_b_fail _ (b_put _ (b_imm o b1)))|done].
Qed.

Lemma keeps_raw_init t b : keeps (b_qp b) (b_qp (raw_wqe_init t b)).
Proof.
  unfold raw_wqe_init. cbv zeta. destruct (mlx5_wq_overflow _ _ _ _); [apply keeps_b_fail|by split].
Qed.

Create HintDb keeps.
#[export] Hint Resolve keeps_b_put keeps_b_fail keeps_finalize keeps_init_op keeps_second keeps_opened
  keeps_eth_headers keeps_sge keeps_sges keeps_inl keeps_inls keeps_inline_header keeps_umr
  keeps_raw_init : keeps.

Lemma keeps_send_eth ctx t b : keeps (b_qp b) (b_qp (mlx5_send_wr_send_eth ctx t b)).
Proof.
  unfold mlx5_send_wr_send_eth. cbv zeta. etrans; [apply (keeps_init_op t IBV_WR_SEND (aget mlx5_ib_opcode IBV_WR_SEND))|].
  fold (_common_wqe_init t IBV_WR_SEND b). set (b1 := _common_wqe_init _ _ _).
  destruct (eth_begin _ _ _) as [[m|] m']; [|etrans; [|apply keeps_b_fail]];
    by destruct (eth_min_inline_size ctx =? 0); split.
Qed.

Lemma keeps_send_tso t h n mss b : keeps (b_qp b) (b_qp (mlx5_send_wr_send_tso t h n mss b)).
Proof.
  unfold mlx5_send_wr_send_tso. cbv zeta. etrans; [apply (keeps_init_op t IBV_WR_TSO (aget mlx5_ib_opcode IBV_WR_TSO))|].
  fold (_common_wqe_init t IBV_WR_TSO b). set (b1 := _common_wqe_init _ _ _).
  destruct (eth_begin _ _ _) as [[m|] m']; [|apply (keeps_b_fail _ (b_put _ b1))].
  destruct (set_tso_eth_seg _ _ _ _ _) as [[] ws]; [by split|apply (keeps_b_fail _ (b_put _ b1))|done].
Qed.

Lemma keeps_memcpy ctx lk buf t dl da sl sa n b :
  keeps (b_qp b) (b_qp (mlx5_wr_memcpy ctx lk buf t dl da sl sa n b)).
Proof.
  unfold mlx5_wr_memcpy. destruct (_ || _); [apply keeps_b_fail|]. cbv zeta.
  etrans; [apply (keeps_init_op t (-1) MLX5_OPCODE_MMO)|]. by split.
Qed.

Lemma keeps_raw t w b : keeps (b_qp b) (b_qp (mlx5_wr_raw_wqe t w b)).
Proof.
  unfold mlx5_wr_raw_wqe. cbv zeta. etrans; [apply (keeps_raw_init t)|].
  destruct (_ <=? _); by split.
Qed.

(** After the inline headers, a setter that finalizes *)
Lemma keeps_after_headers ctx l b (k : mlx5_sg_copy_ptr -> bst -> bst) :
  (forall scp b, keeps (b_qp b) (b_qp (k scp b))) ->
  keeps (b_qp b) (b_qp (match eth_headers ctx l b with (None, b) => b | (Some scp, b) => k scp b end)).
Proof.
  intros Hk. pose proof (keeps_eth_headers ctx l b) as H.
  destruct (eth_headers ctx l b) as [[scp|] b1]; [by etrans; [|apply Hk]|done].
Qed.

Lemma b_step_keeps o : Keeps (b_step o).
Proof.
  intros b. destruct o; cbn [b_step];
    try (apply keeps_umr || apply keeps_raw || apply keeps_memcpy
         || apply keeps_send_eth || apply keeps_send_tso); try (by split).
  all: try (etrans; [|apply keeps_second]; eauto with keeps; fail).
  all: try (etrans; [|apply keeps_finalize]; eauto with keeps; fail).
  all: try (apply (keeps_init_op _ _ _ b) || (etrans; [apply (keeps_init_op t)|by split]); fail).
  - apply keeps_after_headers. intros scp b'. etrans; [apply keeps_sge|apply keeps_finalize].
  - unfold mlx5_send_wr_set_sge_list_eth. cbv zeta. destruct (_ <? _); [apply keeps_b_fail|].
    apply keeps_after_headers. intros scp b'. destruct (sge_list_eth_loop _ _ _ _ _ _). by split.
  - apply keeps_after_headers. intros scp b'. etrans; [apply keeps_inl|apply keeps_finalize].
  - apply keeps_after_headers. intros scp b'. cbv zeta.
    destruct (inline_list_loop _ _ _ _ _ _) as [[tot|] m]; [|apply (keeps_b_fail _ (b_put _ _))].
    etrans; [apply (keeps_inline_header (cur_data (b_qp b')) tot (b_put (fun _ => m) b'))|by split].
  - etrans; [|apply keeps_second]. by split.
Qed.

Lemma b_run_keeps ops b : keeps (b_qp b) (b_qp (b_run ops b)).
Proof.
  revert b. induction ops as [|o ops IH]; intros b; [done|].
  etrans; [apply b_step_keeps|apply IH].
Qed.

(** C39.  A session that is aborted, or completed after an error, leaves no
    trace in the queue: whatever calls it made, [cur_post], the owed fence, [head]
    and [tail] are those of before [wr_start], the doorbell is not rung, and the
    value [wr_complete] returns is the first error recorded. *)
Theorem session_rollback ctx ops qp m bf tr :
  let b := b_run ops (mk_b (mlx5_send_wr_start qp) m) in
  let same q := cur_post (sq q) = cur_post (sq qp) /\ fm_cache q = fm_cache qp /\
                wq_head (sq q) = wq_head (sq qp) /\ wq_tail (sq q) = wq_tail (sq qp) in
  same (mlx5_send_wr_abort (b_qp b)) /\
  (err (b_qp b) <> 0 ->
   let r := mlx5_send_wr_complete ctx (mk_ss (b_qp b) bf (b_mem b) tr) in
   r.1 = err (b_qp b) /\ same (ss_qp r.2) /\ ss_trace r.2 = tr /\
   forall ops', err (b_qp (b_run ops' b)) = r.1).
Proof.
  intros b same. destruct (b_run_keeps ops (mk_b (mlx5_send_wr_start qp) m)) as [H1 H2 H3 H4 _ _ _ _ _].
  fold b in H1, H2, H3, H4. simpl in H1, H2, H3, H4. subst same. cbv beta.
  split; [simpl; auto|]. intros He r.
  subst r. unfold mlx5_send_wr_complete. simpl. rewrite (proj2 (Z.eqb_neq _ _) He). simpl.
  split_and!; auto. intros ops'. by apply (b_run_keeps ops' b).
Qed.

Lemma session_rollback_witness :
  let ops := [BSend (0, 0); BSges (replicate 5 (mk_sge 1 2 3))] in
  let b := b_run ops (mk_b (mlx5_send_wr_start (demo_qp IBV_QPT_RC 3)) (fun _ => 0)) in
  err (b_qp b) = ENOMEM /\
  (mlx5_send_wr_complete demo_ctx (mk_ss (b_qp b) demo_bf (b_mem b) [])).1 = ENOMEM.
Proof.
  intros ops b. assert (err (b_qp b) = ENOMEM) as E by reflexivity. split; [exact E|].
  destruct (session_rollback demo_ctx ops (demo_qp IBV_QPT_RC 3) (fun _ => 0) demo_bf []) as [_ H].
  destruct H as [H _]; [fold b; rewrite E; discriminate|]. rewrite <- E. exact H.
Defined.

(** * Equivalence with [mlx5_post_send] *)

(** The builder call and the setter that correspond to a work request on an RC or
    UC queue *)
Definition build_op (t : Z * Z) (wr : ibv_send_wr) : bst -> bst :=
  let op := opcode wr in
  if op =? IBV_WR_SEND then mlx5_send_wr_send_other t
  else if op =? IBV_WR_SEND_WITH_IMM then mlx5_send_wr_send_imm t (imm_data wr)
  else if op =? IBV_WR_SEND_WITH_INV then mlx5_send_wr_send_inv t (invalidate_rkey wr)
  else if op =? IBV_WR_RDMA_WRITE then mlx5_send_wr_rdma_write t (rdma_rkey wr) (rdma_remote_addr wr)
  else if op =? IBV_WR_RDMA_WRITE_WITH_IMM then
    mlx5_send_wr_rdma_write_imm t (rdma_rkey wr) (rdma_remote_addr wr) (imm_data wr)
  else if op =? IBV_WR_RDMA_READ then mlx5_send_wr_rdma_read t (rdma_rkey wr) (rdma_remote_addr wr)
  else if op =? IBV_WR_ATOMIC_CMP_AND_SWP then
    mlx5_send_wr_atomic_cmp_swp t (atomic_rkey wr) (atomic_remote_addr wr) (atomic_compare_add wr)
      (atomic_swap wr)
  else mlx5_send_wr_atomic_fetch_add t (atomic_rkey wr) (atomic_remote_addr wr) (atomic_compare_add wr).

Definition build_wr (t : Z * Z) (wr : ibv_send_wr) (b : bst) : bst :=
  mlx5_send_wr_set_sge_list_rc_uc (sg_list wr)
    (build_op t wr (b_set (fun q => set_ex_wr_flags (send_flags wr) (set_ex_wr_id (wr_id wr) q)) b)).

(** Opcodes that carry an immediate or a key *)
Definition has_imm (op : Z) : bool :=
  (op =? IBV_WR_SEND_WITH_IMM) || (op =? IBV_WR_RDMA_WRITE_WITH_IMM) || (op =? IBV_WR_SEND_WITH_INV).

(** Writers whose value at an address depends on that address only *)
Definition Local (f : mem -> mem) : Prop := forall m1 m2 a, m1 a = m2 a -> f m1 a = f m2 a.

Lemma Local_store n p v : Local (store_be n p v).
Proof. intros m1 m2 a E. unfold store_be. by destruct_ifs. Qed.
Lemma Local_compose f g : Local f -> Local g -> Local (fun m => g (f m)).
Proof. intros Hf Hg m1 m2 a E. by apply Hg, Hf. Qed.

Create HintDb local.
#[export] Hint Resolve Local_store : local.

Lemma Local_write_data p n k a : Local (write_data_seg p n k a).
Proof. intros m1 m2 x E. by apply Local_store, Local_store, Local_store. Qed.

Lemma Local_raddr p a k : Local (set_raddr_seg p a k).
Proof. intros m1 m2 x E. by apply Local_store, Local_store, Local_store. Qed.

Lemma Local_atomic p op s c : Local (set_atomic_seg p op s c).
Proof.
  intros m1 m2 x E. unfold set_atomic_seg. destruct (_ =? _); [apply Local_store|]; by apply Local_store.
Qed.

Lemma Local_hdr qp ctrl wr : Local (hdr_mem qp ctrl wr).
Proof.
  intros m1 m2 x E. unfold hdr_mem. cbv zeta.
  destruct_ifs;
    repeat (apply Local_atomic || apply Local_raddr || apply Local_store); done.
Qed.

Lemma Local_sge_loop qp l d z : Local (fun m => (sge_list_loop qp l d z m).2).
Proof.
  revert d z. induction l as [|sg l IH]; intros d z m1 m2 x E; simpl; [done|].
  destruct (_ =? 0); apply IH; [done|]. by apply Local_write_data.
Qed.

Lemma sge_loop_size qp l d z m1 m2 : (sge_list_loop qp l d z m1).1 = (sge_list_loop qp l d z m2).1.
Proof.
  revert d z m1 m2. induction l as [|sg l IH]; intros d z m1 m2; simpl; [done|]. destruct (_ =? 0); apply IH.
Qed.

(** The two scatter-list loops write the same bytes. *)
Lemma sge_loop_data_loop qp op l s :
  op <> IBV_WR_TSO -> scp_offset (ws_scp s) = 0 ->
  (is_atomic_op op = true -> Forall (fun sg => sge_length sg = 0 \/ sge_length sg = 8) l) ->
  0 <= ws_size s -> ws_size s + Z.of_nat (length (nonempty l)) < 2 ^ 32 ->
  exists s', data_loop qp op l s = (Ok, s') /\
    sge_list_loop qp l (ws_seg s) (ws_size s) (ws_mem s) = (ws_size s', ws_mem s').
Proof.
  intros Hop. revert s. induction l as [|sg l IH]; intros s Hoff Hat Hz Hlen; [by exists s|].
  cbn [data_loop sge_list_loop]. unfold w_seq at 1, w_wrap, w_do at 1.
  fold (wrap_ptr qp (ws_seg s)).
  set (s1 := if ws_seg s =? qend (sq qp) then set_ws_seg (mlx5_get_send_wqe qp 0) s else s).
  assert (ws_seg s1 = wrap_ptr qp (ws_seg s) /\ ws_mem s1 = ws_mem s /\ ws_size s1 = ws_size s /\
          ws_scp s1 = ws_scp s) as (E1 & E2 & E3 & E4).
  { unfold s1, wrap_ptr. by destruct (ws_seg s =? qend (sq qp)). }
  rewrite <- E1, <- E2, <- E3. rewrite <- E4 in Hoff. rewrite <- E3 in Hz, Hlen. clearbody s1. clear E1 E2 E3 E4.
  assert (Hat' : is_atomic_op op = true -> Forall (fun sg => sge_length sg = 0 \/ sge_length sg = 8) l).
  { intros E. by apply Hat, Forall_cons in E as [_ ?]. }
  unfold w_seq. unfold nonempty in Hlen. rewrite filter_cons in Hlen.
  destruct (Z.eqb_spec (sge_length sg) 0) as [E0|E0]; simpl negb; cbv iota; unfold w_when.
  { rewrite decide_False in Hlen by lia. by apply IH. }
  rewrite decide_True in Hlen by done. simpl in Hlen.
  set (s2 := set_ws_seg (ws_seg s1 + 16) (set_ws_size (ws_size s1 + 1)
    (set_ws_mem (write_data_seg (ws_seg s1) (sge_length sg) (sge_lkey sg) (sge_addr sg) (ws_mem s1)) s1))).
  assert (data_seg op sg s1 = (Ok, s2)) as ->.
  { unfold data_seg. rewrite (proj2 (Z.eqb_neq _ _) Hop).
    assert (mk_scp (scp_index (ws_scp s1)) 0 = ws_scp s1) as Es by (rewrite <- Hoff; by destruct (ws_scp s1)).
    destruct (is_atomic_op op) eqn:Ea; unfold w_seq, w_put, w_do, w_advance, w_when, s2; simpl; rewrite Es.
    - specialize (Hat eq_refl). apply Forall_cons in Hat as [[?|E8] _]; [done|].
      unfold write_data_seg, set_data_ptr_seg_atomic. rewrite E8. by destruct s1.
    - rewrite Hoff. unfold write_data_seg, set_data_ptr_seg. rewrite Z.sub_0_r, Z.add_0_r. by destruct s1. }
  destruct (IH s2) as (s' & E & E'); [done|done|simpl; lia|unfold nonempty; simpl; lia|].
  exists s'. split; [done|]. rewrite <- E'. unfold s2, sizeof_data_seg. simpl. by rewrite u32_small by lia.
Qed.

(** The builder call writes the headers of the request. *)
Lemma build_op_spec qp t wr m :
  transport_wr qp wr = true -> is_xrc qp = false -> sq_wf qp ->
  mlx5_wq_overflow (sq qp) (nreq qp) t.1 t.2 = false ->
  let ctrl := mlx5_get_send_wqe qp (sq_idx qp) in
  let b1 := _common_wqe_init t (opcode wr) (mk_b qp m) in
  let b := build_op t wr (mk_b qp m) in
  b_qp b = set_cur_setters_cnt 0 (set_nreq (nreq qp + 1)
    (set_cur_size (data_unit qp (wr_opc wr)) (set_cur_data (ctrl + 16 * data_unit qp (wr_opc wr)) (b_qp b1)))) /\
  b_mem b = (if has_imm (opcode wr) then store_be 4 (ctrl + 12) (send_ieth wr) else id)
              (hdr_mem qp ctrl wr (b_mem b1)).
Proof.
  intros (Hty & Hop & Hat)%transport_wr_cases Hx Hw Hov.
  pose proof (sq_idx_range _ Hw) as Hidx. pose proof (wf_qend _ Hw) as Eq.
  assert (Hwp : forall k, 0 <= k < 64 ->
    wrap_ptr qp (mlx5_get_send_wqe qp (sq_idx qp) + k) = mlx5_get_send_wqe qp (sq_idx qp) + k).
  { intros k ?. unfold wrap_ptr. rewrite get_send_wqe_eq. unfold ring_len in Eq.
    rewrite (proj2 (Z.eqb_neq _ _)); [done|lia]. }
  cbv zeta.
  unfold is_xrc in Hx. unfold transport_ops in Hop.
  assert (Hq : forall op mop, let q1 := b_qp (_common_wqe_init_op t op mop (mk_b qp m)) in
    cur_ctrl q1 = mlx5_get_send_wqe qp (sq_idx qp) /\ qend (sq q1) = qend (sq qp) /\
    sq_start q1 = sq_start qp /\ qp_type q1 = qp_type qp /\ nreq q1 = nreq qp).
  { intros op mop. unfold _common_wqe_init_op. simpl. by rewrite Hov. }
  unfold build_op, hdr_mem, data_unit, raddr_unit, wr_opc, is_xrc. cbv zeta.
  destruct Hty as [E|[E|E]]; rewrite E in *; [| |done]; simpl in Hop;
    rewrite !orb_true_iff, !Z.eqb_eq in Hop; destruct_or?; try done;
    match goal with H : opcode wr = _ |- _ => rename H into Ho end;
    unfold mlx5_send_wr_send_other, mlx5_send_wr_send_imm, mlx5_send_wr_send_inv,
      mlx5_send_wr_rdma_write, mlx5_send_wr_rdma_write_imm, mlx5_send_wr_rdma_read,
      mlx5_send_wr_atomic_cmp_swp, mlx5_send_wr_atomic_fetch_add, _mlx5_send_wr_send,
      _mlx5_send_wr_rdma, _mlx5_send_wr_atomic, _common_wqe_init, send_ieth, rdma_transport_sz;
    rewrite Ho in *; simpl;
    match goal with |- context [_common_wqe_init_op t ?o ?mo (mk_b qp m)] =>
      specialize (Hq o mo); set (b1 := _common_wqe_init_op t o mo (mk_b qp m)) in * end;
    cbv zeta in Hq; destruct Hq as (Q1 & Q2 & Q3 & Q4 & Q5);
    assert (Hwp1 : forall p, wrap_ptr (b_qp b1) p = wrap_ptr qp p)
      by (intros p; unfold wrap_ptr, mlx5_get_send_wqe; by rewrite Q2, Q3);
    rewrite ?Q4, ?E; simpl; rewrite ?Hwp1, ?Q1, ?Q5; unfold_consts;
    rewrite <- ?(Z.add_assoc (mlx5_get_send_wqe qp (sq_idx qp)));
    rewrite ?Hwp by lia; rewrite <- ?(Z.add_assoc (mlx5_get_send_wqe qp (sq_idx qp)));
    rewrite ?Hwp by lia; split; try done.
Qed.

Lemma units_blocks n : 0 <= n <= 63 -> u32 (n + 3) / 4 = DIV_ROUND_UP (n * 16) MLX5_SEND_WQE_BB.
Proof.
  intros ?. unfold MLX5_SEND_WQE_BB. rewrite DIV_ROUND_UP_64, u32_small by lia. div_lia.
Qed.

(** The control segment written at the start by the builder and at the end by
    [mlx5_post_send] holds the same bytes, the immediate apart. *)
Lemma ctrl_bytes_equal qp ctrl fence wr opc size m a :
  ctrl <= a < ctrl + 16 -> has_imm (opcode wr) = true \/ a < ctrl + 12 -> wq_sig qp = false ->
  0 <= opc < 2 ^ 8 ->
  ctrl_end qp ctrl opc size (ctrl_begin qp ctrl fence wr m) a =
  store_be 4 (ctrl + 4) (Z.lor size (u32 (Z.shiftl (qp_num qp) 8)))
    ((if has_imm (opcode wr) then store_be 4 (ctrl + 12) (send_ieth wr) else id)
       (store_be 4 ctrl (Z.lor (Z.shiftl (Z.land (cur_post (sq qp)) 0xffff) 8) (u8 opc))
          (store_be 1 (ctrl + 11) (fm_ce_se (sq_signal_bits qp) fence (send_flags wr))
             (store_be 4 (ctrl + 8) 0 m)))) a.
Proof.
  intros Ha Him Hsig Ho. unfold ctrl_end, ctrl_begin. rewrite Hsig.
  assert (u8 opc = opc) as -> by (by apply Z.mod_small).
  destruct (has_imm (opcode wr)).
  - unfold store_be. change (Z.of_nat 4) with 4. change (Z.of_nat 1) with 1. simpl.
    destruct_ifs; try done; lia.
  - destruct Him as [?|Him]; [done|]. unfold store_be, id.
    change (Z.of_nat 4) with 4. change (Z.of_nat 1) with 1. simpl. destruct_ifs; try done; lia.
Qed.

Lemma sge_list_loop_qp q1 q2 l d z m :
  (forall p, wrap_ptr q1 p = wrap_ptr q2 p) -> sge_list_loop q1 l d z m = sge_list_loop q2 l d z m.
Proof.
  intros Hq. revert d z m. induction l as [|sg l IH]; intros d z m; simpl; [done|].
  rewrite Hq. destruct (_ =? 0); apply IH.
Qed.

Lemma guards_ok qp n t wr :
  post_send_guards qp n t wr = Ok ->
  mlx5_wq_overflow (sq qp) n t.1 t.2 = false /\ (max_gs (sq qp) <? num_sge wr) = false.
Proof.
  unfold post_send_guards. destruct (_ || _); [done|].
  destruct (mlx5_wq_overflow _ _ _ _); [done|]. by destruct (_ <? _).
Qed.

(** The whole builder sequence, executed *)
Lemma build_wr_spec qp t wr m :
  sq_wf qp -> is_xrc qp = false -> wq_sig qp = false -> transport_wr qp wr = true ->
  post_send_guards qp (nreq qp) t wr = Ok ->
  let ctrl := mlx5_get_send_wqe qp (sq_idx qp) in
  let h := data_unit qp (wr_opc wr) in
  let b1 := _common_wqe_init t (opcode wr)
              (mk_b (set_ex_wr_flags (send_flags wr) (set_ex_wr_id (wr_id wr) qp)) m) in
  let m2 := (if has_imm (opcode wr) then store_be 4 (ctrl + 12) (send_ieth wr) else id)
              (hdr_mem qp ctrl wr (b_mem b1)) in
  let r := sge_list_loop qp (sg_list wr) (ctrl + 16 * h) h m2 in
  let b' := build_wr t wr (mk_b qp m) in
  b_mem b' = store_be 4 (ctrl + 4) (Z.lor r.1 (u32 (Z.shiftl (qp_num qp) 8))) r.2 /\
  err (b_qp b') = err qp /\ nreq (b_qp b') = nreq qp + 1 /\ fm_cache (b_qp b') = 0 /\
  cur_ctrl (b_qp b') = ctrl /\ cur_size (b_qp b') = r.1 /\
  sq (b_qp b') = set_cur_post (u32 (cur_post (sq qp) + u32 (r.1 + 3) / 4)) (sq (b_qp b1)).
Proof.
  intros Hw Hx Hsig Htr [Hov Hgs]%guards_ok. cbv zeta.
  set (q0 := set_ex_wr_flags _ _). unfold build_wr. change (b_set _ (mk_b qp m)) with (mk_b q0 m).
  assert (Hw0 : sq_wf q0) by (by destruct Hw; split).
  destruct (build_op_spec q0 t wr m Htr Hx Hw0 Hov) as [Eq Em]. cbv zeta in Eq, Em.
  destruct (build_op t wr (mk_b q0 m)) as [q2 m2]. simpl in Eq, Em. subst q2 m2.
  unfold mlx5_send_wr_set_sge_list_rc_uc, _mlx5_send_wr_set_sge_list.
  set (b1 := _common_wqe_init t (opcode wr) (mk_b q0 m)).
  assert (exists w', sq (b_qp b1) = w' /\ b_qp b1 = set_cur_ctrl (mlx5_get_send_wqe qp (sq_idx qp))
    (set_fm_cache 0 (set_sq w' q0)) /\ max_gs w' = max_gs (sq qp) /\ qend w' = qend (sq qp) /\
    cur_post w' = cur_post (sq qp)) as (w' & Ew & Eb & Eg & Ee & Ec).
  { unfold b1, _common_wqe_init, _common_wqe_init_op. cbn [b_qp].
    change (sq q0) with (sq qp). change (nreq q0) with (nreq qp). rewrite Hov.
    eexists. split_and!; reflexivity. }
  simpl. rewrite Ew, Eg. fold (num_sge wr). rewrite Hgs.
  rewrite (sge_list_loop_qp _ qp).
  2: { intros p. unfold wrap_ptr, mlx5_get_send_wqe. simpl. by rewrite Ew, Ee, Eb. }
  rewrite Eb. simpl. change (data_unit q0 (wr_opc wr)) with (data_unit qp (wr_opc wr)).
  change (mlx5_get_send_wqe q0 (sq_idx q0)) with (mlx5_get_send_wqe qp (sq_idx qp)).
  change (hdr_mem q0) with (hdr_mem qp).
  destruct (sge_list_loop _ _ _ _ _) as [z m3]. unfold _common_wqe_finalize, __wqe_finalize. simpl.
  rewrite Hsig, Ec. split_and!; done.
Qed.

(** The control segment at [ctrl] and what the requests write elsewhere *)
Lemma Local_ctrl_end qp ctrl op z : wq_sig qp = false -> Local (ctrl_end qp ctrl op z).
Proof. intros Hs m1 m2 a E. unfold ctrl_end. rewrite Hs. by apply Local_store, Local_store. Qed.

Lemma Local_imm (i : bool) p v : Local (if i then store_be 4 p v else id).
Proof. intros m1 m2 a E. destruct i; [by apply Local_store|done]. Qed.

Lemma wr_data_transport qp wr :
  transport_wr qp wr = true -> slot_wr_data (opcode wr) (aget mlx5_ib_opcode (opcode wr)) = 0.
Proof.
  intros H. destruct (transport_wr_cases _ _ H) as (Hty & Hop & _).
  unfold transport_ops in Hop. destruct Hty as [E|[E|E]]; rewrite E in Hop; simpl in Hop;
    rewrite !orb_true_iff, !Z.eqb_eq in Hop; destruct_or?; try done;
    match goal with H : opcode wr = _ |- _ => by rewrite H end.
Qed.

Lemma ctrl_outside_data qp wr a :
  sq_wf qp -> transport_wr qp wr = true -> wr_range wr -> wr_units qp wr <= 4 * wqe_cnt (sq qp) ->
  let ctrl := mlx5_get_send_wqe qp (sq_idx qp) in
  ctrl <= a < ctrl + 16 ->
  outside_units qp (sq_idx qp) (data_unit qp (wr_opc wr)) (Z.of_nat (length (nonempty (sg_list wr)))) a.
Proof.
  intros Hw Htr Hrg Hr ctrl Ha j Hj. pose proof (sq_idx_range qp Hw) as Hidx.
  pose proof (data_unit_range qp Hw _ Hidx wr Htr Hrg) as Hdu. unfold wr_units in Hr.
  destruct (unit_at_inj qp Hw (sq_idx qp) Hidx 0 (data_unit qp (wr_opc wr) + j)) as [E|E]; try lia;
    rewrite (unit_at_low qp Hw (sq_idx qp) Hidx 0) in E by lia; change (ctrl_of qp (sq_idx qp)) with ctrl in *; lia.
Qed.

Lemma opcode_byte wr : 0 <= aget mlx5_ib_opcode (opcode wr) < 2 ^ 8.
Proof.
  unfold aget. destruct (nth_in_or_default (Z.to_nat (opcode wr)) mlx5_ib_opcode 0) as [H| ->]; [|lia].
  revert H. generalize (nth (Z.to_nat (opcode wr)) mlx5_ib_opcode 0). apply List.Forall_forall.
  repeat constructor; done.
Qed.

(** The first memory of the two sequences: what each has written of the control
    segment when the data segments are filled. *)
Lemma Local_builder_mem qp ctrl wr z opc m1 m a :
  let m2 := (if has_imm (opcode wr) then store_be 4 (ctrl + 12) (send_ieth wr) else id)
              (hdr_mem qp ctrl wr m1) in
  m1 = store_be 4 ctrl (Z.lor (Z.shiftl (Z.land (cur_post (sq qp)) 0xffff) 8) (u8 opc))
         (store_be 1 (ctrl + 11) (fm_ce_se (sq_signal_bits qp) z (send_flags wr))
            (store_be 4 (ctrl + 8) 0 m)) ->
  a < ctrl \/ ctrl + 16 <= a ->
  m2 a = hdr_mem qp ctrl wr (ctrl_begin qp ctrl z wr m) a.
Proof.
  intros m2 -> Ha. unfold m2.
  transitivity (hdr_mem qp ctrl wr m a).
  - etransitivity; [apply Local_imm, Local_hdr|]. 
    + instantiate (1 := m). rewrite !store_be_outside by lia. done.
    + destruct (has_imm _); [|done]. rewrite store_be_outside by lia. done.
  - apply Local_hdr. unfold ctrl_begin. rewrite !store_be_outside by lia. done.
Qed.

(** ** One accepted request, both ways *)

#[local] Set Default Proof Using "Type*".

Section Request.
Context (tails : Z * Z) (wr : ibv_send_wr) (qp : mlx5_qp).
Context (Hw : sq_wf qp) (Hqn : 0 <= qp_num qp < 2 ^ 24) (Hx : is_xrc qp = false) (Hsig : wq_sig qp = false) (Hwr : scatter_wr qp wr).
Context (Hat : is_atomic_op (opcode wr) = true -> Forall (fun sg => sge_length sg = 0 \/ sge_length sg = 8) (sg_list wr)).
Context (Hg : post_send_guards qp (nreq qp) tails wr = Ok).

Let ctrl : Z := mlx5_get_send_wqe qp (sq_idx qp).
Let h : Z := data_unit qp (wr_opc wr).
Let fence : Z := wr_fence (fm_cache qp) wr.
Let opc : Z := aget mlx5_ib_opcode (opcode wr).
Let fill (m : mem) : Z * mem := sge_list_loop qp (sg_list wr) (ctrl + 16 * h) h m.

(** What each way has written before the data segments *)
Let posted (m : mem) : mem := hdr_mem qp ctrl wr (ctrl_begin qp ctrl fence wr m).
Let opened (m : mem) : bst :=
  _common_wqe_init tails (opcode wr) (mk_b (set_ex_wr_flags (send_flags wr) (set_ex_wr_id (wr_id wr) qp)) m).
Let built (m : mem) : mem :=
  (if has_imm (opcode wr) then store_be 4 (ctrl + 12) (send_ieth wr) else id) (hdr_mem qp ctrl wr (b_mem (opened m))).

Lemma request_not_tso : opcode wr <> IBV_WR_TSO.
Proof.
  destruct (transport_wr_cases _ _ (sw_op _ _ Hwr)) as (_ & Hop & _). intros E. rewrite E in Hop.
  unfold transport_ops in Hop. destruct_ifs_in Hop; done.
Qed.

Lemma opened_mem m : b_mem (opened m) =
  store_be 4 ctrl (Z.lor (Z.shiftl (Z.land (cur_post (sq qp)) 0xffff) 8) (u8 opc))
    (store_be 1 (ctrl + 11) (fm_ce_se (sq_signal_bits qp) fence (send_flags wr)) (store_be 4 (ctrl + 8) 0 m)).
Proof.
  unfold opened, _common_wqe_init, _common_wqe_init_op. simpl.
  change (nreq (set_ex_wr_flags _ _)) with (nreq qp). change (sq (set_ex_wr_flags _ _)) with (sq qp).
  by destruct (guards_ok _ _ _ _ Hg) as [-> _].
Qed.
(** The data segments, as [mlx5_post_send] writes them *)
Lemma fill_data s1 :
  ws_seg s1 = ctrl + 16 * h -> ws_size s1 = h -> ws_scp s1 = scp0 ->
  exists s2, data_loop qp (opcode wr) (sg_list wr) s1 = (Ok, s2) /\ fill (ws_mem s1) = (ws_size s2, ws_mem s2) /\
    ws_size s2 = wr_units qp wr /\ ws_next_fence s2 = ws_next_fence s1 /\ ws_wr_data s2 = ws_wr_data s1 /\
    forall a, ctrl <= a < ctrl + 16 -> ws_mem s2 a = ws_mem s1 a.
Proof.
  intros Hseg Hsz Hscp. pose proof Hwr as [Htr Hrg Hin Hu Hr]. pose proof (sq_idx_range qp Hw) as Hidx.
  pose proof (data_unit_range qp Hw _ Hidx wr Htr Hrg) as Hdu. pose proof request_not_tso as Hop. fold h in Hdu.
  assert (Hlen : h + Z.of_nat (length (nonempty (sg_list wr))) = wr_units qp wr) by (unfold wr_units; fold h; lia).
  destruct (sge_loop_data_loop qp (opcode wr) (sg_list wr) s1 Hop) as (s2 & E2 & Eb);
    [by rewrite Hscp|done|lia|lia|].
  destruct (data_loop_at qp Hw _ Hidx (opcode wr) (sg_list wr) h s1 Hop (rg_sges _ Hrg))
    as (s2' & E2' & Hsz2 & Hf2 & Hd2 & _ & Hfr); [by rewrite Hscp|by apply (at_unit_hdr qp Hw Hqn)|lia|lia|].
  rewrite E2 in E2'. injection E2' as <-. exists s2. unfold fill. rewrite <- Hseg, <- Hsz at 1.
  split_and!; [done|done|lia|done|done|]. intros a Ha. by apply Hfr, ctrl_outside_data.
Qed.

Lemma fill_spec m : (fill m).1 = wr_units qp wr /\ forall a, ctrl <= a < ctrl + 16 -> (fill m).2 a = m a.
Proof.
  destruct (fill_data (mk_ws m (ctrl + 16 * h) h scp0 0 0 0)) as (s2 & _ & E & Hz & _ & _ & Hfr); [done..|].
  simpl in E, Hfr. rewrite E. by split.
Qed.

Lemma post_wr_spec ctx s :
  ps_qp s = qp -> ps_scp s = scp0 -> ps_next_fence s = fm_cache qp ->
  let r := fill (posted (ps_mem s)) in
  exists s', post_send_wr ctx (nreq qp) tails wr s = (Ok, s') /\
    ps_ctrl s' = ctrl /\ ps_size s' = r.1 /\ ps_next_fence s' = 0 /\ ps_mem s' = ctrl_end qp ctrl opc r.1 r.2 /\
    ps_qp s' = slot_done (sq_idx qp) (wr_id wr) (nreq qp) r.1 (set_slot_wr_data (sq_idx qp) 0 qp).
Proof.
  intros Hq Hscp Hnf r. unfold post_send_wr. rewrite Hq, Hg. fold (wr_fence (ps_next_fence s) wr).
  rewrite Hnf, Hscp. fold fence ctrl opc. set (ws0 := mk_ws _ _ _ _ _ _ _). unfold w_seq.
  destruct (transport_hdr ctx qp ctrl wr ws0 (sw_op _ _ Hwr) eq_refl eq_refl)
    as (s1 & -> & Hseg & Hsz & Hs1 & Hf1 & Hd1 & Hm1). change (ws_scp ws0) with scp0 in Hs1.
  unfold data_segs. rewrite (sw_inline _ _ Hwr), Hs1. change (drop (Z.to_nat (scp_index scp0)) (sg_list wr)) with (sg_list wr).
  destruct (fill_data s1 Hseg Hsz Hs1) as (s2 & -> & E & _ & Hf2 & Hd2 & _).
  eexists. split; [reflexivity|]. simpl. unfold r, posted. change (ctrl_begin _ _ _ _ _) with (ws_mem ws0).
  rewrite <- Hm1, E, Hf2, Hf1, Hd2, Hd1. by split_and!.
Qed.

(** The two memories agree. *)
Lemma filled_equal m a :
  has_imm (opcode wr) = true \/ a < ctrl + 12 \/ ctrl + 16 <= a ->
  store_be 4 (ctrl + 4) (Z.lor (wr_units qp wr) (u32 (Z.shiftl (qp_num qp) 8))) (fill (built m)).2 a =
  ctrl_end qp ctrl opc (wr_units qp wr) (fill (posted m)).2 a.
Proof.
  intros Ha. pose proof Hwr as [Htr Hrg _ _ _]. pose proof (sq_idx_range qp Hw) as Hidx.
  assert (Hhdr : forall m, ctrl <= a < ctrl + 16 -> hdr_mem qp ctrl wr m a = m a).
  { intros m' Hin. apply (hdr_mem_below qp Hw _ Hidx wr Htr Hrg). change (ctrl_of qp (sq_idx qp)) with ctrl. lia. }
  destruct (decide (ctrl <= a < ctrl + 16)) as [Hin|Hout].
  - etransitivity; [apply Local_store, (proj2 (fill_spec _)), Hin|].
    etransitivity; [|symmetry; apply Local_ctrl_end; [done|]; rewrite (proj2 (fill_spec _)) by done; by apply Hhdr].
    rewrite ctrl_bytes_equal; [|done|destruct Ha as [?|[?|?]]; [by left|by right|lia]|done|apply opcode_byte].
    apply Local_store, Local_imm. rewrite <- opened_mem. by apply Hhdr.
  - rewrite store_be_outside, (ctrl_end_footprint ctrl) by lia. refine (Local_sge_loop _ _ _ _ _ _ a _).
    eapply (Local_builder_mem qp ctrl wr fence); [apply opened_mem|lia].
Qed.

Lemma opened_sq m : sq (b_qp (opened m)) =
  set_wr_data (aset (wr_data (sq qp)) (sq_idx qp) 0)
    (set_wqe_head (aset (wqe_head (sq qp)) (sq_idx qp) (u32 (wq_head (sq qp) + nreq qp)))
       (set_wrid (aset (wrid (sq qp)) (sq_idx qp) (wr_id wr)) (sq qp))).
Proof.
  unfold opened, _common_wqe_init, _common_wqe_init_op. simpl.
  change (nreq (set_ex_wr_flags _ _)) with (nreq qp). change (sq (set_ex_wr_flags _ _)) with (sq qp).
  destruct (guards_ok _ _ _ _ Hg) as [-> _]. simpl. by rewrite (wr_data_transport _ _ (sw_op _ _ Hwr)).
Qed.
End Request.

(** C8.  The two ways of posting agree.  On an RC or UC queue, a request that
    [mlx5_post_send] accepts and the corresponding builder call followed by
    [wr_set_sge_list] leave the same send queue (slots, counters, owed fence,
    control pointer and size) and the same bytes, the only exception being the
    immediate field of opcodes that carry none, which the builder leaves as it was. *)
Theorem builder_matches_post_send ctx tails wr s b :
  let qp := ps_qp s in
  sq_wf qp -> 0 <= qp_num qp < 2 ^ 24 -> is_xrc qp = false -> wq_sig qp = false -> scatter_wr qp wr ->
  (is_atomic_op (opcode wr) = true ->
   Forall (fun sg => sge_length sg = 0 \/ sge_length sg = 8) (sg_list wr)) ->
  ps_scp s = scp0 -> ps_next_fence s = fm_cache qp -> err qp = 0 ->
  b = mk_b qp (ps_mem s) ->
  post_send_guards qp (nreq qp) tails wr = Ok ->
  exists s', post_send_wr ctx (nreq qp) tails wr s = (Ok, s') /\
    let b' := build_wr tails wr b in
    err (b_qp b') = 0 /\ nreq (b_qp b') = nreq qp + 1 /\
    sq (b_qp b') = sq (ps_qp s') /\ fm_cache (b_qp b') = ps_next_fence s' /\
    cur_ctrl (b_qp b') = ps_ctrl s' /\ cur_size (b_qp b') = ps_size s' /\
    forall a, has_imm (opcode wr) = true \/ a < ps_ctrl s' + 12 \/ ps_ctrl s' + 16 <= a ->
      b_mem b' a = ps_mem s' a.
Proof.
  intros qp Hw Hqn Hx Hsig Hwr Hat Hscp Hnf Herr -> Hg.
  destruct (post_wr_spec tails wr qp Hw Hqn Hx Hsig Hwr Hat Hg ctx s eq_refl Hscp Hnf) as (s' & Es & Sc & Sz & Sf & Sm & Sq).
  exists s'. split; [exact Es|]. cbv zeta.
  destruct (build_wr_spec qp tails wr (ps_mem s) Hw Hx Hsig (sw_op _ _ Hwr) Hg) as (Bm & Be & Bn & Bf & Bc & Bz & Bs).
  pose proof (fun m => proj1 (fill_spec tails wr qp Hw Hqn Hx Hsig Hwr Hat Hg m)) as Hz. cbv beta zeta in *.
  rewrite Hz in Bm, Bz, Bs, Sz, Sm, Sq.
  rewrite Be, Bn, Bf, Bc, Bz, Sc, Sz, Sf, Sq, Sm, Bm, Bs. split_and!; try done.
  - rewrite (opened_sq tails wr qp Hw Hqn Hx Hsig Hwr Hat Hg). pose proof (sw_units _ _ Hwr). pose proof (wr_units_pos qp wr).
    simpl. by rewrite units_blocks by lia.
  - intros a Ha. by apply (filled_equal tails wr qp Hw Hqn Hx Hsig Hwr Hat Hg).
Qed.

Lemma builder_matches_post_send_witness :
  let qp := demo_qp IBV_QPT_RC 3 in
  let s := mk_ps qp (fun a => a mod 256) 4096 2 false scp0 0 0 in
  let wr := demo_wr IBV_WR_ATOMIC_CMP_AND_SWP 2 [mk_sge 8192 8 1] in
  exists s', post_send_wr demo_ctx 0 (0, 0) wr s = (Ok, s') /\
    sq (b_qp (build_wr (0, 0) wr (mk_b qp (fun a => a mod 256)))) = sq (ps_qp s') /\
    b_mem (build_wr (0, 0) wr (mk_b qp (fun a => a mod 256))) (4096 + 192 + 4) = ps_mem s' (4096 + 192 + 4).
Proof.
  intros qp s wr.
  destruct (builder_matches_post_send demo_ctx (0, 0) wr s (mk_b qp (fun a => a mod 256)))
    as (s' & E & _ & _ & Hsq & _ & Hc & _ & Hm);
    try done.
  - apply demo_wf. lia.
  - repeat constructor; try (by vm_compute); simpl; try lia; unfold send_ieth; simpl; lia.
  - intros _. constructor; [by right|constructor].
  - exists s'. split; [exact E|]. split; [exact Hsq|]. apply Hm. right. left. rewrite <- Hc. by vm_compute.
Defined.

(** * A full queue *)

(** A builder called on a full queue records the error but leaves
    [cur_ctrl] at the element opened before it, and the setter that follows writes
    through it: the length of that element becomes that of the refused request and
    its first data segment the refused buffer, although that element may already be
    in the hands of the device (it may even belong to an earlier session). *)
Theorem builder_overflow_rewrites_previous t lkey addr len b :
  let qp := b_qp b in let old := cur_ctrl qp in
  mlx5_wq_overflow (sq qp) (nreq qp) t.1 t.2 = true ->
  qp_type qp = IBV_QPT_RC \/ qp_type qp = IBV_QPT_UC ->
  err qp = 0 -> wq_sig qp = false -> old + 16 <> qend (sq qp) -> len <> 0 ->
  0 <= len < 2 ^ 32 -> 0 <= lkey < 2 ^ 32 -> 0 <= addr < 2 ^ 64 -> 0 <= qp_num qp < 2 ^ 24 ->
  let b' := mlx5_send_wr_set_sge_rc_uc lkey addr len (mlx5_send_wr_send_other t b) in
  err (b_qp b') = ENOMEM /\
  load_be 4 (old + 4) (b_mem b') = Z.lor 2 (u32 (Z.shiftl (qp_num qp) 8)) /\
  read_data (b_mem b') (old + 16) = (len, lkey, addr) /\
  (forall a, ~ (old + 4 <= a < old + 8) -> ~ (old + 16 <= a < old + 32) -> b_mem b' a = b_mem b a).
Proof.
  intros qp old Hov Hty He Hs Hend Hl Hlen Hk Ha Hq b'.
  assert (Hb : b' = _common_wqe_finalize (_mlx5_send_wr_set_sge lkey addr len
    (b_opened (old + 16) 1 (mk_b (set_err ENOMEM qp) (b_mem b))))).
  { unfold b', mlx5_send_wr_set_sge_rc_uc, mlx5_send_wr_send_other, _mlx5_send_wr_send.
    do 2 f_equal. unfold _common_wqe_init, _common_wqe_init_op. cbv zeta. fold qp. rewrite Hov.
    unfold b_fail. fold qp. rewrite He. simpl. fold qp. unfold wrap_ptr. simpl. fold old.
    assert ((old + 16 =? qend (sq qp)) = false) as Ee by (by apply Z.eqb_neq).
    destruct Hty as [-> | ->]; cbn -[Z.add]; rewrite ?Z.add_0_r; fold old; unfold_consts; rewrite ?Z.add_0_r, Ee; done. }
  clearbody b'. subst b'. unfold _common_wqe_finalize, __wqe_finalize, _mlx5_send_wr_set_sge.
  rewrite (proj2 (Z.eqb_neq _ _) Hl). simpl. rewrite Hs. fold old. split_and!.
  - done.
  - rewrite load_store_same. change (u32 2) with 2. apply Z.mod_small.
    change (2 ^ (8 * Z.of_nat 4)) with (2 ^ 32). pose proof (u32_range (Z.shiftl (qp_num qp) 8)).
    split; [apply Z.lor_nonneg; lia|]. apply Z.log2_lt_cancel. change (Z.log2 (2 ^ 32)) with 32.
    destruct (decide (u32 (Z.shiftl (qp_num qp) 8) = 0)) as [->|]; [by vm_compute|].
    rewrite Z.log2_lor by lia. apply Z.max_lub_lt; [by vm_compute|]. apply Z.log2_lt_pow2; lia.
  - unfold read_data, write_data_seg. f_equal; [f_equal|];
      rewrite ?load_store_other by (simpl; lia); rewrite load_store_same; apply Z.mod_small; done.
  - intros a H1 H2. unfold write_data_seg. rewrite !store_be_outside by (simpl; lia). done.
Qed.

Lemma builder_overflow_rewrites_previous_witness :
  let qp := set_cur_ctrl 4096 (set_sq (set_cur_post 4 (sq (demo_qp IBV_QPT_RC 4)))
              (set_nreq 4 (demo_qp IBV_QPT_RC 4))) in
  err (b_qp (mlx5_send_wr_set_sge_rc_uc 7 9000 50 (mlx5_send_wr_send_other (0, 0) (mk_b qp (fun _ => 0))))) = ENOMEM.
Proof.
  intros qp. apply (builder_overflow_rewrites_previous (0, 0) 7 9000 50 (mk_b qp (fun _ => 0)));
    (by vm_compute) || (by left) || (simpl; lia).
Defined.
