(* ===== verification/Mkey.v ===== *)
(** Memory-key configuration (providers/mlx5/qp.c, [mlx5_send_wr_mkey_configure] and
    its setters, wqe.h for the layouts): a UMR work-queue element is opened by
    [mkey_configure], filled by setters (access flags, data layout, block
    signature, crypto) in any order, and closed by the last of them, which appends
    the block-signature and crypto formats (BSF) the mkey needs and, when a
    signature is (re)armed, one SET_PSV element per signed domain.

    The mkeys live in a store addressed by the pointers the QP keeps in
    [cur_mkey]; [None] as a result is the dereference of a null pointer. *)

From stdpp Require Import base numbers list.
From S2P Require Import Prelude Mem Types Wqe PostSend Builder.

(** * Attributes *)

Definition MLX5_SIG_TYPE_NONE : Z := 0.
Definition MLX5_SIG_TYPE_CRC : Z := 1.
Definition MLX5_SIG_TYPE_T10DIF : Z := 2.
Definition MLX5DV_SIG_TYPE_T10DIF : Z := 0.
Definition MLX5DV_SIG_TYPE_CRC : Z := 1.
Definition MLX5DV_SIG_T10DIF_CRC : Z := 0.
Definition MLX5DV_SIG_T10DIF_CSUM : Z := 1.
Definition MLX5DV_SIG_CRC_TYPE_CRC32 : Z := 0.
Definition MLX5DV_SIG_CRC_TYPE_CRC32C : Z := 1.
Definition MLX5DV_SIG_CRC_TYPE_CRC64_XP10 : Z := 2.
Definition MLX5DV_BLOCK_SIZE_512 : Z := 0.
Definition MLX5DV_BLOCK_SIZE_4160 : Z := 4.
Definition MLX5DV_SIG_T10DIF_FLAG_REF_REMAP : Z := 1.
Definition MLX5DV_SIG_T10DIF_FLAG_APP_ESCAPE : Z := 2.
Definition MLX5DV_SIG_T10DIF_FLAG_APP_REF_ESCAPE : Z := 4.
Definition MLX5DV_SIG_MASK_T10DIF_GUARD : Z := 0xc0.
Definition MLX5DV_SIG_MASK_T10DIF_APPTAG : Z := 0x30.
Definition MLX5DV_SIG_MASK_T10DIF_REFTAG : Z := 0x0f.
Definition MLX5DV_SIG_MASK_CRC32 : Z := 0xf0.
Definition MLX5DV_SIG_MASK_CRC64_XP10 : Z := 0xff.
Definition MLX5DV_SIG_BLOCK_ATTR_FLAG_COPY_MASK : Z := 1.
Definition MLX5DV_MKEY_CONF_FLAG_RESET_SIG_ATTR : Z := 1.
Definition MLX5DV_CRYPTO_STANDARD_AES_XTS : Z := 0.
Definition SIGNATURE_AFTER_CRYPTO_ON_TX : Z := 0.
Definition SIGNATURE_BEFORE_CRYPTO_ON_TX : Z := 1.
Definition ORDER_ENCRYPTED_WIRE_SIGNATURE : Z := 0.
Definition ORDER_ENCRYPTED_MEMORY_SIGNATURE : Z := 1.
Definition ORDER_ENCRYPTED_RAW_WIRE : Z := 2.
Definition ORDER_ENCRYPTED_RAW_MEMORY : Z := 3.
Definition sizeof_bsf : Z := 64.
Definition sizeof_crypto_bsf : Z := 64.
Definition sizeof_psv_seg : Z := 16.
Definition sizeof_inl_data_seg : Z := 4.
Definition UINT32_MAX : Z := 2 ^ 32 - 1.
Definition UINT64_MAX : Z := 2 ^ 64 - 1.

Inductive mlx5_mkey_bsf_state : Type := BSF_INIT | BSF_RESET | BSF_SET | BSF_UPDATED.
#[global] Instance bsf_state_eq_dec : EqDecision mlx5_mkey_bsf_state.
Proof. solve_decision. Defined.

Record mlx5dv_sig_t10dif : Type := mk_dif {
  bg_type : Z; bg : Z; app_tag : Z; ref_tag : Z; dif_flags : Z }.
Record mlx5dv_sig_crc : Type := mk_crc { crc_type : Z; seed : Z }.

(** [struct mlx5dv_sig_block_domain] of the caller: the member of the union that
    [sig_type] selects is read *)
Record mlx5dv_sig_block_domain : Type := mk_dvd {
  dvd_sig_type : Z; dvd_dif : mlx5dv_sig_t10dif; dvd_crc : mlx5dv_sig_crc;
  dvd_block_size : Z; dvd_comp_mask : Z }.
Record mlx5dv_sig_block_attr : Type := mk_dva {
  dva_mem : option mlx5dv_sig_block_domain; dva_wire : option mlx5dv_sig_block_domain;
  dva_flags : Z; dva_check_mask : Z; dva_copy_mask : Z; dva_comp_mask : Z }.

(** [struct mlx5_sig_block_domain]; the two members of its union are fields of
    their own: the code reads only the one that [sig_type] names *)
Record mlx5_sig_block_domain : Type := mk_sd {
  sig_type : Z; sd_dif : mlx5dv_sig_t10dif; sd_crc : mlx5dv_sig_crc; block_size : Z }.
Definition set_sig_type (v : Z) (d : mlx5_sig_block_domain) : mlx5_sig_block_domain :=
  mk_sd v (sd_dif d) (sd_crc d) (block_size d).

(** [struct mlx5_sig_block] with its [attr] and the indices of its two PSVs *)
Record mlx5_sig_block : Type := mk_sb {
  mem_psv : Z; wire_psv : Z;
  sb_mem : mlx5_sig_block_domain; sb_wire : mlx5_sig_block_domain;
  sb_flags : Z; check_mask : Z; copy_mask : Z;
  sb_state : mlx5_mkey_bsf_state }.
Record mlx5_sig_ctx : Type := mk_sctx {
  sig_block : mlx5_sig_block; err_count : Z; err_count_updated : bool }.

(** [struct mlx5_crypto_attr]; [dek] is the object number behind the pointer *)
Record mlx5_crypto_attr : Type := mk_ca {
  crypto_standard : Z; encrypt_on_tx : bool; signature_crypto_order : Z;
  data_unit_size : Z; initial_tweak : list Z; dek : option Z; keytag : list Z;
  ca_state : mlx5_mkey_bsf_state }.
Record mlx5dv_crypto_attr : Type := mk_dca {
  dca_crypto_standard : Z; dca_encrypt_on_tx : bool; dca_signature_crypto_order : Z;
  dca_data_unit_size : Z; dca_initial_tweak : list Z; dca_dek : option Z;
  dca_keytag : list Z; dca_comp_mask : Z }.

Record mlx5_mkey : Type := mk_mkey {
  mkey_lkey : Z; num_desc : Z; mkey_length : Z;
  mkey_sig : option mlx5_sig_ctx; mkey_crypto : option mlx5_crypto_attr }.

Definition set_sb_state (v : mlx5_mkey_bsf_state) (b : mlx5_sig_block) : mlx5_sig_block :=
  mk_sb (mem_psv b) (wire_psv b) (sb_mem b) (sb_wire b) (sb_flags b) (check_mask b) (copy_mask b) v.
Definition set_domains (d w : mlx5_sig_block_domain) (b : mlx5_sig_block) : mlx5_sig_block :=
  mk_sb (mem_psv b) (wire_psv b) d w (sb_flags b) (check_mask b) (copy_mask b) (sb_state b).
Definition set_sig_block (b : mlx5_sig_block) (c : mlx5_sig_ctx) : mlx5_sig_ctx :=
  mk_sctx b (err_count c) (err_count_updated c).
Definition set_mkey_sig (s : option mlx5_sig_ctx) (k : mlx5_mkey) : mlx5_mkey :=
  mk_mkey (mkey_lkey k) (num_desc k) (mkey_length k) s (mkey_crypto k).
Definition set_mkey_crypto (c : option mlx5_crypto_attr) (k : mlx5_mkey) : mlx5_mkey :=
  mk_mkey (mkey_lkey k) (num_desc k) (mkey_length k) (mkey_sig k) c.
Definition set_mkey_length (v : Z) (k : mlx5_mkey) : mlx5_mkey :=
  mk_mkey (mkey_lkey k) (num_desc k) v (mkey_sig k) (mkey_crypto k).
Definition set_ca_state (v : mlx5_mkey_bsf_state) (c : mlx5_crypto_attr) : mlx5_crypto_attr :=
  mk_ca (crypto_standard c) (encrypt_on_tx c) (signature_crypto_order c) (data_unit_size c)
    (initial_tweak c) (dek c) (keytag c) v.

(** * Segments *)

(** [field |= v] on the [n]-byte big-endian field at [p] *)
Definition or_be (n : nat) (p v : Z) (m : mem) : mem := store_be n p (Z.lor (load_be n p m) v) m.

(** [memcpy] from a byte array outside the modelled memory *)
Definition store_bytes (p : Z) (l : list Z) (m : mem) : mem := fun a =>
  if (p <=? a) && (a <? p + Z.of_nat (length l)) then aget l (a - p) else m a.

Definition get_umr_mr_flags (acc : Z) : Z :=
  let f bit flag := if has_flag acc bit then flag else 0 in
  Z.lor (Z.lor (Z.lor (f IBV_ACCESS_REMOTE_ATOMIC MLX5_WQE_MKEY_CONTEXT_ACCESS_FLAGS_ATOMIC)
    (f IBV_ACCESS_REMOTE_WRITE MLX5_WQE_MKEY_CONTEXT_ACCESS_FLAGS_REMOTE_WRITE))
    (f IBV_ACCESS_REMOTE_READ MLX5_WQE_MKEY_CONTEXT_ACCESS_FLAGS_REMOTE_READ))
    (f IBV_ACCESS_LOCAL_WRITE MLX5_WQE_MKEY_CONTEXT_ACCESS_FLAGS_LOCAL_WRITE).

(** The loop of [umr_sg_list_create]: the next entry, [byte_count] (an [int]), memory *)
Fixpoint sg_list_loop (qp : mlx5_qp) (l : list ibv_sge) (dseg byte_count : Z) (m : mem) : Z * Z * mem :=
  match l with
  | [] => (dseg, byte_count, m)
  | sg :: l' =>
    let dseg := wrap_ptr qp dseg in
    sg_list_loop qp l' (dseg + sizeof_data_seg) (s32 (byte_count + sge_length sg))
      (store_be 4 dseg (sge_length sg)
        (store_be 4 (dseg + 4) (sge_lkey sg) (store_be 8 (dseg + 8) (sge_addr sg) m)))
  end.

(** [umr_sg_list_create]: size, xlat_size, reglen, memory *)
Definition umr_sg_list_create (qp : mlx5_qp) (l : list ibv_sge) (seg : Z) (m : mem) : Z * Z * Z * mem :=
  let n := Z.of_nat (length l) in
  let '(dseg, byte_count, m) := sg_list_loop qp l seg 0 m in
  let m := memset dseg 0 ((align n 4 - n) * sizeof_data_seg) m in
  (align (n * sizeof_data_seg) 64, n * sizeof_data_seg, u64 byte_count, m).

Record mlx5dv_mr_interleaved : Type := mk_il {
  il_addr : Z; il_bytes_count : Z; il_bytes_skip : Z; il_lkey : Z }.

(** The entries of [umr_strided_seg_create] *)
Fixpoint strided_loop (qp : mlx5_qp) (l : list mlx5dv_mr_interleaved) (eb byte_count : Z) (m : mem)
  : Z * Z * mem :=
  match l with
  | [] => (eb, byte_count, m)
  | d :: l' =>
    let eb := wrap_ptr qp eb in
    strided_loop qp l' (eb + 16) (u64 (byte_count + il_bytes_count d))
      (store_be 4 (eb + 4) (il_lkey d)
        (store_be 2 eb (u16 (u32 (il_bytes_count d + il_bytes_skip d)))
          (store_be 2 (eb + 2) (u16 (il_bytes_count d))
            (store_be 8 (eb + 8) (il_addr d) m))))
  end.

Definition umr_strided_seg_create (qp : mlx5_qp) (repeat_count : Z) (l : list mlx5dv_mr_interleaved)
    (seg : Z) (m : mem) : Z * Z * Z * mem :=
  let n := Z.of_nat (length l) in
  let m := store_be 4 (seg + 8) repeat_count
    (store_be 2 (seg + 14) n (store_be 2 (seg + 12) 0 (store_be 4 (seg + 4) 0x400 m))) in
  let '(eb, byte_count, m) := strided_loop qp l (seg + 16) 0 m in
  let m := store_be 4 seg (u32 byte_count) m in
  let m := memset eb 0 ((align (n + 1) 4 - n - 1) * 16) m in
  (align (16 + 16 * n) 64, (n + 1) * 16, u64 (byte_count * repeat_count), m).

(** * Block signature format *)

Definition bs_to_bs_selector (bs : Z) : Z := aget [1; 2; 6; 3; 4] bs.

Definition mlx5_umr_crc_bfs (crc : mlx5dv_sig_crc) : Z :=
  let base :=
    if crc_type crc =? MLX5DV_SIG_CRC_TYPE_CRC32 then Some 0x20
    else if crc_type crc =? MLX5DV_SIG_CRC_TYPE_CRC32C then Some 0x40
    else if crc_type crc =? MLX5DV_SIG_CRC_TYPE_CRC64_XP10 then Some 0x50
    else None in
  match base with
  | None => 0
  | Some b =>
    let b := if seed crc =? 0 then Z.lor b 0x1 else b in
    u32 (Z.shiftl (Z.lor b 0x2) 24)
  end.

(** [mlx5_umr_fill_inl_bsf_t10dif(dif, inl)] *)
Definition mlx5_umr_fill_inl_bsf_t10dif (dif : mlx5dv_sig_t10dif) (inl : Z) (m : mem) : mem :=
  let m := store_be 2 inl (Z.lor (2 ^ 15) (2 ^ 14)) m in
  let m := store_be 2 (inl + 2) (app_tag dif) m in
  let m := store_be 4 (inl + 4) (ref_tag dif) m in
  let m := store_be 1 (inl + 9) (Z.lor (2 ^ 7) (if bg dif =? 0 then 0 else 2 ^ 3)) m in
  let m := store_be 1 (inl + 8) (if bg_type dif =? MLX5DV_SIG_T10DIF_CRC then 1 else 2) m in
  let check := Z.lor
    (if has_flag (dif_flags dif) MLX5DV_SIG_T10DIF_FLAG_REF_REMAP then 2 ^ 6 else 0)
    (if has_flag (dif_flags dif) MLX5DV_SIG_T10DIF_FLAG_APP_REF_ESCAPE then 2
     else if has_flag (dif_flags dif) MLX5DV_SIG_T10DIF_FLAG_APP_ESCAPE then 1 else 0) in
  let m := or_be 1 (inl + 13) check m in
  store_be 2 (inl + 14) 0xffff m.

(** Same Block Structure: [None] for [false], else the copy mask *)
Definition mlx5_umr_block_crc_sbs (mem wire : mlx5_sig_block_domain) : option Z :=
  if negb (sig_type mem =? sig_type wire) || negb (block_size mem =? block_size wire) ||
     negb (crc_type (sd_crc mem) =? crc_type (sd_crc wire)) then None
  else
    let ty := crc_type (sd_crc wire) in
    Some (if (ty =? MLX5DV_SIG_CRC_TYPE_CRC32) || (ty =? MLX5DV_SIG_CRC_TYPE_CRC32C)
          then MLX5DV_SIG_MASK_CRC32
          else if ty =? MLX5DV_SIG_CRC_TYPE_CRC64_XP10 then MLX5DV_SIG_MASK_CRC64_XP10 else 0).

Definition mlx5_umr_block_t10dif_sbs (mem wire : mlx5_sig_block_domain) : option Z :=
  if negb (sig_type mem =? sig_type wire) || negb (block_size mem =? block_size wire) then None
  else
    let d := sd_dif mem in
    let w := sd_dif wire in
    Some (Z.lor (Z.lor
      (if (bg_type d =? bg_type w) && (bg d =? bg w) then MLX5DV_SIG_MASK_T10DIF_GUARD else 0)
      (if app_tag d =? app_tag w then MLX5DV_SIG_MASK_T10DIF_APPTAG else 0))
      (if ref_tag d =? ref_tag w then MLX5DV_SIG_MASK_T10DIF_REFTAG else 0)).

(** The memory domain of [mlx5_umr_fill_sig_bsf] *)
Definition fill_mem_domain (bsf : Z) (block : mlx5_sig_block) (m : mem) : mem :=
  let d := sb_mem block in
  if sig_type d =? MLX5_SIG_TYPE_NONE then m
  else
    let '(bfs, m) :=
      if sig_type d =? MLX5_SIG_TYPE_CRC then (mlx5_umr_crc_bfs (sd_crc d), m)
      else (0, mlx5_umr_fill_inl_bsf_t10dif (sd_dif d) (bsf + 48) m) in
    let m := store_be 4 (bsf + 12) (Z.lor bfs (Z.land (mem_psv block) 0xFFFFFF)) m in
    store_be 1 (bsf + 3) (bs_to_bs_selector (block_size d)) m.

(** The wire domain; the outcome is the return value *)
Definition fill_wire_domain (bsf : Z) (block : mlx5_sig_block) (m : mem) : outcome * mem :=
  let d := sb_wire block in
  if sig_type d =? MLX5_SIG_TYPE_NONE then (Ok, m)
  else
    let '(bfs, sbs, m) :=
      if sig_type d =? MLX5_SIG_TYPE_CRC then
        (mlx5_umr_crc_bfs (sd_crc d), mlx5_umr_block_crc_sbs (sb_mem block) d, m)
      else (0, mlx5_umr_block_t10dif_sbs (sb_mem block) d,
            mlx5_umr_fill_inl_bsf_t10dif (sd_dif d) (bsf + 32) m) in
    let user := has_flag (sb_flags block) MLX5DV_SIG_BLOCK_ATTR_FLAG_COPY_MASK in
    match sbs with
    | None =>
      if user then (Err EINVAL, m)
      else (Ok, store_be 1 (bsf + 2) (bs_to_bs_selector (block_size d))
                  (store_be 4 (bsf + 8) (Z.lor bfs (Z.land (wire_psv block) 0xFFFFFF)) m))
    | Some mask =>
      (Ok, store_be 1 (bsf + 2) (if user then copy_mask block else mask)
             (or_be 1 bsf (2 ^ 4)
                (store_be 4 (bsf + 8) (Z.lor bfs (Z.land (wire_psv block) 0xFFFFFF)) m)))
    end.

(** Sizes, raw data length and check mask *)
Definition sig_bsf_head (bsf : Z) (block : mlx5_sig_block) (have_crypto_bsf : bool) (m : mem) : mem :=
  let m := memset bsf 0 sizeof_bsf m in
  let m := or_be 1 bsf (Z.shiftl (if have_crypto_bsf then 3 else 2) 6) m in
  let m := store_be 4 (bsf + 4) UINT32_MAX m in
  if negb (sig_type (sb_wire block) =? MLX5_SIG_TYPE_NONE) ||
     negb (sig_type (sb_mem block) =? MLX5_SIG_TYPE_NONE)
  then store_be 1 (bsf + 1) (check_mask block) m else m.

Definition mlx5_umr_fill_sig_bsf (bsf : Z) (block : mlx5_sig_block) (have_crypto_bsf : bool) (m : mem)
  : outcome * mem :=
  fill_wire_domain bsf block (fill_mem_domain bsf block (sig_bsf_head bsf block have_crypto_bsf m)).

(** * Crypto format *)

(** [get_crypto_order]; [None] is -1 *)
Definition get_crypto_order (on_tx : bool) (sig_order : Z) (block : option mlx5_sig_block) : option Z :=
  let order :=
    if on_tx then
      if sig_order =? SIGNATURE_AFTER_CRYPTO_ON_TX then ORDER_ENCRYPTED_RAW_WIRE
      else ORDER_ENCRYPTED_WIRE_SIGNATURE
    else
      if sig_order =? SIGNATURE_AFTER_CRYPTO_ON_TX then ORDER_ENCRYPTED_MEMORY_SIGNATURE
      else ORDER_ENCRYPTED_RAW_MEMORY in
  if (order =? ORDER_ENCRYPTED_RAW_WIRE) || (order =? ORDER_ENCRYPTED_RAW_MEMORY) then
    match block with
    | Some b =>
      if negb (sig_type (sb_mem b) =? MLX5_SIG_TYPE_NONE) &&
         negb (sig_type (sb_wire b) =? MLX5_SIG_TYPE_NONE) then None else Some order
    | None => Some order
    end
  else Some order.

Definition mlx5_umr_fill_crypto_bsf (bsf : Z) (attr : mlx5_crypto_attr) (block : option mlx5_sig_block)
    (m : mem) : outcome * mem :=
  let m := memset bsf 0 sizeof_crypto_bsf m in
  let m := or_be 1 bsf (Z.shiftl (match block with Some _ => 3 | None => 2 end) 6) m in
  let m := or_be 1 bsf 1 m in
  match get_crypto_order (encrypt_on_tx attr) (signature_crypto_order attr) block with
  | None => (Err EINVAL, m)
  | Some order =>
    let m := store_be 1 (bsf + 1) order m in
    let m := store_be 1 (bsf + 3) 0 m in
    let m := store_be 4 (bsf + 4) UINT32_MAX m in
    let m := store_be 1 (bsf + 8) (bs_to_bs_selector (data_unit_size attr)) m in
    let m := store_bytes (bsf + 16) (initial_tweak attr) m in
    match dek attr with
    | None => (Fault, m)
    | Some id =>
      let m := store_be 4 (bsf + 32) (Z.land id 0x00FFFFFF) m in
      (Ok, store_bytes (bsf + 40) (keytag attr) m)
    end
  end.

(** * Closing the element *)

(** The QP, the memory and the mkeys *)
Record mst : Type := mk_m { m_b : bst; m_keys : Z -> mlx5_mkey }.

Definition m_qp (s : mst) : mlx5_qp := b_qp (m_b s).
Definition m_bset (f : bst -> bst) (s : mst) : mst := mk_m (f (m_b s)) (m_keys s).
Definition m_set (f : mlx5_qp -> mlx5_qp) : mst -> mst := m_bset (b_set f).
Definition m_put (f : mem -> mem) : mst -> mst := m_bset (b_put f).
Definition set_mkey (k : Z) (v : mlx5_mkey) (s : mst) : mst :=
  mk_m (m_b s) (fun j => if j =? k then v else m_keys s j).

(** [mqp->err = e], unconditional in this part of the code *)
Definition m_fail (e : Z) : mst -> mst := m_set (set_err e).

(** The UMR control and mkey context segments of the open element *)
Definition umr_ctrl (qp : mlx5_qp) : Z := cur_ctrl qp + sizeof_ctrl_seg.
Definition mkey_seg (qp : mlx5_qp) : Z := wrap_ptr qp (umr_ctrl qp + sizeof_umr_ctrl_seg).

Definition umr_transient_signature_crc (crc : mlx5dv_sig_crc) : Z :=
  if crc_type crc =? MLX5DV_SIG_CRC_TYPE_CRC64_XP10 then seed crc else u64 (Z.shiftl (seed crc) 32).

Definition umr_transient_signature_t10dif (dif : mlx5dv_sig_t10dif) : Z :=
  Z.lor (Z.lor (u64 (Z.shiftl (bg dif) 48)) (u64 (Z.shiftl (app_tag dif) 32))) (ref_tag dif).

Definition psv_transient_signature (d : mlx5_sig_block_domain) : Z :=
  if sig_type d =? MLX5_SIG_TYPE_CRC then umr_transient_signature_crc (sd_crc d)
  else umr_transient_signature_t10dif (sd_dif d).

(** [mlx5_umr_set_psv] *)
Definition mlx5_umr_set_psv (tails : Z * Z) (psv_index ts : Z) (reset_signal : bool) (b : bst) : bst :=
  let wr_flags := ex_wr_flags (b_qp b) in
  let b := if reset_signal then b_set (set_ex_wr_flags (Z.ldiff wr_flags IBV_SEND_SIGNALED)) b else b in
  let b := _common_wqe_init_op tails IBV_WR_DRIVER1 MLX5_OPCODE_SET_PSV b in
  let b := if reset_signal then b_set (set_ex_wr_flags wr_flags) b else b in
  if negb (err (b_qp b) =? 0) then b
  else
    let psv := cur_ctrl (b_qp b) + sizeof_ctrl_seg in
    let b := b_put (fun m => store_be 8 (psv + 8) ts
                      (store_be 4 psv psv_index (memset psv 0 sizeof_psv_seg m))) b in
    _common_wqe_finalize (b_set (fun qp =>
      set_fm_cache MLX5_WQE_CTRL_INITIATOR_SMALL_FENCE
        (set_nreq (nreq qp + 1) (set_cur_size ((sizeof_ctrl_seg + sizeof_psv_seg) / 16) qp))) b).

(** [upd_mkc_sig_err_cnt]: whether the error count went into the element *)
Definition upd_mkc_sig_err_cnt (c : mlx5_sig_ctx) (uc mk : Z) (m : mem) : bool * mlx5_sig_ctx * mem :=
  if negb (err_count_updated c) then (false, c, m)
  else
    (true, mk_sctx (sig_block c) (err_count c) false,
     or_be 4 (mk + 12) (u32 (Z.shiftl (Z.land (err_count c) 1) 26))
       (or_be 8 (uc + 8) MLX5_WQE_UMR_CTRL_MKEY_MASK_SIG_ERR m)).

(** [fm_ce_se &= ~MLX5_WQE_CTRL_CQ_UPDATE] *)
Definition suppress_umr_completion (b : bst) : bst :=
  let p := cur_ctrl (b_qp b) + 11 in
  b_put (fun m => store_be 1 p (Z.ldiff (load_be 1 p m) MLX5_WQE_CTRL_CQ_UPDATE) m) b.

Definition umr_enable_bsf (bsf_size uc mk : Z) (b : bst) : bst :=
  b_put (fun m => or_be 4 (mk + 12) (2 ^ 30)
           (or_be 8 (uc + 8) MLX5_WQE_UMR_CTRL_MKEY_MASK_BSF_ENABLE
              (store_be 2 (uc + 6) (bsf_size / 16) m)))
    (b_set (add_cur_size (bsf_size / 16)) b).

Definition umr_finalize_common (b : bst) : bst :=
  b_set (set_cur_mkey None) (_common_wqe_finalize (b_set (fun qp => set_nreq (nreq qp + 1) qp) b)).

(** [tails i] are the completions the overflow check of the [i]-th SET_PSV sees *)
Definition umr_finalize_and_set_psvs (tails : nat -> Z * Z) (block : mlx5_sig_block) (b : bst) : bst :=
  let b := umr_finalize_common (suppress_umr_completion b) in
  let mem_sig := negb (sig_type (sb_mem block) =? MLX5_SIG_TYPE_NONE) in
  let wire_sig := negb (sig_type (sb_wire block) =? MLX5_SIG_TYPE_NONE) in
  let b := if mem_sig
           then mlx5_umr_set_psv (tails 0%nat) (mem_psv block) (psv_transient_signature (sb_mem block)) wire_sig b
           else b in
  if wire_sig
  then mlx5_umr_set_psv (tails 1%nat) (wire_psv block) (psv_transient_signature (sb_wire block)) false b
  else b.

(** Where the BSFs go: after the data, which may have wrapped *)
Definition bsf_seg (qp : mlx5_qp) (cur_data_size : Z) : Z :=
  let seg := cur_data qp + cur_data_size in
  if qend (sq qp) <=? seg then seg - qend (sq qp) + mlx5_get_send_wqe qp 0 else seg.

Definition cur_data_size (qp : mlx5_qp) (m : mem) : Z := load_be 2 (umr_ctrl qp + 4) m * 16.

(** The size and length limits both finalizers check *)
Definition bsf_limits (qp : mlx5_qp) (mkey : mlx5_mkey) (bsf_size : Z) (m : mem) : outcome :=
  if u64 (max_inline_data qp + sizeof_inl_data_seg) <? cur_data_size qp m + bsf_size then Err ENOMEM
  else if UINT32_MAX <? mkey_length mkey then Err EINVAL
  else Ok.

(** The BSFs of [crypto_umr_wqe_finalize] at [seg] *)
Definition fill_bsfs (qp : mlx5_qp) (sig : option mlx5_sig_ctx) (ca : mlx5_crypto_attr) (set_crypto : bool)
    (seg : Z) (m : mem) : outcome * mem :=
  let '(o, seg, m) :=
    match sig with
    | Some c =>
      let '(o, m) := mlx5_umr_fill_sig_bsf seg (sig_block c) set_crypto m in
      (o, wrap_ptr qp (seg + sizeof_bsf), m)
    | None => (Ok, seg, m)
    end in
  match o with
  | Ok => if set_crypto then mlx5_umr_fill_crypto_bsf seg ca (sig_block <$> sig) m else (Ok, m)
  | _ => (o, m)
  end.

Definition sig_in (st : mlx5_mkey_bsf_state) (sig : option mlx5_sig_ctx) : bool :=
  match sig with Some c => bool_decide (sb_state (sig_block c) = st) | None => false end.

(** [if (set_psv) umr_finalize_and_set_psvs(..) else umr_finalize_common(..)] *)
Definition finish_umr (tails : nat -> Z * Z) (set_psv : bool) (sig : option mlx5_sig_ctx) (s : mst) : mst :=
  match sig with
  | Some c => if set_psv then m_bset (umr_finalize_and_set_psvs tails (sig_block c)) s
              else m_bset umr_finalize_common s
  | None => m_bset umr_finalize_common s
  end.

(** [crypto_umr_wqe_finalize] on the mkey at [k] whose crypto attributes are [ca] *)
Definition crypto_umr_wqe_finalize (tails : nat -> Z * Z) (k : Z) (ca : mlx5_crypto_attr) (s : mst)
  : option mst :=
  let qp := m_qp s in
  let mkey := m_keys s k in
  let uc := umr_ctrl qp in
  let mk := mkey_seg qp in
  let '(upd, sig, m) :=
    match mkey_sig mkey with
    | Some c => let '(u, c, m) := upd_mkc_sig_err_cnt c uc mk (b_mem (m_b s)) in (u, Some c, m)
    | None => (false, None, b_mem (m_b s))
    end in
  let s := m_put (fun _ => m) (set_mkey k (set_mkey_sig sig mkey) s) in
  let set_psv := upd && sig_in BSF_SET sig in
  if negb (sig_in BSF_UPDATED sig) && negb (bool_decide (ca_state ca = BSF_UPDATED)) &&
     negb (sig_in BSF_RESET sig)
  then Some (finish_umr tails set_psv sig s)
  else
    let set_psv := set_psv || sig_in BSF_UPDATED sig in
    let set_crypto := bool_decide (ca_state ca = BSF_UPDATED) || bool_decide (ca_state ca = BSF_SET) in
    let bsf_size := (match sig with Some _ => sizeof_bsf | None => 0 end) + (if set_crypto then sizeof_crypto_bsf else 0) in
    match bsf_limits qp mkey bsf_size m with
    | Err e => Some (m_fail e s)
    | Fault => None
    | Ok =>
      let '(o, m) := fill_bsfs qp sig ca set_crypto (bsf_seg qp (cur_data_size qp m)) m in
      let s := m_put (fun _ => m) s in
      match o with
      | Fault => None
      | Err e => Some (m_fail e s)
      | Ok => Some (finish_umr tails set_psv sig (m_bset (umr_enable_bsf bsf_size uc mk) s))
      end
    end.

(** [umr_wqe_finalize] on the mkey at [k] *)
Definition umr_wqe_finalize (tails : nat -> Z * Z) (k : Z) (s : mst) : option mst :=
  let qp := m_qp s in
  let mkey := m_keys s k in
  match mkey_crypto mkey, mkey_sig mkey with
  | None, None => Some (m_bset umr_finalize_common s)
  | Some ca, _ => crypto_umr_wqe_finalize tails k ca s
  | None, Some c =>
    let uc := umr_ctrl qp in
    let mk := mkey_seg qp in
    let st := sb_state (sig_block c) in
    let m := b_mem (m_b s) in
    let m := if bool_decide (st = BSF_UPDATED) || bool_decide (st = BSF_SET) then m
             else or_be 8 (uc + 8) MLX5_WQE_UMR_CTRL_MKEY_MASK_BSF_ENABLE m in
    let '(upd, c, m) := upd_mkc_sig_err_cnt c uc mk m in
    let s := m_put (fun _ => m) (set_mkey k (set_mkey_sig (Some c) mkey) s) in
    let set_psv := upd && bool_decide (st = BSF_SET) in
    if negb (bool_decide (st = BSF_UPDATED)) then Some (finish_umr tails set_psv (Some c) s)
    else
      match bsf_limits qp mkey sizeof_bsf m with
      | Err e => Some (m_fail e s)
      | Fault => None
      | Ok =>
        let '(o, m) := mlx5_umr_fill_sig_bsf (bsf_seg qp (cur_data_size qp m)) (sig_block c) false m in
        let s := m_put (fun _ => m) s in
        match o with
        | Fault => None
        | Err e => Some (m_fail e s)
        | Ok => Some (m_bset (umr_finalize_and_set_psvs tails (sig_block c))
                        (m_bset (umr_enable_bsf sizeof_bsf uc mk) s))
        end
      end
  end.

(** * The builder *)

Definition check_comp_mask (input supported : Z) : bool := Z.ldiff input supported =? 0.

Record mlx5dv_mkey_conf_attr : Type := mk_conf { conf_flags : Z; conf_comp_mask : Z }.

(** The signature attributes at the start of a configuration *)
Definition conf_sig (flags : Z) (c : mlx5_sig_ctx) : mlx5_sig_ctx :=
  let b := sig_block c in
  set_sig_block
    (if has_flag flags MLX5DV_MKEY_CONF_FLAG_RESET_SIG_ATTR then
       set_sb_state BSF_RESET
         (set_domains (set_sig_type MLX5_SIG_TYPE_NONE (sb_mem b)) (set_sig_type MLX5_SIG_TYPE_NONE (sb_wire b)) b)
     else match sb_state b with
          | BSF_UPDATED => set_sb_state BSF_SET b
          | BSF_RESET => set_sb_state BSF_INIT b
          | _ => b
          end) c.

Definition conf_crypto (a : mlx5_crypto_attr) : mlx5_crypto_attr :=
  if bool_decide (ca_state a = BSF_UPDATED) then set_ca_state BSF_SET a else a.

(** The UMR control and mkey context segments as the builder leaves them *)
Definition open_umr (uc mk lkey : Z) (m : mem) : mem :=
  let m := memset uc 0 sizeof_umr_ctrl_seg m in
  let m := memset mk 0 sizeof_mkey_context_seg m in
  let m := store_be 4 (mk + 4) (Z.lor 0xffffff00 (Z.land lkey 0xff)) m in
  let m := store_be 1 uc MLX5_WQE_UMR_CTRL_FLAG_INLINE m in
  store_be 8 (uc + 8) MLX5_WQE_UMR_CTRL_MKEY_MASK_FREE m.

(** What [mkey_configure] does once the element is opened: the fixed segments, then
    the states of the signature and crypto attributes of the mkey *)
Definition conf_open (k : Z) (s : mst) : mst :=
  let s := m_set (set_cur_mkey (Some k)) s in
  let qp := m_qp s in
  let lkey := mkey_lkey (m_keys s k) in
  let uc := umr_ctrl qp in
  let mk := mkey_seg qp in
  let s := m_put (fun m => open_umr uc mk lkey (store_be 4 (cur_ctrl qp + 12) lkey m)) s in
  m_set (fun qp =>
    set_inl_wqe true (set_fm_cache MLX5_WQE_CTRL_INITIATOR_SMALL_FENCE
      (set_cur_data (wrap_ptr qp (mk + sizeof_mkey_context_seg))
        (set_cur_size ((sizeof_ctrl_seg + sizeof_umr_ctrl_seg + sizeof_mkey_context_seg) / 16) qp)))) s.

Definition conf_attrs (k flags : Z) (s : mst) : mst :=
  let key := m_keys s k in
  set_mkey k (set_mkey_crypto (conf_crypto <$> mkey_crypto key)
                (set_mkey_sig (conf_sig flags <$> mkey_sig key) key)) s.

(** [mlx5_send_wr_mkey_configure]; [t] are the completions its own overflow check
    sees, [tails] those of the SET_PSV elements *)
Definition mlx5_send_wr_mkey_configure (t : Z * Z) (tails : nat -> Z * Z) (k num_setters : Z)
    (attr : mlx5dv_mkey_conf_attr) (s : mst) : option mst :=
  if negb (has_flag (ex_wr_flags (m_qp s)) IBV_SEND_INLINE) then Some (m_fail EOPNOTSUPP s)
  else if negb (check_comp_mask (conf_flags attr) MLX5DV_MKEY_CONF_FLAG_RESET_SIG_ATTR) ||
          negb (conf_comp_mask attr =? 0) then Some (m_fail EOPNOTSUPP s)
  else
    let s := conf_attrs k (conf_flags attr) (conf_open k (m_bset (_common_wqe_init t IBV_WR_DRIVER1) s)) in
    if num_setters =? 0 then umr_wqe_finalize tails k s
    else Some (m_set (fun qp => set_num_mkey_setters num_setters (set_cur_setters_cnt 0 qp)) s).

(** * Setters *)

(** The end of a setter: the last one closes the element. *)
Definition count_setter (tails : nat -> Z * Z) (k : Z) (s : mst) : option mst :=
  let s := m_set (fun qp => set_cur_setters_cnt (u8 (cur_setters_cnt qp + 1)) qp) s in
  if cur_setters_cnt (m_qp s) =? num_mkey_setters (m_qp s) then umr_wqe_finalize tails k s
  else Some s.

(** The guards every setter starts with *)
Definition setter_guard (s : mst) (f : Z -> option mst) : option mst :=
  if negb (err (m_qp s) =? 0) then Some s
  else match cur_mkey (m_qp s) with
       | None => Some (m_fail EINVAL s)
       | Some k => f k
       end.

Definition access_flags_mask : Z :=
  Z.lor (Z.lor (Z.lor MLX5_WQE_UMR_CTRL_MKEY_MASK_ACCESS_LOCAL_WRITE
                      MLX5_WQE_UMR_CTRL_MKEY_MASK_ACCESS_REMOTE_READ)
               MLX5_WQE_UMR_CTRL_MKEY_MASK_ACCESS_REMOTE_WRITE)
        MLX5_WQE_UMR_CTRL_MKEY_MASK_ACCESS_ATOMIC.

Definition access_flags_supported : Z :=
  Z.lor (Z.lor (Z.lor IBV_ACCESS_LOCAL_WRITE IBV_ACCESS_REMOTE_WRITE) IBV_ACCESS_REMOTE_READ)
        IBV_ACCESS_REMOTE_ATOMIC.

Definition mlx5_send_wr_set_mkey_access_flags (tails : nat -> Z * Z) (access_flags : Z) (s : mst)
  : option mst :=
  setter_guard s (fun k =>
    let uc := umr_ctrl (m_qp s) in
    if negb (check_comp_mask access_flags access_flags_supported) then Some (m_fail EINVAL s)
    else if negb (Z.land (load_be 8 (uc + 8) (b_mem (m_b s))) access_flags_mask =? 0)
    then Some (m_fail EINVAL s)
    else
      count_setter tails k
        (m_put (fun m => store_be 1 (mkey_seg (m_qp s) + 2) (get_umr_mr_flags access_flags)
                           (or_be 8 (uc + 8) access_flags_mask m)) s)).

(** The layout argument of [mlx5_send_wr_set_mkey_layout]: [data] with its repeat
    count, or [sge] *)
Inductive mkey_layout : Type :=
| Interleaved (repeat_count : Z) (data : list mlx5dv_mr_interleaved)
| SgeList (sge : list ibv_sge).

Definition num_entries (l : mkey_layout) : Z :=
  match l with Interleaved _ d => Z.of_nat (length d) | SgeList d => Z.of_nat (length d) end.

Definition max_entries (qp : mlx5_qp) (mkey : mlx5_mkey) (l : mkey_layout) : Z :=
  let room := u64 (max_inline_data qp + sizeof_inl_data_seg) / 16 in
  u16 (Z.min (match l with Interleaved _ _ => u64 (room - 1) | SgeList _ => room end) (num_desc mkey)).

Definition create_layout (qp : mlx5_qp) (l : mkey_layout) (m : mem) : Z * Z * Z * mem :=
  match l with
  | Interleaved r d => umr_strided_seg_create qp r d (cur_data qp) m
  | SgeList d => umr_sg_list_create qp d (cur_data qp) m
  end.

Definition mlx5_send_wr_set_mkey_layout (tails : nat -> Z * Z) (l : mkey_layout) (s : mst) : option mst :=
  setter_guard s (fun k =>
    let qp := m_qp s in
    let uc := umr_ctrl qp in
    if max_entries qp (m_keys s k) l <? num_entries l then Some (m_fail ENOMEM s)
    else if negb (load_be 2 (uc + 4) (b_mem (m_b s)) =? 0) then Some (m_fail EINVAL s)
    else
      let mk := mkey_seg qp in
      let '(size, xlat_size, reglen, m) := create_layout qp l (b_mem (m_b s)) in
      let m := store_be 2 (uc + 4) (align xlat_size 64 / 16)
        (or_be 8 (uc + 8) MLX5_WQE_UMR_CTRL_MKEY_MASK_LEN (store_be 8 (mk + 24) reglen m)) in
      count_setter tails k
        (set_mkey k (set_mkey_length reglen (m_keys s k))
           (m_set (add_cur_size (size / 16)) (m_put (fun _ => m) s)))).

Definition mlx5_send_wr_set_mkey_layout_interleaved (tails : nat -> Z * Z) (repeat_count : Z)
    (data : list mlx5dv_mr_interleaved) : mst -> option mst :=
  mlx5_send_wr_set_mkey_layout tails (Interleaved repeat_count data).

Definition mlx5_send_wr_set_mkey_layout_list (tails : nat -> Z * Z) (sge : list ibv_sge)
  : mst -> option mst :=
  mlx5_send_wr_set_mkey_layout tails (SgeList sge).

Definition mlx5_send_wr_mr_interleaved (t : Z * Z) (tails : nat -> Z * Z) (k access_flags repeat_count : Z)
    (data : list mlx5dv_mr_interleaved) (s : mst) : option mst :=
  s ← mlx5_send_wr_mkey_configure t tails k 2 (mk_conf 0 0) s;
  s ← mlx5_send_wr_set_mkey_access_flags tails access_flags s;
  mlx5_send_wr_set_mkey_layout tails (Interleaved repeat_count data) s.

Definition mlx5_send_wr_mr_list (t : Z * Z) (tails : nat -> Z * Z) (k access_flags : Z)
    (sge : list ibv_sge) (s : mst) : option mst :=
  s ← mlx5_send_wr_mkey_configure t tails k 2 (mk_conf 0 0) s;
  s ← mlx5_send_wr_set_mkey_access_flags tails access_flags s;
  mlx5_send_wr_set_mkey_layout tails (SgeList sge) s.

Definition mlx5_validate_sig_t10dif (dif : mlx5dv_sig_t10dif) : bool :=
  ((bg dif =? 0) || (bg dif =? 0xffff)) &&
  ((bg_type dif =? MLX5DV_SIG_T10DIF_CRC) || (bg_type dif =? MLX5DV_SIG_T10DIF_CSUM)) &&
  check_comp_mask (dif_flags dif)
    (Z.lor (Z.lor MLX5DV_SIG_T10DIF_FLAG_REF_REMAP MLX5DV_SIG_T10DIF_FLAG_APP_ESCAPE)
       MLX5DV_SIG_T10DIF_FLAG_APP_REF_ESCAPE).

Definition mlx5_validate_sig_crc (crc : mlx5dv_sig_crc) : bool :=
  if (crc_type crc =? MLX5DV_SIG_CRC_TYPE_CRC32) || (crc_type crc =? MLX5DV_SIG_CRC_TYPE_CRC32C)
  then (seed crc =? 0) || (seed crc =? UINT32_MAX)
  else if crc_type crc =? MLX5DV_SIG_CRC_TYPE_CRC64_XP10
  then (seed crc =? 0) || (seed crc =? UINT64_MAX)
  else false.

Definition mlx5_validate_sig_block_domain (d : mlx5dv_sig_block_domain) : bool :=
  if (dvd_block_size d <? MLX5DV_BLOCK_SIZE_512) || (MLX5DV_BLOCK_SIZE_4160 <? dvd_block_size d) then false
  else if negb (dvd_comp_mask d =? 0) then false
  else if dvd_sig_type d =? MLX5DV_SIG_TYPE_T10DIF then mlx5_validate_sig_t10dif (dvd_dif d)
  else if dvd_sig_type d =? MLX5DV_SIG_TYPE_CRC then mlx5_validate_sig_crc (dvd_crc d)
  else false.

Definition mlx5_copy_sig_block_domain (src : option mlx5dv_sig_block_domain) (dst : mlx5_sig_block_domain)
  : mlx5_sig_block_domain :=
  match src with
  | None => set_sig_type MLX5_SIG_TYPE_NONE dst
  | Some d =>
    if dvd_sig_type d =? MLX5DV_SIG_TYPE_CRC
    then mk_sd MLX5_SIG_TYPE_CRC (sd_dif dst) (dvd_crc d) (dvd_block_size d)
    else mk_sd MLX5_SIG_TYPE_T10DIF (dvd_dif d) (sd_crc dst) (dvd_block_size d)
  end.

Definition valid_opt (d : option mlx5dv_sig_block_domain) : bool :=
  match d with Some d => mlx5_validate_sig_block_domain d | None => true end.

Definition copy_sig_attr (a : mlx5dv_sig_block_attr) (b : mlx5_sig_block) : mlx5_sig_block :=
  mk_sb (mem_psv b) (wire_psv b)
    (mlx5_copy_sig_block_domain (dva_mem a) (sb_mem b)) (mlx5_copy_sig_block_domain (dva_wire a) (sb_wire b))
    (dva_flags a) (dva_check_mask a) (dva_copy_mask a) BSF_UPDATED.

Definition mlx5_send_wr_set_mkey_sig_block (tails : nat -> Z * Z) (a : mlx5dv_sig_block_attr) (s : mst)
  : option mst :=
  setter_guard s (fun k =>
    match mkey_sig (m_keys s k) with
    | None => Some (m_fail EINVAL s)
    | Some c =>
      if bool_decide (sb_state (sig_block c) = BSF_UPDATED) then Some (m_fail EINVAL s)
      else if bool_decide (dva_mem a = None) && bool_decide (dva_wire a = None) then Some (m_fail EINVAL s)
      else if negb (check_comp_mask (dva_flags a) MLX5DV_SIG_BLOCK_ATTR_FLAG_COPY_MASK)
      then Some (m_fail EINVAL s)
      else if negb (dva_comp_mask a =? 0) then Some (m_fail EINVAL s)
      else if negb (valid_opt (dva_mem a)) then Some (m_fail EINVAL s)
      else if negb (valid_opt (dva_wire a)) then Some (m_fail EINVAL s)
      else
        count_setter tails k
          (set_mkey k (set_mkey_sig (Some (set_sig_block (copy_sig_attr a (sig_block c)) c)) (m_keys s k)) s)
    end).

Definition copy_crypto_attr (a : mlx5dv_crypto_attr) : mlx5_crypto_attr :=
  mk_ca (dca_crypto_standard a) (dca_encrypt_on_tx a) (dca_signature_crypto_order a)
    (dca_data_unit_size a) (dca_initial_tweak a) (dca_dek a) (dca_keytag a) BSF_UPDATED.

Definition mlx5_send_wr_set_mkey_crypto (tails : nat -> Z * Z) (a : mlx5dv_crypto_attr) (s : mst)
  : option mst :=
  setter_guard s (fun k =>
    match mkey_crypto (m_keys s k) with
    | None => Some (m_fail EINVAL s)
    | Some c =>
      if bool_decide (ca_state c = BSF_UPDATED) then Some (m_fail EINVAL s)
      else if negb (dca_comp_mask a =? 0) then Some (m_fail EINVAL s)
      else if negb (dca_crypto_standard a =? MLX5DV_CRYPTO_STANDARD_AES_XTS) then Some (m_fail EINVAL s)
      else if negb (dca_signature_crypto_order a =? SIGNATURE_AFTER_CRYPTO_ON_TX) &&
              negb (dca_signature_crypto_order a =? SIGNATURE_BEFORE_CRYPTO_ON_TX)
      then Some (m_fail EINVAL s)
      else if (dca_data_unit_size a <? MLX5DV_BLOCK_SIZE_512) || (MLX5DV_BLOCK_SIZE_4160 <? dca_data_unit_size a)
      then Some (m_fail EINVAL s)
      else
        count_setter tails k (set_mkey k (set_mkey_crypto (Some (copy_crypto_attr a)) (m_keys s k)) s)
    end).
