(* ===== verification/MkeyProps.v ===== *)
(** Memory-key configuration: memory safety of every sequence of its calls, the
    round trips of the layouts and formats it writes, and the completions it
    produces. *)

From stdpp Require Import base numbers list.
From S2P Require Import Prelude Mem Types Wqe Forecast PostSend SendSafe SendQueue SendDecode Builder Mkey.

(** * Footprints *)

Lemma Writes_or n p v lo hi : lo <= p -> p + Z.of_nat n <= hi -> Writes (or_be n p v) lo hi.
Proof. intros ?? m a ?. apply store_be_outside. lia. Qed.

Lemma Writes_bytes p l lo hi : lo <= p -> p + Z.of_nat (length l) <= hi -> Writes (store_bytes p l) lo hi.
Proof. intros ?? m a ?. unfold store_bytes. destruct_ifs; [lia|done]. Qed.

#[export] Hint Resolve Writes_or Writes_bytes : writes.

(** A pair-returning writer: its memory *)
Definition Writes2 {A} (f : mem -> A * mem) (lo hi : Z) : Prop :=
  forall m a, a < lo \/ hi <= a -> (f m).2 a = m a.

Lemma Writes_t10dif d inl : Writes (mlx5_umr_fill_inl_bsf_t10dif d inl) inl (inl + 16).
Proof.
  intros m a ?. unfold mlx5_umr_fill_inl_bsf_t10dif, or_be. cbv zeta.
  rewrite !store_be_outside by (simpl; lia). done.
Qed.

Lemma Writes_mem_domain bsf b : Writes (fill_mem_domain bsf b) bsf (bsf + 64).
Proof.
  intros m a ?. unfold fill_mem_domain. cbv zeta. destruct (_ =? MLX5_SIG_TYPE_NONE); [done|].
  destruct (_ =? MLX5_SIG_TYPE_CRC); rewrite !store_be_outside by (simpl; lia); [done|].
  apply (Writes_t10dif (sd_dif (sb_mem b)) (bsf + 48)). lia.
Qed.

Lemma Writes_wire_domain bsf b : Writes2 (fill_wire_domain bsf b) bsf (bsf + 64).
Proof.
  intros m a ?. unfold fill_wire_domain. cbv zeta. destruct (_ =? MLX5_SIG_TYPE_NONE); [done|].
  destruct (_ =? MLX5_SIG_TYPE_CRC).
  - destruct (mlx5_umr_block_crc_sbs _ _); [|destruct (has_flag _ _)]; simpl; unfold or_be;
      rewrite ?store_be_outside by (simpl; lia); done.
  - assert (forall m, mlx5_umr_fill_inl_bsf_t10dif (sd_dif (sb_wire b)) (bsf + 32) m a = m a) as E
      by (intros m'; apply (Writes_t10dif (sd_dif (sb_wire b)) (bsf + 32)); lia).
    destruct (mlx5_umr_block_t10dif_sbs _ _); [|destruct (has_flag _ _)]; simpl; unfold or_be;
      rewrite ?store_be_outside by (simpl; lia); apply E.
Qed.

Lemma Writes_sig_bsf bsf b c : Writes2 (mlx5_umr_fill_sig_bsf bsf b c) bsf (bsf + 64).
Proof.
  intros m a Ha. unfold mlx5_umr_fill_sig_bsf, sig_bsf_head. cbv zeta.
  rewrite (Writes_wire_domain bsf b) by done. rewrite (Writes_mem_domain bsf b) by done.
  unfold or_be, sizeof_bsf.
  destruct (_ || _); rewrite ?store_be_outside, ?memset_outside by (simpl; lia); done.
Qed.

(** The arrays of the crypto attributes, as their C types fix them *)
Definition crypto_ok (a : mlx5_crypto_attr) : Prop :=
  length (initial_tweak a) = 16%nat /\ length (keytag a) = 8%nat /\ is_Some (dek a).

Lemma Writes_crypto_bsf bsf a b :
  crypto_ok a -> Writes2 (mlx5_umr_fill_crypto_bsf bsf a b) bsf (bsf + 64).
Proof.
  intros (Ht & Hk & _) m x Hx. unfold mlx5_umr_fill_crypto_bsf. cbv zeta.
  assert (forall p l m, (p + Z.of_nat (length l) <= bsf + 64) -> bsf <= p -> store_bytes p l m x = m x) as E
    by (intros; unfold store_bytes; destruct_ifs; [lia|done]).
  unfold or_be, sizeof_crypto_bsf.
  destruct (get_crypto_order _ _ _); [destruct (dek a)|]; simpl;
    rewrite ?E by (rewrite ?Ht, ?Hk; lia); rewrite ?store_be_outside by (simpl; lia); rewrite ?E by (rewrite ?Ht; lia);
    rewrite ?store_be_outside, ?memset_outside by (simpl; lia); done.
Qed.

Lemma crypto_bsf_no_fault bsf a b m :
  crypto_ok a -> (mlx5_umr_fill_crypto_bsf bsf a b m).1 <> Fault.
Proof.
  intros (_ & _ & [i E]). unfold mlx5_umr_fill_crypto_bsf. cbv zeta.
  destruct (get_crypto_order _ _ _); [|done]. by rewrite E.
Qed.

Lemma sig_bsf_no_fault bsf b c m : (mlx5_umr_fill_sig_bsf bsf b c m).1 <> Fault.
Proof.
  unfold mlx5_umr_fill_sig_bsf, fill_wire_domain. cbv zeta. destruct (_ =? _); [done|].
  destruct (_ =? MLX5_SIG_TYPE_CRC);
    [destruct (mlx5_umr_block_crc_sbs _ _)|destruct (mlx5_umr_block_t10dif_sbs _ _)];
    try destruct (has_flag _ _); done.
Qed.

(** * The state of a queue whose elements are being built *)

(** [p] is the start of a basic block of the ring. *)
Definition is_blk (qp : mlx5_qp) (p : Z) : Prop :=
  exists i, 0 <= i < wqe_cnt (sq qp) /\ p = sq_start qp + 64 * i.

Record ring_ok (qp : mlx5_qp) : Prop := {
  ro_wf : sq_wf qp;
  ro_inline : 0 <= max_inline_data qp;
  ro_room : 132 + max_inline_data qp <= ring_len qp;
  ro_ctrl : is_blk qp (cur_ctrl qp)
}.

(** What no call changes *)
Definition geo (qp : mlx5_qp) : Z * Z * Z * Z := (sq_start qp, qend (sq qp), wqe_cnt (sq qp), max_inline_data qp).

Definition bsafe (b b' : bst) : Prop :=
  ring_ok (b_qp b) ->
  ring_ok (b_qp b') /\ geo (b_qp b') = geo (b_qp b) /\ ring_frame (b_qp b) (b_mem b) (b_mem b').

#[global] Instance bsafe_refl : Reflexive bsafe.
Proof. intros b H. split_and!; [done|done|reflexivity]. Qed.

#[global] Instance bsafe_trans : Transitive bsafe.
Proof.
  intros b1 b2 b3 H1 H2 H. destruct (H1 H) as (R2 & G2 & F2). destruct (H2 R2) as (R3 & G3 & F3).
  split_and!; [done|congruence|]. etrans; [exact F2|]. unfold ring_frame in *. unfold geo in G2.
  injection G2 as E1 E2 _ _. by rewrite <- E1, <- E2.
Qed.

Lemma is_blk_geo q q' p : geo q' = geo q -> is_blk q p -> is_blk q' p.
Proof. unfold geo, is_blk. intros [= -> _ -> _]. done. Qed.

(** A basic block lies in the ring. *)
Lemma is_blk_in qp p : sq_wf qp -> is_blk qp p -> sq_start qp <= p /\ p + 64 <= qend (sq qp).
Proof. intros Hw (i & ? & ->). rewrite (wf_qend _ Hw). unfold ring_len. lia. Qed.

(** The block after a block *)
Lemma wrap_blk qp p : sq_wf qp -> is_blk qp p -> is_blk qp (wrap_ptr qp (p + 64)).
Proof.
  intros Hw (i & Hi & ->). unfold wrap_ptr. rewrite (wf_qend _ Hw), get_send_wqe_eq. unfold ring_len.
  destruct (Z.eqb_spec (sq_start qp + 64 * i + 64) (sq_start qp + 64 * wqe_cnt (sq qp))).
  - exists 0. lia.
  - exists (i + 1). lia.
Qed.

Lemma bsafe_put f b lo hi :
  Writes f lo hi -> (ring_ok (b_qp b) -> sq_start (b_qp b) <= lo /\ hi <= qend (sq (b_qp b))) ->
  bsafe b (b_put f b).
Proof.
  intros Hf Hin H. split_and!; [done|done|]. destruct (Hin H).
  apply frame_writes. eapply Writes_weaken; [exact Hf|lia..].
Qed.

Lemma ring_ok_ext q q' :
  ring_ok q -> sq q' = sq q -> sq_start q' = sq_start q -> max_inline_data q' = max_inline_data q ->
  cur_ctrl q' = cur_ctrl q -> ring_ok q'.
Proof.
  intros [[] ? ? ?] E1 E2 E3 E4.
  split; unfold ring_len, is_blk in *; try split; unfold ring_len; rewrite ?E1, ?E2, ?E3, ?E4; done.
Qed.

(** Updates of the construction state *)
Lemma bsafe_set f b :
  (forall q, sq (f q) = sq q /\ sq_start (f q) = sq_start q /\ max_inline_data (f q) = max_inline_data q /\
             cur_ctrl (f q) = cur_ctrl q) ->
  bsafe b (b_set f b).
Proof.
  intros Hf H. destruct (Hf (b_qp b)) as (E1 & E2 & E3 & E4). simpl.
  split_and!; [by apply (ring_ok_ext (b_qp b))|unfold geo; congruence|reflexivity].
Qed.
Create HintDb mkey.
#[export] Hint Extern 1 (bsafe _ (b_set _ _)) => apply bsafe_set; intros; split_and!; reflexivity : mkey.

(** A write inside the block of the open element *)
Lemma bsafe_put_ctrl f b k n :
  (forall p, Writes (f p) (p + k) (p + n)) -> 0 <= k -> n <= 64 -> bsafe b (b_put (f (cur_ctrl (b_qp b))) b).
Proof.
  intros Hf ??. eapply bsafe_put; [apply Hf|].
  intros [Hw _ _ Hc]. apply (is_blk_in _ _ Hw) in Hc. lia.
Qed.

(** * Every call writes inside the ring *)

Lemma ring_ok_sq w c q :
  ring_ok q -> qend w = qend (sq q) -> wqe_cnt w = wqe_cnt (sq q) ->
  length (wrid w) = length (wrid (sq q)) -> length (wqe_head w) = length (wqe_head (sq q)) ->
  length (wr_data w) = length (wr_data (sq q)) -> 0 <= cur_post w < 2 ^ 32 -> wq_head w = wq_head (sq q) ->
  is_blk q c -> ring_ok (set_cur_ctrl c (set_sq w q)).
Proof.
  intros [[Hc ?? ???? Hh] ? ? ?] E1 E2 E3 E4 E5 ? E6 Hblk.
  split; unfold ring_len, is_blk in *; simpl; try split; unfold ring_len in *; simpl;
    rewrite ?E1, ?E2, ?E3, ?E4, ?E5, ?E6; done.
Qed.

Lemma bsafe_init_op t i o b : bsafe b (_common_wqe_init_op t i o b).
Proof.
  unfold _common_wqe_init_op. cbv zeta. destruct (mlx5_wq_overflow _ _ _ _).
  { unfold b_fail. destruct (_ =? 0); [auto with mkey|reflexivity]. }
  intros H. pose proof (ro_wf _ H) as Hw. pose proof (sq_idx_range _ Hw) as Hi.
  assert (Hb : is_blk (b_qp b) (mlx5_get_send_wqe (b_qp b) (sq_idx (b_qp b))))
    by (exists (sq_idx (b_qp b)); split; [done|apply get_send_wqe_eq]).
  simpl. split_and!.
  - assert (ring_ok (set_fm_cache 0 (b_qp b))) as H' by (by apply (ring_ok_ext (b_qp b))).
    unfold claim_slot. apply (ring_ok_sq _ _ (set_fm_cache 0 (b_qp b)) H'); simpl; rewrite ?length_aset; try done.
    apply Hw.
  - done.
  - apply frame_writes with (f := fun m => store_be 4 _ _ (store_be 1 _ _ (store_be 4 _ _ m))).
    apply (is_blk_in _ _ Hw) in Hb. intros m a ?. rewrite !store_be_outside by (simpl; lia). done.
Qed.

Lemma bsafe_init t i b : bsafe b (_common_wqe_init t i b).
Proof. unfold _common_wqe_init. apply bsafe_init_op. Qed.

Lemma bsafe_finalize b : bsafe b (_common_wqe_finalize b).
Proof.
  unfold _common_wqe_finalize, __wqe_finalize. cbv zeta. intros H. simpl.
  pose proof (ro_wf _ H) as Hw. pose proof (is_blk_in _ _ Hw (ro_ctrl _ H)).
  split_and!.
  - pose proof (ring_ok_sq (set_cur_post (u32 (cur_post (sq (b_qp b)) + u32 (cur_size (b_qp b) + 3) / 4)) (sq (b_qp b)))
      (cur_ctrl (b_qp b)) (b_qp b) H eq_refl eq_refl eq_refl eq_refl eq_refl (u32_range _) eq_refl (ro_ctrl _ H)) as R.
    by eapply ring_ok_ext.
  - done.
  - intros a ?. destruct (wq_sig _); rewrite !store_be_outside by (simpl; lia); done.
Qed.

Lemma bsafe_set_psv t i ts r b : bsafe b (mlx5_umr_set_psv t i ts r b).
Proof.
  unfold mlx5_umr_set_psv. cbv zeta.
  set (b1 := if r then b_set (set_ex_wr_flags _) b else b).
  assert (bsafe b b1) as H1 by (unfold b1; destruct r; [auto with mkey|reflexivity]).
  set (b2 := _common_wqe_init_op _ _ _ b1). assert (bsafe b b2) as H2 by (etrans; [exact H1|apply bsafe_init_op]).
  set (b3 := if r then b_set (set_ex_wr_flags _) b2 else b2).
  assert (bsafe b b3) as H3 by (etrans; [exact H2|]; unfold b3; destruct r; [auto with mkey|reflexivity]).
  destruct (negb _); [exact H3|]. etrans; [exact H3|].
  etrans; [|apply bsafe_finalize]. 
  etrans; [|auto with mkey].
  apply (bsafe_put_ctrl (fun c m => store_be 8 (c + sizeof_ctrl_seg + 8) ts (store_be 4 (c + sizeof_ctrl_seg) i
    (memset (c + sizeof_ctrl_seg) 0 sizeof_psv_seg m))) b3 16 32); [|lia..].
  intros p m a Ha. unfold sizeof_ctrl_seg, sizeof_psv_seg.
  rewrite !store_be_outside, memset_outside by (simpl; lia). done.
Qed.

Lemma bsafe_finalize_common b : bsafe b (umr_finalize_common b).
Proof.
  unfold umr_finalize_common. etrans; [|auto with mkey]. etrans; [|apply bsafe_finalize]. auto with mkey.
Qed.

Lemma bsafe_suppress b : bsafe b (suppress_umr_completion b).
Proof.
  apply (bsafe_put_ctrl (fun c m => store_be 1 (c + 11) (Z.ldiff (load_be 1 (c + 11) m) MLX5_WQE_CTRL_CQ_UPDATE) m)
    b 11 12); [|lia..].
  intros p m a Ha. rewrite store_be_outside by (simpl; lia). done.
Qed.

Lemma bsafe_psvs tails block b : bsafe b (umr_finalize_and_set_psvs tails block b).
Proof.
  unfold umr_finalize_and_set_psvs. cbv zeta.
  set (b1 := umr_finalize_common _).
  assert (bsafe b b1) as H1 by (etrans; [apply bsafe_suppress|apply bsafe_finalize_common]).
  set (b2 := if negb (sig_type (sb_mem block) =? _) then _ else b1).
  assert (bsafe b b2) as H2.
  { unfold b2. destruct (negb (sig_type (sb_mem block) =? _)); [|exact H1]. etrans; [exact H1|apply bsafe_set_psv]. }
  clearbody b2. destruct (negb _); [|exact H2]. etrans; [exact H2|apply bsafe_set_psv].
Qed.

(** The segments of the open element *)
Lemma mkey_seg_blk qp : ring_ok qp -> is_blk qp (mkey_seg qp).
Proof.
  intros [Hw _ _ Hc]. unfold mkey_seg, umr_ctrl, sizeof_ctrl_seg, sizeof_umr_ctrl_seg.
  rewrite <- Z.add_assoc. change (16 + 48) with 64. by apply wrap_blk.
Qed.

(** A write in the UMR control or the mkey context segment *)
Lemma bsafe_umr_segs f b :
  (forall uc mk m a, (a < uc \/ uc + 48 <= a) -> (a < mk \/ mk + 64 <= a) -> f uc mk m a = m a) ->
  bsafe b (b_put (f (umr_ctrl (b_qp b)) (mkey_seg (b_qp b))) b).
Proof.
  intros Hf H. split_and!; [done|done|]. pose proof (ro_wf _ H) as Hw.
  pose proof (is_blk_in _ _ Hw (ro_ctrl _ H)). pose proof (is_blk_in _ _ Hw (mkey_seg_blk _ H)).
  intros a ?. apply Hf; unfold umr_ctrl, sizeof_ctrl_seg; lia.
Qed.

Lemma bsafe_enable_bsf n b : bsafe b (umr_enable_bsf n (umr_ctrl (b_qp b)) (mkey_seg (b_qp b)) b).
Proof.
  unfold umr_enable_bsf. set (b1 := b_set _ b). etrans; [|].
  - instantiate (1 := b1). unfold b1. auto with mkey.
  - apply (bsafe_umr_segs (fun uc mk m => or_be 4 (mk + 12) (2 ^ 30)
      (or_be 8 (uc + 8) MLX5_WQE_UMR_CTRL_MKEY_MASK_BSF_ENABLE (store_be 2 (uc + 6) (n / 16) m))) b1).
    intros. unfold or_be. rewrite !store_be_outside by (simpl; lia). done.
Qed.

(** * Sequences of calls *)

(** Octowords of the data of the open element *)
Definition klm (qp : mlx5_qp) (m : mem) : Z := load_be 2 (umr_ctrl qp + 4) m.

(** An element is being filled: its data starts a block and is a whole number of
    blocks long. *)
Definition filling (s : mst) : Prop :=
  is_blk (m_qp s) (cur_data (m_qp s)) /\
  0 <= klm (m_qp s) (b_mem (m_b s)) /\ klm (m_qp s) (b_mem (m_b s)) mod 4 = 0.

Definition keys_ok (s : mst) : Prop :=
  forall k a, mkey_crypto (m_keys s k) = Some a -> crypto_ok a.

(** Between two calls *)
Record minv (s : mst) : Prop := {
  mi_ring : ring_ok (m_qp s);
  mi_keys : keys_ok s;
  mi_open : is_Some (cur_mkey (m_qp s)) -> err (m_qp s) = 0 -> filling s
}.

(** From [s] the call returns, inside the ring, and keeps the invariant. *)
Definition msafe (s : mst) (o : option mst) : Prop :=
  exists s', o = Some s' /\ minv s' /\ geo (m_qp s') = geo (m_qp s) /\
    ring_frame (m_qp s) (b_mem (m_b s)) (b_mem (m_b s')).

Lemma msafe_intro s s' :
  ring_ok (m_qp s) -> keys_ok s' -> bsafe (m_b s) (m_b s') ->
  (is_Some (cur_mkey (m_qp s')) -> err (m_qp s') = 0 -> filling s') -> msafe s (Some s').
Proof.
  intros Hr Hk Hb Ho. destruct (Hb Hr) as (R & G & F). exists s'. by split_and!.
Qed.

Lemma msafe_step s s1 o : ring_ok (m_qp s) -> bsafe (m_b s) (m_b s1) -> msafe s1 o -> msafe s o.
Proof.
  intros Hr Hb (s' & -> & Hi & G & F). destruct (Hb Hr) as (R1 & G1 & F1).
  exists s'. split_and!; [done|done|unfold m_qp in *; congruence|].
  etrans; [exact F1|]. unfold geo, ring_frame, m_qp in *. injection G1 as E1 E2 _ _. by rewrite <- E1, <- E2.
Qed.

(** A refused call *)
Lemma msafe_fail e s : e <> 0 -> ring_ok (m_qp s) -> keys_ok s -> msafe s (Some (m_fail e s)).
Proof.
  intros He Hr Hk. apply msafe_intro; [done|done| |].
  - unfold m_fail, m_set, m_bset; simpl. auto with mkey.
  - simpl. intros _ E. done.
Qed.

Lemma cur_mkey_init_op t i o b : cur_mkey (b_qp (_common_wqe_init_op t i o b)) = cur_mkey (b_qp b).
Proof.
  unfold _common_wqe_init_op. cbv zeta. destruct (mlx5_wq_overflow _ _ _ _); [|done].
  unfold b_fail. by destruct (_ =? 0).
Qed.

Lemma cur_mkey_set_psv t i ts r b : cur_mkey (b_qp (mlx5_umr_set_psv t i ts r b)) = cur_mkey (b_qp b).
Proof.
  unfold mlx5_umr_set_psv. cbv zeta.
  destruct r; simpl; destruct (negb _); simpl; rewrite ?cur_mkey_init_op; done.
Qed.

Lemma cur_mkey_psvs tails block b : cur_mkey (b_qp (umr_finalize_and_set_psvs tails block b)) = None.
Proof.
  unfold umr_finalize_and_set_psvs. cbv zeta.
  destruct (negb (sig_type (sb_mem block) =? _)), (negb (sig_type (sb_wire block) =? _));
    rewrite ?cur_mkey_set_psv; done.
Qed.

Lemma finish_umr_safe tails p sig s :
  ring_ok (m_qp s) -> keys_ok s -> msafe s (Some (finish_umr tails p sig s)).
Proof.
  intros Hr Hk. assert (msafe s (Some (m_bset umr_finalize_common s))) as Hc.
  { apply msafe_intro; [done|done|apply bsafe_finalize_common|]. intros []. done. }
  unfold finish_umr. destruct sig as [c|]; [|done]. destruct p; [|done].
  apply msafe_intro; [done|done|apply bsafe_psvs|]. 
  unfold m_qp. simpl. rewrite cur_mkey_psvs. intros []. done.
Qed.

(** The error count *)
Lemma upd_frame c uc mk m a :
  (a < uc \/ uc + 48 <= a) -> (a < mk \/ mk + 64 <= a) -> (upd_mkc_sig_err_cnt c uc mk m).2 a = m a.
Proof.
  intros ??. unfold upd_mkc_sig_err_cnt, or_be. destruct (negb _); [done|]. simpl.
  rewrite !store_be_outside by (simpl; lia). done.
Qed.

(** Blocks are congruent: a field of one overlaps the same offsets of another. *)
Lemma blk_disjoint qp p q i j n k :
  is_blk qp p -> is_blk qp q -> 0 <= i -> 0 <= j -> i + n <= 64 -> j + k <= 64 ->
  i + n <= j \/ j + k <= i -> p + i + n <= q + j \/ q + j + k <= p + i.
Proof. intros (x & _ & ->) (y & _ & ->). lia. Qed.

Lemma klm_or qp n p v m :
  p + Z.of_nat n <= umr_ctrl qp + 4 \/ umr_ctrl qp + 6 <= p -> klm qp (or_be n p v m) = klm qp m.
Proof. intros ?. unfold klm, or_be. apply load_store_other. simpl. lia. Qed.

Lemma upd_klm c qp m :
  ring_ok qp -> klm qp (upd_mkc_sig_err_cnt c (umr_ctrl qp) (mkey_seg qp) m).2 = klm qp m.
Proof.
  intros Hr. unfold upd_mkc_sig_err_cnt. destruct (negb _); [done|]. simpl.
  pose proof (blk_disjoint qp _ _ 20 12 2 4 (ro_ctrl _ Hr) (mkey_seg_blk _ Hr)).
  rewrite !klm_or; [done|unfold umr_ctrl, sizeof_ctrl_seg; simpl; lia..].
Qed.

(** A change of the two segments of the open element that keeps its data size *)
Definition segs_only (qp : mlx5_qp) (m m' : mem) : Prop :=
  (forall a, (a < umr_ctrl qp \/ umr_ctrl qp + 48 <= a) -> (a < mkey_seg qp \/ mkey_seg qp + 64 <= a) -> m' a = m a) /\
  klm qp m' = klm qp m.

#[global] Instance segs_only_trans qp : Transitive (segs_only qp).
Proof. intros m1 m2 m3 [F1 K1] [F2 K2]. split; [|congruence]. intros. rewrite F2 by done. by apply F1. Qed.

Lemma segs_only_upd qp c m :
  ring_ok qp -> segs_only qp m (upd_mkc_sig_err_cnt c (umr_ctrl qp) (mkey_seg qp) m).2.
Proof. intros. split; [by intros; apply upd_frame|by apply upd_klm]. Qed.

Lemma segs_only_mask qp v m : segs_only qp m (or_be 8 (umr_ctrl qp + 8) v m).
Proof.
  split; [|apply klm_or; lia]. intros. unfold or_be. rewrite store_be_outside by (simpl; lia). done.
Qed.

Lemma bsafe_segs b m : (ring_ok (b_qp b) -> segs_only (b_qp b) (b_mem b) m) -> bsafe b (b_put (fun _ => m) b).
Proof.
  intros Hm H. split_and!; [done|done|]. pose proof (ro_wf _ H) as Hw. destruct (Hm H) as [F _].
  pose proof (is_blk_in _ _ Hw (ro_ctrl _ H)). pose proof (is_blk_in _ _ Hw (mkey_seg_blk _ H)).
  intros a ?. apply F; unfold umr_ctrl, sizeof_ctrl_seg; lia.
Qed.

(** The BSFs follow the data, in a block of the ring. *)
Lemma bsf_seg_blk qp mkey n m :
  ring_ok qp -> is_blk qp (cur_data qp) -> 0 <= klm qp m -> klm qp m mod 4 = 0 -> 0 <= n ->
  bsf_limits qp mkey n m = Ok -> is_blk qp (bsf_seg qp (cur_data_size qp m)).
Proof.
  intros [Hw Hi Hroom _] (i & Hi' & Ed) Hk Hk4 Hn. unfold bsf_limits, cur_data_size. fold (klm qp m).
  pose proof (wf_addr _ Hw). pose proof (wf_qend _ Hw) as Eq. unfold ring_len in *.
  rewrite u64_small by (unfold sizeof_inl_data_seg; lia).
  destruct (Z.ltb_spec (max_inline_data qp + sizeof_inl_data_seg) (klm qp m * 16 + n)) as [|Hle]; [done|intros _].
  unfold sizeof_inl_data_seg in Hle. unfold bsf_seg. rewrite get_send_wqe_eq, Ed, Eq.
  assert (exists q, klm qp m = 4 * q) as [q Eqq] by (exists (klm qp m / 4); div_lia).
  rewrite Eqq in *.
  destruct (Z.leb_spec (sq_start qp + 64 * wqe_cnt (sq qp)) (sq_start qp + 64 * i + 4 * q * 16)).
  - exists (i + q - wqe_cnt (sq qp)). lia.
  - exists (i + q). lia.
Qed.

(** One BSF in a block *)
Lemma bsafe_block {A} (f : mem -> A * mem) p b :
  Writes2 f p (p + 64) -> is_blk (b_qp b) p -> bsafe b (b_put (fun _ => (f (b_mem b)).2) b).
Proof.
  intros Hf Hp H. split_and!; [done|done|]. pose proof (is_blk_in _ _ (ro_wf _ H) Hp).
  intros a ?. apply Hf. lia.
Qed.

Lemma keys_ok_set k v s : (forall a, mkey_crypto v = Some a -> crypto_ok a) -> keys_ok s -> keys_ok (set_mkey k v s).
Proof. intros Hv Hs j a. simpl. destruct (j =? k); [apply Hv|apply Hs]. Qed.

Lemma fill_bsfs_safe sig ca sc seg b :
  ring_ok (b_qp b) -> crypto_ok ca -> is_blk (b_qp b) seg ->
  let r := fill_bsfs (b_qp b) sig ca sc seg (b_mem b) in
  r.1 <> Fault /\ bsafe b (b_put (fun _ => r.2) b).
Proof.
  intros Hr Hca Hseg. unfold fill_bsfs. destruct sig as [c|]; simpl.
  - pose proof (Writes_sig_bsf seg (sig_block c) sc) as Hw. pose proof (sig_bsf_no_fault seg (sig_block c) sc (b_mem b)) as Hn.
    pose proof (bsafe_block _ _ b Hw Hseg) as Hb.
    destruct (mlx5_umr_fill_sig_bsf _ _ _ _) as [o m1] eqn:E. simpl in *.
    destruct o; [|done|done]. destruct sc; [|done].
    assert (is_blk (b_qp b) (wrap_ptr (b_qp b) (seg + sizeof_bsf))) as Hseg2
      by (apply wrap_blk; [apply Hr|done]).
    split; [by apply crypto_bsf_no_fault|]. etrans; [exact Hb|].
    exact (bsafe_block _ _ (mk_b (b_qp b) m1) (Writes_crypto_bsf _ _ _ Hca) Hseg2).
  - destruct sc; [|split; [done|destruct b; reflexivity]].
    split; [by apply crypto_bsf_no_fault|]. exact (bsafe_block _ _ b (Writes_crypto_bsf _ _ _ Hca) Hseg).
Qed.

Lemma bsf_limits_err qp k n m e : bsf_limits qp k n m = Err e -> e <> 0.
Proof. unfold bsf_limits. destruct (_ <? _); [by intros [= <-]|]. destruct (_ <? _); [by intros [= <-]|done]. Qed.

Lemma bsf_limits_no_fault qp k n m : bsf_limits qp k n m <> Fault.
Proof. unfold bsf_limits. destruct (_ <? _); [done|]. by destruct (_ <? _). Qed.

Lemma sig_bsf_err bsf b c m e : (mlx5_umr_fill_sig_bsf bsf b c m).1 = Err e -> e <> 0.
Proof.
  unfold mlx5_umr_fill_sig_bsf, fill_wire_domain. cbv zeta. destruct (_ =? _); [done|].
  destruct (_ =? MLX5_SIG_TYPE_CRC);
    [destruct (mlx5_umr_block_crc_sbs _ _)|destruct (mlx5_umr_block_t10dif_sbs _ _)];
    try destruct (has_flag _ _); try done; by intros [= <-].
Qed.

Lemma fill_bsfs_err qp sig ca sc seg m e : (fill_bsfs qp sig ca sc seg m).1 = Err e -> e <> 0.
Proof.
  unfold fill_bsfs. destruct sig as [c|].
  - pose proof (sig_bsf_err seg (sig_block c) sc m) as He.
    destruct (mlx5_umr_fill_sig_bsf _ _ _ _) as [[|e'|] m1]; simpl in *.
    + destruct sc; [|done]. unfold mlx5_umr_fill_crypto_bsf. cbv zeta.
      destruct (get_crypto_order _ _ _); [by destruct (dek ca)|]. by intros [= <-].
    + intros [= ->]. by apply He.
    + done.
  - destruct sc; [|done]. unfold mlx5_umr_fill_crypto_bsf. cbv zeta.
    destruct (get_crypto_order _ _ _); [by destruct (dek ca)|]. by intros [= <-].
Qed.

(** The signature-only finalizer *)
Lemma sig_finalize_safe tails k s c :
  ring_ok (m_qp s) -> keys_ok s -> filling s ->
  mkey_crypto (m_keys s k) = None -> mkey_sig (m_keys s k) = Some c ->
  msafe s (umr_wqe_finalize tails k s).
Proof.
  intros Hr Hk (Hd & Hk0 & Hk4) Ec Es. unfold umr_wqe_finalize. rewrite Ec, Es. cbv zeta.
  set (m0 := if bool_decide _ || _ then _ else _).
  assert (Hm0 : m0 = b_mem (m_b s) \/ segs_only (m_qp s) (b_mem (m_b s)) m0)
    by (unfold m0; destruct (_ || _); [by left|right; apply segs_only_mask]).
  pose proof (segs_only_upd (m_qp s) c m0 Hr) as H1.
  destruct (upd_mkc_sig_err_cnt c _ _ m0) as [[upd c'] m1] eqn:Eu. simpl in H1.
  assert (segs_only (m_qp s) (b_mem (m_b s)) m1) as Hseg
    by (destruct Hm0 as [E|E]; [by rewrite <- E|by etrans]).
  set (s1 := m_put (fun _ => m1) _).
  assert (bsafe (m_b s) (m_b s1)) as Hb by (by apply bsafe_segs).
  assert (keys_ok s1) as Hk1 by (apply keys_ok_set; [by simpl; rewrite Ec|done]).
  assert (ring_ok (m_qp s1)) as Hr1 by exact Hr.
  destruct (negb _); [by apply (msafe_step s s1); [done|done|apply finish_umr_safe]|].
  destruct Hseg as [_ Hklm].
  destruct (bsf_limits _ _ _ m1) as [|e|] eqn:El.
  - assert (is_blk (m_qp s) (bsf_seg (m_qp s) (cur_data_size (m_qp s) m1))) as Hblk.
    { eapply bsf_seg_blk; [done|done|by rewrite Hklm|by rewrite Hklm| |exact El]. done. }
    set (seg := bsf_seg _ _) in *.
    pose proof (bsafe_block _ _ (m_b s1) (Writes_sig_bsf seg (sig_block c') false) Hblk) as Hb2.
    pose proof (sig_bsf_no_fault seg (sig_block c') false m1) as Hn.
    pose proof (sig_bsf_err seg (sig_block c') false m1) as He. simpl in Hb2.
    destruct (mlx5_umr_fill_sig_bsf _ _ _ m1) as [o m2]. simpl in *.
    assert (bsafe (m_b s) (m_b (m_put (fun _ => m2) s1))) as Hb3 by (etrans; [exact Hb|exact Hb2]).
    destruct o as [|e|]; [| |done].
    + apply msafe_intro; [done|done| |].
      * etrans; [exact Hb3|]. etrans; [|apply bsafe_psvs]. apply (bsafe_enable_bsf _ (m_b (m_put (fun _ => m2) s1))).
      * unfold m_qp. simpl. rewrite cur_mkey_psvs. intros []. done.
    + eapply msafe_step; [done|exact Hb3|]. apply msafe_fail; [by apply He|done|done].
  - eapply msafe_step; [done|exact Hb|]. apply msafe_fail; [by eapply bsf_limits_err|done|done].
  - by apply bsf_limits_no_fault in El.
Qed.

(** The finalizer of an mkey with crypto attributes *)
Lemma crypto_finalize_safe tails k s ca :
  ring_ok (m_qp s) -> keys_ok s -> filling s -> mkey_crypto (m_keys s k) = Some ca ->
  msafe s (crypto_umr_wqe_finalize tails k ca s).
Proof.
  intros Hr Hk (Hd & Hk0 & Hk4) Ec. unfold crypto_umr_wqe_finalize. cbv zeta.
  set (r := match mkey_sig (m_keys s k) with Some _ => _ | None => _ end).
  assert (Hseg : segs_only (m_qp s) (b_mem (m_b s)) r.2).
  { unfold r. destruct (mkey_sig (m_keys s k)) as [c|]; [|done].
    pose proof (segs_only_upd (m_qp s) c (b_mem (m_b s)) Hr) as H1.
    by destruct (upd_mkc_sig_err_cnt c _ _ _) as [[u c'] m]. }
  clearbody r. destruct r as [[upd sig] m1]. simpl in Hseg.
  set (s1 := m_put (fun _ => m1) _).
  assert (bsafe (m_b s) (m_b s1)) as Hb by (by apply bsafe_segs).
  assert (keys_ok s1) as Hk1 by (apply keys_ok_set; [exact (Hk k)|done]).
  assert (ring_ok (m_qp s1)) as Hr1 by exact Hr.
  destruct (_ && _); [by apply (msafe_step s s1); [done|done|apply finish_umr_safe]|].
  destruct Hseg as [_ Hklm]. set (n := _ + _). set (sc := bool_decide _ || _).
  assert (0 <= n) as Hn by (unfold n, sizeof_bsf, sizeof_crypto_bsf; destruct sig; destruct_ifs; lia). clearbody n.
  destruct (bsf_limits _ _ _ m1) as [|e|] eqn:El.
  - assert (is_blk (m_qp s) (bsf_seg (m_qp s) (cur_data_size (m_qp s) m1))) as Hblk
      by (eapply bsf_seg_blk; [done|done|by rewrite Hklm|by rewrite Hklm|exact Hn|exact El]).
    destruct (fill_bsfs_safe sig ca sc _ (m_b s1) Hr (Hk k ca Ec) Hblk) as [Hnf Hb2].
    change (b_mem (m_b s1)) with m1 in *. change (b_qp (m_b s1)) with (m_qp s) in *.
    pose proof (fill_bsfs_err (m_qp s) sig ca sc (bsf_seg (m_qp s) (cur_data_size (m_qp s) m1)) m1) as He.
    destruct (fill_bsfs _ _ _ _ _ m1) as [o m2]. simpl in *.
    assert (bsafe (m_b s) (m_b (m_put (fun _ => m2) s1))) as Hb3 by (etrans; [exact Hb|exact Hb2]).
    destruct o as [|e|]; [| |done].
    + eapply msafe_step; [done| |apply finish_umr_safe].
      * etrans; [exact Hb3|]. apply (bsafe_enable_bsf _ (m_b (m_put (fun _ => m2) s1))).
      * apply (bsafe_enable_bsf _ (m_b (m_put (fun _ => m2) s1))). exact Hr.
      * exact Hk1.
    + eapply msafe_step; [done|exact Hb3|]. apply msafe_fail; [by apply He|done|done].
  - eapply msafe_step; [done|exact Hb|]. apply msafe_fail; [by eapply bsf_limits_err|done|done].
  - by apply bsf_limits_no_fault in El.
Qed.

Lemma finalize_safe tails k s :
  ring_ok (m_qp s) -> keys_ok s -> filling s -> msafe s (umr_wqe_finalize tails k s).
Proof.
  intros Hr Hk Hf. destruct (mkey_crypto (m_keys s k)) as [ca|] eqn:Ec.
  { unfold umr_wqe_finalize. rewrite Ec. by apply crypto_finalize_safe. }
  destruct (mkey_sig (m_keys s k)) as [c|] eqn:Es; [by eapply sig_finalize_safe|].
  unfold umr_wqe_finalize. rewrite Ec, Es. by apply (finish_umr_safe tails false None).
Qed.

(** ** Layouts *)

(** [p] is the [o]-th unit boundary of the ring, its end included. *)
Definition at_o (qp : mlx5_qp) (o p : Z) : Prop := p = sq_start qp + 16 * o /\ 0 <= o <= 4 * wqe_cnt (sq qp).

Lemma wrap_at_o qp o p :
  sq_wf qp -> at_o qp o p ->
  exists o', at_o qp o' (wrap_ptr qp p) /\ o' < 4 * wqe_cnt (sq qp) /\ o' mod 4 = o mod 4.
Proof.
  intros Hw [-> Ho]. pose proof (wf_cnt_pos _ Hw). unfold wrap_ptr, at_o. rewrite get_send_wqe_eq, (wf_qend _ Hw).
  unfold ring_len. destruct (Z.eqb_spec (sq_start qp + 16 * o) (sq_start qp + 64 * wqe_cnt (sq qp))).
  - exists 0. split_and!; try lia. div_lia.
  - exists o. split_and!; lia.
Qed.

Lemma sg_list_loop_safe qp l o p bc m :
  sq_wf qp -> at_o qp o p ->
  let r := sg_list_loop qp l p bc m in
  (exists o', at_o qp o' r.1.1 /\ o' mod 4 = (o + Z.of_nat (length l)) mod 4) /\ ring_frame qp m r.2.
Proof.
  intros Hw. revert o p bc m. induction l as [|sg l IH]; intros o p bc m Ho.
  { simpl. split; [exists o; split; [done|f_equal; lia]|reflexivity]. }
  cbn [sg_list_loop]. destruct (wrap_at_o qp o p Hw Ho) as (o1 & [E1 H1] & Hlt & Hm).
  set (m1 := store_be 4 _ _ _).
  destruct (IH (o1 + 1) (wrap_ptr qp p + sizeof_data_seg) (s32 (bc + sge_length sg)) m1) as [(o' & Ho' & Hmod) F].
  { split; unfold sizeof_data_seg; lia. }
  split.
  - exists o'. split; [exact Ho'|]. rewrite Hmod. cbn [length]. div_lia.
  - etrans; [|exact F]. pose proof (wf_qend _ Hw). unfold ring_len in *.
    intros a ?. unfold m1. rewrite !store_be_outside by (simpl; lia). done.
Qed.

Lemma strided_loop_safe qp l o p bc m :
  sq_wf qp -> at_o qp o p ->
  let r := strided_loop qp l p bc m in
  (exists o', at_o qp o' r.1.1 /\ o' mod 4 = (o + Z.of_nat (length l)) mod 4) /\ ring_frame qp m r.2.
Proof.
  intros Hw. revert o p bc m. induction l as [|d l IH]; intros o p bc m Ho.
  { simpl. split; [exists o; split; [done|f_equal; lia]|reflexivity]. }
  cbn [strided_loop]. destruct (wrap_at_o qp o p Hw Ho) as (o1 & [E1 H1] & Hlt & Hm).
  set (m1 := store_be 4 _ _ _).
  destruct (IH (o1 + 1) (wrap_ptr qp p + 16) (u64 (bc + il_bytes_count d)) m1) as [(o' & Ho' & Hmod) F].
  { split; lia. }
  split.
  - exists o'. split; [exact Ho'|]. rewrite Hmod. cbn [length]. div_lia.
  - etrans; [|exact F]. pose proof (wf_qend _ Hw). unfold ring_len in *.
    intros a ?. unfold m1. rewrite !store_be_outside by (simpl; lia). done.
Qed.

(** The padding that completes the last block stays in it. *)
Lemma pad_safe qp o p n m :
  sq_wf qp -> at_o qp o p -> o mod 4 = n mod 4 -> 0 <= n < 2 ^ 63 ->
  ring_frame qp m (memset p 0 ((align n 4 - n) * 16) m).
Proof.
  intros Hw [-> Ho] Hm Hn a Ha. pose proof (wf_qend _ Hw). unfold ring_len in *.
  rewrite align_4 by done. apply memset_outside. div_lia.
Qed.

Lemma create_layout_safe qp l m :
  sq_wf qp -> is_blk qp (cur_data qp) -> num_entries l < 2 ^ 16 -> ring_frame qp m (create_layout qp l m).2.
Proof.
  intros Hw (i & Hi & Ed) Hn. pose proof (wf_qend _ Hw). unfold ring_len in *.
  destruct l as [rc d|d]; simpl in *; unfold umr_strided_seg_create, umr_sg_list_create.
  - set (m1 := store_be 4 (cur_data qp + 8) _ _).
    assert (F1 : ring_frame qp m m1)
      by (intros a ?; unfold m1; rewrite !store_be_outside by (simpl; lia); done).
    destruct (strided_loop_safe qp d (4 * i + 1) (cur_data qp + 16) 0 m1 Hw) as [(o & Ho & Hmod) F2].
    { split; lia. }
    destruct (strided_loop _ _ _ _ _) as [[eb bc] m2]. simpl in *.
    etrans; [exact F1|]. etrans; [exact F2|]. etrans; [|].
    + instantiate (1 := store_be 4 (cur_data qp) (u32 bc) m2). intros a ?.
      rewrite store_be_outside by (simpl; lia). done.
    + replace (align (Z.of_nat (length d) + 1) 4 - Z.of_nat (length d) - 1)
        with (align (Z.of_nat (length d) + 1) 4 - (Z.of_nat (length d) + 1)) by lia.
      apply (pad_safe qp o); [done|done| |lia]. rewrite Hmod. div_lia.
  - destruct (sg_list_loop_safe qp d (4 * i) (cur_data qp) 0 m Hw) as [(o & Ho & Hmod) F2].
    { split; lia. }
    destruct (sg_list_loop _ _ _ _ _) as [[dseg bc] m2]. simpl in *.
    etrans; [exact F2|]. apply (pad_safe qp o); [done|done| |lia]. rewrite Hmod. div_lia.
Qed.

(** ** The calls *)

Lemma count_setter_safe tails k s :
  ring_ok (m_qp s) -> keys_ok s -> filling s -> msafe s (count_setter tails k s).
Proof.
  intros Hr Hk Hf. unfold count_setter. set (s1 := m_set _ s).
  assert (bsafe (m_b s) (m_b s1)) as Hb by (unfold s1, m_set, m_bset; simpl; auto with mkey).
  assert (filling s1) as Hf1 by exact Hf.
  assert (ring_ok (m_qp s1)) as Hr1 by (by apply Hb).
  eapply msafe_step; [done|exact Hb|]. destruct (_ =? _); [by apply finalize_safe|].
  apply msafe_intro; [done|done|reflexivity|done].
Qed.

Lemma setter_guard_safe s f :
  minv s -> (forall k, cur_mkey (m_qp s) = Some k -> err (m_qp s) = 0 -> filling s -> msafe s (f k)) ->
  msafe s (setter_guard s f).
Proof.
  intros [Hr Hk Ho] Hf. unfold setter_guard. destruct (Z.eqb_spec (err (m_qp s)) 0) as [E|E]; simpl.
  - destruct (cur_mkey (m_qp s)) as [k|] eqn:Em; [|by apply msafe_fail].
    apply Hf; [done|done|]. by apply Ho; [eexists|].
  - apply msafe_intro; [done|done|reflexivity|done].
Qed.

Lemma access_flags_safe tails fl s : minv s -> msafe s (mlx5_send_wr_set_mkey_access_flags tails fl s).
Proof.
  intros Hi. apply setter_guard_safe; [done|]. intros k Hk He (Hd & H0 & H4). destruct Hi as [Hr Hks _]. cbv beta zeta.
  destruct (negb _); [by apply msafe_fail|]. destruct (negb _); [by apply msafe_fail|].
  set (f := fun m => store_be 1 _ _ (or_be _ _ _ m)).
  assert (Hm : segs_only (m_qp s) (b_mem (m_b s)) (f (b_mem (m_b s)))).
  { pose proof (blk_disjoint (m_qp s) _ _ 20 2 2 1 (ro_ctrl _ Hr) (mkey_seg_blk _ Hr)).
    etrans; [apply (segs_only_mask (m_qp s) access_flags_mask)|]. split.
    - intros a ??. unfold f. rewrite store_be_outside by (simpl; lia). done.
    - unfold klm, f. apply load_store_other. unfold umr_ctrl, sizeof_ctrl_seg. simpl. lia. }
  eapply msafe_step; [done| |apply count_setter_safe].
  - apply (bsafe_segs (m_b s)). done.
  - exact Hr.
  - exact Hks.
  - destruct Hm as [_ Hm]. split; [exact Hd|].
    change (0 <= klm (m_qp s) (f (b_mem (m_b s))) /\ klm (m_qp s) (f (b_mem (m_b s))) mod 4 = 0).
    rewrite Hm. done.
Qed.

Lemma layout_xlat qp l m : (create_layout qp l m).1.1.2 = 16 * (num_entries l + match l with Interleaved _ _ => 1 | SgeList _ => 0 end).
Proof.
  destruct l as [rc d|d]; simpl; unfold umr_strided_seg_create, umr_sg_list_create, sizeof_data_seg.
  - destruct (strided_loop _ _ _ _ _) as [[? ?] ?]. simpl. lia.
  - destruct (sg_list_loop _ _ _ _ _) as [[? ?] ?]. simpl. lia.
Qed.

Lemma num_entries_nonneg l : 0 <= num_entries l.
Proof. destruct l; simpl; lia. Qed.

Lemma layout_safe tails l s : minv s -> msafe s (mlx5_send_wr_set_mkey_layout tails l s).
Proof.
  intros Hi. apply setter_guard_safe; [done|]. intros k Hk He (Hd & _). destruct Hi as [Hr Hks _]. cbv beta zeta.
  destruct (Z.ltb_spec (max_entries (m_qp s) (m_keys s k) l) (num_entries l)) as [|Hn]; [by apply msafe_fail|].
  destruct (negb _); [by apply msafe_fail|].
  assert (Hn16 : num_entries l < 2 ^ 16).
  { unfold max_entries in Hn. match type of Hn with _ <= u16 ?x => pose proof (u16_range x) end. lia. }
  pose proof (create_layout_safe (m_qp s) l (b_mem (m_b s)) (ro_wf _ Hr) Hd Hn16) as F.
  pose proof (layout_xlat (m_qp s) l (b_mem (m_b s))) as Hx. pose proof (num_entries_nonneg l).
  destruct (create_layout _ _ _) as [[[size xlat] reglen] m1]. simpl in F, Hx.
  set (m2 := store_be 2 _ _ _).
  assert (F2 : ring_frame (m_qp s) (b_mem (m_b s)) m2).
  { etrans; [exact F|]. pose proof (is_blk_in _ _ (ro_wf _ Hr) (ro_ctrl _ Hr)).
    pose proof (is_blk_in _ _ (ro_wf _ Hr) (mkey_seg_blk _ Hr)).
    intros a ?. unfold m2, or_be, umr_ctrl, sizeof_ctrl_seg. rewrite !store_be_outside by (simpl; lia). done. }
  eapply msafe_step; [done| |apply count_setter_safe].
  - intros _. assert (ring_ok (add_cur_size (size / 16) (m_qp s))) as R by (by apply (ring_ok_ext (m_qp s))).
    split_and!; [exact R|done|exact F2].
  - by apply (ring_ok_ext (m_qp s)).
  - apply keys_ok_set; [|done]. exact (Hks k).
  - split; [exact Hd|].
    change (0 <= klm (m_qp s) m2 /\ klm (m_qp s) m2 mod 4 = 0).
    unfold klm, m2. rewrite load_store_same. change (2 ^ (8 * Z.of_nat 2)) with (2 ^ 16).
    rewrite align_64 by (rewrite Hx; destruct l; lia).
    set (q := (xlat + 63) / 64). replace (64 * q / 16) with (4 * q) by div_lia. split; div_lia.
Qed.

Lemma sig_block_safe tails a s : minv s -> msafe s (mlx5_send_wr_set_mkey_sig_block tails a s).
Proof.
  intros Hi. apply setter_guard_safe; [done|]. intros k Hk He Hf. destruct Hi as [Hr Hks _]. cbv beta zeta.
  destruct (mkey_sig (m_keys s k)) as [c|]; [|by apply msafe_fail].
  repeat (case_match; [by apply msafe_fail|]).
  eapply msafe_step; [done| |apply count_setter_safe]; [reflexivity|done| |done].
  apply keys_ok_set; [|done]. exact (Hks k).
Qed.

(** A caller's crypto attributes, as their C types fix them *)
Definition dca_ok (a : mlx5dv_crypto_attr) : Prop :=
  length (dca_initial_tweak a) = 16%nat /\ length (dca_keytag a) = 8%nat /\ is_Some (dca_dek a).

Lemma crypto_safe tails a s : dca_ok a -> minv s -> msafe s (mlx5_send_wr_set_mkey_crypto tails a s).
Proof.
  intros Ha Hi. apply setter_guard_safe; [done|]. intros k Hk He Hf. destruct Hi as [Hr Hks _]. cbv beta zeta.
  destruct (mkey_crypto (m_keys s k)) as [c|]; [|by apply msafe_fail].
  repeat (case_match; [by apply msafe_fail|]).
  eapply msafe_step; [done| |apply count_setter_safe]; [reflexivity|done| |done].
  apply keys_ok_set; [|done]. intros a' [= <-]. exact Ha.
Qed.

Lemma open_umr_klm qp mk lkey m :
  is_blk qp (cur_ctrl qp) -> is_blk qp mk -> klm qp (open_umr (umr_ctrl qp) mk lkey m) = 0.
Proof.
  intros Hc Hm. pose proof (blk_disjoint qp _ _ 20 4 2 4 Hc Hm). unfold klm, open_umr. cbv zeta.
  rewrite !load_store_other by (unfold umr_ctrl, sizeof_ctrl_seg; simpl; lia).
  assert (forall a, umr_ctrl qp <= a < umr_ctrl qp + 48 ->
    memset mk 0 sizeof_mkey_context_seg (memset (umr_ctrl qp) 0 sizeof_umr_ctrl_seg m) a = 0) as E.
  { intros a ?. unfold memset, sizeof_mkey_context_seg, sizeof_umr_ctrl_seg. destruct_ifs; (done || lia). }
  unfold load_be. rewrite !E by lia. done.
Qed.

Lemma filling_ext s s' :
  sq (m_qp s') = sq (m_qp s) -> sq_start (m_qp s') = sq_start (m_qp s) -> cur_ctrl (m_qp s') = cur_ctrl (m_qp s) ->
  cur_data (m_qp s') = cur_data (m_qp s) -> b_mem (m_b s') = b_mem (m_b s) -> filling s -> filling s'.
Proof.
  intros E1 E2 E3 E4 E5. unfold filling, is_blk, klm, umr_ctrl. by rewrite E1, E2, E3, E4, E5.
Qed.

Lemma filling_zero s : is_blk (m_qp s) (cur_data (m_qp s)) -> klm (m_qp s) (b_mem (m_b s)) = 0 -> filling s.
Proof. intros Hd E. split; [done|]. by rewrite E. Qed.

Lemma klm_ctrl q q' m : cur_ctrl q' = cur_ctrl q -> klm q' m = klm q m.
Proof. intros E. unfold klm, umr_ctrl. by rewrite E. Qed.

Lemma conf_open_bsafe k s : bsafe (m_b s) (m_b (conf_open k s)).
Proof.
  unfold conf_open, m_set, m_put, m_bset; simpl. etrans; [|auto with mkey].
  set (b1 := b_set (set_cur_mkey (Some k)) (m_b s)).
  assert (bsafe (m_b s) b1) as H1 by (unfold b1; auto with mkey). etrans; [exact H1|].
  intros R. split_and!; [done|done|]. pose proof (is_blk_in _ _ (ro_wf _ R) (ro_ctrl _ R)).
  pose proof (is_blk_in _ _ (ro_wf _ R) (mkey_seg_blk _ R)). intros a Ha.
  change (m_qp {| m_b := b1; m_keys := m_keys s |}) with (b_qp b1).
  assert (cur_ctrl (b_qp (m_b s)) = cur_ctrl (b_qp b1)) as E by done. clearbody b1. simpl. rewrite ?E.
  unfold open_umr, umr_ctrl, sizeof_ctrl_seg, sizeof_umr_ctrl_seg, sizeof_mkey_context_seg in *. cbv zeta.
  rewrite !store_be_outside, !memset_outside, store_be_outside by (simpl; lia). done.
Qed.

Lemma conf_open_filling k s : ring_ok (m_qp s) -> filling (conf_open k s).
Proof.
  intros R. set (q1 := set_cur_mkey (Some k) (m_qp s)).
  assert (ring_ok q1) as R1 by (by apply (ring_ok_ext (m_qp s))).
  pose proof (mkey_seg_blk _ R1) as Hmk.
  apply filling_zero.
  - change (is_blk q1 (wrap_ptr q1 (mkey_seg q1 + 64))). apply wrap_blk; [apply R1|done].
  - rewrite (klm_ctrl q1) by reflexivity. apply open_umr_klm; [apply R1|done].
Qed.

Lemma conf_attrs_keys k fl s : keys_ok s -> keys_ok (conf_attrs k fl s).
Proof.
  intros K. apply keys_ok_set; [|done]. simpl. intros a Ha. apply fmap_Some in Ha as (a0 & Ha & ->).
  pose proof (K k a0 Ha) as Hok. unfold conf_crypto. by destruct (bool_decide _).
Qed.

Lemma set_setters_safe n s : ring_ok (m_qp s) -> keys_ok s -> filling s ->
  msafe s (Some (m_set (fun qp => set_num_mkey_setters n (set_cur_setters_cnt 0 qp)) s)).
Proof.
  intros R K F. apply msafe_intro; [done|done|unfold m_set, m_bset; simpl; auto with mkey|].
  intros _ _. by apply (filling_ext s).
Qed.

Lemma conf_attrs_safe tails k n fl s :
  ring_ok (m_qp s) -> keys_ok s -> filling s ->
  msafe s (let s := conf_attrs k fl s in
           if n =? 0 then umr_wqe_finalize tails k s
           else Some (m_set (fun qp => set_num_mkey_setters n (set_cur_setters_cnt 0 qp)) s)).
Proof.
  intros R K F. pose proof (conf_attrs_keys k fl s K) as K3. cbv zeta.
  assert (F3 : filling (conf_attrs k fl s)) by (by apply (filling_ext s)).
  apply (msafe_step s (conf_attrs k fl s)); [done|reflexivity|].
  destruct (n =? 0); [by apply finalize_safe|by apply set_setters_safe].
Qed.

Lemma configure_safe t tails k n attr s :
  minv s -> msafe s (mlx5_send_wr_mkey_configure t tails k n attr s).
Proof.
  intros [Hr Hk _]. unfold mlx5_send_wr_mkey_configure.
  destruct (negb _); [by apply msafe_fail|]. destruct (_ || _); [by apply msafe_fail|].
  pose proof (bsafe_init t IBV_WR_DRIVER1 (m_b s)) as Hb.
  apply (msafe_step s (m_bset (_common_wqe_init t IBV_WR_DRIVER1) s)); [done|exact Hb|].
  set (s1 := m_bset _ s). assert (R1 : ring_ok (m_qp s1)) by (by apply Hb).
  apply (msafe_step s1 (conf_open k s1)); [done|apply conf_open_bsafe|].
  apply conf_attrs_safe; [by apply conf_open_bsafe|exact Hk|by apply conf_open_filling].
Qed.

(** The calls of a session *)
Inductive mop : Type :=
| MConf (t : Z * Z) (tails : nat -> Z * Z) (k n : Z) (attr : mlx5dv_mkey_conf_attr)
| MAccess (tails : nat -> Z * Z) (fl : Z)
| MLayout (tails : nat -> Z * Z) (l : mkey_layout)
| MSig (tails : nat -> Z * Z) (a : mlx5dv_sig_block_attr)
| MCrypto (tails : nat -> Z * Z) (a : mlx5dv_crypto_attr)
| MFlags (f : Z).

Definition m_step (o : mop) : mst -> option mst :=
  match o with
  | MConf t tails k n attr => mlx5_send_wr_mkey_configure t tails k n attr
  | MAccess tails fl => mlx5_send_wr_set_mkey_access_flags tails fl
  | MLayout tails l => mlx5_send_wr_set_mkey_layout tails l
  | MSig tails a => mlx5_send_wr_set_mkey_sig_block tails a
  | MCrypto tails a => mlx5_send_wr_set_mkey_crypto tails a
  | MFlags f => fun s => Some (m_set (set_ex_wr_flags f) s)
  end.

Fixpoint m_run (ops : list mop) (s : mst) : option mst :=
  match ops with [] => Some s | o :: ops => s' ← m_step o s; m_run ops s' end.

Definition mop_ok (o : mop) : Prop := match o with MCrypto _ a => dca_ok a | _ => True end.

Lemma m_step_safe o s : mop_ok o -> minv s -> msafe s (m_step o s).
Proof.
  intros Ho Hi. destruct o; simpl; eauto using configure_safe, access_flags_safe, layout_safe, sig_block_safe, crypto_safe.
  destruct Hi as [Hr Hk Hf]. apply msafe_intro; [done|done|unfold m_set, m_bset; simpl; auto with mkey|].
  intros H1 H2. apply (filling_ext s); [done..|]. exact (Hf H1 H2).
Qed.

(** C19.  Memory-key configuration is memory safe.  Any sequence of
    [mkey_configure] and setter calls, in any order, with any arguments and however
    full the queue (the element may wrap at any point, refused calls included),
    returns and writes only bytes of the ring, and leaves the queue in a state from
    which the next call is safe again.  The ring must have room for the three fixed
    segments and the inline data the queue was created for; a crypto attribute must
    name a key. *)
Theorem mkey_memory_safe ops s :
  Forall mop_ok ops -> minv s ->
  exists s', m_run ops s = Some s' /\ minv s' /\
    forall a, a < sq_start (m_qp s) \/ qend (sq (m_qp s)) <= a -> b_mem (m_b s') a = b_mem (m_b s) a.
Proof.
  intros Hops. revert s. induction Hops as [|o ops Ho Hops IH]; intros s Hi; [by exists s|].
  destruct (m_step_safe o s Ho Hi) as (s1 & E1 & Hi1 & G & F).
  destruct (IH s1 Hi1) as (s' & E' & Hi' & F'). exists s'. simpl. rewrite E1. simpl. split_and!; [done|done|].
  intros a Ha. unfold geo in G. injection G as E2 E3 _ _. rewrite F' by (rewrite E2, E3; done). by apply F.
Qed.

(** A queue of four blocks with 64 bytes of inline data, and an mkey with
    signature and crypto attributes *)
Definition demo_domain (ty : Z) : mlx5_sig_block_domain :=
  mk_sd ty (mk_dif 0 0xffff 7 9 0) (mk_crc 0 0) 0.
Definition demo_sig : mlx5_sig_ctx :=
  mk_sctx (mk_sb 0x11 0x22 (demo_domain 0) (demo_domain 0) 0 0xff 0 BSF_INIT) 1 true.
Definition demo_crypto : mlx5_crypto_attr :=
  mk_ca 0 true 1 0 (replicate 16 3) (Some 0x55) (replicate 8 4) BSF_INIT.
Definition demo_mkey : mlx5_mkey := mk_mkey 0x100 8 0 (Some demo_sig) (Some demo_crypto).
Definition demo_mst (post : Z) : mst :=
  mk_m (mk_b (set_ex_wr_flags (IBV_SEND_INLINE + IBV_SEND_SIGNALED)
                (set_cur_ctrl 4096 (demo_qp IBV_QPT_RC post))) (fun a => a mod 256)) (fun _ => demo_mkey).

Lemma mkey_memory_safe_witness :
  let ops := [MConf (0, 0) (fun _ => (0, 0)) 1 3 (mk_conf 0 0); MAccess (fun _ => (0, 0)) 5;
              MSig (fun _ => (0, 0)) (mk_dva (Some (mk_dvd 1 (mk_dif 0 0 0 0 0) (mk_crc 0 0) 0 0)) None 0 255 0 0);
              MLayout (fun _ => (0, 0)) (SgeList [mk_sge 8192 64 1])] in
  let s := demo_mst 3 in
  exists s', m_run ops s = Some s' /\ minv s' /\
    forall a, a < sq_start (m_qp s) \/ qend (sq (m_qp s)) <= a -> b_mem (m_b s') a = b_mem (m_b s) a.
Proof.
  intros ops s. apply (mkey_memory_safe ops s); [repeat constructor|].
  split.
  - split; [|by vm_compute|by vm_compute|exists 0; by vm_compute].
    destruct (demo_wf IBV_QPT_RC 3 ltac:(lia)). by split.
  - intros k a [= <-]. by split_and!; [..|eexists].
  - intros [k Hk] _. discriminate Hk.
Defined.

(** * The data layout *)

Section Layout.
#[local] Set Default Proof Using "Type*".
Context (qp : mlx5_qp) (Hw : sq_wf qp) (idx : Z) (Hidx : 0 <= idx < wqe_cnt (sq qp)).
#[local] Abbreviation unit k := (unit_at qp (ctrl_of qp idx) k).

(** [p] stands at unit [k], before or after the wrap. *)
Definition p_unit (k p : Z) : Prop := p = unit k \/ (p = qend (sq qp) /\ unit k = sq_start qp).

Lemma wrap_p_unit k p : p_unit k p -> wrap_ptr qp p = unit k.
Proof.
  intros H. pose proof (unit_at_range qp Hw idx Hidx k). unfold wrap_ptr. rewrite get_send_wqe_eq.
  destruct (Z.eqb_spec p (qend (sq qp))); destruct H as [?|[? ?]]; lia.
Qed.

Lemma p_unit_next k : p_unit (k + 1) (unit k + 16).
Proof. destruct (unit_at_next qp Hw idx Hidx k) as [E|[E1 E2]]; [by left|by right]. Qed.

Definition sge_sum (l : list ibv_sge) : Z := sumZ sge_length l.

Lemma s32_add x y : s32 (s32 x + y) = s32 (x + y).
Proof.
  unfold s32. replace ((x + 2 ^ 31) mod 2 ^ 32 - 2 ^ 31 + y + 2 ^ 31) with ((x + 2 ^ 31) mod 2 ^ 32 + y) by lia.
  rewrite Zplus_mod_idemp_l. do 2 f_equal. lia.
Qed.

Lemma sg_list_loop_at l k p bc m :
  Forall sge_range l -> p_unit k p -> 0 <= k -> k + Z.of_nat (length l) <= 4 * wqe_cnt (sq qp) ->
  let r := sg_list_loop qp l p (s32 bc) m in
  p_unit (k + Z.of_nat (length l)) r.1.1 /\ r.1.2 = s32 (bc + sge_sum l) /\
  (forall i sg, l !! i = Some sg ->
     read_data r.2 (unit (k + Z.of_nat i)) = (sge_length sg, sge_lkey sg, sge_addr sg)) /\
  (forall a, outside_units qp idx k (Z.of_nat (length l)) a -> r.2 a = m a).
Proof.
  revert k p bc m. induction l as [|sg l IH]; intros k p bc m Hl Hp Hk Hfit.
  { unfold sge_sum. simpl. rewrite !Z.add_0_r. split_and!; done. }
  apply Forall_cons in Hl as [(R1 & R2 & R3) Hl]. cbn [sg_list_loop]. rewrite (wrap_p_unit k p Hp).
  set (m1 := store_be 4 (unit k) _ _).
  assert (Hrd : read_data m1 (unit k) = (sge_length sg, sge_lkey sg, sge_addr sg)).
  { unfold read_data, m1. load_solve. by rewrite !Z.mod_small by (simpl; lia). }
  assert (Hfr : forall a, a < unit k \/ unit k + 16 <= a -> m1 a = m a)
    by (intros a ?; unfold m1; rewrite !store_be_outside by (simpl; lia); done).
  rewrite s32_add. cbn [length] in Hfit.
  destruct (IH (k + 1) (unit k + sizeof_data_seg) (bc + sge_length sg) m1) as (H1 & H2 & H3 & H4);
    [done|apply p_unit_next|lia|lia|].
  cbv zeta in *. split_and!.
  - cbn [length]. replace (k + Z.of_nat (S (length l))) with (k + 1 + Z.of_nat (length l)) by lia. done.
  - rewrite H2. unfold sge_sum. simpl. f_equal. lia.
  - intros [|i] sg' Hi; simpl in Hi.
    + injection Hi as <-. rewrite Z.add_0_r, <- Hrd. apply read_data_ext. intros a Ha. apply H4. intros j Hj.
      destruct (unit_at_inj qp Hw idx Hidx k (k + 1 + j)); lia.
    + rewrite <- (H3 i sg' Hi). f_equal. f_equal. lia.
  - intros a Ha. rewrite H4.
    + apply Hfr. specialize (Ha 0). rewrite Z.add_0_r in Ha. apply Ha. cbn [length]. lia.
    + intros j Hj. specialize (Ha (j + 1)). replace (k + 1 + j) with (k + (j + 1)) by lia. apply Ha.
      cbn [length]. lia.
Qed.

(** Consecutive units of a block are consecutive in memory. *)
Lemma unit_in_block k j : k mod 4 = 0 -> 0 <= j < 4 -> unit (k + j) = unit k + 16 * j.
Proof.
  intros Hk Hj. rewrite !unit_at_pos by done. unfold unit_pos. pose proof (wf_cnt_pos _ Hw).
  set (n := wqe_cnt (sq qp)) in *. replace (4 * idx + k) with (4 * (idx + k / 4)) by div_lia.
  replace (4 * idx + (k + j)) with (4 * (idx + k / 4) + j) by div_lia. set (x := idx + k / 4).
  rewrite Z.mul_mod_distr_l by lia.
  assert ((4 * x + j) mod (4 * n) = 4 * (x mod n) + j) as ->; [|lia].
  symmetry. apply (Z.mod_unique_pos _ _ (x / n)).
  - pose proof (Z.mod_pos_bound x n ltac:(lia)). lia.
  - pose proof (Z.div_mod x n ltac:(lia)). lia.
Qed.

End Layout.

(** The scatter list of an mkey layout round-trips.  From a block of the
    element, [umr_sg_list_create] leaves one translation entry per scatter entry in
    ring order, zero entries up to the next multiple of four, and nothing else
    changed; it returns the sizes of what it wrote. *)
Theorem umr_sg_list_round_trip qp idx l k m :
  sq_wf qp -> 0 <= idx < wqe_cnt (sq qp) -> Forall sge_range l -> 0 <= k -> k mod 4 = 0 ->
  let u := unit_at qp (mlx5_get_send_wqe qp idx) in
  let n := Z.of_nat (length l) in
  let pad := 4 * ((n + 3) / 4) in
  n < 2 ^ 16 -> k + pad <= 4 * wqe_cnt (sq qp) ->
  let '(size, xlat_size, reglen, m') := umr_sg_list_create qp l (u k) m in
  size = 16 * pad /\ xlat_size = 16 * n /\
  (forall i sg, l !! i = Some sg -> read_data m' (u (k + Z.of_nat i)) = (sge_length sg, sge_lkey sg, sge_addr sg)) /\
  (forall i, n <= i < pad -> read_data m' (u (k + i)) = (0, 0, 0)) /\
  (forall a, outside_units qp idx k pad a -> m' a = m a).
Proof.
  intros Hw Hidx Hl Hk Hk4 u n pad Hn Hfit. unfold umr_sg_list_create. fold n.
  destruct (sg_list_loop_at qp Hw idx Hidx l k (u k) 0 m Hl (or_introl eq_refl) Hk) as (H1 & _ & H3 & H4);
    [fold n; unfold pad in *; div_lia|].
  change (s32 0) with 0 in *. cbv zeta in *. fold n in H1, H4.
  destruct (sg_list_loop qp l (u k) 0 m) as [[dseg bc] m1]. simpl in H1, H3, H4.
  assert (0 <= n) as Hn0 by lia. rewrite align_64, align_4 by (unfold sizeof_data_seg; lia).
  fold pad. unfold sizeof_data_seg.
  assert (Hpad : n mod 4 <> 0 -> forall i, n <= i < pad -> u (k + i) = dseg + 16 * (i - n)).
  { intros Hm i Hi. set (b := 4 * (n / 4)).
    assert (Eu : forall j, 0 <= j < 4 -> u (k + b + j) = u (k + b) + 16 * j)
      by (intros; apply (unit_in_block qp Hw idx Hidx); [unfold b|]; div_lia).
    assert (dseg = u (k + n)) as ->.
    { destruct H1 as [?|[_ E]]; [done|exfalso]. pose proof (unit_at_range qp Hw idx Hidx (k + b)) as [? _].
      change (u (k + n) = sq_start qp) in E.
      replace (k + n) with (k + b + (n - b)) in E by lia. rewrite Eu in E by (unfold b; div_lia).
      change (unit_at qp (ctrl_of qp idx) (k + b)) with (u (k + b)) in *. unfold b in *. div_lia. }
    replace (k + i) with (k + b + (i - b)) by lia. replace (k + n) with (k + b + (n - b)) by lia.
    unfold pad, b in *. rewrite !Eu by div_lia. lia. }
  assert (Hsame : forall a, (forall i, n <= i < pad -> a < u (k + i) \/ u (k + i) + 16 <= a) ->
    memset dseg 0 ((pad - n) * 16) m1 a = m1 a).
  { intros a Ha. destruct (decide (n mod 4 = 0)) as [E|E].
    - apply memset_outside. unfold pad. div_lia.
    - specialize (Hpad E). unfold memset. destruct_ifs; [exfalso|done].
      specialize (Ha (n + (a - dseg) / 16)). rewrite Hpad in Ha by div_lia. div_lia. }
  split_and!.
  - unfold pad. div_lia.
  - lia.
  - intros i sg Hi. rewrite <- (H3 i sg Hi). apply read_data_ext. intros a Ha. apply Hsame. intros j Hj.
    apply lookup_lt_Some in Hi.
    assert (Z.of_nat i < n <= pad) as Hin by (unfold pad, n; clear -Hi; div_lia).
    pose proof (unit_at_inj qp Hw idx Hidx (k + Z.of_nat i) (k + j) ltac:(lia) ltac:(lia) ltac:(lia)) as D.
    change (unit_at qp (ctrl_of qp idx)) with u in *. lia.
  - intros i Hi. assert (n mod 4 <> 0) as E by (unfold pad in Hi; div_lia). rewrite (Hpad E i Hi).
    assert (forall a, dseg + 16 * (i - n) <= a < dseg + 16 * (i - n) + 16 ->
      memset dseg 0 ((pad - n) * 16) m1 a = 0) as Hz.
    { intros a Ha. unfold memset. destruct_ifs; [done|lia]. }
    unfold read_data, load_be. rewrite !Hz by lia. done.
  - intros a Ha. rewrite Hsame by (intros i Hi; apply Ha; lia). apply H4. intros j Hj. apply Ha. unfold pad. div_lia.
Qed.

Lemma umr_sg_list_round_trip_witness :
  let qp := demo_qp IBV_QPT_RC 3 in
  let u := unit_at qp (mlx5_get_send_wqe qp 2) in
  let m' := (umr_sg_list_create qp [mk_sge 8192 64 1; mk_sge 9000 32 2] (u 8) (fun a => a mod 256)).2 in
  read_data m' (u 9) = (32, 2, 9000) /\ read_data m' (u 11) = (0, 0, 0).
Proof.
  intros qp u m'.
  pose proof (umr_sg_list_round_trip qp 2 [mk_sge 8192 64 1; mk_sge 9000 32 2] 8 (fun a => a mod 256)) as H.
  cbv zeta in H. fold u in H.
  change (umr_sg_list_create qp _ (u 8) _) with (64, 32, 96, m') in H.
  destruct H as (_ & _ & H1 & H2 & _).
  - apply demo_wf. lia.
  - simpl. lia.
  - repeat constructor; simpl; lia.
  - lia.
  - done.
  - simpl. lia.
  - by vm_compute.
  - split; [exact (H1 1%nat (mk_sge 9000 32 2) eq_refl)|]. apply (H2 3). by vm_compute.
Defined.

Lemma sg_list_loop_count qp l p bc m :
  (sg_list_loop qp l p (s32 bc) m).1.2 = s32 (bc + sge_sum l).
Proof.
  revert p bc m. induction l as [|sg l IH]; intros p bc m; simpl.
  { unfold sge_sum. simpl. by rewrite Z.add_0_r. }
  rewrite s32_add, IH. unfold sge_sum. simpl. f_equal. lia.
Qed.

(** The length [umr_sg_list_create] registers is the sum of the entries as
    long as it stays below 2 GiB; the sum is kept in an [int], so from 2 GiB on the
    length given to the device is the sign-extended value, beyond 2^64 - 2^31. *)
Theorem umr_sg_list_length qp l seg m :
  0 <= sge_sum l < 2 ^ 32 ->
  (umr_sg_list_create qp l seg m).1.2 =
  if sge_sum l <? 2 ^ 31 then sge_sum l else sge_sum l + (2 ^ 64 - 2 ^ 32).
Proof.
  intros Hs. unfold umr_sg_list_create. pose proof (sg_list_loop_count qp l seg 0 m) as H.
  change (s32 0) with 0 in H. destruct (sg_list_loop qp l seg 0 m) as [[dseg bc] m1]. simpl in *. rewrite H, Z.add_0_l.
  unfold s32, u64. destruct (Z.ltb_spec (sge_sum l) (2 ^ 31)).
  - rewrite (Z.mod_small (sge_sum l + _)) by lia. rewrite Z.mod_small; lia.
  - replace ((sge_sum l + 2 ^ 31) mod 2 ^ 32) with (sge_sum l - 2 ^ 31)
      by (apply (Z.mod_unique_pos _ _ 1); lia).
    symmetry. apply (Z.mod_unique_pos _ _ (-1)); lia.
Qed.

Lemma umr_sg_list_length_witness :
  (umr_sg_list_create (demo_qp IBV_QPT_RC 0) [mk_sge 0 (2 ^ 30) 1; mk_sge 0 (2 ^ 30) 2] 4096 (fun _ => 0)).1.2 =
  2 ^ 64 - 2 ^ 31.
Proof. rewrite (umr_sg_list_length _ [mk_sge 0 (2 ^ 30) 1; mk_sge 0 (2 ^ 30) 2]); vm_compute; done. Defined.

(** * Signatures *)

(** The protection-information tuple a PSV starts from, as the device cuts it *)
Definition pi_tuple (ts : Z) : Z * Z * Z := (ts / 2 ^ 48, (ts / 2 ^ 32) mod 2 ^ 16, ts mod 2 ^ 32).

(** The transient signature given to a PSV for T10-DIF carries the block
    guard, the application tag and the reference tag in their own fields. *)
Theorem t10dif_transient_round_trip d :
  0 <= bg d < 2 ^ 16 -> 0 <= app_tag d < 2 ^ 16 -> 0 <= ref_tag d < 2 ^ 32 ->
  pi_tuple (umr_transient_signature_t10dif d) = (bg d, app_tag d, ref_tag d).
Proof.
  intros Hb Ha Hr. unfold umr_transient_signature_t10dif.
  rewrite !u64_small by (rewrite Z.shiftl_mul_pow2 by lia; lia).
  rewrite lor_shl_add by (rewrite ?Z.shiftl_mul_pow2 by lia; lia).
  replace (bg d * 2 ^ 48 + Z.shiftl (app_tag d) 32) with (Z.shiftl (bg d * 2 ^ 16 + app_tag d) 32)
    by (rewrite !Z.shiftl_mul_pow2 by lia; lia).
  rewrite lor_shl_add by lia. unfold pi_tuple. f_equal; [f_equal|]; div_lia.
Qed.

Lemma t10dif_transient_round_trip_witness :
  pi_tuple (umr_transient_signature_t10dif (mk_dif 0 0xffff 0x1234 0xdeadbeef 0)) = (0xffff, 0x1234, 0xdeadbeef).
Proof. apply (t10dif_transient_round_trip (mk_dif 0 0xffff 0x1234 0xdeadbeef 0)); simpl; lia. Defined.

(** What the device reads in the inline T10-DIF section at [p] *)
Definition read_inl (m : mem) (p : Z) : list Z :=
  [load_be 2 p m; load_be 2 (p + 2) m; load_be 4 (p + 4) m; load_be 1 (p + 8) m; load_be 1 (p + 9) m;
   load_be 1 (p + 13) m; load_be 2 (p + 14) m].

(** A signature domain as the device decodes it *)
Inductive domain_view : Type :=
| VNone
| VCrc (type : Z) (zero_seed : bool) (psv bs : Z)
| VDif (type : Z) (ones_guard : bool) (app ref : Z) (remap : bool) (escape : Z) (psv bs : Z).

Definition crc_of_bfs (b : Z) : Z :=
  if b =? 0x2 then MLX5DV_SIG_CRC_TYPE_CRC32
  else if b =? 0x4 then MLX5DV_SIG_CRC_TYPE_CRC32C else MLX5DV_SIG_CRC_TYPE_CRC64_XP10.

(** [w] is the selector and PSV word, [inl] the inline section, [bs] the block size *)
Definition decode_domain (w : Z) (inl : list Z) (bs : Z) : domain_view :=
  let bfs := w / 2 ^ 24 in
  let psv := w mod 2 ^ 24 in
  if bfs =? 0 then
    match inl with
    | [vld; app; ref; ty; seed; check; _] =>
      if Z.testbit vld 15
      then VDif (ty - 1) (Z.testbit seed 3) app ref (Z.testbit check 6) (check mod 4) psv bs
      else VNone
    | _ => VNone
    end
  else VCrc (crc_of_bfs (bfs / 16)) (Z.testbit bfs 0) psv bs.

(** The block size of the wire domain is that of the memory domain when the two
    share their block structure; the byte is then the copy mask. *)
Record sig_bsf_view : Type := mk_sbv {
  sv_size : Z; sv_check : Z; sv_raw : Z; sv_mem : domain_view; sv_wire : domain_view; sv_copy : option Z }.

Definition decode_sig_bsf (m : mem) (p : Z) : sig_bsf_view :=
  let b0 := load_be 1 p m in
  let sbs := Z.testbit b0 4 in
  let mem_bs := load_be 1 (p + 3) m in
  let wire := load_be 1 (p + 2) m in
  mk_sbv (b0 / 64) (load_be 1 (p + 1) m) (load_be 4 (p + 4) m)
    (decode_domain (load_be 4 (p + 12) m) (read_inl m (p + 48)) mem_bs)
    (decode_domain (load_be 4 (p + 8) m) (read_inl m (p + 32)) (if sbs then mem_bs else wire))
    (if sbs then Some wire else None).

(** A domain as the validated attributes fix it *)
Record domain_ok (d : mlx5_sig_block_domain) : Prop := {
  dk_type : sig_type d = MLX5_SIG_TYPE_NONE \/ sig_type d = MLX5_SIG_TYPE_CRC \/ sig_type d = MLX5_SIG_TYPE_T10DIF;
  dk_crc : 0 <= crc_type (sd_crc d) <= 2;
  dk_bg_type : 0 <= bg_type (sd_dif d) <= 1;
  dk_app : 0 <= app_tag (sd_dif d) < 2 ^ 16;
  dk_ref : 0 <= ref_tag (sd_dif d) < 2 ^ 32;
  dk_bs : 0 <= block_size d <= 4
}.

Definition dif_escape (d : mlx5dv_sig_t10dif) : Z :=
  if has_flag (dif_flags d) MLX5DV_SIG_T10DIF_FLAG_APP_REF_ESCAPE then 2
  else if has_flag (dif_flags d) MLX5DV_SIG_T10DIF_FLAG_APP_ESCAPE then 1 else 0.

Definition view_domain (d : mlx5_sig_block_domain) (psv : Z) : domain_view :=
  let bs := bs_to_bs_selector (block_size d) in
  if sig_type d =? MLX5_SIG_TYPE_NONE then VNone
  else if sig_type d =? MLX5_SIG_TYPE_CRC
  then VCrc (crc_type (sd_crc d)) (seed (sd_crc d) =? 0) psv bs
  else VDif (bg_type (sd_dif d)) (negb (bg (sd_dif d) =? 0)) (app_tag (sd_dif d)) (ref_tag (sd_dif d))
         (has_flag (dif_flags (sd_dif d)) MLX5DV_SIG_T10DIF_FLAG_REF_REMAP) (dif_escape (sd_dif d)) psv bs.

(** The two domains share their block structure. *)
Definition same_structure (b : mlx5_sig_block) : option Z :=
  if sig_type (sb_wire b) =? MLX5_SIG_TYPE_NONE then None
  else if sig_type (sb_wire b) =? MLX5_SIG_TYPE_CRC then mlx5_umr_block_crc_sbs (sb_mem b) (sb_wire b)
  else mlx5_umr_block_t10dif_sbs (sb_mem b) (sb_wire b).

(** *** The inline section *)

Lemma inl_view d p m :
  0 <= app_tag d < 2 ^ 16 -> 0 <= ref_tag d < 2 ^ 32 -> 0 <= bg_type d <= 1 -> load_be 1 (p + 13) m = 0 ->
  forall w bs, 0 <= w < 2 ^ 24 ->
  decode_domain w (read_inl (mlx5_umr_fill_inl_bsf_t10dif d p m) p) bs =
  VDif (bg_type d) (negb (bg d =? 0)) (app_tag d) (ref_tag d)
    (has_flag (dif_flags d) MLX5DV_SIG_T10DIF_FLAG_REF_REMAP) (dif_escape d) w bs.
Proof.
  intros Ha Hr Hb H13 w bs Hwr. unfold read_inl, mlx5_umr_fill_inl_bsf_t10dif, or_be. cbv zeta.
  load_solve. rewrite H13. unfold decode_domain.
  rewrite (Z.div_small w), (Z.mod_small w) by lia. simpl Z.eqb. cbv iota.
  rewrite (Z.mod_small (app_tag d)), (Z.mod_small (ref_tag d)) by (simpl; lia).
  set (f1 := has_flag _ MLX5DV_SIG_T10DIF_FLAG_REF_REMAP). unfold dif_escape.
  assert (Eb : bg_type d = 0 \/ bg_type d = 1) by lia.
  destruct (bg d =? 0), f1, (has_flag (dif_flags d) MLX5DV_SIG_T10DIF_FLAG_APP_REF_ESCAPE),
    (has_flag (dif_flags d) MLX5DV_SIG_T10DIF_FLAG_APP_ESCAPE), Eb as [-> | ->]; reflexivity.
Qed.

Lemma selector_byte d : domain_ok d -> bs_to_bs_selector (block_size d) mod 2 ^ (8 * Z.of_nat 1) = bs_to_bs_selector (block_size d).
Proof.
  intros [_ _ _ _ _ H]. assert (block_size d = 0 \/ block_size d = 1 \/ block_size d = 2 \/ block_size d = 3 \/ block_size d = 4)
    as [-> |[-> |[-> |[-> | ->]]]] by lia; reflexivity.
Qed.

(** *** The selector and PSV word *)

Lemma psv_mod i : Z.land i 0xFFFFFF = i mod 2 ^ 24.
Proof. change 0xFFFFFF with (Z.ones 24). apply Z.land_ones. lia. Qed.

Lemma crc_word c i : 0 <= crc_type c <= 2 ->
  exists x, Z.lor (mlx5_umr_crc_bfs c) (Z.land i 0xFFFFFF) = x * 2 ^ 24 + i mod 2 ^ 24 /\ 0 < x < 2 ^ 8 /\
    crc_of_bfs (x / 16) = crc_type c /\ Z.testbit x 0 = (seed c =? 0).
Proof.
  intros Hc. rewrite psv_mod. pose proof (Z.mod_pos_bound i (2 ^ 24) ltac:(lia)).
  unfold mlx5_umr_crc_bfs.
  assert (crc_type c = 0 \/ crc_type c = 1 \/ crc_type c = 2) as [E|[E|E]] by lia; rewrite E; simpl;
    destruct (seed c =? 0);
    match goal with |- exists _, Z.lor (u32 (Z.shiftl ?b _)) _ = _ /\ _ => exists b end;
    (rewrite u32_small by (by vm_compute)); (split; [apply lor_shl_add; lia|by vm_compute]).
Qed.

Lemma decode_crc_word c i inl bs :
  0 <= crc_type c <= 2 ->
  decode_domain (Z.lor (mlx5_umr_crc_bfs c) (Z.land i 0xFFFFFF) mod 2 ^ (8 * Z.of_nat 4)) inl bs =
  VCrc (crc_type c) (seed c =? 0) (i mod 2 ^ 24) bs.
Proof.
  intros Hc. destruct (crc_word c i Hc) as (x & -> & Hx & E1 & E2).
  pose proof (Z.mod_pos_bound i (2 ^ 24) ltac:(lia)).
  rewrite Z.mod_small by (change (2 ^ (8 * Z.of_nat 4)) with (2 ^ 32); lia). unfold decode_domain.
  replace ((x * 2 ^ 24 + i mod 2 ^ 24) / 2 ^ 24) with x by div_lia.
  replace ((x * 2 ^ 24 + i mod 2 ^ 24) mod 2 ^ 24) with (i mod 2 ^ 24) by div_lia.
  rewrite (proj2 (Z.eqb_neq x 0)) by lia. by rewrite E1, E2.
Qed.

Lemma decode_dif_word i inl bs :
  decode_domain (Z.lor 0 (Z.land i 0xFFFFFF) mod 2 ^ (8 * Z.of_nat 4)) inl bs = decode_domain (i mod 2 ^ 24) inl bs.
Proof.
  rewrite Z.lor_0_l, psv_mod. pose proof (Z.mod_pos_bound i (2 ^ 24) ltac:(lia)).
  by rewrite Z.mod_small by (change (2 ^ (8 * Z.of_nat 4)) with (2 ^ 32); lia).
Qed.

Lemma read_inl_ext m1 m2 p : (forall a, p <= a < p + 16 -> m1 a = m2 a) -> read_inl m1 p = read_inl m2 p.
Proof.
  intros H. assert (E : forall k q, p <= q -> q + Z.of_nat k <= p + 16 -> load_be k q m1 = load_be k q m2)
    by (intros; apply load_be_ext; intros; apply H; lia).
  unfold read_inl. by rewrite !E by (simpl; lia).
Qed.

(** *** The two domains *)

Definition zeroed (m : mem) (p n : Z) : Prop := forall a, p <= a < p + n -> m a = 0.

Lemma zeroed_load m p n (k : nat) q : zeroed m p n -> p <= q -> q + Z.of_nat k <= p + n -> load_be k q m = 0.
Proof.
  revert q. induction k as [|k IH]; intros q Hz ??; [done|].
  unfold load_be; fold load_be. rewrite IH by (done || lia). rewrite Hz by lia. lia.
Qed.

Lemma decode_none m p bs : zeroed m p 16 -> decode_domain 0 (read_inl m p) bs = VNone.
Proof.
  intros Hz. unfold read_inl. rewrite !(zeroed_load m p 16) by (done || (simpl; lia)). reflexivity.
Qed.

Lemma mem_domain_view p b m :
  domain_ok (sb_mem b) -> zeroed m (p + 48) 16 -> load_be 4 (p + 12) m = 0 ->
  let m' := fill_mem_domain p b m in
  decode_domain (load_be 4 (p + 12) m') (read_inl m' (p + 48)) (load_be 1 (p + 3) m') =
  view_domain (sb_mem b) (mem_psv b mod 2 ^ 24).
Proof.
  intros Hd Hz H12. unfold fill_mem_domain, view_domain. cbv zeta.
  destruct (dk_type _ Hd) as [E|[E|E]]; rewrite E; simpl.
  - rewrite H12. by apply decode_none.
  - load_solve. rewrite selector_byte by done. by apply decode_crc_word, Hd.
  - set (m1 := mlx5_umr_fill_inl_bsf_t10dif _ _ m). load_solve. rewrite selector_byte, decode_dif_word by done.
    erewrite (read_inl_ext _ m1) by (intros a ?; rewrite !store_be_outside by (simpl; lia); done).
    apply inl_view; try apply Hd; [|apply Z.mod_pos_bound; lia]. apply (zeroed_load m (p + 48) 16); [done|simpl; lia..].
Qed.

Lemma wire_domain_view p b m bs :
  domain_ok (sb_wire b) -> zeroed m (p + 32) 16 -> load_be 4 (p + 8) m = 0 ->
  let r := fill_wire_domain p b m in
  r.1 = Ok ->
  bs = (if sig_type (sb_wire b) =? MLX5_SIG_TYPE_NONE then bs else bs_to_bs_selector (block_size (sb_wire b))) ->
  decode_domain (load_be 4 (p + 8) r.2) (read_inl r.2 (p + 32)) bs =
  view_domain (sb_wire b) (wire_psv b mod 2 ^ 24).
Proof.
  intros Hd Hz H8. unfold fill_wire_domain, view_domain. cbv zeta.
  destruct (dk_type _ Hd) as [E|[E|E]]; rewrite E; simpl.
  - intros _ _. rewrite H8. by apply decode_none.
  - intros HOk Hbs. destruct (mlx5_umr_block_crc_sbs _ _); [|destruct (has_flag _ _); [done|]]; simpl; unfold or_be;
      load_solve; rewrite decode_crc_word by apply Hd; by rewrite Hbs.
  - intros HOk Hbs. set (m1 := mlx5_umr_fill_inl_bsf_t10dif _ _ m) in *.
    assert (Hv : decode_domain (wire_psv b mod 2 ^ 24) (read_inl m1 (p + 32)) bs =
      VDif (bg_type (sd_dif (sb_wire b))) (negb (bg (sd_dif (sb_wire b)) =? 0)) (app_tag (sd_dif (sb_wire b)))
        (ref_tag (sd_dif (sb_wire b))) (has_flag (dif_flags (sd_dif (sb_wire b))) MLX5DV_SIG_T10DIF_FLAG_REF_REMAP)
        (dif_escape (sd_dif (sb_wire b))) (wire_psv b mod 2 ^ 24) bs).
    { apply inl_view; try apply Hd; [|apply Z.mod_pos_bound; lia].
      apply (zeroed_load m (p + 32) 16); [done|simpl; lia..]. }
    rewrite <- Hbs.
    destruct (mlx5_umr_block_t10dif_sbs _ _); [|destruct (has_flag _ _); [done|]]; simpl; unfold or_be;
      load_solve; rewrite decode_dif_word, <- Hv;
      (erewrite (read_inl_ext _ m1) by (intros a ?; rewrite !store_be_outside by (simpl; lia); done)); done.
Qed.

(** The bytes each domain leaves alone *)
Lemma mem_domain_frame p b m a :
  a <> p + 3 -> ~ (p + 12 <= a < p + 16) -> ~ (p + 48 <= a < p + 64) -> fill_mem_domain p b m a = m a.
Proof.
  intros ???. unfold fill_mem_domain. cbv zeta. destruct (_ =? MLX5_SIG_TYPE_NONE); [done|].
  destruct (_ =? MLX5_SIG_TYPE_CRC); rewrite !store_be_outside by (simpl; lia); [done|].
  apply (Writes_t10dif (sd_dif (sb_mem b)) (p + 48)). lia.
Qed.

Lemma wire_domain_frame p b m a :
  a <> p -> a <> p + 2 -> ~ (p + 8 <= a < p + 12) -> ~ (p + 32 <= a < p + 48) ->
  (fill_wire_domain p b m).2 a = m a.
Proof.
  intros ????. unfold fill_wire_domain. cbv zeta. destruct (_ =? MLX5_SIG_TYPE_NONE); [done|].
  assert (forall d m, mlx5_umr_fill_inl_bsf_t10dif d (p + 32) m a = m a) as E
    by (intros d m'; apply (Writes_t10dif d (p + 32)); lia).
  destruct (_ =? MLX5_SIG_TYPE_CRC);
    [destruct (mlx5_umr_block_crc_sbs _ _)|destruct (mlx5_umr_block_t10dif_sbs _ _)];
    try destruct (has_flag _ _); simpl; unfold or_be; rewrite ?store_be_outside by (simpl; lia); rewrite ?E; done.
Qed.

(** The flag, the mask byte and the return value of the wire domain *)
Lemma wire_domain_bytes p b m :
  domain_ok (sb_wire b) -> 0 <= copy_mask b < 2 ^ 8 ->
  let r := fill_wire_domain p b m in
  let user := has_flag (sb_flags b) MLX5DV_SIG_BLOCK_ATTR_FLAG_COPY_MASK in
  match same_structure b with
  | Some mask => r.1 = Ok /\ load_be 1 p r.2 = Z.lor (load_be 1 p m) (2 ^ 4) mod 2 ^ 8 /\
                 load_be 1 (p + 2) r.2 = if user then copy_mask b else mask
  | None => r.1 = (if negb (sig_type (sb_wire b) =? MLX5_SIG_TYPE_NONE) && user then Err EINVAL else Ok) /\
            (r.1 = Ok -> load_be 1 p r.2 = load_be 1 p m /\
             (sig_type (sb_wire b) <> MLX5_SIG_TYPE_NONE ->
              load_be 1 (p + 2) r.2 = bs_to_bs_selector (block_size (sb_wire b))))
  end.
Proof.
  intros Hd Hc. unfold fill_wire_domain, same_structure. cbv zeta.
  assert (Hmc : forall x, mlx5_umr_block_crc_sbs (sb_mem b) (sb_wire b) = Some x -> 0 <= x < 2 ^ 8)
    by (unfold mlx5_umr_block_crc_sbs; intros x; destruct (_ || _); [done|]; intros [= <-]; destruct_ifs; by vm_compute).
  assert (Hmd : forall x, mlx5_umr_block_t10dif_sbs (sb_mem b) (sb_wire b) = Some x -> 0 <= x < 2 ^ 8)
    by (unfold mlx5_umr_block_t10dif_sbs; intros x; destruct (_ || _); [done|]; intros [= <-]; destruct_ifs; by vm_compute).
  assert (Ht : forall m a, a < p + 32 -> mlx5_umr_fill_inl_bsf_t10dif (sd_dif (sb_wire b)) (p + 32) m a = m a)
    by (intros; apply (Writes_t10dif _ (p + 32)); lia).
  destruct (dk_type _ Hd) as [E|[E|E]]; rewrite E; simpl; [done|..].
  - destruct (mlx5_umr_block_crc_sbs _ _) as [x|] eqn:Ex.
    + simpl. unfold or_be. load_solve. split_and!; [done|by load_solve|].
      apply Z.mod_small. destruct (has_flag _ _); [done|by apply Hmc].
    + destruct (has_flag _ _); [done|]. split; [done|]. simpl. load_solve. intros _. split; [done|].
      intros _. by apply selector_byte.
  - set (m1 := mlx5_umr_fill_inl_bsf_t10dif _ _ m).
    assert (E0 : load_be 1 p m1 = load_be 1 p m) by (apply load_be_ext; intros; apply Ht; simpl in *; lia).
    destruct (mlx5_umr_block_t10dif_sbs _ _) as [x|] eqn:Ex.
    + simpl. unfold or_be. load_solve. rewrite E0. split_and!; [done|done|].
      apply Z.mod_small. destruct (has_flag _ _); [done|by apply Hmd].
    + destruct (has_flag _ _); [done|]. split; [done|]. simpl. load_solve. rewrite E0. intros _. split; [done|].
      intros _. by apply selector_byte.
Qed.

(** Shared structure means one block size, one kind. *)
Lemma same_structure_mem b x :
  same_structure b = Some x ->
  sig_type (sb_mem b) = sig_type (sb_wire b) /\ block_size (sb_mem b) = block_size (sb_wire b) /\
  sig_type (sb_wire b) <> MLX5_SIG_TYPE_NONE.
Proof.
  unfold same_structure, mlx5_umr_block_crc_sbs, mlx5_umr_block_t10dif_sbs.
  destruct (Z.eqb_spec (sig_type (sb_wire b)) MLX5_SIG_TYPE_NONE) as [|Hn]; [done|].
  destruct (Z.eqb_spec (sig_type (sb_mem b)) (sig_type (sb_wire b))), (Z.eqb_spec (block_size (sb_mem b)) (block_size (sb_wire b)));
    simpl; try done; by destruct (_ =? _).
Qed.

Lemma mem_domain_bs p b m :
  domain_ok (sb_mem b) -> sig_type (sb_mem b) <> MLX5_SIG_TYPE_NONE ->
  load_be 1 (p + 3) (fill_mem_domain p b m) = bs_to_bs_selector (block_size (sb_mem b)).
Proof.
  intros Hd Hn. unfold fill_mem_domain. cbv zeta. rewrite (proj2 (Z.eqb_neq _ _) Hn).
  destruct (_ =? MLX5_SIG_TYPE_CRC); rewrite load_store_same; by apply selector_byte.
Qed.

(** What the head leaves *)
Lemma sig_bsf_head_facts p b crypto m :
  0 <= check_mask b < 2 ^ 8 ->
  let m0 := sig_bsf_head p b crypto m in
  let none d := sig_type d =? MLX5_SIG_TYPE_NONE in
  (forall a, p + 8 <= a < p + 64 -> m0 a = 0) /\
  load_be 1 p m0 = (if crypto then 3 else 2) * 64 /\
  load_be 1 (p + 1) m0 = (if none (sb_wire b) && none (sb_mem b) then 0 else check_mask b) /\
  load_be 4 (p + 4) m0 = UINT32_MAX.
Proof.
  intros Hck m0 none. unfold m0, sig_bsf_head, or_be, sizeof_bsf. cbv zeta. split_and!.
  - intros a Ha. destruct (_ || _); rewrite !store_be_outside by (simpl; lia); unfold memset; destruct_ifs; (done || lia).
  - destruct (_ || _), crypto; load_solve; done.
  - unfold none. destruct (_ =? _), (_ =? _); simpl; load_solve; try done; by apply Z.mod_small.
  - destruct (_ || _); load_solve; done.
Qed.

(** C20.  The signature format round-trips.  For validated domains,
    [mlx5_umr_fill_sig_bsf] refuses exactly the request to override the copy mask
    of domains that do not share their block structure; otherwise a decoder of the
    hardware layout reads back, from the 64 bytes it wrote, both domains (kind, seed,
    tags, escapes, PSV and block size), the check mask, and the copy mask when the
    domains share their structure.  No other byte changes. *)
Theorem sig_bsf_round_trip p b crypto m :
  domain_ok (sb_mem b) -> domain_ok (sb_wire b) -> 0 <= check_mask b < 2 ^ 8 -> 0 <= copy_mask b < 2 ^ 8 ->
  let r := mlx5_umr_fill_sig_bsf p b crypto m in
  let user := has_flag (sb_flags b) MLX5DV_SIG_BLOCK_ATTR_FLAG_COPY_MASK in
  let none d := sig_type d =? MLX5_SIG_TYPE_NONE in
  r.1 = (if negb (none (sb_wire b)) && user && bool_decide (same_structure b = None) then Err EINVAL else Ok) /\
  (r.1 = Ok ->
   decode_sig_bsf r.2 p =
   mk_sbv (if crypto then 3 else 2) (if none (sb_wire b) && none (sb_mem b) then 0 else check_mask b) UINT32_MAX
     (view_domain (sb_mem b) (mem_psv b mod 2 ^ 24)) (view_domain (sb_wire b) (wire_psv b mod 2 ^ 24))
     ((fun mask => if user then copy_mask b else mask) <$> same_structure b)) /\
  (forall a, a < p \/ p + 64 <= a -> r.2 a = m a).
Proof.
  intros Hm Hwd Hck Hcp r user none. split; [|split; [|by apply Writes_sig_bsf]].
  - unfold r, mlx5_umr_fill_sig_bsf. cbv zeta. set (m1 := fill_mem_domain _ _ _).
    pose proof (wire_domain_bytes p b m1 Hwd Hcp) as Hb. cbv zeta in Hb. fold user in Hb.
    destruct (same_structure b); [destruct Hb as [-> _]; by rewrite andb_false_r|destruct Hb as [-> _]].
    by rewrite andb_true_r.
  - revert r. unfold mlx5_umr_fill_sig_bsf. cbv zeta.
    destruct (sig_bsf_head_facts p b crypto m Hck) as (Z0 & B0 & B1 & B4). cbv zeta in *. fold (none (sb_wire b)) in B1. fold (none (sb_mem b)) in B1.
    set (m0 := sig_bsf_head p b crypto m) in *.
    clearbody m0. set (m1 := fill_mem_domain p b m0).
    pose proof (mem_domain_frame p b m0) as F1. fold m1 in F1.
    assert (L1 : forall k q, (p + Z.of_nat 0 <= q /\ q + Z.of_nat k <= p + 3) \/ (p + 4 <= q /\ q + Z.of_nat k <= p + 12) ->
      load_be k q m1 = load_be k q m0) by (intros; apply load_be_ext; intros; apply F1; lia).
    assert (Z1 : zeroed m1 (p + 32) 16) by (intros a Ha; rewrite F1 by lia; apply Z0; lia).
    pose proof (mem_domain_view p b m0 Hm) as Vm. fold m1 in Vm. cbv zeta in Vm.
    specialize (Vm ltac:(intros a Ha; apply Z0; lia) (zeroed_load m0 (p + 8) 56 4 (p + 12) ltac:(intros a Ha; apply Z0; lia) ltac:(lia) ltac:(simpl; lia))).
    assert (Z8 : load_be 4 (p + 8) m1 = 0)
      by (rewrite L1 by (simpl; lia); apply (zeroed_load m0 (p + 8) 56); [intros a Ha; apply Z0; lia|simpl; lia..]).
    pose proof (wire_domain_bytes p b m1 Hwd Hcp) as Hb. cbv zeta in Hb. fold user in Hb.
    pose proof (wire_domain_view p b m1) as Vw. cbv zeta in Vw.
    pose proof (wire_domain_frame p b m1) as F2. set (r := fill_wire_domain p b m1) in *.
    assert (L2 : forall k q, (q = p + 1 /\ k = 1%nat) \/ (p + 3 <= q /\ q + Z.of_nat k <= p + 8) \/ (p + 12 <= q /\ q + Z.of_nat k <= p + 16) ->
      load_be k q r.2 = load_be k q m1) by (intros; apply load_be_ext; intros; apply F2; simpl in *; lia).
    intros HOk. unfold decode_sig_bsf. rewrite !(L2 _ (p + 1)), !(L2 _ (p + 3)), (L2 _ (p + 4)), (L2 _ (p + 12)) by (simpl; lia).
    rewrite (read_inl_ext r.2 m1 (p + 48)) by (intros; apply F2; lia). rewrite Vm.
    rewrite !(L1 _ (p + 1)), (L1 _ (p + 4)), B1, B4 by (simpl; lia).
    pose proof (mem_domain_bs p b m0 Hm) as Hbs. fold m1 in Hbs.
    destruct (same_structure b) as [x|] eqn:Es.
    + destruct Hb as (_ & Eb0 & Eb2). destruct (same_structure_mem b x Es) as (T1 & T2 & T3).
      rewrite Eb0, L1, B0 by (simpl; lia).
      assert (Z.testbit (Z.lor ((if crypto then 3 else 2) * 64) (2 ^ 4) mod 2 ^ 8) 4 = true /\
              Z.lor ((if crypto then 3 else 2) * 64) (2 ^ 4) mod 2 ^ 8 / 64 = if crypto then 3 else 2) as [-> ->]
        by (by destruct crypto).
      rewrite Eb2, Hbs by congruence. rewrite (Vw (bs_to_bs_selector (block_size (sb_mem b))) Hwd Z1 Z8 HOk); [done|].
      rewrite (proj2 (Z.eqb_neq _ _) T3). by rewrite T2.
    + destruct Hb as (_ & Hb). destruct (Hb HOk) as [Eb0 Eb2]. rewrite Eb0, L1, B0 by (simpl; lia).
      assert (Z.testbit ((if crypto then 3 else 2) * 64) 4 = false /\
              (if crypto then 3 else 2) * 64 / 64 = if crypto then 3 else 2) as [-> ->] by (by destruct crypto).
      rewrite (Vw (load_be 1 (p + 2) r.2) Hwd Z1 Z8 HOk); [done|].
      destruct (Z.eqb_spec (sig_type (sb_wire b)) MLX5_SIG_TYPE_NONE) as [|Hn]; [done|by apply Eb2].
Qed.

Lemma sig_bsf_round_trip_witness :
  let dif := mk_sd MLX5_SIG_TYPE_T10DIF (mk_dif 1 0xffff 7 9 1) (mk_crc 0 0) 3 in
  let wire := mk_sd MLX5_SIG_TYPE_T10DIF (mk_dif 1 0xffff 7 8 4) (mk_crc 0 0) 3 in
  let b := mk_sb 0x11 0x1000022 dif wire 0 0xff 0 BSF_UPDATED in
  decode_sig_bsf (mlx5_umr_fill_sig_bsf 4096 b false (fun a => a mod 256)).2 4096 =
  mk_sbv 2 0xff UINT32_MAX (VDif 1 true 7 9 true 0 0x11 3) (VDif 1 true 7 8 false 2 0x22 3) (Some 0xf0).
Proof.
  intros dif wire b.
  assert (domain_ok dif /\ domain_ok wire) as [H1 H2]
    by (split; (split; simpl; [right; right; reflexivity|lia..])).
  destruct (sig_bsf_round_trip 4096 b false (fun a => a mod 256) H1 H2) as (_ & H & _); [simpl; lia..|].
  etransitivity; [apply H; reflexivity|reflexivity].
Defined.

(** * Completions *)

(** Bit CQ_UPDATE of the control segment at [c] *)
Definition signals (m : mem) (c : Z) : bool := Z.testbit (load_be 1 (c + 11) m) 3.

Lemma signals_ext m1 m2 c : (forall a, c <= a < c + 16 -> m1 a = m2 a) -> signals m1 c = signals m2 c.
Proof. intros H. unfold signals. f_equal. apply load_be_ext. intros. apply H. simpl in *. lia. Qed.

Lemma has_flag_signaled f : has_flag f IBV_SEND_SIGNALED = Z.testbit f 1.
Proof.
  unfold has_flag, IBV_SEND_SIGNALED. change 2 with (2 ^ 1).
  destruct (Z.testbit f 1) eqn:E; destruct (Z.eqb_spec (Z.land f (2 ^ 1)) 0) as [H|H]; try done; exfalso.
  - assert (Z.testbit (Z.land f (2 ^ 1)) 1 = true) as Ht by (by rewrite Z.land_spec, Z.pow2_bits_true, E).
    by rewrite H in Ht.
  - apply H. apply Z.bits_inj'. intros i Hi. rewrite Z.land_spec, Z.bits_0.
    destruct (decide (i = 1)) as [->|]; [by rewrite E|]. by rewrite Z.pow2_bits_false, andb_false_r by lia.
Qed.

(** The bit of a control segment that [_common_wqe_init_op] writes *)
Lemma fm_ce_se_signals sb fence flags :
  Z.testbit fence 3 = false ->
  Z.testbit (fm_ce_se sb fence flags mod 2 ^ 8) 3 = Z.testbit sb 3 || has_flag flags IBV_SEND_SIGNALED.
Proof.
  intros Hf. rewrite Z.mod_pow2_bits_low by lia. unfold fm_ce_se. rewrite !Z.lor_spec, Hf, orb_false_r.
  destruct (has_flag flags IBV_SEND_SIGNALED), (has_flag flags IBV_SEND_SOLICITED); simpl; by rewrite ?orb_false_r.
Qed.

(** A SET_PSV element that was not refused *)
Lemma set_psv_ok t i ts r b :
  let b' := mlx5_umr_set_psv t i ts r b in
  let c := mlx5_get_send_wqe (b_qp b) (sq_idx (b_qp b)) in
  err (b_qp b) = 0 -> err (b_qp b') = 0 -> wq_sig (b_qp b) = false -> Z.testbit (fm_cache (b_qp b)) 3 = false ->
  0 <= i < 2 ^ 32 -> 0 <= ts < 2 ^ 64 ->
  nreq (b_qp b') = nreq (b_qp b) + 1 /\ cur_post (sq (b_qp b')) = u32 (cur_post (sq (b_qp b)) + 1) /\
  ex_wr_flags (b_qp b') = ex_wr_flags (b_qp b) /\ sq_signal_bits (b_qp b') = sq_signal_bits (b_qp b) /\
  wq_sig (b_qp b') = false /\ Z.testbit (fm_cache (b_qp b')) 3 = false /\
  signals (b_mem b') c = Z.testbit (sq_signal_bits (b_qp b)) 3 || (has_flag (ex_wr_flags (b_qp b)) IBV_SEND_SIGNALED && negb r) /\
  load_be 4 (c + 16) (b_mem b') = i /\ load_be 8 (c + 24) (b_mem b') = ts /\
  (forall a, a < c \/ c + 64 <= a -> b_mem b' a = b_mem b a).
Proof.
  intros b' c He0 He Hs Hf Hi Hts. revert He. unfold b', mlx5_umr_set_psv. cbv zeta. clear b'.
  assert (Hfl : has_flag (ex_wr_flags (b_qp b)) IBV_SEND_SIGNALED && negb r =
    has_flag (if r then Z.ldiff (ex_wr_flags (b_qp b)) IBV_SEND_SIGNALED else ex_wr_flags (b_qp b)) IBV_SEND_SIGNALED).
  { destruct r; simpl; [|by rewrite andb_true_r]. rewrite !has_flag_signaled, Z.ldiff_spec.
    change (Z.testbit IBV_SEND_SIGNALED 1) with true. simpl. by rewrite !andb_false_r. }
  rewrite Hfl. clear Hfl.
  destruct r; simpl; unfold _common_wqe_init_op; cbv zeta; simpl.
  all: destruct (mlx5_wq_overflow _ _ _ _); [unfold b_fail; simpl; rewrite He0; simpl; try done|].
  all: simpl; rewrite He0; simpl; rewrite Hs; intros _.
  all: set (fence := if has_flag _ IBV_SEND_FENCE then _ else _);
       assert (Hfm : Z.testbit fence 3 = false) by (unfold fence; by destruct (has_flag _ _)); clearbody fence.
  all: change (sq_idx (set_ex_wr_flags _ _)) with (sq_idx (b_qp b)); fold c;
       change (mlx5_get_send_wqe (set_ex_wr_flags _ _) (sq_idx (b_qp b))) with c;
       unfold sizeof_ctrl_seg, sizeof_psv_seg; replace (c + 16 + 8) with (c + 24) by lia; split_and!; try done.
  all: try (unfold signals; load_solve; by rewrite fm_ce_se_signals).
  all: try (load_solve; by apply Z.mod_small).
  all: intros a Ha; rewrite ?store_be_outside, ?memset_outside, ?store_be_outside by (simpl; lia); done.
Qed.

Lemma set_psv_err t i ts r b : err (b_qp (mlx5_umr_set_psv t i ts r b)) = 0 -> err (b_qp b) = 0.
Proof.
  intros H. destruct (Z.eq_dec (err (b_qp b)) 0) as [|E]; [done|]. exfalso. revert H.
  unfold mlx5_umr_set_psv, _common_wqe_init_op. cbv zeta.
  destruct r; simpl; destruct (mlx5_wq_overflow _ _ _ _); unfold b_fail; simpl;
    rewrite ?(proj2 (Z.eqb_neq _ _) E); simpl; rewrite ?(proj2 (Z.eqb_neq _ _) E); done.
Qed.

(** The UMR element once closed: its completion is suppressed. *)
Lemma finalize_suppressed b :
  let b1 := umr_finalize_common (suppress_umr_completion b) in
  wq_sig (b_qp b) = false ->
  signals (b_mem b1) (cur_ctrl (b_qp b)) = false /\
  (forall a, a < cur_ctrl (b_qp b) \/ cur_ctrl (b_qp b) + 64 <= a -> b_mem b1 a = b_mem b a).
Proof.
  intros b1 Hs. unfold b1, umr_finalize_common, suppress_umr_completion, _common_wqe_finalize, __wqe_finalize. simpl.
  rewrite Hs. split.
  - unfold signals. load_solve. rewrite Z.mod_pow2_bits_low by (simpl; lia). rewrite Z.ldiff_spec.
    change (Z.testbit MLX5_WQE_CTRL_CQ_UPDATE 3) with true. by rewrite andb_false_r.
  - intros a Ha. rewrite !store_be_outside by (simpl; lia). done.
Qed.

(** The block [d] blocks after the one the queue posts at *)
Definition slot_addr (qp : mlx5_qp) (d : Z) : Z :=
  mlx5_get_send_wqe qp (slot_at (cur_post (sq qp)) (wqe_cnt (sq qp)) d).

Lemma slot_addr_disjoint qp d1 d2 :
  sq_wf qp -> 0 <= d1 < wqe_cnt (sq qp) -> 0 <= d2 < wqe_cnt (sq qp) -> d1 <> d2 ->
  slot_addr qp d1 + 64 <= slot_addr qp d2 \/ slot_addr qp d2 + 64 <= slot_addr qp d1.
Proof.
  intros Hw Hd1 Hd2 Hne. unfold slot_addr. rewrite !get_send_wqe_eq.
  assert (slot_at (cur_post (sq qp)) (wqe_cnt (sq qp)) d1 <> slot_at (cur_post (sq qp)) (wqe_cnt (sq qp)) d2); [|lia].
  intros E. apply Hne. apply (slot_at_inj (cur_post (sq qp)) (wqe_cnt (sq qp))); [by apply wf_cnt_pos|done..].
Qed.

(** Where a queue that has advanced by [n] blocks posts *)
Lemma slot_addr_next qp q n :
  sq_wf qp -> wqe_cnt (sq q) = wqe_cnt (sq qp) -> sq_start q = sq_start qp ->
  cur_post (sq q) = u32 (cur_post (sq qp) + n) -> mlx5_get_send_wqe q (sq_idx q) = slot_addr qp n.
Proof.
  intros Hw C S P. unfold slot_addr. rewrite !get_send_wqe_eq, S. do 2 f_equal. unfold sq_idx. rewrite P, C.
  destruct (wf_cnt _ Hw) as (k & Hk & E). rewrite E, land_pow2_pred by lia. rewrite <- E, <- (Z.add_0_r (u32 _)).
  fold (slot_at (u32 (cur_post (sq qp) + n)) (wqe_cnt (sq qp)) 0). rewrite (slot_at_u32 qp) by done. f_equal. lia.
Qed.

Lemma set_psv_geo t i ts r b :
  let q' := b_qp (mlx5_umr_set_psv t i ts r b) in
  wqe_cnt (sq q') = wqe_cnt (sq (b_qp b)) /\ sq_start q' = sq_start (b_qp b).
Proof.
  unfold mlx5_umr_set_psv, _common_wqe_init_op. cbv zeta.
  destruct r; simpl; destruct (mlx5_wq_overflow _ _ _ _); unfold b_fail; simpl; destruct_ifs; done.
Qed.

(** Configuring a signature on both domains posts three elements — the UMR
    and one SET_PSV per domain, in that order, in consecutive slots of the ring —
    and only the last one asks for a completion on behalf of the request; the UMR
    never does.  On a queue created with [sq_sig_all] the first SET_PSV signals as
    well, although the code means to report one completion. *)
Theorem umr_psv_completions tails block b :
  let qp := b_qp b in
  let n := u32 (cur_size qp + 3) / 4 in
  let slot := slot_addr qp in
  let ts_mem := psv_transient_signature (sb_mem block) in
  let ts_wire := psv_transient_signature (sb_wire block) in
  sq_wf qp -> cur_ctrl qp = slot 0 -> 1 <= n -> n + 2 <= wqe_cnt (sq qp) -> wq_sig qp = false ->
  Z.testbit (fm_cache qp) 3 = false ->
  sig_type (sb_mem block) <> MLX5_SIG_TYPE_NONE -> sig_type (sb_wire block) <> MLX5_SIG_TYPE_NONE ->
  0 <= mem_psv block < 2 ^ 32 -> 0 <= wire_psv block < 2 ^ 32 ->
  0 <= ts_mem < 2 ^ 64 -> 0 <= ts_wire < 2 ^ 64 ->
  let b' := umr_finalize_and_set_psvs tails block b in
  let m' := b_mem b' in
  err (b_qp b') = 0 ->
  nreq (b_qp b') = nreq qp + 3 /\ cur_post (sq (b_qp b')) = u32 (cur_post (sq qp) + n + 2) /\
  signals m' (slot 0) = false /\
  signals m' (slot n) = Z.testbit (sq_signal_bits qp) 3 /\
  signals m' (slot (n + 1)) = Z.testbit (sq_signal_bits qp) 3 || has_flag (ex_wr_flags qp) IBV_SEND_SIGNALED /\
  (load_be 4 (slot n + 16) m', load_be 8 (slot n + 24) m') = (mem_psv block, ts_mem) /\
  (load_be 4 (slot (n + 1) + 16) m', load_be 8 (slot (n + 1) + 24) m') = (wire_psv block, ts_wire).
Proof.
  intros qp n slot ts1 ts2 Hw Hc Hn Hn2 Hs Hf Ht1 Ht2 Hi1 Hi2 Hr1 Hr2 b' m' He.
  pose proof (wf_cnt_pos _ Hw) as Hcnt.
  destruct (finalize_suppressed b Hs) as [S0 F0]. fold qp in S0, F0. rewrite Hc in S0, F0.
  set (b1 := umr_finalize_common (suppress_umr_completion b)) in *.
  assert (Eb' : b' = mlx5_umr_set_psv (tails 1%nat) (wire_psv block) ts2 false
    (mlx5_umr_set_psv (tails 0%nat) (mem_psv block) ts1 true b1)).
  { unfold b', umr_finalize_and_set_psvs. cbv zeta.
    rewrite (proj2 (Z.eqb_neq _ _) Ht1), (proj2 (Z.eqb_neq _ _) Ht2). done. }
  set (b2 := mlx5_umr_set_psv (tails 0%nat) (mem_psv block) ts1 true b1) in *.
  assert (He2 : err (b_qp b2) = 0) by (eapply set_psv_err; rewrite <- Eb'; exact He).
  assert (He1 : err (b_qp b1) = 0) by (eapply set_psv_err; exact He2).
  destruct (set_psv_ok (tails 0%nat) (mem_psv block) ts1 true b1 He1 He2 Hs Hf Hi1 Hr1)
    as (N2 & P2 & X2 & G2 & W2 & Fm2 & S2 & I2 & T2 & F2). fold b2 in N2, P2, X2, G2, W2, Fm2, S2, I2, T2, F2.
  assert (Q1 : sq (b_qp b1) = set_cur_post (u32 (cur_post (sq qp) + n)) (sq qp)) by done.
  destruct (set_psv_geo (tails 0%nat) (mem_psv block) ts1 true b1) as [C2 Z2]. fold b2 in C2, Z2.
  assert (L1 : mlx5_get_send_wqe (b_qp b1) (sq_idx (b_qp b1)) = slot n) by (by apply slot_addr_next; rewrite ?Q1).
  assert (P2' : cur_post (sq (b_qp b2)) = u32 (cur_post (sq qp) + (n + 1))).
  { rewrite P2, Q1. simpl. rewrite u32_add_l. f_equal. lia. }
  assert (L2 : mlx5_get_send_wqe (b_qp b2) (sq_idx (b_qp b2)) = slot (n + 1)).
  { apply slot_addr_next; [done| |done|exact P2']. by rewrite C2, Q1. }
  rewrite L1 in S2, I2, T2, F2.
  destruct (set_psv_ok (tails 1%nat) (wire_psv block) ts2 false b2 He2) as (N3 & P3 & X3 & G3 & _ & _ & S3 & I3 & T3 & F3);
    [by rewrite <- Eb'|done..|]. rewrite <- Eb' in N3, P3, X3, G3, S3, I3, T3, F3. rewrite L2 in S3, I3, T3, F3.
  fold m' in S3, I3, T3, F3.
  pose proof (slot_addr_disjoint qp 0 n Hw ltac:(lia) ltac:(lia) ltac:(lia)) as D1.
  pose proof (slot_addr_disjoint qp 0 (n + 1) Hw ltac:(lia) ltac:(lia) ltac:(lia)) as D2.
  pose proof (slot_addr_disjoint qp n (n + 1) Hw ltac:(lia) ltac:(lia) ltac:(lia)) as D3.
  fold slot in D1, D2, D3.
  split_and!.
  - rewrite N3, N2. change (nreq (b_qp b1)) with (nreq qp + 1). lia.
  - rewrite P3, P2', u32_add_l. f_equal. lia.
  - rewrite <- S0. apply signals_ext. intros a Ha. rewrite F3, F2 by lia. done.
  - rewrite (signals_ext m' (b_mem b2)) by (intros; apply F3; lia). rewrite S2. rewrite andb_false_r, orb_false_r. done.
  - rewrite S3, G2, X2. change (sq_signal_bits (b_qp b1)) with (sq_signal_bits qp).
    change (ex_wr_flags (b_qp b1)) with (ex_wr_flags qp). by rewrite andb_true_r.
  - rewrite <- I2 at 1. rewrite <- T2 at 1. f_equal; apply load_be_ext; intros; apply F3; simpl in *; lia.
  - by rewrite I3, T3.
Qed.

Lemma umr_psv_completions_witness :
  let dom := demo_domain MLX5_SIG_TYPE_T10DIF in
  let block := mk_sb 0x11 0x22 dom dom 0 0xff 0 BSF_UPDATED in
  let qp := set_cur_size 4 (set_ex_wr_flags IBV_SEND_SIGNALED (set_cur_ctrl (4096 + 192) (demo_qp IBV_QPT_RC 3))) in
  let b' := umr_finalize_and_set_psvs (fun _ => (0, 0)) block (mk_b qp (fun _ => 255)) in
  signals (b_mem b') (4096 + 192) = false /\ signals (b_mem b') 4096 = false /\ signals (b_mem b') (4096 + 64) = true.
Proof.
  intros dom block qp b'.
  destruct (umr_psv_completions (fun _ => (0, 0)) block (mk_b qp (fun _ => 255)))
    as (_ & _ & H1 & H2 & H3 & _);
    [destruct (demo_wf IBV_QPT_RC 3 ltac:(lia)); by split|by vm_compute..|].
  exact (conj H1 (conj H2 H3)).
Defined.
