(* ===== verification/Table.v ===== *)
(** The two-level tables of a context (providers/mlx5: [qp_table] in qp.c,
    [srq_table] in srq.c, [uidx_table] and [mkey_table] in mlx5.c, the last two
    under a mutex): 4096 buckets of 4096 pointers, a bucket allocated when its
    first entry is stored and freed with its last.  All four are one algorithm;
    the abstract specification is a finite map from 24-bit numbers to pointers. *)

From stdpp Require Import base numbers list gmap.
From S2P Require Import Prelude.

(** MLX5_QP_TABLE_SHIFT and its three twins *)
Definition TABLE_SHIFT : Z := 12.
Definition TABLE_MASK : Z := 2 ^ 12 - 1.
Definition TABLE_SIZE : Z := 2 ^ (24 - 12).

(** A bucket; [table] is meaningful while [refcnt] is not zero.  A null pointer is 0. *)
Record bucket : Type := mk_bucket { refcnt : Z; table : list Z }.

(** [struct { struct mlx5_qp **table; int refcnt; } qp_table[MLX5_QP_TABLE_SIZE]] *)
Definition dir : Type := Z -> bucket.

Definition tind (n : Z) : Z := Z.shiftr n TABLE_SHIFT.
Definition slot (n : Z) : Z := Z.land n TABLE_MASK.
Definition set_bucket (i : Z) (b : bucket) (d : dir) : dir := fun j => if j =? i then b else d j.

Definition find_entry (d : dir) (n : Z) : Z :=
  if negb (refcnt (d (tind n)) =? 0) then aget (table (d (tind n))) (slot n) else 0.

(** [mlx5_store_*]; [alloc] tells whether [calloc] succeeds *)
Definition store_entry (alloc : bool) (d : dir) (n p : Z) : Z * dir :=
  let b := d (tind n) in
  let '(ok, t) :=
    if refcnt b =? 0 then (alloc, replicate (Z.to_nat (TABLE_MASK + 1)) 0) else (true, table b) in
  if ok then (0, set_bucket (tind n) (mk_bucket (s32 (refcnt b + 1)) (aset t (slot n) p)) d)
  else (-1, d).

Definition clear_entry (d : dir) (n : Z) : dir :=
  let b := d (tind n) in
  let r := s32 (refcnt b - 1) in
  if r =? 0 then set_bucket (tind n) (mk_bucket r []) d
  else set_bucket (tind n) (mk_bucket r (aset (table b) (slot n) 0)) d.

(** ** The four tables *)

Record tables : Type := mk_tables { qp_table : dir; srq_table : dir; uidx_table : dir; mkey_table : dir }.

Definition mlx5_find_qp (c : tables) (qpn : Z) : Z := find_entry (qp_table c) qpn.
Definition mlx5_store_qp (alloc : bool) (c : tables) (qpn qp : Z) : Z * tables :=
  let '(r, d) := store_entry alloc (qp_table c) qpn qp in
  (r, mk_tables d (srq_table c) (uidx_table c) (mkey_table c)).
Definition mlx5_clear_qp (c : tables) (qpn : Z) : tables :=
  mk_tables (clear_entry (qp_table c) qpn) (srq_table c) (uidx_table c) (mkey_table c).

Definition mlx5_find_srq (c : tables) (srqn : Z) : Z := find_entry (srq_table c) srqn.
Definition mlx5_store_srq (alloc : bool) (c : tables) (srqn srq : Z) : Z * tables :=
  let '(r, d) := store_entry alloc (srq_table c) srqn srq in
  (r, mk_tables (qp_table c) d (uidx_table c) (mkey_table c)).
Definition mlx5_clear_srq (c : tables) (srqn : Z) : tables :=
  mk_tables (qp_table c) (clear_entry (srq_table c) srqn) (uidx_table c) (mkey_table c).

Definition mlx5_find_mkey (c : tables) (mkey : Z) : Z := find_entry (mkey_table c) mkey.
Definition mlx5_store_mkey (alloc : bool) (c : tables) (mkey p : Z) : Z * tables :=
  let '(r, d) := store_entry alloc (mkey_table c) mkey p in
  (r, mk_tables (qp_table c) (srq_table c) (uidx_table c) d).
Definition mlx5_clear_mkey (c : tables) (mkey : Z) : tables :=
  mk_tables (qp_table c) (srq_table c) (uidx_table c) (clear_entry (mkey_table c) mkey).

(** ** User indices: the table also hands out the numbers. *)

(** The first bucket that is not full, from [i] *)
Fixpoint free_bucket (d : dir) (fuel : nat) (i : Z) : option Z :=
  match fuel with
  | O => None
  | S f => if refcnt (d i) <? TABLE_MASK then Some i else free_bucket d f (i + 1)
  end.

(** The first null pointer of a bucket, from [i]; its length if there is none *)
Fixpoint free_slot (l : list Z) (i : Z) : Z :=
  match l with
  | [] => i
  | x :: l' => if x =? 0 then i else free_slot l' (i + 1)
  end.

Definition get_free_uidx (d : dir) : Z :=
  match free_bucket d (Z.to_nat TABLE_SIZE) 0 with
  | None => -1
  | Some t =>
    if refcnt (d t) =? 0 then Z.shiftl t TABLE_SHIFT
    else Z.lor (Z.shiftl t TABLE_SHIFT) (free_slot (table (d t)) 0)
  end.

Definition mlx5_find_uidx (c : tables) (uidx : Z) : Z := find_entry (uidx_table c) uidx.
Definition mlx5_store_uidx (alloc : bool) (c : tables) (rsc : Z) : Z * tables :=
  let uidx := get_free_uidx (uidx_table c) in
  if uidx <? 0 then (-1, c)
  else
    let '(r, d) := store_entry alloc (uidx_table c) uidx rsc in
    (if r =? 0 then uidx else -1, mk_tables (qp_table c) (srq_table c) d (mkey_table c)).
Definition mlx5_clear_uidx (c : tables) (uidx : Z) : tables :=
  mk_tables (qp_table c) (srq_table c) (clear_entry (uidx_table c) uidx) (mkey_table c).

(** * The abstract map *)

Lemma tind_div n : tind n = n / 4096.
Proof. unfold tind, TABLE_SHIFT. by rewrite Z.shiftr_div_pow2. Qed.

Lemma slot_mod n : slot n = n mod 4096.
Proof. unfold slot, TABLE_MASK. change (2 ^ 12 - 1) with (Z.ones 12). by rewrite Z.land_ones. Qed.

Lemma slot_range n : 0 <= slot n < 4096.
Proof. rewrite slot_mod. apply Z.mod_pos_bound. lia. Qed.

Lemma slot_inj n m : tind n = tind m -> slot n = slot m -> n = m.
Proof. rewrite !tind_div, !slot_mod. intros. div_lia. Qed.

(** The entries of bucket [i] *)
Definition in_bucket (i : Z) (kv : Z * Z) : Prop := tind kv.1 = i.
#[global] Instance in_bucket_dec i kv : Decision (in_bucket i kv).
Proof. unfold in_bucket. apply _. Defined.

Definition entries (M : gmap Z Z) (i : Z) : gmap Z Z := filter (in_bucket i) M.

(** The concrete directory represents the map. *)
Record rep (d : dir) (M : gmap Z Z) : Prop := {
  rep_keys : forall n p, M !! n = Some p -> 0 <= n < 2 ^ 24 /\ p <> 0;
  rep_find : forall n, find_entry d n = default 0 (M !! n);
  rep_cnt : forall i, refcnt (d i) = Z.of_nat (size (entries M i));
  rep_len : forall i, refcnt (d i) <> 0 -> length (table (d i)) = 4096%nat
}.

Lemma rep_empty : rep (fun _ => mk_bucket 0 []) ∅.
Proof. by split. Qed.

Lemma entries_size M i : (size (entries M i) <= 4096)%nat.
Proof.
  rewrite <- size_dom. etrans; [apply (subseteq_size _ (list_to_set (seqZ (i * 4096) 4096) : gset Z))|].
  - intros n Hn. apply elem_of_dom in Hn as [p Hn]. unfold entries in Hn.
    apply map_lookup_filter_Some in Hn as [_ Hn]. unfold in_bucket in Hn. simpl in Hn. rewrite tind_div in Hn.
    apply elem_of_list_to_set, elem_of_seqZ. div_lia.
  - rewrite size_list_to_set by apply NoDup_seqZ. rewrite length_seqZ. lia.
Qed.

Lemma entries_insert M n p :
  M !! n = None ->
  size (entries (<[n:=p]> M) (tind n)) = S (size (entries M (tind n))) /\
  (forall i, i <> tind n -> size (entries (<[n:=p]> M) i) = size (entries M i)).
Proof.
  intros Hn. unfold entries. split.
  - rewrite map_filter_insert_True by done. apply map_size_insert_None.
    apply map_lookup_filter_None. by left.
  - intros i Hi. rewrite map_filter_insert_not; [done|]. intros y Hy. unfold in_bucket in Hy. simpl in Hy. congruence.
Qed.

Lemma entries_delete M n p :
  M !! n = Some p ->
  size (entries M (tind n)) = S (size (entries (delete n M) (tind n))) /\
  (forall i, i <> tind n -> size (entries (delete n M) i) = size (entries M i)).
Proof.
  intros Hn. destruct (entries_insert (delete n M) n p (lookup_delete_eq M n)) as [H1 H2].
  rewrite insert_delete_id in H1, H2 by done. split; [done|]. intros i Hi. by rewrite <- H2.
Qed.

(** An entry of an empty bucket is not in the map. *)
Lemma rep_empty_bucket d M n : rep d M -> refcnt (d (tind n)) = 0 -> M !! n = None.
Proof.
  intros R H0. pose proof (rep_find d M R n) as F. unfold find_entry in F. rewrite H0 in F. simpl in F.
  destruct (M !! n) as [p|] eqn:E; [|done]. destruct (rep_keys d M R n p E). simpl in F. congruence.
Qed.

Lemma find_set_bucket d n b m :
  find_entry (set_bucket (tind n) b d) m =
  if bool_decide (tind m = tind n) then (if negb (refcnt b =? 0) then aget (table b) (slot m) else 0) else find_entry d m.
Proof.
  unfold find_entry, set_bucket. case_bool_decide as E; destruct (Z.eqb_spec (tind m) (tind n)); try done; contradiction.
Qed.

(** [store] of a number not in use *)
Lemma store_rep alloc d M n p :
  rep d M -> 0 <= n < 2 ^ 24 -> M !! n = None -> p <> 0 ->
  let '(r, d') := store_entry alloc d n p in
  (r = 0 /\ rep d' (<[n:=p]> M)) \/ (r = -1 /\ alloc = false /\ d' = d).
Proof.
  intros R Hn HM Hp. destruct (entries_insert M n p HM) as [S1 S2].
  pose proof (entries_size (<[n:=p]> M) (tind n)) as Hsz. rewrite S1 in Hsz.
  pose proof (rep_cnt _ _ R (tind n)) as Hc. unfold store_entry.
  set (t := if refcnt (d (tind n)) =? 0 then replicate (Z.to_nat (TABLE_MASK + 1)) 0 else table (d (tind n))).
  assert (Ht : length t = 4096%nat /\ forall m, tind m = tind n -> aget t (slot m) = default 0 (M !! m)).
  { unfold t. destruct (Z.eqb_spec (refcnt (d (tind n))) 0) as [E|E].
    - split; [apply length_replicate|]. intros m Em. rewrite (rep_empty_bucket d M m R) by (by rewrite Em).
      unfold aget. rewrite nth_lookup. pose proof (slot_range m).
      rewrite lookup_replicate_2 by (unfold TABLE_MASK; lia). done.
    - split; [by apply (rep_len d M R)|]. intros m Em. rewrite <- (rep_find d M R m). unfold find_entry.
      rewrite Em. by rewrite (proj2 (Z.eqb_neq _ _) E). }
  destruct Ht as [Hlen Hval].
  assert (Hrep : rep (set_bucket (tind n) (mk_bucket (s32 (refcnt (d (tind n)) + 1)) (aset t (slot n) p)) d) (<[n:=p]> M)).
  { rewrite s32_small by lia. split.
    - intros m q. destruct (decide (m = n)) as [->|Hne].
      + rewrite lookup_insert_eq. by intros [= <-].
      + rewrite lookup_insert_ne by done. apply (rep_keys d M R).
    - intros m. rewrite find_set_bucket. simpl. rewrite (proj2 (Z.eqb_neq _ _)) by lia. simpl.
      case_bool_decide as Em.
      + destruct (decide (m = n)) as [->|Hne].
        * rewrite lookup_insert_eq, aget_aset_eq; [done|]. rewrite Hlen. apply slot_range.
        * rewrite lookup_insert_ne by done. rewrite aget_aset_ne; [by apply Hval| | |].
          -- apply slot_range.
          -- apply slot_range.
          -- intros E. apply Hne. symmetry. by apply slot_inj.
      + rewrite lookup_insert_ne by congruence. apply (rep_find d M R).
    - intros i. unfold set_bucket. destruct (Z.eqb_spec i (tind n)) as [->|Hne]; simpl.
      + rewrite S1. lia.
      + rewrite S2 by done. apply (rep_cnt d M R).
    - intros i. unfold set_bucket. destruct (Z.eqb_spec i (tind n)) as [->|Hne]; simpl; [|apply (rep_len d M R)].
      intros _. by rewrite length_aset. }
  unfold t in Hrep. destruct (refcnt (d (tind n)) =? 0); [destruct alloc|]; [by left|by right|by left].
Qed.

(** [clear] of a number in use *)
Lemma clear_rep d M n p : rep d M -> M !! n = Some p -> rep (clear_entry d n) (delete n M).
Proof.
  intros R HM. destruct (entries_delete M n p HM) as [S1 S2].
  pose proof (entries_size M (tind n)) as Hsz. pose proof (rep_cnt _ _ R (tind n)) as Hc.
  unfold clear_entry. rewrite s32_small by lia.
  set (b := mk_bucket (refcnt (d (tind n)) - 1) (if refcnt (d (tind n)) - 1 =? 0 then [] else aset (table (d (tind n))) (slot n) 0)).
  assert (Hrep : rep (set_bucket (tind n) b d) (delete n M)).
  { split.
    - intros m q. destruct (decide (m = n)) as [->|Hne]; [by rewrite lookup_delete_eq|].
      rewrite lookup_delete_ne by done. apply (rep_keys d M R).
    - intros m. rewrite find_set_bucket. case_bool_decide as Em.
      + unfold b. simpl. destruct (Z.eqb_spec (refcnt (d (tind n)) - 1) 0) as [E|E]; simpl.
        * assert (delete n M !! m = None) as ->; [|done].
          assert (size (entries (delete n M) (tind n)) = 0%nat) as H0 by lia. apply map_size_empty_inv in H0.
          destruct (delete n M !! m) as [q|] eqn:Eq; [|done]. exfalso.
          assert (entries (delete n M) (tind n) !! m = Some q) as Hin by (apply map_lookup_filter_Some; done).
          by rewrite H0 in Hin.
        * destruct (decide (m = n)) as [->|Hne].
          -- rewrite lookup_delete_eq, aget_aset_eq; [done|]. rewrite (rep_len d M R) by lia. apply slot_range.
          -- rewrite lookup_delete_ne by done.
             rewrite aget_aset_ne; [|apply slot_range|apply slot_range|intros E'; apply Hne; symmetry; by apply slot_inj].
             rewrite <- (rep_find d M R m). unfold find_entry. rewrite Em. by rewrite (proj2 (Z.eqb_neq (refcnt _) 0)) by lia.
      + rewrite lookup_delete_ne by congruence. apply (rep_find d M R).
    - intros i. unfold set_bucket. destruct (Z.eqb_spec i (tind n)) as [->|Hne]; simpl.
      + lia.
      + rewrite S2 by done. apply (rep_cnt d M R).
    - intros i. unfold set_bucket. destruct (Z.eqb_spec i (tind n)) as [->|Hne]; [|apply (rep_len d M R)].
      unfold b; simpl. intros Hnz. rewrite (proj2 (Z.eqb_neq _ _) Hnz), length_aset. apply (rep_len d M R). lia. }
  unfold b in Hrep. by destruct (_ =? 0).
Qed.

(** * The interface *)

(** A table of pointers as its clients see it: a finite map, provided numbers are
    stored fresh and cleared once. *)
Class PtrTable (T : Type) : Type := {
  pt_find : T -> Z -> Z;
  pt_store : bool -> T -> Z -> Z -> Z * T;
  pt_clear : T -> Z -> T;
  pt_rep : T -> gmap Z Z -> Prop;
  pt_find_ok : forall t M n, pt_rep t M -> pt_find t n = default 0 (M !! n);
  pt_store_ok : forall alloc t M n p, pt_rep t M -> 0 <= n < 2 ^ 24 -> M !! n = None -> p <> 0 ->
    let '(r, t') := pt_store alloc t n p in
    (r = 0 /\ pt_rep t' (<[n:=p]> M)) \/ (r = -1 /\ alloc = false /\ pt_rep t' M);
  pt_clear_ok : forall t M n p, pt_rep t M -> M !! n = Some p -> pt_rep (pt_clear t n) (delete n M)
}.

Lemma store_table_ok alloc t M n p (f : tables -> dir) (g : dir -> tables -> tables) :
  rep (f t) M -> (forall d, f (g d t) = d) -> 0 <= n < 2 ^ 24 -> M !! n = None -> p <> 0 ->
  let '(r, t') := (let '(r, d) := store_entry alloc (f t) n p in (r, g d t)) in
  (r = 0 /\ rep (f t') (<[n:=p]> M)) \/ (r = -1 /\ alloc = false /\ rep (f t') M).
Proof.
  intros R Hg Hn HM Hp. pose proof (store_rep alloc (f t) M n p R Hn HM Hp) as H.
  destruct (store_entry alloc (f t) n p) as [r d]. rewrite Hg.
  destruct H as [H|(-> & -> & ->)]; [by left|by right].
Qed.

#[global] Program Instance qp_ptr_table : PtrTable tables := {|
  pt_find := mlx5_find_qp; pt_store := mlx5_store_qp; pt_clear := mlx5_clear_qp;
  pt_rep t M := rep (qp_table t) M |}.
Next Obligation. intros t M n R. apply (rep_find _ _ R). Qed.
Next Obligation.
  intros alloc t M n p R Hn HM Hp. exact (store_table_ok alloc t M n p qp_table
    (fun d c => mk_tables d (srq_table c) (uidx_table c) (mkey_table c)) R (fun _ => eq_refl) Hn HM Hp).
Qed.
Next Obligation. intros t M n p. apply clear_rep. Qed.

Program Definition srq_ptr_table : PtrTable tables := {|
  pt_find := mlx5_find_srq; pt_store := mlx5_store_srq; pt_clear := mlx5_clear_srq;
  pt_rep t M := rep (srq_table t) M |}.
Next Obligation. intros t M n R. apply (rep_find _ _ R). Qed.
Next Obligation.
  intros alloc t M n p R Hn HM Hp. exact (store_table_ok alloc t M n p srq_table
    (fun d c => mk_tables (qp_table c) d (uidx_table c) (mkey_table c)) R (fun _ => eq_refl) Hn HM Hp).
Qed.
Next Obligation. intros t M n p. apply clear_rep. Qed.

Program Definition mkey_ptr_table : PtrTable tables := {|
  pt_find := mlx5_find_mkey; pt_store := mlx5_store_mkey; pt_clear := mlx5_clear_mkey;
  pt_rep t M := rep (mkey_table t) M |}.
Next Obligation. intros t M n R. apply (rep_find _ _ R). Qed.
Next Obligation.
  intros alloc t M n p R Hn HM Hp. exact (store_table_ok alloc t M n p mkey_table
    (fun d c => mk_tables (qp_table c) (srq_table c) (uidx_table c) d) R (fun _ => eq_refl) Hn HM Hp).
Qed.
Next Obligation. intros t M n p. apply clear_rep. Qed.

(** ** Traces *)

Inductive top : Type := TStore (alloc : bool) (n p : Z) | TClear (n : Z) | TFind (n : Z).

Section Trace.
Context {T : Type} `{PtrTable T}.

Definition t_step (o : top) (t : T) : Z * T :=
  match o with
  | TStore alloc n p => pt_store alloc t n p
  | TClear n => (0, pt_clear t n)
  | TFind n => (pt_find t n, t)
  end.

Fixpoint t_run (ops : list top) (t : T) : list Z * T :=
  match ops with
  | [] => ([], t)
  | o :: ops => let '(r, t) := t_step o t in let '(rs, t) := t_run ops t in (r :: rs, t)
  end.
End Trace.

(** The map the calls denote, with the result of each *)
Inductive a_step : top -> gmap Z Z -> Z -> gmap Z Z -> Prop :=
| a_store alloc n p M : a_step (TStore alloc n p) M 0 (<[n:=p]> M)
| a_no_memory n p M : a_step (TStore false n p) M (-1) M
| a_clear n M : a_step (TClear n) M 0 (delete n M)
| a_find n M : a_step (TFind n) M (default 0 (M !! n)) M.

Inductive a_run : list top -> gmap Z Z -> list Z -> gmap Z Z -> Prop :=
| a_nil M : a_run [] M [] M
| a_cons o ops M r M1 rs M2 : a_step o M r M1 -> a_run ops M1 rs M2 -> a_run (o :: ops) M (r :: rs) M2.

(** The callers' discipline: a stored number is fresh, a cleared one in use. *)
Definition allowed (o : top) (M : gmap Z Z) : Prop :=
  match o with
  | TStore _ n p => 0 <= n < 2 ^ 24 /\ p <> 0 /\ M !! n = None
  | TClear n => is_Some (M !! n)
  | TFind _ => True
  end.

(** ... at every step, whichever stores fail *)
Fixpoint disciplined (ops : list top) (M : gmap Z Z) : Prop :=
  match ops with
  | [] => True
  | o :: ops => allowed o M /\ forall r M', a_step o M r M' -> disciplined ops M'
  end.

Lemma t_run_refines {T : Type} {P : PtrTable T} ops t M :
  pt_rep t M -> disciplined ops M ->
  exists M', a_run ops M (t_run ops t).1 M' /\ pt_rep (t_run ops t).2 M'.
Proof.
  revert t M. induction ops as [|o ops IH]; intros t M R Hd; [exists M; split; [constructor|done]|].
  destruct Hd as [Ha Hd]. simpl. destruct (t_step o t) as [r t1] eqn:E.
  assert (exists M1, a_step o M r M1 /\ pt_rep t1 M1) as (M1 & Hs & R1).
  { destruct o as [alloc n p|n|n]; simpl in E, Ha.
    - destruct Ha as (Hn & Hp & HM). pose proof (pt_store_ok alloc t M n p R Hn HM Hp) as Hs. rewrite E in Hs.
      destruct Hs as [[-> R1]|(-> & -> & R1)]; eexists; (split; [constructor|done]).
    - injection E as <- <-. destruct Ha as [p HM]. exists (delete n M). split; [constructor|by apply (pt_clear_ok t M n p)].
    - injection E as <- <-. rewrite (pt_find_ok t M n R). exists M. split; [constructor|done]. }
  destruct (IH t1 M1 R1 (Hd r M1 Hs)) as (M2 & Hr & R2). destruct (t_run ops t1) as [rs t2]. simpl in *.
  exists M2. split; [by econstructor|done].
Qed.

(** C18.  The QP table, whose lookups the completion path trusts, refines a finite
    map.  Under any interleaving of stores of fresh numbers, clears of used ones and
    lookups, with buckets allocated and freed on the way and allocations failing at
    will, every call returns what the map gives, and a failed allocation leaves the
    map unchanged.  The SRQ and mkey tables satisfy the same interface. *)
Theorem qp_table_refines ops c M :
  rep (qp_table c) M -> disciplined ops M ->
  exists M', a_run ops M (t_run (T:=tables) ops c).1 M' /\ rep (qp_table (t_run (T:=tables) ops c).2) M'.
Proof. intros R Hd. exact (t_run_refines (P := qp_ptr_table) ops c M R Hd). Qed.

Definition no_tables : tables :=
  let e : dir := fun _ => mk_bucket 0 [] in mk_tables e e e e.

Lemma qp_table_refines_witness :
  let ops := [TStore true 5 100; TStore true 4101 200; TFind 5; TFind 4101; TClear 5; TFind 5] in
  exists M', a_run ops ∅ (t_run (T:=tables) ops no_tables).1 M' /\ rep (qp_table (t_run (T:=tables) ops no_tables).2) M'.
Proof.
  intros ops. apply (qp_table_refines ops no_tables ∅); [exact rep_empty|].
  simpl. split; [split_and!; [lia..|done]|]. intros r M H. inversion H; subst; clear H.
  split; [split_and!; [lia..|by vm_compute]|]. intros r M H. inversion H; subst; clear H.
  split; [done|]. intros r M H. inversion H; subst; clear H.
  split; [done|]. intros r M H. inversion H; subst; clear H.
  split; [exists 100; by vm_compute|]. intros r M H. inversion H; subst; clear H.
  split; [done|]. done.
Defined.

(** * User indices *)

Lemma free_bucket_some d f i t :
  free_bucket d f i = Some t -> i <= t < i + Z.of_nat f /\ refcnt (d t) < TABLE_MASK.
Proof.
  revert i. induction f as [|f IH]; intros i; simpl; [done|].
  destruct (Z.ltb_spec (refcnt (d i)) TABLE_MASK); [intros [= <-]; lia|]. intros E. apply IH in E. lia.
Qed.

Lemma free_bucket_none d f i :
  free_bucket d f i = None -> forall t, i <= t < i + Z.of_nat f -> TABLE_MASK <= refcnt (d t).
Proof.
  revert i. induction f as [|f IH]; intros i; simpl; [lia|].
  destruct (Z.ltb_spec (refcnt (d i)) TABLE_MASK); [done|]. intros E t Ht.
  destruct (decide (t = i)) as [->|]; [done|]. apply (IH (i + 1) E). lia.
Qed.

Lemma free_slot_spec l i :
  i <= free_slot l i <= i + Z.of_nat (length l) /\
  (free_slot l i < i + Z.of_nat (length l) -> aget l (free_slot l i - i) = 0) /\
  (free_slot l i = i + Z.of_nat (length l) -> forall j, 0 <= j < Z.of_nat (length l) -> aget l j <> 0).
Proof.
  revert i. induction l as [|x l IH]; intros i; cbn [free_slot length].
  { split_and!; [lia..|]. simpl. intros. lia. }
  destruct (Z.eqb_spec x 0) as [->|Hx].
  { split_and!; [lia..| |intros; lia]. intros _. rewrite Z.sub_diag. done. }
  destruct (IH (i + 1)) as (H1 & H2 & H3). split_and!; [lia..| |].
  - intros Hlt. specialize (H2 ltac:(lia)). unfold aget in *.
    replace (Z.to_nat (free_slot l (i + 1) - i)) with (S (Z.to_nat (free_slot l (i + 1) - (i + 1)))) by lia. exact H2.
  - intros E j Hj. destruct (decide (j = 0)) as [->|]; [done|]. specialize (H3 ltac:(lia) (j - 1) ltac:(lia)).
    unfold aget in *. replace (Z.to_nat j) with (S (Z.to_nat (j - 1))) by lia. exact H3.
Qed.

(** A bucket whose count is below 4096 has a free number. *)
Lemma bucket_has_free d M i :
  rep d M -> 0 <= i -> refcnt (d i) < 4096 -> refcnt (d i) <> 0 -> free_slot (table (d i)) 0 < 4096.
Proof.
  intros R Hi Hlt Hnz. pose proof (rep_len d M R i Hnz) as Hlen.
  destruct (free_slot_spec (table (d i)) 0) as (Hr & _ & Hfull). rewrite Hlen in *.
  destruct (decide (free_slot (table (d i)) 0 = 4096)) as [E|]; [|lia]. exfalso.
  specialize (Hfull ltac:(lia)).
  assert ((list_to_set (seqZ (i * 4096) 4096) : gset Z) ⊆ dom (entries M i)) as Hsub.
  { intros n Hn. apply elem_of_list_to_set, elem_of_seqZ in Hn.
    assert (tind n = i /\ slot n = n - i * 4096) as [Et Es] by (rewrite tind_div, slot_mod; div_lia).
    pose proof (rep_find d M R n) as F. unfold find_entry in F.
    rewrite Et, (proj2 (Z.eqb_neq _ _) Hnz) in F. simpl in F.
    destruct (M !! n) as [p|] eqn:EM; simpl in F; [|by destruct (Hfull (slot n)); [rewrite Es; lia|]].
    apply elem_of_dom. exists p. by apply map_lookup_filter_Some. }
  apply subseteq_size in Hsub. rewrite size_list_to_set, length_seqZ, size_dom in Hsub by apply NoDup_seqZ.
  rewrite (rep_cnt d M R i) in Hlt. lia.
Qed.

Lemma get_free_uidx_fresh d M :
  rep d M ->
  let u := get_free_uidx d in
  (u = -1 /\ forall i, 0 <= i < 4096 -> 4095 <= refcnt (d i)) \/ (0 <= u < 2 ^ 24 /\ M !! u = None).
Proof.
  intros R. unfold get_free_uidx. destruct (free_bucket d _ 0) as [t|] eqn:E.
  - apply free_bucket_some in E as [Ht Hc]. change (Z.to_nat TABLE_SIZE) with 4096%nat in Ht. unfold TABLE_MASK in Hc. right.
    destruct (Z.eqb_spec (refcnt (d t)) 0) as [E0|E0]; cbv zeta.
    + assert (Z.shiftl t TABLE_SHIFT = t * 4096) as -> by (unfold TABLE_SHIFT; by rewrite Z.shiftl_mul_pow2).
      split; [lia|]. apply (rep_empty_bucket d M _ R). rewrite tind_div. by rewrite Z.div_mul by lia.
    + pose proof (bucket_has_free d M t R ltac:(lia) ltac:(lia) E0) as Hs.
      destruct (free_slot_spec (table (d t)) 0) as (H1 & H2 & _). rewrite (rep_len d M R t E0) in *.
      specialize (H2 ltac:(lia)). rewrite Z.sub_0_r in H2. set (j := free_slot (table (d t)) 0) in *.
      unfold TABLE_SHIFT. rewrite lor_shl_add by lia. change (2 ^ 12) with 4096.
      split; [lia|]. assert (tind (t * 4096 + j) = t /\ slot (t * 4096 + j) = j) as [Et Es]
        by (rewrite tind_div, slot_mod; div_lia).
      pose proof (rep_find d M R (t * 4096 + j)) as F. unfold find_entry in F.
      rewrite Et, Es, (proj2 (Z.eqb_neq _ _) E0), H2 in F. simpl in F.
      destruct (M !! (t * 4096 + j)) as [p|] eqn:EM; [|done]. destruct (rep_keys d M R _ p EM). simpl in F. congruence.
  - left. split; [done|]. intros i Hi. pose proof (free_bucket_none d _ 0 E i) as H.
    change (Z.to_nat TABLE_SIZE) with 4096%nat in H. unfold TABLE_MASK in H. lia.
Qed.

(** [mlx5_store_uidx] hands out a number nobody uses and binds the resource to
    it; it fails, leaving the table as it was, only when the allocation fails or
    every bucket holds 4095 resources. *)
Theorem store_uidx_fresh alloc c M rsc :
  rep (uidx_table c) M -> rsc <> 0 ->
  let '(u, c') := mlx5_store_uidx alloc c rsc in
  (0 <= u < 2 ^ 24 /\ M !! u = None /\ rep (uidx_table c') (<[u:=rsc]> M) /\ mlx5_find_uidx c' u = rsc) \/
  (u = -1 /\ uidx_table c' = uidx_table c /\
   (alloc = false \/ forall i, 0 <= i < 4096 -> 4095 <= refcnt (uidx_table c i))).
Proof.
  intros R Hr. unfold mlx5_store_uidx. pose proof (get_free_uidx_fresh _ M R) as H. cbv zeta in H.
  set (u := get_free_uidx (uidx_table c)) in *. destruct H as [[-> Hfull]|[Hu HM]].
  - simpl. right. split_and!; [done|done|by right].
  - rewrite (proj2 (Z.ltb_ge _ _)) by lia.
    pose proof (store_rep alloc (uidx_table c) M u rsc R Hu HM Hr) as Hs.
    destruct (store_entry alloc (uidx_table c) u rsc) as [r d]. destruct Hs as [[-> R']|(-> & -> & ->)]; simpl.
    + left. split_and!; [lia..|done|done|]. unfold mlx5_find_uidx. simpl. rewrite (rep_find _ _ R'). by rewrite lookup_insert_eq.
    + right. split_and!; [done|done|by left].
Qed.

Lemma store_uidx_fresh_witness :
  let '(u, c') := mlx5_store_uidx true no_tables 77 in u = 0 /\ mlx5_find_uidx c' u = 77.
Proof.
  pose proof (store_uidx_fresh true no_tables ∅ 77 rep_empty ltac:(done)) as H.
  assert ((mlx5_store_uidx true no_tables 77).1 = 0) as E by (by vm_compute).
  destruct (mlx5_store_uidx true no_tables 77) as [u c']. simpl in E. subst u. split; [reflexivity|].
  destruct H as [(_ & _ & _ & H)|(H & _)]; [exact H|discriminate H].
Defined.
