(* ===== verification/Recv.v ===== *)
(** The receive path (providers/mlx5/qp.c): [mlx5_post_recv] on the receive queue of
    a QP and [mlx5_post_wq_recv] on a stand-alone receive queue, which share their
    body, and the scattering of data delivered inside a completion
    ([mlx5_copy_to_recv_wqe], [mlx5_copy_to_send_wqe]). *)

From stdpp Require Import base numbers list.
From S2P Require Import Prelude Mem Types Wqe PostSend.

(** * Queues *)

(** [struct mlx5_rwq] *)
Record mlx5_rwq : Type := mk_rwq {
  rwq_num : Z; rwq_rq : mlx5_wq; pbuff : Z; recv_db : Z; rwq_sig : bool }.

Definition get_recv_wqe (qp : mlx5_qp) (n : Z) : Z :=
  qp_buf qp + wq_offset (rq qp) + Z.shiftl n (wqe_shift (rq qp)).
Definition get_wq_recv_wqe (rwq : mlx5_rwq) (n : Z) : Z := pbuff rwq + Z.shiftl n (wqe_shift (rwq_rq rwq)).

Definition mlx5_init_rwq_indices (rwq : mlx5_rwq) : mlx5_rwq :=
  mk_rwq (rwq_num rwq) (set_wq_tail 0 (set_wq_head 0 (rwq_rq rwq))) (pbuff rwq) (recv_db rwq) (rwq_sig rwq).

(** * Posting *)

(** [calc_sig] of an integer variable of [n] bytes *)
Definition sig_int (n : nat) (v : Z) : Z :=
  u8 (Z.lnot (foldr (fun i r => Z.lxor r (Z.land (Z.shiftr v (8 * Z.of_nat i)) 255)) 0 (seq 0 n))).

(** [set_sig_seg] and [set_wq_sig_seg] *)
Definition set_sig_seg (num sig size idx : Z) (m : mem) : mem :=
  store_be 1 (sig + 4) (Z.lxor (Z.lxor (calc_sig sig size m) (sig_int 4 num)) (sig_int 2 idx)) m.

(** The entries of non-zero length, from [scat] *)
Fixpoint recv_entries (l : list ibv_sge) (scat : Z) (m : mem) : Z * mem :=
  match l with
  | [] => (scat, m)
  | sg :: l' =>
    if sge_length sg =? 0 then recv_entries l' scat m
    else recv_entries l' (scat + sizeof_data_seg) (set_data_ptr_seg scat sg 0 m)
  end.

(** One element at [wqe]: the entries and, if there is room, the end marker *)
Definition recv_wqe (num : Z) (sig : bool) (wq : mlx5_wq) (wqe : Z) (wr : ibv_recv_wr) (m : mem) : mem :=
  let m := if sig then memset wqe 0 (Z.shiftl 1 (wqe_shift wq)) m else m in
  let scat := if sig then wqe + sizeof_data_seg else wqe in
  let '(e, m) := recv_entries (rwr_sg_list wr) scat m in
  let m := if (e - scat) / sizeof_data_seg <? max_gs wq then set_data_ptr_seg_end e m else m in
  if sig then set_sig_seg num wqe (Z.shiftl (rwr_num_sge wr + 1) 4) (Z.land (wq_head wq) 0xffff) m else m.

(** The loop over the requests; [addr] is the address of a slot *)
Fixpoint recv_loop (num : Z) (sig : bool) (addr : Z -> Z) (tails : nat -> Z * Z) (nreq ind : Z)
    (wrs : list ibv_recv_wr) (wq : mlx5_wq) (m : mem) : outcome * Z * mlx5_wq * mem :=
  match wrs with
  | [] => (Ok, nreq, wq, m)
  | wr :: wrs' =>
    let t := tails (Z.to_nat nreq) in
    if mlx5_wq_overflow wq nreq t.1 t.2 then (Err ENOMEM, nreq, wq, m)
    else if max_gs wq <? rwr_num_sge wr then (Err EINVAL, nreq, wq, m)
    else
      recv_loop num sig addr tails (nreq + 1) (Z.land (ind + 1) (wqe_cnt wq - 1)) wrs'
        (set_wrid (aset (wrid wq) ind (rwr_id wr)) wq) (recv_wqe num sig wq (addr ind) wr m)
  end.

Definition recv_ind (wq : mlx5_wq) : Z := Z.land (wq_head wq) (wqe_cnt wq - 1).

(** [head += nreq], then the doorbell record at [db] if the queue may be armed *)
Definition recv_db_update (nreq db : Z) (arm : bool) (wq : mlx5_wq) (m : mem)
  : mlx5_wq * mem * list dev_event :=
  if nreq =? 0 then (wq, m, [])
  else
    let head := u32 (wq_head wq + nreq) in
    let wq := set_wq_head head wq in
    if arm then (wq, store_be 4 db (Z.land head 0xffff) m, [EvBarrier; EvDbrec db (Z.land head 0xffff)])
    else (wq, m, [EvBarrier]).

(** A raw-packet or underlay QP below RTR must not receive yet. *)
Definition recv_armed (qp : mlx5_qp) : bool :=
  negb (((qp_type qp =? IBV_QPT_RAW_PACKET) || has_flag (qp_flags qp) MLX5_QP_FLAGS_USE_UNDERLAY)
        && (qp_state qp <? IBV_QPS_RTR)).

(** [mlx5_post_recv] between the two lock operations: the error (0 or errno), how many
    requests were posted ([*bad_wr] is the next one), the events *)
Definition mlx5_post_recv (tails : nat -> Z * Z) (wrs : list ibv_recv_wr) (qp : mlx5_qp) (m : mem)
  : outcome * Z * mlx5_qp * mem * list dev_event :=
  let '(o, nreq, wq, m) :=
    recv_loop (qp_num qp) (wq_sig qp) (get_recv_wqe qp) tails 0 (recv_ind (rq qp)) wrs (rq qp) m in
  let '(wq, m, tr) := recv_db_update nreq (qp_db qp + 4 * MLX5_RCV_DBR) (recv_armed qp) wq m in
  (o, nreq, set_rq wq qp, m, tr).

Definition mlx5_post_wq_recv (tails : nat -> Z * Z) (wrs : list ibv_recv_wr) (rwq : mlx5_rwq) (m : mem)
  : outcome * Z * mlx5_rwq * mem * list dev_event :=
  let '(o, nreq, wq, m) :=
    recv_loop (rwq_num rwq) (rwq_sig rwq) (get_wq_recv_wqe rwq) tails 0 (recv_ind (rwq_rq rwq)) wrs (rwq_rq rwq) m in
  let '(wq, m, tr) := recv_db_update nreq (recv_db rwq) true wq m in
  (o, nreq, mk_rwq (rwq_num rwq) wq (pbuff rwq) (recv_db rwq) (rwq_sig rwq), m, tr).

(** * Data inside completions *)

(** The loop of [copy_to_scat]: status, [*size], memory *)
Fixpoint scat_loop (ctx : mlx5_context) (scat buf size : Z) (max : nat) (m : mem) : Z * Z * mem :=
  match max with
  | O => (IBV_WC_LOC_LEN_ERR, size, m)
  | S max =>
    let copy := Z.min size (load_be 4 scat m) in
    let m := if load_be 4 (scat + 4) m =? dump_fill_mkey ctx then m
             else memcpy (load_be 8 (scat + 8) m) buf copy m in
    let size := size - copy in
    if size =? 0 then (IBV_WC_SUCCESS, size, m)
    else scat_loop ctx (scat + sizeof_data_seg) (buf + copy) size max m
  end.

Definition copy_to_scat (ctx : mlx5_context) (scat buf size max : Z) (m : mem) : Z * Z * mem :=
  if size =? 0 then (IBV_WC_SUCCESS, size, m) else scat_loop ctx scat buf size (Z.to_nat max) m.

Definition mlx5_copy_to_recv_wqe (ctx : mlx5_context) (qp : mlx5_qp) (idx buf size : Z) (m : mem) : Z * mem :=
  let max := Z.shiftl 1 (wqe_shift (rq qp) - 4) in
  let scat := get_recv_wqe qp idx in
  let scat := if wq_sig qp then scat + sizeof_data_seg else scat in
  let '(r, _, m) := copy_to_scat ctx scat buf size max m in (r, m).

(** [mlx5_copy_to_send_wqe]: the result of a read or an atomic, into the scatter
    list of the request that asked for it, which may wrap *)
Definition mlx5_copy_to_send_wqe (ctx : mlx5_context) (qp : mlx5_qp) (idx buf size : Z) (m : mem) : Z * mem :=
  let idx := Z.land idx (wqe_cnt (sq qp) - 1) in
  let ctrl := mlx5_get_send_wqe qp idx in
  if negb (qp_type qp =? IBV_QPT_RC) then (IBV_WC_GENERAL_ERR, m)
  else
    let op := Z.land (load_be 4 ctrl m) 0xff in
    let skip :=
      if op =? MLX5_OPCODE_RDMA_READ then Some sizeof_raddr_seg
      else if (op =? MLX5_OPCODE_ATOMIC_CS) || (op =? MLX5_OPCODE_ATOMIC_FA)
      then Some (sizeof_raddr_seg + sizeof_atomic_seg) else None in
    match skip with
    | None => (IBV_WC_REM_INV_REQ_ERR, m)
    | Some n =>
      let scat := ctrl + sizeof_ctrl_seg + n in
      let max := Z.land (load_be 4 (ctrl + 4) m) 0x3F - Z.shiftr (scat - ctrl) 4 in
      if qend (sq qp) <? scat + sizeof_data_seg * max then
        let tmp := Z.shiftr (qend (sq qp) - scat) 4 in
        let '(r, rest, m) := copy_to_scat ctx scat buf size tmp m in
        if r =? IBV_WC_SUCCESS then (IBV_WC_SUCCESS, m)
        else
          let '(r, _, m) := copy_to_scat ctx (mlx5_get_send_wqe qp 0) (buf + (size - rest)) rest (max - tmp) m in (r, m)
      else
        let '(r, _, m) := copy_to_scat ctx scat buf size max m in (r, m)
    end.
