(* ===== verification/RecvProps.v ===== *)
(** The receive path: what [mlx5_post_recv] leaves in the queue, and that data
    delivered inside a completion lands in the buffers of the request it completes. *)

From stdpp Require Import base numbers list.
From S2P Require Import Prelude Mem Types Wqe Forecast PostSend SendSafe SendQueue SendDecode Recv.

(** * The queue *)

Definition rq_base (qp : mlx5_qp) : Z := qp_buf qp + wq_offset (rq qp).
Definition rq_stride (qp : mlx5_qp) : Z := 2 ^ wqe_shift (rq qp).
Definition rq_scat (qp : mlx5_qp) : Z := if wq_sig qp then sizeof_data_seg else 0.

Record rq_wf (qp : mlx5_qp) : Prop := {
  rw_cnt : exists k, 0 <= k <= 31 /\ wqe_cnt (rq qp) = 2 ^ k;
  rw_post : max_post (rq qp) <= wqe_cnt (rq qp);
  rw_gs : 0 <= max_gs (rq qp);
  rw_shift : 4 <= wqe_shift (rq qp);
  rw_room : rq_scat qp + 16 * max_gs (rq qp) <= rq_stride qp;
  rw_wrid : Z.of_nat (length (wrid (rq qp))) = wqe_cnt (rq qp);
  rw_head : 0 <= wq_head (rq qp) < 2 ^ 32
}.

Lemma rq_cnt_pos qp : rq_wf qp -> 0 < wqe_cnt (rq qp).
Proof. intros [[k [? ->]] _ _ _ _ _ _]. apply Z.pow_pos_nonneg; lia. Qed.

Lemma recv_wqe_addr qp n : 4 <= wqe_shift (rq qp) -> get_recv_wqe qp n = rq_base qp + n * rq_stride qp.
Proof. intros ?. unfold get_recv_wqe, rq_base, rq_stride. rewrite Z.shiftl_mul_pow2 by lia. done. Qed.

(** The slot at [p] holds the request. *)
Record slot_holds (qp : mlx5_qp) (p : Z) (wr : ibv_recv_wr) (m : mem) : Prop := {
  sh_entries : forall j sg, nonempty (rwr_sg_list wr) !! j = Some sg ->
    read_data m (p + rq_scat qp + 16 * Z.of_nat j) = (sge_length sg, sge_lkey sg, sge_addr sg);
  sh_end : let n := Z.of_nat (length (nonempty (rwr_sg_list wr))) in
    n < max_gs (rq qp) -> read_data m (p + rq_scat qp + 16 * n) = (0, MLX5_INVALID_LKEY, 0)
}.

Lemma slot_holds_ext qp p wr m m' :
  (forall a, p <= a < p + rq_stride qp -> m' a = m a) ->
  Z.of_nat (length (nonempty (rwr_sg_list wr))) <= max_gs (rq qp) -> rq_wf qp ->
  slot_holds qp p wr m -> slot_holds qp p wr m'.
Proof.
  intros E Hn Hw [H1 H2]. pose proof (rw_room _ Hw).
  assert (0 <= rq_scat qp) by (unfold rq_scat; destruct (wq_sig qp); unfold sizeof_data_seg; lia). split.
  - intros j sg Hj. rewrite <- (H1 j sg Hj). apply lookup_lt_Some in Hj. apply read_data_ext. intros a Ha. apply E. lia.
  - intros n Hlt. rewrite <- (H2 Hlt). apply read_data_ext. intros a Ha. apply E. unfold n in *. lia.
Qed.

(** ** One element *)

Lemma recv_entries_spec l scat m :
  Forall sge_range l ->
  let r := recv_entries l scat m in
  let n := Z.of_nat (length (nonempty l)) in
  r.1 = scat + 16 * n /\
  (forall j sg, nonempty l !! j = Some sg ->
     read_data r.2 (scat + 16 * Z.of_nat j) = (sge_length sg, sge_lkey sg, sge_addr sg)) /\
  (forall a, a < scat \/ scat + 16 * n <= a -> r.2 a = m a).
Proof.
  revert scat m. induction l as [|sg l IH]; intros scat m Hl; [simpl; split_and!; [lia|done|done]|].
  apply Forall_cons in Hl as [(R1 & R2 & R3) Hl]. unfold nonempty. cbn [recv_entries]. rewrite filter_cons.
  destruct (Z.eqb_spec (sge_length sg) 0) as [E|E].
  { rewrite decide_False by (by intros ?). by apply IH. }
  rewrite decide_True by done. cbn [length].
  destruct (IH (scat + sizeof_data_seg) (set_data_ptr_seg scat sg 0 m) Hl) as (H1 & H2 & H3).
  cbv zeta in *. fold (nonempty l) in *. unfold sizeof_data_seg in *. split_and!.
  - rewrite H1. lia.
  - intros [|j] sg' Hj; simpl in Hj.
    + injection Hj as <-. rewrite (read_data_ext _ (set_data_ptr_seg scat sg 0 m)).
      2: { intros a Ha. apply H3. lia. }
      unfold read_data, set_data_ptr_seg. replace (scat + 16 * Z.of_nat 0) with scat by lia. load_solve.
      rewrite Z.sub_0_r, Z.add_0_r. by rewrite !Z.mod_small by (simpl; lia).
    + rewrite <- (H2 j sg' Hj). f_equal. lia.
  - intros a Ha. rewrite H3 by lia. unfold set_data_ptr_seg. rewrite !store_be_outside by (simpl; lia). done.
Qed.

Lemma nonempty_length l : (length (nonempty l) <= length l)%nat.
Proof. apply length_filter. Qed.

Lemma recv_wqe_spec qp wr p m :
  rq_wf qp -> Forall sge_range (rwr_sg_list wr) -> rwr_num_sge wr <= max_gs (rq qp) ->
  let m' := recv_wqe (qp_num qp) (wq_sig qp) (rq qp) p wr m in
  slot_holds qp p wr m' /\ (forall a, a < p \/ p + rq_stride qp <= a -> m' a = m a).
Proof.
  intros Hw Hl Hn m'. pose proof (rw_room _ Hw) as Hroom. pose proof (rw_gs _ Hw) as Hgs.
  unfold rwr_num_sge in Hn. pose proof (nonempty_length (rwr_sg_list wr)) as Hne.
  unfold m', recv_wqe. unfold rq_scat, rq_stride in *. rewrite Z.shiftl_mul_pow2, Z.mul_1_l by (pose proof (rw_shift _ Hw); lia).
  set (m0 := if wq_sig qp then memset _ _ _ m else m).
  assert (F0 : forall a, a < p \/ p + 2 ^ wqe_shift (rq qp) <= a -> m0 a = m a)
    by (intros a ?; unfold m0; destruct (wq_sig qp); [apply memset_outside; lia|done]).
  set (sc := if wq_sig qp then p + sizeof_data_seg else p).
  assert (Esc : sc = p + (if wq_sig qp then sizeof_data_seg else 0)) by (unfold sc; destruct (wq_sig qp); lia).
  assert (Hsc : p <= sc) by (rewrite Esc; unfold sizeof_data_seg; destruct (wq_sig qp); lia).
  destruct (recv_entries_spec (rwr_sg_list wr) sc m0 Hl) as (H1 & H2 & H3). cbv zeta in *.
  destruct (recv_entries _ sc m0) as [e m1]. simpl in H1, H2, H3. subst e.
  assert (Hr2 : sc + 16 * max_gs (rq qp) <= p + 2 ^ wqe_shift (rq qp)) by lia.
  set (n := Z.of_nat (length (nonempty (rwr_sg_list wr)))) in *.
  replace ((sc + 16 * n - sc) / sizeof_data_seg) with n by (unfold sizeof_data_seg; div_lia).
  set (m2 := if n <? max_gs (rq qp) then _ else m1).
  assert (F2 : forall a, a < sc + 16 * n \/ sc + 16 * max_gs (rq qp) <= a -> m2 a = m1 a).
  { intros a ?. unfold m2. destruct (Z.ltb_spec n (max_gs (rq qp))); [|done].
    unfold set_data_ptr_seg_end. rewrite !store_be_outside by (simpl; lia). done. }
  assert (E2 : n < max_gs (rq qp) -> read_data m2 (sc + 16 * n) = (0, MLX5_INVALID_LKEY, 0)).
  { intros Hlt. unfold m2. rewrite (proj2 (Z.ltb_lt _ _) Hlt). unfold read_data, set_data_ptr_seg_end. load_solve. done. }
  set (m3 := if wq_sig qp then set_sig_seg _ _ _ _ m2 else m2).
  assert (F3 : forall a, a < p \/ sc <= a -> m3 a = m2 a).
  { intros a ?. unfold m3. destruct (wq_sig qp); [|done]. unfold set_sig_seg, sizeof_data_seg in *.
    rewrite store_be_outside by (simpl; lia). done. }
  clearbody m0 m2 m3. split; [split|].
  - intros j sg Hj. unfold rq_scat. rewrite <- Esc, <- (H2 j sg Hj). apply lookup_lt_Some in Hj.
    apply read_data_ext. intros a Ha. rewrite F3, F2 by lia. done.
  - intros n' Hlt. unfold rq_scat. rewrite <- Esc. fold n in n'. subst n'. rewrite <- (E2 Hlt).
    apply read_data_ext. intros a Ha. apply F3. lia.
  - intros a Ha. rewrite F3, F2, H3, F0 by lia. done.
Qed.

(** ** The loop *)

Section Post.
#[local] Set Default Proof Using "Type*".
Context (qp : mlx5_qp) (Hw : rq_wf qp).
Context (tails : nat -> Z * Z).

(** The completions seen never make the queue look more than full. *)
Definition tails_ok : Prop := forall j,
  u32 (wq_head (rq qp) - (tails j).1) <= max_post (rq qp) /\
  u32 (wq_head (rq qp) - (tails j).2) <= max_post (rq qp).
Context (Ht : tails_ok).

#[local] Abbreviation cnt := (wqe_cnt (rq qp)).
#[local] Abbreviation head := (wq_head (rq qp)).

(** The slot of the [i]-th request of the call and its address *)
Definition rslot (i : Z) : Z := slot_at head cnt i.
Definition raddr (i : Z) : Z := get_recv_wqe qp (rslot i).

Lemma rslot_next i : Z.land (rslot i + 1) (cnt - 1) = rslot (i + 1).
Proof.
  unfold rslot, slot_at. destruct (rw_cnt _ Hw) as (k & Hk & E). rewrite E, land_pow2_pred by lia.
  rewrite Zplus_mod_idemp_l. f_equal. lia.
Qed.

Lemma raddr_disjoint i j :
  0 <= i < cnt -> 0 <= j < cnt -> i <> j ->
  raddr i + rq_stride qp <= raddr j \/ raddr j + rq_stride qp <= raddr i.
Proof.
  intros Hi Hj Hne. unfold raddr. rewrite !recv_wqe_addr by apply Hw.
  assert (0 < rq_stride qp) by (apply Z.pow_pos_nonneg; [lia|pose proof (rw_shift _ Hw); lia]).
  assert (rslot i <> rslot j); [|nia].
  intros E. apply Hne. apply (slot_at_inj head cnt); [by apply rq_cnt_pos|done..].
Qed.

Lemma not_overflow i :
  0 <= i < 2 ^ 31 -> mlx5_wq_overflow (rq qp) i (tails (Z.to_nat i)).1 (tails (Z.to_nat i)).2 = false ->
  i < max_post (rq qp).
Proof.
  intros Hi. destruct (Ht (Z.to_nat i)) as [T1 T2]. pose proof (rw_post _ Hw) as Hp.
  destruct (rw_cnt _ Hw) as (k & Hk & E). assert (2 ^ k <= 2 ^ 31) by (apply Z.pow_le_mono_r; lia).
  unfold mlx5_wq_overflow. pose proof (u32_range (head - (tails (Z.to_nat i)).1)).
  pose proof (u32_range (head - (tails (Z.to_nat i)).2)).
  destruct (Z.ltb_spec (u32 (u32 (head - (tails (Z.to_nat i)).1) + i)) (max_post (rq qp))) as [Hlt|Hge].
  - rewrite u32_small in Hlt by lia. lia.
  - rewrite Z.geb_leb, Z.leb_gt. rewrite u32_small by lia. lia.
Qed.

(** What the loop leaves after the first [i] requests *)
Record looped (i : Z) (wrs : list ibv_recv_wr) (w : list Z) (m : mem) (k : nat) (w' : list Z) (m' : mem) : Prop := {
  lp_le : (k <= length wrs)%nat;
  lp_len : length w' = length w;
  lp_post : (0 < k)%nat -> i + Z.of_nat k <= max_post (rq qp);
  lp_slot : forall j wr, (j < k)%nat -> wrs !! j = Some wr ->
    slot_holds qp (raddr (i + Z.of_nat j)) wr m' /\ aget w' (rslot (i + Z.of_nat j)) = rwr_id wr /\
    rwr_num_sge wr <= max_gs (rq qp);
  lp_frame : forall a, (forall j, (j < k)%nat -> a < raddr (i + Z.of_nat j) \/ raddr (i + Z.of_nat j) + rq_stride qp <= a) ->
    m' a = m a;
  lp_wrid : forall x, 0 <= x -> (forall j, (j < k)%nat -> x <> rslot (i + Z.of_nat j)) -> aget w' x = aget w x
}.

Lemma looped_nil i wrs w m : looped i wrs w m 0 w m.
Proof. split; try done; intros; lia. Qed.

Lemma recv_loop_spec wrs i w m :
  Forall (fun wr => Forall sge_range (rwr_sg_list wr)) wrs ->
  0 <= i -> i + Z.of_nat (length wrs) < 2 ^ 31 -> Z.of_nat (length w) = cnt ->
  let '(o, n, wq', m') := recv_loop (qp_num qp) (wq_sig qp) (get_recv_wqe qp) tails i (rslot i) wrs
                             (set_wrid w (rq qp)) m in
  exists k w', n = i + Z.of_nat k /\ wq' = set_wrid w' (rq qp) /\ (o = Ok <-> k = length wrs) /\
    looped i wrs w m k w' m'.
Proof.
  revert i w m. induction wrs as [|wr wrs IH]; intros i w m Hl Hi Hlen Hwl.
  { simpl. exists 0%nat, w. split_and!; [lia|done|done|apply looped_nil]. }
  apply Forall_cons in Hl as [Hl1 Hl]. cbn [recv_loop length] in *.
  change (mlx5_wq_overflow (set_wrid w (rq qp))) with (mlx5_wq_overflow (rq qp)).
  assert (Hstop : forall e, exists k w', i = i + Z.of_nat k /\ set_wrid w (rq qp) = set_wrid w' (rq qp) /\
    (Err e = Ok <-> k = S (length wrs)) /\ looped i (wr :: wrs) w m k w' m).
  { intros e. exists 0%nat, w. split_and!; [lia|done|done|apply looped_nil]. }
  destruct (mlx5_wq_overflow _ _ _ _) eqn:Eov; [apply Hstop|].
  apply not_overflow in Eov; [|lia]. change (max_gs (set_wrid w (rq qp))) with (max_gs (rq qp)).
  destruct (Z.ltb_spec (max_gs (rq qp)) (rwr_num_sge wr)) as [|Hgs]; [apply Hstop|]. clear Hstop.
  change (wqe_cnt (set_wrid w (rq qp))) with cnt. rewrite rslot_next.
  change (recv_wqe (qp_num qp) (wq_sig qp) (set_wrid w (rq qp))) with (recv_wqe (qp_num qp) (wq_sig qp) (rq qp)).
  change (set_wrid (aset (wrid (set_wrid w (rq qp))) (rslot i) (rwr_id wr)) (set_wrid w (rq qp)))
    with (set_wrid (aset w (rslot i) (rwr_id wr)) (rq qp)).
  destruct (recv_wqe_spec qp wr (raddr i) m Hw Hl1 Hgs) as [Hh Hf]. fold (raddr i).
  set (m1 := recv_wqe _ _ _ (raddr i) wr m) in *. set (w1 := aset w (rslot i) (rwr_id wr)).
  assert (Hw1 : Z.of_nat (length w1) = cnt) by (unfold w1; by rewrite length_aset).
  specialize (IH (i + 1) w1 m1 Hl ltac:(lia) ltac:(lia) Hw1).
  destruct (recv_loop _ _ _ _ (i + 1) _ _ _ _) as [[[o n] wq'] m'].
  destruct IH as (k & w' & -> & -> & Hok & [L1 L2 L3 L4 L5 L6]).
  pose proof (rw_post _ Hw) as Hpost. pose proof (slot_at_range head cnt) as Hsr.
  pose proof (rq_cnt_pos _ Hw) as Hcp.
  exists (S k), w'. split_and!; [lia|done|rewrite Hok; lia|]. split.
  - simpl. lia.
  - rewrite L2. apply length_aset.
  - intros _. destruct k; [lia|]. specialize (L3 ltac:(lia)). lia.
  - intros [|j] wr' Hj Hwr; simpl in Hwr.
    + injection Hwr as <-. rewrite Z.add_0_r. split_and!; [|rewrite L6|done].
      * apply (slot_holds_ext qp _ wr m1); [|pose proof (nonempty_length (rwr_sg_list wr)); unfold rwr_num_sge in Hgs; lia|done|done].
        intros a Ha. apply L5. intros j Hj'. specialize (L3 ltac:(lia)).
        destruct (raddr_disjoint i (i + 1 + Z.of_nat j)); lia.
      * unfold w1. apply aget_aset_eq. rewrite Hwl. by apply Hsr.
      * by apply Hsr.
      * intros j Hj' E. specialize (L3 ltac:(lia)). apply (slot_at_inj head cnt) in E; lia.
    + replace (i + Z.of_nat (S j)) with (i + 1 + Z.of_nat j) by lia. apply (L4 j wr'); [lia|done].
  - intros a Ha. rewrite L5, Hf; [done| |].
    + specialize (Ha 0%nat ltac:(lia)). rewrite Z.add_0_r in Ha. done.
    + intros j Hj. specialize (Ha (S j) ltac:(lia)). by replace (i + 1 + Z.of_nat j) with (i + Z.of_nat (S j)) by lia.
  - intros x Hx Hne. rewrite L6; [|done|].
    + unfold w1. apply aget_aset_ne; [by apply Hsr|done|]. specialize (Hne 0%nat ltac:(lia)). rewrite Z.add_0_r in Hne. done.
    + intros j Hj. specialize (Hne (S j) ltac:(lia)). by replace (i + 1 + Z.of_nat j) with (i + Z.of_nat (S j)) by lia.
Qed.

End Post.

(** The bytes of the ring *)
Definition rq_end (qp : mlx5_qp) : Z := rq_base qp + wqe_cnt (rq qp) * rq_stride qp.
Definition rcv_dbr (qp : mlx5_qp) : Z := qp_db qp + 4 * MLX5_RCV_DBR.

Lemma raddr_range qp i : rq_wf qp -> rq_base qp <= raddr qp i /\ raddr qp i + rq_stride qp <= rq_end qp.
Proof.
  intros Hw. unfold raddr, rq_end. rewrite recv_wqe_addr by apply Hw.
  pose proof (slot_at_range (wq_head (rq qp)) (wqe_cnt (rq qp)) i (rq_cnt_pos _ Hw)).
  assert (0 < rq_stride qp) by (apply Z.pow_pos_nonneg; [lia|pose proof (rw_shift _ Hw); lia]).
  unfold rslot. nia.
Qed.

Lemma recv_ind_slot qp : rq_wf qp -> recv_ind (rq qp) = rslot qp 0.
Proof.
  intros Hw. unfold recv_ind, rslot, slot_at. destruct (rw_cnt _ Hw) as (k & Hk & E).
  rewrite E, land_pow2_pred, Z.add_0_r by lia. done.
Qed.

(** C16.  [mlx5_post_recv] posts a prefix of its list: each accepted request is in its
    own slot, entries and end marker, with its identifier; the head has advanced by
    their number and, once the QP may receive, the doorbell record holds the low 16
    bits of the new head, written after a barrier.  No byte outside the ring and the
    doorbell record changes; the call succeeds exactly when the whole list is posted. *)
Theorem post_recv_posts tails wrs qp m :
  rq_wf qp -> tails_ok qp tails -> Forall (fun wr => Forall sge_range (rwr_sg_list wr)) wrs ->
  Z.of_nat (length wrs) < 2 ^ 31 -> rcv_dbr qp + 4 <= rq_base qp \/ rq_end qp <= rcv_dbr qp ->
  let '(o, n, qp', m', tr) := mlx5_post_recv tails wrs qp m in
  exists k : nat, n = Z.of_nat k /\ (k <= length wrs)%nat /\ (o = Ok <-> k = length wrs) /\
    wq_head (rq qp') = u32 (wq_head (rq qp) + Z.of_nat k) /\
    (forall j wr, (j < k)%nat -> wrs !! j = Some wr ->
       slot_holds qp (raddr qp (Z.of_nat j)) wr m' /\ aget (wrid (rq qp')) (rslot qp (Z.of_nat j)) = rwr_id wr) /\
    ((0 < k)%nat -> recv_armed qp = true ->
       load_be 4 (rcv_dbr qp) m' = wq_head (rq qp') mod 2 ^ 16 /\
       tr = [EvBarrier; EvDbrec (rcv_dbr qp) (wq_head (rq qp') mod 2 ^ 16)]) /\
    (forall a, (a < rq_base qp \/ rq_end qp <= a) -> (a < rcv_dbr qp \/ rcv_dbr qp + 4 <= a) -> m' a = m a).
Proof.
  intros Hw Ht Hl Hlen Hdb. unfold mlx5_post_recv. rewrite recv_ind_slot by done.
  pose proof (recv_loop_spec qp Hw tails Ht wrs 0 (wrid (rq qp)) m Hl ltac:(lia) ltac:(lia) (rw_wrid _ Hw)) as H.
  change (set_wrid (wrid (rq qp)) (rq qp)) with (mk_wq (wrid (rq qp)) (wqe_head (rq qp)) (wqe_cnt (rq qp)) (max_post (rq qp))
    (wq_head (rq qp)) (wq_tail (rq qp)) (cur_post (rq qp)) (max_gs (rq qp)) (wqe_shift (rq qp)) (wq_offset (rq qp)) (qend (rq qp)) (wr_data (rq qp))) in H.
  replace (mk_wq (wrid (rq qp)) _ _ _ _ _ _ _ _ _ _ _) with (rq qp) in H by (by destruct (rq qp)).
  destruct (recv_loop _ _ _ _ _ _ _ _ _) as [[[o n] wq1] m1].
  destruct H as (k & w' & -> & -> & Hok & [L1 L2 L3 L4 L5 L6]). rewrite Z.add_0_l. fold (rcv_dbr qp).
  assert (Hring : forall j, raddr qp j < rq_end qp /\ rq_base qp <= raddr qp j /\ raddr qp j + rq_stride qp <= rq_end qp).
  { intros j. pose proof (raddr_range qp j Hw).
    assert (0 < rq_stride qp) by (apply Z.pow_pos_nonneg; [lia|pose proof (rw_shift _ Hw); lia]). lia. }
  assert (Hsl : forall j wr m2, (forall a, rq_base qp <= a < rq_end qp -> m2 a = m1 a) -> (j < k)%nat -> wrs !! j = Some wr ->
    slot_holds qp (raddr qp (Z.of_nat j)) wr m2 /\ aget w' (rslot qp (Z.of_nat j)) = rwr_id wr).
  { intros j wr m2 Hm2 Hj Hwr. destruct (L4 j wr Hj Hwr) as (A & B & C). rewrite Z.add_0_l in A, B.
    split; [|done]. apply (slot_holds_ext qp _ wr m1); [|pose proof (nonempty_length (rwr_sg_list wr)); unfold rwr_num_sge in C; lia|done|done].
    intros a Ha. apply Hm2. specialize (Hring (Z.of_nat j)). lia. }
  unfold recv_db_update. destruct (Z.eqb_spec (Z.of_nat k) 0) as [E|E].
  { assert (k = 0%nat) as -> by lia. exists 0%nat. simpl. rewrite Z.add_0_r, u32_small by apply Hw.
    split_and!; try done; try lia; try (intros; lia). intros a Ha _. apply L5. intros; lia. }
  set (h := u32 (wq_head _ + Z.of_nat k)).
  assert (Eh : Z.land h 0xffff = h mod 2 ^ 16) by (change 0xffff with (Z.ones 16); apply Z.land_ones; lia).
  assert (Hh : 0 <= h mod 2 ^ 16 < 2 ^ 16) by (apply Z.mod_pos_bound; lia). rewrite Eh.
  destruct (recv_armed qp); exists k; simpl; (split_and!; [done|done|done|done|..]).
  - intros j wr Hj Hwr. apply Hsl; [|done|done]. intros a Ha. rewrite store_be_outside by (simpl; lia). done.
  - intros _ _. split; [|done]. rewrite load_store_same. apply Z.mod_small. simpl. lia.
  - intros a Ha Hd. rewrite store_be_outside by (simpl; lia). apply L5. intros j Hj. specialize (Hring (0 + Z.of_nat j)). lia.
  - intros j wr Hj Hwr. by apply Hsl.
  - done.
  - intros a Ha Hd. apply L5. intros j Hj. specialize (Hring (0 + Z.of_nat j)). lia.
Qed.

Definition demo_rq (sig : bool) : mlx5_qp :=
  set_rq (mk_wq [0; 0; 0; 0] [] 4 4 5 4 0 3 6 0 0 [])
    (mk_qp 0x1234 IBV_QPT_RC IBV_QPS_RTS 0 0 1024 64 false 0 0 0 0 0 0 0 0 0 0 None 0 0 4096
       (demo_wq 4 4096 0) 512 (demo_wq 4 4096 0) sig 0 true 0 0 0).

Lemma demo_rq_wf : rq_wf (demo_rq true).
Proof. split; unfold rq_scat, rq_stride; simpl; first [lia|exists 2; lia|done]. Qed.

Definition demo_rwrs : list ibv_recv_wr :=
  [mk_rwr 70 [mk_sge 8192 100 1; mk_sge 9000 0 2; mk_sge 9100 28 3]; mk_rwr 71 [mk_sge 8192 50 1]].

Lemma demo_rwrs_range : Forall (fun wr => Forall sge_range (rwr_sg_list wr)) demo_rwrs.
Proof. unfold demo_rwrs, sge_range. repeat (apply Forall_cons || apply Forall_nil || split); simpl; lia. Qed.

Lemma post_recv_posts_witness :
  let '(o, n, qp', m', tr) := mlx5_post_recv (fun _ => (4, 4)) demo_rwrs (demo_rq true) (fun _ => 7) in
  o = Ok /\ wq_head (rq qp') = 7 /\ load_be 4 512 m' = 7.
Proof.
  pose proof (post_recv_posts (fun _ => (4, 4)) demo_rwrs (demo_rq true) (fun _ => 7)) as H.
  assert ((mlx5_post_recv (fun _ => (4, 4)) demo_rwrs (demo_rq true) (fun _ => 7)).1.1.1.1 = Ok) as Eo by (by vm_compute).
  destruct (mlx5_post_recv _ _ _ _) as [[[[o n] qp'] m'] tr]. simpl in Eo. subst o.
  destruct H as (k & _ & _ & Hk & Hh & _ & Hd & _);
    [exact demo_rq_wf|intros j; by vm_compute|exact demo_rwrs_range|simpl; lia|left; by vm_compute|].
  assert (k = 2%nat) as -> by (by apply Hk). split; [reflexivity|]. split; [exact Hh|].
  destruct (Hd ltac:(lia) eq_refl) as [E _]. rewrite Hh in E. exact E.
Defined.

(** * Delivery *)

(** Address of the [k]-th byte of a scatter list *)
Fixpoint byte_addr (l : list ibv_sge) (k : Z) : option Z :=
  match l with
  | [] => None
  | sg :: l' => if k <? sge_length sg then Some (sge_addr sg + k) else byte_addr l' (k - sge_length sg)
  end.

(** [size] bytes from [buf], spread over the list *)
Fixpoint scatter (l : list ibv_sge) (buf size : Z) (m : mem) : mem :=
  match l with
  | [] => m
  | sg :: l' =>
    let c := Z.min size (sge_length sg) in
    let m := memcpy (sge_addr sg) buf c m in
    if size - c =? 0 then m else scatter l' (buf + c) (size - c) m
  end.

(** [n] bytes at [p] are apart from the buffer of [sg]. *)
Definition apart (p n : Z) (sg : ibv_sge) : Prop :=
  p + n <= sge_addr sg \/ sge_addr sg + sge_length sg <= p.

Fixpoint disjoint_bufs (l : list ibv_sge) : Prop :=
  match l with
  | [] => True
  | sg :: l' => Forall (apart (sge_addr sg) (sge_length sg)) l' /\ disjoint_bufs l'
  end.

Lemma scatter_frame l buf size m a :
  0 <= size -> Forall (fun sg => 0 <= sge_length sg) l -> Forall (apart a 1) l -> scatter l buf size m a = m a.
Proof.
  revert buf size m. induction l as [|sg l IH]; intros buf size m Hs Hl Ha; [done|].
  apply Forall_cons in Hl as [Hsg Hl], Ha as [Ha1 Ha]. cbn [scatter]. cbv zeta. unfold apart in Ha1.
  destruct (_ =? 0); [apply memcpy_outside; lia|]. rewrite IH by (done || lia). apply memcpy_outside. lia.
Qed.

Lemma apart_bytes p n sg a : apart p n sg -> p <= a < p + n -> apart a 1 sg.
Proof. unfold apart. lia. Qed.

Lemma scatter_bytes l buf size m k a :
  Forall (fun sg => 0 <= sge_length sg) l -> disjoint_bufs l -> Forall (apart buf size) l ->
  0 <= k < size -> byte_addr l k = Some a -> scatter l buf size m a = m (buf + k).
Proof.
  revert buf size m k. induction l as [|sg l IH]; intros buf size m k Hl Hd Hb Hk; [done|].
  apply Forall_cons in Hl as [Hsg Hl], Hb as [Hb1 Hb]. destruct Hd as [Hd1 Hd]. cbn [scatter byte_addr]. cbv zeta.
  set (c := Z.min size (sge_length sg)). destruct (Z.ltb_spec k (sge_length sg)) as [Hlt|Hge].
  - intros [= <-].
    assert (Em : memcpy (sge_addr sg) buf c m (sge_addr sg + k) = m (buf + k))
      by (rewrite memcpy_inside by (unfold c; lia); f_equal; lia).
    destruct (Z.eqb_spec (size - c) 0); [done|]. rewrite scatter_frame; [done|unfold c in *; lia|done|].
    eapply Forall_impl; [exact Hd1|]. intros sg' H. eapply apart_bytes; [exact H|lia].
  - intros Ha. assert (c = sge_length sg) as Ec by (unfold c; lia). rewrite Ec.
    rewrite (proj2 (Z.eqb_neq _ _)) by lia.
    rewrite (IH _ _ _ (k - sge_length sg)); [|done|done| |lia|done].
    + rewrite memcpy_outside by (unfold apart in Hb1; lia). f_equal. lia.
    + eapply Forall_impl; [exact Hb|]. intros sg' H. unfold apart in *. lia.
Qed.

(** The loop over the descriptors performs the scatter. *)
Lemma scat_loop_scatter ctx l scat buf size max m :
  Forall (fun sg => 0 <= sge_length sg) l -> Forall (fun sg => sge_lkey sg <> dump_fill_mkey ctx) l ->
  (forall j sg, l !! j = Some sg ->
     read_data m (scat + 16 * Z.of_nat j) = (sge_length sg, sge_lkey sg, sge_addr sg)) ->
  Forall (apart scat (16 * Z.of_nat (length l))) l ->
  0 < size <= sumZ sge_length l -> (length l <= max)%nat ->
  scat_loop ctx scat buf size max m = (IBV_WC_SUCCESS, 0, scatter l buf size m).
Proof.
  revert scat buf size max m. induction l as [|sg l IH]; intros scat buf size max m Hl Hk Hr Ha Hs Hm.
  { unfold sumZ in Hs. simpl in Hs. lia. }
  apply Forall_cons in Hl as [Hsg Hl], Hk as [Hk1 Hk]. destruct max as [|max]; [simpl in Hm; lia|].
  pose proof (Hr 0%nat sg eq_refl) as Hr0. replace (scat + 16 * Z.of_nat 0) with scat in Hr0 by lia.
  unfold read_data in Hr0. injection Hr0 as E1 E2 E3.
  cbn [scat_loop scatter]. rewrite E1, E2, E3, (proj2 (Z.eqb_neq _ _) Hk1). cbv zeta.
  set (c := Z.min size (sge_length sg)). destruct (Z.eqb_spec (size - c) 0) as [E|E]; [by rewrite E|].
  assert (c = sge_length sg) as Ec by (unfold c in *; lia).
  unfold sumZ in Hs. simpl in Hs. fold (sumZ sge_length l) in Hs. simpl in Hm.
  assert (Hdesc : forall a, scat <= a < scat + 16 * Z.of_nat (S (length l)) -> memcpy (sge_addr sg) buf c m a = m a).
  { intros a Hin. apply Forall_cons in Ha as [Ha1 _]. unfold apart in Ha1. cbn [length] in Ha1.
    apply memcpy_outside. lia. }
  apply IH; [done|done| | |lia|lia].
  - intros j sg' Hj. rewrite <- (Hr (S j) sg' Hj). pose proof (lookup_lt_Some _ _ _ Hj).
    replace (scat + sizeof_data_seg + 16 * Z.of_nat j) with (scat + 16 * Z.of_nat (S j)) by (unfold sizeof_data_seg; lia).
    apply read_data_ext. intros a Hin. apply Hdesc. lia.
  - apply Forall_cons in Ha as [_ Ha]. eapply Forall_impl; [exact Ha|]. intros sg' H.
    unfold apart, sizeof_data_seg in *. cbn [length] in H. lia.
Qed.

(** C17.  Data that arrives inside a completion lands in the posted buffers.  For a
    request held by a slot of the receive queue, [mlx5_copy_to_recv_wqe] of at most
    as many bytes as the request has room for succeeds, copies the [k]-th byte to
    the [k]-th address of the scatter list, whatever its entries of zero length, and
    changes nothing else. *)
Theorem copy_to_recv_delivers ctx qp idx wr buf size m :
  let l := nonempty (rwr_sg_list wr) in
  let p := get_recv_wqe qp idx in
  rq_wf qp -> slot_holds qp p wr m -> Forall sge_range (rwr_sg_list wr) -> rwr_num_sge wr <= max_gs (rq qp) ->
  Forall (fun sg => sge_lkey sg <> dump_fill_mkey ctx) l ->
  disjoint_bufs l -> Forall (apart buf size) l -> Forall (apart p (rq_stride qp)) l ->
  0 <= size <= sumZ sge_length l ->
  let '(r, m') := mlx5_copy_to_recv_wqe ctx qp idx buf size m in
  r = IBV_WC_SUCCESS /\
  (forall k a, 0 <= k < size -> byte_addr l k = Some a -> m' a = m (buf + k)) /\
  (forall a, Forall (apart a 1) l -> m' a = m a).
Proof.
  intros l p Hw [He _] Hrg Hn Hk Hd Hb Hp Hs. unfold mlx5_copy_to_recv_wqe, copy_to_scat. fold p.
  destruct (Z.eqb_spec size 0) as [->|E]; [split_and!; [done|intros; lia|done]|].
  assert (Hpos : Forall (fun sg => 0 <= sge_length sg) l).
  { apply Forall_forall. intros sg [Hne Hin]%list_elem_of_filter. eapply Forall_forall in Hrg as [? _]; [|done]. lia. }
  pose proof (rw_room _ Hw) as Hroom. pose proof (rw_shift _ Hw) as Hsh.
  assert (Hlen : (length l <= length (rwr_sg_list wr))%nat) by apply nonempty_length. unfold rwr_num_sge in Hn.
  set (sc := if wq_sig qp then p + sizeof_data_seg else p).
  assert (Esc : sc = p + rq_scat qp) by (unfold sc, rq_scat; destruct (wq_sig qp); lia).
  assert (Hsc0 : 0 <= rq_scat qp) by (unfold rq_scat, sizeof_data_seg; destruct (wq_sig qp); lia).
  rewrite (scat_loop_scatter ctx l); [|done|done| | |lia|].
  - split_and!; [done| |].
    + intros k a Hk' Ha. by apply scatter_bytes.
    + intros a Ha. by apply scatter_frame; [lia|..].
  - intros j sg Hj. rewrite Esc. by apply He.
  - eapply Forall_impl; [exact Hp|]. intros sg H. unfold apart in *. lia.
  - rewrite Z.shiftl_mul_pow2, Z.mul_1_l by lia. unfold rq_stride in Hroom.
    replace (wqe_shift (rq qp)) with (wqe_shift (rq qp) - 4 + 4) in Hroom by lia.
    rewrite Z.pow_add_r in Hroom by lia. change (2 ^ 4) with 16 in Hroom. lia.
Qed.

Lemma copy_to_recv_delivers_witness :
  let wr := mk_rwr 70 [mk_sge 8192 100 1; mk_sge 9000 0 2; mk_sge 9100 28 3] in
  let m := recv_wqe 0x1234 true (rq (demo_rq true)) (get_recv_wqe (demo_rq true) 1) wr (fun a => a mod 256) in
  let '(st, m') := mlx5_copy_to_recv_wqe (mk_ctx 18 false false 0x700 0) (demo_rq true) 1 20000 110 m in
  st = IBV_WC_SUCCESS /\ m' 9109 = m 20109.
Proof.
  intros wr m. assert (Hr : Forall sge_range (rwr_sg_list wr)) by exact (proj1 (proj1 (Forall_cons _ _ _) demo_rwrs_range)).
  assert (Hh : slot_holds (demo_rq true) (get_recv_wqe (demo_rq true) 1) wr m).
  { apply (recv_wqe_spec (demo_rq true) wr); [exact demo_rq_wf|exact Hr|by vm_compute]. }
  pose proof (copy_to_recv_delivers (mk_ctx 18 false false 0x700 0) (demo_rq true) 1 wr 20000 110 m demo_rq_wf Hh Hr) as H.
  destruct (mlx5_copy_to_recv_wqe _ _ _ _ _ _) as [st m'].
  destruct H as (H1 & H2 & _).
  - by vm_compute.
  - constructor; [done|constructor; [done|constructor]].
  - split; [constructor; [left; by vm_compute|constructor]|split; [constructor|exact I]].
  - constructor; [right; by vm_compute|constructor; [right; by vm_compute|constructor]].
  - constructor; [left; by vm_compute|constructor; [left; by vm_compute|constructor]].
  - by vm_compute.
  - split; [exact H1|]. apply (H2 109); [lia|reflexivity].
Defined.
