(* ===== verification/Cancel.v ===== *)
(** Cancelling posted work requests (providers/mlx5/qp.c,
    [mlx5dv_qp_cancel_posted_send_wrs]): on a drained send queue, walk the
    outstanding elements from the one the device reports and turn those with the
    given identifier into no-ops that complete with their original opcode. *)

From stdpp Require Import base numbers list.
From S2P Require Import Prelude Mem Types Wqe Forecast PostSend SendSafe SendQueue.

Definition MLX5_QPC_STATE_SQDRAINED : Z := 0x5.

(** The reply of the QUERY_QP command: an error code, or the state and the block
    counter of the queue *)
Definition query_reply : Type := Z + Z * Z.

(** [mlx5_qp_query_sqd]: a negative errno, or the index *)
Definition mlx5_qp_query_sqd (reply : query_reply) (qp : mlx5_qp) : Z + Z :=
  match reply with
  | inl errno => inl (- errno)
  | inr (state, counter) =>
    if negb (state =? MLX5_QPC_STATE_SQDRAINED) then inl (- EINVAL)
    else inr (Z.land counter (wqe_cnt (sq qp) - 1))
  end.

(** The outcome of a walk: the next index, no further element, a read outside
    [wqe_head], or no answer within the fuel *)
Inductive walk : Type := Found (idx : Z) | NoEntry | OutOfBounds | NoAnswer.
#[global] Instance walk_eq_dec : EqDecision walk.
Proof. solve_decision. Defined.

Definition wqe_head_at (qp : mlx5_qp) (idx : Z) : option Z := wqe_head (sq qp) !! Z.to_nat idx.

(** [while (wqe_head[idx] != next_head) idx = (idx + 1) & idx_mask] *)
Fixpoint next_loop (qp : mlx5_qp) (next_head : Z) (fuel : nat) (idx : Z) : walk :=
  match fuel with
  | O => NoAnswer
  | S fuel =>
    match wqe_head_at qp idx with
    | None => OutOfBounds
    | Some h => if h =? next_head then Found idx
                else next_loop qp next_head fuel (Z.land (u32 (idx + 1)) (wqe_cnt (sq qp) - 1))
    end
  end.

(** [mlx5_qp_sq_next_idx]; one turn of the ring is fuel enough *)
Definition mlx5_qp_sq_next_idx (qp : mlx5_qp) (cur_idx : Z) : walk :=
  match wqe_head_at qp cur_idx with
  | None => OutOfBounds
  | Some h =>
    let next_head := u32 (h + 1) in
    if next_head =? wq_head (sq qp) then NoEntry
    else next_loop qp next_head (S (Z.to_nat (wqe_cnt (sq qp)))) (u32 (cur_idx + 1))
  end.

(** What [mlx5dv_qp_cancel_wr] records for the completion; [None] for an opcode it
    does not know *)
Definition cancel_wr_data (op data : Z) : option Z :=
  if (op =? MLX5_OPCODE_RDMA_WRITE_IMM) || (op =? MLX5_OPCODE_RDMA_WRITE) then Some IBV_WC_RDMA_WRITE
  else if (op =? MLX5_OPCODE_SEND_IMM) || (op =? MLX5_OPCODE_SEND) || (op =? MLX5_OPCODE_SEND_INVAL)
  then Some IBV_WC_SEND
  else if op =? MLX5_OPCODE_RDMA_READ then Some IBV_WC_RDMA_READ
  else if op =? MLX5_OPCODE_ATOMIC_CS then Some IBV_WC_COMP_SWAP
  else if op =? MLX5_OPCODE_ATOMIC_FA then Some IBV_WC_FETCH_ADD
  else if op =? MLX5_OPCODE_TSO then Some IBV_WC_TSO
  else if (op =? MLX5_OPCODE_UMR) || (op =? MLX5_OPCODE_SET_PSV) || (op =? MLX5_OPCODE_MMO) then Some data
  else None.

(** [mlx5dv_qp_cancel_wr] *)
Definition mlx5dv_qp_cancel_wr (idx : Z) (qp : mlx5_qp) (m : mem) : Z * mlx5_qp * mem :=
  let ctrl := mlx5_get_send_wqe qp idx in
  let opmod := load_be 4 ctrl m in
  let data := aget (wr_data (sq qp)) idx in
  let r := if data =? IBV_WC_DRIVER2 then Some data else cancel_wr_data (Z.land opmod 0xff) data in
  match r with
  | None => (- EINVAL, qp, m)
  | Some d =>
    (0, set_slot_wr_data idx d qp, store_be 4 ctrl (Z.lor (Z.land opmod 0xffff00) MLX5_OPCODE_NOP) m)
  end.

(** The loop of [mlx5dv_qp_cancel_posted_send_wrs]; [None] is undefined behaviour or
    no answer *)
Fixpoint cancel_loop (wr_id : Z) (fuel : nat) (idx count : Z) (qp : mlx5_qp) (m : mem)
  : option (Z * mlx5_qp * mem) :=
  match fuel with
  | O => None
  | S fuel =>
    let next count qp m :=
      match mlx5_qp_sq_next_idx qp idx with
      | Found idx => cancel_loop wr_id fuel idx count qp m
      | NoEntry => Some (count, qp, m)
      | _ => None
      end in
    if aget (wrid (sq qp)) idx =? wr_id then
      let '(r, qp, m) := mlx5dv_qp_cancel_wr idx qp m in
      if negb (r =? 0) then Some (r, qp, m) else next (count + 1) qp m
    else next count qp m
  end.

Definition mlx5dv_qp_cancel_posted_send_wrs (reply : query_reply) (wr_id : Z) (qp : mlx5_qp) (m : mem)
  : option (Z * mlx5_qp * mem) :=
  match mlx5_qp_query_sqd reply qp with
  | inl e => Some (e, qp, m)
  | inr idx =>
    if idx =? cur_post (sq qp) then Some (0, qp, m)
    else cancel_loop wr_id (S (Z.to_nat (wqe_cnt (sq qp)))) idx 0 qp m
  end.

(** * The walk over the outstanding elements *)

(** The arrays of the queue have one entry for each of its [2^k] blocks. *)
Record ring_shape (qp : mlx5_qp) : Prop := {
  rs_cnt : exists k, 0 <= k <= 31 /\ wqe_cnt (sq qp) = 2 ^ k;
  rs_head : Z.of_nat (length (wqe_head (sq qp))) = wqe_cnt (sq qp);
  rs_data : Z.of_nat (length (wr_data (sq qp))) = wqe_cnt (sq qp);
}.

Lemma ring_shape_pos qp : ring_shape qp -> 0 < wqe_cnt (sq qp) <= 2 ^ 31.
Proof.
  intros [(k & Hk & ->) _ _]. split; [apply Z.pow_pos_nonneg; lia|apply Z.pow_le_mono_r; lia].
Qed.

Lemma wqe_head_at_in qp i :
  ring_shape qp -> 0 <= i < wqe_cnt (sq qp) -> is_Some (wqe_head_at qp i).
Proof. intros Hr Hi. apply lookup_lt_is_Some. pose proof (rs_head _ Hr). lia. Qed.

Lemma next_slot qp i :
  ring_shape qp -> 0 <= i < wqe_cnt (sq qp) ->
  Z.land (u32 (i + 1)) (wqe_cnt (sq qp) - 1) = (i + 1) mod wqe_cnt (sq qp).
Proof. intros [(k & Hk & E) _ _] _. rewrite E. apply ring_index_wrap. lia. Qed.

(** The loop reaches the slot [d] steps ahead when no earlier one matches. *)
Lemma next_loop_finds qp next fuel i d :
  ring_shape qp -> 0 <= i < wqe_cnt (sq qp) -> (d < fuel)%nat ->
  wqe_head_at qp ((i + Z.of_nat d) mod wqe_cnt (sq qp)) = Some next ->
  (forall j, wqe_head_at qp j = Some next -> 0 <= j -> j = (i + Z.of_nat d) mod wqe_cnt (sq qp)) ->
  next_loop qp next fuel i = Found ((i + Z.of_nat d) mod wqe_cnt (sq qp)).
Proof.
  intros Hr. pose proof (ring_shape_pos _ Hr) as Hc.
  revert i fuel. induction d as [|d IH]; intros i [|fuel] Hi Hf Hd Hu; try lia; cbn [next_loop].
  - rewrite Z.add_0_r, Z.mod_small in * by lia. by rewrite Hd, Z.eqb_refl.
  - destruct (wqe_head_at_in qp i Hr Hi) as [h Eh]. rewrite Eh.
    destruct (Z.eqb_spec h next) as [->|]; [f_equal; apply Hu; [done|lia]|].
    rewrite next_slot by done.
    assert (E : ((i + 1) mod wqe_cnt (sq qp) + Z.of_nat d) mod wqe_cnt (sq qp) =
      (i + Z.of_nat (S d)) mod wqe_cnt (sq qp)) by (rewrite Zplus_mod_idemp_l; f_equal; lia).
    rewrite <- E. apply IH; [apply Z.mod_pos_bound; lia|lia|by rewrite E|by rewrite E].
Qed.

(** From any slot but the last one, the walk returns the slot of the next request. *)
Lemma next_idx_found qp i j h :
  ring_shape qp -> 0 <= i < wqe_cnt (sq qp) - 1 -> 0 <= j < wqe_cnt (sq qp) ->
  wqe_head_at qp i = Some h -> u32 (h + 1) <> wq_head (sq qp) ->
  wqe_head_at qp j = Some (u32 (h + 1)) ->
  (forall j', wqe_head_at qp j' = Some (u32 (h + 1)) -> 0 <= j' -> j' = j) ->
  mlx5_qp_sq_next_idx qp i = Found j.
Proof.
  intros Hr Hi Hj Eh Hne Ej Hu. pose proof (ring_shape_pos _ Hr) as Hc.
  unfold mlx5_qp_sq_next_idx. rewrite Eh. cbv zeta. rewrite (proj2 (Z.eqb_neq _ _) Hne), (u32_small (i + 1)) by lia.
  set (d := Z.to_nat ((j - (i + 1)) mod wqe_cnt (sq qp))).
  pose proof (Z.mod_pos_bound (j - (i + 1)) (wqe_cnt (sq qp)) ltac:(lia)) as Hd.
  assert (E : (i + 1 + Z.of_nat d) mod wqe_cnt (sq qp) = j).
  { unfold d. rewrite Z2Nat.id by lia. rewrite Zplus_mod_idemp_r.
    replace (i + 1 + (j - (i + 1))) with j by lia. apply Z.mod_small. lia. }
  rewrite <- E. apply next_loop_finds; [done|lia|unfold d; lia|by rewrite E|by rewrite E].
Qed.

(** * Cancelling *)

Definition cancel_opcode (qp : mlx5_qp) (m : mem) (i : Z) : Z :=
  Z.land (load_be 4 (mlx5_get_send_wqe qp i) m) 0xff.

(** The opcode a completion of the cancelled element reports *)
Definition cancel_report (qp : mlx5_qp) (m : mem) (i : Z) : option Z :=
  if aget (wr_data (sq qp)) i =? IBV_WC_DRIVER2 then Some IBV_WC_DRIVER2
  else cancel_wr_data (cancel_opcode qp m i) (aget (wr_data (sq qp)) i).

(** The slots of the outstanding requests, oldest first: consecutive heads up to the
    head of the queue, held by no other slot, and the last block of the ring does not
    hold any but the youngest. *)
Record outstanding (qp : mlx5_qp) (h : Z) (l : list Z) : Prop := {
  os_slot : forall n i, l !! n = Some i ->
    0 <= i < wqe_cnt (sq qp) /\ wqe_head_at qp i = Some (u32 (h + Z.of_nat n));
  os_only : forall n i, (n < length l)%nat -> wqe_head_at qp i = Some (u32 (h + Z.of_nat n)) -> 0 <= i -> l !! n = Some i;
  os_inner : forall n i, l !! n = Some i -> (S n < length l)%nat -> i <> wqe_cnt (sq qp) - 1;
  os_head : wq_head (sq qp) = u32 (h + Z.of_nat (length l));
  os_len : Z.of_nat (length l) < 2 ^ 31;
}.

Lemma u32_add_inj h a b : 0 <= a < 2 ^ 31 -> 0 <= b < 2 ^ 31 -> u32 (h + a) = u32 (h + b) -> a = b.
Proof. unfold u32. intros ?? E. div_lia. Qed.

Lemma outstanding_next qp h l n i :
  ring_shape qp -> outstanding qp h l -> l !! n = Some i ->
  mlx5_qp_sq_next_idx qp i = match l !! S n with Some j => Found j | None => NoEntry end.
Proof.
  intros Hr [Hs Ho Hi Hh Hl] En. destruct (Hs n i En) as [Bi Ei]. pose proof (lookup_lt_Some _ _ _ En).
  assert (Es : u32 (u32 (h + Z.of_nat n) + 1) = u32 (h + Z.of_nat (S n))) by (rewrite u32_add_l; f_equal; lia).
  destruct (l !! S n) as [j|] eqn:Ej.
  - pose proof (lookup_lt_Some _ _ _ Ej). destruct (Hs (S n) j Ej) as [Bj Hj].
    apply (next_idx_found qp i j (u32 (h + Z.of_nat n))); rewrite ?Es; [done| |done|done| |done|].
    + specialize (Hi n i En ltac:(lia)). lia.
    + rewrite Hh. intros E. apply u32_add_inj in E; lia.
    + intros j' Hj' Hp. specialize (Ho (S n) j' ltac:(lia) Hj' Hp). congruence.
  - apply lookup_ge_None in Ej. unfold mlx5_qp_sq_next_idx. rewrite Ei. cbv zeta. rewrite Es, Hh.
    replace (length l) with (S n) by lia. by rewrite Z.eqb_refl.
Qed.

Lemma outstanding_NoDup qp h l : outstanding qp h l -> NoDup l.
Proof.
  intros H. apply NoDup_alt. intros a b i Ea Eb.
  destruct (os_slot _ _ _ H a i Ea) as [_ E1], (os_slot _ _ _ H b i Eb) as [_ E2].
  pose proof (lookup_lt_Some _ _ _ Ea). pose proof (lookup_lt_Some _ _ _ Eb). pose proof (os_len _ _ _ H).
  rewrite E1 in E2. injection E2 as E2. apply u32_add_inj in E2; lia.
Qed.

(** There are at most as many as the ring has blocks. *)
Lemma outstanding_length qp h l :
  ring_shape qp -> outstanding qp h l -> (length l <= Z.to_nat (wqe_cnt (sq qp)))%nat.
Proof.
  intros Hr Ho. pose proof (ring_shape_pos _ Hr).
  rewrite <- (length_seqZ 0 (wqe_cnt (sq qp))). apply submseteq_length, NoDup_submseteq.
  { by eapply outstanding_NoDup. }
  intros i (n & Hn)%list_elem_of_lookup. apply elem_of_seqZ. destruct (os_slot _ _ _ Ho n i Hn). lia.
Qed.

Lemma drop_S_lookup {A} (L : list A) n i l : drop n L = i :: l -> L !! n = Some i.
Proof. intros E. rewrite <- (Nat.add_0_r n), <- lookup_drop. by rewrite E. Qed.

Lemma drop_S_next {A} (L : list A) n i l : drop n L = i :: l -> L !! S n = l !! 0%nat.
Proof. intros E. by rewrite <- Nat.add_1_r, <- lookup_drop, E. Qed.

Lemma drop_S_tail {A} (L : list A) n i l : drop n L = i :: l -> drop (S n) L = l.
Proof. intros E. by rewrite <- Nat.add_1_r, <- drop_drop, E. Qed.

(** Posted elements [l] with identifier [wr_id] are no-ops that keep their index, and
    complete with the opcode they had; all else is as it was. *)
Record cancelled (wr_id : Z) (l : list Z) (qp : mlx5_qp) (m : mem) (qp' : mlx5_qp) (m' : mem) : Prop := {
  cn_qp : exists w, length w = length (wr_data (sq qp)) /\ qp' = set_sq (set_wr_data w (sq qp)) qp;
  cn_hit : forall i, i ∈ l -> aget (wrid (sq qp)) i = wr_id ->
    load_be 4 (mlx5_get_send_wqe qp i) m' = Z.land (load_be 4 (mlx5_get_send_wqe qp i) m) 0xffff00 /\
    Some (aget (wr_data (sq qp')) i) = cancel_report qp m i;
  cn_data : forall i, 0 <= i -> ~ (i ∈ l /\ aget (wrid (sq qp)) i = wr_id) ->
    aget (wr_data (sq qp')) i = aget (wr_data (sq qp)) i;
  cn_mem : forall a, (forall i, i ∈ l -> aget (wrid (sq qp)) i = wr_id ->
    a < mlx5_get_send_wqe qp i \/ mlx5_get_send_wqe qp i + 4 <= a) -> m' a = m a;
}.

Lemma cancelled_refl wr_id l qp m :
  (forall i, i ∈ l -> aget (wrid (sq qp)) i <> wr_id) -> cancelled wr_id l qp m qp m.
Proof.
  intros Hn. split; [exists (wr_data (sq qp)); split; [done|by destruct qp as [?????????????????????? []]]|..].
  - intros i Hi E. by destruct (Hn i Hi).
  - done.
  - done.
Qed.

Lemma land_index_range x : 0 <= Z.land x 0xffff00 < 2 ^ 32.
Proof.
  replace (Z.land x 0xffff00) with (Z.land (Z.land x 0xffff00) (2 ^ 32 - 1))
    by (rewrite <- Z.land_assoc; by f_equal).
  apply (land_pow2_bound _ _ 32); lia.
Qed.

(** Elements at different slots do not share bytes. *)
Lemma wqe_apart qp i j : i <> j -> mlx5_get_send_wqe qp i + 64 <= mlx5_get_send_wqe qp j \/
  mlx5_get_send_wqe qp j + 64 <= mlx5_get_send_wqe qp i.
Proof. rewrite !get_send_wqe_eq. lia. Qed.

Lemma cancel_wr_hit qp m i :
  ring_shape qp -> 0 <= i < wqe_cnt (sq qp) -> is_Some (cancel_report qp m i) ->
  exists qp' m', mlx5dv_qp_cancel_wr i qp m = (0, qp', m') /\
    cancelled (aget (wrid (sq qp)) i) [i] qp m qp' m'.
Proof.
  intros Hr Hi [d Ed]. pose proof (rs_data _ Hr) as Hl.
  assert (E : mlx5dv_qp_cancel_wr i qp m =
    (0, set_slot_wr_data i d qp, store_be 4 (mlx5_get_send_wqe qp i)
       (Z.lor (Z.land (load_be 4 (mlx5_get_send_wqe qp i) m) 0xffff00) MLX5_OPCODE_NOP) m)).
  { unfold mlx5dv_qp_cancel_wr, cancel_report, cancel_opcode in *. cbv zeta.
    destruct (Z.eqb_spec (aget (wr_data (sq qp)) i) IBV_WC_DRIVER2) as [E|]; [|by rewrite Ed].
    rewrite E. by injection Ed as <-. }
  do 2 eexists. split; [exact E|]. clear E. change MLX5_OPCODE_NOP with 0. rewrite Z.lor_0_r. split.
  - eexists. split; [|done]. apply length_aset.
  - intros j ->%list_elem_of_singleton _. split.
    + rewrite load_store_same. apply Z.mod_small. apply land_index_range.
    + simpl. rewrite aget_aset_eq by lia. done.
  - intros j Hj Hn. simpl. apply aget_aset_ne; [lia|done|]. intros <-. apply Hn. split; [by apply list_elem_of_singleton|done].
  - intros a Ha. apply store_be_outside. apply (Ha i); [by apply list_elem_of_singleton|done].
Qed.

(** Another element's cancellation does not change what [i] reports. *)
Lemma cancel_report_frame wr_id l qp m qp' m' i :
  cancelled wr_id l qp m qp' m' -> i ∉ l -> 0 <= i -> cancel_report qp' m' i = cancel_report qp m i.
Proof.
  intros [(w & Hw & E) _ Hd Hm] Hi Hp. unfold cancel_report, cancel_opcode.
  rewrite Hd by (done || by intros []). rewrite E at 1.
  change (mlx5_get_send_wqe (set_sq _ qp) i) with (mlx5_get_send_wqe qp i).
  rewrite (load_be_ext 4 _ m' m); [done|]. intros a Ha. apply Hm. intros j Hj _.
  destruct (wqe_apart qp i j); [congruence|simpl in Ha; lia..].
Qed.

Lemma cancelled_app wr_id l1 l2 qp m qp1 m1 qp2 m2 :
  (forall i, i ∈ l1 -> i ∈ l2 -> False) -> (forall i, i ∈ l1 ++ l2 -> 0 <= i) ->
  cancelled wr_id l1 qp m qp1 m1 -> cancelled wr_id l2 qp1 m1 qp2 m2 ->
  cancelled wr_id (l1 ++ l2) qp m qp2 m2.
Proof.
  intros Hdj Hp C1 C2. pose proof C1 as [(w1 & L1 & E1) K1 D1 M1]. pose proof C2 as [(w2 & L2 & E2) K2 D2 M2].
  assert (Ew : wrid (sq qp1) = wrid (sq qp)) by (by rewrite E1).
  assert (Ea : forall i, mlx5_get_send_wqe qp1 i = mlx5_get_send_wqe qp i) by (intros; by rewrite E1).
  split.
  - exists w2. split; [rewrite L2, E1; exact L1|]. by rewrite E2, E1.
  - intros i [Hi|Hi]%elem_of_app Hid.
    + destruct (K1 i Hi Hid) as [A B]. rewrite Ew in D2. split.
      * rewrite <- A. apply load_be_ext. intros a Ha. apply M2. intros j Hj _. rewrite Ea.
        destruct (wqe_apart qp i j); [intros <-; eauto|simpl in Ha; lia..].
      * rewrite D2; [done|apply Hp, elem_of_app; by left|]. intros [? _]. eauto.
    + assert (i ∉ l1) by eauto. destruct (K2 i Hi) as [A B]; [by rewrite Ew|]. rewrite Ea in A. split.
      * rewrite A. f_equal. apply load_be_ext. intros a Ha. apply M1. intros j Hj _.
        destruct (wqe_apart qp i j); [congruence|simpl in Ha; lia..].
      * rewrite B. apply (cancel_report_frame wr_id l1); [done|done|]. apply Hp, elem_of_app. by right.
  - intros i Hi Hn. rewrite Ew in D2. rewrite D2, D1; [done|done|..]; [| |]; try done; intros [? ?]; apply Hn; rewrite elem_of_app; tauto.
  - intros a Ha. rewrite M2, M1; [done|..].
    + intros i Hi Hid. apply Ha; [apply elem_of_app; tauto|done].
    + intros i Hi Hid. rewrite Ea. rewrite Ew in Hid. apply Ha; [apply elem_of_app; tauto|done].
Qed.

Lemma cancelled_shape wr_id l qp m qp' m' : cancelled wr_id l qp m qp' m' -> ring_shape qp -> ring_shape qp'.
Proof. intros [(w & Hw & ->) _ _ _] [A B C]. split; [done|done|]. simpl. by rewrite Hw. Qed.

Lemma cancelled_outstanding wr_id l qp m qp' m' h L :
  cancelled wr_id l qp m qp' m' -> outstanding qp h L -> outstanding qp' h L.
Proof. intros [(w & Hw & ->) _ _ _] []. by split. Qed.

(** The requests of [l] with the identifier, and how many they are *)
Definition hits (qp : mlx5_qp) (wr_id : Z) (l : list Z) : list Z := filter (fun i => aget (wrid (sq qp)) i = wr_id) l.

(** One turn of the loop *)
Lemma cancel_loop_step h L wr_id n i fuel count qp m :
  ring_shape qp -> outstanding qp h L -> L !! n = Some i ->
  (forall x, x ∈ hits qp wr_id [i] -> is_Some (cancel_report qp m x)) ->
  exists qp1 m1, cancelled wr_id [i] qp m qp1 m1 /\
    cancel_loop wr_id (S fuel) i count qp m =
      match L !! S n with
      | Some j => cancel_loop wr_id fuel j (count + Z.of_nat (length (hits qp wr_id [i]))) qp1 m1
      | None => Some (count + Z.of_nat (length (hits qp wr_id [i])), qp1, m1)
      end.
Proof.
  intros Hr Ho En Hok. destruct (os_slot _ _ _ Ho n i En) as [Bi _]. cbn [cancel_loop].
  unfold hits in *. rewrite filter_cons, filter_nil in *.
  destruct (Z.eqb_spec (aget (wrid (sq qp)) i) wr_id) as [E|E].
  - rewrite decide_True in * by done. destruct (cancel_wr_hit qp m i Hr Bi) as (qp1 & m1 & Ew & C).
    { apply Hok. by apply list_elem_of_singleton. }
    rewrite Ew, E in *. simpl. exists qp1, m1. split; [done|].
    rewrite (outstanding_next qp1 h L n i) by (done || by eapply cancelled_shape || by eapply cancelled_outstanding).
    by destruct (L !! S n).
  - rewrite decide_False in * by done. exists qp, m. split.
    { apply cancelled_refl. by intros ? ->%list_elem_of_singleton. }
    rewrite (outstanding_next qp h L n i) by done. simpl. rewrite !Z.add_0_r. by destruct (L !! S n).
Qed.

Lemma cancel_loop_spec h L wr_id l : forall n i fuel count qp m,
  ring_shape qp -> outstanding qp h L -> drop n L = i :: l -> (length l < fuel)%nat ->
  (forall x, x ∈ hits qp wr_id (i :: l) -> is_Some (cancel_report qp m x)) ->
  exists qp' m', cancel_loop wr_id fuel i count qp m =
    Some (count + Z.of_nat (length (hits qp wr_id (i :: l))), qp', m') /\ cancelled wr_id (i :: l) qp m qp' m'.
Proof.
  induction l as [|j l IH]; intros n i [|fuel] count qp m Hr Ho Hd Hf Hok; try (simpl in Hf; lia).
  - destruct (cancel_loop_step h L wr_id n i fuel count qp m Hr Ho (drop_S_lookup _ _ _ _ Hd) Hok) as (qp1 & m1 & C1 & Es).
    rewrite (drop_S_next _ _ _ _ Hd) in Es. change (@nil Z !! 0%nat) with (@None Z) in Es. by exists qp1, m1.
  - destruct (cancel_loop_step h L wr_id n i fuel count qp m Hr Ho (drop_S_lookup _ _ _ _ Hd)) as (qp1 & m1 & C1 & Es).
    { intros x [Hx Hi]%list_elem_of_filter. apply Hok, list_elem_of_filter. split; [done|].
      apply list_elem_of_singleton in Hi as ->. by left. }
    rewrite (drop_S_next _ _ _ _ Hd) in Es. change ((j :: l) !! 0%nat) with (Some j) in Es. cbv iota in Es.
    assert (Hij : i ∉ j :: l).
    { pose proof (outstanding_NoDup _ _ _ Ho) as Hnd. rewrite <- (take_drop n L), Hd in Hnd.
      apply NoDup_app in Hnd as (_ & _ & Hnd). by apply NoDup_cons in Hnd as [? _]. }
    assert (Hpos : forall x, x ∈ i :: j :: l -> 0 <= x).
    { intros x Hx. rewrite <- Hd in Hx. apply list_elem_of_lookup in Hx as (k & Hk). rewrite lookup_drop in Hk.
      destruct (os_slot _ _ _ Ho _ _ Hk). lia. }
    assert (Eh : forall l', hits qp1 wr_id l' = hits qp wr_id l').
    { intros l'. destruct C1 as [(w & _ & ->) _ _ _]. done. }
    edestruct (IH (S n) j fuel) as (qp2 & m2 & E2 & C2);
      [by eapply cancelled_shape|by eapply cancelled_outstanding|by apply drop_S_tail in Hd|simpl in Hf; lia| |].
    { intros x Hx. rewrite Eh in Hx. apply list_elem_of_filter in Hx as [Hx Hxl].
      rewrite (cancel_report_frame wr_id [i] qp m) by
        (done || (apply Hpos; by right) || by intros ->%list_elem_of_singleton).
      apply Hok, list_elem_of_filter. split; [done|by right]. }
    exists qp2, m2. rewrite Es, E2, Eh. split.
    + do 3 f_equal. change (i :: j :: l) with ([i] ++ (j :: l)). unfold hits. rewrite filter_app, length_app. lia.
    + change (i :: j :: l) with ([i] ++ (j :: l)).
      apply (cancelled_app _ [i] (j :: l) _ _ qp1 m1); [by intros x ->%list_elem_of_singleton|done|done|done].
Qed.


(** A ring of four blocks: requests 9, 8 and 9 outstanding in slots 0, 1 and 3 *)
Definition demo_cancel (head post : Z) : mlx5_qp :=
  mk_qp 0x1234 IBV_QPT_RC IBV_QPS_RTS 0 0 1024 64 false 0 0 0 0 0 0 0 0 0 0 None 0 0 4096
    (mk_wq [9; 8; 5; 9] [4; 5; 1; 6] 4 4 head 4 post 3 6 0 4352 [0; 0; 0; 0]) 512
    (mk_wq [] [] 0 0 0 0 0 0 0 0 0 []) false 0 true 0 0 0.

Lemma demo_cancel_shape head post : ring_shape (demo_cancel head post).
Proof. split; [exists 2; simpl; lia|done|done]. Qed.

Definition demo_cancel_mem : mem :=
  store_be 4 4096 (0x000400 + MLX5_OPCODE_SEND) (store_be 4 (4096 + 192) (0x000700 + MLX5_OPCODE_RDMA_READ) (fun _ => 0)).

Lemma demo_outstanding : outstanding (demo_cancel 7 8) 4 [0; 1; 3].
Proof.
  assert (H : forall i v, wqe_head_at (demo_cancel 7 8) i = Some v -> 0 <= i ->
    (i = 0 /\ v = 4) \/ (i = 1 /\ v = 5) \/ (i = 2 /\ v = 1) \/ (i = 3 /\ v = 6)).
  { intros i v. unfold wqe_head_at. simpl. intros Hv Hi.
    destruct (Z.to_nat i) as [|[|[|[|?]]]] eqn:E; simpl in Hv; simplify_eq; lia. }
  split; simpl.
  - intros [|[|[|n]]] i E; simpl in E; simplify_eq; (split; [lia|by vm_compute]).
  - intros [|[|[|n]]] i Hn E Hi; [| | |lia];
      destruct (H i _ E Hi) as [[-> Ev]|[[-> Ev]|[[-> Ev]|[-> Ev]]]]; (done || discriminate Ev).
  - intros [|[|[|n]]] i E Hn; simpl in E; simplify_eq; lia.
  - by vm_compute.
  - lia.
Qed.


(** From the last block of the ring the walk reads past the end of the
    [wqe_head] array: the increment before the loop is not masked. *)
Theorem sq_next_idx_last_slot_overruns qp h :
  ring_shape qp -> wqe_head_at qp (wqe_cnt (sq qp) - 1) = Some h -> u32 (h + 1) <> wq_head (sq qp) ->
  mlx5_qp_sq_next_idx qp (wqe_cnt (sq qp) - 1) = OutOfBounds.
Proof.
  intros Hr Eh Hne. pose proof (ring_shape_pos _ Hr). pose proof (rs_head _ Hr).
  unfold mlx5_qp_sq_next_idx. rewrite Eh. cbv zeta. rewrite (proj2 (Z.eqb_neq _ _) Hne).
  cbn [next_loop]. rewrite u32_small by lia. unfold wqe_head_at at 1.
  by rewrite lookup_ge_None_2 by lia.
Qed.

Lemma sq_next_idx_last_slot_overruns_witness : mlx5_qp_sq_next_idx (demo_cancel 8 9) 3 = OutOfBounds.
Proof.
  apply (sq_next_idx_last_slot_overruns (demo_cancel 8 9) 6); [apply demo_cancel_shape|reflexivity|].
  vm_compute. discriminate.
Defined.

(** The check for an empty queue compares a masked index with the
    unmasked counter [cur_post]: once the queue has been used past its first lap it never
    holds, so that a call on a queue with nothing outstanding walks and cancels elements
    that have completed. *)
Theorem cancel_empty_check_misses wr_id counter qp m :
  ring_shape qp -> wqe_cnt (sq qp) <= cur_post (sq qp) ->
  mlx5dv_qp_cancel_posted_send_wrs (inr (MLX5_QPC_STATE_SQDRAINED, counter)) wr_id qp m =
  cancel_loop wr_id (S (Z.to_nat (wqe_cnt (sq qp)))) (Z.land counter (wqe_cnt (sq qp) - 1)) 0 qp m.
Proof.
  intros Hr Hc. unfold mlx5dv_qp_cancel_posted_send_wrs, mlx5_qp_query_sqd. rewrite Z.eqb_refl. cbn [negb].
  destruct (rs_cnt _ Hr) as (k & Hk & E).
  pose proof (land_pow2_bound counter (wqe_cnt (sq qp)) k ltac:(lia) E).
  by rewrite (proj2 (Z.eqb_neq _ _)) by lia.
Qed.

(** Four one-block sends, all completed ([head = tail = cur_post = 4], the device at
    block 4): one is cancelled all the same. *)
Definition demo_done : mlx5_qp :=
  mk_qp 0x1234 IBV_QPT_RC IBV_QPS_RTS 0 0 1024 64 false 0 0 0 0 0 0 0 0 0 0 None 0 0 4096
    (mk_wq [9; 8; 7; 6] [0; 1; 2; 3] 4 4 4 4 4 3 6 0 4352 [0; 0; 0; 0]) 512
    (mk_wq [] [] 0 0 0 0 0 0 0 0 0 []) false 0 true 0 0 0.

Lemma cancel_empty_check_misses_witness :
  option_map (fun r => r.1.1)
    (mlx5dv_qp_cancel_posted_send_wrs (inr (MLX5_QPC_STATE_SQDRAINED, 4)) 9 demo_done
       (store_be 4 4096 MLX5_OPCODE_SEND (fun _ => 0))) = Some 1.
Proof.
  rewrite (cancel_empty_check_misses 9 4 demo_done); [reflexivity| |simpl; lia].
  split; [exists 2; simpl; lia|done|done].
Defined.
