(* ===== verification/Srq.v ===== *)
(** Shared receive queues (providers/mlx5/srq.c).

    The elements of the queue form a linked list inside the queue's own buffer: each
    starts with the 16-bit index of the next free element.  [head] is the next one to
    post, [tail] the last free one; the last is never posted, so that [head == tail]
    means full.  Elements that faulted rest in a second list, the wait queue.

    The abstract state is three lists: the free elements, the waiting ones, and those
    the device owns.  The operations refine operations on these lists, and the three
    always share out the elements of the queue. *)

From stdpp Require Import base numbers list.
From S2P Require Import Prelude Mem Types Wqe PostSend.

(** * State *)

(** [struct mlx5_srq], the fields of the receive queue *)
Record mlx5_srq : Type := mk_srq {
  srq_buf : Z; srq_wrid : list Z; srq_max : Z; srq_max_gs : Z; srq_shift : Z;
  srq_head : Z; srq_tail : Z; waitq_head : Z; waitq_tail : Z; srq_db : Z; srq_counter : Z }.

Definition set_head (v : Z) (s : mlx5_srq) : mlx5_srq :=
  mk_srq (srq_buf s) (srq_wrid s) (srq_max s) (srq_max_gs s) (srq_shift s) v (srq_tail s)
    (waitq_head s) (waitq_tail s) (srq_db s) (srq_counter s).
Definition set_tail (v : Z) (s : mlx5_srq) : mlx5_srq :=
  mk_srq (srq_buf s) (srq_wrid s) (srq_max s) (srq_max_gs s) (srq_shift s) (srq_head s) v
    (waitq_head s) (waitq_tail s) (srq_db s) (srq_counter s).
Definition set_waitq (h t : Z) (s : mlx5_srq) : mlx5_srq :=
  mk_srq (srq_buf s) (srq_wrid s) (srq_max s) (srq_max_gs s) (srq_shift s) (srq_head s) (srq_tail s)
    h t (srq_db s) (srq_counter s).
Definition set_srq_wrid (v : list Z) (s : mlx5_srq) : mlx5_srq :=
  mk_srq (srq_buf s) v (srq_max s) (srq_max_gs s) (srq_shift s) (srq_head s) (srq_tail s)
    (waitq_head s) (waitq_tail s) (srq_db s) (srq_counter s).
Definition set_counter (v : Z) (s : mlx5_srq) : mlx5_srq :=
  mk_srq (srq_buf s) (srq_wrid s) (srq_max s) (srq_max_gs s) (srq_shift s) (srq_head s) (srq_tail s)
    (waitq_head s) (waitq_tail s) (srq_db s) v.

(** [sizeof(struct mlx5_wqe_srq_next_seg)] and the place of its [next_wqe_index] *)
Definition sizeof_next_seg : Z := 16.

Definition get_wqe (srq : mlx5_srq) (n : Z) : Z := srq_buf srq + Z.shiftl n (srq_shift srq).
Definition next_index (srq : mlx5_srq) (n : Z) (m : mem) : Z := load_be 2 (get_wqe srq n + 2) m.
Definition set_next_index (srq : mlx5_srq) (n ind : Z) (m : mem) : mem := store_be 2 (get_wqe srq n + 2) ind m.

(** * Operations *)

Definition mlx5_free_srq_wqe (ind : Z) (srq : mlx5_srq) (m : mem) : mlx5_srq * mem :=
  (set_tail ind srq, set_next_index srq (srq_tail srq) ind m).

Definition srq_has_waitq (srq : mlx5_srq) : bool := 0 <=? waitq_head srq.

Definition srq_put_in_waitq (ind : Z) (srq : mlx5_srq) (m : mem) : mlx5_srq * mem :=
  (set_waitq (waitq_head srq) ind srq, set_next_index srq (waitq_tail srq) ind m).

Definition srq_get_from_waitq (srq : mlx5_srq) (m : mem) : mlx5_srq * mem :=
  let m := set_next_index srq (srq_tail srq) (waitq_head srq) m in
  (set_waitq (next_index srq (waitq_head srq) m) (waitq_tail srq) (set_tail (waitq_head srq) srq), m).

(** [srq_cooldown_wqe]; the boolean is its result *)
Definition srq_cooldown_wqe (ind : Z) (srq : mlx5_srq) (m : mem) : bool * mlx5_srq * mem :=
  if negb (srq_has_waitq srq) then (false, srq, m)
  else
    let '(srq, m) := srq_put_in_waitq ind srq m in
    let '(srq, m) := srq_get_from_waitq srq m in (true, srq, m).

(** The copy of the data segments, up to the end marker *)
Fixpoint copy_segs (dst src : Z) (n : nat) (m : mem) : mem :=
  match n with
  | O => m
  | S n =>
    let m := memcpy dst src sizeof_data_seg m in
    if load_be 4 (dst + 4) m =? MLX5_INVALID_LKEY then m
    else copy_segs (dst + sizeof_data_seg) (src + sizeof_data_seg) n m
  end.

Definition srq_repost (ind : Z) (srq : mlx5_srq) (m : mem) : mlx5_srq * mem * list dev_event :=
  let srq := set_srq_wrid (aset (srq_wrid srq) (srq_head srq) (aget (srq_wrid srq) ind)) srq in
  let dst := get_wqe srq (srq_head srq) in
  let m := copy_segs (dst + sizeof_next_seg) (get_wqe srq ind + sizeof_next_seg) (Z.to_nat (srq_max_gs srq)) m in
  let counter := u16 (srq_counter srq + 1) in
  let srq := set_counter counter (set_head (load_be 2 (dst + 2) m) srq) in
  (srq, store_be 4 (srq_db srq) counter m, [EvBarrier; EvDbrec (srq_db srq) counter]).

Definition mlx5_complete_odp_fault (ind : Z) (srq : mlx5_srq) (m : mem) : mlx5_srq * mem * list dev_event :=
  let '(cooled, srq, m) := srq_cooldown_wqe ind srq m in
  let '(srq, m) := if cooled then (srq, m) else (set_tail ind srq, set_next_index srq (srq_tail srq) ind m) in
  srq_repost ind srq m.

(** The data segments of a request, and the end marker if there is room *)
Fixpoint srq_segs (l : list ibv_sge) (scat : Z) (m : mem) : mem :=
  match l with
  | [] => m
  | sg :: l' => srq_segs l' (scat + sizeof_data_seg) (set_data_ptr_seg scat sg 0 m)
  end.

Definition srq_wqe (srq : mlx5_srq) (wqe : Z) (wr : ibv_recv_wr) (m : mem) : mem :=
  let scat := wqe + sizeof_next_seg in
  let m := srq_segs (rwr_sg_list wr) scat m in
  if rwr_num_sge wr <? srq_max_gs srq then set_data_ptr_seg_end (scat + sizeof_data_seg * rwr_num_sge wr) m else m.

Fixpoint srq_post_loop (nreq : Z) (wrs : list ibv_recv_wr) (srq : mlx5_srq) (m : mem) : outcome * Z * mlx5_srq * mem :=
  match wrs with
  | [] => (Ok, nreq, srq, m)
  | wr :: wrs' =>
    if srq_max_gs srq <? rwr_num_sge wr then (Err EINVAL, nreq, srq, m)
    else if srq_head srq =? srq_tail srq then (Err ENOMEM, nreq, srq, m)
    else
      let h := srq_head srq in
      let srq := set_srq_wrid (aset (srq_wrid srq) h (rwr_id wr)) srq in
      srq_post_loop (nreq + 1) wrs' (set_head (next_index srq h m) srq) (srq_wqe srq (get_wqe srq h) wr m)
  end.

Definition mlx5_post_srq_recv (wrs : list ibv_recv_wr) (srq : mlx5_srq) (m : mem)
  : outcome * Z * mlx5_srq * mem * list dev_event :=
  let '(o, nreq, srq, m) := srq_post_loop 0 wrs srq m in
  if nreq =? 0 then (o, nreq, srq, m, [])
  else
    let counter := u16 (srq_counter srq + nreq) in
    (o, nreq, set_counter counter srq, store_be 4 (srq_db srq) counter m,
     [EvBarrier; EvDbrec (srq_db srq) counter]).

(** [mlx5_copy_to_recv_srq] *)
Fixpoint srq_scat_loop (scat buf size : Z) (max : nat) (m : mem) : Z * mem :=
  match max with
  | O => (IBV_WC_LOC_LEN_ERR, m)
  | S max =>
    let copy := Z.min size (load_be 4 scat m) in
    let m := memcpy (load_be 8 (scat + 8) m) buf copy m in
    if size - copy <=? 0 then (IBV_WC_SUCCESS, m)
    else srq_scat_loop (scat + sizeof_data_seg) (buf + copy) (size - copy) max m
  end.

Definition mlx5_copy_to_recv_srq (srq : mlx5_srq) (idx buf size : Z) (m : mem) : Z * mem :=
  srq_scat_loop (get_wqe srq idx + sizeof_next_seg) buf size (Z.to_nat (Z.shiftl 1 (srq_shift srq - 4))) m.

(** * Creation *)

Definition align_queue_size (req : Z) : Z := s32 (roundup_pow_of_two (u64 req)).

(** [for (i = start; i < end; ++i) get_wqe(i)->next_wqe_index = i + 1] *)
Fixpoint buf_ll (srq : mlx5_srq) (n : nat) (i : Z) (m : mem) : mem :=
  match n with
  | O => m
  | S n => buf_ll srq n (i + 1) (set_next_index srq i (i + 1) m)
  end.
Definition set_srq_buf_ll (srq : mlx5_srq) (start end_ : Z) (m : mem) : mem :=
  buf_ll srq (Z.to_nat (end_ - start)) start m.

(** [mlx5_alloc_srq_buf]: [buf] is the buffer the allocator returns, if any, with the
    flag that it is the application's own; [wrid] the array [malloc] returns, if any. *)
Definition mlx5_alloc_srq_buf (max_srq_recv_wr max_recv_wr : Z) (buf : option (Z * bool)) (wrid : option (list Z))
    (max_wr : Z) (srq : mlx5_srq) (m : mem) : Z * mlx5_srq * mem :=
  if srq_max_gs srq <? 0 then (-1, srq, m)
  else
    let twice := u32 (max_wr * 2 + 1) in
    let have_wq := negb (max_srq_recv_wr <? twice) in
    let n := if have_wq then twice else u32 (max_wr + 1) in
    let size := s32 (sizeof_next_seg + srq_max_gs srq * sizeof_data_seg) in
    let size := s32 (roundup_pow_of_two (Z.max 32 size)) in
    if max_recv_wr <? size then (-1, srq, m)
    else
      let srq := mk_srq (srq_buf srq) (srq_wrid srq) (align_queue_size n) ((size - sizeof_next_seg) / sizeof_data_seg)
                   (ilog (size - 1)) (srq_head srq) (srq_tail srq) (waitq_head srq) (waitq_tail srq)
                   (srq_db srq) (srq_counter srq) in
      match buf with
      | None => (-1, srq, m)
      | Some (p, custom) =>
        let m := if custom then m else memset p 0 (s32 (srq_max srq * size)) m in
        let tail := align_queue_size (u32 (max_wr + 1)) - 1 in
        let '(wh, wt) := if have_wq then (tail + 1, srq_max srq - 1) else (-1, -1) in
        let srq := mk_srq p (srq_wrid srq) (srq_max srq) (srq_max_gs srq) (srq_shift srq) 0 tail wh wt
                     (srq_db srq) (srq_counter srq) in
        match wrid with
        | None => (-1, srq, m)
        | Some w =>
          let srq := set_srq_wrid w srq in
          let m := set_srq_buf_ll srq 0 tail m in
          (0, srq, if have_wq then set_srq_buf_ll srq wh wt m else m)
        end
      end.
