(* ===== verification/SrqProps.v ===== *)
(** Properties of shared receive queues: the operations of [Srq] refine operations on
    the lists of free, waiting and posted elements, creation establishes them, and a
    posted request is delivered to. *)

From stdpp Require Import base numbers list.
From S2P Require Import Prelude Mem Types Wqe PostSend SendSafe SendDecode RecvProps Srq.

(** * Linked lists *)

(** [l] is linked by [nx], from [h] to [t]. *)
Record queue (nx : Z -> Z) (h t : Z) (l : list Z) : Prop := {
  q_head : l !! 0%nat = Some h;
  q_last : last l = Some t;
  q_link : forall k a b, l !! k = Some a -> l !! S k = Some b -> nx a = b
}.

Lemma queue_ext nx nx' h t l : (forall i, i ∈ l -> nx' i = nx i) -> queue nx h t l -> queue nx' h t l.
Proof.
  intros E [H1 H2 H3]. split; [done|done|]. intros k a b Ha Hb. rewrite E; [by eapply H3|].
  by eapply list_elem_of_lookup_2.
Qed.

Lemma queue_cons nx h t l : queue nx h t l -> exists l', l = h :: l'.
Proof. intros [H _ _]. destruct l as [|x l]; [done|]. injection H as ->. by exists l. Qed.

Lemma queue_pop nx h t x l : l <> [] -> queue nx h t (x :: l) -> queue nx (nx h) t l.
Proof.
  intros Hl [H1 H2 H3]. injection H1 as ->. destruct l as [|y l]; [done|]. split.
  - simpl. f_equal. symmetry. by apply (H3 0%nat).
  - by rewrite last_cons_cons in H2.
  - intros k a b Ha Hb. by apply (H3 (S k)).
Qed.

Lemma queue_snoc nx nx' h t l i :
  queue nx h t l -> nx' t = i -> NoDup l -> (forall j, j ∈ l -> j <> t -> nx' j = nx j) -> queue nx' h i (l ++ [i]).
Proof.
  intros [H1 H2 H3] Ht Hnd E.
  assert (Hl : l !! (length l - 1)%nat = Some t) by (rewrite last_lookup in H2; rewrite <- H2; f_equal; lia).
  split.
  - by apply lookup_app_l_Some.
  - by rewrite last_snoc.
  - intros k a b Ha Hb. pose proof (lookup_lt_Some _ _ _ Hb) as Hk. rewrite length_app in Hk. simpl in Hk.
    destruct (decide (S k < length l)%nat) as [Hlt|Hge].
    + rewrite lookup_app_l in Ha, Hb by lia. rewrite E; [by eapply H3|by eapply list_elem_of_lookup_2|].
      intros ->. assert (k = length l - 1)%nat by (by eapply NoDup_lookup). lia.
    + rewrite lookup_app_l in Ha by lia. assert (k = length l - 1)%nat as -> by lia.
      rewrite lookup_app_r in Hb by lia. replace (S (length l - 1) - length l)%nat with 0%nat in Hb by lia.
      simpl in Hb. congruence.
Qed.

Lemma queue_two nx h t x y l : queue nx h t (x :: y :: l) -> NoDup (x :: y :: l) -> h <> t.
Proof.
  intros [H1 H2 _] Hnd ->. injection H1 as ->. rewrite last_cons_cons, last_lookup in H2.
  apply NoDup_cons in Hnd as [Hn _]. apply Hn. by eapply list_elem_of_lookup_2.
Qed.

Lemma queue_one nx h t x : queue nx h t [x] -> h = t.
Proof. intros [H1 H2 _]. simpl in *. congruence. Qed.

Lemma app_nonnil {A} (l : list A) x : l ++ [x] <> [].
Proof. by destruct l. Qed.

(** * The representation *)

Definition stride (srq : mlx5_srq) : Z := 2 ^ srq_shift srq.

Record srq_wf (srq : mlx5_srq) : Prop := {
  sf_max : 0 < srq_max srq <= 2 ^ 16;
  sf_shift : 4 <= srq_shift srq;
  sf_gs : 0 <= srq_max_gs srq;
  sf_room : 16 + 16 * srq_max_gs srq <= stride srq;
  sf_wrid : Z.of_nat (length (srq_wrid srq)) = srq_max srq;
  sf_db : srq_db srq + 4 <= srq_buf srq \/ srq_buf srq + srq_max srq * stride srq <= srq_db srq
}.

(** [F] is free, [W] waits, [P] is posted. *)
Record srq_rep (srq : mlx5_srq) (m : mem) (F W P : list Z) : Prop := {
  r_wf : srq_wf srq;
  r_free : queue (fun i => next_index srq i m) (srq_head srq) (srq_tail srq) F;
  r_wait : if srq_has_waitq srq then queue (fun i => next_index srq i m) (waitq_head srq) (waitq_tail srq) W
           else W = [];
  r_all : F ++ W ++ P ≡ₚ seqZ 0 (srq_max srq)
}.

Lemma stride_pos srq : srq_wf srq -> 16 <= stride srq.
Proof. intros H. unfold stride. change 16 with (2 ^ 4). apply Z.pow_le_mono_r; [lia|apply H]. Qed.

Lemma get_wqe_eq srq n : srq_wf srq -> get_wqe srq n = srq_buf srq + n * stride srq.
Proof. intros H. unfold get_wqe, stride. rewrite Z.shiftl_mul_pow2 by (pose proof (sf_shift _ H); lia). done. Qed.

Lemma next_index_set_eq srq n i m : 0 <= i < 2 ^ 16 -> next_index srq n (set_next_index srq n i m) = i.
Proof. intros ?. unfold next_index, set_next_index. rewrite load_store_same. by apply Z.mod_small. Qed.

Lemma next_index_set_ne srq n n' i m :
  srq_wf srq -> n <> n' -> next_index srq n (set_next_index srq n' i m) = next_index srq n m.
Proof.
  intros H ?. unfold next_index, set_next_index. apply load_store_other. rewrite !get_wqe_eq by done.
  pose proof (stride_pos _ H). simpl. nia.
Qed.

(** The data segments of an element and the doorbell record are apart from the links. *)
Lemma next_index_payload srq h m m' i :
  srq_wf srq -> (forall a, a < get_wqe srq h + 16 \/ get_wqe srq h + stride srq <= a -> m' a = m a) ->
  next_index srq i m' = next_index srq i m.
Proof.
  intros H E. apply load_be_ext. intros a Ha. apply E. rewrite !get_wqe_eq in * by done.
  pose proof (stride_pos _ H). simpl in Ha. assert (i < h \/ i = h \/ h < i) as [?|[->|?]] by lia; nia.
Qed.

Lemma next_index_db srq i v m :
  srq_wf srq -> 0 <= i < srq_max srq -> next_index srq i (store_be 4 (srq_db srq) v m) = next_index srq i m.
Proof.
  intros H Hi. apply load_store_other. rewrite get_wqe_eq by done. pose proof (stride_pos _ H).
  destruct (sf_db _ H); simpl; nia.
Qed.

Section Rep.
Context (srq : mlx5_srq) (m : mem) (F W P : list Z) (R : srq_rep srq m F W P).
#[local] Set Default Proof Using "Type*".

Lemma rep_NoDup : NoDup (F ++ W ++ P).
Proof. rewrite (r_all _ _ _ _ _ R). apply NoDup_seqZ. Qed.

Lemma rep_in i : i ∈ F ++ W ++ P -> 0 <= i < srq_max srq.
Proof. rewrite (r_all _ _ _ _ _ R). rewrite elem_of_seqZ. lia. Qed.

Lemma rep_disjoint : NoDup F /\ NoDup W /\ NoDup P /\
  (forall i, i ∈ F -> i ∈ W -> False) /\ (forall i, i ∈ F -> i ∈ P -> False) /\ (forall i, i ∈ W -> i ∈ P -> False).
Proof.
  pose proof rep_NoDup as H. apply NoDup_app in H as (HF & H1 & H). apply NoDup_app in H as (HW & H2 & HP).
  split_and!; [done|done|done| | |done]; intros i Hi Hj; apply (H1 i Hi), elem_of_app; tauto.
Qed.
End Rep.

(** ** Popping the head *)

Lemma rep_pop srq m F W P h x F' m' w c :
  srq_rep srq m F W P -> F = h :: x :: F' ->
  (forall i, 0 <= i < srq_max srq -> next_index srq i m' = next_index srq i m) ->
  length w = length (srq_wrid srq) ->
  srq_rep (set_counter c (set_head (next_index srq h m) (set_srq_wrid w srq))) m' (x :: F') W (P ++ [h]).
Proof.
  intros R -> E Hw. pose proof (rep_in _ _ _ _ _ R) as Hin. destruct R as [Hwf Hf Hq Ha].
  destruct (queue_cons _ _ _ _ Hf) as [? [= -> <-]]. split.
  - destruct Hwf as [A B C D Ew G]. split; try done. simpl. by rewrite Hw.
  - change (next_index (set_counter _ _)) with (next_index srq). simpl.
    apply (queue_ext (fun i => next_index srq i m)).
    { intros i Hi. apply E, Hin, elem_of_app. left. by right. }
    by apply (queue_pop (fun i => next_index srq i m) (srq_head srq) (srq_tail srq) (srq_head srq)).
  - change (srq_has_waitq (set_counter _ _)) with (srq_has_waitq srq). destruct (srq_has_waitq srq); [|done].
    change (next_index (set_counter _ _)) with (next_index srq). simpl. eapply queue_ext; [|exact Hq].
    intros i Hi. apply E, Hin. rewrite !elem_of_app. tauto.
  - simpl. rewrite <- Ha. rewrite (app_assoc W), (Permutation_app_comm (W ++ P) [srq_head srq]). simpl.
    solve_Permutation.
Qed.

(** ** Appending to the free list *)

(** Taking a posted element back *)
Definition rm (i : Z) (P : list Z) : list Z := filter (fun j => j <> i) P.

Lemma rm_perm i P : NoDup P -> i ∈ P -> P ≡ₚ i :: rm i P.
Proof.
  intros Hnd Hi. unfold rm. apply NoDup_Permutation; [done| |].
  - apply NoDup_cons. split; [|by apply NoDup_filter]. by intros [? _]%list_elem_of_filter.
  - intros j. rewrite elem_of_cons, list_elem_of_filter. destruct (decide (j = i)) as [->|]; tauto.
Qed.

Lemma rm_share i F W P : NoDup P -> i ∈ P -> (F ++ [i]) ++ W ++ rm i P ≡ₚ F ++ W ++ P.
Proof.
  intros Hnd Hi. pose proof (rm_perm i P Hnd Hi) as Hp. generalize dependent (rm i P). intros P' Hp.
  rewrite Hp. solve_Permutation.
Qed.

Lemma rep_free srq m F W P i :
  srq_rep srq m F W P -> i ∈ P ->
  srq_rep (set_tail i srq) (set_next_index srq (srq_tail srq) i m) (F ++ [i]) W (rm i P).
Proof.
  intros R Hi. pose proof (rep_in _ _ _ _ _ R) as Hin. destruct (rep_disjoint _ _ _ _ _ R) as (NF & NW & NP & FW & FP & WP).
  destruct R as [Hwf Hf Hq Ha]. pose proof (sf_max _ Hwf).
  assert (Bi : 0 <= i < srq_max srq) by (apply Hin; rewrite !elem_of_app; tauto).
  assert (Ht : srq_tail srq ∈ F) by (apply last_Some_elem_of, (q_last _ _ _ _ Hf)). split.
  - by destruct Hwf; split.
  - change (next_index (set_tail _ _)) with (next_index srq). simpl. eapply queue_snoc; [exact Hf| |done|].
    + apply next_index_set_eq. lia.
    + intros j _ Hj. by apply next_index_set_ne.
  - change (srq_has_waitq (set_tail _ _)) with (srq_has_waitq srq). destruct (srq_has_waitq srq); [|done].
    change (next_index (set_tail _ _)) with (next_index srq). simpl. eapply queue_ext; [|exact Hq].
    intros j Hj. apply next_index_set_ne; [done|]. intros ->. eauto.
  - simpl. rewrite <- Ha. by apply rm_share.
Qed.

(** ** The wait queue *)

Lemma rep_cooldown srq m F w W P i :
  srq_rep srq m F (w :: W) P -> i ∈ P ->
  let '(b, srq', m') := srq_cooldown_wqe i srq m in
  b = true /\ srq_rep srq' m' (F ++ [w]) (W ++ [i]) (rm i P).
Proof.
  intros R Hi. pose proof (rep_in _ _ _ _ _ R) as Hin. destruct (rep_disjoint _ _ _ _ _ R) as (NF & NW & NP & FW & FP & WP).
  destruct R as [Hwf Hf Hq Ha]. pose proof (sf_max _ Hwf). unfold srq_cooldown_wqe.
  destruct (srq_has_waitq srq) eqn:Ehw; [|done]. cbn [negb]. unfold srq_put_in_waitq, srq_get_from_waitq.
  assert (Bi : 0 <= i < srq_max srq) by (apply Hin; rewrite !elem_of_app; tauto).
  destruct (queue_cons _ _ _ _ Hq) as [? [= Ew <-]].
  assert (Bw : 0 <= w < srq_max srq) by (apply Hin; rewrite !elem_of_app, elem_of_cons; tauto).
  assert (Ht : srq_tail srq ∈ F) by (apply last_Some_elem_of, (q_last _ _ _ _ Hf)).
  assert (Hwt : waitq_tail srq ∈ w :: W) by (apply last_Some_elem_of, (q_last _ _ _ _ Hq)).
  simpl. set (m1 := set_next_index srq (waitq_tail srq) i m).
  change (set_next_index (set_waitq _ _ srq)) with (set_next_index srq). change (next_index (set_waitq _ _ srq)) with (next_index srq).
  set (m2 := set_next_index srq (srq_tail srq) (waitq_head srq) m1). split; [done|].
  assert (Q1 : queue (fun j => next_index srq j m2) w i ((w :: W) ++ [i])).
  { rewrite <- Ew in Hq. apply (queue_ext (fun j => next_index srq j m1)).
    - intros j Hj. apply next_index_set_ne; [done|]. intros ->.
      apply elem_of_app in Hj as [Hj|Hj%list_elem_of_singleton]; [eauto|]. subst i. eauto.
    - eapply queue_snoc; [exact Hq| |done|].
      + apply next_index_set_eq. lia.
      + intros j _ Hj. by apply next_index_set_ne. }
  assert (Hn : next_index srq (waitq_head srq) m2 ∈ W ++ [i]).
  { rewrite <- Ew. destruct (queue_pop _ _ _ _ (W ++ [i]) (app_nonnil W i) Q1) as [E _ _]. by eapply list_elem_of_lookup_2. }
  split.
  - by destruct Hwf; split.
  - change (next_index (set_waitq _ _ _)) with (next_index srq). simpl. rewrite <- Ew.
    eapply (queue_snoc (fun j => next_index srq j m1)); [|rewrite Ew; apply next_index_set_eq; lia|done|].
    + eapply queue_ext; [|exact Hf]. intros j Hj. apply next_index_set_ne; [done|]. intros ->. eauto.
    + intros j _ Hj. by apply next_index_set_ne.
  - unfold srq_has_waitq. simpl. rewrite (proj2 (Z.leb_le _ _)).
    2: { apply elem_of_app in Hn as [Hn|Hn%list_elem_of_singleton]; [|lia].
         assert (0 <= next_index srq (waitq_head srq) m2 < srq_max srq); [|lia].
         apply Hin. rewrite !elem_of_app, elem_of_cons. tauto. }
    change (next_index (set_waitq _ _ _)) with (next_index srq). rewrite <- Ew.
    apply (queue_pop (fun j => next_index srq j m2) w i w); [apply app_nonnil|exact Q1].
  - simpl. rewrite <- Ha. rewrite <- (rm_share i F (w :: W) P NP Hi). solve_Permutation.
Qed.

(** ** The data segments of an element *)

Lemma copy_segs_frame n dst src m a :
  a < dst \/ dst + 16 * Z.of_nat n <= a -> copy_segs dst src n m a = m a.
Proof.
  revert dst src m. induction n as [|n IH]; intros dst src m Ha; [done|]. cbn [copy_segs]. cbv zeta.
  assert (E : memcpy dst src sizeof_data_seg m a = m a) by (apply memcpy_outside; unfold sizeof_data_seg; lia).
  destruct (_ =? _); [done|]. rewrite IH; [done|]. unfold sizeof_data_seg. lia.
Qed.

Lemma srq_segs_frame l scat m a :
  a < scat \/ scat + 16 * Z.of_nat (length l) <= a -> srq_segs l scat m a = m a.
Proof.
  revert scat m. induction l as [|sg l IH]; intros scat m Ha; [done|]. cbn [srq_segs]. simpl in Ha.
  rewrite IH by (unfold sizeof_data_seg; lia). unfold set_data_ptr_seg. rewrite !store_be_outside by (simpl; lia). done.
Qed.

Lemma srq_wqe_frame srq p wr m a :
  srq_wf srq -> rwr_num_sge wr <= srq_max_gs srq -> a < p + 16 \/ p + stride srq <= a -> srq_wqe srq p wr m a = m a.
Proof.
  intros Hw Hn Ha. pose proof (sf_room _ Hw). unfold srq_wqe, rwr_num_sge, sizeof_next_seg, sizeof_data_seg in *.
  assert (E : srq_segs (rwr_sg_list wr) (p + 16) m a = m a) by (apply srq_segs_frame; lia).
  destruct (Z.ltb_spec (Z.of_nat (length (rwr_sg_list wr))) (srq_max_gs srq)); [|done].
  unfold set_data_ptr_seg_end. rewrite !store_be_outside by (simpl; lia). done.
Qed.

(** * Refinement *)

Fixpoint a_post (gs nreq : Z) (wrs : list ibv_recv_wr) (F P : list Z) : outcome * Z * list Z * list Z :=
  match wrs with
  | [] => (Ok, nreq, F, P)
  | wr :: wrs' =>
    if gs <? rwr_num_sge wr then (Err EINVAL, nreq, F, P)
    else
      match F with
      | h :: _ :: _ => a_post gs (nreq + 1) wrs' (tail F) (P ++ [h])
      | _ => (Err ENOMEM, nreq, F, P)
      end
  end.

(** What no operation changes, and the bytes outside the buffer of the queue *)
Definition geo (srq : mlx5_srq) : Z * Z * Z * Z * Z := (srq_buf srq, srq_max srq, srq_max_gs srq, srq_shift srq, srq_db srq).
Definition outside (srq : mlx5_srq) (a : Z) : Prop := a < srq_buf srq \/ srq_buf srq + srq_max srq * stride srq <= a.

Lemma outside_wqe srq i a : srq_wf srq -> 0 <= i < srq_max srq -> outside srq a -> a < get_wqe srq i \/ get_wqe srq i + stride srq <= a.
Proof. intros H Hi. unfold outside. rewrite get_wqe_eq by done. pose proof (stride_pos _ H). nia. Qed.

Lemma set_next_outside srq i v m a :
  srq_wf srq -> 0 <= i < srq_max srq -> outside srq a -> set_next_index srq i v m a = m a.
Proof.
  intros H Hi Ha. apply store_be_outside. pose proof (stride_pos _ H).
  destruct (outside_wqe srq i a H Hi Ha); simpl; lia.
Qed.

Lemma srq_post_loop_refines wrs : forall nreq srq m F W P,
  srq_rep srq m F W P ->
  let '(o, n, srq', m') := srq_post_loop nreq wrs srq m in
  let '(o', n', F', P') := a_post (srq_max_gs srq) nreq wrs F P in
  o = o' /\ n = n' /\ srq_rep srq' m' F' W P' /\ geo srq' = geo srq /\ srq_counter srq' = srq_counter srq /\
  forall a, outside srq a -> m' a = m a.
Proof.
  induction wrs as [|wr wrs IH]; intros nreq srq m F W P R; [by cbn [srq_post_loop a_post]|].
  cbn [srq_post_loop a_post]. destruct (Z.ltb_spec (srq_max_gs srq) (rwr_num_sge wr)) as [|Hgs]; [done|].
  pose proof (rep_disjoint _ _ _ _ _ R) as (NF & _). pose proof (r_free _ _ _ _ _ R) as Hf.
  destruct F as [|h [|x F]].
  - by pose proof (q_head _ _ _ _ Hf).
  - apply queue_one in Hf. rewrite Hf, Z.eqb_refl. done.
  - pose proof (queue_two _ _ _ _ _ _ Hf NF) as Hne. rewrite (proj2 (Z.eqb_neq _ _) Hne). cbv zeta.
    destruct (queue_cons _ _ _ _ Hf) as [? [= -> _]].
    assert (Bh : 0 <= srq_head srq < srq_max srq) by (eapply rep_in; [exact R|by left]).
    assert (Hfr : forall a, a < get_wqe srq (srq_head srq) + 16 \/ get_wqe srq (srq_head srq) + stride srq <= a ->
      srq_wqe srq (get_wqe srq (srq_head srq)) wr m a = m a) by (intros a; by apply srq_wqe_frame; [apply R|]).
    specialize (IH (nreq + 1) (set_head (next_index srq (srq_head srq) m)
      (set_srq_wrid (aset (srq_wrid srq) (srq_head srq) (rwr_id wr)) srq))
      (srq_wqe srq (get_wqe srq (srq_head srq)) wr m) (x :: F) W (P ++ [srq_head srq])).
    cbn [tail] in *. change (srq_wqe (set_srq_wrid _ srq)) with (srq_wqe srq).
    change (next_index (set_srq_wrid _ srq)) with (next_index srq). change (get_wqe (set_srq_wrid _ srq)) with (get_wqe srq).
    change (srq_max_gs (set_head _ _)) with (srq_max_gs srq) in IH.
    destruct (srq_post_loop _ _ _ _) as [[[o n] srq'] m'], (a_post _ _ _ _ _) as [[[o' n'] F'] P'].
    destruct IH as (-> & -> & R' & Hg & Hc & Hm).
    { eapply (rep_pop srq m _ W P (srq_head srq) x F _ _ (srq_counter srq)) in R; [exact R|done| |apply length_aset].
      intros i _. apply (next_index_payload srq (srq_head srq)); [apply R|done]. }
    split_and!; [done|done|done|done|done|]. intros a Ha. rewrite Hm by done. apply Hfr.
    destruct (outside_wqe srq (srq_head srq) a (r_wf _ _ _ _ _ R) Bh Ha); lia.
Qed.

(** The doorbell record publishes the number of elements posted so far. *)
Record srq_state (srq : mlx5_srq) (m : mem) (F W P : list Z) (c : Z) : Prop := {
  ss_rep : srq_rep srq m F W P;
  ss_counter : srq_counter srq = u16 c;
  ss_record : load_be 4 (srq_db srq) m = u16 c
}.

Lemma u16_record v : u16 v mod 2 ^ (8 * Z.of_nat 4) = u16 v.
Proof. apply Z.mod_small. pose proof (u16_range v). simpl. lia. Qed.

Lemma u16_add a b : u16 (u16 a + b) = u16 (a + b).
Proof. unfold u16. by rewrite Zplus_mod_idemp_l. Qed.

Lemma rep_ring srq m F W P c :
  srq_rep srq m F W P -> srq_state (set_counter (u16 c) srq) (store_be 4 (srq_db srq) (u16 c) m) F W P c.
Proof.
  intros R. split; [|done|].
  - pose proof (rep_in _ _ _ _ _ R) as Hin. destruct R as [Hwf Hf Hq Ha]. split; [by destruct Hwf; split| | |done].
    + change (next_index (set_counter _ _)) with (next_index srq). simpl.
      eapply queue_ext; [|exact Hf]. intros i Hi. apply next_index_db; [done|]. apply Hin, elem_of_app. by left.
    + change (srq_has_waitq (set_counter _ _)) with (srq_has_waitq srq). destruct (srq_has_waitq srq); [|done].
      change (next_index (set_counter _ _)) with (next_index srq). simpl.
      eapply queue_ext; [|exact Hq]. intros i Hi. apply next_index_db; [done|]. apply Hin. rewrite !elem_of_app. tauto.
  - simpl. rewrite load_store_same. apply u16_record.
Qed.

Lemma record_outside srq a : srq_wf srq -> srq_db srq <= a < srq_db srq + 4 -> outside srq a.
Proof. intros H Ha. destruct (sf_db _ H); unfold outside; lia. Qed.

Lemma state_keep srq m F W P c srq' m' F' W' P' :
  srq_state srq m F W P c -> srq_rep srq' m' F' W' P' -> geo srq' = geo srq -> srq_counter srq' = srq_counter srq ->
  (forall a, outside srq a -> m' a = m a) -> srq_state srq' m' F' W' P' c.
Proof.
  intros [R Hc Hd] R' [= E1 E2 E3 E4 E5] Ec Hm. split; [done|congruence|]. rewrite E5, <- Hd. apply load_be_ext.
  intros a Ha. apply Hm, record_outside; [apply R|simpl in Ha; lia].
Qed.

Lemma post_refines wrs srq m F W P c :
  srq_state srq m F W P c ->
  let '(o, n, srq', m', _) := mlx5_post_srq_recv wrs srq m in
  let '(o', n', F', P') := a_post (srq_max_gs srq) 0 wrs F P in
  o = o' /\ n = n' /\ srq_state srq' m' F' W P' (c + n) /\ geo srq' = geo srq.
Proof.
  intros S. pose proof (srq_post_loop_refines wrs 0 srq m F W P (ss_rep _ _ _ _ _ _ S)) as H.
  unfold mlx5_post_srq_recv. destruct (srq_post_loop _ _ _ _) as [[[o n] srq'] m'], (a_post _ _ _ _ _) as [[[o' n'] F'] P'].
  destruct H as (-> & -> & R' & Hg & Hc & Hm). destruct (Z.eqb_spec n' 0) as [->|].
  - rewrite Z.add_0_r. split_and!; [done|done|by eapply state_keep|done].
  - rewrite Hc, (ss_counter _ _ _ _ _ _ S), u16_add. split_and!; [done|done|by apply rep_ring|done].
Qed.

(** ** Faults *)

Lemma repost_refines i srq m F W P h x F' c :
  srq_state srq m F W P c -> F = h :: x :: F' ->
  let '(srq', m', _) := srq_repost i srq m in srq_state srq' m' (x :: F') W (P ++ [h]) (c + 1) /\ geo srq' = geo srq.
Proof.
  intros [R Hc Hd] ->. unfold srq_repost. pose proof (r_wf _ _ _ _ _ R) as Hwf.
  destruct (queue_cons _ _ _ _ (r_free _ _ _ _ _ R)) as [? [= -> _]].
  set (w := aset _ _ _). change (get_wqe (set_srq_wrid w srq)) with (get_wqe srq).
  change (srq_head (set_srq_wrid w srq)) with (srq_head srq). change (srq_max_gs (set_srq_wrid w srq)) with (srq_max_gs srq).
  set (m1 := copy_segs _ _ _ m). assert (Hn : forall j, next_index srq j m1 = next_index srq j m).
  { intros j. apply (next_index_payload srq (srq_head srq)); [done|]. intros a Ha. unfold m1. apply copy_segs_frame.
    pose proof (sf_room _ Hwf). pose proof (sf_gs _ Hwf). unfold sizeof_next_seg. lia. }
  simpl. fold (next_index srq (srq_head srq) m1). rewrite Hn, Hc, u16_add. split; [|done].
  apply (rep_ring (set_head (next_index srq (srq_head srq) m) (set_srq_wrid w srq))).
  by apply (rep_pop srq m (srq_head srq :: x :: F') W P (srq_head srq) x F' m1 w (srq_counter srq)); [|done|intros; apply Hn|apply length_aset].
Qed.

(** The lists after element [i] faulted: it rests, the element that rested longest
    takes its place among the free ones, and the request is posted again in the first
    free one. *)
Definition a_rest (i : Z) (F W : list Z) : list Z * list Z :=
  match W with w :: W' => (F ++ [w], W' ++ [i]) | [] => (F ++ [i], []) end.

Lemma rest_refines i srq m F W P c :
  srq_state srq m F W P c -> i ∈ P ->
  let '(cooled, srq1, m1) := srq_cooldown_wqe i srq m in
  let '(srq', m') := if cooled then (srq1, m1) else (set_tail i srq1, set_next_index srq1 (srq_tail srq1) i m1) in
  let '(F', W') := a_rest i F W in
  srq_state srq' m' F' W' (rm i P) c /\ geo srq' = geo srq.
Proof.
  intros S Hi. pose proof (ss_rep _ _ _ _ _ _ S) as R. pose proof (r_wf _ _ _ _ _ R) as Hwf.
  assert (Bt : 0 <= srq_tail srq < srq_max srq).
  { eapply rep_in; [exact R|]. apply elem_of_app. left. apply last_Some_elem_of, (q_last _ _ _ _ (r_free _ _ _ _ _ R)). }
  destruct W as [|w W]; simpl.
  - unfold srq_cooldown_wqe. pose proof (r_wait _ _ _ _ _ R) as Hq.
    destruct (srq_has_waitq srq); [by pose proof (q_head _ _ _ _ Hq)|]. simpl. split; [|done].
    eapply state_keep; [exact S|by apply rep_free|done|done|]. intros a Ha. by apply set_next_outside.
  - pose proof (rep_cooldown srq m F w W P i R Hi) as H. unfold srq_cooldown_wqe in *.
    pose proof (r_wait _ _ _ _ _ R) as Hq. destruct (srq_has_waitq srq); [|done]. simpl in H |- *.
    destruct H as [_ R']. split; [|done]. eapply state_keep; [exact S|exact R'|done|done|].
    intros a Ha. change (set_next_index (set_waitq _ _ srq)) with (set_next_index srq).
    assert (waitq_tail srq ∈ w :: W) by (apply last_Some_elem_of, (q_last _ _ _ _ Hq)).
    rewrite !set_next_outside; [done|done| |done|done|done|done].
    eapply rep_in; [exact R|]. rewrite !elem_of_app. tauto.
Qed.

Definition a_fault (i : Z) (F W P : list Z) : list Z * list Z * list Z :=
  let '(F, W) := a_rest i F W in (tail F, W, rm i P ++ take 1 F).

Lemma fault_refines i srq m F W P c :
  srq_state srq m F W P c -> i ∈ P ->
  let '(srq', m', _) := mlx5_complete_odp_fault i srq m in
  let '(F', W', P') := a_fault i F W P in
  srq_state srq' m' F' W' P' (c + 1) /\ geo srq' = geo srq.
Proof.
  intros S Hi. pose proof (rest_refines i srq m F W P c S Hi) as H. unfold mlx5_complete_odp_fault, a_fault.
  destruct (srq_cooldown_wqe i srq m) as [[cooled srq1] m1].
  destruct (if cooled then _ else _) as [srq2 m2].
  assert (exists h x F', (a_rest i F W).1 = h :: x :: F') as (h & x & F' & E).
  { destruct (queue_cons _ _ _ _ (r_free _ _ _ _ _ (ss_rep _ _ _ _ _ _ S))) as [F0 ->]. unfold a_rest.
    destruct W as [|w W]; simpl; destruct F0; simpl; eauto. }
  destruct (a_rest i F W) as [F1 W1]. simpl in E. destruct H as [S1 Hg].
  pose proof (repost_refines i srq2 m2 F1 W1 (rm i P) h x F' c S1 E) as H2. subst F1.
  destruct (srq_repost i srq2 m2) as [[srq' m'] tr]. destruct H2 as [S2 Hg2]. split; [done|congruence].
Qed.

(** ** Sequences of operations *)

Inductive sop : Type := SPost (wrs : list ibv_recv_wr) | SFree (ind : Z) | SFault (ind : Z).

Definition s_step (o : sop) (srq : mlx5_srq) (m : mem) : outcome * Z * mlx5_srq * mem :=
  match o with
  | SPost wrs => let '(r, n, srq, m, _) := mlx5_post_srq_recv wrs srq m in (r, n, srq, m)
  | SFree i => let '(srq, m) := mlx5_free_srq_wqe i srq m in (Ok, 0, srq, m)
  | SFault i => let '(srq, m, _) := mlx5_complete_odp_fault i srq m in (Ok, 1, srq, m)
  end.

Fixpoint s_run (ops : list sop) (srq : mlx5_srq) (m : mem) : list (outcome * Z) * mlx5_srq * mem :=
  match ops with
  | [] => ([], srq, m)
  | o :: ops =>
    let '(r, n, srq, m) := s_step o srq m in
    let '(rs, srq, m) := s_run ops srq m in ((r, n) :: rs, srq, m)
  end.

(** The same on lists; the device completes, or faults on, elements it owns. *)
Record lists : Type := mk_lists { l_free : list Z; l_wait : list Z; l_posted : list Z }.

Definition l_step (gs : Z) (o : sop) (l : lists) : outcome * Z * lists :=
  match o with
  | SPost wrs =>
    let '(r, n, F, P) := a_post gs 0 wrs (l_free l) (l_posted l) in (r, n, mk_lists F (l_wait l) P)
  | SFree i => (Ok, 0, mk_lists (l_free l ++ [i]) (l_wait l) (rm i (l_posted l)))
  | SFault i => let '(F, W, P) := a_fault i (l_free l) (l_wait l) (l_posted l) in (Ok, 1, mk_lists F W P)
  end.

Fixpoint l_run (gs : Z) (ops : list sop) (l : lists) : list (outcome * Z) * lists :=
  match ops with
  | [] => ([], l)
  | o :: ops => let '(r, n, l) := l_step gs o l in let '(rs, l) := l_run gs ops l in ((r, n) :: rs, l)
  end.

Definition owned (o : sop) (l : lists) : Prop :=
  match o with SPost _ => True | SFree i | SFault i => i ∈ l_posted l end.

Fixpoint device_ok (gs : Z) (ops : list sop) (l : lists) : Prop :=
  match ops with
  | [] => True
  | o :: ops => owned o l /\ device_ok gs ops (l_step gs o l).2
  end.

Lemma s_step_refines o srq m l c :
  srq_state srq m (l_free l) (l_wait l) (l_posted l) c -> owned o l ->
  let '(r, n, srq', m') := s_step o srq m in
  let '(r', n', l') := l_step (srq_max_gs srq) o l in
  r = r' /\ n = n' /\ srq_state srq' m' (l_free l') (l_wait l') (l_posted l') (c + n) /\ geo srq' = geo srq.
Proof.
  intros S Ho. destruct o as [wrs|i|i]; simpl in Ho |- *.
  - pose proof (post_refines wrs srq m _ _ _ c S) as H.
    destruct (mlx5_post_srq_recv wrs srq m) as [[[[r n] srq'] m'] tr], (a_post _ _ _ _ _) as [[[r' n'] F'] P']. exact H.
  - split_and!; [done|done| |done]. rewrite Z.add_0_r. pose proof (ss_rep _ _ _ _ _ _ S) as R.
    eapply state_keep; [exact S|by apply rep_free|done|done|]. intros a Ha. apply set_next_outside; [apply R| |done].
    eapply rep_in; [exact R|]. apply elem_of_app. left. apply last_Some_elem_of, (q_last _ _ _ _ (r_free _ _ _ _ _ R)).
  - pose proof (fault_refines i srq m _ _ _ c S Ho) as H.
    destruct (mlx5_complete_odp_fault i srq m) as [[srq' m'] tr], (a_fault _ _ _ _) as [[F' W'] P']. by destruct H.
Qed.


(** * Creation *)

Lemma align_queue_size_eq n : 1 <= n <= 2 ^ 30 -> align_queue_size n = 2 ^ Z.log2_up n.
Proof.
  intros Hn. unfold align_queue_size. rewrite u64_small by lia. rewrite roundup_log2_up by lia.
  assert (Hl : 0 <= Z.log2_up n <= 30) by (split; [apply Z.log2_up_nonneg|apply Z.log2_up_le_pow2; lia]).
  apply s32_small. assert (2 ^ Z.log2_up n <= 2 ^ 30) by (apply Z.pow_le_mono_r; lia).
  assert (0 < 2 ^ Z.log2_up n) by (apply Z.pow_pos_nonneg; lia). lia.
Qed.

Lemma buf_ll_next srq n i m j :
  srq_wf srq -> 0 <= i -> i + Z.of_nat n < 2 ^ 16 ->
  next_index srq j (buf_ll srq n i m) = if (i <=? j) && (j <? i + Z.of_nat n) then j + 1 else next_index srq j m.
Proof.
  intros Hw. revert i m. induction n as [|n IH]; intros i m Hi Hn; cbn [buf_ll].
  { destruct (Z.leb_spec i j), (Z.ltb_spec j (i + Z.of_nat 0)); simpl in *; done || lia. }
  rewrite IH by lia. rewrite Nat2Z.inj_succ. destruct (decide (j = i)) as [->|].
  - rewrite next_index_set_eq by lia.
    destruct (Z.leb_spec (i + 1) i), (Z.leb_spec i i), (Z.ltb_spec i (i + Z.succ (Z.of_nat n))); simpl; lia.
  - rewrite next_index_set_ne by done.
    destruct (Z.leb_spec (i + 1) j), (Z.leb_spec i j), (Z.ltb_spec j (i + 1 + Z.of_nat n)),
      (Z.ltb_spec j (i + Z.succ (Z.of_nat n))); simpl; done || lia.
Qed.

Lemma queue_seqZ nx a n :
  0 < n -> (forall j, a <= j < a + n - 1 -> nx j = j + 1) -> queue nx a (a + n - 1) (seqZ a n).
Proof.
  intros Hn H. split.
  - rewrite lookup_seqZ_lt by lia. f_equal. lia.
  - rewrite last_lookup, length_seqZ, lookup_seqZ_lt by lia. f_equal. lia.
  - intros k x y Hx Hy. apply lookup_seqZ in Hx as [-> _], Hy as [-> Hk]. rewrite H by lia. lia.
Qed.

(** The caller's [srq->db = ...; *srq->db = 0; srq->counter = 0] *)
Definition set_db (db : Z) (s : mlx5_srq) : mlx5_srq :=
  mk_srq (srq_buf s) (srq_wrid s) (srq_max s) (srq_max_gs s) (srq_shift s) (srq_head s) (srq_tail s)
    (waitq_head s) (waitq_tail s) db (srq_counter s).

(** The sizes [mlx5_alloc_srq_buf] computes: [2^k] bytes for an element, and, with
    [h = log2 max_wr], [2^(h+1)] elements in the free list *)
Lemma log2_up_succ n : 1 <= n -> Z.log2_up (n + 1) = Z.log2 n + 1.
Proof. intros ?. rewrite Z.log2_up_eqn by lia. replace (Z.pred (n + 1)) with n by lia. lia. Qed.

(** A ring of links over [n] elements, and over [n] more when there is a wait queue *)
Lemma linked_rep srq n (wait : bool) m :
  srq_wf srq -> 0 < n -> srq_max srq = (if wait then 2 * n else n) -> srq_head srq = 0 -> srq_tail srq = n - 1 ->
  (waitq_head srq, waitq_tail srq) = (if wait then (n, 2 * n - 1) else (-1, -1)) ->
  srq_rep srq (if wait then set_srq_buf_ll srq n (2 * n - 1) (set_srq_buf_ll srq 0 (n - 1) m)
               else set_srq_buf_ll srq 0 (n - 1) m)
    (seqZ 0 n) (if wait then seqZ n n else []) [].
Proof.
  intros Hw Hn Hm Hh Ht Eq. pose proof (sf_max _ Hw). split; [done| | |].
  - rewrite Hh, Ht. replace (n - 1) with (0 + n - 1) by lia. apply queue_seqZ; [lia|]. intros j Hj.
    unfold set_srq_buf_ll. destruct wait; rewrite !buf_ll_next by (done || lia);
      rewrite ?Z2Nat.id by lia;
      repeat match goal with |- context [?a <=? ?b] => destruct (Z.leb_spec a b); try lia
                        | |- context [?a <? ?b] => destruct (Z.ltb_spec a b); try lia end; simpl; lia.
  - unfold srq_has_waitq. destruct wait; injection Eq as Eh Et; rewrite Eh, ?Et.
    + rewrite (proj2 (Z.leb_le _ _)) by lia. replace (2 * n - 1) with (n + n - 1) by lia. apply queue_seqZ; [lia|].
      intros j Hj. unfold set_srq_buf_ll. rewrite buf_ll_next by (done || lia). rewrite Z2Nat.id by lia.
      rewrite (proj2 (Z.leb_le _ _)), (proj2 (Z.ltb_lt _ _)) by lia. done.
    + done.
  - rewrite Hm. destruct wait; rewrite ?app_nil_r; [|done].
    replace (2 * n) with (n + n) by lia. rewrite (seqZ_app 0 n n) by lia. done.
Qed.

(** The queue it returns *)
Lemma alloc_srq_buf_eq limit max_recv_wr p custom w max_wr srq m :
  let k := Z.log2_up (Z.max 32 (16 + 16 * srq_max_gs srq)) in
  let n := 2 ^ (Z.log2 max_wr + 1) in
  let wait := negb (limit <? 2 * max_wr + 1) in
  1 <= max_wr < 2 ^ 15 -> 0 <= srq_max_gs srq < 2 ^ 24 -> 2 ^ k <= max_recv_wr ->
  exists srq' m0, mlx5_alloc_srq_buf limit max_recv_wr (Some (p, custom)) (Some w) max_wr srq m =
    (0, srq', if wait then set_srq_buf_ll srq' n (2 * n - 1) (set_srq_buf_ll srq' 0 (n - 1) m0)
              else set_srq_buf_ll srq' 0 (n - 1) m0) /\
    srq' = mk_srq p w (if wait then 2 * n else n) (2 ^ k / 16 - 1) k 0 (n - 1)
             (if wait then n else -1) (if wait then 2 * n - 1 else -1) (srq_db srq) (srq_counter srq).
Proof.
  intros k n wait Hwr Hgs Hsz. assert (Hk : 5 <= k <= 30).
  { unfold k. split; [change 5 with (Z.log2_up 32); apply Z.log2_up_le_mono; lia|apply Z.log2_up_le_pow2; lia]. }
  destruct (size_small k) as [Es Hk2]; [lia|].
  assert (Hl : 0 <= Z.log2 max_wr < 15) by (split; [apply Z.log2_nonneg|apply Z.log2_lt_pow2; lia]).
  assert (En : align_queue_size (max_wr + 1) = n) by (rewrite align_queue_size_eq by lia; by rewrite log2_up_succ by lia).
  assert (E2n : align_queue_size (2 * max_wr + 1) = 2 * n).
  { rewrite align_queue_size_eq, log2_up_succ, Z.log2_double by lia. unfold n. by rewrite <- Z.pow_succ_r by lia. }
  assert (Er : s32 (roundup_pow_of_two (Z.max 32 (s32 (sizeof_next_seg + srq_max_gs srq * sizeof_data_seg)))) = 2 ^ k).
  { unfold sizeof_next_seg, sizeof_data_seg. rewrite (s32_small (16 + _)) by lia.
    replace (16 + srq_max_gs srq * 16) with (16 + 16 * srq_max_gs srq) by lia. rewrite roundup_log2_up by lia. exact Es. }
  unfold mlx5_alloc_srq_buf. rewrite (proj2 (Z.ltb_ge _ _)) by lia. rewrite Er.
  rewrite (u32_small (max_wr * 2 + 1)), !(u32_small (max_wr + 1)) by lia.
  replace (max_wr * 2 + 1) with (2 * max_wr + 1) by lia. fold wait.
  rewrite (proj2 (Z.ltb_ge _ _)) by lia. cbn [srq_max srq_wrid srq_max_gs srq_shift srq_db srq_counter]. rewrite En.
  assert (Eg : (2 ^ k - sizeof_next_seg) / sizeof_data_seg = 2 ^ k / 16 - 1).
  { change ((2 ^ k - 16) / 16 = 2 ^ k / 16 - 1). replace (2 ^ k - 16) with (2 ^ k + -1 * 16) by lia. rewrite Z.div_add; lia. }
  rewrite Eg, ilog_ones by lia. destruct wait; rewrite ?E2n, ?En; do 2 eexists; (split; [|reflexivity]); unfold set_srq_wrid; simpl;
    replace (n - 1 + 1) with n by lia; reflexivity.
Qed.

Lemma buf_ll_db db srq a b m : set_srq_buf_ll (set_db db srq) a b m = set_srq_buf_ll srq a b m.
Proof.
  unfold set_srq_buf_ll. generalize (Z.to_nat (b - a)). intros n. revert a m.
  induction n as [|n IH]; intros a m; [done|]. cbn [buf_ll]. apply IH.
Qed.

(** A new shared receive queue is ready.  For a request of [max_wr] elements
    with [gs] entries that the device can hold, [mlx5_alloc_srq_buf] succeeds given
    memory; the queue can take at least [max_wr] requests of at least [gs] entries, its
    links represent the free list and, if the device allows twice the elements, the
    wait queue, and with the doorbell record cleared it is in the state the operations
    start from. *)
Theorem alloc_srq_buf_ready limit max_recv_wr p custom w max_wr db srq m :
  let gs := srq_max_gs srq in
  let size := 2 ^ Z.log2_up (Z.max 32 (16 + 16 * gs)) in
  1 <= max_wr < 2 ^ 15 -> 0 <= gs < 2 ^ 24 -> size <= max_recv_wr ->
  (db + 4 <= p \/ p + 2 ^ 16 * size <= db) ->
  let '(r, srq', m') := mlx5_alloc_srq_buf limit max_recv_wr (Some (p, custom)) (Some w) max_wr srq m in
  Z.of_nat (length w) = srq_max srq' ->
  r = 0 /\ gs <= srq_max_gs srq' /\
  exists F W, max_wr <= Z.of_nat (length F) - 1 /\ (W = [] <-> limit < 2 * max_wr + 1) /\
    srq_state (set_db db (set_counter 0 srq')) (store_be 4 db 0 m') F W [] 0.
Proof.
  intros gs size Hwr Hgs Hsz Hdb.
  destruct (alloc_srq_buf_eq limit max_recv_wr p custom w max_wr srq m Hwr Hgs Hsz) as (srq' & m0 & -> & E).
  set (k := Z.log2_up _) in *. set (n := 2 ^ (Z.log2 max_wr + 1)) in *. set (wait := negb _) in *. intros Hlw.
  assert (Hk : 5 <= k) by (change 5 with (Z.log2_up 32); apply Z.log2_up_le_mono; lia).
  assert (Hn : max_wr < n <= 2 ^ 15).
  { unfold n. split; [apply Z.log2_spec; lia|apply Z.pow_le_mono_r; [lia|]]. pose proof (Z.log2_lt_pow2 max_wr 15). lia. }
  assert (Hd : size = 16 * (2 ^ k / 16)).
  { unfold size. replace k with (k - 4 + 4) by lia. rewrite Z.pow_add_r by lia. change (2 ^ 4) with 16. rewrite Z.div_mul; lia. }
  assert (Hs : Z.max 32 (16 + 16 * gs) <= size) by (apply Z.log2_up_spec; lia).
  assert (Hwf : srq_wf (set_db db srq')).
  { subst srq'. unfold size in *. split; unfold stride; simpl in *; [destruct wait; lia|lia|lia|lia|done|].
    destruct Hdb as [?|?]; [by left|right]. assert ((if wait then 2 * n else n) <= 2 ^ 16) by (destruct wait; lia). nia. }
  split_and!; [done|subst srq'; simpl; lia|]. exists (seqZ 0 n), (if wait then seqZ n n else []). split_and!.
  - rewrite length_seqZ. lia.
  - unfold wait. destruct (Z.ltb_spec limit (2 * max_wr + 1)); simpl; [done|]. split; [|lia].
    intros Hnil%(f_equal length). rewrite length_seqZ in Hnil. simpl in Hnil. lia.
  - change (set_db db (set_counter 0 srq')) with (set_counter (u16 0) (set_db db srq')). rewrite <- !(buf_ll_db db srq').
    apply (rep_ring (set_db db srq')), linked_rep; subst srq'; try done; [lia|by destruct wait].
Qed.

(** * Delivery *)

(** Element [h] holds the entries of [wr]. *)
Definition srq_holds (srq : mlx5_srq) (h : Z) (wr : ibv_recv_wr) (m : mem) : Prop :=
  forall j sg, rwr_sg_list wr !! j = Some sg ->
    read_data m (get_wqe srq h + 16 + 16 * Z.of_nat j) = (sge_length sg, sge_lkey sg, sge_addr sg).

Lemma srq_segs_read l : forall scat m j sg,
  Forall sge_range l -> l !! j = Some sg ->
  read_data (srq_segs l scat m) (scat + 16 * Z.of_nat j) = (sge_length sg, sge_lkey sg, sge_addr sg).
Proof.
  induction l as [|sg0 l IH]; intros scat m j sg Hl Hj; [done|]. apply Forall_cons in Hl as [(R1 & R2 & R3) Hl].
  cbn [srq_segs]. destruct j as [|j].
  - injection Hj as ->. rewrite (read_data_ext _ (set_data_ptr_seg scat sg 0 m)).
    + unfold read_data, set_data_ptr_seg. replace (scat + 16 * Z.of_nat 0) with scat by lia. load_solve.
      rewrite Z.sub_0_r, Z.add_0_r. by rewrite !Z.mod_small by (simpl; lia).
    + intros a Ha. apply srq_segs_frame. unfold sizeof_data_seg. lia.
  - rewrite <- (IH (scat + sizeof_data_seg) (set_data_ptr_seg scat sg0 0 m) j sg Hl Hj). f_equal. unfold sizeof_data_seg. lia.
Qed.

Lemma srq_wqe_holds srq h wr m :
  srq_wf srq -> Forall sge_range (rwr_sg_list wr) -> srq_holds srq h wr (srq_wqe srq (get_wqe srq h) wr m).
Proof.
  intros Hw Hl j sg Hj. rewrite <- (srq_segs_read _ (get_wqe srq h + 16) m j sg Hl Hj). apply read_data_ext.
  intros a Ha. pose proof (lookup_lt_Some _ _ _ Hj). unfold srq_wqe, rwr_num_sge, sizeof_next_seg, sizeof_data_seg.
  destruct (_ <? _); [|done]. unfold set_data_ptr_seg_end. rewrite !store_be_outside by (simpl; lia). done.
Qed.

Lemma srq_holds_ext srq h wr m m' :
  srq_wf srq -> rwr_num_sge wr <= srq_max_gs srq ->
  (forall a, get_wqe srq h <= a < get_wqe srq h + stride srq -> m' a = m a) -> srq_holds srq h wr m -> srq_holds srq h wr m'.
Proof.
  intros Hw Hn E H j sg Hj. rewrite <- (H j sg Hj). apply read_data_ext. intros a Ha. apply E.
  pose proof (lookup_lt_Some _ _ _ Hj). pose proof (sf_room _ Hw). unfold rwr_num_sge in Hn. lia.
Qed.

(** A later part of the loop leaves the elements it does not take. *)
Lemma srq_post_loop_frame wrs : forall nreq srq m F W P h a,
  srq_rep srq m F W P -> h ∉ F -> 0 <= h < srq_max srq -> get_wqe srq h <= a < get_wqe srq h + stride srq ->
  let '(_, _, srq', m') := srq_post_loop nreq wrs srq m in m' a = m a /\ aget (srq_wrid srq') h = aget (srq_wrid srq) h.
Proof.
  induction wrs as [|wr wrs IH]; intros nreq srq m F W P h a R Hh Bh Ha; [done|]. cbn [srq_post_loop].
  destruct (Z.ltb_spec (srq_max_gs srq) (rwr_num_sge wr)) as [|Hgs]; [done|].
  pose proof (rep_disjoint _ _ _ _ _ R) as (NF & _). pose proof (r_free _ _ _ _ _ R) as Hf.
  destruct (Z.eqb_spec (srq_head srq) (srq_tail srq)) as [|Hne]; [done|].
  destruct F as [|f [|x F]]; [by pose proof (q_head _ _ _ _ Hf)|by apply queue_one in Hf|].
  destruct (queue_cons _ _ _ _ Hf) as [? [= -> _]]. pose proof (r_wf _ _ _ _ _ R) as Hw.
  assert (Bf : 0 <= srq_head srq < srq_max srq) by (eapply rep_in; [exact R|by left]).
  assert (Hhf : h <> srq_head srq) by (intros ->; apply Hh; by left).
  assert (Hfr : forall a', a' < get_wqe srq (srq_head srq) + 16 \/ get_wqe srq (srq_head srq) + stride srq <= a' ->
    srq_wqe srq (get_wqe srq (srq_head srq)) wr m a' = m a') by (intros a'; by apply srq_wqe_frame).
  cbv zeta. specialize (IH (nreq + 1) (set_head (next_index srq (srq_head srq) m)
    (set_srq_wrid (aset (srq_wrid srq) (srq_head srq) (rwr_id wr)) srq))
    (srq_wqe srq (get_wqe srq (srq_head srq)) wr m) (x :: F) W (P ++ [srq_head srq]) h a).
  change (srq_wqe (set_srq_wrid _ srq)) with (srq_wqe srq).
  change (next_index (set_srq_wrid _ srq)) with (next_index srq). change (get_wqe (set_srq_wrid _ srq)) with (get_wqe srq).
  destruct (srq_post_loop _ _ _ _) as [[[o n] srq'] m']. destruct IH as [-> ->]; [|intros Hin; apply Hh; by right|done|done|].
  - eapply (rep_pop srq m _ W P (srq_head srq) x F _ _ (srq_counter srq)) in R; [exact R|done| |apply length_aset].
    intros i _. by apply (next_index_payload srq (srq_head srq)).
  - simpl. split; [|apply aget_aset_ne; lia]. apply Hfr. rewrite !get_wqe_eq in * by done. pose proof (stride_pos _ Hw). nia.
Qed.

(** The requests the loop accepts are in the first free elements, in order. *)
Lemma srq_post_loop_holds wrs : forall nreq srq m F W P,
  srq_rep srq m F W P -> Forall (fun wr => Forall sge_range (rwr_sg_list wr)) wrs ->
  let '(_, n, srq', m') := srq_post_loop nreq wrs srq m in
  nreq <= n /\ forall j wr h, nreq + Z.of_nat j < n -> wrs !! j = Some wr -> F !! j = Some h ->
    srq_holds srq h wr m' /\ aget (srq_wrid srq') h = rwr_id wr /\ rwr_num_sge wr <= srq_max_gs srq.
Proof.
  induction wrs as [|wr wrs IH]; intros nreq srq m F W P R Hl; cbn [srq_post_loop]; [split; [lia|by intros []]|].
  apply Forall_cons in Hl as [Hwr Hl].
  destruct (Z.ltb_spec (srq_max_gs srq) (rwr_num_sge wr)) as [|Hgs]; [split; [lia|intros; lia]|].
  pose proof (rep_disjoint _ _ _ _ _ R) as (NF & _). pose proof (r_free _ _ _ _ _ R) as Hf.
  destruct (Z.eqb_spec (srq_head srq) (srq_tail srq)) as [|Hne]; [split; [lia|intros; lia]|].
  destruct F as [|f [|x F]]; [by pose proof (q_head _ _ _ _ Hf)|by apply queue_one in Hf|].
  destruct (queue_cons _ _ _ _ Hf) as [? [= -> _]]. pose proof (r_wf _ _ _ _ _ R) as Hw.
  assert (Bf : 0 <= srq_head srq < srq_max srq) by (eapply rep_in; [exact R|by left]).
  cbv zeta. set (srq1 := set_head _ _).
  change (srq_wqe (set_srq_wrid _ srq)) with (srq_wqe srq). change (get_wqe (set_srq_wrid _ srq)) with (get_wqe srq).
  set (m1 := srq_wqe srq _ wr m).
  assert (R1 : srq_rep srq1 m1 (x :: F) W (P ++ [srq_head srq])).
  { eapply (rep_pop srq m _ W P (srq_head srq) x F m1 _ (srq_counter srq)) in R; [exact R|done| |apply length_aset].
    intros i _. apply (next_index_payload srq (srq_head srq)); [done|]. intros a Ha. by apply srq_wqe_frame. }
  specialize (IH (nreq + 1) srq1 m1 (x :: F) W _ R1 Hl).
  apply NoDup_cons in NF as [Hni _]. pose proof (fun a => srq_post_loop_frame wrs (nreq + 1) srq1 m1 (x :: F) W _ (srq_head srq) a R1 Hni Bf) as Hfr.
  destruct (srq_post_loop _ _ _ _) as [[[o n] srq'] m']. destruct IH as [Hn IH]. split; [lia|].
  intros [|j] wr' h Hj Ej Eh.
  - injection Ej as <-. injection Eh as <-.
    assert (Hin : get_wqe srq (srq_head srq) <= get_wqe srq (srq_head srq) < get_wqe srq (srq_head srq) + stride srq)
      by (pose proof (stride_pos _ Hw); lia).
    split_and!; [|rewrite (proj2 (Hfr _ Hin)); apply aget_aset_eq; pose proof (sf_wrid _ Hw); lia|done].
    apply (srq_holds_ext srq _ wr m1); [done|done| |by apply srq_wqe_holds]. intros a Ha. by apply Hfr.
  - apply (IH j wr' h); [lia|done|done].
Qed.

Lemma srq_scat_loop_scatter l : forall scat buf size max m,
  Forall (fun sg => 0 <= sge_length sg) l ->
  (forall j sg, l !! j = Some sg -> read_data m (scat + 16 * Z.of_nat j) = (sge_length sg, sge_lkey sg, sge_addr sg)) ->
  Forall (apart scat (16 * Z.of_nat (length l))) l ->
  0 <= size <= sumZ sge_length l -> l <> [] -> (length l <= max)%nat ->
  srq_scat_loop scat buf size max m = (IBV_WC_SUCCESS, scatter l buf size m).
Proof.
  induction l as [|sg l IH]; intros scat buf size max m Hl Hr Ha Hs Hne Hm; [done|].
  apply Forall_cons in Hl as [Hsg Hl]. destruct max as [|max]; [simpl in Hm; lia|].
  pose proof (Hr 0%nat sg eq_refl) as Hr0. replace (scat + 16 * Z.of_nat 0) with scat in Hr0 by lia.
  unfold read_data in Hr0. injection Hr0 as E1 E2 E3. cbn [srq_scat_loop scatter]. rewrite E1, E3. cbv zeta.
  set (c := Z.min size (sge_length sg)).
  destruct (Z.leb_spec (size - c) 0) as [Hle|Hgt].
  { rewrite (proj2 (Z.eqb_eq _ _)) by (unfold c in *; lia). done. }
  rewrite (proj2 (Z.eqb_neq _ _)) by lia. assert (c = sge_length sg) as Ec by (unfold c in *; lia).
  unfold sumZ in Hs. simpl in Hs. fold (sumZ sge_length l) in Hs. simpl in Hm. apply Forall_cons in Ha as [Ha1 Ha].
  apply IH; [done| | |lia| |lia].
  - intros j sg' Hj. rewrite <- (Hr (S j) sg' Hj). pose proof (lookup_lt_Some _ _ _ Hj).
    replace (scat + sizeof_data_seg + 16 * Z.of_nat j) with (scat + 16 * Z.of_nat (S j)) by (unfold sizeof_data_seg; lia).
    apply read_data_ext. intros a Hin. apply memcpy_outside. unfold apart in Ha1. cbn [length] in Ha1. lia.
  - eapply Forall_impl; [exact Ha|]. intros sg' H. unfold apart, sizeof_data_seg in *. cbn [length] in H. lia.
  - intros ->. unfold sumZ in Hs. simpl in Hs. lia.
Qed.

(** A request accepted by [mlx5_post_srq_recv] is delivered to: when the device
    later returns its element [h] with data inside the completion, the work-request
    identifier found there is the one posted, [mlx5_copy_to_recv_srq] of at most as many
    bytes as the request has room for succeeds, the [k]-th byte is at the [k]-th address
    of the scatter list, and nothing else changes. *)
Theorem srq_post_delivers wrs srq m F W P c j wr h buf size :
  let l := rwr_sg_list wr in
  srq_state srq m F W P c -> Forall (fun wr => Forall sge_range (rwr_sg_list wr)) wrs ->
  wrs !! j = Some wr -> F !! j = Some h -> l <> [] ->
  disjoint_bufs l -> Forall (apart buf size) l -> Forall (apart (get_wqe srq h) (stride srq)) l ->
  0 <= size <= sumZ sge_length l ->
  let '(_, n, srq', m1, _) := mlx5_post_srq_recv wrs srq m in
  Z.of_nat j < n ->
  aget (srq_wrid srq') h = rwr_id wr /\
  let '(r, m') := mlx5_copy_to_recv_srq srq' h buf size m1 in
  r = IBV_WC_SUCCESS /\
  (forall k a, 0 <= k < size -> byte_addr l k = Some a -> m' a = m1 (buf + k)) /\
  (forall a, Forall (apart a 1) l -> m' a = m1 a).
Proof.
  intros l S Hl Hwr Hh Hne Hd Hb Hp Hs. pose proof (ss_rep _ _ _ _ _ _ S) as R. pose proof (r_wf _ _ _ _ _ R) as Hw.
  pose proof (srq_post_loop_holds wrs 0 srq m F W P R Hl) as H. pose proof (srq_post_loop_refines wrs 0 srq m F W P R) as H2.
  unfold mlx5_post_srq_recv. destruct (srq_post_loop 0 wrs srq m) as [[[o n] srq'] m1]. destruct H as [Hn H].
  destruct (a_post _ _ _ _ _) as [[[o' n'] F'] P']. destruct H2 as (_ & _ & _ & [= G1 _ _ G4 G5] & _).
  destruct (Z.eqb_spec n 0) as [->|]; [lia|]. intros Hj. destruct (H j wr h Hj Hwr Hh) as (Hho & Hid & Hgs).
  split; [done|]. unfold mlx5_copy_to_recv_srq, get_wqe. cbn [srq_buf srq_shift set_counter]. rewrite G1, G4, G5.
  fold (get_wqe srq h). set (m2 := store_be 4 _ _ m1).
  assert (Bh : 0 <= h < srq_max srq).
  { eapply rep_in; [exact R|]. apply elem_of_app. left. by eapply list_elem_of_lookup_2. }
  assert (Hh2 : srq_holds srq h wr m2).
  { apply (srq_holds_ext srq h wr m1); [done|done| |done]. intros a Ha. apply store_be_outside.
    rewrite get_wqe_eq in Ha by done. pose proof (stride_pos _ Hw). destruct (sf_db _ Hw); simpl; nia. }
  assert (Hpos : Forall (fun sg => 0 <= sge_length sg) l).
  { apply list_elem_of_lookup_2 in Hwr. eapply Forall_forall in Hl; [|exact Hwr]. eapply Forall_impl; [exact Hl|].
    intros sg [? _]. lia. }
  pose proof (sf_room _ Hw) as Hroom. pose proof (sf_shift _ Hw) as Hsh. unfold rwr_num_sge in Hgs. fold l in Hgs.
  rewrite (srq_scat_loop_scatter l); [|done|done| |done|done|].
  - split_and!; [done| |].
    + intros k a Hk Ha. by apply scatter_bytes.
    + intros a Ha. apply scatter_frame; [lia|done|done].
  - eapply Forall_impl; [exact Hp|]. intros sg Hsg. unfold apart, sizeof_next_seg in *. lia.
  - rewrite Z.shiftl_mul_pow2, Z.mul_1_l by lia. unfold stride in Hroom.
    replace (srq_shift srq) with (srq_shift srq - 4 + 4) in Hroom by lia.
    rewrite Z.pow_add_r in Hroom by lia. change (2 ^ 4) with 16 in Hroom. lia.
Qed.

(** * Examples *)

(** Eight elements of one entry at 4096, four of them in the wait queue *)
Definition demo_srq : mlx5_srq := mk_srq 4096 (replicate 8 0) 8 1 5 0 3 4 7 512 0.
Definition demo_srq_mem : mem :=
  store_be 4 512 (u16 0) (set_srq_buf_ll demo_srq 4 7 (set_srq_buf_ll demo_srq 0 3 (fun a => a mod 256))).

Lemma demo_srq_wf : srq_wf demo_srq.
Proof. split; unfold stride; simpl; lia. Qed.

Lemma demo_srq_state : srq_state demo_srq demo_srq_mem [0; 1; 2; 3] [4; 5; 6; 7] [] 0.
Proof.
  exact (rep_ring demo_srq _ _ _ _ 0 (linked_rep demo_srq 4 true _ demo_srq_wf ltac:(lia) eq_refl eq_refl eq_refl eq_refl)).
Qed.

Definition demo_srq_wr (id : Z) : ibv_recv_wr := mk_rwr id [mk_sge (8192 + 100 * id) 50 7].


Lemma alloc_srq_buf_ready_witness :
  let '(r, srq', m') := mlx5_alloc_srq_buf 100 1000 (Some (4096, false)) (Some (replicate 8 0)) 2
    (mk_srq 0 [] 0 1 0 0 0 0 0 0 0) (fun _ => 9) in
  r = 0 /\ exists F W, W <> [] /\ srq_state (set_db 512 (set_counter 0 srq')) (store_be 4 512 0 m') F W [] 0.
Proof.
  pose proof (alloc_srq_buf_ready 100 1000 4096 false (replicate 8 0) 2 512 (mk_srq 0 [] 0 1 0 0 0 0 0 0 0) (fun _ => 9)) as H.
  assert (Em : srq_max (mlx5_alloc_srq_buf 100 1000 (Some (4096, false)) (Some (replicate 8 0)) 2
    (mk_srq 0 [] 0 1 0 0 0 0 0 0 0) (fun _ => 9)).1.2 = 8) by (by vm_compute).
  destruct (mlx5_alloc_srq_buf _ _ _ _ _ _ _) as [[r srq'] m']. simpl in Em.
  destruct H as (-> & _ & F & W & _ & HW & S);
    [lia|simpl; lia|by vm_compute|left; lia|by rewrite Em|].
  split; [reflexivity|]. exists F, W. split; [|exact S]. intros E%HW. lia.
Defined.

Lemma srq_post_delivers_witness :
  let '(_, n, srq', m1, _) := mlx5_post_srq_recv [demo_srq_wr 1; demo_srq_wr 2] demo_srq demo_srq_mem in
  let '(r, m') := mlx5_copy_to_recv_srq srq' 1 20000 40 m1 in
  aget (srq_wrid srq') 1 = 2 /\ r = IBV_WC_SUCCESS /\ m' 8401 = m1 20009.
Proof.
  pose proof (srq_post_delivers [demo_srq_wr 1; demo_srq_wr 2] demo_srq demo_srq_mem [0; 1; 2; 3] [4; 5; 6; 7] [] 0 1 (demo_srq_wr 2) 1
    20000 40 demo_srq_state) as H.
  assert ((mlx5_post_srq_recv [demo_srq_wr 1; demo_srq_wr 2] demo_srq demo_srq_mem).1.1.1.2 = 2) as En by (by vm_compute).
  destruct (mlx5_post_srq_recv _ _ _) as [[[[o n] srq'] m1] tr]. simpl in En. subst n.
  destruct H as [Hid H].
  - repeat constructor; simpl; lia.
  - reflexivity.
  - reflexivity.
  - discriminate.
  - simpl. split; [constructor|exact I].
  - constructor; [right; by vm_compute|constructor].
  - constructor; [left; by vm_compute|constructor].
  - by vm_compute.
  - simpl. lia.
  - destruct (mlx5_copy_to_recv_srq _ _ _ _ _) as [r m']. destruct H as (H1 & H2 & _). split; [exact Hid|]. split; [exact H1|].
    apply (H2 9); [lia|reflexivity].
Defined.
