(* ===== verification/Sizes.v ===== *)
(** Sizing and placing the queues of a QP (providers/mlx5/verbs.c): the size of the
    largest send element from the requested operations, scatter entries and inline
    data, the number of elements, the receive element, and the buffer both queues
    live in.  The results are what every other part takes for granted about a queue. *)

From stdpp Require Import base numbers list.
From S2P Require Import Prelude Mem Types Wqe PostSend.

(** * Requests and limits *)

(** Limits of the device, fields of [struct mlx5_context] *)
Record ctx_limits : Type := mk_lims {
  max_sq_desc_sz : Z; max_rq_desc_sz : Z; max_send_wqebb : Z; max_recv_wr : Z }.

Record ibv_qp_cap : Type := mk_cap {
  max_send_wr : Z; cap_max_recv_wr : Z; max_send_sge : Z; max_recv_sge : Z; cap_max_inline_data : Z }.

(** [struct ibv_qp_init_attr_ex], the fields that decide sizes; [ia_srq] tells whether
    [srq] is set *)
Record ibv_qp_init_attr_ex : Type := mk_ia {
  ia_qp_type : Z; ia_comp_mask : Z; ia_send_ops_flags : Z; ia_max_tso_header : Z; ia_srq : bool; ia_cap : ibv_qp_cap }.

Record mlx5dv_qp_init_attr : Type := mk_dv { dv_comp_mask : Z; dv_send_ops_flags : Z }.

Definition IBV_QP_INIT_ATTR_MAX_TSO_HEADER : Z := 8.
Definition IBV_QP_INIT_ATTR_SEND_OPS_FLAGS : Z := 64.
Definition MLX5DV_QP_INIT_ATTR_MASK_SEND_OPS_FLAGS : Z := 4.
Definition IBV_QP_EX_WITH_RDMA_WRITE : Z := 1.
Definition IBV_QP_EX_WITH_RDMA_WRITE_WITH_IMM : Z := 2.
Definition IBV_QP_EX_WITH_SEND : Z := 4.
Definition IBV_QP_EX_WITH_SEND_WITH_IMM : Z := 8.
Definition IBV_QP_EX_WITH_RDMA_READ : Z := 16.
Definition IBV_QP_EX_WITH_ATOMIC_CMP_AND_SWP : Z := 32.
Definition IBV_QP_EX_WITH_ATOMIC_FETCH_AND_ADD : Z := 64.
Definition IBV_QP_EX_WITH_LOCAL_INV : Z := 128.
Definition IBV_QP_EX_WITH_BIND_MW : Z := 256.
Definition IBV_QP_EX_WITH_SEND_WITH_INV : Z := 512.
Definition IBV_QP_EX_WITH_TSO : Z := 1024.
Definition MLX5DV_QP_EX_WITH_MR_INTERLEAVED : Z := 1.
Definition MLX5DV_QP_EX_WITH_MR_LIST : Z := 2.
Definition MLX5DV_QP_EX_WITH_MKEY_CONFIGURE : Z := 4.
Definition sizeof_klm_seg : Z := 16.
Definition sizeof_rwqe_sig : Z := 16.

Definition set_max_inline_data (v : Z) (r : mlx5_qp) : mlx5_qp :=
  mk_qp (qp_num r) (qp_type r) (qp_state r) (ex_wr_id r) (ex_wr_flags r) (qp_buf r) v
    (inl_wqe r) (cur_setters_cnt r) (num_mkey_setters r) (fm_cache_rb r) (err r) (nreq r)
    (cur_size r) (cur_post_rb r) (cur_eth r) (cur_data r) (cur_ctrl r) (cur_mkey r)
    (fm_cache r) (sq_signal_bits r) (sq_start r) (sq r) (qp_db r) (rq r) (wq_sig r)
    (qp_cap_cache r) (atomics_enabled r) (max_tso r) (max_tso_header r) (qp_flags r).
Definition set_max_tso_header (v : Z) (r : mlx5_qp) : mlx5_qp :=
  mk_qp (qp_num r) (qp_type r) (qp_state r) (ex_wr_id r) (ex_wr_flags r) (qp_buf r) (max_inline_data r)
    (inl_wqe r) (cur_setters_cnt r) (num_mkey_setters r) (fm_cache_rb r) (err r) (nreq r)
    (cur_size r) (cur_post_rb r) (cur_eth r) (cur_data r) (cur_ctrl r) (cur_mkey r)
    (fm_cache r) (sq_signal_bits r) (sq_start r) (sq r) (qp_db r) (rq r) (wq_sig r)
    (qp_cap_cache r) (atomics_enabled r) (max_tso r) v (qp_flags r).
(** [qp->buf.buf = buf; qp->sq_start = start] *)
Definition set_bufs (buf start : Z) (r : mlx5_qp) : mlx5_qp :=
  mk_qp (qp_num r) (qp_type r) (qp_state r) (ex_wr_id r) (ex_wr_flags r) buf (max_inline_data r)
    (inl_wqe r) (cur_setters_cnt r) (num_mkey_setters r) (fm_cache_rb r) (err r) (nreq r)
    (cur_size r) (cur_post_rb r) (cur_eth r) (cur_data r) (cur_ctrl r) (cur_mkey r)
    (fm_cache r) (sq_signal_bits r) start (sq r) (qp_db r) (rq r) (wq_sig r)
    (qp_cap_cache r) (atomics_enabled r) (max_tso r) (max_tso_header r) (qp_flags r).

Definition set_wqe_cnt (v : Z) (r : mlx5_wq) : mlx5_wq :=
  mk_wq (wrid r) (wqe_head r) v (max_post r) (wq_head r) (wq_tail r) (cur_post r) (max_gs r)
    (wqe_shift r) (wq_offset r) (qend r) (wr_data r).
(** The three fields the sizes of a queue decide beside [wqe_cnt] *)
Definition set_geometry (shift gs post : Z) (r : mlx5_wq) : mlx5_wq :=
  mk_wq (wrid r) (wqe_head r) (wqe_cnt r) post (wq_head r) (wq_tail r) (cur_post r) gs
    shift (wq_offset r) (qend r) (wr_data r).
Definition set_wq_offset (v : Z) (r : mlx5_wq) : mlx5_wq :=
  mk_wq (wrid r) (wqe_head r) (wqe_cnt r) (max_post r) (wq_head r) (wq_tail r) (cur_post r) (max_gs r)
    (wqe_shift r) v (qend r) (wr_data r).
Definition set_qend (v : Z) (r : mlx5_wq) : mlx5_wq :=
  mk_wq (wrid r) (wqe_head r) (wqe_cnt r) (max_post r) (wq_head r) (wq_tail r) (cur_post r) (max_gs r)
    (wqe_shift r) (wq_offset r) v (wr_data r).

(** * The send queue *)

(** [_sq_overhead(qp, qp_type, ops, mlx5_ops)]; [dci] is [qp->dc_type ==
    MLX5DV_DCTYPE_DCI] *)
Definition _sq_overhead (qp : mlx5_qp) (dci : bool) (qp_type ops mlx5_ops : Z) : Z :=
  let rdma_size :=
    if has_flag ops (Z.lor IBV_QP_EX_WITH_RDMA_WRITE
                    (Z.lor IBV_QP_EX_WITH_RDMA_WRITE_WITH_IMM IBV_QP_EX_WITH_RDMA_READ))
    then sizeof_ctrl_seg + sizeof_raddr_seg else 0 in
  let atomic_size :=
    if has_flag ops (Z.lor IBV_QP_EX_WITH_ATOMIC_CMP_AND_SWP IBV_QP_EX_WITH_ATOMIC_FETCH_AND_ADD)
    then sizeof_ctrl_seg + sizeof_raddr_seg + sizeof_atomic_seg else 0 in
  let mw_size :=
    if has_flag ops (Z.lor IBV_QP_EX_WITH_BIND_MW IBV_QP_EX_WITH_LOCAL_INV)
       || has_flag mlx5_ops (Z.lor MLX5DV_QP_EX_WITH_MR_INTERLEAVED
                            (Z.lor MLX5DV_QP_EX_WITH_MR_LIST MLX5DV_QP_EX_WITH_MKEY_CONFIGURE))
    then sizeof_ctrl_seg + sizeof_umr_ctrl_seg + sizeof_mkey_context_seg + Z.max sizeof_klm_seg 64 else 0 in
  let size := Z.max (Z.max (Z.max sizeof_ctrl_seg rdma_size) atomic_size) mw_size in
  let datagram := size + sizeof_datagram_seg
    + (if has_flag (qp_flags qp) MLX5_QP_FLAGS_USE_UNDERLAY then sizeof_eth_seg + sizeof_eth_pad else 0) in
  if qp_type =? IBV_QPT_DRIVER then (if dci then datagram else - EINVAL)
  else if qp_type =? IBV_QPT_UD then datagram
  else if (qp_type =? IBV_QPT_XRC_RECV) || (qp_type =? IBV_QPT_XRC_SEND) then size + sizeof_xrc_seg
  else if qp_type =? IBV_QPT_RAW_PACKET then size + sizeof_eth_seg
  else if (qp_type =? IBV_QPT_RC) || (qp_type =? IBV_QPT_UC) then size
  else - EINVAL.

(** The operations of a QP created without [send_ops_flags] *)
Definition default_ops (qp_type : Z) : option Z :=
  if existsb (Z.eqb qp_type) [IBV_QPT_RC; IBV_QPT_UC; IBV_QPT_DRIVER; IBV_QPT_XRC_RECV; IBV_QPT_XRC_SEND] then
    Some (foldr Z.lor 0
      [IBV_QP_EX_WITH_SEND; IBV_QP_EX_WITH_SEND_WITH_INV; IBV_QP_EX_WITH_SEND_WITH_IMM; IBV_QP_EX_WITH_RDMA_WRITE;
       IBV_QP_EX_WITH_RDMA_WRITE_WITH_IMM; IBV_QP_EX_WITH_RDMA_READ; IBV_QP_EX_WITH_ATOMIC_CMP_AND_SWP;
       IBV_QP_EX_WITH_ATOMIC_FETCH_AND_ADD; IBV_QP_EX_WITH_LOCAL_INV; IBV_QP_EX_WITH_BIND_MW])
  else if qp_type =? IBV_QPT_UD then
    Some (foldr Z.lor 0 [IBV_QP_EX_WITH_SEND; IBV_QP_EX_WITH_SEND_WITH_IMM; IBV_QP_EX_WITH_TSO])
  else if qp_type =? IBV_QPT_RAW_PACKET then Some (Z.lor IBV_QP_EX_WITH_SEND IBV_QP_EX_WITH_TSO)
  else None.

(** The operations [sq_overhead] makes room for *)
Definition attr_ops (attr : ibv_qp_init_attr_ex) : option Z :=
  if has_flag (ia_comp_mask attr) IBV_QP_INIT_ATTR_SEND_OPS_FLAGS then Some (ia_send_ops_flags attr)
  else default_ops (ia_qp_type attr).

Definition sq_overhead (qp : mlx5_qp) (dci : bool) (attr : ibv_qp_init_attr_ex) (dv : option mlx5dv_qp_init_attr) : Z :=
  match attr_ops attr with
  | None => - EINVAL
  | Some ops =>
    let mlx5_ops := match dv with
      | Some a => if has_flag (dv_comp_mask a) MLX5DV_QP_INIT_ATTR_MASK_SEND_OPS_FLAGS then dv_send_ops_flags a else 0
      | None => 0 end in
    _sq_overhead qp dci (ia_qp_type attr) ops mlx5_ops
  end.

(** [mlx5_calc_send_wqe]: the size of the largest element, or an error *)
Definition mlx5_calc_send_wqe (ctx : ctx_limits) (dci : bool) (attr : ibv_qp_init_attr_ex)
    (dv : option mlx5dv_qp_init_attr) (qp : mlx5_qp) : Z * mlx5_qp :=
  let size := sq_overhead qp dci attr dv in
  if size <? 0 then (size, qp)
  else
    let inl := cap_max_inline_data (ia_cap attr) in
    let inl_size := if inl =? 0 then 0 else s32 (size + align (sizeof_inline_seg + inl) 16) in
    let tso := has_flag (ia_comp_mask attr) IBV_QP_INIT_ATTR_MAX_TSO_HEADER in
    let size := if tso then s32 (size + align (ia_max_tso_header attr) 16) else size in
    let qp := if tso then set_max_tso_header (ia_max_tso_header attr) qp else qp in
    let max_gather := s32 (u64 (max_sq_desc_sz ctx - size) / sizeof_data_seg) in
    if u32 max_gather <? max_send_sge (ia_cap attr) then (- EINVAL, qp)
    else
      let size := s32 (size + max_send_sge (ia_cap attr) * sizeof_data_seg) in
      let tot_size := Z.max size inl_size in
      if max_sq_desc_sz ctx <? tot_size then (- EINVAL, qp)
      else (s32 (align tot_size MLX5_SEND_WQE_BB), qp).

(** [attr->cap.max_inline_data = v] *)
Definition set_inline_cap (v : Z) (attr : ibv_qp_init_attr_ex) : ibv_qp_init_attr_ex :=
  let c := ia_cap attr in
  mk_ia (ia_qp_type attr) (ia_comp_mask attr) (ia_send_ops_flags attr) (ia_max_tso_header attr) (ia_srq attr)
    (mk_cap (max_send_wr c) (cap_max_recv_wr c) (max_send_sge c) (max_recv_sge c) v).

(** [mlx5_calc_sq_size]: the bytes of the send queue, the attributes with the inline
    limit granted, the QP *)
Definition mlx5_calc_sq_size (ctx : ctx_limits) (dci : bool) (attr : ibv_qp_init_attr_ex)
    (dv : option mlx5dv_qp_init_attr) (qp : mlx5_qp) : Z * ibv_qp_init_attr_ex * mlx5_qp :=
  let wr := max_send_wr (ia_cap attr) in
  if wr =? 0 then (0, attr, qp)
  else
    let '(wqe_size, qp) := mlx5_calc_send_wqe ctx dci attr dv qp in
    if wqe_size <? 0 then (wqe_size, attr, qp)
    else if max_sq_desc_sz ctx <? wqe_size then (- EINVAL, attr, qp)
    else
      let inl := s32 (wqe_size - sq_overhead qp dci attr dv - sizeof_inline_seg) in
      let qp := set_max_inline_data inl qp in
      let attr := set_inline_cap (u32 inl) attr in
      if 0x7fffffff / max_sq_desc_sz ctx <? wr then (- EINVAL, attr, qp)
      else
        let wq_size := s32 (roundup_pow_of_two (u32 (wr * wqe_size))) in
        let cnt := u32 (Z.quot wq_size MLX5_SEND_WQE_BB) in
        let qp := set_sq (set_wqe_cnt cnt (sq qp)) qp in
        if u32 (max_send_wqebb ctx) <? cnt then (- EINVAL, attr, qp)
        else (wq_size, attr,
              set_sq (set_geometry 6 (s32 (max_send_sge (ia_cap attr))) (u32 (Z.quot wq_size wqe_size)) (sq qp)) qp).

(** * The receive queue *)

Definition mlx5_calc_rcv_wqe (ctx : ctx_limits) (attr : ibv_qp_init_attr_ex) (qp : mlx5_qp) : Z :=
  if ia_srq attr then 0
  else
    let num_scatter := s32 (Z.max (max_recv_sge (ia_cap attr)) 1) in
    let size := u32 (sizeof_data_seg * num_scatter) in
    let size := if wq_sig qp then u32 (size + sizeof_rwqe_sig) else size in
    if u32 (max_rq_desc_sz ctx) <? size then - EINVAL
    else s32 (u32 (roundup_pow_of_two size)).

(** The fields of a receive queue of [wq_size] bytes with elements of [wqe_size], of
    which [overhead] are not for scatter entries *)
Definition rq_fields (wq_size wqe_size overhead : Z) (wq : mlx5_wq) : mlx5_wq :=
  let cnt := u32 (Z.quot wq_size wqe_size) in
  set_geometry (ilog (u32 (wqe_size - 1))) (s32 (u64 (wqe_size - overhead) / sizeof_data_seg))
    (u32 (Z.shiftl 1 (ilog (u32 (Z.quot wq_size wqe_size - 1))))) (set_wqe_cnt cnt wq).

Definition mlx5_calc_rq_size (ctx : ctx_limits) (attr : ibv_qp_init_attr_ex) (qp : mlx5_qp) : Z * mlx5_qp :=
  let wr := cap_max_recv_wr (ia_cap attr) in
  if wr =? 0 then (0, qp)
  else if u32 (max_recv_wr ctx) <? wr then (- EINVAL, qp)
  else
    let wqe_size := mlx5_calc_rcv_wqe ctx attr qp in
    if (wqe_size <? 0) || (max_rq_desc_sz ctx <? wqe_size) then (- EINVAL, qp)
    else
      let wq_size := s32 (u64 (roundup_pow_of_two wr * wqe_size)) in
      if negb (wqe_size =? 0) then
        let wq_size := Z.max wq_size MLX5_SEND_WQE_BB in
        (wq_size, set_rq (rq_fields wq_size wqe_size (if wq_sig qp then sizeof_rwqe_sig else 0) (rq qp)) qp)
      else (wq_size, set_rq (set_geometry 0 0 0 (set_wqe_cnt 0 (rq qp))) qp).

(** [mlx5_calc_wq_size]: the bytes of both queues; the receive queue comes first *)
Definition mlx5_calc_wq_size (ctx : ctx_limits) (dci : bool) (attr : ibv_qp_init_attr_ex)
    (dv : option mlx5dv_qp_init_attr) (qp : mlx5_qp) : Z * ibv_qp_init_attr_ex * mlx5_qp :=
  let '(ret, attr, qp) := mlx5_calc_sq_size ctx dci attr dv qp in
  if ret <? 0 then (ret, attr, qp)
  else
    let '(ret2, qp) := mlx5_calc_rq_size ctx attr qp in
    if ret2 <? 0 then (ret2, attr, qp)
    else (s32 (ret + ret2), attr,
          set_rq (set_wq_offset 0 (rq qp)) (set_sq (set_wq_offset ret2 (sq qp)) qp)).

(** * A stand-alone receive queue *)

Record ibv_wq_init_attr : Type := mk_wia { wia_max_wr : Z; wia_max_sge : Z }.
Definition MLX5DV_WQ_INIT_ATTR_MASK_STRIDING_RQ : Z := 1.

(** [mlx5_calc_rwq_size]; [dv] is the [comp_mask] of the vendor attributes, if given *)
Definition mlx5_calc_rwq_size (ctx : ctx_limits) (sig : bool) (attr : ibv_wq_init_attr) (dv : option Z)
    (wq : mlx5_wq) : Z * mlx5_wq :=
  if wia_max_wr attr =? 0 then (- EINVAL, wq)
  else if match dv with Some mask => negb (Z.land mask (Z.lnot MLX5DV_WQ_INIT_ATTR_MASK_STRIDING_RQ) =? 0) | None => false end
  then (- EINVAL, wq)
  else
    let is_mprq := match dv with Some mask => has_flag mask MLX5DV_WQ_INIT_ATTR_MASK_STRIDING_RQ | None => false end in
    let next := if is_mprq then 16 else 0 in
    let sigsz := if sig then sizeof_rwqe_sig else 0 in
    let wqe_size := sizeof_data_seg * Z.max (wia_max_sge attr) 1 + next + sigsz in
    if (wqe_size <=? 0) || (u64 (max_rq_desc_sz ctx) <? wqe_size) then (- EINVAL, wq)
    else
      let wqe_size := roundup_pow_of_two wqe_size in
      let wq_size := Z.max (s32 (u64 (roundup_pow_of_two (wia_max_wr attr) * wqe_size))) MLX5_SEND_WQE_BB in
      (wq_size, rq_fields wq_size wqe_size (sigsz + next) wq).

(** * Placement *)

(** The arrays and the buffers [mlx5_alloc_qp_buf] asks for: [None] is a failure, the
    boolean tells that the buffer is the application's own *)
Record qp_mallocs : Type := mk_mallocs {
  a_wrid : option (list Z); a_wr_data : option (list Z); a_wqe_head : option (list Z); a_rq_wrid : option (list Z);
  a_buf : option (Z * bool); a_sq_buf : option (Z * bool) }.

(** Raw-packet and underlay QPs keep the send queue in a buffer of its own. *)
Definition separate_sq (attr : ibv_qp_init_attr_ex) (qp : mlx5_qp) : bool :=
  (ia_qp_type attr =? IBV_QPT_RAW_PACKET) || has_flag (qp_flags qp) MLX5_QP_FLAGS_USE_UNDERLAY.

Definition zero_buf (b : Z * bool) (size : Z) (m : mem) : mem := if b.2 then m else memset b.1 0 size m.

(** [mlx5_alloc_qp_buf]: [None] is an error return, with everything freed; the result
    is the QP with its arrays, the two buffers and the memory.  [page] is the page size. *)
Definition mlx5_alloc_qp_buf (al : qp_mallocs) (page : Z) (attr : ibv_qp_init_attr_ex) (buf_size sq_buf_size : Z)
    (qp : mlx5_qp) (m : mem) : option (mlx5_qp * Z * Z * mem) :=
  sqw ← (if wqe_cnt (sq qp) =? 0 then Some (sq qp)
         else w ← a_wrid al; d ← a_wr_data al; h ← a_wqe_head al;
              Some (set_wr_data d (set_wqe_head h (set_wrid w (sq qp)))));
  rqw ← (if wqe_cnt (rq qp) =? 0 then Some (rq qp) else w ← a_rq_wrid al; Some (set_wrid w (rq qp)));
  b ← a_buf al;
  let qp := set_rq rqw (set_sq sqw qp) in
  let m := zero_buf b buf_size m in
  if separate_sq attr qp then
    sb ← a_sq_buf al;
    Some (qp, b.1, sb.1, zero_buf sb (align sq_buf_size page) m)
  else Some (qp, b.1, 0, m).

(** The outcomes of creating the queues: an [errno], an allocation that failed (its
    [errno] is the allocator's), or the attributes as the caller gets them back with
    the QP and the memory. *)
Inductive create_result : Type :=
| CreateErr (e : Z)
| CreateNoMem
| CreateOk (attr : ibv_qp_init_attr_ex) (qp : mlx5_qp) (m : mem).

(** The part of [create_qp] that gives a QP its queues: sizes, buffers, the ends of the
    send ring and the indices *)
Definition create_qp_queues (ctx : ctx_limits) (al : qp_mallocs) (page : Z) (dci : bool) (attr : ibv_qp_init_attr_ex)
    (dv : option mlx5dv_qp_init_attr) (qp : mlx5_qp) (m : mem) : create_result :=
  let '(ret, attr, qp) := mlx5_calc_wq_size ctx dci attr dv qp in
  if ret <? 0 then CreateErr (- ret)
  else
    let own := separate_sq attr qp in
    let buf_size := if own then wq_offset (sq qp) else ret in
    let sq_buf_size := if own then ret - buf_size else 0 in
    let qp := if own then set_sq (set_wq_offset 0 (sq qp)) qp else qp in
    match mlx5_alloc_qp_buf al page attr buf_size sq_buf_size qp m with
    | None => CreateNoMem
    | Some (qp, buf, sq_buf, m) =>
      let start := if own then sq_buf else buf + wq_offset (sq qp) in
      let qp := set_bufs buf start qp in
      let qp := set_sq (set_qend (start + u32 (Z.shiftl (wqe_cnt (sq qp)) (wqe_shift (sq qp)))) (sq qp)) qp in
      CreateOk attr (mlx5_init_qp_indices qp) m
    end.
