(* ===== verification/SizesProps.v ===== *)
(** Properties of the sizes: creation grants what was asked for and leaves queues the
    send and receive paths can run on; every request the send path accepts fits the
    element size the ring was cut for. *)

From stdpp Require Import base numbers list.
From S2P Require Import Prelude Mem Types Wqe PostSend SendSafe SendQueue RecvProps Sizes.

(** * Closed forms *)

(** Limits a device reports; sizes are far below the range of [int]. *)
Record lims_ok (ctx : ctx_limits) : Prop := {
  lo_sq : 0 < max_sq_desc_sz ctx < 2 ^ 30;
  lo_bb : 0 <= max_send_wqebb ctx < 2 ^ 31;
  lo_rq : 0 <= max_rq_desc_sz ctx /\ 0 <= max_recv_wr ctx /\ 2 * max_recv_wr ctx * max_rq_desc_sz ctx < 2 ^ 30
}.

(** Requests whose sizes do not wrap around *)
Record attr_ok (attr : ibv_qp_init_attr_ex) : Prop := {
  ao_wr : 0 <= max_send_wr (ia_cap attr) < 2 ^ 32;
  ao_rwr : 0 <= cap_max_recv_wr (ia_cap attr) < 2 ^ 31;
  ao_sge : 0 <= max_send_sge (ia_cap attr) < 2 ^ 26;
  ao_rsge : 0 <= max_recv_sge (ia_cap attr) < 2 ^ 26;
  ao_inline : 0 <= cap_max_inline_data (ia_cap attr) < 2 ^ 30;
  ao_tso : 0 <= ia_max_tso_header attr < 2 ^ 16
}.

Definition up16 (n : Z) : Z := 16 * ((n + 15) / 16).
Definition up64 (n : Z) : Z := 64 * ((n + 63) / 64).

Lemma overhead_cases qp dci ty ops mops :
  _sq_overhead qp dci ty ops mops = - EINVAL \/
  (16 <= _sq_overhead qp dci ty ops mops <= 288 /\ _sq_overhead qp dci ty ops mops mod 16 = 0).
Proof. unfold _sq_overhead. destruct_ifs; (by left) || (right; vm_compute; split; [split|]; congruence). Qed.

Lemma sq_overhead_cases qp dci attr dv :
  sq_overhead qp dci attr dv = - EINVAL \/
  (16 <= sq_overhead qp dci attr dv <= 288 /\ sq_overhead qp dci attr dv mod 16 = 0).
Proof. unfold sq_overhead. destruct (attr_ops attr); [apply overhead_cases|by left]. Qed.

(** The bytes an element may need: the segments of the operation with the TSO header and
    the scatter entries, or the segments with the inline data *)
Definition tso_room (attr : ibv_qp_init_attr_ex) : Z :=
  if has_flag (ia_comp_mask attr) IBV_QP_INIT_ATTR_MAX_TSO_HEADER then up16 (ia_max_tso_header attr) else 0.
Definition wqe_need (ov : Z) (attr : ibv_qp_init_attr_ex) : Z :=
  Z.max (ov + tso_room attr + 16 * max_send_sge (ia_cap attr))
    (if cap_max_inline_data (ia_cap attr) =? 0 then 0 else ov + up16 (4 + cap_max_inline_data (ia_cap attr))).

Lemma wqe_need_range ov attr : 16 <= ov <= 288 -> attr_ok attr -> 16 <= wqe_need ov attr < 2 ^ 31 - 2 ^ 20.
Proof.
  intros Ho [_ _ Hs _ Hi Ht]. unfold wqe_need, tso_room, up16. destruct_ifs; div_lia.
Qed.

(** [mlx5_calc_send_wqe] in closed form *)
Definition tso_qp (attr : ibv_qp_init_attr_ex) (qp : mlx5_qp) : mlx5_qp :=
  if has_flag (ia_comp_mask attr) IBV_QP_INIT_ATTR_MAX_TSO_HEADER then set_max_tso_header (ia_max_tso_header attr) qp
  else qp.

Lemma calc_send_wqe_eq ctx dci attr dv qp :
  lims_ok ctx -> attr_ok attr ->
  mlx5_calc_send_wqe ctx dci attr dv qp =
  let ov := sq_overhead qp dci attr dv in
  if ov <? 0 then (- EINVAL, qp)
  else if wqe_need ov attr <=? max_sq_desc_sz ctx then (up64 (wqe_need ov attr), tso_qp attr qp)
  else (- EINVAL, tso_qp attr qp).
Proof.
  intros [Hd _ _] Ha. pose proof (sq_overhead_cases qp dci attr dv) as Hc. unfold mlx5_calc_send_wqe.
  set (ov := sq_overhead _ _ _ _) in *. destruct Hc as [->|[Ho Hm]]; [done|].
  pose proof (wqe_need_range ov attr Ho Ha) as Hn. destruct Ha as [_ _ Hs _ Hi Ht].
  cbv zeta. rewrite (proj2 (Z.ltb_ge ov 0)) by lia. fold (tso_qp attr qp).
  assert (Esz : (if has_flag (ia_comp_mask attr) IBV_QP_INIT_ATTR_MAX_TSO_HEADER
                 then s32 (ov + align (ia_max_tso_header attr) 16) else ov) = ov + tso_room attr).
  { unfold tso_room, up16. destruct (has_flag _ _); [|lia]. rewrite align_16 by lia. apply s32_small. div_lia. }
  rewrite Esz. clear Esz.
  assert (Ein : (if cap_max_inline_data (ia_cap attr) =? 0 then 0
                 else s32 (ov + align (sizeof_inline_seg + cap_max_inline_data (ia_cap attr)) 16)) =
                if cap_max_inline_data (ia_cap attr) =? 0 then 0 else ov + up16 (4 + cap_max_inline_data (ia_cap attr))).
  { destruct (_ =? 0); [done|]. unfold sizeof_inline_seg, up16. rewrite align_16 by lia. apply s32_small. div_lia. }
  rewrite Ein. clear Ein. unfold_consts.
  set (sz := ov + tso_room attr). assert (Hsz : 16 <= sz < 2 ^ 17).
  { unfold sz, tso_room, up16. destruct (has_flag _ _); div_lia. }
  assert (Hz : s32 (sz + max_send_sge (ia_cap attr) * 16) = sz + 16 * max_send_sge (ia_cap attr)) by (rewrite s32_small; lia).
  rewrite Hz. change (Z.max (sz + _) _) with (wqe_need ov attr).
  assert (Hg : (u32 (s32 (u64 (max_sq_desc_sz ctx - sz) / 16)) <? max_send_sge (ia_cap attr)) = true ->
               max_sq_desc_sz ctx < wqe_need ov attr).
  { intros Hlt. apply Z.ltb_lt in Hlt. assert (sz + 16 * max_send_sge (ia_cap attr) <= wqe_need ov attr) by (unfold wqe_need, sz; lia).
    destruct (Z.le_gt_cases sz (max_sq_desc_sz ctx)); [|lia].
    rewrite u64_small, s32_small, u32_small in Hlt; div_lia. }
  destruct (u32 _ <? _) eqn:E.
  { specialize (Hg eq_refl). by rewrite (proj2 (Z.leb_gt _ _)). }
  destruct (Z.ltb_spec (max_sq_desc_sz ctx) (wqe_need ov attr)) as [Hlt|Hle].
  { by rewrite (proj2 (Z.leb_gt _ _)). }
  rewrite (proj2 (Z.leb_le _ _)) by done. unfold up64. rewrite align_64 by lia. rewrite s32_small; [done|div_lia].
Qed.

(** * The send queue *)

(** What the sizes promise to the send path: elements of at most [W] bytes, a multiple
    of a block, hold the segments of the operations [ops] with the TSO header and the
    scatter entries, or with the inline data; [max_post] of them fit the ring. *)
Record sq_sized (dci : bool) (ops mops W : Z) (qp : mlx5_qp) : Prop := {
  ss_blocks : 64 <= W < 2 ^ 31 /\ W mod 64 = 0;
  ss_over : 16 <= _sq_overhead qp dci (qp_type qp) ops mops <= 288 /\ _sq_overhead qp dci (qp_type qp) ops mops mod 16 = 0;
  ss_scatter : _sq_overhead qp dci (qp_type qp) ops mops + up16 (max_tso_header qp) + 16 * max_gs (sq qp) <= W;
  ss_inline : max_inline_data qp = W - _sq_overhead qp dci (qp_type qp) ops mops - 4;
  ss_gs : 0 <= max_gs (sq qp) < 2 ^ 26;
  ss_tso : 0 <= max_tso_header qp < 2 ^ 16;
  ss_cnt : exists k, 0 <= k <= 24 /\ wqe_cnt (sq qp) = 2 ^ k;
  ss_post : 1 <= max_post (sq qp) /\ max_post (sq qp) * W <= 64 * wqe_cnt (sq qp)
}.

Lemma log2_up_64 n : 64 <= n <= 2 ^ 31 -> 6 <= Z.log2_up n <= 31.
Proof.
  intros ?. split; [change 6 with (Z.log2_up 64); apply Z.log2_up_le_mono; lia|].
  apply Z.log2_up_le_pow2; lia.
Qed.

(** The size of the ring: a power of two; one that does not fit an [int] is refused. *)
Lemma ring_size_eq n lim :
  64 <= n < 2 ^ 31 -> 0 <= lim < 2 ^ 31 ->
  let wq := s32 (roundup_pow_of_two n) in let cnt := u32 (Z.quot wq 64) in
  let k := Z.log2_up n in
  if u32 lim <? cnt then lim < 2 ^ (k - 6) \/ k = 31
  else wq = 2 ^ k /\ cnt = 2 ^ (k - 6) /\ 6 <= k <= 30 /\ 64 * cnt = wq /\ cnt <= lim.
Proof.
  intros Hn Hl. pose proof (log2_up_64 n ltac:(lia)) as Hk. rewrite roundup_log2_up, (u32_small lim) by lia.
  set (k := Z.log2_up n) in *. assert (E : 2 ^ k = 64 * 2 ^ (k - 6)).
  { replace k with (6 + (k - 6)) at 1 by lia. by rewrite Z.pow_add_r by lia. }
  assert (Hp : 0 < 2 ^ (k - 6)) by (apply Z.pow_pos_nonneg; lia). cbv zeta.
  destruct (decide (k = 31)) as [->|].
  { change (s32 (2 ^ 31)) with (- 2 ^ 31). change (u32 (- 2 ^ 31 ÷ 64)) with (2 ^ 32 - 2 ^ 25).
    rewrite (proj2 (Z.ltb_lt _ _)) by lia. by right. }
  destruct (size_small k ltac:(lia)) as [-> Hle]. rewrite E, (Z.mul_comm 64), Z.quot_mul by lia.
  rewrite u32_small by lia. destruct (Z.ltb_spec lim (2 ^ (k - 6))); [by left|]. split_and!; lia.
Qed.

(** [max_post] elements: at least as many as asked for, and they fit. *)
Lemma max_post_fits wr W k :
  1 <= wr -> 64 <= W -> wr * W <= 2 ^ k -> 2 ^ k <= 2 ^ 30 ->
  let post := u32 (Z.quot (2 ^ k) W) in wr <= post /\ post * W <= 2 ^ k.
Proof.
  intros Hw HW Hle Hk. cbv zeta. rewrite Z.quot_div_nonneg by lia.
  assert (wr <= 2 ^ k / W) by (apply Z.div_le_lower_bound; lia).
  pose proof (Z.mul_div_le (2 ^ k) W ltac:(lia)). assert (2 ^ k / W <= 2 ^ k) by (apply Z.div_le_upper_bound; nia).
  rewrite u32_small by lia. split; [done|nia].
Qed.

Definition attr_mops (dv : option mlx5dv_qp_init_attr) : Z :=
  match dv with
  | Some a => if has_flag (dv_comp_mask a) MLX5DV_QP_INIT_ATTR_MASK_SEND_OPS_FLAGS then dv_send_ops_flags a else 0
  | None => 0
  end.

(** What [mlx5_calc_sq_size] grants: the queue sized for the request, nothing else of
    the QP touched *)
Record sq_granted (dci : bool) (attr : ibv_qp_init_attr_ex) (dv : option mlx5dv_qp_init_attr) (ret : Z)
    (attr' : ibv_qp_init_attr_ex) (qp qp' : mlx5_qp) (W : Z) : Prop := {
  sg_attr : attr' = set_inline_cap (u32 (max_inline_data qp')) attr;
  sg_ret : ret = 64 * wqe_cnt (sq qp') /\ ret <= 2 ^ 30;
  sg_wr : max_send_wr (ia_cap attr) <= max_post (sq qp');
  sg_post : max_post (sq qp') * W <= ret;
  sg_cnt : exists k, 0 <= k <= 24 /\ wqe_cnt (sq qp') = 2 ^ k;
  sg_W : 64 <= W < 2 ^ 31 /\ W mod 64 = 0;
  sg_need : wqe_need (sq_overhead qp dci attr dv) attr <= W;
  sg_inline : max_inline_data qp' = W - sq_overhead qp dci attr dv - 4 /\
    (cap_max_inline_data (ia_cap attr) <= max_inline_data qp' \/
     (cap_max_inline_data (ia_cap attr) = 0 /\ W = sq_overhead qp dci attr dv));
  sg_over : 16 <= sq_overhead qp dci attr dv <= 288 /\ sq_overhead qp dci attr dv mod 16 = 0;
  sg_qp : qp' = set_sq (set_geometry 6 (max_send_sge (ia_cap attr)) (max_post (sq qp'))
                          (set_wqe_cnt (wqe_cnt (sq qp')) (sq qp))) (set_max_inline_data (max_inline_data qp') (tso_qp attr qp))
}.

Lemma calc_sq_size_granted ctx dci attr dv qp ret attr' qp' :
  lims_ok ctx -> attr_ok attr -> max_send_wr (ia_cap attr) <> 0 ->
  mlx5_calc_sq_size ctx dci attr dv qp = (ret, attr', qp') -> 0 <= ret ->
  exists W, sq_granted dci attr dv ret attr' qp qp' W.
Proof.
  intros Hl Ha Hwr. unfold mlx5_calc_sq_size. rewrite (proj2 (Z.eqb_neq _ _)) by done.
  rewrite calc_send_wqe_eq by done. cbv zeta.
  assert (Eo : sq_overhead (tso_qp attr qp) dci attr dv = sq_overhead qp dci attr dv) by (unfold tso_qp; by destruct (has_flag _ _)).
  pose proof (sq_overhead_cases qp dci attr dv) as Hc. set (ov := sq_overhead qp dci attr dv) in *.
  destruct (Z.ltb_spec ov 0). { intros [= <- _ _]. done. }
  destruct Hc as [->|[Ho Hm]]; [done|]. pose proof (wqe_need_range ov attr Ho Ha) as Hn.
  pose proof (lo_sq _ Hl). destruct (Z.leb_spec (wqe_need ov attr) (max_sq_desc_sz ctx)); [|intros [= <- _ _]; done].
  set (W := up64 (wqe_need ov attr)). assert (HW : 64 <= W < 2 ^ 31 /\ W mod 64 = 0 /\ wqe_need ov attr <= W)
    by (unfold W, up64; split_and!; div_lia).
  rewrite (proj2 (Z.ltb_ge W 0)) by lia. destruct (Z.ltb_spec (max_sq_desc_sz ctx) W); [intros [= <- _ _]; done|].
  rewrite Eo. unfold_consts. rewrite (s32_small (W - ov - 4)) by lia.
  assert (Hin : cap_max_inline_data (ia_cap attr) <= W - ov - 4 \/ (cap_max_inline_data (ia_cap attr) = 0 /\ W = ov)).
  { pose proof (ao_inline _ Ha). pose proof (ao_sge _ Ha). unfold wqe_need, up16, tso_room in *. pose proof (ao_tso _ Ha).
    destruct (Z.eqb_spec (cap_max_inline_data (ia_cap attr)) 0); [|left; div_lia].
    destruct (decide (W = ov)); [by right|left]. destruct (has_flag _ _); unfold up16 in *; div_lia. }
  destruct (Z.ltb_spec (2147483647 / max_sq_desc_sz ctx) (max_send_wr (ia_cap attr))); [intros [= <- _ _]; done|].
  pose proof (ao_wr _ Ha). set (wr := max_send_wr (ia_cap attr)) in *.
  assert (Hprod : 64 <= wr * W < 2 ^ 31).
  { assert (wr * max_sq_desc_sz ctx <= 2147483647); [|nia].
    pose proof (Z.mul_div_le 2147483647 (max_sq_desc_sz ctx) ltac:(lia)). nia. }
  rewrite (u32_small (wr * W)) by lia.
  pose proof (ring_size_eq (wr * W) (max_send_wqebb ctx) Hprod (lo_bb _ Hl)) as Hring. cbv zeta in Hring.
  destruct (u32 (max_send_wqebb ctx) <? _); [intros [= <- _ _]; done|].
  destruct Hring as (-> & -> & Hk & E64 & _). set (k := Z.log2_up (wr * W)) in *.
  pose proof (size_small k ltac:(lia)) as [_ Hpk].
  destruct (max_post_fits wr W k) as [Hp1 Hp2]; [lia|lia|apply Z.log2_up_spec; lia|lia|].
  intros [= <- <- <-] _. rewrite (s32_small (max_send_sge _)) by (pose proof (ao_sge _ Ha); simpl; lia).
  exists W. split; simpl; try done; try lia; [by exists (k - 6); split; [lia|]|tauto|].
  unfold tso_qp. by destruct (has_flag _ _).
Qed.

Lemma granted_sized dci attr dv ops ret attr' qp qp' W :
  attr_ok attr -> attr_ops attr = Some ops -> ia_qp_type attr = qp_type qp -> max_tso_header qp = 0 ->
  max_send_wr (ia_cap attr) <> 0 -> sq_granted dci attr dv ret attr' qp qp' W -> sq_sized dci ops (attr_mops dv) W qp'.
Proof.
  intros Ha Eops Ety Htso Hwr [_ [Er Hr] Hw Hp Hc HW Hn [Hi _] Ho E].
  assert (Eov : _sq_overhead qp' dci (qp_type qp') ops (attr_mops dv) = sq_overhead qp dci attr dv).
  { unfold sq_overhead. rewrite Eops, Ety, E. unfold tso_qp. by destruct (has_flag _ _). }
  assert (Et : up16 (max_tso_header qp') = tso_room attr /\ 0 <= max_tso_header qp' < 2 ^ 16).
  { pose proof (ao_tso _ Ha). rewrite E. unfold tso_room, tso_qp. destruct (has_flag _ _); simpl; [done|]. by rewrite Htso. }
  assert (Eg : max_gs (sq qp') = max_send_sge (ia_cap attr)) by (by rewrite E).
  destruct Et as [Et1 Et2]. pose proof (ao_sge _ Ha). pose proof (ao_wr _ Ha).
  split; rewrite ?Eov, ?Et1, ?Eg; try done; [unfold wqe_need in Hn; lia|lia].
Qed.

(** * The receive queue *)

Lemma log2_up_pow2_ge n k : 1 <= n -> n <= 2 ^ k -> 0 <= k -> Z.log2_up n <= k.
Proof. intros. apply Z.log2_up_le_pow2; lia. Qed.

Lemma roundup_double n : 1 <= n -> n <= 2 ^ Z.log2_up n < 2 * n.
Proof.
  intros Hn. destruct (decide (n = 1)) as [->|]; [done|]. pose proof (Z.log2_up_spec n ltac:(lia)) as [Hlo Hhi].
  split; [done|]. pose proof (Z.log2_up_pos n ltac:(lia)). replace (Z.log2_up n) with (Z.succ (Z.pred (Z.log2_up n))) by lia.
  rewrite Z.pow_succ_r by lia. lia.
Qed.

(** Elements of [2^j] bytes, at least as many as asked for, the ring at least a block *)
Record rq_granted (wr sge overhead ret : Z) (wq wq' : mlx5_wq) : Prop := {
  rg_cnt : exists k, 0 <= k <= 30 /\ wqe_cnt wq' = 2 ^ k;
  rg_shift : 4 <= wqe_shift wq' <= 30;
  rg_ret : ret = wqe_cnt wq' * 2 ^ wqe_shift wq' /\ 64 <= ret < 2 ^ 30;
  rg_post : max_post wq' = wqe_cnt wq' /\ wr <= wqe_cnt wq';
  rg_gs : sge <= max_gs wq' /\ 0 <= max_gs wq' /\ overhead + 16 * max_gs wq' <= 2 ^ wqe_shift wq';
  rg_wq : wq' = set_geometry (wqe_shift wq') (max_gs wq') (max_post wq') (set_wqe_cnt (wqe_cnt wq') wq)
}.

Lemma rq_fields_granted wr sge overhead size wq :
  1 <= wr -> 1 <= sge -> (overhead = 0 \/ overhead = 16 \/ overhead = 32) -> size = 16 * sge + overhead ->
  2 ^ Z.log2_up wr * 2 ^ Z.log2_up size < 2 ^ 30 -> size <= 2 ^ 30 ->
  let ret := Z.max (2 ^ Z.log2_up wr * 2 ^ Z.log2_up size) 64 in
  rq_granted wr sge overhead ret wq (rq_fields ret (2 ^ Z.log2_up size) overhead wq).
Proof.
  intros Hwr Hs Ho Es Hlt Hsz. cbv zeta. set (a := Z.log2_up wr) in *. set (j := Z.log2_up size) in *.
  assert (Ha : 0 <= a) by apply Z.log2_up_nonneg. pose proof (roundup_double wr Hwr) as Hra. fold a in Hra.
  pose proof (roundup_double size ltac:(lia)) as Hrj. fold j in Hrj.
  assert (Hj : 4 <= j <= 30).
  { split; [change 4 with (Z.log2_up 16); apply Z.log2_up_le_mono; lia|apply Z.log2_up_le_pow2; lia]. }
  set (k := Z.max a (6 - j)).
  assert (Ek : Z.max (2 ^ a * 2 ^ j) 64 = 2 ^ k * 2 ^ j).
  { rewrite <- !Z.pow_add_r by lia. replace (k + j) with (Z.max (a + j) 6) by lia. change 64 with (2 ^ 6).
    destruct (Z.max_spec (a + j) 6) as [[? ->]|[? ->]]; [apply Z.max_r|apply Z.max_l]; apply Z.pow_le_mono_r; lia. }
  assert (Hak : 2 ^ a <= 2 ^ k) by (apply Z.pow_le_mono_r; lia).
  pose proof (size_small j ltac:(lia)) as [_ Hpj].
  assert (Hk : 0 <= k <= 30).
  { split; [lia|]. destruct (Z.max_spec a (6 - j)) as [[? E]|[? E]]; unfold k; rewrite E; [lia|].
    apply Z.lt_succ_r, (Z.pow_lt_mono_r_iff 2); [lia..|]. rewrite Z.pow_succ_r by lia. nia. }
  pose proof (size_small k Hk) as [_ Hpk]. rewrite Ek. unfold rq_fields. rewrite Z.quot_mul by lia.
  rewrite (u32_small (2 ^ j - 1)), (u32_small (2 ^ k - 1)), (u32_small (2 ^ k)), (ilog_ones j) by lia.
  assert (Ep : u32 (Z.shiftl 1 (ilog (2 ^ k - 1))) = 2 ^ k).
  { destruct (decide (k = 0)) as [->|]; [done|]. rewrite ilog_ones, Z.shiftl_mul_pow2, Z.mul_1_l by lia. apply u32_small. lia. }
  assert (Eg : s32 (u64 (2 ^ j - overhead) / sizeof_data_seg) = (2 ^ j - overhead) / 16).
  { unfold sizeof_data_seg. rewrite u64_small by lia. apply s32_small. div_lia. }
  rewrite Ep, Eg. split; simpl; [by exists k|lia|lia|lia|div_lia|done].
Qed.

Lemma calc_rq_size_granted ctx attr qp ret qp' :
  lims_ok ctx -> attr_ok attr -> cap_max_recv_wr (ia_cap attr) <> 0 -> ia_srq attr = false ->
  mlx5_calc_rq_size ctx attr qp = (ret, qp') -> 0 <= ret ->
  rq_granted (cap_max_recv_wr (ia_cap attr)) (Z.max (max_recv_sge (ia_cap attr)) 1)
    (if wq_sig qp then 16 else 0) ret (rq qp) (rq qp') /\ qp' = set_rq (rq qp') qp.
Proof.
  intros [_ _ Hrq] Ha Hwr Hsrq. unfold mlx5_calc_rq_size, mlx5_calc_rcv_wqe. rewrite (proj2 (Z.eqb_neq _ _)) by done.
  rewrite Hsrq. pose proof (ao_rwr _ Ha). pose proof (ao_rsge _ Ha). destruct Hrq as (Hd & Hm & Hprod).
  set (wr := cap_max_recv_wr (ia_cap attr)) in *. set (sge := Z.max (max_recv_sge (ia_cap attr)) 1).
  assert (Hlim : u32 (max_recv_wr ctx) <= max_recv_wr ctx) by (unfold u32; apply Z.mod_le; lia).
  destruct (Z.ltb_spec (u32 (max_recv_wr ctx)) wr); [intros [= <- _]; done|].
  set (ovh := if wq_sig qp then 16 else 0). assert (Hovh : ovh = 0 \/ ovh = 16) by (unfold ovh; destruct (wq_sig qp); auto).
  set (size := 16 * sge + ovh).
  assert (Esz : (if wq_sig qp then u32 (u32 (sizeof_data_seg * s32 sge) + sizeof_rwqe_sig)
                 else u32 (sizeof_data_seg * s32 sge)) = size).
  { unfold sizeof_data_seg, sizeof_rwqe_sig, size, ovh. rewrite (s32_small sge) by lia.
    rewrite (u32_small (16 * sge)) by lia. destruct (wq_sig qp); [apply u32_small|]; lia. }
  cbv zeta. rewrite Esz. clear Esz. assert (Hsr : 16 <= size <= 2 ^ 30) by (unfold size; lia).
  destruct (u32 (max_rq_desc_sz ctx) <? size); [intros [= <- _]; done|].
  set (j := Z.log2_up size). assert (Hj : 0 <= j <= 30) by (split; [apply Z.log2_up_nonneg|apply Z.log2_up_le_pow2; lia]).
  destruct (size_small j Hj) as [Esj Hpj].
  assert (Ej : s32 (u32 (roundup_pow_of_two size)) = 2 ^ j) by (rewrite roundup_log2_up by lia; fold j; rewrite u32_small by lia; done).
  rewrite Ej. rewrite (proj2 (Z.ltb_ge (2 ^ j) 0)), orb_false_l by lia.
  destruct (Z.ltb_spec (max_rq_desc_sz ctx) (2 ^ j)); [intros [= <- _]; done|].
  rewrite (proj2 (Z.eqb_neq (2 ^ j) 0)) by lia. cbn [negb].
  pose proof (roundup_double wr ltac:(lia)) as Hra. rewrite (roundup_log2_up wr) by lia.
  assert (Hprod' : 0 < 2 ^ Z.log2_up wr * 2 ^ j < 2 ^ 30) by nia.
  rewrite u64_small, s32_small by lia. intros [= <- <-] _. split; [|done]. simpl.
  apply rq_fields_granted; try done; try lia; fold j; try lia; unfold size; auto. destruct Hovh; auto.
Qed.

(** * Creation *)

(** What the allocators promise: arrays of the length asked for, buffers in the user half
    of the address space, two buffers apart *)
Record mallocs_ok (al : qp_mallocs) (qp : mlx5_qp) : Prop := {
  mo_sq : forall w, a_wrid al = Some w \/ a_wr_data al = Some w \/ a_wqe_head al = Some w ->
            Z.of_nat (length w) = wqe_cnt (sq qp);
  mo_rq : forall w, a_rq_wrid al = Some w -> Z.of_nat (length w) = wqe_cnt (rq qp);
  mo_addr : forall b, a_buf al = Some b \/ a_sq_buf al = Some b -> 0 < b.1 < 2 ^ 62;
  mo_apart : forall b sb, a_buf al = Some b -> a_sq_buf al = Some sb ->
    b.1 + wqe_cnt (rq qp) * 2 ^ wqe_shift (rq qp) <= sb.1 \/ sb.1 + 64 * wqe_cnt (sq qp) <= b.1
}.

Lemma alloc_qp_buf_inv al page attr bs sbs qp m qp1 buf sqb m1 :
  wqe_cnt (sq qp) <> 0 -> wqe_cnt (rq qp) <> 0 ->
  mlx5_alloc_qp_buf al page attr bs sbs qp m = Some (qp1, buf, sqb, m1) ->
  exists w d h rw c, a_wrid al = Some w /\ a_wr_data al = Some d /\ a_wqe_head al = Some h /\ a_rq_wrid al = Some rw /\
    a_buf al = Some (buf, c) /\
    qp1 = set_rq (set_wrid rw (rq qp)) (set_sq (set_wr_data d (set_wqe_head h (set_wrid w (sq qp)))) qp) /\
    (separate_sq attr qp = true -> exists c', a_sq_buf al = Some (sqb, c')).
Proof.
  intros Hs Hr. unfold mlx5_alloc_qp_buf. rewrite !(proj2 (Z.eqb_neq _ 0)) by done.
  destruct (a_wrid al) as [w|]; [|done]. destruct (a_wr_data al) as [d|]; [|done].
  destruct (a_wqe_head al) as [h|]; [|done]. destruct (a_rq_wrid al) as [rw|]; [|done].
  destruct (a_buf al) as [[b c]|]; [|done]. simpl. change (separate_sq attr _) with (separate_sq attr qp) at 1.
  destruct (separate_sq attr qp).
  - destruct (a_sq_buf al) as [[sb c']|]; [|done]. intros [= <- <- <- _]. exists w, d, h, rw, c. split_and!; eauto.
  - intros [= <- <- <- _]. exists w, d, h, rw, c. split_and!; done.
Qed.

(** Both queues after [mlx5_calc_wq_size] *)
Lemma calc_wq_size_granted ctx dci attr dv qp ret attr' qp' :
  lims_ok ctx -> attr_ok attr -> max_send_wr (ia_cap attr) <> 0 -> cap_max_recv_wr (ia_cap attr) <> 0 ->
  ia_srq attr = false -> mlx5_calc_wq_size ctx dci attr dv qp = (ret, attr', qp') -> 0 <= ret ->
  exists W q1 r1 r2, sq_granted dci attr dv r1 attr' qp q1 W /\
    rq_granted (cap_max_recv_wr (ia_cap attr)) (Z.max (max_recv_sge (ia_cap attr)) 1) (if wq_sig qp then 16 else 0)
      r2 (set_wq_offset 0 (rq qp)) (rq qp') /\
    ret = r1 + r2 /\ qp' = set_rq (rq qp') (set_sq (set_wq_offset r2 (sq q1)) q1).
Proof.
  intros Hl Ha Hw Hr Hs. unfold mlx5_calc_wq_size.
  destruct (mlx5_calc_sq_size ctx dci attr dv qp) as [[r1 at1] q1] eqn:E1.
  destruct (Z.ltb_spec r1 0). { intros [= <- _ _]. lia. }
  destruct (calc_sq_size_granted _ _ _ _ _ _ _ _ Hl Ha Hw E1 ltac:(lia)) as [W HG].
  destruct (mlx5_calc_rq_size ctx at1 q1) as [r2 q2] eqn:E2.
  destruct (Z.ltb_spec r2 0). { intros [= <- _ _]. lia. }
  intros [= <- <- <-] _. assert (E3 : mlx5_calc_rq_size ctx attr q1 = (r2, q2)) by (by rewrite (sg_attr _ _ _ _ _ _ _ _ HG) in E2).
  destruct (calc_rq_size_granted _ _ _ _ _ Hl Ha Hr Hs E3 ltac:(lia)) as [HR Eq2].
  assert (Eq1 : rq q1 = rq qp /\ wq_sig q1 = wq_sig qp).
  { rewrite (sg_qp _ _ _ _ _ _ _ _ HG). unfold tso_qp. by destruct (has_flag _ _). }
  destruct Eq1 as [Er Es]. rewrite Er, Es in HR. rewrite s32_small.
  2: { pose proof (sg_ret _ _ _ _ _ _ _ _ HG). pose proof (rg_ret _ _ _ _ _ _ HR). lia. }
  exists W, q1, r1, r2. split_and!; [done| |done|by rewrite Eq2].
  destruct HR as [H1 H2 H3 H4 H5 H6]. split; try done. simpl. by rewrite H6 at 1.
Qed.

(** What creation promises to the send and the receive path *)
Record qp_ready (dci : bool) (ops mops : Z) (attr : ibv_qp_init_attr_ex) (qp : mlx5_qp) : Prop := {
  qr_sized : exists W, sq_sized dci ops mops W qp;
  qr_sq : sq_wf qp;
  qr_rq : rq_wf qp;
  qr_limits : forall ctx, 0 <= eth_min_inline_size ctx <= 18 -> send_limits ctx qp;
  qr_send : max_send_wr (ia_cap attr) <= max_post (sq qp) /\ max_gs (sq qp) = max_send_sge (ia_cap attr);
  qr_inline : cap_max_inline_data (ia_cap attr) <> 0 -> cap_max_inline_data (ia_cap attr) <= max_inline_data qp;
  qr_recv : cap_max_recv_wr (ia_cap attr) <= max_post (rq qp) /\ max_recv_sge (ia_cap attr) <= max_gs (rq qp);
  qr_empty : wq_head (sq qp) = 0 /\ wq_tail (sq qp) = 0 /\ cur_post (sq qp) = 0 /\ wq_head (rq qp) = 0 /\ wq_tail (rq qp) = 0;
  qr_apart : rq_base qp + wqe_cnt (rq qp) * rq_stride qp <= sq_start qp \/ qend (sq qp) <= rq_base qp
}.

(** The QP creation returns: the sizes granted, fresh arrays and indices, and a ring of
    [wqe_cnt] blocks at [start] *)
Lemma create_inv ctx al page dci attr dv qp m attr' qp' m' :
  lims_ok ctx -> attr_ok attr -> max_send_wr (ia_cap attr) <> 0 -> cap_max_recv_wr (ia_cap attr) <> 0 ->
  ia_srq attr = false -> create_qp_queues ctx al page dci attr dv qp m = CreateOk attr' qp' m' ->
  exists W q1 r1 r2 R w d h rw buf start off c,
    sq_granted dci attr dv r1 attr' qp q1 W /\
    rq_granted (cap_max_recv_wr (ia_cap attr)) (Z.max (max_recv_sge (ia_cap attr)) 1) (if wq_sig qp then 16 else 0)
      r2 (set_wq_offset 0 (rq qp)) R /\
    a_wrid al = Some w /\ a_wr_data al = Some d /\ a_wqe_head al = Some h /\ a_rq_wrid al = Some rw /\
    a_buf al = Some (buf, c) /\ (start = buf + r2 \/ exists c', a_sq_buf al = Some (start, c')) /\
    let s := sq q1 in
    qp' = set_rq (set_wq_tail 0 (set_wq_head 0 (set_wrid rw R)))
      (set_sq (mk_wq w h (wqe_cnt s) (max_post s) 0 0 0 (max_gs s) (wqe_shift s) off (start + 64 * wqe_cnt s) d)
         (set_bufs buf start q1)).
Proof.
  intros Hl Ha Hwr Hrwr Hsrq. unfold create_qp_queues.
  destruct (mlx5_calc_wq_size ctx dci attr dv qp) as [[ret at1] q] eqn:E.
  destruct (Z.ltb_spec ret 0); [done|].
  destruct (calc_wq_size_granted _ _ _ _ _ _ _ _ Hl Ha Hwr Hrwr Hsrq E ltac:(lia)) as (W & q1 & r1 & r2 & HS & HR & -> & Eq).
  assert (Hc : 0 < wqe_cnt (sq q1) <= 2 ^ 24 /\ wqe_shift (sq q1) = 6).
  { split; [|by rewrite (sg_qp _ _ _ _ _ _ _ _ HS)]. destruct (sg_cnt _ _ _ _ _ _ _ _ HS) as (k & Hk & ->).
    assert (2 ^ 0 <= 2 ^ k <= 2 ^ 24) by (split; apply Z.pow_le_mono_r; lia). lia. }
  assert (Hr : wqe_cnt (rq q) <> 0).
  { destruct (rg_cnt _ _ _ _ _ _ HR) as (k & Hk & ->). apply Z.pow_nonzero; lia. }
  assert (Er : u32 (Z.shiftl (wqe_cnt (sq q1)) (wqe_shift (sq q1))) = 64 * wqe_cnt (sq q1)).
  { destruct Hc as [? ->]. rewrite Z.shiftl_mul_pow2 by lia. change (2 ^ 6) with 64. rewrite u32_small; lia. }
  set (own := separate_sq at1 q).
  set (qa := if own then set_sq (set_wq_offset 0 (sq q)) q else q).
  assert (Ea : exists off, qa = set_rq (rq q) (set_sq (set_wq_offset off (sq q1)) q1) /\ (own = false -> off = r2)).
  { unfold qa. rewrite Eq. destruct own; eexists; by split. }
  destruct Ea as (off & Ea & Eoff). assert (Eown : separate_sq at1 qa = own) by (trans (separate_sq at1 q); [unfold qa; by destruct own|done]).
  clearbody qa own. subst qa. destruct (mlx5_alloc_qp_buf _ _ _ _ _ _ _) as [[[[qp1 buf] sqb] m1]|] eqn:Eal; [|done].
  apply alloc_qp_buf_inv in Eal as (w & d & h & rw & c & Hw & Hd & Hh & Hrw & Hb & -> & Hsb); [|simpl; lia|done].
  rewrite Eown in Hsb. intros [= <- <- <-]. cbn -[Z.shiftl u32 wqe_shift wqe_cnt].
  exists W, q1, r1, r2, (rq q), w, d, h, rw, buf, (if own then sqb else buf + off), off, c.
  split_and!; try done.
  - destruct own; [right; by apply Hsb|left; by rewrite Eoff].
  - unfold mlx5_init_qp_indices. simpl in *. by rewrite Er.
Qed.

Lemma create_ready ctx al page dci attr dv ops qp m attr' qp' m' :
  lims_ok ctx -> attr_ok attr -> max_send_wr (ia_cap attr) <> 0 -> cap_max_recv_wr (ia_cap attr) <> 0 ->
  ia_srq attr = false -> attr_ops attr = Some ops -> ia_qp_type attr = qp_type qp -> max_tso_header qp = 0 ->
  has_flag (qp_flags qp) MLX5_QP_FLAGS_USE_UNDERLAY = false ->
  create_qp_queues ctx al page dci attr dv qp m = CreateOk attr' qp' m' -> mallocs_ok al qp' ->
  qp_ready dci ops (attr_mops dv) attr qp'.
Proof.
  intros Hl Ha Hwr Hrwr Hsrq Hops Hty Htso Hund Hc Hm.
  destruct (create_inv _ _ _ _ _ _ _ _ _ _ _ Hl Ha Hwr Hrwr Hsrq Hc)
    as (W & q1 & r1 & r2 & R & w & d & h & rw & buf & start & off & c & HS & HR & Ew & Ed & Eh & Erw & Eb & Est & Eqp).
  pose proof (granted_sized _ _ _ _ _ _ _ _ _ Ha Hops Hty Htso Hwr HS) as HZ. cbv zeta in Eqp.
  assert (HZ' : sq_sized dci ops (attr_mops dv) W qp') by (subst qp'; destruct HZ; by split).
  destruct (sg_cnt _ _ _ _ _ _ _ _ HS) as (k & Hk & Ek). pose proof (sg_ret _ _ _ _ _ _ _ _ HS) as [Er1 Hr1].
  pose proof (rg_ret _ _ _ _ _ _ HR) as [Er2 Hr2]. pose proof (rg_shift _ _ _ _ _ _ HR).
  destruct (rg_cnt _ _ _ _ _ _ HR) as (kr & Hkr & Ekr). pose proof (rg_gs _ _ _ _ _ _ HR) as (Hg1 & Hg2 & Hg3).
  pose proof (rg_post _ _ _ _ _ _ HR) as [Hp1 Hp2].
  assert (Hq1 : qp_flags q1 = qp_flags qp /\ wq_sig q1 = wq_sig qp /\ max_gs (sq q1) = max_send_sge (ia_cap attr)).
  { rewrite (sg_qp _ _ _ _ _ _ _ _ HS). unfold tso_qp. by destruct (has_flag (ia_comp_mask attr) _). }
  destruct Hq1 as (Hf & Hsig & Hgs). assert (Hbase : wq_offset R = 0) by (by rewrite (rg_wq _ _ _ _ _ _ HR)).
  destruct Hm as [Hlen Hrlen Haddr Hap]. subst qp'. simpl in Hlen, Hrlen, Hap.
  pose proof (Haddr (buf, c) (or_introl Eb)) as Hbuf. simpl in Hbuf.
  assert (Hstart : 0 < start < 2 ^ 62 + 2 ^ 30 /\ (buf + r2 <= start \/ start + r1 <= buf)).
  { destruct Est as [->|[c' E]]; [lia|]. pose proof (Haddr _ (or_intror E)). specialize (Hap _ _ Eb E). simpl in *. lia. }
  pose proof (sg_wr _ _ _ _ _ _ _ _ HS). pose proof (sg_inline _ _ _ _ _ _ _ _ HS) as [Ei Hi].
  pose proof (ss_post _ _ _ _ _ HZ). pose proof (ss_scatter _ _ _ _ _ HZ). pose proof (ss_over _ _ _ _ _ HZ).
  pose proof (ss_tso _ _ _ _ _ HZ). pose proof (ss_gs _ _ _ _ _ HZ). pose proof (ss_inline _ _ _ _ _ HZ).
  assert (HWr : W <= r1) by nia.
  split; [by exists W|..]; unfold rq_base, rq_stride; simpl.
  - split; unfold ring_len; simpl; try lia; [exists k; lia|by apply Hlen; auto..].
  - split; unfold rq_scat, rq_stride; simpl; try lia; [by exists kr; lia|rewrite Hsig; unfold_consts; lia|by apply Hrlen].
  - intros c0 Hc0. split; unfold ring_len; simpl; try lia; [unfold up16 in *; div_lia|by rewrite Hf].
  - done.
  - lia.
  - lia.
  - done.
  - rewrite Hbase. lia.
Qed.

(** C24.  Creation delivers what it was asked for.  When the sizes and allocations of
    [create_qp] succeed for a request with sends and receives, the QP has room for at
    least the requested requests, scatter entries and inline bytes; its rings are apart
    and its state satisfies the invariants the send and receive paths start from; and
    the send ring is cut for elements that hold every operation the QP was created for. *)
Theorem create_qp_queues_ready ctx al page dci attr dv ops qp m attr' qp' m' :
  lims_ok ctx -> attr_ok attr -> max_send_wr (ia_cap attr) <> 0 -> cap_max_recv_wr (ia_cap attr) <> 0 ->
  ia_srq attr = false -> attr_ops attr = Some ops -> ia_qp_type attr = qp_type qp -> max_tso_header qp = 0 ->
  has_flag (qp_flags qp) MLX5_QP_FLAGS_USE_UNDERLAY = false ->
  create_qp_queues ctx al page dci attr dv qp m = CreateOk attr' qp' m' -> mallocs_ok al qp' ->
  qp_ready dci ops (attr_mops dv) attr qp'.
Proof. apply create_ready. Qed.

(** ** A concrete creation *)

Definition demo_lims : ctx_limits := mk_lims 1024 512 1024 256.
Definition demo_attr : ibv_qp_init_attr_ex := mk_ia IBV_QPT_RC 0 0 0 false (mk_cap 2 2 2 1 40).
Definition demo_zeros (n : nat) : option (list Z) := Some (replicate n 0).
Definition demo_mallocs : qp_mallocs :=
  mk_mallocs (demo_zeros 8) (demo_zeros 8) (demo_zeros 8) (demo_zeros 4) (Some (4096, false)) None.
Definition demo_created : mlx5_qp :=
  match create_qp_queues demo_lims demo_mallocs 4096 false demo_attr None (demo_qp IBV_QPT_RC 0) (fun _ => 7) with
  | CreateOk _ qp _ => qp
  | _ => demo_qp IBV_QPT_RC 0
  end.
Definition demo_ops : Z := default 0 (default_ops IBV_QPT_RC).

Lemma demo_lims_ok : lims_ok demo_lims.
Proof. split; simpl; lia. Qed.

Lemma demo_attr_ok : attr_ok demo_attr.
Proof. split; simpl; lia. Qed.

Lemma demo_mallocs_ok : mallocs_ok demo_mallocs demo_created.
Proof.
  split; unfold demo_mallocs, demo_zeros; cbn [a_wrid a_wr_data a_wqe_head a_rq_wrid a_buf a_sq_buf].
  - intros w Hw. destruct_or! Hw; injection Hw as <-; by vm_compute.
  - intros w [= <-]. by vm_compute.
  - intros b [[= <-]|?]; [simpl; lia|done].
  - done.
Qed.

Lemma demo_creates : exists attr q m,
  create_qp_queues demo_lims demo_mallocs 4096 false demo_attr None (demo_qp IBV_QPT_RC 0) (fun _ => 7) = CreateOk attr q m /\
  demo_created = q.
Proof.
  unfold demo_created. destruct (create_qp_queues _ _ _ _ _ _ _ _) as [| |at1 q1 m1] eqn:E; [done..|]. by exists at1, q1, m1.
Qed.

Lemma demo_ready : qp_ready false demo_ops 0 demo_attr demo_created.
Proof.
  destruct demo_creates as (at1 & q1 & m1 & E & Eq). rewrite Eq.
  exact (create_ready demo_lims demo_mallocs 4096 false demo_attr None demo_ops (demo_qp IBV_QPT_RC 0) (fun _ => 7)
    at1 q1 m1 demo_lims_ok demo_attr_ok ltac:(by vm_compute) ltac:(by vm_compute) eq_refl eq_refl eq_refl eq_refl eq_refl E
    ltac:(rewrite <- Eq; apply demo_mallocs_ok)).
Qed.

Lemma create_qp_queues_ready_witness :
  2 <= max_post (sq demo_created) /\ 40 <= max_inline_data demo_created /\ sq_wf demo_created /\ rq_wf demo_created.
Proof.
  destruct demo_creates as (at1 & q1 & m1 & E & Eq). rewrite Eq.
  destruct (create_qp_queues_ready demo_lims demo_mallocs 4096 false demo_attr None demo_ops (demo_qp IBV_QPT_RC 0) (fun _ => 7)
    at1 q1 m1 demo_lims_ok demo_attr_ok ltac:(by vm_compute) ltac:(by vm_compute) eq_refl eq_refl eq_refl eq_refl eq_refl E
    ltac:(rewrite <- Eq; apply demo_mallocs_ok)) as [_ Hsq Hrq _ [Hs _] Hi _ _ _].
  split; [exact Hs|]. split; [by apply Hi|]. by split.
Defined.
