(* ===== verification/SizesFit.v ===== *)
(** Every accepted request fits: the element [mlx5_post_send] builds is never larger than
    the size the send ring was cut for at creation.  [Sized] bounds what a computation
    adds to the size of an element, composed like the computations themselves. *)

From stdpp Require Import base numbers list.
From S2P Require Import Prelude Mem Types Wqe PostSend SendSafe SendQueue RecvProps Builder Sizes SizesProps.

(** * Growth *)

(** A successful [c] adds at most [n] units. *)
Definition Sized (P : wqe_st -> Prop) (n : Z) (c : W) : Prop :=
  forall s, P s -> (c s).1 = Ok -> ws_size (c s).2 <= ws_size s + n.

Lemma Sized_seq P n1 n2 c1 c2 : Sized P n1 c1 -> Sized anyst n2 c2 -> Sized P (n1 + n2) (c1 ;; c2).
Proof.
  intros H1 H2 s Hs. unfold w_seq. specialize (H1 s Hs). destruct (c1 s) as [[] s1]; simpl in *; [|done..].
  intros Hok. specialize (H1 eq_refl). specialize (H2 s1 I Hok). lia.
Qed.

Lemma Sized_seq_safe qp P Q n1 n2 c1 c2 :
  Sized P n1 c1 -> Safe qp P c1 Q -> Sized Q n2 c2 -> Sized P (n1 + n2) (c1 ;; c2).
Proof.
  intros H1 HS H2 s Hs. unfold w_seq. specialize (H1 s Hs). destruct (HS s Hs) as [_ HQ].
  destruct (c1 s) as [[] s1]; simpl in *; [|done..].
  intros Hok. specialize (H1 eq_refl). specialize (H2 s1 (HQ eq_refl) Hok). lia.
Qed.

Lemma Sized_le P n n' c : n <= n' -> Sized P n c -> Sized P n' c.
Proof. intros Hle H s Hs Ho. specialize (H s Hs Ho). lia. Qed.

Lemma Sized_do P f : (forall s, ws_size (f s) = ws_size s) -> Sized P 0 (w_do f).
Proof. intros E s _ _. simpl. rewrite E. lia. Qed.

Lemma Sized_advance P n : Sized P (n / 16) (w_advance n).
Proof. intros s _ _. simpl. lia. Qed.

Lemma Sized_ok P : Sized P 0 w_ok.
Proof. intros s _ _. simpl. lia. Qed.

Lemma Sized_fail P c : (forall s, (c s).1 <> Ok) -> Sized P 0 c.
Proof. intros H s _ Ho. by specialize (H s). Qed.

Create HintDb sized discriminated.
#[export] Hint Resolve Sized_seq Sized_advance Sized_ok : sized.
#[export] Hint Extern 2 (Sized _ _ (w_do _)) => apply Sized_do; intros ?; by destruct_ifs : sized.
#[export] Hint Extern 2 (Sized _ _ (w_wrap _)) => apply Sized_do; intros ?; by destruct_ifs : sized.
#[export] Hint Extern 2 (Sized _ _ (w_put _)) => by apply Sized_do : sized.
#[export] Hint Extern 2 (Sized _ _ (w_imm _ _)) => by apply Sized_do : sized.
#[export] Hint Extern 1 (Sized _ _ (w_err _)) => by apply Sized_fail : sized.
#[export] Hint Extern 1 (Sized _ _ w_fault) => by apply Sized_fail : sized.

(** Bound a straight-line computation: the sum of its parts, then arithmetic. *)
Ltac sized := eapply Sized_le; [|solve [eauto 20 with sized]]; vm_compute; congruence.

Lemma Sized_raddr P a k : Sized P 1 (w_raddr a k).
Proof. unfold w_raddr. sized. Qed.

Lemma Sized_bind P qp ty k bi q : Sized P 11 (set_bind_wr qp ty k bi q).
Proof.
  unfold set_bind_wr, set_umr_control_seg, set_umr_mkey_seg, set_umr_data_seg.
  destruct (_ <? _); [sized|]. destruct (bi_length bi =? 0); [sized|]. destruct (bi_mr bi); sized.
Qed.
#[export] Hint Resolve Sized_raddr Sized_bind : sized.

(** * Segments of an operation *)

Lemma has_flag_lor x a b : has_flag x (Z.lor a b) = has_flag x a || has_flag x b.
Proof.
  unfold has_flag. rewrite Z.land_lor_distr_r. apply eq_bool_prop_intro. rewrite orb_True, !negb_True, !Is_true_true, !Z.eqb_eq, Z.lor_eq_0_iff.
  destruct (decide (Z.land x a = 0)), (decide (Z.land x b = 0)); tauto.
Qed.

(** The creation flag of each opcode *)
Definition op_flag (op : Z) : Z :=
  aget [IBV_QP_EX_WITH_RDMA_WRITE; IBV_QP_EX_WITH_RDMA_WRITE_WITH_IMM; IBV_QP_EX_WITH_SEND; IBV_QP_EX_WITH_SEND_WITH_IMM;
        IBV_QP_EX_WITH_RDMA_READ; IBV_QP_EX_WITH_ATOMIC_CMP_AND_SWP; IBV_QP_EX_WITH_ATOMIC_FETCH_AND_ADD;
        IBV_QP_EX_WITH_LOCAL_INV; IBV_QP_EX_WITH_BIND_MW; IBV_QP_EX_WITH_SEND_WITH_INV; IBV_QP_EX_WITH_TSO] op.

(** The QP was created for the operation. *)
Definition op_covered (ops : Z) (wr : ibv_send_wr) : Prop := has_flag ops (op_flag (opcode wr)) = true.

(** 16-byte units: the segments of an opcode, and those of the transport *)
Definition op_units (op : Z) : Z :=
  if (op =? IBV_WR_RDMA_READ) || (op =? IBV_WR_RDMA_WRITE) || (op =? IBV_WR_RDMA_WRITE_WITH_IMM) then 1
  else if is_atomic_op op then 2
  else if (op =? IBV_WR_BIND_MW) || (op =? IBV_WR_LOCAL_INV) then 11
  else 0.
Definition type_units (qp : mlx5_qp) : Z :=
  let t := qp_type qp in
  if t =? IBV_QPT_XRC_SEND then 1
  else if t =? IBV_QPT_UD then 3 + (if has_flag (qp_flags qp) MLX5_QP_FLAGS_USE_UNDERLAY then 3 else 0)
  else if t =? IBV_QPT_RAW_PACKET then 2
  else 0.

(** The flags under which [_sq_overhead] makes room for each kind of segment *)
Lemma op_units_flags ops wr :
  op_covered ops wr ->
  op_units (opcode wr) = 0 \/
  (op_units (opcode wr) = 1 /\ has_flag ops (Z.lor IBV_QP_EX_WITH_RDMA_WRITE
     (Z.lor IBV_QP_EX_WITH_RDMA_WRITE_WITH_IMM IBV_QP_EX_WITH_RDMA_READ)) = true) \/
  (op_units (opcode wr) = 2 /\
   has_flag ops (Z.lor IBV_QP_EX_WITH_ATOMIC_CMP_AND_SWP IBV_QP_EX_WITH_ATOMIC_FETCH_AND_ADD) = true) \/
  (op_units (opcode wr) = 11 /\ has_flag ops (Z.lor IBV_QP_EX_WITH_BIND_MW IBV_QP_EX_WITH_LOCAL_INV) = true).
Proof.
  unfold op_covered. intros Hc. rewrite !has_flag_lor. set (op := opcode wr) in *.
  destruct (Z.eqb_spec op IBV_WR_RDMA_READ) as [E|N1]; [rewrite E in Hc|].
  { right; left. rewrite (Hc : has_flag ops IBV_QP_EX_WITH_RDMA_READ = true), E, !orb_true_r. done. }
  destruct (Z.eqb_spec op IBV_WR_RDMA_WRITE) as [E|N2]; [rewrite E in Hc|].
  { right; left. by rewrite (Hc : has_flag ops IBV_QP_EX_WITH_RDMA_WRITE = true), E. }
  destruct (Z.eqb_spec op IBV_WR_RDMA_WRITE_WITH_IMM) as [E|N3]; [rewrite E in Hc|].
  { right; left. by rewrite (Hc : has_flag ops IBV_QP_EX_WITH_RDMA_WRITE_WITH_IMM = true), E, orb_true_r. }
  destruct (Z.eqb_spec op IBV_WR_ATOMIC_CMP_AND_SWP) as [E|N4]; [rewrite E in Hc|].
  { do 2 right; left. by rewrite (Hc : has_flag ops IBV_QP_EX_WITH_ATOMIC_CMP_AND_SWP = true), E. }
  destruct (Z.eqb_spec op IBV_WR_ATOMIC_FETCH_AND_ADD) as [E|N5]; [rewrite E in Hc|].
  { do 2 right; left. by rewrite (Hc : has_flag ops IBV_QP_EX_WITH_ATOMIC_FETCH_AND_ADD = true), E, orb_true_r. }
  destruct (Z.eqb_spec op IBV_WR_BIND_MW) as [E|N6]; [rewrite E in Hc|].
  { do 3 right. by rewrite (Hc : has_flag ops IBV_QP_EX_WITH_BIND_MW = true), E. }
  destruct (Z.eqb_spec op IBV_WR_LOCAL_INV) as [E|N7]; [rewrite E in Hc|].
  { do 3 right. by rewrite (Hc : has_flag ops IBV_QP_EX_WITH_LOCAL_INV = true), E, orb_true_r. }
  left. unfold op_units, is_atomic_op. rewrite !(proj2 (Z.eqb_neq _ _)) by done. done.
Qed.

Lemma overhead_covers qp dci ops mops wr :
  0 <= _sq_overhead qp dci (qp_type qp) ops mops -> op_covered ops wr ->
  16 * (1 + op_units (opcode wr) + type_units qp) <= _sq_overhead qp dci (qp_type qp) ops mops.
Proof.
  intros Hp Hc. apply op_units_flags in Hc. unfold _sq_overhead in *. cbv zeta in *.
  set (base := Z.max (Z.max _ _) _) in *.
  assert (Hb : 16 + 16 * op_units (opcode wr) <= base).
  { unfold base. destruct Hc as [->|[[-> ->]|[[-> ->]|[-> ->]]]]; unfold_consts; unfold sizeof_klm_seg; cbn [orb]; lia. }
  clearbody base. unfold type_units. cbv zeta. unfold_consts.
  destruct_ifs; lia.
Qed.

Lemma Sized_rc P qp ctrl wr : Sized P (op_units (opcode wr)) (rc_segs qp ctrl wr).
Proof.
  unfold rc_segs, op_units, is_atomic_op, w_bind_mw, w_local_inv. cbv zeta.
  destruct (_ || _ || _); [sized|]. destruct (_ || _); [destruct (atomics_enabled qp); sized|].
  destruct (_ =? IBV_WR_BIND_MW); [sized|]. destruct (_ =? IBV_WR_LOCAL_INV); sized.
Qed.

Lemma Sized_uc P qp ctrl wr : Sized P (op_units (opcode wr)) (uc_segs qp ctrl wr).
Proof.
  unfold uc_segs, op_units, is_atomic_op, w_bind_mw, w_local_inv. cbv zeta.
  destruct (_ =? IBV_WR_RDMA_READ) eqn:E; [apply Z.eqb_eq in E; rewrite E; sized|].
  rewrite orb_false_l. destruct (_ || _); [sized|]. destruct (_ || _) eqn:Ea.
  { apply orb_true_iff in Ea as [Ea|Ea]; apply Z.eqb_eq in Ea; rewrite Ea; sized. }
  destruct (_ =? IBV_WR_BIND_MW); [sized|]. destruct (_ =? IBV_WR_LOCAL_INV); sized.
Qed.

Lemma Sized_xrc P wr : Sized P 1 (xrc_segs wr).
Proof. unfold xrc_segs. destruct (_ || _); sized. Qed.
#[export] Hint Resolve Sized_rc Sized_uc Sized_xrc : sized.

Lemma Sized_underlay P qp wr : Sized P 3 (mlx5_post_send_underlay qp wr).
Proof.
  intros s _. unfold mlx5_post_send_underlay. cbv zeta. destruct (_ =? _); [done|]. destruct (_ && _); [done|].
  destruct (sg_list wr); [done|]. destruct (_ && _); [done|]. simpl. change ((sizeof_eth_pad + sizeof_eth_seg) / 16) with 3. lia.
Qed.

Lemma Sized_ud P qp wr :
  Sized P (3 + (if has_flag (qp_flags qp) MLX5_QP_FLAGS_USE_UNDERLAY then 3 else 0)) (ud_segs qp wr).
Proof.
  unfold ud_segs, w_when. destruct (has_flag _ _); [|sized].
  eapply Sized_le; [|eapply Sized_seq; [by apply Sized_do|eapply Sized_seq; [apply Sized_advance|
    eapply Sized_seq; [|apply Sized_underlay]]]]; [|apply Sized_do; intros ?; by destruct_ifs].
  vm_compute. congruence.
Qed.

(** The TSO header, split or not by the end of the ring, takes the room of [up16] bytes. *)
Lemma Sized_tso qp hdr sz mss :
  sq_wf qp -> ring_len qp <= 2 ^ 30 -> 0 <= max_tso_header qp < 2 ^ 16 ->
  Sized (at_bb qp 16) (up16 (max_tso_header qp) / 16) (set_tso_eth_seg qp hdr sz mss).
Proof.
  intros Hw Hr Hm s (i & Hi & E). pose proof (wf_qend _ Hw) as Eq. pose proof (wf_addr _ Hw).
  unfold set_tso_eth_seg. destruct (_ || _) eqn:Eg; [done|].
  unfold_consts. unfold ring_len in *. apply orb_false_iff in Eg as [? ?].
  rewrite (u64_small (qend _ - _)) by lia. set (copy := Z.min _ _).
  rewrite (u64_small (copy - 2)), (align_16 (copy - 2)) by lia. unfold up16.
  destruct (Z.ltb_spec copy sz); intros _; simpl; [|div_lia].
  rewrite align_16 by lia. assert (copy = 64 * (wqe_cnt (sq qp) - i) - 30) by lia.
  div_lia.
Qed.

Section Fits.
#[local] Set Default Proof Using "Type*".
Context (ctx : mlx5_context) (qp : mlx5_qp) (Hw : sq_wf qp) (Hlim : send_limits ctx qp).
Context (Htso : 0 <= max_tso_header qp < 2 ^ 16).

Definition tso_units (wr : ibv_send_wr) : Z := if opcode wr =? IBV_WR_TSO then up16 (max_tso_header qp) / 16 else 0.

Lemma Sized_raw wr : Sized (at_bb qp 16) (2 + tso_units wr) (raw_segs ctx qp wr).
Proof.
  pose proof (lim_inline_hdr _ _ Hlim) as Hn. pose proof (lim_ring _ _ Hlim).
  replace (2 + _) with (0 + (0 + (2 + tso_units wr))) by lia. unfold raw_segs.
  eapply Sized_seq_safe with (qp := qp) (Q := at_bb qp 16); [by apply Sized_do|..].
  { apply (Safe_put_bb qp 16 32); [exact Hw|lia|lia|]. intros p. apply Writes_memset; unfold_consts; lia. }
  eapply Sized_seq_safe with (qp := qp) (Q := at_bb qp 16).
  { destruct (has_flag (send_flags wr) _); [destruct (has_flag _ _)|]; sized. }
  { apply Safe_if; [intros _|intros _; by apply Safe_ok]. apply Safe_if; [intros _|intros _; apply Safe_err].
    apply (Safe_put_bb qp 16 32); [exact Hw|lia|lia|]. intros p m a ?. by outside_solve. }
  unfold tso_units. destruct (opcode wr =? IBV_WR_TSO).
  - replace (2 + _) with (0 + (up16 (max_tso_header qp) / 16 + sizeof_eth_seg / 16)) by (unfold_consts; div_lia).
    eapply Sized_seq_safe with (qp := qp) (Q := at_bb qp 16); [by apply Sized_do|by apply Safe_keep_bb|].
    apply Sized_seq; [by apply Sized_tso|auto with sized].
  - intros s _. unfold raw_inline_hdr. destruct (copy_eth_inline_headers _ _ _ _ _) as [[o m] scp].
    destruct o; simpl; [|done..]. intros _. rewrite Z.shiftr_div_pow2 by lia. change (2 ^ 4) with 16. div_lia.
Qed.

Lemma Sized_type_segs ctrl wr :
  Sized (at_bb qp 16) (op_units (opcode wr) + type_units qp + tso_units wr) (qp_type_segs ctx qp ctrl wr).
Proof.
  assert (Ht : 0 <= tso_units wr) by (unfold tso_units, up16; destruct (_ =? _); div_lia).
  assert (Ho : 0 <= op_units (opcode wr)) by (unfold op_units; destruct_ifs; lia).
  unfold qp_type_segs, type_units. cbv zeta. destruct (_ =? IBV_QPT_XRC_SEND).
  { eapply Sized_le; [|apply Sized_seq; [apply Sized_xrc|apply Sized_rc]]. lia. }
  destruct (Z.eqb_spec (qp_type qp) IBV_QPT_RC) as [->|]; [eapply Sized_le; [|apply Sized_rc]; simpl; lia|].
  destruct (Z.eqb_spec (qp_type qp) IBV_QPT_UC) as [->|]; [eapply Sized_le; [|apply Sized_uc]; simpl; lia|].
  destruct (_ =? IBV_QPT_UD); [eapply Sized_le; [|apply Sized_ud]; destruct_ifs; lia|].
  destruct (_ =? IBV_QPT_RAW_PACKET); [eapply Sized_le; [|apply Sized_raw]; lia|].
  eapply Sized_le; [|apply Sized_ok]. lia.
Qed.

(** * Data *)

Lemma Sized_data_loop op l : Sized anyst (Z.of_nat (length l)) (data_loop qp op l).
Proof.
  assert (Hd : forall sg, Sized anyst 1 (data_seg op sg)).
  { intros sg s Hs. unfold data_seg. destruct (is_atomic_op op); [|destruct (_ && _); [done|]].
    - match goal with |- (?c s).1 = _ -> _ => assert (H : Sized anyst 1 c) by sized; by apply H end.
    - match goal with |- (?c s).1 = _ -> _ => assert (H : Sized anyst 1 c); [|by apply H] end.
      unfold w_when. destruct (op =? IBV_WR_TSO); sized. }
  induction l as [|sg l IH]; cbn [data_loop length]; [apply Sized_ok|].
  replace (Z.of_nat (S (length l))) with (0 + (1 + Z.of_nat (length l))) by lia.
  apply Sized_seq; [apply Sized_do; intros ?; by destruct_ifs|]. apply Sized_seq; [|done].
  unfold w_when. destruct (negb _); [apply Hd|eapply Sized_le; [|apply Sized_ok]; lia].
Qed.

Lemma inl_copy_bound l : forall offset wqe total m n,
  Forall (fun sg => 0 <= sge_length sg < 2 ^ 30) l -> offset_ok l offset -> 0 <= total <= 2 ^ 30 ->
  (inl_copy qp l offset wqe total m).1 = Some n -> 0 <= n /\ (n = total \/ n <= max_inline_data qp).
Proof.
  pose proof (lim_inline_data _ _ Hlim). pose proof (lim_ring _ _ Hlim).
  induction l as [|sg l IH]; intros offset wqe total m n Hl Ho Ht; cbn [inl_copy].
  { intros [= <-]. lia. }
  apply Forall_cons in Hl as [Hsg Hl].
  assert (0 <= offset <= sge_length sg) as Hoff by (destruct Ho as [->|(?&?&?&?)]; simplify_eq; lia).
  cbv zeta. rewrite (s32_small (sge_length sg - offset)) by lia.
  assert (Es : s32 (total + (sge_length sg - offset)) = total + (sge_length sg - offset)) by (apply s32_small; lia). rewrite Es.
  destruct (Z.ltb_spec (max_inline_data qp) (total + (sge_length sg - offset))) as [|Hle]; [done|].
  destruct (_ <? _); intros H1; apply IH in H1; first [done|by left|lia].
Qed.

(** The data of a request: scatter entries, or inline bytes up to the limit *)
Lemma Sized_data wr :
  lengths_ok wr -> -4 <= max_inline_data qp ->
  Sized (data_ready qp wr) (if is_inline wr then up16 (4 + max_inline_data qp) / 16 else num_sge wr) (data_segs qp wr).
Proof.
  intros Hl Hm s [_ Hscp] Ho. pose proof (lim_inline_data _ _ Hlim). pose proof (lim_ring _ _ Hlim).
  unfold data_segs in *. destruct (is_inline wr) eqn:Ei.
  - specialize (Hscp eq_refl). unfold lengths_ok, length_bound in Hl. rewrite Ei in Hl. unfold set_data_inl_seg in *.
    pose proof (inl_copy_bound (drop (Z.to_nat (scp_index (ws_scp s))) (sg_list wr)) (scp_offset (ws_scp s))
      (ws_seg s + sizeof_inline_seg) 0 (ws_mem s)) as Hb.
    destruct (inl_copy _ _ _ _ _ _) as [[n|] m]; [|done].
    destruct (Hb n) as [Hn Hn']; [by apply Forall_drop|by apply scp_ok_drop|lia|done|].
    unfold up16. destruct (Z.eqb_spec n 0) as [->|]; simpl; [div_lia|]. rewrite align_16 by lia. div_lia.
  - pose proof (Sized_data_loop (opcode wr) (drop (Z.to_nat (scp_index (ws_scp s))) (sg_list wr)) s I Ho) as H1.
    rewrite length_drop in H1. unfold num_sge. lia.
Qed.
End Fits.

(** * Posting on a sized QP *)

Lemma post_send_wr_fits ctx dci ops mops W nreq tails wr s s' :
  let q := ps_qp s in
  sq_wf q -> send_limits ctx q -> sq_sized dci ops mops W q ->
  wr_safe q wr = true -> op_covered ops wr -> (opcode wr = IBV_WR_TSO -> is_inline wr = false) ->
  (qp_type q <> IBV_QPT_RAW_PACKET -> ps_scp s = scp0) ->
  post_send_wr ctx nreq tails wr s = (Ok, s') ->
  16 * ps_size s' <= W /\ nbb (ps_size s') <= W / 64.
Proof.
  intros q Hw Hlim Hz Hsafe Hc Ht Hscp Hpost.
  assert (Hsz : 1 <= ps_size s') by (eapply post_send_wr_size; [exact Hw|apply Hlim|exact Hpost]).
  destruct Hz as [HW [Ho Hm16] Hsc Hin Hgs Htso Hcnt Hp]. set (ov := _sq_overhead q dci (qp_type q) ops mops) in *.
  pose proof (overhead_covers q dci ops mops wr ltac:(lia) Hc) as Hov. fold ov in Hov.
  enough (H16 : 16 * ps_size s' <= W).
  { split; [done|]. unfold nbb, MLX5_SEND_WQE_BB. rewrite DIV_ROUND_UP_64 by lia. div_lia. }
  unfold post_send_wr in Hpost. fold q in Hpost.
  destruct (post_send_guards q nreq tails wr) eqn:Eg; [|done..].
  assert (Hns : num_sge wr <= max_gs (sq q)).
  { unfold post_send_guards in Eg. destruct (_ || _); [done|]. destruct (mlx5_wq_overflow _ _ _ _); [done|].
    by destruct (Z.ltb_spec (max_gs (sq q)) (num_sge wr)). }
  set (ws0 := mk_ws _ _ _ _ _ _ _) in Hpost.
  destruct (w_seq _ _ ws0) as [o ws] eqn:Ew. destruct o; [|done..]. injection Hpost as <-. simpl.
  apply wr_safe_inv in Hsafe as Hsafe'. destruct Hsafe' as [_ Hlen]. pose proof (sq_idx_range q Hw) as Hidx.
  assert (HS : Sized (fun s => at_bb q 16 s /\ (qp_type q <> IBV_QPT_RAW_PACKET -> ws_scp s = scp0))
    (op_units (opcode wr) + type_units q + tso_units q wr + (if is_inline wr then up16 (4 + max_inline_data q) / 16 else num_sge wr))
    (qp_type_segs ctx q (mlx5_get_send_wqe q (sq_idx q)) wr ;; data_segs q wr)).
  { eapply Sized_seq_safe; [|by apply (Safe_type_segs ctx)|].
    - intros s1 [H1 _]. by apply (Sized_type_segs ctx).
    - apply (Sized_data ctx); try done. unfold up16 in *. div_lia. }
  specialize (HS ws0). rewrite Ew in HS. simpl in HS. unfold tso_units in HS.
  assert (Hat : at_bb q 16 ws0) by (exists (sq_idx q); split; [done|simpl; by rewrite get_send_wqe_eq]).
  specialize (HS (conj Hat Hscp) eq_refl). change (sizeof_ctrl_seg / 16) with 1 in HS.
  pose proof (Z.eqb_spec (opcode wr) IBV_WR_TSO) as Hop. unfold up16 in *.
  destruct (is_inline wr); [destruct Hop; [by specialize (Ht ltac:(done))|]|destruct Hop]; div_lia.
Qed.

(** * What posting and completing may change *)

(** [q] is [q0] with other indices, arrays and owed fence. *)
Record sq_moved (q0 q : mlx5_qp) : Prop := {
  mv_qp : q = set_fm_cache (fm_cache q) (set_sq (sq q) q0);
  mv_sq : sq q = mk_wq (wrid (sq q)) (wqe_head (sq q)) (wqe_cnt (sq q0)) (max_post (sq q0))
    (wq_head (sq q)) (wq_tail (sq q)) (cur_post (sq q)) (max_gs (sq q0)) (wqe_shift (sq q0))
    (wq_offset (sq q0)) (qend (sq q0)) (wr_data (sq q))
}.

#[global] Instance sq_moved_refl : Reflexive sq_moved.
Proof. intros q. split; [by destruct q|by destruct (sq q)]. Qed.

#[global] Instance sq_moved_trans : Transitive sq_moved.
Proof. intros q0 q1 q2 [E1 S1] [E2 S2]. split; [by rewrite E2, E1|by rewrite S2, S1]. Qed.

Lemma step_moved q0 q : sq_step q0 q -> sq_moved q0 q.
Proof. intros [E S]. split; [rewrite E; by destruct q0|by rewrite S]. Qed.

Lemma moved_sized q0 q dci ops mops W : sq_moved q0 q -> sq_sized dci ops mops W q0 -> sq_sized dci ops mops W q.
Proof. intros [E S] H. rewrite E, S. destruct H. by split. Qed.

Lemma moved_limits q0 q ctx : sq_moved q0 q -> send_limits ctx q0 -> send_limits ctx q.
Proof. intros [E S] H. rewrite E, S. destruct H. by split. Qed.

(** C5.  Creation and posting agree on the size of an element.  On a QP that
    [create_qp] sized, in whatever state earlier calls left it, every request
    [mlx5_post_send] accepts of an operation the QP was created for (with scatter
    entries, inline data, a TSO header or memory-window segments, on every transport)
    builds an element so small that [max_post] such elements fit the ring. *)
Theorem accepted_wqe_fits lims al page dci attr dv ops qp m attr' qp' m' ctx nreq tails wr s s' :
  lims_ok lims -> attr_ok attr -> max_send_wr (ia_cap attr) <> 0 -> cap_max_recv_wr (ia_cap attr) <> 0 ->
  ia_srq attr = false -> attr_ops attr = Some ops -> ia_qp_type attr = qp_type qp -> max_tso_header qp = 0 ->
  has_flag (qp_flags qp) MLX5_QP_FLAGS_USE_UNDERLAY = false ->
  create_qp_queues lims al page dci attr dv qp m = CreateOk attr' qp' m' -> mallocs_ok al qp' ->
  0 <= eth_min_inline_size ctx <= 18 ->
  sq_moved qp' (ps_qp s) -> sq_wf (ps_qp s) -> (qp_type qp' <> IBV_QPT_RAW_PACKET -> ps_scp s = scp0) ->
  wr_safe (ps_qp s) wr = true -> op_covered ops wr ->
  post_send_wr ctx nreq tails wr s = (Ok, s') ->
  max_send_wr (ia_cap attr) <= max_post (sq qp') /\ nbb (ps_size s') * max_post (sq qp') <= wqe_cnt (sq qp').
Proof.
  intros Hl Ha Hwr Hrwr Hsrq Hops Hty Htso Hund Hc Hm He Hmv Hw Hscp Hsafe Hcov Hpost.
  destruct (create_ready _ _ _ _ _ _ _ _ _ _ _ _ Hl Ha Hwr Hrwr Hsrq Hops Hty Htso Hund Hc Hm)
    as [[W Hz] _ _ Hlim [Hs _] _ _ _ _]. split; [done|].
  assert (Ht : opcode wr = IBV_WR_TSO -> is_inline wr = false).
  { intros E. apply wr_safe_inv in Hsafe as [Hin _]. unfold inline_ok in Hin. rewrite E in Hin. by destruct (is_inline wr). }
  destruct (post_send_wr_fits ctx dci ops (attr_mops dv) W nreq tails wr s s') as [_ Hb]; try done.
  - by apply (moved_limits qp'), Hlim.
  - by apply (moved_sized qp').
  - by rewrite (mv_qp _ _ Hmv).
  - pose proof (ss_blocks _ _ _ _ _ Hz). pose proof (ss_post _ _ _ _ _ Hz).
    pose proof (Z.div_mod W 64 ltac:(lia)). nia.
Qed.

(** ** Witness *)

(** An inline send of 40 bytes on the QP of [demo_created]: one block, and twice the
    share [W] of a request fits its ring of eight *)
Definition demo_fit_wr : ibv_send_wr := demo_wr IBV_WR_SEND IBV_SEND_INLINE [mk_sge 8192 40 1].
Definition demo_fit_start (q : mlx5_qp) : ps_st := mk_ps q (fun a => a mod 256) 0 0 false scp0 0 0.

Lemma accepted_wqe_fits_witness :
  let r := post_send_wr demo_ctx 0 (0, 0) demo_fit_wr (demo_fit_start demo_created) in
  r.1 = Ok /\ nbb (ps_size r.2) * max_post (sq demo_created) <= wqe_cnt (sq demo_created).
Proof.
  intros r. assert (r.1 = Ok) as Er by (by vm_compute). split; [exact Er|].
  pose proof (qr_sq _ _ _ _ _ demo_ready) as Hw.
  assert (Hsafe : wr_safe demo_created demo_fit_wr = true) by (by vm_compute).
  destruct demo_creates as (at1 & q1 & m1 & E & Eq). pose proof demo_mallocs_ok as Hm. unfold r in *. clear r.
  rewrite Eq in *. clear Eq. destruct (post_send_wr _ _ _ _ _) as [o s'] eqn:Ep. simpl in Er. subst o.
  apply (accepted_wqe_fits demo_lims demo_mallocs 4096 false demo_attr None demo_ops (demo_qp IBV_QPT_RC 0) (fun _ => 7)
    at1 q1 m1 demo_ctx 0 (0, 0) demo_fit_wr (demo_fit_start q1) s' demo_lims_ok demo_attr_ok ltac:(by vm_compute)
    ltac:(by vm_compute) eq_refl eq_refl eq_refl eq_refl eq_refl E Hm).
  - simpl. lia.
  - apply sq_moved_refl.
  - exact Hw.
  - intros _. reflexivity.
  - exact Hsafe.
  - by vm_compute.
  - exact Ep.
Defined.

(** * Requests the sizes get wrong *)

Definition demo_bare_attr : ibv_qp_init_attr_ex := mk_ia IBV_QPT_RC 0 0 0 false (mk_cap 2 2 0 1 0).
Definition demo_bare : mlx5_qp :=
  match create_qp_queues demo_lims demo_mallocs 4096 false demo_bare_attr None (demo_qp IBV_QPT_RC 0) (fun _ => 7) with
  | CreateOk _ qp _ => qp
  | _ => demo_qp IBV_QPT_RC 0
  end.

(** An inline limit below zero.  An RC QP created without scatter entries and
    without inline data has no room left in its elements; [mlx5_calc_sq_size] stores the
    limit -4, tells the caller 4294967292 bytes, and the builder, which compares the
    unsigned length with the limit, then accepts any amount of inline data: 2000 bytes
    on this ring of 512 overwrite the memory behind it, and no error is recorded. *)
Theorem negative_inline_limit_overruns :
  let '(ret, attr, qp) := mlx5_calc_sq_size demo_lims false demo_bare_attr None (demo_qp IBV_QPT_RC 0) in
  (ret, max_inline_data qp, cap_max_inline_data (ia_cap attr)) = (512, -4, 4294967292) /\
  let q := demo_bare in
  let b := mlx5_send_wr_send_other (0, 0) (mk_b (mlx5_send_wr_start q) (fun a => if a <? 65536 then 0 else 255)) in
  let b' := mlx5_send_wr_set_inline_data_rc_uc 65536 2000 b in
  max_inline_data q = -4 /\ err (b_qp b') = 0 /\ b_mem b (qend (sq q)) = 0 /\ b_mem b' (qend (sq q)) = 255.
Proof. vm_compute. repeat split. Qed.

(** Requests that wrap around.  For 4294967295 bytes of inline data the size of the
    element wraps: [mlx5_calc_sq_size] succeeds and grants 60.  For 2^31 receives the size
    of a stand-alone receive queue wraps: [mlx5_calc_rwq_size] succeeds with 4 elements. *)
Theorem creation_sizes_wrap :
  (let attr := mk_ia IBV_QPT_RC 0 0 0 false (mk_cap 2 2 1 1 4294967295) in
   let '(ret, attr', qp) := mlx5_calc_sq_size demo_lims false attr None (demo_qp IBV_QPT_RC 0) in
   0 <= ret /\ max_inline_data qp = 60 /\ cap_max_inline_data (ia_cap attr') = 60) /\
  (let '(ret, wq) := mlx5_calc_rwq_size demo_lims false (mk_wia (2 ^ 31) 1) None (demo_wq 4 4096 0) in
   0 <= ret /\ wqe_cnt wq = 4 /\ max_post wq = 4).
Proof. vm_compute. repeat split; congruence. Qed.
