(* ===== verification/Ops.v ===== *)
(** The functions behind a queue pair: the table of [ibv_wr_*] functions that creation fills
    from the operations the application asked for ([mlx5_qp_fill_wr_pfns], qp.c), and
    the binding of memory windows ([mlx5_bind_mw], [ibv_bind_mw]). *)

From stdpp Require Import base numbers list.
From S2P Require Import Prelude Mem Types Wqe Forecast PostSend Builder BuilderProps Mkey Sizes.

(** * Operation flags *)

Definition MLX5DV_QP_INIT_ATTR_MASK_DC : Z := 2.
Definition MLX5DV_DCTYPE_DCI : Z := 2.
Definition MLX5DV_QP_EX_WITH_RAW_WQE : Z := 8.
Definition MLX5DV_QP_EX_WITH_MEMCPY : Z := 16.
Definition ENOTSUP : Z := 95.
Definition EPERM : Z := 1.

Definition MLX5_SUPPORTED_SEND_OPS_FLAGS_RC : Z :=
  foldr Z.lor 0 [IBV_QP_EX_WITH_SEND; IBV_QP_EX_WITH_SEND_WITH_INV; IBV_QP_EX_WITH_SEND_WITH_IMM;
    IBV_QP_EX_WITH_RDMA_WRITE; IBV_QP_EX_WITH_RDMA_WRITE_WITH_IMM; IBV_QP_EX_WITH_RDMA_READ;
    IBV_QP_EX_WITH_ATOMIC_CMP_AND_SWP; IBV_QP_EX_WITH_ATOMIC_FETCH_AND_ADD;
    IBV_QP_EX_WITH_LOCAL_INV; IBV_QP_EX_WITH_BIND_MW].
Definition MLX5_SUPPORTED_SEND_OPS_FLAGS_XRC : Z := MLX5_SUPPORTED_SEND_OPS_FLAGS_RC.
Definition MLX5_SUPPORTED_SEND_OPS_FLAGS_DCI : Z := MLX5_SUPPORTED_SEND_OPS_FLAGS_RC.
Definition MLX5_SUPPORTED_SEND_OPS_FLAGS_UD : Z :=
  foldr Z.lor 0 [IBV_QP_EX_WITH_SEND; IBV_QP_EX_WITH_SEND_WITH_IMM].
Definition MLX5_SUPPORTED_SEND_OPS_FLAGS_UC : Z :=
  foldr Z.lor 0 [IBV_QP_EX_WITH_SEND; IBV_QP_EX_WITH_SEND_WITH_INV; IBV_QP_EX_WITH_SEND_WITH_IMM;
    IBV_QP_EX_WITH_RDMA_WRITE; IBV_QP_EX_WITH_RDMA_WRITE_WITH_IMM; IBV_QP_EX_WITH_LOCAL_INV;
    IBV_QP_EX_WITH_BIND_MW].
Definition MLX5_SUPPORTED_SEND_OPS_FLAGS_RAW_PACKET : Z :=
  foldr Z.lor 0 [IBV_QP_EX_WITH_SEND; IBV_QP_EX_WITH_TSO].

(** * The tables *)

(** The function pointers of [struct ibv_qp_ex] and of [struct mlx5dv_qp_ex] *)
Inductive wr_slot : Type :=
| wr_start | wr_complete | wr_abort
| wr_send | wr_send_imm | wr_send_inv | wr_send_tso
| wr_rdma_write | wr_rdma_write_imm | wr_rdma_read
| wr_atomic_cmp_swp | wr_atomic_fetch_add | wr_bind_mw | wr_local_inv
| wr_set_sge | wr_set_sge_list | wr_set_inline_data | wr_set_inline_data_list
| wr_set_ud_addr | wr_set_xrc_srqn
| wr_set_dc_addr | wr_set_dc_addr_stream
| wr_mr_interleaved | wr_mr_list | wr_mkey_configure | wr_set_mkey_access_flags
| wr_set_mkey_layout_list | wr_set_mkey_layout_interleaved | wr_set_mkey_sig_block
| wr_set_mkey_crypto | wr_raw_wqe | wr_memcpy.

(** The functions of qp.c whose addresses the tables hold: [p_f] is the address of
    [mlx5_send_wr_f] (of [mlx5_wr_f] for the raw element and the copy) *)
Inductive pfn : Type :=
| p_start | p_complete | p_abort
| p_send_other | p_send_eth | p_send_imm | p_send_inv | p_send_tso
| p_rdma_write | p_rdma_write_imm | p_rdma_read
| p_atomic_cmp_swp | p_atomic_fetch_add | p_bind_mw | p_local_inv
| p_set_sge_rc_uc | p_set_sge_list_rc_uc | p_set_inline_data_rc_uc | p_set_inline_data_list_rc_uc
| p_set_sge_ud_xrc_dc | p_set_sge_list_ud_xrc_dc | p_set_inline_data_ud_xrc_dc
| p_set_inline_data_list_ud_xrc_dc
| p_set_sge_eth | p_set_sge_list_eth | p_set_inline_data_eth | p_set_inline_data_list_eth
| p_set_ud_addr | p_set_xrc_srqn | p_set_dc_addr | p_set_dc_addr_stream
| p_mr_interleaved | p_mr_list | p_mkey_configure | p_set_mkey_access_flags
| p_set_mkey_layout_list | p_set_mkey_layout_interleaved | p_set_mkey_sig_block
| p_set_mkey_crypto | p_raw_wqe | p_memcpy.

#[export] Instance slot_eq_dec : EqDecision wr_slot.
Proof. solve_decision. Defined.
#[export] Instance pfn_eq_dec : EqDecision pfn.
Proof. solve_decision. Defined.

(** A null pointer is [None]; [calloc] of the queue pair leaves them all null *)
Definition wr_ops : Type := wr_slot -> option pfn.
Definition no_ops : wr_ops := fun _ => None.

(** [ibqp->s = f;] *)
Definition assign (t : wr_ops) (a : wr_slot * pfn) : wr_ops :=
  fun s => if decide (s = a.1) then Some a.2 else t s.
Definition assigns (l : list (wr_slot * pfn)) (t : wr_ops) : wr_ops := fold_left assign l t.

Definition fill_wr_builders_rc_xrc_dc : wr_ops -> wr_ops :=
  assigns [(wr_send, p_send_other); (wr_send_imm, p_send_imm); (wr_send_inv, p_send_inv);
    (wr_rdma_write, p_rdma_write); (wr_rdma_write_imm, p_rdma_write_imm);
    (wr_rdma_read, p_rdma_read); (wr_atomic_cmp_swp, p_atomic_cmp_swp);
    (wr_atomic_fetch_add, p_atomic_fetch_add); (wr_bind_mw, p_bind_mw);
    (wr_local_inv, p_local_inv)].

Definition fill_wr_builders_uc : wr_ops -> wr_ops :=
  assigns [(wr_send, p_send_other); (wr_send_imm, p_send_imm); (wr_send_inv, p_send_inv);
    (wr_rdma_write, p_rdma_write); (wr_rdma_write_imm, p_rdma_write_imm);
    (wr_bind_mw, p_bind_mw); (wr_local_inv, p_local_inv)].

Definition fill_wr_builders_ud : wr_ops -> wr_ops :=
  assigns [(wr_send, p_send_other); (wr_send_imm, p_send_imm)].

Definition fill_wr_builders_eth : wr_ops -> wr_ops :=
  assigns [(wr_send, p_send_eth); (wr_send_tso, p_send_tso)].

Definition fill_wr_setters_rc_uc : wr_ops -> wr_ops :=
  assigns [(wr_set_sge, p_set_sge_rc_uc); (wr_set_sge_list, p_set_sge_list_rc_uc);
    (wr_set_inline_data, p_set_inline_data_rc_uc);
    (wr_set_inline_data_list, p_set_inline_data_list_rc_uc)].

Definition fill_wr_setters_ud_xrc_dc : wr_ops -> wr_ops :=
  assigns [(wr_set_sge, p_set_sge_ud_xrc_dc); (wr_set_sge_list, p_set_sge_list_ud_xrc_dc);
    (wr_set_inline_data, p_set_inline_data_ud_xrc_dc);
    (wr_set_inline_data_list, p_set_inline_data_list_ud_xrc_dc)].

Definition fill_wr_setters_eth : wr_ops -> wr_ops :=
  assigns [(wr_set_sge, p_set_sge_eth); (wr_set_sge_list, p_set_sge_list_eth);
    (wr_set_inline_data, p_set_inline_data_eth);
    (wr_set_inline_data_list, p_set_inline_data_list_eth)].

(** The assignments to [dv_qp] in [case IBV_QPT_RC] *)
Definition fill_mkey_rc : wr_ops -> wr_ops :=
  assigns [(wr_mr_interleaved, p_mr_interleaved); (wr_mr_list, p_mr_list);
    (wr_mkey_configure, p_mkey_configure); (wr_set_mkey_access_flags, p_set_mkey_access_flags);
    (wr_set_mkey_layout_list, p_set_mkey_layout_list);
    (wr_set_mkey_layout_interleaved, p_set_mkey_layout_interleaved);
    (wr_set_mkey_sig_block, p_set_mkey_sig_block); (wr_set_mkey_crypto, p_set_mkey_crypto);
    (wr_memcpy, p_memcpy)].

(** The attributes of the driver, with [dc_init_attr.dc_type] *)
Record dv_attr : Type := mk_dvq { dvq_base : mlx5dv_qp_init_attr; dvq_dc_type : Z }.

(** [mlx5_ops] *)
Definition dv_ops (dv : option dv_attr) : Z :=
  match dv with
  | Some a => if has_flag (dv_comp_mask (dvq_base a)) MLX5DV_QP_INIT_ATTR_MASK_SEND_OPS_FLAGS
              then dv_send_ops_flags (dvq_base a) else 0
  | None => 0
  end.

Definition dv_all_ops : Z :=
  foldr Z.lor 0 [MLX5DV_QP_EX_WITH_MR_INTERLEAVED; MLX5DV_QP_EX_WITH_MR_LIST;
    MLX5DV_QP_EX_WITH_MKEY_CONFIGURE; MLX5DV_QP_EX_WITH_RAW_WQE; MLX5DV_QP_EX_WITH_MEMCPY].

(** [ops & ~sup], as a condition *)
Definition beyond (ops sup : Z) : bool := negb (Z.ldiff ops sup =? 0).

(** The switch of [mlx5_qp_fill_wr_pfns] on [attr->qp_type]; [None] is the dereference of a
    null [mlx5_attr] *)
Definition fill_by_type (qp : mlx5_qp) (qp_type ops mlx5_ops : Z) (dv : option dv_attr) (t : wr_ops)
  : option (Z * wr_ops) :=
  let refuse := Some (EOPNOTSUPP, t) in
  let not_raw := beyond mlx5_ops MLX5DV_QP_EX_WITH_RAW_WQE in
  if qp_type =? IBV_QPT_RC then
    if beyond ops MLX5_SUPPORTED_SEND_OPS_FLAGS_RC then refuse
    else
      let t := fill_wr_setters_rc_uc (fill_wr_builders_rc_xrc_dc t) in
      Some (0, if negb (mlx5_ops =? 0) then fill_mkey_rc t else t)
  else if qp_type =? IBV_QPT_UC then
    if beyond ops MLX5_SUPPORTED_SEND_OPS_FLAGS_UC || not_raw then refuse
    else Some (0, fill_wr_setters_rc_uc (fill_wr_builders_uc t))
  else if qp_type =? IBV_QPT_XRC_SEND then
    if beyond ops MLX5_SUPPORTED_SEND_OPS_FLAGS_XRC || not_raw then refuse
    else Some (0, assign (fill_wr_setters_ud_xrc_dc (fill_wr_builders_rc_xrc_dc t))
                    (wr_set_xrc_srqn, p_set_xrc_srqn))
  else if qp_type =? IBV_QPT_UD then
    if beyond ops MLX5_SUPPORTED_SEND_OPS_FLAGS_UD || not_raw then refuse
    else if has_flag (qp_flags qp) MLX5_QP_FLAGS_USE_UNDERLAY then refuse
    else Some (0, assign (fill_wr_setters_ud_xrc_dc (fill_wr_builders_ud t))
                    (wr_set_ud_addr, p_set_ud_addr))
  else if qp_type =? IBV_QPT_RAW_PACKET then
    if beyond ops MLX5_SUPPORTED_SEND_OPS_FLAGS_RAW_PACKET || not_raw then refuse
    else Some (0, fill_wr_setters_eth (fill_wr_builders_eth t))
  else if qp_type =? IBV_QPT_DRIVER then
    match dv with
    | None => None
    | Some a =>
      if negb (has_flag (dv_comp_mask (dvq_base a)) MLX5DV_QP_INIT_ATTR_MASK_DC &&
               (dvq_dc_type a =? MLX5DV_DCTYPE_DCI)) then refuse
      else if beyond ops MLX5_SUPPORTED_SEND_OPS_FLAGS_DCI ||
              beyond mlx5_ops (Z.lor MLX5DV_QP_EX_WITH_RAW_WQE MLX5DV_QP_EX_WITH_MEMCPY) then refuse
      else Some (0, assigns [(wr_set_dc_addr, p_set_dc_addr);
                             (wr_set_dc_addr_stream, p_set_dc_addr_stream); (wr_memcpy, p_memcpy)]
                      (fill_wr_setters_ud_xrc_dc (fill_wr_builders_rc_xrc_dc t)))
    end
  else refuse.

(** [mlx5_qp_fill_wr_pfns(mqp, attr, mlx5_attr)]: the result and the tables *)
Definition mlx5_qp_fill_wr_pfns (qp : mlx5_qp) (attr : ibv_qp_init_attr_ex) (dv : option dv_attr)
    (t : wr_ops) : option (Z * wr_ops) :=
  let ops := ia_send_ops_flags attr in
  let t := assigns [(wr_start, p_start); (wr_complete, p_complete); (wr_abort, p_abort)] t in
  if negb (atomics_enabled qp) &&
     (has_flag ops IBV_QP_EX_WITH_ATOMIC_CMP_AND_SWP || has_flag ops IBV_QP_EX_WITH_ATOMIC_FETCH_AND_ADD)
  then Some (EOPNOTSUPP, t)
  else
    let mlx5_ops := dv_ops dv in
    if negb (mlx5_ops =? 0) && negb (check_comp_mask mlx5_ops dv_all_ops) then Some (EOPNOTSUPP, t)
    else
      let t := if negb (mlx5_ops =? 0) then assign t (wr_raw_wqe, p_raw_wqe) else t in
      fill_by_type qp (ia_qp_type attr) ops mlx5_ops dv t.

(** * Calls through the table *)

(** The calls [ibv_wr_*] (verbs.h 1283 and following) of an application, with their
    arguments *)
Inductive wr_call : Type :=
| ibv_wr_send | ibv_wr_send_imm (imm : Z) | ibv_wr_send_inv (rkey : Z)
| ibv_wr_send_tso (hdr hdr_sz mss : Z)
| ibv_wr_rdma_write (rkey raddr : Z) | ibv_wr_rdma_write_imm (rkey raddr imm : Z)
| ibv_wr_rdma_read (rkey raddr : Z)
| ibv_wr_atomic_cmp_swp (rkey raddr compare swap : Z) | ibv_wr_atomic_fetch_add (rkey raddr add : Z)
| ibv_wr_bind_mw (mw : ibv_mw) (rkey : Z) (bi : ibv_mw_bind_info) | ibv_wr_local_inv (rkey : Z)
| ibv_wr_set_sge (lkey addr len : Z) | ibv_wr_set_sge_list (l : list ibv_sge)
| ibv_wr_set_inline_data (addr len : Z) | ibv_wr_set_inline_data_list (l : list ibv_data_buf)
| ibv_wr_set_ud_addr (av qpn qkey : Z) | ibv_wr_set_xrc_srqn (srqn : Z).

(** The pointer a call goes through *)
Definition call_slot (c : wr_call) : wr_slot :=
  match c with
  | ibv_wr_send => wr_send | ibv_wr_send_imm _ => wr_send_imm | ibv_wr_send_inv _ => wr_send_inv
  | ibv_wr_send_tso _ _ _ => wr_send_tso
  | ibv_wr_rdma_write _ _ => wr_rdma_write | ibv_wr_rdma_write_imm _ _ _ => wr_rdma_write_imm
  | ibv_wr_rdma_read _ _ => wr_rdma_read
  | ibv_wr_atomic_cmp_swp _ _ _ _ => wr_atomic_cmp_swp
  | ibv_wr_atomic_fetch_add _ _ _ => wr_atomic_fetch_add
  | ibv_wr_bind_mw _ _ _ => wr_bind_mw | ibv_wr_local_inv _ => wr_local_inv
  | ibv_wr_set_sge _ _ _ => wr_set_sge | ibv_wr_set_sge_list _ => wr_set_sge_list
  | ibv_wr_set_inline_data _ _ => wr_set_inline_data
  | ibv_wr_set_inline_data_list _ => wr_set_inline_data_list
  | ibv_wr_set_ud_addr _ _ _ => wr_set_ud_addr | ibv_wr_set_xrc_srqn _ => wr_set_xrc_srqn
  end.

(** The function at an address, applied to the arguments of a call; [None] when the
    function takes other arguments than the call passes *)
Definition apply_pfn (ctx : mlx5_context) (t : Z * Z) (p : pfn) (c : wr_call) : option bop :=
  match p, c with
  | p_send_other, ibv_wr_send => Some (BSend t)
  | p_send_eth, ibv_wr_send => Some (BSendEth ctx t)
  | p_send_imm, ibv_wr_send_imm i => Some (BSendImm t i)
  | p_send_inv, ibv_wr_send_inv k => Some (BSendInv t k)
  | p_send_tso, ibv_wr_send_tso h n mss => Some (BSendTso t h n mss)
  | p_rdma_write, ibv_wr_rdma_write k a => Some (BRdmaWrite t k a)
  | p_rdma_write_imm, ibv_wr_rdma_write_imm k a i => Some (BRdmaWriteImm t k a i)
  | p_rdma_read, ibv_wr_rdma_read k a => Some (BRdmaRead t k a)
  | p_atomic_cmp_swp, ibv_wr_atomic_cmp_swp k a c s => Some (BCmpSwp t k a c s)
  | p_atomic_fetch_add, ibv_wr_atomic_fetch_add k a c => Some (BFetchAdd t k a c)
  | p_bind_mw, ibv_wr_bind_mw mw k bi => Some (BBindMw t mw k bi)
  | p_local_inv, ibv_wr_local_inv k => Some (BLocalInv t k)
  | p_set_sge_rc_uc, ibv_wr_set_sge k a n => Some (BSge k a n)
  | p_set_sge_ud_xrc_dc, ibv_wr_set_sge k a n => Some (BSge2 k a n)
  | p_set_sge_eth, ibv_wr_set_sge k a n => Some (BSgeEth ctx k a n)
  | p_set_sge_list_rc_uc, ibv_wr_set_sge_list l => Some (BSges l)
  | p_set_sge_list_ud_xrc_dc, ibv_wr_set_sge_list l => Some (BSges2 l)
  | p_set_sge_list_eth, ibv_wr_set_sge_list l => Some (BSgesEth ctx l)
  | p_set_inline_data_rc_uc, ibv_wr_set_inline_data a n => Some (BInl a n)
  | p_set_inline_data_ud_xrc_dc, ibv_wr_set_inline_data a n => Some (BInl2 a n)
  | p_set_inline_data_eth, ibv_wr_set_inline_data a n => Some (BInlEth ctx a n)
  | p_set_inline_data_list_rc_uc, ibv_wr_set_inline_data_list l => Some (BInls l)
  | p_set_inline_data_list_ud_xrc_dc, ibv_wr_set_inline_data_list l => Some (BInls2 l)
  | p_set_inline_data_list_eth, ibv_wr_set_inline_data_list l => Some (BInlsEth ctx l)
  | p_set_ud_addr, ibv_wr_set_ud_addr av q k => Some (BUdAddr av q k)
  | p_set_xrc_srqn, ibv_wr_set_xrc_srqn n => Some (BXrcSrqn n)
  | _, _ => None
  end.

(** [qp->s(qp, ...)]; [None] is a call through a null pointer *)
Definition do_call (ctx : mlx5_context) (t : Z * Z) (tab : wr_ops) (c : wr_call) (b : bst) : option bst :=
  p ← tab (call_slot c); o ← apply_pfn ctx t p c; Some (b_step o b).

(** * Memory windows *)

(** [ibv_inc_rkey] *)
Definition ibv_inc_rkey (rkey : Z) : Z :=
  Z.lor (Z.ldiff rkey 0xff) (u8 (Z.land (u32 (rkey + 1)) 0xff)).

(** [struct ibv_mw_bind] *)
Record ibv_mw_bind : Type := mk_mwb { mwb_wr_id : Z; mwb_send_flags : Z; mwb_bind_info : ibv_mw_bind_info }.

(** The request of [mlx5_bind_mw]: [wr = {}] and the assignments *)
Definition bind_request (mw : ibv_mw) (mwb : ibv_mw_bind) : ibv_send_wr :=
  mk_wr (mwb_wr_id mwb) [] IBV_WR_BIND_MW (mwb_send_flags mwb) 0 0 0 0 0 0 0 0 0 0 0 0
    mw (ibv_inc_rkey (mw_rkey mw)) (mwb_bind_info mwb) 0 0 0.

(** The crash of the post, or the result, the window, the table of the forecast and the
    queue *)
Inductive bind_result : Type :=
| BindFault
| BindDone (ret : Z) (mw : ibv_mw) (shm : option SHM) (st : send_st).

Section Bind.
Context (inet_ntop6 : list Z -> list Z).

Definition mlx5_bind_mw (attr : qp_attr) (dev_name : list Z) (clock : Z * Z) (ctx : mlx5_context)
    (tails : Z -> Z * Z) (mw : ibv_mw) (mwb : ibv_mw_bind) (shm : option SHM) (s : send_st)
  : bind_result :=
  let bi := mwb_bind_info mwb in
  let refused :=
    if has_flag (bi_access_flags bi) IBV_ACCESS_ZERO_BASED then Some EINVAL
    else match bi_mr bi with
         | Some mr => if negb (mr_type mr =? IBV_MR_TYPE_MR) then Some ENOTSUP
                      else if has_flag (mr_alloc_flags mr) IBV_ACCESS_ZERO_BASED then Some EINVAL
                      else None
         | None => None
         end in
  match refused with
  | Some e => BindDone e mw shm s
  | None =>
    let wr := bind_request mw mwb in
    match _mlx5_post_send inet_ntop6 attr dev_name clock ctx tails [wr] shm s with
    | PostFault => BindFault
    | PostDone ret _ shm s =>
      BindDone ret (if ret =? 0 then mk_mw (bind_rkey wr) (mw_type mw) else mw) shm s
    end
  end.

(** [ibv_bind_mw(qp, mw, mw_bind)] of an application; [mw_pd] and [mr_pd] are the protection
    domains of the window and of the region *)
Definition ibv_bind_mw (mw_pd mr_pd : Z) (attr : qp_attr) (dev_name : list Z) (clock : Z * Z)
    (ctx : mlx5_context) (tails : Z -> Z * Z) (mw : ibv_mw) (mwb : ibv_mw_bind) (shm : option SHM)
    (s : send_st) : bind_result :=
  let bi := mwb_bind_info mwb in
  let no_mr := bool_decide (bi_mr bi = None) in
  if negb (mw_type mw =? IBV_MW_TYPE_1) then BindDone EINVAL mw shm s
  else if no_mr && (negb (bi_addr bi =? 0) || negb (bi_length bi =? 0)) then BindDone EINVAL mw shm s
  else if negb no_mr && negb (mw_pd =? mr_pd) then BindDone EPERM mw shm s
  else mlx5_bind_mw attr dev_name clock ctx tails mw mwb shm s.

End Bind.
