(* ===== verification/OpsProps.v ===== *)
(** What the table of builder functions promises an application: creation accepts exactly the
    operations of the type of the queue pair, and every function of an accepted operation is
    there and is the one of the type.  Then the binding of memory windows. *)

From stdpp Require Import base numbers list.
From S2P Require Import Prelude Mem Types Wqe Forecast PostSend SendSafe SendQueue SendDecode Builder BuilderProps Mkey Sizes Ops.

(** * What the table promises *)

(** The flags of an integer are among those of a list *)
Definition only (ops : Z) (l : list Z) : Prop :=
  forall i, 0 <= i -> Z.testbit ops i = true -> In (2 ^ i) l.

(** The operations of each type of queue pair, those of verbs.h and those of the driver *)
Definition type_flags (qp_type : Z) : option (list Z * list Z) :=
  let rc := [IBV_QP_EX_WITH_SEND; IBV_QP_EX_WITH_SEND_WITH_INV; IBV_QP_EX_WITH_SEND_WITH_IMM;
             IBV_QP_EX_WITH_RDMA_WRITE; IBV_QP_EX_WITH_RDMA_WRITE_WITH_IMM; IBV_QP_EX_WITH_RDMA_READ;
             IBV_QP_EX_WITH_ATOMIC_CMP_AND_SWP; IBV_QP_EX_WITH_ATOMIC_FETCH_AND_ADD;
             IBV_QP_EX_WITH_LOCAL_INV; IBV_QP_EX_WITH_BIND_MW] in
  let raw := [MLX5DV_QP_EX_WITH_RAW_WQE] in
  if qp_type =? IBV_QPT_RC then
    Some (rc, [MLX5DV_QP_EX_WITH_MR_INTERLEAVED; MLX5DV_QP_EX_WITH_MR_LIST;
               MLX5DV_QP_EX_WITH_MKEY_CONFIGURE; MLX5DV_QP_EX_WITH_RAW_WQE; MLX5DV_QP_EX_WITH_MEMCPY])
  else if qp_type =? IBV_QPT_UC then
    Some ([IBV_QP_EX_WITH_SEND; IBV_QP_EX_WITH_SEND_WITH_INV; IBV_QP_EX_WITH_SEND_WITH_IMM;
           IBV_QP_EX_WITH_RDMA_WRITE; IBV_QP_EX_WITH_RDMA_WRITE_WITH_IMM; IBV_QP_EX_WITH_LOCAL_INV;
           IBV_QP_EX_WITH_BIND_MW], raw)
  else if qp_type =? IBV_QPT_XRC_SEND then Some (rc, raw)
  else if qp_type =? IBV_QPT_UD then Some ([IBV_QP_EX_WITH_SEND; IBV_QP_EX_WITH_SEND_WITH_IMM], raw)
  else if qp_type =? IBV_QPT_RAW_PACKET then Some ([IBV_QP_EX_WITH_SEND; IBV_QP_EX_WITH_TSO], raw)
  else if qp_type =? IBV_QPT_DRIVER then Some (rc, raw ++ [MLX5DV_QP_EX_WITH_MEMCPY])
  else None.

(** The requests creation accepts *)
Definition accepts (qp : mlx5_qp) (attr : ibv_qp_init_attr_ex) (dv : option dv_attr) : Prop :=
  let ops := ia_send_ops_flags attr in
  (exists fs ds, type_flags (ia_qp_type attr) = Some (fs, ds) /\ only ops fs /\ only (dv_ops dv) ds) /\
  (Z.testbit ops 5 = true \/ Z.testbit ops 6 = true -> atomics_enabled qp = true) /\
  (ia_qp_type attr = IBV_QPT_UD -> has_flag (qp_flags qp) MLX5_QP_FLAGS_USE_UNDERLAY = false) /\
  (ia_qp_type attr = IBV_QPT_DRIVER -> exists a, dv = Some a /\
     has_flag (dv_comp_mask (dvq_base a)) MLX5DV_QP_INIT_ATTR_MASK_DC = true /\
     dvq_dc_type a = MLX5DV_DCTYPE_DCI).

(** The pointers an application may call after it asked for a flag, one for each flag of
    verbs.h *)
Definition flag_slots : list (Z * wr_slot) :=
  [(IBV_QP_EX_WITH_RDMA_WRITE, wr_rdma_write); (IBV_QP_EX_WITH_RDMA_WRITE_WITH_IMM, wr_rdma_write_imm);
   (IBV_QP_EX_WITH_SEND, wr_send); (IBV_QP_EX_WITH_SEND_WITH_IMM, wr_send_imm);
   (IBV_QP_EX_WITH_RDMA_READ, wr_rdma_read); (IBV_QP_EX_WITH_ATOMIC_CMP_AND_SWP, wr_atomic_cmp_swp);
   (IBV_QP_EX_WITH_ATOMIC_FETCH_AND_ADD, wr_atomic_fetch_add); (IBV_QP_EX_WITH_LOCAL_INV, wr_local_inv);
   (IBV_QP_EX_WITH_BIND_MW, wr_bind_mw); (IBV_QP_EX_WITH_SEND_WITH_INV, wr_send_inv);
   (IBV_QP_EX_WITH_TSO, wr_send_tso)].

(** .. and for the flags of the driver *)
Definition dv_flag_slots : list (Z * wr_slot) :=
  [(MLX5DV_QP_EX_WITH_MR_INTERLEAVED, wr_mr_interleaved); (MLX5DV_QP_EX_WITH_MR_LIST, wr_mr_list);
   (MLX5DV_QP_EX_WITH_MKEY_CONFIGURE, wr_mkey_configure);
   (MLX5DV_QP_EX_WITH_MKEY_CONFIGURE, wr_set_mkey_access_flags);
   (MLX5DV_QP_EX_WITH_MKEY_CONFIGURE, wr_set_mkey_layout_list);
   (MLX5DV_QP_EX_WITH_MKEY_CONFIGURE, wr_set_mkey_layout_interleaved);
   (MLX5DV_QP_EX_WITH_MKEY_CONFIGURE, wr_set_mkey_sig_block);
   (MLX5DV_QP_EX_WITH_MKEY_CONFIGURE, wr_set_mkey_crypto);
   (MLX5DV_QP_EX_WITH_RAW_WQE, wr_raw_wqe); (MLX5DV_QP_EX_WITH_MEMCPY, wr_memcpy)].

(** What every type needs besides: the session and the data setters *)
Definition common_slots : list wr_slot :=
  [wr_start; wr_complete; wr_abort; wr_set_sge; wr_set_sge_list; wr_set_inline_data;
   wr_set_inline_data_list].

(** The address setters of a type *)
Definition addr_slots (qp_type : Z) : list wr_slot :=
  if qp_type =? IBV_QPT_UD then [wr_set_ud_addr]
  else if qp_type =? IBV_QPT_XRC_SEND then [wr_set_xrc_srqn]
  else if qp_type =? IBV_QPT_DRIVER then [wr_set_dc_addr; wr_set_dc_addr_stream]
  else [].

(** ** Masks *)

Definition powers (l : list Z) : Prop := Forall (fun f => exists k, 0 <= k /\ f = 2 ^ k) l.

Lemma testbit_union l i :
  powers l -> 0 <= i -> Z.testbit (foldr Z.lor 0 l) i = true <-> In (2 ^ i) l.
Proof.
  intros Hp Hi. induction Hp as [|f l (k & Hk & ->) _ IH]; simpl; [by rewrite Z.bits_0|].
  rewrite Z.lor_spec, orb_true_iff, IH. f_equiv. rewrite Z.pow2_bits_eqb by lia.
  rewrite Z.eqb_eq. split; [by intros ->|]. intros E. apply Z.pow_inj_r in E; lia.
Qed.

Lemma beyond_only ops l : powers l -> beyond ops (foldr Z.lor 0 l) = false <-> only ops l.
Proof.
  intros Hp. unfold beyond, only. rewrite negb_false_iff, Z.eqb_eq. split.
  - intros E i Hi Ht. apply testbit_union; [done..|].
    destruct (Z.testbit (foldr _ _ _) i) eqn:Eb; [done|].
    assert (Z.testbit (Z.ldiff ops (foldr Z.lor 0 l)) i = true) as Hc by (by rewrite Z.ldiff_spec, Ht, Eb).
    by rewrite E, Z.bits_0 in Hc.
  - intros H. apply Z.bits_inj'. intros i Hi. rewrite Z.ldiff_spec, Z.bits_0.
    destruct (Z.testbit ops i) eqn:Eb; [|done].
    by rewrite (proj2 (testbit_union l i Hp Hi) (H i Hi Eb)).
Qed.

Lemma flag_bit ops k : 0 <= k -> has_flag ops (2 ^ k) = Z.testbit ops k.
Proof.
  intros Hk. unfold has_flag. destruct (Z.testbit ops k) eqn:E.
  - rewrite negb_true_iff, Z.eqb_neq. intros H.
    assert (Z.testbit (Z.land ops (2 ^ k)) k = true) as Hc by (rewrite Z.land_spec, E, Z.pow2_bits_true; [done|lia]).
    by rewrite H, Z.bits_0 in Hc.
  - rewrite negb_false_iff, Z.eqb_eq. apply Z.bits_inj'. intros i Hi.
    rewrite Z.land_spec, Z.bits_0, Z.pow2_bits_eqb by lia.
    destruct (Z.eqb_spec k i) as [<-|]; [by rewrite E|apply andb_false_r].
Qed.

Lemma only_flag ops l k : 0 <= k -> only ops l -> has_flag ops (2 ^ k) = true -> In (2 ^ k) l.
Proof. intros Hk Ho. rewrite flag_bit by done. by apply Ho. Qed.

Lemma only_zero l : only 0 l.
Proof. intros i Hi H. by rewrite Z.bits_0 in H. Qed.

Lemma only_mono ops l l' : incl l l' -> only ops l -> only ops l'.
Proof. intros Hl Ho i Hi Ht. by apply Hl, Ho. Qed.

Ltac powers_tac := repeat constructor;
  match goal with |- exists k, 0 <= k /\ ?f = _ => exists (Z.log2 f); by vm_compute end.

(** The first checks of [mlx5_qp_fill_wr_pfns] *)
Lemma fill_guards qp attr dv t0 :
  let ops := ia_send_ops_flags attr in
  let t1 := assigns [(wr_start, p_start); (wr_complete, p_complete); (wr_abort, p_abort)] t0 in
  let t2 := if negb (dv_ops dv =? 0) then assign t1 (wr_raw_wqe, p_raw_wqe) else t1 in
  (mlx5_qp_fill_wr_pfns qp attr dv t0 = Some (EOPNOTSUPP, t1) /\
     ~ ((Z.testbit ops 5 = true \/ Z.testbit ops 6 = true -> atomics_enabled qp = true) /\
        beyond (dv_ops dv) dv_all_ops = false)) \/
  (mlx5_qp_fill_wr_pfns qp attr dv t0 = fill_by_type qp (ia_qp_type attr) ops (dv_ops dv) dv t2 /\
     (Z.testbit ops 5 = true \/ Z.testbit ops 6 = true -> atomics_enabled qp = true) /\
     beyond (dv_ops dv) dv_all_ops = false).
Proof.
  intros ops t1 t2. unfold mlx5_qp_fill_wr_pfns. cbv zeta. fold ops t1.
  change IBV_QP_EX_WITH_ATOMIC_CMP_AND_SWP with (2 ^ 5). change IBV_QP_EX_WITH_ATOMIC_FETCH_AND_ADD with (2 ^ 6).
  rewrite !flag_bit by lia. unfold beyond, check_comp_mask.
  destruct (negb (atomics_enabled qp) && _) eqn:Ea; [left|].
  { split; [done|]. intros [H _]. apply andb_true_iff in Ea as [En Eo]. apply orb_true_iff in Eo.
    rewrite (H Eo) in En. done. }
  assert (Z.testbit ops 5 = true \/ Z.testbit ops 6 = true -> atomics_enabled qp = true) as Hat.
  { intros [E|E]; rewrite E, ?orb_true_r, ?andb_true_r in Ea; by destruct (atomics_enabled qp). }
  destruct (Z.ldiff (dv_ops dv) dv_all_ops =? 0) eqn:Ed.
  - right. rewrite andb_false_r. by split.
  - left. destruct (Z.eqb_spec (dv_ops dv) 0) as [E0|]; simpl; [|split; [done|]; by intros [_ ?]].
    by rewrite E0 in Ed.
Qed.

(** ** The switch on the type *)

Definition type_ok (qp : mlx5_qp) (ty ops mo : Z) (dv : option dv_attr) : Prop :=
  (exists fs ds, type_flags ty = Some (fs, ds) /\ only ops fs /\ only mo ds) /\
  (ty = IBV_QPT_UD -> has_flag (qp_flags qp) MLX5_QP_FLAGS_USE_UNDERLAY = false) /\
  (ty = IBV_QPT_DRIVER -> exists a, dv = Some a /\
     has_flag (dv_comp_mask (dvq_base a)) MLX5DV_QP_INIT_ATTR_MASK_DC = true /\
     dvq_dc_type a = MLX5DV_DCTYPE_DCI).

(** The pointers a type installs besides those of the session *)
Definition filled (ty : Z) (mo : Z) (t : wr_ops) : wr_ops :=
  if ty =? IBV_QPT_RC then
    let t := fill_wr_setters_rc_uc (fill_wr_builders_rc_xrc_dc t) in
    if negb (mo =? 0) then fill_mkey_rc t else t
  else if ty =? IBV_QPT_UC then fill_wr_setters_rc_uc (fill_wr_builders_uc t)
  else if ty =? IBV_QPT_XRC_SEND then
    assign (fill_wr_setters_ud_xrc_dc (fill_wr_builders_rc_xrc_dc t)) (wr_set_xrc_srqn, p_set_xrc_srqn)
  else if ty =? IBV_QPT_UD then
    assign (fill_wr_setters_ud_xrc_dc (fill_wr_builders_ud t)) (wr_set_ud_addr, p_set_ud_addr)
  else if ty =? IBV_QPT_RAW_PACKET then fill_wr_setters_eth (fill_wr_builders_eth t)
  else assigns [(wr_set_dc_addr, p_set_dc_addr); (wr_set_dc_addr_stream, p_set_dc_addr_stream);
                (wr_memcpy, p_memcpy)] (fill_wr_setters_ud_xrc_dc (fill_wr_builders_rc_xrc_dc t)).

Lemma beyond_flags ty fs ds :
  type_flags ty = Some (fs, ds) -> powers fs /\ powers ds.
Proof.
  unfold type_flags. intros E. destruct_ifs_in E; simplify_eq; split; powers_tac.
Qed.

(** A type that is not refused: its masks *)
Lemma type_ok_flags qp ty ops mo dv fs ds :
  type_flags ty = Some (fs, ds) ->
  type_ok qp ty ops mo dv <->
    beyond ops (foldr Z.lor 0 fs) = false /\ beyond mo (foldr Z.lor 0 ds) = false /\
    (ty = IBV_QPT_UD -> has_flag (qp_flags qp) MLX5_QP_FLAGS_USE_UNDERLAY = false) /\
    (ty = IBV_QPT_DRIVER -> exists a, dv = Some a /\
       has_flag (dv_comp_mask (dvq_base a)) MLX5DV_QP_INIT_ATTR_MASK_DC = true /\
       dvq_dc_type a = MLX5DV_DCTYPE_DCI).
Proof.
  intros E. destruct (beyond_flags _ _ _ E) as [Hf Hd]. rewrite !beyond_only by done. unfold type_ok.
  rewrite E. split; [|naive_solver]. intros [(? & ? & ? & ?) ?]. naive_solver.
Qed.

(** Masks as numbers *)
Ltac masks := repeat match goal with
  | |- context [beyond ?a ?m] =>
    let m' := eval vm_compute in m in progress change (beyond a m) with (beyond a m')
  end.

(** A branch of the switch: it refuses and a condition fails, or it fills *)
Ltac type_case :=
  first
    [ left; split; [reflexivity|]; intros (Ha & Hb & Hu & Hd);
      first [ discriminate | by specialize (Hu eq_refl)
            | destruct (Hd eq_refl) as (? & ? & ? & ?); simplify_eq; congruence ]
    | right; split; [reflexivity|]; split_and!; intros; first [ done | by eauto ] ].

Lemma fill_by_type_spec qp ty ops mo dv t :
  (ty = IBV_QPT_DRIVER -> dv <> None) -> beyond mo dv_all_ops = false ->
  (fill_by_type qp ty ops mo dv t = Some (EOPNOTSUPP, t) /\ ~ type_ok qp ty ops mo dv) \/
  (fill_by_type qp ty ops mo dv t = Some (0, filled ty mo t) /\ type_ok qp ty ops mo dv).
Proof.
  intros Hdv Hall. revert Hall. destruct (type_flags ty) as [[fs ds]|] eqn:E.
  - rewrite (type_ok_flags _ _ _ _ _ _ _ E). unfold type_flags in E. unfold fill_by_type, filled.
    cbv zeta. destruct_ifs_in E; simplify_eq;
      repeat match goal with H : (?x =? _) = true |- _ => apply Z.eqb_eq in H; subst x end;
      unfold IBV_QPT_RC, IBV_QPT_UC, IBV_QPT_XRC_SEND, IBV_QPT_UD, IBV_QPT_RAW_PACKET, IBV_QPT_DRIVER in *;
      cbn [Z.eqb Pos.eqb]; masks; intros Hall;
      try (destruct dv as [a|]; [|by destruct (Hdv eq_refl)];
           destruct (has_flag (dv_comp_mask (dvq_base a)) MLX5DV_QP_INIT_ATTR_MASK_DC) eqn:?,
                    (Z.eqb_spec (dvq_dc_type a) MLX5DV_DCTYPE_DCI));
      repeat match goal with |- context [beyond ?a ?m] => destruct (beyond a m) eqn:? end;
      try destruct (has_flag (qp_flags qp) _) eqn:?; simpl; type_case.
  - intros _. left. split; [|intros [(fs & ds & E' & _) _]; congruence].
    unfold type_flags in E. unfold fill_by_type. destruct_ifs_in E; done.
Qed.

Lemma assign_ne t a s : s <> a.1 -> assign t a s = t s.
Proof. intros H. unfold assign. by rewrite decide_False. Qed.

(** The pointers of an accepted table *)
Definition installed (ty ops mo : Z) (t : wr_ops) : Prop :=
  (forall f s, In (f, s) flag_slots -> has_flag ops f = true -> is_Some (t s)) /\
  (forall f s, In (f, s) dv_flag_slots -> has_flag mo f = true -> is_Some (t s)) /\
  (forall s, In s (common_slots ++ addr_slots ty) -> is_Some (t s)).

Lemma flag_slots_powers l f (s : wr_slot) :
  In (f, s) l -> Forall (fun a : Z * wr_slot => a.1 = 2 ^ Z.log2 a.1) l -> f = 2 ^ Z.log2 f.
Proof. rewrite List.Forall_forall. intros H Hl. exact (Hl _ H). Qed.

Ltac in_cases := repeat match goal with
  | H : In _ (_ :: _) |- _ => destruct H as [H|H]
  | H : In _ [] |- _ => destruct H
  end.

Lemma filled_installed ty ops mo fs ds t0 :
  type_flags ty = Some (fs, ds) -> only ops fs -> only mo ds ->
  let t1 := assigns [(wr_start, p_start); (wr_complete, p_complete); (wr_abort, p_abort)] t0 in
  let t2 := if negb (mo =? 0) then assign t1 (wr_raw_wqe, p_raw_wqe) else t1 in
  installed ty ops mo (filled ty mo t2).
Proof.
  intros E Ho Hm t1 t2. assert (Hz : forall f, has_flag mo f = true -> (mo =? 0) = false).
  { intros f Hf. apply Z.eqb_neq. intros ->. by unfold has_flag in Hf. }
  unfold type_flags in E. unfold t2, filled, installed, addr_slots.
  destruct_ifs_in E; simplify_eq;
    repeat match goal with H : (?x =? _) = true |- _ => apply Z.eqb_eq in H; subst x end;
    split_and!; intros.
  all: try match goal with
  | Hin : In (?f, ?s) _, Hf : has_flag _ ?f = true |- _ =>
    rewrite (flag_slots_powers _ _ _ Hin) in Hf by (repeat constructor);
    first [ pose proof (Hz _ Hf) as Em; apply (only_flag mo _ _ (Z.log2_nonneg _) Hm) in Hf
          | apply (only_flag ops _ _ (Z.log2_nonneg _) Ho) in Hf ]
  end.
  all: unfold flag_slots, dv_flag_slots, common_slots in *; simpl app in *; in_cases; simplify_eq;
    try discriminate; try (rewrite Em; eexists; reflexivity);
    destruct (negb (mo =? 0)); eexists; reflexivity.
Qed.

(** Creation with a list of operations is exact.  It succeeds if and only if the
    operations are among those of the type of the queue pair (atomics need a device that has
    them, the driver's type needs the attributes of a DC initiator), and otherwise returns
    EOPNOTSUPP.  When it succeeds every pointer an application may call for an operation it
    asked for is set, with the pointers of the session, of the data and of the addresses of the
    type; when it refuses, it has set no pointer but those of the session and of raw elements. *)
Theorem wr_pfns_exact qp attr dv t0 :
  (ia_qp_type attr = IBV_QPT_DRIVER -> dv <> None) ->
  exists r t, mlx5_qp_fill_wr_pfns qp attr dv t0 = Some (r, t) /\
    (r = 0 <-> accepts qp attr dv) /\
    (r = 0 -> installed (ia_qp_type attr) (ia_send_ops_flags attr) (dv_ops dv) t) /\
    (r <> 0 -> r = EOPNOTSUPP /\
       forall s, s <> wr_start -> s <> wr_complete -> s <> wr_abort -> s <> wr_raw_wqe -> t s = t0 s).
Proof.
  intros Hdv. assert (Hacc : accepts qp attr dv <->
    type_ok qp (ia_qp_type attr) (ia_send_ops_flags attr) (dv_ops dv) dv /\
    (Z.testbit (ia_send_ops_flags attr) 5 = true \/ Z.testbit (ia_send_ops_flags attr) 6 = true ->
     atomics_enabled qp = true)) by (unfold accepts, type_ok; tauto).
  setoid_rewrite Hacc. destruct (fill_guards qp attr dv t0) as [[-> Hn]|[-> [Hat Hall]]].
  - eexists _, _. split; [done|]. split_and!; [|done|].
    + split; [done|]. intros [[(fs & ds & E & Ho & Hm) _] Hat]. destruct Hn. split; [done|].
      assert (beyond (dv_ops dv) dv_all_ops = false); [|done]. apply beyond_only; [powers_tac|].
      apply (only_mono _ ds); [|done]. unfold type_flags in E.
      destruct_ifs_in E; simplify_eq; intros x Hx; simpl in Hx |- *; tauto.
    + intros _. split; [done|]. intros s ????. cbn [assigns fold_left]. by rewrite !assign_ne.
  - match goal with |- context [fill_by_type _ _ _ _ _ ?t2] =>
      destruct (fill_by_type_spec qp (ia_qp_type attr) (ia_send_ops_flags attr) (dv_ops dv) dv t2 Hdv Hall)
        as [[-> Hn]|[-> Hok]] end.
    + eexists _, _. split; [done|]. split_and!; [|done|].
      * split; [done|tauto].
      * intros _. split; [done|]. intros s ????. destruct (negb _); cbn [assigns fold_left]; by rewrite !assign_ne.
    + eexists _, _. split; [done|]. split_and!; [tauto| |done].
      intros _. destruct Hok as [(fs & ds & E & Ho & Hm) _]. by apply (filled_installed _ _ _ fs ds).
Qed.

Lemma wr_pfns_exact_witness :
  let qp := demo_qp IBV_QPT_RC 3 in
  let ask ops := mk_ia IBV_QPT_RC IBV_QP_INIT_ATTR_SEND_OPS_FLAGS ops 0 false (mk_cap 1 1 1 1 0) in
  (exists t, mlx5_qp_fill_wr_pfns qp (ask IBV_QP_EX_WITH_RDMA_READ) None no_ops = Some (0, t) /\
     is_Some (t wr_rdma_read)) /\
  exists t, mlx5_qp_fill_wr_pfns qp (ask IBV_QP_EX_WITH_TSO) None no_ops = Some (EOPNOTSUPP, t).
Proof.
  intros qp ask. split.
  - destruct (wr_pfns_exact qp (ask IBV_QP_EX_WITH_RDMA_READ) None no_ops) as (r & t & E & _ & Hi & _);
      [done|]. assert (r = 0) as -> by (vm_compute in E; congruence).
    exists t. split; [exact E|]. destruct (Hi eq_refl) as [H _].
    apply (H IBV_QP_EX_WITH_RDMA_READ); [simpl; tauto|reflexivity].
  - destruct (wr_pfns_exact qp (ask IBV_QP_EX_WITH_TSO) None no_ops) as (r & t & E & _ & _ & Hr);
      [done|]. exists t. assert (r <> 0) as Hn by (vm_compute in E; congruence).
    destruct (Hr Hn) as [-> _]. exact E.
Defined.

(** ** Requests through the table *)

(** The call for a work request *)
Definition request_call (wr : ibv_send_wr) : wr_call :=
  let op := opcode wr in
  if op =? IBV_WR_SEND then ibv_wr_send
  else if op =? IBV_WR_SEND_WITH_IMM then ibv_wr_send_imm (imm_data wr)
  else if op =? IBV_WR_SEND_WITH_INV then ibv_wr_send_inv (invalidate_rkey wr)
  else if op =? IBV_WR_RDMA_WRITE then ibv_wr_rdma_write (rdma_rkey wr) (rdma_remote_addr wr)
  else if op =? IBV_WR_RDMA_WRITE_WITH_IMM then
    ibv_wr_rdma_write_imm (rdma_rkey wr) (rdma_remote_addr wr) (imm_data wr)
  else if op =? IBV_WR_RDMA_READ then ibv_wr_rdma_read (rdma_rkey wr) (rdma_remote_addr wr)
  else if op =? IBV_WR_ATOMIC_CMP_AND_SWP then
    ibv_wr_atomic_cmp_swp (atomic_rkey wr) (atomic_remote_addr wr) (atomic_compare_add wr) (atomic_swap wr)
  else ibv_wr_atomic_fetch_add (atomic_rkey wr) (atomic_remote_addr wr) (atomic_compare_add wr).

(** The flag of creation an opcode needs *)
Definition op_flag (op : Z) : Z :=
  aget [IBV_QP_EX_WITH_RDMA_WRITE; IBV_QP_EX_WITH_RDMA_WRITE_WITH_IMM; IBV_QP_EX_WITH_SEND;
        IBV_QP_EX_WITH_SEND_WITH_IMM; IBV_QP_EX_WITH_RDMA_READ; IBV_QP_EX_WITH_ATOMIC_CMP_AND_SWP;
        IBV_QP_EX_WITH_ATOMIC_FETCH_AND_ADD; IBV_QP_EX_WITH_LOCAL_INV; IBV_QP_EX_WITH_BIND_MW;
        IBV_QP_EX_WITH_SEND_WITH_INV; IBV_QP_EX_WITH_TSO] op.

(** An RC or UC queue pair whose creation accepted the operation of a request builds that
    request through its table with the functions [build_wr] names, which by
    [builder_matches_post_send] build what [mlx5_post_send] builds. *)
Theorem table_builds_request ctx tails qp attr dv t wr b :
  ia_qp_type attr = IBV_QPT_RC \/ ia_qp_type attr = IBV_QPT_UC ->
  mlx5_qp_fill_wr_pfns qp attr dv no_ops = Some (0, t) ->
  0 <= opcode wr <= 9 -> opcode wr <> IBV_WR_LOCAL_INV -> opcode wr <> IBV_WR_BIND_MW ->
  has_flag (ia_send_ops_flags attr) (op_flag (opcode wr)) = true ->
  (b' ← do_call ctx tails t (request_call wr)
          (b_set (fun q => set_ex_wr_flags (send_flags wr) (set_ex_wr_id (wr_id wr) q)) b);
   do_call ctx tails t (ibv_wr_set_sge_list (sg_list wr)) b') = Some (build_wr tails wr b).
Proof.
  intros Hty Hf Hop Hn1 Hn2 Hfl. unfold build_wr.
  set (b0 := b_set _ b). clearbody b0.
  destruct (fill_guards qp attr dv no_ops) as [[E _]|[E [_ Hall]]]; rewrite E in Hf; [done|]. clear E.
  match type of Hf with fill_by_type _ _ _ _ _ ?t2 = _ => set (t' := t2) in Hf end.
  destruct (fill_by_type_spec qp (ia_qp_type attr) (ia_send_ops_flags attr) (dv_ops dv) dv t')
    as [[E _]|[E [(fs & ds & Et & Ho & _) _]]]; [by destruct Hty as [-> | ->]|done| |];
    rewrite E in Hf; simplify_eq. clear E Hall.
  assert (Hc : opcode wr = 0 \/ opcode wr = 1 \/ opcode wr = 2 \/ opcode wr = 3 \/ opcode wr = 4 \/
                opcode wr = 5 \/ opcode wr = 6 \/ opcode wr = 9)
    by (unfold IBV_WR_LOCAL_INV, IBV_WR_BIND_MW in *; lia).
  assert (Hin : In (op_flag (opcode wr)) fs).
  { replace (op_flag (opcode wr)) with (2 ^ Z.log2 (op_flag (opcode wr))) in Hfl |- *
      by (destruct_or! Hc; rewrite Hc; reflexivity).
    by apply (only_flag _ _ _ (Z.log2_nonneg _) Ho). }
  clearbody t'. clear Hn1 Hn2 Hop Hfl. unfold request_call, build_op.
  destruct Hty as [Ety|Ety]; rewrite Ety in Et |- *; vm_compute in Et; simplify_eq;
    destruct_or! Hc; rewrite Hc in Hin |- *; vm_compute in Hin; try (exfalso; clear - Hin; lia);
    unfold filled; destruct (negb (dv_ops dv =? 0)); reflexivity.
Qed.

(** * Binding a memory window *)

(** The tag of a key goes up by one modulo 256 and the index stays. *)
Lemma inc_rkey_fields rkey :
  0 <= rkey < 2 ^ 32 ->
  ibv_inc_rkey rkey / 2 ^ 8 = rkey / 2 ^ 8 /\ ibv_inc_rkey rkey mod 2 ^ 8 = (rkey + 1) mod 2 ^ 8 /\
  0 <= ibv_inc_rkey rkey < 2 ^ 32.
Proof.
  intros Hr. unfold ibv_inc_rkey, u8, u32. rewrite land_255.
  assert (E : ((rkey + 1) mod 2 ^ 32 mod 2 ^ 8) mod 2 ^ 8 = (rkey + 1) mod 2 ^ 8) by div_lia.
  rewrite E. change 255 with (Z.ones 8). rewrite Z.ldiff_ones_r, Z.shiftr_div_pow2 by lia.
  pose proof (Z.mod_pos_bound (rkey + 1) (2 ^ 8) ltac:(lia)) as Hm.
  rewrite lor_shl_add by lia. clear E. split_and!; div_lia.
Qed.

(** What the device reads in the element of a binding at [cur_post = c]: the opcode, the old
    key, the tag the key gets, the access, the range, and the memory behind it *)
Record dev_bind : Type := mk_dbind {
  db_opcode : Z; db_old_rkey : Z; db_tag : Z; db_qpn : Z; db_access : Z; db_start : Z; db_len : Z;
  db_data : Z * Z * Z }.

Definition decode_bind (qp : mlx5_qp) (c : Z) (m : mem) : dev_bind :=
  let ctrl := block_at qp c 0 in let mk := block_at qp c 1 in
  mk_dbind (Z.land (load_be 4 ctrl m) 0xff) (load_be 4 (ctrl + 12) m)
    (Z.land (load_be 4 (mk + 4) m) 0xff) (Z.shiftr (load_be 4 (mk + 4) m) 8)
    (load_be 1 (mk + 2) m) (load_be 8 (mk + 16) m) (load_be 8 (mk + 24) m)
    (read_data m (block_at qp c 2)).

(** The access bits of a memory key for the flags of verbs.h *)
Definition access_bits (acc : Z) : Z :=
  let f bit flag := if has_flag acc bit then flag else 0 in
  f IBV_ACCESS_LOCAL_WRITE 8 + f IBV_ACCESS_REMOTE_WRITE 32 + f IBV_ACCESS_REMOTE_READ 16 +
  f IBV_ACCESS_REMOTE_ATOMIC 64.

Lemma access_bits_eq acc :
  let f bit flag := if has_flag acc bit then flag else 0 in
  Z.lor (f IBV_ACCESS_LOCAL_WRITE MLX5_WQE_MKEY_CONTEXT_ACCESS_FLAGS_LOCAL_WRITE)
    (Z.lor (f IBV_ACCESS_REMOTE_WRITE MLX5_WQE_MKEY_CONTEXT_ACCESS_FLAGS_REMOTE_WRITE)
      (Z.lor (f IBV_ACCESS_REMOTE_READ MLX5_WQE_MKEY_CONTEXT_ACCESS_FLAGS_REMOTE_READ)
             (f IBV_ACCESS_REMOTE_ATOMIC MLX5_WQE_MKEY_CONTEXT_ACCESS_FLAGS_ATOMIC))) = access_bits acc /\
  0 <= access_bits acc < 2 ^ 8.
Proof. cbv zeta. unfold access_bits. destruct_ifs; by vm_compute. Qed.

(** The key word of a type 1 window *)
Lemma key_word tag :
  Z.land (Z.lor (Z.land tag 0xff) 0xffffff00) 0xff = tag mod 2 ^ 8 /\
  Z.shiftr (Z.lor (Z.land tag 0xff) 0xffffff00) 8 = 0xffffff /\
  0 <= Z.lor (Z.land tag 0xff) 0xffffff00 < 2 ^ 32.
Proof.
  rewrite (land_255 tag). change 0xffffff00 with (Z.shiftl 0xffffff 8).
  pose proof (Z.mod_pos_bound tag (2 ^ 8) ltac:(lia)). rewrite Z.lor_comm, lor_shl_add by lia.
  destruct (word_fields 0xffffff (tag mod 2 ^ 8)) as [E1 E2]; [lia|]. rewrite E1, E2. split_and!; lia.
Qed.

Lemma wrap_eq qp s : w_wrap qp s = (Ok, set_ws_seg (wrap_ptr qp (ws_seg s)) s).
Proof. unfold w_wrap, w_do, wrap_ptr. destruct (_ =? _); [done|]. by destruct s. Qed.

Lemma block_at_in qp c d : sq_wf qp -> sq_start qp <= block_at qp c d /\ block_at qp c d + 64 <= qend (sq qp).
Proof.
  intros Hw. unfold block_at. rewrite get_send_wqe_eq, (wf_qend _ Hw). unfold ring_len.
  pose proof (slot_at_range c _ d (wf_cnt_pos _ Hw)). lia.
Qed.

(** The element lies in the ring. *)
Lemma decode_bind_ext qp c m1 m2 :
  sq_wf qp -> (forall a, sq_start qp <= a < qend (sq qp) -> m1 a = m2 a) ->
  decode_bind qp c m1 = decode_bind qp c m2.
Proof.
  intros Hw H. pose proof (block_at_in qp c 0 Hw). pose proof (block_at_in qp c 1 Hw).
  pose proof (block_at_in qp c 2 Hw). unfold decode_bind, read_data.
  repeat match goal with |- context [load_be ?n ?p m1] =>
    rewrite (load_be_ext n p m1 m2) by (intros; apply H; lia) end. done.
Qed.

Section BindElement.
#[local] Set Default Proof Using "Type*".
Context (qp : mlx5_qp) (Hw : sq_wf qp) (Hcnt : 3 <= wqe_cnt (sq qp)) (Hqn : 0 <= qp_num qp < 2 ^ 24).
Context (mw : ibv_mw) (mwb : ibv_mw_bind) (mr : ibv_mr).
Context (Hmr : bi_mr (mwb_bind_info mwb) = Some mr).
Context (Hk : 0 <= mw_rkey mw < 2 ^ 32) (Hlk : 0 <= mr_lkey mr < 2 ^ 32).
Context (Ha : 0 <= bi_addr (mwb_bind_info mwb) < 2 ^ 64).
Context (Hl : 0 < bi_length (mwb_bind_info mwb) <= 2 ^ 31).
Context (Hz : has_flag (bi_access_flags (mwb_bind_info mwb)) IBV_ACCESS_ZERO_BASED = false).

Let bi := mwb_bind_info mwb.
Let wr := bind_request mw mwb.
Let c := cur_post (sq qp).

Lemma next_block d : wrap_ptr qp (block_at qp c d + 64) = block_at qp c (d + 1).
Proof.
  unfold wrap_ptr, block_at. rewrite !get_send_wqe_eq, (wf_qend _ Hw). unfold ring_len.
  pose proof (wf_cnt_pos _ Hw) as Hp. pose proof (slot_at_range c (wqe_cnt (sq qp)) d Hp) as Hr.
  assert (E : slot_at c (wqe_cnt (sq qp)) (d + 1) =
    if slot_at c (wqe_cnt (sq qp)) d + 1 =? wqe_cnt (sq qp) then 0 else slot_at c (wqe_cnt (sq qp)) d + 1).
  { unfold slot_at in *. replace (c + (d + 1)) with (c + d + 1) by lia.
    rewrite <- Zplus_mod_idemp_l. destruct (Z.eqb_spec ((c + d) mod wqe_cnt (sq qp) + 1) (wqe_cnt (sq qp))) as [->|].
    - apply Z.mod_same; lia.
    - apply Z.mod_small; lia. }
  rewrite E. destruct (Z.eqb_spec (slot_at c (wqe_cnt (sq qp)) d + 1) (wqe_cnt (sq qp)));
    destruct (Z.eqb_spec (sq_start qp + 64 * slot_at c (wqe_cnt (sq qp)) d + 64)
      (sq_start qp + 64 * wqe_cnt (sq qp))); lia.
Qed.

(** The memory of the element *)
Definition bind_mem (m : mem) : mem :=
  let ctrl := block_at qp c 0 in
  umr_data_seg (mr_lkey mr) bi (block_at qp c 2)
    (umr_mkey_seg (mw_type mw) (ibv_inc_rkey (mw_rkey mw)) bi (qp_num qp) (block_at qp c 1)
      (umr_control_seg (mw_type mw) bi (ctrl + 16) (store_be 4 (ctrl + 12) (mw_rkey mw) m))).

Lemma bind_segs ctx s :
  qp_type qp = IBV_QPT_RC \/ qp_type qp = IBV_QPT_UC ->
  ws_seg s = block_at qp c 0 + 16 -> ws_scp s = mk_scp 0 0 ->
  exists s', (qp_type_segs ctx qp (block_at qp c 0) wr ;; data_segs qp wr) s = (Ok, s') /\
    ws_mem s' = bind_mem (ws_mem s) /\ ws_size s' = ws_size s + 11.
Proof.
  intros Hty Hseg Hscp.
  assert (E : qp_type_segs ctx qp (block_at qp c 0) wr = w_bind_mw qp (block_at qp c 0) wr).
  { unfold qp_type_segs. destruct Hty as [-> | ->]; reflexivity. }
  rewrite E. clear E. unfold w_bind_mw, set_bind_wr.
  assert ((2 ^ 31 <? bi_length (bind_info wr)) = false) as -> by (simpl; lia).
  assert ((bi_length (bind_info wr) =? 0) = false) as -> by (simpl; lia).
  unfold set_umr_data_seg. simpl bind_info. rewrite Hmr.
  unfold data_segs, is_inline. simpl (num_sge wr). rewrite andb_false_r.
  pose proof (next_block 0) as N0. pose proof (next_block 1) as N1.
  unfold set_umr_control_seg, set_umr_mkey_seg, w_seq, w_imm, w_put, w_advance, w_do.
  cbv beta iota. rewrite !wrap_eq. cbn [ws_seg ws_mem ws_size ws_scp set_ws_next_fence set_ws_mem set_ws_seg set_ws_size set_ws_wr_data].
  rewrite Hseg, Hscp. unfold sizeof_umr_ctrl_seg, sizeof_mkey_context_seg.
  replace (block_at qp c 0 + 16 + 48) with (block_at qp c 0 + 64) by lia. change (0 + 1) with 1 in N0. change (1 + 1) with 2 in N1. rewrite N0, N1.
  eexists. split; [reflexivity|]. split; [reflexivity|]. cbn -[Z.add Z.div]. change (48 / 16) with 3. change (64 / 16) with 4. lia.
Qed.

Lemma bind_mem_decodes m0 :
  wq_sig qp = false -> mw_type mw = IBV_MW_TYPE_1 ->
  let m := ctrl_end qp (block_at qp c 0) MLX5_OPCODE_UMR 12 (bind_mem m0) in
  decode_bind qp c m =
    mk_dbind MLX5_OPCODE_UMR (mw_rkey mw) ((mw_rkey mw + 1) mod 2 ^ 8) 0xffffff
      (access_bits (bi_access_flags bi)) (bi_addr bi) (bi_length bi)
      (bi_length bi, mr_lkey mr, bi_addr bi).
Proof.
  intros Hsig Hty m.
  destruct (ctrl_end_words qp (block_at qp c 0) MLX5_OPCODE_UMR 12 (bind_mem m0)) as [E1 _];
    [by vm_compute|lia|done|]. fold m in E1.
  pose proof (block_at_disjoint qp c 0 1 Hw ltac:(lia) ltac:(lia) ltac:(lia)) as D01.
  pose proof (block_at_disjoint qp c 0 2 Hw ltac:(lia) ltac:(lia) ltac:(lia)) as D02.
  pose proof (block_at_disjoint qp c 1 2 Hw ltac:(lia) ltac:(lia) ltac:(lia)) as D12.
  destruct (access_bits_eq (bi_access_flags bi)) as [Eacc Hacc].
  destruct (key_word (ibv_inc_rkey (mw_rkey mw))) as (K1 & K2 & K3).
  destruct (inc_rkey_fields _ Hk) as (_ & Etag & _).
  unfold decode_bind, read_data. cbv zeta. rewrite E1. clear E1.
  rewrite (proj1 (word_fields _ MLX5_OPCODE_UMR ltac:(by vm_compute))).
  unfold m, ctrl_end. rewrite Hsig. unfold bind_mem, umr_data_seg, umr_mkey_seg, umr_control_seg.
  fold bi in Ha, Hl, Hz. rewrite Hty, Hz. assert ((bi_length bi =? 0) = false) as -> by lia.
  cbv zeta. cbn [negb orb Z.eqb Pos.eqb]. rewrite Eacc.
  clearbody bi c. clear m. rewrite Z.eqb_refl. cbn [orb].
  rewrite <- Etag, <- K1, <- K2. set (w := Z.lor _ 4294967040) in *.
  f_equal; load_solve; rewrite ?Z.mod_small by (simpl; lia); done.
Qed.

End BindElement.

(** C40.  Binding a type 1 window.  On an RC or UC queue with room, [ibv_bind_mw] of a region
    of the same protection domain returns 0; the device finds in the ring one UMR element that
    names the old key, gives the key the next tag, opens exactly the range and the access asked
    for and points at the memory of the region; the window carries the key whose index is
    that of the old one and whose tag is the next, the one of the element; and the forecast,
    which a request without data does not concern, leaves its table alone. *)
Theorem bind_mw_binds ntop pd mr_pd attr dev clock ctx tails mw mwb mr shm s :
  let q := ss_qp s in let bi := mwb_bind_info mwb in let wr := bind_request mw mwb in
  sq_wf q -> 3 <= wqe_cnt (sq q) -> 0 <= qp_num q < 2 ^ 24 -> wq_sig q = false ->
  qp_type q = IBV_QPT_RC \/ qp_type q = IBV_QPT_UC ->
  snd_dbr q + 4 <= sq_start q \/ qend (sq q) <= snd_dbr q ->
  mw_type mw = IBV_MW_TYPE_1 -> 0 <= mw_rkey mw < 2 ^ 32 ->
  bi_mr bi = Some mr -> pd = mr_pd -> mr_type mr = IBV_MR_TYPE_MR -> 0 <= mr_lkey mr < 2 ^ 32 ->
  has_flag (mr_alloc_flags mr) IBV_ACCESS_ZERO_BASED = false ->
  has_flag (bi_access_flags bi) IBV_ACCESS_ZERO_BASED = false ->
  0 <= bi_addr bi < 2 ^ 64 -> 0 < bi_length bi <= 2 ^ 31 ->
  post_send_guards q 0 (tails 0) wr = Ok ->
  exists mw' s', ibv_bind_mw ntop pd mr_pd attr dev clock ctx tails mw mwb shm s = BindDone 0 mw' shm s' /\
    mw_rkey mw' / 2 ^ 8 = mw_rkey mw / 2 ^ 8 /\ mw_rkey mw' mod 2 ^ 8 = (mw_rkey mw + 1) mod 2 ^ 8 /\
    decode_bind q (cur_post (sq q)) (ss_mem s') =
      mk_dbind MLX5_OPCODE_UMR (mw_rkey mw) (mw_rkey mw' mod 2 ^ 8) 0xffffff
        (access_bits (bi_access_flags bi)) (bi_addr bi) (bi_length bi) (bi_length bi, mr_lkey mr, bi_addr bi).
Proof.
  intros q bi wr Hw Hcnt Hqn Hsig Hty Hdb Hmt Hk Hmr Hpd Hmrt Hlk Hza Hz Ha Hl Hg.
  assert (Hfc : flow_forecast ntop attr dev clock q [wr] shm = FcDone shm) by reflexivity.
  destruct (inc_rkey_fields _ Hk) as (Ei & Et & _).
  set (ctrl := block_at q (cur_post (sq q)) 0).
  assert (Ectrl : mlx5_get_send_wqe q (sq_idx q) = ctrl) by (unfold ctrl, block_at; by rewrite sq_idx_slot).
  destruct (bind_segs q Hw Hcnt Hqn mw mwb mr Hmr Hk Hlk Ha Hl Hz ctx
    (mk_ws (ctrl_begin q ctrl (if has_flag (send_flags wr) IBV_SEND_FENCE then MLX5_WQE_CTRL_FENCE else fm_cache q)
      wr (ss_mem s)) (ctrl + 16) 1 (mk_scp 0 0) 0 0 0) Hty eq_refl eq_refl) as (ws & Es & Em & Ez).
  assert (Ez' : ws_size ws = 12) by (simpl in Ez; lia). fold ctrl wr in Es.
  assert (El : post_send_locked ctx tails [wr] s = (Ok, 1, post_send_db ctx 1 false 12 ctrl
    (mk_ss (set_fm_cache (ws_next_fence ws) (slot_done (sq_idx q) (wr_id wr) 0 12
       (set_slot_wr_data (sq_idx q) (ws_wr_data ws) q))) (ss_bf s)
       (ctrl_end q ctrl MLX5_OPCODE_UMR 12 (ws_mem ws)) (ss_trace s)))).
  { unfold post_send_locked, post_send_loop, post_send_wr. cbv zeta. cbn [ps_qp ps_next_fence ps_mem ps_scp ps_max_tso ps_inl].
    fold q. rewrite Hg, Ectrl. change (ctrl + sizeof_ctrl_seg) with (ctrl + 16).
    change (sizeof_ctrl_seg / 16) with 1. rewrite Es, Ez'.
    change (is_inline wr) with (has_flag (mwb_send_flags mwb) IBV_SEND_INLINE && false).
    rewrite andb_false_r. reflexivity. }
  unfold ibv_bind_mw, mlx5_bind_mw. fold bi wr. rewrite Hmt, Hmr, Hz, Hmrt, Hza, Hpd, Z.eqb_refl. cbn [negb andb].
  rewrite bool_decide_eq_false_2 by done. cbn [negb andb]. rewrite Z.eqb_refl. cbn [negb].
  unfold _mlx5_post_send. fold q. rewrite Hfc, El. cbn [Z.eqb].
  eexists _, _. split; [reflexivity|]. cbn [mw_rkey]. change (bind_rkey wr) with (ibv_inc_rkey (mw_rkey mw)).
  split_and!; [exact Ei|exact Et|]. rewrite Et.
  etransitivity; [|exact (bind_mem_decodes q Hw Hcnt Hqn mw mwb mr Hmr Hk Hlk Ha Hl Hz
    (ctrl_begin q ctrl (if has_flag (send_flags wr) IBV_SEND_FENCE then MLX5_WQE_CTRL_FENCE else fm_cache q)
      wr (ss_mem s)) Hsig Hmt)].
  cbn [ws_mem] in Em. rewrite <- Em. fold ctrl. apply decode_bind_ext; [done|]. intros a Hin. apply post_send_db_mem.
  change (snd_dbr (ss_qp _)) with (snd_dbr q). cbn. lia.
Qed.

Lemma bind_mw_binds_witness :
  let s := demo_send IBV_QPT_RC 3 in
  let mr := mk_mr 18 IBV_MR_TYPE_MR 0 in
  let mwb := mk_mwb 77 2 (mk_bind_info (Some mr) 9000 500 (IBV_ACCESS_REMOTE_WRITE + IBV_ACCESS_REMOTE_READ)) in
  let mw := mk_mw 0x12ff IBV_MW_TYPE_1 in
  exists mw' s', ibv_bind_mw (fun _ => []) 1 1 (mk_qp_attr 3 []) [] (0, 0) demo_ctx (fun _ => (0, 0)) mw mwb None s =
      BindDone 0 mw' None s' /\ mw_rkey mw' mod 2 ^ 8 = 0 /\
    db_data (decode_bind (ss_qp s) 3 (ss_mem s')) = (500, 18, 9000).
Proof.
  intros s mr mwb mw.
  destruct (bind_mw_binds (fun _ => []) 1 1 (mk_qp_attr 3 []) [] (0, 0) demo_ctx (fun _ => (0, 0)) mw mwb mr None s)
    as (mw' & s' & E & _ & Ht & Hd); try done.
  - apply demo_wf. lia.
  - by left.
  - left. by vm_compute.
  - exists mw', s'. split; [exact E|]. split; [rewrite Ht; reflexivity|].
    change 3 with (cur_post (sq (ss_qp s))). rewrite Hd. reflexivity.
Defined.

(** A window that is refused, by the checks or by the post, keeps its key. *)
Lemma bind_refused_keeps_key ntop pd mr_pd attr dev clock ctx tails mw mwb shm s r mw' shm' s' :
  ibv_bind_mw ntop pd mr_pd attr dev clock ctx tails mw mwb shm s = BindDone r mw' shm' s' ->
  r <> 0 -> mw' = mw.
Proof.
  unfold ibv_bind_mw, mlx5_bind_mw. cbv zeta. intros E Hr. destruct_ifs_in E; try congruence.
  all: destruct (bi_mr _); try (destruct_ifs_in E; try congruence).
  all: destruct (_mlx5_post_send _ _ _ _ _ _ _ _ _); [done|]; injection E as <- <- _ _.
  all: by rewrite (proj2 (Z.eqb_neq _ _) Hr).
Qed.

(** [attr->send_ops_flags] is read whether or not [comp_mask] marks it as valid
    ([sq_overhead] asks first): a queue pair created for raw elements only, whose
    attributes carry an unmarked value, is refused, and accepted when the value happens
    to be 0. *)
Theorem unmarked_ops_refused :
  let ask ops := mk_ia IBV_QPT_RC 0 ops 0 false (mk_cap 1 1 1 1 0) in
  let dv := Some (mk_dvq (mk_dv MLX5DV_QP_INIT_ATTR_MASK_SEND_OPS_FLAGS MLX5DV_QP_EX_WITH_RAW_WQE) 0) in
  let ret ops := fst <$> mlx5_qp_fill_wr_pfns (demo_qp IBV_QPT_RC 3) (ask ops) dv no_ops in
  ret IBV_QP_EX_WITH_TSO = Some EOPNOTSUPP /\ ret 0 = Some 0.
Proof. split; reflexivity. Qed.
