(* ===== verification/SendFifo.v ===== *)
(** The send queue as a FIFO of requests.

    Posting, the doorbell, the overflow check and the sizes of creation together make
    the ring a queue the device can trust: whatever the application posts while the
    poller frees elements, the device finds in the ring exactly the requests that are
    posted and not completed, in order, each with all its fields.  No hypothesis says
    that a list fits the ring: the sizes and the overflow check guarantee it. *)

From stdpp Require Import base numbers list.
From S2P Require Import Prelude Mem Types Wqe Forecast PostSend SendSafe SendQueue SendDecode Recv RecvProps Sizes SizesProps SizesFit.

(** * Elements *)

Lemma moved_scatter q0 q wr : sq_moved q0 q -> scatter_wr q0 wr <-> scatter_wr q wr.
Proof. intros [E S]. rewrite E, S. split; intros H; destruct H; by split. Qed.

Lemma moved_blocks q0 q wr : sq_moved q0 q -> wr_blocks q wr = wr_blocks q0 wr.
Proof. intros [E S]. by rewrite E. Qed.

Lemma moved_holds q0 q c idx wr f m :
  sq_moved q0 q -> holds (qp_at q c) idx wr f m <-> holds (qp_at q0 c) idx wr f m.
Proof. intros [E S]. rewrite E, S. split; intros H; destruct H; by split. Qed.

(** The bytes of an element are those of its blocks. *)
Lemma holds_outside q c d wr f m m' :
  sq_wf q -> 0 <= qp_num q < 2 ^ 24 -> scatter_wr q wr ->
  (forall a j, 0 <= j < wr_blocks q wr -> block_at q c (d + j) <= a < block_at q c (d + j) + 64 -> m' a = m a) ->
  holds (qp_at q (u32 (c + d))) (slot_at c (wqe_cnt (sq q)) d) wr f m ->
  holds (qp_at q (u32 (c + d))) (slot_at c (wqe_cnt (sq q)) d) wr f m'.
Proof.
  intros Hw Hq Hwr Hm Hh. set (q' := qp_at q (u32 (c + d))).
  assert (Hqw : sq_wf q') by (destruct Hw; split; simpl; auto with mlx5).
  assert (Hidx : 0 <= slot_at c (wqe_cnt (sq q)) d < wqe_cnt (sq q)) by (apply slot_at_range, wf_cnt_pos; done).
  assert (Hwr' : scatter_wr q' wr) by (destruct Hwr; by split).
  eapply (holds_frame q' Hqw Hq _ Hidx wr Hwr'); [exact Hh|]. intros k a Hk Ha.
  pose proof (unit_in_blocks q' wr k (sw_units _ _ Hwr') Hk) as Hb.
  assert (E : unit_at q' (ctrl_of q' (slot_at c (wqe_cnt (sq q)) d)) k = block_at q c (d + k / 4) + 16 * (k mod 4)).
  { rewrite <- (Z.add_0_r d) at 1. change (slot_at c (wqe_cnt (sq q)) (d + 0)) with (slot_at (c) (wqe_cnt (sq q')) (d + 0)).
    rewrite <- (slot_at_u32 q' c d 0 Hqw), unit_block by (done || lia). unfold block_at. simpl.
    change (wqe_cnt (sq q)) with (wqe_cnt (sq q')). by rewrite (slot_at_u32 q' c d (k / 4) Hqw). }
  rewrite E in Ha. apply (Hm a (k / 4)); [done|]. pose proof (Z.mod_pos_bound k 4). lia.
Qed.

(** A posted request with the fence it was given *)
Notation entry := (Z * ibv_send_wr)%type.

(** * A run of the loop on transport requests *)

Section Run.
#[local] Set Default Proof Using "Type*".
Context (ctx : mlx5_context) (dci : bool) (ops mops W : Z) (q0 : mlx5_qp).
Context (Hq : 0 <= qp_num q0 < 2 ^ 24) (Hlim : send_limits ctx q0) (Hz : sq_sized dci ops mops W q0).

Definition good_wr (wr : ibv_send_wr) : Prop := scatter_wr q0 wr /\ op_covered ops wr.

Lemma good_safe q wr : sq_moved q0 q -> good_wr wr -> wr_safe q wr = true.
Proof.
  intros Hm [Hs _]. apply (moved_scatter _ _ _ Hm) in Hs. unfold wr_safe, inline_ok. rewrite (sw_inline _ _ Hs). simpl.
  apply bool_decide_eq_true. unfold lengths_ok, length_bound. rewrite (sw_inline _ _ Hs).
  eapply Forall_impl; [exact (rg_sges _ (sw_range _ _ Hs))|]. intros sg []. lia.
Qed.

Lemma good_type wr : good_wr wr -> qp_type q0 <> IBV_QPT_RAW_PACKET.
Proof. intros [Hs _] E. pose proof (sw_op _ _ Hs) as (Hty & _)%transport_wr_cases. rewrite E in Hty. by destruct Hty as [?|[?|?]]. Qed.

(** Each request posted passed the overflow check and fits; the sizes are the blocks. *)
Lemma posts_accepted tails n l sizes s s2 :
  posts ctx tails n l sizes s s2 -> sq_step q0 (ps_qp s) -> sq_wf (ps_qp s) -> ps_scp s = scp0 -> Forall good_wr l ->
  (forall i wr, l !! i = Some wr -> wr_blocks q0 wr <= W / 64 /\
     let k := n + Z.of_nat i in mlx5_wq_overflow (sq (ps_qp s)) k (tails k).1 (tails k).2 = false) /\
  sumZ nbb sizes = sumZ (wr_blocks q0) l /\ ps_scp s2 = scp0 /\
  ps_next_fence s2 = (if l is [] then ps_next_fence s else 0).
Proof.
  induction 1 as [n s|n wr l sizes s s1 s2 E Hp IH]; intros Hst Hw Hscp Hl; [by split_and!|].
  apply Forall_cons in Hl as [Hwr Hl].
  assert (Hg : post_send_guards (ps_qp s) n (tails n) wr = Ok) by (unfold post_send_wr in E; by destruct (post_send_guards _ _ _ _)).
  pose proof (step_moved _ _ Hst) as Hm. pose proof (proj1 (moved_scatter _ _ _ Hm) (proj1 Hwr)) as Hsw.
  assert (Hn : qp_num (ps_qp s) = qp_num q0) by (by rewrite (step_qp _ _ Hst)).
  destruct (post_send_wr_element ctx n (tails n) wr s Hw ltac:(by rewrite Hn) Hsw Hscp Hg) as (s1' & E' & Hsz & Hnf & Hscp1 & _).
  rewrite E in E'. injection E' as <-.
  destruct (post_send_wr_ok _ _ _ _ _ _ Hw E) as (_ & _ & _ & _ & _ & Hw1 & _).
  pose proof (post_send_wr_step _ _ _ _ _ _ E) as Hst1.
  destruct (IH (transitivity Hst Hst1) Hw1 Hscp1 Hl) as (Hi & Hsum & Hsc2 & Hnf2).
  assert (Hb : nbb (ps_size s1) <= W / 64).
  { eapply (post_send_wr_fits ctx dci ops mops W); [exact Hw|by apply (moved_limits q0)|by apply (moved_sized q0)|
      by apply good_safe|apply Hwr|intros _; apply (sw_inline _ _ Hsw)|done|exact E]. }
  assert (Ew : wr_blocks q0 wr = nbb (ps_size s1)) by (unfold wr_blocks; by rewrite Hsz, (wr_units_step _ _ _ Hst)).
  split_and!; [|simpl; lia|done|destruct l; congruence].
  intros [|i] w Hi'; simpl in Hi'.
  - injection Hi' as <-. split; [lia|]. cbv zeta. rewrite Z.add_0_r. unfold post_send_guards in Hg.
    destruct (_ || _); [done|]. by destruct (mlx5_wq_overflow _ _ _ _).
  - destruct (Hi i w Hi') as [Hb' Ho]. split; [done|]. cbv zeta in *.
    replace (n + Z.of_nat (S i)) with (n + 1 + Z.of_nat i) by lia.
    rewrite (step_sq _ _ Hst1) in Ho. exact Ho.
Qed.

(** A call on transport requests posts a prefix and touches nothing else: a request that
    is refused is refused before it writes. *)
Lemma locked_posts tails wrs s o n s' :
  ss_qp s = q0 -> sq_wf q0 -> Forall good_wr wrs -> post_send_locked ctx tails wrs s = (o, n, s') ->
  exists k sizes ps, n = Z.of_nat k /\ (k <= length wrs)%nat /\
    posts ctx tails 0 (take k wrs) sizes (loop_start s) ps /\
    s' = post_send_db ctx n (ps_inl ps) (ps_size ps) (ps_ctrl ps)
           (mk_ss (set_fm_cache (ps_next_fence ps) (ps_qp ps)) (ss_bf s) (ps_mem ps) (ss_trace s)).
Proof.
  intros Es Hw Hl. unfold post_send_locked. fold (loop_start s).
  destruct (post_send_loop ctx tails 0 wrs (loop_start s)) as [[o1 n1] ps] eqn:E. intros [= -> -> <-].
  destruct (post_send_loop_posts _ _ _ _ _ _ _ _ E) as (k & sizes & ps1 & -> & Hk & Hp & Hend).
  exists k, sizes, ps1. split_and!; [done|done|done|].
  destruct Hend as [(_ & _ & ->)|(wr & Hwr & Ho & Hpost)]; [done|].
  assert (ps = ps1) as ->; [|done].
  assert (Hst : sq_step q0 (ps_qp (loop_start s))) by (by rewrite <- Es).
  assert (Hw' : sq_wf (ps_qp (loop_start s))) by (simpl; by rewrite Es).
  destruct (posts_accepted _ _ _ _ _ _ Hp Hst Hw' ltac:(done) ltac:(by apply Forall_take)) as (_ & _ & Hscp & _).
  pose proof (posts_step _ _ _ _ _ _ _ _ Hp Hst) as Hst1. pose proof (posts_counters _ _ _ _ _ _ _ Hp Hw') as (_ & Hw1 & _).
  destruct (post_send_guards (ps_qp ps1) (0 + Z.of_nat k) (tails (0 + Z.of_nat k)) wr) eqn:Eg.
  - pose proof (proj1 (Forall_lookup_1 _ _ _ _ Hl Hwr)) as Hs. rewrite (moved_scatter _ _ _ (step_moved _ _ Hst1)) in Hs.
    assert (Hn : qp_num (ps_qp ps1) = qp_num q0) by (by rewrite (step_qp _ _ Hst1)).
    destruct (post_send_wr_element ctx _ _ wr ps1 Hw1 ltac:(by rewrite Hn) Hs Hscp Eg) as (s1 & E1 & _).
    congruence.
  - unfold post_send_wr in Hpost. rewrite Eg in Hpost. by injection Hpost as _ <-.
  - unfold post_send_wr in Hpost. rewrite Eg in Hpost. by injection Hpost as _ <-.
Qed.
End Run.

(** * The queue *)

Section Fifo.
#[local] Set Default Proof Using "Type*".
Context (ctx : mlx5_context) (dci : bool) (ops mops W : Z) (q0 : mlx5_qp).
Context (Hq : 0 <= qp_num q0 < 2 ^ 24) (Hlim : send_limits ctx q0) (Hz : sq_sized dci ops mops W q0).
Notation good_wr := (good_wr ops q0).

Definition out_blocks (l : list entry) : Z := sumZ (fun e => wr_blocks q0 e.2) l.

(** The fences a list of requests gets: what was owed goes to the first. *)
Definition fenced (owed : Z) (wrs : list ibv_send_wr) : list entry :=
  imap (fun i wr => (wr_fence (if decide (i = 0%nat) then owed else 0) wr, wr)) wrs.

(** The ring holds the outstanding requests [l], oldest first, in the blocks before
    [cur_post]. *)
Record fifo (l : list entry) (s : send_st) : Prop := {
  ff_moved : sq_moved q0 (ss_qp s);
  ff_wf : sq_wf (ss_qp s);
  ff_flight : in_flight (sq (ss_qp s)) (wq_tail (sq (ss_qp s))) = Z.of_nat (length l);
  ff_tail : 0 <= wq_tail (sq (ss_qp s)) < 2 ^ 32;
  ff_room : Z.of_nat (length l) <= max_post (sq q0);
  ff_good : Forall (fun e => good_wr e.2 /\ wr_blocks q0 e.2 <= W / 64) l;
  ff_holds : forall i e, l !! i = Some e ->
    let c := cur_post (sq (ss_qp s)) in let d := - out_blocks (drop i l) in
    holds (qp_at q0 (u32 (c + d))) (slot_at c (wqe_cnt (sq q0)) d) e.2 e.1 (ss_mem s)
}.

(** One call, with what the poller does meanwhile: [call_tails n] are the values of the
    tail the overflow check of the [n]-th request reads, and by the end of the call the
    [call_done] oldest requests are complete. *)
Record send_call : Type := mk_call {
  call_wrs : list ibv_send_wr; call_tails : Z -> Z * Z; call_done : nat }.

Definition call_ok (c : send_call) (l : list entry) (tail : Z) : Prop :=
  Forall good_wr (call_wrs c) /\ (call_done c <= length l)%nat /\
  forall n, exists j1 j2, 0 <= j1 <= Z.of_nat (call_done c) /\ 0 <= j2 <= Z.of_nat (call_done c) /\
    call_tails c n = (u32 (tail + j1), u32 (tail + j2)).

Definition set_tail_by (k : nat) (s : send_st) : send_st :=
  let q := ss_qp s in
  mk_ss (set_sq (set_wq_tail (u32 (wq_tail (sq q) + Z.of_nat k)) (sq q)) q) (ss_bf s) (ss_mem s) (ss_trace s).

(** The call on the queue: its result, the state, and the outstanding requests *)
Definition send_step (c : send_call) (s : send_st) (l : list entry) : outcome * send_st * list entry :=
  let '(o, n, s') := post_send_locked ctx (call_tails c) (call_wrs c) s in
  (o, set_tail_by (call_done c) s',
   drop (call_done c) l ++ fenced (fm_cache (ss_qp s)) (take (Z.to_nat n) (call_wrs c))).

(** ** Counting *)

Lemma in_flight_done wq t j len :
  in_flight wq t = len -> 0 <= j <= len -> in_flight wq (u32 (t + j)) = len - j.
Proof.
  unfold in_flight. intros E Hj. pose proof (u32_range (wq_head wq - t)).
  assert (Es : u32 (wq_head wq - u32 (t + j)) = u32 (u32 (wq_head wq - t) - j)).
  { unfold u32. rewrite Zminus_mod_idemp_r, Zminus_mod_idemp_l. f_equal. lia. }
  rewrite Es, E. apply u32_small. lia.
Qed.

(** A request that passes the check leaves room for it beside those not completed. *)
Lemma accepted_room wq t len done n t1 t2 j1 j2 :
  in_flight wq t = len -> t1 = u32 (t + j1) -> t2 = u32 (t + j2) ->
  0 <= j1 <= done -> 0 <= j2 <= done -> done <= len -> 0 <= n -> len + n < 2 ^ 32 ->
  mlx5_wq_overflow wq n t1 t2 = false -> len - done + n < max_post wq.
Proof.
  intros E -> -> H1 H2 Hd Hn Hb. unfold mlx5_wq_overflow.
  pose proof (in_flight_done wq t j1 len E ltac:(lia)) as E1. pose proof (in_flight_done wq t j2 len E ltac:(lia)) as E2.
  unfold in_flight in E1, E2. rewrite E1, E2. rewrite !u32_small by lia.
  destruct (Z.ltb_spec (len - j1 + n) (max_post wq)); [lia|]. destruct (Z.geb_spec (len - j2 + n) (max_post wq)); [done|lia].
Qed.

Lemma out_blocks_app l1 l2 : out_blocks (l1 ++ l2) = out_blocks l1 + out_blocks l2.
Proof. apply sumZ_app. Qed.

Lemma out_blocks_snd l : out_blocks l = sumZ (wr_blocks q0) (snd <$> l).
Proof. unfold out_blocks. induction l as [|e l IH]; simpl in *; [done|]. by rewrite IH. Qed.

Lemma fenced_snd f wrs : snd <$> fenced f wrs = wrs.
Proof.
  unfold fenced. enough (H : forall g : nat -> ibv_send_wr -> Z, snd <$> imap (fun i wr => (g i wr, wr)) wrs = wrs) by apply H.
  induction wrs as [|wr l IH]; intros g; [done|]. rewrite imap_cons, fmap_cons. f_equal. apply (IH (fun i => g (S i))).
Qed.

Lemma fenced_lookup f wrs i e :
  fenced f wrs !! i = Some e -> exists wr, wrs !! i = Some wr /\ e = (wr_fence (if decide (i = 0%nat) then f else 0) wr, wr).
Proof. unfold fenced. rewrite list_lookup_imap. destruct (wrs !! i) as [wr|]; [|done]. intros [= <-]. by exists wr. Qed.

Lemma length_fenced f wrs : length (fenced f wrs) = length wrs.
Proof. apply length_imap. Qed.

Lemma drop_fenced_blocks f wrs i :
  out_blocks (drop i (fenced f wrs)) = sumZ (wr_blocks q0) wrs - sumZ (wr_blocks q0) (take i wrs).
Proof.
  rewrite out_blocks_snd, fmap_drop, fenced_snd. rewrite <- (take_drop i wrs) at 2. rewrite sumZ_app. lia.
Qed.

(** The blocks of [n] requests that fit *)
Lemma out_blocks_bound l :
  Forall (fun e => good_wr e.2 /\ wr_blocks q0 e.2 <= W / 64) l -> 0 <= out_blocks l <= Z.of_nat (length l) * (W / 64).
Proof.
  induction 1 as [|e l [[Hg _] Hb] Hl IH]; simpl; [lia|]. unfold wr_blocks in *.
  pose proof (wr_units_pos q0 e.2). pose proof (nbb_pos (wr_units q0 e.2)). pose proof (sw_units _ _ Hg). lia.
Qed.

(** ** One call *)

(** The hypotheses of the section hold of the QP at the start of a call. *)
Lemma moved_hyps q :
  sq_moved q0 q -> 0 <= qp_num q < 2 ^ 24 /\ send_limits ctx q /\ sq_sized dci ops mops W q /\
  (forall wrs, Forall good_wr wrs -> Forall (SendFifo.good_wr ops q) wrs).
Proof.
  intros Hm. split; [by rewrite (mv_qp _ _ Hm)|]. split_and!; [by apply (moved_limits q0)|by apply (moved_sized q0)|].
  intros wrs Hl. eapply Forall_impl; [exact Hl|]. intros wr [Hs Hc]. split; [by rewrite <- (moved_scatter q0)|done].
Qed.

Lemma call_room l s c k sizes ps :
  fifo l s -> call_ok c l (wq_tail (sq (ss_qp s))) -> (k <= length (call_wrs c))%nat ->
  posts ctx (call_tails c) 0 (take k (call_wrs c)) sizes (loop_start s) ps ->
  let P := fenced (fm_cache (ss_qp s)) (take k (call_wrs c)) in
  length P = k /\ Z.of_nat (length l) - Z.of_nat (call_done c) + Z.of_nat k <= max_post (sq q0) /\
  Forall (fun e => good_wr e.2 /\ wr_blocks q0 e.2 <= W / 64) P /\
  sumZ nbb sizes = sumZ (wr_blocks q0) (take k (call_wrs c)).
Proof.
  intros [Hm Hw Hfl Ht Hroom Hg Hh] (Hl & Hd & Hp) Hk Hps P.
  destruct (moved_hyps _ Hm) as (Hq' & Hlim' & Hz' & Hgood).
  destruct (posts_accepted ctx dci ops mops W (ss_qp s) Hq' Hlim' Hz' _ _ _ _ _ _ Hps ltac:(done) Hw ltac:(done)
    ltac:(by apply Forall_take, Hgood)) as (Hacc & Hsum & _).
  assert (Hmp : max_post (sq (ss_qp s)) = max_post (sq q0)) by (by rewrite (mv_sq _ _ Hm)).
  assert (Hmax : max_post (sq q0) <= 2 ^ 24).
  { pose proof (ss_post _ _ _ _ _ Hz). pose proof (ss_blocks _ _ _ _ _ Hz). destruct (ss_cnt _ _ _ _ _ Hz) as (e & He & Ec).
    assert (2 ^ e <= 2 ^ 24) by (apply Z.pow_le_mono_r; lia). nia. }
  split_and!.
  - unfold P. rewrite length_fenced, length_take. lia.
  - destruct (Z.le_gt_cases (Z.of_nat (length l) - Z.of_nat (call_done c) + Z.of_nat k) (max_post (sq q0))) as [|Hgt]; [done|].
    set (i := (max_post (sq q0) - (Z.of_nat (length l) - Z.of_nat (call_done c)))).
    destruct (lookup_lt_is_Some_2 (take k (call_wrs c)) (Z.to_nat i)) as [wr Hwr]; [rewrite length_take; lia|].
    destruct (Hacc _ _ Hwr) as [_ Ho]. cbv zeta in Ho. rewrite Z2Nat.id, Z.add_0_l in Ho by lia.
    destruct (Hp i) as (j1 & j2 & H1 & H2 & E). rewrite E in Ho. simpl in Ho.
    apply (accepted_room _ _ _ (Z.of_nat (call_done c)) i _ _ j1 j2 Hfl eq_refl eq_refl) in Ho; lia.
  - apply Forall_lookup. intros i e (wr & Hwr & ->)%fenced_lookup. simpl. split.
    + eapply Forall_lookup_1; [exact Hl|]. eapply lookup_take_Some in Hwr as [Hwr _]. exact Hwr.
    + rewrite <- (moved_blocks _ _ wr Hm). by apply (Hacc i).
  - rewrite Hsum. clear -Hm. induction (take k (call_wrs c)) as [|wr w IH]; [done|]. simpl. by rewrite IH, (moved_blocks _ _ wr Hm).
Qed.

Lemma db_qp n inl size ctrl s :
  0 <= wq_head (sq (ss_qp s)) < 2 ^ 32 ->
  ss_qp (post_send_db ctx n inl size ctrl s) =
  set_sq (set_wq_head (u32 (wq_head (sq (ss_qp s)) + n)) (sq (ss_qp s))) (ss_qp s).
Proof.
  intros Hh. unfold post_send_db. destruct (Z.eqb_spec n 0) as [->|]; [|done].
  rewrite Z.add_0_r, u32_small by done. destruct (ss_qp s) as [? ? ? ? ? ? ? ? ? ? ? ? ? ? ? ? ? ? ? ? ? ? w ? ? ? ? ? ? ? ?]. by destruct w.
Qed.

(** The QP after a call: its counters *)
Lemma call_qp l s c o n s' :
  fifo l s -> call_ok c l (wq_tail (sq (ss_qp s))) -> post_send_locked ctx (call_tails c) (call_wrs c) s = (o, n, s') ->
  let P := take (Z.to_nat n) (call_wrs c) in let T := sumZ (wr_blocks q0) P in
  let q := ss_qp s in let q' := ss_qp (set_tail_by (call_done c) s') in
  0 <= n <= Z.of_nat (length (call_wrs c)) /\
  sq_moved q0 q' /\ sq_wf q' /\ cur_post (sq q') = u32 (cur_post (sq q) + T) /\
  wq_head (sq q') = u32 (wq_head (sq q) + n) /\ wq_tail (sq q') = u32 (wq_tail (sq q) + Z.of_nat (call_done c)) /\
  Z.of_nat (length l) - Z.of_nat (call_done c) + n <= max_post (sq q0) /\
  Forall (fun e => good_wr e.2 /\ wr_blocks q0 e.2 <= W / 64) (fenced (fm_cache q) P).
Proof.
  intros Hf Hc E. pose proof Hf as [Hm Hw _ _ _ _ _]. pose proof Hc as (Hl & _).
  destruct (moved_hyps _ Hm) as (Hq' & Hlim' & Hz' & Hgood).
  destruct (locked_posts ctx dci ops mops W (ss_qp s) Hq' Hlim' Hz' _ _ _ _ _ _ eq_refl Hw (Hgood _ Hl) E)
    as (k & sizes & ps & -> & Hk & Hp & ->).
  destruct (call_room _ _ _ _ _ _ Hf Hc Hk Hp) as (_ & Hroom & HP & Hsum). rewrite Nat2Z.id. cbv zeta.
  destruct (posts_counters _ _ _ _ _ _ _ Hp Hw) as (_ & Hw1 & Hh1 & Hc1). rewrite Hsum in Hc1. simpl in Hh1, Hc1.
  pose proof (posts_step _ _ _ _ _ _ _ _ Hp ltac:(reflexivity)) as Hst.
  unfold set_tail_by. cbn [ss_qp]. rewrite db_qp by (simpl; apply Hw1). cbn [ss_qp]. simpl.
  rewrite Hh1, Hc1. split; [lia|]. split; [|split; [|split_and!; try done; by rewrite (step_sq _ _ Hst)]].
  - etrans; [exact Hm|]. destruct Hst as [E1 E2]. split; [by rewrite E1|simpl; by rewrite E2].
  - destruct Hw1. split; simpl; auto with mlx5.
Qed.

Context (Hdb : snd_dbr q0 + 4 <= sq_start q0 \/ qend (sq q0) <= snd_dbr q0).

Lemma block_in_ring c d a :
  sq_wf q0 -> block_at q0 c d <= a < block_at q0 c d + 64 -> sq_start q0 <= a < qend (sq q0).
Proof.
  intros Hw. unfold block_at. rewrite get_send_wqe_eq, (wf_qend _ Hw). unfold ring_len.
  pose proof (slot_at_range c (wqe_cnt (sq q0)) d (wf_cnt_pos _ Hw)). lia.
Qed.

(** The memory after a call: the new elements, and the ring elsewhere as it was *)
Lemma call_mem l s c o n s' :
  sq_wf q0 -> fifo l s -> call_ok c l (wq_tail (sq (ss_qp s))) ->
  post_send_locked ctx (call_tails c) (call_wrs c) s = (o, n, s') ->
  let P := take (Z.to_nat n) (call_wrs c) in let T := sumZ (wr_blocks q0) P in let cp := cur_post (sq (ss_qp s)) in
  T <= wqe_cnt (sq q0) ->
  (forall i wr, P !! i = Some wr -> let d := sumZ (wr_blocks q0) (take i P) in
     holds (qp_at q0 (u32 (cp + d))) (slot_at cp (wqe_cnt (sq q0)) d) wr
       (wr_fence (if decide (i = 0%nat) then fm_cache (ss_qp s) else 0) wr) (ss_mem s')) /\
  (forall a, sq_start q0 <= a < qend (sq q0) -> off_blocks q0 cp T a -> ss_mem s' a = ss_mem s a).
Proof.
  intros Hw0 Hf Hc E P T cp HT. pose proof Hf as [Hm Hw _ _ _ _ _]. pose proof Hc as (Hl & _).
  destruct (moved_hyps _ Hm) as (Hq' & Hlim' & Hz' & Hgood).
  destruct (locked_posts ctx dci ops mops W (ss_qp s) Hq' Hlim' Hz' _ _ _ _ _ _ eq_refl Hw (Hgood _ Hl) E)
    as (k & sizes & ps & -> & Hk & Hp & ->).
  unfold T in *. clear T. unfold P in *. clear P. rewrite Nat2Z.id in *. set (L := take k (call_wrs c)) in *.
  assert (Hsame : forall L', sumZ (wr_blocks (ss_qp s)) L' = sumZ (wr_blocks q0) L').
  { induction L' as [|w L' IH]; [done|]. simpl. by rewrite IH, (moved_blocks _ _ w Hm). }
  assert (Hcnt : wqe_cnt (sq (ss_qp s)) = wqe_cnt (sq q0)) by (by rewrite (mv_sq _ _ Hm)).
  assert (Hblk : forall d, block_at (ss_qp s) cp d = block_at q0 cp d).
  { intros d. unfold block_at. rewrite Hcnt. by rewrite (mv_qp _ _ Hm). }
  assert (HL : Forall (scatter_wr (ss_qp s)) L).
  { apply Forall_take. eapply Forall_impl; [exact (Hgood _ Hl)|]. by intros ? []. }
  assert (HT' : sumZ (wr_blocks (ss_qp s)) L <= wqe_cnt (sq (ss_qp s))) by (rewrite Hsame, Hcnt; exact HT).
  destruct (posts_hold ctx (ss_qp s) _ _ _ _ _ _ Hp ltac:(reflexivity) Hw Hq' HL eq_refl HT') as [Hnew Hoff].
  pose proof (posts_step ctx (ss_qp s) _ _ _ _ _ _ Hp ltac:(reflexivity)) as [Eq _].
  set (s2 := mk_ss _ _ _ _). assert (Hmem : forall a, sq_start q0 <= a < qend (sq q0) ->
    ss_mem (post_send_db ctx (Z.of_nat k) (ps_inl ps) (ps_size ps) (ps_ctrl ps) s2) a = ps_mem ps a).
  { intros a Ha. apply post_send_db_mem. unfold s2. cbn [ss_qp]. rewrite Eq, (mv_qp _ _ Hm).
    change (snd_dbr _) with (snd_dbr q0). lia. }
  split.
  - intros i wr Hi. specialize (Hnew i wr Hi). cbv zeta in Hnew. rewrite Hsame, Hcnt in Hnew.
    change (cur_post (sq (ps_qp (loop_start s)))) with cp in Hnew. apply (moved_holds _ _ _ _ _ _ _ Hm) in Hnew.
    eapply holds_outside; [exact Hw0|exact Hq| | |exact Hnew].
    + apply (moved_scatter _ _ _ Hm). by eapply Forall_lookup_1.
    + intros a j _ Ha. apply Hmem. by eapply block_in_ring.
  - intros a Ha Ho. rewrite Hmem by done. apply Hoff. intros d Hd. rewrite Hsame in Hd.
    change (cur_post (sq (ps_qp (loop_start s)))) with cp. rewrite Hblk. by apply Ho.
Qed.

Context (Hw0 : sq_wf q0).

Lemma u32_shift a b T : u32 (u32 (a + T) + (b - T)) = u32 (a + b).
Proof. rewrite u32_add_l. f_equal. lia. Qed.

Lemma slot_shift a b T :
  slot_at (u32 (a + T)) (wqe_cnt (sq q0)) (b - T) = slot_at a (wqe_cnt (sq q0)) b.
Proof. rewrite (slot_at_u32 q0) by done. f_equal. lia. Qed.

(** The share of the ring of each of [max_post] requests *)
Lemma ring_share : max_post (sq q0) * (W / 64) <= wqe_cnt (sq q0) /\ max_post (sq q0) <= 2 ^ 24.
Proof.
  destruct Hz as [[HW Hm] _ _ _ _ _ (k & Hk & Ek) [_ Hp]]. assert (2 ^ k <= 2 ^ 24) by (apply Z.pow_le_mono_r; lia).
  pose proof (Z.div_mod W 64 ltac:(lia)). split; nia.
Qed.

(** Blocks before and after the producer are apart while all of them fit the ring. *)
Lemma blocks_apart c x y S :
  - S <= x < 0 -> 0 <= y -> S + y < wqe_cnt (sq q0) ->
  block_at q0 c x + 64 <= block_at q0 c y \/ block_at q0 c y + 64 <= block_at q0 c x.
Proof.
  intros Hx Hy Hs. assert (E : forall z, block_at q0 c z = block_at q0 (c - S) (z + S)).
  { intros z. unfold block_at, slot_at. do 2 f_equal. lia. }
  rewrite !E. apply block_at_disjoint; [done|lia..].
Qed.

Lemma drop_blocks L i (e : entry) :
  Forall (fun e => good_wr e.2 /\ wr_blocks q0 e.2 <= W / 64) L -> L !! i = Some e ->
  wr_blocks q0 e.2 <= out_blocks (drop i L) <= out_blocks L.
Proof.
  intros HL Hi. pose proof (out_blocks_bound _ (Forall_take _ i _ HL)) as H1.
  pose proof (out_blocks_bound _ (Forall_drop _ (S i) _ HL)) as H2.
  assert (E1 : out_blocks L = out_blocks (take i L) + out_blocks (drop i L)) by (by rewrite <- out_blocks_app, take_drop).
  rewrite (drop_S _ _ _ Hi) in E1 |- *. change (out_blocks (e :: ?l)) with (wr_blocks q0 e.2 + out_blocks l) in *.
  simpl in *. lia.
Qed.

Lemma send_step_fifo l s c o s' l' :
  fifo l s -> call_ok c l (wq_tail (sq (ss_qp s))) -> send_step c s l = (o, s', l') -> fifo l' s'.
Proof.
  intros Hf Hc. unfold send_step. destruct (post_send_locked _ _ _ s) as [[o1 n] s1] eqn:E. intros [= -> <- <-].
  destruct (call_qp _ _ _ _ _ _ Hf Hc E) as (Hn & Hmv & Hwf & Ecp & Eh & Et & Hroom & HP).
  pose proof (call_mem _ _ _ _ _ _ Hw0 Hf Hc E) as Hmem. cbv zeta in Hmem.
  set (P := take (Z.to_nat n) (call_wrs c)) in *. set (T := sumZ (wr_blocks q0) P) in *.
  set (cp := cur_post (sq (ss_qp s))) in *. set (D := fenced (fm_cache (ss_qp s)) P) in *.
  destruct Hf as [_ Hw Hfl Htl _ Hg Hh]. destruct Hc as (_ & Hd & _). set (L := drop (call_done c) l) in *.
  assert (HL : Forall (fun e => good_wr e.2 /\ wr_blocks q0 e.2 <= W / 64) L) by (by apply Forall_drop).
  assert (HDlen : Z.of_nat (length D) = n) by (unfold D, P; rewrite length_fenced, length_take; lia).
  assert (HLlen : Z.of_nat (length L) = Z.of_nat (length l) - Z.of_nat (call_done c)) by (unfold L; rewrite length_drop; lia).
  assert (HDT : out_blocks D = T) by (unfold D, T; by rewrite out_blocks_snd, fenced_snd).
  pose proof (out_blocks_bound L HL) as HbL. pose proof (out_blocks_bound D HP) as HbD. rewrite HDT in HbD.
  assert (Hfit : out_blocks L + T <= wqe_cnt (sq q0)).
  { rewrite HDlen in HbD. rewrite HLlen in HbL. pose proof ring_share. pose proof (ss_blocks _ _ _ _ _ Hz).
    assert (0 <= W / 64) by div_lia. nia. }
  destruct Hmem as [Hnew Hframe]; [lia|].
  split; [done|done| |rewrite Et; apply u32_range| |by apply Forall_app|].
  - unfold in_flight in *. rewrite Eh, Et, length_app. 
    assert (Hu : u32 (u32 (wq_head (sq (ss_qp s)) + n) - u32 (wq_tail (sq (ss_qp s)) + Z.of_nat (call_done c))) =
            u32 (u32 (wq_head (sq (ss_qp s)) - wq_tail (sq (ss_qp s))) + (n - Z.of_nat (call_done c)))).
    { unfold u32. rewrite Zminus_mod_idemp_l, Zminus_mod_idemp_r, Zplus_mod_idemp_l. f_equal. lia. }
    rewrite Hu, Hfl. pose proof ring_share. rewrite u32_small by lia. lia.
  - rewrite length_app. lia.
  - intros i e Hi. rewrite Ecp. change (ss_mem (set_tail_by _ _)) with (ss_mem s1). cbv zeta. fold cp.
    destruct (decide (i < length L)%nat) as [Hlt|Hge].
    + rewrite lookup_app_l in Hi by done. rewrite drop_app_le, out_blocks_app, HDT by lia.
      replace (- (out_blocks (drop i L) + T)) with (- out_blocks (drop i L) - T) by lia.
      rewrite u32_shift, slot_shift. unfold L in Hi. rewrite lookup_drop in Hi. specialize (Hh _ _ Hi). cbv zeta in Hh.
      fold cp in Hh. replace (drop (call_done c + i) l) with (drop i L) in Hh by (unfold L; by rewrite drop_drop).
      eapply holds_outside; [exact Hw0|exact Hq| | |exact Hh].
      * by apply (Forall_lookup_1 _ _ _ _ Hg Hi).
      * intros a j Hj Ha. apply Hframe; [by eapply block_in_ring|]. intros d Hd'.
        pose proof (drop_blocks L i e HL ltac:(unfold L; by rewrite lookup_drop)) as Hdi.
        destruct (blocks_apart cp (- out_blocks (drop i L) + j) d (out_blocks L)); lia.
    + rewrite lookup_app_r in Hi by lia. rewrite drop_app_ge by lia.
      set (k := (i - length L)%nat) in *. apply fenced_lookup in Hi as (wr & Hwr & ->). simpl.
      unfold D. rewrite drop_fenced_blocks. fold T.
      replace (- (T - sumZ (wr_blocks q0) (take k P))) with (sumZ (wr_blocks q0) (take k P) - T) by lia.
      rewrite u32_shift, slot_shift. by apply Hnew.
Qed.

(** ** Runs *)

Fixpoint send_run (cs : list send_call) (s : send_st) (l : list entry) : send_st * list entry :=
  match cs with
  | [] => (s, l)
  | c :: cs => let r := send_step c s l in send_run cs r.1.2 r.2
  end.

Fixpoint calls_ok (cs : list send_call) (s : send_st) (l : list entry) : Prop :=
  match cs with
  | [] => True
  | c :: cs => call_ok c l (wq_tail (sq (ss_qp s))) /\ let r := send_step c s l in calls_ok cs r.1.2 r.2
  end.

Lemma send_run_fifo cs : forall s l, fifo l s -> calls_ok cs s l -> fifo (send_run cs s l).2 (send_run cs s l).1.
Proof.
  induction cs as [|c cs IH]; intros s l Hf Hc; [done|]. simpl in *. destruct Hc as [Hc Hcs].
  destruct (send_step c s l) as [[o s1] l1] eqn:E. apply IH; [|done]. by eapply send_step_fifo.
Qed.

(** What the device finds in the blocks of the outstanding requests *)
Definition device_view (c : Z) (l : list entry) (m : mem) : list dev_wqe :=
  imap (fun i _ => decode_wqe q0 (block_at q0 c (- out_blocks (drop i l))) m) l.
Definition spec_view (c : Z) (l : list entry) : list dev_wqe :=
  imap (fun i e => wqe_spec (qp_at q0 (u32 (c - out_blocks (drop i l)))) e.1 e.2) l.

Lemma fifo_view l s :
  fifo l s -> device_view (cur_post (sq (ss_qp s))) l (ss_mem s) = spec_view (cur_post (sq (ss_qp s))) l.
Proof.
  intros [_ Hw _ _ _ Hg Hh]. apply imap_ext. intros i e Hi. specialize (Hh i e Hi). cbv zeta in Hh.
  set (c := cur_post _) in *. set (d := - out_blocks (drop i l)) in *.
  assert (Hqw : sq_wf (qp_at q0 (u32 (c + d)))) by (destruct Hw0; split; simpl; auto with mlx5).
  assert (Hidx : 0 <= slot_at c (wqe_cnt (sq q0)) d < wqe_cnt (sq q0)) by (by apply slot_at_range, wf_cnt_pos).
  assert (Hwr : scatter_wr (qp_at q0 (u32 (c + d))) e.2).
  { destruct (Forall_lookup_1 _ _ _ _ Hg Hi) as [[[] _] _]. by split. }
  exact (holds_decode _ Hqw Hq _ Hidx _ Hwr _ _ Hh).
Qed.
End Fifo.

(** C2.  The send queue is a FIFO between the application and the device.  On a QP
    sized for its operations, start from an empty queue and let the application make any
    sequence of [mlx5_post_send] calls with transport requests while the poller completes
    requests from the oldest on.  Then what the device reads in the ring, in the blocks
    before the producer index, is exactly the list of requests accepted and not yet
    completed, in order and with all fields: no accepted request is lost, reordered,
    overwritten by a later one or corrupted by the wrap of the ring or of the counters,
    and there are never more than [max_post] of them. *)
Theorem send_queue_fifo ctx dci ops mops W q0 cs s :
  sq_wf q0 -> send_limits ctx q0 -> sq_sized dci ops mops W q0 -> 0 <= qp_num q0 < 2 ^ 24 ->
  snd_dbr q0 + 4 <= sq_start q0 \/ qend (sq q0) <= snd_dbr q0 ->
  ss_qp s = q0 -> wq_head (sq q0) = 0 -> wq_tail (sq q0) = 0 -> calls_ok ctx ops q0 cs s [] ->
  let '(s', l') := send_run ctx cs s [] in
  let w := sq (ss_qp s') in
  Z.of_nat (length l') = in_flight w (wq_tail w) /\ in_flight w (wq_tail w) <= max_post w /\
  device_view q0 (cur_post w) l' (ss_mem s') = spec_view q0 (cur_post w) l'.
Proof.
  intros Hw Hlim Hz Hq Hdb Es Hh Ht Hc.
  assert (Hf : fifo ops W q0 [] s).
  { split; rewrite ?Es; [done|done| |lia| |done|done]; simpl.
    - unfold in_flight. by rewrite Hh, Ht.
    - pose proof (ss_post _ _ _ _ _ Hz). lia. }
  pose proof (send_run_fifo ctx dci ops mops W q0 Hq Hlim Hz Hdb Hw cs s [] Hf Hc) as H.
  destruct (send_run ctx cs s []) as [s' l']. simpl in H. cbv zeta.
  pose proof H as [Hm _ Hfl _ Hroom _ _]. split_and!; [done|rewrite Hfl, (mv_sq _ _ Hm); done|].
  by eapply fifo_view.
Qed.

(** ** Witness *)

(** On the created QP (eight blocks, two requests): an atomic and a send with immediate;
    after one completion two more, of which the second is refused; after another the
    send; after two more, two atomics, the last of which wraps around the ring. *)
Definition demo_atomic : ibv_send_wr := demo_wr IBV_WR_ATOMIC_CMP_AND_SWP 2 [mk_sge 8192 8 1; mk_sge 9000 28 2].
Definition demo_imm : ibv_send_wr := demo_wr IBV_WR_SEND_WITH_IMM 3 [mk_sge 9100 0 3; mk_sge 9200 7 4].
Definition demo_calls : list send_call :=
  [mk_call [demo_atomic; demo_imm] (fun _ => (0, 0)) 0;
   mk_call [demo_atomic; demo_imm] (fun _ => (0, 1)) 1;
   mk_call [demo_imm] (fun _ => (2, 2)) 1;
   mk_call [demo_atomic; demo_atomic] (fun _ => (3, 4)) 2].
#[local] Opaque demo_created.
Definition demo_fifo : send_st := mk_ss demo_created demo_bf (fun a => a mod 256) [].

Lemma demo_good : good_wr demo_ops demo_created demo_atomic /\ good_wr demo_ops demo_created demo_imm.
Proof.
  assert (H : forall op fl l, Forall sge_range l -> transport_wr demo_created (demo_wr op fl l) = true ->
    is_inline (demo_wr op fl l) = false -> (wr_units demo_created (demo_wr op fl l) <=? 32) = true ->
    op_covered demo_ops (demo_wr op fl l) -> good_wr demo_ops demo_created (demo_wr op fl l)).
  { intros op fl l Hl Ht Hi Hu Hc. apply Z.leb_le in Hu. split; [|done]. assert (wqe_cnt (sq demo_created) = 8) by (by vm_compute).
    split; [done|by apply demo_wr_range|done|lia|lia]. }
  split; (apply H; [repeat constructor; simpl; lia|by vm_compute..]).
Qed.

Ltac goods := cbn [call_wrs]; repeat (apply Forall_cons_2; [assumption|]); apply Forall_nil_2.

Lemma demo_calls_ok : calls_ok demo_ctx demo_ops demo_created demo_calls demo_fifo [].
Proof.
  destruct demo_good as [H1 H2].
  unfold demo_calls. cbn [calls_ok].
  split; [|split; [|split; [|split; [|done]]]].
  - split; [goods|]. split; [done|]. intros n. exists 0, 0. split; [cbn [call_done]; lia|split; [cbn [call_done]; lia|by vm_compute]].
  - split; [goods|]. split; [apply Nat.leb_le; by vm_compute|]. intros n. exists 0, 1. split; [cbn [call_done]; lia|split; [cbn [call_done]; lia|by vm_compute]].
  - split; [goods|]. split; [apply Nat.leb_le; by vm_compute|]. intros n. exists 1, 1. split; [cbn [call_done]; lia|split; [cbn [call_done]; lia|by vm_compute]].
  - split; [goods|]. split; [apply Nat.leb_le; by vm_compute|]. intros n. exists 1, 2. split; [cbn [call_done]; lia|split; [cbn [call_done]; lia|by vm_compute]].
Qed.

Lemma send_queue_fifo_witness :
  let r := send_run demo_ctx demo_calls demo_fifo [] in
  (length r.2, cur_post (sq (ss_qp r.1))) = (2%nat, 10) /\
  device_view demo_created 10 r.2 (ss_mem r.1) = spec_view demo_created 10 r.2.
Proof.
  intros r. assert (Er : (length r.2, cur_post (sq (ss_qp r.1))) = (2%nat, 10)) by (by vm_compute). split; [exact Er|].
  pose proof demo_ready as [[W Hz] Hw _ Hlim _ _ _ _ _].
  pose proof (send_queue_fifo demo_ctx false demo_ops 0 W demo_created demo_calls demo_fifo Hw (Hlim demo_ctx ltac:(simpl; lia)) Hz
    ltac:(vm_compute; split; congruence) ltac:(left; vm_compute; congruence) ltac:(unfold demo_fifo; cbn [ss_qp]; reflexivity) ltac:(by vm_compute) ltac:(by vm_compute)
    demo_calls_ok) as H.
  fold r in H. clearbody r. destruct r as [s' l']. cbn [fst snd] in *. destruct H as (_ & _ & H). injection Er as _ Ec. cbv zeta in H. rewrite Ec in H. exact H.
Defined.
