(* ===== verification/Dbrec.v ===== *)
(** Doorbell records (providers/mlx5/dbrec.c): an allocator that cuts pages into cache
    lines.  Each page has a bitmap of its free lines and a count of the used ones; the
    pages form a doubly linked list, a page enters it with its first record and leaves
    it, freed, with its last.

    Pages live in a store addressed by the pointers the list is made of; 0 is the null
    pointer.  An operation returns [None] where the C code would follow a dangling
    pointer, read outside the bitmap or not stop. *)

From stdpp Require Import base numbers list gmap.
From S2P Require Import Prelude Mem Types.

(** * State *)

(** [struct mlx5_db_page]; [pg_buf] is [buf.buf] *)
Record mlx5_db_page : Type := mk_page {
  pg_prev : Z; pg_next : Z; pg_buf : Z; num_db : Z; use_cnt : Z; pg_free : list Z }.

Definition set_prev (v : Z) (g : mlx5_db_page) : mlx5_db_page :=
  mk_page v (pg_next g) (pg_buf g) (num_db g) (use_cnt g) (pg_free g).
Definition set_next (v : Z) (g : mlx5_db_page) : mlx5_db_page :=
  mk_page (pg_prev g) v (pg_buf g) (num_db g) (use_cnt g) (pg_free g).
Definition set_use (v : Z) (fr : list Z) (g : mlx5_db_page) : mlx5_db_page :=
  mk_page (pg_prev g) (pg_next g) (pg_buf g) (num_db g) v fr.

(** The fields of the context the allocator uses, with the page size of the device *)
Record db_ctx : Type := mk_dbc {
  db_pages : gmap Z mlx5_db_page; db_list : Z; cache_line_size : Z; page_size : Z }.

Definition set_pages (v : gmap Z mlx5_db_page) (c : db_ctx) : db_ctx :=
  mk_dbc v (db_list c) (cache_line_size c) (page_size c).
Definition set_db_list (v : Z) (c : db_ctx) : db_ctx :=
  mk_dbc (db_pages c) v (cache_line_size c) (page_size c).

(** [page->f = ...]: [None] when [p] is not a page *)
Definition on_page (p : Z) (f : mlx5_db_page -> mlx5_db_page) (c : db_ctx) : option db_ctx :=
  g ← db_pages c !! p; Some (set_pages (<[p := f g]> (db_pages c)) c).

(** * Operations *)

(** [__add_page]: [page] and [buf] are what the allocators return.  The result is the new
    page, or 0. *)
Definition __add_page (page buf : option Z) (c : db_ctx) : option (Z * db_ctx) :=
  let pp := page_size c / cache_line_size c in
  let nlong := (pp + 63) / 64 in
  match page, buf with
  | Some p, Some b =>
    let next := db_list c in
    let c := set_db_list p (set_pages
      (<[p := mk_page 0 next b pp 0 (replicate (Z.to_nat nlong) (u64 (-1)))]> (db_pages c)) c) in
    if next =? 0 then Some (p, c) else c ← on_page next (set_prev p) c; Some (p, c)
  | _, _ => Some (0, c)
  end.

(** [for (page = context->db_list; page; page = page->next) if (test) break]: the page, 0
    at the end of the list *)
Fixpoint find_page (fuel : nat) (test : mlx5_db_page -> bool) (c : db_ctx) (p : Z) : option Z :=
  if p =? 0 then Some 0
  else match fuel with
  | O => None
  | S fuel => g ← db_pages c !! p; if test g then Some p else find_page fuel test c (pg_next g)
  end.

(** Walk the whole list: as many steps as there are pages *)
Definition search_page (test : mlx5_db_page -> bool) (c : db_ctx) : option Z :=
  find_page (size (db_pages c)) test c (db_list c).

(** [for (i = 0; !page->free[i]; ++i)]: [None] past the end of the array *)
Fixpoint first_nonzero (l : list Z) (i : Z) : option Z :=
  match l with
  | [] => None
  | x :: l => if x =? 0 then first_nonzero l (i + 1) else Some i
  end.

(** [ffsl]: one more than the position of the lowest bit set, 0 for 0 *)
Definition ffsl (x : Z) : Z :=
  match list_find (fun j => Z.testbit x j = true) (seqZ 0 64) with
  | Some (_, j) => j + 1
  | None => 0
  end.

(** [found:] in [mlx5_alloc_dbrec]: take a record of page [p] *)
Definition take_record (p : Z) (c : db_ctx) : option (Z * db_ctx) :=
  g ← db_pages c !! p;
  i ← first_nonzero (pg_free g) 0;
  let w := aget (pg_free g) i in
  let j := ffsl w - 1 in
  let fr := aset (pg_free g) i (Z.land w (u64 (Z.lnot (Z.shiftl 1 j)))) in
  Some (pg_buf g + (i * 64 + j) * cache_line_size c,
        set_pages (<[p := set_use (use_cnt g + 1) fr g]> (db_pages c)) c).

(** What the allocator of a parent domain answers, if there is one *)
Inductive custom_answer : Type := NoCustom | UseDefault | Custom (db : Z).

(** [mlx5_alloc_dbrec]: the record (0: none), [*custom_alloc], the context *)
Definition mlx5_alloc_dbrec (custom : custom_answer) (page buf : option Z) (c : db_ctx) : option (Z * bool * db_ctx) :=
  match custom with
  | Custom db => Some (db, negb (db =? 0), c)
  | _ =>
    p ← search_page (fun g => use_cnt g <? num_db g) c;
    if p =? 0 then
      '(p, c) ← __add_page page buf c;
      if p =? 0 then Some (0, false, c) else '(db, c) ← take_record p c; Some (db, false, c)
    else '(db, c) ← take_record p c; Some (db, false, c)
  end.

(** Unlink and free page [p] *)
Definition drop_page (p : Z) (c : db_ctx) : option db_ctx :=
  g ← db_pages c !! p;
  c ← (if negb (pg_prev g =? 0) then on_page (pg_prev g) (set_next (pg_next g)) c
       else Some (set_db_list (pg_next g) c));
  g ← db_pages c !! p;
  c ← (if negb (pg_next g =? 0) then on_page (pg_next g) (set_prev (pg_prev g)) c else Some c);
  Some (set_pages (delete p (db_pages c)) c).

(** [mlx5_free_db] of a record that is not the application's *)
Definition mlx5_free_db (custom : bool) (db : Z) (c : db_ctx) : option db_ctx :=
  if custom then Some c
  else
    p ← search_page (fun g => Z.land db (Z.lnot (page_size c - 1)) =? pg_buf g) c;
    if p =? 0 then Some c
    else
      g ← db_pages c !! p;
      let i := (db - pg_buf g) / cache_line_size c in
      let fr := aset (pg_free g) (i / 64) (Z.lor (aget (pg_free g) (i / 64)) (Z.shiftl 1 (i mod 64))) in
      let c := set_pages (<[p := set_use (use_cnt g - 1) fr g]> (db_pages c)) c in
      if use_cnt g - 1 =? 0 then drop_page p c else Some c.
