(* ===== verification/DbrecProps.v ===== *)
(** Correctness of the doorbell-record allocator: it refines a set of records in use.
    The list of pages stays a doubly linked list, the bitmaps describe the records in
    use, every search stops inside its list or array, and a page without records is
    given back. *)

From stdpp Require Import base numbers list gmap sets.
From S2P Require Import Prelude Mem Types Dbrec.

(** * Linked pages *)

(** The pages [l] form the part of a doubly linked list that starts at [p], after [prev]. *)
Fixpoint dl (m : gmap Z mlx5_db_page) (prev p : Z) (l : list Z) : Prop :=
  match l with
  | [] => p = 0
  | x :: l => p = x /\ x <> 0 /\ exists g, m !! x = Some g /\ pg_prev g = prev /\ dl m x (pg_next g) l
  end.

(** [m'] has the links of [m] at the pages of [l]. *)
Definition same_links (m m' : gmap Z mlx5_db_page) (l : list Z) : Prop :=
  forall x g, x ∈ l -> m !! x = Some g -> exists g', m' !! x = Some g' /\ pg_prev g' = pg_prev g /\ pg_next g' = pg_next g.

Lemma dl_same m m' prev p l : same_links m m' l -> dl m prev p l -> dl m' prev p l.
Proof.
  revert prev p. induction l as [|x l IH]; intros prev p Hs; simpl; [done|]. intros (-> & Hx & g & Hg & <- & Hl).
  destruct (Hs x g ltac:(set_solver) Hg) as (g' & Hg' & Ep & En).
  split_and!; [done|done|]. exists g'. split_and!; [done|done|]. rewrite En. apply IH; [|done]. intros y gy Hy. apply Hs. set_solver.
Qed.

Lemma same_links_insert m x g g' l :
  m !! x = Some g -> pg_prev g' = pg_prev g -> pg_next g' = pg_next g -> same_links m (<[x := g']> m) l.
Proof.
  intros Hx Ep En y gy _ Hy. destruct (decide (y = x)) as [->|]; [|rewrite lookup_insert_ne by done; eauto].
  rewrite lookup_insert_eq. rewrite Hx in Hy. injection Hy as <-. eauto.
Qed.

Lemma same_links_outside m x g' l : x ∉ l -> same_links m (<[x := g']> m) l.
Proof. intros Hx y gy Hy Hg. rewrite lookup_insert_ne by set_solver. eauto. Qed.

Lemma dl_lookup m prev p l x : dl m prev p l -> x ∈ l -> is_Some (m !! x) /\ x <> 0.
Proof.
  revert prev p. induction l as [|y l IH]; intros prev p; simpl; [set_solver|].
  intros (-> & Hy & g & Hg & _ & Hl) [->|Hx]%elem_of_cons; [by rewrite Hg|]. by eapply IH.
Qed.

(** The neighbours of a page of the list *)
Lemma dl_prev m prev p l x g :
  dl m prev p l -> x ∈ l -> m !! x = Some g -> p = x /\ pg_prev g = prev \/ pg_prev g ∈ l.
Proof.
  revert prev p. induction l as [|y l IH]; intros prev p; simpl; [set_solver|].
  intros (-> & Hy & gy & Hgy & Ep & Hl) [->|Hx]%elem_of_cons Hg; [left; split; [done|congruence]|].
  right. destruct (IH _ _ Hl Hx Hg) as [[_ ->]|]; set_solver.
Qed.

Lemma dl_next m prev p l x g :
  dl m prev p l -> NoDup l -> x ∈ l -> m !! x = Some g -> pg_next g = 0 \/ (pg_next g ∈ l /\ pg_next g <> x /\ pg_next g <> p).
Proof.
  revert prev p. induction l as [|y l IH]; intros prev p; simpl; [set_solver|].
  intros (-> & Hy & gy & Hgy & Ep & Hl) [Hn Hnd]%NoDup_cons [->|Hx]%elem_of_cons Hg.
  - rewrite Hgy in Hg. injection Hg as <-. destruct l as [|z l]; [by left|]. destruct Hl as (Hz & _). right. rewrite Hz. set_solver.
  - destruct (IH _ _ Hl Hnd Hx Hg) as [|(H1 & H2 & _)]; [by left|]. right. set_solver.
Qed.

(** Two states of a page that differ in the links only *)
Definition same_records (g g' : mlx5_db_page) : Prop :=
  pg_buf g' = pg_buf g /\ num_db g' = num_db g /\ use_cnt g' = use_cnt g /\ pg_free g' = pg_free g.

(** [m'] is [m] without [x], whose neighbours are linked to each other. *)
Record unlinked (m m' : gmap Z mlx5_db_page) (x : Z) (g : mlx5_db_page) : Prop := {
  ul_gone : m' !! x = None;
  ul_rest : forall y gy, y <> x -> m !! y = Some gy -> exists gy', m' !! y = Some gy' /\
    pg_next gy' = (if decide (y = pg_prev g) then pg_next g else pg_next gy) /\
    pg_prev gy' = (if decide (y = pg_next g) then pg_prev g else pg_prev gy) /\
    same_records gy gy'
}.

Lemma filter_ne_all (x : Z) (l : list Z) : x ∉ l -> filter (.≠ x) l = l.
Proof.
  induction l as [|y l IH]; intros Hx; [done|]. rewrite filter_cons_True by set_solver. f_equal. apply IH. set_solver.
Qed.

Lemma dl_unlink m m' x g l prev p :
  NoDup l -> prev ∉ l -> dl m prev p l -> x ∈ l -> m !! x = Some g -> unlinked m m' x g ->
  dl m' prev (if decide (p = x) then pg_next g else p) (filter (.≠ x) l).
Proof.
  intros Hnd Hprev Hl Hx Hg Hu. revert prev p Hnd Hprev Hl Hx.
  induction l as [|y l IH]; intros prev p Hnd Hprev Hl Hx; [set_solver|].
  apply NoDup_cons in Hnd as [Hn Hnd]. simpl in Hl. destruct Hl as (-> & Hy & gy & Hgy & Ep & Hl).
  destruct (decide (y = x)) as [->|Hne].
  - rewrite filter_cons_False by (by intros ?). rewrite Hg in Hgy. injection Hgy as <-.
    rewrite filter_ne_all by done.
    destruct l as [|z l]; [done|]. simpl in Hl. destruct Hl as (Ez & Hz & gz & Hgz & Epz & Hl).
    destruct (ul_rest _ _ _ _ Hu z gz ltac:(set_solver) Hgz) as (gz' & Hgz' & En & Ep' & _).
    rewrite decide_False in En by set_solver. rewrite decide_True in Ep' by done.
    split_and!; [done|done|]. exists gz'. split_and!; [done|congruence|]. rewrite En.
    eapply dl_same; [|exact Hl]. intros w gw Hw Hgw. apply NoDup_cons in Hnd as [Hz' _].
    destruct (ul_rest _ _ _ _ Hu w gw ltac:(set_solver) Hgw) as (gw' & Hgw' & Enw & Epw & _).
    rewrite decide_False in Enw by set_solver. rewrite decide_False in Epw by set_solver. eauto.
  - rewrite filter_cons_True by done.
    apply elem_of_cons in Hx as [->|Hx]; [done|].
    destruct (ul_rest _ _ _ _ Hu y gy Hne Hgy) as (gy' & Hgy' & En & Ep' & _).
    assert (Hny : y <> pg_next g).
    { intros ->. destruct (dl_next _ _ _ _ _ _ Hl Hnd Hx Hg) as [E|[? _]]; [by rewrite E in Hy|done]. }
    rewrite decide_False in Ep' by done. split_and!; [done|done|]. exists gy'. split_and!; [done|congruence|].
    specialize (IH y (pg_next gy) Hnd Hn Hl Hx).
    replace (pg_next gy') with (if decide (pg_next gy = x) then pg_next g else pg_next gy); [done|].
    rewrite En. destruct (dl_prev _ _ _ _ _ _ Hl Hx Hg) as [[-> ->]|Hin].
    + by rewrite !decide_True by done.
    + rewrite (decide_False (P := y = pg_prev g)) by (by intros ->).
      destruct (decide (pg_next gy = x)) as [E|]; [|done]. exfalso.
      destruct l as [|z l]; [set_solver|]. simpl in Hl. destruct Hl as (Ez & _ & gz & Hgz & Epz & _).
      rewrite <- Ez, E, Hg in Hgz. injection Hgz as <-. rewrite Epz in Hin. set_solver.
Qed.

Lemma on_page_eq p f c :
  is_Some (db_pages c !! p) -> on_page p f c = Some (set_pages (alter f p (db_pages c)) c).
Proof.
  intros [g H]. unfold on_page. rewrite H. simpl. do 2 f_equal. apply map_eq. intros y.
  rewrite lookup_alter, lookup_insert. by destruct (decide (p = y)) as [<-|]; [rewrite H|].
Qed.

Lemma alter_at (f : mlx5_db_page -> mlx5_db_page) (i y : Z) (m : gmap Z mlx5_db_page) gy :
  m !! y = Some gy -> alter f i m !! y = Some (if decide (y = i) then f gy else gy).
Proof. intros H. rewrite lookup_alter. destruct (decide (i = y)) as [->|]; [by rewrite H, decide_True|by rewrite decide_False]. Qed.

(** The predecessor of a page that is not the first *)
Lemma dl_pred m prev p l x g :
  dl m prev p l -> NoDup l -> prev ∉ l -> x ∈ l -> m !! x = Some g ->
  (p = x /\ pg_prev g = prev) \/ (p <> x /\ pg_prev g ∈ l /\ pg_prev g <> x).
Proof.
  revert prev p. induction l as [|y l IH]; intros prev p; simpl; [set_solver|].
  intros (-> & Hy & gy & Hgy & Ep & Hl) [Hn Hnd]%NoDup_cons Hp [->|Hx]%elem_of_cons Hg; [left; split; [done|congruence]|].
  right. assert (y <> x) by set_solver. destruct (IH _ _ Hl Hnd Hn Hx Hg) as [[_ ->]|(_ & ? & ?)]; set_solver.
Qed.

(** [drop_page] unlinks. *)
Lemma drop_page_unlinks p c l g :
  dl (db_pages c) 0 (db_list c) l -> NoDup l -> db_pages c !! 0 = None -> p ∈ l -> db_pages c !! p = Some g ->
  exists c', drop_page p c = Some c' /\ unlinked (db_pages c) (db_pages c') p g /\
    db_list c' = (if decide (db_list c = p) then pg_next g else db_list c) /\
    (forall y, db_pages c !! y = None -> db_pages c' !! y = None) /\
    cache_line_size c' = cache_line_size c /\ page_size c' = page_size c.
Proof.
  intros Hl Hnd Hnull Hp Hg. set (m := db_pages c) in *.
  assert (H0 : 0 ∉ l) by (intros H; by apply (dl_lookup _ _ _ _ _ Hl) in H as [_ ?]).
  set (m1 := if decide (pg_prev g = 0) then m else alter (set_next (pg_next g)) (pg_prev g) m).
  set (m2 := if decide (pg_next g = 0) then m1 else alter (set_prev (pg_prev g)) (pg_next g) m1).
  set (h := if decide (pg_prev g = 0) then pg_next g else db_list c).
  pose proof (dl_pred _ _ _ _ _ _ Hl Hnd H0 Hp Hg) as Hpred. pose proof (dl_next _ _ _ _ _ _ Hl Hnd Hp Hg) as Hnext.
  assert (Hpz : p <> 0) by set_solver.
  assert (Hin : forall y, y ∈ l -> is_Some (m !! y)) by (intros y Hy; by eapply dl_lookup).
  assert (Hm1 : forall y, is_Some (m1 !! y) <-> is_Some (m !! y)).
  { intros y. unfold m1. destruct (decide _); [done|]. by rewrite lookup_alter_is_Some. }
  exists (mk_dbc (delete p m2) h (cache_line_size c) (page_size c)). split_and!; [| | | |done|done].
  - unfold drop_page. fold m. rewrite Hg. cbn [mbind option_bind].
    assert (E1 : (if negb (pg_prev g =? 0) then on_page (pg_prev g) (set_next (pg_next g)) c else Some (set_db_list (pg_next g) c)) =
                 Some (mk_dbc m1 h (cache_line_size c) (page_size c))).
    { unfold m1, h. destruct Hpred as [[Ep E0]|(Ep & Hq & Hqp)].
      - rewrite E0, decide_True, decide_True by done. done.
      - assert (pg_prev g <> 0) by (intros E; by rewrite E in Hq). rewrite decide_False, decide_False by done.
        rewrite (proj2 (Z.eqb_neq _ _)) by done. simpl. by rewrite on_page_eq by auto. }
    rewrite E1. cbn [mbind option_bind db_pages].
    destruct (proj2 (Hm1 p) (ex_intro _ g Hg)) as [g1 Hg1]. rewrite Hg1. cbn [mbind option_bind].
    assert (Eg : pg_next g1 = pg_next g /\ pg_prev g1 = pg_prev g).
    { unfold m1 in Hg1. destruct (decide (pg_prev g = 0)); [rewrite Hg in Hg1; by injection Hg1 as <-|].
      destruct Hpred as [[_ E]|(_ & _ & Hqp)]; [done|]. rewrite lookup_alter_ne, Hg in Hg1 by done. by injection Hg1 as <-. }
    destruct Eg as [-> ->]. unfold m2. destruct (decide (pg_next g = 0)) as [En|En].
    + rewrite En. done.
    + rewrite (proj2 (Z.eqb_neq _ _)) by done. simpl. rewrite on_page_eq; [done|]. simpl.
      destruct Hnext as [?|(Hn & _)]; [done|]. by apply Hm1, Hin.
  - split; simpl; [apply lookup_delete_eq|]. intros y gy Hy Hgy. rewrite lookup_delete_ne by done.
    assert (Hy0 : y <> 0) by (intros ->; congruence).
    set (gy1 := if decide (pg_prev g = 0) then gy else if decide (y = pg_prev g) then set_next (pg_next g) gy else gy).
    assert (H1 : m1 !! y = Some gy1) by (unfold m1, gy1; destruct (decide (pg_prev g = 0)); [done|by apply alter_at]).
    exists (if decide (pg_next g = 0) then gy1 else if decide (y = pg_next g) then set_prev (pg_prev g) gy1 else gy1).
    split; [unfold m2; destruct (decide (pg_next g = 0)); [done|by apply alter_at]|]. unfold gy1.
    destruct (decide (pg_prev g = 0)), (decide (pg_next g = 0)), (decide (y = pg_prev g)), (decide (y = pg_next g));
      unfold same_records; simpl; split_and!; congruence.
  - simpl. unfold h. destruct Hpred as [[Ep E0]|(Ep & Hq & _)].
    + rewrite decide_True, decide_True by done. done.
    + rewrite decide_False, decide_False; [done|done|]. intros E; by rewrite E in Hq.
  - intros y Hy. simpl. assert (Hn : m2 !! y = None); [|destruct (decide (y = p)) as [->|]; [apply lookup_delete_eq|by rewrite lookup_delete_ne]].
    unfold m2, m1. destruct (decide _), (decide _); rewrite ?lookup_alter_None; done.
Qed.

(** [m'] is [m] with the page [g] at [p], before the page [h]. *)
Record linked (m m' : gmap Z mlx5_db_page) (p : Z) (g : mlx5_db_page) (h : Z) : Prop := {
  lk_new : m' !! p = Some g;
  lk_rest : forall y gy, y <> p -> m !! y = Some gy -> exists gy', m' !! y = Some gy' /\
    pg_next gy' = pg_next gy /\ pg_prev gy' = (if decide (y = h) then p else pg_prev gy) /\ same_records gy gy'
}.

Lemma dl_link m m' p g l h :
  p <> 0 -> p ∉ l -> NoDup l -> dl m 0 h l -> linked m m' p g h -> pg_prev g = 0 -> pg_next g = h -> dl m' 0 p (p :: l).
Proof.
  intros Hp0 Hpl Hnd Hl Hk Eprev En. split_and!; [done|done|]. exists g. split_and!; [by eapply lk_new|done|]. rewrite En.
  destruct l as [|x l]; [exact Hl|]. destruct Hl as (-> & Hx0 & gx & Hgx & _ & Hl).
  apply NoDup_cons in Hnd as [Hxl _]. split_and!; [done|done|].
  destruct (lk_rest _ _ _ _ _ Hk x gx ltac:(set_solver) Hgx) as (gx' & Hgx' & En' & Ep' & _). rewrite decide_True in Ep' by done.
  exists gx'. split_and!; [done|done|]. rewrite En'. eapply dl_same; [|exact Hl]. intros y gy Hy Hgy.
  destruct (lk_rest _ _ _ _ _ Hk y gy ltac:(set_solver) Hgy) as (gy' & ? & ? & Ep & _). rewrite decide_False in Ep by set_solver. eauto.
Qed.

(** [__add_page] links. *)
Lemma add_page_links p b c l :
  dl (db_pages c) 0 (db_list c) l -> p <> 0 -> db_pages c !! 0 = None -> db_pages c !! p = None ->
  let n := page_size c / cache_line_size c in
  let g := mk_page 0 (db_list c) b n 0 (replicate (Z.to_nat ((n + 63) / 64)) (u64 (-1))) in
  exists m, __add_page (Some p) (Some b) c = Some (p, mk_dbc m p (cache_line_size c) (page_size c)) /\
    linked (db_pages c) m p g (db_list c) /\ forall y, y <> p -> db_pages c !! y = None -> m !! y = None.
Proof.
  intros Hl Hp0 Hnull Hnone n g.
  assert (Hhd : db_list c = 0 \/ is_Some (db_pages c !! db_list c)).
  { destruct l as [|x l]; [by left|]. right. destruct Hl as (-> & _ & gx & Hgx & _). eauto. }
  assert (Hlp : db_list c <> p) by (destruct Hhd as [->|[? ?]]; congruence).
  destruct (Z.eqb_spec (db_list c) 0) as [E|E].
  - exists (<[p := g]> (db_pages c)). split_and!.
    + unfold __add_page. fold n g. rewrite E. reflexivity.
    + split; [apply lookup_insert_eq|]. intros y gy Hy Hgy. exists gy. rewrite lookup_insert_ne, decide_False by congruence. done.
    + intros y Hy. by rewrite lookup_insert_ne.
  - destruct Hhd as [?|Hhd]; [done|]. exists (alter (set_prev p) (db_list c) (<[p := g]> (db_pages c))). split_and!.
    + unfold __add_page. fold n g. cbn zeta. rewrite (proj2 (Z.eqb_neq _ _)) by done. rewrite on_page_eq; [done|]. simpl.
      by rewrite lookup_insert_ne.
    + split; [rewrite lookup_alter_ne by done; apply lookup_insert_eq|]. intros y gy Hy Hgy.
      exists (if decide (y = db_list c) then set_prev p gy else gy). rewrite (alter_at _ _ _ _ gy) by (by rewrite lookup_insert_ne).
      by destruct (decide _).
    + intros y Hy Hn. rewrite lookup_alter_None. by rewrite lookup_insert_ne.
Qed.

(** * Searching *)

Lemma find_page_spec test c fuel l prev p :
  dl (db_pages c) prev p l -> (length l <= fuel)%nat ->
  exists r, find_page fuel test c p = Some r /\
    ((r = 0 /\ forall x g, x ∈ l -> db_pages c !! x = Some g -> test g = false) \/
     (r ∈ l /\ r <> 0 /\ exists g, db_pages c !! r = Some g /\ test g = true)).
Proof.
  revert prev p fuel. induction l as [|x l IH]; intros prev p fuel; simpl.
  { intros -> _. exists 0. split; [by destruct fuel|]. left. set_solver. }
  intros (-> & Hx & g & Hg & _ & Hl) Hf. destruct fuel as [|fuel]; [lia|]. simpl. rewrite (proj2 (Z.eqb_neq _ _)) by done.
  rewrite Hg. simpl. destruct (test g) eqn:Et.
  { exists x. split; [done|]. right. split_and!; [set_solver|done|by exists g]. }
  destruct (IH x (pg_next g) fuel Hl ltac:(lia)) as (r & Hr & [[-> Hn]|(Hin & Hr0 & Hex)]); exists r || exists 0; (split; [done|]).
  - left. split; [done|]. intros y gy [->|Hy]%elem_of_cons Hgy; [congruence|by eapply Hn].
  - right. split_and!; [set_solver|done|done].
Qed.

Lemma first_nonzero_spec l i k x :
  l !! k = Some x -> x <> 0 ->
  exists j y, first_nonzero l i = Some (i + Z.of_nat j) /\ (j <= k)%nat /\ l !! j = Some y /\ y <> 0 /\
    forall j', (j' < j)%nat -> l !! j' = Some 0.
Proof.
  revert i k. induction l as [|z l IH]; intros i k Hk Hx; [done|]. simpl. destruct (Z.eqb_spec z 0) as [->|Hz].
  - destruct k as [|k]; [simpl in Hk; congruence|]. destruct (IH (i + 1) k Hk Hx) as (j & y & E & Hj & Hy & Hy0 & Hz).
    exists (S j), y. split_and!; [rewrite E; f_equal; lia|lia|done|done|]. intros [|j'] Hj'; [done|]. apply Hz. lia.
  - exists 0%nat, z. split_and!; [f_equal; lia|lia|done|done|lia].
Qed.

Lemma word_bit w : 0 <= w < 2 ^ 64 -> w <> 0 -> exists j, 0 <= j < 64 /\ Z.testbit w j = true.
Proof.
  intros Hw Hn. exists (Z.log2 w). split; [|apply Z.bit_log2; lia]. split; [apply Z.log2_nonneg|apply Z.log2_lt_pow2; lia].
Qed.

Lemma ffsl_spec w :
  0 <= w < 2 ^ 64 -> w <> 0 ->
  0 <= ffsl w - 1 < 64 /\ Z.testbit w (ffsl w - 1) = true /\ forall j, 0 <= j < ffsl w - 1 -> Z.testbit w j = false.
Proof.
  intros Hw Hn. unfold ffsl. destruct (list_find _ _) as [[n j]|] eqn:E.
  - apply list_find_Some in E as (Hj & Ht & Hlt). apply lookup_seqZ in Hj as [-> Hj].
    replace (0 + Z.of_nat n + 1 - 1) with (Z.of_nat n) by lia. split_and!; [lia|lia|done|].
    intros j' Hj'. destruct (Z.testbit w j') eqn:Et; [|done]. exfalso.
    apply (Hlt (Z.to_nat j') j'); [apply lookup_seqZ; lia|lia|done].
  - apply list_find_None in E. destruct (word_bit w Hw Hn) as (j & Hj & Ht). exfalso.
    eapply Forall_forall in E; [|apply elem_of_seqZ; split; [apply Hj|apply Hj]]. by apply E.
Qed.

(** * Bitmaps *)

(** Record [b] of the page is free. *)
Definition bit_free (fr : list Z) (b : Z) : bool := Z.testbit (aget fr (b / 64)) (b mod 64).

Lemma bit_free_set fr b b' w :
  0 <= b' -> 0 <= b < 64 * Z.of_nat (length fr) ->
  bit_free (aset fr (b / 64) w) b' = if decide (b' / 64 = b / 64) then Z.testbit w (b' mod 64) else bit_free fr b'.
Proof.
  intros Hb' Hb. unfold bit_free. destruct (decide (b' / 64 = b / 64)) as [->|Hne].
  - rewrite aget_aset_eq; [done|]. div_lia.
  - rewrite aget_aset_ne; [done|div_lia|div_lia|done].
Qed.

Lemma same_record b b' : b' / 64 = b / 64 -> b' mod 64 = b mod 64 -> b' = b.
Proof. intros. rewrite (Z.div_mod b' 64), (Z.div_mod b 64) by lia. congruence. Qed.

Lemma clear_bit fr b b' :
  Forall (fun w => 0 <= w < 2 ^ 64) fr -> 0 <= b' < 64 * Z.of_nat (length fr) -> 0 <= b < 64 * Z.of_nat (length fr) ->
  bit_free (aset fr (b / 64) (Z.land (aget fr (b / 64)) (u64 (Z.lnot (Z.shiftl 1 (b mod 64)))))) b' =
  bit_free fr b' && negb (bool_decide (b' = b)).
Proof.
  intros Hw Hb' Hb. rewrite bit_free_set by lia. pose proof (Z.mod_pos_bound b 64). pose proof (Z.mod_pos_bound b' 64).
  destruct (decide (b' / 64 = b / 64)) as [E|Hne]; [|rewrite bool_decide_eq_false_2, andb_true_r by (by intros ->); done].
  unfold bit_free. rewrite E, Z.land_spec. f_equal. unfold u64. rewrite Z.mod_pow2_bits_low, Z.lnot_spec by lia.
  rewrite Z.shiftl_1_l, Z.pow2_bits_eqb by lia. f_equal. apply eq_bool_prop_intro.
  rewrite bool_decide_spec, Is_true_true, Z.eqb_eq. split; [intros; by apply same_record|congruence].
Qed.

Lemma set_bit fr b b' :
  0 <= b' < 64 * Z.of_nat (length fr) -> 0 <= b < 64 * Z.of_nat (length fr) ->
  bit_free (aset fr (b / 64) (Z.lor (aget fr (b / 64)) (Z.shiftl 1 (b mod 64)))) b' = bit_free fr b' || bool_decide (b' = b).
Proof.
  intros Hb' Hb. rewrite bit_free_set by lia. pose proof (Z.mod_pos_bound b 64). pose proof (Z.mod_pos_bound b' 64).
  destruct (decide (b' / 64 = b / 64)) as [E|Hne]; [|rewrite bool_decide_eq_false_2, orb_false_r by (by intros ->); done].
  unfold bit_free. rewrite E, Z.lor_spec. f_equal. rewrite Z.shiftl_1_l, Z.pow2_bits_eqb by lia. apply eq_bool_prop_intro.
  rewrite bool_decide_spec, Is_true_true, Z.eqb_eq. split; [intros; by apply same_record|congruence].
Qed.

(** The bitmap and the count of a page describe the set [A] of its records in use. *)
Record page_rep (g : mlx5_db_page) (A : gset Z) : Prop := {
  pr_len : Z.of_nat (length (pg_free g)) = (num_db g + 63) / 64;
  pr_words : Forall (fun w => 0 <= w < 2 ^ 64) (pg_free g);
  pr_bits : forall b, 0 <= b < 64 * Z.of_nat (length (pg_free g)) -> bit_free (pg_free g) b = false <-> b ∈ A;
  pr_in : forall b, b ∈ A -> 0 <= b < num_db g;
  pr_use : use_cnt g = Z.of_nat (size A)
}.

Lemma aget_word fr i : Forall (fun w => 0 <= w < 2 ^ 64) fr -> 0 <= aget fr i < 2 ^ 64.
Proof.
  intros H. unfold aget. destruct (fr !! Z.to_nat i) as [x|] eqn:E.
  - rewrite (nth_lookup_Some _ _ _ _ E). by apply (Forall_lookup_1 _ _ _ _ H E).
  - rewrite nth_overflow; [lia|]. apply lookup_ge_None. exact E.
Qed.

Lemma Forall_aset (P : Z -> Prop) fr i w : Forall P fr -> P w -> Forall P (aset fr i w).
Proof. intros. by apply Forall_insert. Qed.

(** A page that is not full has a free record. *)
Lemma page_has_free g A :
  page_rep g A -> use_cnt g < num_db g -> exists b, 0 <= b < num_db g /\ b ∉ A.
Proof.
  intros [_ _ _ Hin Hu] Hlt. destruct (decide (Exists (.∉ A) (seqZ 0 (num_db g)))) as [He|Hn].
  { apply Exists_exists in He as (b & Hb%elem_of_seqZ & HA). exists b. split; [lia|done]. }
  apply not_Exists_Forall in Hn; [|apply _]. exfalso.
  assert (Hsub : list_to_set (seqZ 0 (num_db g)) ⊆ A).
  { intros b Hb%elem_of_list_to_set. rewrite Forall_forall in Hn. specialize (Hn b Hb). destruct (decide (b ∈ A)); [done|].
    by exfalso; apply Hn. }
  apply subseteq_size in Hsub. rewrite size_list_to_set in Hsub by apply NoDup_seqZ. rewrite length_seqZ in Hsub. lia.
Qed.

Lemma word_land w x : 0 <= w < 2 ^ 64 -> 0 <= Z.land w x < 2 ^ 64.
Proof.
  intros Hw. split; [apply Z.land_nonneg; lia|]. apply Z.bounded_iff_bits_nonneg; [lia|apply Z.land_nonneg; lia|].
  intros k Hk. rewrite Z.land_spec. by rewrite (proj1 (Z.bounded_iff_bits_nonneg 64 w ltac:(lia) ltac:(lia)) ltac:(lia) k Hk).
Qed.

Lemma word_lor w x : 0 <= w < 2 ^ 64 -> 0 <= x < 2 ^ 64 -> 0 <= Z.lor w x < 2 ^ 64.
Proof.
  intros Hw Hx. assert (0 <= Z.lor w x) by (apply Z.lor_nonneg; lia). split; [done|].
  apply Z.bounded_iff_bits_nonneg; [lia|done|]. intros k Hk. rewrite Z.lor_spec.
  rewrite (proj1 (Z.bounded_iff_bits_nonneg 64 w ltac:(lia) ltac:(lia)) ltac:(lia) k Hk).
  by rewrite (proj1 (Z.bounded_iff_bits_nonneg 64 x ltac:(lia) ltac:(lia)) ltac:(lia) k Hk).
Qed.

(** The search of a page that is not full ends inside the bitmap, at the lowest free
    record. *)
Lemma lowest_free g A :
  page_rep g A -> use_cnt g < num_db g ->
  exists b, 0 <= b < num_db g /\ b ∉ A /\ first_nonzero (pg_free g) 0 = Some (b / 64) /\
    ffsl (aget (pg_free g) (b / 64)) - 1 = b mod 64.
Proof.
  intros Hp Hlt. destruct (page_has_free g A Hp Hlt) as (b0 & Hb0 & HA0). pose proof Hp as [Hlen Hw Hbits Hin Hu].
  assert (Hr0 : 0 <= b0 < 64 * Z.of_nat (length (pg_free g))) by (rewrite Hlen; div_lia).
  assert (Hf0 : bit_free (pg_free g) b0 = true).
  { destruct (bit_free (pg_free g) b0) eqn:E; [done|]. apply Hbits in E; [done|lia]. }
  destruct (lookup_lt_is_Some_2 (pg_free g) (Z.to_nat (b0 / 64))) as [w0 Hw0]; [div_lia|].
  assert (Hn0 : w0 <> 0).
  { intros ->. unfold bit_free in Hf0. rewrite (aget_lookup _ _ _ Hw0), Z.bits_0 in Hf0. done. }
  destruct (first_nonzero_spec _ 0 _ _ Hw0 Hn0) as (i & w & Ei & Hik & Hwi & Hwn & Hzero).
  assert (Ew : aget (pg_free g) (Z.of_nat i) = w) by (apply aget_lookup; by rewrite Nat2Z.id).
  destruct (ffsl_spec w (Forall_lookup_1 _ _ _ _ Hw Hwi) Hwn) as (Hj & Htb & Hlow).
  set (j := ffsl w - 1) in *. exists (Z.of_nat i * 64 + j). set (b := _ + j).
  assert (Hdiv : b / 64 = Z.of_nat i) by (unfold b; div_lia). assert (Hmod : b mod 64 = j) by (unfold b; div_lia).
  pose proof (lookup_lt_Some _ _ _ Hwi) as Hil.
  assert (Hle : b <= b0).
  { destruct (Z.le_gt_cases b b0) as [|Hgt]; [done|]. exfalso. unfold bit_free in Hf0.
    destruct (decide (b0 / 64 = Z.of_nat i)) as [E|Hne].
    - rewrite E, Ew, Hlow in Hf0; [done|]. unfold b in Hgt. div_lia.
    - assert (Hlt0 : (Z.to_nat (b0 / 64) < i)%nat) by (unfold b in Hgt; div_lia).
      rewrite (aget_lookup _ _ 0 (Hzero _ Hlt0)), Z.bits_0 in Hf0. done. }
  rewrite Hdiv, Hmod, Ew. split_and!; [lia|lia| |done|done].
  intros HbA. apply Hbits in HbA; [|unfold b; lia]. unfold bit_free in HbA. rewrite Hdiv, Hmod, Ew in HbA. congruence.
Qed.

(** Taking a record of a page that is not full *)
Lemma take_record_spec p c g A :
  db_pages c !! p = Some g -> page_rep g A -> use_cnt g < num_db g ->
  exists b g', 0 <= b < num_db g /\ b ∉ A /\
    take_record p c = Some (pg_buf g + b * cache_line_size c, set_pages (<[p := g']> (db_pages c)) c) /\
    page_rep g' ({[b]} ∪ A) /\ pg_prev g' = pg_prev g /\ pg_next g' = pg_next g /\ pg_buf g' = pg_buf g /\ num_db g' = num_db g.
Proof.
  intros Hg Hp Hlt. destruct (lowest_free g A Hp Hlt) as (b & Hb & HA & Ei & Ej). pose proof Hp as [Hlen Hw Hbits Hin Hu].
  exists b. eexists. split; [done|]. split; [done|]. split.
  { unfold take_record. rewrite Hg. simpl. rewrite Ei. simpl. rewrite Ej.
    replace (b / 64 * 64 + b mod 64) with b by (pose proof (Z.div_mod b 64); lia). reflexivity. }
  assert (Hbr : 0 <= b < 64 * Z.of_nat (length (pg_free g))) by (rewrite Hlen; div_lia).
  split_and!; [|done..]. split; simpl; rewrite ?length_aset; [done| | | |].
  - apply Forall_aset; [done|]. by apply word_land, aget_word.
  - intros b' Hb'. rewrite clear_bit by done. rewrite andb_false_iff, negb_false_iff, bool_decide_eq_true, Hbits by done. set_solver.
  - intros b'. rewrite elem_of_union, elem_of_singleton. intros [->|H]; [done|by apply Hin].
  - rewrite size_union by set_solver. rewrite size_singleton. lia.
Qed.

(** Giving one back *)
Lemma return_record g A b n :
  page_rep g A -> b ∈ A -> n = use_cnt g - 1 ->
  page_rep (set_use n (aset (pg_free g) (b / 64) (Z.lor (aget (pg_free g) (b / 64)) (Z.shiftl 1 (b mod 64)))) g) (A ∖ {[b]}).
Proof.
  intros [Hlen Hw Hbits Hin Hu] HA ->. pose proof (Hin b HA) as Hb. pose proof (Z.mod_pos_bound b 64).
  assert (Hbr : 0 <= b < 64 * Z.of_nat (length (pg_free g))) by (rewrite Hlen; div_lia).
  split; simpl; rewrite ?length_aset; [done| | | |].
  - apply Forall_aset; [done|]. apply word_lor; [by apply aget_word|]. rewrite Z.shiftl_1_l.
    split; [apply Z.pow_nonneg; lia|apply Z.pow_lt_mono_r; lia].
  - intros b' Hb'. rewrite set_bit by done. rewrite orb_false_iff, bool_decide_eq_false, Hbits by done. set_solver.
  - intros b' Hb'. apply Hin. set_solver.
  - rewrite size_difference by set_solver. rewrite size_singleton. assert (size A <> 0%nat); [|lia].
    intros E. apply size_empty_inv in E. set_solver.
Qed.
