(* ===== verification/DbrecSpec.v ===== *)
(** The doorbell-record allocator refines a set of records in use: in every state it can
    reach, the records it has handed out lie a cache line apart, an allocation stops and
    returns one not in use, a free stops, and once all are back no page is left. *)

From stdpp Require Import base numbers list gmap sets.
From S2P Require Import Prelude Mem Types Dbrec DbrecProps.

(** * The allocator *)

(** The context represents the set [D] of records in use; [S p] are those of page [p]. *)
Record db_base (c : db_ctx) (S : Z -> gset Z) (D : gset Z) : Prop := {
  bb_geo : 0 < cache_line_size c <= page_size c /\ exists k, 0 <= k /\ page_size c = 2 ^ k;
  bb_null : db_pages c !! 0 = None;
  bb_list : exists l, dl (db_pages c) 0 (db_list c) l /\ NoDup l /\ forall x, is_Some (db_pages c !! x) -> x ∈ l;
  bb_page : forall p g, db_pages c !! p = Some g ->
    num_db g = page_size c / cache_line_size c /\ 0 < pg_buf g /\ pg_buf g mod page_size c = 0 /\ page_rep g (S p);
  bb_bufs : forall p p' g g', db_pages c !! p = Some g -> db_pages c !! p' = Some g' -> pg_buf g = pg_buf g' -> p = p';
  bb_set : forall a, a ∈ D <-> exists p g b, db_pages c !! p = Some g /\ b ∈ S p /\ a = pg_buf g + b * cache_line_size c
}.

(** Every page has a record in use. *)
Definition no_idle (c : db_ctx) (S : Z -> gset Z) : Prop := forall p, is_Some (db_pages c !! p) -> S p <> ∅.

(** The answers of the allocators for a new page: a page that is not in the list, a buffer
    aligned to a page that no other page has. *)
Definition fresh_answer (c : db_ctx) (page buf : option Z) : Prop :=
  (forall p, page = Some p -> p <> 0 /\ db_pages c !! p = None) /\
  (forall b, buf = Some b -> 0 < b /\ b mod page_size c = 0 /\ forall q g, db_pages c !! q = Some g -> pg_buf g <> b).

(** A new page has no record in use. *)
Lemma fresh_page_rep prev next buf n :
  0 <= n -> page_rep (mk_page prev next buf n 0 (replicate (Z.to_nat ((n + 63) / 64)) (u64 (-1)))) ∅.
Proof.
  intros Hn. split; simpl; [rewrite length_replicate; div_lia|apply Forall_replicate, Z.mod_pos_bound; lia| |set_solver|done].
  intros b Hbr. rewrite length_replicate in Hbr. split; [|set_solver]. unfold bit_free.
  rewrite (aget_lookup _ _ (u64 (-1))) by (apply lookup_replicate; split; [done|div_lia]).
  pose proof (Z.mod_pos_bound b 64 ltac:(lia)). unfold u64. rewrite Z.mod_pow2_bits_low by lia. by rewrite Z.bits_m1 by lia.
Qed.

Lemma page_rep_ext g g' A : same_records g g' -> page_rep g A -> page_rep g' A.
Proof. intros (_ & En & Eu & Ef) [? ? ? ? ?]. split; rewrite ?En, ?Eu, ?Ef; done. Qed.

Section Base.
#[local] Set Default Proof Using "Type*".
Context (c : db_ctx) (S : Z -> gset Z) (D : gset Z) (Hb : db_base c S D).
Notation cl := (cache_line_size c).
Notation ps := (page_size c).

Lemma record_in_page b : 0 <= b < ps / cl -> 0 <= b * cl /\ b * cl + cl <= ps.
Proof.
  intros Hr. destruct (bb_geo _ _ _ Hb) as [Hg _]. pose proof (Z.mul_div_le ps cl ltac:(lia)). split; nia.
Qed.

(** The start of the page of an address *)
Lemma page_mask buf o : buf mod ps = 0 -> 0 <= o < ps -> Z.land (buf + o) (Z.lnot (ps - 1)) = buf.
Proof.
  intros Hm Ho. destruct (bb_geo _ _ _ Hb) as [_ (k & Hk & Ek)]. rewrite Ek in *.
  replace (2 ^ k - 1) with (Z.ones k) by (rewrite Z.ones_equiv; lia).
  rewrite <- Z.ldiff_land, Z.ldiff_ones_r, Z.shiftr_div_pow2, Z.shiftl_mul_pow2 by lia.
  set (q := buf / 2 ^ k). assert (Eb : buf = q * 2 ^ k) by (pose proof (Z.div_mod buf (2 ^ k) ltac:(lia)); unfold q; lia).
  rewrite Eb, Z.add_comm, Z.div_add, Z.div_small by lia. lia.
Qed.

(** Records of two pages, or two records of a page, do not overlap. *)
Lemma records_apart p p' g g' b b' :
  db_pages c !! p = Some g -> db_pages c !! p' = Some g' -> 0 <= b < ps / cl -> 0 <= b' < ps / cl ->
  (p <> p' \/ b <> b') -> cl <= Z.abs ((pg_buf g + b * cl) - (pg_buf g' + b' * cl)).
Proof.
  intros Hg Hg' Hr Hr' Hne. destruct (bb_geo _ _ _ Hb) as [Hgeo _].
  pose proof (record_in_page b Hr). pose proof (record_in_page b' Hr').
  destruct (decide (p = p')) as [<-|Hp].
  - rewrite Hg in Hg'. injection Hg' as <-. destruct Hne as [?|?]; [done|]. nia.
  - destruct (bb_page _ _ _ Hb _ _ Hg) as (_ & _ & Hm & _). destruct (bb_page _ _ _ Hb _ _ Hg') as (_ & _ & Hm' & _).
    assert (Hbuf : pg_buf g <> pg_buf g') by (intros E; by apply Hp, (bb_bufs _ _ _ Hb _ _ _ _ Hg Hg')).
    pose proof (Z.div_mod (pg_buf g) ps ltac:(lia)). pose proof (Z.div_mod (pg_buf g') ps ltac:(lia)).
    assert (pg_buf g / ps <> pg_buf g' / ps) by nia. nia.
Qed.

(** The records of one page change. *)
Lemma set_page_base p g g' A D' :
  db_pages c !! p = Some g -> pg_prev g' = pg_prev g -> pg_next g' = pg_next g -> pg_buf g' = pg_buf g ->
  num_db g' = num_db g -> page_rep g' A ->
  (forall a, a ∈ D' <-> (exists b, b ∈ A /\ a = pg_buf g + b * cl) \/
     exists p' g1 b, p' <> p /\ db_pages c !! p' = Some g1 /\ b ∈ S p' /\ a = pg_buf g1 + b * cl) ->
  db_base (set_pages (<[p := g']> (db_pages c)) c) (fun x => if decide (x = p) then A else S x) D'.
Proof.
  intros Hg Ep En Eb Enum Hrep HD. destruct Hb as [Hgeo Hnull (l & Hl & Hnd & Hdom) Hpage Hbufs Hset].
  assert (Hp0 : p <> 0) by (intros ->; congruence).
  assert (Hlk : forall x gx, <[p := g']> (db_pages c) !! x = Some gx ->
    x = p /\ gx = g' \/ x <> p /\ db_pages c !! x = Some gx).
  { intros x gx. destruct (decide (x = p)) as [->|]; [rewrite lookup_insert_eq|rewrite lookup_insert_ne by done]; [|by right].
    intros [= <-]. by left. }
  split; simpl; [done|by rewrite lookup_insert_ne by done| | | |].
  - exists l. split_and!; [|done|].
    + eapply dl_same; [by eapply same_links_insert|done].
    + intros x [gx [[-> _]|[_ Hx]]%Hlk]; apply Hdom; eauto.
  - intros x gx [[-> ->]|[Hx Hgx]]%Hlk.
    + rewrite decide_True by done. rewrite Enum, Eb. destruct (Hpage _ _ Hg) as (? & ? & ? & _). done.
    + rewrite decide_False by done. by apply Hpage.
  - intros x x' gx gx' Hx Hx' E. apply Hlk in Hx as [[-> ->]|[Hx Hgx]], Hx' as [[-> ->]|[Hx' Hgx']]; [done| | |by eapply Hbufs].
    + symmetry. eapply Hbufs; [done|exact Hg|]. by rewrite <- E.
    + eapply Hbufs; [done|exact Hg|]. by rewrite E.
  - intros a. rewrite HD. split.
    + intros [(b & HA & ->)|(p' & g1 & b & Hne & Hg1 & HS & ->)].
      * exists p, g', b. rewrite lookup_insert_eq, decide_True by done. by rewrite Eb.
      * exists p', g1, b. rewrite lookup_insert_ne, decide_False by done. done.
    + intros (x & gx & b & [[-> ->]|[Hx Hgx]]%Hlk & HS & ->).
      * rewrite decide_True in HS by done. left. exists b. by rewrite Eb.
      * rewrite decide_False in HS by done. right. by exists x, gx, b.
Qed.

(** Both searches end: there are no more steps to take than there are pages. *)
Lemma search_page_spec test :
  exists r, search_page test c = Some r /\
    ((r = 0 /\ forall x g, db_pages c !! x = Some g -> test g = false) \/
     (r <> 0 /\ exists g, db_pages c !! r = Some g /\ test g = true)).
Proof.
  destruct (bb_list _ _ _ Hb) as (l & Hl & Hnd & Hdom).
  assert (Hlen : (length l <= size (db_pages c))%nat).
  { rewrite <- (size_list_to_set (C := gset Z) l Hnd), <- (size_dom (D := gset Z)). apply subseteq_size.
    intros x Hx%elem_of_list_to_set. apply elem_of_dom. by eapply dl_lookup. }
  destruct (find_page_spec test c _ l 0 (db_list c) Hl Hlen) as (r & Hr & H). exists r. split; [exact Hr|].
  destruct H as [[-> Hn]|(_ & H0 & He)]; [left; split; [done|]|by right]. intros x g Hx. eapply Hn; [|exact Hx]. apply Hdom. eauto.
Qed.

Lemma member_record p g b : db_pages c !! p = Some g -> b ∈ S p -> 0 <= b < ps / cl.
Proof. intros Hg HS. destruct (bb_page _ _ _ Hb _ _ Hg) as (<- & _ & _ & Hr). by eapply pr_in. Qed.

(** Taking a record of a page with room *)
Lemma take_base p g :
  db_pages c !! p = Some g -> use_cnt g < num_db g ->
  exists a c' S', take_record p c = Some (a, c') /\ 0 < a /\ a ∉ D /\ (forall a', a' ∈ D -> cl <= Z.abs (a - a')) /\
    db_base c' S' ({[a]} ∪ D) /\ S' p <> ∅ /\ (forall q, q <> p -> S' q = S q) /\
    (forall q, is_Some (db_pages c' !! q) -> is_Some (db_pages c !! q)) /\
    cache_line_size c' = cl /\ page_size c' = ps.
Proof.
  intros Hg Hlt. destruct (bb_page _ _ _ Hb _ _ Hg) as (Hn & Hbuf & Hm & Hrep).
  destruct (take_record_spec p c g _ Hg Hrep Hlt) as (b & g' & Hr & HA & E & Hrep' & Ep & En & Eb & Enum).
  rewrite Hn in Hr. pose proof (record_in_page b Hr) as Hin.
  assert (Hap : forall a', a' ∈ D -> cl <= Z.abs (pg_buf g + b * cl - a')).
  { intros a' (p' & g1 & b' & Hg1 & HS & ->)%(bb_set _ _ _ Hb). eapply (records_apart p p'); eauto using member_record.
    destruct (decide (p = p')) as [<-|]; [right; by intros ->|by left]. }
  eexists _, _, _. split; [exact E|]. split; [lia|]. split.
  { intros HD. specialize (Hap _ HD). destruct (bb_geo _ _ _ Hb). lia. }
  split; [exact Hap|]. split; [eapply (set_page_base p g g'); [done..|]|].
  { intros a. rewrite elem_of_union, elem_of_singleton, (bb_set _ _ _ Hb). split.
    - intros [->|(p' & g1 & b' & Hg1 & HS & ->)]; [left; exists b; set_solver|].
      destruct (decide (p' = p)) as [->|]; [|by right; exists p', g1, b'].
      rewrite Hg in Hg1. injection Hg1 as <-. left. exists b'. set_solver.
    - intros [(b' & Hb' & ->)|(p' & g1 & b' & _ & Hg1 & HS & ->)]; [|by right; eauto 6].
      apply elem_of_union in Hb' as [->%elem_of_singleton|HS]; [by left|right; eauto 6]. }
  split_and!; [rewrite decide_True by done; set_solver|intros q Hq; by rewrite decide_False| |done|done].
  simpl. intros q. destruct (decide (q = p)) as [->|]; [eauto|by rewrite lookup_insert_ne].
Qed.

(** A new page enters the list, with no record in use. *)
Lemma add_base p b :
  fresh_answer c (Some p) (Some b) ->
  exists c' g, __add_page (Some p) (Some b) c = Some (p, c') /\ db_pages c' !! p = Some g /\ use_cnt g < num_db g /\
    db_base c' (fun x => if decide (x = p) then ∅ else S x) D /\
    (forall q, q <> p -> is_Some (db_pages c' !! q) -> is_Some (db_pages c !! q)) /\
    cache_line_size c' = cl /\ page_size c' = ps.
Proof.
  intros [Hp Hbuf]. destruct (Hp p eq_refl) as [Hp0 Hnone]. destruct (Hbuf b eq_refl) as (Hb0 & Hbm & Hbne).
  destruct Hb as [Hgeo Hnull (l & Hl & Hnd & Hdom) Hpage Hbufs Hset].
  assert (Hn1 : 0 < ps / cl) by (apply Z.div_str_pos; lia).
  destruct (add_page_links p b c l Hl Hp0 Hnull Hnone) as (m & Eadd & Hk & Hout). set (g := mk_page _ _ _ _ _ _) in Hk.
  assert (Hpl : p ∉ l) by (intros H; apply (dl_lookup _ _ _ _ _ Hl) in H as [[? ?] _]; congruence).
  assert (Hinv : forall x gx, m !! x = Some gx -> x = p /\ gx = g \/ x <> p /\ exists g0, db_pages c !! x = Some g0 /\ same_records g0 gx).
  { intros x gx Hx. destruct (decide (x = p)) as [->|Hne]; [left; by rewrite (lk_new _ _ _ _ _ Hk) in Hx; injection Hx as <-|].
    right. split; [done|]. destruct (db_pages c !! x) as [g0|] eqn:E0; [|by rewrite Hout in Hx].
    destruct (lk_rest _ _ _ _ _ Hk x g0 Hne E0) as (gx' & Hx' & _ & _ & Hs). rewrite Hx in Hx'. injection Hx' as <-. eauto. }
  exists (mk_dbc m p cl ps), g. split_and!; [done|by eapply lk_new|done| | |done|done].
  - split; simpl; [done|by apply Hout| | | |].
    + exists (p :: l). split_and!; [by eapply dl_link|by apply NoDup_cons|].
      intros x [gx [[-> _]|(_ & g0 & Hx & _)]%Hinv]; [set_solver|]. apply elem_of_cons. right. apply Hdom. eauto.
    + intros x gx [[-> ->]|(Hne & g0 & Hg0 & Hs)]%Hinv.
      * rewrite decide_True by done. split_and!; [done..|]. apply fresh_page_rep. lia.
      * rewrite decide_False by done. destruct (Hpage _ _ Hg0) as (? & ? & ? & Hr). pose proof Hs as (-> & -> & _).
        split_and!; [done..|]. by eapply page_rep_ext.
    + intros x x' gx gx' [[-> ->]|(Hne & g0 & Hg0 & Eb & _)]%Hinv [[-> ->]|(Hne' & g0' & Hg0' & Eb' & _)]%Hinv E.
      * done.
      * exfalso. apply (Hbne _ _ Hg0'). by rewrite <- Eb', <- E.
      * exfalso. apply (Hbne _ _ Hg0). by rewrite <- Eb, E.
      * eapply Hbufs; [exact Hg0|exact Hg0'|congruence].
    + intros a. rewrite Hset. split.
      * intros (x & gx & b' & Hgx & HS & ->). assert (Hne : x <> p) by (intros ->; congruence).
        destruct (lk_rest _ _ _ _ _ Hk x gx Hne Hgx) as (gx' & Hx' & _ & _ & Eb & _). exists x, gx', b'. by rewrite decide_False, Eb.
      * intros (x & gx & b' & [[-> ->]|(Hne & g0 & Hg0 & Eb & _)]%Hinv & HS & ->).
        -- rewrite decide_True in HS by done. set_solver.
        -- rewrite decide_False in HS by done. rewrite Eb. eauto 6.
  - intros q Hq [gq [[-> _]|(_ & g0 & Hg0 & _)]%Hinv]; [done|eauto].
Qed.

(** A page with no record in use leaves the list. *)
Lemma drop_base p g :
  db_pages c !! p = Some g -> S p = ∅ ->
  exists c', drop_page p c = Some c' /\ db_base c' S D /\ db_pages c' !! p = None /\
    (forall q, is_Some (db_pages c' !! q) -> is_Some (db_pages c !! q)) /\
    cache_line_size c' = cl /\ page_size c' = ps.
Proof.
  intros Hg HS. destruct Hb as [Hgeo Hnull (l & Hl & Hnd & Hdom) Hpage Hbufs Hset].
  assert (Hpl : p ∈ l) by (apply Hdom; eauto).
  assert (H0 : 0 ∉ l) by (intros H; by apply (dl_lookup _ _ _ _ _ Hl) in H as [_ ?]).
  destruct (drop_page_unlinks p c l g Hl Hnd Hnull Hpl Hg) as (c' & Ed & Hu & Eh & Hout & Ec & Es).
  assert (Hinv : forall x gx, db_pages c' !! x = Some gx -> x <> p /\ exists g0, db_pages c !! x = Some g0 /\ same_records g0 gx).
  { intros x gx Hx. assert (Hne : x <> p) by (intros ->; rewrite (ul_gone _ _ _ _ Hu) in Hx; done). split; [done|].
    destruct (db_pages c !! x) as [g0|] eqn:E0; [|by rewrite Hout in Hx].
    destruct (ul_rest _ _ _ _ Hu x g0 Hne E0) as (gx' & Hx' & _ & _ & Hs). rewrite Hx in Hx'. injection Hx' as <-. eauto. }
  exists c'. split_and!; [done| |by eapply ul_gone| |done|done].
  - split; rewrite ?Ec, ?Es; [done|by apply Hout| | | |].
    + exists (filter (.≠ p) l). split_and!; [rewrite Eh; by eapply dl_unlink|by apply NoDup_filter|].
      intros x [gx (Hne & g0 & Hx & _)%Hinv]. apply list_elem_of_filter. split; [done|]. apply Hdom. eauto.
    + intros x gx (Hne & g0 & Hg0 & Hs)%Hinv. destruct (Hpage _ _ Hg0) as (? & ? & ? & Hr). pose proof Hs as (-> & -> & _).
      split_and!; [done..|]. by eapply page_rep_ext.
    + intros x x' gx gx' (_ & g0 & Hg0 & Eb & _)%Hinv (_ & g0' & Hg0' & Eb' & _)%Hinv E. eapply Hbufs; [exact Hg0|exact Hg0'|congruence].
    + intros a. rewrite Hset. split.
      * intros (x & gx & b' & Hgx & HSx & ->). assert (Hne : x <> p) by set_solver.
        destruct (ul_rest _ _ _ _ Hu x gx Hne Hgx) as (gx' & Hx' & _ & _ & Eb & _). exists x, gx', b'. by rewrite Eb.
      * intros (x & gx & b' & (Hne & g0 & Hg0 & Eb & _)%Hinv & HSx & ->). rewrite Eb. eauto 6.
  - intros q [gq (_ & g0 & Hg0 & _)%Hinv]. eauto.
Qed.

(** The page of a record in use *)
Lemma find_record_page p g b :
  db_pages c !! p = Some g -> b ∈ S p ->
  search_page (fun g' => Z.land (pg_buf g + b * cl) (Z.lnot (ps - 1)) =? pg_buf g') c = Some p.
Proof.
  intros Hg HS. pose proof (record_in_page b (member_record _ _ _ Hg HS)) as Hin. destruct (bb_geo _ _ _ Hb) as [Hgeo _].
  destruct (bb_page _ _ _ Hb _ _ Hg) as (_ & _ & Hm & _). rewrite page_mask by lia.
  destruct (search_page_spec (fun g' => pg_buf g =? pg_buf g')) as (r & -> & [[_ H]|(_ & g' & Hg' & E%Z.eqb_eq)]).
  - specialize (H _ _ Hg). by rewrite Z.eqb_refl in H.
  - f_equal. symmetry. by eapply (bb_bufs _ _ _ Hb).
Qed.

(** A record leaves the set. *)
Lemma return_base p g g' b :
  db_pages c !! p = Some g -> b ∈ S p -> page_rep g' (S p ∖ {[b]}) ->
  pg_prev g' = pg_prev g -> pg_next g' = pg_next g -> pg_buf g' = pg_buf g -> num_db g' = num_db g ->
  db_base (set_pages (<[p := g']> (db_pages c)) c) (fun x => if decide (x = p) then S p ∖ {[b]} else S x) (D ∖ {[pg_buf g + b * cl]}).
Proof.
  intros Hg HS Hrep ? ? ? ?. destruct (bb_geo _ _ _ Hb) as [Hgeo _]. pose proof (member_record _ _ _ Hg HS) as Hr.
  eapply (set_page_base p g g'); [done..|]. intros a'. rewrite elem_of_difference, elem_of_singleton, (bb_set _ _ _ Hb). split.
  - intros [(p' & g1 & b' & Hg1 & HS1 & ->) Hne]. destruct (decide (p' = p)) as [->|]; [|by right; exists p', g1, b'].
    rewrite Hg in Hg1. injection Hg1 as <-. left. exists b'. split; [|done]. set_solver.
  - intros [(b' & Hb' & ->)|(p' & g1 & b' & Hp' & Hg1 & HS1 & ->)].
    + split; [exists p, g, b'; set_solver|]. assert (b' <> b) by set_solver. nia.
    + split; [by exists p', g1, b'|]. intros E.
      pose proof (records_apart p' p g1 g b' b Hg1 Hg (member_record _ _ _ Hg1 HS1) Hr (or_introl Hp')). lia.
Qed.
End Base.

(** * The refinement *)

(** The context represents the records in use, and every page has one. *)
Definition db_inv (c : db_ctx) (D : gset Z) : Prop := exists S, db_base c S D /\ no_idle c S.

(** Giving a record in use back: its page is found, and stays unless this was its last. *)
Lemma free_inv c D a :
  db_inv c D -> a ∈ D -> exists c', mlx5_free_db false a c = Some c' /\ db_inv c' (D ∖ {[a]}).
Proof.
  intros (S & Hb & Hni) Ha. apply (bb_set _ _ _ Hb) in Ha as (p & g & b & Hg & HS & ->). destruct (bb_geo _ _ _ Hb) as [Hgeo _].
  destruct (bb_page _ _ _ Hb _ _ Hg) as (_ & _ & _ & Hrep).
  assert (Hp0 : p <> 0) by (intros ->; rewrite (bb_null _ _ _ Hb) in Hg; done).
  unfold mlx5_free_db. rewrite (find_record_page c S D Hb p g b Hg HS). cbn [mbind option_bind].
  rewrite (proj2 (Z.eqb_neq _ _)) by done. rewrite Hg. cbn [mbind option_bind].
  replace ((pg_buf g + b * cache_line_size c - pg_buf g) / cache_line_size c) with b
    by (rewrite Z.add_simpl_l, Z.div_mul by lia; done).
  pose proof (return_record g (S p) b (use_cnt g - 1) Hrep HS eq_refl) as Hrep'. set (g' := set_use _ _ g) in *.
  pose proof (return_base c S D Hb p g g' b Hg HS Hrep' eq_refl eq_refl eq_refl eq_refl) as Hbase.
  set (c1 := set_pages _ _) in *. pose proof (pr_use _ _ Hrep') as Eu. simpl in Eu.
  assert (Hother : forall q, q <> p -> is_Some (db_pages c1 !! q) -> S q <> ∅).
  { intros q Hq Hs. apply Hni. simpl in Hs. by rewrite lookup_insert_ne in Hs. }
  destruct (Z.eqb_spec (use_cnt g - 1) 0) as [E0|E0].
  - assert (HS0 : S p ∖ {[b]} = ∅) by (apply leibniz_equiv, size_empty_inv; lia).
    destruct (drop_base _ _ _ Hbase p g' (lookup_insert_eq _ _ _)) as (c' & Ed & Hbase' & Hgone & Hdom & _); [by rewrite decide_True|].
    exists c'. split; [done|]. eexists. split; [exact Hbase'|]. intros q Hq. simpl.
    destruct (decide (q = p)) as [->|Hne]; [by rewrite Hgone in Hq; destruct Hq|]. auto.
  - exists c1. split; [done|]. eexists. split; [exact Hbase|]. intros q Hq. simpl. destruct (decide (q = p)) as [->|Hne]; [|auto].
    intros E. rewrite E, size_empty in Eu. lia.
Qed.

(** Every page of the list is full. *)
Definition all_full (c : db_ctx) : Prop := forall p g, db_pages c !! p = Some g -> num_db g <= use_cnt g.

(** Allocating: a record not in use, a cache line from all others; or none, when every page
    is full and there is no new one. *)
Lemma alloc_inv c D page buf :
  db_inv c D -> fresh_answer c page buf ->
  exists db c', mlx5_alloc_dbrec NoCustom page buf c = Some (db, false, c') /\
    ((db = 0 /\ c' = c /\ all_full c /\ (page = None \/ buf = None)) \/
     (0 < db /\ db ∉ D /\ (forall a, a ∈ D -> cache_line_size c <= Z.abs (db - a)) /\ db_inv c' ({[db]} ∪ D))).
Proof.
  intros (S & Hb & Hni) Hfr. unfold mlx5_alloc_dbrec.
  destruct (search_page_spec c S D Hb (fun g => use_cnt g <? num_db g)) as (r & -> & Hr). cbn [mbind option_bind].
  destruct Hr as [[-> Hfull]|(Hr0 & g & Hg & Hlt%Z.ltb_lt)].
  - rewrite Z.eqb_refl. assert (Hf : all_full c) by (intros p g Hg; apply Z.ltb_ge, (Hfull p g Hg)).
    destruct page as [p|]; [|by eexists _, _; split; [reflexivity|auto 6]].
    destruct buf as [b|]; [|by eexists _, _; split; [reflexivity|auto 6]].
    destruct (add_base c S D Hb p b Hfr) as (c1 & g & -> & Hg & Hlt & Hb1 & Hdom & Ec & Es). cbn [mbind option_bind].
    destruct Hfr as [Hp _]. destruct (Hp p eq_refl) as [Hp0 _]. rewrite (proj2 (Z.eqb_neq _ _)) by done.
    destruct (take_base _ _ _ Hb1 p g Hg Hlt) as (a & c' & S' & -> & Ha0 & HaD & Hap & Hb' & HS' & HSq & Hd & _).
    eexists _, _. split; [reflexivity|]. right. rewrite <- Ec. split_and!; [done..|]. exists S'. split; [done|].
    intros q Hq. destruct (decide (q = p)) as [->|Hne]; [done|]. rewrite HSq, decide_False by done. apply Hni, Hdom, Hd; done.
  - rewrite (proj2 (Z.eqb_neq _ _)) by done.
    destruct (take_base _ _ _ Hb r g Hg Hlt) as (a & c' & S' & -> & Ha0 & HaD & Hap & Hb' & HS' & HSq & Hd & _).
    eexists _, _. split; [reflexivity|]. right. split_and!; [done..|]. exists S'. split; [done|].
    intros q Hq. destruct (decide (q = r)) as [->|Hne]; [done|]. rewrite HSq by done. apply Hni, Hd, Hq.
Qed.

(** With no record in use there is no page. *)
Lemma inv_empty c : db_inv c ∅ -> db_pages c = ∅ /\ db_list c = 0.
Proof.
  intros (S & Hb & Hni). assert (E : db_pages c = ∅).
  { apply map_empty. intros p. destruct (db_pages c !! p) as [g|] eqn:Hg; [|done]. exfalso.
    destruct (set_choose_L (S p) (Hni p ltac:(eauto))) as [b HS].
    assert (H : pg_buf g + b * cache_line_size c ∈ (∅ : gset Z)) by (apply (bb_set _ _ _ Hb); eauto 6). set_solver. }
  split; [done|]. destruct (bb_list _ _ _ Hb) as (l & Hl & _). destruct l as [|x l]; [done|]. rewrite E in Hl.
  by destruct Hl as (_ & _ & g & Hg & _).
Qed.

(** The records in use lie a cache line apart. *)
Lemma inv_apart c D a a' : db_inv c D -> a ∈ D -> a' ∈ D -> a <> a' -> cache_line_size c <= Z.abs (a - a').
Proof.
  intros (S & Hb & _) Ha Ha' Hne. apply (bb_set _ _ _ Hb) in Ha as (p & g & b & Hg & HS & ->), Ha' as (p' & g' & b' & Hg' & HS' & ->).
  eapply (records_apart c S D Hb p p'); eauto using member_record. destruct (decide (p = p')) as [<-|]; [right|by left].
  rewrite Hg in Hg'. injection Hg' as <-. by intros ->.
Qed.

(** The states of the allocator, with the records the clients hold: they free only
    those, and the allocators below answer with fresh memory. *)
Inductive db_reach : db_ctx -> gset Z -> Prop :=
  | reach_start cl ps k : 0 < cl <= ps -> 0 <= k -> ps = 2 ^ k -> db_reach (mk_dbc ∅ 0 cl ps) ∅
  | reach_alloc c D page buf db c' :
    db_reach c D -> fresh_answer c page buf -> mlx5_alloc_dbrec NoCustom page buf c = Some (db, false, c') ->
    db_reach c' (if decide (db = 0) then D else {[db]} ∪ D)
  | reach_free c D a c' : db_reach c D -> a ∈ D -> mlx5_free_db false a c = Some c' -> db_reach c' (D ∖ {[a]}).

Lemma start_inv cl ps k : 0 < cl <= ps -> 0 <= k -> ps = 2 ^ k -> db_inv (mk_dbc ∅ 0 cl ps) ∅.
Proof.
  intros Hcl Hk ->. exists (fun _ => ∅). split; [|by intros p [? ?]]. split; simpl; [eauto|done|exists []|done|done|].
  - split_and!; [done|apply NoDup_nil_2|by intros x [? ?]].
  - intros a. split; [set_solver|]. by intros (p & g & b & ? & _).
Qed.

Lemma reach_inv c D : db_reach c D -> db_inv c D.
Proof.
  induction 1 as [cl ps k|c D page buf db c' _ IH Hfr E|c D a c' _ IH Ha E]; [by eapply start_inv| |].
  - destruct (alloc_inv c D page buf IH Hfr) as (db' & c'' & E' & H). rewrite E in E'. injection E' as <- <-.
    destruct H as [(-> & -> & _)|(H0 & _ & _ & H)]; [by rewrite decide_True|]. by rewrite decide_False by lia.
  - destruct (free_inv c D a IH Ha) as (c'' & E' & H). rewrite E in E'. by injection E' as <-.
Qed.

(** C25. In every state the allocator can reach, any two doorbell records in use lie at
    least a cache line apart, so no two share a cache line's worth of bytes; and when all
    records are back every page has been freed: the list is empty and no page is left. *)
Theorem dbrec_apart c D :
  db_reach c D ->
  (forall a a', a ∈ D -> a' ∈ D -> a <> a' -> cache_line_size c <= Z.abs (a - a')) /\
  (D = ∅ -> db_pages c = ∅ /\ db_list c = 0).
Proof. intros H%reach_inv. split; [intros a a'; by apply inv_apart|]. intros ->. by apply inv_empty. Qed.

(** C26. In every state the allocator can reach, its loops stop where they should: an
    allocation walks the list and the bitmap without leaving either and returns a record
    that is not in use, or none, which happens only when every page is full and no new
    one can be had; a free finds the page of any record in use. *)
Theorem dbrec_total c D :
  db_reach c D ->
  (forall page buf, fresh_answer c page buf ->
    exists db c', mlx5_alloc_dbrec NoCustom page buf c = Some (db, false, c') /\
      (db = 0 -> c' = c /\ all_full c /\ (page = None \/ buf = None)) /\ (db <> 0 -> 0 < db /\ db ∉ D)) /\
  (forall a, a ∈ D -> exists c', mlx5_free_db false a c = Some c').
Proof.
  intros H%reach_inv. split.
  - intros page buf Hf. destruct (alloc_inv c D page buf H Hf) as (db & c' & E & [(-> & -> & ? & ?)|(? & ? & _)]);
      eexists _, _; (split; [exact E|split; [by intros|by intros]]) || (split; [exact E|split; [lia|done]]).
  - intros a Ha. destruct (free_inv c D a H Ha) as (c' & E & _). eauto.
Qed.

(** * A run: two records of one page, the first given back *)

Definition run_start : db_ctx := mk_dbc ∅ 0 64 4096.
Definition alloc_run (page buf : option Z) (c : db_ctx) : db_ctx :=
  match mlx5_alloc_dbrec NoCustom page buf c with Some (_, _, c') => c' | None => c end.
Definition free_run (db : Z) (c : db_ctx) : db_ctx := default c (mlx5_free_db false db c).
Definition run1 : db_ctx := alloc_run (Some 16) (Some 8192) run_start.
Definition run2 : db_ctx := alloc_run None None run1.
Definition run3 : db_ctx := free_run 8192 run2.

Lemma run1_reach : db_reach run1 ({[8192]} ∪ ∅).
Proof.
  apply (reach_alloc run_start ∅ (Some 16) (Some 8192) 8192).
  - by apply (reach_start 64 4096 12).
  - split; [by intros p [= <-]|]. intros b [= <-]. by split_and!.
  - vm_compute. reflexivity.
Qed.

Lemma run2_reach : db_reach run2 ({[8256]} ∪ ({[8192]} ∪ ∅)).
Proof. apply (reach_alloc run1 _ None None 8256); [apply run1_reach|done|]. vm_compute. reflexivity. Qed.

Lemma run3_reach : db_reach run3 (({[8256]} ∪ ({[8192]} ∪ ∅)) ∖ {[8192]}).
Proof. apply (reach_free run2); [apply run2_reach|set_solver|]. vm_compute. reflexivity. Qed.

Lemma dbrec_apart_witness :
  64 <= Z.abs (8256 - 8192) /\ db_pages (free_run 8256 run3) = ∅.
Proof.
  split.
  - apply (proj1 (dbrec_apart run2 _ run2_reach) 8256 8192); [set_solver|set_solver|done].
  - refine (proj1 (proj2 (dbrec_apart (free_run 8256 run3) ((({[8256]} ∪ ({[8192]} ∪ ∅)) ∖ {[8192]}) ∖ {[8256]}) _) _)).
    + apply (reach_free run3); [apply run3_reach|set_solver|]. vm_compute. reflexivity.
    + set_solver.
Defined.

Lemma dbrec_total_witness :
  (exists db c', mlx5_alloc_dbrec NoCustom None None run3 = Some (db, false, c') /\
    (db = 0 -> c' = run3 /\ all_full run3 /\ (@None Z = None \/ @None Z = None)) /\
    (db <> 0 -> 0 < db /\ db ∉ (({[8256]} ∪ ({[8192]} ∪ ∅)) ∖ {[8192]} : gset Z))) /\
  exists c', mlx5_free_db false 8256 run3 = Some c'.
Proof.
  destruct (dbrec_total run3 _ run3_reach) as [Ha Hf]. split; [apply Ha; done|apply Hf; set_solver].
Defined.
