(* ===== verification/TagMatch.v ===== *)
(** Tag matching on a shared receive queue: the operations an application posts to its
    list of tags ([mlx5_post_srq_ops] in providers/mlx5/qp.c) go to the device through the
    send queue of a command QP.

    The tags live in one array.  The free ones form a list, linked through [next] from
    [tm_head] to [tm_tail], of which the last is never handed out; a tag given to the
    device counts the completions it will still get and returns to the list with the
    last of them ([mlx5_tm_release_tag] in mlx5.h).  Operations that ask for a completion
    are remembered in a ring of as many entries as the send queue has blocks. *)

From stdpp Require Import base numbers list.
From S2P Require Import Prelude Mem Types Wqe PostSend.

(** * Constants *)

Definition IBV_WR_TAG_ADD : Z := 0.
Definition IBV_WR_TAG_DEL : Z := 1.
Definition IBV_WR_TAG_SYNC : Z := 2.
Definition IBV_OPS_SIGNALED : Z := 1.
Definition IBV_OPS_TM_SYNC : Z := 2.
Definition MLX5_TM_OPCODE_NOP : Z := 0.
Definition MLX5_TM_OPCODE_APPEND : Z := 1.
Definition MLX5_TM_OPCODE_REMOVE : Z := 2.
Definition MLX5_SRQ_FLAG_TM_SW_CNT : Z := 64.
Definition MLX5_SRQ_FLAG_TM_CQE_REQ : Z := 128.

Definition s8 (x : Z) : Z := (x + 2 ^ 7) mod 2 ^ 8 - 2 ^ 7.

(** * State *)

(** [struct mlx5_tag_entry]; a pointer to an entry is its index, the null pointer -1 *)
Record mlx5_tag_entry : Type := mk_tag {
  tag_next : Z; tag_wr_id : Z; phase_cnt : Z; tag_ptr : Z; tag_size : Z; expect_cqe : Z }.

Definition set_tag_next (v : Z) (t : mlx5_tag_entry) : mlx5_tag_entry :=
  mk_tag v (tag_wr_id t) (phase_cnt t) (tag_ptr t) (tag_size t) (expect_cqe t).
Definition set_expect_cqe (v : Z) (t : mlx5_tag_entry) : mlx5_tag_entry :=
  mk_tag (tag_next t) (tag_wr_id t) (phase_cnt t) (tag_ptr t) (tag_size t) v.
Definition set_tag_buf (ptr size : Z) (t : mlx5_tag_entry) : mlx5_tag_entry :=
  mk_tag (tag_next t) (tag_wr_id t) (phase_cnt t) ptr size (expect_cqe t).

(** [struct mlx5_srq_op] *)
Record mlx5_srq_op : Type := mk_op { op_tag : option Z; op_wr_id : Z; op_wqe_head : Z }.

(** The fields of [struct mlx5_srq] for tag matching *)
Record tag_list : Type := mk_tl {
  tm_list : list mlx5_tag_entry; tm_head : Z; tm_tail : Z;
  tm_op : list mlx5_srq_op; op_head : Z; op_tail : Z; unexp_in : Z; unexp_out : Z }.

Definition set_tm_list (v : list mlx5_tag_entry) (s : tag_list) : tag_list :=
  mk_tl v (tm_head s) (tm_tail s) (tm_op s) (op_head s) (op_tail s) (unexp_in s) (unexp_out s).
Definition set_tm_head (v : Z) (s : tag_list) : tag_list :=
  mk_tl (tm_list s) v (tm_tail s) (tm_op s) (op_head s) (op_tail s) (unexp_in s) (unexp_out s).
Definition set_tm_tail (v : Z) (s : tag_list) : tag_list :=
  mk_tl (tm_list s) (tm_head s) v (tm_op s) (op_head s) (op_tail s) (unexp_in s) (unexp_out s).
Definition set_ops (v : list mlx5_srq_op) (h t : Z) (s : tag_list) : tag_list :=
  mk_tl (tm_list s) (tm_head s) (tm_tail s) v h t (unexp_in s) (unexp_out s).
Definition set_unexp (i o : Z) (s : tag_list) : tag_list :=
  mk_tl (tm_list s) (tm_head s) (tm_tail s) (tm_op s) (op_head s) (op_tail s) i o.

Definition tag_at (s : tag_list) (i : Z) : option mlx5_tag_entry := if 0 <=? i then tm_list s !! Z.to_nat i else None.
Definition put_tag (i : Z) (t : mlx5_tag_entry) (s : tag_list) : tag_list :=
  set_tm_list (<[Z.to_nat i := t]> (tm_list s)) s.

(** The lists [mlx5_create_srq_ex] prepares: [max_num_tags] tags and one more; the ring of
    [wqe_cnt] operations *)
Definition tm_init (max_num_tags wqe_cnt : Z) : tag_list :=
  mk_tl ((fun i => mk_tag (if i <? max_num_tags then i + 1 else -1) 0 0 0 0 0) <$> seqZ 0 (max_num_tags + 1))
    0 max_num_tags (replicate (Z.to_nat wqe_cnt) (mk_op None 0 0)) 0 0 0 0.

(** [mlx5_tm_release_tag]; [None]: an index that is not one of the array *)
Definition mlx5_tm_release_tag (i : Z) (s : tag_list) : option tag_list :=
  t ← tag_at s i;
  let t := set_expect_cqe (s8 (expect_cqe t - 1)) t in
  if expect_cqe t =? 0 then
    let s := put_tag i (set_tag_next (-1) t) s in
    last ← tag_at s (tm_tail s);
    Some (set_tm_tail i (put_tag (tm_tail s) (set_tag_next i last) s))
  else Some (put_tag i t s).

(** * Operations *)

(** [struct ibv_ops_wr]; [tm.handle] is also a result *)
Record ibv_ops_wr : Type := mk_ops {
  ow_wr_id : Z; ow_opcode : Z; ow_flags : Z; unexpected_cnt : Z; handle : Z;
  recv_wr_id : Z; ow_sg_list : list ibv_sge; ow_tag : Z; ow_mask : Z }.

Definition set_handle (v : Z) (w : ibv_ops_wr) : ibv_ops_wr :=
  mk_ops (ow_wr_id w) (ow_opcode w) (ow_flags w) (unexpected_cnt w) v (recv_wr_id w) (ow_sg_list w) (ow_tag w) (ow_mask w).

Definition set_tm_seg (seg op : Z) (wr : ibv_ops_wr) (index : Z) (m : mem) : mem :=
  let sig := has_flag (ow_flags wr) IBV_OPS_SIGNALED in
  let sync := has_flag (ow_flags wr) IBV_OPS_TM_SYNC in
  let m := store_be 1 (seg + 1)
    (Z.lor (if sig then MLX5_SRQ_FLAG_TM_CQE_REQ else 0) (if sync then MLX5_SRQ_FLAG_TM_SW_CNT else 0)) m in
  let m := if sync then store_be 2 (seg + 6) (unexpected_cnt wr) m else m in
  let m := store_be 1 seg (Z.shiftl op 4) m in
  if op =? MLX5_TM_OPCODE_NOP then m
  else
    let m := store_be 2 (seg + 2) index m in
    if op =? MLX5_TM_OPCODE_REMOVE then m
    else store_be 8 (seg + 24) (ow_mask wr) (store_be 8 (seg + 16) (ow_tag wr) m).

(** [mlx5_tm_add_op] *)
Definition mlx5_tm_add_op (qp : mlx5_qp) (tag : option Z) (id nreq : Z) (s : tag_list) : option tag_list :=
  let i := Z.land (op_tail s) (wqe_cnt (sq qp) - 1) in
  let op := mk_op tag id (u32 (wq_head (sq qp) + nreq)) in
  let s := set_ops (<[Z.to_nat i := op]> (tm_op s)) (op_head s) (s32 (op_tail s + 1)) s in
  match tag with
  | None => Some s
  | Some i => t ← tag_at s i; Some (put_tag i (set_expect_cqe (s8 (expect_cqe t + 1)) t) s)
  end.

Definition add_op_if_signaled (qp : mlx5_qp) (wr : ibv_ops_wr) (tag : option Z) (nreq : Z) (s : tag_list) : option tag_list :=
  if has_flag (ow_flags wr) IBV_OPS_SIGNALED then mlx5_tm_add_op qp tag (ow_wr_id wr) nreq s else Some s.

(** The loop: the lists of the SRQ, the command QP, the memory, the locals *)
Record ops_st : Type := mk_os { os_tl : tag_list; os_qp : mlx5_qp; os_mem : mem; os_ctrl : Z; os_size : Z }.

(** The control segment before the opcode and the size are known *)
Definition ops_ctrl_begin (ctrl : Z) (m : mem) : mem :=
  store_be 1 (ctrl + 11) 0 (store_be 4 (ctrl + 12) 0 (store_be 4 (ctrl + 8) 0 m)).

(** [case IBV_WR_TAG_ADD]: the request with its handle, the lists, the memory *)
Definition tag_add (qp : mlx5_qp) (nreq seg : Z) (wr : ibv_ops_wr) (s : tag_list) (m : mem)
  : option (outcome * ibv_ops_wr * tag_list * mem * Z) :=
  let h := tm_head s in
  t ← tag_at s h;
  if tag_next t =? -1 then Some (Err ENOMEM, wr, s, m, 1)
  else
    let s := set_tm_head (tag_next t) s in
    let m := set_tm_seg seg MLX5_TM_OPCODE_APPEND wr (tag_next t) m in
    let s := if has_flag (ow_flags wr) IBV_OPS_TM_SYNC then set_unexp (unexp_in s) (s32 (unexpected_cnt wr)) s else s in
    let t := mk_tag (-1) (recv_wr_id wr) (unexp_out s) (tag_ptr t) (tag_size t) (s8 (expect_cqe t + 1)) in
    s ← add_op_if_signaled qp wr (Some h) nreq (put_tag h t s);
    let seg := seg + sizeof_tm_seg in
    let seg := if seg =? qend (sq qp) then mlx5_get_send_wqe qp 0 else seg in
    '(s, m) ← match ow_sg_list wr with
      | [] => Some (s, set_data_ptr_seg_end seg m)
      | sg :: _ =>
        if sge_length sg =? 0 then Some (s, set_data_ptr_seg_end seg m)
        else t ← tag_at s h;
             Some (put_tag h (set_tag_buf (sge_addr sg) (sge_length sg) t) s, set_data_ptr_seg seg sg 0 m)
      end;
    Some (Ok, set_handle h wr, s, m, (sizeof_ctrl_seg + sizeof_tm_seg + sizeof_data_seg) / 16).

(** [case IBV_WR_TAG_DEL] *)
Definition tag_del (qp : mlx5_qp) (nreq seg : Z) (wr : ibv_ops_wr) (s : tag_list) (m : mem)
  : option (outcome * ibv_ops_wr * tag_list * mem * Z) :=
  _ ← tag_at s (handle wr);
  s ← (if has_flag (ow_flags wr) IBV_OPS_SIGNALED then mlx5_tm_add_op qp (Some (handle wr)) (ow_wr_id wr) nreq s
       else mlx5_tm_release_tag (handle wr) s);
  Some (Ok, wr, s, set_tm_seg seg MLX5_TM_OPCODE_REMOVE wr (handle wr) m, (sizeof_ctrl_seg + sizeof_tm_seg) / 16).

(** [case IBV_WR_TAG_SYNC] *)
Definition tag_sync (qp : mlx5_qp) (nreq seg : Z) (wr : ibv_ops_wr) (s : tag_list) (m : mem)
  : option (outcome * ibv_ops_wr * tag_list * mem * Z) :=
  s ← add_op_if_signaled qp wr None nreq s;
  Some (Ok, wr, s, set_tm_seg seg MLX5_TM_OPCODE_NOP wr 0 m, (sizeof_ctrl_seg + sizeof_tm_seg) / 16).

(** One iteration; [None]: a handle outside the array *)
Definition ops_wr (nreq : Z) (tails : Z * Z) (wr : ibv_ops_wr) (s : ops_st) : option (outcome * ibv_ops_wr * ops_st) :=
  let qp := os_qp s in
  if mlx5_wq_overflow (sq qp) nreq tails.1 tails.2 then Some (Err ENOMEM, wr, s)
  else
    let ctrl := mlx5_get_send_wqe qp (sq_idx qp) in
    let m := ops_ctrl_begin ctrl (os_mem s) in
    let seg := ctrl + sizeof_ctrl_seg in
    '(o, wr, tl, m, size) ←
      (if ow_opcode wr =? IBV_WR_TAG_ADD then tag_add qp nreq seg wr (os_tl s) m
       else if ow_opcode wr =? IBV_WR_TAG_DEL then tag_del qp nreq seg wr (os_tl s) m
       else if ow_opcode wr =? IBV_WR_TAG_SYNC then tag_sync qp nreq seg wr (os_tl s) m
       else Some (Err EINVAL, wr, os_tl s, m, sizeof_ctrl_seg / 16));
    match o with
    | Ok =>
      let m := ctrl_end qp ctrl MLX5_OPCODE_TAG_MATCHING size m in
      let w := sq qp in
      let qp := set_sq (set_cur_post (u32 (cur_post w + DIV_ROUND_UP (size * 16) MLX5_SEND_WQE_BB)) w) qp in
      Some (Ok, wr, mk_os tl qp m ctrl size)
    | _ => Some (o, wr, mk_os tl qp m ctrl size)
    end.

Fixpoint ops_loop (tails : Z -> Z * Z) (nreq : Z) (l : list ibv_ops_wr) (s : ops_st)
  : option (outcome * Z * list ibv_ops_wr * ops_st) :=
  match l with
  | [] => Some (Ok, nreq, [], s)
  | wr :: l' =>
    '(o, wr, s) ← ops_wr nreq (tails nreq) wr s;
    match o with
    | Ok => '(o, n, ws, s) ← ops_loop tails (nreq + 1) l' s; Some (o, n, wr :: ws, s)
    | _ => Some (o, nreq, wr :: l', s)
    end
  end.

(** [mlx5_post_srq_ops]; [cmd] is the command QP, if the queue has one.  The error, the
    number posted ([*bad_wr] is the next), the requests with their handles, the lists and the QP *)
Definition mlx5_post_srq_ops (ctx : mlx5_context) (tails : Z -> Z * Z) (wrs : list ibv_ops_wr) (tl : tag_list)
  (cmd : option send_st) : option (outcome * Z * list ibv_ops_wr * tag_list * option send_st) :=
  match cmd with
  | None => Some (Err EINVAL, 0, wrs, tl, None)
  | Some s =>
    '(o, n, ws, os) ← ops_loop tails 0 wrs (mk_os tl (ss_qp s) (ss_mem s) 0 0);
    Some (o, n, ws, os_tl os, Some (post_send_db ctx n false (os_size os) (os_ctrl os)
      (mk_ss (set_fm_cache 0 (os_qp os)) (ss_bf s) (os_mem os) (ss_trace s))))
  end.
