(* ===== verification/CqTypes.v ===== *)
(** The data of completion queues (providers/mlx5/cq.c): the constants of the entries, the
    layout of an entry in memory, and the state a poll works on.  Objects live in a store
    addressed by pointers, as in the C code, where one QP can be reached from the table of
    the context, from the cache of the last poll and from an SRQ. *)

From stdpp Require Import base numbers list gmap.
From S2P Require Import Prelude Mem Types Wqe PostSend Recv Srq Table TagMatch.

(** * Constants *)

(** Entries (mlx5dv.h) *)
Definition MLX5_INLINE_SCATTER_32 : Z := 4.
Definition MLX5_INLINE_SCATTER_64 : Z := 8.
Definition MLX5_CQE_SYNDROME_LOCAL_LENGTH_ERR : Z := 1.
Definition MLX5_CQE_SYNDROME_LOCAL_QP_OP_ERR : Z := 2.
Definition MLX5_CQE_SYNDROME_LOCAL_PROT_ERR : Z := 4.
Definition MLX5_CQE_SYNDROME_WR_FLUSH_ERR : Z := 5.
Definition MLX5_CQE_SYNDROME_MW_BIND_ERR : Z := 6.
Definition MLX5_CQE_SYNDROME_BAD_RESP_ERR : Z := 16.
Definition MLX5_CQE_SYNDROME_LOCAL_ACCESS_ERR : Z := 17.
Definition MLX5_CQE_SYNDROME_REMOTE_INVAL_REQ_ERR : Z := 18.
Definition MLX5_CQE_SYNDROME_REMOTE_ACCESS_ERR : Z := 19.
Definition MLX5_CQE_SYNDROME_REMOTE_OP_ERR : Z := 20.
Definition MLX5_CQE_SYNDROME_TRANSPORT_RETRY_EXC_ERR : Z := 21.
Definition MLX5_CQE_SYNDROME_RNR_RETRY_EXC_ERR : Z := 22.
Definition MLX5_CQE_SYNDROME_REMOTE_ABORTED_ERR : Z := 34.
Definition MLX5_CQE_VENDOR_SYNDROME_ODP_PFAULT : Z := 147.
Definition MLX5_CQE_L3_OK : Z := 2.
Definition MLX5_CQE_L4_OK : Z := 4.
Definition MLX5_CQE_L3_HDR_TYPE_IPV4 : Z := 2.
Definition MLX5_CQE_OWNER_MASK : Z := 1.
Definition MLX5_CQE_REQ : Z := 0.
Definition MLX5_CQE_RESP_WR_IMM : Z := 1.
Definition MLX5_CQE_RESP_SEND : Z := 2.
Definition MLX5_CQE_RESP_SEND_IMM : Z := 3.
Definition MLX5_CQE_RESP_SEND_INV : Z := 4.
Definition MLX5_CQE_RESIZE_CQ : Z := 5.
Definition MLX5_CQE_NO_PACKET : Z := 6.
Definition MLX5_CQE_SIG_ERR : Z := 12.
Definition MLX5_CQE_REQ_ERR : Z := 13.
Definition MLX5_CQE_RESP_ERR : Z := 14.
Definition MLX5_CQE_INVALID : Z := 15.
Definition MLX5_TMC_SUCCESS : Z := 2147483648.
Definition MLX5_CQ_DOORBELL : Z := 32.
Definition MLX5_CQ_DB_REQ_NOT_SOL : Z := 16777216.
Definition MLX5_CQ_DB_REQ_NOT : Z := 0.

(** Flags of the queue and the context (mlx5.h) *)
Definition MLX5_CQ_SET_CI : Z := 0.
Definition MLX5_CQ_ARM_DB : Z := 1.
Definition MLX5_CQ_FLAGS_RX_CSUM_VALID : Z := 1.
Definition MLX5_CQ_FLAGS_EMPTY_DURING_POLL : Z := 2.
Definition MLX5_CQ_FLAGS_FOUND_CQES : Z := 4.
Definition MLX5_CQ_FLAGS_SINGLE_THREADED : Z := 16.
Definition MLX5_CQ_FLAGS_DV_OWNED : Z := 32.
Definition MLX5_CQ_FLAGS_TM_SYNC_REQ : Z := 64.
Definition MLX5_CQ_FLAGS_RAW_WQE : Z := 128.
Definition MLX5_RX_CSUM_VALID : Z := 65536.
Definition MLX5_FLOW_TAG_MASK : Z := 16777215.
Definition MLX5_RSC_TYPE_QP : Z := 0.
Definition MLX5_RSC_TYPE_XSRQ : Z := 1.
Definition MLX5_RSC_TYPE_RWQ : Z := 3.

(** Tag matching (cq.c) *)
Definition MLX5_CQE_APP_TAG_MATCHING : Z := 1.
Definition MLX5_CQE_APP_OP_TM_CONSUMED : Z := 1.
Definition MLX5_CQE_APP_OP_TM_EXPECTED : Z := 2.
Definition MLX5_CQE_APP_OP_TM_UNEXPECTED : Z := 3.
Definition MLX5_CQE_APP_OP_TM_NO_TAG : Z := 4.
Definition MLX5_CQE_APP_OP_TM_APPEND : Z := 5.
Definition MLX5_CQE_APP_OP_TM_REMOVE : Z := 6.
Definition MLX5_CQE_APP_OP_TM_NOOP : Z := 7.
Definition MLX5_CQE_APP_OP_TM_CONSUMED_SW_RDNV : Z := 9.
Definition MLX5_CQE_APP_OP_TM_CONSUMED_MSG : Z := 10.
Definition MLX5_CQE_APP_OP_TM_CONSUMED_MSG_SW_RDNV : Z := 11.
Definition MLX5_CQE_APP_OP_TM_MSG_COMPLETION_CANCELED : Z := 12.
Definition MLX5_TM_MAX_SYNC_DIFF : Z := 16383.

(** [enum ibv_wc_status], [ibv_wc_opcode], [ibv_wc_flags] (verbs.h) *)
Definition IBV_WC_LOC_QP_OP_ERR : Z := 2.
Definition IBV_WC_LOC_PROT_ERR : Z := 4.
Definition IBV_WC_WR_FLUSH_ERR : Z := 5.
Definition IBV_WC_MW_BIND_ERR : Z := 6.
Definition IBV_WC_BAD_RESP_ERR : Z := 7.
Definition IBV_WC_LOC_ACCESS_ERR : Z := 8.
Definition IBV_WC_REM_ACCESS_ERR : Z := 10.
Definition IBV_WC_REM_OP_ERR : Z := 11.
Definition IBV_WC_RETRY_EXC_ERR : Z := 12.
Definition IBV_WC_RNR_RETRY_EXC_ERR : Z := 13.
Definition IBV_WC_REM_ABORT_ERR : Z := 16.
Definition IBV_WC_TM_ERR : Z := 22.
Definition IBV_WC_TM_RNDV_INCOMPLETE : Z := 23.
Definition IBV_WC_RECV : Z := 128.
Definition IBV_WC_RECV_RDMA_WITH_IMM : Z := 129.
Definition IBV_WC_TM_ADD : Z := 130.
Definition IBV_WC_TM_DEL : Z := 131.
Definition IBV_WC_TM_SYNC : Z := 132.
Definition IBV_WC_TM_RECV : Z := 133.
Definition IBV_WC_TM_NO_TAG : Z := 134.
Definition IBV_WC_GRH : Z := 1.
Definition IBV_WC_WITH_IMM : Z := 2.
Definition IBV_WC_IP_CSUM_OK : Z := 4.
Definition IBV_WC_WITH_INV : Z := 8.
Definition IBV_WC_TM_SYNC_REQ : Z := 16.
Definition IBV_WC_TM_MATCH : Z := 32.
Definition IBV_WC_TM_DATA_VALID : Z := 64.
Definition IBV_WC_EX_WITH_BYTE_LEN : Z := 1.
Definition IBV_WC_EX_WITH_IMM : Z := 2.
Definition IBV_WC_EX_WITH_QP_NUM : Z := 4.
Definition IBV_WC_EX_WITH_SRC_QP : Z := 8.
Definition IBV_WC_EX_WITH_SLID : Z := 16.
Definition IBV_WC_EX_WITH_SL : Z := 32.
Definition IBV_WC_EX_WITH_DLID_PATH_BITS : Z := 64.
Definition IBV_WC_EX_WITH_COMPLETION_TIMESTAMP : Z := 128.
Definition IBV_WC_EX_WITH_CVLAN : Z := 256.
Definition IBV_WC_EX_WITH_FLOW_TAG : Z := 512.
Definition IBV_WC_EX_WITH_TM_INFO : Z := 1024.
Definition IBV_WC_EX_WITH_COMPLETION_TIMESTAMP_WALLCLOCK : Z := 2048.

(** Results of a poll (cq.c) *)
Definition CQ_OK : Z := 0.
Definition CQ_EMPTY : Z := -1.
Definition CQ_POLL_ERR : Z := -2.
Definition CQ_POLL_NODATA : Z := ENOENT.

(** * Entries *)

(** Fields of [struct mlx5_cqe64] at address [c] *)
Definition tm_success (c : Z) (m : mem) : Z := load_be 4 c m.
Definition tm_hw_phase_cnt (c : Z) (m : mem) : Z := load_be 2 (c + 4) m.
Definition tmh_app_ctx (c : Z) (m : mem) : Z := load_be 4 (c + 4) m.
Definition tmh_tag (c : Z) (m : mem) : Z := load_be 8 (c + 8) m.
Definition cqe_ml_path (c : Z) (m : mem) : Z := m (c + 17).
Definition cqe_slid (c : Z) (m : mem) : Z := load_be 2 (c + 22) m.
Definition flags_rqpn (c : Z) (m : mem) : Z := load_be 4 (c + 24) m.
Definition hds_ip_ext (c : Z) (m : mem) : Z := m (c + 28).
Definition l4_hdr_type_etc (c : Z) (m : mem) : Z := m (c + 29).
Definition vlan_info (c : Z) (m : mem) : Z := load_be 2 (c + 30) m.
Definition srqn_uidx (c : Z) (m : mem) : Z := load_be 4 (c + 32) m.
Definition imm_inval_pkey (c : Z) (m : mem) : Z := load_be 4 (c + 36) m.
Definition cqe_app (c : Z) (m : mem) : Z := m (c + 40).
Definition cqe_app_op (c : Z) (m : mem) : Z := m (c + 41).
Definition cqe_app_info (c : Z) (m : mem) : Z := load_be 2 (c + 42) m.
Definition byte_cnt (c : Z) (m : mem) : Z := load_be 4 (c + 44) m.
Definition cqe_timestamp (c : Z) (m : mem) : Z := load_be 8 (c + 48) m.
Definition sop_drop_qpn (c : Z) (m : mem) : Z := load_be 4 (c + 56) m.
Definition wqe_counter (c : Z) (m : mem) : Z := load_be 2 (c + 60) m.
Definition op_own (c : Z) (m : mem) : Z := m (c + 63).
Definition sizeof_cqe64 : Z := 64.

(** [mlx5dv_get_cqe_opcode] *)
Definition mlx5dv_get_cqe_opcode (c : Z) (m : mem) : Z := Z.shiftr (op_own c m) 4.

(** Fields of [struct mlx5_err_cqe] *)
Definition vendor_err_synd (c : Z) (m : mem) : Z := m (c + 54).
Definition syndrome (c : Z) (m : mem) : Z := m (c + 55).

(** [struct mlx5_sig_err] and the error fields of [struct mlx5_sig_ctx] *)
Record mlx5_sig_err : Type := mk_se {
  se_syndrome : Z; se_expected : Z; se_actual : Z; se_offset : Z; se_sig_type : Z; se_domain : Z }.
Record sig_errs : Type := mk_ses { err_info : mlx5_sig_err; sig_err_count : Z; err_exists : bool; err_updated : bool }.

(** [get_sig_err_info] from the [struct mlx5_sigerr_cqe] at [c] *)
Definition get_sig_err_info (c : Z) (m : mem) : mlx5_sig_err :=
  mk_se (load_be 2 (c + 32) m)
    (Z.lor (Z.shiftl (load_be 4 (c + 16) m) 32) (load_be 4 (c + 24) m))
    (Z.lor (Z.shiftl (load_be 4 (c + 20) m) 32) (load_be 4 (c + 28) m))
    (load_be 8 (c + 40) m) (m (c + 34)) (m (c + 35)).

(** * State *)

(** [struct mlx5dv_clock_info] *)
Record mlx5dv_clock_info : Type := mk_clock {
  ci_nsec : Z; last_cycles : Z; ci_frac : Z; ci_mult : Z; ci_shift : Z; ci_mask : Z }.

(** [struct mlx5_cq]: [cq_buf] is [active_buf->buf], [cqe_mask] is [verbs_cq.cq.cqe], [cq_wr_id]
    and [cq_status] are those of [verbs_cq.cq_ex],
    [cq_locked] tells whether [lock] is held *)
Record mlx5_cq : Type := mk_cq {
  cq_buf : Z; cqe_mask : Z; cqe_sz : Z; cons_index : Z; cq_dbrec : Z; cqn : Z; arm_sn : Z; cq_flags : Z;
  cq_cqe64 : Z; cached_opcode : Z; cq_locked : bool; last_clock_info : mlx5dv_clock_info; cq_wr_id : Z;
  cq_status : Z; stall_enable : bool; stall_adaptive_enable : bool; stall_next_poll : bool;
  stall_last_count : Z; stall_cycles : Z }.

Definition set_cons_index (v : Z) (c : mlx5_cq) : mlx5_cq :=
  mk_cq (cq_buf c) (cqe_mask c) (cqe_sz c) v (cq_dbrec c) (cqn c) (arm_sn c) (cq_flags c) (cq_cqe64 c)
    (cached_opcode c) (cq_locked c) (last_clock_info c) (cq_wr_id c) (cq_status c) (stall_enable c)
    (stall_adaptive_enable c) (stall_next_poll c) (stall_last_count c) (stall_cycles c).
Definition set_arm_sn (v : Z) (c : mlx5_cq) : mlx5_cq :=
  mk_cq (cq_buf c) (cqe_mask c) (cqe_sz c) (cons_index c) (cq_dbrec c) (cqn c) v (cq_flags c) (cq_cqe64 c)
    (cached_opcode c) (cq_locked c) (last_clock_info c) (cq_wr_id c) (cq_status c) (stall_enable c)
    (stall_adaptive_enable c) (stall_next_poll c) (stall_last_count c) (stall_cycles c).
Definition set_cq_flags (v : Z) (c : mlx5_cq) : mlx5_cq :=
  mk_cq (cq_buf c) (cqe_mask c) (cqe_sz c) (cons_index c) (cq_dbrec c) (cqn c) (arm_sn c) v (cq_cqe64 c)
    (cached_opcode c) (cq_locked c) (last_clock_info c) (cq_wr_id c) (cq_status c) (stall_enable c)
    (stall_adaptive_enable c) (stall_next_poll c) (stall_last_count c) (stall_cycles c).
Definition set_cq_cqe64 (v : Z) (c : mlx5_cq) : mlx5_cq :=
  mk_cq (cq_buf c) (cqe_mask c) (cqe_sz c) (cons_index c) (cq_dbrec c) (cqn c) (arm_sn c) (cq_flags c) v
    (cached_opcode c) (cq_locked c) (last_clock_info c) (cq_wr_id c) (cq_status c) (stall_enable c)
    (stall_adaptive_enable c) (stall_next_poll c) (stall_last_count c) (stall_cycles c).
Definition set_cached_opcode (v : Z) (c : mlx5_cq) : mlx5_cq :=
  mk_cq (cq_buf c) (cqe_mask c) (cqe_sz c) (cons_index c) (cq_dbrec c) (cqn c) (arm_sn c) (cq_flags c)
    (cq_cqe64 c) v (cq_locked c) (last_clock_info c) (cq_wr_id c) (cq_status c) (stall_enable c)
    (stall_adaptive_enable c) (stall_next_poll c) (stall_last_count c) (stall_cycles c).
Definition set_cq_locked (v : bool) (c : mlx5_cq) : mlx5_cq :=
  mk_cq (cq_buf c) (cqe_mask c) (cqe_sz c) (cons_index c) (cq_dbrec c) (cqn c) (arm_sn c) (cq_flags c)
    (cq_cqe64 c) (cached_opcode c) v (last_clock_info c) (cq_wr_id c) (cq_status c) (stall_enable c)
    (stall_adaptive_enable c) (stall_next_poll c) (stall_last_count c) (stall_cycles c).
Definition set_last_clock_info (v : mlx5dv_clock_info) (c : mlx5_cq) : mlx5_cq :=
  mk_cq (cq_buf c) (cqe_mask c) (cqe_sz c) (cons_index c) (cq_dbrec c) (cqn c) (arm_sn c) (cq_flags c)
    (cq_cqe64 c) (cached_opcode c) (cq_locked c) v (cq_wr_id c) (cq_status c) (stall_enable c)
    (stall_adaptive_enable c) (stall_next_poll c) (stall_last_count c) (stall_cycles c).
Definition set_cq_wr_id (v : Z) (c : mlx5_cq) : mlx5_cq :=
  mk_cq (cq_buf c) (cqe_mask c) (cqe_sz c) (cons_index c) (cq_dbrec c) (cqn c) (arm_sn c) (cq_flags c)
    (cq_cqe64 c) (cached_opcode c) (cq_locked c) (last_clock_info c) v (cq_status c) (stall_enable c)
    (stall_adaptive_enable c) (stall_next_poll c) (stall_last_count c) (stall_cycles c).
Definition set_cq_status (v : Z) (c : mlx5_cq) : mlx5_cq :=
  mk_cq (cq_buf c) (cqe_mask c) (cqe_sz c) (cons_index c) (cq_dbrec c) (cqn c) (arm_sn c) (cq_flags c)
    (cq_cqe64 c) (cached_opcode c) (cq_locked c) (last_clock_info c) (cq_wr_id c) v (stall_enable c)
    (stall_adaptive_enable c) (stall_next_poll c) (stall_last_count c) (stall_cycles c).
Definition set_stall_next_poll (v : bool) (c : mlx5_cq) : mlx5_cq :=
  mk_cq (cq_buf c) (cqe_mask c) (cqe_sz c) (cons_index c) (cq_dbrec c) (cqn c) (arm_sn c) (cq_flags c)
    (cq_cqe64 c) (cached_opcode c) (cq_locked c) (last_clock_info c) (cq_wr_id c) (cq_status c) (stall_enable c)
    (stall_adaptive_enable c) v (stall_last_count c) (stall_cycles c).
Definition set_stall_last_count (v : Z) (c : mlx5_cq) : mlx5_cq :=
  mk_cq (cq_buf c) (cqe_mask c) (cqe_sz c) (cons_index c) (cq_dbrec c) (cqn c) (arm_sn c) (cq_flags c)
    (cq_cqe64 c) (cached_opcode c) (cq_locked c) (last_clock_info c) (cq_wr_id c) (cq_status c) (stall_enable c)
    (stall_adaptive_enable c) (stall_next_poll c) v (stall_cycles c).
Definition set_stall_cycles (v : Z) (c : mlx5_cq) : mlx5_cq :=
  mk_cq (cq_buf c) (cqe_mask c) (cqe_sz c) (cons_index c) (cq_dbrec c) (cqn c) (arm_sn c) (cq_flags c)
    (cq_cqe64 c) (cached_opcode c) (cq_locked c) (last_clock_info c) (cq_wr_id c) (cq_status c) (stall_enable c)
    (stall_adaptive_enable c) (stall_next_poll c) (stall_last_count c) v.

(** The union of [imm_data], in network order, and [invalidated_rkey]: a [__be32] stands for
    the number it denotes *)
Inductive imm_or_rkey : Type := ImmData (v : Z) | InvalidatedRkey (v : Z).

(** [struct ibv_wc] *)
Record ibv_wc : Type := mk_wc {
  wc_wr_id : Z; wc_status : Z; wc_opcode : Z; vendor_err : Z; byte_len : Z; wc_imm : imm_or_rkey;
  wc_qp_num : Z; src_qp : Z; wc_flags : Z; pkey_index : Z; slid : Z; sl : Z; dlid_path_bits : Z }.

Definition set_wc_wr_id (v : Z) (w : ibv_wc) : ibv_wc :=
  mk_wc v (wc_status w) (wc_opcode w) (vendor_err w) (byte_len w) (wc_imm w) (wc_qp_num w) (src_qp w)
    (wc_flags w) (pkey_index w) (slid w) (sl w) (dlid_path_bits w).
Definition set_wc_status (v : Z) (w : ibv_wc) : ibv_wc :=
  mk_wc (wc_wr_id w) v (wc_opcode w) (vendor_err w) (byte_len w) (wc_imm w) (wc_qp_num w) (src_qp w)
    (wc_flags w) (pkey_index w) (slid w) (sl w) (dlid_path_bits w).
Definition set_wc_opcode (v : Z) (w : ibv_wc) : ibv_wc :=
  mk_wc (wc_wr_id w) (wc_status w) v (vendor_err w) (byte_len w) (wc_imm w) (wc_qp_num w) (src_qp w)
    (wc_flags w) (pkey_index w) (slid w) (sl w) (dlid_path_bits w).
Definition set_vendor_err (v : Z) (w : ibv_wc) : ibv_wc :=
  mk_wc (wc_wr_id w) (wc_status w) (wc_opcode w) v (byte_len w) (wc_imm w) (wc_qp_num w) (src_qp w) (wc_flags w)
    (pkey_index w) (slid w) (sl w) (dlid_path_bits w).
Definition set_byte_len (v : Z) (w : ibv_wc) : ibv_wc :=
  mk_wc (wc_wr_id w) (wc_status w) (wc_opcode w) (vendor_err w) v (wc_imm w) (wc_qp_num w) (src_qp w)
    (wc_flags w) (pkey_index w) (slid w) (sl w) (dlid_path_bits w).
Definition set_wc_imm (v : imm_or_rkey) (w : ibv_wc) : ibv_wc :=
  mk_wc (wc_wr_id w) (wc_status w) (wc_opcode w) (vendor_err w) (byte_len w) v (wc_qp_num w) (src_qp w)
    (wc_flags w) (pkey_index w) (slid w) (sl w) (dlid_path_bits w).
Definition set_wc_qp_num (v : Z) (w : ibv_wc) : ibv_wc :=
  mk_wc (wc_wr_id w) (wc_status w) (wc_opcode w) (vendor_err w) (byte_len w) (wc_imm w) v (src_qp w)
    (wc_flags w) (pkey_index w) (slid w) (sl w) (dlid_path_bits w).
Definition set_src_qp (v : Z) (w : ibv_wc) : ibv_wc :=
  mk_wc (wc_wr_id w) (wc_status w) (wc_opcode w) (vendor_err w) (byte_len w) (wc_imm w) (wc_qp_num w) v
    (wc_flags w) (pkey_index w) (slid w) (sl w) (dlid_path_bits w).
Definition set_wc_flags (v : Z) (w : ibv_wc) : ibv_wc :=
  mk_wc (wc_wr_id w) (wc_status w) (wc_opcode w) (vendor_err w) (byte_len w) (wc_imm w) (wc_qp_num w) (src_qp w)
    v (pkey_index w) (slid w) (sl w) (dlid_path_bits w).
Definition set_pkey_index (v : Z) (w : ibv_wc) : ibv_wc :=
  mk_wc (wc_wr_id w) (wc_status w) (wc_opcode w) (vendor_err w) (byte_len w) (wc_imm w) (wc_qp_num w) (src_qp w)
    (wc_flags w) v (slid w) (sl w) (dlid_path_bits w).
Definition set_slid (v : Z) (w : ibv_wc) : ibv_wc :=
  mk_wc (wc_wr_id w) (wc_status w) (wc_opcode w) (vendor_err w) (byte_len w) (wc_imm w) (wc_qp_num w) (src_qp w)
    (wc_flags w) (pkey_index w) v (sl w) (dlid_path_bits w).
Definition set_sl (v : Z) (w : ibv_wc) : ibv_wc :=
  mk_wc (wc_wr_id w) (wc_status w) (wc_opcode w) (vendor_err w) (byte_len w) (wc_imm w) (wc_qp_num w) (src_qp w)
    (wc_flags w) (pkey_index w) (slid w) v (dlid_path_bits w).
Definition set_dlid_path_bits (v : Z) (w : ibv_wc) : ibv_wc :=
  mk_wc (wc_wr_id w) (wc_status w) (wc_opcode w) (vendor_err w) (byte_len w) (wc_imm w) (wc_qp_num w) (src_qp w)
    (wc_flags w) (pkey_index w) (slid w) (sl w) v.

(** What a resource is: a QP with its SRQ (0: none); an SRQ with its number, its tags and
    its command QP; a receive queue *)
Inductive rsc_obj : Type :=
| OQp (qp : mlx5_qp) (srq : Z)
| OSrq (srq : mlx5_srq) (srqn : Z) (tags : tag_list) (cmd_qp : Z)
| ORwq (rwq : mlx5_rwq).

(** [struct mlx5_resource], the first member of all three *)
Record mlx5_resource : Type := mk_rsc { rsc_type : Z; rsn : Z; rsc_obj_of : rsc_obj }.

(** What a poll works on: the queue, the tables and the objects behind the pointers, the
    resources found last ([*cur_rsc], [*cur_srq]), the entry [*wc] to fill, the memory and
    what the device is told *)
Record pst : Type := mk_pst {
  p_cq : mlx5_cq; p_tabs : tables; p_objs : gmap Z mlx5_resource; p_sigs : gmap Z (option sig_errs);
  p_rsc : Z; p_srq : Z; p_wc : ibv_wc; p_mem : mem; p_trace : list dev_event }.

Definition set_p_cq (v : mlx5_cq) (s : pst) : pst :=
  mk_pst v (p_tabs s) (p_objs s) (p_sigs s) (p_rsc s) (p_srq s) (p_wc s) (p_mem s) (p_trace s).
Definition set_p_objs (v : gmap Z mlx5_resource) (s : pst) : pst :=
  mk_pst (p_cq s) (p_tabs s) v (p_sigs s) (p_rsc s) (p_srq s) (p_wc s) (p_mem s) (p_trace s).
Definition set_p_sigs (v : gmap Z (option sig_errs)) (s : pst) : pst :=
  mk_pst (p_cq s) (p_tabs s) (p_objs s) v (p_rsc s) (p_srq s) (p_wc s) (p_mem s) (p_trace s).
Definition set_p_rsc (v : Z) (s : pst) : pst :=
  mk_pst (p_cq s) (p_tabs s) (p_objs s) (p_sigs s) v (p_srq s) (p_wc s) (p_mem s) (p_trace s).
Definition set_p_srq (v : Z) (s : pst) : pst :=
  mk_pst (p_cq s) (p_tabs s) (p_objs s) (p_sigs s) (p_rsc s) v (p_wc s) (p_mem s) (p_trace s).
Definition set_p_wc (v : ibv_wc) (s : pst) : pst :=
  mk_pst (p_cq s) (p_tabs s) (p_objs s) (p_sigs s) (p_rsc s) (p_srq s) v (p_mem s) (p_trace s).
Definition set_p_mem (v : mem) (s : pst) : pst :=
  mk_pst (p_cq s) (p_tabs s) (p_objs s) (p_sigs s) (p_rsc s) (p_srq s) (p_wc s) v (p_trace s).
Definition set_p_trace (v : list dev_event) (s : pst) : pst :=
  mk_pst (p_cq s) (p_tabs s) (p_objs s) (p_sigs s) (p_rsc s) (p_srq s) (p_wc s) (p_mem s) v.

(** * Stateful computations *)

(** [None]: the C code follows a null or dangling pointer, takes an object for one of
    another type, reads outside an array, or does not return. *)
Definition P (A : Type) : Type := pst -> option (A * pst).

#[global] Instance P_ret : MRet P := fun A x s => Some (x, s).
#[global] Instance P_bind : MBind P := fun A B f m s => match m s with Some (x, s') => f x s' | None => None end.

Notation "x ;+ z" := (mbind (fun _ => z) x) (at level 100, z at level 200, right associativity) : mlx5_scope.

Definition gets {A} (f : pst -> A) : P A := fun s => Some (f s, s).
Definition modify (f : pst -> pst) : P unit := fun s => Some (tt, f s).
Definition fault {A} : P A := fun _ => None.

(** Writes to the parts of the state *)
Definition on_cq (f : mlx5_cq -> mlx5_cq) : P unit := modify (fun s => set_p_cq (f (p_cq s)) s).
Definition on_wc (f : ibv_wc -> ibv_wc) : P unit := modify (fun s => set_p_wc (f (p_wc s)) s).
Definition put_mem (m : mem) : P unit := modify (set_p_mem m).

(** Reading and writing the object at a pointer *)
Definition get_rsc (p : Z) : P mlx5_resource := fun s => r ← p_objs s !! p; Some (r, s).
Definition put_obj (p : Z) (o : rsc_obj) : P unit :=
  r ← get_rsc p; modify (fun s => set_p_objs (<[p := mk_rsc (rsc_type r) (rsn r) o]> (p_objs s)) s).
Definition get_qp (p : Z) : P mlx5_qp :=
  r ← get_rsc p; match rsc_obj_of r with OQp qp _ => mret qp | _ => fault end.
Definition put_qp (p : Z) (qp : mlx5_qp) : P unit :=
  r ← get_rsc p; match rsc_obj_of r with OQp _ srq => put_obj p (OQp qp srq) | _ => fault end.
Definition get_srq (p : Z) : P (mlx5_srq * Z * tag_list * Z) :=
  r ← get_rsc p; match rsc_obj_of r with OSrq srq n tl cmd => mret (srq, n, tl, cmd) | _ => fault end.
Definition put_srq (p : Z) (srq : mlx5_srq) : P unit :=
  '(_, n, tl, cmd) ← get_srq p; put_obj p (OSrq srq n tl cmd).
Definition put_tags (p : Z) (tl : tag_list) : P unit :=
  '(srq, n, _, cmd) ← get_srq p; put_obj p (OSrq srq n tl cmd).

(** An element of an array; outside it, a fault *)
Definition elem {A} (l : list A) (i : Z) : P A :=
  fun s => if 0 <=? i then x ← l !! Z.to_nat i; Some (x, s) else None.
Definition lift {A} (o : option A) : P A := fun s => x ← o; Some (x, s).
