(* ===== verification/Cq.v ===== *)
(** Polling a completion queue (providers/mlx5/cq.c).

    The queue is a ring the device writes and the driver reads.  Each entry carries an
    owner bit that flips with every lap, so the driver knows a new entry from an old one
    without a producer index.  An entry names the queue and the element it completes:
    [mlx5_parse_cqe] looks both up, returns the identifier the application gave the
    request, delivers data that came inside the entry and gives the element back.

    [lazy] selects between [ibv_poll_cq], which fills a [struct ibv_wc], and the
    [ibv_start_poll] interface, which keeps the entry and reads fields on demand. *)

From stdpp Require Import base numbers list gmap.
From S2P Require Import Prelude Mem Types Wqe PostSend Recv Srq Table TagMatch CqTypes.

(** * The ring *)

Definition get_cqe_l3_hdr_type (c : Z) (m : mem) : Z := Z.land (Z.shiftr (l4_hdr_type_etc c m) 2) 3.

Definition get_cqe (cq : mlx5_cq) (n : Z) : Z := cq_buf cq + n * cqe_sz cq.

(** The 64 bytes of an entry that describe the completion *)
Definition cqe64_of (cq : mlx5_cq) (cqe : Z) : Z := if cqe_sz cq =? 64 then cqe else cqe + 64.

(** [get_sw_cqe]: the entry [n], if it is the driver's *)
Definition get_sw_cqe (cq : mlx5_cq) (n : Z) (m : mem) : option Z :=
  let cqe := get_cqe cq (Z.land n (cqe_mask cq)) in
  let c := cqe64_of cq cqe in
  if negb (mlx5dv_get_cqe_opcode c m =? MLX5_CQE_INVALID)
     && (Z.lxor (Z.land (op_own c m) MLX5_CQE_OWNER_MASK) (Z.b2z (negb (Z.land n (cqe_mask cq + 1) =? 0))) =? 0)
  then Some cqe else None.

Definition next_cqe_sw (cq : mlx5_cq) (m : mem) : option Z := get_sw_cqe cq (cons_index cq) m.

Definition update_cons_index (cq : mlx5_cq) (m : mem) : mem :=
  store_be 4 (cq_dbrec cq + 4 * MLX5_CQ_SET_CI) (Z.land (cons_index cq) 0xffffff) m.

(** [mlx5_get_next_cqe]: [None] for [CQ_EMPTY], else [*pcqe64] and [*pcqe] *)
Definition mlx5_get_next_cqe : P (option (Z * Z)) :=
  cq ← gets p_cq; m ← gets p_mem;
  match next_cqe_sw cq m with
  | None => mret None
  | Some cqe => on_cq (fun cq => set_cons_index (u32 (cons_index cq + 1)) cq) ;+ mret (Some (cqe64_of cq cqe, cqe))
  end.

(** * Requests *)

Definition has_opcode (l : list Z) (x : Z) : bool := existsb (Z.eqb x) l.

(** Elements whose completion code the driver keeps in [wr_data] *)
Definition wr_data_opcodes : list Z := [MLX5_OPCODE_UMR; MLX5_OPCODE_SET_PSV; MLX5_OPCODE_NOP; MLX5_OPCODE_MMO].

Definition handle_good_req (c : Z) (m : mem) (wq : mlx5_wq) (idx : Z) (wc : ibv_wc) : ibv_wc :=
  let op := Z.shiftr (sop_drop_qpn c m) 24 in
  let imm wc := set_wc_flags (Z.lor (wc_flags wc) IBV_WC_WITH_IMM) wc in
  let wc :=
    if op =? MLX5_OPCODE_RDMA_WRITE_IMM then set_wc_opcode IBV_WC_RDMA_WRITE (imm wc)
    else if op =? MLX5_OPCODE_RDMA_WRITE then set_wc_opcode IBV_WC_RDMA_WRITE wc
    else if op =? MLX5_OPCODE_SEND_IMM then set_wc_opcode IBV_WC_SEND (imm wc)
    else if has_opcode [MLX5_OPCODE_SEND; MLX5_OPCODE_SEND_INVAL] op then set_wc_opcode IBV_WC_SEND wc
    else if op =? MLX5_OPCODE_RDMA_READ then set_byte_len (byte_cnt c m) (set_wc_opcode IBV_WC_RDMA_READ wc)
    else if op =? MLX5_OPCODE_ATOMIC_CS then set_byte_len 8 (set_wc_opcode IBV_WC_COMP_SWAP wc)
    else if op =? MLX5_OPCODE_ATOMIC_FA then set_byte_len 8 (set_wc_opcode IBV_WC_FETCH_ADD wc)
    else if has_opcode wr_data_opcodes op then set_wc_opcode (aget (wr_data wq) idx) wc
    else if op =? MLX5_OPCODE_TSO then set_wc_opcode IBV_WC_TSO wc
    else wc in
  if aget (wr_data wq) idx =? IBV_WC_DRIVER2 then set_wc_opcode IBV_WC_DRIVER2 wc else wc.

(** [mlx5_handle_error_cqe] *)
Definition mlx5_handle_error_cqe (c : Z) (m : mem) : Z :=
  let s := syndrome c m in
  if s =? MLX5_CQE_SYNDROME_LOCAL_LENGTH_ERR then IBV_WC_LOC_LEN_ERR
  else if s =? MLX5_CQE_SYNDROME_LOCAL_QP_OP_ERR then IBV_WC_LOC_QP_OP_ERR
  else if s =? MLX5_CQE_SYNDROME_LOCAL_PROT_ERR then IBV_WC_LOC_PROT_ERR
  else if s =? MLX5_CQE_SYNDROME_WR_FLUSH_ERR then IBV_WC_WR_FLUSH_ERR
  else if s =? MLX5_CQE_SYNDROME_MW_BIND_ERR then IBV_WC_MW_BIND_ERR
  else if s =? MLX5_CQE_SYNDROME_BAD_RESP_ERR then IBV_WC_BAD_RESP_ERR
  else if s =? MLX5_CQE_SYNDROME_LOCAL_ACCESS_ERR then IBV_WC_LOC_ACCESS_ERR
  else if s =? MLX5_CQE_SYNDROME_REMOTE_INVAL_REQ_ERR then IBV_WC_REM_INV_REQ_ERR
  else if s =? MLX5_CQE_SYNDROME_REMOTE_ACCESS_ERR then IBV_WC_REM_ACCESS_ERR
  else if s =? MLX5_CQE_SYNDROME_REMOTE_OP_ERR then IBV_WC_REM_OP_ERR
  else if s =? MLX5_CQE_SYNDROME_TRANSPORT_RETRY_EXC_ERR then IBV_WC_RETRY_EXC_ERR
  else if s =? MLX5_CQE_SYNDROME_RNR_RETRY_EXC_ERR then IBV_WC_RNR_RETRY_EXC_ERR
  else if s =? MLX5_CQE_SYNDROME_REMOTE_ABORTED_ERR then IBV_WC_REM_ABORT_ERR
  else IBV_WC_GENERAL_ERR.

Definition is_odp_pfault_err (c : Z) (m : mem) : bool :=
  (syndrome c m =? MLX5_CQE_SYNDROME_REMOTE_ABORTED_ERR) && (vendor_err_synd c m =? MLX5_CQE_VENDOR_SYNDROME_ODP_PFAULT).

(** * Finding the object of an entry *)

(** The resource found last is not the one numbered [n]. *)
Definition rsc_stale (n : Z) : P bool :=
  p ← gets p_rsc;
  if p =? 0 then mret true else r ← get_rsc p; mret (negb (rsn r =? n)).

(** [get_req_context]: the pointer of the QP, 0 if there is none *)
Definition get_req_context (n : Z) (cqe_ver : bool) : P Z :=
  stale ← rsc_stale n;
  (if stale : bool
   then modify (fun s => set_p_rsc (if cqe_ver then mlx5_find_uidx (p_tabs s) n else mlx5_find_qp (p_tabs s) n) s)
   else mret tt) ;+
  gets p_rsc.

(** [get_resp_ctx_v1]: the error and [*is_srq] *)
Definition get_resp_ctx_v1 (uidx : Z) : P (Z * bool) :=
  stale ← rsc_stale uidx;
  (if stale : bool then modify (fun s => set_p_rsc (mlx5_find_uidx (p_tabs s) uidx) s) else mret tt) ;+
  p ← gets p_rsc;
  if p =? 0 then mret (CQ_POLL_ERR, false)
  else
    r ← get_rsc p;
    if rsc_type r =? MLX5_RSC_TYPE_QP then
      match rsc_obj_of r with
      | OQp _ srq => if srq =? 0 then mret (CQ_OK, false) else modify (set_p_srq srq) ;+ mret (CQ_OK, true)
      | _ => fault
      end
    else if rsc_type r =? MLX5_RSC_TYPE_XSRQ then modify (set_p_srq p) ;+ mret (CQ_OK, true)
    else if rsc_type r =? MLX5_RSC_TYPE_RWQ then mret (CQ_OK, false)
    else mret (CQ_POLL_ERR, false).

Definition get_qp_ctx (qpn : Z) : P Z :=
  stale ← rsc_stale qpn;
  if stale : bool then
    modify (fun s => set_p_rsc (mlx5_find_qp (p_tabs s) qpn) s) ;+
    p ← gets p_rsc; mret (if p =? 0 then CQ_POLL_ERR else CQ_OK)
  else mret CQ_OK.

Definition get_srq_ctx (srqn : Z) : P Z :=
  p ← gets p_srq;
  stale ← (if p =? 0 then mret true else '(_, n, _, _) ← get_srq p; mret (negb (n =? srqn)));
  if stale : bool then
    modify (fun s => set_p_srq (mlx5_find_srq (p_tabs s) srqn) s) ;+
    p ← gets p_srq; mret (if p =? 0 then CQ_POLL_ERR else CQ_OK)
  else mret CQ_OK.

(** [get_cur_rsc]: the error and [*is_srq] *)
Definition get_cur_rsc (cqe_ver : bool) (qpn n : Z) : P (Z * bool) :=
  if cqe_ver then get_resp_ctx_v1 n
  else if negb (n =? 0) then e ← get_srq_ctx n; mret (e, true)
  else e ← get_qp_ctx qpn; mret (e, false).

Section Poll.
Context (ctx : mlx5_context).

(** * Responders *)

(** Data inside the entry: [deliver buf] scatters it from [buf] *)
Definition inline_scatter (c32 c64 : Z) (own : Z) (deliver : Z -> P Z) : P Z :=
  if has_flag own MLX5_INLINE_SCATTER_32 then deliver c32
  else if has_flag own MLX5_INLINE_SCATTER_64 then deliver c64
  else mret 0.

(** The part [handle_responder] and [handle_responder_lazy] share, on an SRQ: the element
    goes back to the free list, the data to the buffers it lists *)
Definition srq_take (sp : Z) (c : Z) : P (Z * Z) :=
  m ← gets p_mem; '(srq, _, _, _) ← get_srq sp;
  let ctr := wqe_counter c m in
  id ← elem (srq_wrid srq) ctr;
  let '(srq, m1) := mlx5_free_srq_wqe ctr srq m in
  put_srq sp srq ;+ put_mem m1 ;+
  err ← inline_scatter c (c - sizeof_cqe64) (op_own c m) (fun buf =>
    m ← gets p_mem; let '(r, m) := mlx5_copy_to_recv_srq srq ctr buf (byte_cnt c m) m in put_mem m ;+ mret r);
  mret (id, err).

(** On the receive queue of a QP or a stand-alone one: the oldest element *)
Definition rq_take (c : Z) : P (Z * Z) :=
  m ← gets p_mem; p ← gets p_rsc; r ← get_rsc p;
  wq ← match rsc_obj_of r with
    | OQp qp _ => if rsc_type r =? MLX5_RSC_TYPE_QP then mret (rq qp) else fault
    | ORwq rwq => if rsc_type r =? MLX5_RSC_TYPE_QP then fault else mret (rwq_rq rwq)
    | _ => fault
    end;
  let ctr := u16 (Z.land (wq_tail wq) (wqe_cnt wq - 1)) in
  let id := aget (wrid wq) ctr in
  let wq := set_wq_tail (u32 (wq_tail wq + 1)) wq in
  put_obj p match rsc_obj_of r with
    | OQp qp srq => OQp (set_rq wq qp) srq
    | ORwq rwq => ORwq (mk_rwq (rwq_num rwq) wq (pbuff rwq) (recv_db rwq) (rwq_sig rwq))
    | o => o
    end ;+
  err ← inline_scatter c (c - sizeof_cqe64) (op_own c m) (fun buf =>
    qp ← get_qp p; m ← gets p_mem;
    let '(e, m) := mlx5_copy_to_recv_wqe ctx qp ctr buf (byte_cnt c m) m in put_mem m ;+ mret e);
  mret (id, err).

(** The receive queue is a QP's, with checksum offload *)
Definition rx_csum : P bool :=
  p ← gets p_rsc; r ← get_rsc p;
  mret (match rsc_obj_of r with OQp qp _ => (rsc_type r =? MLX5_RSC_TYPE_QP) && has_flag (qp_cap_cache qp) MLX5_RX_CSUM_VALID | _ => false end).

Definition handle_responder_lazy (c : Z) (srq : option Z) : P Z :=
  '(id, err) ← match srq with
    | Some sp => srq_take sp c
    | None =>
      csum ← rx_csum;
      (if csum : bool then on_cq (fun q => set_cq_flags (Z.lor (cq_flags q) MLX5_CQ_FLAGS_RX_CSUM_VALID) q) else mret tt) ;+
      rq_take c
    end;
  on_cq (set_cq_wr_id id) ;+ mret err.

(** [get_csum_ok] *)
Definition get_csum_ok (c : Z) (m : mem) : Z :=
  let both := Z.lor MLX5_CQE_L4_OK MLX5_CQE_L3_OK in
  if (Z.land (hds_ip_ext c m) both =? both) && (get_cqe_l3_hdr_type c m =? MLX5_CQE_L3_HDR_TYPE_IPV4)
  then IBV_WC_IP_CSUM_OK else 0.

(** The fields of a receive completion *)
Definition responder_wc (c : Z) (m : mem) (wc : ibv_wc) : ibv_wc :=
  let op := Z.shiftr (op_own c m) 4 in
  let add f wc := set_wc_flags (Z.lor (wc_flags wc) f) wc in
  let wc :=
    if op =? MLX5_CQE_RESP_WR_IMM then
      set_wc_imm (ImmData (imm_inval_pkey c m)) (add IBV_WC_WITH_IMM (set_wc_opcode IBV_WC_RECV_RDMA_WITH_IMM wc))
    else if op =? MLX5_CQE_RESP_SEND then set_wc_opcode IBV_WC_RECV wc
    else if op =? MLX5_CQE_RESP_SEND_IMM then
      set_wc_imm (ImmData (imm_inval_pkey c m)) (add IBV_WC_WITH_IMM (set_wc_opcode IBV_WC_RECV wc))
    else if op =? MLX5_CQE_RESP_SEND_INV then
      set_wc_imm (InvalidatedRkey (imm_inval_pkey c m)) (add IBV_WC_WITH_INV (set_wc_opcode IBV_WC_RECV wc))
    else wc in
  let wc := set_slid (cqe_slid c m) wc in
  let wc := set_sl (Z.land (Z.shiftr (flags_rqpn c m) 24) 0xf) wc in
  let wc := set_src_qp (Z.land (flags_rqpn c m) 0xffffff) wc in
  let wc := set_dlid_path_bits (Z.land (cqe_ml_path c m) 0x7f) wc in
  let g := Z.land (Z.shiftr (flags_rqpn c m) 28) 3 in
  let wc := add (if g =? 0 then 0 else IBV_WC_GRH) wc in
  set_pkey_index (Z.land (imm_inval_pkey c m) 0xffff) wc.

Definition handle_responder (c : Z) (srq : option Z) : P Z :=
  m ← gets p_mem;
  on_wc (set_byte_len (byte_cnt c m)) ;+
  '(id, err) ← match srq with
    | Some sp => srq_take sp c
    | None =>
      csum ← rx_csum;
      (if csum : bool then on_wc (fun w => set_wc_flags (Z.lor (wc_flags w) (get_csum_ok c m)) w) else mret tt) ;+
      rq_take c
    end;
  on_wc (set_wc_wr_id id) ;+
  if negb (err =? 0) then mret err
  else m ← gets p_mem; on_wc (responder_wc c m) ;+ mret IBV_WC_SUCCESS.

(** * Tag matching *)

Definition mlx5_cqe_app_op_tm_is_complete (op : Z) : bool :=
  negb (op =? MLX5_CQE_APP_OP_TM_CONSUMED) && negb (op =? MLX5_CQE_APP_OP_TM_CONSUMED_SW_RDNV).

Definition set_status (v : Z) : P unit := on_cq (set_cq_status v).
Definition or_flags (f : Z) : P unit := on_cq (fun q => set_cq_flags (Z.lor (cq_flags q) f) q).

(** A message matched tag [i] *)
Definition tm_consumed (sp c : Z) : P Z :=
  m ← gets p_mem; '(_, _, tl, _) ← get_srq sp;
  let i := cqe_app_info c m in
  t ← elem (tm_list tl) i;
  if expect_cqe t =? 0 then set_status IBV_WC_GENERAL_ERR ;+ mret CQ_OK
  else
    on_cq (set_cq_wr_id (tag_wr_id t)) ;+
    (if mlx5_cqe_app_op_tm_is_complete (cqe_app_op c m) then tl ← lift (mlx5_tm_release_tag i tl); put_tags sp tl
     else mret tt) ;+
    (if has_flag (op_own c m) MLX5_INLINE_SCATTER_64 then
       if tag_size t <? byte_cnt c m then set_status IBV_WC_LOC_LEN_ERR
       else put_mem (memcpy (tag_ptr t) (c - sizeof_cqe64) (byte_cnt c m) m)
     else mret tt) ;+
    mret CQ_OK.

(** An operation on the list completed *)
Definition tm_list_op (sp c : Z) : P Z :=
  m ← gets p_mem; '(_, _, tl, cmd) ← get_srq sp; qp ← get_qp cmd; status ← gets (fun s => cq_status (p_cq s));
  op ← elem (tm_op tl) (Z.land (op_head tl) (wqe_cnt (sq qp) - 1));
  let tl := set_ops (tm_op tl) (s32 (op_head tl + 1)) (op_tail tl) tl in
  tl ← match op_tag op with
    | None => mret tl
    | Some i =>
      tl ← lift (mlx5_tm_release_tag i tl);
      tl ← (if (cqe_app_op c m =? MLX5_CQE_APP_OP_TM_REMOVE) && (status =? IBV_WC_SUCCESS)
            then lift (mlx5_tm_release_tag i tl) else mret tl);
      t ← elem (tm_list tl) i;
      (if negb (tm_hw_phase_cnt c m =? phase_cnt t) then or_flags MLX5_CQ_FLAGS_TM_SYNC_REQ else mret tt) ;+
      mret tl
    end;
  put_tags sp tl ;+
  put_qp cmd (set_sq (set_wq_tail (u32 (op_wqe_head op + 1)) (sq qp)) qp) ;+
  on_cq (set_cq_wr_id (op_wr_id op)) ;+ mret CQ_OK.

(** An element of the queue itself was consumed *)
Definition tm_untagged (sp c : Z) : P Z :=
  '(id, err) ← srq_take sp c; on_cq (set_cq_wr_id id) ;+ mret err.

Definition handle_tag_matching (c sp : Z) : P Z :=
  set_status IBV_WC_SUCCESS ;+
  m ← gets p_mem;
  let op := cqe_app_op c m in
  if has_opcode [MLX5_CQE_APP_OP_TM_CONSUMED_MSG_SW_RDNV; MLX5_CQE_APP_OP_TM_CONSUMED_SW_RDNV;
                 MLX5_CQE_APP_OP_TM_MSG_COMPLETION_CANCELED] op then
    set_status IBV_WC_TM_RNDV_INCOMPLETE ;+ tm_consumed sp c
  else if has_opcode [MLX5_CQE_APP_OP_TM_CONSUMED_MSG; MLX5_CQE_APP_OP_TM_CONSUMED; MLX5_CQE_APP_OP_TM_EXPECTED] op then
    tm_consumed sp c
  else if op =? MLX5_CQE_APP_OP_TM_REMOVE then
    (if has_flag (tm_success c m) MLX5_TMC_SUCCESS then mret tt else set_status IBV_WC_TM_ERR) ;+ tm_list_op sp c
  else if has_opcode [MLX5_CQE_APP_OP_TM_APPEND; MLX5_CQE_APP_OP_TM_NOOP] op then tm_list_op sp c
  else if op =? MLX5_CQE_APP_OP_TM_UNEXPECTED then
    '(_, _, tl, _) ← get_srq sp;
    let tl := set_unexp (s32 (unexp_in tl + 1)) (unexp_out tl) tl in
    put_tags sp tl ;+
    (if MLX5_TM_MAX_SYNC_DIFF <? s32 (unexp_in tl - unexp_out tl) then or_flags MLX5_CQ_FLAGS_TM_SYNC_REQ else mret tt) ;+
    tm_untagged sp c
  else if op =? MLX5_CQE_APP_OP_TM_NO_TAG then tm_untagged sp c
  else mret CQ_OK.

(** * Parsing an entry *)

(** The result of a read or an atomic that came inside the entry.  [cqe] is a [void *]:
    [cqe - 1] is one byte before it. *)
Definition req_scatter (p wqe_ctr c cqe len : Z) : P Z :=
  m ← gets p_mem;
  inline_scatter cqe (cqe - 1) (op_own c m) (fun buf =>
    qp ← get_qp p; m ← gets p_mem;
    let '(e, m) := mlx5_copy_to_send_wqe ctx qp wqe_ctr buf len m in put_mem m ;+ mret e).

Definition req_lazy (p : Z) (wq : mlx5_wq) (wqe_ctr idx c cqe : Z) : P unit :=
  m ← gets p_mem;
  let op := Z.shiftr (sop_drop_qpn c m) 24 in
  err ← (if has_opcode wr_data_opcodes op then on_cq (set_cached_opcode (aget (wr_data wq) idx)) ;+ mret 0
         else if op =? MLX5_OPCODE_RDMA_READ then req_scatter p wqe_ctr c cqe (byte_cnt c m)
         else if has_opcode [MLX5_OPCODE_ATOMIC_CS; MLX5_OPCODE_ATOMIC_FA] op then req_scatter p wqe_ctr c cqe 8
         else mret 0);
  on_cq (set_cq_wr_id (aget (wrid wq) idx)) ;+ set_status err ;+
  (if aget (wr_data wq) idx =? IBV_WC_DRIVER2 then or_flags MLX5_CQ_FLAGS_RAW_WQE else mret tt).

Definition req_eager (p : Z) (wq : mlx5_wq) (wqe_ctr idx c cqe : Z) : P unit :=
  m ← gets p_mem;
  on_wc (handle_good_req c m wq idx) ;+
  wc ← gets p_wc;
  err ← req_scatter p wqe_ctr c cqe (byte_len wc);
  on_wc (set_wc_wr_id (aget (wrid wq) idx)) ;+ on_wc (set_wc_status err).

(** [wq->tail = wq->wqe_head[idx] + 1] *)
Definition sq_completed (p idx : Z) : P unit :=
  qp ← get_qp p; put_qp p (set_sq (set_wq_tail (u32 (aget (wqe_head (sq qp)) idx + 1)) (sq qp)) qp).

Definition cqe_qpn (c : Z) (m : mem) : Z := Z.land (sop_drop_qpn c m) 0xffffff.
Definition cqe_uidx (c : Z) (m : mem) : Z := Z.land (srqn_uidx c m) 0xffffff.

(** [case MLX5_CQE_REQ] *)
Definition parse_req (lazy cqe_ver : bool) (c cqe : Z) : P Z :=
  m ← gets p_mem;
  p ← get_req_context (if cqe_ver then cqe_uidx c m else cqe_qpn c m) cqe_ver;
  if p =? 0 then mret CQ_POLL_ERR
  else
    qp ← get_qp p;
    let ctr := wqe_counter c m in
    let idx := Z.land ctr (wqe_cnt (sq qp) - 1) in
    (if lazy then req_lazy p (sq qp) ctr idx c cqe else req_eager p (sq qp) ctr idx c cqe) ;+
    sq_completed p idx ;+ mret CQ_OK.

(** [case MLX5_CQE_RESP_WR_IMM .. MLX5_CQE_RESP_SEND_INV] *)
Definition parse_resp (lazy cqe_ver : bool) (c : Z) : P Z :=
  m ← gets p_mem;
  '(err, is_srq) ← get_cur_rsc cqe_ver (cqe_qpn c m) (cqe_uidx c m);
  if negb (err =? 0) then mret CQ_POLL_ERR
  else
    sp ← gets p_srq;
    let srq := if is_srq : bool then Some sp else None in
    if lazy then
      if negb (cqe_app c m =? MLX5_CQE_APP_TAG_MATCHING) then
        st ← handle_responder_lazy c srq; set_status st ;+ mret CQ_OK
      else if negb is_srq then mret CQ_POLL_ERR
      else e ← handle_tag_matching c sp; mret (if e =? 0 then CQ_OK else CQ_POLL_ERR)
    else st ← handle_responder c srq; on_wc (set_wc_status st) ;+ mret CQ_OK.

(** [case MLX5_CQE_NO_PACKET] *)
Definition parse_no_packet (cqe_ver : bool) (c : Z) : P Z :=
  m ← gets p_mem;
  if negb (cqe_app c m =? MLX5_CQE_APP_TAG_MATCHING) then mret CQ_POLL_ERR
  else
    '(err, is_srq) ← get_cur_rsc cqe_ver (cqe_qpn c m) (cqe_uidx c m);
    if negb (err =? 0) || negb is_srq then mret CQ_POLL_ERR
    else sp ← gets p_srq; e ← handle_tag_matching c sp; mret (if e =? 0 then CQ_OK else CQ_POLL_ERR).

(** [case MLX5_CQE_SIG_ERR], up to the next entry; false: no such mkey *)
Definition parse_sig_err (c : Z) : P bool :=
  m ← gets p_mem; t ← gets p_tabs;
  let k := mlx5_find_mkey t (Z.shiftr (load_be 4 (c + 36) m) 8) in
  if k =? 0 then mret false
  else
    sigs ← gets p_sigs;
    match sigs !! k with
    | Some (Some e) =>
      modify (set_p_sigs (<[k := Some (mk_ses (get_sig_err_info c m) (u32 (sig_err_count e + 1)) true true)]> sigs)) ;+ mret true
    | _ => fault
    end.

(** The identifier goes to the result of the interface in use *)
Definition put_wr_id (lazy : bool) (id : Z) : P unit := if lazy then on_cq (set_cq_wr_id id) else on_wc (set_wc_wr_id id).

(** [MLX5_CQE_REQ_ERR]: the request that failed *)
Definition parse_req_err (lazy cqe_ver : bool) (c : Z) : P Z :=
  m ← gets p_mem;
  p ← get_req_context (if cqe_ver then cqe_uidx c m else cqe_qpn c m) cqe_ver;
  if p =? 0 then mret CQ_POLL_ERR
  else
    qp ← get_qp p;
    let idx := Z.land (wqe_counter c m) (wqe_cnt (sq qp) - 1) in
    put_wr_id lazy (aget (wrid (sq qp)) idx) ;+ sq_completed p idx ;+ mret CQ_OK.

(** [MLX5_CQE_RESP_ERR]: true when the entry was a page fault the driver handled itself *)
Definition parse_resp_err (lazy cqe_ver : bool) (c : Z) : P (Z * bool) :=
  m ← gets p_mem;
  '(err, is_srq) ← get_cur_rsc cqe_ver (cqe_qpn c m) (cqe_uidx c m);
  if negb (err =? 0) then mret (CQ_POLL_ERR, false)
  else if is_srq : bool then
    sp ← gets p_srq; '(srq, _, _, _) ← get_srq sp;
    let ctr := wqe_counter c m in
    if is_odp_pfault_err c m then
      let '(srq, m, ev) := mlx5_complete_odp_fault ctr srq m in
      put_srq sp srq ;+ put_mem m ;+ modify (fun s => set_p_trace (p_trace s ++ ev) s) ;+ mret (CQ_OK, true)
    else
      id ← elem (srq_wrid srq) ctr;
      put_wr_id lazy id ;+
      let '(srq, m) := mlx5_free_srq_wqe ctr srq m in
      put_srq sp srq ;+ put_mem m ;+ mret (CQ_OK, false)
  else
    p ← gets p_rsc; r ← get_rsc p;
    let step wq := set_wq_tail (u32 (wq_tail wq + 1)) wq in
    let id wq := aget (wrid wq) (Z.land (wq_tail wq) (wqe_cnt wq - 1)) in
    match rsc_obj_of r with
    | ORwq rwq =>
      if rsc_type r =? MLX5_RSC_TYPE_RWQ then
        put_wr_id lazy (id (rwq_rq rwq)) ;+
        put_obj p (ORwq (mk_rwq (rwq_num rwq) (step (rwq_rq rwq)) (pbuff rwq) (recv_db rwq) (rwq_sig rwq))) ;+ mret (CQ_OK, false)
      else fault
    | OQp qp srq =>
      if rsc_type r =? MLX5_RSC_TYPE_RWQ then fault
      else put_wr_id lazy (id (rq qp)) ;+ put_obj p (OQp (set_rq (step (rq qp)) qp) srq) ;+ mret (CQ_OK, false)
    | _ => fault
    end.

(** Errors worth a message; with [mlx5_freeze_on_error_cqe] the poll then never returns *)
Definition loud_error (c : Z) (m : mem) : bool :=
  negb (syndrome c m =? MLX5_CQE_SYNDROME_WR_FLUSH_ERR)
  && negb (syndrome c m =? MLX5_CQE_SYNDROME_TRANSPORT_RETRY_EXC_ERR) && negb (is_odp_pfault_err c m).

Definition MLX5_CQ_LAZY_FLAGS : Z :=
  Z.lor (Z.lor MLX5_CQ_FLAGS_RX_CSUM_VALID MLX5_CQ_FLAGS_TM_SYNC_REQ) MLX5_CQ_FLAGS_RAW_WQE.

(** From [again:] to the switch *)
Definition parse_begin (lazy : bool) (c : Z) : P unit :=
  m ← gets p_mem;
  if lazy then on_cq (set_cq_cqe64 c) ;+ on_cq (fun q => set_cq_flags (Z.land (cq_flags q) (u32 (Z.lnot MLX5_CQ_LAZY_FLAGS))) q)
  else on_wc (set_wc_flags 0) ;+ on_wc (set_wc_qp_num (cqe_qpn c m)).

(** One pass from [again:]: the result, or [None] to take the next entry *)
Definition parse_once (freeze lazy cqe_ver : bool) (c cqe : Z) : P (option Z) :=
  parse_begin lazy c ;+
  m ← gets p_mem;
  let op := mlx5dv_get_cqe_opcode c m in
  if op =? MLX5_CQE_REQ then r ← parse_req lazy cqe_ver c cqe; mret (Some r)
  else if has_opcode [MLX5_CQE_RESP_WR_IMM; MLX5_CQE_RESP_SEND; MLX5_CQE_RESP_SEND_IMM; MLX5_CQE_RESP_SEND_INV] op then
    r ← parse_resp lazy cqe_ver c; mret (Some r)
  else if op =? MLX5_CQE_NO_PACKET then r ← parse_no_packet cqe_ver c; mret (Some r)
  else if op =? MLX5_CQE_SIG_ERR then
    known ← parse_sig_err c; mret (if known : bool then None else Some CQ_POLL_ERR)
  else if op =? MLX5_CQE_RESIZE_CQ then mret (Some CQ_OK)
  else if has_opcode [MLX5_CQE_REQ_ERR; MLX5_CQE_RESP_ERR] op then
    (if lazy then set_status (mlx5_handle_error_cqe c m)
     else on_wc (set_wc_status (mlx5_handle_error_cqe c m)) ;+ on_wc (set_vendor_err (vendor_err_synd c m))) ;+
    if loud_error c m && freeze then fault
    else if op =? MLX5_CQE_REQ_ERR then r ← parse_req_err lazy cqe_ver c; mret (Some r)
    else '(r, handled) ← parse_resp_err lazy cqe_ver c; mret (if handled : bool then None else Some r)
  else mret (Some CQ_OK).

(** [mlx5_parse_cqe]; each further pass takes an entry *)
Fixpoint mlx5_parse_cqe (fuel : nat) (freeze lazy cqe_ver : bool) (c cqe : Z) : P Z :=
  match fuel with
  | O => fault
  | S fuel =>
    r ← parse_once freeze lazy cqe_ver c cqe;
    match r with
    | Some r => mret r
    | None =>
      n ← mlx5_get_next_cqe;
      match n with
      | None => mret CQ_POLL_NODATA
      | Some (c, cqe) => mlx5_parse_cqe fuel freeze lazy cqe_ver c cqe
      end
    end
  end.

(** Passes there can be: the entries of the ring, and one *)
Definition parse_fuel (cq : mlx5_cq) : nat := S (Z.to_nat (cqe_mask cq + 1)).

Definition mlx5_poll_one (freeze cqe_ver : bool) : P Z :=
  n ← mlx5_get_next_cqe;
  match n with
  | None => mret CQ_EMPTY
  | Some (c, cqe) => f ← gets (fun s => parse_fuel (p_cq s)); mlx5_parse_cqe f freeze false cqe_ver c cqe
  end.
End Poll.
