(* ===== verification/CqPoll.v ===== *)
(** The polling interfaces of a completion queue (providers/mlx5/cq.c): [mlx5_poll_cq], and
    the functions behind [ibv_start_poll], [ibv_next_poll] and [ibv_end_poll] with the
    readers of the fields of an entry.

    The spin lock is a flag of the queue: taking it while it is held does not return. *)

From stdpp Require Import base numbers list gmap.
From S2P Require Import Prelude Mem Types Wqe PostSend Recv Srq Table TagMatch CqTypes Cq.

(** [mlx5_stall_cq_poll_min] and its companions *)
Record stall_cfg : Type := mk_stall { poll_min : Z; poll_max : Z; inc_step : Z; dec_step : Z }.
Definition mlx5_stall_default : stall_cfg := mk_stall 60 100000 100 10.

(** [enum polling_mode] *)
Inductive polling_mode : Type := POLLING_MODE_NO_STALL | POLLING_MODE_STALL | POLLING_MODE_STALL_ADAPTIVE.
#[global] Instance polling_mode_eq_dec : EqDecision polling_mode.
Proof. solve_decision. Defined.

Definition lock_cq : P unit := l ← gets (fun s => cq_locked (p_cq s)); if l : bool then fault else on_cq (set_cq_locked true).
Definition unlock_cq : P unit := on_cq (set_cq_locked false).

(** * Readers *)

Section Readers.
Context (cq : mlx5_cq) (m : mem).
#[local] Abbreviation c := (cq_cqe64 cq).

Definition mlx5_cq_read_wc_opcode : Z :=
  let op := mlx5dv_get_cqe_opcode c m in
  if op =? MLX5_CQE_RESP_WR_IMM then IBV_WC_RECV_RDMA_WITH_IMM
  else if has_opcode [MLX5_CQE_RESP_SEND; MLX5_CQE_RESP_SEND_IMM; MLX5_CQE_RESP_SEND_INV] op then
    if cqe_app c m =? MLX5_CQE_APP_TAG_MATCHING then
      if has_opcode [MLX5_CQE_APP_OP_TM_CONSUMED_MSG_SW_RDNV; MLX5_CQE_APP_OP_TM_CONSUMED_MSG;
          MLX5_CQE_APP_OP_TM_CONSUMED_SW_RDNV; MLX5_CQE_APP_OP_TM_EXPECTED; MLX5_CQE_APP_OP_TM_UNEXPECTED] (cqe_app_op c m)
      then IBV_WC_TM_RECV
      else if cqe_app_op c m =? MLX5_CQE_APP_OP_TM_NO_TAG then IBV_WC_TM_NO_TAG else IBV_WC_RECV
    else IBV_WC_RECV
  else if op =? MLX5_CQE_NO_PACKET then
    let a := cqe_app_op c m in
    if a =? MLX5_CQE_APP_OP_TM_REMOVE then IBV_WC_TM_DEL
    else if a =? MLX5_CQE_APP_OP_TM_APPEND then IBV_WC_TM_ADD
    else if a =? MLX5_CQE_APP_OP_TM_NOOP then IBV_WC_TM_SYNC
    else if a =? MLX5_CQE_APP_OP_TM_CONSUMED then IBV_WC_TM_RECV else 0
  else if op =? MLX5_CQE_REQ then
    if has_flag (cq_flags cq) MLX5_CQ_FLAGS_RAW_WQE then IBV_WC_DRIVER2
    else
      let o := Z.shiftr (sop_drop_qpn c m) 24 in
      if has_opcode [MLX5_OPCODE_RDMA_WRITE_IMM; MLX5_OPCODE_RDMA_WRITE] o then IBV_WC_RDMA_WRITE
      else if has_opcode [MLX5_OPCODE_SEND_IMM; MLX5_OPCODE_SEND; MLX5_OPCODE_SEND_INVAL] o then IBV_WC_SEND
      else if o =? MLX5_OPCODE_RDMA_READ then IBV_WC_RDMA_READ
      else if o =? MLX5_OPCODE_ATOMIC_CS then IBV_WC_COMP_SWAP
      else if o =? MLX5_OPCODE_ATOMIC_FA then IBV_WC_FETCH_ADD
      else if has_opcode wr_data_opcodes o then cached_opcode cq
      else if o =? MLX5_OPCODE_TSO then IBV_WC_TSO else 0
  else 0.

Definition mlx5_cq_read_wc_qp_num : Z := Z.land (sop_drop_qpn c m) 0xffffff.

Definition mlx5_cq_read_wc_flags : Z :=
  let op := mlx5dv_get_cqe_opcode c m in
  let a := cqe_app_op c m in
  let f := if has_flag (cq_flags cq) MLX5_CQ_FLAGS_RX_CSUM_VALID then get_csum_ok c m else 0 in
  let f := if has_opcode [MLX5_CQE_RESP_WR_IMM; MLX5_CQE_RESP_SEND_IMM] op then Z.lor f IBV_WC_WITH_IMM
           else if op =? MLX5_CQE_RESP_SEND_INV then Z.lor f IBV_WC_WITH_INV else f in
  let f := if has_flag (cq_flags cq) MLX5_CQ_FLAGS_TM_SYNC_REQ then Z.lor f IBV_WC_TM_SYNC_REQ else f in
  let f :=
    if cqe_app c m =? MLX5_CQE_APP_TAG_MATCHING then
      if has_opcode [MLX5_CQE_APP_OP_TM_CONSUMED_MSG_SW_RDNV; MLX5_CQE_APP_OP_TM_CONSUMED_MSG;
                     MLX5_CQE_APP_OP_TM_MSG_COMPLETION_CANCELED] a
      then Z.lor f (Z.lor IBV_WC_TM_MATCH IBV_WC_TM_DATA_VALID)
      else if has_opcode [MLX5_CQE_APP_OP_TM_CONSUMED_SW_RDNV; MLX5_CQE_APP_OP_TM_CONSUMED] a then Z.lor f IBV_WC_TM_MATCH
      else if a =? MLX5_CQE_APP_OP_TM_EXPECTED then Z.lor f IBV_WC_TM_DATA_VALID else f
    else f in
  Z.lor f (if Z.land (Z.shiftr (flags_rqpn c m) 28) 3 =? 0 then 0 else IBV_WC_GRH).

Definition mlx5_cq_read_wc_byte_len : Z := byte_cnt c m.
Definition mlx5_cq_read_wc_vendor_err : Z := vendor_err_synd c m.
Definition mlx5_cq_read_wc_imm_data : imm_or_rkey :=
  if mlx5dv_get_cqe_opcode c m =? MLX5_CQE_RESP_SEND_INV then InvalidatedRkey (imm_inval_pkey c m)
  else ImmData (imm_inval_pkey c m).
Definition mlx5_cq_read_wc_slid : Z := cqe_slid c m.
Definition mlx5_cq_read_wc_sl : Z := Z.land (Z.shiftr (flags_rqpn c m) 24) 0xf.
Definition mlx5_cq_read_wc_src_qp : Z := Z.land (flags_rqpn c m) 0xffffff.
Definition mlx5_cq_read_wc_dlid_path_bits : Z := Z.land (cqe_ml_path c m) 0x7f.
Definition mlx5_cq_read_wc_completion_ts : Z := cqe_timestamp c m.
Definition mlx5_cq_read_wc_cvlan : Z := vlan_info c m.
Definition mlx5_cq_read_flow_tag : Z := Z.land (sop_drop_qpn c m) MLX5_FLOW_TAG_MASK.
Definition mlx5_cq_read_wc_tm_info : Z * Z := (tmh_tag c m, tmh_app_ctx c m).
End Readers.

(** [mlx5dv_ts_to_ns], in 64-bit arithmetic *)
Definition mlx5dv_ts_to_ns (ci : mlx5dv_clock_info) (ts : Z) : Z :=
  let delta := Z.land (u64 (ts - last_cycles ci)) (ci_mask ci) in
  if ci_mask ci / 2 <? delta then
    let delta := Z.land (u64 (last_cycles ci - ts)) (ci_mask ci) in
    u64 (ci_nsec ci - Z.shiftr (u64 (delta * ci_mult ci - ci_frac ci)) (ci_shift ci))
  else u64 (ci_nsec ci + Z.shiftr (u64 (delta * ci_mult ci + ci_frac ci)) (ci_shift ci)).

Definition mlx5_cq_read_wc_completion_wallclock_ns (cq : mlx5_cq) (m : mem) : Z :=
  mlx5dv_ts_to_ns (last_clock_info cq) (mlx5_cq_read_wc_completion_ts cq m).

Section Interface.
(** [now] is what the cycle counter reads; [clock] what [mlx5dv_get_clock_info] answers, with
    what it leaves in the structure it is given *)
Context (ctx : mlx5_context) (freeze : bool) (cfg : stall_cfg) (now : Z) (clock : mlx5dv_clock_info -> Z * mlx5dv_clock_info).

(** * Stalling *)

(** The waits change no state but [stall_next_poll] *)
Definition stall_before (adaptive : bool) : P unit :=
  if adaptive then mret tt
  else n ← gets (fun s => stall_next_poll (p_cq s)); if n : bool then on_cq (set_stall_next_poll false) else mret tt.

(** [stall_cycles = max(stall_cycles - dec_step, poll_min)] and its opposite *)
Definition stall_less (cq : mlx5_cq) : mlx5_cq := set_stall_cycles (Z.max (stall_cycles cq - dec_step cfg) (poll_min cfg)) cq.
Definition stall_more (cq : mlx5_cq) : mlx5_cq := set_stall_cycles (Z.min (stall_cycles cq + inc_step cfg) (poll_max cfg)) cq.

(** * [ibv_poll_cq] *)

Fixpoint poll_loop (cqe_ver : bool) (wcs : list ibv_wc) (npolled : Z) : P (Z * Z * list ibv_wc) :=
  match wcs with
  | [] => mret (CQ_OK, npolled, [])
  | wc :: wcs' =>
    modify (set_p_wc wc) ;+
    err ← mlx5_poll_one ctx freeze cqe_ver;
    wc ← gets p_wc;
    if negb (err =? CQ_OK) then mret (err, npolled, wc :: wcs')
    else '(err, n, l) ← poll_loop cqe_ver wcs' (npolled + 1); mret (err, n, wc :: l)
  end.

(** [poll_cq]: the result and the array of completions, of length [ne].  The last resources
    found are locals. *)
Definition poll_cq (cqe_ver : bool) (wcs : list ibv_wc) : P (Z * list ibv_wc) :=
  stall ← gets (fun s => stall_enable (p_cq s)); adaptive ← gets (fun s => stall_adaptive_enable (p_cq s));
  rsc ← gets p_rsc; srq ← gets p_srq;
  (if stall : bool then stall_before adaptive else mret tt) ;+
  lock_cq ;+
  modify (fun s => set_p_srq 0 (set_p_rsc 0 s)) ;+
  '(err, npolled, wcs) ← poll_loop cqe_ver wcs 0;
  modify (fun s => set_p_mem (update_cons_index (p_cq s) (p_mem s)) s) ;+
  modify (fun s => set_p_srq srq (set_p_rsc rsc s)) ;+
  unlock_cq ;+
  (if stall : bool then
     if adaptive : bool then
       if npolled =? 0 then on_cq (fun q => set_stall_last_count now (stall_less q))
       else if (err =? CQ_OK) then on_cq (fun q => set_stall_last_count 0 (stall_less q))
       else on_cq (fun q => set_stall_last_count now (stall_more q))
     else if err =? CQ_EMPTY then on_cq (set_stall_next_poll true) else mret tt
   else mret tt) ;+
  mret (if err =? CQ_POLL_ERR then err else npolled, wcs).

Definition mlx5_poll_cq : list ibv_wc -> P (Z * list ibv_wc) := poll_cq false.
Definition mlx5_poll_cq_v1 : list ibv_wc -> P (Z * list ibv_wc) := poll_cq true.

(** * [ibv_start_poll], [ibv_next_poll], [ibv_end_poll] *)

Definition and_not_flags (f : Z) (cq : mlx5_cq) : mlx5_cq := set_cq_flags (Z.land (cq_flags cq) (u32 (Z.lnot f))) cq.

Definition _mlx5_end_poll (lock : bool) (mode : polling_mode) : P unit :=
  modify (fun s => set_p_mem (update_cons_index (p_cq s) (p_mem s)) s) ;+
  (if lock then unlock_cq else mret tt) ;+
  flags ← gets (fun s => cq_flags (p_cq s));
  let found := has_flag flags MLX5_CQ_FLAGS_FOUND_CQES in
  let clear := on_cq (and_not_flags (Z.lor MLX5_CQ_FLAGS_FOUND_CQES MLX5_CQ_FLAGS_EMPTY_DURING_POLL)) in
  match mode with
  | POLLING_MODE_NO_STALL => mret tt
  | POLLING_MODE_STALL_ADAPTIVE =>
    (if negb found then on_cq (fun q => set_stall_last_count now (stall_less q))
     else if has_flag flags MLX5_CQ_FLAGS_EMPTY_DURING_POLL then on_cq (fun q => set_stall_last_count now (stall_more q))
     else on_cq (fun q => set_stall_last_count 0 (stall_less q))) ;+ clear
  | POLLING_MODE_STALL => (if negb found then on_cq (set_stall_next_poll true) else mret tt) ;+ clear
  end.

Definition mlx5_parse_lazy_cqe (c cqe : Z) (cqe_ver : bool) : P Z :=
  f ← gets (fun s => parse_fuel (p_cq s)); mlx5_parse_cqe ctx f freeze true cqe_ver c cqe.

Definition mlx5_start_poll (lock : bool) (mode : polling_mode) (cqe_ver clock_update : bool) (comp_mask : Z) : P Z :=
  if negb (comp_mask =? 0) then mret EINVAL
  else
    let stall := bool_decide (mode <> POLLING_MODE_NO_STALL) in
    let adaptive := bool_decide (mode = POLLING_MODE_STALL_ADAPTIVE) in
    (if stall then stall_before adaptive else mret tt) ;+
    (if lock then lock_cq else mret tt) ;+
    modify (fun s => set_p_srq 0 (set_p_rsc 0 s)) ;+
    n ← mlx5_get_next_cqe;
    match n with
    | None =>
      (if lock then unlock_cq else mret tt) ;+
      (if adaptive then on_cq (fun q => set_stall_last_count now (stall_less q))
       else if stall then on_cq (set_stall_next_poll true) else mret tt) ;+
      mret ENOENT
    | Some (c, cqe) =>
      (if stall then or_flags MLX5_CQ_FLAGS_FOUND_CQES else mret tt) ;+
      err ← mlx5_parse_lazy_cqe c cqe cqe_ver;
      (if lock && negb (err =? 0) then unlock_cq else mret tt) ;+
      if stall && (err =? CQ_POLL_ERR) then
        (if adaptive then on_cq (fun q => set_stall_last_count 0 (stall_less q)) else mret tt) ;+
        on_cq (and_not_flags MLX5_CQ_FLAGS_FOUND_CQES) ;+ mret err
      else if clock_update && (err =? 0) then
        ci ← gets (fun s => clock (last_clock_info (p_cq s))); on_cq (set_last_clock_info ci.2) ;+ mret ci.1
      else mret err
    end.

Definition mlx5_next_poll (mode : polling_mode) (cqe_ver : bool) : P Z :=
  n ← mlx5_get_next_cqe;
  match n with
  | None =>
    (if bool_decide (mode = POLLING_MODE_STALL_ADAPTIVE) then or_flags MLX5_CQ_FLAGS_EMPTY_DURING_POLL else mret tt) ;+
    mret ENOENT
  | Some (c, cqe) => mlx5_parse_lazy_cqe c cqe cqe_ver
  end.

(** * The functions of a queue *)

(** [struct op] *)
Record poll_fns : Type := mk_fns { start_poll : Z -> P Z; next_poll : P Z; end_poll : P unit }.

Definition mlx5_next_poll_adaptive_v0 : P Z := mlx5_next_poll POLLING_MODE_STALL_ADAPTIVE false.
Definition mlx5_next_poll_adaptive_v1 : P Z := mlx5_next_poll POLLING_MODE_STALL_ADAPTIVE true.
Definition mlx5_next_poll_v0 : P Z := mlx5_next_poll POLLING_MODE_NO_STALL false.
Definition mlx5_next_poll_v1 : P Z := mlx5_next_poll POLLING_MODE_NO_STALL true.

Definition mlx5_start_poll_v0 : Z -> P Z := mlx5_start_poll false POLLING_MODE_NO_STALL false false.
Definition mlx5_start_poll_v1 : Z -> P Z := mlx5_start_poll false POLLING_MODE_NO_STALL true false.
Definition mlx5_start_poll_v0_lock : Z -> P Z := mlx5_start_poll true POLLING_MODE_NO_STALL false false.
Definition mlx5_start_poll_v1_lock : Z -> P Z := mlx5_start_poll true POLLING_MODE_NO_STALL true false.
Definition mlx5_start_poll_adaptive_stall_v0_lock : Z -> P Z := mlx5_start_poll true POLLING_MODE_STALL_ADAPTIVE false false.
Definition mlx5_start_poll_stall_v0_lock : Z -> P Z := mlx5_start_poll true POLLING_MODE_STALL false false.
Definition mlx5_start_poll_adaptive_stall_v1_lock : Z -> P Z := mlx5_start_poll true POLLING_MODE_STALL_ADAPTIVE true false.
Definition mlx5_start_poll_stall_v1_lock : Z -> P Z := mlx5_start_poll true POLLING_MODE_STALL true false.
Definition mlx5_start_poll_stall_v0 : Z -> P Z := mlx5_start_poll false POLLING_MODE_STALL false false.
Definition mlx5_start_poll_adaptive_stall_v0 : Z -> P Z := mlx5_start_poll false POLLING_MODE_STALL_ADAPTIVE false false.
Definition mlx5_start_poll_adaptive_stall_v1 : Z -> P Z := mlx5_start_poll false POLLING_MODE_STALL_ADAPTIVE true false.
Definition mlx5_start_poll_stall_v1 : Z -> P Z := mlx5_start_poll false POLLING_MODE_STALL true false.
Definition mlx5_start_poll_v0_lock_clock_update : Z -> P Z := mlx5_start_poll true POLLING_MODE_NO_STALL false true.
Definition mlx5_start_poll_v1_lock_clock_update : Z -> P Z := mlx5_start_poll true POLLING_MODE_NO_STALL true true.
Definition mlx5_start_poll_v1_clock_update : Z -> P Z := mlx5_start_poll false POLLING_MODE_NO_STALL true true.
Definition mlx5_start_poll_v0_clock_update : Z -> P Z := mlx5_start_poll false POLLING_MODE_NO_STALL false true.
Definition mlx5_start_poll_stall_v1_lock_clock_update : Z -> P Z := mlx5_start_poll true POLLING_MODE_STALL true true.
Definition mlx5_start_poll_stall_v0_lock_clock_update : Z -> P Z := mlx5_start_poll true POLLING_MODE_STALL false true.
Definition mlx5_start_poll_stall_v1_clock_update : Z -> P Z := mlx5_start_poll false POLLING_MODE_STALL true true.
Definition mlx5_start_poll_stall_v0_clock_update : Z -> P Z := mlx5_start_poll false POLLING_MODE_STALL false true.
Definition mlx5_start_poll_adaptive_stall_v0_lock_clock_update : Z -> P Z := mlx5_start_poll true POLLING_MODE_STALL_ADAPTIVE false true.
Definition mlx5_start_poll_adaptive_stall_v1_lock_clock_update : Z -> P Z := mlx5_start_poll true POLLING_MODE_STALL_ADAPTIVE true true.
Definition mlx5_start_poll_adaptive_stall_v0_clock_update : Z -> P Z := mlx5_start_poll false POLLING_MODE_STALL_ADAPTIVE false true.
Definition mlx5_start_poll_adaptive_stall_v1_clock_update : Z -> P Z := mlx5_start_poll false POLLING_MODE_STALL_ADAPTIVE true true.

Definition mlx5_end_poll_adaptive_stall_lock : P unit := _mlx5_end_poll true POLLING_MODE_STALL_ADAPTIVE.
Definition mlx5_end_poll_stall_lock : P unit := _mlx5_end_poll true POLLING_MODE_STALL.
Definition mlx5_end_poll_adaptive_stall : P unit := _mlx5_end_poll false POLLING_MODE_STALL_ADAPTIVE.
Definition mlx5_end_poll_stall : P unit := _mlx5_end_poll false POLLING_MODE_STALL.
Definition mlx5_end_poll : P unit := _mlx5_end_poll false POLLING_MODE_NO_STALL.
Definition mlx5_end_poll_lock : P unit := _mlx5_end_poll true POLLING_MODE_NO_STALL.

(** [ops[]], indexed by the flags of the queue; the other entries are null *)
Definition ops : list (option poll_fns) := [
  Some (mk_fns mlx5_start_poll_v0_lock mlx5_next_poll_v0 mlx5_end_poll_lock);
  Some (mk_fns mlx5_start_poll_v0 mlx5_next_poll_v0 mlx5_end_poll);
  Some (mk_fns mlx5_start_poll_stall_v0_lock mlx5_next_poll_v0 mlx5_end_poll_stall_lock);
  Some (mk_fns mlx5_start_poll_stall_v0 mlx5_next_poll_v0 mlx5_end_poll_stall);
  Some (mk_fns mlx5_start_poll_v1_lock mlx5_next_poll_v1 mlx5_end_poll_lock);
  Some (mk_fns mlx5_start_poll_v1 mlx5_next_poll_v1 mlx5_end_poll);
  Some (mk_fns mlx5_start_poll_stall_v1_lock mlx5_next_poll_v1 mlx5_end_poll_stall_lock);
  Some (mk_fns mlx5_start_poll_stall_v1 mlx5_next_poll_v1 mlx5_end_poll_stall);
  None;
  None;
  Some (mk_fns mlx5_start_poll_adaptive_stall_v0_lock mlx5_next_poll_adaptive_v0 mlx5_end_poll_adaptive_stall_lock);
  Some (mk_fns mlx5_start_poll_adaptive_stall_v0 mlx5_next_poll_adaptive_v0 mlx5_end_poll_adaptive_stall);
  None;
  None;
  Some (mk_fns mlx5_start_poll_adaptive_stall_v1_lock mlx5_next_poll_adaptive_v1 mlx5_end_poll_adaptive_stall_lock);
  Some (mk_fns mlx5_start_poll_adaptive_stall_v1 mlx5_next_poll_adaptive_v1 mlx5_end_poll_adaptive_stall);
  Some (mk_fns mlx5_start_poll_v0_lock_clock_update mlx5_next_poll_v0 mlx5_end_poll_lock);
  Some (mk_fns mlx5_start_poll_v0_clock_update mlx5_next_poll_v0 mlx5_end_poll);
  Some (mk_fns mlx5_start_poll_stall_v0_lock_clock_update mlx5_next_poll_v0 mlx5_end_poll_stall_lock);
  Some (mk_fns mlx5_start_poll_stall_v0_clock_update mlx5_next_poll_v0 mlx5_end_poll_stall);
  Some (mk_fns mlx5_start_poll_v1_lock_clock_update mlx5_next_poll_v1 mlx5_end_poll_lock);
  Some (mk_fns mlx5_start_poll_v1_clock_update mlx5_next_poll_v1 mlx5_end_poll);
  Some (mk_fns mlx5_start_poll_stall_v1_lock_clock_update mlx5_next_poll_v1 mlx5_end_poll_stall_lock);
  Some (mk_fns mlx5_start_poll_stall_v1_clock_update mlx5_next_poll_v1 mlx5_end_poll_stall);
  None;
  None;
  Some (mk_fns mlx5_start_poll_adaptive_stall_v0_lock_clock_update mlx5_next_poll_adaptive_v0 mlx5_end_poll_adaptive_stall_lock);
  Some (mk_fns mlx5_start_poll_adaptive_stall_v0_clock_update mlx5_next_poll_adaptive_v0 mlx5_end_poll_adaptive_stall);
  None;
  None;
  Some (mk_fns mlx5_start_poll_adaptive_stall_v1_lock_clock_update mlx5_next_poll_adaptive_v1 mlx5_end_poll_adaptive_stall_lock);
  Some (mk_fns mlx5_start_poll_adaptive_stall_v1_clock_update mlx5_next_poll_adaptive_v1 mlx5_end_poll_adaptive_stall)].

(** The index of [mlx5_cq_fill_pfns] *)
Definition ops_index (cq : mlx5_cq) (cqe_version : bool) (cq_wc_flags : Z) : Z :=
  let f (b : bool) v := if b then v else 0 in
  Z.lor (Z.lor (Z.lor (Z.lor (f (stall_enable cq && stall_adaptive_enable cq) 8) (f cqe_version 4))
    (f (has_flag (cq_flags cq) MLX5_CQ_FLAGS_SINGLE_THREADED) 1)) (f (stall_enable cq) 2))
    (f (has_flag cq_wc_flags IBV_WC_EX_WITH_COMPLETION_TIMESTAMP_WALLCLOCK) 16).

(** The readers of [struct ibv_cq_ex] that depend on [wc_flags]; [None]: left null *)
Record cq_readers : Type := mk_readers {
  read_byte_len : option (mlx5_cq -> mem -> Z); read_imm_data : option (mlx5_cq -> mem -> imm_or_rkey);
  read_qp_num : option (mlx5_cq -> mem -> Z); read_src_qp : option (mlx5_cq -> mem -> Z);
  read_slid : option (mlx5_cq -> mem -> Z); read_sl : option (mlx5_cq -> mem -> Z);
  read_dlid_path_bits : option (mlx5_cq -> mem -> Z); read_completion_ts : option (mlx5_cq -> mem -> Z);
  read_cvlan : option (mlx5_cq -> mem -> Z); read_flow_tag : option (mlx5_cq -> mem -> Z);
  read_tm_info : option (mlx5_cq -> mem -> Z * Z); read_completion_wallclock_ns : option (mlx5_cq -> mem -> Z) }.

(** [mlx5_cq_fill_pfns]: the error, the three polling functions ([None]: null pointers) and
    the readers.  [real_time] tells whether the context supports real-time stamps,
    [clock_page] whether it has a clock page. *)
Definition mlx5_cq_fill_pfns (cq : mlx5_cq) (cqe_version real_time clock_page : bool) (cq_wc_flags : Z)
  : Z * option poll_fns * cq_readers :=
  let opt {A} (f : Z) (r : A) := if has_flag cq_wc_flags f then Some r else None in
  let '(err, wall) :=
    if has_flag cq_wc_flags IBV_WC_EX_WITH_COMPLETION_TIMESTAMP_WALLCLOCK then
      if real_time && negb (has_flag cq_wc_flags IBV_WC_EX_WITH_COMPLETION_TIMESTAMP)
      then (0, Some mlx5_cq_read_wc_completion_ts)
      else if negb clock_page then (EOPNOTSUPP, None) else (0, Some mlx5_cq_read_wc_completion_wallclock_ns)
    else (0, None) in
  (err, mjoin (ops !! Z.to_nat (ops_index cq cqe_version cq_wc_flags)),
   mk_readers (opt IBV_WC_EX_WITH_BYTE_LEN mlx5_cq_read_wc_byte_len) (opt IBV_WC_EX_WITH_IMM mlx5_cq_read_wc_imm_data)
     (opt IBV_WC_EX_WITH_QP_NUM mlx5_cq_read_wc_qp_num) (opt IBV_WC_EX_WITH_SRC_QP mlx5_cq_read_wc_src_qp)
     (opt IBV_WC_EX_WITH_SLID mlx5_cq_read_wc_slid) (opt IBV_WC_EX_WITH_SL mlx5_cq_read_wc_sl)
     (opt IBV_WC_EX_WITH_DLID_PATH_BITS mlx5_cq_read_wc_dlid_path_bits)
     (opt IBV_WC_EX_WITH_COMPLETION_TIMESTAMP mlx5_cq_read_wc_completion_ts)
     (opt IBV_WC_EX_WITH_CVLAN mlx5_cq_read_wc_cvlan) (opt IBV_WC_EX_WITH_FLOW_TAG mlx5_cq_read_flow_tag)
     (opt IBV_WC_EX_WITH_TM_INFO mlx5_cq_read_wc_tm_info) wall).
End Interface.
