(* ===== verification/CqRing.v ===== *)
(** The ring of a completion queue (providers/mlx5/cq.c): its creation, the removal of the
    entries of a queue that goes away, the move of the entries to a larger ring, and the
    doorbell that asks for an event. *)

From stdpp Require Import base numbers list gmap.
From S2P Require Import Prelude Mem Types Wqe PostSend Recv Srq Table TagMatch CqTypes Cq.

(** * Creation *)

(** [for (i = 0; i < nent; ++i) cqe->op_own = MLX5_CQE_INVALID << 4], from [i] on *)
Fixpoint invalidate (n : nat) (i buf sz : Z) (m : mem) : mem :=
  match n with
  | O => m
  | S n =>
    let c := buf + i * sz + (if sz =? 128 then 64 else 0) in
    invalidate n (i + 1) buf sz (store_be 1 (c + 63) (Z.shiftl MLX5_CQE_INVALID 4) m)
  end.

(** [mlx5_alloc_cq_buf] once the buffer [buf] is there; [custom]: it is the application's *)
Definition mlx5_alloc_cq_buf (custom : bool) (buf nent sz : Z) (m : mem) : mem :=
  invalidate (Z.to_nat nent) 0 buf sz (if custom then m else memset buf 0 (nent * sz) m).

(** * Arming *)

Definition cq_arm_word (solicited : bool) (cq : mlx5_cq) : Z :=
  Z.lor (Z.lor (u32 (Z.shiftl (Z.land (arm_sn cq) 3) 28)) (if solicited then MLX5_CQ_DB_REQ_NOT_SOL else MLX5_CQ_DB_REQ_NOT))
    (Z.land (cons_index cq) 0xffffff).

(** [mlx5_arm_cq]; [uar] is [cq_uar_reg] *)
Definition mlx5_arm_cq (uar : Z) (solicited : bool) (cq : mlx5_cq) (m : mem) : mem * list dev_event :=
  let w := cq_arm_word solicited cq in
  let db := cq_dbrec cq + 4 * MLX5_CQ_ARM_DB in
  (store_be 4 db w m,
   [EvDbrec db w; EvWcStart false; EvMmio64 (uar + MLX5_CQ_DOORBELL) (Z.lor (Z.shiftl w 32) (cqn cq)); EvFlush]).

Definition mlx5_cq_event (cq : mlx5_cq) : mlx5_cq := set_arm_sn (s32 (arm_sn cq + 1)) cq.

(** * Removing the entries of a queue *)

Definition is_equal_rsn (c rsn : Z) (m : mem) : bool := rsn =? Z.land (sop_drop_qpn c m) 0xffffff.
Definition is_equal_uidx (c uidx : Z) (m : mem) : bool := uidx =? Z.land (srqn_uidx c m) 0xffffff.

Definition is_responder (opcode : Z) : bool :=
  has_opcode [MLX5_CQE_RESP_WR_IMM; MLX5_CQE_RESP_SEND; MLX5_CQE_RESP_SEND_IMM; MLX5_CQE_RESP_SEND_INV; MLX5_CQE_RESP_ERR] opcode.

Definition free_res_cqe (cqe_ver : bool) (c rsn : Z) (srq : option mlx5_srq) (m : mem) : bool * option mlx5_srq * mem :=
  let give_back (cond : bool) :=
    match srq with
    | Some q => if cond then let '(q, m) := mlx5_free_srq_wqe (wqe_counter c m) q m in (true, Some q, m) else (true, srq, m)
    | None => (true, srq, m)
    end in
  if cqe_ver then
    if is_equal_uidx c rsn m then give_back (is_responder (mlx5dv_get_cqe_opcode c m)) else (false, srq, m)
  else if is_equal_rsn c rsn m then give_back (negb (Z.land (srqn_uidx c m) 0xffffff =? 0)) else (false, srq, m).

(** How many entries from [cons_index] on are the driver's, as the first loop of
    [__mlx5_cq_clean] counts them: it stops at the last entry of the ring *)
Fixpoint prod_count (n : nat) (cq : mlx5_cq) (k : Z) (m : mem) : Z :=
  match n with
  | O => k
  | S n =>
    match get_sw_cqe cq (u32 (cons_index cq + k)) m with
    | None => k
    | Some _ => if k =? cqe_mask cq then k else prod_count n cq (k + 1) m
    end
  end.

(** [memcpy(dest, cqe, cqe_sz)] that keeps the owner bit of [dest] *)
Definition move_cqe (cq : mlx5_cq) (dest cqe : Z) (m : mem) : mem :=
  let d := cqe64_of cq dest in
  let own := Z.land (op_own d m) MLX5_CQE_OWNER_MASK in
  let m := memcpy dest cqe (cqe_sz cq) m in
  store_be 1 (d + 63) (Z.lor own (Z.land (op_own d m) (u8 (Z.lnot MLX5_CQE_OWNER_MASK)))) m.

Definition cqe_at (cq : mlx5_cq) (n : Z) : Z := get_cqe cq (Z.land (u32 n) (cqe_mask cq)).

(** The sweep over the entries [n - 1 .. 0] after [cons_index]: the number freed *)
Fixpoint cq_sweep (n : nat) (cqe_ver : bool) (cq : mlx5_cq) (rsn nfreed : Z) (srq : option mlx5_srq) (m : mem)
  : Z * option mlx5_srq * mem :=
  match n with
  | O => (nfreed, srq, m)
  | S n =>
    let prod := cons_index cq + Z.of_nat n in
    let cqe := cqe_at cq prod in
    let '(mine, srq, m) := free_res_cqe cqe_ver (cqe64_of cq cqe) rsn srq m in
    if mine then cq_sweep n cqe_ver cq rsn (nfreed + 1) srq m
    else if nfreed =? 0 then cq_sweep n cqe_ver cq rsn nfreed srq m
    else cq_sweep n cqe_ver cq rsn nfreed srq (move_cqe cq (cqe_at cq (prod + nfreed)) cqe m)
  end.

(** [__mlx5_cq_clean] on a queue that is not the application's *)
Definition __mlx5_cq_clean (cqe_ver : bool) (rsn : Z) (cq : mlx5_cq) (srq : option mlx5_srq) (m : mem)
  : mlx5_cq * option mlx5_srq * mem * list dev_event :=
  if has_flag (cq_flags cq) MLX5_CQ_FLAGS_DV_OWNED then (cq, srq, m, [])
  else
    let k := prod_count (Z.to_nat (cqe_mask cq + 1)) cq 0 m in
    let '(nfreed, srq, m) := cq_sweep (Z.to_nat k) cqe_ver cq rsn 0 srq m in
    if nfreed =? 0 then (cq, srq, m, [])
    else
      let cq := set_cons_index (u32 (cons_index cq + nfreed)) cq in
      (cq, srq, update_cons_index cq m, [EvBarrier]).

(** [mlx5_cq_clean]: the same under the lock of the queue; [None]: the lock is held *)
Definition mlx5_cq_clean (cqe_ver : bool) (qpn : Z) (cq : mlx5_cq) (srq : option mlx5_srq) (m : mem)
  : option (mlx5_cq * option mlx5_srq * mem * list dev_event) :=
  if cq_locked cq then None
  else let '(cq, srq, m, ev) := __mlx5_cq_clean cqe_ver qpn (set_cq_locked true cq) srq m in
       Some (set_cq_locked false cq, srq, m, ev).

(** * Moving to another ring *)

Definition sw_ownership_bit (n nent : Z) : Z := if Z.land n nent =? 0 then 0 else 1.
Definition is_hw (own n mask : Z) : bool :=
  negb (Z.lxor (Z.land own MLX5_CQE_OWNER_MASK) (Z.b2z (negb (Z.land n (mask + 1) =? 0))) =? 0).

Definition buf_cqe64 (cqe sz : Z) : Z := if sz =? 64 then cqe else cqe + 64.

(** The loop of [mlx5_cq_resize_copy_cqes] at entry [i]: true when the resize entry is
    found, with the memory.  The ring has [mask + 1] entries of [ssize] bytes, the new one
    at [rbuf] has [rcqes] of [dsize]. *)
Fixpoint resize_loop (n : nat) (cq : mlx5_cq) (mask rbuf rcqes dsize i : Z) (m : mem) : bool * mem :=
  match n with
  | O => (false, m)
  | S n =>
    let ssize := cqe_sz cq in
    let scqe := cq_buf cq + Z.land i mask * ssize in
    let s := buf_cqe64 scqe ssize in
    if is_hw (op_own s m) i mask then (false, m)
    else if mlx5dv_get_cqe_opcode s m =? MLX5_CQE_RESIZE_CQ then (true, m)
    else
      let dcqe := rbuf + Z.land (i + 1) (rcqes - 1) * dsize in
      let d := buf_cqe64 dcqe dsize in
      let m := memcpy dcqe scqe ssize m in
      let m := store_be 1 (d + 63) (Z.lor (Z.land (op_own d m) (u8 (Z.lnot MLX5_CQE_OWNER_MASK))) (sw_ownership_bit (i + 1) rcqes)) m in
      resize_loop n cq mask rbuf rcqes dsize (i + 1) m
  end.

(** [mlx5_cq_resize_copy_cqes]; a walk that comes back to the first entry has failed *)
Definition mlx5_cq_resize_copy_cqes (mask rbuf rcqes dsize : Z) (cq : mlx5_cq) (m : mem) : mlx5_cq * mem :=
  let '(found, m) := resize_loop (Z.to_nat (mask + 1)) cq mask rbuf rcqes dsize (cons_index cq) m in
  (if found then set_cons_index (u32 (cons_index cq + 1)) cq else cq, m).
