(* ===== verification/CqProps.v ===== *)
(** Correctness of the completion ring: the owner bits make it a queue.  What the device
    writes, the driver takes, once and in order, without a shared producer index; cleaning
    removes exactly the entries of a queue that goes away. *)

From stdpp Require Import base numbers list gmap.
From S2P Require Import Prelude Mem Types Wqe PostSend Recv Srq Table TagMatch CqTypes Cq CqRing.

(** * Geometry *)

(** The ring has a power of two entries of 64 or 128 bytes. *)
Record cq_wf (cq : mlx5_cq) : Prop := {
  cw_cnt : exists k, 0 <= k < 31 /\ cqe_mask cq + 1 = 2 ^ k;
  cw_sz : cqe_sz cq = 64 \/ cqe_sz cq = 128
}.

Definition nent (cq : mlx5_cq) : Z := cqe_mask cq + 1.
(** Where entry [j] of the history of the ring lies, and its 64 describing bytes *)
Definition entry_at (cq : mlx5_cq) (j : Z) : Z := cq_buf cq + j mod nent cq * cqe_sz cq.
Definition desc_at (cq : mlx5_cq) (j : Z) : Z := entry_at cq j + (cqe_sz cq - 64).
(** The owner bit of its lap *)
Definition lap_bit (cq : mlx5_cq) (j : Z) : Z := (j / nent cq) mod 2.

Section Geometry.
#[local] Set Default Proof Using "Type*".
Context (cq : mlx5_cq) (Hw : cq_wf cq).

Lemma nent_pos : 1 <= nent cq <= 2 ^ 30.
Proof.
  destruct (cw_cnt _ Hw) as (k & Hk & E). unfold nent. rewrite E. pose proof (Z.pow_pos_nonneg 2 k). pose proof (Z.pow_le_mono_r 2 k 30). lia.
Qed.

Lemma ring_index j : Z.land (u32 j) (cqe_mask cq) = j mod nent cq.
Proof.
  destruct (cw_cnt _ Hw) as (k & Hk & E). unfold nent. rewrite E. replace (cqe_mask cq) with (2 ^ k - 1) by lia.
  rewrite <- (Z.add_0_r j). by apply ring_index_wrap; lia.
Qed.

Lemma ring_lap j : Z.b2z (negb (Z.land (u32 j) (nent cq) =? 0)) = lap_bit cq j.
Proof.
  destruct (cw_cnt _ Hw) as (k & Hk & E). unfold lap_bit, nent, u32. rewrite E.
  rewrite <- Z.shiftr_div_pow2 by lia. rewrite <- Z.bit0_mod, Z.shiftr_spec, Z.add_0_l by lia.
  rewrite <- (Z.mod_pow2_bits_low j 32 k) by lia. f_equal. set (x := j mod 2 ^ 32).
  destruct (Z.testbit x k) eqn:Et.
  - apply negb_true_iff, Z.eqb_neq. intros H. assert (Hb : Z.testbit (Z.land x (2 ^ k)) k = true).
    { rewrite Z.land_spec, Et, Z.pow2_bits_true by lia. done. } by rewrite H, Z.bits_0 in Hb.
  - apply negb_false_iff, Z.eqb_eq. apply Z.bits_inj_0. intros i. rewrite Z.land_spec, Z.pow2_bits_eqb by lia.
    destruct (Z.eqb_spec k i) as [<-|]; [by rewrite Et|apply andb_false_r].
Qed.

Lemma cqe_at_entry j : cqe_at cq j = entry_at cq j.
Proof. unfold cqe_at, get_cqe, entry_at. by rewrite ring_index. Qed.

Lemma cqe64_desc j : cqe64_of cq (entry_at cq j) = desc_at cq j.
Proof. unfold cqe64_of, desc_at. destruct (cw_sz _ Hw) as [->| ->]; simpl; lia. Qed.
End Geometry.

(** * Ownership *)

(** The device has written [prod] entries; those of the last lap carry its owner bit, and
    the slots no entry reached are invalid. *)
Record ring_rep (cq : mlx5_cq) (m : mem) (prod : Z) : Prop := {
  rr_pos : 0 <= prod;
  rr_written : forall j, 0 <= j -> prod - nent cq <= j < prod ->
    mlx5dv_get_cqe_opcode (desc_at cq j) m <> MLX5_CQE_INVALID /\ Z.land (op_own (desc_at cq j) m) 1 = lap_bit cq j;
  rr_fresh : forall j, prod <= j < nent cq -> mlx5dv_get_cqe_opcode (desc_at cq j) m = MLX5_CQE_INVALID
}.

Section Owner.
#[local] Set Default Proof Using "Type*".
Context (cq : mlx5_cq) (Hw : cq_wf cq).

Lemma lap_bit_prev j : lap_bit cq (j - nent cq) = 1 - lap_bit cq j.
Proof.
  pose proof (nent_pos cq Hw). unfold lap_bit. replace (j - nent cq) with (j + (-1) * nent cq) by lia.
  rewrite Z.div_add by lia. pose proof (Z.mod_pos_bound (j / nent cq) 2). 
  assert ((j / nent cq + -1) mod 2 = (1 - (j / nent cq) mod 2)); [|done].
  pose proof (Z.div_mod (j / nent cq) 2). pose proof (Z.mod_pos_bound (j / nent cq + -1) 2). pose proof (Z.div_mod (j / nent cq + -1) 2). lia.
Qed.

Lemma desc_prev j : desc_at cq (j - nent cq) = desc_at cq j.
Proof.
  pose proof (nent_pos cq Hw). unfold desc_at, entry_at. replace (j - nent cq) with (j + (-1) * nent cq) by lia. by rewrite Z.mod_add by lia.
Qed.

(** The driver sees an entry exactly when the device has written it. *)
Lemma get_sw_cqe_exact m prod j :
  ring_rep cq m prod -> 0 <= j -> prod - nent cq <= j <= prod ->
  get_sw_cqe cq (u32 j) m = if decide (j < prod) then Some (entry_at cq j) else None.
Proof.
  intros [H0 Hwr Hfr] Hj Hr. pose proof (nent_pos cq Hw). unfold get_sw_cqe. rewrite (ring_index cq Hw).
  change (get_cqe cq (j mod nent cq)) with (entry_at cq j). rewrite (cqe64_desc cq Hw). fold (nent cq). rewrite (ring_lap cq Hw).
  destruct (decide (j < prod)) as [Hlt|Hge].
  - destruct (Hwr j Hj ltac:(lia)) as [Hop Hown]. rewrite (proj2 (Z.eqb_neq _ _) Hop). unfold MLX5_CQE_OWNER_MASK.
    by rewrite Hown, Z.lxor_nilpotent.
  - assert (j = prod) as -> by lia. destruct (decide (prod < nent cq)) as [Hs|Hs].
    + rewrite (Hfr prod ltac:(lia)). done.
    + destruct (Hwr (prod - nent cq) ltac:(lia) ltac:(lia)) as [Hop Hown]. rewrite desc_prev, lap_bit_prev in *.
      rewrite (proj2 (Z.eqb_neq _ _) Hop). unfold MLX5_CQE_OWNER_MASK. rewrite Hown.
      pose proof (Z.mod_pos_bound (prod / nent cq) 2). fold (lap_bit cq prod) in *.
      assert (lap_bit cq prod = 0 \/ lap_bit cq prod = 1) as [-> | ->] by (unfold lap_bit in *; lia); done.
Qed.
End Owner.

(** * A queue *)

Lemma store1_eq p v m : store_be 1 p v m p = Z.land v 255.
Proof.
  unfold store_be. rewrite (proj2 (Z.leb_le _ _)), (proj2 (Z.ltb_lt _ _)) by lia. cbn [andb].
  replace (8 * _) with 0 by lia. by rewrite Z.shiftr_0_r.
Qed.

Lemma store1_ne p v m a : a <> p -> store_be 1 p v m a = m a.
Proof. intros ?. apply store_be_outside. simpl. lia. Qed.

(** Entries do not overlap. *)
Lemma entries_apart cq i j a b :
  cq_wf cq -> i mod nent cq <> j mod nent cq -> 0 <= a < cqe_sz cq -> 0 <= b < cqe_sz cq -> entry_at cq i + a <> entry_at cq j + b.
Proof. intros Hw Hne Ha Hb. unfold entry_at. nia. Qed.

Lemma near_mod n i j : 0 < n -> i <> j -> Z.abs (i - j) < n -> i mod n <> j mod n.
Proof.
  intros Hn Hne Hlt E. pose proof (Z.div_mod i n ltac:(lia)). pose proof (Z.div_mod j n ltac:(lia)).
  assert (i - j = n * (i / n - j / n)) by lia. assert (i / n - j / n = 0) by nia. nia.
Qed.

(** ** Creation *)

Lemma invalidate_at n : forall i buf sz m j,
  64 <= sz <= 128 -> i <= j < i + Z.of_nat n ->
  invalidate n i buf sz m (buf + j * sz + (if sz =? 128 then 64 else 0) + 63) = 240.
Proof.
  induction n as [|n IH]; intros i buf sz m j Hsz Hj; [lia|]. cbn [invalidate]. cbv zeta.
  destruct (decide (j = i)) as [->|]; [|apply IH; lia]. clear IH Hj.
  assert (Hk : forall k l m', l > i -> invalidate k l buf sz m' (buf + i * sz + (if sz =? 128 then 64 else 0) + 63) =
    m' (buf + i * sz + (if sz =? 128 then 64 else 0) + 63)).
  { induction k as [|k IH]; intros l m' Hl; [done|]. cbn [invalidate]. cbv zeta. rewrite IH by lia. apply store1_ne. nia. }
  rewrite Hk by lia. by rewrite store1_eq.
Qed.

(** A new ring holds nothing. *)
Lemma alloc_ring cq custom m :
  cq_wf cq -> ring_rep cq (mlx5_alloc_cq_buf custom (cq_buf cq) (nent cq) (cqe_sz cq) m) 0.
Proof.
  intros Hw. pose proof (nent_pos cq Hw). split; [done|lia|]. intros j Hj. unfold mlx5dv_get_cqe_opcode, op_own, mlx5_alloc_cq_buf.
  assert (E : desc_at cq j + 63 = cq_buf cq + j * cqe_sz cq + (if cqe_sz cq =? 128 then 64 else 0) + 63).
  { unfold desc_at, entry_at. rewrite Z.mod_small by lia. destruct (cw_sz _ Hw) as [-> | ->]; simpl; lia. }
  rewrite E, invalidate_at; [done|destruct (cw_sz _ Hw); lia|lia].
Qed.

(** ** The device *)

(** What an entry says, but for the owner bit *)
Definition entry_view (cq : mlx5_cq) (cqe : Z) (m : mem) : list Z :=
  read_bytes cqe (Z.to_nat (cqe_sz cq - 1)) m ++ [Z.land (m (cqe + cqe_sz cq - 1)) 0xfe].

(** Entries the device can write *)
Definition entry_ok (cq : mlx5_cq) (e : list Z) : Prop :=
  Z.of_nat (length e) = cqe_sz cq /\ Forall (fun b => 0 <= b < 256) e /\
  exists b, last e = Some b /\ Z.land b 1 = 0 /\ Z.shiftr b 4 <> MLX5_CQE_INVALID.

(** The device writes entry [prod]: the bytes, with the owner bit of the lap in the last *)
Definition device_write (cq : mlx5_cq) (prod : Z) (e : list Z) (m : mem) : mem := fun a =>
  let p := entry_at cq prod in
  if (p <=? a) && (a <? p + cqe_sz cq)
  then Z.lor (aget e (a - p)) (if a =? p + cqe_sz cq - 1 then lap_bit cq prod else 0) else m a.

Lemma write_outside cq prod e m a :
  a < entry_at cq prod \/ entry_at cq prod + cqe_sz cq <= a -> device_write cq prod e m a = m a.
Proof. intros ?. unfold device_write. destruct (Z.leb_spec (entry_at cq prod) a), (Z.ltb_spec a (entry_at cq prod + cqe_sz cq)); simpl; done || lia. Qed.

Lemma write_inside cq prod e m i b :
  e !! i = Some b -> Z.of_nat i < cqe_sz cq ->
  device_write cq prod e m (entry_at cq prod + Z.of_nat i) = Z.lor b (if Z.of_nat i =? cqe_sz cq - 1 then lap_bit cq prod else 0).
Proof.
  intros Hi Hlt. unfold device_write. rewrite (proj2 (Z.leb_le _ _)), (proj2 (Z.ltb_lt _ _)) by lia. cbn [andb].
  f_equal; [apply aget_lookup; replace (Z.to_nat _) with i by lia; done|].
  destruct (Z.eqb_spec (Z.of_nat i) (cqe_sz cq - 1)), (Z.eqb_spec (entry_at cq prod + Z.of_nat i) (entry_at cq prod + cqe_sz cq - 1)); done || lia.
Qed.

Lemma lap_bit_01 cq j : lap_bit cq j = 0 \/ lap_bit cq j = 1.
Proof. unfold lap_bit. pose proof (Z.mod_pos_bound (j / nent cq) 2). lia. Qed.

Lemma lor_bit0 b l k : Z.land b 1 = 0 -> l = 0 \/ l = 1 -> 0 < k -> Z.shiftr (Z.lor b l) k = Z.shiftr b k.
Proof.
  intros Hb [-> | ->] Hk; [by rewrite Z.lor_0_r|]. rewrite Z.shiftr_lor. replace (Z.shiftr 1 k) with 0; [by rewrite Z.lor_0_r|].
  symmetry. apply Z.shiftr_eq_0; simpl; lia.
Qed.

(** The owner bit is the only one the device adds. *)
Lemma own_view b l : 0 <= b < 256 -> Z.land b 1 = 0 -> l = 0 \/ l = 1 -> Z.land (Z.lor b l) 1 = l /\ Z.land (Z.lor b l) 0xfe = b.
Proof.
  intros Hb H0 Hl. assert (He : b = Z.shiftl (b / 2) 1 /\ 0 <= b / 2 < 128).
  { change 1 with (Z.ones 1) in H0. rewrite Z.land_ones in H0 by lia. rewrite Z.shiftl_mul_pow2 by lia. div_lia. }
  destruct He as [He Hr]. split.
  - rewrite Z.land_lor_distr_l, H0, Z.lor_0_l. by destruct Hl as [-> | ->].
  - rewrite Z.land_lor_distr_l. replace (Z.land l 0xfe) with 0 by (by destruct Hl as [-> | ->]). rewrite Z.lor_0_r.
    rewrite He at 2. change 0xfe with (Z.shiftl (Z.ones 7) 1). rewrite He at 1. rewrite <- Z.shiftl_land.
    rewrite Z.land_ones, Z.mod_small by lia. done.
Qed.

Lemma view_ext cq p m m' : 64 <= cqe_sz cq -> (forall a, p <= a < p + cqe_sz cq -> m' a = m a) -> entry_view cq p m' = entry_view cq p m.
Proof.
  intros Hsz H. unfold entry_view. f_equal; [|f_equal; by rewrite H by lia].
  unfold read_bytes. apply list_fmap_ext. intros i x Hx. apply lookup_seq in Hx as [-> Hx]. apply H. lia.
Qed.

(** What was written is what is read. *)
Lemma view_written cq prod e m : cq_wf cq -> entry_ok cq e -> entry_view cq (entry_at cq prod) (device_write cq prod e m) = e.
Proof.
  intros Hw (Hlen & Hb & b & Hlast & H0 & _). assert (Hsz : 64 <= cqe_sz cq) by (destruct (cw_sz _ Hw); lia).
  apply list_eq. intros i. unfold entry_view. destruct (decide (i < length e)%nat) as [Hi|Hi].
  2: { rewrite lookup_ge_None_2 by (unfold read_bytes; rewrite length_app, length_fmap, length_seq; simpl; lia).
       by rewrite lookup_ge_None_2 by lia. }
  destruct (lookup_lt_is_Some_2 e i Hi) as [x Hx]. rewrite Hx. destruct (decide (Z.of_nat i = cqe_sz cq - 1)) as [Ei|Ei].
  - rewrite lookup_app_r by (unfold read_bytes; rewrite length_fmap, length_seq; lia).
    replace (i - _)%nat with 0%nat by (unfold read_bytes; rewrite length_fmap, length_seq; lia). simpl. f_equal.
    replace (entry_at cq prod + cqe_sz cq - 1) with (entry_at cq prod + Z.of_nat i) by lia.
    rewrite (write_inside _ _ _ _ _ _ Hx), (proj2 (Z.eqb_eq _ _) Ei) by lia.
    assert (x = b) as ->. { rewrite last_lookup in Hlast. replace (pred (length e)) with i in Hlast by lia. congruence. }
    apply own_view; [by eapply (Forall_lookup_1 _ _ _ _ Hb)|done|apply lap_bit_01].
  - rewrite lookup_app_l by (unfold read_bytes; rewrite length_fmap, length_seq; lia).
    unfold read_bytes. rewrite list_lookup_fmap, lookup_seq_lt by lia. simpl. f_equal.
    rewrite (write_inside _ _ _ _ _ _ Hx), (proj2 (Z.eqb_neq _ _) Ei) by lia. apply Z.lor_0_r.
Qed.

Lemma desc_last cq j : desc_at cq j + 63 = entry_at cq j + (cqe_sz cq - 1).
Proof. unfold desc_at. lia. Qed.

(** The ring takes the entry. *)
Lemma write_ring cq m prod e :
  cq_wf cq -> entry_ok cq e -> ring_rep cq m prod -> ring_rep cq (device_write cq prod e m) (prod + 1).
Proof.
  intros Hw He [H0 Hwr Hfr]. pose proof (nent_pos cq Hw). assert (Hsz : 64 <= cqe_sz cq) by (destruct (cw_sz _ Hw); lia).
  assert (Hoth : forall j, prod - nent cq < j < prod + nent cq -> j <> prod ->
    device_write cq prod e m (desc_at cq j + 63) = m (desc_at cq j + 63)).
  { intros j Hj Hne. apply write_outside. rewrite desc_last.
    assert (j mod nent cq <> prod mod nent cq) by (apply near_mod; lia). unfold entry_at. nia. }
  split; [lia| |]; unfold mlx5dv_get_cqe_opcode, op_own in *.
  - intros j Hj Hr. destruct (decide (j = prod)) as [->|Hne]; [|rewrite Hoth by lia; apply Hwr; lia].
    destruct He as (Hlen & Hb & b & Hlast & Hb0 & Hop). rewrite last_lookup in Hlast. rewrite desc_last.
    replace (cqe_sz cq - 1) with (Z.of_nat (pred (length e))) by lia. rewrite (write_inside _ _ _ _ _ _ Hlast) by lia.
    rewrite (proj2 (Z.eqb_eq _ _)) by lia. split; [by rewrite lor_bit0 by (done || apply lap_bit_01 || lia)|].
    apply own_view; [by eapply (Forall_lookup_1 _ _ _ _ Hb)|done|apply lap_bit_01].
  - intros j Hj. rewrite Hoth by lia. apply Hfr. lia.
Qed.

(** ** The run *)

(** The ring holds the entries [q], oldest first. *)
Record ring_holds (s : pst) (prod : Z) (q : list (list Z)) : Prop := {
  rh_wf : cq_wf (p_cq s);
  rh_ring : ring_rep (p_cq s) (p_mem s) prod;
  rh_cons : exists cons, 0 <= cons /\ cons_index (p_cq s) = u32 cons /\ prod = cons + Z.of_nat (length q) /\
    Z.of_nat (length q) <= nent (p_cq s) /\
    forall i e, q !! i = Some e -> entry_view (p_cq s) (entry_at (p_cq s) (cons + Z.of_nat i)) (p_mem s) = e
}.

Lemma ring_holds_write s prod q e :
  ring_holds s prod q -> entry_ok (p_cq s) e -> Z.of_nat (length q) < nent (p_cq s) ->
  ring_holds (set_p_mem (device_write (p_cq s) prod e (p_mem s)) s) (prod + 1) (q ++ [e]).
Proof.
  intros [Hw Hr (cons & Hc0 & Hc & -> & Hq & Hv)] He Hroom. split; simpl; [done|by apply write_ring|].
  exists cons. rewrite length_app. simpl. split_and!; [done|done|lia|lia|]. intros i x Hx.
  assert (Hsz : 64 <= cqe_sz (p_cq s)) by (destruct (cw_sz _ Hw); lia).
  apply lookup_app_Some in Hx as [Hx|[Hge Hx]].
  - rewrite view_ext with (m := p_mem s); [by apply Hv|done|]. intros a Ha. apply write_outside.
    pose proof (lookup_lt_Some _ _ _ Hx).
    assert ((cons + Z.of_nat i) mod nent (p_cq s) <> (cons + Z.of_nat (length q)) mod nent (p_cq s)) by (apply near_mod; lia).
    unfold entry_at in *. nia.
  - destruct (i - length q)%nat as [|n] eqn:Ei; [|done]. injection Hx as <-. replace i with (length q) by lia. by apply view_written.
Qed.

(** Taking the next entry *)
Lemma get_next_cqe_queue s prod q :
  ring_holds s prod q ->
  match q with
  | [] => mlx5_get_next_cqe s = Some (None, s)
  | e :: q' => exists c cqe s', mlx5_get_next_cqe s = Some (Some (c, cqe), s') /\
      entry_view (p_cq s) cqe (p_mem s) = e /\ c = cqe64_of (p_cq s) cqe /\
      s' = set_p_cq (set_cons_index (u32 (cons_index (p_cq s) + 1)) (p_cq s)) s /\ ring_holds s' prod q' /\
      exists j, cqe = entry_at (p_cq s) j
  end.
Proof.
  intros [Hw Hr (cons & Hc0 & Hc & Hp & Hq & Hv)]. unfold mlx5_get_next_cqe, next_cqe_sw. simpl.
  assert (E := get_sw_cqe_exact (p_cq s) Hw (p_mem s) prod cons Hr Hc0 ltac:(pose proof (nent_pos _ Hw); destruct q; simpl in *; lia)).
  unfold mbind, P_bind, gets. simpl. rewrite Hc, E. destruct q as [|e q]; simpl in Hp.
  - rewrite decide_False by lia. done.
  - rewrite decide_True by lia. eexists _, _, _. split; [reflexivity|]. split_and!; [|done|by rewrite Hc| |by eexists].
    + rewrite <- (Hv 0%nat e eq_refl). f_equal. f_equal. lia.
    + split; simpl; [by destruct Hw; split|by destruct Hr; split|]. exists (cons + 1). simpl in *.
      split_and!; [lia|rewrite Hc, u32_add_l; f_equal; lia|lia|unfold nent in *; simpl in *; lia|].
      intros i x Hx. specialize (Hv (S i) x Hx). rewrite <- Hv.
      replace (cons + 1 + Z.of_nat i) with (cons + Z.of_nat (S i)) by lia. done.
Qed.

Inductive ring_op : Type := RWrite (e : list Z) | RTake.

(** Device and driver at work: what each take returns.  The device does not write into a
    full ring. *)
Fixpoint ring_run (ops : list ring_op) (s : pst) (prod cons : Z) : list (option (list Z)) :=
  match ops with
  | [] => []
  | RWrite e :: ops =>
    if prod - cons <? nent (p_cq s) then ring_run ops (set_p_mem (device_write (p_cq s) prod e (p_mem s)) s) (prod + 1) cons
    else ring_run ops s prod cons
  | RTake :: ops =>
    match mlx5_get_next_cqe s with
    | Some (Some (_, cqe), s') => Some (entry_view (p_cq s) cqe (p_mem s)) :: ring_run ops s' prod (cons + 1)
    | Some (None, s') => None :: ring_run ops s' prod cons
    | None => []
    end
  end.

(** A queue of at most [n] entries *)
Fixpoint queue_run (n : Z) (ops : list ring_op) (q : list (list Z)) : list (option (list Z)) :=
  match ops with
  | [] => []
  | RWrite e :: ops => queue_run n ops (if Z.of_nat (length q) <? n then q ++ [e] else q)
  | RTake :: ops => match q with [] => None :: queue_run n ops [] | e :: q => Some e :: queue_run n ops q end
  end.

Definition op_ok (cq : mlx5_cq) (o : ring_op) : Prop := match o with RWrite e => entry_ok cq e | RTake => True end.

Lemma ring_run_queue ops : forall s prod cons q,
  ring_holds s prod q -> prod = cons + Z.of_nat (length q) -> Forall (op_ok (p_cq s)) ops ->
  ring_run ops s prod cons = queue_run (nent (p_cq s)) ops q.
Proof.
  induction ops as [|[e|] ops IH]; intros s prod cons q Hh Hp Hok; [done| |]; apply Forall_cons in Hok as [He Hok]; cbn [ring_run queue_run].
  - replace (prod - cons) with (Z.of_nat (length q)) by lia. destruct (Z.ltb_spec (Z.of_nat (length q)) (nent (p_cq s))) as [Hlt|].
    + rewrite (IH _ (prod + 1) cons (q ++ [e])); [done|by apply ring_holds_write|rewrite length_app; simpl; lia|done].
    + by apply IH.
  - pose proof (get_next_cqe_queue s prod q Hh) as Hn. destruct q as [|e q].
    + rewrite Hn. f_equal. by apply IH.
    + destruct Hn as (c & cqe & s' & -> & -> & _ & -> & Hh' & _). f_equal. simpl in Hp. rewrite (IH _ prod (cons + 1) q); [done|done|lia|].
      eapply Forall_impl; [exact Hok|]. intros o Ho. destruct o as [e'|]; [|done]. by destruct Ho as (? & ? & ?).
Qed.

(** C11. A completion ring is a queue.  Prepare the buffer as [mlx5_alloc_cq_buf] does and
    let the device write entries, each with the owner bit of its lap, while the driver
    takes them, in any order and for any number of laps, wraps of the 32-bit consumer index
    included.  Then [mlx5_get_next_cqe] returns what a bounded queue returns: every entry
    once, in order, with all its bytes, and nothing when there is nothing. *)
Theorem cq_fifo s custom m ops :
  cq_wf (p_cq s) -> cons_index (p_cq s) = 0 ->
  p_mem s = mlx5_alloc_cq_buf custom (cq_buf (p_cq s)) (nent (p_cq s)) (cqe_sz (p_cq s)) m ->
  Forall (op_ok (p_cq s)) ops ->
  ring_run ops s 0 0 = queue_run (nent (p_cq s)) ops [].
Proof.
  intros Hw Hc Hm Hok. apply ring_run_queue; [|done|done]. split; [done|rewrite Hm; by apply alloc_ring|].
  exists 0. pose proof (nent_pos _ Hw). split_and!; [done|by rewrite Hc|done|simpl; lia|done].
Qed.

(** ** Witness *)

Definition demo_clock : mlx5dv_clock_info := mk_clock 0 0 0 0 0 0.
(** A ring of two entries of 64 bytes *)
Definition demo_cq : mlx5_cq := mk_cq 4096 1 64 0 8192 5 0 0 0 0 false demo_clock 0 0 false false false 0 0.
Definition demo_wc : ibv_wc := mk_wc 0 0 0 0 0 (ImmData 0) 0 0 0 0 0 0 0.
Definition demo_pst : pst :=
  mk_pst demo_cq (mk_tables (fun _ => mk_bucket 0 []) (fun _ => mk_bucket 0 []) (fun _ => mk_bucket 0 []) (fun _ => mk_bucket 0 []))
    ∅ ∅ 0 0 demo_wc (mlx5_alloc_cq_buf false 4096 2 64 (fun _ => 0)) [].
Definition demo_cqe (x : Z) : list Z := replicate 62 x ++ [0; 0x20].

Lemma demo_cq_wf : cq_wf demo_cq.
Proof. split; [exists 1; done|by left]. Qed.

Lemma demo_cqe_ok x : 0 <= x < 256 -> entry_ok demo_cq (demo_cqe x).
Proof.
  intros Hx. split_and!; [done| |by exists 0x20]. apply Forall_app. split; [by apply Forall_replicate|]. rewrite !Forall_cons. by split_and!.
Qed.

Lemma cq_fifo_witness :
  ring_run [RWrite (demo_cqe 1); RWrite (demo_cqe 2); RTake; RWrite (demo_cqe 3); RTake; RTake; RTake] demo_pst 0 0 =
  [Some (demo_cqe 1); Some (demo_cqe 2); Some (demo_cqe 3); None].
Proof.
  rewrite (cq_fifo demo_pst false (fun _ => 0)); [done|apply demo_cq_wf|done|done|].
  rewrite !Forall_cons. split_and!; try done; by apply demo_cqe_ok.
Defined.
