(* ===== verification/CqClean.v ===== *)
(** Removing the completions of a queue that goes away ([__mlx5_cq_clean]): what stays in the
    ring are the other entries, in order, and the elements of a shared receive queue that
    the removed entries held go back to its free list. *)

From stdpp Require Import base numbers list gmap.
From S2P Require Import Prelude Mem Types Wqe PostSend Recv Srq SrqProps Table TagMatch CqTypes Cq CqRing CqProps.

(** * Moving an entry *)

(** Memory holds bytes. *)
Definition byte_mem (m : mem) : Prop := forall a, 0 <= m a < 256.

Lemma byte_store n p v m : byte_mem m -> byte_mem (store_be n p v m).
Proof.
  intros H a. unfold store_be. destruct (_ && _); [|apply H]. rewrite land_255. apply Z.mod_pos_bound. lia.
Qed.

Lemma byte_memcpy d s n m : byte_mem m -> byte_mem (memcpy d s n m).
Proof. intros H a. unfold memcpy. destruct (_ && _); apply H. Qed.

Lemma land_byte_fe x y : Z.land (Z.lor (Z.land x 1) (Z.land y 0xfe)) 255 = Z.lor (Z.land x 1) (Z.land y 0xfe).
Proof. rewrite Z.land_lor_distr_l, <- !Z.land_assoc. done. Qed.

Lemma fe_bits y : 0 <= y < 256 -> Z.shiftr (Z.land y 0xfe) 4 = Z.shiftr y 4.
Proof.
  intros Hy. rewrite Z.shiftr_land. change (Z.shiftr 0xfe 4) with (Z.ones 4). rewrite Z.land_ones by lia.
  apply Z.mod_small. rewrite Z.shiftr_div_pow2 by lia. div_lia.
Qed.

Lemma sz_ge cq : cq_wf cq -> 64 <= cqe_sz cq.
Proof. intros Hw. destruct (cw_sz _ Hw); lia. Qed.

Section Move.
#[local] Set Default Proof Using "Type*".
Context (cq : mlx5_cq) (Hw : cq_wf cq) (m : mem) (Hm : byte_mem m) (i j : Z) (Hne : i mod nent cq <> j mod nent cq).
#[local] Abbreviation m' := (move_cqe cq (entry_at cq j) (entry_at cq i) m).

Lemma move_outside a : a < entry_at cq j \/ entry_at cq j + cqe_sz cq <= a -> m' a = m a.
Proof.
  intros Ha. pose proof (sz_ge cq Hw). unfold move_cqe. rewrite (cqe64_desc cq Hw), desc_last.
  rewrite store1_ne by lia. apply memcpy_outside. lia.
Qed.

Lemma move_inside a : entry_at cq j <= a < entry_at cq j + cqe_sz cq - 1 -> m' a = m (entry_at cq i + (a - entry_at cq j)).
Proof.
  intros Ha. pose proof (sz_ge cq Hw). unfold move_cqe. rewrite (cqe64_desc cq Hw), desc_last.
  rewrite store1_ne by lia. apply memcpy_inside. lia.
Qed.

Lemma move_own :
  m' (desc_at cq j + 63) = Z.lor (Z.land (m (desc_at cq j + 63)) 1) (Z.land (m (desc_at cq i + 63)) 0xfe).
Proof.
  pose proof (sz_ge cq Hw). unfold move_cqe. rewrite (cqe64_desc cq Hw). rewrite store1_eq. unfold op_own. rewrite !desc_last.
  rewrite memcpy_inside by lia. change (u8 (Z.lnot MLX5_CQE_OWNER_MASK)) with 0xfe. unfold MLX5_CQE_OWNER_MASK.
  rewrite land_byte_fe. do 3 f_equal. lia.
Qed.

Lemma move_bytes : byte_mem m'.
Proof. unfold move_cqe. by apply byte_store, byte_memcpy. Qed.

(** The entry arrives, with the owner bit of its new place. *)
Lemma move_view : entry_view cq (entry_at cq j) m' = entry_view cq (entry_at cq i) m.
Proof.
  pose proof (sz_ge cq Hw). unfold entry_view. f_equal.
  - unfold read_bytes. apply list_fmap_ext. intros k x Hx. apply lookup_seq in Hx as [-> Hx]. rewrite move_inside by lia. f_equal. lia.
  - f_equal. replace (entry_at cq j + cqe_sz cq - 1) with (desc_at cq j + 63) by (rewrite desc_last; lia).
    rewrite move_own. replace (entry_at cq i + cqe_sz cq - 1) with (desc_at cq i + 63) by (rewrite desc_last; lia).
    rewrite Z.land_lor_distr_l, <- !Z.land_assoc. change (Z.land 1 0xfe) with 0. change (Z.land 0xfe 0xfe) with 0xfe.
    by rewrite Z.land_0_r, Z.lor_0_l.
Qed.

Lemma move_valid :
  mlx5dv_get_cqe_opcode (desc_at cq i) m <> MLX5_CQE_INVALID ->
  mlx5dv_get_cqe_opcode (desc_at cq j) m' <> MLX5_CQE_INVALID /\
  Z.land (op_own (desc_at cq j) m') 1 = Z.land (op_own (desc_at cq j) m) 1.
Proof.
  unfold mlx5dv_get_cqe_opcode, op_own. rewrite move_own. intros Hv.
  assert (Hl : Z.land (m (desc_at cq j + 63)) 1 = 0 \/ Z.land (m (desc_at cq j + 63)) 1 = 1).
  { change (Z.land (m (desc_at cq j + 63)) 1) with (Z.land (m (desc_at cq j + 63)) (Z.ones 1)).
    rewrite Z.land_ones by lia. change (2 ^ 1) with 2. pose proof (Z.mod_pos_bound (m (desc_at cq j + 63)) 2). lia. }
  split.
  - rewrite Z.lor_comm, lor_bit0; [by rewrite fe_bits by apply Hm| |done|lia].
    rewrite <- Z.land_assoc. apply Z.land_0_r.
  - rewrite Z.land_lor_distr_l, <- !Z.land_assoc. change (Z.land 0xfe 1) with 0. by rewrite Z.land_0_r, Z.lor_0_r.
Qed.
End Move.

(** * The sweep *)

(** The entry belongs to the queue numbered [rsn]; it holds an element of the SRQ. *)
Definition mine_of (cqe_ver : bool) (rsn c : Z) (m : mem) : bool :=
  if cqe_ver then is_equal_uidx c rsn m else is_equal_rsn c rsn m.
Definition holds_srq (cqe_ver : bool) (c : Z) (m : mem) : bool :=
  if cqe_ver then is_responder (mlx5dv_get_cqe_opcode c m) else negb (Z.land (srqn_uidx c m) 0xffffff =? 0).

(** The list without the elements whose position satisfies [f] *)
Fixpoint kept {A} (f : nat -> bool) (q : list A) : list A :=
  match q with
  | [] => []
  | e :: q => (if f 0%nat then [] else [e]) ++ kept (fun i => f (S i)) q
  end.

Lemma kept_snoc {A} (f : nat -> bool) (q : list A) e : kept f (q ++ [e]) = kept f q ++ (if f (length q) then [] else [e]).
Proof.
  revert f. induction q as [|x q IH]; intros f; simpl; [by rewrite app_nil_r|]. by rewrite IH, app_assoc.
Qed.

(** Taking elements out of the posted ones, one after the other *)
Definition rms (l P : list Z) : list Z := foldl (fun P i => rm i P) P l.

Lemma srq_rep_ext q m m' F W P :
  (forall i, 0 <= i < srq_max q -> next_index q i m' = next_index q i m) -> srq_rep q m F W P -> srq_rep q m' F W P.
Proof.
  intros E R. pose proof (rep_in _ _ _ _ _ R) as Hin. destruct R as [Hwf Hf Hq Ha]. split; [done| | |done].
  - eapply queue_ext; [|exact Hf]. intros i Hi. apply E, Hin. rewrite !elem_of_app. tauto.
  - destruct (srq_has_waitq q); [|done]. eapply queue_ext; [|exact Hq]. intros i Hi. apply E, Hin. rewrite !elem_of_app. tauto.
Qed.

(** The buffer of the SRQ lies apart from the ring and from the queue's doorbell record. *)
Definition srq_apart (cq : mlx5_cq) (q : mlx5_srq) : Prop :=
  (srq_buf q + srq_max q * stride q <= cq_buf cq \/ cq_buf cq + nent cq * cqe_sz cq <= srq_buf q) /\
  (cq_dbrec cq + 4 <= srq_buf q \/ srq_buf q + srq_max q * stride q <= cq_dbrec cq).

Section Sweep.
#[local] Set Default Proof Using "Type*".
Context (cq : mlx5_cq) (Hw : cq_wf cq) (cqe_ver : bool) (rsn : Z) (F W P : list Z).
#[local] Abbreviation sz := (cqe_sz cq).
#[local] Abbreviation hi := (cq_buf cq + nent cq * cqe_sz cq).

(** The SRQ, if there is one, with [fr] given back so far *)
Definition srq_at (srq : option mlx5_srq) (m : mem) (fr : list Z) : Prop :=
  match srq with
  | None => True
  | Some q => srq_rep q m (F ++ fr) W (rms fr P) /\ srq_apart cq q
  end.

Lemma srq_at_ring srq m m' fr : (forall a, a < cq_buf cq \/ hi <= a -> m' a = m a) -> srq_at srq m fr -> srq_at srq m' fr.
Proof.
  intros E. destruct srq as [q|]; [|done]. intros [R Hd]. split; [|done]. eapply srq_rep_ext; [|exact R]. intros i Hi.
  pose proof (r_wf _ _ _ _ _ R) as Hq. pose proof (stride_pos _ Hq). apply load_be_ext. intros a Ha. apply E.
  rewrite get_wqe_eq in Ha by done. simpl in Ha. destruct (proj1 Hd); nia.
Qed.

Lemma free_res_spec c srq m fr :
  byte_mem m -> srq_at srq m fr ->
  (mine_of cqe_ver rsn c m && holds_srq cqe_ver c m = true -> srq <> None -> wqe_counter c m ∈ rms fr P) ->
  exists srq' m', free_res_cqe cqe_ver c rsn srq m = (mine_of cqe_ver rsn c m, srq', m') /\
    byte_mem m' /\ (forall a, cq_buf cq <= a < hi -> m' a = m a) /\
    srq_at srq' m' (if mine_of cqe_ver rsn c m && holds_srq cqe_ver c m then fr ++ [wqe_counter c m] else fr) /\
    (srq' = None <-> srq = None).
Proof.
  intros Hm Hs Hc. unfold free_res_cqe, mine_of, holds_srq in *.
  assert (Hgo : forall b, (b = true -> srq <> None -> wqe_counter c m ∈ rms fr P) -> exists srq' m',
    match srq with
    | Some q => if b then let '(q, m) := mlx5_free_srq_wqe (wqe_counter c m) q m in (true, Some q, m) else (true, srq, m)
    | None => (true, srq, m)
    end = (true, srq', m') /\ byte_mem m' /\ (forall a, cq_buf cq <= a < hi -> m' a = m a) /\
    srq_at srq' m' (if b then fr ++ [wqe_counter c m] else fr) /\ (srq' = None <-> srq = None)).
  { intros b Hb. destruct srq as [q|]; [|by exists None, m; destruct b]. destruct b; [|by exists (Some q), m].
    specialize (Hb eq_refl ltac:(done)). destruct Hs as [R Hd]. pose proof (r_wf _ _ _ _ _ R) as Hq.
    assert (Ht : 0 <= srq_tail q < srq_max q).
    { eapply (rep_in _ _ _ _ _ R). apply elem_of_app. left. apply last_Some_elem_of, (q_last _ _ _ _ (r_free _ _ _ _ _ R)). }
    pose proof (stride_pos _ Hq). eexists _, _. split; [reflexivity|]. split_and!; [by apply byte_store| | |done].
    - intros a Ha. apply store_be_outside. rewrite get_wqe_eq by done. simpl. destruct (proj1 Hd); nia.
    - split; [|done]. rewrite app_assoc. unfold rms in *. rewrite foldl_app. simpl. by apply rep_free. }
  destruct cqe_ver.
  - destruct (is_equal_uidx c rsn m); [|by exists srq, m]. apply Hgo. intros E. by apply Hc.
  - destruct (is_equal_rsn c rsn m); [|by exists srq, m]. apply Hgo. intros E. by apply Hc.
Qed.

Lemma entry_in_ring j : cq_buf cq <= entry_at cq j /\ entry_at cq j + sz <= hi.
Proof.
  pose proof (nent_pos cq Hw). pose proof (Z.mod_pos_bound j (nent cq) ltac:(lia)). unfold entry_at.
  destruct (cw_sz _ Hw) as [-> | ->]; lia.
Qed.

Context (m0 : mem) (cons : Z) (k : nat) (Hk : Z.of_nat k <= nent cq).

(** Entry [t] after the consumer index: its place, what it says, what happens to it *)
Definition place (t : nat) : Z := cons + Z.of_nat t.
Definition mine (t : nat) : bool := mine_of cqe_ver rsn (desc_at cq (place t)) m0.
Definition back (t : nat) : bool := mine t && holds_srq cqe_ver (desc_at cq (place t)) m0.
Definition ctr (t : nat) : Z := wqe_counter (desc_at cq (place t)) m0.

Fixpoint count (n : nat) : Z := match n with O => 0 | S n => count n + Z.b2z (mine n) end.
(** The elements given back by the entries below [n], newest first *)
Fixpoint freed (n : nat) : list Z := match n with O => [] | S n => (if back n then [ctr n] else []) ++ freed n end.

Definition same_entry (m : mem) (t : nat) : Prop := forall a, entry_at cq (place t) <= a < entry_at cq (place t) + sz -> m a = m0 a.
Definition valid (m : mem) (t : nat) : Prop :=
  mlx5dv_get_cqe_opcode (desc_at cq (place t)) m <> MLX5_CQE_INVALID /\
  Z.land (op_own (desc_at cq (place t)) m) 1 = lap_bit cq (place t).

Lemma desc_load n o t m :
  same_entry m t -> 0 <= o -> o + Z.of_nat n <= 64 -> load_be n (desc_at cq (place t) + o) m = load_be n (desc_at cq (place t) + o) m0.
Proof.
  intros H Ho Hn. pose proof (sz_ge cq Hw). apply load_be_ext. intros a Ha. apply H. unfold desc_at in Ha. lia.
Qed.

Lemma same_facts t m :
  same_entry m t ->
  mine_of cqe_ver rsn (desc_at cq (place t)) m = mine t /\
  holds_srq cqe_ver (desc_at cq (place t)) m = holds_srq cqe_ver (desc_at cq (place t)) m0 /\
  wqe_counter (desc_at cq (place t)) m = ctr t.
Proof.
  intros H. unfold mine, mine_of, holds_srq, ctr, is_equal_uidx, is_equal_rsn, srqn_uidx, sop_drop_qpn, wqe_counter,
    mlx5dv_get_cqe_opcode, op_own. rewrite !(desc_load _ _ t m H) by (simpl; lia).
  assert (E : m (desc_at cq (place t) + 63) = m0 (desc_at cq (place t) + 63)).
  { apply H. rewrite desc_last. pose proof (sz_ge cq Hw). lia. }
  by rewrite E.
Qed.

Lemma place_apart t t' : (t < t')%nat -> Z.of_nat t' - Z.of_nat t < nent cq -> place t mod nent cq <> place t' mod nent cq.
Proof. intros H Hn. unfold place. pose proof (nent_pos cq Hw). apply near_mod; lia. Qed.

(** The bytes of other entries survive a write into one. *)
Lemma other_entry (m m' : mem) t t' :
  (forall a, a < entry_at cq (place t') \/ entry_at cq (place t') + sz <= a -> m' a = m a) ->
  place t mod nent cq <> place t' mod nent cq -> forall a, entry_at cq (place t) <= a < entry_at cq (place t) + sz -> m' a = m a.
Proof. intros H Hne a Ha. apply H. unfold entry_at in *. nia. Qed.

Lemma valid_ext (m m' : mem) t :
  (forall a, entry_at cq (place t) <= a < entry_at cq (place t) + sz -> m' a = m a) -> valid m t -> valid m' t.
Proof.
  intros H. unfold valid, mlx5dv_get_cqe_opcode, op_own. rewrite H; [done|]. rewrite desc_last. pose proof (sz_ge cq Hw). lia.
Qed.

(** The state of the sweep with [n] entries to go, [f] removed and [L] packed above them *)
Record sweeping (n : nat) (f : Z) (L : list (list Z)) (fr : list Z) (srq : option mlx5_srq) (m : mem) : Prop := {
  sw_bytes : byte_mem m;
  sw_cnt : 0 <= f /\ Z.of_nat n + f + Z.of_nat (length L) = Z.of_nat k;
  sw_todo : forall t, (t < n)%nat -> same_entry m t;
  sw_valid : forall t, (t < k)%nat -> valid m t;
  sw_packed : forall i e, L !! i = Some e -> entry_view cq (entry_at cq (cons + Z.of_nat n + f + Z.of_nat i)) m = e;
  sw_rest : forall t, (k <= t)%nat -> Z.of_nat t < nent cq -> same_entry m t;
  sw_srq : srq_at srq m fr
}.

Lemma sweep_ring n f L fr fr' srq srq' m m' :
  sweeping n f L fr srq m -> byte_mem m' -> (forall a, cq_buf cq <= a < hi -> m' a = m a) -> srq_at srq' m' fr' ->
  sweeping n f L fr' srq' m'.
Proof.
  intros [Hb Hc Ht Hv Hp Hr Hs] Hb' E Hs'.
  assert (Ee : forall j a, entry_at cq j <= a < entry_at cq j + sz -> m' a = m a).
  { intros j a Ha. apply E. pose proof (entry_in_ring j). lia. }
  pose proof (sz_ge cq Hw). split; [done|done| | | | |done].
  - intros t Htn a Ha. rewrite (Ee _ _ Ha). by apply (Ht t).
  - intros t Htk. eapply valid_ext; [|by apply Hv]. apply Ee.
  - intros i e He. rewrite <- (Hp i e He). by apply view_ext, Ee.
  - intros t Htk Htn a Ha. rewrite (Ee _ _ Ha). by apply (Hr t).
Qed.

(** One entry that stays, and one that goes *)
Lemma sweep_keep n f L fr srq m :
  sweeping (S n) f L fr srq m ->
  sweeping n f (entry_view cq (entry_at cq (place n)) m0 :: L) fr srq
    (if f =? 0 then m else move_cqe cq (entry_at cq (place n + f)) (entry_at cq (place n)) m).
Proof.
  intros [Hb Hc Ht Hv Hp Hr Hs]. pose proof (sz_ge cq Hw) as Hsz.
  assert (Hview : entry_view cq (entry_at cq (place n)) m = entry_view cq (entry_at cq (place n)) m0)
    by (apply view_ext; [done|]; apply Ht; lia).
  destruct (Z.eqb_spec f 0) as [->|Hf].
  - split; [done|simpl; lia|intros t Hlt; apply Ht; lia|done| |done|done]. intros [|i] e He.
    + injection He as <-. rewrite <- Hview. do 2 f_equal. unfold place. lia.
    + rewrite <- (Hp i e He). do 2 f_equal. lia.
  - set (d := (n + Z.to_nat f)%nat). assert (Ed : place n + f = place d) by (unfold place, d; lia). rewrite Ed.
    assert (Hne : place n mod nent cq <> place d mod nent cq) by (apply place_apart; unfold d; lia).
    set (m' := move_cqe _ _ _ _). pose proof (move_outside cq Hw m Hb _ _ Hne) as Hout. fold m' in Hout.
    assert (Hoth : forall t, (t < k)%nat \/ Z.of_nat t < nent cq -> t <> d ->
      forall a, entry_at cq (place t) <= a < entry_at cq (place t) + sz -> m' a = m a).
    { intros t Htk Htd. apply (other_entry m m' t d Hout). destruct (decide (t < d)%nat); [apply place_apart; unfold d in *; lia|].
      apply not_eq_sym, place_apart; unfold d in *; lia. }
    destruct (move_valid cq Hw m Hb _ _ Hne (proj1 (Hv n ltac:(lia)))) as [Hop Hown].
    split; [by apply (move_bytes cq Hw m Hb _ _ Hne)|simpl; lia| | | | |].
    + intros t Htn a Ha. rewrite (Hoth t ltac:(lia) ltac:(unfold d; lia) a Ha). by apply (Ht t ltac:(lia)).
    + intros t Htk. destruct (decide (t = d)) as [->|Htd]; [|eapply valid_ext; [by apply Hoth; [left|]|by apply Hv]].
      split; [done|]. rewrite <- (proj2 (Hv d ltac:(unfold d; lia))). exact Hown.
    + intros [|i] e He.
      * injection He as <-. replace (cons + Z.of_nat n + f + Z.of_nat 0) with (place d) by (unfold place, d; lia).
        rewrite <- Hview. by apply (move_view cq Hw m Hb).
      * rewrite <- (Hp i e He). replace (cons + Z.of_nat n + f + Z.of_nat (S i)) with (place (d + S i)) by (unfold place, d; lia).
        replace (cons + Z.of_nat (S n) + f + Z.of_nat i) with (place (d + S i)) by (unfold place, d; lia).
        apply view_ext; [done|]. pose proof (lookup_lt_Some _ _ _ He). apply Hoth; [left; unfold d; simpl in *; lia|lia].
    + intros t Htk Htn a Ha. rewrite (Hoth t ltac:(by right) ltac:(unfold d; lia) a Ha). by apply (Hr t).
    + eapply srq_at_ring; [|exact Hs]. intros a Ha. apply Hout. pose proof (entry_in_ring (place d)). lia.
Qed.

Lemma sweep_drop n f L fr srq m : sweeping (S n) f L fr srq m -> sweeping n (f + 1) L fr srq m.
Proof.
  intros [Hb Hc Ht Hv Hp Hr Hs]. split; [done|lia|intros t Hlt; apply Ht; lia|done| |done|done].
  intros i e He. rewrite <- (Hp i e He). do 2 f_equal. lia.
Qed.

(** The elements still to be given back are posted. *)
Definition all_posted (n : nat) (fr : list Z) (srq : option mlx5_srq) : Prop :=
  srq <> None -> NoDup (freed n) /\ forall x, x ∈ freed n -> x ∈ rms fr P.

Context (Hcons : cons_index cq = u32 cons).

Lemma swept_entry j : cqe_at cq (cons_index cq + j) = entry_at cq (cons + j).
Proof.
  unfold cqe_at, get_cqe, entry_at. rewrite Hcons, <- (ring_index cq Hw (cons + j)). by rewrite u32_add_l.
Qed.

Lemma all_posted_next n fr srq srq' :
  all_posted (S n) fr srq -> (srq' = None <-> srq = None) ->
  all_posted n (if back n then fr ++ [ctr n] else fr) srq' /\ (back n = true -> srq <> None -> ctr n ∈ rms fr P).
Proof.
  intros Hp Hiff. unfold all_posted in *. simpl in *. destruct (back n).
  - split; [|intros _ Hs; apply (proj2 (Hp Hs)); set_solver]. intros Hs. destruct Hp as [Hnd Hin]; [tauto|].
    apply NoDup_cons in Hnd as [Hx Hnd]. split; [done|]. intros x Hxf. unfold rms. rewrite foldl_app. simpl.
    unfold rm. apply list_elem_of_filter. split; [by intros ->|]. apply Hin. set_solver.
  - split; [|done]. intros Hs. apply Hp. tauto.
Qed.

Lemma cq_sweep_spec (q : list (list Z)) n : forall f L fr srq m,
  (forall t e, q !! t = Some e -> entry_view cq (entry_at cq (place t)) m0 = e) -> (n <= length q)%nat ->
  sweeping n f L fr srq m -> all_posted n fr srq ->
  exists srq' m', cq_sweep n cqe_ver cq rsn f srq m = (f + count n, srq', m') /\
    sweeping 0 (f + count n) (kept mine (take n q) ++ L) (fr ++ freed n) srq' m'.
Proof.
  induction n as [|n IH]; intros f L fr srq m Hq Hn Hs Hp.
  { exists srq, m. simpl. rewrite Z.add_0_r, app_nil_r. done. }
  cbn [cq_sweep]. cbv zeta. rewrite (swept_entry (Z.of_nat n)), (cqe64_desc cq Hw). fold (place n).
  destruct (same_facts n m (sw_todo _ _ _ _ _ _ Hs n ltac:(lia))) as (Em & Eh & Ec).
  destruct (free_res_spec (desc_at cq (place n)) srq m fr (sw_bytes _ _ _ _ _ _ Hs) (sw_srq _ _ _ _ _ _ Hs)) as
    (srq1 & m1 & Ef & Hb1 & Er & Hs1 & Hiff).
  { rewrite Em, Eh, Ec. apply (all_posted_next n fr srq srq Hp ltac:(done)). }
  rewrite Em, Eh, Ec in Hs1. fold (back n) in Hs1. rewrite Ef, Em. clear Ef.
  pose proof (sweep_ring _ _ _ _ _ _ _ _ _ Hs Hb1 Er Hs1) as Hsw.
  destruct (all_posted_next n fr srq srq1 Hp Hiff) as [Hp1 _].
  destruct (lookup_lt_is_Some_2 q n ltac:(lia)) as [e He]. rewrite (take_S_r _ _ _ He), kept_snoc, length_take, Nat.min_l by lia.
  assert (Hfr : fr ++ freed (S n) = (if back n then fr ++ [ctr n] else fr) ++ freed n) by (simpl; destruct (back n); [by rewrite <- app_assoc|done]).
  rewrite Hfr. cbn [count]. destruct (mine n) eqn:Hmine; cbn [Z.b2z].
  - destruct (IH (f + 1) L _ srq1 m1 Hq ltac:(lia) (sweep_drop _ _ _ _ _ _ Hsw) Hp1) as (srq' & m' & -> & Hend).
    exists srq', m'. rewrite app_nil_r. replace (f + (count n + 1)) with (f + 1 + count n) by lia. done.
  - pose proof (sweep_keep _ _ _ _ _ _ Hsw) as Hk'. rewrite (Hq n e He) in Hk'.
    destruct (IH f _ _ srq1 _ Hq ltac:(lia) Hk' Hp1) as (srq' & m' & E & Hend).
    exists srq', m'. rewrite Z.add_0_r, <- app_assoc. split; [|done]. rewrite <- E.
    rewrite <- Z.add_assoc, (swept_entry (Z.of_nat n + f)). unfold place. rewrite Z.add_assoc. by destruct (f =? 0).
Qed.
End Sweep.

(** * Cleaning *)

(** The first loop counts the entries, all but the last of a full ring. *)
Lemma prod_count_spec s prod q n t :
  ring_holds s prod q -> Z.of_nat n + Z.of_nat t = nent (p_cq s) -> (t <= length q)%nat -> Z.of_nat t <= cqe_mask (p_cq s) ->
  prod_count n (p_cq s) (Z.of_nat t) (p_mem s) = Z.min (Z.of_nat (length q)) (cqe_mask (p_cq s)).
Proof.
  intros [Hw Hr (cons & Hc0 & Hc & Hp & Hq & _)]. revert t. induction n as [|n IH]; intros t Hn Ht Hm; [unfold nent in *; lia|].
  cbn [prod_count]. rewrite Hc, u32_add_l, (get_sw_cqe_exact _ Hw _ prod) by (done || lia).
  destruct (decide (cons + Z.of_nat t < prod)); [|lia]. destruct (Z.eqb_spec (Z.of_nat t) (cqe_mask (p_cq s))); [lia|].
  replace (Z.of_nat t + 1) with (Z.of_nat (S t)) by lia. apply IH; lia.
Qed.

Lemma srq_at_record cq F W P srq m fr v :
  srq_at cq F W P srq m fr -> srq_at cq F W P srq (store_be 4 (cq_dbrec cq + 4 * MLX5_CQ_SET_CI) v m) fr.
Proof.
  destruct srq as [q|]; [|done]. intros [R Hd]. split; [|done]. eapply srq_rep_ext; [|exact R]. intros i Hi.
  pose proof (r_wf _ _ _ _ _ R) as Hq. pose proof (stride_pos _ Hq). apply load_store_other. rewrite get_wqe_eq by done. 
  unfold MLX5_CQ_SET_CI. destruct (proj2 Hd); simpl; nia.
Qed.

(** A ring packed by the sweep is in order again. *)
Lemma swept_ring s prod q F W P cons k f L fr srq m :
  ring_holds s prod q -> 0 <= cons -> prod = cons + Z.of_nat (length q) -> (k <= length q)%nat ->
  (forall t e, q !! t = Some e -> entry_view (p_cq s) (entry_at (p_cq s) (place cons t)) (p_mem s) = e) ->
  sweeping (p_cq s) F W P (p_mem s) cons k 0 f L fr srq m ->
  ring_holds (set_p_mem m (set_p_cq (set_cons_index (u32 (cons + f)) (p_cq s)) s)) prod (L ++ drop k q).
Proof.
  intros [Hw [H0 Hwr Hfr] (_ & _ & _ & _ & Hlen & _)] Hc0 Hp Hkq Hq [_ Hcnt _ Hv Hpk Hr _].
  set (cq := p_cq s) in *. pose proof (sz_ge cq Hw) as Hsz. pose proof (nent_pos cq Hw).
  assert (Hsame : forall t, (k <= t)%nat -> Z.of_nat t < nent cq ->
    m (desc_at cq (place cons t) + 63) = p_mem s (desc_at cq (place cons t) + 63)).
  { intros t Ht Hn. apply (Hr t Ht Hn). rewrite desc_last. lia. }
  split; [by destruct Hw; split|split; [done| |]|]; cbn [p_cq p_mem set_p_mem set_p_cq].
  - intros j Hj Hr'. change (nent (set_cons_index _ cq)) with (nent cq) in Hr'.
    change (desc_at (set_cons_index _ cq) j) with (desc_at cq j). change (lap_bit (set_cons_index _ cq) j) with (lap_bit cq j).
    destruct (decide (cons <= j < cons + Z.of_nat k)) as [Hin|Hout].
    + replace j with (place cons (Z.to_nat (j - cons))) by (unfold place; lia). apply Hv. lia.
    + assert (Hd : m (desc_at cq j + 63) = p_mem s (desc_at cq j + 63)).
      { destruct (decide (cons <= j)).
        - replace j with (place cons (Z.to_nat (j - cons))) by (unfold place; lia). apply Hsame; lia.
        - assert (Ej : desc_at cq j = desc_at cq (place cons (Z.to_nat (j + nent cq - cons)))).
          { rewrite <- (desc_prev cq Hw (place cons _)). f_equal. unfold place. lia. }
          rewrite Ej. apply Hsame; lia. }
      unfold mlx5dv_get_cqe_opcode, op_own in *. rewrite Hd. by apply Hwr.
  - intros j Hj. change (nent (set_cons_index _ cq)) with (nent cq) in Hj. change (desc_at (set_cons_index _ cq) j) with (desc_at cq j).
    unfold mlx5dv_get_cqe_opcode, op_own in *. replace j with (place cons (Z.to_nat (j - cons))) by (unfold place; lia).
    rewrite Hsame by lia. replace (place cons (Z.to_nat (j - cons))) with j by (unfold place; lia). by apply Hfr.
  - exists (cons + f). rewrite length_app, length_drop. split_and!; [lia|done|lia|change (nent (set_cons_index _ cq)) with (nent cq); lia|].
    change (entry_view (set_cons_index _ cq)) with (entry_view cq). change (entry_at (set_cons_index _ cq)) with (entry_at cq).
    intros i e [He|[Hge He]]%lookup_app_Some.
    + rewrite <- (Hpk i e He). do 2 f_equal. lia.
    + rewrite lookup_drop in He. rewrite <- (Hq _ _ He). pose proof (lookup_lt_Some _ _ _ He).
      replace (cons + f + Z.of_nat i) with (place cons (k + (i - length L))) by (unfold place; lia).
      apply view_ext; [done|]. apply (Hr (k + (i - length L))%nat); lia.
Qed.

Lemma set_cons_same cq : set_cons_index (cons_index cq) cq = cq.
Proof. by destruct cq. Qed.

(** Memory outside the ring does not matter. *)
Lemma ring_holds_outside s prod q m' :
  ring_holds s prod q ->
  (forall a, cq_buf (p_cq s) <= a < cq_buf (p_cq s) + nent (p_cq s) * cqe_sz (p_cq s) -> m' a = p_mem s a) ->
  ring_holds (set_p_mem m' s) prod q.
Proof.
  intros [Hw [H0 Hwr Hfr] (cons & Hc0 & Hci & Hp & Hlen & Hv)] E. pose proof (sz_ge _ Hw).
  assert (Ee : forall j a, entry_at (p_cq s) j <= a < entry_at (p_cq s) j + cqe_sz (p_cq s) -> m' a = p_mem s a).
  { intros j a Ha. apply E. pose proof (entry_in_ring (p_cq s) Hw j). lia. }
  assert (Ed : forall j, m' (desc_at (p_cq s) j + 63) = p_mem s (desc_at (p_cq s) j + 63)).
  { intros j. apply (Ee j). rewrite desc_last. lia. }
  split; [done|split; [done| |]|]; simpl; unfold mlx5dv_get_cqe_opcode, op_own in *.
  - intros j. rewrite Ed. apply Hwr.
  - intros j. rewrite Ed. apply Hfr.
  - exists cons. split_and!; [done..|]. intros i e He. rewrite <- (Hv i e He). by apply view_ext, Ee.
Qed.


(** ** Witness: completions of QPs 7, 8 and 7 in a ring of four *)

Lemma byte_write cq prod e m : entry_ok cq e -> byte_mem m -> byte_mem (device_write cq prod e m).
Proof.
  intros (_ & Hb & _) Hm a. unfold device_write. destruct (_ && _); [|apply Hm].
  assert (Hx : 0 <= aget e (a - entry_at cq prod) < 256).
  { unfold aget. destruct (e !! Z.to_nat (a - entry_at cq prod)) as [x|] eqn:E.
    - rewrite (nth_lookup_Some _ _ _ _ E). by apply (Forall_lookup_1 _ _ _ _ Hb E).
    - rewrite nth_overflow; [lia|]. by apply lookup_ge_None. }
  set (x := aget _ _) in *. destruct (a =? _); [|by rewrite Z.lor_0_r].
  destruct (lap_bit_01 cq prod) as [-> | ->]; [by rewrite Z.lor_0_r|]. split; [apply Z.lor_nonneg; lia|].
  apply Z.log2_lt_cancel. rewrite Z.log2_lor by lia. apply Z.max_lub_lt; [|done].
  destruct (decide (x = 0)) as [->|]; [done|]. change (Z.log2 256) with 8. apply Z.log2_lt_pow2; lia.
Qed.

Definition clean_cq : mlx5_cq := mk_cq 4096 3 64 0 8192 5 0 0 0 0 false demo_clock 0 0 false false false 0 0.
Definition clean_pst0 : pst := set_p_mem (mlx5_alloc_cq_buf false 4096 4 64 (fun _ => 0)) (set_p_cq clean_cq demo_pst).
Definition cqe_of (qpn : Z) : list Z := replicate 59 0 ++ [qpn; 0; 0; 0; 0x20].
Definition write_next (n : Z) (e : list Z) (s : pst) : pst := set_p_mem (device_write (p_cq s) n e (p_mem s)) s.
Definition clean_pst : pst := write_next 2 (cqe_of 7) (write_next 1 (cqe_of 8) (write_next 0 (cqe_of 7) clean_pst0)).

Lemma cqe_of_ok qpn : 0 <= qpn < 256 -> entry_ok clean_cq (cqe_of qpn).
Proof.
  intros Hx. split_and!; [done| |by exists 0x20]. apply Forall_app. split; [by apply Forall_replicate|]. rewrite !Forall_cons. split_and!; lia || done.
Qed.

Lemma clean_wf : cq_wf clean_cq.
Proof. split; [by exists 2|by left]. Qed.

Lemma clean_start : ring_holds clean_pst0 0 [] /\ byte_mem (p_mem clean_pst0).
Proof.
  split.
  - split; [apply clean_wf|apply (alloc_ring clean_cq), clean_wf|]. by exists 0.
  - simpl. unfold mlx5_alloc_cq_buf. simpl. repeat apply byte_store. intros a. unfold memset. by destruct (_ && _).
Qed.

Lemma clean_holds : ring_holds clean_pst 3 [cqe_of 7; cqe_of 8; cqe_of 7] /\ byte_mem (p_mem clean_pst).
Proof.
  destruct clean_start as [Hh Hb]. split.
  - apply (ring_holds_write _ 2 [cqe_of 7; cqe_of 8]); [|by apply cqe_of_ok|done].
    apply (ring_holds_write _ 1 [cqe_of 7]); [|by apply cqe_of_ok|done].
    apply (ring_holds_write _ 0 []); [done|by apply cqe_of_ok|done].
  - repeat (apply byte_write; [by apply cqe_of_ok|]). exact Hb.
Qed.

