(* ===== verification/SendComplete.v ===== *)
(** Posting and polling together: an application posts send requests through a QP and polls
    the completion queue of that QP, while the device executes the requests and writes
    completions.

    The two halves meet in the per-slot arrays of the send queue: posting leaves in the slot
    of each element its identifier and the value of the head, the poller finds the slot from
    the counter in the completion and moves the tail past it.  This file composes the send
    queue ([SendFifo]) and the ring of completions ([CqProps]) with the tables that find the
    QP, and shows that the application sees a queue of requests. *)

From stdpp Require Import base numbers list gmap.
From S2P Require Import Prelude Mem Types Wqe Forecast PostSend SendSafe SendQueue SendDecode Recv RecvProps Sizes SizesProps SizesFit SendFifo Srq Table TagMatch CqTypes Cq CqPoll CqRing CqProps CqClean.

(** * The slots of the outstanding requests *)

(** The sizes of a run are those of the requests. *)
Lemma posts_units ctx ops q0 tails n l sizes s s2 :
  0 <= qp_num q0 < 2 ^ 24 -> posts ctx tails n l sizes s s2 -> sq_step q0 (ps_qp s) -> sq_wf (ps_qp s) -> ps_scp s = scp0 -> Forall (good_wr ops q0) l ->
  sizes = wr_units q0 <$> l.
Proof.
  intros Hq. induction 1 as [n s|n wr l sizes s s1 s2 E Hp IH]; intros Hst Hw Hscp Hl; [done|].
  apply Forall_cons in Hl as [Hwr Hl].
  assert (Hg : post_send_guards (ps_qp s) n (tails n) wr = Ok) by (unfold post_send_wr in E; by destruct (post_send_guards _ _ _ _)).
  pose proof (proj1 (moved_scatter _ _ _ (step_moved _ _ Hst)) (proj1 Hwr)) as Hsw.
  assert (Hn : qp_num (ps_qp s) = qp_num q0) by (by rewrite (step_qp _ _ Hst)).
  destruct (post_send_wr_element ctx n (tails n) wr s Hw ltac:(by rewrite Hn) Hsw Hscp Hg) as (s1' & E' & Hsz & _ & Hscp1 & _).
  rewrite E in E'. injection E' as <-.
  destruct (post_send_wr_ok _ _ _ _ _ _ Hw E) as (_ & _ & _ & _ & _ & Hw1 & _).
  pose proof (post_send_wr_step _ _ _ _ _ _ E) as Hst1.
  rewrite fmap_cons, <- IH; [|by etrans|done..]. by rewrite Hsz, (wr_units_step _ _ _ Hst).
Qed.

Section Slots.
#[local] Set Default Proof Using "Type*".
Context (ctx : mlx5_context) (dci : bool) (ops mops W : Z) (q0 : mlx5_qp).
Context (Hq : 0 <= qp_num q0 < 2 ^ 24) (Hlim : send_limits ctx q0) (Hz : sq_sized dci ops mops W q0) (Hw0 : sq_wf q0).
Context (Hdb : snd_dbr q0 + 4 <= sq_start q0 \/ qend (sq q0) <= snd_dbr q0).
#[local] Abbreviation out_blocks := (out_blocks q0).
#[local] Abbreviation fifo := (fifo ops W q0).
#[local] Abbreviation cnt := (wqe_cnt (sq q0)).
(** The lemmas of [SendFifo] for this queue *)
#[local] Abbreviation of_qp lem := (lem ctx dci ops mops W q0 Hq Hlim Hz) (only parsing).
#[local] Abbreviation of_ring lem := (lem ctx dci ops mops W q0 Hq Hlim Hz Hdb Hw0) (only parsing).

Lemma blocks_units l : sumZ nbb (wr_units q0 <$> l) = sumZ (wr_blocks q0) l.
Proof. induction l as [|wr l IH]; [done|]. rewrite fmap_cons. simpl in *. by rewrite IH. Qed.

(** The counter of the element of request [i], and its slot *)
Definition post_index (c : Z) (l : list entry) (i : nat) : Z := c - out_blocks (drop i l).
Definition req_slot (c : Z) (l : list entry) (i : nat) : Z := slot_at c cnt (- out_blocks (drop i l)).

(** The slot of each outstanding request holds its identifier and its place in the queue. *)
Definition slots_hold (l : list entry) (w : mlx5_wq) : Prop := forall i e, l !! i = Some e ->
  let slot := req_slot (cur_post w) l i in
  aget (wrid w) slot = wr_id e.2 /\ aget (wqe_head w) slot = u32 (wq_tail w + Z.of_nat i).

Lemma slot_at_lap c d : slot_at c cnt (cnt - d) = slot_at c cnt (- d).
Proof.
  pose proof (wf_cnt_pos _ Hw0). unfold slot_at. replace (c + (cnt - d)) with (c - d + 1 * cnt) by lia.
  by rewrite Z.mod_add by lia.
Qed.

Lemma flight_head w n k : in_flight w (wq_tail w) = n -> u32 (wq_head w + k) = u32 (wq_tail w + n + k).
Proof.
  intros <-. unfold in_flight, u32. rewrite <- (Zplus_mod_idemp_l (wq_tail w + _)), Zplus_mod_idemp_r, Zplus_mod_idemp_l. f_equal. lia.
Qed.

(** What fits, and what a call leaves in the arrays *)
Lemma call_fit l s c o n s' :
  fifo l s -> call_ok ops q0 c l (wq_tail (sq (ss_qp s))) -> post_send_locked ctx (call_tails c) (call_wrs c) s = (o, n, s') ->
  let T := sumZ (wr_blocks q0) (take (Z.to_nat n) (call_wrs c)) in
  0 <= T /\ 0 <= out_blocks (drop (call_done c) l) /\ out_blocks (drop (call_done c) l) + T <= cnt.
Proof.
  intros Hf Hc E T. destruct (of_qp call_qp _ _ _ _ _ _ Hf Hc E) as (Hn & _ & _ & _ & _ & _ & Hroom & HP).
  pose proof Hf as [_ _ _ _ _ Hg _]. pose proof Hc as (_ & Hd & _).
  pose proof (of_qp out_blocks_bound _ HP) as HbD. rewrite (of_qp out_blocks_snd), fenced_snd in HbD.
  pose proof (of_qp out_blocks_bound _ (Forall_drop _ (call_done c) _ Hg)) as HbL.
  rewrite length_fenced, length_take in HbD. rewrite length_drop in HbL. fold T in HbD.
  pose proof (of_ring ring_share). pose proof (ss_blocks _ _ _ _ _ Hz).
  assert (0 <= W / 64) by div_lia. nia.
Qed.

Lemma call_slots l s c o n s' :
  fifo l s -> call_ok ops q0 c l (wq_tail (sq (ss_qp s))) -> post_send_locked ctx (call_tails c) (call_wrs c) s = (o, n, s') ->
  let P := take (Z.to_nat n) (call_wrs c) in let w := sq (ss_qp s) in let w' := sq (ss_qp s') in
  let slot d := slot_at (cur_post w) cnt d in
  (forall i wr, P !! i = Some wr -> let d := sumZ (wr_blocks q0) (take i P) in
     aget (wrid w') (slot d) = wr_id wr /\ aget (wqe_head w') (slot d) = u32 (wq_head w + Z.of_nat i)) /\
  (forall d, sumZ (wr_blocks q0) P <= d < cnt ->
     aget (wrid w') (slot d) = aget (wrid w) (slot d) /\ aget (wqe_head w') (slot d) = aget (wqe_head w) (slot d)).
Proof.
  intros Hf Hc E. pose proof (call_fit _ _ _ _ _ _ Hf Hc E) as Hfit. cbv zeta in *.
  pose proof Hf as [Hm Hw _ _ _ _ _]. pose proof Hc as (Hl & _).
  destruct (of_qp moved_hyps _ Hm) as (Hq' & Hlim' & Hz' & Hgood).
  destruct (locked_posts ctx dci ops mops W (ss_qp s) Hq' Hlim' Hz' _ _ _ _ _ _ eq_refl Hw (Hgood _ Hl) E)
    as (k & sizes & ps & -> & Hk & Hp & ->).
  rewrite Nat2Z.id in *. set (P := take k (call_wrs c)) in *. set (w := sq (ss_qp s)) in *.
  assert (Hcnt : wqe_cnt w = cnt) by (unfold w; by rewrite (mv_sq _ _ Hm)).
  assert (HP : Forall (good_wr ops q0) P) by (by apply Forall_take).
  destruct (posts_counters _ _ _ _ _ _ _ Hp Hw) as (_ & Hw1 & _).
  destruct (post_send_db_sq ctx (Z.of_nat k) (ps_inl ps) (ps_size ps) (ps_ctrl ps)
    (mk_ss (set_fm_cache (ps_next_fence ps) (ps_qp ps)) (ss_bf s) (ps_mem ps) (ss_trace s)) ltac:(simpl; apply Hw1)) as (-> & -> & _).
  cbn [ss_qp]. change (sq (set_fm_cache _ (ps_qp ps))) with (sq (ps_qp ps)).
  assert (Eu : sizes = wr_units q0 <$> P).
  { assert (Hu : forall wr, wr_units (ss_qp s) wr = wr_units q0 wr) by (intros wr; by rewrite (mv_qp _ _ Hm)).
    rewrite (posts_units ctx ops (ss_qp s) _ _ _ _ _ _ Hq' Hp ltac:(reflexivity) Hw eq_refl (Hgood _ HP)).
    apply list_fmap_ext. by intros i wr _. }
  assert (Hsz : Forall (fun z => z < 2 ^ 31) sizes).
  { rewrite Eu, Forall_fmap. eapply Forall_impl; [exact HP|]. intros wr [Hsc _]. pose proof (sw_units _ _ Hsc). simpl. lia. }
  assert (Hsum : sumZ nbb sizes = sumZ (wr_blocks q0) P) by (by rewrite Eu, blocks_units).
  destruct (posts_slots _ _ _ _ _ _ _ (proj1 (lim_inline_hdr _ _ Hlim)) Hp Hw Hsz ltac:(rewrite Hsum; cbn; fold w; lia)) as (_ & Hnew & Hold).
  cbn [ps_qp loop_start] in Hnew, Hold. fold w in Hnew, Hold. rewrite Hcnt in Hnew, Hold. split.
  - intros i wr Hi. destruct (Hnew i wr Hi) as [H1 H2]. rewrite Eu, <- fmap_take, blocks_units in H1, H2.
    rewrite H1, H2. done.
  - intros d Hd. apply Hold. by rewrite Hsum.
Qed.

Lemma send_step_slots l s c o s' l' :
  fifo l s -> slots_hold l (sq (ss_qp s)) -> call_ok ops q0 c l (wq_tail (sq (ss_qp s))) ->
  send_step ctx c s l = (o, s', l') -> slots_hold l' (sq (ss_qp s')).
Proof.
  intros Hf Hs Hc. unfold send_step. destruct (post_send_locked _ _ _ s) as [[o1 n] s1] eqn:E. intros [= -> <- <-].
  destruct (of_qp call_qp _ _ _ _ _ _ Hf Hc E) as (Hn & _ & _ & Ecp & _ & Et & Hroom & HP).
  destruct (call_slots _ _ _ _ _ _ Hf Hc E) as [Hnew Hold]. cbv zeta in *.
  set (P := take (Z.to_nat n) (call_wrs c)) in *. set (T := sumZ (wr_blocks q0) P) in *.
  set (w := sq (ss_qp s)) in *. set (D := fenced (fm_cache (ss_qp s)) P) in *. set (L := drop (call_done c) l).
  pose proof Hf as [Hm Hw Hfl Htl _ Hg _]. pose proof Hc as (_ & Hd & _).
  assert (HL : Forall (fun e => good_wr ops q0 e.2 /\ wr_blocks q0 e.2 <= W / 64) L) by (by apply Forall_drop).
  assert (HDT : out_blocks D = T) by (unfold D, T; by rewrite (of_qp out_blocks_snd), fenced_snd).
  assert (HLlen : length L = (length l - call_done c)%nat) by (unfold L; by rewrite length_drop).
  pose proof (call_fit _ _ _ _ _ _ Hf Hc E) as Hfit. cbv zeta in Hfit. fold P T L in Hfit.
  intros i e Hi. unfold req_slot. cbv zeta. rewrite Ecp, Et. change (wrid (sq (ss_qp (set_tail_by _ s1)))) with (wrid (sq (ss_qp s1))).
  change (wqe_head (sq (ss_qp (set_tail_by _ s1)))) with (wqe_head (sq (ss_qp s1))). rewrite u32_add_l.
  destruct (decide (i < length L)%nat) as [Hlt|Hge].
  - rewrite lookup_app_l in Hi by done. rewrite drop_app_le, (of_qp out_blocks_app), HDT by lia.
    replace (- (out_blocks (drop i L) + T)) with (- out_blocks (drop i L) - T) by lia. rewrite (of_ring slot_shift).
    pose proof (of_ring drop_blocks L i e HL Hi) as Hdi.
    unfold L in Hi. rewrite lookup_drop in Hi. specialize (Hs _ _ Hi). cbv zeta in Hs. unfold req_slot in Hs.
    replace (drop (call_done c + i) l) with (drop i L) in Hs by (unfold L; by rewrite drop_drop). fold w in Hs.
    destruct (Hold (cnt - out_blocks (drop i L))) as [H1 H2].
    { pose proof (wr_units_pos q0 e.2). destruct (Forall_lookup_1 _ _ _ _ Hg Hi) as [[Hsc _] _]. pose proof (sw_units _ _ Hsc).
      pose proof (nbb_pos (wr_units q0 e.2) ltac:(lia)). unfold wr_blocks in *. lia. }
    rewrite slot_at_lap in H1, H2. rewrite H1, H2. destruct Hs as [-> ->]. split; [done|]. f_equal. lia.
  - rewrite lookup_app_r in Hi by lia. rewrite drop_app_ge by lia. set (k := (i - length L)%nat) in *.
    apply fenced_lookup in Hi as (wr & Hwr & ->). unfold D. rewrite (of_qp drop_fenced_blocks). fold T.
    replace (- (T - sumZ (wr_blocks q0) (take k P))) with (sumZ (wr_blocks q0) (take k P) - T) by lia. rewrite (of_ring slot_shift).
    destruct (Hnew _ _ Hwr) as [-> ->]. split; [done|].
    rewrite (flight_head w _ _ Hfl). f_equal. lia.
Qed.

(** ** Completion and acceptance *)

(** The poller moves the tail past the [k] oldest requests. *)
Lemma complete_step l s k :
  fifo l s -> slots_hold l (sq (ss_qp s)) -> (k <= length l)%nat ->
  fifo (drop k l) (set_tail_by k s) /\ slots_hold (drop k l) (sq (ss_qp (set_tail_by k s))).
Proof.
  intros Hf Hs Hk. set (c := mk_call [] (fun _ => (u32 (wq_tail (sq (ss_qp s)) + 0), u32 (wq_tail (sq (ss_qp s)) + 0))) k).
  assert (Hc : call_ok ops q0 c l (wq_tail (sq (ss_qp s)))).
  { split; [done|split; [done|]]. intros n. exists 0, 0. split_and!; simpl; done || lia. }
  assert (E : send_step ctx c s l = (Ok, set_tail_by k s, drop k l)).
  { unfold send_step, post_send_locked. simpl. rewrite app_nil_r. destruct s as [q ? ? ?]. unfold post_send_db. simpl. by destruct q. }
  split; [by eapply (of_ring send_step_fifo)|by eapply send_step_slots].
Qed.

(** How many requests of a list a queue with [out] outstanding ones takes *)
Definition accepts (out : Z) (wr : ibv_send_wr) : bool := (out <? max_post (sq q0)) && (num_sge wr <=? max_gs (sq q0)).
Fixpoint accepted (out : Z) (wrs : list ibv_send_wr) : nat :=
  match wrs with
  | [] => 0
  | wr :: wrs => if accepts out wr then S (accepted (out + 1) wrs) else 0
  end.

Lemma guards_accept q n t wr out :
  sq_moved q0 q -> good_wr ops q0 wr -> in_flight (sq q) t = out - n -> 0 <= n -> out < 2 ^ 32 ->
  post_send_guards q n (t, t) wr = if accepts out wr then Ok else Err ENOMEM.
Proof.
  intros Hm [Hs _] Hfl Hn Hb. unfold post_send_guards, accepts.
  assert (Hop : (opcode wr <? 0) || (Z.of_nat (length mlx5_ib_opcode) <=? opcode wr) = false).
  { pose proof (sw_op _ _ Hs) as (_ & (x & Hin & ->%Z.eqb_eq)%existsb_exists & _)%transport_wr_cases. unfold transport_ops in Hin.
    destruct_ifs_in Hin; simpl in Hin; repeat (destruct Hin as [<-|Hin]; [done|]); done. }
  rewrite Hop. cbn [fst snd]. unfold mlx5_wq_overflow. unfold in_flight in Hfl. rewrite Hfl, u32_small by (pose proof (u32_range (wq_head (sq q) - t)); lia).
  rewrite (mv_sq _ _ Hm). cbn [max_post max_gs]. replace (out - n + n) with out by lia.
  destruct (Z.ltb_spec out (max_post (sq q0))), (Z.geb_spec out (max_post (sq q0))); try lia; [|done].
  destruct (Z.ltb_spec (max_gs (sq q0)) (num_sge wr)), (Z.leb_spec (num_sge wr) (max_gs (sq q0))); done || lia.
Qed.

Lemma loop_accepts q t wrs : forall nreq ps o n ps',
  sq_moved q0 q -> sq_step q (ps_qp ps) -> sq_wf (ps_qp ps) -> ps_scp ps = scp0 -> Forall (good_wr ops q0) wrs ->
  0 <= nreq -> let out := in_flight (sq q) t + nreq in out <= max_post (sq q0) ->
  post_send_loop ctx (fun _ => (t, t)) nreq wrs ps = (o, n, ps') ->
  n = nreq + Z.of_nat (accepted out wrs) /\ o = if decide (accepted out wrs = length wrs) then Ok else Err ENOMEM.
Proof.
  induction wrs as [|wr wrs IH]; intros nreq ps o n ps' Hm Hst Hw Hscp Hl Hn out Hout E; cbn [post_send_loop] in E.
  { injection E as <- <- _. simpl. split; [lia|done]. }
  apply Forall_cons in Hl as [Hwr Hl]. pose proof (of_ring ring_share) as [_ Hmax].
  assert (Hm1 : sq_moved q0 (ps_qp ps)) by (etrans; [exact Hm|by apply step_moved]).
  assert (Hfl : in_flight (sq (ps_qp ps)) t = out - nreq) by (rewrite (step_sq _ _ Hst); unfold out, in_flight; simpl; lia).
  pose proof (guards_accept (ps_qp ps) nreq t wr out Hm1 Hwr Hfl Hn ltac:(lia)) as Hg. cbn [accepted].
  destruct (accepts out wr) eqn:Ea.
  - pose proof (proj1 (moved_scatter _ _ _ Hm1) (proj1 Hwr)) as Hsw.
    assert (Hnum : qp_num (ps_qp ps) = qp_num q0) by (by rewrite (mv_qp _ _ Hm1)).
    destruct (post_send_wr_element ctx nreq (t, t) wr ps Hw ltac:(by rewrite Hnum) Hsw Hscp Hg) as (s1 & E1 & _ & _ & Hscp1 & _).
    rewrite E1 in E. destruct (post_send_wr_ok _ _ _ _ _ _ Hw E1) as (_ & _ & _ & _ & _ & Hw1 & _).
    pose proof (post_send_wr_step _ _ _ _ _ _ E1) as Hst1.
    assert (Hroom : out < max_post (sq q0)) by (unfold accepts in Ea; apply andb_prop in Ea as [Ea _]; lia).
    destruct (IH (nreq + 1) s1 o n ps' Hm (transitivity Hst Hst1) Hw1 Hscp1 Hl ltac:(lia) ltac:(lia) E) as [-> ->].
    replace (in_flight (sq q) t + (nreq + 1)) with (out + 1) by (unfold out; lia). split; [lia|].
    clear -E1. simpl. do 2 case_decide; done || (exfalso; lia).
  - unfold post_send_wr in E. rewrite Hg in E. injection E as <- <- _. split; [lia|done].
Qed.

(** Which requests a call takes, and what it answers *)
Lemma post_accepts l s wrs o n s' :
  fifo l s -> Forall (good_wr ops q0) wrs -> let t := wq_tail (sq (ss_qp s)) in
  post_send_locked ctx (fun _ => (t, t)) wrs s = (o, n, s') ->
  let k := accepted (Z.of_nat (length l)) wrs in
  n = Z.of_nat k /\ o = if decide (k = length wrs) then Ok else Err ENOMEM.
Proof.
  intros [Hm Hw Hfl _ Hroom _ _] Hl t. unfold post_send_locked. fold (loop_start s).
  destruct (post_send_loop ctx _ 0 wrs (loop_start s)) as [[o1 n1] ps] eqn:E. intros [= -> -> _].
  pose proof (loop_accepts (ss_qp s) t wrs 0 (loop_start s) o n ps Hm ltac:(reflexivity) Hw eq_refl Hl ltac:(lia)
    ltac:(unfold t; lia) E) as H. cbv zeta in H. unfold t in H. rewrite Hfl, Z.add_0_r in H. exact H.
Qed.
End Slots.

(** * A completion of a request *)

(** The bytes of an entry as a memory of their own *)
Definition bytes (e : list Z) : mem := fun a => aget e a.

Lemma load_be_shift n : forall p q m, load_be n (p + q) m = load_be n q (fun a => m (p + a)).
Proof.
  induction n as [|n IH]; intros p q m; [done|]. unfold load_be; fold load_be. f_equal.
  by rewrite <- Z.add_assoc, IH.
Qed.

Section Fields.
#[local] Set Default Proof Using "Type*".
Context (cq : mlx5_cq) (Hw : cq_wf cq) (p : Z) (e : list Z) (m : mem) (Hv : entry_view cq p m = e).

Lemma view_byte i : 0 <= i < cqe_sz cq - 1 -> m (p + i) = bytes e i.
Proof.
  intros Hi. symmetry. apply aget_lookup. rewrite <- Hv. unfold entry_view, read_bytes.
  rewrite lookup_app_l by (rewrite length_fmap, length_seq; lia). rewrite list_lookup_fmap, lookup_seq_lt by lia. simpl.
  do 2 f_equal. lia.
Qed.

Lemma view_last : Z.land (m (p + cqe_sz cq - 1)) 0xfe = bytes e (cqe_sz cq - 1).
Proof.
  assert (Hsz : 64 <= cqe_sz cq) by (destruct (cw_sz _ Hw); lia). symmetry. apply aget_lookup. rewrite <- Hv. unfold entry_view, read_bytes.
  rewrite lookup_app_r by (rewrite length_fmap, length_seq; lia). rewrite length_fmap, length_seq.
  by replace (_ - _)%nat with 0%nat by lia.
Qed.

(** Fields of the description other than the last byte *)
Lemma view_load n off : 0 <= off -> off + Z.of_nat n <= 63 ->
  load_be n (cqe64_of cq p + off) m = load_be n (cqe_sz cq - 64 + off) (bytes e).
Proof.
  intros H0 Hn. assert (E : cqe64_of cq p = p + (cqe_sz cq - 64)) by (unfold cqe64_of; destruct (cw_sz _ Hw) as [-> | ->]; simpl; lia).
  rewrite E, <- Z.add_assoc, load_be_shift. apply load_be_ext. intros a Ha. apply view_byte.
  assert (64 <= cqe_sz cq) by (destruct (cw_sz _ Hw); lia). lia.
Qed.

Lemma view_desc_byte off : 0 <= off < 63 -> m (cqe64_of cq p + off) = bytes e (cqe_sz cq - 64 + off).
Proof.
  intros Ho. assert (E : cqe64_of cq p = p + (cqe_sz cq - 64)) by (unfold cqe64_of; destruct (cw_sz _ Hw) as [-> | ->]; simpl; lia).
  rewrite E, <- Z.add_assoc. apply view_byte. assert (64 <= cqe_sz cq) by (destruct (cw_sz _ Hw); lia). lia.
Qed.

(** The opcode and the flags of the last byte do not depend on the owner bit. *)
Lemma view_own :
  0 <= op_own (cqe64_of cq p) m < 256 ->
  mlx5dv_get_cqe_opcode (cqe64_of cq p) m = mlx5dv_get_cqe_opcode (cqe_sz cq - 64) (bytes e) /\
  (forall f, Z.land f 0xfe = f -> has_flag (op_own (cqe64_of cq p) m) f = has_flag (op_own (cqe_sz cq - 64) (bytes e)) f).
Proof.
  intros Hb. assert (E : op_own (cqe_sz cq - 64) (bytes e) = Z.land (op_own (cqe64_of cq p) m) 0xfe).
  { unfold op_own. replace (cqe_sz cq - 64 + 63) with (cqe_sz cq - 1) by lia. rewrite <- view_last. do 2 f_equal.
    unfold cqe64_of. destruct (cw_sz _ Hw) as [-> | ->]; simpl; lia. }
  unfold mlx5dv_get_cqe_opcode. rewrite E. set (x := op_own _ m) in *. split.
  - rewrite Z.shiftr_land. change (Z.shiftr 0xfe 4) with (Z.ones 4). rewrite Z.land_ones by lia. symmetry. apply Z.mod_small.
    rewrite Z.shiftr_div_pow2 by lia. div_lia.
  - intros f Hf. unfold has_flag. rewrite <- Z.land_assoc, (Z.land_comm 0xfe f), Hf. done.
Qed.
End Fields.

(** The entry reports, with success or an error, the request of resource [n] whose element
    has counter [ctr]; a successful one brings no data along. *)
Record completes (cq : mlx5_cq) (cqe_ver : bool) (n ctr : Z) (e : list Z) : Prop := {
  cp_ok : entry_ok cq e;
  cp_op : mlx5dv_get_cqe_opcode (cqe_sz cq - 64) (bytes e) = MLX5_CQE_REQ \/
          mlx5dv_get_cqe_opcode (cqe_sz cq - 64) (bytes e) = MLX5_CQE_REQ_ERR;
  cp_plain : has_flag (op_own (cqe_sz cq - 64) (bytes e)) MLX5_INLINE_SCATTER_32 = false /\
             has_flag (op_own (cqe_sz cq - 64) (bytes e)) MLX5_INLINE_SCATTER_64 = false;
  cp_rsn : (if cqe_ver then cqe_uidx else cqe_qpn) (cqe_sz cq - 64) (bytes e) = n;
  cp_ctr : wqe_counter (cqe_sz cq - 64) (bytes e) = ctr
}.

(** The status it reports *)
Definition entry_status (cq : mlx5_cq) (e : list Z) : Z :=
  if mlx5dv_get_cqe_opcode (cqe_sz cq - 64) (bytes e) =? MLX5_CQE_REQ then IBV_WC_SUCCESS
  else mlx5_handle_error_cqe (cqe_sz cq - 64) (bytes e).

(** The resource of number [n] is found at [p], by the table or because it was found last. *)
Lemma get_req_found n (cqe_ver : bool) s p r :
  p_objs s !! p = Some r -> rsn r = n -> p <> 0 ->
  (if cqe_ver then mlx5_find_uidx (p_tabs s) n else mlx5_find_qp (p_tabs s) n) = p -> p_rsc s = 0 \/ p_rsc s = p ->
  get_req_context n cqe_ver s = Some (p, set_p_rsc p s).
Proof.
  intros Hr Hn Hp Hfind Hc. unfold get_req_context, rsc_stale, gets, mbind, P_bind, mret, P_ret, modify, get_rsc.
  destruct Hc as [Hc|Hc]; rewrite Hc.
  - simpl. by rewrite Hfind.
  - rewrite (proj2 (Z.eqb_neq _ _) Hp), Hr. simpl. rewrite Hn, Z.eqb_refl. simpl. rewrite Hc. do 2 f_equal. destruct s. simpl in *. by subst.
Qed.

(** The QP after the completion of the element in slot [idx] *)
Definition sq_done (idx : Z) (qp : mlx5_qp) : mlx5_qp :=
  set_sq (set_wq_tail (u32 (aget (wqe_head (sq qp)) idx + 1)) (sq qp)) qp.

(** The state after the poll: the result, the QP, the resource found; nothing else *)
Definition req_polled (p n srq : Z) (qp : mlx5_qp) (wc : ibv_wc) (s : pst) : pst :=
  set_p_objs (<[p := mk_rsc MLX5_RSC_TYPE_QP n (OQp qp srq)]> (p_objs s)) (set_p_wc wc (set_p_rsc p s)).

Lemma req_eager_plain ctx p wq ctr idx c cqe s :
  has_flag (op_own c (p_mem s)) MLX5_INLINE_SCATTER_32 = false -> has_flag (op_own c (p_mem s)) MLX5_INLINE_SCATTER_64 = false ->
  req_eager ctx p wq ctr idx c cqe s =
  Some (tt, set_p_wc (set_wc_status 0 (set_wc_wr_id (aget (wrid wq) idx) (handle_good_req c (p_mem s) wq idx (p_wc s)))) s).
Proof.
  intros H32 H64. unfold req_eager, req_scatter, inline_scatter, on_wc, gets, modify, mbind, P_bind, mret, P_ret.
  cbn [p_mem p_wc set_p_wc]. by rewrite H32, H64.
Qed.

Lemma sq_completed_at p idx s t n qp srq :
  p_objs s !! p = Some (mk_rsc t n (OQp qp srq)) ->
  sq_completed p idx s = Some (tt, set_p_objs (<[p := mk_rsc t n (OQp (sq_done idx qp) srq)]> (p_objs s)) s).
Proof.
  intros H. unfold sq_completed, get_qp, put_qp, put_obj, get_rsc, modify, mbind, P_bind, mret, P_ret. rewrite H. cbn. rewrite H. cbn. rewrite H. done.
Qed.

(** Parsing the entry at [c] *)
Lemma parse_request ctx (cqe_ver : bool) s p n srq qp c cqe fuel :
  let m := p_mem s in
  p_objs s !! p = Some (mk_rsc MLX5_RSC_TYPE_QP n (OQp qp srq)) -> p <> 0 ->
  (if cqe_ver then mlx5_find_uidx (p_tabs s) n else mlx5_find_qp (p_tabs s) n) = p -> p_rsc s = 0 \/ p_rsc s = p ->
  (if cqe_ver then cqe_uidx c m else cqe_qpn c m) = n ->
  has_flag (op_own c m) MLX5_INLINE_SCATTER_32 = false -> has_flag (op_own c m) MLX5_INLINE_SCATTER_64 = false ->
  mlx5dv_get_cqe_opcode c m = MLX5_CQE_REQ \/ mlx5dv_get_cqe_opcode c m = MLX5_CQE_REQ_ERR ->
  let idx := Z.land (wqe_counter c m) (wqe_cnt (sq qp) - 1) in
  exists wc, mlx5_parse_cqe ctx (S fuel) false false cqe_ver c cqe s = Some (CQ_OK, req_polled p n srq (sq_done idx qp) wc s) /\
    wc_wr_id wc = aget (wrid (sq qp)) idx /\
    wc_status wc = (if mlx5dv_get_cqe_opcode c m =? MLX5_CQE_REQ then IBV_WC_SUCCESS else mlx5_handle_error_cqe c m).
Proof.
  intros m Hr Hp Hfind Hc Hn H32 H64 Hop idx. cbn [mlx5_parse_cqe]. unfold parse_once, parse_begin.
  unfold mbind, P_bind, mret, P_ret, gets, on_wc, modify. cbv beta iota. cbn [p_mem set_p_wc p_wc]. fold m.
  destruct Hop as [E|E]; rewrite E.
  - change (MLX5_CQE_REQ =? MLX5_CQE_REQ) with true. cbv iota.
    unfold parse_req, mbind, P_bind, mret, P_ret, gets. cbn [p_mem set_p_wc]. fold m. rewrite Hn.
    erewrite get_req_found; [|cbn [p_objs set_p_wc]; exact Hr|done|done|cbn [p_tabs set_p_wc]; exact Hfind|done].
    rewrite (proj2 (Z.eqb_neq _ _) Hp). unfold get_qp, get_rsc, mbind, P_bind. cbn [p_objs set_p_wc set_p_rsc].
    rewrite Hr. cbn [option_bind mbind rsc_obj_of mret P_ret]. fold idx. rewrite req_eager_plain by done.
    erewrite sq_completed_at by (cbn [p_objs set_p_wc set_p_rsc]; exact Hr). eexists. split; [reflexivity|]. done.
  - change (MLX5_CQE_REQ_ERR =? MLX5_CQE_REQ) with false.
    change (has_opcode [MLX5_CQE_RESP_WR_IMM; _; _; _] MLX5_CQE_REQ_ERR) with false.
    change (MLX5_CQE_REQ_ERR =? MLX5_CQE_NO_PACKET) with false. change (MLX5_CQE_REQ_ERR =? MLX5_CQE_SIG_ERR) with false.
    change (MLX5_CQE_REQ_ERR =? MLX5_CQE_RESIZE_CQ) with false. change (has_opcode _ MLX5_CQE_REQ_ERR) with true.
    change (MLX5_CQE_REQ_ERR =? MLX5_CQE_REQ_ERR) with true. cbv beta iota. rewrite andb_false_r.
    unfold parse_req_err, mbind, P_bind, mret, P_ret, gets. cbn [p_mem set_p_wc]. fold m. rewrite Hn.
    erewrite get_req_found; [|cbn [p_objs set_p_wc]; exact Hr|done|done|cbn [p_tabs set_p_wc]; exact Hfind|done].
    rewrite (proj2 (Z.eqb_neq _ _) Hp). unfold get_qp, get_rsc, mbind, P_bind. cbn [p_objs set_p_wc set_p_rsc].
    rewrite Hr. cbn [option_bind mbind rsc_obj_of mret P_ret]. fold idx. unfold put_wr_id, on_wc, modify.
    erewrite sq_completed_at by (cbn [p_objs set_p_wc set_p_rsc]; exact Hr). eexists. split; [reflexivity|]. done.
Qed.

(** Taking the oldest entry of the ring when it completes a request *)
Lemma poll_request ctx (cqe_ver : bool) s prod e es p n srq qp ctr :
  ring_holds s prod (e :: es) -> completes (p_cq s) cqe_ver n ctr e ->
  (forall a, cq_buf (p_cq s) <= a < cq_buf (p_cq s) + nent (p_cq s) * cqe_sz (p_cq s) -> 0 <= p_mem s a < 256) ->
  p_objs s !! p = Some (mk_rsc MLX5_RSC_TYPE_QP n (OQp qp srq)) -> p <> 0 ->
  (if cqe_ver then mlx5_find_uidx (p_tabs s) n else mlx5_find_qp (p_tabs s) n) = p -> p_rsc s = 0 \/ p_rsc s = p ->
  let idx := Z.land ctr (wqe_cnt (sq qp) - 1) in
  let s1 := set_p_cq (set_cons_index (u32 (cons_index (p_cq s) + 1)) (p_cq s)) s in
  exists wc, mlx5_poll_one ctx false cqe_ver s = Some (CQ_OK, req_polled p n srq (sq_done idx qp) wc s1) /\
    ring_holds s1 prod es /\ wc_wr_id wc = aget (wrid (sq qp)) idx /\ wc_status wc = entry_status (p_cq s) e.
Proof.
  intros Hh [He Hop [H32 H64] Hn Hctr] Hb Hr Hp Hfind Hc idx s1. pose proof (rh_wf _ _ _ Hh) as Hw.
  destruct (get_next_cqe_queue s prod (e :: es) Hh) as (c & cqe & s' & Hg & Hv & Ec & -> & Hh' & j & Ej).
  assert (Hown : 0 <= op_own c (p_mem s) < 256).
  { apply Hb. pose proof (entry_in_ring (p_cq s) Hw j). pose proof (sz_ge _ Hw). rewrite Ec, Ej, (cqe64_desc _ Hw), desc_last. lia. }
  rewrite Ec in Hown. destruct (view_own _ Hw _ _ _ Hv Hown) as [Eo Ef]. rewrite <- Ec in *.
  assert (El : forall k off, 0 <= off -> off + Z.of_nat k <= 63 ->
    load_be k (c + off) (p_mem s) = load_be k (cqe_sz (p_cq s) - 64 + off) (bytes e)) by (rewrite Ec; apply (view_load _ Hw _ _ _ Hv)).
  assert (Es : mlx5_handle_error_cqe c (p_mem s) = mlx5_handle_error_cqe (cqe_sz (p_cq s) - 64) (bytes e)).
  { unfold mlx5_handle_error_cqe. unfold syndrome. rewrite Ec, (view_desc_byte _ Hw _ _ _ Hv) by lia. done. }
  destruct (parse_request ctx cqe_ver s1 p n srq qp c cqe (Z.to_nat (cqe_mask (p_cq s1) + 1)) Hr Hp Hfind Hc) as (wc & E & Hid & Hst).
  - rewrite <- Hn. unfold cqe_uidx, cqe_qpn, srqn_uidx, sop_drop_qpn. destruct cqe_ver; (rewrite El by lia; done).
  - rewrite Ef by done. exact H32.
  - rewrite Ef by done. exact H64.
  - cbn [p_mem s1 set_p_cq]. by rewrite Eo.
  - assert (Ei : Z.land (wqe_counter c (p_mem s1)) (wqe_cnt (sq qp) - 1) = idx).
    { unfold idx. rewrite <- Hctr. unfold wqe_counter. cbn [p_mem s1 set_p_cq]. by rewrite El by lia. }
    rewrite Ei in *. exists wc. split; [|split_and!; [done|done|]].
    + unfold mlx5_poll_one, mbind, P_bind. rewrite Hg. exact E.
    + rewrite Hst. unfold entry_status. cbn [p_mem s1 set_p_cq]. by rewrite Eo, Es.
Qed.

(** * The system *)

(** The application's operations and the device's: post a list, complete request [j] of the
    outstanding ones with entry [e], poll up to [k] completions *)
Inductive sys_op : Type := Post (wrs : list ibv_send_wr) | Complete (j : nat) (e : list Z) | Poll (k : nat).
(** What the application sees *)
Inductive sys_obs : Type := Posted (o : outcome) | Polled (l : list (Z * Z)).

(** ** Specification *)

Section Spec.
Context (q0 : mlx5_qp) (cq0 : mlx5_cq).

(** Polling a queue of outstanding requests and the completions under way, each the index of
    a request and a status: a completion reports its request and retires it with all
    before it. *)
Fixpoint spec_poll (k : nat) (out : list ibv_send_wr) (comps : list (nat * Z)) : list (Z * Z) * list ibv_send_wr * list (nat * Z) :=
  match k, comps with
  | S k, (j, st) :: comps =>
    let '(r, out', comps') := spec_poll k (drop (S j) out) (prod_map (fun i => i - S j)%nat id <$> comps) in
    ((from_option wr_id 0 (out !! j), st) :: r, out', comps')
  | _, _ => ([], out, comps)
  end.

Fixpoint spec_run (os : list sys_op) (out : list ibv_send_wr) (comps : list (nat * Z)) : list sys_obs :=
  match os with
  | [] => []
  | Post wrs :: os =>
    let k := accepted q0 (Z.of_nat (length out)) wrs in
    Posted (if decide (k = length wrs) then Ok else Err ENOMEM) :: spec_run os (out ++ take k wrs) comps
  | Complete j e :: os => spec_run os out (comps ++ [(j, entry_status cq0 e)])
  | Poll k :: os => let '(r, out, comps) := spec_poll k out comps in Polled r :: spec_run os out comps
  end.
End Spec.

(** ** Implementation *)

Section System.
#[local] Set Default Proof Using "Type*".
Context (ctx : mlx5_context) (cfg : stall_cfg) (now : Z) (cqe_ver : bool) (p : Z).

(** The state of the driver and the BlueFlame register of the QP at [p] *)
Record sys : Type := mk_sys { y_poll : pst; y_bf : mlx5_bf }.

Definition sys_post (wrs : list ibv_send_wr) (y : sys) : option (outcome * sys) :=
  let s := y_poll y in
  r ← p_objs s !! p;
  match rsc_obj_of r with
  | OQp q srq =>
    let '(o, _, s') := post_send_locked ctx (fun _ => (wq_tail (sq q), wq_tail (sq q))) wrs (mk_ss q (y_bf y) (p_mem s) (p_trace s)) in
    Some (o, mk_sys (set_p_trace (ss_trace s') (set_p_mem (ss_mem s')
      (set_p_objs (<[p := mk_rsc (rsc_type r) (rsn r) (OQp (ss_qp s') srq)]> (p_objs s)) s))) (ss_bf s'))
  | _ => None
  end.

Definition sys_write (prod : Z) (e : list Z) (y : sys) : sys :=
  mk_sys (set_p_mem (device_write (p_cq (y_poll y)) prod e (p_mem (y_poll y))) (y_poll y)) (y_bf y).

Definition sys_poll (k : nat) (y : sys) : option (list (Z * Z) * sys) :=
  '((r, wcs), s) ← poll_cq ctx false cfg now cqe_ver (replicate k (p_wc (y_poll y))) (y_poll y);
  Some ((fun wc => (wc_wr_id wc, wc_status wc)) <$> take (Z.to_nat r) wcs, mk_sys s (y_bf y)).

(** [prod] counts the entries the device has written; [None]: a fault *)
Fixpoint sys_run (os : list sys_op) (prod : Z) (y : sys) : option (list sys_obs) :=
  match os with
  | [] => Some []
  | Post wrs :: os => '(o, y) ← sys_post wrs y; cons (Posted o) <$> sys_run os prod y
  | Complete j e :: os => sys_run os (prod + 1) (sys_write prod e y)
  | Poll k :: os => '(r, y) ← sys_poll k y; cons (Polled r) <$> sys_run os prod y
  end.

(** ** Runs of the device *)

Context (ops : Z) (q0 : mlx5_qp) (cq0 : mlx5_cq) (n : Z).

(** Completions name requests in order, from [lo] on and before [hi]. *)
Fixpoint in_order (lo hi : nat) (comps : list (nat * Z)) : Prop :=
  match comps with
  | [] => True
  | (j, _) :: comps => (lo <= j < hi)%nat /\ in_order (S j) hi comps
  end.

(** The device completes requests in order, each at most once, into a ring with room, and
    quotes the low 16 bits of the counter of the element; [cp] is the producer index of the
    send queue. *)
Fixpoint run_ok (os : list sys_op) (cp : Z) (out : list ibv_send_wr) (comps : list (nat * Z)) : Prop :=
  match os with
  | [] => True
  | Post wrs :: os =>
    let k := accepted q0 (Z.of_nat (length out)) wrs in
    Forall (good_wr ops q0) wrs /\ run_ok os (u32 (cp + sumZ (wr_blocks q0) (take k wrs))) (out ++ take k wrs) comps
  | Complete j e :: os =>
    let c := (j, entry_status cq0 e) in
    in_order 0 (length out) (comps ++ [c]) /\ Z.of_nat (length comps) < nent cq0 /\
    completes cq0 cqe_ver n (u16 (cp - sumZ (wr_blocks q0) (drop j out))) e /\ run_ok os cp out (comps ++ [c])
  | Poll k :: os => let '(_, out, comps) := spec_poll k out comps in run_ok os cp out comps
  end.
End System.

(** ** The invariant *)

Section Refine.
#[local] Set Default Proof Using "Type*".
Context (ctx : mlx5_context) (dci : bool) (ops mops W : Z) (q0 : mlx5_qp).
Context (Hq : 0 <= qp_num q0 < 2 ^ 24) (Hlim : send_limits ctx q0) (Hz : sq_sized dci ops mops W q0) (Hw0 : sq_wf q0).
Context (Hdb : snd_dbr q0 + 4 <= sq_start q0 \/ qend (sq q0) <= snd_dbr q0) (H16 : wqe_cnt (sq q0) <= 2 ^ 16).
Context (cfg : stall_cfg) (now : Z) (cqe_ver : bool) (p n srq : Z) (cq0 : mlx5_cq) (Hp : p <> 0).
#[local] Abbreviation cq_end := (cq_buf cq0 + nent cq0 * cqe_sz cq0).
(** The ring of completions, the send ring and the doorbell records do not overlap. *)
Context (Hrings : cq_end <= sq_start q0 \/ qend (sq q0) <= cq_buf cq0).
Context (Hsdb : snd_dbr q0 + 4 <= cq_buf cq0 \/ cq_end <= snd_dbr q0).
Context (Hci1 : cq_dbrec cq0 + 4 <= cq_buf cq0 \/ cq_end <= cq_dbrec cq0).
Context (Hci2 : cq_dbrec cq0 + 4 <= sq_start q0 \/ qend (sq q0) <= cq_dbrec cq0).
#[local] Abbreviation of_qp lem := (lem ctx dci ops mops W q0 Hq Hlim Hz) (only parsing).
#[local] Abbreviation of_slots lem := (lem ctx dci ops mops W q0 Hq Hlim Hz Hw0 Hdb) (only parsing).

(** The queue may change but for its geometry. *)
Definition same_ring (cq : mlx5_cq) : Prop :=
  cq_buf cq = cq_buf cq0 /\ cqe_mask cq = cqe_mask cq0 /\ cqe_sz cq = cqe_sz cq0 /\ cq_dbrec cq = cq_dbrec cq0.

(** What the entries report of the outstanding requests *)
Definition reports (cp : Z) (l : list entry) (e : list Z) (c : nat * Z) : Prop :=
  completes cq0 cqe_ver n (u16 (cp - out_blocks q0 (drop c.1 l))) e /\ entry_status cq0 e = c.2.

(** The QP [q] holds the outstanding requests [l], the ring of completions the entries
    [es], which report [comps]. *)
Record live (s : pst) (prod cp : Z) (l : list entry) (q : mlx5_qp) (es : list (list Z)) (comps : list (nat * Z)) : Prop := {
  lv_ring : same_ring (p_cq s);
  lv_obj : p_objs s !! p = Some (mk_rsc MLX5_RSC_TYPE_QP n (OQp q srq));
  lv_find : (if cqe_ver then mlx5_find_uidx (p_tabs s) n else mlx5_find_qp (p_tabs s) n) = p;
  lv_fifo : forall bf tr, fifo ops W q0 l (mk_ss q bf (p_mem s) tr);
  lv_slots : slots_hold q0 l (sq q);
  lv_cp : cur_post (sq q) = cp;
  lv_holds : ring_holds s prod es;
  lv_bytes : forall a, cq_buf cq0 <= a < cq_end -> 0 <= p_mem s a < 256;
  lv_comps : Forall2 (reports cp l) es comps;
  lv_order : in_order 0 (length l) comps
}.

Lemma completes_sz cq v k c e : cqe_sz cq = cqe_sz cq0 -> completes cq0 v k c e -> completes cq v k c e.
Proof. intros E [(H1 & H2 & H3) ? ? ? ?]. split; rewrite ?E; try done. split; [by rewrite E|done]. Qed.

(** *** What does not matter *)

Lemma fifo_mem l q bf tr m m' :
  fifo ops W q0 l (mk_ss q bf m tr) -> (forall a, sq_start q0 <= a < qend (sq q0) -> m' a = m a) -> fifo ops W q0 l (mk_ss q bf m' tr).
Proof.
  intros [? ? ? ? ? Hg Hh] E. split; try done. intros i e Hi. specialize (Hh i e Hi). cbv zeta in *.
  eapply holds_outside; [exact Hw0|exact Hq|by apply (Forall_lookup_1 _ _ _ _ Hg Hi)| |exact Hh].
  intros a j _ Ha. apply E. by eapply (of_qp block_in_ring Hdb).
Qed.

Lemma ring_holds_cq s prod q cq :
  ring_holds s prod q -> cq_buf cq = cq_buf (p_cq s) -> cqe_mask cq = cqe_mask (p_cq s) -> cqe_sz cq = cqe_sz (p_cq s) ->
  cons_index cq = cons_index (p_cq s) -> ring_holds (set_p_cq cq s) prod q.
Proof.
  intros [[Hc Hs] [H0 H1 H2] H3] E1 E2 E3 E4. destruct s as [c ? ? ? ? ? ? ? ?]. destruct c, cq. simpl in *. subst. split; simpl; [by split|by split|exact H3].
Qed.

(** The parts of the state a poll or a post changes besides *)
Lemma live_with s s' prod cp l q es comps :
  live s prod cp l q es comps -> p_objs s' = p_objs s -> p_tabs s' = p_tabs s -> same_ring (p_cq s') ->
  cons_index (p_cq s') = cons_index (p_cq s) ->
  (forall a, cq_buf cq0 <= a < cq_end \/ sq_start q0 <= a < qend (sq q0) -> p_mem s' a = p_mem s a) ->
  live s' prod cp l q es comps.
Proof.
  intros [(E1 & E2 & E3 & E4) Ho Hf Hfi Hsl Hcp Hh Hb Hc Hord] Eo Et (F1 & F2 & F3 & F4) Ec Em. split; try done; rewrite ?Eo, ?Et; try done.
  - intros bf tr. eapply fifo_mem; [apply Hfi|]. intros a Ha. apply Em. by right.
  - apply (ring_holds_outside _ _ _ (p_mem s')) in Hh.
    2: { intros a Ha. apply Em. left. unfold nent in *. rewrite E1, E2, E3 in Ha. done. }
    apply (ring_holds_cq _ _ _ (p_cq s')) in Hh; cbn [p_cq set_p_mem] in *; [|congruence..].
    destruct Hh as [H1 H2 H3]. by split.
  - intros a Ha. rewrite Em by auto. by apply Hb.
Qed.

Lemma in_order_shift j : forall comps hi, in_order (S j) hi comps -> in_order 0 (hi - S j) (prod_map (fun i => i - S j)%nat id <$> comps).
Proof.
  assert (H : forall comps lo hi, (S j <= lo)%nat -> in_order lo hi comps -> in_order (lo - S j) (hi - S j) (prod_map (fun i => i - S j)%nat id <$> comps)).
  { induction comps as [|[i st] comps IH]; intros lo hi Hlo Ho; [done|]. destruct Ho as [Hi Ho]. rewrite fmap_cons. cbn [prod_map in_order fst snd id].
    split; [lia|]. replace (S (i - S j)) with (S i - S j)%nat by lia. apply IH; [lia|done]. }
  intros comps hi Ho. apply (H comps (S j) hi) in Ho; [|lia]. by rewrite Nat.sub_diag in Ho.
Qed.

Lemma in_order_lt comps lo hi i c : in_order lo hi comps -> comps !! i = Some c -> (lo <= c.1 < hi)%nat.
Proof.
  revert lo i. induction comps as [|[j st] comps IH]; intros lo i Ho Hi; [done|]. destruct Ho as [Hj Ho]. destruct i as [|i]; simpl in Hi.
  - by injection Hi as <-.
  - specialize (IH _ _ Ho Hi). simpl in *. lia.
Qed.

(** *** Polling *)

(** The counter in the completion leads to the slot. *)
Lemma slot_of_counter cp x : Z.land (u16 (cp - x)) (wqe_cnt (sq q0) - 1) = slot_at cp (wqe_cnt (sq q0)) (- x).
Proof.
  destruct (wf_cnt _ Hw0) as (k & Hk & E). rewrite E in *. rewrite land_pow2_pred by lia. unfold slot_at, u16.
  assert (Hk16 : k <= 16) by (apply (Z.pow_le_mono_r_iff 2); lia).
  replace (2 ^ 16) with (2 ^ k * 2 ^ (16 - k)) by (rewrite <- Z.pow_add_r by lia; f_equal; lia).
  assert (0 < 2 ^ k) by lia. assert (0 < 2 ^ (16 - k)) by lia.
  rewrite Z.rem_mul_r by lia. rewrite Z.mul_comm, Z.mod_add, Z.mod_mod by lia. f_equal. 
Qed.

Lemma reports_shift cp l j es comps hi :
  Forall2 (reports cp l) es comps -> in_order (S j) hi comps ->
  Forall2 (reports cp (drop (S j) l)) es (prod_map (fun i => i - S j)%nat id <$> comps).
Proof.
  assert (H : forall lo, (S j <= lo)%nat -> Forall2 (reports cp l) es comps -> in_order lo hi comps ->
    Forall2 (reports cp (drop (S j) l)) es (prod_map (fun i => i - S j)%nat id <$> comps)).
  { intros lo Hlo H. revert lo Hlo. induction H as [|e [i st] es comps [Hc Hs] H IH]; intros lo Hlo Ho; [constructor|].
    destruct Ho as [Hi Ho]. rewrite fmap_cons. constructor; [|apply (IH (S i)); [lia|done]].
    split; [|done]. cbn [prod_map fst snd] in *. rewrite drop_drop. by replace (S j + (i - S j))%nat with i by lia. }
  by apply H.
Qed.

Lemma live_poll s prod cp l q e es j st comps :
  live s prod cp l q (e :: es) ((j, st) :: comps) -> p_rsc s = 0 \/ p_rsc s = p ->
  exists s' q', mlx5_poll_one ctx false cqe_ver s = Some (CQ_OK, s') /\
    wc_wr_id (p_wc s') = from_option wr_id 0 ((snd <$> l) !! j) /\ wc_status (p_wc s') = st /\
    live s' prod cp (drop (S j) l) q' es (prod_map (fun i => i - S j)%nat id <$> comps) /\
    p_rsc s' = p /\ p_cq s' = set_cons_index (u32 (cons_index (p_cq s) + 1)) (p_cq s) /\ p_mem s' = p_mem s.
Proof.
  intros [(E1 & E2 & E3 & E4) Ho Hf Hfi Hsl Hcp Hh Hb Hc Hord] Hrsc. apply Forall2_cons in Hc as [[Hce Hst] Hc].
  destruct Hord as [Hj Hord]. cbn [fst snd] in *.
  destruct (poll_request ctx cqe_ver s prod e es p n srq q _ Hh ltac:(by apply completes_sz) ltac:(unfold nent; rewrite E1, E2, E3; exact Hb)
    Ho Hp Hf Hrsc) as (wc & E & Hh' & Hid & Hws).
  pose proof (Hfi (mk_bf 0 false 0 0 0) []) as Hfi0. pose proof Hfi0 as [Hm _ _ _ _ _ _]. cbn [ss_qp] in Hm.
  assert (Hcnt : wqe_cnt (sq q) = wqe_cnt (sq q0)) by (by rewrite (mv_sq _ _ Hm)). rewrite Hcnt, slot_of_counter in *.
  destruct (lookup_lt_is_Some_2 l j ltac:(lia)) as [x Hx]. destruct (Hsl j x Hx) as [Hwr Hhd]. cbv zeta in *.
  unfold req_slot in *. rewrite Hcp in *. set (idx := slot_at _ _ _) in *.
  assert (Eq : sq_done idx q = ss_qp (set_tail_by (S j) (mk_ss q (mk_bf 0 false 0 0 0) (p_mem s) []))).
  { unfold sq_done, set_tail_by. cbn [ss_qp]. rewrite Hhd, u32_add_l. do 3 f_equal. lia. }
  eexists _, (sq_done idx q). split; [exact E|]. cbn [p_wc req_polled set_p_objs set_p_wc].
  split; [by rewrite Hid, Hwr, list_lookup_fmap, Hx|]. split; [rewrite Hws; unfold entry_status in *; by rewrite E3|].
  split; [|done]. destruct (of_slots complete_step l _ (S j) Hfi0 Hsl ltac:(lia)) as [Hf' Hs']. rewrite <- Eq in Hs'.
  split; cbn [p_cq p_objs p_tabs p_mem req_polled set_p_objs set_p_wc set_p_rsc set_p_cq]; [by split_and!|by rewrite lookup_insert_eq|done| |done| | |done| |].
  - intros bf tr. destruct Hf' as [? ? ? ? ? ? ?]. rewrite <- Eq in *. by split.
  - done.
  - destruct Hh' as [? ? ?]. by split.
  - by eapply reports_shift.
  - rewrite length_drop. by apply in_order_shift.
Qed.

Lemma write_ext cq prod e m m' a : entry_at cq prod <= a < entry_at cq prod + cqe_sz cq -> device_write cq prod e m a = device_write cq prod e m' a.
Proof. intros Ha. unfold device_write. by rewrite (proj2 (Z.leb_le _ _)), (proj2 (Z.ltb_lt _ _)) by lia. Qed.

Lemma write_range cq prod e m a : entry_ok cq e -> 0 <= m a < 256 -> 0 <= device_write cq prod e m a < 256.
Proof.
  intros He Hm. destruct (decide (entry_at cq prod <= a < entry_at cq prod + cqe_sz cq)) as [Ha|Ha]; [|rewrite write_outside by lia; done].
  pose proof (byte_write cq prod e (fun _ => 0) He) as H. rewrite (write_ext cq prod e m (fun _ => 0) a Ha). apply H. by intros ?.
Qed.

(** What the application reads of a completion *)
#[local] Abbreviation seen := (fun wc => (wc_wr_id wc, wc_status wc)).

Lemma live_poll_loop wcs : forall s prod cp l q es comps np,
  live s prod cp l q es comps -> p_rsc s = 0 \/ p_rsc s = p ->
  let '(r, out', comps') := spec_poll (length wcs) (snd <$> l) comps in
  exists err wcs' s' l' q' es', poll_loop ctx false cqe_ver wcs np s = Some ((err, np + Z.of_nat (length r), wcs'), s') /\
    seen <$> take (length r) wcs' = r /\ out' = snd <$> l' /\ live s' prod cp l' q' es' comps' /\
    err <> CQ_POLL_ERR /\ p_mem s' = p_mem s /\ exists ci, p_cq s' = set_cons_index ci (p_cq s).
Proof.
  induction wcs as [|wc wcs IH]; intros s prod cp l q es comps np Hl Hrsc; cbn [spec_poll length poll_loop].
  { eexists _, _, _, l, q, es. cbn [length]. rewrite Z.add_0_r. split; [reflexivity|]. split_and!; try done. exists (cons_index (p_cq s)). by destruct (p_cq s). }
  assert (Hl1 : live (set_p_wc wc s) prod cp l q es comps) by (eapply live_with; try done; apply Hl).
  destruct comps as [|[j st] comps].
  - eexists CQ_EMPTY, _, (set_p_wc wc s), l, q, es. cbn [length]. rewrite Z.add_0_r. split; [|split_and!; try done].
    + unfold modify, mbind, P_bind. unfold mlx5_poll_one, mbind, P_bind.
      pose proof (lv_comps _ _ _ _ _ _ _ Hl1) as ->%Forall2_nil_inv_r. pose proof (get_next_cqe_queue _ _ _ (lv_holds _ _ _ _ _ _ _ Hl1)) as ->. reflexivity.
    + exists (cons_index (p_cq s)). cbn. by destruct (p_cq s).
  - destruct es as [|e es]; [by apply lv_comps, Forall2_nil_inv_l in Hl|].
    destruct (live_poll _ _ _ _ _ _ _ _ _ _ Hl1 ltac:(exact Hrsc)) as (s1 & q1 & E & Hid & Hst & Hl2 & Hr & Hcq & Hm).
    specialize (IH s1 prod cp (drop (S j) l) q1 es (prod_map (fun i => i - S j)%nat id <$> comps) (np + 1) Hl2 ltac:(by right)). rewrite fmap_drop in IH.
    destruct (spec_poll (length wcs) (drop (S j) (snd <$> l)) _) as [[r out'] comps'].
    destruct IH as (err & wcs' & s' & l' & q' & es' & E' & Hv & Ho & Hl3 & He & Hm' & ci & Hci).
    eexists err, (p_wc s1 :: wcs'), s', l', q', es'. cbn [length]. split.
    + unfold modify, mbind, P_bind, gets, mret, P_ret. rewrite E. cbn [negb CQ_OK]. change (negb (CQ_OK =? CQ_OK)) with false. cbv iota.
      cbn [mbind]. rewrite E'. do 4 f_equal. lia.
    + split_and!; try done.
      * rewrite firstn_cons, fmap_cons, Hv. f_equal. by rewrite Hid, Hst.
      * by rewrite Hm', Hm.
      * exists ci. rewrite Hci, Hcq. reflexivity.
Qed.

(** Changes of the queue that neither move its ring nor touch the lock *)
Record cq_like (c c' : mlx5_cq) : Prop := {
  cl_geo : cq_buf c' = cq_buf c /\ cqe_mask c' = cqe_mask c /\ cqe_sz c' = cqe_sz c /\ cq_dbrec c' = cq_dbrec c;
  cl_ci : cons_index c' = cons_index c;
  cl_lock : cq_locked c' = cq_locked c
}.

Definition touches_cq (a : P unit) : Prop := forall s, exists c, a s = Some (tt, set_p_cq c s) /\ cq_like (p_cq s) c.

Lemma touches_ret : touches_cq (mret tt).
Proof. intros s. exists (p_cq s). split; [by destruct s|by split]. Qed.

Lemma touches_on f : (forall c, cq_like c (f c)) -> touches_cq (on_cq f).
Proof. intros H s. exists (f (p_cq s)). by split. Qed.

Lemma touches_stall adaptive : touches_cq (stall_before adaptive).
Proof.
  unfold stall_before. destruct adaptive; [apply touches_ret|]. intros s. unfold gets, mbind, P_bind.
  destruct (stall_next_poll (p_cq s)); [by apply touches_on|apply touches_ret].
Qed.

Lemma live_sys_poll k y prod cp l q es comps :
  live (y_poll y) prod cp l q es comps -> cq_locked (p_cq (y_poll y)) = false ->
  let '(r, out', comps') := spec_poll k (snd <$> l) comps in
  exists y' l' q' es', sys_poll ctx cfg now cqe_ver k y = Some (r, y') /\ out' = snd <$> l' /\
    live (y_poll y') prod cp l' q' es' comps' /\ cq_locked (p_cq (y_poll y')) = false.
Proof.
  intros Hl Hlock. set (s := y_poll y) in *. set (wcs := replicate k (p_wc s)).
  set (pre := if stall_enable (p_cq s) then stall_before (stall_adaptive_enable (p_cq s)) else mret tt).
  assert (Hpre : touches_cq pre) by (unfold pre; destruct (stall_enable _); [apply touches_stall|apply touches_ret]).
  destruct (Hpre s) as (c1 & Epre & [(G1 & G2 & G3 & G4) Gc Gl]).
  set (s2 := set_p_srq 0 (set_p_rsc 0 (set_p_cq (set_cq_locked true c1) s))).
  assert (Hl2 : live s2 prod cp l q es comps).
  { pose proof (lv_ring _ _ _ _ _ _ _ Hl) as (? & ? & ? & ?). eapply live_with; [exact Hl|done..| | |done]; cbn; [|exact Gc]. split_and!; cbn; congruence. }
  pose proof (live_poll_loop wcs s2 prod cp l q es comps 0 Hl2 ltac:(by left)) as H. unfold wcs in H at 1. rewrite length_replicate in H.
  destruct (spec_poll k (snd <$> l) comps) as [[r out'] comps'].
  destruct H as (err & wcs' & s3 & l' & q' & es' & Eloop & Hv & Ho & Hl3 & He & Hm & ci & Hci). rewrite Z.add_0_l in Eloop.
  set (s4 := set_p_cq (set_cq_locked false (p_cq s3)) (set_p_srq (p_srq s) (set_p_rsc (p_rsc s) (set_p_mem (update_cons_index (p_cq s3) (p_mem s3)) s3)))).
  assert (Hpost : forall b : P unit, touches_cq b -> exists s5, b s4 = Some (tt, s5) /\ live s5 prod cp l' q' es' comps' /\ cq_locked (p_cq s5) = false).
  { intros b Hb. destruct (Hb s4) as (c5 & E5 & [(F1 & F2 & F3 & F4) Fc Fl]). eexists. split; [exact E5|]. split; [|cbn in *; congruence].
    pose proof (lv_ring _ _ _ _ _ _ _ Hl3) as (? & ? & ? & E4). eapply live_with; [exact Hl3|done..| | |].
    - cbn in *. split_and!; congruence.
    - cbn in *. congruence.
    - intros a Ha. cbn. unfold update_cons_index. apply store_be_outside. unfold MLX5_CQ_SET_CI. rewrite E4. simpl. lia. }
  unfold sys_poll, poll_cq. fold s wcs. unfold mbind at 1, option_bind. unfold mbind, P_bind, gets. cbv beta iota. fold pre. rewrite Epre.
  unfold lock_cq, unlock_cq, mbind, P_bind, gets. cbn [p_cq set_p_cq]. rewrite Gl, Hlock. unfold on_cq at 1, modify at 1 2 3 4. cbv beta iota.
  change (set_p_srq 0 _) with s2. rewrite Eloop. cbv beta iota. change (on_cq (set_cq_locked false) _) with (Some (tt, s4)). cbv beta iota.
  match goal with |- context [match ?b s4 with _ => _ end] => destruct (Hpost b) as (s5 & -> & Hl5 & Hlk) end.
  { repeat case_match; (apply touches_ret || by apply touches_on). }
  eexists (mk_sys s5 (y_bf y)), l', q', es'. split; [|done]. unfold mret, P_ret. rewrite (proj2 (Z.eqb_neq _ _) He), Nat2Z.id. by rewrite Hv.
Qed.

(** *** Posting *)

Lemma u16_shift a b T : u16 (u32 (a + T) - (b + T)) = u16 (a - b).
Proof.
  unfold u16, u32. change (2 ^ 32) with (2 ^ 16 * 2 ^ 16). rewrite Zminus_mod, Z.rem_mul_r by lia.
  rewrite Z.add_comm, Z.mul_comm, Z.add_comm, Z.mod_add, Z.mod_mod, <- Zminus_mod by lia. f_equal. lia.
Qed.

Lemma in_order_mono comps : forall lo hi hi', in_order lo hi comps -> (hi <= hi')%nat -> in_order lo hi' comps.
Proof. induction comps as [|[j st] comps IH]; intros lo hi hi' Ho Hle; [done|]. destruct Ho as [Hj Ho]. split; [lia|by eapply IH]. Qed.

Lemma reports_more cp l D es comps :
  Forall2 (reports cp l) es comps -> in_order 0 (length l) comps ->
  Forall2 (reports (u32 (cp + out_blocks q0 D)) (l ++ D)) es comps.
Proof.
  intros H. apply Forall2_same_length_lookup in H as [Hlen H]. intros Ho. apply Forall2_same_length_lookup. split; [done|].
  intros i e c He Hc. destruct (H i e c He Hc) as [Hr Hs]. pose proof (in_order_lt _ _ _ _ _ Ho Hc). split; [|done].
  rewrite drop_app_le, (of_qp out_blocks_app), u16_shift by lia. done.
Qed.

(** Posting leaves the tail alone. *)
Lemma post_tail l ss wrs tails o m s' :
  fifo ops W q0 l ss -> Forall (good_wr ops q0) wrs -> post_send_locked ctx tails wrs ss = (o, m, s') -> set_tail_by 0 s' = s'.
Proof.
  intros [Hm Hw _ Ht _ _ _] Hg E. destruct (of_qp moved_hyps _ Hm) as (Hq' & Hlim' & Hz' & Hgood).
  destruct (locked_posts ctx dci ops mops W (ss_qp ss) Hq' Hlim' Hz' _ _ _ _ _ _ eq_refl Hw (Hgood _ Hg) E) as (k & sizes & ps & -> & _ & Hps & ->).
  destruct (posts_counters _ _ _ _ _ _ _ Hps Hw) as (_ & Hw1 & _).
  pose proof (posts_step _ _ _ _ _ _ _ _ Hps ltac:(reflexivity)) as Hst.
  assert (Hr : 0 <= wq_tail (sq (ss_qp (post_send_db ctx (Z.of_nat k) (ps_inl ps) (ps_size ps) (ps_ctrl ps)
    (mk_ss (set_fm_cache (ps_next_fence ps) (ps_qp ps)) (ss_bf ss) (ps_mem ps) (ss_trace ss))))) < 2 ^ 32).
  { rewrite (of_qp db_qp) by (cbn; apply Hw1). cbn. rewrite (step_sq _ _ Hst). exact Ht. }
  set (s' := post_send_db _ _ _ _ _ _) in *. clearbody s'. destruct s' as [q ? ? ?]. unfold set_tail_by. cbn in *.
  rewrite Z.add_0_r, u32_small by done. f_equal. destruct q as [? ? ? ? ? ? ? ? ? ? ? ? ? ? ? ? ? ? ? ? ? ? w ? ? ? ? ? ? ? ?]. by destruct w.
Qed.

Lemma live_post wrs y prod cp l q es comps :
  live (y_poll y) prod cp l q es comps -> Forall (good_wr ops q0) wrs ->
  let k := accepted q0 (Z.of_nat (length l)) wrs in
  exists y' l' q', sys_post ctx p wrs y = Some (if decide (k = length wrs) then Ok else Err ENOMEM, y') /\
    snd <$> l' = (snd <$> l) ++ take k wrs /\
    live (y_poll y') prod (u32 (cp + sumZ (wr_blocks q0) (take k wrs))) l' q' es comps /\
    p_cq (y_poll y') = p_cq (y_poll y).
Proof.
  intros Hl Hg k. pose proof Hl as [(E1 & E2 & E3 & E4) Ho Hf Hfi Hsl Hcp Hh Hb Hc Hord]. set (s := y_poll y) in *.
  unfold sys_post. fold s. rewrite Ho. cbn [mbind option_bind rsc_obj_of rsc_type rsn].
  set (ss := mk_ss q (y_bf y) (p_mem s) (p_trace s)). specialize (Hfi (y_bf y) (p_trace s)). fold ss in Hfi.
  destruct (post_send_locked ctx _ wrs ss) as [[o m] s'] eqn:E.
  destruct (of_slots post_accepts l ss wrs o m s' Hfi Hg E) as [-> ->]. fold k.
  set (c := mk_call wrs (fun _ => (wq_tail (sq q), wq_tail (sq q))) 0).
  assert (Hcall : call_ok ops q0 c l (wq_tail (sq (ss_qp ss)))).
  { split; [done|split; [cbn; lia|]]. intros i. exists 0, 0. pose proof (ff_tail _ _ _ _ _ Hfi). rewrite Z.add_0_r, u32_small by done. split_and!; cbn; done || lia. }
  assert (Estep : send_step ctx c ss l = (if decide (k = length wrs) then Ok else Err ENOMEM, s', l ++ fenced (fm_cache q) (take k wrs))).
  { unfold send_step. cbn [call_tails call_wrs c call_done]. rewrite E, (post_tail l ss wrs _ _ _ _ Hfi Hg E), Nat2Z.id. done. }
  pose proof (send_step_fifo ctx dci ops mops W q0 Hq Hlim Hz Hdb Hw0 _ _ _ _ _ _ Hfi Hcall Estep) as Hfi'.
  pose proof (of_slots send_step_slots _ _ _ _ _ _ Hfi Hsl Hcall Estep) as Hsl'.
  destruct (of_qp call_qp _ _ _ _ _ _ Hfi Hcall E) as (_ & _ & _ & Ecp & _). cbn [call_wrs call_done c ss_qp ss] in Ecp.
  rewrite (post_tail l ss wrs _ _ _ _ Hfi Hg E), Nat2Z.id, Hcp in Ecp.
  pose proof (ff_moved _ _ _ _ _ Hfi) as Hm. cbn [ss_qp ss] in Hm. destruct (of_qp moved_hyps _ Hm) as (_ & Hlim' & _ & _).
  assert (Hsafe : forallb (wr_safe q) wrs = true).
  { clear -Hg Hm Hq Hlim Hz. induction Hg as [|wr wrs Hwr Hg IH]; [done|]. cbn [forallb]. by rewrite (of_qp good_safe _ _ Hm Hwr), IH. }
  destruct (post_send_locked_frame ctx (fun _ => (wq_tail (sq q), wq_tail (sq q))) wrs ss (ff_wf _ _ _ _ _ Hfi) Hlim' Hsafe) as (_ & _ & _ & Hframe).
  rewrite E in Hframe. cbn [snd ss_qp ss] in Hframe. rewrite (mv_qp _ _ Hm), (mv_sq _ _ Hm) in Hframe. cbn in Hframe.
  assert (Hring : forall a, cq_buf cq0 <= a < cq_end -> ss_mem s' a = p_mem s a).
  { intros a Ha. apply Hframe; unfold snd_dbr in *; cbn; lia. }
  assert (HD : out_blocks q0 (fenced (fm_cache q) (take k wrs)) = sumZ (wr_blocks q0) (take k wrs)) by (by rewrite (of_qp out_blocks_snd), fenced_snd).
  eexists _, _, (ss_qp s'). split; [reflexivity|]. split; [rewrite fmap_app; f_equal; apply fenced_snd|]. split; [|done].
  split; cbn [y_poll p_cq p_objs p_tabs p_mem set_p_trace set_p_mem set_p_objs]; [done|by rewrite lookup_insert_eq|done| |done|done| | | |].
  - intros bf tr. destruct Hfi' as [? ? ? ? ? ? ?]. by split.
  - apply (ring_holds_outside _ _ _ (ss_mem s')) in Hh; [destruct Hh; by split|]. intros a Ha. apply Hring. unfold nent in *. by rewrite E1, E2, E3 in Ha.
  - intros a Ha. rewrite Hring by done. by apply Hb.
  - rewrite <- HD. by apply reports_more.
  - eapply in_order_mono; [exact Hord|]. rewrite length_app. lia.
Qed.

(** *** The device *)

Lemma live_write j e y prod cp l q es comps :
  live (y_poll y) prod cp l q es comps -> let c := (j, entry_status cq0 e) in
  in_order 0 (length l) (comps ++ [c]) -> Z.of_nat (length comps) < nent cq0 ->
  completes cq0 cqe_ver n (u16 (cp - out_blocks q0 (drop j l))) e ->
  live (y_poll (sys_write prod e y)) (prod + 1) cp l q (es ++ [e]) (comps ++ [c]).
Proof.
  intros Hl c Hord Hroom Hc. pose proof Hl as [(E1 & E2 & E3 & E4) Ho Hf Hfi Hsl Hcp Hh Hb Hrep _].
  pose proof (rh_wf _ _ _ Hh) as Hcw. set (s := y_poll y) in *. pose proof (Forall2_length _ _ _ Hrep) as Hlen.
  assert (Hn : nent (p_cq s) = nent cq0) by (unfold nent; by rewrite E2).
  assert (Hin : forall a, a < cq_buf cq0 \/ cq_end <= a -> device_write (p_cq s) prod e (p_mem s) a = p_mem s a).
  { intros a Ha. apply write_outside. pose proof (entry_in_ring (p_cq s) Hcw prod). rewrite Hn, E1, E3 in *. lia. }
  split; cbn [sys_write y_poll p_cq p_objs p_tabs p_mem set_p_mem]; try done; fold s.
  - intros bf tr. eapply fifo_mem; [apply Hfi|]. intros a Ha. apply Hin. lia.
  - apply ring_holds_write; [done|apply (completes_sz _ _ _ _ _ E3 Hc)|rewrite Hlen, Hn; lia].
  - intros a Ha. apply write_range; [apply (completes_sz _ _ _ _ _ E3 Hc)|by apply Hb].
  - apply Forall2_app; [done|]. constructor; [by split|constructor].
Qed.

(** *** Runs *)

Lemma sys_refines os : forall prod y cp l q es comps,
  live (y_poll y) prod cp l q es comps -> cq_locked (p_cq (y_poll y)) = false ->
  run_ok cqe_ver ops q0 cq0 n os cp (snd <$> l) comps ->
  sys_run ctx cfg now cqe_ver p os prod y = Some (spec_run q0 cq0 os (snd <$> l) comps).
Proof.
  induction os as [|[wrs|j e|k] os IH]; intros prod y cp l q es comps Hl Hlk Hok; [done| | |]; cbn [sys_run spec_run run_ok] in *.
  - destruct Hok as [Hg Hok]. rewrite length_fmap in *.
    destruct (live_post wrs y prod cp l q es comps Hl Hg) as (y' & l' & q' & -> & El & Hl' & Hcq). cbn [mbind option_bind].
    rewrite <- El in *. rewrite (IH _ _ _ _ _ _ _ Hl'); [done|by rewrite Hcq|done].
  - destruct Hok as (Hord & Hroom & Hc & Hok). rewrite length_fmap in Hord. rewrite <- fmap_drop, <- (of_qp out_blocks_snd) in Hc.
    eapply IH; [by apply live_write|done|done].
  - pose proof (live_sys_poll k y prod cp l q es comps Hl Hlk) as H. destruct (spec_poll k (snd <$> l) comps) as [[r out'] comps'].
    destruct H as (y' & l' & q' & es' & -> & -> & Hl' & Hlk'). cbn [mbind option_bind]. by rewrite (IH _ _ _ _ _ _ _ Hl').
Qed.
End Refine.

(** Regions of memory, a start and a length, that do not overlap *)
Definition apart (r1 r2 : Z * Z) : Prop := r1.1 + r1.2 <= r2.1 \/ r2.1 + r2.2 <= r1.1.
Definition cq_region (cq : mlx5_cq) : Z * Z := (cq_buf cq, nent cq * cqe_sz cq).
Definition sq_region (qp : mlx5_qp) : Z * Z := (sq_start qp, ring_len qp).

Lemma alloc_bytes buf k sz m a :
  0 <= k -> 64 <= sz -> buf <= a < buf + k * sz -> 0 <= mlx5_alloc_cq_buf false buf k sz m a < 256.
Proof.
  intros Hk Hsz Ha. unfold mlx5_alloc_cq_buf. assert (H : forall j i m', 0 <= m' a < 256 -> 0 <= invalidate j i buf sz m' a < 256).
  { induction j as [|j IH]; intros i m' Hm; [done|]. cbn [invalidate]. apply IH. unfold store_be. destruct (_ && _); [|done].
    change 255 with (Z.ones 8). rewrite Z.land_ones by lia. apply Z.mod_pos_bound. lia. }
  apply H. unfold memset. rewrite (proj2 (Z.leb_le _ _)), (proj2 (Z.ltb_lt _ _)) by lia. done.
Qed.

(** C1.  Posting and polling compose.  Take a QP as creation leaves it, registered in
    the tables of the context, and the completion queue it reports to, as allocation
    leaves it.  Let the application post any lists of transport requests and poll, while
    the device completes requests in order, each completion with the counter of its element
    and with success or an error, and not necessarily one for every request.  Then the
    application sees a bounded queue: a post takes as many requests as there is room for,
    each poll reports, oldest first, the identifier of the completed request and its status,
    and a completion retires its request with all earlier ones and makes room for as many
    new ones.  Every step returns, across any number of laps of both rings and of the
    counters. *)
Theorem send_poll_refines ctx dci ops mops W q0 cfg now cqe_ver p n srq y m os :
  let s := y_poll y in let cq := p_cq s in
  sq_wf q0 -> send_limits ctx q0 -> sq_sized dci ops mops W q0 -> 0 <= qp_num q0 < 2 ^ 24 -> wqe_cnt (sq q0) <= 2 ^ 16 ->
  wq_head (sq q0) = 0 -> wq_tail (sq q0) = 0 ->
  p_objs s !! p = Some (mk_rsc MLX5_RSC_TYPE_QP n (OQp q0 srq)) -> p <> 0 ->
  (if cqe_ver : bool then mlx5_find_uidx (p_tabs s) n else mlx5_find_qp (p_tabs s) n) = p ->
  cq_wf cq -> cons_index cq = 0 -> cq_locked cq = false ->
  p_mem s = mlx5_alloc_cq_buf false (cq_buf cq) (nent cq) (cqe_sz cq) m ->
  apart (snd_dbr q0, 4) (sq_region q0) -> apart (cq_region cq) (sq_region q0) -> apart (snd_dbr q0, 4) (cq_region cq) ->
  apart (cq_dbrec cq, 4) (cq_region cq) -> apart (cq_dbrec cq, 4) (sq_region q0) ->
  run_ok cqe_ver ops q0 cq n os (cur_post (sq q0)) [] [] ->
  sys_run ctx cfg now cqe_ver p os 0 y = Some (spec_run q0 cq os [] []).
Proof.
  intros s cq Hw Hlim Hz Hq H16 Hh Ht Ho Hp Hf Hcw Hci Hlk Hm A1 A2 A3 A4 A5 Hok. unfold apart, sq_region, cq_region in *. cbn [fst snd] in *.
  pose proof (wf_qend _ Hw) as Eqend. rewrite <- Eqend in *. pose proof (nent_pos _ Hcw). pose proof (sz_ge _ Hcw).
  assert (Hdb : snd_dbr q0 + 4 <= sq_start q0 \/ qend (sq q0) <= snd_dbr q0) by lia.
  apply (sys_refines ctx dci ops mops W q0 Hq Hlim Hz Hw Hdb H16 cfg now cqe_ver p n srq cq Hp ltac:(lia) ltac:(lia) ltac:(lia) ltac:(lia)
    os 0 y (cur_post (sq q0)) [] q0 [] []); [|done|done].
  split; fold s; [done|done|done| |done|done| | |constructor|done].
  - intros bf tr. split; cbn; [done|done| |lia| |done|done].
    + unfold in_flight. by rewrite Hh, Ht.
    + pose proof (ss_post _ _ _ _ _ Hz). lia.
  - split; [done|rewrite Hm; by apply alloc_ring|]. exists 0. split_and!; [done|exact Hci|done|cbn; fold cq; lia|done].
  - intros a Ha. rewrite Hm. apply alloc_bytes; lia.
Qed.

(** ** Witness *)

(** The created QP as resource 0x1234 at 77, and a completion ring of two entries at 16384 *)
Definition e2e_cq : mlx5_cq := mk_cq 16384 1 64 0 20480 5 0 0 0 0 false demo_clock 0 0 true true false 0 100.
Definition e2e_sys : sys :=
  mk_sys (mk_pst e2e_cq (mlx5_store_qp true no_tables 4660 77).2 {[77 := mk_rsc MLX5_RSC_TYPE_QP 4660 (OQp demo_created 0)]} ∅ 0 0 demo_wc
    (mlx5_alloc_cq_buf false 16384 2 64 (fun a => a mod 256)) []) demo_bf.
Definition with_id (id : Z) (w : ibv_send_wr) : ibv_send_wr :=
  mk_wr id (sg_list w) (opcode w) (send_flags w) (imm_data w) (invalidate_rkey w) (rdma_remote_addr w) (rdma_rkey w)
    (atomic_remote_addr w) (atomic_compare_add w) (atomic_swap w) (atomic_rkey w) (ud_av w) (ud_remote_qpn w) (ud_remote_qkey w)
    (xrc_remote_srqn w) (bind_mw w) (bind_rkey w) (bind_info w) (tso_hdr w) (tso_hdr_sz w) (tso_mss w).
Definition req_cqe (own syn ctr : Z) : list Z := replicate 55 0 ++ [syn; MLX5_OPCODE_SEND; 0; 0x12; 0x34; 0; ctr; 0; own].

(** Two requests, of which the second is completed; a full queue; two more, the first with
    an error (a flush); and one that wraps around the ring *)
Definition e2e_ops : list sys_op :=
  [Post [with_id 1 demo_atomic; with_id 2 demo_imm]; Post [with_id 3 demo_imm]; Complete 1 (req_cqe 0 0 2); Poll 4;
   Post [with_id 4 demo_atomic; with_id 5 demo_atomic]; Complete 0 (req_cqe 0xd0 MLX5_CQE_SYNDROME_WR_FLUSH_ERR 3); Complete 1 (req_cqe 0 0 5);
   Poll 1; Post [with_id 6 demo_atomic]; Poll 4; Complete 0 (req_cqe 0 0 7); Poll 1].

Lemma with_id_good id w : good_wr demo_ops demo_created w -> good_wr demo_ops demo_created (with_id id w).
Proof. intros [[? [? ? ? ? ? ?] ? ? ?] ?]. split; [|done]. split; [done|by split|done..]. Qed.

(** One operation of a run, with the state after it evaluated *)
Ltac e2e_norm :=
  lazymatch goal with |- run_ok ?v ?o ?q ?c ?n ?os ?cp ?out ?comps =>
    let cp' := eval vm_compute in cp in let out' := eval vm_compute in out in let comps' := eval vm_compute in comps in
    change (run_ok v o q c n os cp' out' comps') end.
Ltac e2e_open :=
  lazymatch goal with |- run_ok _ _ _ _ _ (_ :: ?os) _ _ _ => let l := fresh in remember os as l; cbn [run_ok]; subst l end.
Ltac e2e_post := e2e_open; split; [repeat (apply Forall_cons_2; [apply with_id_good; apply demo_good|]); apply Forall_nil_2|]; e2e_norm.
Ltac e2e_complete :=
  e2e_open; split; [vm_compute; repeat split; lia|]; split; [vm_compute; reflexivity|]; split;
  [split; [split; [reflexivity|split; [repeat (apply Forall_cons_2; [done|]); apply Forall_nil_2|eexists; split; [reflexivity|by split]]]|
           vm_compute; tauto|by split|by vm_compute|by vm_compute]|]; e2e_norm.
Ltac e2e_poll := e2e_open; lazymatch goal with |- context [spec_poll ?k ?o ?c] => let r := eval vm_compute in (spec_poll k o c) in change (spec_poll k o c) with r end; cbv iota beta.

Lemma e2e_ok : run_ok false demo_ops demo_created e2e_cq 4660 e2e_ops (cur_post (sq demo_created)) [] [].
Proof.
  unfold e2e_ops. e2e_post. e2e_post. e2e_complete. e2e_poll. e2e_post. e2e_complete. e2e_complete. e2e_poll. e2e_post. e2e_poll. e2e_complete. e2e_poll. exact I.
Qed.

Lemma send_poll_refines_witness :
  sys_run demo_ctx mlx5_stall_default 7 false 77 e2e_ops 0 e2e_sys =
  Some [Posted Ok; Posted (Err ENOMEM); Polled [(2, 0)]; Posted Ok; Polled [(4, IBV_WC_WR_FLUSH_ERR)]; Posted Ok; Polled [(5, 0)]; Polled [(6, 0)]].
Proof.
  pose proof demo_ready as [[W Hz] Hw _ Hlim _ _ _ _ _].
  rewrite (send_poll_refines demo_ctx false demo_ops 0 W demo_created mlx5_stall_default 7 false 77 4660 0 e2e_sys (fun a => a mod 256) e2e_ops
    Hw (Hlim demo_ctx ltac:(simpl; lia)) Hz); try (by vm_compute); try (vm_compute; split; congruence).
  - by split; [exists 1|left].
  - left. by vm_compute.
  - right. by vm_compute.
  - left. by vm_compute.
  - right. by vm_compute.
  - right. by vm_compute.
  - exact e2e_ok.
Defined.
