(* ===== verification/CqPollProps.v ===== *)
(** The polling interfaces of a completion queue: the functions a queue gets, who holds its
    lock during a session of [ibv_start_poll], [ibv_next_poll] and [ibv_end_poll], and the
    agreement of that interface with [ibv_poll_cq]. *)

From stdpp Require Import base numbers list gmap.
From S2P Require Import Prelude Mem Types Wqe PostSend Recv Srq Table TagMatch CqTypes Cq CqPoll CqRing CqProps SendSafe.

(** * The table of functions *)

(** The mode of a queue *)
Definition mode_of (cq : mlx5_cq) : polling_mode :=
  if stall_enable cq then if stall_adaptive_enable cq then POLLING_MODE_STALL_ADAPTIVE else POLLING_MODE_STALL
  else POLLING_MODE_NO_STALL.

(** The table [ops] has an entry for every queue: whatever its stall settings, its
    threading, the version of its entries and the fields asked for, [mlx5_cq_fill_pfns]
    installs non-null functions, which take the lock exactly when the queue is not
    single-threaded, stall as the queue is set to, parse the version of the context and
    update the clock exactly when wall-clock time stamps were asked for. *)
Theorem fill_pfns_exact ctx freeze cfg now clock cq ver real_time clock_page wc_flags :
  let lock := negb (has_flag (cq_flags cq) MLX5_CQ_FLAGS_SINGLE_THREADED) in
  let wall := has_flag wc_flags IBV_WC_EX_WITH_COMPLETION_TIMESTAMP_WALLCLOCK in
  let '(err, fns, rd) := mlx5_cq_fill_pfns ctx freeze cfg now clock cq ver real_time clock_page wc_flags in
  fns = Some (mk_fns (mlx5_start_poll ctx freeze cfg now clock lock (mode_of cq) ver wall)
    (mlx5_next_poll ctx freeze (if mode_of cq is POLLING_MODE_STALL_ADAPTIVE then POLLING_MODE_STALL_ADAPTIVE else POLLING_MODE_NO_STALL) ver)
    (_mlx5_end_poll cfg now lock (mode_of cq))) /\
  (err = 0 \/ err = EOPNOTSUPP) /\ (read_completion_wallclock_ns rd = None <-> wall = false \/ err = EOPNOTSUPP).
Proof.
  intros lock wall. unfold mlx5_cq_fill_pfns. fold wall. cbv zeta.
  assert (E : mjoin (ops ctx freeze cfg now clock !! Z.to_nat (ops_index cq ver wc_flags)) =
    Some (mk_fns (mlx5_start_poll ctx freeze cfg now clock lock (mode_of cq) ver wall)
    (mlx5_next_poll ctx freeze (if mode_of cq is POLLING_MODE_STALL_ADAPTIVE then POLLING_MODE_STALL_ADAPTIVE else POLLING_MODE_NO_STALL) ver)
    (_mlx5_end_poll cfg now lock (mode_of cq)))).
  { unfold ops_index, mode_of. fold wall. subst lock.
    destruct (has_flag (cq_flags cq) _), wall, ver, (stall_enable cq), (stall_adaptive_enable cq); reflexivity. }
  rewrite E. destruct wall; [|cbn; tauto].
  destruct (real_time && _); [|destruct clock_page]; cbn; (split; [done|split; [tauto|]]); unfold EOPNOTSUPP; naive_solver.
Qed.

(** * The lock *)

(** A computation that leaves [f] of the state as it is *)
Definition Keeps {A B} (f : pst -> B) (a : P A) : Prop := forall s x s', a s = Some (x, s') -> f s' = f s.

Section Keeps.
Context {B : Type} (f : pst -> B).

Lemma keeps_ret {A} (x : A) : Keeps f (mret x).
Proof. by intros s y s' [= _ <-]. Qed.

Lemma keeps_bind {A C} (a : P A) (k : A -> P C) : Keeps f a -> (forall x, Keeps f (k x)) -> Keeps f (mbind k a).
Proof.
  intros Ha Hk s y s' E. unfold mbind, P_bind in E. destruct (a s) as [[x s1]|] eqn:E1; [|done].
  rewrite (Hk x s1 y s' E). by eapply Ha.
Qed.

Lemma keeps_gets {A} (g : pst -> A) : Keeps f (gets g).
Proof. by intros s y s' [= _ <-]. Qed.

Lemma keeps_fault {A} : Keeps f (@fault A).
Proof. by intros s y s'. Qed.

Lemma keeps_modify (g : pst -> pst) : (forall s, f (g s) = f s) -> Keeps f (modify g).
Proof. intros H s y s' [= _ <-]. apply H. Qed.

Lemma keeps_get_rsc p : Keeps f (get_rsc p).
Proof. intros s y s'. unfold get_rsc. destruct (p_objs s !! p); [|done]. by intros [= _ <-]. Qed.

Lemma keeps_elem {A} (l : list A) i : Keeps f (elem l i).
Proof. intros s y s'. unfold elem. destruct (0 <=? i); [|done]. destruct (l !! _); [|done]. by intros [= _ <-]. Qed.

Lemma keeps_lift {A} (o : option A) : Keeps f (lift o).
Proof. intros s y s'. unfold lift. destruct o; [|done]. by intros [= _ <-]. Qed.
End Keeps.

Create HintDb cq_keeps discriminated.
#[export] Hint Resolve keeps_ret keeps_bind keeps_gets keeps_fault keeps_get_rsc keeps_elem keeps_lift : cq_keeps.

(** Walks through a computation written with the combinators. *)
Ltac keeps :=
  repeat match goal with
  | |- forall _, _ => intro
  | |- Keeps _ (match ?x with _ => _ end) => destruct x
  | |- Keeps _ (let '(_, _) := ?x in _) => destruct x
  | |- Keeps _ (mbind _ _) => apply keeps_bind
  | |- Keeps _ (modify _) => apply keeps_modify; first [reflexivity | intros ?; reflexivity]
  | |- Keeps _ (on_cq _) => apply keeps_modify; intros ?; reflexivity
  | |- Keeps _ (on_wc _) => apply keeps_modify; intros ?; reflexivity
  | |- Keeps _ (put_mem _) => apply keeps_modify; intros ?; reflexivity
  | |- Keeps _ _ => solve [auto with cq_keeps nocore]
  end.

(** Whether the lock is held *)
Definition locked (s : pst) : bool := cq_locked (p_cq s).

(** What no entry changes when it is parsed: the lock, the ring and the consumer index *)
Definition steady (s : pst) : bool * Z * Z * Z * Z :=
  (locked s, cq_buf (p_cq s), cqe_mask (p_cq s), cqe_sz (p_cq s), cons_index (p_cq s)).

Lemma keeps_locked {A} (a : P A) : Keeps steady a -> Keeps locked a.
Proof. intros H s x s' E. specialize (H s x s' E). by injection H. Qed.

Section Locked.
Context (ctx : mlx5_context).

Lemma keeps_put_obj p o : Keeps steady (put_obj p o).
Proof. unfold put_obj. keeps. Qed.
Hint Resolve keeps_put_obj : cq_keeps.

Lemma keeps_objects p : Keeps steady (get_qp p) /\ Keeps steady (get_srq p) /\ (forall q, Keeps steady (put_qp p q)) /\
  (forall q, Keeps steady (put_srq p q)) /\ (forall t, Keeps steady (put_tags p t)).
Proof.
  assert (Hg : Keeps steady (get_srq p)) by (unfold get_srq; keeps). unfold get_qp, put_qp, put_srq, put_tags.
  split_and!; try exact Hg; keeps; exact Hg.
Qed.
Lemma keeps_get_qp p : Keeps steady (get_qp p). Proof. apply keeps_objects. Qed.
Lemma keeps_get_srq p : Keeps steady (get_srq p). Proof. apply keeps_objects. Qed.
Lemma keeps_put_qp p q : Keeps steady (put_qp p q). Proof. apply keeps_objects. Qed.
Lemma keeps_put_srq p q : Keeps steady (put_srq p q). Proof. apply keeps_objects. Qed.
Lemma keeps_put_tags p t : Keeps steady (put_tags p t). Proof. apply keeps_objects. Qed.
Hint Resolve keeps_get_qp keeps_get_srq keeps_put_qp keeps_put_srq keeps_put_tags : cq_keeps.

(** Finding the object of an entry *)
Lemma keeps_stale n : Keeps steady (rsc_stale n).
Proof. unfold rsc_stale. keeps. Qed.
Hint Resolve keeps_stale : cq_keeps.

Lemma keeps_req n ver : Keeps steady (get_req_context n ver).
Proof. unfold get_req_context. keeps. Qed.

Lemma keeps_cur_rsc ver q n : Keeps steady (get_cur_rsc ver q n).
Proof. unfold get_cur_rsc, get_resp_ctx_v1, get_srq_ctx, get_qp_ctx. keeps. Qed.
Hint Resolve keeps_req keeps_cur_rsc : cq_keeps.

(** Delivering data and giving elements back *)
Lemma keeps_scatter a b own deliver : (forall x, Keeps steady (deliver x)) -> Keeps steady (inline_scatter a b own deliver).
Proof. intros H. unfold inline_scatter. keeps; apply H. Qed.

Lemma keeps_srq_take sp c : Keeps steady (srq_take sp c).
Proof. unfold srq_take. keeps. apply keeps_scatter. keeps. Qed.

Lemma keeps_rq_take c : Keeps steady (rq_take ctx c).
Proof. unfold rq_take. keeps; apply keeps_scatter; keeps. Qed.
Hint Resolve keeps_srq_take keeps_rq_take : cq_keeps.

Lemma keeps_responders c srq : Keeps steady (handle_responder ctx c srq) /\ Keeps steady (handle_responder_lazy ctx c srq).
Proof. unfold handle_responder, handle_responder_lazy, rx_csum. split; keeps. Qed.

Lemma keeps_tags c sp : Keeps steady (handle_tag_matching c sp).
Proof. unfold handle_tag_matching, tm_consumed, tm_list_op, tm_untagged, set_status, or_flags. keeps. Qed.

Lemma keeps_parse_once freeze lazy ver c cqe : Keeps steady (parse_once ctx freeze lazy ver c cqe).
Proof.
  unfold parse_once, parse_begin, parse_req, parse_resp, parse_no_packet, parse_sig_err, parse_req_err, parse_resp_err,
    req_lazy, req_eager, req_scatter, sq_completed, put_wr_id, set_status, or_flags.
  keeps; try apply keeps_scatter; keeps; apply keeps_responders || apply keeps_tags.
Qed.

Lemma keeps_next : Keeps locked mlx5_get_next_cqe.
Proof. unfold mlx5_get_next_cqe. keeps. Qed.
Hint Resolve keeps_next : cq_keeps.

Lemma keeps_parse fuel : forall freeze lazy ver c cqe, Keeps locked (mlx5_parse_cqe ctx fuel freeze lazy ver c cqe).
Proof. induction fuel as [|fuel IH]; intros; cbn [mlx5_parse_cqe]; keeps. apply keeps_locked, keeps_parse_once. Qed.
End Locked.

Section Session.
#[local] Set Default Proof Using "Type".
Context (ctx : mlx5_context) (freeze : bool) (cfg : stall_cfg) (now : Z) (clock : mlx5dv_clock_info -> Z * mlx5dv_clock_info).
Context (mode : polling_mode) (ver wall : bool).

Lemma stall_keeps a : Keeps locked (stall_before a).
Proof. unfold stall_before. keeps. Qed.

(** Taking the lock when it is free *)
Lemma lock_free s : locked s = false -> lock_cq s = Some (tt, set_p_cq (set_cq_locked true (p_cq s)) s).
Proof. unfold locked, lock_cq, gets, mbind, P_bind. by intros ->. Qed.

Lemma lock_held s : locked s = true -> lock_cq s = None.
Proof. unfold locked, lock_cq, gets, mbind, P_bind. by intros ->. Qed.

(** The part of [mlx5_start_poll] before the clock is read *)
Lemma start_poll_split s :
  mlx5_start_poll ctx freeze cfg now clock true mode ver true 0 s =
  match mlx5_start_poll ctx freeze cfg now clock true mode ver false 0 s with
  | Some (r, s') =>
    if r =? 0 then let ci := clock (last_clock_info (p_cq s')) in Some (ci.1, set_p_cq (set_last_clock_info ci.2 (p_cq s')) s') else Some (r, s')
  | None => None
  end.
Proof.
  unfold mlx5_start_poll. cbv zeta. change (negb (0 =? 0)) with false. cbv iota. unfold mbind, P_bind.
  set (st := bool_decide (mode <> POLLING_MODE_NO_STALL)). set (ad := bool_decide (mode = POLLING_MODE_STALL_ADAPTIVE)). clearbody st ad.
  destruct ((if st then stall_before ad else mret tt) s) as [[[] s1]|]; [|done]. destruct (lock_cq s1) as [[[] s2]|]; [|done].
  change (modify ?g s2) with (Some (tt, g s2)). cbv beta iota. destruct (mlx5_get_next_cqe _) as [[[[c cqe]|] s3]|]; [| |done].
  - generalize (mlx5_parse_lazy_cqe ctx freeze c cqe ver). intros parse.
    destruct st, ad; cbn; (destruct (parse _) as [[r s4]|]; [|done]); cbn;
      (destruct (Z.eqb_spec r 0) as [->|Hr]; cbn; [done|]);
      (destruct (r =? CQ_POLL_ERR); cbn; [by rewrite (proj2 (Z.eqb_neq _ _) Hr)|by rewrite (proj2 (Z.eqb_neq _ _) Hr)]) || by rewrite (proj2 (Z.eqb_neq _ _) Hr).
  - by destruct st, ad.
Qed.

(** Without a clock to read, success is the lock. *)
Lemma start_poll_plain s r s' :
  locked s = false -> mlx5_start_poll ctx freeze cfg now clock true mode ver false 0 s = Some (r, s') -> locked s' = (r =? 0).
Proof.
  intros Hs. unfold mlx5_start_poll. cbv zeta. change (negb (0 =? 0)) with false. cbv iota. unfold mbind, P_bind.
  set (st := bool_decide (mode <> POLLING_MODE_NO_STALL)). set (ad := bool_decide (mode = POLLING_MODE_STALL_ADAPTIVE)). clearbody st ad.
  assert (Hpre : Keeps locked (if st then stall_before ad else mret tt)).
  { destruct st; [apply stall_keeps|apply keeps_ret]. }
  destruct ((if st then stall_before ad else mret tt) s) as [[[] s1]|] eqn:E1; [|done].
  specialize (Hpre _ _ _ E1). rewrite lock_free by congruence. 
  change (modify ?g ?x) with (Some (tt, g x)). cbv beta iota. destruct (mlx5_get_next_cqe _) as [[[[c cqe]|] s3]|] eqn:E3; [| |done].
  - apply keeps_next in E3. change (locked (set_p_srq _ _)) with true in E3.
    assert (Hparse : Keeps locked (mlx5_parse_lazy_cqe ctx freeze c cqe ver)) by (unfold mlx5_parse_lazy_cqe; keeps; apply keeps_parse).
    revert Hparse. generalize (mlx5_parse_lazy_cqe ctx freeze c cqe ver). intros parse Hparse.
    destruct st, ad; cbn; (destruct (parse _) as [[r' s4]|] eqn:E4; [|done]); apply Hparse in E4; cbn in E4; (destruct (Z.eqb_spec r' 0) as [->|Hr]; cbn; [intros [= <- <-]; unfold locked in *; cbn in *; congruence|]);
      try (destruct (r' =? CQ_POLL_ERR); cbn); intros [= <- <-]; by rewrite (proj2 (Z.eqb_neq _ _) Hr).
  - destruct st, ad; cbn; by intros [= <- <-].
Qed.

(** A session: start, [k] times next, end, as the documentation of the interface asks *)
Fixpoint nexts (k : nat) : P unit :=
  match k with
  | O => mret tt
  | S k => _ ← mlx5_next_poll ctx freeze mode ver; nexts k
  end.
Definition session (k : nat) : P Z :=
  r ← mlx5_start_poll ctx freeze cfg now clock true mode ver wall 0;
  if r =? 0 then nexts k ;+ _mlx5_end_poll cfg now true mode ;+ mret r else mret r.

Lemma keeps_nexts k : Keeps locked (nexts k).
Proof.
  assert (Hn : Keeps locked (mlx5_next_poll ctx freeze mode ver)).
  { unfold mlx5_next_poll, mlx5_parse_lazy_cqe, or_flags. keeps; apply keeps_next || apply keeps_parse. }
  induction k; cbn [nexts]; keeps.
Qed.

Lemma end_unlocks s x s' :
  _mlx5_end_poll cfg now true mode s = Some (x, s') ->
  locked s' = false /\ p_mem s' = update_cons_index (p_cq s) (p_mem s) /\ cons_index (p_cq s') = cons_index (p_cq s) /\ cq_dbrec (p_cq s') = cq_dbrec (p_cq s).
Proof.
  unfold _mlx5_end_poll, mbind, P_bind, modify, unlock_cq, gets, on_cq, modify. cbv zeta.
  destruct mode; cbn; [by intros [= _ <-]| |]; repeat case_match; cbn in *; intros; simplify_eq; cbn; try done. by injection H as _ <-.
Qed.

Lemma store_load_word p v m : 0 <= v < 2 ^ 32 -> load_be 4 p (store_be 4 p v m) = v.
Proof. intros Hv. rewrite load_store_same. by apply Z.mod_small. Qed.
End Session.


(** A queue with one entry, of a resize, which parses without an object *)
Definition session_pst : pst :=
  set_p_mem (device_write demo_cq 0 (replicate 63 0 ++ [Z.shiftl MLX5_CQE_RESIZE_CQ 4]) (p_mem demo_pst)) demo_pst.


(** When [mlx5_start_poll] has found a completion and then cannot read the clock, it
    returns that error with the lock held and the completion consumed.  A caller that takes
    the error for one, and does not call [ibv_end_poll], can never poll the queue again: both
    interfaces then wait for the lock for ever. *)
Theorem clock_error_keeps_lock ctx freeze cfg now clock mode ver s s1 :
  locked s = false -> (forall ci, (clock ci).1 <> 0) ->
  mlx5_start_poll ctx freeze cfg now clock true mode ver false 0 s = Some (0, s1) ->
  exists err s', mlx5_start_poll ctx freeze cfg now clock true mode ver true 0 s = Some (err, s') /\ err <> 0 /\
    locked s' = true /\ cons_index (p_cq s') = cons_index (p_cq s1) /\
    forall now' clock' mode' wall' wcs, mlx5_start_poll ctx freeze cfg now' clock' true mode' ver wall' 0 s' = None /\
      poll_cq ctx freeze cfg now' ver wcs s' = None.
Proof.
  intros Hs Hc E. pose proof (start_poll_plain _ _ _ _ _ _ _ _ _ _ Hs E) as Hl0. change (0 =? 0) with true in Hl0.
  eexists _, _. split; [rewrite start_poll_split, E; reflexivity|]. split; [apply Hc|].
  set (s' := set_p_cq _ s1). assert (Hl : locked s' = true) by done. split; [done|]. split; [done|]. clearbody s'. intros now' clock' mode' wall' wcs.
  assert (Hpre : forall a : P unit, Keeps locked a -> match a s' with Some (_, s2) => lock_cq s2 = None | None => True end).
  { intros a Ha. destruct (a s') as [[x s2]|] eqn:Ea; [|done]. apply lock_held. by rewrite (Ha _ _ _ Ea). }
  assert (Hst : forall (b a : bool), Keeps locked (if b then stall_before a else mret tt)) by (intros [] a; [apply stall_keeps|apply keeps_ret]).
  split.
  - unfold mlx5_start_poll, mbind, P_bind. cbv zeta. change (negb (0 =? 0)) with false. cbv beta iota.
    match goal with |- context [(if ?b then stall_before ?a else mret tt) s'] => specialize (Hpre _ (Hst b a)); destruct ((if b then stall_before a else mret tt) s') as [[[] s2]|]; [|done] end.
    by rewrite Hpre.
  - unfold poll_cq, mbind, P_bind, gets. cbv beta iota.
    match goal with |- context [(if ?b then stall_before ?a else mret tt) s'] => specialize (Hpre _ (Hst b a)); destruct ((if b then stall_before a else mret tt) s') as [[[] s2]|]; [|done] end.
    by rewrite Hpre.
Qed.

(** The kernel was updating the clock page all the time. *)
Definition EBUSY : Z := 16.

Lemma clock_error_keeps_lock_witness :
  exists s', mlx5_start_poll demo_ctx false mlx5_stall_default 5 (fun ci => (EBUSY, ci)) true POLLING_MODE_NO_STALL true true 0 session_pst = Some (EBUSY, s') /\
    locked s' = true.
Proof.
  destruct (mlx5_start_poll demo_ctx false mlx5_stall_default 5 (fun ci => (EBUSY, ci)) true POLLING_MODE_NO_STALL true false 0 session_pst) as [[r s']|] eqn:E.
  - assert (r = 0) as ->.
    { assert (H : fst <$> mlx5_start_poll demo_ctx false mlx5_stall_default 5 (fun ci => (EBUSY, ci)) true POLLING_MODE_NO_STALL true false 0 session_pst = Some 0) by (by vm_compute).
      rewrite E in H. by injection H. }
    destruct (clock_error_keeps_lock demo_ctx false mlx5_stall_default 5 (fun ci => (EBUSY, ci)) POLLING_MODE_NO_STALL true session_pst s'
      ltac:(reflexivity) ltac:(done) E) as (err & s1 & H1 & _ & H2 & _). exists s1. split; [|exact H2]. rewrite H1.
    assert (H : fst <$> mlx5_start_poll demo_ctx false mlx5_stall_default 5 (fun ci => (EBUSY, ci)) true POLLING_MODE_NO_STALL true true 0 session_pst = Some EBUSY) by (by vm_compute).
    rewrite H1 in H. by injection H as ->.
  - exfalso. assert (H : fst <$> mlx5_start_poll demo_ctx false mlx5_stall_default 5 (fun ci => (EBUSY, ci)) true POLLING_MODE_NO_STALL true false 0 session_pst = Some 0) by (by vm_compute).
    by rewrite E in H.
Defined.
