(* ===== verification/CqLazy.v ===== *)
(** The two polling interfaces of a completion queue agree.

    [ibv_poll_cq] fills a [struct ibv_wc] when it parses an entry; [ibv_start_poll] keeps the
    entry and lets readers take fields out of it later.  [mlx5_parse_cqe] is one function for
    both.  Its parts that find objects, deliver data and give elements back neither read nor
    write what only one of the interfaces uses; here they are computations that respect the
    equality of the rest of the state. *)

From stdpp Require Import base numbers list gmap.
From S2P Require Import Prelude Mem Types Wqe PostSend Recv Srq Table TagMatch CqTypes Cq CqPoll CqRing CqProps CqPollProps SendSafe.

(** * Computations blind to the interface *)

(** States equal but for the queue and the [struct ibv_wc] *)
Record agree (s t : pst) : Prop := {
  ag_tabs : p_tabs s = p_tabs t;
  ag_objs : p_objs s = p_objs t;
  ag_sigs : p_sigs s = p_sigs t;
  ag_rsc : p_rsc s = p_rsc t;
  ag_srq : p_srq s = p_srq t;
  ag_mem : p_mem s = p_mem t;
  ag_trace : p_trace s = p_trace t
}.

#[global] Instance agree_equiv : Equivalence agree.
Proof. split; [intros s; by split|intros s t []; by split|]. intros s t u [] []. split; congruence. Qed.

(** [s'] is [s] but for what the interfaces share. *)
Definition own_kept (s s' : pst) : Prop := p_cq s' = p_cq s /\ p_wc s' = p_wc s.

(** Results of runs from two states that agree *)
Definition both {A} (R : A -> pst -> pst -> Prop) (o1 o2 : option (A * pst)) : Prop :=
  match o1, o2 with
  | Some (x, s), Some (y, t) => x = y /\ agree s t /\ R x s t
  | None, None => True
  | _, _ => False
  end.

Definition Blind {A} (a : P A) : Prop :=
  forall s t, agree s t -> both (fun _ s' t' => own_kept s s' /\ own_kept t t') (a s) (a t).

Lemma blind_ret {A} (x : A) : Blind (mret x).
Proof. intros s t H. by repeat split; try apply H. Qed.

Lemma blind_bind {A B} (a : P A) (k : A -> P B) : Blind a -> (forall x, Blind (k x)) -> Blind (mbind k a).
Proof.
  intros Ha Hk s t H. unfold mbind, P_bind. specialize (Ha s t H). destruct (a s) as [[x s1]|], (a t) as [[y t1]|]; try done.
  destruct Ha as (-> & H1 & [E1 E2] & [E3 E4]). specialize (Hk y s1 t1 H1). unfold both in *.
  destruct (k y s1) as [[z s2]|], (k y t1) as [[z' t2]|]; try done. destruct Hk as (-> & H2 & [F1 F2] & [F3 F4]).
  unfold own_kept. by rewrite F1, F2, F3, F4.
Qed.

Lemma blind_gets {A} (g : pst -> A) : (forall s t, agree s t -> g s = g t) -> Blind (gets g).
Proof. intros Hg s t H. repeat split; try apply H. by apply Hg. Qed.

Lemma blind_modify (g : pst -> pst) :
  (forall s t, agree s t -> agree (g s) (g t)) -> (forall s, own_kept s (g s)) -> Blind (modify g).
Proof. intros Ha Hk s t H. split; [done|]. split; [by apply Ha|by split]. Qed.

Lemma blind_fault {A} : Blind (@fault A).
Proof. by intros s t H. Qed.

Lemma blind_get_rsc p : Blind (get_rsc p).
Proof. intros s t H. unfold get_rsc. rewrite (ag_objs _ _ H). destruct (p_objs t !! p); [|done]. by repeat split; try apply H. Qed.

Lemma blind_elem {A} (l : list A) i : Blind (elem l i).
Proof. intros s t H. unfold elem. destruct (0 <=? i); [|done]. destruct (l !! _); [|done]. by repeat split; try apply H. Qed.

Create HintDb blind discriminated.
#[export] Hint Resolve blind_ret blind_fault blind_get_rsc blind_elem : blind.

Ltac blind :=
  repeat match goal with
  | |- forall _, _ => intro
  | |- Blind (match ?x with _ => _ end) => destruct x
  | |- Blind (mbind _ _) => apply blind_bind
  | |- Blind (gets _) => apply blind_gets; by intros ?? []
  | |- Blind (put_mem _) => unfold put_mem
  | |- Blind (modify _) => apply blind_modify; [by intros ?? []; split; cbn; repeat case_match; congruence|by split]
  | |- Blind _ => solve [auto with blind nocore]
  end.

Section Shared.
Context (ctx : mlx5_context).

Lemma blind_put_obj p o : Blind (put_obj p o).
Proof. unfold put_obj. blind. Qed.
Hint Resolve blind_put_obj : blind.

Lemma blind_get_qp p : Blind (get_qp p).
Proof. unfold get_qp. blind. Qed.
Lemma blind_put_qp p q : Blind (put_qp p q).
Proof. unfold put_qp. blind. Qed.
Lemma blind_get_srq p : Blind (get_srq p).
Proof. unfold get_srq. blind. Qed.
Hint Resolve blind_get_qp blind_put_qp blind_get_srq : blind.
Lemma blind_put_srq p q : Blind (put_srq p q).
Proof. unfold put_srq. blind. Qed.
Hint Resolve blind_put_srq : blind.

Lemma blind_stale n : Blind (rsc_stale n).
Proof. unfold rsc_stale. blind. Qed.
Hint Resolve blind_stale : blind.

Lemma blind_req n ver : Blind (get_req_context n ver).
Proof. unfold get_req_context. blind. Qed.

Lemma blind_cur_rsc ver q n : Blind (get_cur_rsc ver q n).
Proof. unfold get_cur_rsc, get_resp_ctx_v1, get_srq_ctx, get_qp_ctx. blind. Qed.

Lemma blind_scatter a b own deliver : (forall x, Blind (deliver x)) -> Blind (inline_scatter a b own deliver).
Proof. intros H. unfold inline_scatter. blind; apply H. Qed.

Lemma blind_srq_take sp c : Blind (srq_take sp c).
Proof. unfold srq_take. blind. apply blind_scatter. blind. Qed.

Lemma blind_rq_take c : Blind (rq_take ctx c).
Proof. unfold rq_take. blind; apply blind_scatter; blind. Qed.

Lemma blind_rx_csum : Blind rx_csum.
Proof. unfold rx_csum. blind. Qed.

Lemma blind_req_scatter p ctr c cqe len : Blind (req_scatter ctx p ctr c cqe len).
Proof. unfold req_scatter. blind. apply blind_scatter. blind. Qed.

Lemma blind_sq_completed p idx : Blind (sq_completed p idx).
Proof. unfold sq_completed. blind. Qed.
End Shared.
#[export] Hint Resolve blind_put_obj blind_get_qp blind_put_qp blind_get_srq blind_put_srq blind_req blind_cur_rsc blind_srq_take blind_rq_take
  blind_rx_csum blind_req_scatter blind_sq_completed : blind.

(** * Running the two interfaces side by side *)

(** The states of the two runs: they agree, the memory is [m], the queue of the lazy run is
    [q] and the [struct ibv_wc] of the eager one is [w]. *)
Definition At (m : mem) (q : mlx5_cq) (w : ibv_wc) (s t : pst) : Prop := agree s t /\ p_mem s = m /\ p_cq s = q /\ p_wc t = w.

(** Both runs fault, or both return, with results and states that [Post] relates. *)
Definition Rel {A B} (Pre : pst -> pst -> Prop) (a : P A) (b : P B) (Post : A -> B -> pst -> pst -> Prop) : Prop :=
  forall s t, Pre s t ->
    match a s, b t with Some (x, s'), Some (y, t') => Post x y s' t' | None, None => True | _, _ => False end.

Section Rules.
Context {A B : Type} (Post : A -> B -> pst -> pst -> Prop).
Implicit Types (m : mem) (q : mlx5_cq) (w : ibv_wc).

Lemma rel_ret m q w x y : (forall s t, At m q w s t -> Post x y s t) -> Rel (At m q w) (mret x) (mret y) Post.
Proof. intros H s t Hs. by apply H. Qed.

Lemma rel_fault m q w : Rel (At m q w) fault fault Post.
Proof. by intros s t Hs. Qed.

Lemma rel_assoc_l {X Y} Pre (a : P X) (f : X -> P Y) (k : Y -> P A) (b : P B) :
  Rel Pre (x ← a; y ← f x; k y) b Post -> Rel Pre (y ← (x ← a; f x); k y) b Post.
Proof. intros H s t Hs. specialize (H s t Hs). revert H. unfold mbind, P_bind. by destruct (a s) as [[]|]. Qed.

Lemma rel_assoc_r {X Y} Pre (a : P A) (b : P X) (f : X -> P Y) (k : Y -> P B) :
  Rel Pre a (x ← b; y ← f x; k y) Post -> Rel Pre a (y ← (x ← b; f x); k y) Post.
Proof. intros H s t Hs. specialize (H s t Hs). revert H. unfold mbind, P_bind. by destruct (b t) as [[]|]. Qed.

Lemma rel_blind {X} m q w (a : P X) (k : X -> P A) (l : X -> P B) :
  Blind a -> (forall x m', Rel (At m' q w) (k x) (l x) Post) -> Rel (At m q w) (x ← a; k x) (x ← a; l x) Post.
Proof.
  intros Ha H s t (Hs & Em & Eq & Ew). unfold mbind, P_bind. specialize (Ha s t Hs). unfold both in Ha.
  destruct (a s) as [[x s']|], (a t) as [[y t']|]; try done. destruct Ha as (-> & H' & [E1 E2] & [E3 E4]).
  apply (H y (p_mem s')). split; [done|]. by rewrite E1, E4.
Qed.

Lemma rel_quiet {X} m q w (a : P X) (k : X -> P A) (l : X -> P B) :
  Blind a -> Keeps p_mem a -> (forall x, Rel (At m q w) (k x) (l x) Post) -> Rel (At m q w) (x ← a; k x) (x ← a; l x) Post.
Proof.
  intros Ha Hk H s t (Hs & Em & Eq & Ew). unfold mbind, P_bind. specialize (Ha s t Hs). unfold both in Ha.
  destruct (a s) as [[x s']|] eqn:E, (a t) as [[y t']|]; try done. destruct Ha as (-> & H' & [E1 E2] & [E3 E4]).
  apply (H y). split; [done|]. by rewrite (Hk _ _ _ E), E1, E4.
Qed.

Lemma rel_on_cq m q w f (k : P A) (b : P B) : Rel (At m (f q) w) k b Post -> Rel (At m q w) (on_cq f ;+ k) b Post.
Proof. intros H s t ([] & Em & Eq & Ew). apply H. split; [by split|]. cbn. by rewrite Eq. Qed.

Lemma rel_on_wc m q w f (a : P A) (l : P B) : Rel (At m q (f w)) a l Post -> Rel (At m q w) a (on_wc f ;+ l) Post.
Proof. intros H s t ([] & Em & Eq & Ew). apply H. split; [by split|]. cbn. by rewrite Ew. Qed.

Lemma rel_mem_l m q w (k : mem -> P A) (b : P B) : Rel (At m q w) (k m) b Post -> Rel (At m q w) (m ← gets p_mem; k m) b Post.
Proof. intros H s t Hs. pose proof Hs as (_ & <- & _). by apply H. Qed.

Lemma rel_mem_r m q w (a : P A) (l : mem -> P B) : Rel (At m q w) a (l m) Post -> Rel (At m q w) a (m ← gets p_mem; l m) Post.
Proof. intros H s t Hs. pose proof Hs as (Ha & Em & _). unfold mbind, P_bind, gets. rewrite <- (ag_mem _ _ Ha), Em. by apply H. Qed.

Lemma rel_ret_l {X} Pre (x : X) (k : X -> P A) (b : P B) : Rel Pre (k x) b Post -> Rel Pre (y ← mret x; k y) b Post.
Proof. done. Qed.

Lemma rel_ret_r {X} Pre (x : X) (a : P A) (l : X -> P B) : Rel Pre a (l x) Post -> Rel Pre a (y ← mret x; l y) Post.
Proof. done. Qed.

Lemma rel_wc m q w (a : P A) (l : ibv_wc -> P B) : Rel (At m q w) a (l w) Post -> Rel (At m q w) a (w ← gets p_wc; l w) Post.
Proof. intros H s t Hs. pose proof Hs as (_ & _ & _ & <-). by apply H. Qed.
End Rules.

(** Runs what only one side does. *)
Ltac rel :=
  repeat (cbv beta zeta; match goal with
  | |- Rel _ (mbind _ (mbind _ _)) _ _ => apply rel_assoc_l
  | |- Rel _ _ (mbind _ (mbind _ _)) _ => apply rel_assoc_r
  | |- Rel _ (mbind _ (mret _)) _ _ => apply rel_ret_l
  | |- Rel _ _ (mbind _ (mret _)) _ => apply rel_ret_r
  | |- Rel _ (mbind _ (gets p_mem)) _ _ => apply rel_mem_l
  | |- Rel _ _ (mbind _ (gets p_mem)) _ => apply rel_mem_r
  | |- Rel _ (mbind _ (on_cq _)) _ _ => apply rel_on_cq
  | |- Rel _ _ (mbind _ (on_wc _)) _ => apply rel_on_wc
  | |- Rel _ _ (mbind _ (gets p_wc)) _ => apply rel_wc
  end).

(** * Entries both interfaces report alike *)

Definition is_recv (op : Z) : bool := has_opcode [MLX5_CQE_RESP_WR_IMM; MLX5_CQE_RESP_SEND; MLX5_CQE_RESP_SEND_IMM; MLX5_CQE_RESP_SEND_INV] op.

(** The operations of requests *)
Definition data_opcodes : list Z := [MLX5_OPCODE_RDMA_READ; MLX5_OPCODE_ATOMIC_CS; MLX5_OPCODE_ATOMIC_FA].
Definition req_opcodes : list Z :=
  [MLX5_OPCODE_RDMA_WRITE_IMM; MLX5_OPCODE_RDMA_WRITE; MLX5_OPCODE_SEND_IMM; MLX5_OPCODE_SEND; MLX5_OPCODE_SEND_INVAL;
   MLX5_OPCODE_TSO] ++ data_opcodes ++ wr_data_opcodes.

(** A request whose operation the driver knows, with data in its entry only if it returns
    data; a receive outside tag matching; an error other than a handled page fault *)
Definition plain (c : Z) (m : mem) : bool :=
  let op := mlx5dv_get_cqe_opcode c m in
  let o := Z.shiftr (sop_drop_qpn c m) 24 in
  if op =? MLX5_CQE_REQ then
    has_opcode req_opcodes o &&
    (has_opcode data_opcodes o || negb (has_flag (op_own c m) MLX5_INLINE_SCATTER_32 || has_flag (op_own c m) MLX5_INLINE_SCATTER_64))
  else if is_recv op then negb (cqe_app c m =? MLX5_CQE_APP_TAG_MATCHING)
  else if op =? MLX5_CQE_REQ_ERR then true
  else (op =? MLX5_CQE_RESP_ERR) && negb (is_odp_pfault_err c m).

(** What the readers of the lazy interface return is what the eager one stored. *)
Record same_fields (q : mlx5_cq) (m : mem) (w : ibv_wc) : Prop := {
  sf_qpn : mlx5_cq_read_wc_qp_num q m = wc_qp_num w;
  sf_err : has_opcode [MLX5_CQE_REQ_ERR; MLX5_CQE_RESP_ERR] (mlx5dv_get_cqe_opcode (cq_cqe64 q) m) = true ->
    mlx5_cq_read_wc_vendor_err q m = vendor_err w;
  sf_opcode : cq_status q = IBV_WC_SUCCESS -> mlx5_cq_read_wc_opcode q m = wc_opcode w;
  sf_recv : is_recv (mlx5dv_get_cqe_opcode (cq_cqe64 q) m) = true -> cq_status q = IBV_WC_SUCCESS ->
    mlx5_cq_read_wc_byte_len q m = byte_len w /\ mlx5_cq_read_wc_flags q m = wc_flags w /\
    mlx5_cq_read_wc_slid q m = slid w /\ mlx5_cq_read_wc_sl q m = sl w /\ mlx5_cq_read_wc_src_qp q m = src_qp w /\
    mlx5_cq_read_wc_dlid_path_bits q m = dlid_path_bits w /\
    (mlx5dv_get_cqe_opcode (cq_cqe64 q) m <> MLX5_CQE_RESP_SEND -> mlx5_cq_read_wc_imm_data q m = wc_imm w)
}.

(** The driver delivered no data into the entry itself. *)
Definition entry_kept (c : Z) (m m' : mem) : Prop := forall a, c <= a < c + sizeof_cqe64 -> m' a = m a.

(** The outcomes of the two interfaces *)
Definition same_outcome (c : Z) (m : mem) (s t : pst) : Prop :=
  cq_wr_id (p_cq s) = wc_wr_id (p_wc t) /\ cq_status (p_cq s) = wc_status (p_wc t) /\
  (entry_kept c m (p_mem s) -> same_fields (p_cq s) (p_mem s) (p_wc t)).

Definition same_result (c : Z) (m : mem) (x y : option Z) (s t : pst) : Prop :=
  x = y /\ agree s t /\ is_Some x /\ (x = Some CQ_OK -> same_outcome c m s t).

Lemma entry_fields c m m' : entry_kept c m m' ->
  op_own c m' = op_own c m /\ sop_drop_qpn c m' = sop_drop_qpn c m /\ byte_cnt c m' = byte_cnt c m /\
  vendor_err_synd c m' = vendor_err_synd c m /\ cqe_app c m' = cqe_app c m /\ get_csum_ok c m' = get_csum_ok c m.
Proof.
  intros H. unfold get_csum_ok, get_cqe_l3_hdr_type, l4_hdr_type_etc, hds_ip_ext, op_own, sop_drop_qpn, byte_cnt, vendor_err_synd, cqe_app.
  rewrite !H by (unfold sizeof_cqe64; lia). split_and!; try done; apply load_be_ext; intros a Ha; apply H; unfold sizeof_cqe64; lia.
Qed.

(** A parse that finds no object reports it on both sides. *)
Lemma rel_poll_err c m q w e m' : e <> CQ_OK -> Rel (At m' q w) (r ← mret e; mret (Some r)) (r ← mret e; mret (Some r)) (same_result c m).
Proof. intros He s t [Hs _]. split; [done|]. split; [done|]. split; [by eexists|]. by intros [= ?]. Qed.

Section Cases.
Context (ctx : mlx5_context) (c : Z) (m : mem) (ver : bool).

(** The states after [parse_begin] *)
#[local] Abbreviation begun q := (set_cq_flags (Z.land (cq_flags q) (u32 (Z.lnot MLX5_CQ_LAZY_FLAGS))) (set_cq_cqe64 c q)).
#[local] Abbreviation begun_wc w := (set_wc_qp_num (cqe_qpn c m) (set_wc_flags 0 w)).

Lemma mem_req_context n : Keeps p_mem (get_req_context n ver).
Proof. unfold get_req_context, rsc_stale. keeps. Qed.

Lemma mem_cur_rsc n k : Keeps p_mem (get_cur_rsc ver n k).
Proof. unfold get_cur_rsc, get_resp_ctx_v1, get_srq_ctx, get_qp_ctx, rsc_stale, get_srq. keeps. Qed.

Lemma mem_get_qp p : Keeps p_mem (get_qp p).
Proof. unfold get_qp. keeps. Qed.

(** * Errors *)

Section Errors.
Context (q : mlx5_cq) (w : ibv_wc).
Context (Hc : cq_cqe64 q = c) (Hn : wc_qp_num w = cqe_qpn c m) (Hv : vendor_err w = vendor_err_synd c m).
Context (Hs : cq_status q = wc_status w) (He : cq_status q <> IBV_WC_SUCCESS).
Context (Hop : is_recv (mlx5dv_get_cqe_opcode c m) = false).

(** The identifier of the element is all the two sides still write. *)
Lemma error_outcome id m' s t : At m' (set_cq_wr_id id q) (set_wc_wr_id id w) s t -> same_result c m (Some CQ_OK) (Some CQ_OK) s t.
Proof using All.
  intros (Ha & Em & Eq & Ew). split; [done|]. split; [done|]. split; [by eexists|]. intros _. unfold same_outcome. rewrite Em, Eq, Ew. cbn.
  split; [done|]. split; [done|]. intros Hk. destruct (entry_fields _ _ _ Hk) as (E1 & E2 & E3 & E4 & E5 & E6).
  split; cbn; unfold mlx5_cq_read_wc_qp_num, mlx5_cq_read_wc_vendor_err, mlx5dv_get_cqe_opcode in *; cbn; by rewrite ?Hc, ?E1, ?E2, ?E4.
Qed.

Lemma rel_req_err :
  Rel (At m q w) (r ← parse_req_err true ver c; mret (Some r)) (r ← parse_req_err false ver c; mret (Some r)) (same_result c m).
Proof using All.
  unfold parse_req_err, put_wr_id. rel. apply rel_quiet; [auto with blind nocore|apply mem_req_context|].
  intros p. destruct (p =? 0); [by apply rel_poll_err|]. rel. apply rel_quiet; [auto with blind nocore|apply mem_get_qp|].
  intros qp. rel. apply rel_blind; [auto with blind nocore|]. intros _ m'. rel. apply rel_ret, error_outcome.
Qed.

Lemma rel_resp_err : is_odp_pfault_err c m = false ->
  Rel (At m q w) ('(r, handled) ← parse_resp_err true ver c; mret (if handled : bool then None else Some r))
    ('(r, handled) ← parse_resp_err false ver c; mret (if handled : bool then None else Some r)) (same_result c m).
Proof using All.
  intros Hodp. unfold parse_resp_err, put_wr_id. rel. rewrite Hodp.
  apply rel_quiet; [auto with blind nocore|apply mem_cur_rsc|]. intros [err is_srq].
  destruct (negb (err =? 0)); [by apply (rel_poll_err c m q w)|]. destruct is_srq; rel.
  - apply rel_quiet; [blind|keeps|]. intros sp. rel. apply rel_quiet; [auto with blind nocore|unfold get_srq; keeps|].
    intros [[[srq n] tl] cmd]. rel. apply rel_quiet; [auto with blind nocore|keeps|]. intros id.
    rel. destruct (mlx5_free_srq_wqe _ _ _) as [srq' m1]. rel. apply rel_blind; [auto with blind nocore|]. intros _ m2. rel.
    apply rel_blind; [blind|]. intros _ m3. rel. apply rel_ret, error_outcome.
  - apply rel_quiet; [blind|keeps|]. intros p. rel. apply rel_quiet; [auto with blind nocore|keeps|]. intros r.
    destruct (rsc_obj_of r), (rsc_type r =? MLX5_RSC_TYPE_RWQ); rel; try (by intros ???).
    all: apply rel_blind; [auto with blind nocore|]; intros _ m'; rel; apply rel_ret, error_outcome.
Qed.
End Errors.

(** * Receives *)

Section Receives.
Context (q : mlx5_cq) (w : ibv_wc).
Context (Hc : cq_cqe64 q = c) (Hn : wc_qp_num w = cqe_qpn c m) (Hf : wc_flags w = 0).
Context (Hcs : has_flag (cq_flags q) MLX5_CQ_FLAGS_RX_CSUM_VALID = false).
Context (Hts : has_flag (cq_flags q) MLX5_CQ_FLAGS_TM_SYNC_REQ = false).
Context (Hop : is_recv (mlx5dv_get_cqe_opcode c m) = true) (Happ : (cqe_app c m =? MLX5_CQE_APP_TAG_MATCHING) = false).

(** The queue and the [struct ibv_wc] once an element was taken, [csum]: with checksum offload *)
#[local] Abbreviation taken csum := (if csum : bool then set_cq_flags (Z.lor (cq_flags q) MLX5_CQ_FLAGS_RX_CSUM_VALID) q else q).
#[local] Abbreviation taken_wc csum :=
  (let w1 := set_byte_len (byte_cnt c m) w in
   if csum : bool then set_wc_flags (Z.lor (wc_flags w1) (get_csum_ok c m)) w1 else w1).

Lemma csum_flags csum :
  has_flag (cq_flags (taken csum)) MLX5_CQ_FLAGS_RX_CSUM_VALID = csum /\ has_flag (cq_flags (taken csum)) MLX5_CQ_FLAGS_TM_SYNC_REQ = false.
Proof using All.
  destruct csum; cbn; [|done]. unfold has_flag in *. rewrite !Z.land_lor_distr_l.
  apply negb_false_iff, Z.eqb_eq in Hcs, Hts. rewrite Hcs, Hts. done.
Qed.

Lemma recv_cases : In (mlx5dv_get_cqe_opcode c m) [MLX5_CQE_RESP_WR_IMM; MLX5_CQE_RESP_SEND; MLX5_CQE_RESP_SEND_IMM; MLX5_CQE_RESP_SEND_INV].
Proof using Hop. apply existsb_exists in Hop as (x & Hx & E). apply Z.eqb_eq in E. by rewrite E. Qed.

Lemma recv_outcome csum id m' s t :
  At m' (set_cq_status IBV_WC_SUCCESS (set_cq_wr_id id (taken csum)))
    (set_wc_status IBV_WC_SUCCESS (responder_wc c m' (set_wc_wr_id id (taken_wc csum)))) s t ->
  same_result c m (Some CQ_OK) (Some CQ_OK) s t.
Proof using All.
  intros (Ha & Em & Eq & Ew). split; [done|]. split; [done|]. split; [by eexists|]. intros _. unfold same_outcome. rewrite Em, Eq, Ew.
  destruct (csum_flags csum) as [F1 F2].
  split; [unfold responder_wc; by destruct csum; cbn; repeat case_match|]. split; [done|]. intros Hk.
  destruct (entry_fields _ _ _ Hk) as (E1 & E2 & E3 & E4 & E5 & E6).
  assert (Ec : cq_cqe64 (taken csum) = c) by by destruct csum.
  assert (Ef : wc_flags (taken_wc csum) = if csum then get_csum_ok c m else 0) by (destruct csum; cbn; by rewrite Hf).
  assert (Eb : byte_len (taken_wc csum) = byte_cnt c m) by by destruct csum.
  assert (En : wc_qp_num (taken_wc csum) = cqe_qpn c m) by by destruct csum.
  pose proof recv_cases as Hop'. unfold mlx5dv_get_cqe_opcode in Hop'.
  revert Ec Ef Eb En F1 F2. generalize (taken csum). intros q1. cbv zeta. match goal with |- context[wc_flags ?w1] => generalize w1 end.
  intros w1 Ec Ef Eb En F1 F2.
  split; cbn; unfold mlx5_cq_read_wc_qp_num, mlx5_cq_read_wc_opcode, mlx5_cq_read_wc_flags, mlx5_cq_read_wc_byte_len, mlx5_cq_read_wc_slid, mlx5_cq_read_wc_sl, mlx5_cq_read_wc_src_qp,
    mlx5_cq_read_wc_dlid_path_bits, mlx5_cq_read_wc_imm_data, responder_wc, mlx5dv_get_cqe_opcode; cbn;
    rewrite ?Ec, ?E1, ?E2, ?E3, ?E5, ?E6, ?F1, ?F2, ?Happ.
  all: destruct Hop' as [<-|[<-|[<-|[<-|[]]]]]; cbn; rewrite ?Ec, ?E1, ?E2, ?E3, ?E5, ?E6, ?F1, ?F2, ?Happ.
  all: by rewrite ?En, ?Ef, ?Eb.
Qed.

(** The data did not fit the buffers: only the error is reported. *)
Lemma recv_failed csum id e m' s t : (e =? 0) = false ->
  At m' (set_cq_status e (set_cq_wr_id id (taken csum))) (set_wc_status e (set_wc_wr_id id (taken_wc csum))) s t ->
  same_result c m (Some CQ_OK) (Some CQ_OK) s t.
Proof using All.
  intros He (Ha & Em & Eq & Ew). split; [done|]. split; [done|]. split; [by eexists|]. intros _. unfold same_outcome. rewrite Em, Eq, Ew.
  split; [done|]. split; [done|]. intros Hk. destruct (entry_fields _ _ _ Hk) as (E1 & E2 & _).
  assert (Ec : cq_cqe64 (taken csum) = c) by by destruct csum.
  assert (En : wc_qp_num (taken_wc csum) = cqe_qpn c m) by by destruct csum.
  pose proof recv_cases as Hop'. unfold mlx5dv_get_cqe_opcode in Hop'. apply Z.eqb_neq in He.
  split; unfold mlx5_cq_read_wc_qp_num, mlx5dv_get_cqe_opcode; cbn; rewrite ?Ec, ?E1, ?E2; try done.
  by destruct Hop' as [<-|[<-|[<-|[<-|[]]]]].
Qed.

Lemma rel_resp :
  Rel (At m q w) (r ← parse_resp ctx true ver c; mret (Some r)) (r ← parse_resp ctx false ver c; mret (Some r)) (same_result c m).
Proof using All.
  unfold parse_resp, set_status. rel. rewrite Happ. cbn [negb].
  apply rel_quiet; [auto with blind nocore|apply mem_cur_rsc|]. intros [err is_srq].
  destruct (negb (err =? 0)); [by apply rel_poll_err|]. rel. apply rel_quiet; [blind|keeps|]. intros sp.
  unfold handle_responder_lazy, handle_responder. destruct is_srq; rel.
  - apply rel_blind; [auto with blind nocore|]. intros [id e] m'. rel. destruct (e =? 0) eqn:Ee; cbn [negb]; rel; apply rel_ret.
    + apply Z.eqb_eq in Ee as ->. intros s t. apply (recv_outcome false).
    + intros s t. by apply (recv_failed false).
  - apply rel_quiet; [auto with blind nocore|unfold rx_csum; keeps|]. intros csum. destruct csum; rel.
    all: apply rel_blind; [auto with blind nocore|]; intros [id e] m'; rel; destruct (e =? 0) eqn:Ee; cbn [negb]; rel; apply rel_ret.
    all: intros s t.
    + apply Z.eqb_eq in Ee as ->. apply (recv_outcome true).
    + by apply (recv_failed true).
    + apply Z.eqb_eq in Ee as ->. apply (recv_outcome false).
    + by apply (recv_failed false).
Qed.
End Receives.

(** * Requests *)

Section Requests.
Context (q : mlx5_cq) (w : ibv_wc) (cqe : Z).
Context (Hc : cq_cqe64 q = c) (Hn : wc_qp_num w = cqe_qpn c m) (Hraw : has_flag (cq_flags q) MLX5_CQ_FLAGS_RAW_WQE = false).
Context (Hop : mlx5dv_get_cqe_opcode c m = MLX5_CQE_REQ).
#[local] Abbreviation o := (Z.shiftr (sop_drop_qpn c m) 24).
Context (Ho : has_opcode req_opcodes o = true).
Context (Hin : has_opcode data_opcodes o || negb (has_flag (op_own c m) MLX5_INLINE_SCATTER_32 || has_flag (op_own c m) MLX5_INLINE_SCATTER_64) = true).

(** The queue of the lazy side at the end, for element [idx] with result [e] *)
Definition finished (wq : mlx5_wq) (idx e : Z) : mlx5_cq :=
  let q1 := if has_opcode wr_data_opcodes o then set_cached_opcode (aget (wr_data wq) idx) q else q in
  let q2 := set_cq_status e (set_cq_wr_id (aget (wrid wq) idx) q1) in
  if aget (wr_data wq) idx =? IBV_WC_DRIVER2 then set_cq_flags (Z.lor (cq_flags q2) MLX5_CQ_FLAGS_RAW_WQE) q2 else q2.

(** What the lazy side keeps of an element whose completion code is in [wr_data] *)
#[local] Abbreviation cached wq idx := (if has_opcode wr_data_opcodes o then set_cached_opcode (aget (wr_data wq) idx) q else q).

Lemma req_cases : In o req_opcodes.
Proof using Ho. apply existsb_exists in Ho as (x & Hx & E). apply Z.eqb_eq in E. by rewrite E. Qed.

Lemma good_req_kept wq idx : wc_qp_num (handle_good_req c m wq idx w) = wc_qp_num w.
Proof using Type. unfold handle_good_req. by repeat case_match. Qed.

Lemma finished_opcode wq idx e m' : entry_kept c m m' ->
  mlx5_cq_read_wc_opcode (finished wq idx e) m' = wc_opcode (handle_good_req c m wq idx w).
Proof using All.
  intros Hk. destruct (entry_fields _ _ _ Hk) as (E1 & E2 & _).
  assert (Ec : cq_cqe64 (finished wq idx e) = c) by (unfold finished; by destruct (_ =? IBV_WC_DRIVER2), (has_opcode wr_data_opcodes o)).
  assert (Er : has_flag (cq_flags (finished wq idx e)) MLX5_CQ_FLAGS_RAW_WQE = (aget (wr_data wq) idx =? IBV_WC_DRIVER2)).
  { apply negb_false_iff, Z.eqb_eq in Hraw. unfold has_flag, finished.
    destruct (_ =? IBV_WC_DRIVER2), (has_opcode wr_data_opcodes o); cbn; rewrite ?Z.land_lor_distr_l, Hraw; done. }
  assert (Eo : has_opcode wr_data_opcodes o = true -> cached_opcode (finished wq idx e) = aget (wr_data wq) idx).
  { intros E. unfold finished. rewrite E. by destruct (_ =? IBV_WC_DRIVER2). }
  revert Ec Er Eo. match goal with |- cq_cqe64 ?q1 = _ -> _ => generalize q1 end. intros q1 Ec Er Eo.
  unfold mlx5_cq_read_wc_opcode, handle_good_req, mlx5dv_get_cqe_opcode in *. rewrite Ec, E1, Hop, Er, E2.
  pose proof req_cases as Hin'. destruct (aget (wr_data wq) idx =? IBV_WC_DRIVER2) eqn:Ed.
  - cbn. repeat case_match; done.
  - revert Eo. cbn in Hin'. repeat (destruct Hin' as [<-|Hin']; [cbn; by intros Eo; rewrite ?Eo|]). done.
Qed.

Lemma req_outcome wq idx e m' s t :
  At m' (finished wq idx e) (set_wc_status e (set_wc_wr_id (aget (wrid wq) idx) (handle_good_req c m wq idx w))) s t ->
  same_result c m (Some CQ_OK) (Some CQ_OK) s t.
Proof using All.
  intros (Ha & Em & Eq & Ew). split; [done|]. split; [done|]. split; [by eexists|]. intros _. unfold same_outcome. rewrite Em, Eq, Ew.
  assert (E : cq_wr_id (finished wq idx e) = aget (wrid wq) idx /\ cq_status (finished wq idx e) = e /\ cq_cqe64 (finished wq idx e) = c).
  { unfold finished. by destruct (_ =? IBV_WC_DRIVER2), (has_opcode wr_data_opcodes o). }
  destruct E as (-> & -> & Ec). split; [done|]. split; [done|]. intros Hk. destruct (entry_fields _ _ _ Hk) as (E1 & E2 & _).
  unfold mlx5dv_get_cqe_opcode in Hop.
  split; [|unfold mlx5dv_get_cqe_opcode; rewrite Ec, E1, Hop; done|intros _; by apply finished_opcode
    |unfold mlx5dv_get_cqe_opcode; rewrite Ec, E1, Hop; done].
  unfold mlx5_cq_read_wc_qp_num. rewrite Ec, E2. cbn [wc_qp_num set_wc_status set_wc_wr_id]. by rewrite good_req_kept, Hn.
Qed.

Lemma good_req_len wq idx : has_opcode data_opcodes o = true ->
  byte_len (handle_good_req c m wq idx w) = if o =? MLX5_OPCODE_RDMA_READ then byte_cnt c m else 8.
Proof using Type.
  intros E. apply existsb_exists in E as (x & Hx & E). apply Z.eqb_eq in E. unfold handle_good_req. rewrite E.
  by destruct Hx as [<-|[<-|[<-|[]]]]; cbn; case_match.
Qed.

Lemma data_not_cached : has_opcode data_opcodes o = true -> has_opcode wr_data_opcodes o = false.
Proof using Type. intros E. apply existsb_exists in E as (x & Hx & E). apply Z.eqb_eq in E. rewrite E. by destruct Hx as [<-|[<-|[<-|[]]]]. Qed.

Lemma rel_req :
  Rel (At m q w) (r ← parse_req ctx true ver c cqe; mret (Some r)) (r ← parse_req ctx false ver c cqe; mret (Some r)) (same_result c m).
Proof using All.
  unfold parse_req. rel. apply rel_quiet; [auto with blind nocore|apply mem_req_context|].
  intros p. destruct (p =? 0); [by apply rel_poll_err|]. rel. apply rel_quiet; [auto with blind nocore|apply mem_get_qp|].
  intros qp. set (idx := Z.land _ _). unfold req_lazy, req_eager, set_status, or_flags. rel.
  match goal with |- Rel (At _ _ ?W) (mbind ?k _) (mbind ?l _) ?R => set (K := k); set (L := l); set (W1 := W) end.
  assert (Hend : forall e m', Rel (At m' (cached (sq qp) idx) W1) (K e) (L e) (same_result c m)).
  { intros e m'. unfold K, L. rel. destruct (_ =? IBV_WC_DRIVER2) eqn:Ed; rel.
    all: apply rel_blind; [auto with blind nocore|]; intros _ m2; rel; apply rel_ret; intros s t Hst; eapply req_outcome.
    all: unfold finished; rewrite Ed; exact Hst. }
  destruct (has_opcode data_opcodes o) eqn:Ed.
  - rewrite (data_not_cached Ed) in *. change ((o =? MLX5_OPCODE_RDMA_READ) || has_opcode [MLX5_OPCODE_ATOMIC_CS; MLX5_OPCODE_ATOMIC_FA] o = true) in Ed.
    unfold W1 at 2. rewrite (good_req_len (sq qp) idx Ed). destruct (o =? MLX5_OPCODE_RDMA_READ); cbn [orb] in Ed; rewrite ?Ed.
    all: apply rel_blind; [auto with blind nocore|]; exact Hend.
  - change ((o =? MLX5_OPCODE_RDMA_READ) || has_opcode [MLX5_OPCODE_ATOMIC_CS; MLX5_OPCODE_ATOMIC_FA] o = false) in Ed.
    apply orb_false_iff in Ed as [-> ->]. cbn [orb] in Hin. apply negb_true_iff, orb_false_iff in Hin as [Hi1 Hi2].
    unfold req_scatter, inline_scatter. rel. rewrite Hi1, Hi2. destruct (has_opcode wr_data_opcodes o); rel; apply Hend.
Qed.
End Requests.
End Cases.

(** * The two interfaces *)

Lemma error_not_success c m : mlx5_handle_error_cqe c m <> IBV_WC_SUCCESS.
Proof. unfold mlx5_handle_error_cqe. by repeat case_match. Qed.

Lemma lazy_flags f x : Z.land (u32 (Z.lnot MLX5_CQ_LAZY_FLAGS)) x = 0 -> has_flag (Z.land f (u32 (Z.lnot MLX5_CQ_LAZY_FLAGS))) x = false.
Proof. intros E. unfold has_flag. by rewrite <- Z.land_assoc, E, Z.land_0_r. Qed.

Lemma rel_parse ctx freeze ver c cqe m q w : plain c m = true ->
  Rel (At m q w) (parse_once ctx freeze true ver c cqe) (parse_once ctx freeze false ver c cqe) (same_result c m).
Proof.
  intros Hp. unfold parse_once, parse_begin, set_status. rel. unfold plain in Hp. fold (is_recv (mlx5dv_get_cqe_opcode c m)).
  destruct (_ =? MLX5_CQE_REQ) eqn:E1.
  { apply andb_true_iff in Hp as [Ho Hi]. apply Z.eqb_eq in E1. apply rel_req; try done. by apply lazy_flags. }
  destruct (is_recv _) eqn:E2.
  { apply negb_true_iff in Hp. apply rel_resp; try done; by apply lazy_flags. }
  assert (Hop : In (mlx5dv_get_cqe_opcode c m) [MLX5_CQE_REQ_ERR; MLX5_CQE_RESP_ERR]).
  { destruct (_ =? MLX5_CQE_REQ_ERR) eqn:E3 in Hp; [left; symmetry; by apply Z.eqb_eq|].
    apply andb_true_iff in Hp as [E4%Z.eqb_eq _]. right. by left. }
  destruct Hop as [E|[E|[]]]; rewrite <- E in Hp |- *; cbn [has_opcode existsb] in Hp |- *; cbn -[Rel mbind loud_error]; rel;
    (destruct (loud_error c m && freeze); [apply rel_fault|]).
  - apply rel_req_err; cbn; rewrite <- ?E; try done. apply error_not_success.
  - apply negb_true_iff in Hp. apply rel_resp_err; cbn; rewrite <- ?E; try done. apply error_not_success.
Qed.


(** A message of five bytes with immediate data on the receive queue of QP 7 *)
Definition recv_cqe : list Z := replicate 35 0 ++ [7; 0; 0; 1; 2] ++ replicate 7 0 ++ [5] ++ replicate 15 0 ++ [Z.shiftl MLX5_CQE_RESP_SEND_IMM 4].
Definition recv_pst : pst :=
  mk_pst demo_cq (p_tabs demo_pst) {[77 := mk_rsc MLX5_RSC_TYPE_QP 7 (OQp (demo_qp IBV_QPT_RC 0) 0)]} ∅ 77 0 demo_wc
    (device_write demo_cq 0 recv_cqe (p_mem demo_pst)) [].

