(* ===== verification/CqTerm.v ===== *)
(** Parsing stops.  [mlx5_parse_cqe] jumps back to its start for entries it handles itself:
    signature errors of a known mkey and page faults on a shared receive queue.  Each jump
    takes one more entry off the ring.  The owner bits allow at most one lap of them, whatever
    the ring holds: the fuel of the model, one pass per entry of the ring and one more, is
    never used up. *)

From stdpp Require Import base numbers list gmap.
From S2P Require Import Prelude Mem Types Wqe PostSend Recv Srq Table TagMatch CqTypes Cq CqPoll CqRing CqProps CqPollProps SendSafe.

(** * A lap *)

(** Entry [j] of the history of the ring, as the driver tests it *)
Definition seen (cq : mlx5_cq) (m : mem) (j : Z) : bool :=
  negb (mlx5dv_get_cqe_opcode (desc_at cq j) m =? MLX5_CQE_INVALID) && (Z.land (op_own (desc_at cq j) m) 1 =? lap_bit cq j).

(** The bytes of the ring that carry owner bits *)
Definition owners_kept (cq : mlx5_cq) (m m' : mem) : Prop := forall j, op_own (desc_at cq j) m' = op_own (desc_at cq j) m.

Section Lap.
#[local] Set Default Proof Using "Type*".
Context (cq : mlx5_cq) (Hw : cq_wf cq).

Lemma get_sw_cqe_seen j m : get_sw_cqe cq (u32 j) m = if seen cq m j then Some (entry_at cq j) else None.
Proof.
  unfold get_sw_cqe, seen. rewrite (ring_index cq Hw). change (get_cqe cq (j mod nent cq)) with (entry_at cq j).
  rewrite (cqe64_desc cq Hw). fold (nent cq). rewrite (ring_lap cq Hw). unfold MLX5_CQE_OWNER_MASK.
  destruct (negb _); [|done]. cbn [andb].
  replace (Z.lxor _ (lap_bit cq j) =? 0) with (Z.land (op_own (desc_at cq j) m) 1 =? lap_bit cq j); [done|].
  apply eq_bool_prop_intro. rewrite !Is_true_true, !Z.eqb_eq. by rewrite Z.lxor_eq_0_iff.
Qed.

Lemma seen_kept m m' j : owners_kept cq m m' -> seen cq m' j = seen cq m j.
Proof. intros H. unfold seen, mlx5dv_get_cqe_opcode. by rewrite H. Qed.

(** No entry is seen again a lap later. *)
Lemma seen_once m j : seen cq m (j - nent cq) = true -> seen cq m j = false.
Proof.
  unfold seen. rewrite (desc_prev cq Hw), (lap_bit_prev cq Hw). intros [-> E%Z.eqb_eq]%andb_true_iff. cbn [andb].
  apply Z.eqb_neq. rewrite E. pose proof (Z.mod_pos_bound (j / nent cq) 2). unfold lap_bit. lia.
Qed.

(** A run of entries seen one after the other is at most a lap. *)
Lemma seen_run m j k : (forall i, 0 <= i < k -> seen cq m (j + i) = true) -> k <= nent cq.
Proof.
  intros H. pose proof (nent_pos cq Hw). destruct (decide (k <= nent cq)) as [|Hk]; [done|].
  pose proof (H 0 ltac:(lia)) as Hf. pose proof (H (nent cq) ltac:(lia)) as Hl.
  rewrite (seen_once m (j + nent cq)) in Hl; [done|]. rewrite <- Hf. f_equal. lia.
Qed.
End Lap.

(** * Passes *)

Section Passes.
Context (ctx : mlx5_context) (freeze lazy ver : bool).

(** From a pass over entry [(c, cqe)] in one state to a later pass *)
Inductive passes : Z -> Z -> pst -> Z -> Z -> pst -> Prop :=
| passes_here c cqe s : passes c cqe s c cqe s
| passes_again c cqe s s1 c1 cqe1 s2 c' cqe' s' :
    parse_once ctx freeze lazy ver c cqe s = Some (None, s1) -> mlx5_get_next_cqe s1 = Some (Some (c1, cqe1), s2) ->
    passes c1 cqe1 s2 c' cqe' s' -> passes c cqe s c' cqe' s'.

Section Run.
#[local] Set Default Proof Using "Type*".
Context (cq : mlx5_cq) (Hw : cq_wf cq) (m : mem) (j : Z).

(** [k] entries were taken since the index was [j]. *)
Record taken (k : Z) (s : pst) : Prop := {
  tk_ring : cq_buf (p_cq s) = cq_buf cq /\ cqe_mask (p_cq s) = cqe_mask cq /\ cqe_sz (p_cq s) = cqe_sz cq;
  tk_cons : cons_index (p_cq s) = u32 (j + k);
  tk_mem : owners_kept cq m (p_mem s);
  tk_seen : 0 <= k /\ forall i, 0 <= i < k -> seen cq m (j + i) = true
}.

Lemma taken_none s : p_cq s = cq -> p_mem s = m -> cons_index (p_cq s) = j -> 0 <= j < 2 ^ 32 -> taken 0 s.
Proof using Type.
  intros E1 E2 E3 Hj. split; [by rewrite E1|by rewrite E3, Z.add_0_r, u32_small|by rewrite E2|]. split; [done|lia].
Qed.

Lemma taken_next k s n s' : taken k s -> mlx5_get_next_cqe s = Some (n, s') ->
  match n with
  | None => taken k s'
  | Some (c, cqe) => taken (k + 1) s' /\ c = desc_at cq (j + k) /\ p_mem s' = p_mem s
  end.
Proof.
  intros [(Eb & Em & Ez) Ec Hm [Hk Hs]]. unfold mlx5_get_next_cqe, next_cqe_sw, gets, mbind, P_bind. cbn.
  assert (E : get_sw_cqe (p_cq s) (cons_index (p_cq s)) (p_mem s) = get_sw_cqe cq (u32 (j + k)) (p_mem s)).
  { unfold get_sw_cqe, cqe64_of, get_cqe. by rewrite Eb, Em, Ez, Ec. }
  rewrite E, (get_sw_cqe_seen cq Hw), (seen_kept cq Hw _ _ _ Hm). destruct (seen cq m (j + k)) eqn:Es; intros [= <- <-]; [|by split].
  split_and!; [|by rewrite <- (cqe64_desc cq Hw); unfold cqe64_of; rewrite Ez|done]. split; [done| |done|].
  - cbn. rewrite Ec, u32_add_l. f_equal. lia.
  - split; [lia|]. intros i Hi. destruct (decide (i = k)) as [->|]; [done|]. apply Hs. lia.
Qed.

Lemma taken_pass k c cqe s x s' : taken k s -> parse_once ctx freeze lazy ver c cqe s = Some (x, s') ->
  owners_kept cq m (p_mem s') -> taken k s'.
Proof.
  intros [(Eb & Em & Ez) Ec Hm Hs] E Ho. apply keeps_parse_once in E. injection E as E1 E2 E3 E4 E5.
  split; [split_and!; congruence|congruence|done|done].
Qed.

Lemma get_next_quiet s n s' : mlx5_get_next_cqe s = Some (n, s') -> p_mem s' = p_mem s /\ (n = None -> s' = s).
Proof using Type. unfold mlx5_get_next_cqe, mbind, P_bind, gets. cbn. case_match; intros [= <- <-]; by split. Qed.

(** Any two amounts of fuel beyond the rest of the lap give the same result, and the lap is
    all that is taken. *)
Lemma parse_stops f1 : forall k c cqe s f2,
  taken k s -> nent cq - k < Z.of_nat f1 -> nent cq - k < Z.of_nat f2 ->
  (forall c' cqe' s', passes c cqe s c' cqe' s' -> owners_kept cq m (p_mem s')) ->
  mlx5_parse_cqe ctx f1 freeze lazy ver c cqe s = mlx5_parse_cqe ctx f2 freeze lazy ver c cqe s /\
  forall r s', mlx5_parse_cqe ctx f1 freeze lazy ver c cqe s = Some (r, s') ->
    exists k', k <= k' <= nent cq /\ cons_index (p_cq s') = u32 (j + k').
Proof.
  induction f1 as [|f1 IH]; intros k c cqe s [|f2] Ht H1 H2 Hp; pose proof (seen_run cq Hw m j k (proj2 (tk_seen _ _ Ht))); try lia.
  cbn [mlx5_parse_cqe]; unfold mbind, P_bind. destruct (parse_once ctx freeze lazy ver c cqe s) as [[x s1]|] eqn:E1; [|done].
  pose proof (keeps_parse_once _ _ _ _ _ _ _ _ _ E1) as E. injection E as _ _ _ _ Ec. destruct x as [r|].
  { split; [done|]. intros r' s' [= <- <-]. exists k. split; [lia|]. rewrite Ec. apply Ht. }
  destruct (mlx5_get_next_cqe s1) as [[n s2]|] eqn:E2; [|done]. destruct (get_next_quiet _ _ _ E2) as [Em Es].
  destruct n as [[c1 cqe1]|].
  - assert (Hp2 : forall c' cqe' s', passes c1 cqe1 s2 c' cqe' s' -> owners_kept cq m (p_mem s')) by (intros; eapply Hp, passes_again; eauto).
    assert (Ht1 : taken k s1) by (eapply taken_pass; [done..|]; rewrite <- Em; eapply Hp2, passes_here).
    destruct (taken_next _ _ _ _ Ht1 E2) as (Ht2 & _).
    destruct (IH (k + 1) c1 cqe1 s2 f2) as [IH1 IH2]; [done|lia..|done|]. split; [done|].
    intros r s' E. destruct (IH2 r s' E) as (k' & Hk & Ek). exists k'. split; [lia|done].
  - split; [done|]. rewrite (Es eq_refl). intros r' s' [= <- <-]. exists k. split; [lia|]. rewrite Ec. apply Ht.
Qed.
End Run.

(** ** Entries without page faults *)

Lemma handled_is_fault c s r s' : parse_resp_err lazy ver c s = Some ((r, true), s') -> is_odp_pfault_err c (p_mem s) = true.
Proof using Type.
  unfold parse_resp_err, mbind, P_bind, gets. destruct (get_cur_rsc _ _ _ s) as [[[e srq] s1]|]; [|done].
  destruct (negb (e =? 0)); [done|]. destruct srq.
  - destruct (get_srq _ s1) as [[[[[q n] tl] cmd] s2]|]; [|done]. destruct (is_odp_pfault_err c (p_mem s)); [done|].
    destruct (elem _ _ s2) as [[id s3]|]; [|done]. destruct (put_wr_id _ _ s3) as [[[] s4]|]; [|done]. cbn.
    destruct (put_srq _ _ s4) as [[[] s5]|]; [|done]. done.
  - destruct (get_rsc _ s1) as [[x s2]|]; [|done]. destruct (rsc_obj_of x), (rsc_type x =? MLX5_RSC_TYPE_RWQ); try done.
    all: destruct (put_wr_id _ _ s2) as [[[] s4]|]; [|done]; destruct (put_obj _ _ s4) as [[[] s5]|]; done.
Qed.

Lemma begin_mem c s x s' : parse_begin lazy c s = Some (x, s') -> p_mem s' = p_mem s.
Proof using Type. unfold parse_begin, mbind, P_bind, gets. destruct lazy; cbn; by intros [= _ <-]. Qed.

(** An entry that is absorbed and no page fault leaves the memory alone. *)
Lemma absorbed_mem c cqe s s1 :
  parse_once ctx freeze lazy ver c cqe s = Some (None, s1) -> is_odp_pfault_err c (p_mem s) = false -> p_mem s1 = p_mem s.
Proof using Type.
  intros E Hodp. unfold parse_once, mbind, P_bind in E. destruct (parse_begin lazy c s) as [[[] s2]|] eqn:Eb; [|done].
  apply begin_mem in Eb. rewrite <- Eb in Hodp |- *. clear Eb s. unfold gets in E. cbv beta iota in E.
  destruct (_ =? MLX5_CQE_REQ) in E; [by destruct (parse_req _ _ _ _ _ s2) as [[]|]|].
  destruct (has_opcode [_; _; _; _] _) in E; [by destruct (parse_resp _ _ _ _ s2) as [[]|]|].
  destruct (_ =? MLX5_CQE_NO_PACKET) in E; [by destruct (parse_no_packet _ _ s2) as [[]|]|].
  destruct (_ =? MLX5_CQE_SIG_ERR) in E.
  { assert (Hk : Keeps p_mem (parse_sig_err c)) by (unfold parse_sig_err; keeps).
    destruct (parse_sig_err c s2) as [[k s3]|] eqn:Es; [|done]. apply Hk in Es. destruct k; [|done]. by injection E as <-. }
  destruct (_ =? MLX5_CQE_RESIZE_CQ) in E; [done|]. destruct (has_opcode [_; _] _) in E; [|done].
  match type of E with match ?a s2 with _ => _ end = _ => destruct (a s2) as [[[] s3]|] eqn:Es; [|done] end.
  assert (Em : p_mem s3 = p_mem s2) by (destruct lazy; cbn in Es; by injection Es as <-). rewrite <- Em in Hodp. destruct (loud_error _ _ && freeze); [done|].
  destruct (_ =? MLX5_CQE_REQ_ERR) in E; [by destruct (parse_req_err _ _ _ s3) as [[]|]|].
  destruct (parse_resp_err lazy ver c s3) as [[[r h] s4]|] eqn:Er; [|done]. destruct h; [|done].
  by rewrite (handled_is_fault _ _ _ _ Er) in Hodp.
Qed.

(** Without page faults the passes keep all of memory. *)
Lemma passes_quiet cq (Hw : cq_wf cq) m : (forall j, is_odp_pfault_err (desc_at cq j) m = false) ->
  forall c cqe s c' cqe' s', passes c cqe s c' cqe' s' -> forall j k, taken cq m j k s -> p_mem s = m -> is_odp_pfault_err c m = false -> p_mem s' = m.
Proof using Type.
  intros Hall c cqe s c' cqe' s' Hp. induction Hp as [|c cqe s s1 c1 cqe1 s2 c' cqe' s' E1 E2 _ IH]; intros j k Ht Hm Hodp; [done|].
  subst m. pose proof (absorbed_mem _ _ _ _ E1 Hodp) as Em. destruct (get_next_quiet _ _ _ E2) as [Em2 _].
  assert (Ht1 : taken cq (p_mem s) j k s1) by (eapply taken_pass; [done..|rewrite Em; apply Ht]).
  destruct (taken_next cq Hw _ _ _ _ _ _ Ht1 E2) as (Ht2 & -> & _). eapply IH; [done|congruence|done].
Qed.

(** C15.  Parsing an entry stops after at most one lap of the ring.  Whatever the ring
    holds, as long as the passes leave the owner bits alone, [mlx5_parse_cqe] returns the
    same for every bound on its passes from one more than the entries of the ring on, so that
    the loop of the source ends; and it takes at most as many further entries as the ring
    has. *)
Theorem parse_terminates c cqe s fuel :
  cq_wf (p_cq s) -> 0 <= cons_index (p_cq s) < 2 ^ 32 -> (forall c' cqe' s', passes c cqe s c' cqe' s' -> owners_kept (p_cq s) (p_mem s) (p_mem s')) ->
  (parse_fuel (p_cq s) <= fuel)%nat ->
  mlx5_parse_cqe ctx fuel freeze lazy ver c cqe s = mlx5_parse_cqe ctx (parse_fuel (p_cq s)) freeze lazy ver c cqe s /\
  forall r s', mlx5_parse_cqe ctx fuel freeze lazy ver c cqe s = Some (r, s') ->
    exists k, 0 <= k <= nent (p_cq s) /\ cons_index (p_cq s') = u32 (cons_index (p_cq s) + k).
Proof.
  intros Hw Hc Hp Hf. pose proof (nent_pos _ Hw).
  assert (E : Z.of_nat (parse_fuel (p_cq s)) = nent (p_cq s) + 1) by (unfold parse_fuel; fold (nent (p_cq s)); lia).
  apply (parse_stops (p_cq s) Hw (p_mem s) (cons_index (p_cq s))); [by apply taken_none|lia..|done].
Qed.
End Passes.

(** ** Witness *)

(** A signature error of an mkey, then a completion, on a ring of two entries *)
Definition sig_cqe : list Z := replicate 36 0 ++ [0; 0; 3; 0] ++ replicate 23 0 ++ [Z.shiftl MLX5_CQE_SIG_ERR 4].
Definition sig_pst : pst :=
  set_p_cq (set_cons_index 1 demo_cq) (mk_pst demo_cq (mlx5_store_mkey true (p_tabs demo_pst) 3 99).2 ∅ {[99 := Some (mk_ses (mk_se 0 0 0 0 0 0) 0 false false)]} 0 0 demo_wc
    (device_write demo_cq 1 (replicate 63 0 ++ [Z.shiftl MLX5_CQE_RESIZE_CQ 4]) (device_write demo_cq 0 sig_cqe (p_mem demo_pst))) []).

Lemma parse_terminates_witness :
  mlx5_parse_cqe demo_ctx 100 false false true 4096 4096 sig_pst = mlx5_parse_cqe demo_ctx 3 false false true 4096 4096 sig_pst /\
  (fun x => (x.1, cons_index (p_cq x.2))) <$> mlx5_parse_cqe demo_ctx 3 false false true 4096 4096 sig_pst = Some (CQ_OK, 2).
Proof.
  assert (Hj : forall j, is_odp_pfault_err (desc_at (p_cq sig_pst) j) (p_mem sig_pst) = false).
  { intros j. unfold desc_at, entry_at. change (nent (p_cq sig_pst)) with 2.
    assert (j mod 2 = 0 \/ j mod 2 = 1) as [-> | ->] by (pose proof (Z.mod_pos_bound j 2); lia); by vm_compute. }
  assert (Hw : cq_wf (p_cq sig_pst)) by (split; [exists 1; done|by left]).
  split; [|by vm_compute].
  apply (parse_terminates demo_ctx false false true 4096 4096 sig_pst 100 Hw); [done| |vm_compute; lia].
  intros c' cqe' s' Hp i.
  rewrite (passes_quiet demo_ctx false false true (p_cq sig_pst) Hw (p_mem sig_pst) Hj _ _ _ _ _ _ Hp 1 0); [done|by apply taken_none|done|by vm_compute].
Defined.
