(* ===== verification/TagProps.v ===== *)
(** Tag matching keeps its promises: the array of tags behaves as a pool of [max_num_tags]
    tags, the ring of pending operations as a queue, whatever the application posts and the
    device completes.  A tag is lent to the device by an add and comes back, once, when the
    device has reported everything it owes for it. *)

From stdpp Require Import base numbers list gmap.
From S2P Require Import Prelude Mem Types Wqe PostSend SendSafe SendQueue Recv Srq SrqProps Table TagMatch CqTypes Cq CqRing CqProps.

(** * The pool of tags *)

Definition tag_of (tl : tag_list) (i : Z) : mlx5_tag_entry := default (mk_tag (-1) 0 0 0 0 0) (tag_at tl i).
Definition next_of (tl : tag_list) (i : Z) : Z := tag_next (tag_of tl i).
Definition upd {A} (f : Z -> A) (i : Z) (x : A) (j : Z) : A := if decide (j = i) then x else f j.

(** [F] are the free tags in order, [owe] the completions the driver still waits for. *)
Record pool_rep (n : Z) (tl : tag_list) (F : list Z) (owe : Z -> Z) : Prop := {
  pr_len : Z.of_nat (length (tm_list tl)) = n + 1;
  pr_free : queue (next_of tl) (tm_head tl) (tm_tail tl) F;
  pr_end : next_of tl (tm_tail tl) = -1;
  pr_nodup : NoDup F;
  pr_owe : forall i, 0 <= i <= n -> expect_cqe (tag_of tl i) = owe i /\ 0 <= owe i < 128;
  pr_in : forall i, i ∈ F <-> 0 <= i <= n /\ owe i = 0
}.

Lemma s8_small x : -128 <= x < 128 -> s8 x = x.
Proof. intros ?. unfold s8. rewrite Z.mod_small; lia. Qed.

Section Pool.
#[local] Set Default Proof Using "Type".
Context (n : Z).

Lemma tag_at_in tl i : Z.of_nat (length (tm_list tl)) = n + 1 -> 0 <= i <= n -> tag_at tl i = Some (tag_of tl i).
Proof.
  intros Hl Hi. unfold tag_of, tag_at. rewrite (proj2 (Z.leb_le 0 i)) by lia.
  destruct (lookup_lt_is_Some_2 (tm_list tl) (Z.to_nat i)) as [t ->]; [lia|done].
Qed.

Lemma tag_of_put tl i t j : Z.of_nat (length (tm_list tl)) = n + 1 -> 0 <= i <= n ->
  tag_of (put_tag i t tl) j = upd (tag_of tl) i t j.
Proof.
  intros Hl Hi. unfold tag_of, tag_at, upd. cbn. destruct (decide (j = i)) as [->|Hne].
  - rewrite (proj2 (Z.leb_le 0 i)) by lia. rewrite list_lookup_insert_eq by lia. done.
  - destruct (Z.leb_spec 0 j); [|done]. rewrite list_lookup_insert_ne by lia. done.
Qed.

Lemma len_put tl i t : length (tm_list (put_tag i t tl)) = length (tm_list tl).
Proof. cbn. apply length_insert. Qed.

Lemma pool_range tl F owe i : pool_rep n tl F owe -> i ∈ F -> 0 <= i <= n.
Proof. intros R Hi. by apply (pr_in _ _ _ _ R) in Hi as []. Qed.

Lemma pool_tail tl F owe : pool_rep n tl F owe -> tm_tail tl ∈ F.
Proof. intros R. destruct (pr_free _ _ _ _ R) as [_ H _]. rewrite last_lookup in H. by eapply list_elem_of_lookup_2. Qed.

Lemma pool_head tl F owe : pool_rep n tl F owe -> tm_head tl ∈ F.
Proof. intros R. destruct (pr_free _ _ _ _ R) as [H _ _]. by eapply list_elem_of_lookup_2. Qed.

(** A tag that owes is given one completion more or fewer to wait for. *)
Lemma pool_set tl F owe i t :
  pool_rep n tl F owe -> 0 <= i <= n -> 1 <= owe i -> 1 <= expect_cqe t < 128 ->
  pool_rep n (put_tag i t tl) F (upd owe i (expect_cqe t)).
Proof.
  intros R Hi Ho Ht. destruct R as [Hl Hf He Hnd Hw Hin].
  assert (Hne : forall j, j ∈ F -> j <> i) by (intros j Hj ->; apply Hin in Hj; lia).
  assert (Htl : tm_tail tl ∈ F) by (destruct Hf as [_ H _]; rewrite last_lookup in H; by eapply list_elem_of_lookup_2).
  assert (Hnx : forall j, j ∈ F -> next_of (put_tag i t tl) j = next_of tl j).
  { intros j Hj. unfold next_of. rewrite tag_of_put by done. unfold upd. by rewrite decide_False by auto. }
  split; [by rewrite len_put|by eapply queue_ext| |done| |].
  - change (tm_tail (put_tag i t tl)) with (tm_tail tl). by rewrite Hnx.
  - intros j Hj. rewrite tag_of_put by done. unfold upd. destruct (decide (j = i)); [lia|by apply Hw].
  - intros j. rewrite Hin. unfold upd. destruct (decide (j = i)) as [->|]; [lia|done].
Qed.

(** The last completion gives a tag back. *)
Lemma pool_return tl F owe i t :
  pool_rep n tl F owe -> 0 <= i <= n -> 1 <= owe i -> expect_cqe t = 0 -> tag_next t = -1 ->
  pool_rep n (set_tm_tail i (put_tag (tm_tail tl) (set_tag_next i (tag_of tl (tm_tail tl))) (put_tag i t tl)))
    (F ++ [i]) (upd owe i 0).
Proof.
  intros R Hi Ho Ht Hnx. pose proof (pool_tail _ _ _ R) as Htl. pose proof (pool_range _ _ _ _ R Htl) as Htr.
  destruct R as [Hl Hf He Hnd Hw Hin].
  assert (Hni : i ∉ F) by (intros H; apply Hin in H; lia). assert (Hne : tm_tail tl <> i) by (intros <-; done).
  assert (Htag : forall j, tag_of (set_tm_tail i (put_tag (tm_tail tl) (set_tag_next i (tag_of tl (tm_tail tl))) (put_tag i t tl))) j =
    upd (upd (tag_of tl) i t) (tm_tail tl) (set_tag_next i (tag_of tl (tm_tail tl))) j).
  { intros j. change (tag_of (set_tm_tail i ?x) j) with (tag_of x j). rewrite tag_of_put; [|by rewrite len_put|done].
    unfold upd. destruct (decide (j = tm_tail tl)); [done|]. by rewrite tag_of_put. }
  split; cbn [tm_tail tm_head set_tm_tail].
  - cbn. by rewrite !length_insert.
  - apply (queue_snoc (next_of tl) _ _ (tm_tail tl)); [done| |done|].
    + unfold next_of. rewrite Htag. unfold upd. by rewrite decide_True.
    + intros j Hj Hjt. unfold next_of. rewrite Htag. unfold upd. rewrite decide_False by done.
      rewrite decide_False; [done|]. by intros ->.
  - unfold next_of. rewrite Htag. unfold upd. rewrite decide_False by done. by rewrite decide_True.
  - apply NoDup_app. split; [done|]. split; [|apply NoDup_singleton]. intros j Hj ->%list_elem_of_singleton. done.
  - intros j Hj. rewrite Htag. unfold upd. destruct (decide (j = tm_tail tl)) as [->|].
    + rewrite decide_False by done. cbn. by apply Hw.
    + destruct (decide (j = i)) as [->|]; [lia|by apply Hw].
  - intros j. rewrite elem_of_app, list_elem_of_singleton, Hin. unfold upd. destruct (decide (j = i)) as [->|]; [lia|].
    split; [intros [?|?]; [done|congruence]|by left].
Qed.

(** [mlx5_tm_release_tag] *)
Lemma release_pool tl F owe i :
  pool_rep n tl F owe -> 0 <= i <= n -> 1 <= owe i ->
  exists tl', mlx5_tm_release_tag i tl = Some tl' /\
    pool_rep n tl' (if decide (owe i = 1) then F ++ [i] else F) (upd owe i (owe i - 1)) /\
    tm_op tl' = tm_op tl /\ op_head tl' = op_head tl /\ op_tail tl' = op_tail tl /\
    forall j, tag_wr_id (tag_of tl' j) = tag_wr_id (tag_of tl j).
Proof.
  intros R Hi Ho. pose proof (pr_len _ _ _ _ R) as Hl. destruct (pr_owe _ _ _ _ R i Hi) as [Ee Hb].
  pose proof (pool_range _ _ _ _ R (pool_tail _ _ _ R)) as Htr.
  unfold mlx5_tm_release_tag. rewrite (tag_at_in tl i) by done. cbn. rewrite Ee, s8_small by lia.
  destruct (decide (owe i = 1)) as [E1|Hn1].
  - rewrite E1. cbn -[put_tag tag_at].
    change (tm_tail (put_tag i ?t tl)) with (tm_tail tl).
    assert (Hni : tm_tail tl <> i).
    { intros E. pose proof (pool_tail _ _ _ R) as H. rewrite E in H. apply (pr_in _ _ _ _ R) in H. lia. }
    rewrite tag_at_in; [|by rewrite len_put|done]. cbn -[put_tag tag_at].
    rewrite tag_of_put by done. unfold upd at 1. rewrite decide_False by done.
    eexists. split; [reflexivity|]. split; [by apply pool_return|]. split_and!; try done.
    intros j. change (tag_of (set_tm_tail i ?x) j) with (tag_of x j). rewrite tag_of_put; [|by rewrite len_put|done].
    unfold upd. destruct (decide (j = tm_tail tl)) as [->|]; [done|]. rewrite tag_of_put by done. unfold upd. by destruct (decide (j = i)) as [->|].
  - rewrite (proj2 (Z.eqb_neq _ _)) by lia. eexists. split; [reflexivity|].
    split; [apply (pool_set tl F owe i (set_expect_cqe (owe i - 1) (tag_of tl i))); cbn; (done || lia)|]. split_and!; try done.
    intros j. rewrite tag_of_put by done. unfold upd. by destruct (decide (j = i)) as [->|].
Qed.

(** An add takes the first free tag, if it is not the only one. *)
Lemma pool_full tl F owe : pool_rep n tl F owe -> (length F <= 1)%nat -> next_of tl (tm_head tl) = -1.
Proof.
  intros R Hl. destruct (queue_cons _ _ _ _ (pr_free _ _ _ _ R)) as [F' ->]. destruct F' as [|]; [|simpl in Hl; lia].
  rewrite (queue_one _ _ _ _ (pr_free _ _ _ _ R)). apply R.
Qed.

Lemma pool_take tl h F owe t :
  pool_rep n tl (h :: F) owe -> F <> [] -> expect_cqe t = 1 ->
  tm_head tl = h /\ 0 <= next_of tl h /\ pool_rep n (put_tag h t (set_tm_head (next_of tl h) tl)) F (upd owe h 1).
Proof.
  intros R Hne Ht. pose proof (pool_range _ _ _ h R ltac:(by left)) as Hh.
  pose proof (pool_range _ _ _ _ R (pool_tail _ _ _ R)) as Htr. pose proof (q_head _ _ _ _ (pr_free _ _ _ _ R)) as Eh. injection Eh as Eh.
  pose proof (queue_pop _ _ _ _ _ Hne (pr_free _ _ _ _ R)) as Hq. rewrite <- Eh in Hq.
  assert (Hn0 : next_of tl h ∈ F) by (destruct Hq as [H _ _]; by eapply list_elem_of_lookup_2).
  pose proof (pool_range _ _ _ (next_of tl h) R ltac:(by right)) as Hnr.
  destruct R as [Hl Hf He Hnd Hw Hin]. apply NoDup_cons in Hnd as [Hhn Hnd].
  assert (Htl : tm_tail tl ∈ F) by (destruct Hq as [_ H _]; rewrite last_lookup in H; by eapply list_elem_of_lookup_2).
  assert (Htag : forall j, tag_of (put_tag h t (set_tm_head (next_of tl h) tl)) j = upd (tag_of tl) h t j).
  { intros j. by apply (tag_of_put (set_tm_head (next_of tl h) tl)). }
  assert (Hnx : forall j, j ∈ F -> next_of (put_tag h t (set_tm_head (next_of tl h) tl)) j = next_of tl j).
  { intros j Hj. unfold next_of at 1. rewrite Htag. unfold upd. rewrite decide_False; [done|]. by intros ->. }
  split; [done|]. split; [lia|]. split; cbn [tm_tail tm_head put_tag set_tm_list set_tm_head].
  - cbn. by rewrite length_insert.
  - by eapply queue_ext.
  - change (next_of (put_tag h t (set_tm_head (next_of tl h) tl)) (tm_tail tl) = -1). by rewrite Hnx.
  - done.
  - intros j Hj. change (expect_cqe (tag_of (put_tag h t (set_tm_head (next_of tl h) tl)) j) = upd owe h 1 j /\ 0 <= upd owe h 1 j < 128).
    rewrite Htag. unfold upd. destruct (decide (j = h)); [lia|by apply Hw].
  - intros j. unfold upd. destruct (decide (j = h)) as [->|Hj]; [split; [done|lia]|].
    rewrite <- Hin, elem_of_cons. split; [by right|]. by intros [?|?].
Qed.
End Pool.

(** * The ring of pending operations *)

Record ops_rep (cnt : Z) (tl : tag_list) (ops : list mlx5_srq_op) : Prop := {
  or_cnt : exists k, 0 <= k <= 31 /\ cnt = 2 ^ k;
  or_len : Z.of_nat (length (tm_op tl)) = cnt;
  or_tail : op_tail tl = s32 (op_head tl + Z.of_nat (length ops));
  or_fit : Z.of_nat (length ops) <= cnt;
  or_at : forall k op, ops !! k = Some op -> tm_op tl !! Z.to_nat ((op_head tl + Z.of_nat k) mod cnt) = Some op
}.

Lemma s32_mod x k : 0 <= k <= 32 -> s32 x mod 2 ^ k = x mod 2 ^ k.
Proof.
  intros Hk. unfold s32. assert (E : 2 ^ 32 = 2 ^ (32 - k) * 2 ^ k) by (rewrite <- Z.pow_add_r by lia; f_equal; lia).
  rewrite (Z.mod_eq (x + 2 ^ 31)) by lia. rewrite E.
  replace (x + 2 ^ 31 - 2 ^ (32 - k) * 2 ^ k * ((x + 2 ^ 31) / (2 ^ (32 - k) * 2 ^ k)) - 2 ^ 31)
    with (x + (- (2 ^ (32 - k) * ((x + 2 ^ 31) / (2 ^ (32 - k) * 2 ^ k)))) * 2 ^ k) by ring.
  apply Z.mod_add. pose proof (Z.pow_pos_nonneg 2 k). lia.
Qed.

Lemma s32_add_l x y : s32 (s32 x + y) = s32 (x + y).
Proof.
  unfold s32. f_equal. replace ((x + 2 ^ 31) mod 2 ^ 32 - 2 ^ 31 + y + 2 ^ 31) with ((x + 2 ^ 31) mod 2 ^ 32 + y) by lia.
  rewrite Zplus_mod_idemp_l. f_equal. lia.
Qed.

Section Ring.
#[local] Set Default Proof Using "Type".
Context (cnt : Z).

Lemma ops_slot k x : 0 <= k <= 31 -> cnt = 2 ^ k -> Z.land (s32 x) (cnt - 1) = x mod cnt.
Proof. intros Hk ->. rewrite <- (s32_mod x k) by lia. rewrite <- Z.land_ones by lia. f_equal. rewrite Z.ones_equiv. lia. Qed.

Lemma ops_same tl tl' ops :
  tm_op tl' = tm_op tl -> op_head tl' = op_head tl -> op_tail tl' = op_tail tl -> ops_rep cnt tl ops -> ops_rep cnt tl' ops.
Proof. intros E1 E2 E3 []. split; rewrite ?E1, ?E2, ?E3; done. Qed.

Lemma ops_push tl ops op :
  ops_rep cnt tl ops -> Z.of_nat (length ops) < cnt ->
  ops_rep cnt (set_ops (<[Z.to_nat (Z.land (op_tail tl) (cnt - 1)) := op]> (tm_op tl)) (op_head tl) (s32 (op_tail tl + 1)) tl) (ops ++ [op]).
Proof.
  intros [(k & Hk & Ec) Hl Ht Hf Ha] Hlt. pose proof (Z.pow_pos_nonneg 2 k). split; cbn; rewrite ?length_app, ?length_insert; cbn.
  - by exists k.
  - done.
  - rewrite Ht, s32_add_l. f_equal. lia.
  - lia.
  - intros j op' Hj. rewrite Ht, (ops_slot k) by done. pose proof (Z.mod_pos_bound (op_head tl + Z.of_nat (length ops)) cnt).
    pose proof (Z.mod_pos_bound (op_head tl + Z.of_nat j) cnt).
    apply lookup_snoc_Some in Hj as [[Hj Hop]|[-> <-]]; [|apply list_lookup_insert_eq; lia].
    rewrite list_lookup_insert_ne; [by apply Ha|]. intros E. apply Z2Nat.inj in E; [|lia..].
    apply (near_mod cnt) in E; [done|lia..].
Qed.

Lemma ops_pop tl op ops :
  ops_rep cnt tl (op :: ops) -> -2 ^ 31 <= op_head tl < 2 ^ 31 ->
  0 <= Z.land (op_head tl) (cnt - 1) /\ tm_op tl !! Z.to_nat (Z.land (op_head tl) (cnt - 1)) = Some op /\
  ops_rep cnt (set_ops (tm_op tl) (s32 (op_head tl + 1)) (op_tail tl) tl) ops.
Proof.
  intros [(k & Hk & Ec) Hl Ht Hf Ha] Hh. pose proof (Z.pow_pos_nonneg 2 k).
  assert (E : Z.land (op_head tl) (cnt - 1) = op_head tl mod cnt).
  { rewrite <- (ops_slot k) by done. f_equal. symmetry. by apply s32_small. }
  rewrite E. split; [apply Z.mod_pos_bound; lia|]. split; [rewrite <- (Ha 0%nat op eq_refl); f_equal; f_equal; f_equal; lia|].
  split; cbn in *; [by exists k|done|rewrite Ht, s32_add_l; f_equal; lia|lia|].
  intros j op' Hj. rewrite <- (Ha (S j) op' Hj). f_equal. f_equal.
  rewrite Ec, <- Z.add_mod_idemp_l, s32_mod, Z.add_mod_idemp_l by lia. f_equal. lia.
Qed.
End Ring.

(** * The abstract list *)

(** The free tags in order; the tags the device holds, each with the identifier of its
    receive; the operations that will be reported, each with its tag, its identifier and its
    position in the command queue; the positions [t_lo .. t_hi) of that queue in use *)
Record tags : Type := mk_tags { t_free : list Z; t_own : gmap Z Z; t_ops : list (option Z * Z * Z); t_lo : Z; t_hi : Z }.

Definition cnt_of (i : Z) (ops : list (option Z * Z * Z)) : Z := Z.of_nat (length (filter (fun o => o.1.1 = Some i) ops)).
Definition owed (a : tags) (i : Z) : Z := (if t_own a !! i is Some _ then 1 else 0) + cnt_of i (t_ops a).

(** A tag that is owed nothing more is free again. *)
Definition settle (i : Z) (a : tags) : tags :=
  if decide (owed a i = 0) then mk_tags (t_free a ++ [i]) (t_own a) (t_ops a) (t_lo a) (t_hi a) else a.

Definition signaled (wr : ibv_ops_wr) : bool := has_flag (ow_flags wr) IBV_OPS_SIGNALED.

Definition a_op (tag : option Z) (wr : ibv_ops_wr) (a : tags) : tags :=
  mk_tags (t_free a) (t_own a) (if signaled wr then t_ops a ++ [(tag, ow_wr_id wr, t_hi a)] else t_ops a) (t_lo a) (t_hi a).
Definition a_hi (a : tags) : tags := mk_tags (t_free a) (t_own a) (t_ops a) (t_lo a) (t_hi a + 1).

(** One request: the outcome, the handle it leaves, the list *)
Definition a_wr (room : Z) (wr : ibv_ops_wr) (a : tags) : outcome * Z * tags :=
  if room <=? t_hi a - t_lo a then (Err ENOMEM, handle wr, a)
  else if ow_opcode wr =? IBV_WR_TAG_ADD then
    match t_free a with
    | h :: ((_ :: _) as F) => (Ok, h, a_hi (a_op (Some h) wr (mk_tags F (<[h := recv_wr_id wr]> (t_own a)) (t_ops a) (t_lo a) (t_hi a))))
    | _ => (Err ENOMEM, handle wr, a)
    end
  else if ow_opcode wr =? IBV_WR_TAG_DEL then
    let i := handle wr in
    (Ok, i, a_hi (if signaled wr then a_op (Some i) wr a
                  else settle i (mk_tags (t_free a) (delete i (t_own a)) (t_ops a) (t_lo a) (t_hi a))))
  else if ow_opcode wr =? IBV_WR_TAG_SYNC then (Ok, handle wr, a_hi (a_op None wr a))
  else (Err EINVAL, handle wr, a).

Fixpoint a_post (room : Z) (l : list ibv_ops_wr) (a : tags) : outcome * Z * list Z * tags :=
  match l with
  | [] => (Ok, 0, [], a)
  | wr :: l' =>
    let '(o, h, a) := a_wr room wr a in
    match o with
    | Ok => let '(o, k, hs, a) := a_post room l' a in (o, k + 1, h :: hs, a)
    | _ => (o, 0, h :: (handle <$> l'), a)
    end
  end.

(** The application removes tags it holds, and does not ask for more reports on one than
    the counter can hold. *)
Definition wr_ok (wr : ibv_ops_wr) (a : tags) : Prop :=
  ow_opcode wr = IBV_WR_TAG_DEL -> is_Some (t_own a !! handle wr) /\ cnt_of (handle wr) (t_ops a) < 126.

Fixpoint post_ok (room : Z) (l : list ibv_ops_wr) (a : tags) : Prop :=
  match l with
  | [] => True
  | wr :: l' => wr_ok wr a /\ let '(o, _, a) := a_wr room wr a in match o with Ok => post_ok room l' a | _ => True end
  end.

(** * Representation *)

Fixpoint pos_ok (lo hi : Z) (ops : list (option Z * Z * Z)) : Prop :=
  match ops with
  | [] => lo <= hi
  | o :: ops' => lo <= o.2 < hi /\ pos_ok (o.2 + 1) hi ops'
  end.

Record tags_rep (n cnt : Z) (tl : tag_list) (a : tags) : Prop := {
  tr_ops : exists ops, ops_rep cnt tl ops /\
    Forall2 (fun op o => op_tag op = o.1.1 /\ op_wr_id op = o.1.2 /\ op_wqe_head op = u32 o.2) ops (t_ops a);
  tr_head : - 2 ^ 31 <= op_head tl < 2 ^ 31;
  tr_pool : pool_rep n tl (t_free a) (owed a);
  tr_own : forall i id, t_own a !! i = Some id -> 0 <= i <= n /\ tag_wr_id (tag_of tl i) = id;
  tr_named : forall o i, o ∈ t_ops a -> o.1.1 = Some i -> 0 <= i <= n;
  tr_pos : pos_ok (t_lo a) (t_hi a) (t_ops a)
}.

Lemma pool_ext n tl F owe owe' : (forall i, owe' i = owe i) -> pool_rep n tl F owe -> pool_rep n tl F owe'.
Proof. intros E []. split; try done; intros i; rewrite E; auto. Qed.

Lemma pos_len lo hi ops : pos_ok lo hi ops -> Z.of_nat (length ops) <= hi - lo.
Proof. revert lo. induction ops as [|o ops IH]; intros lo H; cbn in *; [lia|]. destruct H as [? H]. apply IH in H. lia. Qed.

Lemma pos_more lo hi ops : pos_ok lo hi ops -> pos_ok lo (hi + 1) ops.
Proof. revert lo. induction ops as [|o ops IH]; intros lo H; cbn in *; [lia|]. destruct H as [? H]. split; [lia|auto]. Qed.

Lemma pos_snoc lo hi ops x : pos_ok lo hi ops -> pos_ok lo (hi + 1) (ops ++ [(x, hi)]).
Proof.
  revert lo. induction ops as [|o ops IH]; intros lo H; cbn in *; [lia|]. destruct H as [? H]. split; [lia|auto].
Qed.

Lemma cnt_snoc i ops o : cnt_of i (ops ++ [o]) = cnt_of i ops + (if decide (o.1.1 = Some i) then 1 else 0).
Proof.
  unfold cnt_of. rewrite filter_app, length_app. cbn. destruct (decide (o.1.1 = Some i)); cbn; lia.
Qed.

Lemma cnt_cons i ops o : cnt_of i (o :: ops) = (if decide (o.1.1 = Some i) then 1 else 0) + cnt_of i ops.
Proof. unfold cnt_of. rewrite filter_cons. destruct (decide (o.1.1 = Some i)); cbn [length]; lia. Qed.

Lemma cnt_nonneg i ops : 0 <= cnt_of i ops.
Proof. unfold cnt_of. lia. Qed.

Section Steps.
#[local] Set Default Proof Using "Type".
Context (n cnt : Z).

(** Fields the representation does not mention *)
Lemma tags_unexp tl a x y : tags_rep n cnt tl a -> tags_rep n cnt (set_unexp x y tl) a.
Proof.
  intros [(ops & Ho & HF) Hh [] Hw Hn Hp]. split; [exists ops; split; [by destruct Ho; split|done]|done|by split|done|done|done].
Qed.

Lemma tags_buf tl a i p sz : 0 <= i <= n -> tags_rep n cnt tl a -> tags_rep n cnt (put_tag i (set_tag_buf p sz (tag_of tl i)) tl) a.
Proof.
  intros Hi [(ops & Ho & HF) Hh R Hw Hn Hp]. pose proof (pr_len _ _ _ _ R) as Hl.
  assert (E : forall j, tag_next (tag_of (put_tag i (set_tag_buf p sz (tag_of tl i)) tl) j) = tag_next (tag_of tl j) /\
    expect_cqe (tag_of (put_tag i (set_tag_buf p sz (tag_of tl i)) tl) j) = expect_cqe (tag_of tl j) /\
    tag_wr_id (tag_of (put_tag i (set_tag_buf p sz (tag_of tl i)) tl) j) = tag_wr_id (tag_of tl j)).
  { intros j. rewrite (tag_of_put n) by done. unfold upd. by destruct (decide (j = i)) as [->|]. }
  split; [exists ops; split; [by destruct Ho; split|done]|done| | |done|done].
  - destruct R as [_ Hf He Hnd Hwe Hin]. split; [by rewrite len_put| | |done| |done].
    + eapply queue_ext; [|exact Hf]. intros j _. unfold next_of. by apply E.
    + cbn. rewrite <- He. unfold next_of. apply (E (tm_tail tl)).
    + intros j Hj. rewrite (proj1 (proj2 (E j))). auto.
  - intros j id Hj. rewrite (proj2 (proj2 (E j))). auto.
Qed.

Lemma ops_room tl a : tags_rep n cnt tl a -> forall ops, ops_rep cnt tl ops -> length ops = length (t_ops a) ->
  t_hi a - t_lo a < cnt -> Z.of_nat (length ops) < cnt.
Proof. intros R ops Ho El Hr. pose proof (pos_len _ _ _ (tr_pos _ _ _ _ R)). lia. Qed.

(** [mlx5_tm_add_op] when a report is asked for *)
Lemma add_op_rep qp wr tag nreq tl a :
  tags_rep n cnt tl a -> wqe_cnt (sq qp) = cnt -> u32 (wq_head (sq qp) + nreq) = u32 (t_hi a) -> t_hi a - t_lo a < cnt ->
  (forall i, tag = Some i -> 0 <= i <= n /\ 1 <= owed a i < 127) ->
  exists tl', add_op_if_signaled qp wr tag nreq tl = Some tl' /\ tags_rep n cnt tl' (a_hi (a_op tag wr a)) /\
    forall j, tag_wr_id (tag_of tl' j) = tag_wr_id (tag_of tl j).
Proof.
  intros R Ec Eh Hr Ht. unfold add_op_if_signaled, a_op, a_hi. fold (signaled wr). destruct R as [(ops & Ho & HF) Hh Rp Hw Hn Hp].
  destruct (signaled wr); cycle 1.
  { exists tl. split; [done|]. split; [|done]. split; cbn; try done; [by exists ops|by apply pos_more]. }
  pose proof (pos_len _ _ _ Hp) as Hlen. pose proof (Forall2_length _ _ _ HF) as El.
  pose proof (ops_push cnt tl ops (mk_op tag (ow_wr_id wr) (u32 (wq_head (sq qp) + nreq))) Ho ltac:(lia)) as Hpush.
  unfold mlx5_tm_add_op. rewrite Ec. set (tl1 := set_ops _ _ _ tl) in *.
  assert (HF' : Forall2 (fun op o => op_tag op = o.1.1 /\ op_wr_id op = o.1.2 /\ op_wqe_head op = u32 o.2)
    (ops ++ [mk_op tag (ow_wr_id wr) (u32 (wq_head (sq qp) + nreq))]) (t_ops a ++ [(tag, ow_wr_id wr, t_hi a)])).
  { apply Forall2_app; [done|]. by constructor. }
  assert (Hn' : forall o i, o ∈ t_ops a ++ [(tag, ow_wr_id wr, t_hi a)] -> o.1.1 = Some i -> 0 <= i <= n).
  { intros o i Hoi Ei. apply elem_of_app in Hoi as [Hoi|Hoi]; [by eapply Hn|]. apply list_elem_of_singleton in Hoi as ->. by apply Ht. }
  assert (Rp1 : pool_rep n tl1 (t_free a) (owed a)) by (destruct Rp; by split).
  destruct tag as [i|].
  - destruct (Ht i eq_refl) as [Hi Hoi]. rewrite (tag_at_in n tl1 i) by (done || apply Rp1). cbn.
    destruct (pr_owe _ _ _ _ Rp1 i Hi) as [Ee _]. change (tag_of tl1) with (tag_of tl) in *.
    rewrite Ee, s8_small by lia. eexists. split; [reflexivity|]. split.
    + split; cbn -[put_tag]; [eexists; split; [by eapply ops_same; [..|exact Hpush]|done]|done| | |done|by apply pos_snoc].
      * eapply pool_ext; [|apply (pool_set n tl1 _ _ i (set_expect_cqe (owed a i + 1) (tag_of tl i)) Rp1 Hi); cbn; lia].
        intros j. unfold owed, upd. cbn. rewrite cnt_snoc. cbn. destruct (decide (j = i)) as [->|]; [rewrite decide_True by done; lia|].
        rewrite decide_False by congruence. lia.
      * intros j id Hj. destruct (Hw j id Hj) as [? <-]. split; [done|]. rewrite (tag_of_put n) by (done || apply Rp1).
        unfold upd. by destruct (decide (j = i)) as [->|].
    + intros j. rewrite (tag_of_put n) by (done || apply Rp1). unfold upd. by destruct (decide (j = i)) as [->|].
  - exists tl1. split; [done|]. split; [|done]. split; cbn; [by eexists|done| |done|done|by apply pos_snoc].
    eapply pool_ext; [|exact Rp1]. intros j. unfold owed. cbn. rewrite cnt_snoc. cbn. rewrite decide_False by done. lia.
Qed.

(** [mlx5_tm_release_tag] when one completion less is owed *)
Lemma release_settle tl a owe i :
  pool_rep n tl (t_free a) owe -> 0 <= i <= n -> 1 <= owe i -> (forall j, owed a j = upd owe i (owe i - 1) j) ->
  exists tl', mlx5_tm_release_tag i tl = Some tl' /\ pool_rep n tl' (t_free (settle i a)) (owed (settle i a)) /\
    tm_op tl' = tm_op tl /\ op_head tl' = op_head tl /\ op_tail tl' = op_tail tl /\
    forall j, tag_wr_id (tag_of tl' j) = tag_wr_id (tag_of tl j).
Proof.
  intros R Hi Ho E. destruct (release_pool n tl _ owe i R Hi Ho) as (tl' & Er & R' & Hrest). exists tl'. split; [done|]. split; [|done].
  assert (Ei : owed a i = owe i - 1) by (rewrite E; unfold upd; by rewrite decide_True).
  eapply pool_ext with (owe := upd owe i (owe i - 1)).
  { intros j. rewrite <- E. unfold settle. by destruct (decide (owed a i = 0)). }
  revert R'. unfold settle. destruct (decide (owe i = 1)), (decide (owed a i = 0)); (done || lia).
Qed.

Lemma drop_own_owed a i id : t_own a !! i = Some id ->
  forall j, owed (mk_tags (t_free a) (delete i (t_own a)) (t_ops a) (t_lo a) (t_hi a)) j = upd (owed a) i (owed a i - 1) j.
Proof.
  intros E j. unfold owed, upd. cbn. destruct (decide (j = i)) as [->|]; [rewrite lookup_delete_eq, E; lia|].
  by rewrite lookup_delete_ne.
Qed.

Lemma settle_own i a : t_own (settle i a) = t_own a.
Proof. unfold settle. by destruct (decide _). Qed.
Lemma settle_ops i a : t_ops (settle i a) = t_ops a.
Proof. unfold settle. by destruct (decide _). Qed.
Lemma settle_pos i a : t_lo (settle i a) = t_lo a /\ t_hi (settle i a) = t_hi a.
Proof. unfold settle. by destruct (decide _). Qed.

Lemma owned_owed a i id : t_own a !! i = Some id -> 1 <= owed a i.
Proof. intros E. unfold owed. rewrite E. pose proof (cnt_nonneg i (t_ops a)). lia. Qed.

(** A tag the device holds comes back. *)
Lemma drop_own_rep tl a i id :
  tags_rep n cnt tl a -> t_own a !! i = Some id ->
  exists tl', mlx5_tm_release_tag i tl = Some tl' /\
    tags_rep n cnt tl' (settle i (mk_tags (t_free a) (delete i (t_own a)) (t_ops a) (t_lo a) (t_hi a))).
Proof.
  intros [(ops & Ho & HF) Hh R Hw Hn Hp] E. destruct (Hw i id E) as [Hi _].
  set (a' := mk_tags _ (delete _ _) _ _ _).
  destruct (release_settle tl a' (owed a) i R Hi (owned_owed _ _ _ E) (drop_own_owed _ _ _ E)) as (tl' & Er & R' & E1 & E2 & E3 & Eid).
  exists tl'. split; [done|]. destruct (settle_pos i a') as [El Eh].
  split; [exists ops; rewrite settle_ops; split; [by eapply ops_same|done]|by rewrite E2|done| |by rewrite settle_ops|by rewrite El, Eh, settle_ops].
  intros j id' Hj. rewrite settle_own in Hj. cbn in Hj. apply lookup_delete_Some in Hj as [_ Hj]. rewrite Eid. by apply Hw.
Qed.

Lemma tags_hi tl a : tags_rep n cnt tl a -> tags_rep n cnt tl (a_hi a).
Proof. intros [H1 H2 H3 H4 H5 H6]. split; try done. by apply pos_more. Qed.

Lemma del_rep qp nreq seg wr tl a m :
  tags_rep n cnt tl a -> wqe_cnt (sq qp) = cnt -> u32 (wq_head (sq qp) + nreq) = u32 (t_hi a) -> t_hi a - t_lo a < cnt ->
  is_Some (t_own a !! handle wr) -> cnt_of (handle wr) (t_ops a) < 126 ->
  exists tl' m', tag_del qp nreq seg wr tl m = Some (Ok, wr, tl', m', 3) /\
    tags_rep n cnt tl' (a_hi (if signaled wr then a_op (Some (handle wr)) wr a
      else settle (handle wr) (mk_tags (t_free a) (delete (handle wr) (t_own a)) (t_ops a) (t_lo a) (t_hi a)))).
Proof.
  intros R Ec Eh Hr [id Hid] Hcnt. destruct (tr_own _ _ _ _ R _ _ Hid) as [Hi _]. unfold tag_del.
  rewrite (tag_at_in n) by (done || apply (pr_len _ _ _ _ (tr_pool _ _ _ _ R))). cbn [mbind option_bind].
  destruct (signaled wr) eqn:Es; unfold signaled in Es; rewrite Es.
  - assert (Ht : forall i, Some (handle wr) = Some i -> 0 <= i <= n /\ 1 <= owed a i < 127).
    { intros i [= <-]. split; [done|]. pose proof (owned_owed _ _ _ Hid). unfold owed in *. rewrite Hid in *. lia. }
    destruct (add_op_rep qp wr (Some (handle wr)) nreq tl a R Ec Eh Hr Ht) as (tl' & E & R' & _).
    unfold add_op_if_signaled in E. rewrite Es in E. rewrite E. cbn. by eexists _, _.
  - destruct (drop_own_rep tl a _ _ R Hid) as (tl' & E & R'). rewrite E. cbn. eexists _, _. split; [done|]. by apply tags_hi.
Qed.

Lemma sync_rep qp nreq seg wr tl a m :
  tags_rep n cnt tl a -> wqe_cnt (sq qp) = cnt -> u32 (wq_head (sq qp) + nreq) = u32 (t_hi a) -> t_hi a - t_lo a < cnt ->
  exists tl' m', tag_sync qp nreq seg wr tl m = Some (Ok, wr, tl', m', 3) /\ tags_rep n cnt tl' (a_hi (a_op None wr a)).
Proof.
  intros R Ec Eh Hr. unfold tag_sync. destruct (add_op_rep qp wr None nreq tl a R Ec Eh Hr ltac:(done)) as (tl' & E & R' & _).
  rewrite E. cbn. by eexists _, _.
Qed.

(** Lending the first free tag *)
Lemma take_rep tl a h F t id :
  tags_rep n cnt tl a -> t_free a = h :: F -> F <> [] -> expect_cqe t = 1 -> tag_wr_id t = id ->
  tm_head tl = h /\ 0 <= h <= n /\ 0 <= next_of tl h /\ expect_cqe (tag_of tl h) = 0 /\
  owed (mk_tags F (<[h := id]> (t_own a)) (t_ops a) (t_lo a) (t_hi a)) h = 1 /\
  tags_rep n cnt (put_tag h t (set_tm_head (next_of tl h) tl)) (mk_tags F (<[h := id]> (t_own a)) (t_ops a) (t_lo a) (t_hi a)).
Proof.
  intros [(ops & Ho & HF) Hh R Hw Hn Hp] Ef Hne Ht Hid. rewrite Ef in R.
  destruct (pool_take n tl h F (owed a) t R Hne Ht) as (E1 & E2 & R').
  pose proof (pool_range _ _ _ _ h R ltac:(by left)) as Hhr. assert (Ho0 : owed a h = 0) by (apply (pr_in _ _ _ _ R); by left).
  assert (Hc : t_own a !! h = None /\ cnt_of h (t_ops a) = 0).
  { unfold owed in Ho0. pose proof (cnt_nonneg h (t_ops a)). destruct (t_own a !! h); [lia|]. split; [done|lia]. }
  assert (Eow : forall j, owed (mk_tags F (<[h := id]> (t_own a)) (t_ops a) (t_lo a) (t_hi a)) j = upd (owed a) h 1 j).
  { intros j. unfold owed, upd. cbn. destruct (decide (j = h)) as [->|]; [rewrite lookup_insert_eq; lia|by rewrite lookup_insert_ne]. }
  split_and!; [done|lia..|destruct (pr_owe _ _ _ _ R h Hhr); congruence|rewrite Eow; unfold upd; by rewrite decide_True|].
  split; cbn -[put_tag]; [exists ops; split; [by destruct Ho; split|done]|done|by eapply pool_ext| |done|done].
  intros j id' Hj. pose proof (pr_len _ _ _ _ R). rewrite (tag_of_put n) by done. unfold upd. destruct (decide (j = h)) as [->|].
  - rewrite lookup_insert_eq in Hj. split; [done|congruence].
  - rewrite lookup_insert_ne in Hj by done. by apply Hw.
Qed.

Lemma add_rep qp nreq seg wr tl a m :
  tags_rep n cnt tl a -> wqe_cnt (sq qp) = cnt -> u32 (wq_head (sq qp) + nreq) = u32 (t_hi a) -> t_hi a - t_lo a < cnt ->
  match t_free a with
  | h :: ((_ :: _) as F) => exists tl' m', tag_add qp nreq seg wr tl m = Some (Ok, set_handle h wr, tl', m', 4) /\
      tags_rep n cnt tl' (a_hi (a_op (Some h) wr (mk_tags F (<[h := recv_wr_id wr]> (t_own a)) (t_ops a) (t_lo a) (t_hi a))))
  | _ => tag_add qp nreq seg wr tl m = Some (Err ENOMEM, wr, tl, m, 1)
  end.
Proof.
  intros R Ec Eh Hr. pose proof (pr_len _ _ _ _ (tr_pool _ _ _ _ R)) as Hl.
  pose proof (pool_range _ _ _ _ _ (tr_pool _ _ _ _ R) (pool_head _ _ _ _ (tr_pool _ _ _ _ R))) as Hhr.
  unfold tag_add. rewrite (tag_at_in n) by done. cbn [mbind option_bind].
  destruct (t_free a) as [|h [|h2 F]] eqn:Ef.
  - by destruct (queue_cons _ _ _ _ (pr_free _ _ _ _ (tr_pool _ _ _ _ R))) as [F' E]; rewrite Ef in E.
  - pose proof (pool_full _ _ _ _ (tr_pool _ _ _ _ R)) as E. rewrite Ef in E. unfold next_of in E. by rewrite E by (simpl; lia).
  - assert (E1 : tm_head tl = h).
    { pose proof (q_head _ _ _ _ (pr_free _ _ _ _ (tr_pool _ _ _ _ R))) as E. rewrite Ef in E. by injection E. }
    rewrite E1. set (nx := tag_next (tag_of tl h)). set (sync := has_flag (ow_flags wr) IBV_OPS_TM_SYNC).
    set (tl2 := if sync then set_unexp _ _ (set_tm_head nx tl) else set_tm_head nx tl).
    set (t := mk_tag (-1) (recv_wr_id wr) (unexp_out tl2) (tag_ptr (tag_of tl h)) (tag_size (tag_of tl h)) 1).
    destruct (take_rep tl a h (h2 :: F) t (recv_wr_id wr) R Ef ltac:(done) eq_refl eq_refl) as (_ & Hh & Hnx & Ee & Eo & R1).
    set (a1 := mk_tags _ (<[h:=_]> _) _ _ _) in *.
    assert (R2 : tags_rep n cnt (put_tag h t tl2) a1).
    { unfold tl2, nx, sync in *. destruct (has_flag _ IBV_OPS_TM_SYNC); [by apply (tags_unexp _ _ (unexp_in tl) (s32 (unexpected_cnt wr)) R1)|done]. }
    assert (Ht : forall i, Some h = Some i -> 0 <= i <= n /\ 1 <= owed a1 i < 127) by (intros i [= <-]; lia).
    destruct (add_op_rep qp wr (Some h) nreq _ a1 R2 Ec Eh Hr Ht) as (tl3 & E3 & R3 & _).
    rewrite (proj2 (Z.eqb_neq nx (-1))) by (unfold next_of in Hnx; fold nx in Hnx; lia).
    rewrite Ee. change (s8 (0 + 1)) with 1. fold t. rewrite E3. cbn [mbind option_bind].
    pose proof (pr_len _ _ _ _ (tr_pool _ _ _ _ R3)) as Hl3.
    destruct (ow_sg_list wr) as [|sg l]; [by eexists _, _|]. destruct (sge_length sg =? 0); [by eexists _, _|].
    rewrite (tag_at_in n) by done. cbn [mbind option_bind]. eexists _, _. split; [done|]. by apply tags_buf.
Qed.

(** * Posting *)

(** The command queue: [h] requests were posted before this call. *)
Record cmd_rep (room : Z) (qp : mlx5_qp) (h : Z) (a : tags) : Prop := {
  cr_cnt : wqe_cnt (sq qp) = cnt;
  cr_post : max_post (sq qp) = room;
  cr_head : wq_head (sq qp) = u32 h;
  cr_tail : wq_tail (sq qp) = u32 (t_lo a);
  cr_order : t_lo a <= h <= t_hi a;
  cr_room : t_hi a - t_lo a <= room /\ room <= cnt /\ cnt <= 2 ^ 31
}.

Lemma cmd_overflow room qp h a :
  cmd_rep room qp h a -> mlx5_wq_overflow (sq qp) (t_hi a - h) (wq_tail (sq qp)) (wq_tail (sq qp)) = (room <=? t_hi a - t_lo a).
Proof.
  intros [E1 E2 E3 E4 H5 H6]. unfold mlx5_wq_overflow. rewrite E2, E3, E4.
  replace (u32 (u32 h - u32 (t_lo a))) with (h - t_lo a) by (unfold u32; rewrite <- Zminus_mod, Z.mod_small; lia).
  rewrite !u32_small by lia. destruct (Z.ltb_spec (h - t_lo a + (t_hi a - h)) room); symmetry; [apply Z.leb_gt; lia|].
  rewrite Z.geb_leb. f_equal. lia.
Qed.

Lemma wr_pos room wr a o h a' : a_wr room wr a = (o, h, a') -> o = Ok -> t_lo a' = t_lo a /\ t_hi a' = t_hi a + 1 /\ t_hi a - t_lo a < room.
Proof.
  unfold a_wr. destruct (Z.leb_spec room (t_hi a - t_lo a)); [by intros [= <- _ _]|]. intros E ->.
  destruct (_ =? IBV_WR_TAG_ADD); [by destruct (t_free a) as [|? [|]]; simplify_eq|].
  destruct (_ =? IBV_WR_TAG_DEL); [|by destruct (_ =? IBV_WR_TAG_SYNC); simplify_eq].
  destruct (signaled wr); simplify_eq; [done|]. cbn. match goal with |- context [settle ?i ?x] => destruct (settle_pos i x) as [-> ->] end. done.
Qed.

Lemma ops_wr_rep room h wr a os :
  tags_rep n cnt (os_tl os) a -> cmd_rep room (os_qp os) h a -> wr_ok wr a ->
  let '(o, hd, a') := a_wr room wr a in
  exists wr' os', ops_wr (t_hi a - h) (wq_tail (sq (os_qp os)), wq_tail (sq (os_qp os))) wr os = Some (o, wr', os') /\
    handle wr' = hd /\ tags_rep n cnt (os_tl os') a' /\ (if o is Ok then cmd_rep room (os_qp os') h a' else os_qp os' = os_qp os /\ a' = a).
Proof.
  intros R C Hok. destruct (a_wr room wr a) as [[o hd] a'] eqn:Ea. pose proof (wr_pos room wr a o hd a' Ea) as Hpos. unfold ops_wr. cbn [fst snd].
  rewrite (cmd_overflow room _ h a C). unfold a_wr in Ea. destruct (room <=? t_hi a - t_lo a) eqn:Er.
  { injection Ea as <- <- <-. eexists _, _. done. }
  apply Z.leb_gt in Er. pose proof C as [E1 E2 E3 E4 H5 H6].
  assert (Eh : u32 (wq_head (sq (os_qp os)) + (t_hi a - h)) = u32 (t_hi a)) by (rewrite E3, u32_add_l; f_equal; lia).
  assert (Hcmd : forall a1, t_lo a1 = t_lo a -> t_hi a1 = t_hi a + 1 -> forall x,
    cmd_rep room (set_sq (set_cur_post x (sq (os_qp os))) (os_qp os)) h a1).
  { intros a1 El Eh1 x. split; cbn; rewrite ?El, ?Eh1; try done; lia. }
  destruct (ow_opcode wr =? IBV_WR_TAG_ADD).
  { pose proof (add_rep (os_qp os) (t_hi a - h) (mlx5_get_send_wqe (os_qp os) (sq_idx (os_qp os)) + sizeof_ctrl_seg) wr (os_tl os) a
      (ops_ctrl_begin (mlx5_get_send_wqe (os_qp os) (sq_idx (os_qp os))) (os_mem os)) R E1 Eh ltac:(lia)) as H.
    destruct (t_free a) as [|h1 [|h2 F]]; [by rewrite H; injection Ea as <- <- <-; eexists _, _..|].
    destruct H as (tl' & m' & -> & R'). injection Ea as <- <- <-. eexists _, _. split; [reflexivity|]. split; [done|]. split; [done|]. by apply Hcmd. }
  destruct (ow_opcode wr =? IBV_WR_TAG_DEL) eqn:Ed.
  { apply Z.eqb_eq in Ed. destruct (Hok Ed) as [Hown Hcnt].
    destruct (del_rep (os_qp os) (t_hi a - h) (mlx5_get_send_wqe (os_qp os) (sq_idx (os_qp os)) + sizeof_ctrl_seg) wr (os_tl os) a
      (ops_ctrl_begin (mlx5_get_send_wqe (os_qp os) (sq_idx (os_qp os))) (os_mem os)) R E1 Eh ltac:(lia) Hown Hcnt) as (tl' & m' & -> & R').
    injection Ea as <- <- <-. eexists _, _. split; [reflexivity|]. split; [done|]. split; [done|]. by apply Hcmd; apply Hpos. }
  destruct (ow_opcode wr =? IBV_WR_TAG_SYNC).
  { destruct (sync_rep (os_qp os) (t_hi a - h) (mlx5_get_send_wqe (os_qp os) (sq_idx (os_qp os)) + sizeof_ctrl_seg) wr (os_tl os) a
      (ops_ctrl_begin (mlx5_get_send_wqe (os_qp os) (sq_idx (os_qp os))) (os_mem os)) R E1 Eh ltac:(lia)) as (tl' & m' & -> & R').
    injection Ea as <- <- <-. eexists _, _. split; [reflexivity|]. split; [done|]. split; [done|]. by apply Hcmd. }
  injection Ea as <- <- <-. by eexists _, _.
Qed.

Lemma ops_loop_rep room h t : forall l a os,
  tags_rep n cnt (os_tl os) a -> cmd_rep room (os_qp os) h a -> wq_tail (sq (os_qp os)) = t -> post_ok room l a ->
  let '(o, k, hs, a') := a_post room l a in
  exists ws os', ops_loop (fun _ => (t, t)) (t_hi a - h) l os = Some (o, t_hi a - h + k, ws, os') /\
    handle <$> ws = hs /\ tags_rep n cnt (os_tl os') a' /\ cmd_rep room (os_qp os') h a' /\ t_hi a' = t_hi a + k /\ t_lo a' = t_lo a.
Proof.
  induction l as [|wr l IH]; intros a os R C Ht Hok; cbn [a_post ops_loop].
  { eexists _, _. rewrite !Z.add_0_r. done. }
  destruct Hok as [Hw Hok]. pose proof (ops_wr_rep room h wr a os R C Hw) as H. rewrite Ht in H.
  destruct (a_wr room wr a) as [[o hd] a1] eqn:Ea. destruct H as (wr' & os1 & -> & Eh & R1 & C1). cbn.
  pose proof (wr_pos _ _ _ _ _ _ Ea) as Hpos. destruct o.
  2,3: destruct C1 as [Eq ->]; eexists _, _; rewrite Z.add_0_r, Eq; split_and!; try done; [by cbn; rewrite Eh|lia].
  destruct (Hpos eq_refl) as (El & Ehi & _).
  assert (Ht1 : wq_tail (sq (os_qp os1)) = t) by (rewrite (cr_tail _ _ _ _ C1), El, <- (cr_tail _ _ _ _ C); done).
  specialize (IH a1 os1 R1 C1 Ht1 Hok). destruct (a_post room l a1) as [[[o k] hs] a2].
  destruct IH as (ws & os' & E & Ehs & R2 & C2 & Eh2 & El2). rewrite Ehi in E. replace (t_hi a - h + 1) with (t_hi a + 1 - h) by lia.
  rewrite E. replace (t_hi a - h + (k + 1)) with (t_hi a + 1 - h + k) by lia. eexists _, _. split; [done|]. cbn. rewrite Eh, Ehs. split_and!; try done; lia.
Qed.

(** * Completions *)

(** What completing the oldest operation does: [removed] when the device took the tag back *)
Definition a_done (removed : bool) (a : tags) : option (Z * tags) :=
  match t_ops a with
  | [] => None
  | (tag, id, pos) :: ops =>
    Some (id, match tag with
      | None => mk_tags (t_free a) (t_own a) ops (pos + 1) (t_hi a)
      | Some i => settle i (mk_tags (t_free a) (if removed then delete i (t_own a) else t_own a) ops (pos + 1) (t_hi a))
      end)
  end.

(** The identifier of the operation, and the lists after [tm_list_op] *)
Lemma done_tags tl a tag id pos ops removed :
  tags_rep n cnt tl a -> t_ops a = (tag, id, pos) :: ops -> (removed = true -> exists i, tag = Some i /\ is_Some (t_own a !! i)) ->
  exists op, 0 <= Z.land (op_head tl) (cnt - 1) /\ tm_op tl !! Z.to_nat (Z.land (op_head tl) (cnt - 1)) = Some op /\
    op_wr_id op = id /\ op_wqe_head op = u32 pos /\ op_tag op = tag /\
    let tl1 := set_ops (tm_op tl) (s32 (op_head tl + 1)) (op_tail tl) tl in
    let b removed := mk_tags (t_free a) (if removed : bool then match tag with Some i => delete i (t_own a) | None => t_own a end else t_own a) ops (pos + 1) (t_hi a) in
    match tag with
    | None => tags_rep n cnt tl1 (b false)
    | Some i => 0 <= i <= n /\ exists tl2, mlx5_tm_release_tag i tl1 = Some tl2 /\ tags_rep n cnt tl2 (settle i (b false)) /\
        (removed = true -> exists tl3, mlx5_tm_release_tag i tl2 = Some tl3 /\ tags_rep n cnt tl3 (settle i (b true)))
    end.
Proof.
  intros [(cops & Ho & HF) Hh R Hw Hn Hp] Eo Hrm. rewrite Eo in HF, Hn, Hp. apply Forall2_cons_inv_r in HF as (op & cops' & (E1 & E2 & E3) & HF & ->).
  destruct (ops_pop cnt tl op cops' Ho Hh) as (Hs & Hl & Ho'). exists op. split_and!; try done. cbn in E1, E2, E3. cbv zeta.
  set (tl1 := set_ops _ _ _ tl). set (b := fun removed : bool => _). destruct Hp as [Hpos Hp].
  assert (R1 : pool_rep n tl1 (t_free a) (owed a)) by (destruct R; by split).
  assert (Hhd : - 2 ^ 31 <= op_head tl1 < 2 ^ 31) by apply s32_range.
  destruct tag as [i|]; cycle 1.
  { split; [by exists cops'|done| |done|intros o i Hi; apply Hn; by right|done]. eapply pool_ext; [|exact R1].
    intros j. unfold owed. cbn. rewrite Eo, cnt_cons. cbn. done. }
  assert (Hi : 0 <= i <= n) by (by eapply Hn; [left|]). split; [done|].
  assert (Eow : forall j, owed (b false) j = upd (owed a) i (owed a i - 1) j).
  { intros j. unfold owed, upd. cbn. rewrite Eo, !cnt_cons. cbn. destruct (decide (j = i)) as [->|]; [rewrite decide_True by done; lia|].
    rewrite decide_False by congruence. lia. }
  assert (Ho1 : 1 <= owed a i).
  { pose proof (Eow i) as E. unfold upd in E. rewrite decide_True in E by done. pose proof (cnt_nonneg i ops).
    unfold owed in E at 1. cbn in E. destruct (t_own a !! i); lia. }
  destruct (release_settle tl1 (b false) (owed a) i R1 Hi Ho1 Eow) as (tl2 & Er & R2 & F1 & F2 & F3 & Eid).
  destruct (settle_pos i (b false)) as [El Eh].
  assert (R2' : tags_rep n cnt tl2 (settle i (b false))).
  { split; [exists cops'; rewrite settle_ops; split; [by eapply ops_same|done]|by rewrite F2|done| | |].
    - intros j id' Hj. rewrite settle_own in Hj. rewrite Eid. by apply Hw.
    - intros o j Hj. rewrite settle_ops in Hj. apply Hn. by right.
    - by rewrite El, Eh, settle_ops. }
  exists tl2. split; [done|]. split; [done|]. intros Hr. destruct (Hrm Hr) as (i' & [= <-] & [id' Hown]).
  assert (Es : settle i (b false) = b false).
  { unfold settle. rewrite decide_False; [done|]. pose proof (owned_owed (b false) i id' Hown). lia. }
  rewrite Es in R2'. destruct (drop_own_rep tl2 (b false) i id' R2' Hown) as (tl3 & E & R3). by exists tl3.
Qed.
End Steps.

(** * Posts and completions together *)

(** The pieces of the state: the SRQ at [sp] with its tags, its command QP at [cmd] *)
Definition srq_obj (s : pst) (sp cmd : Z) (tl : tag_list) : Prop :=
  exists t n q qn, p_objs s !! sp = Some (mk_rsc t n (OSrq q qn tl cmd)).
Definition qp_obj (s : pst) (cmd : Z) (qp : mlx5_qp) : Prop := exists t n x, p_objs s !! cmd = Some (mk_rsc t n (OQp qp x)).

Lemma get_srq_obj s sp cmd tl : srq_obj s sp cmd tl -> exists q qn, get_srq sp s = Some ((q, qn, tl, cmd), s).
Proof. intros (t & n & q & qn & E). exists q, qn. unfold get_srq, get_rsc, mbind, P_bind. by rewrite E. Qed.

Lemma get_qp_obj s cmd qp : qp_obj s cmd qp -> get_qp cmd s = Some (qp, s).
Proof. intros (t & n & x & E). unfold get_qp, get_rsc, mbind, P_bind. by rewrite E. Qed.

Lemma put_tags_obj s sp cmd tl tl' : srq_obj s sp cmd tl ->
  exists o, put_tags sp tl' s = Some (tt, set_p_objs (<[sp := o]> (p_objs s)) s) /\ srq_obj (set_p_objs (<[sp := o]> (p_objs s)) s) sp cmd tl'.
Proof.
  intros (t & n & q & qn & E). exists (mk_rsc t n (OSrq q qn tl' cmd)).
  unfold put_tags, put_obj, get_srq, get_rsc, mbind, P_bind. rewrite E. cbn. rewrite E. cbn. split; [done|].
  exists t, n, q, qn. cbn. apply lookup_insert_eq.
Qed.

Lemma put_qp_obj s cmd qp qp' : qp_obj s cmd qp ->
  exists o, put_qp cmd qp' s = Some (tt, set_p_objs (<[cmd := o]> (p_objs s)) s) /\ qp_obj (set_p_objs (<[cmd := o]> (p_objs s)) s) cmd qp'.
Proof.
  intros (t & n & x & E). exists (mk_rsc t n (OQp qp' x)). unfold put_qp, put_obj, get_rsc, mbind, P_bind. rewrite E. cbn. rewrite E. cbn.
  split; [done|]. exists t, n, x. cbn. apply lookup_insert_eq.
Qed.

Section System.
#[local] Set Default Proof Using "Type".
Context (ctx : mlx5_context) (n cnt room sp cmd : Z).

Record sys_rep (s : pst) (a : tags) : Prop := {
  sr_tags : exists tl, srq_obj s sp cmd tl /\ tags_rep n cnt tl a;
  sr_cmd : exists qp, qp_obj s cmd qp /\ cmd_rep cnt room qp (t_hi a) a;
  sr_apart : sp <> cmd
}.

(** A call of [mlx5_post_srq_ops]: the lock of the SRQ keeps completions out, so that the tail
    of the command queue does not move. *)
Definition sys_post (wrs : list ibv_ops_wr) (s : pst) (bf : mlx5_bf) : option (outcome * Z * list Z * pst * mlx5_bf) :=
  match p_objs s !! sp, p_objs s !! cmd with
  | Some (mk_rsc t1 n1 (OSrq q qn tl c)), Some (mk_rsc t2 n2 (OQp qp x)) =>
    match mlx5_post_srq_ops ctx (fun _ => (wq_tail (sq qp), wq_tail (sq qp))) wrs tl (Some (mk_ss qp bf (p_mem s) (p_trace s))) with
    | Some (o, k, ws, tl, Some st) =>
      Some (o, k, handle <$> ws, set_p_trace (ss_trace st) (set_p_mem (ss_mem st)
        (set_p_objs (<[sp := mk_rsc t1 n1 (OSrq q qn tl c)]> (<[cmd := mk_rsc t2 n2 (OQp (ss_qp st) x)]> (p_objs s))) s)), ss_bf st)
    | _ => None
    end
  | _, _ => None
  end.

Lemma sys_post_rep wrs s bf a : sys_rep s a -> post_ok room wrs a ->
  let '(o, k, hs, a') := a_post room wrs a in
  exists s' bf', sys_post wrs s bf = Some (o, k, hs, s', bf') /\ sys_rep s' a'.
Proof.
  intros [(tl & (t1 & n1 & q & qn & E1) & R) (qp & (t2 & n2 & x & E2) & C) Hne] Hok. unfold sys_post. rewrite E1, E2. cbn [mlx5_post_srq_ops].
  pose proof (ops_loop_rep n cnt room (t_hi a) (wq_tail (sq qp)) wrs a (mk_os tl qp (p_mem s) 0 0) R C eq_refl Hok) as H.
  destruct (a_post room wrs a) as [[[o k] hs] a']. destruct H as (ws & os & E & Eh & R' & C' & Ehi & Elo).
  rewrite Z.sub_diag, Z.add_0_l in E. cbn [ss_qp ss_mem ss_bf ss_trace]. rewrite E. cbn [mbind option_bind]. rewrite Eh.
  eexists _, _. split; [reflexivity|]. split; [| |done].
  - exists (os_tl os). split; [|done]. exists t1, n1, q, qn. cbn. apply lookup_insert_eq.
  - eexists. split; [exists t2, n2, x; cbn; rewrite lookup_insert_ne by done; apply lookup_insert_eq|].
    destruct C' as [D1 D2 D3 D4 D5 D6]. unfold post_send_db.
    destruct (Z.eqb_spec k 0) as [->|]; split; cbn; try done; try lia; [by rewrite D3; f_equal; lia|].
    by rewrite D3, u32_add_l, Ehi.
Qed.

(** ** Completions *)

(** Parts of the state the lists do not live in *)
Lemma sys_ext s s' a : p_objs s' = p_objs s -> sys_rep s a -> sys_rep s' a.
Proof. intros E [H1 H2 H3]. unfold srq_obj, qp_obj in *. split; unfold srq_obj, qp_obj; by rewrite ?E. Qed.

Definition list_ops : list Z := [MLX5_CQE_APP_OP_TM_REMOVE; MLX5_CQE_APP_OP_TM_APPEND; MLX5_CQE_APP_OP_TM_NOOP].
Definition consume_ops : list Z :=
  [MLX5_CQE_APP_OP_TM_CONSUMED_MSG_SW_RDNV; MLX5_CQE_APP_OP_TM_CONSUMED_SW_RDNV; MLX5_CQE_APP_OP_TM_MSG_COMPLETION_CANCELED;
   MLX5_CQE_APP_OP_TM_CONSUMED_MSG; MLX5_CQE_APP_OP_TM_CONSUMED; MLX5_CQE_APP_OP_TM_EXPECTED].

Definition removal (c : Z) (m : mem) : bool := (cqe_app_op c m =? MLX5_CQE_APP_OP_TM_REMOVE) && has_flag (tm_success c m) MLX5_TMC_SUCCESS.

(** The last part of a completed list operation *)
Lemma finish_rep s a a' tl tl' qp pos id :
  srq_obj s sp cmd tl -> qp_obj s cmd qp -> sp <> cmd -> tags_rep n cnt tl' a' -> cmd_rep cnt room qp (t_hi a) a ->
  t_hi a' = t_hi a -> t_lo a' = pos + 1 -> t_lo a <= pos < t_hi a ->
  exists s', (put_tags sp tl' ;+ put_qp cmd (set_sq (set_wq_tail (u32 (u32 pos + 1)) (sq qp)) qp) ;+ on_cq (set_cq_wr_id id) ;+ mret CQ_OK) s =
    Some (CQ_OK, s') /\ sys_rep s' a' /\ cq_wr_id (p_cq s') = id.
Proof.
  intros Htl Hqp Hne R C Ehi Elo Hpos. unfold mbind, P_bind. destruct (put_tags_obj s sp cmd tl tl' Htl) as (o1 & -> & Htl1).
  set (s1 := set_p_objs _ s) in *. assert (Hqp1 : qp_obj s1 cmd qp).
  { destruct Hqp as (t & m & x & E). exists t, m, x. cbn. by rewrite lookup_insert_ne. }
  destruct (put_qp_obj s1 cmd qp (set_sq (set_wq_tail (u32 (u32 pos + 1)) (sq qp)) qp) Hqp1) as (o2 & -> & Hqp2).
  set (s2 := set_p_objs _ s1) in *. eexists. split; [reflexivity|]. split; [|done]. apply (sys_ext s2); [done|]. split; [| |done].
  - exists tl'. split; [|done]. destruct Htl1 as (t & m & q & qn & E). exists t, m, q, qn. cbn. by rewrite lookup_insert_ne.
  - eexists. split; [exact Hqp2|]. destruct C as [D1 D2 D3 D4 D5 D6]. split; cbn; rewrite ?Ehi, ?Elo; try done; [|lia..]. by rewrite u32_add_l.
Qed.

(** A list operation completes: the identifier it was posted with is reported, a tag comes
    back when nothing more is owed for it, and so does the space of the command queue. *)
Lemma list_op_rep s a c id a' :
  sys_rep s a -> (cqe_app_op c (p_mem s) =? MLX5_CQE_APP_OP_TM_REMOVE) && (cq_status (p_cq s) =? IBV_WC_SUCCESS) = removal c (p_mem s) ->
  a_done (removal c (p_mem s)) a = Some (id, a') ->
  (removal c (p_mem s) = true -> exists i x pos ops, t_ops a = (Some i, x, pos) :: ops /\ is_Some (t_own a !! i)) ->
  exists s', tm_list_op sp c s = Some (CQ_OK, s') /\ sys_rep s' a' /\ cq_wr_id (p_cq s') = id.
Proof.
  intros [(tl & Htl & R) (qp & Hqp & C) Hne] Est Ed Hrm. unfold a_done in Ed. destruct (t_ops a) as [|[[tag id'] pos] ops] eqn:Eo; [done|].
  pose proof (tr_pos _ _ _ _ R) as Hpos. rewrite Eo in Hpos. destruct Hpos as [Hpos _]. cbn in Hpos.
  injection Ed as -> Ea. destruct (done_tags n cnt tl a tag id pos ops (removal c (p_mem s)) R Eo) as (op & H0 & Hop & E1 & E2 & E3 & H).
  { intros Hr. destruct (Hrm Hr) as (i & x & p & o & [= -> -> -> ->] & Hi). eauto. }
  destruct (get_srq_obj _ _ _ _ Htl) as (q & qn & Eg). unfold tm_list_op.
  unfold mbind at 1, P_bind at 1, gets at 1. unfold mbind at 1, P_bind at 1. rewrite Eg. unfold mbind at 1, P_bind at 1.
  rewrite (get_qp_obj _ _ _ Hqp). unfold mbind at 1, P_bind at 1, gets at 1. unfold mbind at 1, P_bind at 1.
  rewrite (cr_cnt _ _ _ _ _ C). unfold elem at 1. rewrite (proj2 (Z.leb_le _ _) H0), Hop. cbn [mbind option_bind]. rewrite E3, E2, E1, Est.
  destruct tag as [i|]; cycle 1.
  { subst a'. apply (finish_rep s a _ tl _ qp pos id); try done. }
  destruct H as (Hi & tl2 & Er & R2 & Hr2).
  assert (exists tl3, (if removal c (p_mem s) then lift (mlx5_tm_release_tag i tl2) else mret tl2) s = Some (tl3, s) /\ tags_rep n cnt tl3 a') as (tl3 & E4 & R3).
  { destruct (removal c (p_mem s)); [|exists tl2; by subst a']. destruct (Hr2 eq_refl) as (tl3 & E & R3). exists tl3. unfold lift. rewrite E. by subst a'. }
  assert (Hpos' : t_hi a' = t_hi a /\ t_lo a' = pos + 1).
  { subst a'. match goal with |- context [settle ?x ?y] => destruct (settle_pos x y) as [-> ->] end. done. }
  unfold mbind at 1, P_bind at 1. unfold mbind at 1, P_bind at 1. unfold lift at 1. rewrite Er. cbn [mbind option_bind].
  unfold mbind at 1, P_bind at 1. rewrite E4. unfold mbind at 1, P_bind at 1. unfold elem at 1.
  rewrite (proj2 (Z.leb_le 0 i)) by lia.
  destruct (lookup_lt_is_Some_2 (tm_list tl3) (Z.to_nat i)) as [t Et]; [pose proof (pr_len _ _ _ _ (tr_pool _ _ _ _ R3)); lia|].
  rewrite Et. cbn [mbind option_bind]. unfold mbind at 1, P_bind at 1.
  destruct (negb _).
  - apply (finish_rep _ a a' tl tl3 qp pos id); try done; apply Hpos'.
  - apply (finish_rep s a a' tl tl3 qp pos id); try done; apply Hpos'.
Qed.

(** A message matched a tag: the identifier of its receive is reported; with the last part
    the tag comes back. *)
Lemma consumed_rep s a c id :
  sys_rep s a -> t_own a !! cqe_app_info c (p_mem s) = Some id ->
  exists s', tm_consumed sp c s = Some (CQ_OK, s') /\ cq_wr_id (p_cq s') = id /\
    sys_rep s' (if mlx5_cqe_app_op_tm_is_complete (cqe_app_op c (p_mem s))
      then settle (cqe_app_info c (p_mem s)) (mk_tags (t_free a) (delete (cqe_app_info c (p_mem s)) (t_own a)) (t_ops a) (t_lo a) (t_hi a)) else a).
Proof.
  intros [(tl & Htl & R) (qp & Hqp & C) Hne] Hown. set (i := cqe_app_info c (p_mem s)) in *.
  destruct (tr_own _ _ _ _ R i id Hown) as [Hi Eid]. destruct (get_srq_obj _ _ _ _ Htl) as (q & qn & Eg).
  pose proof (pr_len _ _ _ _ (tr_pool _ _ _ _ R)) as Hl. destruct (pr_owe _ _ _ _ (tr_pool _ _ _ _ R) i Hi) as [Eo _].
  pose proof (tag_at_in n tl i Hl Hi) as Et. unfold tag_at in Et. rewrite (proj2 (Z.leb_le 0 i)) in Et by lia.
  unfold tm_consumed. unfold mbind at 1, P_bind at 1, gets at 1. unfold mbind at 1, P_bind at 1. rewrite Eg. unfold mbind at 1, P_bind at 1.
  fold i. unfold elem at 1. rewrite (proj2 (Z.leb_le 0 i)), Et by lia. cbn [mbind option_bind].
  pose proof (owned_owed a i id Hown). rewrite (proj2 (Z.eqb_neq _ 0)) by lia. rewrite Eid.
  unfold mbind at 1, P_bind at 1, on_cq at 1, modify at 1. unfold mbind at 1, P_bind at 1.
  set (s0 := set_p_cq _ s). destruct (drop_own_rep n cnt tl a i id R Hown) as (tl' & Er & R').
  set (a' := settle i _) in *.
  assert (exists s1, (if mlx5_cqe_app_op_tm_is_complete (cqe_app_op c (p_mem s)) then tl ← lift (mlx5_tm_release_tag i tl); put_tags sp tl else mret tt) s0 = Some (tt, s1) /\
    sys_rep s1 (if mlx5_cqe_app_op_tm_is_complete (cqe_app_op c (p_mem s)) then a' else a) /\ cq_wr_id (p_cq s1) = id) as (s1 & -> & R1 & E1).
  { destruct (mlx5_cqe_app_op_tm_is_complete _).
    - unfold mbind, P_bind, lift. rewrite Er. cbn -[put_tags s0]. destruct (put_tags_obj s0 sp cmd tl tl') as (o & E & Ho); [done|]. rewrite E.
      eexists. split; [done|]. split; [|done]. split; [by exists tl'| |done].
      exists qp. split; [destruct Hqp as (t & k & x & Eq); exists t, k, x; cbn; by rewrite lookup_insert_ne|].
      destruct C as [D1 D2 D3 D4 D5 D6]. unfold a'. match goal with |- context [settle ?x ?y] => destruct (settle_pos x y) as [El Eh] end.
      split; rewrite ?El, ?Eh; done.
    - exists s0. split; [done|]. split; [|done]. by split; [exists tl|exists qp|]. }
  unfold mbind at 1, P_bind at 1. destruct (has_flag _ MLX5_INLINE_SCATTER_64); [destruct (_ <? _)|]; eexists; (split; [reflexivity|]; split; [exact E1|]); by apply (sys_ext s1).
Qed.

(** The six reports of a match and the three of a list operation, through [handle_tag_matching] *)
Lemma handle_consumed s a c id :
  sys_rep s a -> In (cqe_app_op c (p_mem s)) consume_ops -> t_own a !! cqe_app_info c (p_mem s) = Some id ->
  exists s', handle_tag_matching c sp s = Some (CQ_OK, s') /\ cq_wr_id (p_cq s') = id /\
    sys_rep s' (if mlx5_cqe_app_op_tm_is_complete (cqe_app_op c (p_mem s))
      then settle (cqe_app_info c (p_mem s)) (mk_tags (t_free a) (delete (cqe_app_info c (p_mem s)) (t_own a)) (t_ops a) (t_lo a) (t_hi a)) else a).
Proof.
  intros R Hop Hown. unfold handle_tag_matching, set_status. unfold mbind at 1, P_bind at 1, on_cq at 1, modify at 1.
  unfold mbind at 1, P_bind at 1, gets at 1. set (s1 := set_p_cq _ s). change (p_mem s1) with (p_mem s).
  assert (R1 : sys_rep s1 a) by (by apply (sys_ext s)).
  destruct Hop as [E|[E|[E|[E|[E|[E|[]]]]]]]; rewrite <- E; cbn -[tm_consumed mlx5_cqe_app_op_tm_is_complete settle];
    rewrite E; (apply (consumed_rep s1); done) || (unfold mbind, P_bind; cbn -[tm_consumed mlx5_cqe_app_op_tm_is_complete settle];
      match goal with |- context [tm_consumed sp c ?x] => apply (consumed_rep x) end; [by apply (sys_ext s)|done]).
Qed.

Lemma handle_list_op s a c id a' :
  sys_rep s a -> In (cqe_app_op c (p_mem s)) list_ops -> a_done (removal c (p_mem s)) a = Some (id, a') ->
  (removal c (p_mem s) = true -> exists i x pos ops, t_ops a = (Some i, x, pos) :: ops /\ is_Some (t_own a !! i)) ->
  exists s', handle_tag_matching c sp s = Some (CQ_OK, s') /\ sys_rep s' a' /\ cq_wr_id (p_cq s') = id.
Proof.
  intros R Hop Hd Hrm. unfold handle_tag_matching, set_status. unfold mbind at 1, P_bind at 1, on_cq at 1, modify at 1.
  unfold mbind at 1, P_bind at 1, gets at 1. set (s1 := set_p_cq _ s). change (p_mem s1) with (p_mem s).
  assert (R1 : sys_rep s1 a) by (by apply (sys_ext s)).
  destruct Hop as [E|[E|[E|[]]]]; rewrite <- E; cbn -[tm_list_op has_flag].
  - unfold mbind, P_bind. destruct (has_flag (tm_success c (p_mem s)) MLX5_TMC_SUCCESS) eqn:Es; cbn -[tm_list_op];
      match goal with |- context [tm_list_op sp c ?x] => apply (list_op_rep x) with (a := a) end; try done; try (by apply (sys_ext s));
      change (p_mem _) with (p_mem s); unfold removal; rewrite Es, <- E; done.
  - apply (list_op_rep s1) with (a := a); try done. change (p_mem s1) with (p_mem s). unfold removal. by rewrite <- E.
  - apply (list_op_rep s1) with (a := a); try done. change (p_mem s1) with (p_mem s). unfold removal. by rewrite <- E.
Qed.

(** ** Runs *)

(** A call of the application, or an entry the device wrote at [c] of memory [m] *)
Inductive tm_event : Type := TPost (wrs : list ibv_ops_wr) | TCqe (m : mem) (c : Z).
Inductive tm_result : Type := RPost (o : outcome) (k : Z) (handles : list Z) | RCqe (err id : Z).

Definition sys_step (e : tm_event) (s : pst) (bf : mlx5_bf) : option (tm_result * pst * mlx5_bf) :=
  match e with
  | TPost wrs => match sys_post wrs s bf with Some (o, k, hs, s, bf) => Some (RPost o k hs, s, bf) | None => None end
  | TCqe m c => match handle_tag_matching c sp (set_p_mem m s) with Some (r, s) => Some (RCqe r (cq_wr_id (p_cq s)), s, bf) | None => None end
  end.

Fixpoint sys_run (es : list tm_event) (s : pst) (bf : mlx5_bf) : option (list tm_result * pst * mlx5_bf) :=
  match es with
  | [] => Some ([], s, bf)
  | e :: es =>
    match sys_step e s bf with
    | Some (r, s, bf) => match sys_run es s bf with Some (rs, s, bf) => Some (r :: rs, s, bf) | None => None end
    | None => None
    end
  end.

Definition a_step (e : tm_event) (a : tags) : tm_result * tags :=
  match e with
  | TPost wrs => let '(o, k, hs, a) := a_post room wrs a in (RPost o k hs, a)
  | TCqe m c =>
    let i := cqe_app_info c m in
    if has_opcode consume_ops (cqe_app_op c m) then
      (RCqe CQ_OK (default 0 (t_own a !! i)),
       if mlx5_cqe_app_op_tm_is_complete (cqe_app_op c m) then settle i (mk_tags (t_free a) (delete i (t_own a)) (t_ops a) (t_lo a) (t_hi a)) else a)
    else let '(id, a) := default (0, a) (a_done (removal c m) a) in (RCqe CQ_OK id, a)
  end.

(** The device reports matches of tags it holds, operations that were posted, and the removal
    of a tag it holds. *)
Definition event_ok (e : tm_event) (a : tags) : Prop :=
  match e with
  | TPost wrs => post_ok room wrs a
  | TCqe m c =>
    (In (cqe_app_op c m) consume_ops /\ is_Some (t_own a !! cqe_app_info c m)) \/
    (In (cqe_app_op c m) list_ops /\ t_ops a <> [] /\
     (removal c m = true -> exists i x pos ops, t_ops a = (Some i, x, pos) :: ops /\ is_Some (t_own a !! i)))
  end.

Fixpoint a_run (es : list tm_event) (a : tags) : list tm_result * tags :=
  match es with
  | [] => ([], a)
  | e :: es => let '(r, a) := a_step e a in let '(rs, a) := a_run es a in (r :: rs, a)
  end.

Fixpoint events_ok (es : list tm_event) (a : tags) : Prop :=
  match es with
  | [] => True
  | e :: es => event_ok e a /\ events_ok es (a_step e a).2
  end.

Lemma sys_step_rep e s bf a : sys_rep s a -> event_ok e a ->
  exists s' bf', sys_step e s bf = Some ((a_step e a).1, s', bf') /\ sys_rep s' (a_step e a).2.
Proof.
  intros R Hok. destruct e as [wrs|m c]; cbn [sys_step a_step].
  - pose proof (sys_post_rep wrs s bf a R Hok) as H. destruct (a_post room wrs a) as [[[o k] hs] a'].
    destruct H as (s' & bf' & -> & R'). by exists s', bf'.
  - assert (R1 : sys_rep (set_p_mem m s) a) by (by apply (sys_ext s)). cbv zeta. destruct Hok as [[Hop [id Hid]]|(Hop & Hne & Hrm)].
    + destruct (handle_consumed _ a c id R1 Hop Hid) as (s' & E & Ei & R'). rewrite E, Ei. cbn in R'.
      assert (has_opcode consume_ops (cqe_app_op c m) = true) as -> by (apply existsb_exists; exists (cqe_app_op c m); split; [done|apply Z.eqb_refl]).
      exists s', bf. cbn [fst snd]. by rewrite Hid.
    + assert (has_opcode consume_ops (cqe_app_op c m) = false) as -> by (by destruct Hop as [<-|[<-|[<-|[]]]]).
      destruct (a_done (removal c m) a) as [[id a']|] eqn:Ed; [|unfold a_done in Ed; by destruct (t_ops a) as [|[[]]]].
      destruct (handle_list_op _ a c id a' R1 Hop Ed Hrm) as (s' & E & R' & Ei). rewrite E, Ei. by exists s', bf.
Qed.

Lemma sys_run_rep es : forall s bf a, sys_rep s a -> events_ok es a ->
  exists s' bf', sys_run es s bf = Some ((a_run es a).1, s', bf') /\ sys_rep s' (a_run es a).2.
Proof.
  induction es as [|e es IH]; intros s bf a R Hok; cbn [sys_run a_run]; [by exists s, bf|]. destruct Hok as [He Hok].
  destruct (sys_step_rep e s bf a R He) as (s1 & bf1 & -> & R1). destruct (a_step e a) as [r a1]. cbn in *.
  destruct (IH s1 bf1 a1 R1 Hok) as (s2 & bf2 & -> & R2). destruct (a_run es a1) as [rs a2]. by exists s2, bf2.
Qed.
End System.

(** ** The start *)

Lemma init_tag n cnt i : 0 <= i <= n -> tag_of (tm_init n cnt) i = mk_tag (if i <? n then i + 1 else -1) 0 0 0 0 0.
Proof.
  intros Hi. unfold tag_of, tag_at, tm_init. cbn. rewrite (proj2 (Z.leb_le 0 i)) by lia. rewrite list_lookup_fmap, lookup_seqZ_lt by lia. cbn.
  replace (Z.of_nat (Z.to_nat i)) with i by lia. done.
Qed.

Lemma init_rep n cnt k h : 0 <= n -> 0 <= k <= 31 -> cnt = 2 ^ k -> tags_rep n cnt (tm_init n cnt) (mk_tags (seqZ 0 (n + 1)) ∅ [] h h).
Proof.
  intros Hn Hk Ec. assert (Hc : 0 < cnt) by (subst cnt; apply Z.pow_pos_nonneg; lia).
  split; cbn; [exists []|lia| |done|by intros ? ? ?%elem_of_nil|lia].
  - split; [|constructor]. split; cbn; [by exists k|rewrite length_replicate; lia|done|lia|done].
  - split; cbn -[tm_init tag_of].
    + unfold tm_init. cbn. rewrite length_fmap, length_seqZ. lia.
    + split; [by rewrite lookup_seqZ_lt by lia| |].
      * rewrite last_lookup, length_seqZ, lookup_seqZ_lt by lia. f_equal. cbn. lia.
      * intros j x y Hx Hy. apply lookup_seqZ in Hx as [-> Hx], Hy as [-> Hy]. unfold next_of. rewrite init_tag by lia. cbn.
        rewrite (proj2 (Z.ltb_lt _ _)) by lia. lia.
    + unfold next_of. cbn. rewrite init_tag by lia. cbn. by rewrite Z.ltb_irrefl.
    + apply NoDup_seqZ.
    + intros i Hi. rewrite init_tag by done. unfold owed, cnt_of. cbn. rewrite lookup_empty. done.
    + intros i. rewrite elem_of_seqZ. unfold owed, cnt_of. cbn. rewrite lookup_empty. lia.
Qed.

(** C22.  Tag matching refines a pool of tags and a queue of operations.  Start from the
    lists a new SRQ has, with [n] tags and an idle command queue of [cnt] blocks, and let the
    application post any lists of adds, removals and synchronisations while the device
    reports matches and completed operations.  Then every call returns what the abstract
    pool returns: adds hand out the free tags in turn and fail with [ENOMEM] exactly when all
    [n] are out or the command queue is full, operations are reported in the order they were
    posted with their identifiers, matches with the identifier of their receive, nothing is
    ever read outside the arrays; and a tag is free exactly when neither the device holds it
    nor an operation on it is pending. *)
Theorem tag_list_refines ctx n cnt k room sp cmd h s bf qp es :
  0 <= n -> 0 <= k <= 31 -> cnt = 2 ^ k -> 0 <= room <= cnt -> sp <> cmd ->
  srq_obj s sp cmd (tm_init n cnt) -> qp_obj s cmd qp ->
  wqe_cnt (sq qp) = cnt -> max_post (sq qp) = room -> wq_head (sq qp) = u32 h -> wq_tail (sq qp) = u32 h ->
  let a := mk_tags (seqZ 0 (n + 1)) ∅ [] h h in
  events_ok room es a ->
  let '(rs, a') := a_run room es a in
  exists s' bf', sys_run ctx sp cmd es s bf = Some (rs, s', bf') /\
    NoDup (t_free a') /\ (forall i, i ∈ t_free a' <-> 0 <= i <= n /\ owed a' i = 0).
Proof.
  intros Hn Hk Ec Hr Hne Hs Hq E1 E2 E3 E4 a Hok.
  assert (R : sys_rep n cnt room sp cmd s a).
  { split; [exists (tm_init n cnt); split; [done|by apply (init_rep n cnt k)]|exists qp; split; [done|]|done].
    split; cbn; try done; try lia. subst cnt. pose proof (Z.pow_le_mono_r 2 k 31). lia. }
  destruct (sys_run_rep ctx n cnt room sp cmd es s bf a R Hok) as (s' & bf' & E & [(tl & _ & R') _ _]).
  destruct (a_run room es a) as [rs a']. exists s', bf'. split; [done|]. split; apply R'.
Qed.

(** ** Witness *)

(** An SRQ with two tags at 50, its command QP at 60 *)
Definition tm_pst : pst :=
  mk_pst demo_cq (p_tabs demo_pst)
    {[50 := mk_rsc MLX5_RSC_TYPE_XSRQ 9 (OSrq demo_srq 9 (tm_init 2 4) 60); 60 := mk_rsc MLX5_RSC_TYPE_QP 7 (OQp (demo_qp IBV_QPT_RC 0) 0)]}
    ∅ 0 0 demo_wc (fun _ => 0) [].

Definition tm_wr (op flags id hd rid : Z) (l : list ibv_sge) : ibv_ops_wr := mk_ops id op flags 0 hd rid l 17 255.

(** The memory with an entry at 4096: its operation, its tag, [ok] whether it succeeded *)
Definition tm_cqe (op tag : Z) (ok : bool) (own len : Z) : mem :=
  store_be 1 (4096 + 63) own (store_be 4 (4096 + 44) len (store_be 1 (4096 + 41) op (store_be 2 (4096 + 42) tag
    (store_be 4 4096 (if ok then MLX5_TMC_SUCCESS else 0) (fun _ => 0))))).

(** Two adds, one with a report; the second tag is matched, the first removed; the third add
    finds no free tag before that, and one after. *)
Definition tm_events : list tm_event :=
  [TPost [tm_wr IBV_WR_TAG_ADD 1 100 0 200 []; tm_wr IBV_WR_TAG_ADD 0 101 0 201 []; tm_wr IBV_WR_TAG_ADD 0 102 0 202 []];
   TCqe (tm_cqe MLX5_CQE_APP_OP_TM_APPEND 0 true 0 0) 4096;
   TCqe (tm_cqe MLX5_CQE_APP_OP_TM_CONSUMED_MSG 1 true 0 0) 4096;
   TPost [tm_wr IBV_WR_TAG_DEL 1 103 0 0 []];
   TCqe (tm_cqe MLX5_CQE_APP_OP_TM_REMOVE 0 true 0 0) 4096;
   TPost [tm_wr IBV_WR_TAG_ADD 0 104 0 204 []]].

Lemma events_cons room e es a b : event_ok room e a -> (a_step room e a).2 = b -> events_ok room es b -> events_ok room (e :: es) a.
Proof. intros H <- H'. by split. Qed.

(** Evaluates the abstract state after the first event. *)
Ltac tm_next := eapply events_cons; [|vm_compute; reflexivity|].

Lemma tm_events_ok : events_ok 4 tm_events (mk_tags (seqZ 0 3) ∅ [] 0 0).
Proof.
  unfold tm_events. tm_next; [cbn; repeat split; done|]. tm_next; [right; vm_compute; split; [tauto|]; split; [done|by intros]|].
  tm_next; [left; vm_compute; split; [tauto|by eexists]|].
  tm_next; [cbn [event_ok post_ok]; split; [intros _; vm_compute; split; [by eexists|done]|by vm_compute]|].
  tm_next; [right; vm_compute; split; [tauto|]; split; [done|]; intros _; eexists _, _, _, _; split; [reflexivity|by eexists]|].
  tm_next; [cbn; repeat split; done|]. done.
Qed.

Lemma tag_list_refines_witness :
  exists s' bf', sys_run demo_ctx 50 60 tm_events tm_pst demo_bf =
    Some ([RPost (Err ENOMEM) 2 [0; 1; 0]; RCqe CQ_OK 100; RCqe CQ_OK 201; RPost Ok 1 [0]; RCqe CQ_OK 103; RPost Ok 1 [2]], s', bf').
Proof.
  assert (Hs : srq_obj tm_pst 50 60 (tm_init 2 4)) by (eexists _, _, _, _; reflexivity).
  assert (Hq : qp_obj tm_pst 60 (demo_qp IBV_QPT_RC 0)) by (eexists _, _, _; reflexivity).
  pose proof (tag_list_refines demo_ctx 2 4 2 4 50 60 0 tm_pst demo_bf (demo_qp IBV_QPT_RC 0) tm_events ltac:(lia) ltac:(lia) eq_refl ltac:(lia) ltac:(lia)
    Hs Hq eq_refl eq_refl eq_refl eq_refl tm_events_ok) as H.
  assert (E : (a_run 4 tm_events (mk_tags (seqZ 0 (2 + 1)) ∅ [] 0 0)).1 =
    [RPost (Err ENOMEM) 2 [0; 1; 0]; RCqe CQ_OK 100; RCqe CQ_OK 201; RPost Ok 1 [0]; RCqe CQ_OK 103; RPost Ok 1 [2]]) by (by vm_compute).
  destruct (a_run 4 tm_events _) as [rs a']. cbn [fst] in E. subst rs. destruct H as (s' & bf' & H & _). by exists s', bf'.
Defined.

(** A tag added without a buffer keeps the address and the size of its last use: data that
    comes inside the entry of its match is written to the buffer of a request that is long
    completed.  Two tags go round once; the third add, without a buffer, gets the first one
    again. *)
Definition stale_events : list tm_event :=
  [TPost [tm_wr IBV_WR_TAG_ADD 0 100 0 200 [mk_sge 9000 64 1]]; TCqe (tm_cqe MLX5_CQE_APP_OP_TM_CONSUMED_MSG 0 true 0 0) 4096;
   TPost [tm_wr IBV_WR_TAG_ADD 0 101 0 201 []]; TCqe (tm_cqe MLX5_CQE_APP_OP_TM_CONSUMED_MSG 1 true 0 0) 4096;
   TPost [tm_wr IBV_WR_TAG_ADD 0 102 0 202 []]; TCqe (tm_cqe MLX5_CQE_APP_OP_TM_CONSUMED_MSG 2 true 0 0) 4096;
   TPost [tm_wr IBV_WR_TAG_ADD 0 103 0 203 []];
   TCqe (store_be 1 (4096 - 64) 77 (tm_cqe MLX5_CQE_APP_OP_TM_CONSUMED_MSG 0 true MLX5_INLINE_SCATTER_64 5)) 4096].

Lemma empty_tag_writes_old_buffer :
  (fun x => (x.1.1, cq_status (p_cq x.1.2), p_mem x.1.2 9000)) <$> sys_run demo_ctx 50 60 stale_events tm_pst demo_bf =
  Some ([RPost Ok 1 [0]; RCqe CQ_OK 200; RPost Ok 1 [1]; RCqe CQ_OK 201; RPost Ok 1 [2]; RCqe CQ_OK 202; RPost Ok 1 [0]; RCqe CQ_OK 203],
    IBV_WC_SUCCESS, 77).
Proof. vm_compute. reflexivity. Qed.
