(* ===== verification/Bitmap.v ===== *)
(** The bitmaps of ccan (ccan/bitmap.h, ccan/bitmap.c), which the buddy allocator of steering
    memory is built on.  A bitmap is an array of 64-bit words; bit [n] is bit [63 - n mod 64] of
    word [n / 64], counted from the least significant one.  An access outside the array and a
    failed [assert] are [None]. *)

From stdpp Require Import base numbers list.
From S2P Require Import Prelude.

(** * The operations *)

Abbreviation bitmap := (list Z).

Definition BITMAP_WORD_BITS : Z := 64.
Definition BITMAP_NWORDS (n : Z) : Z := u64 (n + BITMAP_WORD_BITS - 1) / BITMAP_WORD_BITS.

(** [BITMAP_WORD(bm, n)], read and written *)
Definition BITMAP_WORD (bm : bitmap) (n : Z) : option Z := bm !! Z.to_nat (n / BITMAP_WORD_BITS).
Definition put_word (bm : bitmap) (n w : Z) : bitmap := <[Z.to_nat (n / BITMAP_WORD_BITS) := w]> bm.
Definition BITMAP_WORDBIT (n : Z) : Z := u64 (Z.shiftl 1 (BITMAP_WORD_BITS - n mod BITMAP_WORD_BITS - 1)).

Definition bitmap_set_bit (bm : bitmap) (n : Z) : option bitmap :=
  w ← BITMAP_WORD bm n; Some (put_word bm n (Z.lor w (BITMAP_WORDBIT n))).

Definition bitmap_clear_bit (bm : bitmap) (n : Z) : option bitmap :=
  w ← BITMAP_WORD bm n; Some (put_word bm n (Z.land w (u64 (Z.lnot (BITMAP_WORDBIT n))))).

Definition bitmap_change_bit (bm : bitmap) (n : Z) : option bitmap :=
  w ← BITMAP_WORD bm n; Some (put_word bm n (Z.lxor w (BITMAP_WORDBIT n))).

Definition bitmap_test_bit (bm : bitmap) (n : Z) : option bool :=
  w ← BITMAP_WORD bm n; Some (negb (Z.land w (BITMAP_WORDBIT n) =? 0)).

(** [bitmap_alloc0] with the answer of [malloc] *)
Definition bitmap_alloc0 (nbits : Z) (got : bool) : option bitmap :=
  if got then Some (replicate (Z.to_nat (BITMAP_NWORDS nbits)) 0) else None.

(** ** Ranges *)

Definition BIT_ALIGN_DOWN (n : Z) : Z := Z.land n (u64 (Z.lnot (BITMAP_WORD_BITS - 1))).
Definition BIT_ALIGN_UP (n : Z) : Z := BIT_ALIGN_DOWN (u64 (n + BITMAP_WORD_BITS - 1)).

Definition headmask (n : Z) : Z := Z.shiftr (2 ^ 64 - 1) (n mod BITMAP_WORD_BITS).
Definition tailmask (m : Z) : Z := u64 (Z.lnot (Z.shiftr (2 ^ 64 - 1) (m mod BITMAP_WORD_BITS))).

(** A word of the array changed in place *)
Definition upd_word (f : Z -> Z) (bm : bitmap) (n : Z) : option bitmap :=
  w ← BITMAP_WORD bm n; Some (put_word bm n (f w)).

(** [memset] of the whole words from bit [an] to bit [am] *)
Fixpoint set_words (k : nat) (v : Z) (bm : bitmap) (an : Z) : option bitmap :=
  match k with
  | O => Some bm
  | S k => bm ← upd_word (fun _ => v) bm an; set_words k v bm (an + BITMAP_WORD_BITS)
  end.

(** [bitmap_zero_range] and [bitmap_fill_range] differ in what they do to the masked bits of
    a word ([upd]) and in the value of whole words ([v]) *)
Definition bitmap_range (upd : Z -> Z -> Z) (v : Z) (bm : bitmap) (n m : Z) : option bitmap :=
  let an := BIT_ALIGN_UP n in
  let am := BIT_ALIGN_DOWN m in
  if m <? n then None
  else if am <? an then upd_word (upd (Z.land (headmask n) (tailmask m))) bm n
  else
    bm ← (if n <? an then upd_word (upd (headmask n)) bm n else Some bm);
    bm ← (if an <? am then set_words (Z.to_nat ((am - an) / BITMAP_WORD_BITS)) v bm an else Some bm);
    if am <? m then upd_word (upd (tailmask m)) bm m else Some bm.

Definition bitmap_zero_range : bitmap -> Z -> Z -> option bitmap :=
  bitmap_range (fun mask w => Z.land w (u64 (Z.lnot mask))) 0.
Definition bitmap_fill_range : bitmap -> Z -> Z -> option bitmap :=
  bitmap_range (fun mask w => Z.lor w mask) (2 ^ 64 - 1).

(** ** Searching *)

(** [bitmap_clz] without the builtin: [lz] from the top bit down *)
Fixpoint clz_loop (fuel : nat) (w lz mask : Z) : option Z :=
  if negb (Z.land w mask =? 0) then Some lz
  else match fuel with O => None | S fuel => clz_loop fuel w (lz + 1) (Z.shiftr mask 1) end.

(** .. and with it: [__builtin_clzl] of a word that is not 0 *)
Definition bitmap_clz (w : Z) : Z := 63 - Z.log2 w.

(** [while (an < am)]: the [k] words from [an] on *)
Fixpoint ffs_words (k : nat) (bm : bitmap) (an : Z) : option (option Z) :=
  match k with
  | O => Some None
  | S k =>
    w ← BITMAP_WORD bm an;
    if negb (w =? 0) then Some (Some (an + bitmap_clz w)) else ffs_words k bm (an + BITMAP_WORD_BITS)
  end.

(** The last part of [bitmap_ffs] *)
Definition ffs_tail (bm : bitmap) (am m : Z) : option Z :=
  if am <? m then
    w ← BITMAP_WORD bm m;
    let w := Z.land w (tailmask m) in
    Some (if negb (w =? 0) then am + bitmap_clz w else m)
  else Some m.

(** .. after the head *)
Definition ffs_rest (bm : bitmap) (an am m : Z) : option Z :=
  r ← ffs_words (Z.to_nat ((am - an) / BITMAP_WORD_BITS)) bm an;
  match r with
  | Some r => Some r
  | None => ffs_tail bm am m
  end.

Definition bitmap_ffs (bm : bitmap) (n m : Z) : option Z :=
  let an := BIT_ALIGN_UP n in
  let am := BIT_ALIGN_DOWN m in
  if m <? n then None
  else if am <? an then
    w ← BITMAP_WORD bm n;
    let w := Z.land w (Z.land (headmask n) (tailmask m)) in
    Some (if negb (w =? 0) then am + bitmap_clz w else m)
  else if n <? an then
    w ← BITMAP_WORD bm n;
    let w := Z.land w (headmask n) in
    if negb (w =? 0) then Some (BIT_ALIGN_DOWN n + bitmap_clz w)
    else ffs_rest bm an am m
  else ffs_rest bm an am m.

(** ** Whole bitmaps *)

Definition BITMAP_HEADWORDS (nbits : Z) : Z := nbits / BITMAP_WORD_BITS.
Definition BITMAP_HASTAIL (nbits : Z) : bool := negb (nbits mod BITMAP_WORD_BITS =? 0).
Definition BITMAP_TAILBITS (nbits : Z) : Z := tailmask nbits.
Definition BITMAP_TAIL (bm : bitmap) (nbits : Z) : option Z :=
  w ← BITMAP_WORD bm nbits; Some (Z.land w (BITMAP_TAILBITS nbits)).

(** A test on the head words, in order, and then on the masked tail words: the form of
    [bitmap_equal], [bitmap_intersects], [bitmap_subset], [bitmap_full] and [bitmap_empty]; the
    first word that fails the test decides the answer *)
Fixpoint words_all (k : nat) (good : Z -> Z -> bool) (b1 b2 : bitmap) (i : nat) : option bool :=
  match k with
  | O => Some true
  | S k => w1 ← b1 !! i; w2 ← b2 !! i; if good w1 w2 then words_all k good b1 b2 (S i) else Some false
  end.

Definition bitmap_all (good tail_good : Z -> Z -> bool) (b1 b2 : bitmap) (nbits : Z) : option bool :=
  h ← words_all (Z.to_nat (BITMAP_HEADWORDS nbits)) good b1 b2 0;
  if negb h then Some false
  else if BITMAP_HASTAIL nbits then
    t1 ← BITMAP_TAIL b1 nbits; t2 ← BITMAP_TAIL b2 nbits; Some (tail_good t1 t2)
  else Some true.

Definition bitmap_equal : bitmap -> bitmap -> Z -> option bool := bitmap_all Z.eqb Z.eqb.
Definition bitmap_intersects (b1 b2 : bitmap) (nbits : Z) : option bool :=
  let apart w1 w2 := Z.land w1 w2 =? 0 in negb <$> bitmap_all apart apart b1 b2 nbits.
Definition bitmap_subset : bitmap -> bitmap -> Z -> option bool :=
  let sub w1 w2 := Z.land w1 (u64 (Z.lnot w2)) =? 0 in bitmap_all sub sub.
Definition bitmap_full (bm : bitmap) (nbits : Z) : option bool :=
  bitmap_all (fun w _ => w =? 2 ^ 64 - 1) (fun t _ => t =? BITMAP_TAILBITS nbits) bm bm nbits.
Definition bitmap_empty (bm : bitmap) (nbits : Z) : option bool :=
  bitmap_all (fun w _ => w =? 0) (fun t _ => t =? 0) bm bm nbits.
