(* ===== verification/BitmapProps.v ===== *)
(** Bitmaps as sets of bits: every operation on the words is the operation on the bits. *)

From stdpp Require Import base numbers list.
From S2P Require Import Prelude Bitmap.

Create HintDb bitmaps.

(** * Bits *)

Definition bit (bm : bitmap) (i : Z) : bool :=
  match BITMAP_WORD bm i with Some w => Z.testbit w (63 - i mod 64) | None => false end.

Definition word (w : Z) : Prop := 0 <= w < 2 ^ 64.

Definition bm_wf (bm : bitmap) : Prop := Forall word bm.

Definition bm_size (bm : bitmap) : Z := 64 * Z.of_nat (length bm).

(** ** Words *)

Lemma word_high w j : word w -> 64 <= j -> Z.testbit w j = false.
Proof.
  intros Hw Hj. destruct (Z.eq_dec w 0) as [->|]; [apply Z.bits_0|].
  apply Z.bits_above_log2; [unfold word in Hw; lia|].
  apply Z.lt_le_trans with 64; [apply Z.log2_lt_pow2|]; unfold word in Hw; lia.
Qed.

Lemma word_of_bits w : 0 <= w -> (forall j, 64 <= j -> Z.testbit w j = false) -> word w.
Proof.
  intros H0 H. split; [done|]. destruct (Z.eq_dec w 0) as [->|]; [lia|].
  apply Z.log2_lt_pow2; [lia|]. destruct (Z.lt_ge_cases (Z.log2 w) 64) as [|Hl]; [done|].
  specialize (H _ Hl). rewrite Z.bit_log2 in H by lia. done.
Qed.

Lemma word_ext w1 w2 :
  word w1 -> word w2 -> (forall j, 0 <= j < 64 -> Z.testbit w1 (63 - j) = Z.testbit w2 (63 - j)) -> w1 = w2.
Proof.
  intros H1 H2 H. apply Z.bits_inj'. intros j Hj. destruct (Z.lt_ge_cases j 64).
  - specialize (H (63 - j) ltac:(lia)). by replace (63 - (63 - j)) with j in H by lia.
  - by rewrite !word_high by done.
Qed.

Lemma word_zero w : word w -> w = 0 <-> forall j, 0 <= j < 64 -> Z.testbit w (63 - j) = false.
Proof.
  intros Hw. split.
  - intros -> j _. apply Z.bits_0.
  - intros H. apply word_ext; [done|done|]. intros j Hj. by rewrite H, Z.bits_0.
Qed.

Lemma u64_testbit x j : 0 <= j -> Z.testbit (u64 x) j = (j <? 64) && Z.testbit x j.
Proof.
  intros Hj. unfold u64. destruct (Z.ltb_spec j 64).
  - by rewrite Z.mod_pow2_bits_low.
  - by rewrite Z.mod_pow2_bits_high by lia.
Qed.

Lemma u64_word x : word (u64 x).
Proof. by apply Z.mod_pos_bound. Qed.

Lemma lor_word w1 w2 : word w1 -> word w2 -> word (Z.lor w1 w2).
Proof.
  intros H1 H2. apply word_of_bits; [apply Z.lor_nonneg; unfold word in *; lia|].
  intros j Hj. by rewrite Z.lor_spec, !word_high.
Qed.

Lemma land_word w1 w2 : word w1 -> word (Z.land w1 w2).
Proof.
  intros H1. apply word_of_bits; [apply Z.land_nonneg; unfold word in *; lia|].
  intros j Hj. by rewrite Z.land_spec, (word_high w1).
Qed.

Lemma lxor_word w1 w2 : word w1 -> word w2 -> word (Z.lxor w1 w2).
Proof.
  intros H1 H2. apply word_of_bits; [apply Z.lxor_nonneg; unfold word in *; lia|].
  intros j Hj. by rewrite Z.lxor_spec, !word_high.
Qed.

#[export] Hint Resolve u64_word lor_word land_word lxor_word : bitmaps.

Lemma lnot_bit x j : 0 <= j < 64 -> Z.testbit (u64 (Z.lnot x)) (63 - j) = negb (Z.testbit x (63 - j)).
Proof. intros Hj. rewrite u64_testbit, Z.lnot_spec by lia. by rewrite (proj2 (Z.ltb_lt _ _)) by lia. Qed.

(** ** The masks, bit by bit *)

Lemma wordbit_bit n j : 0 <= n -> 0 <= j < 64 -> Z.testbit (BITMAP_WORDBIT n) (63 - j) = (j =? n mod 64).
Proof.
  intros Hn Hj. unfold BITMAP_WORDBIT, BITMAP_WORD_BITS. rewrite u64_testbit by lia.
  rewrite (proj2 (Z.ltb_lt _ _)) by lia. simpl. pose proof (Z.mod_pos_bound n 64 ltac:(lia)).
  rewrite Z.shiftl_1_l, Z.pow2_bits_eqb by lia.
  destruct (Z.eqb_spec j (n mod 64)); [apply Z.eqb_eq|apply Z.eqb_neq]; lia.
Qed.

Lemma headmask_bit n j : 0 <= j < 64 -> Z.testbit (headmask n) (63 - j) = (n mod 64 <=? j).
Proof.
  intros Hj. unfold headmask, BITMAP_WORD_BITS. pose proof (Z.mod_pos_bound n 64 ltac:(lia)).
  rewrite Z.shiftr_spec by lia. change (2 ^ 64 - 1) with (Z.ones 64). 
  destruct (Z.leb_spec (n mod 64) j); [apply Z.ones_spec_low|apply Z.ones_spec_high]; lia.
Qed.

Lemma tailmask_bit m j : 0 <= j < 64 -> Z.testbit (tailmask m) (63 - j) = (j <? m mod 64).
Proof.
  intros Hj. unfold tailmask. rewrite lnot_bit by done. fold (headmask m). rewrite headmask_bit by done.
  destruct (Z.leb_spec (m mod 64) j), (Z.ltb_spec j (m mod 64)); try done; lia.
Qed.

Lemma headmask_word n : word (headmask n).
Proof.
  unfold headmask, BITMAP_WORD_BITS. pose proof (Z.mod_pos_bound n 64 ltac:(lia)).
  rewrite Z.shiftr_div_pow2 by lia. split; [apply Z.div_pos; lia|].
  apply Z.div_lt_upper_bound; [lia|]. nia.
Qed.

Lemma tailmask_word m : word (tailmask m).
Proof. apply u64_word. Qed.

Lemma wordbit_word n : word (BITMAP_WORDBIT n).
Proof. apply u64_word. Qed.

#[export] Hint Resolve headmask_word tailmask_word wordbit_word : bitmaps.

(** ** Alignment *)

Lemma align_down_eq n : 0 <= n < 2 ^ 63 -> BIT_ALIGN_DOWN n = 64 * (n / 64).
Proof.
  intros Hn. unfold BIT_ALIGN_DOWN, BITMAP_WORD_BITS. change (64 - 1) with (2 ^ 6 - 1).
  rewrite u64_lnot_ones by lia.
  replace (64 * (n / 64)) with (Z.shiftl (Z.shiftr n 6) 6)
    by (rewrite Z.shiftl_mul_pow2, Z.shiftr_div_pow2 by lia; change (2 ^ 6) with 64; lia).
  apply Z.bits_inj'. intros i Hi. rewrite Z.land_spec, !Z.shiftl_spec by lia.
  destruct (Z.ltb_spec i 6).
  - rewrite !(Z.testbit_neg_r _ (i - 6)) by lia. by rewrite andb_false_r.
  - rewrite Z.shiftr_spec by lia. replace (i - 6 + 6) with i by lia.
    destruct (Z.ltb_spec (i - 6) (64 - 6)).
    + rewrite Z.ones_spec_low by lia. by rewrite andb_true_r.
    + rewrite Z.ones_spec_high, andb_false_r by lia. symmetry. apply word_high; [unfold word; lia|lia].
Qed.

Lemma align_up_eq n : 0 <= n < 2 ^ 62 -> BIT_ALIGN_UP n = 64 * ((n + 63) / 64).
Proof.
  intros Hn. unfold BIT_ALIGN_UP, BITMAP_WORD_BITS. rewrite u64_small by lia.
  rewrite align_down_eq by lia. do 2 f_equal. lia.
Qed.

(** ** Words of a bitmap *)

Lemma word_at bm n :
  bm_wf bm -> 0 <= n < bm_size bm -> exists w, BITMAP_WORD bm n = Some w /\ word w.
Proof.
  intros Hw Hn. unfold BITMAP_WORD, BITMAP_WORD_BITS, bm_size in *.
  destruct (lookup_lt_is_Some_2 bm (Z.to_nat (n / 64))) as [w E]; [div_lia|].
  exists w. split; [done|]. by eapply Forall_lookup_1 in Hw.
Qed.

Lemma word_same bm n i : n / 64 = i / 64 -> BITMAP_WORD bm n = BITMAP_WORD bm i.
Proof. unfold BITMAP_WORD, BITMAP_WORD_BITS. by intros ->. Qed.

Lemma bit_at bm n i w : BITMAP_WORD bm n = Some w -> i / 64 = n / 64 -> bit bm i = Z.testbit w (63 - i mod 64).
Proof. intros E Ei. unfold bit. by rewrite (word_same _ i n), E. Qed.

Lemma bit_outside bm i : bm_size bm <= i -> bit bm i = false.
Proof.
  intros Hi. unfold bit, BITMAP_WORD, BITMAP_WORD_BITS, bm_size in *. rewrite lookup_ge_None_2; [done|div_lia].
Qed.

(** [bm'] is [bm] with bits [f] *)
Definition becomes (bm bm' : bitmap) (f : Z -> bool) : Prop :=
  length bm' = length bm /\ bm_wf bm' /\ forall i, 0 <= i -> bit bm' i = f i.

Lemma becomes_trans bm bm1 bm2 f g :
  becomes bm bm1 f -> becomes bm1 bm2 g -> becomes bm bm2 g.
Proof. intros (L1 & _ & _) (L2 & W2 & B2). split_and!; [congruence|done..]. Qed.

Lemma becomes_ext bm bm' f g : (forall i, 0 <= i -> f i = g i) -> becomes bm bm' f -> becomes bm bm' g.
Proof. intros E (L & W & B). split_and!; [done..|]. intros i Hi. by rewrite B, E. Qed.

Lemma becomes_refl bm : bm_wf bm -> becomes bm bm (bit bm).
Proof. done. Qed.

Lemma upd_word_becomes f bm n :
  bm_wf bm -> 0 <= n < bm_size bm -> (forall w, word w -> word (f w)) ->
  exists w bm', BITMAP_WORD bm n = Some w /\ word w /\ upd_word f bm n = Some bm' /\
    becomes bm bm' (fun i => if i / 64 =? n / 64 then Z.testbit (f w) (63 - i mod 64) else bit bm i).
Proof.
  intros Hw Hn Hf. destruct (word_at bm n Hw Hn) as (w & E & Hww). exists w. eexists.
  split; [done|]. split; [done|]. unfold upd_word. rewrite E. split; [reflexivity|]. unfold put_word. split_and!.
  - apply length_insert.
  - apply Forall_insert; [done|]. by apply Hf.
  - intros i Hi. unfold bit, BITMAP_WORD, BITMAP_WORD_BITS in *.
    destruct (Z.eqb_spec (i / 64) (n / 64)) as [->|Hne].
    + rewrite list_lookup_insert_eq; [done|]. by eapply lookup_lt_Some.
    + rewrite list_lookup_insert_ne; [done|]. intros E'. apply Hne.
      apply Z2Nat.inj in E'; [done|apply Z.div_pos; lia..].
Qed.

(** ** Single bits *)

Lemma upd_bit_spec (f : Z -> Z) (op : bool -> bool -> bool) bm n :
  (forall w, word w -> word (f w)) -> (forall b, op false b = b) ->
  (forall w j, 0 <= j < 64 -> Z.testbit (f w) (63 - j) = op (j =? n mod 64) (Z.testbit w (63 - j))) ->
  bm_wf bm -> 0 <= n < bm_size bm ->
  exists bm', upd_word f bm n = Some bm' /\ becomes bm bm' (fun i => op (i =? n) (bit bm i)).
Proof.
  intros Hf Hop Hb Hw Hn. destruct (upd_word_becomes f bm n Hw Hn Hf) as (w & bm' & E & Hww & E' & B).
  exists bm'. split; [exact E'|]. eapply becomes_ext; [|exact B]. intros i Hi. cbv beta.
  destruct (Z.eqb_spec (i / 64) (n / 64)) as [Ei|Ei].
  - rewrite Hb, (bit_at _ _ _ _ E Ei) by (apply Z.mod_pos_bound; lia). f_equal.
    destruct (Z.eqb_spec i n); [apply Z.eqb_eq; congruence|apply Z.eqb_neq; div_lia].
  - destruct (Z.eqb_spec i n); [congruence|by rewrite Hop].
Qed.

Lemma set_bit_spec bm n :
  bm_wf bm -> 0 <= n < bm_size bm ->
  exists bm', bitmap_set_bit bm n = Some bm' /\ becomes bm bm' (fun i => (i =? n) || bit bm i).
Proof.
  intros Hw Hn. apply (upd_bit_spec (fun w => Z.lor w (BITMAP_WORDBIT n)) orb); auto with bitmaps.
  intros w j Hj. by rewrite Z.lor_spec, wordbit_bit, orb_comm by lia.
Qed.

Lemma clear_bit_spec bm n :
  bm_wf bm -> 0 <= n < bm_size bm ->
  exists bm', bitmap_clear_bit bm n = Some bm' /\ becomes bm bm' (fun i => negb (i =? n) && bit bm i).
Proof.
  intros Hw Hn. apply (upd_bit_spec (fun w => Z.land w (u64 (Z.lnot (BITMAP_WORDBIT n)))) (fun x y => negb x && y));
    auto with bitmaps. intros w j Hj. by rewrite Z.land_spec, lnot_bit, wordbit_bit, andb_comm by lia.
Qed.

Lemma change_bit_spec bm n :
  bm_wf bm -> 0 <= n < bm_size bm ->
  exists bm', bitmap_change_bit bm n = Some bm' /\ becomes bm bm' (fun i => xorb (i =? n) (bit bm i)).
Proof.
  intros Hw Hn. apply (upd_bit_spec (fun w => Z.lxor w (BITMAP_WORDBIT n)) xorb);
    [auto with bitmaps|by intros []| |done..]. intros w j Hj. by rewrite Z.lxor_spec, wordbit_bit, xorb_comm by lia.
Qed.

Lemma test_bit_spec bm n : bm_wf bm -> 0 <= n < bm_size bm -> bitmap_test_bit bm n = Some (bit bm n).
Proof.
  intros Hw Hn. destruct (word_at bm n Hw Hn) as (w & E & Hww). unfold bitmap_test_bit. rewrite E. simpl. f_equal.
  rewrite (bit_at _ n n _ E) by done. pose proof (Z.mod_pos_bound n 64 ltac:(lia)) as Hm.
  destruct (Z.testbit w (63 - n mod 64)) eqn:Eb.
  - rewrite negb_true_iff, Z.eqb_neq. intros H0.
    assert (Z.testbit (Z.land w (BITMAP_WORDBIT n)) (63 - n mod 64) = true) as Hc
      by (by rewrite Z.land_spec, wordbit_bit, Eb, Z.eqb_refl by lia).
    by rewrite H0, Z.bits_0 in Hc.
  - rewrite negb_false_iff, Z.eqb_eq. apply word_zero; [by apply land_word|]. intros j Hj.
    rewrite Z.land_spec, wordbit_bit by lia. destruct (Z.eqb_spec j (n mod 64)) as [->|]; [by rewrite Eb|apply andb_false_r].
Qed.

Lemma alloc0_spec nbits :
  0 <= nbits < 2 ^ 62 ->
  exists bm, bitmap_alloc0 nbits true = Some bm /\ bm_wf bm /\
    bm_size bm = 64 * ((nbits + 63) / 64) /\ forall i, bit bm i = false.
Proof.
  intros Hn. eexists. split; [reflexivity|]. split; [|split].
  - apply Forall_replicate. unfold word. lia.
  - unfold bm_size, BITMAP_NWORDS, BITMAP_WORD_BITS. rewrite length_replicate, u64_small by lia. 
    rewrite Z2Nat.id by (apply Z.div_pos; lia). do 2 f_equal. lia.
  - intros i. unfold bit. destruct (BITMAP_WORD _ i) as [w|] eqn:E; [|done].
    apply lookup_replicate_1 in E as [-> _]. apply Z.bits_0.
Qed.

(** ** Ranges of bits *)

Lemma set_words_spec b v bm an k :
  word v -> (forall j, 0 <= j < 64 -> Z.testbit v (63 - j) = b) ->
  bm_wf bm -> 0 <= an -> an mod 64 = 0 -> an + 64 * Z.of_nat k <= bm_size bm ->
  exists bm', set_words k v bm an = Some bm' /\
    becomes bm bm' (fun i => if (an <=? i) && (i <? an + 64 * Z.of_nat k) then b else bit bm i).
Proof.
  intros Hv Hb. revert bm an. induction k as [|k IH]; intros bm an Hw Ha Hm Hs.
  - exists bm. split; [done|]. eapply becomes_ext; [|by apply becomes_refl]. intros i Hi.
    destruct (Z.leb_spec an i), (Z.ltb_spec i (an + 64 * Z.of_nat 0)); simpl; try done; lia.
  - destruct (upd_word_becomes (fun _ => v) bm an Hw ltac:(lia) ltac:(done)) as (w & bm1 & _ & _ & E1 & B1).
    simpl set_words. rewrite E1. cbn [mbind option_bind].
    destruct (IH bm1 (an + 64)) as (bm2 & E2 & B2); [apply B1|lia|div_lia| |].
    { unfold bm_size in *. rewrite (proj1 B1). lia. }
    exists bm2. split; [exact E2|]. eapply becomes_ext; [|eapply becomes_trans; [exact B1|exact B2]].
    intros i Hi. cbv beta. rewrite (proj2 (proj2 B1) i Hi).
    destruct (Z.leb_spec an i), (Z.ltb_spec i (an + 64 * Z.of_nat (S k))),
      (Z.leb_spec (an + 64) i), (Z.ltb_spec i (an + 64 + 64 * Z.of_nat k)),
      (Z.eqb_spec (i / 64) (an / 64)); simpl; try done; try (exfalso; div_lia).
    all: try (apply Hb, Z.mod_pos_bound; lia).
Qed.

Section Range.
Context (b : bool) (upd : Z -> Z -> Z) (v : Z).
Context (Hv : word v) (Hvb : forall j, 0 <= j < 64 -> Z.testbit v (63 - j) = b).
Context (Hu : forall mask w, word mask -> word w -> word (upd mask w)).
Context (Hub : forall mask w j, 0 <= j < 64 ->
  Z.testbit (upd mask w) (63 - j) = if Z.testbit mask (63 - j) then b else Z.testbit w (63 - j)).

Lemma upd_mask_spec mask bm n lo hi :
  word mask -> bm_wf bm -> 0 <= n < bm_size bm -> 64 * (n / 64) <= lo -> hi <= 64 * (n / 64) + 64 ->
  (forall j, 0 <= j < 64 -> Z.testbit mask (63 - j) = (lo <=? 64 * (n / 64) + j) && (64 * (n / 64) + j <? hi)) ->
  exists bm', upd_word (upd mask) bm n = Some bm' /\
    becomes bm bm' (fun i => if (lo <=? i) && (i <? hi) then b else bit bm i).
Proof using Hu Hub.
  intros Hmk Hw Hn Hlo Hhi Hm.
  destruct (upd_word_becomes (upd mask) bm n Hw Hn ltac:(auto)) as (w & bm' & E & Hww & E' & B).
  exists bm'. split; [done|]. eapply becomes_ext; [|exact B]. intros i Hi. cbv beta.
  destruct (Z.eqb_spec (i / 64) (n / 64)) as [Ei|Ei].
  - assert (0 <= i mod 64 < 64) by (apply Z.mod_pos_bound; lia).
    rewrite Hub, Hm, (bit_at _ _ _ _ E Ei) by done.
    replace (64 * (n / 64) + i mod 64) with i by (rewrite <- Ei; div_lia). done.
  - destruct (Z.leb_spec lo i), (Z.ltb_spec i hi); simpl; try done. exfalso. div_lia.
Qed.

(** A condition step that may not run *)
Lemma step_or_skip (c : bool) (t : option bitmap) bm lo hi :
  bm_wf bm -> (c = false -> hi <= lo) ->
  (c = true -> exists bm', t = Some bm' /\ becomes bm bm' (fun i => if (lo <=? i) && (i <? hi) then b else bit bm i)) ->
  exists bm', (if c then t else Some bm) = Some bm' /\
    becomes bm bm' (fun i => if (lo <=? i) && (i <? hi) then b else bit bm i).
Proof using.
  intros Hw Hf Ht. destruct c; [by apply Ht|]. exists bm. split; [done|].
  eapply becomes_ext; [|by apply becomes_refl]. intros i Hi. specialize (Hf eq_refl).
  destruct (Z.leb_spec lo i), (Z.ltb_spec i hi); simpl; try done; lia.
Qed.

Lemma range_spec bm n m :
  bm_wf bm -> 0 <= n <= m -> m <= bm_size bm -> bm_size bm < 2 ^ 62 ->
  exists bm', bitmap_range upd v bm n m = Some bm' /\
    becomes bm bm' (fun i => if (n <=? i) && (i <? m) then b else bit bm i).
Proof using All.
  intros Hw Hn Hm Hs. unfold bitmap_range. rewrite align_up_eq, align_down_eq by lia.
  set (an := 64 * ((n + 63) / 64)). set (am := 64 * (m / 64)).
  assert (Ha : n <= an < n + 64) by (unfold an; div_lia). assert (Hb : am <= m < am + 64) by (unfold am; div_lia).
  assert (Hsz : bm_size bm mod 64 = 0) by (unfold bm_size; div_lia).
  rewrite (proj2 (Z.ltb_ge m n)) by lia. destruct (Z.ltb_spec am an) as [Hlt|Hge].
  { apply (upd_mask_spec _ _ _ n m); [auto with bitmaps|done| | | |].
    - unfold an, am in *. div_lia.
    - div_lia.
    - unfold an, am in *. div_lia.
    - intros j Hj. rewrite Z.land_spec, headmask_bit, tailmask_bit by done.
      f_equal; [destruct (Z.leb_spec (n mod 64) j), (Z.leb_spec n (64 * (n / 64) + j))
               |destruct (Z.ltb_spec j (m mod 64)), (Z.ltb_spec (64 * (n / 64) + j) m)];
        try done; exfalso; unfold an, am in *; div_lia. }
  destruct (step_or_skip (n <? an) (upd_word (upd (headmask n)) bm n) bm n an Hw) as (bm1 & E1 & B1); [lia| |].
  { intros Hc. apply (upd_mask_spec _ _ _ n an); [auto with bitmaps|done| | | |].
    - unfold am in *. lia.
    - div_lia.
    - unfold an in *. div_lia.
    - intros j Hj. rewrite headmask_bit by done. apply Z.ltb_lt in Hc.
      destruct (Z.leb_spec (n mod 64) j), (Z.leb_spec n (64 * (n / 64) + j)), (Z.ltb_spec (64 * (n / 64) + j) an);
        try done; exfalso; unfold an in *; div_lia. }
  assert (Hs1 : bm_size bm1 = bm_size bm) by (unfold bm_size; by rewrite (proj1 B1)).
  destruct (step_or_skip (an <? am) (set_words (Z.to_nat ((am - an) / 64)) v bm1 an) bm1 an am (proj1 (proj2 B1)))
    as (bm2 & E2 & B2); [lia| |].
  { intros Hc. destruct (set_words_spec b v bm1 an (Z.to_nat ((am - an) / 64)) Hv Hvb (proj1 (proj2 B1)))
      as (bm2 & E2 & B2); [lia|unfold an; div_lia|unfold an, am in *; div_lia|].
    exists bm2. split; [exact E2|].
    replace (an + 64 * Z.of_nat (Z.to_nat ((am - an) / 64))) with am in B2 by (unfold an, am in *; div_lia). done. }
  assert (Hs2 : bm_size bm2 = bm_size bm) by (unfold bm_size in *; rewrite (proj1 B2); done).
  destruct (step_or_skip (am <? m) (upd_word (upd (tailmask m)) bm2 m) bm2 am m (proj1 (proj2 B2)))
    as (bm3 & E3 & B3); [lia| |].
  { intros Hc. apply (upd_mask_spec _ _ _ am m); [auto with bitmaps|apply B2| | | |].
    - apply Z.ltb_lt in Hc. unfold am in *. rewrite Hs2. div_lia.
    - unfold am. lia.
    - unfold am in *. lia.
    - intros j Hj. rewrite tailmask_bit by done.
      destruct (Z.ltb_spec j (m mod 64)), (Z.leb_spec am (64 * (m / 64) + j)), (Z.ltb_spec (64 * (m / 64) + j) m);
        try done; exfalso; unfold am in *; div_lia. }
  exists bm3. unfold BITMAP_WORD_BITS. rewrite E1. cbn [mbind option_bind]. rewrite E2. cbn [mbind option_bind].
  split; [exact E3|]. eapply becomes_ext; [|do 2 (eapply becomes_trans; [eassumption|]); exact B3].
  intros i Hi. cbv beta. rewrite (proj2 (proj2 B2) i Hi), (proj2 (proj2 B1) i Hi).
  destruct (Z.leb_spec n i), (Z.ltb_spec i m), (Z.leb_spec am i), (Z.leb_spec an i), (Z.ltb_spec i am), (Z.ltb_spec i an);
    simpl; try done; lia.
Qed.

End Range.

Lemma zero_range_spec bm n m :
  bm_wf bm -> 0 <= n <= m -> m <= bm_size bm -> bm_size bm < 2 ^ 62 ->
  exists bm', bitmap_zero_range bm n m = Some bm' /\
    becomes bm bm' (fun i => if (n <=? i) && (i <? m) then false else bit bm i).
Proof.
  apply range_spec; [unfold word; lia|intros; apply Z.bits_0|auto with bitmaps|].
  intros mask w j Hj. rewrite Z.land_spec, lnot_bit by done. destruct (Z.testbit mask _); simpl;
    [apply andb_false_r|apply andb_true_r].
Qed.

Lemma bitmap_fill_range_spec bm n m :
  bm_wf bm -> 0 <= n <= m -> m <= bm_size bm -> bm_size bm < 2 ^ 62 ->
  exists bm', bitmap_fill_range bm n m = Some bm' /\
    becomes bm bm' (fun i => if (n <=? i) && (i <? m) then true else bit bm i).
Proof.
  apply range_spec; [unfold word; lia| |auto with bitmaps|].
  - intros j Hj. apply (Z.ones_spec_low 64). lia.
  - intros mask w j Hj. rewrite Z.lor_spec. destruct (Z.testbit mask _); simpl; [apply orb_true_r|apply orb_false_r].
Qed.

(** * Searching *)

(** Reference: the first set bit at or after [n], or the end of the [k] bits looked at *)
Fixpoint first_bit (k : nat) (f : Z -> bool) (n : Z) : Z :=
  match k with O => n | S k => if f n then n else first_bit k f (n + 1) end.

Definition is_first (f : Z -> bool) (n m r : Z) : Prop :=
  n <= r <= m /\ (forall i, n <= i < r -> f i = false) /\ (r < m -> f r = true).

Lemma first_bit_is_first k f n : is_first f n (n + Z.of_nat k) (first_bit k f n).
Proof.
  revert n. induction k as [|k IH]; intros n; simpl first_bit.
  - split_and!; [lia|lia|intros; lia|lia].
  - destruct (f n) eqn:E; [split_and!; [lia|lia|intros; lia|done]|].
    destruct (IH (n + 1)) as (H1 & H2 & H3). split_and!; [lia|lia| |intros; apply H3; lia].
    intros i Hi. destruct (Z.eq_dec i n) as [->|]; [done|]. apply H2. lia.
Qed.

Lemma is_first_unique f n m r1 r2 : is_first f n m r1 -> is_first f n m r2 -> r1 = r2.
Proof.
  intros (A1 & A2 & A3) (B1 & B2 & B3). destruct (Z.lt_trichotomy r1 r2) as [H|[H|H]]; [|done|].
  - assert (f r1 = true) as E by (apply A3; lia). rewrite B2 in E by lia. done.
  - assert (f r2 = true) as E by (apply B3; lia). rewrite A2 in E by lia. done.
Qed.

Lemma is_first_first_bit f n m r : n <= m -> is_first f n m r -> r = first_bit (Z.to_nat (m - n)) f n.
Proof.
  intros Hn H. apply (is_first_unique f n m); [done|].
  pose proof (first_bit_is_first (Z.to_nat (m - n)) f n) as H'. by replace (n + Z.of_nat (Z.to_nat (m - n))) with m in H' by lia.
Qed.

(** Nothing up to [k], then the search from [k] *)
Lemma is_first_skip f n k m r :
  n <= k -> (forall i, n <= i < k -> f i = false) -> is_first f k m r -> is_first f n m r.
Proof.
  intros Hk Hf (H1 & H2 & H3). split_and!; [lia|lia| |done]. intros i Hi.
  destruct (Z.lt_ge_cases i k); [apply Hf|apply H2]; lia.
Qed.

Lemma is_first_found f n m r :
  n <= r < m -> (forall i, n <= i < r -> f i = false) -> f r = true -> is_first f n m r.
Proof. intros. split_and!; [lia|lia|done..]. Qed.

(** ** One word *)

Lemma clz_spec w :
  word w -> w <> 0 -> 0 <= bitmap_clz w < 64 /\ Z.testbit w (63 - bitmap_clz w) = true /\
  forall j, 0 <= j < bitmap_clz w -> Z.testbit w (63 - j) = false.
Proof.
  intros Hw Hn. unfold bitmap_clz, word in *.
  assert (0 <= Z.log2 w < 64) by (split; [apply Z.log2_nonneg|apply Z.log2_lt_pow2; lia]).
  split_and!; [lia|lia| |].
  - replace (63 - (63 - Z.log2 w)) with (Z.log2 w) by lia. apply Z.bit_log2. lia.
  - intros j Hj. apply Z.bits_above_log2; lia.
Qed.

(** The loop that stands in for the builtin computes the same. *)
Lemma clz_loop_spec w : word w -> w <> 0 -> clz_loop 63 w 0 (2 ^ 63) = Some (bitmap_clz w).
Proof.
  intros Hw Hn. destruct (clz_spec w Hw Hn) as (Hc & Ht & Hf).
  assert (H : forall k, (k <= Z.to_nat (bitmap_clz w))%nat ->
    clz_loop (63 - k) w (Z.of_nat k) (2 ^ (63 - Z.of_nat k)) = Some (bitmap_clz w)); [|exact (H 0%nat ltac:(lia))].
  intros k. set (d := (Z.to_nat (bitmap_clz w) - k)%nat). remember d as e eqn:Ed. subst d. revert k Ed.
  induction e as [|e IH]; intros k Ed Hk.
  - assert (bitmap_clz w = Z.of_nat k) as E by lia.
    destruct (63 - k)%nat; simpl; rewrite <- E, (Z.land_comm w), Z.land_comm; 
      (replace (negb (Z.land w (2 ^ (63 - bitmap_clz w)) =? 0)) with true; [done|]);
      symmetry; rewrite negb_true_iff, Z.eqb_neq; intros H0;
      (assert (Z.testbit (Z.land w (2 ^ (63 - bitmap_clz w))) (63 - bitmap_clz w) = true) as Hb
        by (rewrite Z.land_spec, Ht, Z.pow2_bits_true by lia; done)); by rewrite H0, Z.bits_0 in Hb.
  - replace (63 - k)%nat with (S (63 - S k)) by lia. simpl clz_loop.
    assert (Z.land w (2 ^ (63 - Z.of_nat k)) = 0) as ->.
    { apply Z.bits_inj'. intros i Hi. rewrite Z.land_spec, Z.bits_0, Z.pow2_bits_eqb by lia.
      destruct (Z.eqb_spec (63 - Z.of_nat k) i) as [<-|]; [|apply andb_false_r]. rewrite Hf by lia. done. }
    simpl. rewrite Z.shiftr_div_pow2 by lia. 
    replace (2 ^ (63 - Z.of_nat k) / 2 ^ 1) with (2 ^ (63 - Z.of_nat (S k))).
    + replace (Z.of_nat k + 1) with (Z.of_nat (S k)) by lia. apply (IH (S k)); lia.
    + rewrite <- Z.pow_sub_r by lia. f_equal. lia.
Qed.

(** A masked word: no bit of the window, or the first one *)
Lemma masked_word bm n w mask lo hi :
  BITMAP_WORD bm n = Some w -> word w -> word mask -> 0 <= n ->
  64 * (n / 64) <= lo -> hi <= 64 * (n / 64) + 64 ->
  (forall j, 0 <= j < 64 -> Z.testbit mask (63 - j) = (lo <=? 64 * (n / 64) + j) && (64 * (n / 64) + j <? hi)) ->
  let x := Z.land w mask in let r := 64 * (n / 64) + bitmap_clz x in
  if negb (x =? 0) then lo <= r < hi /\ (forall i, lo <= i < r -> bit bm i = false) /\ bit bm r = true
  else forall i, lo <= i < hi -> bit bm i = false.
Proof.
  intros E Hw Hmk Hn Hlo Hhi Hm x r. set (base := 64 * (n / 64)) in *.
  assert (Hx : forall i, base <= i < base + 64 ->
    Z.testbit x (63 - (i - base)) = bit bm i && ((lo <=? i) && (i <? hi))).
  { intros i Hi. unfold x. rewrite Z.land_spec, Hm by lia. replace (base + (i - base)) with i by lia. f_equal.
    rewrite (bit_at _ _ i _ E) by (unfold base in *; div_lia). do 2 f_equal. unfold base in *. div_lia. }
  assert (Hwx : word x) by (by apply land_word).
  destruct (Z.eqb_spec x 0) as [E0|Ne]; simpl.
  - intros i Hi. specialize (Hx i ltac:(lia)). rewrite E0, Z.bits_0 in Hx.
    rewrite (proj2 (Z.leb_le _ _)), (proj2 (Z.ltb_lt _ _)) in Hx by lia. by rewrite andb_true_r in Hx.
  - destruct (clz_spec x Hwx Ne) as (Hc & Ht & Hf). assert (Hr : base <= r < base + 64) by (unfold r; lia).
    replace (bitmap_clz x) with (r - base) in * by (unfold r; lia). rewrite Hx in Ht by lia.
    apply andb_true_iff in Ht as [Hb Hl]. apply andb_true_iff in Hl as [Hl1 Hl2].
    apply Z.leb_le in Hl1. apply Z.ltb_lt in Hl2. split_and!; [lia|lia| |done].
    intros i Hi. specialize (Hf (i - base) ltac:(lia)). rewrite Hx in Hf by lia.
    rewrite (proj2 (Z.leb_le lo i)), (proj2 (Z.ltb_lt i hi)) in Hf by lia. by rewrite andb_true_r in Hf.
Qed.

(** ** The search *)

Lemma ffs_words_spec bm an k :
  bm_wf bm -> 0 <= an -> an mod 64 = 0 -> an + 64 * Z.of_nat k <= bm_size bm ->
  exists r, ffs_words k bm an = Some r /\
    match r with
    | Some r => an <= r < an + 64 * Z.of_nat k /\ (forall i, an <= i < r -> bit bm i = false) /\ bit bm r = true
    | None => forall i, an <= i < an + 64 * Z.of_nat k -> bit bm i = false
    end.
Proof.
  intros Hw. revert an. induction k as [|k IH]; intros an Ha Hm Hs; [exists None; split; [done|]; intros i Hi; exfalso; lia|].
  destruct (word_at bm an Hw ltac:(lia)) as (w & E & Hww). simpl ffs_words. rewrite E. simpl.
  pose proof (masked_word bm an w (2 ^ 64 - 1) an (an + 64) E Hww ltac:(unfold word; lia) Ha ltac:(div_lia) ltac:(div_lia)) as H.
  assert (Z.land w (2 ^ 64 - 1) = w) as El.
  { rewrite (land_pow2_pred w 64) by lia. apply Z.mod_small. apply Hww. }
  cbv zeta in H. rewrite El in H. replace (64 * (an / 64)) with an in H by div_lia.
  specialize (H ltac:(intros j Hj; rewrite (Z.ones_spec_low 64) by lia;
    rewrite (proj2 (Z.leb_le _ _)), (proj2 (Z.ltb_lt _ _)) by lia; done)).
  destruct (negb (w =? 0)).
  - eexists. split; [done|]. destruct H as (H1 & H2 & H3). split; [lia|done].
  - destruct (IH (an + 64)) as (r & Er & Hr); [lia|div_lia|lia|]. exists r. split; [exact Er|].
    destruct r as [r|].
    + destruct Hr as (R1 & R2 & R3). split; [lia|]. split; [|done]. intros i Hi.
      destruct (Z.lt_ge_cases i (an + 64)); [apply H|apply R2]; lia.
    + intros i Hi. destruct (Z.lt_ge_cases i (an + 64)); [apply H|apply Hr]; lia.
Qed.

Lemma ffs_tail_spec bm m :
  bm_wf bm -> 0 <= m <= bm_size bm ->
  exists r, ffs_tail bm (64 * (m / 64)) m = Some r /\ is_first (bit bm) (64 * (m / 64)) m r.
Proof.
  intros Hw Hm. unfold ffs_tail. assert (Hsz : bm_size bm mod 64 = 0) by (unfold bm_size; div_lia).
  destruct (Z.ltb_spec (64 * (m / 64)) m) as [Hlt|Hge].
  - destruct (word_at bm m Hw ltac:(div_lia)) as (w & E & Hww). rewrite E. simpl.
    pose proof (masked_word bm m w (tailmask m) (64 * (m / 64)) m E Hww (tailmask_word m) ltac:(lia) ltac:(lia) ltac:(div_lia)) as H.
    specialize (H ltac:(intros j Hj; rewrite tailmask_bit by done;
      destruct (Z.ltb_spec j (m mod 64)), (Z.leb_spec (64 * (m / 64)) (64 * (m / 64) + j)), (Z.ltb_spec (64 * (m / 64) + j) m);
        try done; exfalso; div_lia)). cbv zeta in H.
    destruct (negb _); eexists; (split; [done|]).
    + destruct H as (H1 & H2 & H3). by apply is_first_found.
    + split; [lia|]. split; [done|lia].
  - eexists. split; [done|]. split; [div_lia|]. split; [intros i Hi; exfalso; div_lia|lia].
Qed.

Lemma ffs_rest_spec bm an m :
  bm_wf bm -> 0 <= an -> an mod 64 = 0 -> an <= 64 * (m / 64) -> m <= bm_size bm ->
  exists r, ffs_rest bm an (64 * (m / 64)) m = Some r /\ is_first (bit bm) an m r.
Proof.
  intros Hw Ha Hm Hle Hs. unfold ffs_rest, BITMAP_WORD_BITS.
  destruct (ffs_words_spec bm an (Z.to_nat ((64 * (m / 64) - an) / 64)) Hw Ha Hm) as (r & E & Hr); [div_lia|].
  rewrite E. simpl. replace (an + 64 * Z.of_nat (Z.to_nat ((64 * (m / 64) - an) / 64))) with (64 * (m / 64)) in Hr by div_lia.
  destruct r as [r|].
  - exists r. split; [done|]. destruct Hr as (R1 & R2 & R3). apply is_first_found; [div_lia|done..].
  - destruct (ffs_tail_spec bm m Hw ltac:(div_lia)) as (r & Er & Hf). exists r. split; [done|].
    by apply (is_first_skip _ _ (64 * (m / 64))).
Qed.

Lemma ffs_is_first bm n m :
  bm_wf bm -> 0 <= n <= m -> m <= bm_size bm -> bm_size bm < 2 ^ 62 ->
  exists r, bitmap_ffs bm n m = Some r /\ is_first (bit bm) n m r.
Proof.
  intros Hw Hn Hm Hs. unfold bitmap_ffs. rewrite align_up_eq, !align_down_eq by lia.
  rewrite (proj2 (Z.ltb_ge m n)) by lia. assert (Hsz : bm_size bm mod 64 = 0) by (unfold bm_size; div_lia).
  assert (Hmm : 64 * (m / 64) <= m) by div_lia.
  set (an := 64 * ((n + 63) / 64)). destruct (Z.ltb_spec (64 * (m / 64)) an) as [Hlt|Hge].
  - destruct (word_at bm n Hw ltac:(unfold an in *; div_lia)) as (w & E & Hww). rewrite E. simpl.
    pose proof (masked_word bm n w (Z.land (headmask n) (tailmask m)) n m E Hww ltac:(auto with bitmaps) ltac:(lia)
      ltac:(div_lia) ltac:(unfold an in *; div_lia)) as H.
    specialize (H ltac:(intros j Hj; rewrite Z.land_spec, headmask_bit, tailmask_bit by done;
      f_equal; [destruct (Z.leb_spec (n mod 64) j), (Z.leb_spec n (64 * (n / 64) + j))
               |destruct (Z.ltb_spec j (m mod 64)), (Z.ltb_spec (64 * (n / 64) + j) m)];
        try done; exfalso; unfold an in *; div_lia)). cbv zeta in H.
    replace (64 * (m / 64)) with (64 * (n / 64)) by (unfold an in *; div_lia).
    destruct (negb _); eexists; (split; [done|]).
    + destruct H as (H1 & H2 & H3). by apply is_first_found.
    + split; [lia|]. split; [done|lia].
  - destruct (Z.ltb_spec n an) as [Hna|Hna].
    + destruct (word_at bm n Hw ltac:(unfold an in *; div_lia)) as (w & E & Hww). rewrite E. simpl.
      pose proof (masked_word bm n w (headmask n) n an E Hww (headmask_word n) ltac:(lia)
        ltac:(div_lia) ltac:(unfold an in *; div_lia)) as H.
      specialize (H ltac:(intros j Hj; rewrite headmask_bit by done;
        destruct (Z.leb_spec (n mod 64) j), (Z.leb_spec n (64 * (n / 64) + j)), (Z.ltb_spec (64 * (n / 64) + j) an);
          try done; exfalso; unfold an in *; div_lia)). cbv zeta in H.
      destruct (negb _).
      * eexists. split; [done|]. destruct H as (H1 & H2 & H3). apply is_first_found; [lia|done..].
      * destruct (ffs_rest_spec bm an m Hw ltac:(lia) ltac:(unfold an; div_lia) Hge Hm) as (r & Er & Hf).
        exists r. split; [done|]. by apply (is_first_skip _ _ an); [lia| |].
    + assert (Ean : an = n) by (unfold an in *; div_lia). rewrite Ean in *.
      apply ffs_rest_spec; [done|lia|rewrite <- Ean; unfold an; div_lia|done..].
Qed.

(** [bitmap_ffs], which goes word by word with masks at both ends and counts leading
    zeros, returns the first set bit of the range as a search bit by bit finds it, and the end
    of the range when there is none; it reads no word outside the bitmap. *)
Theorem bitmap_ffs_reference bm n m :
  bm_wf bm -> 0 <= n <= m -> m <= bm_size bm -> bm_size bm < 2 ^ 62 ->
  bitmap_ffs bm n m = Some (first_bit (Z.to_nat (m - n)) (bit bm) n).
Proof.
  intros Hw Hn Hm Hs. destruct (ffs_is_first bm n m Hw Hn Hm Hs) as (r & -> & Hr). f_equal.
  apply is_first_first_bit; [lia|done].
Qed.

Lemma bitmap_ffs_reference_witness :
  let bm := [0; 2 ^ 20] in
  bitmap_ffs bm 3 128 = Some (first_bit 125 (bit bm) 3) /\ first_bit 125 (bit bm) 3 = 107.
Proof.
  intros bm. split; [|by vm_compute].
  apply (bitmap_ffs_reference bm 3 128); [|lia|vm_compute; congruence|by vm_compute].
  repeat constructor; lia.
Defined.

(** * Tests on whole bitmaps *)

(** The bits of a word and of a masked tail *)
Lemma tail_at bm nbits :
  bm_wf bm -> 0 <= nbits < bm_size bm -> exists w, BITMAP_WORD bm nbits = Some w /\ word w /\
    BITMAP_TAIL bm nbits = Some (Z.land w (tailmask nbits)).
Proof.
  intros Hw Hn. destruct (word_at bm nbits Hw Hn) as (w & E & Hww). exists w. split_and!; try done; try apply Hww.
  unfold BITMAP_TAIL. by rewrite E.
Qed.

Section Tests.
Context (good tail_good : Z -> Z -> bool) (P : bool -> bool -> bool) (nbits : Z).
Context (Hgood : forall w1 w2, word w1 -> word w2 ->
  good w1 w2 = true <-> forall j, 0 <= j < 64 -> P (Z.testbit w1 (63 - j)) (Z.testbit w2 (63 - j)) = true).
Context (Htail : forall w1 w2, word w1 -> word w2 ->
  tail_good (Z.land w1 (tailmask nbits)) (Z.land w2 (tailmask nbits)) = true <->
  forall j, 0 <= j < nbits mod 64 -> P (Z.testbit w1 (63 - j)) (Z.testbit w2 (63 - j)) = true).

Lemma words_all_spec b1 b2 k i :
  bm_wf b1 -> bm_wf b2 -> (i + k <= length b1)%nat -> (i + k <= length b2)%nat ->
  exists r, words_all k good b1 b2 i = Some r /\
    (r = true <-> forall x, 64 * Z.of_nat i <= x < 64 * Z.of_nat (i + k) -> P (bit b1 x) (bit b2 x) = true).
Proof using Hgood nbits.
  intros H1 H2. revert i. induction k as [|k IH]; intros i L1 L2; simpl.
  { exists true. split; [done|]. split; [intros _ x Hx; lia|done]. }
  destruct (lookup_lt_is_Some_2 b1 i) as [w1 E1]; [lia|]. destruct (lookup_lt_is_Some_2 b2 i) as [w2 E2]; [lia|].
  rewrite E1, E2. simpl.
  assert (word w1) by (by eapply Forall_lookup_1 in E1). assert (word w2) by (by eapply Forall_lookup_1 in E2).
  assert (Hb : forall b w x, b !! i = Some w -> x / 64 = Z.of_nat i -> bit b x = Z.testbit w (63 - x mod 64)).
  { intros b w x E Ex. unfold bit, BITMAP_WORD, BITMAP_WORD_BITS. by rewrite Ex, Nat2Z.id, E. }
  destruct (good w1 w2) eqn:Eg.
  - destruct (IH (S i)) as (r & Er & Hr); [lia..|]. exists r. split; [done|]. rewrite Hr.
    pose proof (proj1 (Hgood w1 w2 ltac:(done) ltac:(done)) Eg) as Hg. split; intros H' x Hx.
    + destruct (Z.lt_ge_cases x (64 * Z.of_nat (S i))); [|apply H'; lia].
      rewrite (Hb _ _ _ E1), (Hb _ _ _ E2) by div_lia. apply Hg, Z.mod_pos_bound. lia.
    + apply H'. lia.
  - exists false. split; [done|]. split; [done|]. intros H'. exfalso.
    assert (good w1 w2 = true); [|congruence]. apply Hgood; [done..|]. intros j Hj.
    specialize (H' (64 * Z.of_nat i + j) ltac:(lia)). rewrite (Hb _ _ _ E1), (Hb _ _ _ E2) in H' by div_lia.
    by replace ((64 * Z.of_nat i + j) mod 64) with j in H' by div_lia.
Qed.

Lemma bitmap_all_spec b1 b2 :
  bm_wf b1 -> bm_wf b2 -> 0 <= nbits -> nbits <= bm_size b1 -> nbits <= bm_size b2 ->
  exists r, bitmap_all good tail_good b1 b2 nbits = Some r /\
    (r = true <-> forall x, 0 <= x < nbits -> P (bit b1 x) (bit b2 x) = true).
Proof using All.
  intros H1 H2 Hn L1 L2. unfold bitmap_all, BITMAP_HEADWORDS, BITMAP_HASTAIL, BITMAP_WORD_BITS.
  destruct (words_all_spec b1 b2 (Z.to_nat (nbits / 64)) 0 H1 H2) as (h & Eh & Hh);
    [unfold bm_size in *; div_lia..|]. rewrite Eh. simpl.
  replace (64 * Z.of_nat (0 + Z.to_nat (nbits / 64))) with (64 * (nbits / 64)) in Hh by div_lia.
  destruct h; simpl.
  - pose proof (proj1 Hh eq_refl) as Hhead. destruct (Z.eqb_spec (nbits mod 64) 0) as [E0|Ne]; simpl.
    + exists true. split; [done|]. split; [|done]. intros _ x Hx. apply Hhead. div_lia.
    + assert (Hb1 : nbits < bm_size b1) by (unfold bm_size in *; div_lia).
      assert (Hb2 : nbits < bm_size b2) by (unfold bm_size in *; div_lia).
      destruct (tail_at b1 nbits H1 ltac:(lia)) as (w1 & E1 & W1 & ->).
      destruct (tail_at b2 nbits H2 ltac:(lia)) as (w2 & E2 & W2 & ->). simpl.
      eexists. split; [done|]. rewrite (Htail w1 w2 W1 W2). split; intros H' x Hx.
      * destruct (Z.lt_ge_cases x (64 * (nbits / 64))); [apply Hhead; lia|].
        rewrite (bit_at _ _ _ _ E1), (bit_at _ _ _ _ E2) by div_lia. apply H'. div_lia.
      * specialize (H' (64 * (nbits / 64) + x) ltac:(div_lia)).
        rewrite (bit_at _ _ _ _ E1), (bit_at _ _ _ _ E2) in H' by div_lia.
        by replace ((64 * (nbits / 64) + x) mod 64) with x in H' by div_lia.
  - exists false. split; [done|]. split; [done|]. intros H'. apply Hh. intros x Hx. apply H'. div_lia.
Qed.
End Tests.

Lemma masked_bit w nbits j :
  0 <= j < 64 -> Z.testbit (Z.land w (tailmask nbits)) (63 - j) = Z.testbit w (63 - j) && (j <? nbits mod 64).
Proof. intros Hj. by rewrite Z.land_spec, tailmask_bit. Qed.

(** Comparing words with a test on pairs of bits that holds of two clear bits *)
Lemma word_pred (f : Z -> Z -> Z) (P : bool -> bool -> bool) w1 w2 :
  word (f w1 w2) -> (forall j, 0 <= j < 64 -> Z.testbit (f w1 w2) (63 - j) = negb (P (Z.testbit w1 (63 - j)) (Z.testbit w2 (63 - j)))) ->
  (f w1 w2 =? 0) = true <-> forall j, 0 <= j < 64 -> P (Z.testbit w1 (63 - j)) (Z.testbit w2 (63 - j)) = true.
Proof.
  intros Hw Hb. rewrite Z.eqb_eq, word_zero by done.
  split; intros H j Hj; specialize (H j Hj); rewrite Hb in * by done; [by apply negb_false_iff|by rewrite H].
Qed.

Lemma tail_pred (f : Z -> Z -> Z) (P : bool -> bool -> bool) nbits w1 w2 :
  P false false = true -> word (f (Z.land w1 (tailmask nbits)) (Z.land w2 (tailmask nbits))) ->
  (forall v1 v2 j, 0 <= j < 64 -> Z.testbit (f v1 v2) (63 - j) = negb (P (Z.testbit v1 (63 - j)) (Z.testbit v2 (63 - j)))) ->
  (f (Z.land w1 (tailmask nbits)) (Z.land w2 (tailmask nbits)) =? 0) = true <->
  forall j, 0 <= j < nbits mod 64 -> P (Z.testbit w1 (63 - j)) (Z.testbit w2 (63 - j)) = true.
Proof.
  intros H0 Hw Hb. rewrite (word_pred f P) by (try done; intros; by apply Hb).
  pose proof (Z.mod_pos_bound nbits 64 ltac:(lia)). split; intros H' j Hj.
  - specialize (H' j ltac:(lia)). rewrite !masked_bit in H' by lia.
    rewrite (proj2 (Z.ltb_lt j _)) in H' by lia. by rewrite !andb_true_r in H'.
  - rewrite !masked_bit by lia. destruct (Z.ltb_spec j (nbits mod 64)); [|by rewrite !andb_false_r].
    rewrite !andb_true_r. apply H'. lia.
Qed.

Lemma eqb_lxor w1 w2 : (w1 =? w2) = (Z.lxor w1 w2 =? 0).
Proof.
  destruct (Z.eqb_spec w1 w2) as [->|Hn]; [by rewrite Z.lxor_nilpotent|].
  symmetry. apply Z.eqb_neq. intros E. by apply Z.lxor_eq in E.
Qed.

(** The five tests look at exactly the first [nbits] bits. *)

Section WholeTests.
Context (b1 b2 : bitmap) (nbits : Z).
Context (H1 : bm_wf b1) (H2 : bm_wf b2) (Hn : 0 <= nbits) (L1 : nbits <= bm_size b1) (L2 : nbits <= bm_size b2).
#[local] Set Default Proof Using "All".

Lemma equal_spec :
  exists r, bitmap_equal b1 b2 nbits = Some r /\ (r = true <-> forall x, 0 <= x < nbits -> bit b1 x = bit b2 x).
Proof.
  destruct (bitmap_all_spec Z.eqb Z.eqb eqb nbits) with b1 b2 as (r & E & Hr); try done.
  - intros w1 w2 W1 W2. rewrite eqb_lxor. apply (word_pred Z.lxor eqb); [auto with bitmaps|].
    intros j Hj. rewrite Z.lxor_spec. by destruct (Z.testbit w1 _), (Z.testbit w2 _).
  - intros w1 w2 W1 W2. rewrite eqb_lxor. apply (tail_pred Z.lxor eqb); [done|auto with bitmaps|].
    intros v1 v2 j Hj. rewrite Z.lxor_spec. by destruct (Z.testbit v1 _), (Z.testbit v2 _).
  - exists r. split; [exact E|]. rewrite Hr. split; intros H x Hx; apply eqb_true_iff, H, Hx.
Qed.

Lemma intersects_spec :
  exists r, bitmap_intersects b1 b2 nbits = Some r /\
    (r = false <-> forall x, 0 <= x < nbits -> bit b1 x && bit b2 x = false).
Proof.
  destruct (bitmap_all_spec (fun w1 w2 => Z.land w1 w2 =? 0) (fun w1 w2 => Z.land w1 w2 =? 0)
    (fun x y => negb (x && y)) nbits) with b1 b2 as (r & E & Hr); try done.
  - intros w1 w2 W1 W2. apply (word_pred Z.land (fun x y => negb (x && y))); [auto with bitmaps|].
    intros j Hj. by rewrite Z.land_spec, negb_involutive.
  - intros w1 w2 W1 W2. apply (tail_pred Z.land (fun x y => negb (x && y))); [done|auto with bitmaps|].
    intros v1 v2 j Hj. by rewrite Z.land_spec, negb_involutive.
  - exists (negb r). split; [unfold bitmap_intersects; by rewrite E|].
    rewrite negb_false_iff, Hr. by setoid_rewrite negb_true_iff.
Qed.

Lemma subset_spec :
  exists r, bitmap_subset b1 b2 nbits = Some r /\
    (r = true <-> forall x, 0 <= x < nbits -> bit b1 x = true -> bit b2 x = true).
Proof.
  set (f := fun w1 w2 => Z.land w1 (u64 (Z.lnot w2))).
  destruct (bitmap_all_spec (fun w1 w2 => f w1 w2 =? 0) (fun w1 w2 => f w1 w2 =? 0)
    implb nbits) with b1 b2 as (r & E & Hr); try done.
  - intros w1 w2 W1 W2. apply (word_pred f implb); [unfold f; auto with bitmaps|].
    intros j Hj. unfold f. rewrite Z.land_spec, lnot_bit by done. by destruct (Z.testbit w1 _).
  - intros w1 w2 W1 W2. apply (tail_pred f implb); [done|unfold f; auto with bitmaps|].
    intros v1 v2 j Hj. unfold f. rewrite Z.land_spec, lnot_bit by done. by destruct (Z.testbit v1 _).
  - exists r. split; [exact E|]. rewrite Hr. split; intros H x Hx; specialize (H x Hx); [intros Hb; by rewrite Hb in H|].
    destruct (bit b1 x); [|done]. by apply H.
Qed.

Lemma full_spec :
  exists r, bitmap_full b1 nbits = Some r /\ (r = true <-> forall x, 0 <= x < nbits -> bit b1 x = true).
Proof.
  destruct (bitmap_all_spec (fun w _ => w =? 2 ^ 64 - 1) (fun t _ => t =? BITMAP_TAILBITS nbits)
    (fun x _ => x) nbits) with b1 b1 as (r & E & Hr); try done.
  - intros w1 w2 W1 W2. split.
    + intros Ew j Hj. apply Z.eqb_eq in Ew. rewrite Ew. apply (Z.ones_spec_low 64). lia.
    + intros H. apply Z.eqb_eq. apply word_ext; [done|unfold word; lia|]. intros j Hj. rewrite H by done.
      symmetry. apply (Z.ones_spec_low 64). lia.
  - intros w1 w2 W1 W2. pose proof (Z.mod_pos_bound nbits 64 ltac:(lia)). unfold BITMAP_TAILBITS. rewrite Z.eqb_eq. split.
    + intros Ew j Hj. assert (Z.testbit (Z.land w1 (tailmask nbits)) (63 - j) = true) as Hb.
      { rewrite Ew, tailmask_bit by lia. apply Z.ltb_lt. lia. }
      rewrite masked_bit in Hb by lia. by apply andb_true_iff in Hb as [? _].
    + intros H'. apply word_ext; [auto with bitmaps..|]. intros j Hj. rewrite masked_bit, tailmask_bit by done.
      destruct (Z.ltb_spec j (nbits mod 64)); [by rewrite H' by lia|apply andb_false_r].
  - by exists r.
Qed.

Lemma empty_spec :
  exists r, bitmap_empty b1 nbits = Some r /\ (r = true <-> forall x, 0 <= x < nbits -> bit b1 x = false).
Proof.
  destruct (bitmap_all_spec (fun w _ => w =? 0) (fun t _ => t =? 0)
    (fun x _ => negb x) nbits) with b1 b1 as (r & E & Hr); try done.
  - intros w1 w2 W1 W2. apply (word_pred (fun w _ => w) (fun x _ => negb x) w1 w2 W1).
    intros j Hj. by rewrite negb_involutive.
  - intros w1 w2 W1 W2. apply (tail_pred (fun w _ => w) (fun x _ => negb x) nbits w1 w2 eq_refl); [auto with bitmaps|].
    intros v1 v2 j Hj. by rewrite negb_involutive.
  - exists r. split; [exact E|]. rewrite Hr. by setoid_rewrite negb_true_iff.
Qed.

End WholeTests.

(** A bitmap is its bits. *)
Lemma bitmap_ext b1 b2 :
  bm_wf b1 -> bm_wf b2 -> bm_size b1 = bm_size b2 -> (forall i, 0 <= i -> bit b1 i = bit b2 i) -> b1 = b2.
Proof.
  intros H1 H2 Hs Hb. apply list_eq. intros i. unfold bm_size in Hs.
  destruct (b1 !! i) as [w1|] eqn:E1, (b2 !! i) as [w2|] eqn:E2; [|exfalso..|done].
  - f_equal. apply word_ext; [by eapply Forall_lookup_1 in E1|by eapply Forall_lookup_1 in E2|].
    intros j Hj. specialize (Hb (64 * Z.of_nat i + j) ltac:(lia)).
    unfold bit, BITMAP_WORD, BITMAP_WORD_BITS in Hb.
    replace ((64 * Z.of_nat i + j) / 64) with (Z.of_nat i) in Hb by div_lia. rewrite Nat2Z.id, E1, E2 in Hb.
    by replace ((64 * Z.of_nat i + j) mod 64) with j in Hb by div_lia.
  - apply lookup_lt_Some in E1. apply lookup_ge_None in E2. lia.
  - apply lookup_lt_Some in E2. apply lookup_ge_None in E1. lia.
Qed.
