(* ===== verification/BitmapOps.v ===== *)
(** The operations of ccan's bitmaps on whole arrays (ccan/bitmap.h): clearing, filling and
    copying, the operations word by word with a destination that may be one of the operands, and
    allocation and reallocation.  Each is described by its bits. *)

From stdpp Require Import base numbers list.
From S2P Require Import Prelude Bitmap BitmapProps.

(** * The operations *)

Definition ALL_ONES : Z := 2 ^ 64 - 1.

(** An operand of a call: the array the call writes, or another array *)
Inductive operand := InPlace | Other (bm : bitmap).

(** Word [i] of an operand, while the destination holds [dst] *)
Definition read_word (dst : bitmap) (src : operand) (i : nat) : option Z :=
  match src with InPlace => dst !! i | Other bm => bm !! i end.

(** [dst[i].w = w] *)
Definition write_word (dst : bitmap) (i : nat) (w : Z) : option bitmap :=
  match dst !! i with Some _ => Some (<[i := w]> dst) | None => None end.

(** The loop of [BITMAP_DEF_BINOP]: [k] words from [i] on *)
Fixpoint binop_words (k : nat) (op : Z -> Z -> Z) (dst : bitmap) (src1 src2 : operand) (i : nat) : option bitmap :=
  match k with
  | O => Some dst
  | S k =>
    w1 ← read_word dst src1 i; w2 ← read_word dst src2 i;
    dst ← write_word dst i (op w1 w2); binop_words k op dst src1 src2 (S i)
  end.

Definition bitmap_nwords (nbits : Z) : nat := Z.to_nat (BITMAP_NWORDS nbits).

Definition bitmap_binop (op : Z -> Z -> Z) (dst : bitmap) (src1 src2 : operand) (nbits : Z) : option bitmap :=
  binop_words (bitmap_nwords nbits) op dst src1 src2 0.

Definition bitmap_and : bitmap -> operand -> operand -> Z -> option bitmap := bitmap_binop Z.land.
Definition bitmap_or : bitmap -> operand -> operand -> Z -> option bitmap := bitmap_binop Z.lor.
Definition bitmap_xor : bitmap -> operand -> operand -> Z -> option bitmap := bitmap_binop Z.lxor.
Definition bitmap_andnot : bitmap -> operand -> operand -> Z -> option bitmap :=
  bitmap_binop (fun w1 w2 => Z.land w1 (u64 (Z.lnot w2))).

(** [bitmap_complement] has the same loop, with one operand *)
Definition bitmap_complement (dst : bitmap) (src : operand) (nbits : Z) : option bitmap :=
  bitmap_binop (fun w _ => u64 (Z.lnot w)) dst src src nbits.

(** [memset] and [memcpy] of [bitmap_sizeof(nbits)] bytes; [memcpy] has a source apart from its
    destination *)
Definition bitmap_zero (bm : bitmap) (nbits : Z) : option bitmap := set_words (bitmap_nwords nbits) 0 bm 0.
Definition bitmap_fill (bm : bitmap) (nbits : Z) : option bitmap := set_words (bitmap_nwords nbits) ALL_ONES bm 0.
Definition bitmap_copy (dst src : bitmap) (nbits : Z) : option bitmap :=
  bitmap_binop (fun w _ => w) dst (Other src) (Other src) nbits.

(** What [malloc] and [realloc] answer: no memory, or a block whose fresh words hold [junk] *)
Abbreviation mem_answer := (option (nat -> Z)).

(** [bitmap_alloc]: the words of the new block, not initialised *)
Definition bitmap_alloc (nbits : Z) (got : mem_answer) : option bitmap :=
  junk ← got; Some (junk <$> seq 0 (bitmap_nwords nbits)).

(** The outer [None] is a store outside the block, the inner one a call that found no memory *)
Definition bitmap_alloc1 (nbits : Z) (got : mem_answer) : option (option bitmap) :=
  match bitmap_alloc nbits got with
  | None => Some None
  | Some bm => bm ← bitmap_fill bm nbits; Some (Some bm)
  end.

(** [realloc(bmap, bitmap_sizeof(nbits))]: the words of the old block as far as they fit, then
    fresh ones *)
Definition realloc_words (bm : bitmap) (nbits : Z) (got : mem_answer) : option bitmap :=
  junk ← got;
  Some (take (bitmap_nwords nbits) bm ++ (junk <$> seq (length bm) (bitmap_nwords nbits - length bm))).

Definition bitmap_realloc (range : bitmap -> Z -> Z -> option bitmap) (bm : bitmap) (obits nbits : Z)
    (got : mem_answer) : option (option bitmap) :=
  match realloc_words bm nbits got with
  | None => Some None
  | Some bm => if obits <? nbits then bm ← range bm obits nbits; Some (Some bm) else Some (Some bm)
  end.

Definition bitmap_realloc0 : bitmap -> Z -> Z -> mem_answer -> option (option bitmap) :=
  bitmap_realloc bitmap_zero_range.
Definition bitmap_realloc1 : bitmap -> Z -> Z -> mem_answer -> option (option bitmap) :=
  bitmap_realloc bitmap_fill_range.

(** * What they do to the bits *)

Lemma nwords_bits nbits bm :
  0 <= nbits < 2 ^ 62 -> nbits <= bm_size bm -> (bitmap_nwords nbits <= length bm)%nat.
Proof.
  intros Hn Hs. unfold bitmap_nwords, BITMAP_NWORDS, BITMAP_WORD_BITS, bm_size in *. rewrite u64_small by lia. div_lia.
Qed.

Lemma nwords_val nbits : 0 <= nbits < 2 ^ 62 -> Z.of_nat (bitmap_nwords nbits) = (nbits + 63) / 64.
Proof.
  intros Hn. unfold bitmap_nwords, BITMAP_NWORDS, BITMAP_WORD_BITS. rewrite u64_small by lia. 
  rewrite Z2Nat.id by (apply Z.div_pos; lia). f_equal. lia.
Qed.

(** The words of an operand before the call *)
Definition operand_of (dst : bitmap) (src : operand) : bitmap :=
  match src with InPlace => dst | Other bm => bm end.

(** The loop writes the words of the operands it was called with, even in place: when it reads a
    word it has not written it yet. *)
Lemma binop_words_spec op k : forall (dst : bitmap) (src1 src2 : operand) i,
  (i + k <= length dst)%nat -> (i + k <= length (operand_of dst src1))%nat ->
  (i + k <= length (operand_of dst src2))%nat ->
  exists dst', binop_words k op dst src1 src2 i = Some dst' /\ length dst' = length dst /\
    forall j, dst' !! j =
      if decide (i <= j < i + k)%nat
      then w1 ← operand_of dst src1 !! j; w2 ← operand_of dst src2 !! j; Some (op w1 w2)
      else dst !! j.
Proof.
  induction k as [|k IH]; intros dst s1 s2 i Hd H1 H2.
  - exists dst. split_and!; [done..|]. intros j. by rewrite decide_False by lia.
  - destruct (lookup_lt_is_Some_2 dst i ltac:(lia)) as [d Ed].
    destruct (lookup_lt_is_Some_2 (operand_of dst s1) i ltac:(lia)) as [w1 E1].
    destruct (lookup_lt_is_Some_2 (operand_of dst s2) i ltac:(lia)) as [w2 E2].
    assert (forall s, read_word dst s i = operand_of dst s !! i) as Hr by (by intros []).
    cbn [binop_words]. rewrite !Hr, E1, E2. cbn. unfold write_word. rewrite Ed. cbn.
    assert (forall s, (S i + k <= length (operand_of dst s))%nat ->
              (S i + k <= length (operand_of (<[i := op w1 w2]> dst) s))%nat) as Hl
      by (intros []; simpl; [rewrite length_insert|]; done).
    destruct (IH (<[i := op w1 w2]> dst) s1 s2 (S i)) as (dst' & E & L & B);
      [rewrite length_insert; lia|apply Hl; lia..|].
    exists dst'. split_and!; [done|by rewrite L, length_insert|]. intros j. rewrite B.
    assert (forall s, (i < j)%nat -> operand_of (<[i := op w1 w2]> dst) s !! j = operand_of dst s !! j) as Ho
      by (intros [] ?; simpl; [by rewrite list_lookup_insert_ne by lia|done]).
    destruct (decide (S i <= j < S i + k)%nat), (decide (i <= j < i + S k)%nat); try lia.
    + by rewrite !Ho by lia.
    + assert (j = i) as -> by lia. rewrite E1, E2, list_lookup_insert_eq by lia. done.
    + by rewrite list_lookup_insert_ne by lia.
Qed.

Section Binop.
Context (op : Z -> Z -> Z) (bop : bool -> bool -> bool).
Hypothesis op_word : forall w1 w2, word w1 -> word w2 -> word (op w1 w2).
Hypothesis op_bit : forall w1 w2 j, 0 <= j < 64 ->
  Z.testbit (op w1 w2) (63 - j) = bop (Z.testbit w1 (63 - j)) (Z.testbit w2 (63 - j)).

(** A call on the words of [nbits] bits is the call on the bits of these words, wherever its
    operands are. *)
Lemma binop_spec dst src1 src2 nbits :
  0 <= nbits < 2 ^ 62 -> bm_wf dst -> bm_wf (operand_of dst src1) -> bm_wf (operand_of dst src2) ->
  nbits <= bm_size dst -> nbits <= bm_size (operand_of dst src1) -> nbits <= bm_size (operand_of dst src2) ->
  exists dst', bitmap_binop op dst src1 src2 nbits = Some dst' /\
    becomes dst dst' (fun i => if i <? 64 * ((nbits + 63) / 64)
      then bop (bit (operand_of dst src1) i) (bit (operand_of dst src2) i) else bit dst i).
Proof using op_word op_bit.
  intros Hn Wd W1 W2 Hd H1 H2. pose proof (nwords_val nbits Hn) as Hv.
  destruct (binop_words_spec op (bitmap_nwords nbits) dst src1 src2 0) as (dst' & E & L & B); [by apply nwords_bits..|].
  exists dst'. split; [done|]. split_and!; [done| |].
  - apply Forall_lookup_2. intros j w Hj. rewrite B in Hj. case_decide as Hc; [|by eapply Forall_lookup_1 in Hj].
    destruct (operand_of dst src1 !! j) as [w1|] eqn:F1; [|done].
    destruct (operand_of dst src2 !! j) as [w2|] eqn:F2; [|done]. injection Hj as <-.
    apply op_word; [by eapply Forall_lookup_1 in F1|by eapply Forall_lookup_1 in F2].
  - intros i Hi. unfold bit, BITMAP_WORD, BITMAP_WORD_BITS. rewrite B.
    destruct (Z.ltb_spec i (64 * ((nbits + 63) / 64))).
    + rewrite decide_True by div_lia.
      destruct (word_at _ (Z.min i (nbits - 1)) W1 ltac:(div_lia)) as (w1 & F1 & _).
      destruct (word_at _ (Z.min i (nbits - 1)) W2 ltac:(div_lia)) as (w2 & F2 & _).
      rewrite (word_same _ _ i) in F1 by div_lia. rewrite (word_same _ _ i) in F2 by div_lia. unfold BITMAP_WORD, BITMAP_WORD_BITS in F1, F2.
      rewrite F1, F2. simpl. apply op_bit. apply Z.mod_pos_bound. lia.
    + by rewrite decide_False by div_lia.
Qed.

End Binop.

Lemma lnot_word w : word (u64 (Z.lnot w)).
Proof. apply u64_word. Qed.

#[export] Hint Resolve lnot_word : bitmaps.

(** The operations on bitmaps are the operations on their bits, up to the end of the last word. *)
Theorem bitmap_ops_bitwise nbits dst src1 src2 (last := 64 * ((nbits + 63) / 64)) :
  0 <= nbits < 2 ^ 62 -> bm_wf dst -> bm_wf (operand_of dst src1) -> bm_wf (operand_of dst src2) ->
  nbits <= bm_size dst -> nbits <= bm_size (operand_of dst src1) -> nbits <= bm_size (operand_of dst src2) ->
  let b1 := bit (operand_of dst src1) in
  let b2 := bit (operand_of dst src2) in
  let does call f := exists dst', call dst src1 src2 nbits = Some dst' /\
    becomes dst dst' (fun i => if i <? last then f (b1 i) (b2 i) else bit dst i) in
  does bitmap_and andb /\ does bitmap_or orb /\ does bitmap_xor xorb /\
  does bitmap_andnot (fun x y => x && negb y) /\
  does (fun dst src1 _ => bitmap_complement dst src1) (fun x _ => negb x).
Proof.
  intros Hn Wd W1 W2 Hd H1 H2. split_and!.
  - apply binop_spec; auto with bitmaps. intros. apply Z.land_spec.
  - apply binop_spec; auto with bitmaps. intros. apply Z.lor_spec.
  - apply binop_spec; auto with bitmaps. intros. apply Z.lxor_spec.
  - apply (binop_spec _ (fun x y => x && negb y)); auto with bitmaps. intros. by rewrite Z.land_spec, lnot_bit.
  - apply (binop_spec (fun w _ => u64 (Z.lnot w)) (fun x _ => negb x) (fun _ _ _ _ => lnot_word _)
      ltac:(intros; by apply lnot_bit) dst src1 src1); done.
Qed.

Lemma bitmap_ops_bitwise_witness :
  bitmap_xor [12; 7] (Other [10; 1]) InPlace 70 = Some [6; 6] /\
  exists dst', bitmap_xor [12; 7] (Other [10; 1]) InPlace 70 = Some dst' /\
    becomes [12; 7] dst' (fun i => if i <? 64 * ((70 + 63) / 64)
      then xorb (bit [10; 1] i) (bit [12; 7] i) else bit [12; 7] i).
Proof.
  split; [reflexivity|]. apply (bitmap_ops_bitwise 70 [12; 7] (Other [10; 1]) InPlace);
    unfold bm_wf, word, bm_size; simpl; repeat constructor; lia.
Defined.

(** ** Clearing, filling, copying *)

Lemma bitmap_copy_spec dst src nbits :
  0 <= nbits < 2 ^ 62 -> bm_wf dst -> bm_wf src -> nbits <= bm_size dst -> nbits <= bm_size src ->
  exists dst', bitmap_copy dst src nbits = Some dst' /\
    becomes dst dst' (fun i => if i <? 64 * ((nbits + 63) / 64) then bit src i else bit dst i).
Proof. intros. by apply (binop_spec (fun w _ => w) (fun x _ => x)). Qed.

Lemma whole_words_spec b v nbits bm :
  word v -> (forall j, 0 <= j < 64 -> Z.testbit v (63 - j) = b) ->
  0 <= nbits < 2 ^ 62 -> bm_wf bm -> nbits <= bm_size bm ->
  exists bm', set_words (bitmap_nwords nbits) v bm 0 = Some bm' /\
    becomes bm bm' (fun i => if i <? 64 * ((nbits + 63) / 64) then b else bit bm i).
Proof.
  intros Hv Hb Hn Hw Hs. pose proof (nwords_val nbits Hn) as E. pose proof (nwords_bits nbits bm Hn Hs).
  destruct (set_words_spec b v bm 0 (bitmap_nwords nbits)) as (bm' & Es & B); [done..|unfold bm_size; lia|].
  exists bm'. split; [done|]. eapply becomes_ext; [|exact B]. intros i Hi. cbv beta. rewrite E.
  by rewrite (proj2 (Z.leb_le 0 i) Hi).
Qed.

Lemma all_ones_bit j : 0 <= j < 64 -> Z.testbit ALL_ONES (63 - j) = true.
Proof. intros. apply (Z.ones_spec_low 64). lia. Qed.

Lemma bitmap_zero_spec nbits bm :
  0 <= nbits < 2 ^ 62 -> bm_wf bm -> nbits <= bm_size bm ->
  exists bm', bitmap_zero bm nbits = Some bm' /\
    becomes bm bm' (fun i => if i <? 64 * ((nbits + 63) / 64) then false else bit bm i).
Proof. apply whole_words_spec; [unfold word; lia|intros; apply Z.bits_0]. Qed.

Lemma bitmap_fill_spec nbits bm :
  0 <= nbits < 2 ^ 62 -> bm_wf bm -> nbits <= bm_size bm ->
  exists bm', bitmap_fill bm nbits = Some bm' /\
    becomes bm bm' (fun i => if i <? 64 * ((nbits + 63) / 64) then true else bit bm i).
Proof. apply whole_words_spec; [unfold word, ALL_ONES; lia|apply all_ones_bit]. Qed.

(** ** Allocation *)

(** Fresh words are words, whatever they hold. *)
Definition junk_ok (got : mem_answer) : Prop := match got with Some junk => forall i, word (junk i) | None => True end.

Lemma junk_words (junk : nat -> Z) l : (forall i, word (junk i)) -> bm_wf (junk <$> l).
Proof. intros Hj. apply Forall_fmap, Forall_true. intros i. apply Hj. Qed.

Lemma bitmap_alloc1_spec nbits got :
  0 <= nbits < 2 ^ 62 -> junk_ok got ->
  match got with
  | None => bitmap_alloc1 nbits got = Some None
  | Some _ => exists bm, bitmap_alloc1 nbits got = Some (Some bm) /\ bm_wf bm /\ length bm = bitmap_nwords nbits /\
      forall i, 0 <= i < 64 * ((nbits + 63) / 64) -> bit bm i = true
  end.
Proof.
  intros Hn Hg. destruct got as [junk|]; [|done]. unfold bitmap_alloc1. cbn.
  set (bm0 := junk <$> seq 0 (bitmap_nwords nbits)).
  assert (length bm0 = bitmap_nwords nbits) as L0 by (unfold bm0; by rewrite length_fmap, length_seq).
  pose proof (nwords_val nbits Hn) as Hv.
  destruct (bitmap_fill_spec nbits bm0) as (bm & E & L & W & B);
    [done|by apply junk_words|unfold bm_size; rewrite L0; div_lia|].
  exists bm. rewrite E. split_and!; [done..|congruence|].
  intros i Hi. rewrite B by lia. by rewrite (proj2 (Z.ltb_lt _ _)) by lia.
Qed.

Lemma realloc_words_spec bm nbits junk :
  bm_wf bm -> (forall i, word (junk i)) ->
  exists bm1, realloc_words bm nbits (Some junk) = Some bm1 /\ bm_wf bm1 /\ length bm1 = bitmap_nwords nbits /\
    forall i, 0 <= i < bm_size bm1 -> i < bm_size bm -> bit bm1 i = bit bm i.
Proof.
  intros Hw Hj. eexists. split; [reflexivity|].
  assert (length (take (bitmap_nwords nbits) bm ++ (junk <$> seq (length bm) (bitmap_nwords nbits - length bm))) = bitmap_nwords nbits) as L
    by (rewrite length_app, length_take, length_fmap, length_seq; lia).
  split_and!; [|done|].
  - apply Forall_app. split; [by apply Forall_take|by apply junk_words].
  - unfold bm_size. rewrite L. intros i Hi Hb. unfold bit, BITMAP_WORD, BITMAP_WORD_BITS.
    rewrite lookup_app_l by (rewrite length_take; div_lia). rewrite lookup_take_lt by div_lia. done.
Qed.

(** Reallocation keeps the bits of both sizes and gives the added ones the value of the call,
    whatever the fresh memory holds; a failed call gives no bitmap. *)
Theorem bitmap_realloc_exact obits nbits bm got :
  0 <= obits <= bm_size bm -> 0 <= nbits < 2 ^ 61 -> bm_wf bm -> junk_ok got ->
  let does call v := match got with
    | None => call bm obits nbits got = Some None
    | Some _ => exists bm', call bm obits nbits got = Some (Some bm') /\ bm_wf bm' /\ length bm' = bitmap_nwords nbits /\
        forall i, 0 <= i < nbits -> bit bm' i = if i <? obits then bit bm i else v
    end in
  does bitmap_realloc0 false /\ does bitmap_realloc1 true.
Proof.
  intros Ho Hn Hw Hg. pose proof (nwords_val nbits ltac:(lia)) as Hv.
  destruct got as [junk|]; [|done]. destruct (realloc_words_spec bm nbits junk Hw Hg) as (bm1 & E & W1 & L1 & B1).
  assert (bm_size bm1 = 64 * ((nbits + 63) / 64)) as S1 by (unfold bm_size; rewrite L1; lia).
  assert (forall range v,
    (obits < nbits -> exists bm', range bm1 obits nbits = Some bm' /\
       becomes bm1 bm' (fun i => if (obits <=? i) && (i <? nbits) then v else bit bm1 i)) ->
    exists bm', bitmap_realloc range bm obits nbits (Some junk) = Some (Some bm') /\ bm_wf bm' /\
      length bm' = bitmap_nwords nbits /\
      forall i, 0 <= i < nbits -> bit bm' i = if i <? obits then bit bm i else v) as Hr.
  { intros range v Hrange. unfold bitmap_realloc. rewrite E. destruct (Z.ltb_spec obits nbits).
    - destruct (Hrange ltac:(done)) as (bm' & Er & L & W & B). rewrite Er. exists bm'. split_and!; [done..|congruence|].
      intros i Hi. rewrite B by lia. destruct (Z.ltb_spec i obits), (Z.leb_spec obits i), (Z.ltb_spec i nbits); simpl;
        try lia; [apply B1; div_lia|done].
    - exists bm1. split_and!; [done..|]. intros i Hi. rewrite (proj2 (Z.ltb_lt i obits)) by lia. apply B1; div_lia. }
  split; apply Hr; intros; [apply zero_range_spec|apply bitmap_fill_range_spec]; try done; try lia; rewrite S1; div_lia.
Qed.

Lemma bitmap_realloc_exact_witness :
  bitmap_realloc0 [5] 64 130 (Some (fun _ => 99)) = Some (Some [5; 0; 99]) /\
  exists bm', bitmap_realloc0 [5] 64 130 (Some (fun _ => 99)) = Some (Some bm') /\ bm_wf bm' /\
    length bm' = bitmap_nwords 130 /\ forall i, 0 <= i < 130 -> bit bm' i = if i <? 64 then bit [5] i else false.
Proof.
  split; [reflexivity|]. apply (bitmap_realloc_exact 64 130 [5] (Some (fun _ => 99)));
    unfold bm_size, bm_wf, junk_ok, word; simpl; repeat constructor; lia.
Defined.
