(* ===== verification/Buddy.v ===== *)
(** The buddy allocator of steering memory (providers/mlx5/dr_buddy.c).  Order [o] has a bitmap
    of the free blocks of [2^o] entries, a bitmap that tells which words of the first hold a
    set bit, and a count.  [None] is a fault: an access outside an array, a failed [assert]. *)

From stdpp Require Import base numbers list.
From S2P Require Import Prelude Types Bitmap.

Definition BITS_PER_LONG : Z := 64.
Definition BITS_TO_LONGS (nr : Z) : Z := DIV_ROUND_UP nr BITS_PER_LONG.

(** [struct dr_icm_buddy_mem], the fields of dr_buddy.c *)
Record buddy_mem : Type := mk_buddy {
  bits : list bitmap;
  num_free : list Z;
  set_bit : list bitmap;
  max_order : Z
}.

(** [f(buddy->bits[o])] and the like, in place *)
Definition upd_at {A} (l : list A) (o : Z) (f : A -> option A) : option (list A) :=
  x ← l !! Z.to_nat o; y ← f x; Some (<[Z.to_nat o := y]> l).

Definition on_bits (o : Z) (f : bitmap -> option bitmap) (b : buddy_mem) : option buddy_mem :=
  l ← upd_at (bits b) o f; Some (mk_buddy l (num_free b) (set_bit b) (max_order b)).
Definition on_set_bit (o : Z) (f : bitmap -> option bitmap) (b : buddy_mem) : option buddy_mem :=
  l ← upd_at (set_bit b) o f; Some (mk_buddy (bits b) (num_free b) l (max_order b)).
(** [++buddy->num_free[o]], [--buddy->num_free[o]]: an unsigned int *)
Definition on_num_free (o d : Z) (b : buddy_mem) : option buddy_mem :=
  l ← upd_at (num_free b) o (fun n => Some (u32 (n + d)));
  Some (mk_buddy (bits b) l (set_bit b) (max_order b)).

(** * Searching *)

Definition dr_find_first_bit (set_addr addr : bitmap) (size : Z) : option Z :=
  let set_size := u32 (u32 (size - 1) / BITS_PER_LONG + 1) in
  set_idx ← bitmap_ffs set_addr 0 set_size;
  r ← bitmap_ffs addr (u64 (set_idx * BITS_PER_LONG)) size;
  Some (s32 r).

(** * Creation *)

(** The blocks of memory [dr_buddy_init] allocates *)
Inductive buddy_block : Type :=
| BlkBits | BlkNumFree | BlkSetBit | BlkBitsOf (o : nat) | BlkSetOf (o : nat).

#[export] Instance buddy_block_eq_dec : EqDecision buddy_block.
Proof. solve_decision. Defined.

(** Which of the allocations of [dr_buddy_init] succeed *)
Record buddy_mallocs : Type := mk_bmallocs {
  got_bits : bool; got_num_free : bool; got_set_bit : bool;
  got_bits_of : nat -> bool; got_set_of : nat -> bool
}.

(** A loop [for (i = 0; i <= max_order; ++i) l[i] = bitmap_alloc0(...)]: the bitmaps, up to the
    first that cannot be had *)
Fixpoint alloc_each (k : nat) (size : nat -> Z) (got : nat -> bool) (i : nat) : list bitmap * bool :=
  match k with
  | O => ([], true)
  | S k =>
    match bitmap_alloc0 (size i) (got i) with
    | None => ([], false)
    | Some bm => let '(l, ok) := alloc_each k size got (S i) in (bm :: l, ok)
    end
  end.

(** [dr_buddy_init]: the error with the blocks freed on the way out, or the allocator *)
Inductive buddy_init_result : Type :=
| InitErr (e : Z) (freed : list buddy_block)
| InitOk (b : buddy_mem)
| InitFault.

(** [free(x[i])] for every [i <= max_order]; a pointer the loop did not reach is null *)
Definition free_each (blk : nat -> buddy_block) (l : list bitmap) : list buddy_block := blk <$> seq 0 (length l).

Definition dr_buddy_init (max_order : Z) (got : buddy_mallocs) : buddy_init_result :=
  let n := Z.to_nat (max_order + 1) in
  if negb (got_bits got) then InitErr ENOMEM []
  else if negb (got_num_free got) then InitErr ENOMEM [BlkBits]
  else if negb (got_set_bit got) then InitErr ENOMEM [BlkNumFree; BlkBits]
  else
    let '(bs, ok) := alloc_each n (fun i => s32 (Z.shiftl 1 (max_order - Z.of_nat i))) (got_bits_of got) 0 in
    let out_bits := BlkSetBit :: free_each BlkBitsOf bs ++ [BlkNumFree; BlkBits] in
    if negb ok then InitErr ENOMEM out_bits
    else
      let '(ss, ok) :=
        alloc_each n (fun i => s32 (BITS_TO_LONGS (s32 (Z.shiftl 1 (max_order - Z.of_nat i))))) (got_set_of got) 0 in
      if negb ok then InitErr ENOMEM (free_each BlkSetOf ss ++ out_bits)
      else
        let b := mk_buddy bs (replicate n 0) ss max_order in
        match (b ← on_bits max_order (fun m => bitmap_set_bit m 0) b;
               b ← on_set_bit max_order (fun m => bitmap_set_bit m 0) b;
               l ← upd_at (num_free b) max_order (fun _ => Some 1);
               Some (mk_buddy (bits b) l (set_bit b) max_order)) with
        | Some b => InitOk b
        | None => InitFault
        end.

(** [dr_buddy_cleanup]: the blocks it frees, in order (the node of the list apart) *)
Definition dr_buddy_cleanup (b : buddy_mem) : list buddy_block :=
  concat ((fun i => [BlkBitsOf i; BlkSetOf i]) <$> seq 0 (Z.to_nat (max_order b + 1)))
    ++ [BlkSetBit; BlkNumFree; BlkBits].

(** * Allocation *)

(** The borders of the word of [seg] *)
Definition dr_buddy_get_seg_borders (seg : Z) : Z * Z :=
  (u32 (seg / BITS_PER_LONG * BITS_PER_LONG), u32 ((seg / BITS_PER_LONG + 1) * BITS_PER_LONG)).

Definition dr_buddy_update_upper_bitmap (seg order : Z) (b : buddy_mem) : option buddy_mem :=
  let '(l, h) := dr_buddy_get_seg_borders seg in
  bm ← bits b !! Z.to_nat order;
  m ← bitmap_ffs bm l h;
  if u32 m =? h then on_set_bit order (fun s => bitmap_clear_bit s (seg / BITS_PER_LONG)) b
  else Some b.

(** [for (o = order; o <= buddy->max_order; ++o)], the [k] orders from [o] on: nothing free,
    or an order and the segment found there *)
Fixpoint find_order (k : nat) (b : buddy_mem) (o : Z) : option (option (Z * Z)) :=
  match k with
  | O => Some None
  | S k =>
    n ← num_free b !! Z.to_nat o;
    if negb (n =? 0) then
      let m := s32 (Z.shiftl 1 (max_order b - o)) in
      sb ← set_bit b !! Z.to_nat o;
      bm ← bits b !! Z.to_nat o;
      seg ← dr_find_first_bit sb bm m;
      if m <=? seg then None else Some (Some (o, seg))
    else find_order k b (o + 1)
  end.

(** [while (o > order)], [k] times *)
Fixpoint split_down (k : nat) (o seg : Z) (b : buddy_mem) : option (Z * buddy_mem) :=
  match k with
  | O => Some (seg, b)
  | S k =>
    let o := o - 1 in
    let seg := s32 (Z.shiftl seg 1) in
    b ← on_bits o (fun m => bitmap_set_bit m (Z.lxor seg 1)) b;
    b ← on_set_bit o (fun m => bitmap_set_bit m (Z.lxor seg 1 / BITS_PER_LONG)) b;
    b ← on_num_free o 1 b;
    split_down k o seg b
  end.

(** [dr_buddy_alloc_mem(buddy, order)]: the segment or -1 *)
Definition dr_buddy_alloc_mem (order : Z) (b : buddy_mem) : option (Z * buddy_mem) :=
  r ← find_order (Z.to_nat (max_order b + 1 - order)) b order;
  match r with
  | None => Some (-1, b)
  | Some (o, seg) =>
    b ← on_bits o (fun m => bitmap_clear_bit m seg) b;
    b ← dr_buddy_update_upper_bitmap seg o b;
    b ← on_num_free o (-1) b;
    r ← split_down (Z.to_nat (o - order)) o seg b;
    let '(seg, b) := r in
    Some (s32 (Z.shiftl seg order), b)
  end.

(** * Freeing *)

(** The loop of [dr_buddy_free_mem] and what follows it; an order past the last is outside the
    arrays *)
Fixpoint merge_up (k : nat) (seg order : Z) (b : buddy_mem) : option buddy_mem :=
  match k with
  | O => None
  | S k =>
    bm ← bits b !! Z.to_nat order;
    t ← bitmap_test_bit bm (Z.lxor seg 1);
    if (t : bool) then
      b ← on_bits order (fun m => bitmap_clear_bit m (Z.lxor seg 1)) b;
      b ← dr_buddy_update_upper_bitmap (Z.lxor seg 1) order b;
      b ← on_num_free order (-1) b;
      merge_up k (Z.shiftr seg 1) (order + 1) b
    else
      b ← on_bits order (fun m => bitmap_set_bit m seg) b;
      b ← on_set_bit order (fun m => bitmap_set_bit m (seg / BITS_PER_LONG)) b;
      on_num_free order 1 b
  end.

(** [dr_buddy_free_mem(buddy, seg, order)] *)
Definition dr_buddy_free_mem (seg order : Z) (b : buddy_mem) : option buddy_mem :=
  merge_up (Z.to_nat (max_order b + 1)) (Z.shiftr seg order) order b.
