(* ===== verification/BuddyTree.v ===== *)
(** The blocks of a buddy allocator, abstractly: every block of [2^o] entries at index [s] is
    free, used or no block at all, the blocks tile the memory, and no two free buddies lie
    side by side.  Splitting, merging and changing hands keep this; a run without a used entry
    lies inside one free block. *)

From stdpp Require Import base numbers list.
From S2P Require Import Prelude.

Inductive status : Type := Free | Used.

#[export] Instance status_eq_dec : EqDecision status.
Proof. solve_decision. Defined.

(** Order, index *)
Definition blocks : Type := Z -> Z -> option status.

Definition put (o s : Z) (v : option status) (B : blocks) : blocks :=
  fun o' s' => if (o' =? o) && (s' =? s) then v else B o' s'.

(** Entry [c] lies in the block of order [o] that has a status *)
Definition owns (B : blocks) (c o : Z) : Prop := 0 <= o /\ B o (c / 2 ^ o) <> None.

Record tiling (M : Z) (B : blocks) : Prop := {
  tl_range : forall o s, B o s <> None -> 0 <= o <= M /\ 0 <= s < 2 ^ (M - o);
  tl_some : forall c, 0 <= c < 2 ^ M -> exists o, owns B c o;
  tl_one : forall c o1 o2, 0 <= c < 2 ^ M -> owns B c o1 -> owns B c o2 -> o1 = o2;
  tl_merged : forall o s, o < M -> B o s = Some Free -> B o (Z.lxor s 1) = Some Free -> False
}.

(** ** Arithmetic of buddies *)

Lemma pow_split M o : 0 <= o <= M -> 2 ^ M = 2 ^ (M - o) * 2 ^ o.
Proof. intros H. rewrite <- Z.pow_add_r by lia. f_equal. lia. Qed.

Lemma pow_pos o : 0 <= o -> 0 < 2 ^ o.
Proof. intros. by apply Z.pow_pos_nonneg. Qed.

Lemma div_up c o : 0 <= o -> c / 2 ^ (o + 1) = c / 2 ^ o / 2.
Proof.
  intros H. pose proof (pow_pos o H). rewrite Z.div_div by lia. f_equal.
  rewrite Z.pow_add_r by lia. lia.
Qed.

(** The buddy of [s] *)
Lemma lxor_1 s : 0 <= s -> Z.lxor s 1 = 2 * (s / 2) + (1 - s mod 2).
Proof.
  intros Hs.
  assert (E : s = 2 * (s / 2) \/ s = 2 * (s / 2) + 1) by div_lia.
  assert (Hi : forall h i, 0 < i -> Z.testbit (2 * h + 1) i = Z.testbit (2 * h) i).
  { intros h i Hi. replace i with (Z.succ (i - 1)) by lia. by rewrite Z.testbit_even_succ, Z.testbit_odd_succ by lia. }
  assert (H1 : forall i, 0 < i -> Z.testbit 1 i = false) by (intros; apply (Z.bits_above_log2 1); simpl; lia).
  set (h := s / 2) in *. 
  replace (2 * h + (1 - s mod 2)) with (if Z.eqb s (2 * h) then 2 * h + 1 else 2 * h) by (unfold h; destruct (Z.eqb_spec s (2 * (s / 2))); div_lia).
  destruct E as [E|E]; rewrite E at 1 2.
  - rewrite Z.eqb_refl. apply Z.bits_inj'. intros i Hi0. rewrite Z.lxor_spec.
    destruct (Z.eq_dec i 0) as [->|]; [by rewrite Z.testbit_even_0, Z.testbit_odd_0|].
    rewrite Hi, H1 by lia. apply xorb_false_r.
  - rewrite (proj2 (Z.eqb_neq _ _)) by lia. apply Z.bits_inj'. intros i Hi0. rewrite Z.lxor_spec.
    destruct (Z.eq_dec i 0) as [->|]; [by rewrite Z.testbit_even_0, Z.testbit_odd_0|].
    rewrite Hi, H1 by lia. apply xorb_false_r.
Qed.

Lemma lxor_cases s :
  0 <= s -> Z.lxor s 1 / 2 = s / 2 /\ 0 <= Z.lxor s 1 /\ Z.lxor s 1 <> s /\ Z.lxor (Z.lxor s 1) 1 = s.
Proof.
  intros Hs. rewrite (lxor_1 s Hs). rewrite lxor_1 by div_lia. split_and!; div_lia.
Qed.

Lemma lxor_double s : 0 <= s -> Z.lxor (2 * s) 1 = 2 * s + 1 /\ Z.lxor (2 * s + 1) 1 = 2 * s.
Proof. intros Hs. rewrite !lxor_1 by lia. split; div_lia. Qed.

(** The children of a block *)
Lemma half_cases c o s : 0 <= o -> c / 2 ^ (o + 1) = s <-> c / 2 ^ o = 2 * s \/ c / 2 ^ o = 2 * s + 1.
Proof. intros Ho. rewrite div_up by done. set (x := c / 2 ^ o). div_lia. Qed.

Lemma put_eq o s v B : put o s v B o s = v.
Proof. unfold put. by rewrite !Z.eqb_refl. Qed.

Lemma put_ne o s v B o' s' : o' <> o \/ s' <> s -> put o s v B o' s' = B o' s'.
Proof.
  intros H. unfold put. destruct (Z.eqb_spec o' o), (Z.eqb_spec s' s); simpl; try done. naive_solver.
Qed.

Lemma put_some B o s v o' s' : B o s <> None -> put o s (Some v) B o' s' <> None <-> B o' s' <> None.
Proof.
  intros H. unfold put. destruct (Z.eqb_spec o' o) as [->|], (Z.eqb_spec s' s) as [->|]; simpl; done.
Qed.

Lemma put_some_owns B o s v c x : B o s <> None -> owns (put o s (Some v) B) c x <-> owns B c x.
Proof. intros H. unfold owns. by rewrite put_some. Qed.

Lemma put_some_tiling M B o s v :
  tiling M B -> B o s <> None ->
  (forall o' s', o' < M -> put o s (Some v) B o' s' = Some Free ->
     put o s (Some v) B o' (Z.lxor s' 1) = Some Free -> False) ->
  tiling M (put o s (Some v) B).
Proof.
  intros [R S O G] Hb Hg. split; [| | |done].
  - intros o' s' H. apply R. by apply (put_some B o s v).
  - intros c Hc. destruct (S c Hc) as [x Hx]. exists x. by apply put_some_owns.
  - intros c x y Hc Hx Hy. rewrite put_some_owns in Hx, Hy by done. by apply (O c).
Qed.

(** * Changing hands *)

Lemma take_tiling M B o s : tiling M B -> B o s = Some Free -> tiling M (put o s (Some Used) B).
Proof.
  intros T Hb. apply put_some_tiling; [done|congruence|]. intros o' s' Ho H1 H2.
  assert (Hn : forall x, put o s (Some Used) B o' x = Some Free -> B o' x = Some Free).
  { intros x. unfold put. by destruct (_ && _). }
  by apply (tl_merged _ _ T o' s' Ho); apply Hn.
Qed.

Lemma give_tiling M B o s :
  tiling M B -> B o s = Some Used -> (o < M -> B o (Z.lxor s 1) <> Some Free) ->
  tiling M (put o s (Some Free) B).
Proof.
  intros T Hb Hbud. assert (Hs : 0 <= s) by (apply (tl_range _ _ T o); congruence).
  apply put_some_tiling; [done|congruence|]. intros o' s' Ho H1 H2.
  destruct (decide (o' = o /\ s' = s)) as [[-> ->]|Hne].
  { apply (Hbud Ho). rewrite put_ne in H2; [done|]. right. apply (lxor_cases s Hs). }
  rewrite put_ne in H1 by (destruct (Z.eq_dec o' o), (Z.eq_dec s' s); tauto).
  assert (Hs' : 0 <= s') by (apply (tl_range _ _ T o'); congruence).
  destruct (decide (o' = o /\ Z.lxor s' 1 = s)) as [[-> <-]|Hne'].
  - apply (Hbud Ho). by rewrite (proj2 (proj2 (proj2 (lxor_cases s' Hs')))).
  - rewrite put_ne in H2 by (destruct (Z.eq_dec o' o), (Z.eq_dec (Z.lxor s' 1) s); tauto).
    by apply (tl_merged _ _ T o' s').
Qed.

(** * Splitting *)

Definition split_block (o s : Z) (B : blocks) : blocks :=
  put (o - 1) (2 * s + 1) (Some Free) (put (o - 1) (2 * s) (Some Used) (put o s None B)).

Lemma split_owns M B o s c x :
  tiling M B -> B o s = Some Used -> 0 < o -> 0 <= c < 2 ^ M ->
  owns (split_block o s B) c x <->
  (c / 2 ^ o = s /\ x = o - 1) \/ (c / 2 ^ o <> s /\ owns B c x).
Proof.
  intros [R S O G] Hb Ho Hc.
  assert (Hh : c / 2 ^ o = s <-> c / 2 ^ (o - 1) = 2 * s \/ c / 2 ^ (o - 1) = 2 * s + 1).
  { rewrite <- (half_cases c (o - 1) s) by lia. by replace (o - 1 + 1) with o by lia. }
  assert (Hin : c / 2 ^ o = s -> owns B c o) by (intros <-; split; [lia|congruence]).
  unfold split_block, owns. split.
  - intros [Hx H]. destruct (Z.eq_dec (c / 2 ^ o) s) as [E|E].
    + left. split; [done|]. destruct (Z.eq_dec x (o - 1)); [done|]. exfalso.
      rewrite put_ne in H by (by left). rewrite put_ne in H by (by left). destruct (Z.eq_dec x o) as [->|Hne].
      * by rewrite E, put_eq in H.
      * rewrite put_ne in H by (by left). apply Hne. apply (O c); [done|by split|by apply Hin].
    + right. split; [done|]. split; [done|].
      rewrite put_ne in H; [|destruct (Z.eq_dec x (o - 1)) as [->|]; [right; tauto|by left]].
      rewrite put_ne in H; [|destruct (Z.eq_dec x (o - 1)) as [->|]; [right; tauto|by left]].
      by rewrite put_ne in H by (destruct (Z.eq_dec x o) as [->|]; [right|left]; done).
  - intros [[E ->]|[E [Hx H]]].
    + split; [lia|]. apply Hh in E as [-> | ->]; [|by rewrite put_eq].
      rewrite put_ne by (right; lia). by rewrite put_eq.
    + split; [done|].
      rewrite put_ne; [|destruct (Z.eq_dec x (o - 1)) as [->|]; [right; tauto|by left]].
      rewrite put_ne; [|destruct (Z.eq_dec x (o - 1)) as [->|]; [right; tauto|by left]].
      by rewrite put_ne by (destruct (Z.eq_dec x o) as [->|]; [right|left]; done).
Qed.

Lemma split_tiling M B o s : tiling M B -> B o s = Some Used -> 0 < o -> tiling M (split_block o s B).
Proof.
  intros T Hb Ho. destruct (tl_range _ _ T o s) as [Ro Rs]; [congruence|]. split.
  - intros o' s' H. unfold split_block in H.
    assert (Hp : 2 ^ (M - (o - 1)) = 2 * 2 ^ (M - o))
      by (replace (M - (o - 1)) with (1 + (M - o)) by lia; by rewrite Z.pow_add_r by lia).
    destruct (decide (o' = o - 1 /\ (s' = 2 * s \/ s' = 2 * s + 1))) as [[-> Hs']|Hne]; [rewrite Hp; lia|].
    rewrite !put_ne in H by (destruct (Z.eq_dec o' (o - 1)); [right; intros ->; apply Hne; auto|by left]).
    unfold put in H. destruct (_ && _); [done|]. by apply (tl_range _ _ T).
  - intros c Hc. destruct (Z.eq_dec (c / 2 ^ o) s) as [E|E].
    + exists (o - 1). apply (split_owns M); auto.
    + destruct (tl_some _ _ T c Hc) as [x Hx]. exists x. apply (split_owns M); auto.
  - intros c x y Hc Hx Hy. rewrite (split_owns M) in Hx, Hy by done.
    destruct Hx as [[? ->]|[? Hx]], Hy as [[? ->]|[? Hy]]; try done. by apply (tl_one _ _ T c).
  - intros o' s' Ho' H1 H2. destruct (lxor_double s ltac:(lia)) as [D1 D2].
    assert (Hn : forall x, split_block o s B o' x = Some Free -> B o' x = Some Free \/ (o' = o - 1 /\ x = 2 * s + 1)).
    { intros x. unfold split_block, put.
      destruct (Z.eqb_spec o' (o - 1)), (Z.eqb_spec x (2 * s + 1)), (Z.eqb_spec x (2 * s)),
        (Z.eqb_spec o' o), (Z.eqb_spec x s); simpl; auto; done. }
    assert (Hu : split_block o s B (o - 1) (2 * s) = Some Used)
      by (unfold split_block; rewrite put_ne by (right; lia); apply put_eq).
    destruct (Hn _ H1) as [F1|[-> ->]]; [|rewrite D2 in H2; congruence].
    assert (Hs' : 0 <= s') by (apply (tl_range _ _ T o'); congruence).
    destruct (Hn _ H2) as [F2|[-> E]]; [by apply (tl_merged _ _ T o' s')|].
    assert (s' = 2 * s) as -> by (rewrite <- (proj2 (proj2 (proj2 (lxor_cases s' Hs')))), E; done). congruence.
Qed.

(** * Merging *)

Definition merge_block (o s : Z) (B : blocks) : blocks :=
  put (o + 1) (s / 2) (Some Used) (put o (Z.lxor s 1) None (put o s None B)).

Section Merge.
Context (M o s : Z) (B : blocks) (T : tiling M B).
Context (Hb : B o s = Some Used) (Hf : B o (Z.lxor s 1) = Some Free).
#[local] Set Default Proof Using "All".

Lemma merge_range : 0 <= o < M /\ 0 <= s.
Proof.
  destruct (tl_range _ _ T o s) as [Ro Rs]; [congruence|].
  destruct (tl_range _ _ T o (Z.lxor s 1)) as [_ Rx]; [congruence|]. split; [|lia].
  destruct (Z.eq_dec o M) as [->|]; [|lia]. exfalso.
  rewrite Z.sub_diag in *. destruct (lxor_cases s ltac:(lia)) as (_ & _ & Hne & _). lia.
Qed.

Lemma merge_in c : c / 2 ^ (o + 1) = s / 2 <-> c / 2 ^ o = s \/ c / 2 ^ o = Z.lxor s 1.
Proof.
  destruct merge_range. rewrite div_up by lia. rewrite lxor_1 by lia. set (x := c / 2 ^ o). div_lia.
Qed.

Lemma merge_owns c x :
  0 <= c < 2 ^ M ->
  owns (merge_block o s B) c x <->
  (c / 2 ^ (o + 1) = s / 2 /\ x = o + 1) \/ (c / 2 ^ (o + 1) <> s / 2 /\ owns B c x).
Proof.
  intros Hc. destruct merge_range as [Ho Hs]. pose proof (merge_in c) as Hh.
  assert (Hin : c / 2 ^ (o + 1) = s / 2 -> owns B c o) by (unfold owns; intros E; apply Hh in E as [-> | ->]; (split; [lia|congruence])).
  unfold merge_block, owns. split.
  - intros [Hx H]. destruct (Z.eq_dec (c / 2 ^ (o + 1)) (s / 2)) as [E|E].
    + left. split; [done|]. destruct (Z.eq_dec x (o + 1)); [done|]. exfalso.
      rewrite put_ne in H by (by left). destruct (Z.eq_dec x o) as [->|Hne].
      * apply Hh in E as [E|E]; rewrite E in H; [|by rewrite put_eq in H].
        unfold put in H. rewrite !Z.eqb_refl in H. by destruct (_ && _).
      * rewrite !put_ne in H by (by left). apply Hne. apply (tl_one _ _ T c); [done|by split|by apply Hin].
    + right. split; [done|]. split; [done|].
      rewrite put_ne in H by (destruct (Z.eq_dec x (o + 1)) as [->|]; [right|left]; done).
      by rewrite !put_ne in H by (destruct (Z.eq_dec x o) as [->|]; [right; tauto|left; done]).
  - intros [[E ->]|[E [Hx H]]].
    + split; [lia|]. by rewrite E, put_eq.
    + split; [done|].
      rewrite put_ne by (destruct (Z.eq_dec x (o + 1)) as [->|]; [right|left]; done).
      by rewrite !put_ne by (destruct (Z.eq_dec x o) as [->|]; [right; tauto|left; done]).
Qed.

Lemma merge_tiling : tiling M (merge_block o s B).
Proof.
  destruct merge_range as [Ho Hs]. destruct (tl_range _ _ T o s) as [_ Rs]; [congruence|].
  assert (Hp : 2 ^ (M - o) = 2 * 2 ^ (M - (o + 1)))
    by (replace (M - o) with (1 + (M - (o + 1))) by lia; by rewrite Z.pow_add_r by lia).
  split.
  - intros o' s' H. unfold merge_block in H.
    destruct (decide (o' = o + 1 /\ s' = s / 2)) as [[-> ->]|Hne].
    { split; [lia|]. rewrite Hp in Rs. set (p := 2 ^ (M - (o + 1))) in *. div_lia. }
    rewrite put_ne in H by (destruct (Z.eq_dec o' (o + 1)); [right; intros ->; by apply Hne|by left]).
    apply (tl_range _ _ T). unfold put in H. destruct (_ && _); [done|]. by destruct (_ && _).
  - intros c Hc. destruct (Z.eq_dec (c / 2 ^ (o + 1)) (s / 2)) as [E|E].
    + exists (o + 1). apply merge_owns; auto.
    + destruct (tl_some _ _ T c Hc) as [x Hx]. exists x. apply merge_owns; auto.
  - intros c x y Hc Hx Hy. rewrite merge_owns in Hx, Hy by done.
    destruct Hx as [[? ->]|[? Hx]], Hy as [[? ->]|[? Hy]]; try done. by apply (tl_one _ _ T c).
  - intros o' s' Ho' H1 H2.
    assert (Hn : forall x, merge_block o s B o' x = Some Free -> B o' x = Some Free).
    { intros x. unfold merge_block, put. repeat (destruct (_ && _); [done|]). done. }
    by apply (tl_merged _ _ T o' s' Ho'); apply Hn.
Qed.

End Merge.

(** * Free runs *)

(** No entry of the block [(o, k)] is in a used block *)
Definition unused (B : blocks) (o k : Z) : Prop :=
  forall c x, c / 2 ^ o = k -> owns B c x -> B x (c / 2 ^ x) = Some Free.

(** An aligned run without a used entry lies inside a free block. *)
Lemma unused_in_free M B o k :
  tiling M B -> 0 <= o <= M -> 0 <= k < 2 ^ (M - o) -> unused B o k ->
  exists x, o <= x /\ B x (k / 2 ^ (x - o)) = Some Free.
Proof.
  intros T Ho. rewrite <- (Z2Nat.id o) in * by lia. revert Ho k.
  induction (Z.to_nat o) as [|n IH]; intros Ho k Hk Hu.
  - rewrite Z.sub_0_r in Hk. destruct (tl_some _ _ T k Hk) as [x Hx]. exists x. split; [apply Hx|].
    rewrite Z.sub_0_r. apply Hu; [|done]. change (2 ^ Z.of_nat 0) with 1. by rewrite Z.div_1_r.
  - set (o' := Z.of_nat n) in *. assert (Eo : Z.of_nat (S n) = o' + 1) by lia. rewrite Eo in *.
    assert (Hp : 2 ^ (M - o') = 2 * 2 ^ (M - (o' + 1)))
      by (replace (M - o') with (1 + (M - (o' + 1))) by lia; by rewrite Z.pow_add_r by lia).
    assert (Hch : forall j, j = 2 * k \/ j = 2 * k + 1 -> exists x, o' <= x /\ B x (j / 2 ^ (x - o')) = Some Free).
    { intros j Hj. apply IH; [lia|lia|]. intros c x Hc. apply Hu. apply half_cases; [lia|]. rewrite Hc. tauto. }
    assert (Hup : forall j x, j = 2 * k \/ j = 2 * k + 1 -> o' < x -> B x (j / 2 ^ (x - o')) = Some Free ->
      exists x, o' + 1 <= x /\ B x (k / 2 ^ (x - (o' + 1))) = Some Free).
    { intros j x Hj Hx HB. exists x. split; [lia|]. rewrite <- HB. f_equal.
      replace (x - o') with (1 + (x - (o' + 1))) by lia. rewrite Z.pow_add_r, <- Z.div_div by lia.
      f_equal. destruct Hj; subst j; change (2 ^ 1) with 2; div_lia. }
    destruct (Hch (2 * k)) as (x & Hx & HB); [auto|]. destruct (Z.eq_dec x o') as [->|]; [|by apply (Hup (2 * k) x); auto with lia].
    destruct (Hch (2 * k + 1)) as (y & Hy & HC); [auto|]. destruct (Z.eq_dec y o') as [->|]; [|by apply (Hup (2 * k + 1) y); auto with lia].
    rewrite Z.sub_diag, Z.div_1_r in HB, HC. exfalso. apply (tl_merged _ _ T o' (2 * k)); [lia|done|].
    by rewrite (proj1 (lxor_double k ltac:(lia))).
Qed.

(** ** Used blocks *)

(** The entries of a used block are in no other block. *)
Lemma free_blocks_apart M B o1 s1 o2 s2 c :
  tiling M B -> B o1 s1 <> None -> B o2 s2 <> None -> c / 2 ^ o1 = s1 -> c / 2 ^ o2 = s2 ->
  o1 = o2 /\ s1 = s2.
Proof.
  intros T H1 H2 E1 E2. destruct (tl_range _ _ T _ _ H1) as [R1 S1], (tl_range _ _ T _ _ H2) as [R2 S2].
  assert (0 <= c < 2 ^ M) as Hc.
  { rewrite (pow_split M o1) by lia. pose proof (pow_pos o1 ltac:(lia)). subst s1. split.
    - destruct (Z.lt_ge_cases c 0); [|done]. exfalso. assert (c / 2 ^ o1 < 0) by (apply Z.div_lt_upper_bound; lia). lia.
    - assert (c < 2 ^ o1 * (c / 2 ^ o1 + 1)) by (pose proof (Z.mul_succ_div_gt c (2 ^ o1)); lia). nia. }
  assert (o1 = o2) as <-; [|split; congruence].
  apply (tl_one _ _ T c); [done|split; [lia|congruence]..].
Qed.

(** Without used blocks, the whole memory is one free block. *)
Lemma all_free M B :
  tiling M B -> 0 <= M -> (forall o s, B o s <> Some Used) ->
  forall o s, B o s = if (o =? M) && (s =? 0) then Some Free else None.
Proof.
  intros T HM Hu.
  destruct (unused_in_free M B M 0 T) as (x & Hx & HB); [lia|rewrite Z.sub_diag; lia| |].
  { intros c y _ [_ Hy]. destruct (B y (c / 2 ^ y)) as [[]|] eqn:E; [done| |done]. by destruct (Hu _ _ E). }
  assert (x = M) as -> by (assert (0 <= x <= M) by (apply (tl_range _ _ T x (0 / 2 ^ (x - M))); congruence); lia).
  rewrite Z.sub_diag, Z.div_1_r in HB. intros o s.
  destruct (Z.eqb_spec o M) as [->|Ho], (Z.eqb_spec s 0) as [->|Hs]; simpl; try done.
  - destruct (B M s) eqn:E; [|done]. exfalso. destruct (tl_range _ _ T M s) as [_ R]; [congruence|].
    rewrite Z.sub_diag in R. simpl in R. lia.
  - destruct (B o 0) eqn:E; [|done]. exfalso. apply Ho.
    apply (free_blocks_apart M B o 0 M 0 0 T); try congruence; apply Z.div_0_l; destruct (tl_range _ _ T o 0); try congruence; lia.
  - destruct (B o s) eqn:E; [|done]. exfalso. destruct (tl_range _ _ T o s) as [R1 R2]; [congruence|]. apply Ho.
    pose proof (pow_pos o ltac:(lia)).
    apply (free_blocks_apart M B o s M 0 (s * 2 ^ o) T); try congruence; [by apply Z.div_mul; lia|].
    apply Z.div_small. rewrite (pow_split M o) by lia. nia.
Qed.

(** * The free blocks follow from the used ones *)

Lemma unused_iff M B o k :
  tiling M B -> unused B o k <-> forall c x, c / 2 ^ o = k -> 0 <= x -> B x (c / 2 ^ x) <> Some Used.
Proof.
  intros T. split.
  - intros Hu c x Hc Hx E. specialize (Hu c x Hc). rewrite E in Hu. by specialize (Hu ltac:(split; [done|congruence])).
  - intros H c x Hc [Hx0 Hx]. specialize (H c x Hc Hx0). destruct (B x (c / 2 ^ x)) as [[]|]; done.
Qed.

(** A free block is a largest aligned run without a used entry. *)
Lemma free_iff M B o s :
  tiling M B -> 0 <= o <= M -> 0 <= s < 2 ^ (M - o) ->
  B o s = Some Free <-> unused B o s /\ (o < M -> ~ unused B (o + 1) (s / 2)).
Proof.
  intros T Ho Hs. pose proof (pow_pos o ltac:(lia)) as Hp. split.
  - intros HB. split.
    + intros c x Hc Hx. assert (x = o) as ->; [|by rewrite Hc].
      destruct Hx as [Hx0 Hx]. apply (free_blocks_apart M B x (c / 2 ^ x) o s c T); congruence.
    + intros Hlt Hu. destruct (unused_in_free M B (o + 1) (s / 2) T) as (x & Hx & HBx); [lia| |done|].
      { assert (2 ^ (M - o) = 2 * 2 ^ (M - (o + 1))) as E
          by (replace (M - o) with (1 + (M - (o + 1))) by lia; by rewrite Z.pow_add_r by lia).
        rewrite E in Hs. set (p := 2 ^ (M - (o + 1))) in *. div_lia. }
      destruct (free_blocks_apart M B o s x (s / 2 / 2 ^ (x - (o + 1))) (s * 2 ^ o) T) as [E _]; try congruence; [by apply Z.div_mul; lia| |lia].
      replace x with (o + (1 + (x - (o + 1)))) at 1 by lia. rewrite !Z.pow_add_r by lia.
      pose proof (pow_pos (x - (o + 1)) ltac:(lia)).
      rewrite <- !Z.div_div by lia. by rewrite Z.div_mul by lia.
  - intros [Hu Hm]. destruct (unused_in_free M B o s T Ho Hs Hu) as (x & Hx & HB).
    destruct (Z.eq_dec x o) as [->|Hne]; [by rewrite Z.sub_diag, Z.div_1_r in HB|]. exfalso.
    destruct (tl_range _ _ T x (s / 2 ^ (x - o))) as [Rx _]; [congruence|]. apply Hm; [lia|].
    intros c y Hc Hy. assert (Hcx : c / 2 ^ x = s / 2 ^ (x - o)).
    { replace x with (o + 1 + (x - (o + 1))) at 1 by lia. pose proof (pow_pos (x - (o + 1)) ltac:(lia)).
      pose proof (pow_pos (o + 1) ltac:(lia)).
      rewrite Z.pow_add_r, <- Z.div_div by lia. rewrite Hc. replace (x - o) with (1 + (x - (o + 1))) by lia.
      rewrite Z.pow_add_r, <- Z.div_div by lia. done. }
    assert (y = x) as ->; [|by rewrite Hcx]. destruct Hy as [Hy0 Hy].
    apply (free_blocks_apart M B y (c / 2 ^ y) x (c / 2 ^ x) c T); congruence.
Qed.

Lemma tiling_determined M B1 B2 :
  tiling M B1 -> tiling M B2 -> (forall o s, B1 o s = Some Used <-> B2 o s = Some Used) ->
  forall o s, B1 o s = B2 o s.
Proof.
  intros T1 T2 HU o s.
  assert (Hf : B1 o s = Some Free <-> B2 o s = Some Free).
  { assert (Hu : forall o k, unused B1 o k <-> unused B2 o k).
    { intros o' k. rewrite (unused_iff M B1), (unused_iff M B2) by done.
      split; intros H c x Hc Hx E; apply (H c x Hc Hx), HU, E. }
    destruct (decide (0 <= o <= M /\ 0 <= s < 2 ^ (M - o))) as [[Ho Hs]|Hout].
    - rewrite !(free_iff M) by done. by rewrite !Hu.
    - split; intros E; exfalso; apply Hout; [apply (tl_range _ _ T1)|apply (tl_range _ _ T2)]; congruence. }
  pose proof (HU o s) as Hu. destruct (B1 o s) as [[]|], (B2 o s) as [[]|]; try done; exfalso;
    (destruct Hf as [Hf1 Hf2], Hu as [Hu1 Hu2]; try (by specialize (Hf1 eq_refl)); try (by specialize (Hf2 eq_refl));
     try (by specialize (Hu1 eq_refl)); by specialize (Hu2 eq_refl)).
Qed.
