(* ===== verification/BuddyProps.v ===== *)
(** The bitmaps and counts of the buddy allocator hold the free blocks of a tiling, and both
    operations keep it so: no fault, allocation takes a block of the asked order when there is
    one and only then fails, freeing merges buddies. *)

From stdpp Require Import base numbers list.
From S2P Require Import Prelude Types Bitmap BitmapProps Buddy BuddyTree.

(** * Counting *)

Fixpoint cnt (k : nat) (f : Z -> bool) : Z :=
  match k with O => 0 | S k => cnt k f + Z.b2z (f (Z.of_nat k)) end.

Lemma cnt_range k f : 0 <= cnt k f <= Z.of_nat k.
Proof. induction k as [|k IH]; simpl cnt; [lia|]. destruct (f (Z.of_nat k)); simpl; lia. Qed.

Lemma cnt_upd k f f' x :
  0 <= x < Z.of_nat k -> (forall i, 0 <= i -> i <> x -> f' i = f i) ->
  cnt k f' = cnt k f + Z.b2z (f' x) - Z.b2z (f x).
Proof.
  intros Hx Hf. induction k as [|k IH]; [lia|]. simpl cnt.
  destruct (Z.eq_dec x (Z.of_nat k)) as [->|Hne].
  - assert (cnt k f' = cnt k f) as ->; [|lia]. clear IH Hx.
    assert (H : forall j, (j <= k)%nat -> cnt j f' = cnt j f); [|by apply H].
    induction j as [|j IHj]; intros Hj; simpl; [done|]. rewrite IHj, Hf by lia. done.
  - rewrite IH, (Hf (Z.of_nat k)) by lia. lia.
Qed.

Lemma cnt_zero k f : cnt k f = 0 <-> forall i, 0 <= i < Z.of_nat k -> f i = false.
Proof.
  induction k as [|k IH]; simpl cnt; [split; [intros; lia|done]|]. pose proof (cnt_range k f). split.
  - intros E i Hi. destruct (f (Z.of_nat k)) eqn:Ek; simpl in E; [lia|].
    destruct (Z.eq_dec i (Z.of_nat k)) as [->|]; [done|]. apply IH; lia.
  - intros H'. rewrite (proj2 IH) by (intros; apply H'; lia). by rewrite H' by lia.
Qed.

(** * One order *)

(** The bitmap, the bitmap of its words and the count of the free blocks [f] of an order with
    [N] blocks *)
Record level (N : Z) (f : Z -> bool) (bm sb : bitmap) (n : Z) : Prop := {
  lv_wf : bm_wf bm;
  lv_swf : bm_wf sb;
  lv_size : bm_size bm = 64 * ((N + 63) / 64);
  lv_ssize : bm_size sb = 64 * (((N + 63) / 64 + 63) / 64);
  lv_bits : forall s, 0 <= s -> bit bm s = f s;
  lv_out : forall s, N <= s -> f s = false;
  lv_words : forall k, 0 <= k -> bit sb k = true <-> exists s, 0 <= s /\ s / 64 = k /\ f s = true;
  lv_cnt : n = cnt (Z.to_nat N) f
}.

Definition set_at (s : Z) (v : bool) (f : Z -> bool) : Z -> bool := fun s' => if s' =? s then v else f s'.

Lemma becomes_size bm bm' f : becomes bm bm' f -> bm_size bm' = bm_size bm.
Proof. intros (L & _). unfold bm_size. by rewrite L. Qed.

Lemma level_set N f bm sb n s :
  level N f bm sb n -> 1 <= N <= 2 ^ 30 -> 0 <= s < N -> f s = false ->
  exists bm' sb', bitmap_set_bit bm s = Some bm' /\ bitmap_set_bit sb (s / 64) = Some sb' /\
    level N (set_at s true f) bm' sb' (u32 (n + 1)).
Proof.
  intros [W SW Z1 Z2 Bi Ou Wo Cn] HN Hs Hf.
  destruct (set_bit_spec bm s W) as (bm' & E1 & B1); [rewrite Z1; div_lia|].
  destruct (set_bit_spec sb (s / 64) SW) as (sb' & E2 & B2); [rewrite Z2; div_lia|].
  exists bm', sb'. split; [done|]. split; [done|]. split.
  - apply B1.
  - apply B2.
  - by rewrite (becomes_size _ _ _ B1).
  - by rewrite (becomes_size _ _ _ B2).
  - intros x Hx. rewrite (proj2 (proj2 B1) x Hx), Bi by done. unfold set_at. by destruct (x =? s).
  - intros x Hx. unfold set_at. destruct (Z.eqb_spec x s); [lia|]. by apply Ou.
  - intros k Hk. rewrite (proj2 (proj2 B2) k Hk), orb_true_iff, Wo, Z.eqb_eq by done. unfold set_at. split.
    + intros [->|(x & X0 & X1 & X2)]; [exists s; rewrite Z.eqb_refl; split_and!; [lia|done..]|].
      exists x. split_and!; [done..|]. by destruct (x =? s).
    + intros (x & X0 & X1 & X2). destruct (Z.eqb_spec x s) as [->|]; [by left|]. right. by exists x.
  - rewrite (cnt_upd _ f _ s) by (try lia; intros; unfold set_at; by rewrite (proj2 (Z.eqb_neq _ _))).
    unfold set_at. rewrite Z.eqb_refl, Hf, <- Cn. simpl. pose proof (cnt_range (Z.to_nat N) f).
    rewrite u32_small; lia.
Qed.

(** [dr_buddy_update_upper_bitmap] on the bitmaps of an order: the summary bit of the word of
    [s] after bit [s] is cleared *)
Definition upper_of (bm sb : bitmap) (s : Z) : option bitmap :=
  let '(l, h) := dr_buddy_get_seg_borders s in
  m ← bitmap_ffs bm l h;
  if u32 m =? h then bitmap_clear_bit sb (s / BITS_PER_LONG) else Some sb.

Lemma level_clear N f bm sb n s :
  level N f bm sb n -> 1 <= N <= 2 ^ 30 -> 0 <= s < N -> f s = true ->
  exists bm' sb', bitmap_clear_bit bm s = Some bm' /\ upper_of bm' sb s = Some sb' /\
    level N (set_at s false f) bm' sb' (u32 (n + -1)).
Proof.
  intros [W SW Z1 Z2 Bi Ou Wo Cn] HN Hs Hf.
  destruct (clear_bit_spec bm s W) as (bm' & E1 & B1); [rewrite Z1; div_lia|].
  assert (Hbits : forall x, 0 <= x -> bit bm' x = set_at s false f x).
  { intros x Hx. rewrite (proj2 (proj2 B1) x Hx), Bi by done. unfold set_at. by destruct (x =? s). }
  assert (Hsz : bm_size bm' = bm_size bm) by (by apply (becomes_size _ _ _ B1)).
  assert (Hsb : exists sb', upper_of bm' sb s = Some sb' /\
    bm_wf sb' /\ bm_size sb' = bm_size sb /\
    forall k, 0 <= k -> bit sb' k = true <-> exists x, 0 <= x /\ x / 64 = k /\ set_at s false f x = true).
  { unfold upper_of, dr_buddy_get_seg_borders, BITS_PER_LONG. rewrite (u32_small (s / 64 * 64)), (u32_small ((s / 64 + 1) * 64)) by div_lia.
    destruct (ffs_is_first bm' (s / 64 * 64) ((s / 64 + 1) * 64)) as (r & Er & Hr);
    [apply B1|div_lia|rewrite Hsz, Z1; div_lia|rewrite Hsz, Z1; div_lia|]. rewrite Er. cbn [mbind option_bind].
    assert (Hrr : u32 r = r) by (apply u32_small; destruct Hr as [Hr _]; div_lia). rewrite Hrr.
    assert (Hother : forall k, 0 <= k -> k <> s / 64 ->
      bit sb k = true <-> exists x, 0 <= x /\ x / 64 = k /\ set_at s false f x = true).
    { intros k Hk Hne. rewrite Wo by done. unfold set_at. split; intros (x & X0 & X1 & X2); exists x; split_and!; try done;
        destruct (Z.eqb_spec x s); congruence. }
    destruct Hr as (Hr1 & Hr2 & Hr3). destruct (Z.eqb_spec r ((s / 64 + 1) * 64)) as [E|Ne].
    - destruct (clear_bit_spec sb (s / 64) SW) as (sb' & E2 & B2); [rewrite Z2; div_lia|].
      exists sb'. split; [done|]. split; [apply B2|]. split; [by apply (becomes_size _ _ _ B2)|].
      intros k Hk. rewrite (proj2 (proj2 B2) k Hk). destruct (Z.eqb_spec k (s / 64)) as [->|Hne]; simpl; [|by apply Hother].
      split; [done|]. intros (x & X0 & X1 & X2). rewrite <- Hbits, Hr2 in X2 by div_lia. done.
    - exists sb. split; [done|]. split; [done|]. split; [done|]. intros k Hk.
      destruct (Z.eq_dec k (s / 64)) as [->|Hne]; [|by apply Hother]. split.
      + intros _. exists r. split_and!; [div_lia|div_lia|]. rewrite <- Hbits by div_lia. apply Hr3. lia.
      + intros (x & X0 & X1 & X2). apply Wo; [done|]. exists x. split_and!; try done. unfold set_at in X2. by destruct (x =? s). }
  destruct Hsb as (sb' & E2 & W2 & S2 & Hw2). exists bm', sb'. split; [done|]. split; [done|]. split; try done.
  - apply B1.
  - by rewrite Hsz.
  - by rewrite S2.
  - intros x Hx. unfold set_at. destruct (x =? s); [done|]. by apply Ou.
  - rewrite (cnt_upd _ f _ s) by (try lia; intros; unfold set_at; by rewrite (proj2 (Z.eqb_neq _ _))).
    unfold set_at. rewrite Z.eqb_refl, Hf, <- Cn. simpl.
    pose proof (cnt_range (Z.to_nat N) f). assert (cnt (Z.to_nat N) f <> 0); [|rewrite u32_small; lia].
    intros E0. pose proof (proj1 (cnt_zero _ _) E0 s ltac:(lia)). congruence.
Qed.

Lemma level_ext N f g bm sb n : (forall s, f s = g s) -> level N f bm sb n -> level N g bm sb n.
Proof.
  intros E [W SW Z1 Z2 Bi Ou Wo Cn]. split; try done.
  - intros s Hs. by rewrite Bi, E.
  - intros s Hs. by rewrite <- E, Ou.
  - intros k Hk. rewrite Wo by done. by setoid_rewrite E.
  - rewrite Cn. clear - E. induction (Z.to_nat N) as [|k IH]; simpl; [done|]. by rewrite IH, E.
Qed.

(** * All orders *)

Record levels (M : Z) (b : buddy_mem) (f : Z -> Z -> bool) : Prop := {
  ls_M : 0 <= M <= 30;
  ls_max : max_order b = M;
  ls_bits : length (bits b) = Z.to_nat (M + 1);
  ls_set : length (set_bit b) = Z.to_nat (M + 1);
  ls_num : length (num_free b) = Z.to_nat (M + 1);
  ls_level : forall o, 0 <= o <= M -> exists bm sb n,
    bits b !! Z.to_nat o = Some bm /\ set_bit b !! Z.to_nat o = Some sb /\ num_free b !! Z.to_nat o = Some n /\
    level (2 ^ (M - o)) (f o) bm sb n
}.

Definition set_free (o s : Z) (v : bool) (f : Z -> Z -> bool) : Z -> Z -> bool :=
  fun o' => if o' =? o then set_at s v (f o) else f o'.

Lemma order_size M o : 0 <= o <= M -> M <= 30 -> 1 <= 2 ^ (M - o) <= 2 ^ 30.
Proof. intros H HM. split; [apply (Z.pow_le_mono_r 2 0)|apply Z.pow_le_mono_r]; lia. Qed.

(** One order replaced *)
Lemma levels_put M b f o bm sb n bs' ss' ns' g :
  levels M b f -> 0 <= o <= M -> level (2 ^ (M - o)) g bm sb n ->
  bs' = <[Z.to_nat o := bm]> (bits b) -> ss' = <[Z.to_nat o := sb]> (set_bit b) ->
  ns' = <[Z.to_nat o := n]> (num_free b) ->
  levels M (mk_buddy bs' ns' ss' (max_order b)) (fun o' => if o' =? o then g else f o').
Proof.
  intros [HM Hm L1 L2 L3 Lv] Ho Hl -> -> ->. split; simpl; try done; rewrite ?length_insert; try done.
  intros o' Ho'. destruct (Z.eqb_spec o' o) as [->|Hne].
  - exists bm, sb, n. rewrite !list_lookup_insert_eq by lia. done.
  - destruct (Lv o' Ho') as (bm' & sb' & n' & E1 & E2 & E3 & Hl'). exists bm', sb', n'.
    rewrite !list_lookup_insert_ne by lia. done.
Qed.

Lemma levels_set M b f o s :
  levels M b f -> 0 <= o <= M -> 0 <= s < 2 ^ (M - o) -> f o s = false ->
  exists b', (b ← on_bits o (fun m => bitmap_set_bit m s) b;
              b ← on_set_bit o (fun m => bitmap_set_bit m (s / BITS_PER_LONG)) b;
              on_num_free o 1 b) = Some b' /\ levels M b' (set_free o s true f).
Proof.
  intros L Ho Hs Hf. destruct (ls_level _ _ _ L o Ho) as (bm & sb & n & E1 & E2 & E3 & Hl).
  pose proof (order_size M o Ho ltac:(apply L)).
  destruct (level_set _ _ _ _ _ s Hl) as (bm' & sb' & F1 & F2 & Hl'); [done..|].
  unfold on_bits, on_set_bit, on_num_free, upd_at, BITS_PER_LONG.
  rewrite E1. cbn [mbind option_bind]. rewrite F1. cbn [mbind option_bind bits num_free set_bit max_order].
  rewrite E2. cbn [mbind option_bind]. rewrite F2. cbn [mbind option_bind bits num_free set_bit max_order].
  rewrite E3. cbn [mbind option_bind]. eexists. split; [reflexivity|].
  exact (levels_put M b f o bm' sb' _ _ _ _ _ L Ho Hl' eq_refl eq_refl eq_refl).
Qed.

Lemma levels_clear M b f o s :
  levels M b f -> 0 <= o <= M -> 0 <= s < 2 ^ (M - o) -> f o s = true ->
  exists b', (b ← on_bits o (fun m => bitmap_clear_bit m s) b;
              b ← dr_buddy_update_upper_bitmap s o b;
              on_num_free o (-1) b) = Some b' /\ levels M b' (set_free o s false f).
Proof.
  intros L Ho Hs Hf. destruct (ls_level _ _ _ L o Ho) as (bm & sb & n & E1 & E2 & E3 & Hl).
  pose proof (order_size M o Ho ltac:(apply L)).
  destruct (level_clear _ _ _ _ _ s Hl) as (bm' & sb' & F1 & F2 & Hl'); [done..|].
  unfold on_bits, upd_at. rewrite E1. cbn [mbind option_bind]. rewrite F1. cbn [mbind option_bind].
  unfold dr_buddy_update_upper_bitmap. unfold upper_of in F2.
  destruct (dr_buddy_get_seg_borders s) as [l h]. cbn [bits].
  rewrite list_lookup_insert_eq by (rewrite (ls_bits _ _ _ L); lia). cbn [mbind option_bind].
  destruct (bitmap_ffs bm' l h) as [m|]; [|done]. cbn [mbind option_bind] in F2 |- *.
  assert (Eup : (if u32 m =? h then on_set_bit o (fun x => bitmap_clear_bit x (s / BITS_PER_LONG))
      (mk_buddy (<[Z.to_nat o := bm']> (bits b)) (num_free b) (set_bit b) (max_order b))
    else Some (mk_buddy (<[Z.to_nat o := bm']> (bits b)) (num_free b) (set_bit b) (max_order b))) =
    Some (mk_buddy (<[Z.to_nat o := bm']> (bits b)) (num_free b) (<[Z.to_nat o := sb']> (set_bit b)) (max_order b))).
  { destruct (u32 m =? h).
    - unfold on_set_bit, upd_at. cbn [set_bit]. rewrite E2. cbn [mbind option_bind]. rewrite F2. done.
    - injection F2 as ->. by rewrite (list_insert_id (set_bit b)). }
  rewrite Eup. cbn [mbind option_bind]. unfold on_num_free, upd_at. cbn [num_free]. rewrite E3. cbn [mbind option_bind].
  eexists. split; [reflexivity|]. exact (levels_put M b f o bm' sb' _ _ _ _ _ L Ho Hl' eq_refl eq_refl eq_refl).
Qed.

Lemma levels_ext M b f g : (forall o s, f o s = g o s) -> levels M b f -> levels M b g.
Proof.
  intros E [HM Hm L1 L2 L3 Lv]. split; try done. intros o Ho.
  destruct (Lv o Ho) as (bm & sb & n & E1 & E2 & E3 & Hl). exists bm, sb, n. split_and!; try done.
  by apply (level_ext _ (f o)).
Qed.

(** * Searching *)

Lemma find_first N f bm sb n :
  level N f bm sb n -> 1 <= N <= 2 ^ 30 -> n <> 0 ->
  exists s, dr_find_first_bit sb bm N = Some s /\ 0 <= s < N /\ f s = true.
Proof.
  intros [W SW Z1 Z2 Bi Ou Wo Cn] HN Hn.
  assert (Hx : exists x, 0 <= x < N /\ f x = true).
  { destruct (first_bit_is_first (Z.to_nat N) f 0) as (R1 & R2 & R3). set (r := first_bit _ _ _) in *.
    destruct (Z.lt_ge_cases r N); [exists r; split; [lia|apply R3; lia]|].
    exfalso. apply Hn. rewrite Cn. apply cnt_zero. intros i Hi. apply R2. lia. }
  destruct Hx as (x & Hx & Hfx). unfold dr_find_first_bit, BITS_PER_LONG.
  rewrite (u32_small (N - 1)) by lia. rewrite (u32_small ((N - 1) / 64 + 1)) by div_lia.
  destruct (ffs_is_first sb 0 ((N - 1) / 64 + 1) SW) as (k & -> & K1 & K2 & K3);
    [div_lia|rewrite Z2; div_lia|rewrite Z2; div_lia|]. cbn [mbind option_bind].
  assert (Hxw : bit sb (x / 64) = true) by (apply Wo; [div_lia|]; exists x; auto with lia).
  assert (Hk : k <= x / 64). { destruct (Z.le_gt_cases k (x / 64)); [done|]. rewrite K2 in Hxw by div_lia. done. }
  assert (Hkb : bit sb k = true) by (apply K3; div_lia). apply Wo in Hkb as (y & Y0 & Y1 & Y2); [|lia].
  assert (Hy : y < N). { destruct (Z.lt_ge_cases y N); [done|]. rewrite Ou in Y2 by done. done. }
  rewrite u64_small by div_lia.
  destruct (ffs_is_first bm (k * 64) N W) as (r & -> & R1 & R2 & R3); [div_lia|rewrite Z1; div_lia|rewrite Z1; div_lia|].
  cbn [mbind option_bind]. assert (Hr : r <= y).
  { destruct (Z.le_gt_cases r y); [done|]. rewrite <- Bi, R2 in Y2 by div_lia. done. }
  exists r. rewrite s32_small by lia. split; [done|]. split; [lia|]. rewrite <- Bi by lia. apply R3. lia.
Qed.

Lemma find_order_spec M b f k o :
  levels M b f -> 0 <= o -> o + Z.of_nat k = M + 1 ->
  exists r, find_order k b o = Some r /\
    match r with
    | None => forall o' s, o <= o' <= M -> f o' s = false \/ s < 0
    | Some (o', s) => o <= o' <= M /\ 0 <= s < 2 ^ (M - o') /\ f o' s = true
    end.
Proof.
  intros L. revert o. induction k as [|k IH]; intros o Ho Hk.
  - exists None. split; [done|]. intros o' s Ho'. lia.
  - destruct (ls_level _ _ _ L o ltac:(lia)) as (bm & sb & n & E1 & E2 & E3 & Hl).
    pose proof (order_size M o ltac:(lia) ltac:(apply L)) as HN.
    simpl find_order. rewrite E3. cbn [mbind option_bind]. destruct (Z.eqb_spec n 0) as [E0|Hn]; cbn [negb].
    + destruct (IH (o + 1)) as (r & Er & Hr); [lia..|]. exists r. split; [done|].
      destruct r as [[o' s]|]; [destruct Hr; split; [lia|done]|]. intros o' s Ho'.
      destruct (Z.eq_dec o' o) as [->|]; [|apply Hr; lia].
      destruct (Z.lt_ge_cases s 0); [by right|left]. destruct (Z.lt_ge_cases s (2 ^ (M - o))); [|by apply (lv_out _ _ _ _ _ Hl)].
      apply (proj1 (cnt_zero (Z.to_nat (2 ^ (M - o))) (f o))); [|lia]. by rewrite <- (lv_cnt _ _ _ _ _ Hl).
    + rewrite E2, E1. cbn [mbind option_bind].
      rewrite (ls_max _ _ _ L), Z.shiftl_1_l, s32_small by lia.
      destruct (find_first _ _ _ _ _ Hl HN Hn) as (s & -> & Hs & Hf). cbn [mbind option_bind].
      rewrite (proj2 (Z.leb_gt _ _)) by lia. eexists. split; [done|]. split; [lia|]. done.
Qed.

(** * The allocator and its tiling *)

Definition is_free (B : blocks) : Z -> Z -> bool := fun o s => bool_decide (B o s = Some Free).

Record buddy_ok (M : Z) (b : buddy_mem) (B : blocks) : Prop := {
  bo_levels : levels M b (is_free B);
  bo_tiling : tiling M B
}.

(** [U] are the used blocks of [B] *)
Definition used_is (B : blocks) (U : Z -> Z -> Prop) : Prop := forall o s, B o s = Some Used <-> U o s.

Lemma is_free_put o s v B o' s' :
  is_free (put o s v B) o' s' = set_free o s (bool_decide (v = Some Free)) (is_free B) o' s'.
Proof.
  unfold is_free, put, set_free, set_at. destruct (Z.eqb_spec o' o) as [->|]; simpl; [|done].
  by destruct (s' =? s).
Qed.

(** Blocks that are not free appear in no bitmap. *)
Lemma levels_put_other M b o s v B :
  levels M b (is_free B) -> v <> Some Free -> B o s <> Some Free -> levels M b (is_free (put o s v B)).
Proof.
  intros L Hv HB. eapply levels_ext; [|exact L]. intros o' s'. rewrite is_free_put. unfold set_free, set_at, is_free.
  destruct (Z.eqb_spec o' o) as [->|]; [|done]. destruct (Z.eqb_spec s' s) as [->|]; [|done].
  by rewrite !bool_decide_eq_false_2.
Qed.

(** ** Splitting down *)

Lemma split_step M b B o s :
  buddy_ok M b B -> B o s = Some Used -> 0 < o ->
  exists b', (b ← on_bits (o - 1) (fun m => bitmap_set_bit m (Z.lxor (2 * s) 1)) b;
              b ← on_set_bit (o - 1) (fun m => bitmap_set_bit m (Z.lxor (2 * s) 1 / BITS_PER_LONG)) b;
              on_num_free (o - 1) 1 b) = Some b' /\ buddy_ok M b' (split_block o s B).
Proof.
  intros [L T] Hb Ho. destruct (tl_range _ _ T o s) as [Ro Rs]; [congruence|].
  rewrite (proj1 (lxor_double s ltac:(lia))).
  pose proof (split_tiling M B o s T Hb Ho) as T'. unfold split_block in *.
  set (B1 := put (o - 1) (2 * s) (Some Used) (put o s None B)) in *.
  assert (Hnone : forall j, j = 2 * s \/ j = 2 * s + 1 -> B (o - 1) j = None).
  { intros j Hj. destruct (B (o - 1) j) eqn:E; [|done]. exfalso. pose proof (pow_pos (o - 1) ltac:(lia)).
    destruct (free_blocks_apart M B (o - 1) j o s (j * 2 ^ (o - 1)) T); try congruence; [by apply Z.div_mul; lia| |lia].
    replace o with (o - 1 + 1) at 2 by lia. apply half_cases; [lia|]. rewrite Z.div_mul by lia. done. }
  assert (L1 : levels M b (is_free B1)).
  { apply levels_put_other; [apply levels_put_other; [done|done|congruence]|done|].
    rewrite put_ne by (left; lia). by rewrite Hnone by auto. }
  destruct (levels_set M b (is_free B1) (o - 1) (2 * s + 1) L1) as (b' & -> & L'); [lia| | |].
  - destruct (tl_range _ _ T' (o - 1) (2 * s + 1)) as [_ R]; [by rewrite put_eq|]. lia.
  - unfold is_free, B1. rewrite !put_ne by (try (left; lia); right; lia). rewrite Hnone by auto. by apply bool_decide_eq_false_2.
  - exists b'. split; [done|]. split; [|done]. eapply levels_ext; [|exact L']. intros o' s'. by rewrite is_free_put.
Qed.

Lemma split_used o s B x y :
  B o s = Some Used -> 0 < o ->
  split_block o s B x y = Some Used <->
  (B x y = Some Used /\ ~ (x = o /\ y = s) /\ ~ (x = o - 1 /\ y = 2 * s + 1)) \/ (x = o - 1 /\ y = 2 * s).
Proof.
  intros Hb Ho. unfold split_block, put.
  destruct (Z.eqb_spec x (o - 1)), (Z.eqb_spec y (2 * s + 1)), (Z.eqb_spec y (2 * s)), (Z.eqb_spec x o), (Z.eqb_spec y s);
    simpl; try lia; intuition (try congruence; try lia).
Qed.

(** A used block that is split leaves its children unclaimed before. *)
Lemma child_unused M B o s j :
  tiling M B -> B o s <> None -> 0 < o -> j = 2 * s \/ j = 2 * s + 1 -> B (o - 1) j = None.
Proof.
  intros T Hb Ho Hj. destruct (B (o - 1) j) eqn:E; [|done]. exfalso. pose proof (pow_pos (o - 1) ltac:(lia)).
  destruct (free_blocks_apart M B (o - 1) j o s (j * 2 ^ (o - 1)) T); try congruence; [by apply Z.div_mul; lia| |lia].
  replace o with (o - 1 + 1) at 2 by lia. apply half_cases; [lia|]. rewrite Z.div_mul by lia. done.
Qed.

Lemma split_down_spec M k b B o s (U : Z -> Z -> Prop) :
  buddy_ok M b B -> B o s = Some Used -> Z.of_nat k <= o ->
  (forall x y, B x y = Some Used <-> U x y \/ (x = o /\ y = s)) -> ~ U o s ->
  exists b' B', split_down k o s b = Some (s * 2 ^ Z.of_nat k, b') /\ buddy_ok M b' B' /\
    B' (o - Z.of_nat k) (s * 2 ^ Z.of_nat k) = Some Used /\
    (forall x y, B' x y = Some Used <-> U x y \/ (x = o - Z.of_nat k /\ y = s * 2 ^ Z.of_nat k)) /\
    ~ U (o - Z.of_nat k) (s * 2 ^ Z.of_nat k).
Proof.
  revert b B o s. induction k as [|k IH]; intros b B o s Hok Hb Hk HU Hn.
  - exists b, B. change (Z.of_nat 0) with 0. rewrite Z.mul_1_r, Z.sub_0_r. done.
  - destruct (tl_range _ _ (bo_tiling _ _ _ Hok) o s) as [Ro Rs]; [congruence|].
    pose proof (order_size M o Ro ltac:(apply (bo_levels _ _ _ Hok))) as HN.
    assert (Hp : 2 ^ (M - o) <= 2 ^ 29).
    { apply Z.pow_le_mono_r; [lia|]. pose proof (ls_M _ _ _ (bo_levels _ _ _ Hok)). lia. }
    simpl split_down. rewrite Z.shiftl_mul_pow2 by lia. rewrite s32_small by lia.
    replace (s * 2 ^ 1) with (2 * s) by lia.
    destruct (split_step M b B o s Hok Hb ltac:(lia)) as (b1 & E1 & Hok1).
    assert (Hc : forall j, j = 2 * s \/ j = 2 * s + 1 -> ~ U (o - 1) j).
    { intros j Hj Hu. pose proof (proj2 (HU (o - 1) j) (or_introl Hu)) as HB.
      rewrite (child_unused M B o s j (bo_tiling _ _ _ Hok)) in HB; [done|congruence|lia|done]. }
    destruct (IH b1 (split_block o s B) (o - 1) (2 * s)) as (b' & B' & E' & Hok' & HB' & HU' & Hn'); [done| |lia| |by apply Hc; left|].
    + apply split_used; [done|lia|by right].
    + intros x y. rewrite split_used, HU by (try done; lia). split.
      * intros [([Hu|He] & He1 & _)|He]; [by left|tauto|by right].
      * intros [Hu|He]; [|by right]. left. split; [by left|]. split; [intros [-> ->]; tauto|].
        intros [-> ->]. apply (Hc (2 * s + 1)); auto.
    + exists b', B'. replace (s * 2 ^ Z.of_nat (S k)) with (2 * s * 2 ^ Z.of_nat k)
        by (rewrite Nat2Z.inj_succ, Z.pow_succ_r by lia; ring).
      replace (o - Z.of_nat (S k)) with (o - 1 - Z.of_nat k) by lia. split; [|done].
      revert E1 E'. clear. intros E1 E'.
      destruct (on_bits (o - 1) _ b) as [x1|]; [|done]. cbn [mbind option_bind] in *.
      destruct (on_set_bit (o - 1) _ x1) as [x2|]; [|done]. cbn [mbind option_bind] in *. rewrite E1. exact E'.
Qed.

Lemma alloc_spec M b B order :
  buddy_ok M b B -> 0 <= order <= M ->
  (dr_buddy_alloc_mem order b = Some (-1, b) /\ forall o s, order <= o -> B o s <> Some Free) \/
  (exists s b' B', dr_buddy_alloc_mem order b = Some (s * 2 ^ order, b') /\ buddy_ok M b' B' /\
     B' order s = Some Used /\ B order s <> Some Used /\
     forall x y, B' x y = Some Used <-> B x y = Some Used \/ (x = order /\ y = s)).
Proof.
  intros Hok Ho. pose proof (bo_levels _ _ _ Hok) as L. pose proof (bo_tiling _ _ _ Hok) as T.
  destruct (find_order_spec M b (is_free B) (Z.to_nat (max_order b + 1 - order)) order L) as (r & Er & Hr);
    [lia|rewrite (ls_max _ _ _ L); lia|]. unfold dr_buddy_alloc_mem. rewrite Er. cbn [mbind option_bind].
  destruct r as [[o s]|].
  - right. destruct Hr as (Ho' & Hs & Hf). assert (HB : B o s = Some Free) by (by apply bool_decide_eq_true_1 in Hf).
    destruct (levels_clear M b (is_free B) o s L ltac:(lia) Hs Hf) as (b1 & E1 & L1).
    assert (Hok1 : buddy_ok M b1 (put o s (Some Used) B)).
    { split; [|by apply take_tiling]. eapply levels_ext; [|exact L1]. intros x y. by rewrite is_free_put. }
    destruct (split_down_spec M (Z.to_nat (o - order)) b1 (put o s (Some Used) B) o s (fun x y => B x y = Some Used))
      as (b2 & B2 & E2 & Hok2 & HB2 & HU2 & Hn2); [done|apply put_eq|lia| |congruence|].
    { intros x y. unfold put. destruct (Z.eqb_spec x o) as [->|], (Z.eqb_spec y s) as [->|]; simpl; intuition lia. }
    set (k := Z.of_nat (Z.to_nat (o - order))) in *. replace (o - k) with order in * by (unfold k; lia).
    exists (s * 2 ^ k), b2, B2. split; [|done].
    revert E1 E2. destruct (on_bits o _ b) as [x1|]; [|done]. cbn [mbind option_bind].
    destruct (dr_buddy_update_upper_bitmap s o x1) as [x2|]; [|done]. cbn [mbind option_bind].
    intros -> E2. cbn [mbind option_bind]. rewrite E2. cbn [mbind option_bind]. do 2 f_equal.
    destruct (tl_range _ _ (bo_tiling _ _ _ Hok2) order (s * 2 ^ k)) as [_ R]; [congruence|].
    rewrite Z.shiftl_mul_pow2 by lia. apply s32_small. pose proof (pow_pos order ltac:(lia)).
    pose proof (pow_split M order Ho). assert (2 ^ M <= 2 ^ 30) by (apply Z.pow_le_mono_r; [lia|apply L]). nia.
  - left. split; [done|]. intros o s Hge HB. destruct (tl_range _ _ T o s) as [R1 R2]; [congruence|].
    destruct (Hr o s ltac:(lia)) as [Hf|]; [|lia]. unfold is_free in Hf. by rewrite bool_decide_eq_true_2 in Hf.
Qed.

(** ** Merging up *)

Lemma merge_used o s B x y :
  0 <= s -> B o s = Some Used -> B o (Z.lxor s 1) = Some Free -> B (o + 1) (s / 2) = None ->
  merge_block o s B x y = Some Used <-> (B x y = Some Used /\ ~ (x = o /\ y = s)) \/ (x = o + 1 /\ y = s / 2).
Proof.
  intros Hs Hb Hf Hp. unfold merge_block, put.
  destruct (Z.eqb_spec x (o + 1)), (Z.eqb_spec y (s / 2)), (Z.eqb_spec x o), (Z.eqb_spec y (Z.lxor s 1)), (Z.eqb_spec y s);
    simpl; subst; try lia; intuition (try congruence; try lia).
Qed.

Lemma parent_unused M B o s :
  tiling M B -> B o s <> None -> B (o + 1) (s / 2) = None.
Proof.
  intros T Hb. destruct (B (o + 1) (s / 2)) eqn:E; [|done]. exfalso.
  destruct (tl_range _ _ T o s Hb) as [Ro Rs]. pose proof (pow_pos o ltac:(lia)).
  destruct (free_blocks_apart M B o s (o + 1) (s / 2) (s * 2 ^ o) T); try congruence; [by apply Z.div_mul; lia| |lia].
  rewrite div_up by lia. by rewrite Z.div_mul by lia.
Qed.

Lemma buddy_in_bitmap M o s bm :
  0 <= o <= M -> 0 <= s < 2 ^ (M - o) -> bm_size bm = 64 * ((2 ^ (M - o) + 63) / 64) ->
  0 <= Z.lxor s 1 < bm_size bm.
Proof.
  intros Ho Hs ->. rewrite lxor_1 by lia. destruct (Z.eq_dec o M) as [->|].
  - rewrite Z.sub_diag in *. change (2 ^ 0) with 1 in *. div_lia.
  - assert (E : 2 ^ (M - o) = 2 * 2 ^ (M - o - 1)).
    { replace (M - o) with (1 + (M - o - 1)) at 1 by lia. by rewrite Z.pow_add_r by lia. }
    rewrite E in *. set (h := 2 ^ (M - o - 1)) in *. div_lia.
Qed.

Lemma merge_step M b B o s :
  buddy_ok M b B -> B o s = Some Used -> B o (Z.lxor s 1) = Some Free ->
  exists b', (b ← on_bits o (fun m => bitmap_clear_bit m (Z.lxor s 1)) b;
              b ← dr_buddy_update_upper_bitmap (Z.lxor s 1) o b;
              on_num_free o (-1) b) = Some b' /\ buddy_ok M b' (merge_block o s B).
Proof.
  intros [L T] Hb Hf. destruct (merge_range M o s B T Hb Hf) as [Ho Hs].
  destruct (lxor_cases s Hs) as (_ & Hx0 & Hne & _).
  destruct (tl_range _ _ T o (Z.lxor s 1)) as [_ Rx]; [congruence|].
  assert (L0 : levels M b (is_free (put o s None B))) by (apply levels_put_other; [done|done|congruence]).
  destruct (levels_clear M b _ o (Z.lxor s 1) L0 ltac:(lia) Rx) as (b' & -> & L1).
  { unfold is_free. rewrite put_ne by (by right). by apply bool_decide_eq_true_2. }
  exists b'. split; [done|]. split; [|by apply merge_tiling]. unfold merge_block. apply levels_put_other; [|done|].
  - eapply levels_ext; [|exact L1]. intros x y. by rewrite is_free_put.
  - rewrite !put_ne by (left; lia). by rewrite (parent_unused M B o s T) by congruence.
Qed.

Lemma merge_up_spec M k b B o s (U : Z -> Z -> Prop) :
  buddy_ok M b B -> B o s = Some Used -> M < o + Z.of_nat k ->
  (forall x y, B x y = Some Used <-> U x y \/ (x = o /\ y = s)) -> ~ U o s ->
  exists b' B', merge_up k s o b = Some b' /\ buddy_ok M b' B' /\ forall x y, B' x y = Some Used <-> U x y.
Proof.
  revert b B o s. induction k as [|k IH]; intros b B o s Hok Hb Hk HU Hn.
  - destruct (tl_range _ _ (bo_tiling _ _ _ Hok) o s); [congruence|lia].
  - pose proof (bo_levels _ _ _ Hok) as L. pose proof (bo_tiling _ _ _ Hok) as T.
    destruct (tl_range _ _ T o s) as [Ro Rs]; [congruence|].
    destruct (ls_level _ _ _ L o Ro) as (bm & sb & n & E1 & _ & _ & Hl). simpl merge_up. rewrite E1. cbn [mbind option_bind].
    pose proof (buddy_in_bitmap M o s bm Ro Rs (lv_size _ _ _ _ _ Hl)) as Hin.
    rewrite (test_bit_spec bm _ (lv_wf _ _ _ _ _ Hl) Hin), (lv_bits _ _ _ _ _ Hl) by lia. cbn [mbind option_bind].
    unfold is_free at 1. case_bool_decide as Hf.
    + destruct (merge_step M b B o s Hok Hb Hf) as (b1 & E2 & Hok1).
      destruct (merge_range M o s B T Hb Hf) as [Ho Hs].
      pose proof (parent_unused M B o s T ltac:(congruence)) as Hp.
      destruct (IH b1 (merge_block o s B) (o + 1) (s / 2)) as (b' & B' & E' & Hok' & HU'); [done| |lia| | |].
      * unfold merge_block. apply put_eq.
      * intros x y. rewrite merge_used, HU by done. split; [|intuition congruence].
        intros [[[Hu|He] He']|He]; [by left|tauto|by right].
      * intros Hu. pose proof (proj2 (HU _ _) (or_introl Hu)). congruence.
      * exists b', B'. split; [|done]. revert E2. destruct (on_bits o _ b) as [x1|]; [|done]. cbn [mbind option_bind].
        destruct (dr_buddy_update_upper_bitmap _ o x1) as [x2|]; [|done]. cbn [mbind option_bind].
        intros ->. cbn [mbind option_bind]. by rewrite Z.shiftr_div_pow2 by lia.
    + destruct (levels_set M b (is_free B) o s L Ro Rs) as (b' & E' & L').
      { unfold is_free. rewrite Hb. by apply bool_decide_eq_false_2. }
      exists b', (put o s (Some Free) B). split; [exact E'|]. split.
      * split; [|by apply give_tiling]. eapply levels_ext; [|exact L']. intros x y. by rewrite is_free_put.
      * intros x y. destruct (decide (x = o /\ y = s)) as [[-> ->]|Hne].
        -- rewrite put_eq. split; [done|]. by intros ?.
        -- rewrite put_ne, HU by (destruct (Z.eq_dec x o), (Z.eq_dec y s); tauto). tauto.
Qed.

Lemma free_spec M b B order s :
  buddy_ok M b B -> B order s = Some Used ->
  exists b' B', dr_buddy_free_mem (s * 2 ^ order) order b = Some b' /\ buddy_ok M b' B' /\
    forall x y, B' x y = Some Used <-> B x y = Some Used /\ ~ (x = order /\ y = s).
Proof.
  intros Hok Hb. destruct (tl_range _ _ (bo_tiling _ _ _ Hok) order s) as [Ro Rs]; [congruence|].
  pose proof (ls_max _ _ _ (bo_levels _ _ _ Hok)) as Em. pose proof (pow_pos order ltac:(lia)).
  unfold dr_buddy_free_mem. rewrite Z.shiftr_div_pow2, Z.div_mul by lia.
  apply (merge_up_spec M _ b B order s (fun x y => B x y = Some Used /\ ~ (x = order /\ y = s))); [done|done|lia| |tauto].
  intros x y. destruct (decide (x = order /\ y = s)) as [[-> ->]|]; tauto.
Qed.

(** * The state follows from the free blocks *)

Lemma level_determined N f bm1 sb1 n1 bm2 sb2 n2 :
  level N f bm1 sb1 n1 -> level N f bm2 sb2 n2 -> bm1 = bm2 /\ sb1 = sb2 /\ n1 = n2.
Proof.
  intros [W1 S1 Z1 Y1 B1 O1 K1 C1] [W2 S2 Z2 Y2 B2 O2 K2 C2]. split_and!; [| |congruence].
  - apply bitmap_ext; [done..|congruence|]. intros i Hi. by rewrite B1, B2.
  - apply bitmap_ext; [done..|congruence|]. intros i Hi. apply eq_true_iff_eq. by rewrite K1, K2.
Qed.

Lemma levels_determined M b1 b2 f : levels M b1 f -> levels M b2 f -> b1 = b2.
Proof.
  intros [HM M1 A1 B1 C1 L1] [_ M2 A2 B2 C2 L2]. destruct b1 as [bs1 ns1 ss1 m1], b2 as [bs2 ns2 ss2 m2]. simpl in *.
  assert (H : forall i, bs1 !! i = bs2 !! i /\ ss1 !! i = ss2 !! i /\ ns1 !! i = ns2 !! i).
  { intros i. destruct (decide (Z.of_nat i <= M)) as [Hi|Hi].
    - destruct (L1 (Z.of_nat i) ltac:(lia)) as (? & ? & ? & E1 & E2 & E3 & Hl1).
      destruct (L2 (Z.of_nat i) ltac:(lia)) as (? & ? & ? & F1 & F2 & F3 & Hl2).
      rewrite Nat2Z.id in *. destruct (level_determined _ _ _ _ _ _ _ _ Hl1 Hl2) as (-> & -> & ->).
      split_and!; congruence.
    - rewrite !(lookup_ge_None_2 _ i) by lia. done. }
  f_equal; [apply list_eq; intros i; apply H..|congruence].
Qed.
