(* ===== verification/BuddySpec.v ===== *)
(** The contract of the buddy allocator: the blocks handed out and not yet returned are
    aligned, lie in the memory and apart; allocation fails only when every aligned run meets one
    of them; when all are back the allocator is as it was created.  Creation that fails gives
    back everything it took. *)

From stdpp Require Import base numbers list sets.
From S2P Require Import Prelude Types Bitmap BitmapProps Buddy BuddyTree BuddyProps.

(** * Creation *)

(** The blocks creation asks for, in order, and the ones it got before the first refusal *)
Definition attempts (M : Z) : list buddy_block :=
  [BlkBits; BlkNumFree; BlkSetBit] ++ (BlkBitsOf <$> seq 0 (Z.to_nat (M + 1))) ++ (BlkSetOf <$> seq 0 (Z.to_nat (M + 1))).

Definition got_block (got : buddy_mallocs) (x : buddy_block) : bool :=
  match x with
  | BlkBits => got_bits got | BlkNumFree => got_num_free got | BlkSetBit => got_set_bit got
  | BlkBitsOf o => got_bits_of got o | BlkSetOf o => got_set_of got o
  end.

Fixpoint until_refused (got : buddy_block -> bool) (l : list buddy_block) : list buddy_block :=
  match l with [] => [] | x :: l => if got x then x :: until_refused got l else [] end.

Lemma until_refused_app got l1 l2 :
  until_refused got (l1 ++ l2) = if forallb got l1 then l1 ++ until_refused got l2 else until_refused got l1.
Proof.
  induction l1 as [|x l1 IH]; simpl; [done|]. destruct (got x); simpl; [|done]. rewrite IH. by destruct (forallb got l1).
Qed.

Lemma until_refused_all got l : forallb got l = true -> until_refused got l = l.
Proof. induction l as [|x l IH]; simpl; [done|]. destruct (got x); simpl; [|done]. intros H. by rewrite IH. Qed.

Lemma alloc_each_spec k size got i (blk : nat -> buddy_block) gb :
  (forall j, gb (blk j) = got j) ->
  blk <$> seq i (length (alloc_each k size got i).1) = until_refused gb (blk <$> seq i k) /\
  (alloc_each k size got i).2 = forallb gb (blk <$> seq i k) /\
  forall j bm, (alloc_each k size got i).1 !! j = Some bm ->
    bm = replicate (Z.to_nat (BITMAP_NWORDS (size (i + j)%nat))) 0.
Proof.
  intros Hg. revert i. induction k as [|k IH]; intros i; simpl; [done|].
  rewrite Hg. destruct (got i); simpl; [|done].
  destruct (IH (S i)) as (H1 & H2 & H3). destruct (alloc_each k size got (S i)) as [l ok]. simpl in *.
  split; [f_equal; exact H1|]. split; [done|]. intros [|j] bm Hj; simpl in Hj.
  - injection Hj as <-. by rewrite Nat.add_0_r.
  - rewrite Nat.add_succ_r. by apply H3.
Qed.

(** The tiling of a new allocator: the whole memory is one free block *)
Definition one_block (M : Z) : blocks := fun o s => if (o =? M) && (s =? 0) then Some Free else None.

Lemma one_block_tiling M : 0 <= M -> tiling M (one_block M).
Proof.
  intros HM. unfold one_block. split.
  - intros o s H. destruct (Z.eqb_spec o M) as [Eo|], (Z.eqb_spec s 0) as [Es|]; simpl in H; try done.
    subst. rewrite Z.sub_diag. lia.
  - intros c Hc. exists M. split; [done|]. rewrite Z.eqb_refl, Z.div_small by done. done.
  - intros c o1 o2 Hc [_ H1] [_ H2]. destruct (Z.eqb_spec o1 M), (Z.eqb_spec o2 M); try done. congruence.
  - intros o s Ho H. destruct (Z.eqb_spec o M); [lia|done].
Qed.

Lemma nwords n : 0 <= n < 2 ^ 62 -> BITMAP_NWORDS n = (n + 63) / 64.
Proof. intros H. unfold BITMAP_NWORDS, BITMAP_WORD_BITS. rewrite u64_small by lia. f_equal. lia. Qed.

(** An order of a new allocator, before the last one gets its block *)
Lemma empty_level N :
  1 <= N <= 2 ^ 30 ->
  level N (fun _ => false) (replicate (Z.to_nat (BITMAP_NWORDS (s32 N))) 0)
    (replicate (Z.to_nat (BITMAP_NWORDS (s32 (BITS_TO_LONGS (s32 N))))) 0) 0.
Proof.
  intros HN. unfold BITS_TO_LONGS. rewrite (s32_small N) by lia. rewrite DIV_ROUND_UP_64 by lia.
  rewrite s32_small by div_lia. rewrite !nwords by div_lia.
  assert (Hb : forall k i, bit (replicate k 0) i = false).
  { intros k i. unfold bit. destruct (BITMAP_WORD _ i) as [w|] eqn:E; [|done].
    apply lookup_replicate_1 in E as [-> _]. apply Z.bits_0. }
  assert (Hw : forall k, bm_wf (replicate k 0)) by (intros; apply Forall_replicate; unfold word; lia).
  split; try done; try (unfold bm_size; rewrite length_replicate; div_lia).
  - intros k Hk. rewrite Hb. split; [done|]. naive_solver.
  - symmetry. by apply cnt_zero.
Qed.

(** Creation succeeds when every allocation does. *)
Lemma buddy_init_ok M got :
  0 <= M <= 30 -> forallb (got_block got) (attempts M) = true ->
  exists b, dr_buddy_init M got = InitOk b /\ buddy_ok M b (one_block M).
Proof.
  intros HM Hall. unfold attempts in Hall. rewrite !forallb_app, !andb_true_iff in Hall.
  destruct Hall as (H3 & Hb & Hs). simpl in H3. rewrite !andb_true_iff in H3. destruct H3 as (G1 & G2 & G3 & _).
  unfold dr_buddy_init. rewrite G1, G2, G3. cbn [negb].
  set (n := Z.to_nat (M + 1)) in *.
  set (size := fun i => s32 (Z.shiftl 1 (M - Z.of_nat i))).
  set (ssize := fun i => s32 (BITS_TO_LONGS (s32 (Z.shiftl 1 (M - Z.of_nat i))))).
  destruct (alloc_each_spec n size (got_bits_of got) 0 BlkBitsOf (got_block got)) as (B1 & B2 & B3); [done|].
  destruct (alloc_each_spec n ssize (got_set_of got) 0 BlkSetOf (got_block got)) as (S1 & S2 & S3); [done|].
  rewrite Hb in B2. rewrite Hs in S2. rewrite until_refused_all in B1, S1 by done.
  apply (f_equal length) in B1, S1. rewrite !length_fmap, !length_seq in B1, S1.
  destruct (alloc_each n size _ 0) as [bs ok1]. destruct (alloc_each n ssize _ 0) as [ss ok2]. simpl in *. subst ok1 ok2.
  cbn [negb]. set (b0 := mk_buddy bs (replicate n 0) ss M).
  assert (L0 : levels M b0 (fun _ _ => false)).
  { split; simpl; try done; [by rewrite length_replicate|]. intros o Ho.
    destruct (lookup_lt_is_Some_2 bs (Z.to_nat o)) as [bm Ebm]; [lia|].
    destruct (lookup_lt_is_Some_2 ss (Z.to_nat o)) as [sb Esb]; [lia|].
    exists bm, sb, 0. split_and!; try done; [apply lookup_replicate_2; lia|].
    rewrite (B3 _ _ Ebm), (S3 _ _ Esb). unfold size, ssize. rewrite Z2Nat.id, Z.shiftl_1_l by lia.
    apply empty_level, order_size; lia. }
  destruct (levels_set M b0 _ M 0 L0) as (b & E & L); [lia|rewrite Z.sub_diag; lia|done|].
  assert (Hok : buddy_ok M b (one_block M)).
  { split; [|by apply one_block_tiling; lia]. eapply levels_ext; [|exact L]. intros o s.
    unfold set_free, set_at, is_free, one_block. destruct (Z.eqb_spec o M), (Z.eqb_spec s 0); simpl; done. }
  exists b. split; [|done]. revert E. change (0 / BITS_PER_LONG) with 0.
  destruct (on_bits M _ b0) as [x1|] eqn:Ex1; [|done]. cbn [mbind option_bind].
  destruct (on_set_bit M _ x1) as [x2|] eqn:Ex2; [|done]. cbn [mbind option_bind].
  assert (En : num_free x2 = replicate n 0 /\ max_order x2 = M).
  { revert Ex1 Ex2. unfold on_bits, on_set_bit. destruct (upd_at (bits b0) M _) as [y1|]; [|done]. cbn [mbind option_bind].
    intros [= <-]. cbn [set_bit bits num_free max_order]. destruct (upd_at _ M _) as [y2|]; [|done]. cbn [mbind option_bind].
    by intros [= <-]. }
  destruct En as [En Em]. unfold on_num_free, upd_at. rewrite En, Em.
  rewrite lookup_replicate_2 by lia. cbn [mbind option_bind]. by intros [= <-].
Qed.

Lemma perm3 {A} (a b c : A) X : a :: X ++ [b; c] ≡ₚ c :: b :: a :: X.
Proof.
  rewrite (Permutation_app_comm X). simpl. rewrite (Permutation_swap a b). 
  rewrite (Permutation_swap a c). by rewrite (Permutation_swap b c).
Qed.

Lemma concat_pairs {A B} (f g : A -> B) l : concat ((fun i => [f i; g i]) <$> l) ≡ₚ (f <$> l) ++ (g <$> l).
Proof.
  induction l as [|x l IH]; [done|]. rewrite !fmap_cons. simpl. rewrite IH. constructor.
  by rewrite (Permutation_middle _ _ (g x)).
Qed.

#[local] Instance BlkBitsOf_inj : Inj eq eq BlkBitsOf.
Proof. by intros ?? [= ?]. Qed.
#[local] Instance BlkSetOf_inj : Inj eq eq BlkSetOf.
Proof. by intros ?? [= ?]. Qed.

Lemma attempts_NoDup M : NoDup (attempts M).
Proof.
  unfold attempts. repeat (constructor; [set_solver|]).
  apply NoDup_app. split_and!; [apply (NoDup_fmap_2 _), NoDup_seq| |apply (NoDup_fmap_2 _), NoDup_seq].
  intros x H1 H2. apply list_elem_of_fmap in H1 as (? & -> & _). by apply list_elem_of_fmap in H2 as (? & ? & _).
Qed.

Lemma until_refused_prefix got l : until_refused got l `prefix_of` l.
Proof.
  induction l as [|x l IH]; simpl; [done|]. destruct (got x); [by apply prefix_cons|apply prefix_nil].
Qed.

(** A refused allocation *)
Lemma init_refused M got :
  forallb (got_block got) (attempts M) = false ->
  exists freed, dr_buddy_init M got = InitErr ENOMEM freed /\
    freed ≡ₚ until_refused (got_block got) (attempts M).
Proof.
  intros Hall. unfold dr_buddy_init, attempts in *. rewrite until_refused_app. rewrite forallb_app in Hall. simpl in Hall |- *.
  destruct (got_bits got); simpl in *; [|by eexists]. destruct (got_num_free got); simpl in *; [|by eexists].
  destruct (got_set_bit got); simpl in *; [|by eexists; split; [done|constructor]].
  set (n := Z.to_nat (M + 1)) in *. set (size := fun i => s32 (Z.shiftl 1 (M - Z.of_nat i))).
  destruct (alloc_each_spec n size (got_bits_of got) 0 BlkBitsOf (got_block got)) as (B1 & B2 & _); [done|].
  destruct (alloc_each n size _ 0) as [bs ok1]. simpl in B1, B2. subst ok1.
  rewrite until_refused_app, forallb_app in *. unfold free_each at 1. rewrite B1.
  destruct (forallb (got_block got) (BlkBitsOf <$> seq 0 n)) eqn:Eb; simpl in *; [|eexists; split; [done|apply perm3]].
  set (ssize := fun i => s32 (BITS_TO_LONGS (s32 (Z.shiftl 1 (M - Z.of_nat i))))).
  destruct (alloc_each_spec n ssize (got_set_of got) 0 BlkSetOf (got_block got)) as (S1 & S2 & _); [done|].
  destruct (alloc_each n ssize _ 0) as [ss ok2]. simpl in S1, S2. subst ok2. rewrite Hall. simpl.
  unfold free_each at 1. rewrite S1. eexists. split; [done|]. unfold free_each. rewrite B1, (until_refused_all _ (BlkBitsOf <$> _) Eb).
  rewrite perm3. by rewrite (Permutation_app_comm (until_refused _ _)).
Qed.

(** Creation of a buddy allocator that runs out of memory returns ENOMEM and frees each
    block it had got exactly once and no other; one that succeeds has got every block, and
    [dr_buddy_cleanup] frees exactly those. *)
Theorem buddy_init_no_leak M got :
  0 <= M <= 30 ->
  match dr_buddy_init M got with
  | InitErr e freed =>
    e = ENOMEM /\ freed ≡ₚ until_refused (got_block got) (attempts M) /\ NoDup freed /\
    forallb (got_block got) (attempts M) = false
  | InitOk b => forallb (got_block got) (attempts M) = true /\ dr_buddy_cleanup b ≡ₚ attempts M
  | InitFault => False
  end.
Proof.
  intros HM. destruct (forallb (got_block got) (attempts M)) eqn:Hall.
  - destruct (buddy_init_ok M got HM Hall) as (b & -> & [L _]). split; [done|].
    unfold dr_buddy_cleanup, attempts. rewrite (ls_max _ _ _ L), concat_pairs.
    rewrite (Permutation_app_comm _ [_; _; _]). simpl. rewrite (Permutation_swap BlkSetBit BlkNumFree).
    rewrite (Permutation_swap BlkSetBit BlkBits). by rewrite (Permutation_swap BlkNumFree BlkBits).
  - destruct (init_refused M got Hall) as (freed & -> & Hp). split_and!; try done. rewrite Hp.
    destruct (until_refused_prefix (got_block got) (attempts M)) as [k E].
    pose proof (attempts_NoDup M) as Hn. rewrite E in Hn. by apply NoDup_app in Hn as [? _].
Qed.

Lemma buddy_init_no_leak_witness :
  let got := mk_bmallocs true true true (fun _ => true) (fun o => Nat.ltb o 1) in
  exists freed, dr_buddy_init 2 got = InitErr ENOMEM freed /\ NoDup freed /\
    freed ≡ₚ [BlkBits; BlkNumFree; BlkSetBit; BlkBitsOf 0; BlkBitsOf 1; BlkBitsOf 2; BlkSetOf 0].
Proof.
  intros got. pose proof (buddy_init_no_leak 2 got ltac:(lia)) as H.
  destruct (dr_buddy_init 2 got) as [e freed|b|] eqn:E; [|by vm_compute in E|done].
  destruct H as (-> & Hp & Hn & _). exists freed. split; [done|]. split; [done|]. rewrite Hp. by vm_compute.
Defined.

(** * The contract *)

(** The entries of a block handed out *)
Definition in_block (c : Z) (h : Z * Z) : Prop := h.1 <= c < h.1 + 2 ^ h.2.

(** [held] are the blocks [(seg, order)] handed out by the allocator [b] of [2^M] entries *)
Definition buddy_holds (M : Z) (b : buddy_mem) (held : list (Z * Z)) : Prop :=
  exists B, buddy_ok M b B /\ NoDup held /\
    (forall h, h ∈ held -> h.1 = h.1 / 2 ^ h.2 * 2 ^ h.2 /\ B h.2 (h.1 / 2 ^ h.2) = Some Used) /\
    (forall o s, B o s = Some Used -> (s * 2 ^ o, o) ∈ held).

Lemma block_index c s o : 0 <= o -> s * 2 ^ o <= c < s * 2 ^ o + 2 ^ o <-> c / 2 ^ o = s.
Proof.
  intros Ho. pose proof (pow_pos o Ho). split.
  - intros Hc. symmetry. apply (Z.div_unique_pos _ _ _ (c - s * 2 ^ o)); lia.
  - intros <-. pose proof (Z.div_mod c (2 ^ o) ltac:(lia)). pose proof (Z.mod_pos_bound c (2 ^ o) ltac:(lia)). lia.
Qed.

Lemma holds_ext M b h1 h2 : h1 ≡ₚ h2 -> buddy_holds M b h1 -> buddy_holds M b h2.
Proof.
  intros Hp (B & Hok & Hn & H1 & H2). exists B. split; [done|]. split; [by rewrite <- Hp|].
  split; [intros h Hh; apply H1; by rewrite Hp|intros o s Hu; rewrite <- Hp; by apply H2].
Qed.

#[global] Instance buddy_holds_proper M b : Proper ((≡ₚ) ==> iff) (buddy_holds M b).
Proof. intros h1 h2 Hp. split; apply holds_ext; [done|by symmetry]. Qed.

Lemma holds_used M b (held : list (Z * Z)) B :
  buddy_ok M b B -> (forall h, h ∈ held -> h.1 = h.1 / 2 ^ h.2 * 2 ^ h.2 /\ B h.2 (h.1 / 2 ^ h.2) = Some Used) ->
  forall h, h ∈ held -> 0 <= h.2 <= M /\ 0 <= h.1 /\ h.1 + 2 ^ h.2 <= 2 ^ M /\
    forall c, in_block c h <-> c / 2 ^ h.2 = h.1 / 2 ^ h.2.
Proof.
  intros Hok Hh [seg o] Hin. destruct (Hh _ Hin) as [Ea Hu]. simpl in *.
  destruct (tl_range _ _ (bo_tiling _ _ _ Hok) o (seg / 2 ^ o)) as [Ro Rs]; [congruence|].
  pose proof (pow_pos o ltac:(lia)). pose proof (pow_split M o Ro). split_and!; try lia; try nia.
  intros c. unfold in_block. simpl. rewrite Ea at 1 2. apply block_index. lia.
Qed.

(** ** Allocation *)

Lemma holds_alloc M b held order :
  buddy_holds M b held -> 0 <= order <= M ->
  (dr_buddy_alloc_mem order b = Some (-1, b) /\
   forall k, 0 <= k < 2 ^ (M - order) -> exists c h, h ∈ held /\ in_block c h /\ in_block c (k * 2 ^ order, order)) \/
  (exists seg b', dr_buddy_alloc_mem order b = Some (seg, b') /\ 0 <= seg /\ buddy_holds M b' ((seg, order) :: held)).
Proof.
  intros (B & Hok & Hn & H1 & H2) Ho.
  destruct (alloc_spec M b B order Hok Ho) as [[E Hf]|(s & b' & B' & E & Hok' & Hu & Hnu & HU)].
  - left. split; [done|]. intros k Hk.
    pose proof (pow_pos order ltac:(lia)) as Hp.
    destruct (decide (Exists (fun h => h.1 < k * 2 ^ order + 2 ^ order /\ k * 2 ^ order < h.1 + 2 ^ h.2) held)) as [Hx|Hno].
    + apply Exists_exists in Hx as (h & Hin & Hov).
      destruct (holds_used M b held B Hok H1 h Hin) as (Hho & _). pose proof (pow_pos h.2 ltac:(lia)).
      exists (Z.max h.1 (k * 2 ^ order)), h. unfold in_block. simpl. split; [done|]. lia.
    + exfalso. destruct (unused_in_free M B order k (bo_tiling _ _ _ Hok) Ho Hk) as (x & Hx & HB); [|by apply (Hf x (k / 2 ^ (x - order)))].
      intros c x Hc [Hx0 Hx]. destruct (B x (c / 2 ^ x)) as [[]|] eqn:EB; [done| |done]. exfalso. apply Hno.
      apply Exists_exists. exists (c / 2 ^ x * 2 ^ x, x). split; [by apply H2|]. simpl.
      pose proof (proj2 (block_index c (c / 2 ^ x) x Hx0) eq_refl).
      pose proof (proj2 (block_index c k order ltac:(lia)) Hc). lia.
  - right. destruct (tl_range _ _ (bo_tiling _ _ _ Hok') order s) as [_ Rs]; [congruence|].
    pose proof (pow_pos order ltac:(lia)) as Hp. exists (s * 2 ^ order), b'. split; [done|]. split; [nia|].
    exists B'. split; [done|]. split_and!.
    + constructor; [|done]. intros Hin. destruct (H1 _ Hin) as [_ Hc]. simpl in Hc. by rewrite Z.div_mul in Hc by lia.
    + intros h Hh. apply elem_of_cons in Hh as [-> |Hh]; simpl.
      * by rewrite Z.div_mul by lia.
      * destruct (H1 h Hh) as [Ea Hc]. split; [done|]. apply HU. by left.
    + intros o x Hu'. apply HU in Hu' as [Hu'|[-> ->]]; apply elem_of_cons; [right; by apply H2|by left].
Qed.

(** ** Freeing *)

Lemma holds_free M b held seg order :
  buddy_holds M b ((seg, order) :: held) ->
  exists b', dr_buddy_free_mem seg order b = Some b' /\ buddy_holds M b' held.
Proof.
  intros (B & Hok & Hn & H1 & H2). apply NoDup_cons in Hn as [Hni Hn].
  destruct (H1 (seg, order)) as [Ea Hu]; [by left|]. simpl in Ea, Hu.
  destruct (tl_range _ _ (bo_tiling _ _ _ Hok) order (seg / 2 ^ order)) as [Ro _]; [congruence|].
  destruct (free_spec M b B order (seg / 2 ^ order) Hok Hu) as (b' & B' & E & Hok' & HU). rewrite <- Ea in E.
  exists b'. split; [done|]. exists B'. split; [done|]. split; [done|]. split.
  - intros h Hh. destruct (H1 h) as [Ea' Hu']; [by right|]. split; [done|]. apply HU. split; [done|].
    intros [E1 E2]. apply Hni. destruct h as [hs ho]. simpl in *. subst ho. rewrite Ea, <- E2, <- Ea'. done.
  - intros o s Hs. apply HU in Hs as [Hs Hne]. specialize (H2 o s Hs). apply elem_of_cons in H2 as [[= E1 ->]|]; [|done].
    exfalso. apply Hne. split; [done|]. rewrite <- E1. by rewrite Z.div_mul by (pose proof (pow_pos order ltac:(lia)); lia).
Qed.

(** ** Blocks apart *)

Lemma holds_apart M b held :
  buddy_holds M b held ->
  (forall h, h ∈ held -> 0 <= h.2 <= M /\ 0 <= h.1 /\ h.1 + 2 ^ h.2 <= 2 ^ M /\ h.1 mod 2 ^ h.2 = 0) /\
  forall h1 h2 c, h1 ∈ held -> h2 ∈ held -> in_block c h1 -> in_block c h2 -> h1 = h2.
Proof.
  intros (B & Hok & Hn & H1 & H2). split.
  - intros h Hh. destruct (holds_used M b held B Hok H1 h Hh) as (R1 & R2 & R3 & _). split_and!; try lia.
    destruct (H1 h Hh) as [Ea _]. pose proof (pow_pos h.2 ltac:(lia)). rewrite Ea. apply Z.mod_mul. lia.
  - intros [s1 o1] [s2 o2] c Hh1 Hh2 Hc1 Hc2.
    destruct (holds_used M b held B Hok H1 _ Hh1) as (_ & _ & _ & I1). apply I1 in Hc1.
    destruct (holds_used M b held B Hok H1 _ Hh2) as (_ & _ & _ & I2). apply I2 in Hc2.
    destruct (H1 _ Hh1) as [A1 U1], (H1 _ Hh2) as [A2 U2]. simpl in *.
    destruct (free_blocks_apart M B o1 (s1 / 2 ^ o1) o2 (s2 / 2 ^ o2) c (bo_tiling _ _ _ Hok)) as [-> E]; [congruence..|done|done|].
    rewrite A1, A2, E. done.
Qed.

(** ** The state *)

(** The state of the allocator depends on the blocks held and on nothing else of the past. *)
Lemma holds_determined M b1 b2 held : buddy_holds M b1 held -> buddy_holds M b2 held -> b1 = b2.
Proof.
  intros (B1 & O1 & _ & H1 & K1) (B2 & O2 & _ & H2 & K2).
  apply (levels_determined M b1 b2 (is_free B1)); [apply O1|].
  eapply levels_ext; [|apply O2]. intros o s. unfold is_free.
  rewrite (tiling_determined M B1 B2 (bo_tiling _ _ _ O1) (bo_tiling _ _ _ O2)); [done|].
  clear o s. assert (Hdir : forall B B' : blocks, tiling M B ->
    (forall o s, B o s = Some Used -> (s * 2 ^ o, o) ∈ held) ->
    (forall h, h ∈ held -> h.1 = h.1 / 2 ^ h.2 * 2 ^ h.2 /\ B' h.2 (h.1 / 2 ^ h.2) = Some Used) ->
    forall o s, B o s = Some Used -> B' o s = Some Used).
  { intros B B' T HK HH o s E. destruct (tl_range _ _ T o s) as [Ro _]; [congruence|].
    pose proof (pow_pos o ltac:(lia)). destruct (HH _ (HK o s E)) as [_ HB]. simpl in HB. by rewrite Z.div_mul in HB by lia. }
  intros o s. split; [apply (Hdir B1 B2)|apply (Hdir B2 B1)]; try done; [apply O1|apply O2].
Qed.

Lemma init_holds M got :
  0 <= M <= 30 -> forallb (got_block got) (attempts M) = true ->
  exists b, dr_buddy_init M got = InitOk b /\ buddy_holds M b [].
Proof.
  intros HM Hg. destruct (buddy_init_ok M got HM Hg) as (b & E & Hok). exists b. split; [done|].
  exists (one_block M). split; [done|]. split; [constructor|]. split; [intros h Hh; by apply not_elem_of_nil in Hh|].
  intros o s Hu. unfold one_block in Hu. by destruct (_ && _).
Qed.

(** * Every use *)

(** An allocator and the blocks it has handed out, after any sequence of calls of
    [dr_buddy_alloc_mem] with an order of the memory and of [dr_buddy_free_mem] with a block
    that is out *)
Inductive buddy_reach (M : Z) : buddy_mem -> list (Z * Z) -> Prop :=
| reach_init got b : dr_buddy_init M got = InitOk b -> buddy_reach M b []
| reach_alloc b held order seg b' :
    buddy_reach M b held -> 0 <= order <= M -> dr_buddy_alloc_mem order b = Some (seg, b') ->
    buddy_reach M b' (if seg =? -1 then held else (seg, order) :: held)
| reach_free b held seg order rest b' :
    buddy_reach M b held -> held ≡ₚ (seg, order) :: rest -> dr_buddy_free_mem seg order b = Some b' ->
    buddy_reach M b' rest.

Lemma reach_holds M b held : 0 <= M <= 30 -> buddy_reach M b held -> buddy_holds M b held.
Proof.
  intros HM. induction 1 as [got b E|b held order seg b' _ IH Ho E|b held seg order rest b' _ IH Hp E].
  - destruct (forallb (got_block got) (attempts M)) eqn:Hg.
    + destruct (init_holds M got HM Hg) as (b0 & E0 & Hh). rewrite E in E0. by injection E0 as <-.
    + destruct (init_refused M got Hg) as (freed & E' & _). congruence.
  - destruct (holds_alloc M b held order IH Ho) as [[E' _]|(s & b1 & E' & Hs & Hh)]; rewrite E in E'; injection E' as -> ->; [done|].
    by rewrite (proj2 (Z.eqb_neq _ _)) by lia.
  - rewrite Hp in IH. destruct (holds_free M b rest seg order IH) as (b1 & E' & Hh). rewrite E in E'. by injection E' as <-.
Qed.

(** C29.  The buddy allocator hands out disjoint blocks.  After any sequence of allocations
    and of returns of blocks that are out: the blocks out are aligned to their size, lie in the
    memory and share no entry; neither operation faults (no access outside a bitmap, no failed
    assertion, the loops of splitting and merging end); and an allocation that succeeds returns
    a block that shares no entry with those out. *)
Theorem buddy_refines M b held :
  0 <= M <= 30 -> buddy_reach M b held ->
  (forall h, h ∈ held -> 0 <= h.2 <= M /\ 0 <= h.1 /\ h.1 + 2 ^ h.2 <= 2 ^ M /\ h.1 mod 2 ^ h.2 = 0) /\
  (forall h1 h2 c, h1 ∈ held -> h2 ∈ held -> in_block c h1 -> in_block c h2 -> h1 = h2) /\
  (forall seg order, (seg, order) ∈ held -> is_Some (dr_buddy_free_mem seg order b)) /\
  forall order, 0 <= order <= M -> exists seg b', dr_buddy_alloc_mem order b = Some (seg, b') /\
    (seg <> -1 -> seg mod 2 ^ order = 0 /\ 0 <= seg /\ seg + 2 ^ order <= 2 ^ M /\
       forall h c, h ∈ held -> in_block c h -> ~ in_block c (seg, order)).
Proof.
  intros HM Hr. apply reach_holds in Hr as Hh; [|done]. destruct (holds_apart M b held Hh) as [Ha Hd].
  split; [done|]. split; [done|]. split.
  - intros seg order Hin. apply elem_of_Permutation in Hin as [rest Hp]. rewrite Hp in Hh.
    destruct (holds_free M b rest seg order Hh) as (b' & -> & _). by eexists.
  - intros order Ho. destruct (holds_alloc M b held order Hh Ho) as [[E _]|(seg & b' & E & Hs & Hh')].
    + by exists (-1), b.
    + exists seg, b'. split; [done|]. intros _. destruct (holds_apart M b' _ Hh') as [Ha' Hd'].
      destruct (Ha' (seg, order)) as (_ & R2 & R3 & R4); [by left|]. split_and!; try done.
      intros h c Hin Hc Hc'. assert (h = (seg, order)) as -> by (apply (Hd' _ _ c); [by right|by left|done|done]).
      destruct Hh' as (_ & _ & Hn & _). by apply NoDup_cons in Hn as [? _].
Qed.

(** Allocation fails only when it must: after any sequence of operations
    [dr_buddy_alloc_mem] of an order returns -1, and leaves the allocator as it is, if and only
    if every aligned run of that many entries has an entry in a block that is out.  (Freed
    buddies are merged, so that the memory never stays broken into smaller pieces.) *)
Theorem buddy_alloc_exact M b held order :
  0 <= M <= 30 -> buddy_reach M b held -> 0 <= order <= M ->
  dr_buddy_alloc_mem order b = Some (-1, b) <->
  forall k, 0 <= k < 2 ^ (M - order) -> exists c h, h ∈ held /\ in_block c h /\ in_block c (k * 2 ^ order, order).
Proof.
  intros HM Hr Ho. apply reach_holds in Hr as Hh; [|done].
  destruct (holds_alloc M b held order Hh Ho) as [[E Hf]|(seg & b' & E & Hs & Hh')]; [by split|].
  rewrite E. split; [intros [= -> _]; lia|]. intros Hall. exfalso.
  destruct (holds_apart M b' _ Hh') as [Ha Hd]. destruct (Ha (seg, order)) as (_ & _ & R3 & R4); [by left|]. simpl in R3, R4.
  pose proof (pow_pos order ltac:(lia)) as Hp. pose proof (pow_split M order Ho) as Ep.
  assert (Ek : seg = seg / 2 ^ order * 2 ^ order) by (apply Z.div_exact in R4; lia).
  destruct (Hall (seg / 2 ^ order)) as (c & h & Hin & Hc & Hc'); [nia|]. rewrite <- Ek in Hc'.
  assert (h = (seg, order)) as -> by (apply (Hd _ _ c); [by right|by left|done|done]).
  destruct Hh' as (_ & _ & Hn & _). by apply NoDup_cons in Hn as [? _].
Qed.

(** The allocator keeps no trace of its past: two allocators of the same size with the
    same blocks out, in whatever order they were taken and whatever was taken and returned
    between, hold the same bitmaps and counts.  So freeing a block just allocated restores the
    state before, and when every block is back the state is that of a new allocator. *)
Theorem buddy_history_independent M b1 b2 held1 held2 :
  0 <= M <= 30 -> buddy_reach M b1 held1 -> buddy_reach M b2 held2 -> held1 ≡ₚ held2 ->
  b1 = b2 /\
  forall order seg b', 0 <= order <= M -> dr_buddy_alloc_mem order b1 = Some (seg, b') -> seg <> -1 ->
    dr_buddy_free_mem seg order b' = Some b1.
Proof.
  intros HM H1 H2 Hp. apply reach_holds in H1, H2; [|done..]. split.
  - rewrite <- Hp in H2. by apply (holds_determined M b1 b2 held1).
  - intros order seg b' Ho E Hs. destruct (holds_alloc M b1 held1 order H1 Ho) as [[E' _]|(s & b'' & E' & _ & Hh)];
      rewrite E in E'; injection E' as -> ->; [done|].
    destruct (holds_free M b'' held1 s order Hh) as (b3 & E3 & H3). rewrite E3. f_equal.
    by apply (holds_determined M b3 b1 held1).
Qed.

(** * Witnesses *)

Definition all_got : buddy_mallocs := mk_bmallocs true true true (fun _ => true) (fun _ => true).

(** Eight entries, of which two and then one are taken *)
Definition demo_buddy0 : buddy_mem :=
  match dr_buddy_init 3 all_got with InitOk b => b | _ => mk_buddy [] [] [] 0 end.
Definition demo_buddy : buddy_mem :=
  match (r ← dr_buddy_alloc_mem 1 demo_buddy0; dr_buddy_alloc_mem 0 r.2) with Some r => r.2 | None => demo_buddy0 end.

Lemma demo_buddy_reach : buddy_reach 3 demo_buddy [(2, 0); (0, 1)].
Proof.
  destruct (dr_buddy_alloc_mem 1 demo_buddy0) as [[s1 b1]|] eqn:E1; [|by vm_compute in E1].
  assert (s1 = 0) as -> by (vm_compute in E1; congruence).
  assert (E2 : dr_buddy_alloc_mem 0 b1 = Some (2, demo_buddy)).
  { vm_compute in E1. injection E1 as <-. by vm_compute. }
  refine (reach_alloc 3 b1 [(0, 1)] 0 2 demo_buddy _ _ E2); [|lia].
  refine (reach_alloc 3 demo_buddy0 [] 1 0 b1 _ _ E1); [|lia].
  apply (reach_init 3 all_got). by vm_compute.
Qed.

Lemma buddy_refines_witness :
  ~ in_block 2 (0, 1) /\ is_Some (dr_buddy_free_mem 0 1 demo_buddy) /\
  exists seg b', dr_buddy_alloc_mem 2 demo_buddy = Some (seg, b') /\ seg mod 4 = 0.
Proof.
  destruct (buddy_refines 3 demo_buddy [(2, 0); (0, 1)] ltac:(lia) demo_buddy_reach) as (_ & Hd & Hf & Ha). split_and!.
  - intros Hc. discriminate (Hd (2, 0) (0, 1) 2 ltac:(by left) ltac:(right; by left) ltac:(unfold in_block; simpl; lia) Hc).
  - apply Hf. right. by left.
  - destruct (Ha 2 ltac:(lia)) as (seg & b' & E & Hs). exists seg, b'. split; [done|].
    apply Hs. intros ->. vm_compute in E. discriminate.
Defined.

Lemma buddy_alloc_exact_witness :
  dr_buddy_alloc_mem 3 demo_buddy = Some (-1, demo_buddy) /\
  exists c h, h ∈ [(2, 0); (0, 1)] /\ in_block c h /\ in_block c (0, 3).
Proof.
  assert (E : dr_buddy_alloc_mem 3 demo_buddy = Some (-1, demo_buddy)) by (by vm_compute). split; [done|].
  apply (buddy_alloc_exact 3 demo_buddy [(2, 0); (0, 1)] 3 ltac:(lia) demo_buddy_reach ltac:(lia)) with (k := 0); [done|]. 
  rewrite Z.sub_diag. lia.
Defined.

Lemma buddy_history_independent_witness :
  exists seg b', dr_buddy_alloc_mem 2 demo_buddy = Some (seg, b') /\ dr_buddy_free_mem seg 2 b' = Some demo_buddy.
Proof.
  destruct (buddy_history_independent 3 demo_buddy demo_buddy [(2, 0); (0, 1)] [(2, 0); (0, 1)] ltac:(lia)
    demo_buddy_reach demo_buddy_reach ltac:(done)) as [_ H].
  destruct (dr_buddy_alloc_mem 2 demo_buddy) as [[seg b']|] eqn:E; [|by vm_compute in E].
  exists seg, b'. split; [done|]. apply (H 2 seg b'); [lia|done|]. intros ->. vm_compute in E. discriminate.
Defined.
