(* ===== verification/Buf.v ===== *)
(** The allocators of queue buffers (providers/mlx5/buf.c, bitmap.h): regions of huge pages cut into
    chunks of 32 KiB with a bitmap, contiguous pages from the kernel, ordinary memory, and the
    allocators of the application; the order in which they are tried.

    [None] is undefined behaviour: an index outside the bitmap, or [1 << n] for [n] from 31 on,
    where the constant is an [int].  The answers of the system calls are arguments.  The spin lock
    of the list of regions is not modelled: a region is on the list, or private to one thread. *)

From stdpp Require Import base numbers list strings.
From S2P Require Import Prelude Dbrec Buddy.

(** * Bits (bitmap.h) *)

(** [1 << (nr % BITS_PER_LONG)] *)
Definition int_bit (nr : Z) : option Z :=
  let k := nr mod BITS_PER_LONG in if k <? 31 then Some (Z.shiftl 1 k) else None.

Definition mlx5_set_bit (nr : Z) (addr : list Z) : option (list Z) :=
  b ← int_bit nr;
  w ← addr !! Z.to_nat (nr / BITS_PER_LONG);
  Some (<[Z.to_nat (nr / BITS_PER_LONG) := Z.lor w b]> addr).

Definition mlx5_clear_bit (nr : Z) (addr : list Z) : option (list Z) :=
  b ← int_bit nr;
  w ← addr !! Z.to_nat (nr / BITS_PER_LONG);
  Some (<[Z.to_nat (nr / BITS_PER_LONG) := Z.land w (u64 (Z.lnot b))]> addr).

Definition mlx5_test_bit (nr : Z) (addr : list Z) : option bool :=
  b ← int_bit nr;
  w ← addr !! Z.to_nat (nr / BITS_PER_LONG);
  Some (negb (Z.land w b =? 0)).

(** [__builtin_ffs(~word) - 1], as an [unsigned long] *)
Definition mlx5_ffz (word : Z) : Z := u64 (ffsl (u32 (Z.lnot word)) - 1).

(** The [uint32_t] parameter of [mlx5_ffz] takes the low half of the word *)
Fixpoint mlx5_find_first_zero_bit (p : list Z) (result size : Z) : option Z :=
  if negb (Z.land size (Z.lnot (BITS_PER_LONG - 1)) =? 0) then
    match p with
    | [] => None
    | tmp :: p =>
      if tmp =? 2 ^ 64 - 1 then mlx5_find_first_zero_bit p (u32 (result + BITS_PER_LONG)) (u32 (size - BITS_PER_LONG))
      else Some (u32 (result + mlx5_ffz (u32 tmp)))
    end
  else if size =? 0 then Some result
  else
    match p with
    | [] => None
    | w :: _ =>
      let tmp := Z.lor w (u64 (Z.shiftl (2 ^ 64 - 1) size)) in
      if tmp =? 2 ^ 32 - 1 then Some (u32 (result + size)) else Some (u32 (result + mlx5_ffz (u32 tmp)))
    end.

(** * The bitmap of a region *)

Record mlx5_bitmap : Type := mk_bmp { bmp_last : Z; bmp_top : Z; bmp_max : Z; bmp_avail : Z; bmp_mask : Z; bmp_table : list Z }.

Definition mlx5_bitmap_init (calloc : bool) (num mask : Z) : option mlx5_bitmap :=
  if calloc then Some (mk_bmp 0 0 num num mask (replicate (Z.to_nat (BITS_TO_LONGS num)) 0)) else None.

(** [for (i = 0; i < n; i++) f(obj + i, bmp->table)] *)
Fixpoint on_range (f : Z -> list Z -> option (list Z)) (obj : Z) (n : nat) (t : list Z) : option (list Z) :=
  match n with O => Some t | S n => t ← f obj t; on_range f (u32 (obj + 1)) n t end.

Definition bitmap_free_range (b : mlx5_bitmap) (obj cnt : Z) : option mlx5_bitmap :=
  let obj := Z.land (u32 obj) (u32 (bmp_max b - 1)) in
  t ← on_range mlx5_clear_bit obj (Z.to_nat cnt) (bmp_table b);
  Some (mk_bmp (Z.min (bmp_last b) obj) (Z.land (u32 (bmp_top b + bmp_max b)) (bmp_mask b)) (bmp_max b)
          (u32 (bmp_avail b + cnt)) (bmp_mask b) t).

Definition mlx5_bitmap_empty (b : mlx5_bitmap) : bool := bmp_avail b =? bmp_max b.

Definition mlx5_bitmap_alloc (b : mlx5_bitmap) : option (Z * mlx5_bitmap) :=
  obj ← mlx5_find_first_zero_bit (bmp_table b) 0 (bmp_max b);
  if obj <? bmp_max b then
    t ← mlx5_set_bit obj (bmp_table b);
    let last := if u32 (obj + 1) =? bmp_max b then 0 else u32 (obj + 1) in
    let ret := s32 (Z.lor obj (bmp_top b)) in
    Some (ret, mk_bmp last (bmp_top b) (bmp_max b) (if ret =? -1 then bmp_avail b else u32 (bmp_avail b - 1)) (bmp_mask b) t)
  else Some (-1, b).

(** [while ((start < nbits) && mlx5_test_bit(start, bmp)) start += alignment;]: [fuel] rounds *)
Fixpoint skip_set (fuel : nat) (t : list Z) (start nbits alignment : Z) : option Z :=
  match fuel with
  | O => None
  | S fuel =>
    if start <? nbits then
      x ← mlx5_test_bit start t;
      if (x : bool) then skip_set fuel t (u32 (start + alignment)) nbits alignment else Some start
    else Some start
  end.

(** [for (i = start + 1; i < end; i++)]: the first bit set among [n] from [i] on *)
Fixpoint run_blocked (t : list Z) (i : Z) (n : nat) : option (option Z) :=
  match n with
  | O => Some None
  | S n => x ← mlx5_test_bit i t; if (x : bool) then Some (Some i) else run_blocked t (u32 (i + 1)) n
  end.

(** [-1] as a [uint32_t] *)
Definition no_obj : Z := 2 ^ 32 - 1.

(** The rounds of [again:] *)
Fixpoint find_aligned_range (fuel : nat) (t : list Z) (start nbits len alignment : Z) : option Z :=
  match fuel with
  | O => None
  | S fuel =>
    start ← skip_set (S (Z.to_nat nbits)) t (u32 (align start alignment)) nbits alignment;
    if nbits <=? start then Some no_obj
    else if nbits <? u32 (start + len) then Some no_obj
    else
      r ← run_blocked t (u32 (start + 1)) (Z.to_nat (u32 (start + len) - u32 (start + 1)));
      match r with
      | Some i => find_aligned_range fuel t (u32 (i + 1)) nbits len alignment
      | None => Some start
      end
  end.

(** The result is [obj], whatever [ret] holds *)
Definition bitmap_alloc_range (b : mlx5_bitmap) (cnt al : Z) : option (Z * mlx5_bitmap) :=
  if (cnt =? 1) && (al =? 1) then mlx5_bitmap_alloc b
  else if bmp_max b <? u32 cnt then Some (-1, b)
  else
    let fuel := S (Z.to_nat (bmp_max b)) in
    obj ← find_aligned_range fuel (bmp_table b) (bmp_last b) (bmp_max b) cnt al;
    x ← (if bmp_max b <=? obj then
           o ← find_aligned_range fuel (bmp_table b) 0 (bmp_max b) cnt al;
           Some (o, Z.land (u32 (bmp_top b + bmp_max b)) (bmp_mask b))
         else Some (obj, bmp_top b));
    let '(obj, top) := x in
    if obj <? bmp_max b then
      t ← on_range mlx5_set_bit obj (Z.to_nat cnt) (bmp_table b);
      let last := if obj =? bmp_last b then (if bmp_max b <=? u32 (obj + cnt) then 0 else u32 (obj + cnt)) else bmp_last b in
      let obj := Z.lor obj top in
      Some (s32 obj, mk_bmp last top (bmp_max b) (if s32 obj =? -1 then bmp_avail b else u32 (bmp_avail b - cnt)) (bmp_mask b) t)
    else Some (s32 obj, mk_bmp (bmp_last b) top (bmp_max b) (bmp_avail b) (bmp_mask b) (bmp_table b)).

(** * Regions of huge pages *)

Definition MLX5_SHM_LENGTH : Z := 2 * 1024 * 1024.
Definition MLX5_Q_CHUNK_SIZE : Z := 32768.

(** A region; [hm_ptr] is the pointer to it *)
Record mlx5_hugetlb_mem : Type := mk_hmem { hm_ptr : nat; shmid : Z; shmaddr : Z; hm_bitmap : mlx5_bitmap }.

(** What is held: the structure, its bitmap, a segment that is not yet marked for removal, a mapping *)
Inductive hres : Type := HMem (p : nat) | HTable (p : nat) | HSeg (id : Z) | HMap (addr : Z).

#[export] Instance hres_eq_dec : EqDecision hres.
Proof. solve_decision. Defined.

Record huge_ctx : Type := mk_hctx { hugetlb_list : list mlx5_hugetlb_mem; hg_next : nat; hg_held : list hres }.

Definition hold (x : hres) (c : huge_ctx) : huge_ctx := mk_hctx (hugetlb_list c) (hg_next c) (x :: hg_held c).
Definition release (x : hres) (c : huge_ctx) : huge_ctx :=
  mk_hctx (hugetlb_list c) (hg_next c) (base.filter (fun y => y <> x) (hg_held c)).
Definition set_list (l : list mlx5_hugetlb_mem) (c : huge_ctx) : huge_ctx := mk_hctx l (hg_next c) (hg_held c).
Definition set_bitmap (b : mlx5_bitmap) (h : mlx5_hugetlb_mem) : mlx5_hugetlb_mem := mk_hmem (hm_ptr h) (shmid h) (shmaddr h) b.

(** What malloc, shmget, shmat and calloc answer *)
Record shm_env : Type := mk_shm_env { ev_malloc : bool; ev_shmget : option Z; ev_shmat : option Z; ev_calloc : bool }.

Definition free_huge_mem (h : mlx5_hugetlb_mem) (c : huge_ctx) : huge_ctx :=
  release (HMem (hm_ptr h)) (release (HSeg (shmid h)) (release (HMap (shmaddr h)) (release (HTable (hm_ptr h)) c))).

Definition alloc_huge_mem (e : shm_env) (size : Z) (c : huge_ctx) : option mlx5_hugetlb_mem * huge_ctx :=
  if negb (ev_malloc e) then (None, c)
  else
    let p := hg_next c in
    let c := hold (HMem p) (mk_hctx (hugetlb_list c) (S (hg_next c)) (hg_held c)) in
    let shm_len := align size MLX5_SHM_LENGTH in
    match ev_shmget e with
    | None => (None, release (HMem p) c)
    | Some id =>
      let c := hold (HSeg id) c in
      match ev_shmat e with
      | None => (None, release (HMem p) (release (HSeg id) c))
      | Some addr =>
        let c := hold (HMap addr) c in
        match mlx5_bitmap_init (ev_calloc e) (u32 (shm_len / MLX5_Q_CHUNK_SIZE)) (u32 (shm_len / MLX5_Q_CHUNK_SIZE - 1)) with
        | None => (None, release (HMem p) (release (HSeg id) (release (HMap addr) c)))
        | Some b => (Some (mk_hmem p id addr b), release (HSeg id) (hold (HTable p) c))
        end
      end
    end.

(** * Buffers *)

Inductive mlx5_alloc_type : Type :=
| MLX5_ALLOC_TYPE_ANON | MLX5_ALLOC_TYPE_HUGE | MLX5_ALLOC_TYPE_CONTIG | MLX5_ALLOC_TYPE_PREFER_HUGE
| MLX5_ALLOC_TYPE_PREFER_CONTIG | MLX5_ALLOC_TYPE_EXTERNAL | MLX5_ALLOC_TYPE_CUSTOM | MLX5_ALLOC_TYPE_ALL.

#[export] Instance mlx5_alloc_type_eq_dec : EqDecision mlx5_alloc_type.
Proof. solve_decision. Defined.

Record mlx5_buf : Type := mk_buf { buf_buf : Z; buf_length : Z; buf_base : Z; buf_hmem : nat; buf_type : mlx5_alloc_type }.

Definition set_buf (addr len : Z) (t : mlx5_alloc_type) (b : mlx5_buf) : mlx5_buf := mk_buf addr len (buf_base b) (buf_hmem b) t.

(** ** Huge pages *)

(** [list_for_each(&mctx->hugetlb_list, ...)]: the regions after the attempts, [buf->base], and the
    region that had room *)
Fixpoint try_regions (nchunk base : Z) (l : list mlx5_hugetlb_mem) : option (list mlx5_hugetlb_mem * Z * option mlx5_hugetlb_mem) :=
  match l with
  | [] => Some ([], base, None)
  | h :: l =>
    if bmp_avail (hm_bitmap h) =? 0 then
      r ← try_regions nchunk base l; Some (h :: r.1.1, r.1.2, r.2)
    else
      x ← bitmap_alloc_range (hm_bitmap h) nchunk 1;
      let h := set_bitmap x.2 h in
      if x.1 =? -1 then r ← try_regions nchunk x.1 l; Some (h :: r.1.1, r.1.2, r.2)
      else Some (h :: l, x.1, Some h)
  end.

(** The region a buffer points to *)
Definition find_region (p : nat) (l : list mlx5_hugetlb_mem) : option (nat * mlx5_hugetlb_mem) :=
  list_find (fun h => hm_ptr h = p) l.

(** Give chunks back; a region without any in use is unmapped *)
Definition return_chunks (p : nat) (base nchunk : Z) (c : huge_ctx) : option huge_ctx :=
  x ← find_region p (hugetlb_list c);
  b ← bitmap_free_range (hm_bitmap x.2) base nchunk;
  if mlx5_bitmap_empty b then Some (free_huge_mem x.2 (set_list (delete x.1 (hugetlb_list c)) c))
  else Some (set_list (<[x.1 := set_bitmap b x.2]> (hugetlb_list c)) c).

Definition alloc_huge_buf (e : shm_env) (fork : Z) (buf : mlx5_buf) (size : Z) (c : huge_ctx) : option (Z * mlx5_buf * huge_ctx) :=
  let len := align size MLX5_Q_CHUNK_SIZE in
  let nchunk := s32 (len / MLX5_Q_CHUNK_SIZE) in
  let buf := mk_buf (buf_buf buf) len (buf_base buf) (buf_hmem buf) (buf_type buf) in
  if nchunk =? 0 then Some (0, buf, c)
  else
    r ← try_regions nchunk (buf_base buf) (hugetlb_list c);
    let '(l, base, found) := r in
    let c := set_list l c in
    x ← match found with
        | Some h => Some (Some h, base, c)
        | None =>
          let '(h, c) := alloc_huge_mem e len c in
          match h with
          | None => Some (None, base, c)
          | Some h =>
            y ← bitmap_alloc_range (hm_bitmap h) nchunk 1;
            let h := set_bitmap y.2 h in
            if y.1 =? -1 then Some (None, y.1, free_huge_mem h c)
            else Some (Some h, y.1, set_list (if bmp_avail y.2 =? 0 then hugetlb_list c ++ [h] else h :: hugetlb_list c) c)
          end
        end;
    let '(h, base, c) := x in
    match h with
    | None => Some (-1, mk_buf (buf_buf buf) len base (buf_hmem buf) (buf_type buf), c)
    | Some h =>
      let addr := shmaddr h + base * MLX5_Q_CHUNK_SIZE in
      if fork =? 0 then Some (0, mk_buf addr len base (hm_ptr h) MLX5_ALLOC_TYPE_HUGE, c)
      else c ← return_chunks (hm_ptr h) base nchunk c; Some (-1, mk_buf addr len base (hm_ptr h) (buf_type buf), c)
    end.

Definition free_huge_buf (buf : mlx5_buf) (c : huge_ctx) : option huge_ctx :=
  let nchunk := s32 (buf_length buf / MLX5_Q_CHUNK_SIZE) in
  if nchunk =? 0 then Some c else return_chunks (buf_hmem buf) (buf_base buf) nchunk c.

(** ** The allocators of the application *)

(** What is given back *)
Inductive buf_act : Type := ExternFree (addr : Z) | CustomFree (addr : Z) | Munmap (addr len : Z) | Free (addr : Z).

Definition mlx5_alloc_buf_extern (addr fork : Z) (buf : mlx5_buf) (size : Z) : Z * mlx5_buf * list buf_act :=
  if negb (addr =? 0) || (size =? 0) then
    if negb (fork =? 0) then (-1, buf, [ExternFree addr]) else (0, set_buf addr size MLX5_ALLOC_TYPE_EXTERNAL buf, [])
  else (-1, buf, []).

(** [None] is IBV_ALLOCATOR_USE_DEFAULT *)
Definition mlx5_alloc_buf_custom (answer : option Z) (buf : mlx5_buf) (size : Z) : Z * mlx5_buf :=
  match answer with
  | None => (1, buf)
  | Some addr => if negb (addr =? 0) || (size =? 0) then (0, set_buf addr size MLX5_ALLOC_TYPE_CUSTOM buf) else (-1, buf)
  end.

(** ** Contiguous pages *)

Definition MLX5_MAX_LOG2_CONTIG_BLOCK_SIZE : Z := 23.
Definition MLX5_MIN_LOG2_CONTIG_BLOCK_SIZE : Z := 12.
Definition MLX5_IB_MMAP_GET_CONTIGUOUS_PAGES : Z := 1.
Definition MLX5_IB_MMAP_CMD_SHIFT : Z := 8.

(** [mlx5_get_block_order]; [1 << r] is an [int] *)
Definition order_step (s : Z * Z) (a : Z * Z) : Z * Z :=
  if Z.land s.1 a.1 =? 0 then s else (Z.shiftr s.1 a.2, Z.lor s.2 a.2).

Definition mlx5_get_block_order (v : Z) : option Z :=
  let r := (foldl order_step (v, 0) [(0xFFFF0000, 16); (0xFF00, 8); (0xF0, 4); (0xC, 2); (0x2, 1)]).2 in
  if r <? 31 then Some (r + (if Z.land v (Z.shiftl 1 r - 1) =? 0 then 0 else 1)) else None.

(** [mlx5_alloc_get_env_info] on the two environment variables *)
Definition mlx5_alloc_get_env_info (env_max env_min : option Z) : Z * Z :=
  let max := match env_max with
             | Some v => if (v <=? MLX5_MAX_LOG2_CONTIG_BLOCK_SIZE) && (MLX5_MIN_LOG2_CONTIG_BLOCK_SIZE <=? v) then v
                         else MLX5_MAX_LOG2_CONTIG_BLOCK_SIZE
             | None => MLX5_MAX_LOG2_CONTIG_BLOCK_SIZE
             end in
  let min := match env_min with
             | Some v => if (MLX5_MIN_LOG2_CONTIG_BLOCK_SIZE <=? v) && (v <=? max) then v else MLX5_MIN_LOG2_CONTIG_BLOCK_SIZE
             | None => MLX5_MIN_LOG2_CONTIG_BLOCK_SIZE
             end in
  (max, min).

Inductive mmap_answer : Type := MmapOk (addr : Z) | MmapEinval | MmapFail.

(** The [do ... while] loop: the orders tried and the address *)
Fixpoint contig_loop (fuel : nat) (mmap : Z -> mmap_answer) (exp min : Z) : option (list Z * option Z) :=
  match fuel with
  | O => None
  | S fuel =>
    let offset := Z.lor (Z.shiftl MLX5_IB_MMAP_GET_CONTIGUOUS_PAGES MLX5_IB_MMAP_CMD_SHIFT) exp in
    match mmap offset with
    | MmapOk addr => Some ([exp], Some addr)
    | MmapEinval => Some ([exp], None)
    | MmapFail =>
      if min <=? exp - 1 then r ← contig_loop fuel mmap (exp - 1) min; Some (exp :: r.1, r.2) else Some ([exp], None)
    end
  end.

(** [mmap] answers by the offset, without the factor [page_size] *)
Definition mlx5_alloc_buf_contig (env_max env_min : option Z) (mmap : Z -> mmap_answer) (fork : Z) (buf : mlx5_buf) (size : Z)
  : option (Z * mlx5_buf * list buf_act) :=
  let '(max, min) := mlx5_alloc_get_env_info env_max env_min in
  o ← mlx5_get_block_order (u32 size);
  r ← contig_loop 32 mmap (if max <? o then max else o) min;
  match r.2 with
  | None => Some (-1, buf, [])
  | Some addr =>
    if negb (fork =? 0) then Some (-1, buf, [Munmap addr size]) else Some (0, set_buf addr size MLX5_ALLOC_TYPE_CONTIG buf, [])
  end.

(** ** Ordinary memory *)

(** [al_size] is an [int]; [memalign] answers for the size it is given *)
Definition mlx5_alloc_buf (memalign : Z -> Z + Z) (fork : Z) (buf : mlx5_buf) (size page_size : Z) : Z * mlx5_buf * list buf_act :=
  let al_size := s32 (align size page_size) in
  match memalign (u64 al_size) with
  | inr err => (err, buf, [])
  | inl addr =>
    if fork =? 0 then (0, set_buf addr (u64 al_size) MLX5_ALLOC_TYPE_ANON buf, [])
    else (fork, mk_buf addr (buf_length buf) (buf_base buf) (buf_hmem buf) (buf_type buf), [Free addr])
  end.

(** ** The order of attempts *)

(** What all the calls answer *)
Record buf_env : Type := mk_buf_env {
  be_custom : option Z; be_extern : Z; be_shm : shm_env; be_env_max : option Z; be_env_min : option Z;
  be_mmap : Z -> mmap_answer; be_memalign : Z -> Z + Z;
  be_fork_huge : Z; be_fork_contig : Z; be_fork_extern : Z; be_fork_anon : Z }.

Definition is_huge_type (t : mlx5_alloc_type) : bool :=
  match t with MLX5_ALLOC_TYPE_HUGE | MLX5_ALLOC_TYPE_PREFER_HUGE | MLX5_ALLOC_TYPE_ALL => true | _ => false end.
Definition is_contig_type (t : mlx5_alloc_type) : bool :=
  match t with MLX5_ALLOC_TYPE_CONTIG | MLX5_ALLOC_TYPE_PREFER_CONTIG | MLX5_ALLOC_TYPE_ALL => true | _ => false end.

(** From the last attempts on *)
Definition alloc_default (e : buf_env) (buf : mlx5_buf) (size page_size : Z) (type : mlx5_alloc_type) : Z * mlx5_buf * list buf_act :=
  if decide (type = MLX5_ALLOC_TYPE_EXTERNAL) then mlx5_alloc_buf_extern (be_extern e) (be_fork_extern e) buf size
  else mlx5_alloc_buf (be_memalign e) (be_fork_anon e) buf size page_size.

Definition alloc_contig_or (e : buf_env) (buf : mlx5_buf) (size page_size : Z) (type : mlx5_alloc_type)
  : option (Z * mlx5_buf * list buf_act) :=
  if is_contig_type type then
    r ← mlx5_alloc_buf_contig (be_env_max e) (be_env_min e) (be_mmap e) (be_fork_contig e) buf size;
    let '(ret, buf, acts) := r in
    if ret =? 0 then Some (0, buf, acts)
    else if decide (type = MLX5_ALLOC_TYPE_CONTIG) then Some (-1, buf, acts)
    else let '(ret, buf, acts') := alloc_default e buf size page_size type in Some (ret, buf, acts ++ acts')
  else Some (alloc_default e buf size page_size type).

Definition alloc_huge_or (e : buf_env) (buf : mlx5_buf) (size page_size : Z) (type : mlx5_alloc_type) (c : huge_ctx)
  : option (Z * mlx5_buf * list buf_act * huge_ctx) :=
  if is_huge_type type then
    r ← alloc_huge_buf (be_shm e) (be_fork_huge e) buf size c;
    let '(ret, buf, c) := r in
    if ret =? 0 then Some (0, buf, [], c)
    else if decide (type = MLX5_ALLOC_TYPE_HUGE) then Some (-1, buf, [], c)
    else x ← alloc_contig_or e buf size page_size type; Some (x, c)
  else x ← alloc_contig_or e buf size page_size type; Some (x, c).

Definition mlx5_alloc_prefered_buf (e : buf_env) (buf : mlx5_buf) (size page_size : Z) (type : mlx5_alloc_type) (c : huge_ctx)
  : option (Z * mlx5_buf * list buf_act * huge_ctx) :=
  if decide (type = MLX5_ALLOC_TYPE_CUSTOM) then
    let '(ret, buf) := mlx5_alloc_buf_custom (be_custom e) buf size in
    if ret <=? 0 then Some (ret, buf, [], c) else alloc_huge_or e buf size page_size type c
  else alloc_huge_or e buf size page_size type c.

(** The memory goes back to where it came from; nothing for a bad type *)
Definition mlx5_free_actual_buf (buf : mlx5_buf) (c : huge_ctx) : option (list buf_act * huge_ctx) :=
  match buf_type buf with
  | MLX5_ALLOC_TYPE_ANON => Some ([Free (buf_buf buf)], c)
  | MLX5_ALLOC_TYPE_HUGE => c ← free_huge_buf buf c; Some ([], c)
  | MLX5_ALLOC_TYPE_CONTIG => Some ([Munmap (buf_buf buf) (buf_length buf)], c)
  | MLX5_ALLOC_TYPE_EXTERNAL => Some ([ExternFree (buf_buf buf)], c)
  | MLX5_ALLOC_TYPE_CUSTOM => Some ([CustomFree (buf_buf buf)], c)
  | _ => Some ([], c)
  end.

(** ** The type of allocation *)

Definition to_lower (c : Ascii.ascii) : Ascii.ascii :=
  let n := Ascii.N_of_ascii c in if ((65 <=? n) && (n <=? 90))%N then Ascii.ascii_of_N (n + 32) else c.

(** [!strcasecmp(a, b)] *)
Fixpoint same_nocase (a b : String.string) : bool :=
  match a, b with
  | String.EmptyString, String.EmptyString => true
  | String.String x a, String.String y b => bool_decide (to_lower x = to_lower y) && same_nocase a b
  | _, _ => false
  end.

(** [getenv] answers for the variable of the component *)
Definition mlx5_get_alloc_type (custom extern : bool) (env : option String.string) (default_type : mlx5_alloc_type) : mlx5_alloc_type :=
  if custom then MLX5_ALLOC_TYPE_CUSTOM
  else if extern then MLX5_ALLOC_TYPE_EXTERNAL
  else
    match env with
    | None => default_type
    | Some v =>
      if same_nocase v "ANON" then MLX5_ALLOC_TYPE_ANON
      else if same_nocase v "HUGE" then MLX5_ALLOC_TYPE_HUGE
      else if same_nocase v "CONTIG" then MLX5_ALLOC_TYPE_CONTIG
      else if same_nocase v "PREFER_CONTIG" then MLX5_ALLOC_TYPE_PREFER_CONTIG
      else if same_nocase v "PREFER_HUGE" then MLX5_ALLOC_TYPE_PREFER_HUGE
      else if same_nocase v "ALL" then MLX5_ALLOC_TYPE_ALL
      else default_type
    end.

(** [mlx5_is_custom_alloc], [mlx5_is_extern_alloc]: both functions are there *)
Definition mlx5_is_custom_alloc (parent : option (bool * bool)) : bool :=
  match parent with Some (alloc, free) => alloc && free | None => false end.
Definition mlx5_is_extern_alloc (alloc free : bool) : bool := alloc && free.
