(* ===== verification/BufProps.v ===== *)
(** The allocators of queue buffers: the order of a block, the chunks of a region, and the order in
    which the allocators are tried. *)

From stdpp Require Import base numbers list.
From S2P Require Import Prelude Dbrec DbrecProps Buddy Buf.

(** * The order of a block *)

Lemma land_high_zero x k : 0 <= k -> 0 <= x < 2 ^ (k + k) -> Z.land x (Z.shiftl (Z.ones k) k) = 0 <-> x < 2 ^ k.
Proof.
  intros Hk Hx. split.
  - intros H. destruct (decide (x = 0)) as [-> |Hn]; [apply Z.pow_pos_nonneg; lia|]. apply Z.log2_lt_pow2; [lia|].
    assert (Hl : Z.log2 x < k + k) by (apply Z.log2_lt_pow2; lia). pose proof (Z.log2_nonneg x).
    destruct (Z.lt_ge_cases (Z.log2 x) k) as [|Hge]; [done|]. exfalso. apply (f_equal (fun z => Z.testbit z (Z.log2 x))) in H.
    rewrite Z.land_spec, Z.bits_0, Z.shiftl_spec, Z.bit_log2, Z.ones_spec_low in H by lia. done.
  - intros H. apply Z.bits_inj'. intros i Hi. rewrite Z.land_spec, Z.bits_0, Z.shiftl_spec by lia.
    destruct (Z.lt_ge_cases i k) as [|Hge]; [rewrite (Z.testbit_neg_r _ (i - k)) by lia; apply andb_false_r|].
    destruct (decide (x = 0)) as [-> |Hn]; [by rewrite Z.bits_0|]. rewrite Z.bits_above_log2; [done|lia|].
    apply Z.lt_le_trans with k; [apply Z.log2_lt_pow2; lia|lia].
Qed.

(** One step halves the width *)
Lemma order_step_spec v x r k :
  0 < k -> 0 < x < 2 ^ (k + k) -> Z.log2 v = r + Z.log2 x -> 0 <= r -> Z.land r k = 0 ->
  let s := order_step (x, r) (Z.shiftl (Z.ones k) k, k) in
  0 < s.1 < 2 ^ k /\ Z.log2 v = s.2 + Z.log2 s.1 /\ 0 <= s.2 /\ (s.2 = r \/ s.2 = Z.lor r k).
Proof.
  intros Hk Hx Hv Hr Hland. unfold order_step. simpl. pose proof (land_high_zero x k ltac:(lia) ltac:(lia)) as Hz.
  destruct (Z.eqb_spec (Z.land x (Z.shiftl (Z.ones k) k)) 0) as [E|E]; simpl.
  - apply Hz in E. split_and!; lia.
  - assert (Hge : 2 ^ k <= x) by (destruct (Z.lt_ge_cases x (2 ^ k)); [tauto|done]).
    assert (Hlog : k <= Z.log2 x) by (apply Z.log2_le_pow2; lia).
    assert (Hs : Z.log2 (Z.shiftr x k) = Z.log2 x - k) by (rewrite Z.log2_shiftr by lia; lia).
    assert (Hadd : Z.lor r k = r + k) by (rewrite <- Z.lxor_lor, <- Z.add_nocarry_lxor by done; done).
    rewrite Z.pow_add_r in Hx by lia. rewrite Hs, Hadd, Z.shiftr_div_pow2 by lia. split_and!; [|apply Z.div_lt_upper_bound; lia|lia|lia|by right].
    apply Z.div_str_pos. pose proof (Z.pow_pos_nonneg 2 k). lia.
Qed.

Lemma order_loop v :
  1 <= v < 2 ^ 32 -> (foldl order_step (v, 0) [(0xFFFF0000, 16); (0xFF00, 8); (0xF0, 4); (0xC, 2); (0x2, 1)]).2 = Z.log2 v.
Proof.
  intros Hv. simpl. set (s1 := order_step (v, 0) _).
  destruct (order_step_spec v v 0 16) as (H1 & L1 & P1 & O1); [lia|lia|lia|lia|done|].
  change (Z.shiftl (Z.ones 16) 16) with 4294901760 in *. fold s1 in H1, L1, P1, O1.
  assert (D1 : s1.2 = 0 \/ s1.2 = 16) by (destruct O1 as [-> | ->]; auto). clear O1. destruct s1 as [x1 r1]. simpl in *.
  destruct (order_step_spec v x1 r1 8) as (H2 & L2 & P2 & O2); [lia|lia|lia|lia|by destruct D1 as [-> | ->]|].
  change (Z.shiftl (Z.ones 8) 8) with 65280 in *. set (s2 := order_step (x1, r1) _) in *.
  assert (D2 : s2.2 mod 8 = 0 /\ s2.2 < 32) by (destruct O2 as [-> | ->], D1 as [-> | ->]; done). clear O2. destruct s2 as [x2 r2]. simpl in *.
  assert (C2 : r2 = 0 \/ r2 = 8 \/ r2 = 16 \/ r2 = 24) by (destruct D2 as [? ?]; pose proof (Z.div_mod r2 8); lia).
  destruct (order_step_spec v x2 r2 4) as (H3 & L3 & P3 & O3); [lia|lia|lia|lia|by destruct C2 as [-> |[-> |[-> | ->]]]|].
  change (Z.shiftl (Z.ones 4) 4) with 240 in *. set (s3 := order_step (x2, r2) _) in *.
  assert (D3 : Z.land s3.2 2 = 0 /\ Z.land s3.2 1 = 0) by (destruct O3 as [-> | ->], C2 as [-> |[-> |[-> | ->]]]; done).
  clear O3. destruct s3 as [x3 r3]. simpl in *.
  destruct (order_step_spec v x3 r3 2) as (H4 & L4 & P4 & O4); [lia|lia|lia|lia|apply D3|].
  change (Z.shiftl (Z.ones 2) 2) with 12 in *. set (s4 := order_step (x3, r3) _) in *.
  assert (D4 : Z.land s4.2 1 = 0) by (destruct O4 as [-> | ->]; [apply D3|]; rewrite Z.land_lor_distr_l, (proj2 D3); done).
  clear O4. destruct s4 as [x4 r4]. simpl in *.
  destruct (order_step_spec v x4 r4 1) as (H5 & L5 & P5 & _); [lia|lia|lia|lia|done|].
  change (Z.shiftl (Z.ones 1) 1) with 2 in *. destruct (order_step (x4, r4) _) as [x5 r5]. simpl in *.
  replace x5 with 1 in L5 by lia. simpl in L5. lia.
Qed.

(** Rounding up *)
Lemma log2_round_up v : 1 <= v -> Z.log2 v + (if v mod 2 ^ Z.log2 v =? 0 then 0 else 1) = Z.log2_up v.
Proof.
  intros Hv. pose proof (Z.log2_nonneg v) as Hn. pose proof (Z.log2_spec v ltac:(lia)) as Hs. rewrite Z.pow_succ_r in Hs by done.
  destruct (Z.eqb_spec (v mod 2 ^ Z.log2 v) 0) as [E|E].
  - assert (v = 2 ^ Z.log2 v) as Ev.
    { pose proof (Z.div_mod v (2 ^ Z.log2 v) ltac:(lia)) as Hd. assert (v / 2 ^ Z.log2 v = 1) by (symmetry; apply (Z.div_unique _ _ _ (v - 2 ^ Z.log2 v)); lia). lia. }
    rewrite Ev at 2. rewrite Z.log2_up_pow2 by done. lia.
  - destruct (Z.le_gt_cases v 1); [replace v with 1 in E by lia; done|]. pose proof (Z.le_log2_up_succ_log2 v).
    destruct (Z.eq_dec (Z.log2_up v) (Z.log2 v)) as [Eq|Hne]; [|pose proof (Z.le_log2_log2_up v); lia]. exfalso. apply E.
    pose proof (Z.log2_log2_up_exact v ltac:(lia)) as [Hex _]. destruct (Hex ltac:(lia)) as [b Eb].
    assert (Hb : 0 <= b) by (destruct (Z.lt_ge_cases b 0); [rewrite Z.pow_neg_r in Eb by done; lia|done]).
    rewrite Eb, Z.log2_pow2 by done. apply Z.mod_same. lia.
Qed.

(** The bit trick of [mlx5_get_block_order] computes the logarithm to base 2, rounded up,
    of every length from 1 to 2^31 - 1; from 2^31 on it shifts an [int] by 31, which is undefined.
    The caller passes the low 32 bits of the size. *)
Theorem block_order_reference v :
  (1 <= v < 2 ^ 31 -> mlx5_get_block_order v = Some (Z.log2_up v)) /\
  (2 ^ 31 <= v < 2 ^ 32 -> mlx5_get_block_order v = None).
Proof.
  split; intros Hv; unfold mlx5_get_block_order; rewrite order_loop by lia; pose proof (Z.log2_nonneg v).
  - assert (Hl : Z.log2 v < 31) by (apply Z.log2_lt_pow2; lia). destruct (Z.ltb_spec (Z.log2 v) 31); [|lia]. f_equal.
    rewrite Z.shiftl_mul_pow2, Z.mul_1_l, land_pow2_pred by done. apply log2_round_up. lia.
  - assert (Hl : 31 <= Z.log2 v) by (apply Z.log2_le_pow2; lia). destruct (Z.ltb_spec (Z.log2 v) 31); [lia|done].
Qed.

(** * The chunks of a region *)

(** A bitmap of one word whose bits below 31 are in use *)
Definition small (w : Z) : Prop := 0 <= w < 2 ^ 31.

Lemma small_high w i : small w -> 31 <= i -> Z.testbit w i = false.
Proof.
  intros [H0 H1] Hi. destruct (decide (w = 0)) as [-> |Hn]; [apply Z.bits_0|]. apply Z.bits_above_log2; [done|].
  apply Z.lt_le_trans with 31; [apply Z.log2_lt_pow2; lia|done].
Qed.

Lemma small_of_bits w : 0 <= w -> (forall i, 31 <= i -> Z.testbit w i = false) -> small w.
Proof.
  intros H0 H. split; [done|]. destruct (decide (w = 0)) as [-> |Hn]; [done|]. apply Z.log2_lt_pow2; [lia|].
  destruct (Z.lt_ge_cases (Z.log2 w) 31) as [|Hge]; [done|]. specialize (H (Z.log2 w) Hge). rewrite Z.bit_log2 in H by lia. done.
Qed.

Lemma int_bit_low nr : 0 <= nr < 31 -> int_bit nr = Some (2 ^ nr).
Proof.
  intros H. unfold int_bit, BITS_PER_LONG. rewrite Z.mod_small by lia. destruct (Z.ltb_spec nr 31); [|lia].
  by rewrite Z.shiftl_mul_pow2, Z.mul_1_l by lia.
Qed.

Lemma int_bit_high nr : 31 <= nr < 64 -> int_bit nr = None.
Proof. intros H. unfold int_bit, BITS_PER_LONG. rewrite Z.mod_small by lia. by destruct (Z.ltb_spec nr 31); [lia|]. Qed.

Lemma word_index nr : 0 <= nr < 64 -> Z.to_nat (nr / BITS_PER_LONG) = 0%nat.
Proof. intros H. unfold BITS_PER_LONG. by rewrite Z.div_small by lia. Qed.

Lemma test_bit_low w nr : 0 <= nr < 31 -> mlx5_test_bit nr [w] = Some (Z.testbit w nr).
Proof.
  intros H. unfold mlx5_test_bit. rewrite int_bit_low, word_index by lia. simpl. f_equal.
  destruct (Z.testbit w nr) eqn:E.
  - apply negb_true_iff, Z.eqb_neq. intros Hz. apply (f_equal (fun z => Z.testbit z nr)) in Hz.
    rewrite Z.land_spec, E, Z.pow2_bits_true, Z.bits_0 in Hz by lia. done.
  - apply negb_false_iff, Z.eqb_eq. apply Z.bits_inj'. intros i Hi. rewrite Z.land_spec, Z.bits_0.
    destruct (decide (i = nr)) as [-> |Hne]; [by rewrite E|]. rewrite Z.pow2_bits_false by lia. apply andb_false_r.
Qed.

Lemma test_bit_high w nr : 31 <= nr < 64 -> mlx5_test_bit nr [w] = None.
Proof. intros H. unfold mlx5_test_bit. by rewrite int_bit_high by lia. Qed.

Lemma set_bit_low w nr :
  0 <= nr < 31 -> small w -> exists w', mlx5_set_bit nr [w] = Some [w'] /\ small w' /\
    forall i, Z.testbit w' i = (i =? nr) || Z.testbit w i.
Proof.
  intros H Hw. unfold mlx5_set_bit. rewrite int_bit_low, word_index by lia. simpl. exists (Z.lor w (2 ^ nr)). split; [done|].
  assert (Hb : forall i, Z.testbit (Z.lor w (2 ^ nr)) i = (i =? nr) || Z.testbit w i).
  { intros i. rewrite Z.lor_spec, Z.pow2_bits_eqb by lia. rewrite (Z.eqb_sym nr i). apply orb_comm. }
  split; [|done]. apply small_of_bits; [apply Z.lor_nonneg; split; [apply Hw|lia]|].
  intros i Hi. rewrite Hb, small_high by done. destruct (Z.eqb_spec i nr); [lia|done].
Qed.

Lemma clear_bit_low w nr :
  0 <= nr < 31 -> small w -> exists w', mlx5_clear_bit nr [w] = Some [w'] /\ small w' /\
    forall i, Z.testbit w' i = negb (i =? nr) && Z.testbit w i.
Proof.
  intros H Hw. unfold mlx5_clear_bit. rewrite int_bit_low, word_index by lia. simpl. eexists. split; [done|].
  assert (Hb : forall i, Z.testbit (Z.land w (u64 (Z.lnot (2 ^ nr)))) i = negb (i =? nr) && Z.testbit w i).
  { intros i. rewrite Z.land_spec. destruct (Z.lt_ge_cases i 0); [by rewrite !Z.testbit_neg_r, !andb_false_r by done|].
    destruct (Z.lt_ge_cases i 31) as [Hi|Hi]; [|by rewrite (small_high w i), andb_false_r].
    unfold u64. rewrite Z.mod_pow2_bits_low, Z.lnot_spec, Z.pow2_bits_eqb by lia. rewrite (Z.eqb_sym nr i). apply andb_comm. }
  split; [|done]. apply small_of_bits; [apply Z.land_nonneg; left; apply Hw|].
  intros i Hi. rewrite Hb, small_high by done. apply andb_false_r.
Qed.

(** ** A range of bits *)

Definition in_range (o n i : Z) : bool := (o <=? i) && (i <? o + n).

Lemma set_range_low n o w :
  0 <= o -> o + Z.of_nat n <= 31 -> small w -> exists w', on_range mlx5_set_bit o n [w] = Some [w'] /\ small w' /\
    forall i, Z.testbit w' i = in_range o (Z.of_nat n) i || Z.testbit w i.
Proof.
  revert o w. induction n as [|n IH]; intros o w Ho Hn Hw.
  - exists w. split_and!; [done|done|]. intros i. unfold in_range. destruct (Z.leb_spec o i), (Z.ltb_spec i (o + Z.of_nat 0)); try lia; done.
  - destruct (set_bit_low w o ltac:(lia) Hw) as (w1 & E1 & Hw1 & B1). destruct (IH (o + 1) w1) as (w2 & E2 & Hw2 & B2); [lia|lia|done|].
    exists w2. split_and!; [|done|].
    + simpl. rewrite E1. simpl. by rewrite u32_small by lia.
    + intros i. rewrite B2, B1. unfold in_range.
      destruct (Z.leb_spec o i), (Z.leb_spec (o + 1) i), (Z.eqb_spec i o), (Z.ltb_spec i (o + 1 + Z.of_nat n)), (Z.ltb_spec i (o + Z.of_nat (S n))); try lia; done.
Qed.

Lemma clear_range_low n o w :
  0 <= o -> o + Z.of_nat n <= 31 -> small w -> exists w', on_range mlx5_clear_bit o n [w] = Some [w'] /\ small w' /\
    forall i, Z.testbit w' i = negb (in_range o (Z.of_nat n) i) && Z.testbit w i.
Proof.
  revert o w. induction n as [|n IH]; intros o w Ho Hn Hw.
  - exists w. split_and!; [done|done|]. intros i. unfold in_range. destruct (Z.leb_spec o i), (Z.ltb_spec i (o + Z.of_nat 0)); try lia; done.
  - destruct (clear_bit_low w o ltac:(lia) Hw) as (w1 & E1 & Hw1 & B1). destruct (IH (o + 1) w1) as (w2 & E2 & Hw2 & B2); [lia|lia|done|].
    exists w2. split_and!; [|done|].
    + simpl. rewrite E1. simpl. by rewrite u32_small by lia.
    + intros i. rewrite B2, B1. unfold in_range.
      destruct (Z.leb_spec o i), (Z.leb_spec (o + 1) i), (Z.eqb_spec i o), (Z.ltb_spec i (o + 1 + Z.of_nat n)), (Z.ltb_spec i (o + Z.of_nat (S n))); try lia; done.
Qed.

(** ** The search *)

Definition clear_run (w o n : Z) : Prop := forall i, o <= i < o + n -> Z.testbit w i = false.

Lemma test_bit_some w nr x : 0 <= nr < 64 -> mlx5_test_bit nr [w] = Some x -> nr < 31 /\ x = Z.testbit w nr.
Proof.
  intros H E. destruct (Z.lt_ge_cases nr 31); [|by rewrite test_bit_high in E by lia]. rewrite test_bit_low in E by lia. by injection E.
Qed.

Lemma skip_set_spec fuel w start o :
  0 <= start < 64 -> skip_set fuel [w] start 64 1 = Some o ->
  start <= o < 31 /\ Z.testbit w o = false /\ forall i, start <= i < o -> Z.testbit w i = true.
Proof.
  revert start. induction fuel as [|fuel IH]; intros start Hs; simpl; [done|]. destruct (Z.ltb_spec start 64); [|lia].
  destruct (mlx5_test_bit start [w]) as [x|] eqn:E; [|done]. apply test_bit_some in E as [Hlt ->]; [|lia]. simpl.
  destruct (Z.testbit w start) eqn:Eb.
  - rewrite u32_small by lia. intros H1. apply IH in H1 as (H1 & H2 & H3); [|lia]. split_and!; [lia|lia|done|].
    intros i Hi. destruct (decide (i = start)) as [-> |]; [done|apply H3; lia].
  - intros [= <-]. split_and!; [lia|lia|done|lia].
Qed.

Lemma skip_set_total fuel w start j :
  0 <= start <= j -> j < 31 -> Z.testbit w j = false -> j - start < Z.of_nat fuel -> is_Some (skip_set fuel [w] start 64 1).
Proof.
  revert start. induction fuel as [|fuel IH]; intros start Hs Hj Hb Hf; simpl; [lia|]. destruct (Z.ltb_spec start 64); [|lia].
  rewrite test_bit_low by lia. simpl. destruct (Z.testbit w start) eqn:Eb; [|by eexists]. rewrite u32_small by lia.
  apply IH; [|done|done|lia]. destruct (decide (start = j)) as [-> |]; [congruence|lia].
Qed.

Lemma run_blocked_spec w i n r :
  0 <= i -> i + Z.of_nat n <= 64 -> run_blocked [w] i n = Some r ->
  match r with
  | None => clear_run w i (Z.of_nat n) /\ (n = 0%nat \/ i + Z.of_nat n <= 31)
  | Some j => i <= j < i + Z.of_nat n /\ j < 31 /\ Z.testbit w j = true
  end.
Proof.
  revert i. induction n as [|n IH]; intros i Hi Hn; simpl run_blocked.
  { intros [= <-]. split; [intros j Hj; lia|by left]. }
  destruct (mlx5_test_bit i [w]) as [x|] eqn:E; [|done]. apply test_bit_some in E as [Hlt ->]; [|lia]. cbn [mbind option_bind].
  destruct (Z.testbit w i) eqn:Eb; [intros [= <-]; split_and!; [lia|lia|lia|done]|]. rewrite u32_small by lia. intros H. apply IH in H; [|lia|lia].
  destruct r as [j|]; [destruct H as (H & ? & ?); split_and!; [lia|lia|lia|done]|]. destruct H as [H1 H2]. split.
  - intros j Hj. destruct (decide (j = i)) as [-> |]; [done|apply H1; lia].
  - right. lia.
Qed.

Lemma run_blocked_total w i n : 0 <= i -> i + Z.of_nat n <= 31 -> is_Some (run_blocked [w] i n).
Proof.
  revert i. induction n as [|n IH]; intros i Hi Hn; simpl run_blocked; [by eexists|]. rewrite test_bit_low by lia. simpl.
  destruct (Z.testbit w i); [by eexists|]. rewrite u32_small by lia. apply IH; lia.
Qed.

Lemma align_1 x : 0 <= x < 2 ^ 32 -> u32 (align x 1) = x.
Proof.
  intros Hx. unfold align. replace (u64 (Z.lnot (1 - 1))) with (2 ^ 64 - 1) by done. replace (x + 1 - 1) with x by lia.
  rewrite land_pow2_pred, u64_small by lia. rewrite Z.mod_small by lia. by apply u32_small.
Qed.

(** What the search from [start] finds is the first run of [n] clear bits, all below 31 *)
Lemma find_range_spec fuel w start n o :
  0 <= start < 64 -> 1 <= n <= 64 -> find_aligned_range fuel [w] start 64 n 1 = Some o ->
  (o = no_obj /\ 33 < n) \/ (start <= o /\ o + n <= 31 /\ clear_run w o n /\ forall o', start <= o' < o -> ~ clear_run w o' n).
Proof.
  intros Hs Hn. revert start Hs. induction fuel as [|fuel IH]; intros start Hs; cbn [find_aligned_range]; [done|]. rewrite align_1 by lia.
  destruct (skip_set _ _ _ _ _) as [s1|] eqn:E1; [|done]. apply skip_set_spec in E1 as (H1 & H2 & H3); [|lia]. simpl.
  destruct (Z.leb_spec 64 s1); [lia|]. rewrite !u32_small by lia. destruct (Z.ltb_spec 64 (s1 + n)); [intros [= <-]; left; split; [done|lia]|].
  destruct (run_blocked _ _ _) as [r|] eqn:E2; [|done]. simpl. apply run_blocked_spec in E2; [|lia|lia].
  assert (Hskip : forall o', start <= o' < s1 -> ~ clear_run w o' n).
  { intros o' Ho' Hc. specialize (Hc o' ltac:(lia)). rewrite H3 in Hc by lia. done. }
  destruct r as [j|].
  - destruct E2 as (Hj & Hj' & Hb). rewrite u32_small by lia. intros H4. apply IH in H4; [|lia].
    destruct H4 as [|(H4 & H5 & H6 & H7)]; [by left|right]. split_and!; [lia|lia|done|]. intros o' Ho' Hc.
    destruct (Z.lt_ge_cases o' s1); [by apply (Hskip o'); [lia|]|]. destruct (Z.lt_ge_cases j o'); [by apply (H7 o'); [lia|]|].
    specialize (Hc j ltac:(lia)). congruence.
  - intros [= <-]. right. destruct E2 as [Hc Hb]. split_and!; [lia|destruct Hb; lia| |done].
    intros i Hi. destruct (decide (i = s1)) as [-> |]; [done|]. apply Hc. lia.
Qed.

(** It finds one when there is one *)
Lemma find_range_total fuel w start n j :
  0 <= start <= j -> 1 <= n -> j + n <= 31 -> clear_run w j n -> j - start < Z.of_nat fuel ->
  exists o, find_aligned_range fuel [w] start 64 n 1 = Some o /\ o <> no_obj.
Proof.
  intros Hs Hn Hj Hc. revert start Hs. induction fuel as [|fuel IH]; intros start Hs Hf; [lia|]. cbn [find_aligned_range]. rewrite align_1 by lia.
  destruct (skip_set_total (S (Z.to_nat 64)) w start j) as [s1 E1]; [lia|lia|apply Hc; lia|lia|]. rewrite E1. simpl.
  apply skip_set_spec in E1 as (H1 & H2 & H3); [|lia].
  assert (Hsj : s1 <= j) by (destruct (Z.lt_ge_cases j s1); [|done]; specialize (H3 j ltac:(lia)); rewrite Hc in H3 by lia; done).
  destruct (Z.leb_spec 64 s1); [lia|]. rewrite !u32_small by lia. destruct (Z.ltb_spec 64 (s1 + n)); [lia|].
  destruct (run_blocked_total w (s1 + 1) (Z.to_nat (s1 + n - (s1 + 1)))) as [r E2]; [lia|lia|]. rewrite E2. simpl.
  apply run_blocked_spec in E2; [|lia|lia]. destruct r as [i|]; [|exists s1; split; [done|unfold no_obj; lia]].
  destruct E2 as (Hi & Hi' & Hb). rewrite u32_small by lia. apply IH; [|lia].
  destruct (Z.lt_ge_cases i j); [lia|]. rewrite Hc in Hb by lia. done.
Qed.

(** ** The bitmap of a region of 64 chunks *)

Definition cnt_used (w : Z) : Z := sumZ (fun i => Z.b2z (Z.testbit w i)) (seqZ 0 31).

Lemma sumZ_add {A} (f g h : A -> Z) l : (forall x, f x = g x + h x) -> sumZ f l = sumZ g l + sumZ h l.
Proof. intros H. induction l as [|x l IH]; simpl; [done|]. rewrite H, IH. lia. Qed.

Lemma sumZ_le {A} (f g : A -> Z) l : (forall x, f x <= g x) -> sumZ f l <= sumZ g l.
Proof. intros H. induction l as [|x l IH]; simpl; [done|]. specialize (H x). lia. Qed.

Lemma cnt_used_range w : 0 <= cnt_used w <= 31.
Proof.
  split; [apply sumZ_nonneg, Forall_forall; intros i _; by destruct (Z.testbit w i)|].
  apply (Z.le_trans _ (sumZ (fun _ => 1) (seqZ 0 31))); [|by vm_compute]. apply sumZ_le. intros i. by destruct (Z.testbit w i).
Qed.

(** A range below 31 has as many elements as it is long *)
Lemma range_cnt o n : 0 <= o -> 0 <= n -> o + n <= 31 -> sumZ (fun i => Z.b2z (in_range o n i)) (seqZ 0 31) = n.
Proof.
  intros Ho Hn Hm.
  assert (H : Forall (fun o => Forall (fun n => (31 <? o + n) || (sumZ (fun i => Z.b2z (in_range o n i)) (seqZ 0 31) =? n) = true) (seqZ 0 32)) (seqZ 0 32))
    by (apply (bool_decide_unpack _); by vm_compute).
  rewrite Forall_forall in H. specialize (H o ltac:(apply elem_of_seqZ; lia)). rewrite Forall_forall in H.
  specialize (H n ltac:(apply elem_of_seqZ; lia)). lia.
Qed.

Lemma cnt_used_add w w' o n :
  0 <= o -> 0 <= n -> o + n <= 31 -> clear_run w o n -> (forall i, Z.testbit w' i = in_range o n i || Z.testbit w i) ->
  cnt_used w' = cnt_used w + n.
Proof.
  intros Ho Hn Hm Hc Hb. unfold cnt_used. rewrite (sumZ_add _ (fun i => Z.b2z (in_range o n i)) (fun i => Z.b2z (Z.testbit w i))), range_cnt by done || (intros i; rewrite Hb; destruct (in_range o n i) eqn:E; [|done]; rewrite Hc by (unfold in_range in E; lia); done).
  lia.
Qed.

(** A region of one huge page, of whose chunks those in [w] are in use *)
Record bmp_ok (b : mlx5_bitmap) (w : Z) : Prop := {
  bo_max : bmp_max b = 64;
  bo_mask : bmp_mask b = 63;
  bo_top : bmp_top b = 0;
  bo_table : bmp_table b = [w];
  bo_small : small w;
  bo_last : 0 <= bmp_last b <= 31;
  bo_avail : bmp_avail b = 64 - cnt_used w
}.

Lemma first_zero_low w :
  small w -> exists o, mlx5_find_first_zero_bit [w] 0 64 = Some o /\ 0 <= o <= 31 /\ Z.testbit w o = false /\
    forall i, 0 <= i < o -> Z.testbit w i = true.
Proof.
  intros Hw. cbn [mlx5_find_first_zero_bit]. replace (negb (Z.land 64 (Z.lnot (BITS_PER_LONG - 1)) =? 0)) with true by done.
  pose proof Hw as [H0 H1]. destruct (Z.eqb_spec w (2 ^ 64 - 1)); [lia|]. rewrite (u32_small w) by lia. unfold mlx5_ffz. set (x := u32 (Z.lnot w)).
  assert (Hx : forall i, 0 <= i < 32 -> Z.testbit x i = negb (Z.testbit w i)) by (intros i Hi; unfold x, u32; rewrite Z.mod_pow2_bits_low, Z.lnot_spec by lia; done).
  assert (Hxr : 0 <= x < 2 ^ 32) by apply u32_range.
  assert (Hxn : x <> 0) by (intros E; specialize (Hx 31 ltac:(lia)); rewrite E, Z.bits_0, small_high in Hx by done || lia; done).
  destruct (ffsl_spec x ltac:(lia) Hxn) as (Hf & Hb & Hlt). set (o := ffsl x - 1) in *.
  assert (Ho : o <= 31) by (destruct (Z.le_gt_cases o 31); [done|]; specialize (Hlt 31 ltac:(lia)); rewrite Hx, small_high in Hlt by done || lia; done).
  exists o. rewrite u64_small, u32_small by lia. rewrite Hx in Hb by lia. split_and!; [f_equal; lia|lia|lia|by apply negb_true_iff|].
  intros i Hi. specialize (Hlt i Hi). rewrite Hx in Hlt by lia. by apply negb_false_iff.
Qed.

Lemma s32_neg x : 0 <= x < 2 ^ 31 -> (s32 x =? -1) = false.
Proof. intros H. rewrite s32_small by lia. destruct (Z.eqb_spec x (-1)); [lia|done]. Qed.

(** Taking [n] chunks from a region: nothing changes, or a run of free chunks below 31 is taken *)
Lemma alloc_range_spec b w n r b' :
  bmp_ok b w -> 1 <= n < 2 ^ 31 -> bitmap_alloc_range b n 1 = Some (r, b') ->
  (r = -1 /\ bmp_ok b' w) \/
  (0 <= r /\ r + n <= 31 /\ clear_run w r n /\ exists w', bmp_ok b' w' /\ forall i, Z.testbit w' i = in_range r n i || Z.testbit w i).
Proof.
  intros [Hm Hk Ht Htab Hw Hl Ha] Hn. pose proof (cnt_used_range w) as Hcw. unfold bitmap_alloc_range. rewrite Z.eqb_refl. destruct (Z.eqb_spec n 1) as [-> |Hn1]; cbn [andb].
  - unfold mlx5_bitmap_alloc. rewrite Htab, Hm, Ht. destruct (first_zero_low w Hw) as (o & E & Ho & Hb & _). rewrite E. cbn [mbind option_bind].
    destruct (Z.ltb_spec o 64); [|lia]. destruct (Z.lt_ge_cases o 31) as [Ho31|].
    2: { unfold mlx5_set_bit. by rewrite int_bit_high by lia. }
    destruct (set_bit_low w o ltac:(lia) Hw) as (w' & Es & Hw' & Bw'). rewrite Es. cbn [mbind option_bind].
    rewrite Z.lor_0_r, s32_neg, u32_small, s32_small by lia. intros [= <- <-]. right.
    assert (Hc : clear_run w o 1) by (intros i Hi; by replace i with o by lia).
    assert (Hr : forall i, Z.testbit w' i = in_range o 1 i || Z.testbit w i).
    { intros i. rewrite Bw'. f_equal. unfold in_range. destruct (Z.eqb_spec i o); lia. }
    split_and!; [lia|lia|done|]. exists w'. split; [|done]. pose proof (cnt_used_add w w' o 1 ltac:(lia) ltac:(lia) ltac:(lia) Hc Hr).
    split; simpl; try done; [destruct (Z.eqb_spec (o + 1) 64); lia|rewrite u32_small; lia].
  - rewrite Hm, Htab, Ht, Hk, u32_small by lia. destruct (Z.ltb_spec 64 n); [intros [= <- <-]; left; split; [done|by split]|].
    replace (Z.land (u32 (0 + 64)) 63) with 0 by done. set (fuel := S (Z.to_nat 64)).
    destruct (find_aligned_range fuel [w] (bmp_last b) 64 n 1) as [o1|] eqn:E1; [|done]. cbn [mbind option_bind].
    apply find_range_spec in E1; [|lia|lia].
    set (y := if 64 <=? o1 then _ else _).
    assert (Hy : forall o top, y = Some (o, top) -> top = 0 /\ (o = no_obj \/ (0 <= o /\ o + n <= 31 /\ clear_run w o n))).
    { intros o top. unfold y. destruct (64 <=? o1).
      - destruct (find_aligned_range fuel [w] 0 64 n 1) as [o2|] eqn:E2; [|done]. simpl. intros [= <- <-].
        apply find_range_spec in E2; [|lia|lia]. split; [done|]. destruct E2 as [[? _]|(? & ? & ? & _)]; [by left|right; split_and!; done || lia].
      - intros [= <- <-]. split; [done|]. destruct E1 as [[? _]|(? & ? & ? & _)]; [by left|right; split_and!; done || lia]. }
    destruct y as [[o top]|]; [|done]. cbn [mbind option_bind]. destruct (Hy o top eq_refl) as [-> Ho]. destruct Ho as [-> |(Ho & Hon & Hc)].
    + simpl. intros [= <- <-]. left. split; [done|]. by split.
    + destruct (Z.ltb_spec o 64); [|lia]. destruct (set_range_low (Z.to_nat n) o w) as (w' & Es & Hw' & Bw'); [lia|lia|done|].
      rewrite Es. cbn [mbind option_bind]. rewrite Z.lor_0_r, s32_neg, s32_small by lia. intros [= <- <-]. right. rewrite Z2Nat.id in Bw' by lia.
      split_and!; [lia|lia|done|]. exists w'. split; [|done]. pose proof (cnt_used_add w w' o n ltac:(lia) ltac:(lia) ltac:(lia) Hc Bw').
      split; simpl; try done; [|rewrite u32_small; lia]. rewrite u32_small by lia.
      destruct (Z.eqb_spec o (bmp_last b)); [destruct (Z.leb_spec 64 (o + n)); lia|lia].
Qed.

Lemma free_range_spec b w o n :
  bmp_ok b w -> 0 <= o -> 1 <= n -> o + n <= 31 -> (forall i, o <= i < o + n -> Z.testbit w i = true) ->
  exists b' w', bitmap_free_range b o n = Some b' /\ bmp_ok b' w' /\
    (forall i, Z.testbit w' i = negb (in_range o n i) && Z.testbit w i) /\ cnt_used w = cnt_used w' + n.
Proof.
  intros [Hm Hk Ht Htab Hw Hl Ha] Ho Hn Hon Hset. unfold bitmap_free_range. rewrite Hm, Htab, Ht, Hk.
  replace (Z.land (u32 o) (u32 (64 - 1))) with o.
  2: { rewrite u32_small by lia. change (u32 (64 - 1)) with (2 ^ 6 - 1). rewrite land_pow2_pred, Z.mod_small by lia. done. }
  destruct (clear_range_low (Z.to_nat n) o w) as (w' & Es & Hw' & Bw'); [lia|lia|done|]. rewrite Es. cbn [mbind option_bind].
  rewrite Z2Nat.id in Bw' by lia. eexists _, w'. split; [done|].
  assert (Hc : cnt_used w = cnt_used w' + n).
  { apply (cnt_used_add w' w o n); [lia|lia|lia| |].
    - intros i Hi. rewrite Bw'. unfold in_range. destruct (Z.leb_spec o i), (Z.ltb_spec i (o + n)); lia || done.
    - intros i. rewrite Bw'. destruct (in_range o n i) eqn:E; [|done]. unfold in_range in E. rewrite Hset by lia. done. }
  pose proof (cnt_used_range w). pose proof (cnt_used_range w'). split_and!; [|done|done].
  split; simpl; try done; [lia|rewrite u32_small; lia].
Qed.

(** Taking chunks from a region of one huge page (64 chunks): a single chunk is the lowest
    free one; a buffer of 2 to 31 chunks goes to the first run of free chunks from [last] on; in
    both cases only among the first 31 chunks of the region, and when they have no room the
    bitmap functions shift an [int] by 31, which is undefined: the second half of the region is
    never used. *)
Theorem chunk_alloc_exact b w :
  bmp_ok b w ->
  match bitmap_alloc_range b 1 1 with
  | Some (r, _) => 0 <= r < 31 /\ Z.testbit w r = false /\ forall i, 0 <= i < r -> Z.testbit w i = true
  | None => forall i, 0 <= i < 31 -> Z.testbit w i = true
  end /\
  forall n, 2 <= n <= 31 ->
  match bitmap_alloc_range b n 1 with
  | Some (r, _) => bmp_last b <= r /\ r + n <= 31 /\ clear_run w r n /\ forall o, bmp_last b <= o < r -> ~ clear_run w o n
  | None => forall o, bmp_last b <= o -> o + n <= 31 -> ~ clear_run w o n
  end.
Proof.
  intros [Hm Hk Ht Htab Hw Hl Ha]. unfold bitmap_alloc_range. rewrite Z.eqb_refl. split.
  - cbn [andb]. unfold mlx5_bitmap_alloc. rewrite Htab, Hm, Ht. destruct (first_zero_low w Hw) as (o & E & Ho & Hb & Hlt). rewrite E.
    cbn [mbind option_bind]. destruct (Z.ltb_spec o 64); [|lia]. destruct (Z.lt_ge_cases o 31) as [Ho31|].
    + destruct (set_bit_low w o ltac:(lia) Hw) as (w' & Es & _). rewrite Es. cbn [mbind option_bind]. rewrite Z.lor_0_r, s32_small by lia.
      split_and!; [lia|lia|done|done].
    + unfold mlx5_set_bit. rewrite int_bit_high by lia. intros i Hi. apply Hlt. lia.
  - intros n Hn. destruct (Z.eqb_spec n 1); [lia|]. cbn [andb]. rewrite Hm, Htab, Ht, Hk, u32_small by lia. destruct (Z.ltb_spec 64 n); [lia|].
    set (fuel := S (Z.to_nat 64)). destruct (find_aligned_range fuel [w] (bmp_last b) 64 n 1) as [r|] eqn:E; cbn [mbind option_bind].
    + apply find_range_spec in E as [[_ ?]|(H1 & H2 & H3 & H4)]; [lia| |lia|lia]. destruct (Z.leb_spec 64 r); [lia|]. cbn [mbind option_bind].
      destruct (Z.ltb_spec r 64); [|lia]. destruct (set_range_low (Z.to_nat n) r w) as (w' & Es & _); [lia|lia|done|]. rewrite Es. cbn [mbind option_bind].
      rewrite Z.lor_0_r, s32_small by lia. done.
    + intros o Ho Hon Hc. destruct (find_range_total fuel w (bmp_last b) n o) as (o' & E' & _); [lia|lia|lia|done|lia|]. congruence.
Qed.

(** A region with nothing in use: the first chunk, and chunks 0 to 3 for four of them *)
Lemma chunk_alloc_exact_witness :
  match bitmap_alloc_range (mk_bmp 0 0 64 64 63 [0]) 4 1 with
  | Some (r, _) => 0 <= r /\ r + 4 <= 31 /\ clear_run 0 r 4
  | None => False
  end.
Proof.
  assert (Hb : bmp_ok (mk_bmp 0 0 64 64 63 [0]) 0) by (by split).
  pose proof (proj2 (chunk_alloc_exact (mk_bmp 0 0 64 64 63 [0]) 0 Hb) 4 ltac:(lia)) as H.
  destruct (bitmap_alloc_range (mk_bmp 0 0 64 64 63 [0]) 4 1) as [[r b']|] eqn:E; [|by vm_compute in E].
  destruct H as (H1 & H2 & H3 & _). done.
Defined.
