(* ===== verification/BufSpec.v ===== *)
(** Buffers from huge pages: over every sequence of allocations and frees that stays defined, the
    buffers in use lie apart and inside their regions, freeing always works, and what the
    allocator holds is what its regions need. *)

From stdpp Require Import base numbers list.
From S2P Require Import Prelude Dbrec DbrecProps Buddy Buf BufProps.

(** * The state of the allocator *)

Definition nch (b : mlx5_buf) : Z := buf_length b / MLX5_Q_CHUNK_SIZE.
Definition covers (b : mlx5_buf) (p : nat) (i : Z) : Prop := buf_hmem b = p /\ buf_base b <= i < buf_base b + nch b.

(** The bits of a region are the chunks of the buffers in it *)
Definition region_ok (live : list mlx5_buf) (h : mlx5_hugetlb_mem) : Prop :=
  exists w, bmp_ok (hm_bitmap h) w /\ forall i, Z.testbit w i = true <-> exists b, b ∈ live /\ covers b (hm_ptr h) i.

Definition region_res (h : mlx5_hugetlb_mem) : list hres := [HMem (hm_ptr h); HTable (hm_ptr h); HMap (shmaddr h)].

(** Where a buffer is *)
Definition placed_in (l : list mlx5_hugetlb_mem) (b : mlx5_buf) : Prop :=
  exists h, h ∈ l /\ hm_ptr h = buf_hmem b /\ buf_buf b = shmaddr h + buf_base b * MLX5_Q_CHUNK_SIZE.
Definition shaped (b : mlx5_buf) : Prop :=
  0 <= buf_base b /\ 1 <= nch b /\ buf_base b + nch b <= 31 /\ buf_length b = nch b * MLX5_Q_CHUNK_SIZE.

Definition bufs_apart (b b' : mlx5_buf) : Prop := forall p i, covers b p i -> ~ covers b' p i.

(** Some region may have no buffer in it *)
Record hctx_pre (c : huge_ctx) (live : list mlx5_buf) : Prop := {
  ho_ptrs : NoDup (hm_ptr <$> hugetlb_list c);
  ho_next : Forall (fun h => (hm_ptr h < hg_next c)%nat) (hugetlb_list c);
  ho_addrs : NoDup (shmaddr <$> hugetlb_list c);
  ho_regions : Forall (region_ok live) (hugetlb_list c);
  ho_live : Forall (fun b => placed_in (hugetlb_list c) b /\ shaped b) live;
  ho_apart : ForallOrdPairs bufs_apart live;
  ho_held : forall x, x ∈ hg_held c <-> exists h, h ∈ hugetlb_list c /\ x ∈ region_res h
}.

Definition used_by (live : list mlx5_buf) (h : mlx5_hugetlb_mem) : Prop := exists b, b ∈ live /\ buf_hmem b = hm_ptr h.

Definition hctx_ok (c : huge_ctx) (live : list mlx5_buf) : Prop := hctx_pre c live /\ Forall (used_by live) (hugetlb_list c).

(** ** Regions that are the same for their buffers *)

Definition same_region (h h' : mlx5_hugetlb_mem) : Prop :=
  hm_ptr h' = hm_ptr h /\ shmid h' = shmid h /\ shmaddr h' = shmaddr h /\ forall w, bmp_ok (hm_bitmap h) w -> bmp_ok (hm_bitmap h') w.

Lemma same_region_refl h : same_region h h.
Proof. by split_and!. Qed.

Lemma same_ptrs l l' : Forall2 same_region l l' -> hm_ptr <$> l' = hm_ptr <$> l /\ shmaddr <$> l' = shmaddr <$> l.
Proof. induction 1 as [|h h' l l' (H1 & _ & H2 & _) _ [IH1 IH2]]; [done|]. rewrite !fmap_cons. split; congruence. Qed.

Lemma same_elem l l' h : Forall2 same_region l l' -> h ∈ l -> exists h', h' ∈ l' /\ same_region h h'.
Proof.
  intros H Hh. apply list_elem_of_lookup in Hh as [i Hi]. destruct (Forall2_lookup_l _ _ _ _ _ H Hi) as (h' & Hi' & Hs). exists h'.
  split; [by eapply list_elem_of_lookup_2|done].
Qed.

Lemma same_elem_r l l' h : Forall2 same_region l l' -> h ∈ l' -> exists h', h' ∈ l /\ same_region h' h.
Proof.
  intros H Hh. apply list_elem_of_lookup in Hh as [i Hi]. destruct (Forall2_lookup_r _ _ _ _ _ H Hi) as (h' & Hi' & Hs). exists h'.
  split; [by eapply list_elem_of_lookup_2|done].
Qed.

Lemma hctx_same c l live : hctx_ok c live -> Forall2 same_region (hugetlb_list c) l -> hctx_ok (set_list l c) live.
Proof.
  intros [[H1 H2 H3 H4 H6 H7 H8] H5] Hs. destruct (same_ptrs _ _ Hs) as [E1 E2]. split; [split; simpl|].
  - by rewrite E1.
  - apply Forall_forall. intros h Hh. destruct (same_elem_r _ _ _ Hs Hh) as (h' & Hh' & E & _). rewrite E. by eapply Forall_forall in H2.
  - by rewrite E2.
  - apply Forall_forall. intros h Hh. destruct (same_elem_r _ _ _ Hs Hh) as (h' & Hh' & E & _ & _ & Hb).
    eapply Forall_forall in H4 as (w & Hw & Hi); [|exact Hh']. exists w. split; [by apply Hb|]. intros i. by rewrite Hi, E.
  - eapply Forall_impl; [exact H6|]. intros b [(h & Hh & Hp & Hb) Hsh]. split; [|done].
    destruct (same_elem _ _ _ Hs Hh) as (h' & Hh' & E & _ & Ea & _). exists h'. by rewrite E, Ea.
  - done.
  - intros x. rewrite H8. unfold region_res. split.
    + intros (h & Hh & Hx). destruct (same_elem _ _ _ Hs Hh) as (h' & Hh' & E & _ & Ea & _). exists h'. by rewrite E, Ea.
    + intros (h & Hh & Hx). destruct (same_elem_r _ _ _ Hs Hh) as (h' & Hh' & E & _ & Ea & _). exists h'. by rewrite <- E, <- Ea.
  - apply Forall_forall. intros h Hh. destruct (same_elem_r _ _ _ Hs Hh) as (h' & Hh' & E & _). unfold used_by. rewrite E. by eapply Forall_forall in H5.
Qed.

(** ** Taking chunks *)

Lemma ord_pairs_snoc {A} (R : A -> A -> Prop) l x : ForallOrdPairs R l -> Forall (fun y => R y x) l -> ForallOrdPairs R (l ++ [x]).
Proof.
  induction 1 as [|y l Hy _ IH]; intros H; simpl; [repeat constructor|]. apply Forall_cons in H as [Hyx H]. constructor; [|by apply IH].
  apply Forall_app. split; [done|by constructor].
Qed.

Lemma other_ptr l1 h0 l2 h : NoDup (hm_ptr <$> (l1 ++ h0 :: l2)) -> h ∈ l1 ++ l2 -> hm_ptr h <> hm_ptr h0.
Proof.
  intros Hn Hh E. rewrite fmap_app, fmap_cons in Hn. apply NoDup_app in Hn as (_ & Hd & Hn). apply NoDup_cons in Hn as [Hn _].
  apply elem_of_app in Hh as [Hh|Hh]; apply (list_elem_of_fmap_2 hm_ptr) in Hh; rewrite E in Hh; [|done]. apply (Hd _ Hh). by left.
Qed.

Lemma place_chunks c live l1 h0 l2 w b' w' buf :
  hctx_pre c live -> hugetlb_list c = l1 ++ h0 :: l2 -> bmp_ok (hm_bitmap h0) w -> bmp_ok b' w' -> shaped buf ->
  buf_hmem buf = hm_ptr h0 -> buf_buf buf = shmaddr h0 + buf_base buf * MLX5_Q_CHUNK_SIZE -> clear_run w (buf_base buf) (nch buf) ->
  (forall i, Z.testbit w' i = in_range (buf_base buf) (nch buf) i || Z.testbit w i) -> Forall (used_by live) (l1 ++ l2) ->
  hctx_ok (set_list (l1 ++ set_bitmap b' h0 :: l2) c) (live ++ [buf]).
Proof.
  intros [H1 H2 H3 H4 H6 H7 H8] El Hw Hb' Hsh Hp Ha Hc Hbits Hu. rewrite El in *.
  assert (Hfm : forall {B} (f : mlx5_hugetlb_mem -> B), f (set_bitmap b' h0) = f h0 -> f <$> (l1 ++ set_bitmap b' h0 :: l2) = f <$> (l1 ++ h0 :: l2)).
  { intros B f E. by rewrite !fmap_app, !fmap_cons, E. }
  assert (Hin : forall h, h ∈ l1 ++ set_bitmap b' h0 :: l2 <-> h = set_bitmap b' h0 \/ h ∈ l1 ++ l2) by (intros h; rewrite !elem_of_app, elem_of_cons; tauto).
  assert (Hin0 : forall h, h ∈ l1 ++ h0 :: l2 <-> h = h0 \/ h ∈ l1 ++ l2) by (intros h; rewrite !elem_of_app, elem_of_cons; tauto).
  assert (Hr0 : region_ok live h0) by (eapply Forall_forall; [exact H4|apply Hin0; by left]). destruct Hr0 as (w0 & Hw0 & Hi0).
  assert (w0 = w) as -> by (pose proof (bo_table _ _ Hw0) as E0; rewrite (bo_table _ _ Hw) in E0; by injection E0).
  split; [split; simpl|].
  - by rewrite (Hfm _ hm_ptr eq_refl).
  - apply Forall_forall. intros h [-> |Hh]%Hin; simpl; [change (hm_ptr (set_bitmap b' h0)) with (hm_ptr h0)|]; (eapply Forall_forall in H2; [exact H2|apply Hin0; auto]).
  - by rewrite (Hfm _ shmaddr eq_refl).
  - apply Forall_forall. intros h [-> |Hh]%Hin.
    + exists w'. split; [done|]. intros i. change (hm_ptr (set_bitmap b' h0)) with (hm_ptr h0). rewrite Hbits, orb_true_iff, Hi0.
      setoid_rewrite elem_of_app. setoid_rewrite list_elem_of_singleton. unfold covers. rewrite <- Hp. unfold in_range. split.
      * intros [Hr|(b & Hb & ?)]; [exists buf; split; [by right|split; [done|lia]]|exists b; auto].
      * intros (b & [Hb| ->] & ?); [right; exists b; auto|left; lia].
    + eapply Forall_forall in H4 as (wh & Hwh & Hih); [|apply Hin0; by right]. exists wh. split; [done|]. intros i. rewrite Hih.
      pose proof (other_ptr l1 h0 l2 h H1 Hh). setoid_rewrite elem_of_app. setoid_rewrite list_elem_of_singleton. split; [naive_solver|].
      intros (b & [Hb| ->] & Hcv); [eauto|]. destruct Hcv as [? _]. congruence.
  - apply Forall_app. split; [|constructor; [|done]].
    + eapply Forall_impl; [exact H6|]. intros b [(h & Hh & E1 & E2) Hs]. split; [|done]. apply Hin0 in Hh as [-> |Hh].
      * exists (set_bitmap b' h0). split; [apply Hin; by left|done].
      * exists h. split; [apply Hin; by right|done].
    + split; [|done]. exists (set_bitmap b' h0). split; [apply Hin; by left|done].
  - apply ord_pairs_snoc; [done|]. apply Forall_forall. intros b Hb p i Hcb [Hp' Hi']. assert (Z.testbit w i = true) as E.
    { apply Hi0. exists b. split; [done|]. rewrite <- Hp, Hp'. done. }
    by rewrite Hc in E.
  - intros x. rewrite H8. split; intros (h & Hh & Hx).
    + apply Hin0 in Hh as [-> |Hh]; [exists (set_bitmap b' h0)|exists h]; (split; [apply Hin; auto|done]).
    + apply Hin in Hh as [-> |Hh]; [exists h0|exists h]; (split; [apply Hin0; auto|done]).
  - apply Forall_forall. intros h [-> |Hh]%Hin; [exists buf; split; [apply elem_of_app; right; by left|done]|].
    eapply Forall_forall in Hu as (b & Hb & E); [|exact Hh]. exists b. split; [apply elem_of_app; by left|done].
Qed.

(** ** Giving chunks back *)

Lemma ord_pairs_mid {A} (R : A -> A -> Prop) l1 x l2 :
  ForallOrdPairs R (l1 ++ x :: l2) -> Forall (fun y => R y x) l1 /\ Forall (R x) l2 /\ ForallOrdPairs R (l1 ++ l2).
Proof.
  induction l1 as [|y l1 IH]; simpl; intros H; inversion_clear H as [|? ? Hy H']; [done|]. destruct (IH H') as (I1 & I2 & I3).
  apply Forall_app in Hy as [Hy1 Hy2]. apply Forall_cons in Hy2 as [Hyx Hy2]. split_and!; [by constructor|done|]. constructor; [|done]. by apply Forall_app.
Qed.

Lemma cnt_zero_bits w : cnt_used w = 0 -> forall i, 0 <= i < 31 -> Z.testbit w i = false.
Proof.
  intros H i Hi. assert (Hin : i ∈ seqZ 0 31) by (apply elem_of_seqZ; lia). unfold cnt_used in H. revert Hin H.
  induction (seqZ 0 31) as [|j l IH]; [by intros ?%not_elem_of_nil|]. intros Hin H. simpl in H.
  pose proof (sumZ_nonneg (fun i => Z.b2z (Z.testbit w i)) l) as Hnn. assert (0 <= sumZ (fun i => Z.b2z (Z.testbit w i)) l).
  { apply Hnn, Forall_forall. intros k _. by destruct (Z.testbit w k). }
  apply elem_of_cons in Hin as [-> |Hin]; [destruct (Z.testbit w j); [simpl in H; lia|done]|]. apply IH; [done|]. destruct (Z.testbit w j); simpl in H; lia.
Qed.

Lemma find_region_spec l p h :
  NoDup (hm_ptr <$> l) -> h ∈ l -> hm_ptr h = p -> exists l1 l2, l = l1 ++ h :: l2 /\ find_region p l = Some (length l1, h).
Proof.
  intros Hn Hh Hp. apply list_elem_of_split in Hh as (l1 & l2 & ->). exists l1, l2. split; [done|]. apply list_find_Some. split_and!.
  - by rewrite lookup_app_r, Nat.sub_diag.
  - done.
  - intros j y Hj Hlt Ey. rewrite lookup_app_l in Hj by done. apply (other_ptr l1 h l2 y Hn); [|congruence].
    apply elem_of_app. left. by eapply list_elem_of_lookup_2.
Qed.

(** The bits of the region after a buffer has left it *)
Lemma bits_after live1 b live2 p w w' :
  buf_hmem b = p -> ForallOrdPairs bufs_apart (live1 ++ b :: live2) ->
  (forall i, Z.testbit w i = true <-> exists b', b' ∈ live1 ++ b :: live2 /\ covers b' p i) ->
  (forall i, Z.testbit w' i = negb (in_range (buf_base b) (nch b) i) && Z.testbit w i) ->
  forall i, Z.testbit w' i = true <-> exists b', b' ∈ live1 ++ live2 /\ covers b' p i.
Proof.
  intros Hp Ha Hw Hw' i. destruct (ord_pairs_mid _ _ _ _ Ha) as (A1 & A2 & _).
  assert (Hr : in_range (buf_base b) (nch b) i = true <-> covers b p i) by (unfold in_range, covers; lia).
  rewrite Hw', andb_true_iff, negb_true_iff, Hw. split.
  - intros [Hn (b' & Hb' & Hc)]. exists b'. split; [|done]. rewrite elem_of_app, elem_of_cons in Hb'. rewrite elem_of_app.
    destruct Hb' as [?|[-> |?]]; [by left| |by right]. apply Hr in Hc. congruence.
  - intros (b' & Hb' & Hc). split.
    + destruct (in_range (buf_base b) (nch b) i) eqn:E; [|done]. exfalso. pose proof (proj1 Hr eq_refl) as Hcb. apply elem_of_app in Hb' as [Hb'|Hb'].
      * eapply Forall_forall in A1; [|exact Hb']. by apply (A1 p i).
      * eapply Forall_forall in A2; [|exact Hb']. by apply (A2 p i).
    + exists b'. split; [|done]. rewrite elem_of_app, elem_of_cons. apply elem_of_app in Hb' as [?|?]; auto.
Qed.

(** The other regions do not notice *)
Lemma region_without live1 b live2 h :
  hm_ptr h <> buf_hmem b -> region_ok (live1 ++ b :: live2) h -> region_ok (live1 ++ live2) h.
Proof.
  intros Hne (w & Hw & Hi). exists w. split; [done|]. intros i. rewrite Hi. setoid_rewrite elem_of_app. setoid_rewrite elem_of_cons. split.
  - intros (b' & Hb' & Hc). exists b'. split; [|done]. destruct Hb' as [?|[-> |?]]; [by left| |by right]. by destruct Hc as [E _].
  - intros (b' & Hb' & Hc). exists b'. split; [|done]. tauto.
Qed.

Lemma elem_of_release x y c : x ∈ hg_held (release y c) <-> x ∈ hg_held c /\ x <> y.
Proof. unfold release. simpl. rewrite list_elem_of_filter. tauto. Qed.

Lemma hugetlb_release y c : hugetlb_list (release y c) = hugetlb_list c /\ hg_next (release y c) = hg_next c.
Proof. done. Qed.

(** The region stays, with the bits of the buffer cleared *)
Lemma keep_region c live1 b live2 l1 h l2 b' w' :
  hctx_ok c (live1 ++ b :: live2) -> hugetlb_list c = l1 ++ h :: l2 -> hm_ptr h = buf_hmem b -> bmp_ok b' w' ->
  (forall i, Z.testbit w' i = true <-> exists x, x ∈ live1 ++ live2 /\ covers x (hm_ptr h) i) -> used_by (live1 ++ live2) h ->
  hctx_ok (set_list (l1 ++ set_bitmap b' h :: l2) c) (live1 ++ live2).
Proof.
  intros [[H1 H2 H3 H4 H6 H7 H8] Hu] El Hp Hb' Hi Huse. rewrite El in *.
  assert (Hin : forall x, x ∈ l1 ++ set_bitmap b' h :: l2 <-> x = set_bitmap b' h \/ x ∈ l1 ++ l2) by (intros x; rewrite !elem_of_app, elem_of_cons; tauto).
  assert (Hin0 : forall x, x ∈ l1 ++ h :: l2 <-> x = h \/ x ∈ l1 ++ l2) by (intros x; rewrite !elem_of_app, elem_of_cons; tauto).
  split; [split; simpl|].
  - by rewrite fmap_app, fmap_cons in *.
  - apply Forall_forall. intros x [-> |Hx]%Hin; [change (hm_ptr (set_bitmap b' h)) with (hm_ptr h)|]; (eapply Forall_forall in H2; [exact H2|apply Hin0; auto]).
  - by rewrite fmap_app, fmap_cons in *.
  - apply Forall_forall. intros x [-> |Hx]%Hin; [by exists w'|]. apply (region_without live1 b live2).
    + rewrite <- Hp. by apply (other_ptr l1 h l2).
    + eapply Forall_forall in H4; [exact H4|apply Hin0; auto].
  - apply Forall_app in H6 as [F1 F2]. apply Forall_cons in F2 as [_ F2]. assert (F : Forall (fun b => placed_in (l1 ++ h :: l2) b /\ shaped b) (live1 ++ live2)) by (by apply Forall_app).
    eapply Forall_impl; [exact F|]. intros x [(y & Hy & E1 & E2) Hs]. split; [|done]. apply Hin0 in Hy as [-> |Hy].
    + exists (set_bitmap b' h). split; [apply Hin; by left|done].
    + exists y. split; [apply Hin; by right|done].
  - by apply ord_pairs_mid in H7 as (_ & _ & ?).
  - intros x. rewrite H8. split; intros (y & Hy & Hx).
    + apply Hin0 in Hy as [-> |Hy]; [exists (set_bitmap b' h)|exists y]; (split; [apply Hin; auto|done]).
    + apply Hin in Hy as [-> |Hy]; [exists h|exists y]; (split; [apply Hin0; auto|done]).
  - apply Forall_forall. intros x [-> |Hx]%Hin; [done|]. eapply Forall_forall in Hu as (y & Hy & E); [|apply Hin0; by right].
    exists y. split; [|done]. rewrite elem_of_app, elem_of_cons in Hy. rewrite elem_of_app. destruct Hy as [?|[-> |?]]; [by left| |by right].
    exfalso. apply (other_ptr l1 h l2 x H1 Hx). congruence.
Qed.

(** The region goes, when the buffer was the last in it *)
Lemma drop_region c live1 b live2 l1 h l2 :
  hctx_ok c (live1 ++ b :: live2) -> hugetlb_list c = l1 ++ h :: l2 -> hm_ptr h = buf_hmem b ->
  (forall x, x ∈ live1 ++ live2 -> buf_hmem x <> hm_ptr h) ->
  hctx_ok (free_huge_mem h (set_list (l1 ++ l2) c)) (live1 ++ live2).
Proof.
  intros [[H1 H2 H3 H4 H6 H7 H8] Hu] El Hp Hno. rewrite El in *.
  assert (Hin0 : forall x, x ∈ l1 ++ h :: l2 <-> x = h \/ x ∈ l1 ++ l2) by (intros x; rewrite !elem_of_app, elem_of_cons; tauto).
  assert (Hsub : forall {B} (f : mlx5_hugetlb_mem -> B), NoDup (f <$> (l1 ++ h :: l2)) -> NoDup (f <$> (l1 ++ l2)) /\ forall x, x ∈ l1 ++ l2 -> f x <> f h).
  { intros B f Hn. rewrite fmap_app, fmap_cons in Hn. apply NoDup_app in Hn as (N1 & N2 & N3). apply NoDup_cons in N3 as [N3 N4].
    split; [rewrite fmap_app; apply NoDup_app; split_and!; [done| |done]; intros y Hy Hy2; apply (N2 y Hy); by right|].
    intros x Hx E. apply elem_of_app in Hx as [Hx|Hx]; apply (list_elem_of_fmap_2 f) in Hx; rewrite E in Hx; [|done]. apply (N2 _ Hx). by left. }
  destruct (Hsub _ hm_ptr H1) as [N1 D1]. destruct (Hsub _ shmaddr H3) as [N2 D2].
  assert (Hlist : hugetlb_list (free_huge_mem h (set_list (l1 ++ l2) c)) = l1 ++ l2) by done. split; [split|].
  - by rewrite Hlist.
  - rewrite Hlist. apply Forall_forall. intros x Hx. eapply Forall_forall in H2; [exact H2|apply Hin0; auto].
  - by rewrite Hlist.
  - rewrite Hlist. apply Forall_forall. intros x Hx. apply (region_without live1 b live2); [rewrite <- Hp; by apply D1|].
    eapply Forall_forall in H4; [exact H4|apply Hin0; auto].
  - rewrite Hlist. apply Forall_forall. intros x Hx.
    destruct (proj1 (Forall_forall _ _) H6 x) as [(y & Hy & E1 & E2) Hs]; [rewrite elem_of_app in *; rewrite elem_of_cons; tauto|].
    split; [|done]. exists y. split; [|done]. apply Hin0 in Hy as [-> |Hy]; [|done]. by destruct (Hno x Hx).
  - by apply ord_pairs_mid in H7 as (_ & _ & ?).
  - intros x. rewrite Hlist. unfold free_huge_mem. rewrite !elem_of_release. simpl hg_held. rewrite H8. split.
    + intros (((((y & Hy & Hx) & X1) & X2) & X3) & X4). exists y. split; [|done]. apply Hin0 in Hy as [-> |Hy]; [|done]. exfalso.
      unfold region_res in Hx. rewrite !elem_of_cons in Hx. destruct Hx as [?|[?|[?|?%not_elem_of_nil]]]; simplify_eq; done.
    + intros (y & Hy & Hx). assert (Hy' := Hy). split_and!; [exists y; split; [apply Hin0; by right|done]| | | |]; intros ->; unfold region_res in Hx;
        rewrite !elem_of_cons in Hx; destruct Hx as [Hx|[Hx|[Hx|Hx%not_elem_of_nil]]]; try done; injection Hx as Hx; first [by apply (D1 y Hy)|by apply (D2 y Hy)].
  - rewrite Hlist. apply Forall_forall. intros x Hx. eapply Forall_forall in Hu as (y & Hy & E); [|apply Hin0; by right].
    exists y. split; [|done]. rewrite elem_of_app, elem_of_cons in Hy. rewrite elem_of_app. destruct Hy as [?|[-> |?]]; [by left| |by right].
    exfalso. apply (D1 x Hx). congruence.
Qed.

(** Giving back the chunks of a buffer in use always works *)
Lemma return_chunks_ok c live1 b live2 :
  hctx_ok c (live1 ++ b :: live2) ->
  exists c', return_chunks (buf_hmem b) (buf_base b) (nch b) c = Some c' /\ hctx_ok c' (live1 ++ live2).
Proof.
  intros Hok. pose proof Hok as [[H1 _ _ H4 H6 H7 _] _]. assert (Hb : b ∈ live1 ++ b :: live2) by (apply elem_of_app; right; by left).
  destruct (proj1 (Forall_forall _ _) H6 b Hb) as [(h & Hh & Hp & _) (S1 & S2 & S3 & S4)].
  destruct (find_region_spec _ _ _ H1 Hh Hp) as (l1 & l2 & El & Ef). unfold return_chunks. rewrite Ef. cbn [mbind option_bind fst snd].
  destruct (proj1 (Forall_forall _ _) H4 h Hh) as (w & Hw & Hbits).
  assert (Hset : forall i, buf_base b <= i < buf_base b + nch b -> Z.testbit w i = true) by (intros i Hi; apply Hbits; exists b; by rewrite Hp).
  destruct (free_range_spec _ w (buf_base b) (nch b) Hw S1 S2 S3 Hset) as (b' & w' & E & Hb' & Hw' & Hcnt). rewrite E. cbn [mbind option_bind].
  pose proof (bits_after live1 b live2 (hm_ptr h) w w' (eq_sym Hp) H7 Hbits Hw') as Hafter.
  unfold mlx5_bitmap_empty. rewrite (bo_avail _ _ Hb'), (bo_max _ _ Hb'). pose proof (cnt_used_range w') as Hr.
  destruct (Z.eqb_spec (64 - cnt_used w') 64) as [Hz|Hz]; eexists; (split; [done|]).
  - rewrite El. rewrite delete_middle. apply (drop_region c live1 b live2 l1 h l2); [done|done|done|]. intros x Hx E2.
    destruct (proj1 (Forall_forall _ _) H6 x) as [_ (X1 & X2 & X3 & _)]; [rewrite elem_of_app in *; rewrite elem_of_cons; tauto|].
    pose proof (cnt_zero_bits w' ltac:(lia) (buf_base x) ltac:(lia)) as Hf. apply not_true_iff_false in Hf. apply Hf, Hafter.
    exists x. split; [done|]. split; [done|lia].
  - rewrite El. rewrite insert_app_r_alt, Nat.sub_diag by done. simpl. apply (keep_region c live1 b live2 l1 h l2 b' w'); try done.
    destruct (decide (w' = 0)) as [-> |Hn]; [by vm_compute in Hz|]. destruct (bo_small _ _ Hb') as [W0 W1].
    assert (Ht : Z.testbit w' (Z.log2 w') = true) by (apply Z.bit_log2; lia). apply Hafter in Ht as (x & Hx & Ex & _). by exists x.
Qed.

(** ** Allocation *)

(** What the attempts on the regions of the list leave *)
Definition tried (n : Z) (l l' : list mlx5_hugetlb_mem) (base' : Z) (found : option mlx5_hugetlb_mem) : Prop :=
  match found with
  | None => Forall2 same_region l l'
  | Some h => exists l1 h0 l2 l1' b' w w', l = l1 ++ h0 :: l2 /\ l' = l1' ++ h :: l2 /\ Forall2 same_region l1 l1' /\ h = set_bitmap b' h0 /\
      bmp_ok (hm_bitmap h0) w /\ bmp_ok b' w' /\ 0 <= base' /\ base' + n <= 31 /\ clear_run w base' n /\
      forall i, Z.testbit w' i = in_range base' n i || Z.testbit w i
  end.

Lemma tried_cons n h h' l l' base' found : same_region h h' -> tried n l l' base' found -> tried n (h :: l) (h' :: l') base' found.
Proof.
  intros Hs. destruct found as [h1|]; simpl; [|by constructor].
  intros (l2 & h0 & l3 & l2' & b' & w1 & w1' & -> & -> & I1 & I2). exists (h :: l2), h0, l3, (h' :: l2'), b', w1, w1'.
  split_and!; [done|done|by constructor|apply I2..].
Qed.

Lemma try_regions_spec n base l l' base' found :
  1 <= n < 2 ^ 31 -> Forall (fun h => exists w, bmp_ok (hm_bitmap h) w) l -> try_regions n base l = Some (l', base', found) ->
  tried n l l' base' found.
Proof.
  intros Hn. revert base l' base' found. induction l as [|h l IH]; intros base l' base' found Hok; simpl; [intros [= <- <- <-]; constructor|].
  apply Forall_cons in Hok as [[w Hw] Hok]. destruct (bmp_avail (hm_bitmap h) =? 0).
  - destruct (try_regions n base l) as [[[l1 b1] f1]|] eqn:E; [|done]. simpl. intros [= <- <- <-]. apply tried_cons; [apply same_region_refl|]. by apply (IH base).
  - destruct (bitmap_alloc_range (hm_bitmap h) n 1) as [[r b']|] eqn:Ea; [|done]. simpl.
    apply (alloc_range_spec _ w) in Ea as [[-> Hb]|(R1 & R2 & R3 & w' & Hb & Hw')]; [| |done|done].
    + simpl. destruct (try_regions n (-1) l) as [[[l1 b1] f1]|] eqn:E; [|done]. simpl. intros [= <- <- <-]. apply tried_cons; [|by apply (IH (-1))].
      split_and!; try done. intros w0 Hw0. pose proof (bo_table _ _ Hw0) as E0. rewrite (bo_table _ _ Hw) in E0. by injection E0 as ->.
    + destruct (Z.eqb_spec r (-1)); [lia|]. intros [= <- <- <-]. exists [], h, l, [], b', w, w'. split_and!; try done.
Qed.

(** *** A new region *)

Lemma hctx_held c c' live :
  hctx_ok c live -> hugetlb_list c' = hugetlb_list c -> (hg_next c <= hg_next c')%nat -> (forall x, x ∈ hg_held c' <-> x ∈ hg_held c) ->
  hctx_ok c' live.
Proof.
  intros [[H1 H2 H3 H4 H6 H7 H8] Hu] El Hn Hh. split; [split|]; rewrite ?El; try done.
  - eapply Forall_impl; [exact H2|]. simpl. intros h. lia.
  - intros x. by rewrite Hh, H8.
Qed.

(** What a new region would use is not held *)
Lemma not_held c live : hctx_ok c live ->
  (HMem (hg_next c) ∉ hg_held c) /\ (HTable (hg_next c) ∉ hg_held c) /\ forall id, HSeg id ∉ hg_held c.
Proof.
  intros [[_ H2 _ _ _ _ H8] _]. assert (H : forall x, x ∈ hg_held c -> exists p a, x = HMem p \/ x = HTable p \/ x = HMap a).
  { intros x (h & _ & Hx)%H8. unfold region_res in Hx. rewrite !elem_of_cons in Hx. exists (hm_ptr h), (shmaddr h).
    destruct Hx as [?|[?|[?|?%not_elem_of_nil]]]; auto; done. }
  assert (Hp : forall p, HMem p ∈ hg_held c \/ HTable p ∈ hg_held c -> (p < hg_next c)%nat).
  { intros p Hor. assert (exists h, h ∈ hugetlb_list c /\ hm_ptr h = p) as (h & Hh & <-).
    { destruct Hor as [Hx|Hx]; apply H8 in Hx as (h & Hh & Hx); exists h; (split; [done|]); unfold region_res in Hx; rewrite !elem_of_cons in Hx;
        destruct Hx as [?|[?|[?|?%not_elem_of_nil]]]; simplify_eq; done. }
    by eapply Forall_forall in H2. }
  split_and!; [intros Hx; specialize (Hp _ (or_introl Hx)); lia|intros Hx; specialize (Hp _ (or_intror Hx)); lia|].
  intros id Hx. apply H in Hx as (p & a & [?|[?|?]]); done.
Qed.

(** The kernel maps a new segment where nothing is mapped *)
Definition env_fresh (e : shm_env) (c : huge_ctx) : Prop := forall addr, ev_shmat e = Some addr -> HMap addr ∉ hg_held c.

Lemma hugetlb_free h c : hugetlb_list (free_huge_mem h c) = hugetlb_list c.
Proof. done. Qed.

Lemma elem_of_hold x y c : x ∈ hg_held (hold y c) <-> x = y \/ x ∈ hg_held c.
Proof. unfold hold. simpl. apply elem_of_cons. Qed.

Lemma alloc_huge_mem_spec e len c live r c' :
  hctx_ok c live -> env_fresh e c -> alloc_huge_mem e len c = (r, c') ->
  match r with
  | None => hctx_ok c' live
  | Some h => hugetlb_list c' = hugetlb_list c /\ hm_ptr h = hg_next c /\ hg_next c' = S (hg_next c) /\ (HMap (shmaddr h) ∉ hg_held c) /\
      hm_bitmap h = mk_bmp 0 0 (u32 (align len MLX5_SHM_LENGTH / MLX5_Q_CHUNK_SIZE)) (u32 (align len MLX5_SHM_LENGTH / MLX5_Q_CHUNK_SIZE))
        (u32 (align len MLX5_SHM_LENGTH / MLX5_Q_CHUNK_SIZE - 1))
        (replicate (Z.to_nat (BITS_TO_LONGS (u32 (align len MLX5_SHM_LENGTH / MLX5_Q_CHUNK_SIZE)))) 0) /\
      forall x, x ∈ hg_held c' <-> x ∈ hg_held c \/ x ∈ region_res h
  end.
Proof.
  intros Hok Hf. destruct (not_held c live Hok) as (N1 & N2 & N3). unfold alloc_huge_mem. destruct (ev_malloc e); simpl; [|by intros [= <- <-]].
  destruct (ev_shmget e) as [id|].
  2: { intros [= <- <-]. apply (hctx_held c); [done|done|simpl; lia|]. intros x. rewrite elem_of_release, elem_of_hold. simpl. split; [tauto|].
       intros Hx. split; [by right|]. by intros ->. }
  destruct (ev_shmat e) as [addr|] eqn:Ea.
  2: { intros [= <- <-]. apply (hctx_held c); [done|done|simpl; lia|]. intros x. rewrite !elem_of_release, !elem_of_hold. simpl. split; [tauto|].
       intros Hx. split_and!; [by right; right| |]; intros ->; [by apply (N3 id)|done]. }
  specialize (Hf addr Ea). unfold mlx5_bitmap_init. destruct (ev_calloc e).
  - intros [= <- <-]. split_and!; try done. intros x. rewrite elem_of_release, !elem_of_hold. simpl. unfold region_res. simpl. rewrite !elem_of_cons, elem_of_nil.
    split; [|intros [Hx|[-> |[-> |[-> |[]]]]]; (split; [tauto|]); try done; intros ->; by apply (N3 id)]. intros [[?|[?|[?|[?|?]]]] ?]; tauto || done.
  - intros [= <- <-]. apply (hctx_held c); [done|done|simpl; lia|]. intros x. rewrite !elem_of_release, !elem_of_hold. simpl. split; [tauto|].
    intros Hx. split_and!; [by right; right; right| | |]; intros ->; [done|by apply (N3 id)|done].
Qed.

(** A new region of one huge page *)
Lemma new_bitmap n :
  1 <= n <= 31 -> let len := n * MLX5_Q_CHUNK_SIZE in
  bmp_ok (mk_bmp 0 0 (u32 (align len MLX5_SHM_LENGTH / MLX5_Q_CHUNK_SIZE)) (u32 (align len MLX5_SHM_LENGTH / MLX5_Q_CHUNK_SIZE))
        (u32 (align len MLX5_SHM_LENGTH / MLX5_Q_CHUNK_SIZE - 1))
        (replicate (Z.to_nat (BITS_TO_LONGS (u32 (align len MLX5_SHM_LENGTH / MLX5_Q_CHUNK_SIZE)))) 0)) 0.
Proof.
  intros Hn len. assert (E : align len MLX5_SHM_LENGTH = 2 ^ 21).
  { change MLX5_SHM_LENGTH with (2 ^ 21). unfold len, MLX5_Q_CHUNK_SIZE. rewrite align_pow2 by lia.
    replace ((n * 32768 + 2 ^ 21 - 1) / 2 ^ 21) with 1; [lia|]. apply (Z.div_unique _ _ _ (n * 32768 - 1)); lia. }
  rewrite E. by split.
Qed.

Lemma add_region c c' live l1 l2 h :
  hctx_ok c live -> hugetlb_list c = l1 ++ l2 -> bmp_ok (hm_bitmap h) 0 -> hugetlb_list c' = hugetlb_list c -> hm_ptr h = hg_next c ->
  hg_next c' = S (hg_next c) -> (HMap (shmaddr h) ∉ hg_held c) -> (forall x, x ∈ hg_held c' <-> x ∈ hg_held c \/ x ∈ region_res h) ->
  hctx_pre (set_list (l1 ++ h :: l2) c') live.
Proof.
  intros [[H1 H2 H3 H4 H6 H7 H8] Hu] El Hb El' Hp Hn Hf Hh. rewrite El in *.
  assert (Hin : forall x, x ∈ l1 ++ h :: l2 <-> x = h \/ x ∈ l1 ++ l2) by (intros x; rewrite !elem_of_app, elem_of_cons; tauto).
  assert (Hnd : forall {B} (f : mlx5_hugetlb_mem -> B), NoDup (f <$> (l1 ++ l2)) -> (forall x, x ∈ l1 ++ l2 -> f x <> f h) -> NoDup (f <$> (l1 ++ h :: l2))).
  { intros B f Hnn Hd. rewrite fmap_app, fmap_cons. rewrite <- Permutation_middle. apply NoDup_cons. rewrite <- fmap_app. split; [|done].
    intros (x & Ex & Hx)%list_elem_of_fmap. by apply (Hd x). }
  assert (Hlt : forall x, x ∈ l1 ++ l2 -> (hm_ptr x < hg_next c)%nat) by (by apply Forall_forall).
  split; simpl.
  - apply Hnd; [done|]. intros x Hx. specialize (Hlt x Hx). lia.
  - apply Forall_forall. intros x [-> |Hx]%Hin; [lia|]. specialize (Hlt x Hx). lia.
  - apply Hnd; [done|]. intros x Hx E. apply Hf, H8. exists x. split; [done|]. unfold region_res. rewrite E, !elem_of_cons. tauto.
  - apply Forall_forall. intros x [-> |Hx]%Hin; [|by eapply Forall_forall in H4]. exists 0. split; [done|]. intros i. rewrite Z.bits_0. split; [done|].
    intros (b & Hb' & E & _). destruct (proj1 (Forall_forall _ _) H6 b Hb') as [(y & Hy & Ey & _) _]. specialize (Hlt y Hy). lia.
  - eapply Forall_impl; [exact H6|]. intros b [(y & Hy & Ey) Hs]. split; [|done]. exists y. split; [apply Hin; by right|done].
  - done.
  - intros x. rewrite Hh, H8. split.
    + intros [(y & Hy & Hx)|Hx]; [exists y; split; [apply Hin; by right|done]|exists h; split; [apply Hin; by left|done]].
    + intros (y & [-> |Hy]%Hin & Hx); [by right|left; by exists y].
Qed.

(** *** Buffers of 32 chunks and more *)

Lemma run_blocked_big t i k : t !! 0%nat = Some 0 -> 1 <= i <= 31 -> 31 < i + Z.of_nat k -> run_blocked t i k = None.
Proof.
  intros Ht. revert i. induction k as [|k IH]; intros i Hi Hk; [lia|]. cbn [run_blocked]. unfold mlx5_test_bit.
  destruct (Z.lt_ge_cases i 31) as [Hlt|Hge]; [|by rewrite int_bit_high by lia]. rewrite int_bit_low, word_index, Ht by lia. simpl.
  rewrite u32_small by lia. apply IH; lia.
Qed.

Lemma find_range_big fuel t m n :
  t !! 0%nat = Some 0 -> 32 <= n <= m -> m < 2 ^ 32 -> find_aligned_range (S fuel) t 0 m n 1 = None.
Proof.
  intros Ht Hn Hm. assert (Et : mlx5_test_bit 0 t = Some false) by (unfold mlx5_test_bit; rewrite int_bit_low, word_index, Ht by lia; done).
  cbn [find_aligned_range]. rewrite align_1 by lia. cbn [skip_set]. destruct (Z.ltb_spec 0 m); [|lia]. rewrite Et. cbn [mbind option_bind].
  destruct (Z.leb_spec m 0); [lia|]. rewrite (u32_small (0 + n)), (u32_small (0 + 1)) by lia. destruct (Z.ltb_spec m (0 + n)); [lia|].
  by rewrite run_blocked_big by (done || lia).
Qed.

Lemma big_range_undefined b n :
  bmp_table b !! 0%nat = Some 0 -> bmp_last b = 0 -> 32 <= n <= bmp_max b -> bmp_max b < 2 ^ 32 -> bitmap_alloc_range b n 1 = None.
Proof.
  intros Ht Hl Hn Hm. unfold bitmap_alloc_range. destruct (Z.eqb_spec n 1); [lia|]. cbn [andb]. rewrite (u32_small n) by lia.
  destruct (Z.ltb_spec (bmp_max b) n); [lia|]. by rewrite Hl, find_range_big.
Qed.

Lemma big_region_undefined n len :
  32 <= n <= 2 ^ 30 -> len = n * MLX5_Q_CHUNK_SIZE ->
  bitmap_alloc_range (mk_bmp 0 0 (u32 (align len MLX5_SHM_LENGTH / MLX5_Q_CHUNK_SIZE)) (u32 (align len MLX5_SHM_LENGTH / MLX5_Q_CHUNK_SIZE))
        (u32 (align len MLX5_SHM_LENGTH / MLX5_Q_CHUNK_SIZE - 1))
        (replicate (Z.to_nat (BITS_TO_LONGS (u32 (align len MLX5_SHM_LENGTH / MLX5_Q_CHUNK_SIZE)))) 0)) n 1 = None.
Proof.
  intros Hn ->. change MLX5_SHM_LENGTH with (2 ^ 21). unfold MLX5_Q_CHUNK_SIZE. rewrite align_pow2 by lia. set (q := (n * 32768 + 2 ^ 21 - 1) / 2 ^ 21).
  assert (Hq : 64 * q - 64 < n <= 64 * q) by (pose proof (Z.div_mod (n * 32768 + 2 ^ 21 - 1) (2 ^ 21)); pose proof (Z.mod_pos_bound (n * 32768 + 2 ^ 21 - 1) (2 ^ 21)); unfold q; lia).
  replace (2 ^ 21 * q / 32768) with (64 * q) by (apply (Z.div_unique _ _ _ 0); lia). rewrite u32_small by lia.
  apply big_range_undefined; simpl; [|done|lia|lia]. apply lookup_replicate. split; [done|].
  unfold BITS_TO_LONGS, BITS_PER_LONG. rewrite DIV_ROUND_UP_64 by lia. assert (1 <= (64 * q + 63) / 64) by (apply Z.div_le_lower_bound; lia). lia.
Qed.

(** *** One allocation *)

Lemma chunks_of_size size :
  1 <= size <= 2 ^ 45 -> exists n, align size MLX5_Q_CHUNK_SIZE = n * MLX5_Q_CHUNK_SIZE /\ 1 <= n <= 2 ^ 30 /\ size <= n * MLX5_Q_CHUNK_SIZE.
Proof.
  intros Hs. exists ((size + 2 ^ 15 - 1) / 2 ^ 15). change MLX5_Q_CHUNK_SIZE with (2 ^ 15). rewrite align_pow2 by lia.
  pose proof (Z.div_mod (size + 2 ^ 15 - 1) (2 ^ 15) ltac:(lia)). pose proof (Z.mod_pos_bound (size + 2 ^ 15 - 1) (2 ^ 15) ltac:(lia)). lia.
Qed.

(** Chunks from a new region: they are in use, or the region is given back *)
Definition from_new_region (e : shm_env) (n : Z) (base : Z) (c : huge_ctx) : option (option mlx5_hugetlb_mem * Z * huge_ctx) :=
  let '(h, c) := alloc_huge_mem e (n * MLX5_Q_CHUNK_SIZE) c in
  match h with
  | None => Some (None, base, c)
  | Some h =>
    y ← bitmap_alloc_range (hm_bitmap h) n 1;
    let h := set_bitmap y.2 h in
    if y.1 =? -1 then Some (None, y.1, free_huge_mem h c)
    else Some (Some h, y.1, set_list (if bmp_avail y.2 =? 0 then hugetlb_list c ++ [h] else h :: hugetlb_list c) c)
  end.

(** The buffer at chunk [base] of a region *)
Definition buf_at (h : mlx5_hugetlb_mem) (n base : Z) (t : mlx5_alloc_type) : mlx5_buf :=
  mk_buf (shmaddr h + base * MLX5_Q_CHUNK_SIZE) (n * MLX5_Q_CHUNK_SIZE) base (hm_ptr h) t.

Definition obtained (n : Z) (live : list mlx5_buf) (x : option (option mlx5_hugetlb_mem * Z * huge_ctx)) : Prop :=
  match x with
  | Some (Some h, base, c) => forall t, hctx_ok c (live ++ [buf_at h n base t])
  | Some (None, _, c) => hctx_ok c live
  | None => True
  end.

Lemma nch_at h n b t : nch (buf_at h n b t) = n.
Proof. unfold nch. simpl. by apply Z.div_mul. Qed.

Lemma shaped_at h n b t : 1 <= n -> 0 <= b -> b + n <= 31 -> shaped (buf_at h n b t).
Proof. intros. unfold shaped. rewrite nch_at. simpl. lia. Qed.

Lemma place_at c live l1 h0 l2 w b' w' n base t :
  hctx_pre c live -> hugetlb_list c = l1 ++ h0 :: l2 -> bmp_ok (hm_bitmap h0) w -> bmp_ok b' w' -> 1 <= n -> 0 <= base -> base + n <= 31 ->
  clear_run w base n -> (forall i, Z.testbit w' i = in_range base n i || Z.testbit w i) -> Forall (used_by live) (l1 ++ l2) ->
  hctx_ok (set_list (l1 ++ set_bitmap b' h0 :: l2) c) (live ++ [buf_at h0 n base t]).
Proof. intros. apply (place_chunks _ live l1 h0 l2 w b' w'); try done; [by apply shaped_at|by rewrite nch_at|by rewrite nch_at]. Qed.

Lemma new_region_obtained e n base c live :
  hctx_ok c live -> env_fresh e c -> 1 <= n <= 2 ^ 30 -> obtained n live (from_new_region e n base c).
Proof.
  intros Hok Hf Hn. unfold from_new_region.
  destruct (alloc_huge_mem e (n * MLX5_Q_CHUNK_SIZE) c) as [[h|] c1] eqn:Ea; [|exact (alloc_huge_mem_spec _ _ _ _ _ _ Hok Hf Ea)].
  apply (alloc_huge_mem_spec _ _ _ _ _ _ Hok Hf) in Ea as (A1 & A2 & A3 & A4 & A5 & A6).
  destruct (Z.le_gt_cases n 31) as [H31|H31]; [|rewrite A5, big_region_undefined by (done || lia); done].
  assert (Hb0 : bmp_ok (hm_bitmap h) 0) by (rewrite A5; apply new_bitmap; lia).
  destruct (bitmap_alloc_range (hm_bitmap h) n 1) as [[r b']|] eqn:Er; [|done]. cbn [mbind option_bind fst snd].
  apply (alloc_range_spec _ 0) in Er as [[-> _]|(R1 & R2 & R3 & w' & Hw' & Hbits)]; [| |done|lia].
  - simpl. apply (hctx_held c); [done|by rewrite hugetlb_free|simpl in *; lia|]. intros y. unfold free_huge_mem. rewrite !elem_of_release. simpl hm_ptr. simpl shmid. simpl shmaddr.
    rewrite A6. destruct (not_held _ _ Hok) as (N1 & N2 & N3). unfold region_res. rewrite !elem_of_cons, elem_of_nil. split; [tauto|].
    intros Hy. split_and!; [by left| | | |]; intros ->; [by rewrite A2 in Hy|done|by apply (N3 (shmid h))|by rewrite A2 in Hy].
  - destruct (Z.eqb_spec r (-1)); [lia|]. intros t.
    assert (Hadd : forall l1 l2, hugetlb_list c = l1 ++ l2 -> hctx_ok (set_list (l1 ++ set_bitmap b' h :: l2) c1) (live ++ [buf_at h n r t])).
    { intros l1 l2 El. pose proof (add_region _ c1 live l1 l2 h Hok El Hb0 A1 A2 A3 A4 A6) as Hpre. destruct Hok as [_ Hu]. rewrite El in Hu.
      apply (place_at _ live l1 h l2 0 b' w' n r t Hpre); done || lia. }
    rewrite A1. destruct (bmp_avail b' =? 0); [|by apply (Hadd [])]. apply Hadd. by rewrite app_nil_r.
Qed.

Lemma found_obtained n l1 h0 l2 l1' b' w w' base c live :
  hctx_ok c live -> hugetlb_list c = l1 ++ h0 :: l2 -> Forall2 same_region l1 l1' -> bmp_ok (hm_bitmap h0) w -> bmp_ok b' w' ->
  1 <= n -> 0 <= base -> base + n <= 31 -> clear_run w base n -> (forall i, Z.testbit w' i = in_range base n i || Z.testbit w i) ->
  obtained n live (Some (Some (set_bitmap b' h0), base, set_list (l1' ++ set_bitmap b' h0 :: l2) c)).
Proof.
  intros Hok El Hs1 Hw Hw' Hn B1 B2 Hc Hbits t.
  assert (Hok1 : hctx_ok (set_list (l1' ++ h0 :: l2) c) live).
  { apply hctx_same; [done|]. rewrite El. apply Forall2_app; [done|]. constructor; [apply same_region_refl|].
    apply Forall2_same_length_lookup_2; [done|]. intros i y z Hy Hz. rewrite Hy in Hz. injection Hz as ->. apply same_region_refl. }
  destruct Hok1 as [Hpre Hu]. apply (place_at _ live l1' h0 l2 w b' w' n base t Hpre); try done.
  simpl in Hu. apply Forall_app in Hu as [U1 U2]. apply Forall_cons in U2 as [_ U2]. by apply Forall_app.
Qed.

Lemma alloc_huge_buf_ok e fork buf size c live ret buf' c' :
  hctx_ok c live -> env_fresh e c -> 1 <= size <= 2 ^ 45 -> alloc_huge_buf e fork buf size c = Some (ret, buf', c') ->
  (ret = 0 /\ hctx_ok c' (live ++ [buf']) /\ size <= buf_length buf' /\ buf_type buf' = MLX5_ALLOC_TYPE_HUGE) \/ (ret = -1 /\ hctx_ok c' live).
Proof.
  intros Hok Hf Hs. destruct (chunks_of_size size Hs) as (n & En & Hn & Hle). unfold alloc_huge_buf. rewrite En.
  replace (n * MLX5_Q_CHUNK_SIZE / MLX5_Q_CHUNK_SIZE) with n by (symmetry; by apply Z.div_mul). rewrite s32_small by lia.
  destruct (Z.eqb_spec n 0); [lia|]. cbn [buf_buf buf_base buf_hmem buf_type].
  destruct (try_regions n (buf_base buf) (hugetlb_list c)) as [[[l base0] found]|] eqn:Et; [|done]. cbn [mbind option_bind].
  assert (Hall : Forall (fun h => exists w, bmp_ok (hm_bitmap h) w) (hugetlb_list c)).
  { eapply Forall_impl; [apply (ho_regions _ _ (proj1 Hok))|]. intros h (w & Hw & _). by exists w. }
  apply try_regions_spec in Et; [|lia|done]. set (x := match found with Some _ => _ | None => _ end).
  assert (Hx : obtained n live x).
  { unfold x. destruct found as [h|].
    - destruct Et as (l1 & h0 & l2 & l1' & b' & w & w' & El & -> & Hs1 & -> & Hw & Hw' & B1 & B2 & Hc & Hbits).
      apply (found_obtained n l1 h0 l2 l1' b' w w'); done || lia.
    - fold (from_new_region e n base0 (set_list l c)). apply new_region_obtained; [by apply hctx_same|done|lia]. }
  clearbody x. destruct x as [[[[h|] base] c1]|]; [|intros [= <- <- <-]; by right|done]. cbn [mbind option_bind].
  destruct (Z.eqb_spec fork 0) as [_|_]; [intros [= <- <- <-]; left; split_and!; [done|apply Hx|done|done]|].
  specialize (Hx MLX5_ALLOC_TYPE_HUGE). apply return_chunks_ok in Hx as (c2 & E2 & Hok2). rewrite nch_at in E2. simpl in E2.
  rewrite E2. simpl. intros [= <- <- <-]. right. by rewrite app_nil_r in Hok2.
Qed.

(** * Sequences of operations *)

Definition huge_start : huge_ctx := mk_hctx [] 0 [].

(** The states allocations and frees reach, with the buffers in use; a failed allocation adds none *)
Inductive huge_reach : huge_ctx -> list mlx5_buf -> Prop :=
| hr_start : huge_reach huge_start []
| hr_alloc c live e fork buf size ret buf' c' :
    huge_reach c live -> env_fresh e c -> 1 <= size <= 2 ^ 45 -> alloc_huge_buf e fork buf size c = Some (ret, buf', c') ->
    huge_reach c' (if ret =? 0 then live ++ [buf'] else live)
| hr_free c live1 b live2 c' :
    huge_reach c (live1 ++ b :: live2) -> free_huge_buf b c = Some c' -> huge_reach c' (live1 ++ live2).

Lemma free_huge_buf_ok c live1 b live2 :
  hctx_ok c (live1 ++ b :: live2) -> exists c', free_huge_buf b c = Some c' /\ hctx_ok c' (live1 ++ live2).
Proof.
  intros Hok. destruct (return_chunks_ok c live1 b live2 Hok) as (c' & E & Hok'). exists c'. split; [|done].
  pose proof Hok as [[_ _ _ _ H6 _ _] _]. assert (Hb : b ∈ live1 ++ b :: live2) by (apply elem_of_app; right; by left).
  destruct (proj1 (Forall_forall _ _) H6 b Hb) as [_ (S1 & S2 & S3 & _)]. unfold free_huge_buf. fold (nch b). rewrite s32_small by lia.
  destruct (Z.eqb_spec (nch b) 0); [lia|done].
Qed.

Lemma reach_huge_ok c live : huge_reach c live -> hctx_ok c live.
Proof.
  induction 1 as [|c live e fork buf size ret buf' c' _ IH Hf Hs E|c live1 b live2 c' _ IH E].
  - split; [|constructor]. split; try by constructor. intros x. simpl. split; [by intros ?%not_elem_of_nil|]. intros (h & ?%not_elem_of_nil & _). done.
  - destruct (alloc_huge_buf_ok _ _ _ _ _ _ _ _ _ IH Hf Hs E) as [(-> & H & _)|(-> & H)]; done.
  - destruct (free_huge_buf_ok _ _ _ _ IH) as (c2 & E2 & H). rewrite E in E2. by injection E2 as ->.
Qed.

Lemma ord_pairs_lookup {A} (R : A -> A -> Prop) l i j x y :
  ForallOrdPairs R l -> (i < j)%nat -> l !! i = Some x -> l !! j = Some y -> R x y.
Proof.
  intros H. revert i j. induction H as [|z l Hz _ IH]; intros i j Hij Hi Hj; [done|]. destruct j as [|j]; [lia|]. destruct i as [|i]; simpl in *.
  - injection Hi as ->. eapply Forall_forall in Hz; [exact Hz|]. by eapply list_elem_of_lookup_2.
  - by apply (IH i j); [lia|..].
Qed.

(** Two buffers of a region share no byte *)
Lemma bytes_apart c live i j b b' :
  hctx_ok c live -> (i < j)%nat -> live !! i = Some b -> live !! j = Some b' -> buf_hmem b = buf_hmem b' ->
  buf_buf b + buf_length b <= buf_buf b' \/ buf_buf b' + buf_length b' <= buf_buf b.
Proof.
  intros [[H1 _ _ _ H6 H7 _] _] Hij Hi Hj Eh. pose proof (ord_pairs_lookup _ _ _ _ _ _ H7 Hij Hi Hj) as Ha.
  apply list_elem_of_lookup_2 in Hi, Hj. rewrite Forall_forall in H6.
  destruct (H6 b Hi) as [(h & Hh & Eh1 & Eb) (S1 & S2 & S3 & S4)]. destruct (H6 b' Hj) as [(h' & Hh' & Eh1' & Eb') (S1' & S2' & S3' & S4')].
  assert (h' = h) as ->.
  { apply list_elem_of_split in Hh as (l1 & l2 & El). rewrite El in H1, Hh'. apply elem_of_app in Hh'. rewrite elem_of_cons in Hh'.
    destruct Hh' as [Hh'|[Hh'|Hh']]; [|done|]; (exfalso; apply (other_ptr l1 h l2 h' H1); [apply elem_of_app; tauto|congruence]). }
  unfold MLX5_Q_CHUNK_SIZE in *. destruct (Z.le_gt_cases (buf_base b + nch b) (buf_base b')) as [|G1]; [left; lia|].
  destruct (Z.le_gt_cases (buf_base b' + nch b') (buf_base b)) as [|G2]; [right; lia|]. exfalso.
  apply (Ha (buf_hmem b) (Z.max (buf_base b) (buf_base b'))); (split; [done|lia]).
Qed.

(** C27. After any sequence of allocations and frees of buffers from huge pages that stays
    defined, failing system calls included: two buffers of a region share no byte; every buffer
    lies inside its region, and freeing it works; the allocator holds the structure, the bitmap
    and the mapping of each region on its list and nothing else; and when no buffer is in use it
    holds nothing. *)
Theorem huge_bufs_apart c live :
  huge_reach c live ->
  (forall i j b b', i <> j -> live !! i = Some b -> live !! j = Some b' -> buf_hmem b = buf_hmem b' ->
     buf_buf b + buf_length b <= buf_buf b' \/ buf_buf b' + buf_length b' <= buf_buf b) /\
  (forall b, b ∈ live -> (exists h, h ∈ hugetlb_list c /\ hm_ptr h = buf_hmem b /\ shmaddr h <= buf_buf b /\
     buf_buf b + buf_length b <= shmaddr h + MLX5_SHM_LENGTH) /\ is_Some (free_huge_buf b c)) /\
  (forall x, x ∈ hg_held c <-> exists h, h ∈ hugetlb_list c /\ x ∈ region_res h) /\
  (live = [] -> hugetlb_list c = [] /\ hg_held c = []).
Proof.
  intros Hr. apply reach_huge_ok in Hr. pose proof Hr as [[H1 H2 H3 H4 H6 H7 H8] Hu].
  assert (Hplace : forall b, b ∈ live -> placed_in (hugetlb_list c) b /\ shaped b) by (by apply Forall_forall). split_and!.
  - intros i j b b' Hne Hi Hj Eh. destruct (Nat.lt_total i j) as [|[|]]; [by apply (bytes_apart c live i j)|done|].
    destruct (bytes_apart c live j i b' b) as [|]; try done; [by right|by left].
  - intros b Hb. destruct (Hplace b Hb) as [(h & Hh & Eh & Eb) (S1 & S2 & S3 & S4)]. split.
    + exists h. unfold MLX5_Q_CHUNK_SIZE, MLX5_SHM_LENGTH in *. split_and!; [done|done|lia|lia].
    + apply list_elem_of_split in Hb as (l1 & l2 & ->). destruct (free_huge_buf_ok _ _ _ _ Hr) as (c' & E & _). by exists c'.
  - done.
  - intros ->. assert (El : hugetlb_list c = []).
    { destruct (hugetlb_list c) as [|h l]; [done|]. apply Forall_cons in Hu as [(b & ?%not_elem_of_nil & _) _]. done. }
    split; [done|]. destruct (hg_held c) as [|x l] eqn:E; [done|]. destruct (proj1 (H8 x)) as (h & Hh & _); [by left|]. rewrite El in Hh. by apply not_elem_of_nil in Hh.
Qed.

(** Two buffers of four and two chunks, then the first is freed *)
Module HugeDemo.
Definition env0 : shm_env := mk_shm_env true (Some 7) (Some (2 ^ 40)) true.
Definition buf0 : mlx5_buf := mk_buf 0 0 0 0 MLX5_ALLOC_TYPE_ANON.
Definition step (size : Z) (c : huge_ctx) : mlx5_buf * huge_ctx :=
  match alloc_huge_buf env0 0 buf0 size c with Some (_, b, c) => (b, c) | None => (buf0, c) end.
Definition r1 : mlx5_buf * huge_ctx := Eval vm_compute in step 100000 huge_start.
Definition r2 : mlx5_buf * huge_ctx := Eval vm_compute in step 40000 r1.2.

Lemma demo_reach : huge_reach r2.2 [r1.1; r2.1].
Proof.
  apply (hr_alloc r1.2 [r1.1] (mk_shm_env false None None false) 0 buf0 40000 0 r2.1); [|done|lia|by vm_compute].
  apply (hr_alloc huge_start [] env0 0 buf0 100000 0 r1.1); [constructor|by intros addr _ ?%not_elem_of_nil|lia|by vm_compute].
Qed.
End HugeDemo.
Import HugeDemo.

Lemma huge_bufs_apart_witness :
  huge_reach r2.2 [r1.1; r2.1] /\ (buf_buf r1.1 + buf_length r1.1 <= buf_buf r2.1 \/ buf_buf r2.1 + buf_length r2.1 <= buf_buf r1.1).
Proof.
  split; [exact demo_reach|]. destruct (huge_bufs_apart r2.2 [r1.1; r2.1] demo_reach) as (H & _).
  apply (H 0%nat 1%nat); done.
Defined.
