(* ===== verification/BufOrder.v ===== *)
(** The order in which the allocators of queue buffers are tried, and what each outcome leaves. *)

From stdpp Require Import base numbers list.
From S2P Require Import Prelude Buddy Buf BufProps BufSpec.

(** * The order of attempts *)

(** The [do ... while] loop tries the orders from the first down to the smallest, each once, and
    the first in any case *)
Lemma contig_loop_spec fuel mmap exp min :
  exp - min < Z.of_nat fuel -> (0 < fuel)%nat ->
  exists k r, contig_loop fuel mmap exp min = Some ((fun i => exp - i) <$> seqZ 0 k, r) /\ 1 <= k <= Z.max 1 (exp - min + 1).
Proof.
  revert exp. induction fuel as [|fuel IH]; intros exp Hf H0; [lia|]. cbn [contig_loop]. destruct (mmap _) as [addr| |].
  - exists 1, (Some addr). split; [|lia]. simpl. by rewrite Z.sub_0_r.
  - exists 1, None. split; [|lia]. simpl. by rewrite Z.sub_0_r.
  - destruct (Z.leb_spec min (exp - 1)) as [Hle|Hgt].
    + destruct (IH (exp - 1)) as (k & r & E & Hk); [lia|lia|]. rewrite E. simpl. exists (k + 1), r. split; [|lia]. f_equal. f_equal.
      rewrite (Z.add_comm k 1), seqZ_app by lia. rewrite fmap_app. simpl. rewrite Z.sub_0_r. f_equal.
      replace (seqZ (0 + 1) k) with (Z.add 1 <$> seqZ 0 k) by (by rewrite fmap_add_seqZ).
      rewrite <- list_fmap_compose. apply list_fmap_ext. intros i x _. simpl. lia.
    + exists 1, None. split; [|lia]. simpl. by rewrite Z.sub_0_r.
Qed.

(** The kinds of memory a type allows, in the order in which they are tried *)
Definition kinds_of (t : mlx5_alloc_type) : list mlx5_alloc_type :=
  match t with
  | MLX5_ALLOC_TYPE_ANON => [MLX5_ALLOC_TYPE_ANON]
  | MLX5_ALLOC_TYPE_HUGE => [MLX5_ALLOC_TYPE_HUGE]
  | MLX5_ALLOC_TYPE_CONTIG => [MLX5_ALLOC_TYPE_CONTIG]
  | MLX5_ALLOC_TYPE_PREFER_HUGE => [MLX5_ALLOC_TYPE_HUGE; MLX5_ALLOC_TYPE_ANON]
  | MLX5_ALLOC_TYPE_PREFER_CONTIG => [MLX5_ALLOC_TYPE_CONTIG; MLX5_ALLOC_TYPE_ANON]
  | MLX5_ALLOC_TYPE_EXTERNAL => [MLX5_ALLOC_TYPE_EXTERNAL]
  | MLX5_ALLOC_TYPE_CUSTOM => [MLX5_ALLOC_TYPE_CUSTOM; MLX5_ALLOC_TYPE_ANON]
  | MLX5_ALLOC_TYPE_ALL => [MLX5_ALLOC_TYPE_HUGE; MLX5_ALLOC_TYPE_CONTIG; MLX5_ALLOC_TYPE_ANON]
  end.

(** A buffer that was obtained, of one of the kinds [ks] *)
Definition got (ks : list mlx5_alloc_type) (size : Z) (b : mlx5_buf) : Prop := buf_type b ∈ ks /\ size <= buf_length b.

Lemma alloc_buf_got memalign fork buf size k :
  0 <= k <= 20 -> 1 <= size <= 2 ^ 30 -> let r := mlx5_alloc_buf memalign fork buf size (2 ^ k) in r.1.1 = 0 -> 
  (forall n err, memalign n = inr err -> err <> 0) -> got [MLX5_ALLOC_TYPE_ANON] size r.1.2.
Proof.
  intros Hk Hs r. unfold r, mlx5_alloc_buf. rewrite align_pow2 by lia. set (q := (size + 2 ^ k - 1) / 2 ^ k).
  assert (Hp : 1 <= 2 ^ k <= 2 ^ 20) by (split; [pose proof (Z.pow_pos_nonneg 2 k); lia|apply Z.pow_le_mono_r; lia]).
  assert (Hq : size <= 2 ^ k * q <= size + 2 ^ k - 1).
  { pose proof (Z.div_mod (size + 2 ^ k - 1) (2 ^ k) ltac:(lia)). pose proof (Z.mod_pos_bound (size + 2 ^ k - 1) (2 ^ k) ltac:(lia)). unfold q. lia. }
  rewrite s32_small, u64_small by lia. intros Hr Herr. destruct (memalign (2 ^ k * q)) as [addr|err] eqn:E; [|simpl in Hr; by apply Herr in E].
  destruct (Z.eqb_spec fork 0); simpl in *; [|done]. split; [by left|simpl; lia].
Qed.

Lemma default_got e buf size k t ks :
  0 <= k <= 20 -> 1 <= size <= 2 ^ 30 -> (forall n err, be_memalign e n = inr err -> err <> 0) ->
  (if decide (t = MLX5_ALLOC_TYPE_EXTERNAL) then MLX5_ALLOC_TYPE_EXTERNAL else MLX5_ALLOC_TYPE_ANON) ∈ ks ->
  let r := alloc_default e buf size (2 ^ k) t in r.1.1 = 0 -> got ks size r.1.2 /\ buf_type r.1.2 <> MLX5_ALLOC_TYPE_HUGE.
Proof.
  intros Hk Hs Hm Hin r Hr. unfold r, alloc_default in *. destruct (decide (t = MLX5_ALLOC_TYPE_EXTERNAL)).
  - unfold mlx5_alloc_buf_extern in *. repeat case_match; simpl in *; try done; (split; [split; [done|simpl; lia]|done]).
  - destruct (alloc_buf_got _ _ _ _ _ Hk Hs Hr Hm) as [H1 H2]. apply list_elem_of_singleton in H1. unfold got. by rewrite H1.
Qed.

Lemma contig_or_got e buf size k t ret b acts :
  0 <= k <= 20 -> 1 <= size <= 2 ^ 30 -> (forall n err, be_memalign e n = inr err -> err <> 0) ->
  t <> MLX5_ALLOC_TYPE_HUGE -> alloc_contig_or e buf size (2 ^ k) t = Some (ret, b, acts) -> ret = 0 ->
  got (kinds_of t) size b /\ buf_type b <> MLX5_ALLOC_TYPE_HUGE.
Proof.
  intros Hk Hs Hm Ht. unfold alloc_contig_or. destruct (is_contig_type t) eqn:Ec.
  - destruct (mlx5_alloc_buf_contig _ _ _ _ _ _) as [[[r1 b1] a1]|] eqn:E; [|done]. cbn [mbind option_bind].
    assert (H1 : r1 = 0 -> got (kinds_of t) size b1 /\ buf_type b1 <> MLX5_ALLOC_TYPE_HUGE).
    { unfold mlx5_alloc_buf_contig in E. destruct (mlx5_alloc_get_env_info _ _) as [mx mn]. destruct (mlx5_get_block_order _) as [o|]; [|done]. cbn [mbind option_bind] in E.
      destruct (contig_loop _ _ _ _) as [[os [addr|]]|]; [|by injection E as <- <- <-|done]. cbn [mbind option_bind snd] in E. case_match; injection E as <- <- <-; [done|].
      intros _. split; [|done]. split; [|simpl; lia]. destruct t; try done; simpl; rewrite ?elem_of_cons; auto. }
    destruct (Z.eqb_spec r1 0); [intros [= <- <- <-] _; by apply H1|]. case_decide; [intros [= <- <- <-]; done|].
    destruct (alloc_default e b1 size (2 ^ k) t) as [[r2 b2] a2] eqn:Ed. intros [= <- <- <-] Hr2.
    pose proof (default_got e b1 size k t (kinds_of t) Hk Hs Hm) as Hd. rewrite Ed in Hd. simpl in Hd. apply Hd; [|done].
    destruct t; try done; simpl; rewrite ?elem_of_cons; auto.
  - intros [= E]. intros Hr. pose proof (default_got e buf size k t (kinds_of t) Hk Hs Hm) as Hd. simpl in Hd. rewrite E in Hd. simpl in Hd. apply Hd; [|done].
    destruct t; try done; simpl; rewrite ?elem_of_cons; auto.
Qed.

(** What an attempt with the state of the huge pages leaves *)
Definition leaves (live : list mlx5_buf) (ret : Z) (b : mlx5_buf) (c' : huge_ctx) : Prop :=
  ret = 0 /\ buf_type b = MLX5_ALLOC_TYPE_HUGE /\ hctx_ok c' (live ++ [b]) \/
  (ret = 0 -> buf_type b <> MLX5_ALLOC_TYPE_HUGE) /\ hctx_ok c' live.

Lemma huge_or_got e buf size k t c live ret b acts c' :
  hctx_ok c live -> env_fresh (be_shm e) c -> 1 <= size <= 2 ^ 30 -> 0 <= k <= 20 -> (forall n err, be_memalign e n = inr err -> err <> 0) ->
  alloc_huge_or e buf size (2 ^ k) t c = Some (ret, b, acts, c') -> (ret = 0 -> got (kinds_of t) size b) /\ leaves live ret b c'.
Proof.
  intros Hok Hf Hs Hk Hm. unfold alloc_huge_or.
  assert (Hrest : forall b1 c1, hctx_ok c1 live -> t <> MLX5_ALLOC_TYPE_HUGE ->
    (x ← alloc_contig_or e b1 size (2 ^ k) t; Some (x, c1)) = Some (ret, b, acts, c') -> (ret = 0 -> got (kinds_of t) size b) /\ leaves live ret b c').
  { intros b1 c1 Hok1 Ht E. destruct (alloc_contig_or e b1 size (2 ^ k) t) as [[[r2 b2] a2]|] eqn:E2; [|done]. injection E as <- <- <- <-.
    split; [intros Hr; by apply (contig_or_got e b1 size k t r2 b2 a2)|]. right. split; [|done]. intros Hr. by apply (contig_or_got e b1 size k t r2 b2 a2). }
  destruct (is_huge_type t) eqn:Et; [|intros E; apply (Hrest buf c); [done|by destruct t|done]].
  destruct (alloc_huge_buf _ _ buf size c) as [[[r1 b1] c1]|] eqn:E; [|done]. cbn [mbind option_bind].
  apply (alloc_huge_buf_ok _ _ _ _ _ _ _ _ _ Hok Hf) in E as [(-> & H1 & H2 & H3)|[-> H1]]; [| |lia].
  - simpl. intros [= <- <- <- <-]. split; [|by left]. intros _. split; [|done]. rewrite H3. destruct t; try done; simpl; rewrite ?elem_of_cons; auto.
  - simpl. case_decide as Ed; [intros [= <- <- <- <-]; split; [done|by right]|]. by apply Hrest.
Qed.

(** C28. [mlx5_alloc_prefered_buf] with any type, whatever the system calls answer: on success the
    buffer is of a kind the type allows and at least as long as asked for; a buffer of huge pages
    is added to those in use, and for any other outcome the state of the huge pages is one in
    which the buffers in use are what they were; [mlx5_free_actual_buf] gives the buffer back to
    the allocator it came from. *)
Theorem alloc_prefered_buf_sound e buf size k t c live ret b acts c' :
  hctx_ok c live -> env_fresh (be_shm e) c -> 1 <= size <= 2 ^ 30 -> 0 <= k <= 20 -> (forall n err, be_memalign e n = inr err -> err <> 0) ->
  mlx5_alloc_prefered_buf e buf size (2 ^ k) t c = Some (ret, b, acts, c') ->
  (ret = 0 -> got (kinds_of t) size b) /\
  leaves live ret b c' /\
  (ret = 0 -> exists acts' c2, mlx5_free_actual_buf b c' = Some (acts', c2) /\ hctx_ok c2 live /\
     acts' = match buf_type b with
             | MLX5_ALLOC_TYPE_ANON => [Free (buf_buf b)]
             | MLX5_ALLOC_TYPE_CONTIG => [Munmap (buf_buf b) (buf_length b)]
             | MLX5_ALLOC_TYPE_EXTERNAL => [ExternFree (buf_buf b)]
             | MLX5_ALLOC_TYPE_CUSTOM => [CustomFree (buf_buf b)]
             | _ => []
             end).
Proof.
  intros Hok Hf Hs Hk Hm E.
  assert (H : (ret = 0 -> got (kinds_of t) size b) /\ leaves live ret b c').
  { unfold mlx5_alloc_prefered_buf in E. case_decide as Et; [|by eapply huge_or_got]. unfold mlx5_alloc_buf_custom in E.
    destruct (be_custom e) as [addr|]; [|cbn [Z.leb Z.compare] in E; by eapply huge_or_got]. destruct (negb (addr =? 0) || (size =? 0)); simpl in E; injection E as <- <- <- <-.
    - split; [|right; by split]. intros _. subst t. split; [by left|simpl; lia].
    - split; [done|right; by split]. }
  destruct H as [Hg Hl]. split_and!; [done|done|]. intros Hr. specialize (Hg Hr). unfold mlx5_free_actual_buf. destruct Hl as [(_ & Eh & Hok')|[Hnh Hok']].
  - rewrite Eh. destruct (free_huge_buf_ok c' live b [] Hok') as (c2 & E2 & Hok2). rewrite E2. simpl. rewrite app_nil_r in Hok2. by eexists _, _.
  - specialize (Hnh Hr). destruct Hg as [Hg _]. destruct (buf_type b) eqn:Eb; try done; try (by eexists _, _); exfalso; destruct t; simpl in Hg;
      rewrite ?elem_of_cons, ?elem_of_nil in Hg; naive_solver.
Qed.

(** [al_size] is an [int]: of 4 GiB and one byte, one page is taken, and the buffer is reported to
    be that long. *)
Theorem alloc_buf_truncates buf :
  (mlx5_alloc_buf (fun _ => inl 4096) 0 buf (2 ^ 32 + 1) 4096).1 = (0, set_buf 4096 4096 MLX5_ALLOC_TYPE_ANON buf).
Proof. by vm_compute. Qed.

(** The allocator of a queue with no huge page left: contiguous pages, of order 13 at the second
    attempt *)
Module OrderDemo.
Definition env : buf_env :=
  mk_buf_env None 0 (mk_shm_env true None None true) None None (fun o => if o =? 269 then MmapOk 4096 else MmapFail) (fun _ => inr 12) 0 0 0 0.
Definition buf0 : mlx5_buf := mk_buf 0 0 0 0 MLX5_ALLOC_TYPE_ANON.
End OrderDemo.

Lemma alloc_prefered_buf_sound_witness :
  match mlx5_alloc_prefered_buf OrderDemo.env OrderDemo.buf0 16000 (2 ^ 12) MLX5_ALLOC_TYPE_ALL huge_start with
  | Some (ret, b, _, _) => ret = 0 /\ buf_type b = MLX5_ALLOC_TYPE_CONTIG /\ got (kinds_of MLX5_ALLOC_TYPE_ALL) 16000 b
  | None => False
  end.
Proof.
  destruct (mlx5_alloc_prefered_buf OrderDemo.env OrderDemo.buf0 16000 (2 ^ 12) MLX5_ALLOC_TYPE_ALL huge_start) as [[[[ret b] acts] c']|] eqn:E;
    [|by vm_compute in E].
  assert (Hok : hctx_ok huge_start []) by (apply reach_huge_ok; constructor).
  destruct (alloc_prefered_buf_sound OrderDemo.env OrderDemo.buf0 16000 12 MLX5_ALLOC_TYPE_ALL huge_start [] ret b acts c' Hok) as [H _];
    [by intros addr|lia|lia|by intros n err [= <-]|done|].
  assert (ret = 0 /\ buf_type b = MLX5_ALLOC_TYPE_CONTIG) as [Hr Ht] by (vm_compute in E; injection E as <- <- _ _; done).
  split_and!; [done|done|by apply H].
Defined.
