(* ===== verification/IcmPool.v ===== *)
(** The pool of steering memory (providers/mlx5/dr_icm_pool.c): device memory is obtained in large
    pieces, each managed by a buddy allocator; chunks handed out go to the list of used chunks
    of their piece, freed ones to its hot list, and come back to the allocator only after the
    device was synchronised.  The synchronisation runs without the lock of the pool, so that it
    is two steps here, between which other threads may allocate and free.

    An object is a record that carries the identity of its C object; the answers of allocators,
    of the device-memory and registration commands and of the synchronisation command are
    arguments.  The pool carries the handles of the device memory and of the registrations it
    holds.  [None] is a fault: one of the buddy allocator, a failed [assert]. *)

From stdpp Require Import base numbers list.
From S2P Require Import Prelude Types Bitmap Buddy.

(** * Sizes *)

Inductive dr_icm_type : Type := DR_ICM_TYPE_STE | DR_ICM_TYPE_MODIFY_ACTION.

#[export] Instance dr_icm_type_eq_dec : EqDecision dr_icm_type.
Proof. solve_decision. Defined.

Definition DR_STE_SIZE : Z := 64.
Definition DR_STE_SIZE_REDUCED : Z := 48.
Definition DR_MODIFY_ACTION_SIZE : Z := 8.
Definition DR_ICM_MODIFY_HDR_ALIGN_BASE : Z := 64.
Definition DR_ICM_SYNC_THRESHOLD_POOL : Z := 64 * 1024 * 1024.

Definition dr_icm_pool_dm_type_to_entry_size (icm_type : dr_icm_type) : Z :=
  if decide (icm_type = DR_ICM_TYPE_STE) then DR_STE_SIZE else DR_MODIFY_ACTION_SIZE.

Definition dr_icm_pool_chunk_size_to_entries (chunk_size : Z) : Z := u32 (Z.shiftl 1 chunk_size).

Definition dr_icm_pool_chunk_size_to_byte (chunk_size : Z) (icm_type : dr_icm_type) : Z :=
  s32 (dr_icm_pool_dm_type_to_entry_size icm_type * s32 (dr_icm_pool_chunk_size_to_entries chunk_size)).

(** * Objects *)

(** [struct dr_icm_mr]: the registration with its key and address, the device memory *)
Record dr_icm_mr : Type := mk_icm_mr { imr : Z; imr_rkey : Z; imr_addr : Z; idm : Z; icm_start_addr : Z }.

(** [struct dr_icm_chunk]; [c_buddy] is the identity of [buddy_mem] *)
Record dr_icm_chunk : Type := mk_chunk {
  c_id : Z; c_buddy : Z; c_rkey : Z; num_of_entries : Z; byte_size : Z; c_icm_addr : Z; c_mr_addr : Z; c_seg : Z }.

(** [struct dr_icm_buddy_mem], with the buddy allocator proper in [n_buddy] *)
Record dr_icm_buddy_mem : Type := mk_node {
  n_id : Z; n_buddy : buddy_mem; n_mr : dr_icm_mr;
  used_list : list dr_icm_chunk; used_memory : Z; hot_list : list dr_icm_chunk; hw_ste_sz : Z }.

(** [struct dr_icm_pool]; [p_sync] is the local list of the thread inside
    [dr_icm_pool_sync_pool_buddies], while [syncing]; [p_dms] and [p_mrs] are the device memory
    and the registrations that were obtained and not given back *)
Record dr_icm_pool : Type := mk_pool {
  p_type : dr_icm_type; max_log_chunk_sz : Z; buddy_mem_list : list dr_icm_buddy_mem;
  hot_memory_size : Z; syncing : bool; p_sync : list dr_icm_chunk; p_dms : list Z; p_mrs : list Z }.

Definition set_nodes (l : list dr_icm_buddy_mem) (p : dr_icm_pool) : dr_icm_pool :=
  mk_pool (p_type p) (max_log_chunk_sz p) l (hot_memory_size p) (syncing p) (p_sync p) (p_dms p) (p_mrs p).
Definition set_hot_memory (v : Z) (p : dr_icm_pool) : dr_icm_pool :=
  mk_pool (p_type p) (max_log_chunk_sz p) (buddy_mem_list p) v (syncing p) (p_sync p) (p_dms p) (p_mrs p).
Definition set_sync (on : bool) (l : list dr_icm_chunk) (p : dr_icm_pool) : dr_icm_pool :=
  mk_pool (p_type p) (max_log_chunk_sz p) (buddy_mem_list p) (hot_memory_size p) on l (p_dms p) (p_mrs p).
Definition set_res (dms mrs : list Z) (p : dr_icm_pool) : dr_icm_pool :=
  mk_pool (p_type p) (max_log_chunk_sz p) (buddy_mem_list p) (hot_memory_size p) (syncing p) (p_sync p) dms mrs.

(** The object behind a pointer to a buddy, changed in place *)
Definition upd_node (id : Z) (f : dr_icm_buddy_mem -> dr_icm_buddy_mem) (p : dr_icm_pool) : dr_icm_pool :=
  set_nodes ((fun n => if n_id n =? id then f n else n) <$> buddy_mem_list p) p.

(** [mlx5dv_alloc_dm] that returned [h], [mlx5_free_dm], and the same for registrations *)
Definition hold_dm (h : Z) (p : dr_icm_pool) : dr_icm_pool := set_res (h :: p_dms p) (p_mrs p) p.
Definition mlx5_free_dm (h : Z) (p : dr_icm_pool) : dr_icm_pool :=
  set_res (base.filter (fun x => x <> h) (p_dms p)) (p_mrs p) p.
Definition hold_mr (h : Z) (p : dr_icm_pool) : dr_icm_pool := set_res (p_dms p) (h :: p_mrs p) p.
Definition ibv_dereg_mr (h : Z) (p : dr_icm_pool) : dr_icm_pool :=
  set_res (p_dms p) (base.filter (fun x => x <> h) (p_mrs p)) p.

(** * Device memory *)

(** The answers creation of a piece of memory gets: the allocation of the [dr_icm_mr], the handle
    and address of the device memory the [k]-th call of [mlx5dv_alloc_dm] returns, the handle,
    key and address of the registration, the allocation of the buddy, those of [dr_buddy_init],
    and the identity of the new object *)
Record create_env : Type := mk_cenv {
  ce_icm_mr : bool; ce_dm : nat -> option (Z * Z); ce_reg : option (Z * Z * Z); ce_buddy : bool;
  ce_init : buddy_mallocs; ce_id : Z }.

(** [dr_icm_allocate_aligned_dm]: the device memory, the start address and the offset in the
    memory, with the length that was asked for last *)
Definition dr_icm_allocate_aligned_dm (dm : nat -> option (Z * Z)) (p : dr_icm_pool)
  : option (Z * Z * Z * Z) * dr_icm_pool :=
  let size := u64 (dr_icm_pool_chunk_size_to_byte (max_log_chunk_sz p) (p_type p)) in
  let log_align_base :=
    if decide (p_type p = DR_ICM_TYPE_STE) then ilog (u32 (size - 1))
    else ilog (u32 (DR_ICM_MODIFY_HDR_ALIGN_BASE - 1)) in
  let misaligned a := negb (Z.land a (u64 (Z.shiftl 1 log_align_base - 1)) =? 0) in
  match dm 0%nat with
  | None => (None, p)
  | Some (h, va) =>
    let p := hold_dm h p in
    if misaligned va then
      let p := mlx5_free_dm h p in
      match dm 1%nat with
      | None => (None, p)
      | Some (h, va) =>
        let p := hold_dm h p in
        if misaligned va then
          let align_base := u64 (Z.shiftl 1 log_align_base) in
          let align_diff := va mod align_base in
          (Some (h, u64 (va + u64 (align_base - align_diff)), u64 (align_base - align_diff), u64 (size * 2)), p)
        else (Some (h, va, 0, u64 (size * 2)), p)
      end
    else (Some (h, va, 0, size), p)
  end.

(** [dr_icm_pool_mr_create] *)
Definition dr_icm_pool_mr_create (env : create_env) (p : dr_icm_pool) : option dr_icm_mr * dr_icm_pool :=
  if negb (ce_icm_mr env) then (None, p)
  else match dr_icm_allocate_aligned_dm (ce_dm env) p with
       | (None, p) => (None, p)
       | (Some (dm, start, _, _), p) =>
         match ce_reg env with
         | Some (mr, rkey, addr) => (Some (mk_icm_mr mr rkey addr dm start), hold_mr mr p)
         | None => (None, mlx5_free_dm dm p)
         end
       end.

Definition dr_icm_pool_mr_destroy (m : dr_icm_mr) (p : dr_icm_pool) : dr_icm_pool :=
  mlx5_free_dm (idm m) (ibv_dereg_mr (imr m) p).

(** [dr_icm_buddy_create]: the error, or 0 and the pool with the new piece first; [reduced] tells
    whether the device is a ConnectX-5 *)
Definition dr_icm_buddy_create (reduced : bool) (env : create_env) (p : dr_icm_pool) : option (Z * dr_icm_pool) :=
  match dr_icm_pool_mr_create env p with
  | (None, p) => Some (ENOMEM, p)
  | (Some mr, p) =>
    if negb (ce_buddy env) then Some (ENOMEM, dr_icm_pool_mr_destroy mr p)
    else match dr_buddy_init (max_log_chunk_sz p) (ce_init env) with
         | InitErr e _ => Some (e, dr_icm_pool_mr_destroy mr p)
         | InitFault => None
         | InitOk b =>
           let sz := if decide (p_type p = DR_ICM_TYPE_STE)
                     then (if reduced then DR_STE_SIZE_REDUCED else DR_STE_SIZE) else 0 in
           Some (0, set_nodes (mk_node (ce_id env) b mr [] 0 [] sz :: buddy_mem_list p) p)
         end
  end.

(** [dr_icm_buddy_destroy]: the chunks of both lists go with the piece *)
Definition dr_icm_buddy_destroy (n : dr_icm_buddy_mem) (p : dr_icm_pool) : dr_icm_pool :=
  let p := dr_icm_pool_mr_destroy (n_mr n) p in
  set_nodes (base.filter (fun x => n_id x <> n_id n) (buddy_mem_list p)) p.

(** * Chunks *)

(** The arrays of [dr_icm_chunk_ste_init]; the result is the error and the arrays freed again *)
Inductive ste_block : Type := SteArr | HwSteArr | MissList.

Definition dr_icm_chunk_ste_init (got : ste_block -> bool) : Z * list ste_block :=
  if negb (got SteArr) then (ENOMEM, [])
  else if negb (got HwSteArr) then (ENOMEM, [SteArr])
  else if negb (got MissList) then (ENOMEM, [HwSteArr; SteArr])
  else (0, []).

(** [dr_icm_chunk_create(pool, chunk_size, buddy, seg)] with the answers of the allocations and
    the identity of the chunk *)
Definition dr_icm_chunk_create (chunk_size : Z) (n : dr_icm_buddy_mem) (seg : Z) (got : bool)
    (got_ste : ste_block -> bool) (id : Z) (p : dr_icm_pool) : option (dr_icm_chunk * dr_icm_pool) :=
  if negb got then None
  else
    let offset := s32 (dr_icm_pool_dm_type_to_entry_size (p_type p) * seg) in
    let chunk := mk_chunk id (n_id n) (imr_rkey (n_mr n)) (dr_icm_pool_chunk_size_to_entries chunk_size)
      (u32 (dr_icm_pool_chunk_size_to_byte chunk_size (p_type p)))
      (u64 (icm_start_addr (n_mr n) + offset)) (u64 (imr_addr (n_mr n) + offset)) (u32 seg) in
    if bool_decide (p_type p = DR_ICM_TYPE_STE) && negb ((dr_icm_chunk_ste_init got_ste).1 =? 0) then None
    else Some (chunk, upd_node (n_id n) (fun n =>
      mk_node (n_id n) (n_buddy n) (n_mr n) (used_list n ++ [chunk]) (u64 (used_memory n + byte_size chunk))
        (hot_list n) (hw_ste_sz n)) p).

Definition set_buddy (b : buddy_mem) (n : dr_icm_buddy_mem) : dr_icm_buddy_mem :=
  mk_node (n_id n) b (n_mr n) (used_list n) (used_memory n) (hot_list n) (hw_ste_sz n).

(** [list_for_each(&pool->buddy_mem_list, ...)] of [dr_icm_handle_buddies_get_mem]: the piece and
    segment found, or nothing; with [new_mem] a failure of the first piece is the failed
    assertion *)
Fixpoint scan_buddies (chunk_size : Z) (new_mem : bool) (l : list dr_icm_buddy_mem)
  : option (option (dr_icm_buddy_mem * Z) * list dr_icm_buddy_mem) :=
  match l with
  | [] => Some (None, [])
  | n :: l =>
    r ← dr_buddy_alloc_mem chunk_size (n_buddy n);
    let '(seg, b) := r in
    if negb (seg =? -1) then Some (Some (set_buddy b n, seg), set_buddy b n :: l)
    else if new_mem then None
    else
      r ← scan_buddies chunk_size new_mem l;
      Some (r.1, set_buddy b n :: r.2)
  end.

(** [dr_icm_handle_buddies_get_mem]: [while ( *seg == -1)]; the error, or the piece and the
    segment.  [env k] are the answers of the creation [k] passes before the last. *)
Fixpoint handle_buddies (fuel : nat) (chunk_size : Z) (reduced : bool) (new_mem : bool) (env : nat -> create_env)
    (p : dr_icm_pool) : option ((Z + dr_icm_buddy_mem * Z) * dr_icm_pool) :=
  match fuel with
  | O => None
  | S fuel =>
    r ← scan_buddies chunk_size new_mem (buddy_mem_list p);
    let p := set_nodes r.2 p in
    match r.1 with
    | Some (n, seg) => Some (inr (n, seg), p)
    | None =>
      r ← dr_icm_buddy_create reduced (env fuel) p;
      let '(e, p) := r in
      if negb (e =? 0) then Some (inl e, p) else handle_buddies fuel chunk_size reduced true env p
    end
  end.

(** [dr_icm_alloc_chunk(pool, chunk_size)]: a null pointer or a chunk *)
Definition dr_icm_alloc_chunk (chunk_size : Z) (reduced : bool) (env : nat -> create_env) (got : bool)
    (got_ste : ste_block -> bool) (id : Z) (p : dr_icm_pool) : option (option dr_icm_chunk * dr_icm_pool) :=
  if max_log_chunk_sz p <? chunk_size then Some (None, p)
  else
    r ← handle_buddies 2 chunk_size reduced false env p;
    match r with
    | (inl _, p) => Some (None, p)
    | (inr (n, seg), p) =>
      match dr_icm_chunk_create chunk_size n seg got got_ste id p with
      | Some (chunk, p) => Some (Some chunk, p)
      | None =>
        b ← dr_buddy_free_mem (u32 seg) chunk_size (n_buddy n);
        Some (None, upd_node (n_id n) (set_buddy b) p)
      end
    end.

(** * Freeing *)

(** [list_del] of a chunk from the list it is in *)
Definition unlink (c : dr_icm_chunk) (l : list dr_icm_chunk) : list dr_icm_chunk :=
  base.filter (fun x => c_id x <> c_id c) l.

Definition dr_icm_pool_is_sync_required (p : dr_icm_pool) : bool :=
  DR_ICM_SYNC_THRESHOLD_POOL <? hot_memory_size p.

(** The first half of [dr_icm_pool_sync_pool_buddies], up to [pthread_spin_unlock]: the hot lists
    move to the list of the thread *)
Definition sync_begin (p : dr_icm_pool) : dr_icm_pool :=
  let moved := concat (hot_list <$> buddy_mem_list p) in
  let l := (fun n => mk_node (n_id n) (n_buddy n) (n_mr n) (used_list n) (used_memory n) [] (hw_ste_sz n))
    <$> buddy_mem_list p in
  set_sync true moved (set_nodes l p).

(** [dr_icm_free_chunk(chunk)], up to the end or to the unlock inside the synchronisation; the
    boolean tells whether one was started *)
Definition dr_icm_free_chunk (c : dr_icm_chunk) (p : dr_icm_pool) : bool * dr_icm_pool :=
  let p := upd_node (c_buddy c) (fun n =>
    mk_node (n_id n) (n_buddy n) (n_mr n) (unlink c (used_list n)) (used_memory n)
      (unlink c (hot_list n) ++ [c]) (hw_ste_sz n)) p in
  let p := set_hot_memory (u64 (hot_memory_size p + byte_size c)) p in
  if dr_icm_pool_is_sync_required p && negb (syncing p) then (true, sync_begin p) else (false, p).

(** [dr_icm_pool_sync_pool(pool)], up to the unlock *)
Definition dr_icm_pool_sync_pool (p : dr_icm_pool) : bool * dr_icm_pool :=
  if negb (syncing p) then (true, sync_begin p) else (false, p).

(** One pass of the loop over the list of the thread, after the lock is taken again:
    [dr_buddy_free_mem], the two counters and [dr_icm_chunk_destroy] of the first chunk *)
Definition sync_one (c : dr_icm_chunk) (rest : list dr_icm_chunk) (p : dr_icm_pool) : option dr_icm_pool :=
  n ← List.find (fun n => n_id n =? c_buddy c) (buddy_mem_list p);
  b ← dr_buddy_free_mem (c_seg c) (ilog (u32 (num_of_entries c - 1))) (n_buddy n);
  let p := upd_node (c_buddy c) (fun n =>
    mk_node (n_id n) b (n_mr n) (used_list n) (u64 (used_memory n - byte_size c)) (hot_list n) (hw_ste_sz n)) p in
  let p := set_hot_memory (u64 (hot_memory_size p - byte_size c)) p in
  Some (set_sync (syncing p) rest p).

Fixpoint sync_chunks (l : list dr_icm_chunk) (p : dr_icm_pool) : option dr_icm_pool :=
  match l with
  | [] => Some p
  | c :: l => p ← sync_one c l p; sync_chunks l p
  end.

(** The pieces without memory in use are destroyed, with [need_reclaim] *)
Definition reclaim (p : dr_icm_pool) : dr_icm_pool :=
  foldl (fun p n => if used_memory n =? 0 then dr_icm_buddy_destroy n p else p) p (buddy_mem_list p).

(** The second half of [dr_icm_pool_sync_pool_buddies] *)
Definition sync_finish (need_reclaim : bool) (p : dr_icm_pool) : option dr_icm_pool :=
  p ← sync_chunks (p_sync p) p;
  let p := if need_reclaim then reclaim p else p in
  Some (set_sync false (p_sync p) p).

(** * The pool *)

Definition dr_icm_pool_set_pool_max_log_chunk_sz (v : Z) (p : dr_icm_pool) : dr_icm_pool :=
  mk_pool (p_type p) v (buddy_mem_list p) (hot_memory_size p) (syncing p) (p_sync p) (p_dms p) (p_mrs p).

(** [dr_icm_pool_create(dmn, icm_type)] with the limits of the domain, the answer of [calloc] and
    of [pthread_spin_init] *)
Definition dr_icm_pool_create (icm_type : dr_icm_type) (max_log_sw_icm_sz max_log_action_icm_sz : Z)
    (got : bool) (lock : Z) : option dr_icm_pool :=
  let max_log := if decide (icm_type = DR_ICM_TYPE_STE) then max_log_sw_icm_sz else max_log_action_icm_sz in
  if negb got then None
  else if negb (lock =? 0) then None
  else Some (mk_pool icm_type max_log [] 0 false [] [] []).

(** [dr_icm_pool_destroy(pool)]: what it leaves behind *)
Definition dr_icm_pool_destroy (p : dr_icm_pool) : dr_icm_pool :=
  foldl (fun p n => dr_icm_buddy_destroy n p) p (buddy_mem_list p).

(** * The limits of the domain (dr_domain.c) *)

Definition DR_STE_LOG_SIZE : Z := 6.
Definition DR_MODIFY_ACTION_LOG_SIZE : Z := 3.
Definition DR_CHUNK_SIZE_4K : Z := 12.
Definition DR_CHUNK_SIZE_1024K : Z := 20.

(** [dr_domain_check_icm_memory_caps]: the error, or the limits for STEs and for actions *)
Definition dr_domain_check_icm_memory_caps (log_icm_size log_modify_hdr_icm_size : Z) : Z + Z * Z :=
  if log_modify_hdr_icm_size <? DR_CHUNK_SIZE_4K + DR_MODIFY_ACTION_LOG_SIZE then inl ENOMEM
  else if log_icm_size <? DR_CHUNK_SIZE_1024K + DR_STE_LOG_SIZE then inl ENOMEM
  else inr (Z.min DR_CHUNK_SIZE_1024K (u32 (u32 (log_icm_size - 3) - DR_STE_LOG_SIZE)),
            Z.min DR_CHUNK_SIZE_1024K (u32 (u32 (log_modify_hdr_icm_size - 3) - DR_MODIFY_ACTION_LOG_SIZE))).

Definition dr_domain_is_support_ste_icm_size (log_icm_size req_log_icm_sz : Z) : bool :=
  negb (log_icm_size <? u32 (req_log_icm_sz + DR_STE_LOG_SIZE)).

(** [dr_domain_set_max_ste_icm_size]: the result with the limit and the pool of STEs after it *)
Definition dr_domain_set_max_ste_icm_size (log_icm_size req_log_icm_sz max_log_sw_icm_sz : Z) (ste_icm_pool : dr_icm_pool)
  : bool * Z * dr_icm_pool :=
  if negb (dr_domain_is_support_ste_icm_size log_icm_size req_log_icm_sz) then (false, max_log_sw_icm_sz, ste_icm_pool)
  else if max_log_sw_icm_sz <? req_log_icm_sz then
    (true, req_log_icm_sz, dr_icm_pool_set_pool_max_log_chunk_sz req_log_icm_sz ste_icm_pool)
  else (true, max_log_sw_icm_sz, ste_icm_pool).
