(* ===== verification/IcmPoolProps.v ===== *)
(** The pool of steering memory keeps every chunk apart from every other until the device was
    synchronised: the invariant of the pool over all interleavings of allocation, freeing and
    the two halves of a synchronisation, and the lemmas on each operation. *)

From stdpp Require Import base numbers list list_tactics sets.
From S2P Require Import Prelude Types Bitmap BitmapProps Buddy BuddyTree BuddyProps BuddySpec IcmPool.

Create HintDb icm.

(** * Lemmas on the buddy allocator *)

Lemma holds_max M b held : buddy_holds M b held -> max_order b = M.
Proof. intros (B & Hok & _). apply (ls_max _ _ _ (bo_levels _ _ _ Hok)). Qed.

(** An order above the largest: nothing is found *)
Lemma alloc_too_large order b : max_order b < order -> dr_buddy_alloc_mem order b = Some (-1, b).
Proof. intros H. unfold dr_buddy_alloc_mem. by replace (Z.to_nat _) with O by lia. Qed.

Lemma alloc_cases M b held order :
  buddy_holds M b held -> 0 <= order ->
  dr_buddy_alloc_mem order b = Some (-1, b) \/
  exists seg b', dr_buddy_alloc_mem order b = Some (seg, b') /\ 0 <= seg /\ order <= M /\
    buddy_holds M b' ((seg, order) :: held).
Proof.
  intros Hh Ho. destruct (Z_le_gt_dec order M) as [Hle|Hgt].
  - destruct (holds_alloc M b held order Hh ltac:(lia)) as [[E _]|(seg & b' & E & Hs & H')]; [by left|right]. by exists seg, b'.
  - left. apply alloc_too_large. rewrite (holds_max M b held Hh). lia.
Qed.

(** Blocks apart inside [2^M] entries hold at most [2^M] entries *)
Lemma cells_NoDup (held : list (Z * Z)) :
  NoDup held -> (forall h1 h2 c, h1 ∈ held -> h2 ∈ held -> in_block c h1 -> in_block c h2 -> h1 = h2) ->
  NoDup (concat ((fun h => seqZ h.1 (2 ^ h.2)) <$> held)).
Proof.
  induction held as [|h held IH]; intros Hn Hd; simpl; [constructor|]. apply NoDup_cons in Hn as [Hni Hn].
  apply NoDup_app. split_and!.
  - apply NoDup_seqZ.
  - intros c Hc Hc'. apply elem_of_seqZ in Hc.
    apply list_elem_of_In, in_concat in Hc' as (l & Hl & Hcl). apply list_elem_of_In, list_elem_of_fmap in Hl as (h' & -> & Hh').
    apply list_elem_of_In, elem_of_seqZ in Hcl.
    assert (h = h') as <-; [|done]. apply (Hd h h' c); [by left|by right|unfold in_block; lia..].
  - apply IH; [done|]. intros h1 h2 c H1 H2. apply Hd; by right.
Qed.

Lemma held_room M b held : buddy_holds M b held -> sumZ (fun h => 2 ^ h.2) held <= 2 ^ M.
Proof.
  intros Hh. destruct (holds_apart M b held Hh) as [Hr Hd].
  assert (Hn : NoDup held) by (by destruct Hh as (? & _ & ? & _)).
  assert (HM : 0 <= M) by (destruct Hh as (B & Hok & _); apply Hok).
  assert (El : sumZ (fun h : Z * Z => 2 ^ h.2) held = Z.of_nat (length (concat ((fun h => seqZ h.1 (2 ^ h.2)) <$> held)))).
  { clear Hh Hd Hn. induction held as [|h l IH]; simpl; [done|]. rewrite length_app, length_seqZ.
    destruct (Hr h) as (Ho & _); [by left|]. pose proof (pow_pos h.2 ltac:(lia)).
    rewrite Nat2Z.inj_add, Z2Nat.id by lia. f_equal. apply IH. intros; apply Hr; by right. }
  rewrite El. transitivity (Z.of_nat (length (seqZ 0 (2 ^ M)))).
  - apply inj_le, submseteq_length, NoDup_submseteq; [by apply cells_NoDup|].
    intros c Hc. apply list_elem_of_In, in_concat in Hc as (l & Hl & Hcl).
    apply list_elem_of_In, list_elem_of_fmap in Hl as (h & -> & Hh'). apply list_elem_of_In, elem_of_seqZ in Hcl.
    apply elem_of_seqZ. destruct (Hr h Hh') as (? & ? & ? & _). lia.
  - rewrite length_seqZ. pose proof (pow_pos M HM). lia.
Qed.

(** * The invariant *)

Abbreviation entry_size := dr_icm_pool_dm_type_to_entry_size.

(** The largest order for which the sizes in bytes fit an [int] *)
Definition max_icm_log : Z := 24.

Definition order_of (c : dr_icm_chunk) : Z := Z.log2 (num_of_entries c).
Definition block_of (c : dr_icm_chunk) : Z * Z := (c_seg c, order_of c).

(** A chunk of the piece [n] *)
Record chunk_ok (ty : dr_icm_type) (n : dr_icm_buddy_mem) (c : dr_icm_chunk) : Prop := {
  ck_buddy : c_buddy c = n_id n;
  ck_order : 0 <= order_of c <= max_icm_log;
  ck_entries : num_of_entries c = 2 ^ order_of c;
  ck_bytes : byte_size c = entry_size ty * 2 ^ order_of c;
  ck_addr : c_icm_addr c = u64 (icm_start_addr (n_mr n) + entry_size ty * c_seg c);
  ck_mr : c_mr_addr c = u64 (imr_addr (n_mr n) + entry_size ty * c_seg c);
  ck_rkey : c_rkey c = imr_rkey (n_mr n)
}.

(** The chunks of a piece, [sl] those waiting for the synchronisation under way: used, freed,
    and waiting *)
Definition pending (id : Z) (sl : list dr_icm_chunk) : list dr_icm_chunk := base.filter (fun c => c_buddy c = id) sl.
Definition held (sl : list dr_icm_chunk) (n : dr_icm_buddy_mem) : list dr_icm_chunk :=
  used_list n ++ hot_list n ++ pending (n_id n) sl.

Definition start_align (ty : dr_icm_type) (M : Z) : Z :=
  if decide (ty = DR_ICM_TYPE_STE) then entry_size ty * 2 ^ M else DR_ICM_MODIFY_HDR_ALIGN_BASE.

Record node_ok (ty : dr_icm_type) (sl : list dr_icm_chunk) (n : dr_icm_buddy_mem) : Prop := {
  nd_M : 0 <= max_order (n_buddy n) <= max_icm_log;
  nd_holds : buddy_holds (max_order (n_buddy n)) (n_buddy n) (block_of <$> held sl n);
  nd_chunks : Forall (chunk_ok ty n) (held sl n);
  nd_ids : NoDup (c_id <$> held sl n);
  nd_used : used_memory n = sumZ byte_size (held sl n);
  nd_start : 0 <= icm_start_addr (n_mr n) < 2 ^ 63 + 2 ^ 31;
  nd_align : icm_start_addr (n_mr n) mod start_align ty (max_order (n_buddy n)) = 0
}.

(** The chunks freed and not yet back *)
Definition waiting (p : dr_icm_pool) : list dr_icm_chunk := concat (hot_list <$> buddy_mem_list p) ++ p_sync p.

Definition limit_ok (ty : dr_icm_type) (v : Z) : Prop :=
  (if decide (ty = DR_ICM_TYPE_STE) then 0 else 3) <= v <= max_icm_log.

Record pool_ok (p : dr_icm_pool) : Prop := {
  po_max : limit_ok (p_type p) (max_log_chunk_sz p);
  po_ids : NoDup (n_id <$> buddy_mem_list p);
  po_nodes : Forall (node_ok (p_type p) (p_sync p)) (buddy_mem_list p);
  po_sync : forall c, c ∈ p_sync p -> c_buddy c ∈ n_id <$> buddy_mem_list p;
  po_hot : hot_memory_size p = u64 (sumZ byte_size (waiting p));
  po_idle : syncing p = false -> p_sync p = [];
  po_dms : p_dms p ≡ₚ ((fun n => idm (n_mr n)) <$> buddy_mem_list p) /\ NoDup (p_dms p);
  po_mrs : p_mrs p ≡ₚ ((fun n => imr (n_mr n)) <$> buddy_mem_list p) /\ NoDup (p_mrs p)
}.

(** ** Sizes *)

Lemma entry_size_cases ty : entry_size ty = 64 \/ entry_size ty = 8.
Proof. destruct ty; [by left|by right]. Qed.

Lemma pow_24 o : 0 <= o <= max_icm_log -> 1 <= 2 ^ o <= 2 ^ 24.
Proof. intros Ho. pose proof (pow_pos o ltac:(lia)). split; [lia|]. apply Z.pow_le_mono_r; [lia|apply Ho]. Qed.

Lemma entries_eq o : 0 <= o <= max_icm_log -> dr_icm_pool_chunk_size_to_entries o = 2 ^ o.
Proof.
  intros Ho. unfold dr_icm_pool_chunk_size_to_entries. rewrite Z.shiftl_1_l. pose proof (pow_24 o Ho). apply u32_small. lia.
Qed.

Lemma bytes_eq ty o : 0 <= o <= max_icm_log -> dr_icm_pool_chunk_size_to_byte o ty = entry_size ty * 2 ^ o.
Proof.
  intros Ho. unfold dr_icm_pool_chunk_size_to_byte. rewrite entries_eq by done. pose proof (pow_24 o Ho).
  rewrite (s32_small (2 ^ o)) by lia.
  destruct (entry_size_cases ty) as [-> | ->]; rewrite s32_small; lia.
Qed.

(** ** Lists *)

Lemma sumZ_perm {A} (f : A -> Z) l1 l2 : l1 ≡ₚ l2 -> sumZ f l1 = sumZ f l2.
Proof. unfold sumZ. induction 1; simpl; lia. Qed.

Lemma pending_nil_fresh id sl : (forall c, c ∈ sl -> c_buddy c <> id) -> pending id sl = [].
Proof.
  intros H. unfold pending. induction sl as [|c sl IH]; [done|].
  rewrite filter_cons_False by (apply H; by left). apply IH. intros; apply H; by right.
Qed.

Lemma filter_fresh (h : Z) (l : list Z) : h ∉ l -> base.filter (fun x => x <> h) l = l.
Proof.
  intros H. induction l as [|x l IH]; [done|]. apply not_elem_of_cons in H as [Hx Hl].
  rewrite filter_cons_True by done. by rewrite IH.
Qed.

Lemma filter_head (h : Z) (l : list Z) : h ∉ l -> base.filter (fun x => x <> h) (h :: l) = l.
Proof. intros H. rewrite filter_cons_False by naive_solver. by apply filter_fresh. Qed.

Lemma concat_fmap_nil {A B} (f : A -> list B) l : (forall x, x ∈ l -> f x = []) -> concat (f <$> l) = [].
Proof.
  intros H. induction l as [|x l IH]; [done|]. simpl. rewrite (H x) by (by left). apply IH. intros; apply H; by right.
Qed.

Lemma filter_iff_in {A} (P Q : A -> Prop) `{!forall x, Decision (P x), !forall x, Decision (Q x)} (l : list A) :
  (forall x, x ∈ l -> P x <-> Q x) -> base.filter P l = base.filter Q l.
Proof.
  intros Hi. induction l as [|x l IH]; [done|]. rewrite !filter_cons, IH by (intros; apply Hi; by right).
  pose proof (Hi x ltac:(by left)). repeat case_decide; tauto.
Qed.

#[export] Instance dr_icm_chunk_eq_dec : EqDecision dr_icm_chunk.
Proof. solve_decision. Defined.

(** ** One piece *)

Lemma chunk_ok_ext ty n n' c : n_id n = n_id n' -> n_mr n = n_mr n' -> chunk_ok ty n c -> chunk_ok ty n' c.
Proof. intros E1 E2 []. split; congruence. Qed.

Lemma node_ok_perm ty sl sl' n n' :
  n_id n = n_id n' -> n_mr n = n_mr n' -> n_buddy n = n_buddy n' -> used_memory n = used_memory n' ->
  held sl n ≡ₚ held sl' n' -> node_ok ty sl n -> node_ok ty sl' n'.
Proof.
  intros E1 E2 E3 E4 Hp []. split; rewrite <- ?E2, <- ?E3, <- ?E4; try done.
  - by rewrite <- Hp.
  - rewrite <- Hp. eapply Forall_impl; [done|]. intros c. by apply chunk_ok_ext.
  - by rewrite <- Hp.
  - by rewrite <- (sumZ_perm _ _ _ Hp).
Qed.

Lemma bytes_sum ty n l :
  Forall (chunk_ok ty n) l -> sumZ byte_size l = entry_size ty * sumZ (fun h => 2 ^ h.2) (block_of <$> l).
Proof. induction 1 as [|c l Hc _ IH]; unfold sumZ in *; simpl; [lia|]. rewrite (ck_bytes _ _ _ Hc), IH. by rewrite Z.mul_add_distr_l. Qed.

(** The memory in use of a piece is at most its size *)
Lemma bytes_room ty n l M b :
  Forall (chunk_ok ty n) l -> buddy_holds M b (block_of <$> l) -> 0 <= sumZ byte_size l <= entry_size ty * 2 ^ M.
Proof.
  intros Hc Hh. rewrite (bytes_sum ty n l Hc). pose proof (held_room M b _ Hh).
  assert (0 <= sumZ (fun h : Z * Z => 2 ^ h.2) (block_of <$> l)).
  { apply sumZ_nonneg, Forall_forall. intros h _. apply Z.pow_nonneg. lia. }
  destruct (entry_size_cases ty) as [-> | ->]; lia.
Qed.

Lemma bytes_small ty M : 0 <= M <= max_icm_log -> entry_size ty * 2 ^ M <= 2 ^ 30.
Proof. intros HM. pose proof (pow_24 M HM). destruct (entry_size_cases ty) as [-> | ->]; lia. Qed.

(** A piece with the chunk [c] more, at the front of what it holds *)
Lemma node_ok_more ty sl n n' c b :
  node_ok ty sl n -> buddy_holds (max_order (n_buddy n)) b (block_of c :: (block_of <$> held sl n)) ->
  chunk_ok ty n c -> c_id c ∉ c_id <$> held sl n ->
  n_id n = n_id n' -> n_mr n = n_mr n' -> n_buddy n' = b -> used_memory n' = u64 (used_memory n + byte_size c) ->
  held sl n' ≡ₚ c :: held sl n -> node_ok ty sl n'.
Proof.
  intros [] Hb Hc Hi E1 E2 E3 E4 Hp. pose proof (holds_max _ _ _ Hb) as Em. rewrite <- E3 in Hb, Em.
  assert (Hall : Forall (chunk_ok ty n) (c :: held sl n)) by (by constructor).
  split; rewrite <- ?E2, ?Em; try done.
  - by rewrite Hp.
  - rewrite Hp. eapply Forall_impl; [done|]. intros x. by apply chunk_ok_ext.
  - rewrite Hp. by apply NoDup_cons.
  - rewrite E4, (sumZ_perm _ _ _ Hp), nd_used0. pose proof (bytes_room ty n _ _ _ Hall Hb) as Hr.
    pose proof (bytes_small ty _ nd_M0). change (sumZ byte_size (c :: held sl n)) with (byte_size c + sumZ byte_size (held sl n)) in *.
    rewrite u64_small; lia.
Qed.

(** .. and with one less *)
Lemma node_ok_less ty sl sl' n n' c b :
  node_ok ty sl n -> held sl n ≡ₚ c :: held sl' n' ->
  buddy_holds (max_order (n_buddy n)) b (block_of <$> held sl' n') ->
  n_id n = n_id n' -> n_mr n = n_mr n' -> n_buddy n' = b -> used_memory n' = u64 (used_memory n - byte_size c) ->
  node_ok ty sl' n'.
Proof.
  intros [] Hp Hb E1 E2 E3 E4. pose proof (holds_max _ _ _ Hb) as Em. rewrite <- E3 in Hb, Em.
  rewrite Hp in nd_chunks0, nd_ids0. apply Forall_cons in nd_chunks0 as [Hc Hcs]. apply NoDup_cons in nd_ids0 as [_ Hn].
  split; rewrite <- ?E2, ?Em; try done.
  - eapply Forall_impl; [done|]. intros x. by apply chunk_ok_ext.
  - rewrite E4, nd_used0, (sumZ_perm _ _ _ Hp). pose proof (bytes_room ty n _ _ _ Hcs Hb) as Hr.
    pose proof (bytes_small ty _ nd_M0). change (sumZ byte_size (c :: held sl' n')) with (byte_size c + sumZ byte_size (held sl' n')).
    rewrite u64_small; lia.
Qed.

(** ** One piece of the pool *)

Lemma upd_node_at p l1 n l2 f :
  NoDup (n_id <$> buddy_mem_list p) -> buddy_mem_list p = l1 ++ n :: l2 ->
  buddy_mem_list (upd_node (n_id n) f p) = l1 ++ f n :: l2.
Proof.
  intros Hn E. simpl. rewrite E in *. rewrite fmap_app, fmap_cons, Z.eqb_refl. rewrite fmap_app, fmap_cons in Hn.
  apply NoDup_app in Hn as (_ & Hd & Hn). apply NoDup_cons in Hn as [Hn _].
  assert (Hid : forall l : list dr_icm_buddy_mem, n_id n ∉ n_id <$> l -> (fun m => if n_id m =? n_id n then f m else m) <$> l = l).
  { intros l Hl. rewrite <- (list_fmap_id l) at 2. apply list_fmap_ext. intros i m Hm. simpl.
    destruct (Z.eqb_spec (n_id m) (n_id n)) as [Em|]; [|done]. destruct Hl. rewrite <- Em.
    apply list_elem_of_fmap. exists m. split; [done|]. by eapply list_elem_of_lookup_2. }
  rewrite !Hid; [done|done|]. intros Hin. apply (Hd (n_id n) Hin). by left.
Qed.

Lemma other_piece (l1 l2 : list dr_icm_buddy_mem) n m :
  NoDup (n_id <$> (l1 ++ n :: l2)) -> m ∈ l1 ++ l2 -> n_id m <> n_id n.
Proof.
  rewrite <- Permutation_middle, fmap_cons. intros Hn Hm E. apply NoDup_cons in Hn as [Hn _].
  apply Hn. rewrite <- E. by apply list_elem_of_fmap_2.
Qed.

Lemma node_at p l1 n l2 : pool_ok p -> buddy_mem_list p = l1 ++ n :: l2 -> node_ok (p_type p) (p_sync p) n.
Proof. intros Hok E. pose proof (po_nodes _ Hok) as H. rewrite E in H. apply Forall_app in H as [_ H]. by apply Forall_cons in H as [? _]. Qed.

(** The invariant after a change of one piece *)
Lemma pool_replace p p' l1 n l2 n' :
  pool_ok p -> buddy_mem_list p = l1 ++ n :: l2 -> buddy_mem_list p' = l1 ++ n' :: l2 ->
  n_id n = n_id n' -> n_mr n = n_mr n' -> p_type p' = p_type p -> max_log_chunk_sz p' = max_log_chunk_sz p ->
  p_dms p' = p_dms p -> p_mrs p' = p_mrs p ->
  node_ok (p_type p) (p_sync p') n' ->
  (forall m, m ∈ l1 ++ l2 -> pending (n_id m) (p_sync p') = pending (n_id m) (p_sync p)) ->
  (forall c, c ∈ p_sync p' -> c ∈ p_sync p) ->
  hot_memory_size p' = u64 (sumZ byte_size (waiting p')) -> (syncing p' = false -> p_sync p' = []) ->
  pool_ok p'.
Proof.
  intros [] E E' Ei Em Et El Ed Er Hn Ho Hs Hh Hi. rewrite E in *.
  assert (Eid : n_id <$> buddy_mem_list p' = n_id <$> (l1 ++ n :: l2)) by (by rewrite E', !fmap_app, !fmap_cons, Ei).
  split; rewrite ?Et, ?El, ?Ed, ?Er, ?Eid; try done.
  - rewrite E'. apply Forall_app in po_nodes0 as [H1 H2]. apply Forall_cons in H2 as [_ H2].
    assert (Hk : forall m, m ∈ l1 ++ l2 -> node_ok (p_type p) (p_sync p) m -> node_ok (p_type p) (p_sync p') m).
    { intros m Hm. apply node_ok_perm; try done. unfold held. by rewrite (Ho m Hm). }
    rewrite Forall_forall in H1, H2. apply Forall_app. split; [|constructor; [done|]]; apply Forall_forall; intros m Hm;
      (apply Hk; [apply elem_of_app; tauto|auto]).
  - intros c Hc. apply po_sync0. by apply Hs.
  - by rewrite E', !fmap_app, !fmap_cons, <- Em in *.
  - by rewrite E', !fmap_app, !fmap_cons, <- Em in *.
Qed.

(** ** Lists of chunks *)

Lemma unlink_absent c l : c_id c ∉ c_id <$> l -> unlink c l = l.
Proof.
  intros H. unfold unlink. induction l as [|x l IH]; [done|]. rewrite fmap_cons in H. apply not_elem_of_cons in H as [Hx Hl].
  rewrite filter_cons_True by congruence. by rewrite IH.
Qed.

Lemma unlink_here c l : NoDup (c_id <$> l) -> c ∈ l -> l ≡ₚ c :: unlink c l.
Proof.
  induction l as [|x l IH]; intros Hn Hc; [by apply not_elem_of_nil in Hc|].
  rewrite fmap_cons in Hn. apply NoDup_cons in Hn as [Hx Hn]. apply elem_of_cons in Hc as [<- |Hc].
  - unfold unlink. rewrite filter_cons_False by naive_solver. fold (unlink c l). by rewrite unlink_absent.
  - unfold unlink. rewrite filter_cons_True.
    + fold (unlink c l). rewrite (IH Hn Hc) at 1. apply Permutation_swap.
    + intros E. apply Hx. rewrite E. by apply list_elem_of_fmap_2.
Qed.

Lemma pending_hot (l : list dr_icm_buddy_mem) n :
  NoDup (n_id <$> l) -> (forall m c, m ∈ l -> c ∈ hot_list m -> c_buddy c = n_id m) -> n ∈ l ->
  pending (n_id n) (concat (hot_list <$> l)) = hot_list n.
Proof.
  intros Hn Hb Hin. unfold pending. assert (Hm : forall m, m ∈ l ->
    base.filter (fun c => c_buddy c = n_id n) (hot_list m) = if decide (n_id m = n_id n) then hot_list m else []).
  { intros m Hm. case_decide as E.
    - assert (H : forall c, c ∈ hot_list m -> c_buddy c = n_id n) by (intros c Hc; rewrite <- E; by apply Hb).
      induction (hot_list m) as [|c h IH]; [done|]. rewrite filter_cons_True by (apply H; by left).
      f_equal. apply IH. intros; apply H; by right.
    - assert (H : forall c, c ∈ hot_list m -> c_buddy c <> n_id n) by (intros c Hc; by rewrite (Hb m c Hm Hc)).
      by apply (pending_nil_fresh (n_id n)). }
  clear Hb. induction l as [|m l IH]; [by apply not_elem_of_nil in Hin|]. simpl. rewrite filter_app.
  rewrite fmap_cons in Hn. apply NoDup_cons in Hn as [Hm0 Hn]. rewrite (Hm m) by (by left).
  apply elem_of_cons in Hin as [<- |Hin].
  - rewrite decide_True by done. fold (pending (n_id n) (concat (hot_list <$> l))).
    replace (base.filter _ _) with (@nil dr_icm_chunk); [by rewrite app_nil_r|]. symmetry.
    assert (Hz : forall m, m ∈ l -> base.filter (fun c => c_buddy c = n_id n) (hot_list m) = []).
    { intros m Hml. rewrite (Hm m) by (by right). rewrite decide_False; [done|]. intros E. apply Hm0. rewrite <- E.
      by apply list_elem_of_fmap_2. }
    clear -Hz. induction l as [|m l IH]; [done|]. simpl. rewrite filter_app, (Hz m) by (by left). apply IH. intros; apply Hz; by right.
  - rewrite decide_False; [|intros E; apply Hm0; rewrite E; by apply list_elem_of_fmap_2].
    apply IH; [done|done|]. intros; apply Hm; by right.
Qed.

(** * Operations *)

Lemma u64_add_l a b : u64 (u64 a + b) = u64 (a + b).
Proof. apply Zplus_mod_idemp_l. Qed.
Lemma u64_sub_l a b : u64 (u64 a - b) = u64 (a - b).
Proof. apply Zminus_mod_idemp_l. Qed.

Lemma waiting_split p l1 n l2 :
  buddy_mem_list p = l1 ++ n :: l2 ->
  sumZ byte_size (waiting p) =
    sumZ byte_size (hot_list n) + sumZ byte_size (concat (hot_list <$> l1)) +
    sumZ byte_size (concat (hot_list <$> l2)) + sumZ byte_size (p_sync p).
Proof. intros E. unfold waiting. rewrite E, fmap_app, fmap_cons, concat_app. simpl. rewrite !sumZ_app. lia. Qed.

(** ** Synchronisation, first half *)

Lemma sync_begin_ok p : pool_ok p -> syncing p = false -> pool_ok (sync_begin p).
Proof.
  intros [] Es. pose proof (po_idle0 Es) as E0. unfold sync_begin. split; simpl; try done.
  - by rewrite <- list_fmap_compose.
  - apply Forall_fmap, Forall_forall. intros n Hn. simpl. rewrite Forall_forall in po_nodes0.
    eapply node_ok_perm, (po_nodes0 n Hn); try done. unfold held. simpl. rewrite E0. simpl.
    rewrite pending_hot; [by rewrite app_nil_r|done| |done].
    intros m c Hm Hc. destruct (po_nodes0 m Hm) as [_ _ Hcs _ _ _ _]. rewrite Forall_forall in Hcs.
    apply (ck_buddy _ _ _ (Hcs c ltac:(unfold held; set_solver))).
  - intros c Hc. rewrite <- list_fmap_compose. simpl.
    apply list_elem_of_In, in_concat in Hc as (h & Hh & Hc). apply list_elem_of_In, list_elem_of_fmap in Hh as (n & -> & Hn).
    rewrite Forall_forall in po_nodes0. destruct (po_nodes0 n Hn) as [_ _ Hcs _ _ _ _]. rewrite Forall_forall in Hcs.
    rewrite (ck_buddy _ _ _ (Hcs c ltac:(unfold held; apply list_elem_of_In in Hc; set_solver))). by apply list_elem_of_fmap_2.
  - rewrite po_hot0. unfold waiting. simpl. rewrite E0, app_nil_r, <- list_fmap_compose.
    by rewrite (concat_fmap_nil (hot_list ∘ _)).
  - by rewrite <- list_fmap_compose.
  - by rewrite <- list_fmap_compose.
Qed.

(** ** Freeing *)

Lemma free_chunk_ok p n c :
  pool_ok p -> n ∈ buddy_mem_list p -> c ∈ used_list n -> pool_ok (dr_icm_free_chunk c p).2.
Proof.
  intros Hok Hn Hc. apply list_elem_of_split in Hn as (l1 & l2 & E).
  pose proof (node_at p l1 n l2 Hok E) as Hnode.
  pose proof (nd_ids _ _ _ Hnode) as Hids. unfold held in Hids. rewrite fmap_app in Hids.
  apply NoDup_app in Hids as (Hu & Hd & Hh). rewrite fmap_app in Hh, Hd. apply NoDup_app in Hh as (Hh & _).
  assert (Eb : c_buddy c = n_id n).
  { pose proof (nd_chunks _ _ _ Hnode) as H. rewrite Forall_forall in H. apply (ck_buddy _ _ _ (H c ltac:(unfold held; set_solver))). }
  assert (Eh : unlink c (hot_list n) = hot_list n).
  { apply unlink_absent. intros Hin. apply (Hd (c_id c)); [by apply list_elem_of_fmap_2|]. apply elem_of_app. by left. }
  unfold dr_icm_free_chunk. rewrite Eb.
  match goal with |- context [upd_node _ ?g p] => set (f := g) end. set (p1 := set_hot_memory _ _).
  assert (Hok1 : pool_ok p1).
  { apply (pool_replace p p1 l1 n l2 (f n)); try done.
    - by apply (upd_node_at p l1 n l2 f (po_ids _ Hok)).
    - eapply node_ok_perm, Hnode; try done. unfold held. simpl. rewrite Eh, (unlink_here c (used_list n) Hu Hc) at 1.
      simpl. solve_Permutation.
    - rewrite (waiting_split p1 l1 _ l2 (upd_node_at p l1 n l2 f (po_ids _ Hok) E)). subst p1. simpl.
      rewrite (po_hot _ Hok), u64_add_l, (waiting_split p l1 n l2 E), Eh, sumZ_app. f_equal. unfold sumZ. simpl. lia.
    - apply Hok. }
  destruct (_ && _) eqn:Ei; [|done]. apply andb_true_iff in Ei as [_ Es]. apply negb_true_iff in Es. by apply sync_begin_ok.
Qed.

(** ** Synchronisation, second half *)

Lemma ilog_order c : 0 <= order_of c <= max_icm_log -> num_of_entries c = 2 ^ order_of c ->
  ilog (u32 (num_of_entries c - 1)) = order_of c.
Proof.
  intros Ho ->. pose proof (pow_24 _ Ho). rewrite u32_small by lia.
  destruct (Z.eq_dec (order_of c) 0) as [-> |]; [done|]. apply ilog_ones. lia.
Qed.

(** What synchronisation leaves of a piece *)
Definition outline (n : dr_icm_buddy_mem) : Z * dr_icm_mr * Z * list dr_icm_chunk * list dr_icm_chunk :=
  (n_id n, n_mr n, max_order (n_buddy n), used_list n, hot_list n).

Lemma find_node (l : list dr_icm_buddy_mem) id :
  id ∈ n_id <$> l -> exists l1 n l2, l = l1 ++ n :: l2 /\ n_id n = id /\ List.find (fun n => n_id n =? id) l = Some n.
Proof.
  induction l as [|m l IH]; intros H; [by apply not_elem_of_nil in H|]. simpl.
  destruct (Z.eqb_spec (n_id m) id) as [E|Hne]; [by exists [], m, l|].
  apply elem_of_cons in H as [E|H]; [congruence|]. destruct (IH H) as (l1 & n & l2 & -> & ? & ?). by exists (m :: l1), n, l2.
Qed.

Lemma sync_one_ok p c rest :
  pool_ok p -> p_sync p = c :: rest ->
  exists p', sync_one c rest p = Some p' /\ pool_ok p' /\ p_sync p' = rest /\ syncing p' = syncing p /\
    p_type p' = p_type p /\ p_dms p' = p_dms p /\ p_mrs p' = p_mrs p /\
    outline <$> buddy_mem_list p' = outline <$> buddy_mem_list p.
Proof.
  intros Hok Es. destruct (find_node (buddy_mem_list p) (c_buddy c)) as (l1 & n & l2 & E & Ei & Ef).
  { apply (po_sync _ Hok). rewrite Es. by left. }
  pose proof (node_at p l1 n l2 Hok E) as Hnode.
  assert (Hp : held (p_sync p) n ≡ₚ c :: held rest n).
  { unfold held. rewrite Es. unfold pending at 1. rewrite filter_cons_True by done. fold (pending (n_id n) rest). solve_Permutation. }
  pose proof (nd_chunks _ _ _ Hnode) as Hcs. rewrite Hp in Hcs. apply Forall_cons in Hcs as [[_ Ho En _ _ _ _] _].
  pose proof (nd_holds _ _ _ Hnode) as Hh. rewrite Hp in Hh. simpl in Hh.
  destruct (holds_free _ _ _ _ _ Hh) as (b & Eb & Hb). unfold sync_one. rewrite Ef. simpl.
  rewrite (ilog_order c Ho En), Eb. simpl. rewrite <- Ei.
  match goal with |- context [upd_node _ ?g p] => set (f := g) end.
  eexists. split; [reflexivity|]. set (p1 := set_sync _ _ _).
  assert (El : buddy_mem_list p1 = l1 ++ f n :: l2) by (by apply (upd_node_at p l1 n l2 f (po_ids _ Hok))).
  split; [|split_and!; try done; rewrite El, E, !fmap_app, !fmap_cons; unfold outline; simpl; by rewrite (holds_max _ _ _ Hb)].
  apply (pool_replace p p1 l1 n l2 (f n)); try done.
  - eapply (node_ok_less _ (p_sync p) rest n (f n) c b); done.
  - intros m Hm. simpl. rewrite Es. unfold pending. rewrite filter_cons_False; [done|]. rewrite <- Ei.
    intros Em. apply (other_piece l1 l2 n m); [rewrite <- E; apply Hok|done|done].
  - intros x Hx. rewrite Es. by right.
  - rewrite (waiting_split p1 l1 _ l2 El). subst p1. simpl.
    rewrite (po_hot _ Hok), u64_sub_l, (waiting_split p l1 n l2 E), Es. f_equal. unfold sumZ. simpl. lia.
  - intros Ef'. pose proof (po_idle _ Hok Ef'). congruence.
Qed.

Lemma sync_chunks_ok l p :
  pool_ok p -> p_sync p = l ->
  exists p', sync_chunks l p = Some p' /\ pool_ok p' /\ p_sync p' = [] /\ syncing p' = syncing p /\
    p_type p' = p_type p /\ p_dms p' = p_dms p /\ p_mrs p' = p_mrs p /\
    outline <$> buddy_mem_list p' = outline <$> buddy_mem_list p.
Proof.
  revert p. induction l as [|c l IH]; intros p Hok E; simpl; [by exists p|].
  destruct (sync_one_ok p c l Hok E) as (p1 & -> & Hok1 & E1 & S1 & T1 & D1 & M1 & O1). simpl.
  destruct (IH p1 Hok1 E1) as (p2 & E2 & Hok2 & Es & S2 & T2 & D2 & M2 & O2). exists p2. split_and!; congruence.
Qed.

(** A piece without memory in use holds no chunk *)
Lemma unused_empty ty sl n : node_ok ty sl n -> used_memory n = 0 <-> held sl n = [].
Proof.
  intros []. rewrite nd_used0. split; [|by intros ->]. intros H0. destruct (held sl n) as [|c l]; [done|].
  apply Forall_cons in nd_chunks0 as [Hc Hcs]. change (sumZ byte_size (c :: l)) with (byte_size c + sumZ byte_size l) in H0.
  assert (0 <= sumZ byte_size l).
  { apply sumZ_nonneg. eapply Forall_impl; [done|]. intros x Hx. simpl. rewrite (ck_bytes _ _ _ Hx).
    pose proof (pow_24 _ (ck_order _ _ _ Hx)). destruct (entry_size_cases ty) as [-> | ->]; lia. }
  rewrite (ck_bytes _ _ _ Hc) in H0. pose proof (pow_24 _ (ck_order _ _ _ Hc)). destruct (entry_size_cases ty) as [E | E]; rewrite E in H0; lia.
Qed.

Lemma drop_node (l1 l2 : list dr_icm_buddy_mem) n :
  NoDup (n_id <$> (l1 ++ n :: l2)) -> base.filter (fun x => n_id x <> n_id n) (l1 ++ n :: l2) = l1 ++ l2.
Proof.
  intros Hn. rewrite filter_app, filter_cons_False by naive_solver.
  assert (Hk : forall l : list dr_icm_buddy_mem, (forall m, m ∈ l -> m ∈ l1 ++ l2) -> base.filter (fun x => n_id x <> n_id n) l = l).
  { intros l Hl. induction l as [|m l IH]; [done|]. rewrite filter_cons_True.
    - f_equal. apply IH. intros x Hx. apply Hl. by right.
    - apply (other_piece l1 l2 n m Hn), Hl. by left. }
  rewrite !Hk; [done|set_solver..].
Qed.

Lemma drop_handle (g : dr_icm_buddy_mem -> Z) (hs : list Z) l1 n l2 :
  hs ≡ₚ (g <$> (l1 ++ n :: l2)) -> NoDup hs ->
  base.filter (fun x => x <> g n) hs ≡ₚ (g <$> (l1 ++ l2)) /\ NoDup (base.filter (fun x => x <> g n) hs).
Proof.
  intros Hp Hn. split; [|by apply NoDup_filter]. assert (Hp' : hs ≡ₚ g n :: (g <$> (l1 ++ l2))).
  { rewrite Hp, <- Permutation_middle. done. }
  rewrite Hp' in Hn |- *. apply NoDup_cons in Hn as [Hn _]. by rewrite filter_head.
Qed.

(** Destruction of a piece that holds no chunk *)
Lemma buddy_destroy_ok p l1 n l2 :
  pool_ok p -> buddy_mem_list p = l1 ++ n :: l2 -> held (p_sync p) n = [] ->
  pool_ok (dr_icm_buddy_destroy n p) /\ buddy_mem_list (dr_icm_buddy_destroy n p) = l1 ++ l2.
Proof.
  intros Hok E H0. assert (El : buddy_mem_list (dr_icm_buddy_destroy n p) = l1 ++ l2).
  { simpl. rewrite E. apply drop_node. rewrite <- E. apply Hok. }
  split; [|done]. destruct Hok. rewrite E in *. unfold held in H0. apply app_eq_nil in H0 as [_ H0]. apply app_eq_nil in H0 as [Hh Hp].
  split; rewrite ?El; try done.
  - rewrite <- Permutation_middle, fmap_cons in po_ids0. by apply NoDup_cons in po_ids0 as [_ ?].
  - rewrite <- Permutation_middle in po_nodes0. by apply Forall_cons in po_nodes0 as [_ ?].
  - simpl. intros c Hc. pose proof (po_sync0 c Hc) as Hin. rewrite <- Permutation_middle, fmap_cons in Hin.
    apply elem_of_cons in Hin as [Ei|]; [|done]. exfalso. assert (Hc' : c ∈ pending (n_id n) (p_sync p)).
    { apply list_elem_of_filter. done. }
    rewrite Hp in Hc'. by apply not_elem_of_nil in Hc'.
  - simpl. rewrite po_hot0. f_equal. apply sumZ_perm. unfold waiting. rewrite El, E. simpl.
    rewrite !fmap_app, fmap_cons, !concat_app. simpl. by rewrite Hh.
  - apply (drop_handle (fun n => idm (n_mr n))); apply po_dms0.
  - apply (drop_handle (fun n => imr (n_mr n))); apply po_mrs0.
Qed.

(** Destruction of the pieces of [l] that satisfy [dead], one after the other *)
Definition destroy_all (dead : dr_icm_buddy_mem -> bool) (l : list dr_icm_buddy_mem) (p : dr_icm_pool) : dr_icm_pool :=
  foldl (fun p n => if dead n then dr_icm_buddy_destroy n p else p) p l.

Lemma destroy_same dead l p :
  p_type (destroy_all dead l p) = p_type p /\ p_sync (destroy_all dead l p) = p_sync p /\
  syncing (destroy_all dead l p) = syncing p /\ hot_memory_size (destroy_all dead l p) = hot_memory_size p.
Proof.
  revert p. induction l as [|n l IH]; intros p; [done|]. simpl. destruct (IH (if dead n then dr_icm_buddy_destroy n p else p)) as (-> & -> & -> & ->).
  by destruct (dead n).
Qed.

Lemma destroy_all_ok dead kept l p :
  pool_ok p -> buddy_mem_list p = kept ++ l ->
  (forall n, n ∈ l -> dead n = true -> held (p_sync p) n = []) ->
  pool_ok (destroy_all dead l p) /\
  buddy_mem_list (destroy_all dead l p) = kept ++ base.filter (fun n => dead n = false) l.
Proof.
  revert kept p. induction l as [|n l IH]; intros kept p Hok E Hd; simpl; [done|].
  destruct (dead n) eqn:Ed.
  - destruct (buddy_destroy_ok p kept n l Hok E) as [Hok1 E1]; [apply Hd; [by left|done]|].
    rewrite filter_cons_False by congruence. apply IH; [done|done|]. intros m Hm. simpl. apply Hd. by right.
  - rewrite filter_cons_True by done. rewrite cons_middle, app_assoc. apply IH; [done|by rewrite <- app_assoc|].
    intros m Hm. apply Hd. by right.
Qed.

Lemma reclaim_ok p :
  pool_ok p -> pool_ok (reclaim p) /\
  buddy_mem_list (reclaim p) = base.filter (fun n => held (p_sync p) n <> []) (buddy_mem_list p).
Proof.
  intros Hok. change (reclaim p) with (destroy_all (fun n => used_memory n =? 0) (buddy_mem_list p) p).
  pose proof (po_nodes _ Hok) as Hn. rewrite Forall_forall in Hn.
  destruct (destroy_all_ok (fun n => used_memory n =? 0) [] (buddy_mem_list p) p Hok eq_refl) as [H1 H2].
  { intros n Hin E. apply Z.eqb_eq in E. by apply (unused_empty _ _ _ (Hn n Hin)). }
  split; [done|]. rewrite H2. simpl. apply filter_iff_in. intros n Hin.
  rewrite Z.eqb_neq. by rewrite (unused_empty _ _ _ (Hn n Hin)).
Qed.

Lemma set_idle_ok p : pool_ok p -> p_sync p = [] -> pool_ok (set_sync false (p_sync p) p).
Proof. intros [] Es. by split. Qed.

Lemma sync_finish_ok p reclaims :
  pool_ok p ->
  exists p1 p', sync_finish reclaims p = Some p' /\ pool_ok p1 /\ pool_ok p' /\ p_sync p1 = [] /\
    outline <$> buddy_mem_list p1 = outline <$> buddy_mem_list p /\
    p_sync p' = [] /\ syncing p' = false /\ p_type p' = p_type p /\
    buddy_mem_list p' = if reclaims then base.filter (fun n => used_list n ++ hot_list n <> []) (buddy_mem_list p1)
                        else buddy_mem_list p1.
Proof.
  intros Hok. destruct (sync_chunks_ok (p_sync p) p Hok eq_refl) as (p1 & E1 & Hok1 & Es & _ & Et & _ & _ & Eo).
  exists p1. unfold sync_finish. rewrite E1. simpl. eexists. split; [reflexivity|]. split; [done|].
  destruct reclaims.
  - destruct (reclaim_ok p1 Hok1) as [Hok2 E2]. destruct (destroy_same (fun n => used_memory n =? 0) (buddy_mem_list p1) p1) as (T2 & S2 & _).
    assert (S3 : p_sync (reclaim p1) = []) by (rewrite <- Es; exact S2).
    split; [by apply set_idle_ok|]. split_and!; try done; [transitivity (p_type p1); [exact T2|done]|]. cbn [set_sync buddy_mem_list]. rewrite E2. apply filter_iff_in.
    intros n _. unfold held. rewrite Es. cbn. by rewrite app_nil_r.
  - split; [by apply set_idle_ok|done].
Qed.

(** ** Destruction of the pool *)

Lemma pool_destroy_empty p : pool_ok p -> p_dms (dr_icm_pool_destroy p) = [] /\ p_mrs (dr_icm_pool_destroy p) = [] /\
  buddy_mem_list (dr_icm_pool_destroy p) = [].
Proof.
  intros Hok. unfold dr_icm_pool_destroy.
  assert (Hgen : forall l q, buddy_mem_list q = l -> NoDup (n_id <$> l) ->
    p_dms q ≡ₚ ((fun n => idm (n_mr n)) <$> l) /\ NoDup (p_dms q) -> p_mrs q ≡ₚ ((fun n => imr (n_mr n)) <$> l) /\ NoDup (p_mrs q) ->
    let q' := foldl (fun p n => dr_icm_buddy_destroy n p) q l in p_dms q' = [] /\ p_mrs q' = [] /\ buddy_mem_list q' = []).
  { induction l as [|n l IH]; intros q El Hn [D1 D2] [M1 M2]; simpl.
    - apply Permutation_nil_r in D1, M1. done.
    - apply IH; simpl.
      + rewrite El. by apply (drop_node [] l n).
      + rewrite fmap_cons in Hn. by apply NoDup_cons in Hn as [_ ?].
      + by apply (drop_handle (fun n => idm (n_mr n)) _ [] n l).
      + by apply (drop_handle (fun n => imr (n_mr n)) _ [] n l). }
  apply Hgen; [done|apply Hok..].
Qed.

(** ** Device memory *)

(** The memory and handles an environment gives are new *)
Record env_ok (p : dr_icm_pool) (env : create_env) : Prop := {
  env_dm : forall k h va, ce_dm env k = Some (h, va) -> (h ∉ p_dms p) /\ 0 <= va < 2 ^ 63;
  env_mr : forall h rkey addr, ce_reg env = Some (h, rkey, addr) -> h ∉ p_mrs p;
  env_id : ce_id env ∉ n_id <$> buddy_mem_list p
}.

Lemma free_held_dm h p : h ∉ p_dms p -> mlx5_free_dm h (hold_dm h p) = p.
Proof. intros H. destruct p. unfold mlx5_free_dm, hold_dm, set_res. simpl in *. by rewrite filter_head. Qed.

Lemma destroy_held_mr m p :
  idm m ∉ p_dms p -> imr m ∉ p_mrs p -> dr_icm_pool_mr_destroy m (hold_mr (imr m) (hold_dm (idm m) p)) = p.
Proof.
  intros H1 H2. destruct p. unfold dr_icm_pool_mr_destroy, mlx5_free_dm, ibv_dereg_mr, hold_mr, hold_dm, set_res. simpl in *.
  by rewrite !filter_head.
Qed.

(** The base of the alignment as the code computes it *)
Lemma align_base ty M : limit_ok ty M ->
  exists L, 0 <= L <= 30 /\ 2 ^ L = start_align ty M /\
    (if decide (ty = DR_ICM_TYPE_STE) then ilog (u32 (u64 (dr_icm_pool_chunk_size_to_byte M ty) - 1))
     else ilog (u32 (DR_ICM_MODIFY_HDR_ALIGN_BASE - 1))) = L.
Proof.
  unfold limit_ok, start_align. intros HM. case_decide as Et.
  - subst ty. exists (6 + M). rewrite bytes_eq by done. simpl entry_size.
    assert (E : 64 * 2 ^ M = 2 ^ (6 + M)) by (by rewrite Z.pow_add_r by lia). simpl. change (entry_size DR_ICM_TYPE_STE) with 64.
    rewrite E. assert (1 <= 2 ^ (6 + M) <= 2 ^ 30) by (split; [pose proof (pow_pos (6 + M) ltac:(lia)); lia|apply Z.pow_le_mono_r; unfold max_icm_log in *; lia]).
    rewrite u64_small, u32_small, ilog_ones by lia. split_and!; [lia|unfold max_icm_log in *; lia|done|done].
  - exists 6. split_and!; [lia|lia|done|by vm_compute].
Qed.

Lemma misaligned_mod a L : 0 <= L <= 30 -> 0 <= a ->
  negb (Z.land a (u64 (Z.shiftl 1 L - 1)) =? 0) = negb (a mod 2 ^ L =? 0).
Proof.
  intros HL Ha. rewrite Z.shiftl_1_l. assert (1 <= 2 ^ L <= 2 ^ 30).
  { split; [pose proof (pow_pos L ltac:(lia)); lia|apply Z.pow_le_mono_r; lia]. }
  rewrite u64_small by lia. rewrite <- (Z.land_ones a L) by lia. by rewrite Z.ones_equiv, Z.sub_1_r.
Qed.

Lemma aligned_dm_spec dm p :
  limit_ok (p_type p) (max_log_chunk_sz p) ->
  (forall k h va, dm k = Some (h, va) -> (h ∉ p_dms p) /\ 0 <= va < 2 ^ 63) ->
  let size := entry_size (p_type p) * 2 ^ max_log_chunk_sz p in
  dr_icm_allocate_aligned_dm dm p = (None, p) \/
  exists h k va off,
    dm k = Some (h, va) /\
    dr_icm_allocate_aligned_dm dm p = (Some (h, va + off, off, if decide (k = 0%nat) then size else 2 * size), hold_dm h p) /\
    0 <= off /\ off + size <= (if decide (k = 0%nat) then size else 2 * size) /\
    (va + off) mod start_align (p_type p) (max_log_chunk_sz p) = 0 /\ va + off < 2 ^ 63 + 2 ^ 31.
Proof.
  intros HM Hdm size. destruct (align_base _ _ HM) as (L & HL & HA & EL).
  unfold dr_icm_allocate_aligned_dm. rewrite EL.
  assert (HM' : 0 <= max_log_chunk_sz p <= max_icm_log) by (unfold limit_ok in HM; case_decide; lia).
  pose proof (pow_24 _ HM') as Hp. rewrite bytes_eq by done. fold size.
  assert (Hsz : 0 < size <= 2 ^ 30) by (unfold size; destruct (entry_size_cases (p_type p)) as [-> | ->]; lia).
  assert (HAs : 1 <= start_align (p_type p) (max_log_chunk_sz p) <= size).
  { rewrite <- HA at 1. split; [pose proof (pow_pos L ltac:(lia)); lia|]. unfold start_align, size. unfold limit_ok in HM.
    case_decide as Et; [lia|]. destruct (p_type p); [done|]. change (entry_size DR_ICM_TYPE_MODIFY_ACTION) with 8.
    assert (2 ^ 3 <= 2 ^ max_log_chunk_sz p) by (apply Z.pow_le_mono_r; lia). unfold DR_ICM_MODIFY_HDR_ALIGN_BASE. lia. }
  rewrite (u64_small size), (u64_small (size * 2)) by lia. rewrite <- HA in *.
  destruct (dm 0%nat) as [[h va]|] eqn:E0; [|by left]. destruct (Hdm 0%nat h va E0) as [Hh Hva].
  rewrite misaligned_mod by lia. destruct (Z.eqb_spec (va mod 2 ^ L) 0) as [Ea|Ea]; simpl negb; cbv iota.
  { right. exists h, 0%nat, va, 0. rewrite decide_True by done. rewrite Z.add_0_r. split_and!; try done; lia. }
  rewrite (free_held_dm h p Hh). destruct (dm 1%nat) as [[h' va']|] eqn:E1; [|by left].
  destruct (Hdm 1%nat h' va' E1) as [Hh' Hva']. rewrite misaligned_mod by lia. right. exists h', 1%nat, va'.
  destruct (Z.eqb_spec (va' mod 2 ^ L) 0) as [Ea'|Ea']; simpl negb; cbv iota.
  { exists 0. rewrite Z.add_0_r. replace (size * 2) with (2 * size) by lia. split_and!; try done; simpl; lia. }
  pose proof (Z.mod_pos_bound va' (2 ^ L) ltac:(lia)). exists (2 ^ L - va' mod 2 ^ L).
  rewrite Z.shiftl_1_l. rewrite (u64_small (2 ^ L)) by lia. rewrite !u64_small; [|lia|rewrite u64_small; lia].
  replace (size * 2) with (2 * size) by lia.
  split_and!; try done; simpl; try lia.
  replace (va' + (2 ^ L - va' mod 2 ^ L)) with ((va' / 2 ^ L + 1) * 2 ^ L) by (pose proof (Z.div_mod va' (2 ^ L) ltac:(lia)); lia).
  apply Z.mod_mul. lia.
Qed.

(** ** Creation of a piece *)

(** The pool with the new piece [n] *)
Definition with_piece (n : dr_icm_buddy_mem) (p : dr_icm_pool) : dr_icm_pool :=
  set_nodes (n :: buddy_mem_list p) (hold_mr (imr (n_mr n)) (hold_dm (idm (n_mr n)) p)).

Lemma with_piece_ok p n :
  pool_ok p -> buddy_holds (max_log_chunk_sz p) (n_buddy n) [] -> used_list n = [] -> hot_list n = [] -> used_memory n = 0 ->
  n_id n ∉ n_id <$> buddy_mem_list p -> idm (n_mr n) ∉ p_dms p -> imr (n_mr n) ∉ p_mrs p ->
  0 <= icm_start_addr (n_mr n) < 2 ^ 63 + 2 ^ 31 ->
  icm_start_addr (n_mr n) mod start_align (p_type p) (max_log_chunk_sz p) = 0 ->
  pool_ok (with_piece n p) /\ held (p_sync p) n = [].
Proof.
  intros [] Hh Eu Eh Em Hi Hd Hr Hs Ha.
  assert (E0 : held (p_sync p) n = []).
  { unfold held. rewrite Eu, Eh, pending_nil_fresh; [done|]. intros c Hc E. apply Hi. rewrite <- E. by apply po_sync0. }
  split; [|done]. split; simpl; try done.
  - by apply NoDup_cons.
  - constructor; [|done]. pose proof (holds_max _ _ _ Hh) as Ex.
    split; rewrite ?E0, ?Ex; try done; [|constructor]. unfold limit_ok in po_max0. case_decide; lia.
  - intros c Hc. right. by apply po_sync0.
  - rewrite po_hot0. unfold waiting. simpl. by rewrite Eh.
  - destruct po_dms0 as [P1 P2]. split; [by rewrite P1|by apply NoDup_cons].
  - destruct po_mrs0 as [P1 P2]. split; [by rewrite P1|by apply NoDup_cons].
Qed.

Lemma init_cases M got : 0 <= M <= 30 ->
  (exists freed, dr_buddy_init M got = InitErr ENOMEM freed) \/
  exists b, dr_buddy_init M got = InitOk b /\ buddy_holds M b [].
Proof.
  intros HM. destruct (forallb (got_block got) (attempts M)) eqn:Hg; [right; by apply init_holds|left].
  destruct (init_refused M got Hg) as (freed & E & _). by exists freed.
Qed.

Lemma buddy_create_spec p reduced env :
  pool_ok p -> env_ok p env ->
  dr_icm_buddy_create reduced env p = Some (ENOMEM, p) \/
  exists n, dr_icm_buddy_create reduced env p = Some (0, with_piece n p) /\ pool_ok (with_piece n p) /\
    held (p_sync p) n = [] /\ buddy_holds (max_log_chunk_sz p) (n_buddy n) [].
Proof.
  intros Hok []. pose proof (po_max _ Hok) as HM. unfold dr_icm_buddy_create, dr_icm_pool_mr_create.
  destruct (ce_icm_mr env); simpl; [|by left].
  destruct (aligned_dm_spec (ce_dm env) p HM env_dm0) as [-> |(h & k & va & off & Ek & -> & Ho & _ & Ha & Hs)]; [by left|].
  destruct (env_dm0 k h va Ek) as [Hh Hva].
  destruct (ce_reg env) as [[[mr rkey] addr]|] eqn:Er; [|rewrite free_held_dm by done; by left].
  specialize (env_mr0 _ _ _ eq_refl). destruct (ce_buddy env); simpl.
  2: { left. do 2 f_equal. by apply (destroy_held_mr (mk_icm_mr mr rkey addr h (va + off)) p). }
  destruct (init_cases (max_log_chunk_sz p) (ce_init env)) as [[freed ->]|(b & -> & Hb)].
  { unfold limit_ok, max_icm_log in HM. case_decide; lia. }
  { left. do 2 f_equal. by apply (destroy_held_mr (mk_icm_mr mr rkey addr h (va + off)) p). }
  right. eexists (mk_node (ce_id env) b (mk_icm_mr mr rkey addr h (va + off)) [] 0 [] _). split; [reflexivity|].
  split; [|split; [|done]]; apply with_piece_ok; simpl; done || lia.
Qed.

(** ** The search *)

Lemma set_buddy_same n : set_buddy (n_buddy n) n = n.
Proof. by destruct n. Qed.

Lemma scan_spec ty sl o new_mem l :
  Forall (node_ok ty sl) l -> 0 <= o ->
  (new_mem = true -> forall n l', l = n :: l' -> dr_buddy_alloc_mem o (n_buddy n) <> Some (-1, n_buddy n)) ->
  (scan_buddies o new_mem l = Some (None, l) /\ (new_mem = true -> l = []) /\
     forall n, n ∈ l -> dr_buddy_alloc_mem o (n_buddy n) = Some (-1, n_buddy n)) \/
  exists l1 n l2 seg b,
    l = l1 ++ n :: l2 /\ scan_buddies o new_mem l = Some (Some (set_buddy b n, seg), l1 ++ set_buddy b n :: l2) /\
    0 <= seg /\ o <= max_order (n_buddy n) /\
    buddy_holds (max_order (n_buddy n)) b ((seg, o) :: (block_of <$> held sl n)) /\
    dr_buddy_alloc_mem o (n_buddy n) = Some (seg, b).
Proof.
  intros Hl Ho Hnew. induction l as [|n l IH]; simpl; [left; split_and!; try done; set_solver|].
  apply Forall_cons in Hl as [Hn Hl].
  destruct (alloc_cases _ _ _ o (nd_holds _ _ _ Hn) Ho) as [E|(seg & b & E & Hs & Hle & Hb)]; rewrite E; simpl.
  - destruct new_mem; [by destruct (Hnew eq_refl n l)|].
    destruct (IH Hl) as [(-> & _ & Hall)|(l1 & m & l2 & seg & b & -> & -> & H)]; [done| |].
    + left. simpl. rewrite set_buddy_same. split_and!; try done. intros m Hm. apply elem_of_cons in Hm as [-> |]; auto.
    + right. exists (n :: l1), m, l2, seg, b. simpl. rewrite set_buddy_same. done.
  - rewrite (proj2 (Z.eqb_neq _ _)) by lia. simpl. right. by exists [], n, l, seg, b.
Qed.

Lemma set_nodes_same p : set_nodes (buddy_mem_list p) p = p.
Proof. by destruct p. Qed.

(** A new piece has room *)
Lemma new_piece_room M b o : buddy_holds M b [] -> 0 <= o <= M -> dr_buddy_alloc_mem o b <> Some (-1, b).
Proof.
  intros Hb Ho E. destruct (holds_alloc M b [] o Hb Ho) as [[_ Hall]|(seg & b' & E' & Hs & _)].
  - destruct (Hall 0) as (c & h & Hin & _); [pose proof (pow_pos (M - o) ltac:(lia)); lia|]. by apply not_elem_of_nil in Hin.
  - rewrite E in E'. injection E' as <- _. lia.
Qed.

(** The pool [q] in which a chunk of order [o] was found: the one before, or with a new piece *)
Definition same_or_more (reduced : bool) (env : create_env) (p q : dr_icm_pool) : Prop :=
  q = p \/ exists m, q = with_piece m p /\ held (p_sync p) m = [] /\ dr_icm_buddy_create reduced env p = Some (0, q).

(** The segment [seg] taken from the piece [n] of [q] *)
Record taken (q : dr_icm_pool) (o seg : Z) (l1 : list dr_icm_buddy_mem) (n : dr_icm_buddy_mem)
    (l2 : list dr_icm_buddy_mem) (b : buddy_mem) : Prop := {
  tk_at : buddy_mem_list q = l1 ++ n :: l2;
  tk_seg : 0 <= seg;
  tk_order : o <= max_order (n_buddy n);
  tk_alloc : dr_buddy_alloc_mem o (n_buddy n) = Some (seg, b);
  tk_holds : buddy_holds (max_order (n_buddy n)) b ((seg, o) :: (block_of <$> held (p_sync q) n))
}.

(** [dr_icm_handle_buddies_get_mem] needs at most two passes: it finds a segment, if need be in a
    new piece, or nothing was free and no piece could be created. *)
Lemma handle_spec p o reduced env :
  pool_ok p -> 0 <= o <= max_log_chunk_sz p -> env_ok p (env 1%nat) ->
  (handle_buddies 2 o reduced false env p = Some (inl ENOMEM, p) /\
   dr_icm_buddy_create reduced (env 1%nat) p = Some (ENOMEM, p) /\
   forall n, n ∈ buddy_mem_list p -> dr_buddy_alloc_mem o (n_buddy n) = Some (-1, n_buddy n)) \/
  exists q l1 n l2 seg b, pool_ok q /\ same_or_more reduced (env 1%nat) p q /\ taken q o seg l1 n l2 b /\
    handle_buddies 2 o reduced false env p = Some (inr (set_buddy b n, seg), set_nodes (l1 ++ set_buddy b n :: l2) q).
Proof.
  intros Hok Ho Henv.
  destruct (scan_spec _ _ o false _ (po_nodes _ Hok) ltac:(lia)) as [(E & _ & Hall)|(l1 & n & l2 & seg & b & El & E & H1 & H2 & H3 & H4)]; [done|..].
  2: { right. exists p, l1, n, l2, seg, b. split; [done|]. split; [by left|]. split; [by split|].
       change (handle_buddies 2) with (handle_buddies (S 1)). cbn [handle_buddies]. by rewrite E. }
  cbn [handle_buddies]. rewrite E. cbn [mbind option_bind fst snd]. rewrite set_nodes_same.
  destruct (buddy_create_spec p reduced (env 1%nat) Hok Henv) as [-> |(m & Ec & Hok' & E0 & Hm)]; [by left|right]. rewrite Ec.
  cbn [mbind option_bind negb Z.eqb].
  destruct (scan_spec _ _ o true _ (po_nodes _ Hok') ltac:(lia)) as [(_ & Hnil & _)|(l1 & n & l2 & seg & b & El & E' & H1 & H2 & H3 & H4)].
  - intros _ n l' [= <- _]. by apply (new_piece_room (max_log_chunk_sz p)).
  - discriminate (Hnil eq_refl).
  - exists (with_piece m p), l1, n, l2, seg, b. split; [done|]. split; [right; by exists m|]. split; [by split|].
    rewrite E'. done.
Qed.

(** ** Allocation *)

Definition fresh_chunk (id : Z) (p : dr_icm_pool) : Prop :=
  forall n, n ∈ buddy_mem_list p -> id ∉ c_id <$> held (p_sync p) n.

Lemma fresh_more id reduced env p q : same_or_more reduced env p q -> fresh_chunk id p -> fresh_chunk id q.
Proof.
  intros [-> |(m & -> & E0 & _)] Hf; [done|]. intros n Hn. apply elem_of_cons in Hn as [-> |Hn]; [|by apply Hf].
  simpl p_sync. rewrite E0. apply not_elem_of_nil.
Qed.

(** When a chunk can not be had the pool, with the piece that may have been added, is as before *)
Lemma give_back q o seg l1 n l2 b :
  pool_ok q -> taken q o seg l1 n l2 b ->
  exists b', dr_buddy_free_mem (u32 seg) o b = Some b' /\
    upd_node (n_id n) (set_buddy b') (set_nodes (l1 ++ set_buddy b n :: l2) q) = q.
Proof.
  intros Hok []. pose proof (node_at q l1 n l2 Hok tk_at0) as Hn.
  destruct (holds_apart _ _ _ tk_holds0) as [Hr _]. destruct (Hr (seg, o) ltac:(by left)) as (R1 & _ & R3 & _). simpl in *.
  pose proof (pow_24 _ (nd_M _ _ _ Hn)). pose proof (pow_pos o ltac:(lia)). rewrite u32_small by lia.
  destruct (holds_free _ _ _ _ _ tk_holds0) as (b' & Eb & Hb). exists b'. split; [done|].
  rewrite (holds_determined _ b' (n_buddy n) _ Hb (nd_holds _ _ _ Hn)).
  set (q1 := set_nodes _ q).
  assert (E : buddy_mem_list (upd_node (n_id n) (set_buddy (n_buddy n)) q1) = l1 ++ n :: l2).
  { change (n_id n) with (n_id (set_buddy b n)).
    rewrite (upd_node_at q1 l1 (set_buddy b n) l2 (set_buddy (n_buddy n))); [by destruct n| |done].
    pose proof (po_ids _ Hok) as Hi. rewrite tk_at0, fmap_app, fmap_cons in Hi. simpl. by rewrite fmap_app, fmap_cons. }
  transitivity (set_nodes (buddy_mem_list (upd_node (n_id n) (set_buddy (n_buddy n)) q1)) q); [done|].
  rewrite E, <- tk_at0. apply set_nodes_same.
Qed.

Lemma new_chunk_ok ty n o seg id :
  0 <= o <= max_icm_log -> 0 <= seg < 2 ^ 24 ->
  let c := mk_chunk id (n_id n) (imr_rkey (n_mr n)) (dr_icm_pool_chunk_size_to_entries o)
    (u32 (dr_icm_pool_chunk_size_to_byte o ty)) (u64 (icm_start_addr (n_mr n) + s32 (entry_size ty * seg)))
    (u64 (imr_addr (n_mr n) + s32 (entry_size ty * seg))) (u32 seg) in
  chunk_ok ty n c /\ block_of c = (seg, o).
Proof.
  intros Ho Hs c. subst c. rewrite entries_eq, bytes_eq by done. pose proof (pow_24 o Ho).
  assert (0 <= entry_size ty * seg < 2 ^ 31 /\ 0 <= entry_size ty * 2 ^ o < 2 ^ 31) as [].
  { destruct (entry_size_cases ty) as [-> | ->]; lia. }
  rewrite s32_small, !u32_small by lia. unfold block_of.
  assert (El : Z.log2 (2 ^ o) = o) by (apply Z.log2_pow2; lia).
  split; [split|]; unfold order_of; simpl; rewrite ?El; done.
Qed.

Lemma chunk_create_ok q o seg l1 n l2 b got_ste id :
  pool_ok q -> taken q o seg l1 n l2 b -> 0 <= o -> fresh_chunk id q ->
  (p_type q = DR_ICM_TYPE_STE -> (dr_icm_chunk_ste_init got_ste).1 = 0) ->
  exists c p' n', dr_icm_chunk_create o (set_buddy b n) seg true got_ste id (set_nodes (l1 ++ set_buddy b n :: l2) q) = Some (c, p') /\
    pool_ok p' /\ buddy_mem_list p' = l1 ++ n' :: l2 /\ outline n' = (n_id n, n_mr n, max_order (n_buddy n), used_list n ++ [c], hot_list n) /\
    chunk_ok (p_type q) n c /\ block_of c = (seg, o) /\ c_id c = id /\
    p_type p' = p_type q /\ p_sync p' = p_sync q /\ syncing p' = syncing q /\ max_log_chunk_sz p' = max_log_chunk_sz q.
Proof.
  intros Hok [] Ho Hf Hste. set (q1 := set_nodes _ q). pose proof (node_at q l1 n l2 Hok tk_at0) as Hn.
  destruct (holds_apart _ _ _ tk_holds0) as [Hr _]. destruct (Hr (seg, o) ltac:(by left)) as (R1 & _ & R3 & _). simpl in R1, R3.
  pose proof (nd_M _ _ _ Hn) as HM. pose proof (pow_24 _ HM). pose proof (pow_pos o ltac:(lia)).
  unfold dr_icm_chunk_create. simpl negb at 1. cbv iota. set (c := mk_chunk _ _ _ _ _ _ _ _).
  assert (chunk_ok (p_type q) n c /\ block_of c = (seg, o)) as [Hc Hb] by (apply (new_chunk_ok (p_type q) n); lia).
  replace (_ && _) with false.
  2: { symmetry. destruct (bool_decide _) eqn:Ed; [|done]. apply bool_decide_eq_true in Ed. simpl in Ed. by rewrite Hste. }
  match goal with |- context [upd_node _ ?g q1] => set (f := g) end. set (p' := upd_node _ f q1).
  assert (El : buddy_mem_list p' = l1 ++ f (set_buddy b n) :: l2).
  { apply (upd_node_at q1 l1 (set_buddy b n) l2 f); [|done]. pose proof (po_ids _ Hok) as Hi.
    rewrite tk_at0, fmap_app, fmap_cons in Hi. simpl. by rewrite fmap_app, fmap_cons. }
  exists c, p', (f (set_buddy b n)). split; [done|].
  split; [|split_and!; try done; unfold outline; simpl; by rewrite (holds_max _ _ _ tk_holds0)].
  apply (pool_replace q p' l1 n l2 (f (set_buddy b n))); try done.
  - apply (node_ok_more _ (p_sync q) n _ c b); try done; [by rewrite Hb| |].
    + apply Hf. rewrite tk_at0. set_solver.
    + unfold held. simpl. solve_Permutation.
  - rewrite (waiting_split p' l1 _ l2 El). simpl. by rewrite (po_hot _ Hok), (waiting_split q l1 n l2 tk_at0).
  - apply Hok.
Qed.
