(* ===== verification/IcmPoolSpec.v ===== *)
(** The contract of the pool of steering memory, over every interleaving of allocation, freeing
    and synchronisation: chunks handed out, freed or waiting for the device never overlap; an
    allocation fails only for stated reasons; a synchronisation gives the memory of every chunk
    freed before it back, and with reclaiming the pieces nothing lives in. *)

From stdpp Require Import base numbers list list_tactics sets.
From S2P Require Import Prelude Types Bitmap BitmapProps Buddy BuddyTree BuddyProps BuddySpec IcmPool IcmPoolProps.

(** * Allocation *)

(** The chunk [c] of order [o] was added to the used list of a piece of [q] *)
Definition gains (q p' : dr_icm_pool) (c : dr_icm_chunk) (o : Z) : Prop :=
  exists l1 n l2 n', buddy_mem_list q = l1 ++ n :: l2 /\ buddy_mem_list p' = l1 ++ n' :: l2 /\
    outline n' = (n_id n, n_mr n, max_order (n_buddy n), used_list n ++ [c], hot_list n) /\
    chunk_ok (p_type q) n c /\ order_of c = o /\ p_sync p' = p_sync q.

(** Why an allocation fails *)
Definition alloc_refused (p : dr_icm_pool) (o : Z) (reduced : bool) (env : create_env) (got : bool)
    (got_ste : ste_block -> bool) : Prop :=
  max_log_chunk_sz p < o \/
  (dr_icm_buddy_create reduced env p = Some (ENOMEM, p) /\
   forall n, n ∈ buddy_mem_list p -> dr_buddy_alloc_mem o (n_buddy n) = Some (-1, n_buddy n)) \/
  got = false \/ (p_type p = DR_ICM_TYPE_STE /\ (dr_icm_chunk_ste_init got_ste).1 <> 0).

Lemma not_refused p q o seg l1 n l2 b reduced env got_ste :
  same_or_more reduced env p q -> taken q o seg l1 n l2 b -> o <= max_log_chunk_sz p ->
  (p_type p = DR_ICM_TYPE_STE -> (dr_icm_chunk_ste_init got_ste).1 = 0) -> ~ alloc_refused p o reduced env true got_ste.
Proof.
  intros Hm [E Hs _ Ea _] Ho Hste [H|[[Hc Hall]|[H|[Et H]]]]; [lia| |done|by destruct (H (Hste Et))].
  destruct Hm as [-> |(m & -> & _ & Hc')]; [|rewrite Hc in Hc'; discriminate].
  specialize (Hall n). rewrite E in Hall. rewrite Hall in Ea by set_solver. injection Ea as <- _. lia.
Qed.

Lemma alloc_chunk_spec p o reduced env got got_ste id :
  pool_ok p -> 0 <= o -> env_ok p (env 1%nat) -> fresh_chunk id p ->
  exists r p' q, dr_icm_alloc_chunk o reduced env got got_ste id p = Some (r, p') /\ pool_ok p' /\ same_or_more reduced (env 1%nat) p q /\
    match r with
    | None => p' = q /\ alloc_refused p o reduced (env 1%nat) got got_ste
    | Some c => gains q p' c o /\ c_id c = id /\ ~ alloc_refused p o reduced (env 1%nat) got got_ste
    end.
Proof.
  intros Hok Ho Henv Hf. unfold dr_icm_alloc_chunk, alloc_refused.
  destruct (Z.ltb_spec (max_log_chunk_sz p) o) as [Hlt|Hle].
  { exists None, p, p. split_and!; try done; by left. }
  destruct (handle_spec p o reduced env Hok ltac:(lia) Henv) as [(-> & Hc & Hall)|(q & l1 & n & l2 & seg & b & Hq & Hm & Ht & ->)].
  { exists None, p, p. simpl. split_and!; try done; [by left|]. right. left. done. }
  cbn [mbind option_bind]. assert (Et : p_type q = p_type p) by (destruct Hm as [-> |(m & -> & _)]; done).
  destruct (give_back q o seg l1 n l2 b Hq Ht) as (b' & Eb & Eq).
  destruct (decide (got = true /\ (p_type p = DR_ICM_TYPE_STE -> (dr_icm_chunk_ste_init got_ste).1 = 0))) as [[-> Hste]|Hno].
  - rewrite <- Et in Hste. destruct (chunk_create_ok q o seg l1 n l2 b got_ste id Hq Ht Ho (fresh_more id _ _ p q Hm Hf) Hste)
      as (c & p' & n' & -> & Hp' & El & En & Hc & Hb & Hi & _ & Hs & _).
    exists (Some c), p', q. split_and!; try done.
    + exists l1, n, l2, n'. injection Hb as _ Eo. split_and!; try done. apply Ht.
    + apply (not_refused p q o seg l1 n l2 b); try done. by rewrite Et in Hste.
  - assert (E : dr_icm_chunk_create o (set_buddy b n) seg got got_ste id (set_nodes (l1 ++ set_buddy b n :: l2) q) = None).
    { unfold dr_icm_chunk_create. destruct got; [|done]. simpl. rewrite Et. destruct (bool_decide _) eqn:Ed; simpl.
      - apply bool_decide_eq_true in Ed. destruct (Z.eqb_spec (dr_icm_chunk_ste_init got_ste).1 0); [|done]. exfalso. apply Hno. by split.
      - apply bool_decide_eq_false in Ed. exfalso. apply Hno. by split. }
    rewrite E. simpl. rewrite Eb. simpl. exists None, q, q. rewrite Eq. split_and!; try done.
    right. right. destruct got; [right|by left]. split; [destruct (p_type p); [done|]|intros E0]; exfalso; apply Hno; by split.
Qed.

(** * The system *)

(** The steps of the threads that share a pool; [OpSync] and [OpFree] may begin a
    synchronisation, [OpFinish] is its second half *)
Inductive icm_op : Type :=
| OpAlloc (o : Z) (reduced : bool) (env : nat -> create_env) (got : bool) (got_ste : ste_block -> bool) (id : Z)
| OpFree (c : dr_icm_chunk)
| OpSync
| OpFinish (reclaims : bool)
| OpLimit (v : Z).

Definition icm_step (op : icm_op) (p : dr_icm_pool) : option dr_icm_pool :=
  match op with
  | OpAlloc o reduced env got got_ste id => snd <$> dr_icm_alloc_chunk o reduced env got got_ste id p
  | OpFree c => Some (dr_icm_free_chunk c p).2
  | OpSync => Some (dr_icm_pool_sync_pool p).2
  | OpFinish reclaims => sync_finish reclaims p
  | OpLimit v => Some (dr_icm_pool_set_pool_max_log_chunk_sz v p)
  end.

(** What the callers keep to: an order is not negative, new objects have identities of their own,
    only chunks in use are freed, and only a synchronisation that was begun is finished *)
Definition op_ok (p : dr_icm_pool) (op : icm_op) : Prop :=
  match op with
  | OpAlloc o _ env _ _ id => 0 <= o /\ env_ok p (env 1%nat) /\ fresh_chunk id p
  | OpFree c => exists n, n ∈ buddy_mem_list p /\ c ∈ used_list n
  | OpSync => True
  | OpFinish _ => syncing p = true
  | OpLimit v => limit_ok (p_type p) v
  end.

Inductive pool_reach : dr_icm_pool -> Prop :=
| pr_create ty sw act got lock p :
    dr_icm_pool_create ty sw act got lock = Some p -> limit_ok ty (max_log_chunk_sz p) -> pool_reach p
| pr_step p op p' : pool_reach p -> op_ok p op -> icm_step op p = Some p' -> pool_reach p'.

Lemma step_ok p op : pool_ok p -> op_ok p op -> exists p', icm_step op p = Some p' /\ pool_ok p'.
Proof.
  intros Hok Hop. destruct op as [o reduced env got got_ste id|c| |reclaims|v]; simpl in *.
  - destruct Hop as (Ho & Henv & Hf).
    destruct (alloc_chunk_spec p o reduced env got got_ste id Hok Ho Henv Hf) as (r & p' & q & -> & Hp' & _). by exists p'.
  - destruct Hop as (n & Hn & Hc). eexists. split; [done|]. by apply (free_chunk_ok p n).
  - eexists. split; [done|]. unfold dr_icm_pool_sync_pool. destruct (syncing p) eqn:Es; [done|]. by apply sync_begin_ok.
  - destruct (sync_finish_ok p reclaims Hok) as (p1 & p' & -> & _ & Hp' & _). by exists p'.
  - eexists. split; [done|]. destruct Hok. by split.
Qed.

Lemma reach_ok p : pool_reach p -> pool_ok p.
Proof.
  induction 1 as [ty sw act got lock p E Hl|p op p' _ IH Hop E].
  - unfold dr_icm_pool_create in E. destruct got; [|done]. destruct (lock =? 0); [|done]. injection E as <-.
    split; simpl in *; try done; try constructor; try done; try constructor. intros c Hc. by apply not_elem_of_nil in Hc.
  - destruct (step_ok p op IH Hop) as (p1 & E' & Hp). congruence.
Qed.

(** * Chunks apart *)

Lemma fmap_inj_on {A B} (f : A -> B) l x y : NoDup (f <$> l) -> x ∈ l -> y ∈ l -> f x = f y -> x = y.
Proof.
  intros Hn Hx Hy E. apply list_elem_of_lookup in Hx as [i Hi], Hy as [j Hj].
  assert (i = j) as ->; [|congruence]. eapply (NoDup_lookup (f <$> l)); [done|by rewrite list_lookup_fmap, Hi|by rewrite list_lookup_fmap, Hj, E].
Qed.

(** The place of a chunk of a piece, in entries of the piece *)
Lemma chunk_place p n c :
  pool_ok p -> n ∈ buddy_mem_list p -> c ∈ held (p_sync p) n ->
  c_icm_addr c = icm_start_addr (n_mr n) + entry_size (p_type p) * c_seg c /\
  byte_size c = entry_size (p_type p) * 2 ^ order_of c /\ 0 <= order_of c <= max_order (n_buddy n) /\
  0 <= c_seg c /\ c_seg c + 2 ^ order_of c <= 2 ^ max_order (n_buddy n) /\ c_seg c mod 2 ^ order_of c = 0.
Proof.
  intros Hok Hn Hc. pose proof (po_nodes _ Hok) as H. rewrite Forall_forall in H. specialize (H n Hn).
  pose proof (nd_chunks _ _ _ H) as Hcs. rewrite Forall_forall in Hcs. specialize (Hcs c Hc).
  destruct (holds_apart _ _ _ (nd_holds _ _ _ H)) as [Hr _].
  destruct (Hr (block_of c)) as (R1 & R2 & R3 & R4); [by apply list_elem_of_fmap_2|]. simpl in *.
  split_and!; try done; try lia; try apply Hcs. rewrite (ck_addr _ _ _ Hcs). pose proof (nd_start _ _ _ H).
  pose proof (pow_24 _ (nd_M _ _ _ H)). pose proof (pow_pos (order_of c) ltac:(lia)).
  destruct (entry_size_cases (p_type p)) as [-> | ->]; rewrite u64_small; lia.
Qed.

(** C30.  The chunks of steering memory never overlap.  Whatever allocations, frees and halves of
    synchronisations the threads that share a pool run, in whatever order: no step faults (the
    search for memory ends after at most one new piece, no buddy allocator is misused and no
    piece is destroyed under a chunk); the chunks of a piece that are in use, that were freed, and
    that wait for the synchronisation under way lie inside its memory and share no byte, so that
    memory the device may still read is not handed out again; and a chunk of STEs is aligned to
    its size. *)
Theorem icm_chunks_apart p :
  pool_reach p ->
  (forall op, op_ok p op -> is_Some (icm_step op p)) /\
  forall n, n ∈ buddy_mem_list p ->
    (forall c, c ∈ held (p_sync p) n ->
       icm_start_addr (n_mr n) <= c_icm_addr c /\
       c_icm_addr c + byte_size c <= icm_start_addr (n_mr n) + entry_size (p_type p) * 2 ^ max_order (n_buddy n) /\
       (p_type p = DR_ICM_TYPE_STE -> c_icm_addr c mod byte_size c = 0)) /\
    (forall c1 c2 a, c1 ∈ held (p_sync p) n -> c2 ∈ held (p_sync p) n ->
       c_icm_addr c1 <= a < c_icm_addr c1 + byte_size c1 -> c_icm_addr c2 <= a < c_icm_addr c2 + byte_size c2 -> c1 = c2).
Proof.
  intros Hr. apply reach_ok in Hr as Hok. split.
  { intros op Hop. destruct (step_ok p op Hok Hop) as (p' & -> & _). by eexists. }
  intros n Hn. pose proof (po_nodes _ Hok) as Hnode. rewrite Forall_forall in Hnode. specialize (Hnode n Hn). split.
  - intros c Hc. destruct (chunk_place p n c Hok Hn Hc) as (-> & -> & Ho & Hs & Hb & Ha).
    pose proof (nd_align _ _ _ Hnode) as Hal. pose proof (pow_pos (order_of c) ltac:(lia)).
    split_and!; [destruct (entry_size_cases (p_type p)) as [-> | ->]; lia..|].
    intros Et. unfold start_align in Hal. rewrite decide_True in Hal by done. rewrite Et in *. change (entry_size DR_ICM_TYPE_STE) with 64 in *.
    apply Z.mod_divide in Hal as [u Eu]; [|pose proof (pow_pos (max_order (n_buddy n)) ltac:(lia)); lia].
    apply Z.mod_divide in Ha as [v Ev]; [|lia]. rewrite Eu, Ev, (pow_split (max_order (n_buddy n)) (order_of c)) by lia.
    apply Z.mod_divide; [lia|]. exists (u * 2 ^ (max_order (n_buddy n) - order_of c) + v). lia.
  - intros c1 c2 a H1 H2 Ha1 Ha2. pose proof (nd_holds _ _ _ Hnode) as Hh. destruct (holds_apart _ _ _ Hh) as [_ Hd].
    apply (fmap_inj_on block_of (held (p_sync p) n)); [by destruct Hh as (? & _ & ? & _)|done|done|].
    destruct (chunk_place p n c1 Hok Hn H1) as (E1 & B1 & _), (chunk_place p n c2 Hok Hn H2) as (E2 & B2 & _).
    rewrite E1, B1 in Ha1. rewrite E2, B2 in Ha2.
    apply (Hd _ _ ((a - icm_start_addr (n_mr n)) / entry_size (p_type p))); [by apply list_elem_of_fmap_2..| |];
      unfold in_block; simpl; destruct (entry_size_cases (p_type p)) as [E|E]; rewrite E in *;
      (split; [apply Z.div_le_lower_bound|apply Z.div_lt_upper_bound]; lia).
Qed.

(** * What an allocation returns *)

(** [dr_icm_alloc_chunk] of a reachable pool returns a chunk of [2^order] entries, added to
    the used list of its piece and to nothing else, or a null pointer; it returns a null pointer
    exactly when the order is above the limit, when no piece has an aligned free run and no new
    piece can be created, or when the memory of the chunk object cannot be had.  A null pointer
    leaves every piece as it was, at most with a new, empty piece in front. *)
Theorem icm_alloc_exact p o reduced env got got_ste id :
  pool_reach p -> 0 <= o -> env_ok p (env 1%nat) -> fresh_chunk id p ->
  exists r p' q, dr_icm_alloc_chunk o reduced env got got_ste id p = Some (r, p') /\ same_or_more reduced (env 1%nat) p q /\
    (r = None <-> alloc_refused p o reduced (env 1%nat) got got_ste) /\
    match r with
    | None => p' = q
    | Some c => gains q p' c o /\ c_id c = id /\ num_of_entries c = 2 ^ o
    end.
Proof.
  intros Hr Ho Henv Hf. apply reach_ok in Hr as Hok.
  destruct (alloc_chunk_spec p o reduced env got got_ste id Hok Ho Henv Hf) as (r & p' & q & E & _ & Hm & H).
  exists r, p', q. split; [done|]. split; [done|]. destruct r as [c|].
  - destruct H as (Hg & Hi & Hno). split.
    + split; [done|]. intros Hx. by destruct Hno.
    + split_and!; try done. destruct Hg as (l1 & n & l2 & n' & _ & _ & _ & Hc & Eo & _). rewrite <- Eo. apply Hc.
  - destruct H as [-> Hx]. done.
Qed.

(** * Synchronisation *)

(** The block of a chunk that waits is free for an allocator of the chunks in use and freed *)
Lemma waiting_room p n c b :
  pool_ok p -> n ∈ buddy_mem_list p -> c ∈ p_sync p -> c_buddy c = n_id n ->
  buddy_holds (max_order (n_buddy n)) b (block_of <$> (used_list n ++ hot_list n)) ->
  exists seg b', dr_buddy_alloc_mem (order_of c) b = Some (seg, b') /\ 0 <= seg.
Proof.
  intros Hok Hn Hc Eb Hb. pose proof (po_nodes _ Hok) as H. rewrite Forall_forall in H. specialize (H n Hn).
  assert (Hp : c ∈ pending (n_id n) (p_sync p)) by (by apply list_elem_of_filter).
  assert (Hh : c ∈ held (p_sync p) n) by (unfold held; set_solver).
  destruct (chunk_place p n c Hok Hn Hh) as (_ & _ & Ho & Hs & Hr & Ha). pose proof (pow_pos (order_of c) ltac:(lia)) as Hpos.
  destruct (holds_alloc _ _ _ _ Hb Ho) as [[_ Hall]|(seg & b' & E & Hseg & _)]; [exfalso|by exists seg, b'].
  apply Z.mod_divide in Ha as [k Ek]; [|lia]. pose proof (pow_split (max_order (n_buddy n)) (order_of c) Ho).
  destruct (Hall k) as (x & h & Hin & Hx & Hx'); [nia|]. rewrite <- Ek in Hx'.
  pose proof (nd_holds _ _ _ H) as Hh'. destruct (holds_apart _ _ _ Hh') as [_ Hd].
  destruct Hh' as (_ & _ & Hnd & _). unfold held in Hnd, Hd. rewrite app_assoc, fmap_app in Hnd, Hd.
  assert (h = block_of c) as ->.
  { apply (Hd _ _ x); [apply elem_of_app; by left|apply elem_of_app; right; by apply list_elem_of_fmap_2|done|done]. }
  apply NoDup_app in Hnd as (_ & Hdis & _). apply (Hdis _ Hin). by apply list_elem_of_fmap_2.
Qed.

(** C31.  A synchronisation gives everything back.  When its second half has run, whatever was
    allocated and freed since the first, nothing waits any more and the count of freed memory is
    that of the chunks freed since; each chunk that waited can be allocated again, at its size,
    in its piece; the chunks in use and freed since are untouched; and with reclaiming exactly the
    pieces without such a chunk are destroyed, their device memory and registration released. *)
Theorem icm_sync_returns p reclaims :
  pool_reach p ->
  exists p', sync_finish reclaims p = Some p' /\ p_sync p' = [] /\ syncing p' = false /\
    hot_memory_size p' = u64 (sumZ byte_size (concat (hot_list <$> buddy_mem_list p'))) /\
    (outline <$> buddy_mem_list p') =
      (if reclaims then base.filter (fun x => x.1.2 ++ x.2 <> []) (outline <$> buddy_mem_list p)
       else outline <$> buddy_mem_list p) /\
    p_dms p' ≡ₚ ((fun n => idm (n_mr n)) <$> buddy_mem_list p') /\
    p_mrs p' ≡ₚ ((fun n => imr (n_mr n)) <$> buddy_mem_list p') /\
    (forall c n', c ∈ p_sync p -> n' ∈ buddy_mem_list p' -> c_buddy c = n_id n' ->
       exists seg b', dr_buddy_alloc_mem (order_of c) (n_buddy n') = Some (seg, b') /\ 0 <= seg).
Proof.
  intros Hr. apply reach_ok in Hr as Hok.
  destruct (sync_finish_ok p reclaims Hok) as (p1 & p' & E & Hok1 & Hok' & Es1 & Eo & Es & Esy & _ & El).
  exists p'. split; [done|]. split; [done|]. split; [done|]. split_and!.
  - rewrite (po_hot _ Hok'). unfold waiting. by rewrite Es, app_nil_r.
  - rewrite El, <- Eo. destruct reclaims; [|done]. clear. induction (buddy_mem_list p1) as [|n l IH]; [done|].
    rewrite fmap_cons, !filter_cons. cbn [outline fst snd]. by case_decide; rewrite ?fmap_cons, IH.
  - apply Hok'.
  - apply Hok'.
  - intros c n' Hc Hn' Eb. pose proof (po_nodes _ Hok') as H. rewrite Forall_forall in H. specialize (H n' Hn').
    assert (Hn1 : n' ∈ buddy_mem_list p1) by (rewrite El in Hn'; destruct reclaims; [by apply list_elem_of_filter in Hn' as [_ ?]|done]).
    apply (list_elem_of_fmap_2 outline) in Hn1. rewrite Eo in Hn1. apply list_elem_of_fmap in Hn1 as (n & En & Hn).
    injection En as Ei _ Em Eu Eh. apply (waiting_room p n c); [done|done|done|congruence|].
    pose proof (nd_holds _ _ _ H) as Hh. unfold held in Hh. rewrite Es, Em, Eu, Eh in Hh. simpl in Hh. by rewrite app_nil_r in Hh.
Qed.

(** Destruction of the pool releases all its device memory and registrations. *)
Theorem icm_destroy_releases p :
  pool_reach p -> p_dms (dr_icm_pool_destroy p) = [] /\ p_mrs (dr_icm_pool_destroy p) = [] /\
  buddy_mem_list (dr_icm_pool_destroy p) = [].
Proof. intros Hr. by apply pool_destroy_empty, reach_ok. Qed.

(** * Device memory *)

(** The start of a piece lies at the alignment of its largest chunk (64 bytes for actions),
    inside the device memory that was obtained for it with room for the whole piece behind it;
    when none can be had, none is kept. *)
Theorem icm_start_fits dm p :
  limit_ok (p_type p) (max_log_chunk_sz p) ->
  (forall k h va, dm k = Some (h, va) -> (h ∉ p_dms p) /\ 0 <= va < 2 ^ 63) ->
  match dr_icm_allocate_aligned_dm dm p with
  | (None, p') => p' = p
  | (Some (h, start, off, len), p') =>
    p' = hold_dm h p /\ start mod start_align (p_type p) (max_log_chunk_sz p) = 0 /\
    exists k va, dm k = Some (h, va) /\ start = va + off /\ 0 <= off /\
      off + entry_size (p_type p) * 2 ^ max_log_chunk_sz p <= len
  end.
Proof.
  intros Hl Hdm. destruct (aligned_dm_spec dm p Hl Hdm) as [-> |(h & k & va & off & Ek & -> & H1 & H2 & H3 & _)]; [done|].
  split; [done|]. split; [done|]. by exists k, va.
Qed.

(** * The limits *)

(** What creation of a domain sets is inside the limits above *)
Lemma domain_limits log_icm log_hdr sw act :
  0 <= log_icm < 256 -> 0 <= log_hdr < 256 -> dr_domain_check_icm_memory_caps log_icm log_hdr = inr (sw, act) ->
  limit_ok DR_ICM_TYPE_STE sw /\ limit_ok DR_ICM_TYPE_MODIFY_ACTION act.
Proof.
  unfold dr_domain_check_icm_memory_caps, DR_CHUNK_SIZE_4K, DR_MODIFY_ACTION_LOG_SIZE, DR_CHUNK_SIZE_1024K, DR_STE_LOG_SIZE.
  intros H1 H2. destruct (Z.ltb_spec log_hdr (12 + 3)); [done|]. destruct (Z.ltb_spec log_icm (20 + 6)); [done|].
  intros [= <- <-]. rewrite (u32_small (log_icm - 3)), (u32_small (log_hdr - 3)), !u32_small by lia.
  unfold limit_ok, max_icm_log. simpl. lia.
Qed.

(** .. but an application may raise the limit of STEs beyond them: the test for support adds in 32
    bits, so that every hint near [2^32] passes, and from 25 on the size of a piece in bytes
    overflows its [int]. *)
Theorem ste_limit_unchecked log_icm p :
  32 <= log_icm < 2 ^ 32 ->
  (forall req, 2 ^ 32 - 6 <= req < 2 ^ 32 -> dr_domain_is_support_ste_icm_size log_icm req = true) /\
  dr_domain_set_max_ste_icm_size log_icm 25 20 p = (true, 25, dr_icm_pool_set_pool_max_log_chunk_sz 25 p) /\
  dr_icm_pool_chunk_size_to_byte 25 DR_ICM_TYPE_STE = - 2 ^ 31.
Proof.
  intros H. unfold dr_domain_set_max_ste_icm_size, dr_domain_is_support_ste_icm_size, DR_STE_LOG_SIZE. split_and!.
  - intros req Hr. apply negb_true_iff, Z.ltb_ge. unfold u32.
    replace (req + 6) with (req + 6 - 2 ^ 32 + 1 * 2 ^ 32) by lia. rewrite Z.mod_add, Z.mod_small; lia.
  - change (u32 (25 + 6)) with 31. rewrite (proj2 (Z.ltb_ge log_icm 31)) by lia. done.
  - by vm_compute.
Qed.

(** * Witnesses *)

(** The device memory comes twice at an address without the alignment *)
Definition demo_env (id : Z) : create_env :=
  mk_cenv true (fun k => Some (10 * id + Z.of_nat k, if decide (k = 0%nat) then 4100 else 4200)) (Some (id, 77, 0)) true all_got id.

(** A pool of pieces of eight STEs: two chunks are taken, the first is freed and a synchronisation
    begins *)
Definition icm_demo_ops : list icm_op :=
  [OpAlloc 1 false (fun _ => demo_env 1) true (fun _ => true) 100;
   OpAlloc 0 false (fun _ => demo_env 2) true (fun _ => true) 101;
   OpFree (mk_chunk 100 1 77 2 128 4608 0 0);
   OpSync].

Fixpoint icm_run (ops : list icm_op) (p : dr_icm_pool) : option dr_icm_pool :=
  match ops with [] => Some p | op :: ops => p ← icm_step op p; icm_run ops p end.

Definition icm_demo0 : dr_icm_pool := mk_pool DR_ICM_TYPE_STE 3 [] 0 false [] [] [].
Definition icm_demo (k : nat) : dr_icm_pool := default icm_demo0 (icm_run (take k icm_demo_ops) icm_demo0).

Lemma demo_env_ok p id :
  (forall h, h ∈ p_dms p -> h < 10 * id) -> (forall h, h ∈ p_mrs p -> h < id) -> (forall n, n ∈ buddy_mem_list p -> n_id n < id) ->
  env_ok p (demo_env id).
Proof.
  intros H1 H2 H3. split; simpl.
  - intros k h va [= <- <-]. split; [intros Hh; apply H1 in Hh; lia|case_decide; lia].
  - intros h rkey addr [= <- _ _] Hh. apply H2 in Hh. lia.
  - intros Hh. apply list_elem_of_fmap in Hh as (n & E & Hn). apply H3 in Hn. lia.
Qed.

Definition demo_node (k : nat) : dr_icm_buddy_mem := default (mk_node 0 demo_buddy0 (mk_icm_mr 0 0 0 0 0) [] 0 [] 0) (buddy_mem_list (icm_demo k) !! 0%nat).

Ltac icm_member := vm_compute; repeat (first [apply list_elem_of_here | apply list_elem_of_further]).

Lemma icm_demo_reach0 : pool_reach icm_demo0.
Proof. apply (pr_create DR_ICM_TYPE_STE 3 3 true 0); [by vm_compute|]. unfold limit_ok, max_icm_log. simpl. lia. Qed.

Lemma icm_demo_reach1 : pool_reach (icm_demo 1).
Proof.
  apply (pr_step icm_demo0 (OpAlloc 1 false (fun _ => demo_env 1) true (fun _ => true) 100)); [apply icm_demo_reach0| |by vm_compute].
  split; [lia|]. split; [|intros n Hn; by apply not_elem_of_nil in Hn].
  apply demo_env_ok; intros x Hx; by apply not_elem_of_nil in Hx.
Qed.

Lemma demo1_env : env_ok (icm_demo 1) (demo_env 2) /\ fresh_chunk 101 (icm_demo 1).
Proof.
  assert (E : buddy_mem_list (icm_demo 1) = [demo_node 1]) by (by vm_compute). split.
  - apply demo_env_ok.
    + intros h Hh. change (p_dms (icm_demo 1)) with [11] in Hh. apply list_elem_of_singleton in Hh. lia.
    + intros h Hh. change (p_mrs (icm_demo 1)) with [1] in Hh. apply list_elem_of_singleton in Hh. lia.
    + intros n Hn. rewrite E in Hn. apply list_elem_of_singleton in Hn as ->. by vm_compute.
  - intros n Hn. rewrite E in Hn. apply list_elem_of_singleton in Hn as ->.
    change (c_id <$> held (p_sync (icm_demo 1)) (demo_node 1)) with [100]. intros H. by apply list_elem_of_singleton in H.
Qed.

Lemma icm_demo_reach4 : pool_reach (icm_demo 4).
Proof.
  apply (pr_step (icm_demo 3) OpSync); [|done|by vm_compute].
  apply (pr_step (icm_demo 2) (OpFree (mk_chunk 100 1 77 2 128 4608 0 0))); [| |by vm_compute].
  - apply (pr_step (icm_demo 1) (OpAlloc 0 false (fun _ => demo_env 2) true (fun _ => true) 101)); [apply icm_demo_reach1| |by vm_compute].
    destruct demo1_env. split; [lia|done].
  - exists (demo_node 2). split; icm_member.
Qed.

Lemma icm_chunks_apart_witness :
  is_Some (icm_step (OpFinish true) (icm_demo 4)) /\
  forall a, 4608 <= a < 4608 + 128 -> ~ (4736 <= a < 4736 + 64).
Proof.
  destruct (icm_chunks_apart (icm_demo 4) icm_demo_reach4) as [Hs Hn]. split; [by apply Hs|].
  destruct (Hn (demo_node 4)) as [_ Hd]; [icm_member|]. intros a H1 H2.
  discriminate (Hd (mk_chunk 100 1 77 2 128 4608 0 0) (mk_chunk 101 1 77 1 64 4736 128 2) a ltac:(icm_member) ltac:(icm_member) H1 H2).
Defined.

Lemma icm_alloc_exact_witness :
  exists c p', dr_icm_alloc_chunk 0 false (fun _ => demo_env 2) true (fun _ => true) 101 (icm_demo 1) = Some (Some c, p') /\
    num_of_entries c = 1.
Proof.
  destruct demo1_env as [He Hf].
  destruct (icm_alloc_exact (icm_demo 1) 0 false (fun _ => demo_env 2) true (fun _ => true) 101 icm_demo_reach1 ltac:(lia) He Hf)
    as (r & p' & q & E & _ & _ & H).
  destruct r as [c|]; [|by vm_compute in E]. exists c, p'. split; [done|]. apply H.
Defined.

(** The pool after the synchronisation *)
Definition icm_demo_end : dr_icm_pool := default icm_demo0 (sync_finish true (icm_demo 4)).
Definition demo_node_end : dr_icm_buddy_mem := default (demo_node 4) (buddy_mem_list icm_demo_end !! 0%nat).

Lemma icm_sync_returns_witness :
  sync_finish true (icm_demo 4) = Some icm_demo_end /\ hot_memory_size icm_demo_end = 0 /\
  exists seg b', dr_buddy_alloc_mem 1 (n_buddy demo_node_end) = Some (seg, b') /\ 0 <= seg.
Proof.
  destruct (icm_sync_returns (icm_demo 4) true icm_demo_reach4) as (p' & E & _ & _ & Hh & _ & _ & _ & Hc).
  assert (E' : sync_finish true (icm_demo 4) = Some icm_demo_end) by (by vm_compute).
  rewrite E' in E. apply (inj Some) in E. rewrite <- E in Hc. split; [done|]. split; [by vm_compute|].
  apply (Hc (mk_chunk 100 1 77 2 128 4608 0 0) demo_node_end); [icm_member|icm_member|by vm_compute].
Defined.

Lemma icm_start_fits_witness :
  (dr_icm_allocate_aligned_dm (ce_dm (demo_env 1)) icm_demo0).1 = Some (11, 4608, 408, 1024) /\ 4608 mod 512 = 0.
Proof.
  assert (E : dr_icm_allocate_aligned_dm (ce_dm (demo_env 1)) icm_demo0 = (Some (11, 4608, 408, 1024), hold_dm 11 icm_demo0)) by (by vm_compute).
  pose proof (icm_start_fits (ce_dm (demo_env 1)) icm_demo0) as H. rewrite E in H. split; [done|]. apply H.
  - unfold limit_ok, max_icm_log. simpl. lia.
  - intros k h va [= _ <-]. split; [apply not_elem_of_nil|]. case_decide; lia.
Defined.
