(* ===== verification/Double.v ===== *)
(** Doubles as the IEEE 754 binary64 numbers of the Standard Library's [SpecFloat], with the
    conversions between them and [long long] that sync/server.cpp uses, and what its theorems
    need: rates stay non-negative, and comparing one with an integer is comparing its integer
    part. *)

From Stdlib Require Import SpecFloat.
From stdpp Require Import base numbers list.
From S2P Require Import Prelude.

Definition double : Type := spec_float.

Definition dadd : double -> double -> double := SFadd 53 1024.
Definition dmul : double -> double -> double := SFmul 53 1024.
Definition ddiv : double -> double -> double := SFdiv 53 1024.
Definition dlt : double -> double -> bool := SFltb.

(** Integer to double, to nearest *)
Definition of_ll (z : Z) : double := binary_normalize 53 1024 z 0 false.

(** The integer part of a number that is not negative *)
Definition trunc_pos (m : positive) (e : Z) : Z := if 0 <=? e then Z.pos m * 2 ^ e else Z.pos m / 2 ^ (- e).

(** Double to [long long], towards zero; undefined for what does not fit *)
Definition to_ll (x : double) : option Z :=
  match x with
  | S754_zero _ => Some 0
  | S754_finite s m e =>
    let v := if s then - trunc_pos m e else trunc_pos m e in
    if (- 2 ^ 63 <=? v) && (v <? 2 ^ 63) then Some v else None
  | _ => None
  end.

Definition zero : double := S754_zero false.

(** * Mantissas *)

Abbreviation digits := digits2_pos.
Abbreviation fexp64 := (fexp 53 1024).

Lemma digits_bounds p : 2 ^ (Z.pos (digits p) - 1) <= Z.pos p < 2 ^ Z.pos (digits p).
Proof.
  assert (Hs : forall d, 1 <= d -> 2 ^ d = 2 * 2 ^ (d - 1)).
  { intros d Hd. rewrite <- (Z.pow_succ_r 2 (d - 1)) by lia. f_equal. lia. }
  induction p as [p IH|p IH|]; simpl digits; [..|done].
  - rewrite Pos2Z.inj_succ, (Pos2Z.inj_xI p). unfold Z.succ. rewrite Z.add_simpl_r, (Hs (Z.pos (digits p) + 1)), Z.add_simpl_r by lia.
    rewrite (Hs (Z.pos (digits p))) in * by lia. lia.
  - rewrite Pos2Z.inj_succ, (Pos2Z.inj_xO p). unfold Z.succ. rewrite Z.add_simpl_r, (Hs (Z.pos (digits p) + 1)), Z.add_simpl_r by lia.
    rewrite (Hs (Z.pos (digits p))) in * by lia. lia.
Qed.

Lemma digits_unique p d : 1 <= d -> 2 ^ (d - 1) <= Z.pos p < 2 ^ d -> Z.pos (digits p) = d.
Proof.
  intros Hd Hp. pose proof (digits_bounds p) as Hb.
  destruct (Z.lt_trichotomy (Z.pos (digits p)) d) as [H|[H|H]]; [|done|].
  - assert (2 ^ Z.pos (digits p) <= 2 ^ (d - 1)) by (apply Z.pow_le_mono_r; lia). lia.
  - assert (2 ^ d <= 2 ^ (Z.pos (digits p) - 1)) by (apply Z.pow_le_mono_r; lia). lia.
Qed.

(** The digits of an integer that is not negative *)
Lemma Zdigits2_pos m : 0 < m -> 1 <= Zdigits2 m /\ 2 ^ (Zdigits2 m - 1) <= m < 2 ^ Zdigits2 m.
Proof. intros Hm. destruct m as [|p|p]; [lia| |lia]. simpl. pose proof (digits_bounds p). lia. Qed.

Lemma Zdigits2_nonneg m : 0 <= m -> 0 <= Zdigits2 m.
Proof. intros Hm. destruct m; simpl; lia. Qed.

Lemma Zdigits2_upper m : 0 <= m -> m < 2 ^ Zdigits2 m.
Proof. intros Hm. destruct (Z.eq_dec m 0) as [-> |]; [done|]. apply Zdigits2_pos. lia. Qed.

(** At least [d] digits *)
Lemma Zdigits2_lower m d : 0 <= m -> 2 ^ (d - 1) <= m -> 1 <= d -> d <= Zdigits2 m.
Proof.
  intros Hm Hd H1. pose proof (Zdigits2_upper m Hm). destruct (Z_le_gt_dec d (Zdigits2 m)); [done|exfalso].
  assert (2 ^ Zdigits2 m <= 2 ^ (d - 1)) by (apply Z.pow_le_mono_r; lia). lia.
Qed.

Lemma Zdigits2_at m d : 1 <= d -> 2 ^ (d - 1) <= m < 2 ^ d -> Zdigits2 m = d.
Proof.
  intros Hd Hm. assert (0 < 2 ^ (d - 1)) by (apply Z.pow_pos_nonneg; lia). destruct m as [|p|p]; [lia| |lia].
  by apply digits_unique.
Qed.

(** * Rounding *)

Lemma shr_1_m r : 0 <= shr_m r -> shr_m (shr_1 r) = shr_m r / 2.
Proof.
  destruct r as [m r s]. simpl. intros Hm. destruct m as [|p|p]; [done| |lia].
  destruct p as [p|p|]; simpl; [|by rewrite (Pos2Z.inj_xO p), Z.mul_comm, Z.div_mul|done].
  rewrite (Pos2Z.inj_xI p), Z.mul_comm, Z.add_comm, Z.div_add by lia. done.
Qed.

Lemma iter_shr_m p r : 0 <= shr_m r -> shr_m (SpecFloat.iter_pos shr_1 p r) = shr_m r / 2 ^ Z.pos p.
Proof.
  revert r. induction p as [p IH|p IH|]; intros r Hr; simpl SpecFloat.iter_pos.
  - rewrite IH, IH, shr_1_m by (rewrite ?IH, ?shr_1_m; try apply Z.div_pos; rewrite ?shr_1_m; try apply Z.div_pos; lia).
    rewrite !Z.div_div by (try apply Z.pow_pos_nonneg; try lia). f_equal.
    rewrite (Pos2Z.inj_xI p), Z.pow_add_r, Z.pow_mul_r by lia. change (2 ^ 2) with (2 * 2). rewrite Z.pow_mul_l. lia.
  - rewrite IH, IH by (rewrite ?IH; try apply Z.div_pos; lia).
    rewrite Z.div_div by (try apply Z.pow_pos_nonneg; try lia). f_equal.
    rewrite (Pos2Z.inj_xO p), Z.pow_mul_r by lia. change (2 ^ 2) with (2 * 2). rewrite Z.pow_mul_l. lia.
  - by apply shr_1_m.
Qed.

Lemma shr_m_loc m l : shr_m (shr_record_of_loc m l) = m.
Proof. by destruct l as [|[]]. Qed.

(** [shr_fexp] to a larger exponent *)
Lemma shr_fexp_spec m e l :
  0 <= m -> e <= fexp64 (Zdigits2 m + e) ->
  let '(r, e') := shr_fexp 53 1024 m e l in e' = fexp64 (Zdigits2 m + e) /\ shr_m r = m / 2 ^ (e' - e).
Proof.
  intros Hm He. unfold shr_fexp, shr. destruct (fexp64 (Zdigits2 m + e) - e) as [|p|p] eqn:E; [| |lia].
  - assert (fexp64 (Zdigits2 m + e) = e) as -> by lia. rewrite shr_m_loc, Z.sub_diag. split; [done|]. symmetry. apply Z.div_1_r.
  - split; [lia|]. rewrite iter_shr_m by (rewrite shr_m_loc; lia). rewrite shr_m_loc. do 2 f_equal. lia.
Qed.

(** A number with its mantissa in place *)
Definition placed (m e : Z) : Prop := 0 <= m /\ (m = 0 \/ fexp64 (Zdigits2 m + e) = e).

Lemma fexp_eq x : fexp64 x = Z.max (x - 53) (-1074).
Proof. done. Qed.

(** Numbers that are not negative: zero, a finite number in canonical form, infinity or no number *)
Definition double_ok (x : double) : Prop :=
  match x with
  | S754_finite s m e => s = false /\ bounded 53 1024 m e = true
  | S754_infinity s => s = false
  | _ => True
  end.

Lemma bounded_spec m e :
  bounded 53 1024 m e = true <-> fexp64 (Z.pos (digits m) + e) = e /\ e <= 971.
Proof. unfold bounded, canonical_mantissa. rewrite andb_true_iff, Z.eqb_eq, Z.leb_le. done. Qed.

(** The first shift of a rounding leaves at most 53 digits, in place *)
Lemma shifted m e :
  0 <= m -> e <= fexp64 (Zdigits2 m + e) ->
  let e1 := fexp64 (Zdigits2 m + e) in let m1 := m / 2 ^ (e1 - e) in
  0 <= m1 < 2 ^ 53 /\ -1074 <= e1 /\ (m1 = 0 -> e1 = -1074) /\ (0 < m1 -> fexp64 (Zdigits2 m1 + e1) = e1).
Proof.
  intros Hm He e1 m1. assert (He1 : e1 = Z.max (Zdigits2 m + e - 53) (-1074)) by apply fexp_eq.
  pose proof (Zdigits2_upper m Hm) as Hu. pose proof (Zdigits2_nonneg m Hm) as Hd.
  assert (Hpow : 0 < 2 ^ (e1 - e)) by (apply Z.pow_pos_nonneg; lia).
  assert (H0 : 0 <= m1) by (apply Z.div_pos; lia).
  assert (Hup : m < 2 ^ 53 * 2 ^ (e1 - e)).
  { eapply Z.lt_le_trans; [apply Hu|]. rewrite <- Z.pow_add_r by lia. apply Z.pow_le_mono_r; lia. }
  split; [split; [done|apply Z.div_lt_upper_bound; lia]|]. split; [lia|].
  destruct (Z_lt_le_dec (e1 - e) (Zdigits2 m)) as [Hlt|Hge].
  - assert (Hm0 : 0 < m) by (destruct (Z.eq_dec m 0) as [E|]; [rewrite E in Hlt; simpl in Hlt; lia|lia]).
    destruct (Zdigits2_pos m Hm0) as (H1 & H2 & H3).
    assert (Hdig : Zdigits2 m1 = Zdigits2 m - (e1 - e)).
    { apply Zdigits2_at; [lia|]. split.
      - apply Z.div_le_lower_bound; [lia|]. rewrite <- Z.pow_add_r by lia. replace (_ + _) with (Zdigits2 m - 1) by lia. done.
      - apply Z.div_lt_upper_bound; [lia|]. rewrite <- Z.pow_add_r by lia. replace (_ + _) with (Zdigits2 m) by lia. done. }
    split.
    + intros E. rewrite E in Hdig. simpl in Hdig. lia.
    + intros _. rewrite Hdig. replace (_ + e1) with (Zdigits2 m + e) by lia. done.
  - assert (m1 = 0) as -> by (apply Z.div_small; split; [done|]; eapply Z.lt_le_trans; [apply Hu|]; apply Z.pow_le_mono_r; lia).
    split; [|lia]. intros _. lia.
Qed.

Lemma round_up m l : 0 <= m -> m <= round_nearest_even m l <= m + 1.
Proof. intros Hm. destruct l as [|[]]; simpl; try lia. destruct (Z.even m); lia. Qed.

(** Rounding gives a canonical number *)
Lemma round_aux_ok m e l :
  0 <= m -> e <= fexp64 (Zdigits2 m + e) -> double_ok (binary_round_aux 53 1024 false m e l).
Proof.
  intros Hm He. unfold binary_round_aux.
  pose proof (shr_fexp_spec m e l Hm He) as H1. destruct (shr_fexp 53 1024 m e l) as [r1 e1]. destruct H1 as [E1 M1].
  destruct (shifted m e Hm He) as (B1 & Emin & Hz & Hc). rewrite <- E1, <- M1 in *.
  set (m2 := round_nearest_even (shr_m r1) (loc_of_shr_record r1)).
  pose proof (round_up (shr_m r1) (loc_of_shr_record r1) ltac:(lia)) as Hr. fold m2 in Hr.
  assert (He2 : e1 <= fexp64 (Zdigits2 m2 + e1)).
  { destruct (Z.eq_dec (shr_m r1) 0) as [E|E].
    - rewrite fexp_eq. specialize (Hz E). lia.
    - assert (Zdigits2 (shr_m r1) <= Zdigits2 m2).
      { destruct (Zdigits2_pos (shr_m r1)) as (? & ? & _); [lia|]. apply Zdigits2_lower; lia. }
      rewrite <- (Hc ltac:(lia)) at 1. rewrite !fexp_eq. lia. }
  pose proof (shr_fexp_spec m2 e1 loc_Exact ltac:(lia) He2) as H2. destruct (shr_fexp 53 1024 m2 e1 loc_Exact) as [r2 e2].
  destruct H2 as [E2 M2]. destruct (shifted m2 e1 ltac:(lia) He2) as (B2 & _ & _ & Hc2). rewrite <- E2, <- M2 in *.
  destruct (shr_m r2) as [|p|p]; [done| |lia]. destruct (Z.leb_spec e2 (1024 - 53)); [|done].
  split; [done|]. apply bounded_spec. split; [apply Hc2; lia|lia].
Qed.

(** ** Rounding with alignment *)

Lemma iter_xO (d p : positive) : Z.pos (Pos.iter xO p d) = Z.pos p * 2 ^ Z.pos d.
Proof.
  induction d as [|d IH] using Pos.peano_ind; [simpl; lia|].
  rewrite Pos.iter_succ, Pos2Z.inj_xO, IH, Pos2Z.inj_succ, Z.pow_succ_r by lia. lia.
Qed.

Lemma digits_shift p k : 0 <= k -> Zdigits2 (Z.pos p * 2 ^ k) = Z.pos (digits p) + k.
Proof.
  intros Hk. pose proof (digits_bounds p) as [H1 H2]. apply Zdigits2_at; [lia|].
  replace (Z.pos (digits p) + k - 1) with (Z.pos (digits p) - 1 + k) by lia. rewrite !Z.pow_add_r by lia.
  assert (0 < 2 ^ k) by (apply Z.pow_pos_nonneg; lia). nia.
Qed.

Lemma shl_align_spec p e e' :
  let '(q, f) := shl_align p e e' in f = Z.min e e' /\ Z.pos q = Z.pos p * 2 ^ (e - f).
Proof.
  unfold shl_align. destruct (e' - e) as [|d|d] eqn:E; simpl.
  - split; [lia|]. rewrite Z.sub_diag. lia.
  - split; [lia|]. rewrite Z.sub_diag. lia.
  - split; [lia|]. rewrite iter_xO. do 2 f_equal. lia.
Qed.

Lemma round_ok p e : double_ok (binary_round 53 1024 false p e).
Proof.
  unfold binary_round. pose proof (shl_align_spec p e (fexp64 (Z.pos (digits p) + e))) as H.
  destruct (shl_align p e _) as [q f]. destruct H as [Ef Eq]. apply round_aux_ok; [lia|].
  rewrite Eq, digits_shift by lia. replace (Z.pos (digits p) + (e - f) + f) with (Z.pos (digits p) + e) by lia. lia.
Qed.

(** * Operations on numbers that are not negative *)

Lemma of_ll_ok z : 0 <= z -> double_ok (of_ll z).
Proof. intros Hz. destruct z as [|p|p]; [done|apply round_ok|lia]. Qed.

Lemma dadd_ok x y : double_ok x -> double_ok y -> double_ok (dadd x y).
Proof.
  destruct x as [sx|sx| |sx mx ex], y as [sy|sy| |sy my ey]; try (simpl; done); try (destruct sx, sy; simpl; done).
  intros [-> _] [-> _]. simpl. apply round_ok.
Qed.

Lemma digits_mul p q : Z.pos (digits p) + Z.pos (digits q) - 1 <= Z.pos (digits (p * q)).
Proof.
  pose proof (digits_bounds p) as [Hp _]. pose proof (digits_bounds q) as [Hq _].
  apply (Zdigits2_lower (Z.pos (p * q))); [lia| |lia]. rewrite Pos2Z.inj_mul.
  replace (_ - 1 - 1) with (Z.pos (digits p) - 1 + (Z.pos (digits q) - 1)) by lia. rewrite Z.pow_add_r by lia.
  assert (0 < 2 ^ (Z.pos (digits p) - 1)) by (apply Z.pow_pos_nonneg; lia). nia.
Qed.

Lemma dmul_ok x y : double_ok x -> double_ok y -> double_ok (dmul x y).
Proof.
  destruct x as [sx|sx| |sx mx ex], y as [sy|sy| |sy my ey]; try (simpl; done); try (destruct sx, sy; simpl; naive_solver).
  intros [-> Hx] [-> Hy]. apply bounded_spec in Hx as [Cx Lx], Hy as [Cy Ly]. unfold dmul, SFmul, xorb. apply round_aux_ok; [lia|].
  change (Zdigits2 (Z.pos (mx * my))) with (Z.pos (digits (mx * my))). pose proof (digits_mul mx my).
  rewrite fexp_eq in *. lia.
Qed.

(** Division by a finite number *)
Lemma ddiv_ok x m e : double_ok x -> double_ok (ddiv x (S754_finite false m e)).
Proof.
  destruct x as [sx|sx| |sx mx ex]; try (simpl; done); try (destruct sx; simpl; naive_solver).
  intros [-> _]. simpl. unfold SFdiv_core_binary. simpl Zdigits2.
  set (e' := Z.min _ _). assert (Hs : 0 <= ex - e - e') by lia.
  set (m' := match ex - e - e' with Z0 => Z.pos mx | Zpos _ => Z.shiftl (Z.pos mx) (ex - e - e') | Zneg _ => 0 end).
  assert (Em : m' = Z.pos mx * 2 ^ (ex - e - e')).
  { subst m'. destruct (ex - e - e') as [|p|p] eqn:E; [lia| |lia]. apply Z.shiftl_mul_pow2. lia. }
  pose proof (Z_div_mod m' (Z.pos m) ltac:(lia)) as Hdm. destruct (Z.div_eucl m' (Z.pos m)) as [q r]. destruct Hdm as [Eq Hr].
  assert (Hq : 0 <= q) by nia. apply round_aux_ok; [done|].
  pose proof (digits_bounds mx) as [Hx _]. pose proof (digits_bounds m) as [_ Hm]. pose proof (Zdigits2_upper q Hq) as Hu.
  pose proof (Zdigits2_nonneg q Hq) as Hn.
  assert (Hd : Z.pos (digits mx) + (ex - e - e') - Z.pos (digits m) <= Zdigits2 q).
  { destruct (Z_le_gt_dec (Z.pos (digits mx) + (ex - e - e') - Z.pos (digits m)) (Zdigits2 q)) as [|Hgt]; [done|exfalso].
    assert (H1 : 2 ^ (Z.pos (digits mx) - 1 + (ex - e - e')) <= m').
    { rewrite Em, Z.pow_add_r by lia. apply Z.mul_le_mono_nonneg_r; [apply Z.pow_nonneg; lia|done]. }
    assert (H2 : m' < 2 ^ (Z.pos (digits m) + Zdigits2 q)).
    { rewrite Z.pow_add_r by lia. assert (m' < Z.pos m * (q + 1)) by lia. nia. }
    assert (2 ^ (Z.pos (digits m) + Zdigits2 q) <= 2 ^ (Z.pos (digits mx) - 1 + (ex - e - e'))) by (apply Z.pow_le_mono_r; lia). lia. }
  assert (He' : e' = Z.min (Z.max (Z.pos (digits mx) + ex - (Z.pos (digits m) + e) - 53) (-1074)) (ex - e)) by done.
  rewrite fexp_eq. clear -He' Hd. lia.
Qed.

(** * Comparison with an integer *)

(** Integers below [2^53] are exact *)
Lemma of_ll_exact p :
  Z.pos p < 2 ^ 53 -> exists q, of_ll (Z.pos p) = S754_finite false q (Z.pos (digits p) - 53) /\
    Z.pos q = Z.pos p * 2 ^ (53 - Z.pos (digits p)) /\ Z.pos (digits q) = 53 /\ Z.pos (digits p) <= 53.
Proof.
  intros Hp. pose proof (digits_bounds p) as [H1 H2].
  assert (Hd : Z.pos (digits p) <= 53).
  { destruct (Z_le_gt_dec (Z.pos (digits p)) 53); [done|exfalso]. assert (2 ^ 53 <= 2 ^ (Z.pos (digits p) - 1)) by (apply Z.pow_le_mono_r; lia). lia. }
  unfold of_ll, binary_normalize, binary_round. rewrite Z.add_0_r.
  assert (Ef : fexp64 (Z.pos (digits p)) = Z.pos (digits p) - 53) by (rewrite fexp_eq; lia). rewrite Ef.
  pose proof (shl_align_spec p 0 (Z.pos (digits p) - 53)) as H. destruct (shl_align p 0 _) as [q f]. destruct H as [E Eq].
  assert (f = Z.pos (digits p) - 53) as -> by lia. replace (0 - (Z.pos (digits p) - 53)) with (53 - Z.pos (digits p)) in Eq by lia.
  assert (Hq : Z.pos (digits q) = 53).
  { change (Z.pos (digits q)) with (Zdigits2 (Z.pos q)). rewrite Eq, digits_shift; lia. }
  exists q. split_and!; try done. unfold binary_round_aux.
  assert (Es : forall l, shr_fexp 53 1024 (Z.pos q) (Z.pos (digits p) - 53) l = (shr_record_of_loc (Z.pos q) l, Z.pos (digits p) - 53)).
  { intros l. unfold shr_fexp. simpl Zdigits2. rewrite Hq. replace (fexp64 _ - _) with 0 by (rewrite fexp_eq; lia). done. }
  rewrite Es. simpl. rewrite Es. simpl. rewrite (proj2 (Z.leb_le _ _)) by lia. done.
Qed.

(** The integer a rate is compared by: its integer part, and more than any bound for infinity and
    for what is no number, of which no comparison holds *)
Definition dkey (x : double) : Z :=
  match x with
  | S754_zero _ => 0
  | S754_finite _ m e => trunc_pos m e
  | _ => 2 ^ 1024
  end.

Lemma trunc_nonneg m e : 0 <= trunc_pos m e.
Proof.
  unfold trunc_pos. destruct (Z.leb_spec 0 e); [apply Z.mul_nonneg_nonneg; [lia|apply Z.pow_nonneg; lia]|].
  apply Z.div_pos; [lia|]. apply Z.pow_pos_nonneg; lia.
Qed.

Lemma dkey_nonneg x : 0 <= dkey x.
Proof. destruct x as [s|s| |s m e]; simpl; try lia. apply trunc_nonneg. Qed.

Lemma trunc_lt m e u : 0 <= u -> trunc_pos m e < u <-> Z.pos m * 2 ^ Z.max e 0 < u * 2 ^ Z.max (- e) 0.
Proof.
  intros Hu. unfold trunc_pos. destruct (Z.leb_spec 0 e) as [He|He].
  - rewrite Z.max_l, Z.max_r by lia. lia.
  - rewrite Z.max_r, Z.max_l, Z.mul_1_r by lia. assert (0 < 2 ^ (- e)) by (apply Z.pow_pos_nonneg; lia).
    split; intros H1; [|apply Z.div_lt_upper_bound; lia].
    pose proof (Z.mul_succ_div_gt (Z.pos m) (2 ^ (- e)) ltac:(lia)). nia.
Qed.

(** Comparing a rate with an integer is comparing its integer part. *)
Lemma dlt_of_ll x u : double_ok x -> 0 <= u < 2 ^ 53 -> dlt x (of_ll u) = (dkey x <? u).
Proof.
  intros Hx Hu. assert (Hbig : (2 ^ 1024 <? u) = false) by (apply Z.ltb_ge; transitivity (2 ^ 53); [lia|by apply Z.pow_le_mono_r]).
  destruct u as [|p|p]; [| |lia].
  - assert (E : (dkey x <? 0) = false) by (apply Z.ltb_ge, dkey_nonneg).
    rewrite E. destruct x as [s|s| |s m e]; try done; simpl in Hx; unfold dlt, SFltb, SFcompare; simpl; [by rewrite Hx|by destruct Hx as [-> _]].
  - destruct (of_ll_exact p) as (q & E & Emq & Dq & Dp); [lia|]. rewrite E.
    destruct x as [s|s| |s m e]; try done; [unfold dlt, SFltb; simpl in *; by rewrite Hx|].
    destruct Hx as [-> Hb]. apply bounded_spec in Hb as [Hc _]. rewrite fexp_eq in Hc.
    pose proof (digits_bounds m) as [M1 M2]. pose proof (digits_bounds q) as [Q1 Q2]. rewrite Dq in Q1, Q2.
    set (f := Z.pos (digits p) - 53) in *. assert (Hf : -52 <= f <= 0) by lia. replace (53 - Z.pos (digits p)) with (- f) in Emq by lia.
    assert (Ep : Z.pos p * 2 ^ Z.max (- e) 0 * 2 ^ (- f) = Z.pos q * 2 ^ Z.max (- e) 0) by (rewrite Emq; lia).
    apply eq_bool_prop_intro. rewrite !Is_true_true. rewrite Z.ltb_lt. cbn [dkey]. rewrite trunc_lt by lia.
    assert (P1 : 0 < 2 ^ Z.max e 0) by (apply Z.pow_pos_nonneg; lia). assert (P2 : 0 < 2 ^ (- f)) by (apply Z.pow_pos_nonneg; lia).
    assert (P3 : 0 < 2 ^ Z.max (- e) 0) by (apply Z.pow_pos_nonneg; lia).
    transitivity (Z.pos m * 2 ^ (Z.max e 0 - f) < Z.pos q * 2 ^ Z.max (- e) 0).
    2: { rewrite <- Ep. replace (Z.max e 0 - f) with (Z.max e 0 + - f) by lia. rewrite Z.pow_add_r by lia. nia. }
    unfold dlt, SFltb, SFcompare. destruct (Z.compare_spec e f) as [Ee|Hlt|Hgt].
    + rewrite Ee. change (Pos.compare_cont Eq m q) with (Pos.compare m q). replace (Z.max f 0 - f) with (- f) by lia. replace (Z.max (- f) 0) with (- f) by lia.
      rewrite <- Z.mul_lt_mono_pos_r by done. destruct (Pos.compare_spec m q); split; intros; try done; try lia.
    + split; [|done]. intros _. assert (Z.pos m < 2 ^ 53).
      { eapply Z.lt_le_trans; [exact M2|]. apply Z.pow_le_mono_r; lia. }
      replace (Z.max e 0) with 0 by lia. replace (Z.max (- e) 0) with (- f + (f - e)) by lia. rewrite Z.pow_add_r by lia.
      assert (2 <= 2 ^ (f - e)) by (change 2 with (2 ^ 1) at 1; apply Z.pow_le_mono_r; lia). replace (0 - f) with (- f) by lia.
      change (2 ^ (53 - 1)) with (2 ^ 52) in Q1. assert (2 ^ 52 * 2 <= Z.pos q * 2 ^ (f - e)) by (apply Z.mul_le_mono_nonneg; lia).
      replace (Z.pos q * (2 ^ (- f) * 2 ^ (f - e))) with (Z.pos q * 2 ^ (f - e) * 2 ^ (- f)) by lia.
      apply Z.mul_lt_mono_pos_r; [done|]. lia.
    + split; [done|]. intros H. exfalso. assert (Dm : Z.pos (digits m) = 53) by lia. rewrite Dm in M1. change (2 ^ (53 - 1)) with (2 ^ 52) in M1.
      assert (Hpe : 2 * 2 ^ Z.max (- e) 0 <= 2 ^ (Z.max e 0 - f)).
      { rewrite <- (Z.pow_succ_r 2) by lia. apply Z.pow_le_mono_r; lia. }
      assert (2 ^ 52 * (2 * 2 ^ Z.max (- e) 0) <= Z.pos m * 2 ^ (Z.max e 0 - f)) by (apply Z.mul_le_mono_nonneg; lia).
      assert (Z.pos q * 2 ^ Z.max (- e) 0 <= 2 ^ 53 * 2 ^ Z.max (- e) 0) by (apply Z.mul_le_mono_nonneg_r; lia). lia.
Qed.

(** The conversion that follows a comparison that holds is defined *)
Lemma to_ll_key x u : double_ok x -> 0 <= u < 2 ^ 53 -> dkey x < u -> to_ll x = Some (dkey x).
Proof.
  intros Hx Hu Hk. assert (2 ^ 53 <= 2 ^ 1024) by (by apply Z.pow_le_mono_r).
  destruct x as [s|s| |s m e]; simpl in *; try done; try lia. destruct Hx as [-> _].
  pose proof (trunc_nonneg m e).
  rewrite (proj2 (Z.leb_le _ _)), (proj2 (Z.ltb_lt _ _)) by lia. done.
Qed.
