(* ===== verification/Server.v ===== *)
(** The controller (sync/server.cpp): it turns the forecasts the clients deliver into transmission
    rates, computes for each pair of hosts with traffic the path whose busiest link is least
    busy, and has the switches route along it.

    Strings are lists of characters; [std::map] is a list of pairs in the order of the keys, and
    [operator[]] of a key that is not there reads the default (the entry it inserts is invisible:
    a rate of 0 is not routed, an empty vector has no link).  Requests to the SDN controller are
    the output of a step.  [Fault] is undefined behaviour or an uncaught exception: an index out of
    range, an iterator past the end, a function that ends without its result; [Hang] is a loop
    that did not end within the passes it was given. *)

From stdpp Require Import base numbers list.
From S2P Require Import Prelude Types Forecast Double.

(** * Maps *)

Definition str : Type := list Z.

Fixpoint str_ltb (a b : str) : bool :=
  match a, b with
  | _, [] => false
  | [], _ :: _ => true
  | x :: a, y :: b => if x <? y then true else if y <? x then false else str_ltb a b
  end.

Section Maps.
Context {A : Type}.

Fixpoint map_get (d : A) (k : str) (m : list (str * A)) : A :=
  match m with [] => d | (k', v) :: m => if decide (k = k') then v else map_get d k m end.

Fixpoint map_set (k : str) (v : A) (m : list (str * A)) : list (str * A) :=
  match m with
  | [] => [(k, v)]
  | (k', v') :: m' =>
    if decide (k = k') then (k, v) :: m' else if str_ltb k k' then (k, v) :: m else (k', v') :: map_set k v m'
  end.
End Maps.

(** [std::map<std::string, std::map<std::string, A>>] *)
Definition map2 (A : Type) : Type := list (str * list (str * A)).
Definition get2 {A} (d : A) (a b : str) (m : map2 A) : A := map_get d b (map_get [] a m).
Definition set2 {A} (a b : str) (v : A) (m : map2 A) : map2 A := map_set a (map_set b v (map_get [] a m)) m.

(** * Data *)

(** [struct Link]; [rate] is never used *)
Record Link : Type := mk_link { port1 : str; port2 : str; flows : list (str * str) }.

Record server : Type := mk_server { sv_ip : str; sv_port : str; sv_bw : Z }.

Record route : Type := mk_route {
  r_seq : Z; r_del : bool; r_tm : Z; indev : str; inport : str; outdev : str; outport : str;
  pass : list (str * str) }.

(** [route()]: [del] and [tm] are left as they are *)
Definition route_new (del : bool) (tm : Z) : route := mk_route (-1) del tm [] [] [] [] [].

(** What [data_init] reads once: names and addresses of the switches ([nodes]), the ports of
    each switch by address ([interfaces]: index and name), the servers of each switch and the
    switch of each server *)
Record topology : Type := mk_topo {
  nodes : list (str * str);
  interfaces : list (str * list (str * str));
  switch_server_list : list (str * list server);
  server_ip_to_switch_name : list (str * str) }.

(** The tables and the list of policy routes that change *)
Record sdn : Type := mk_sdn {
  links : map2 (list Link);
  routes : map2 route;
  txRates : map2 double;
  time_last_flow : map2 Z;
  time_rate_update : map2 Z;
  seq : Z;
  route_nodes : list (str * str * Z);
  n_route : Z }.

Definition set_links (l : map2 (list Link)) (s : sdn) : sdn :=
  mk_sdn l (routes s) (txRates s) (time_last_flow s) (time_rate_update s) (seq s) (route_nodes s) (n_route s).
Definition set_routes (r : map2 route) (s : sdn) : sdn :=
  mk_sdn (links s) r (txRates s) (time_last_flow s) (time_rate_update s) (seq s) (route_nodes s) (n_route s).
Definition set_rates (tx : map2 double) (lf ru : map2 Z) (s : sdn) : sdn :=
  mk_sdn (links s) (routes s) tx lf ru (seq s) (route_nodes s) (n_route s).
Definition set_seq (n : Z) (s : sdn) : sdn :=
  mk_sdn (links s) (routes s) (txRates s) (time_last_flow s) (time_rate_update s) n (route_nodes s) (n_route s).
Definition set_route_list (l : list (str * str * Z)) (n : Z) (s : sdn) : sdn :=
  mk_sdn (links s) (routes s) (txRates s) (time_last_flow s) (time_rate_update s) (seq s) l n.

(** The fields of a new entry of [routes] that its constructor leaves open *)
Definition junk : route := route_new false 0.

Definition route_of (sip dip : str) (s : sdn) : route := get2 junk sip dip (routes s).
Definition put_route (sip dip : str) (r : route) (s : sdn) : sdn := set_routes (set2 sip dip r (routes s)) s.
Definition links_of (a b : str) (s : sdn) : list Link := get2 [] a b (links s).

(** Results of steps *)
Inductive res (A : Type) : Type := Ret (a : A) | Fault | Hang.
Arguments Ret {A} a.
Arguments Fault {A}.
Arguments Hang {A}.

Definition rbind {A B} (x : res A) (f : A -> res B) : res B :=
  match x with Ret a => f a | Fault => Fault | Hang => Hang end.
Definition lift_opt {A} (x : option A) : res A := match x with Some a => Ret a | None => Fault end.

Declare Scope res_scope.
Notation "x <~ e ; f" := (rbind e (fun x => f)) (at level 100, e at next level, f at level 200, right associativity) : res_scope.
Open Scope res_scope.

Definition default_sdn : sdn := mk_sdn [] [] [] [] [] 1 [] 0.

(** * Start-up *)

(** [get_links]: the links of the topology, in both directions *)
Definition add_link (l : (str * str) * (str * str)) (m : map2 (list Link)) : map2 (list Link) :=
  let '((d1, p1), (d2, p2)) := l in
  let m := set2 d1 d2 (get2 [] d1 d2 m ++ [mk_link p1 p2 []]) m in
  set2 d2 d1 (get2 [] d2 d1 m ++ [mk_link p2 p1 []]) m.

Definition get_links (linklist : list ((str * str) * (str * str))) : map2 (list Link) :=
  foldl (fun m l => add_link l m) [] linklist.

(** [get_server_list] from the entries of server_list.txt *)
Definition get_server_list (file : list (str * list server)) : list (str * list server) * list (str * str) :=
  foldl (fun acc e =>
    (map_set e.1 e.2 acc.1, foldl (fun m v => map_set (sv_ip v) e.1 m) acc.2 e.2)) ([], []) file.

(** * Names, addresses and indices *)

Fixpoint index_of (i : nat) (f : str * str -> bool) (l : list (str * str)) : nat :=
  match l with [] => 0%nat | x :: l => if f x then i else index_of (S i) f l end.

(** The index of the switch, 0 when there is none *)
Definition switch_name_to_idx (T : topology) (name : str) : nat := index_of 0 (fun n => bool_decide (n.1 = name)) (nodes T).
Definition switch_ip_to_idx (T : topology) (ip : str) : nat := index_of 0 (fun n => bool_decide (n.2 = ip)) (nodes T).

(** [nodes.as_array()[idx]] throws when the index is out of range *)
Definition switch_idx_to_name (T : topology) (idx : nat) : option str := fst <$> nodes T !! idx.
Definition switch_idx_to_ip (T : topology) (idx : nat) : option str := snd <$> nodes T !! idx.
Definition switch_name_to_ip (T : topology) (name : str) : option str := switch_idx_to_ip T (switch_name_to_idx T name).
Definition switch_ip_to_name (T : topology) (ip : str) : option str := switch_idx_to_name T (switch_name_to_idx T ip).

(** Port index to port name; without a match the function ends without a result *)
Definition idx_to_ifname (T : topology) (ip idx : str) : option str :=
  let ports := concat (snd <$> base.filter (fun i => i.1 = ip) (interfaces T)) in
  snd <$> List.find (fun p => bool_decide (p.1 = idx)) ports.
Definition ifname_to_idx (T : topology) (ip name : str) : option str :=
  let ports := concat (snd <$> base.filter (fun i => i.1 = ip) (interfaces T)) in
  fst <$> List.find (fun p => bool_decide (p.2 = name)) ports.

Definition server_ip_to_if (T : topology) (ip : str) : option str :=
  sv_port <$> List.find (fun v => bool_decide (sv_ip v = ip)) (concat (snd <$> switch_server_list T)).

Definition check_ip (T : topology) (ip : str) : bool :=
  existsb (fun v => bool_decide (sv_ip v = ip)) (concat (snd <$> switch_server_list T)).

(** * Rates *)

Definition win_s : Z := 1000000000.

(** The rates of the flows of the link, the one in question apart, added up in order *)
Definition link_rate (s : sdn) (sip dip : str) (l : Link) : double :=
  foldl (fun acc f => if decide (f = (sip, dip)) then acc else dadd acc (get2 zero f.1 f.2 (txRates s))) zero (flows l).

Definition get_interface_rate (T : topology) (s : sdn) (idx1 idx2 idx : nat) (sip dip : str) : option double :=
  dev1 ← switch_idx_to_name T idx1;
  dev2 ← switch_idx_to_name T idx2;
  l ← links_of dev1 dev2 s !! idx;
  Some (link_rate s sip dip l).

(** The new rate from the old, the speed of the forecast and the clock *)
Definition new_rate (old speed : double) (dt : Z) : double :=
  let dt := if win_s <? dt then win_s else dt in
  ddiv (dadd (dmul (of_ll (win_s - dt)) old) (dmul (of_ll dt) speed)) (of_ll win_s).

(** One direction of a record: [bytes] at time [tm] from [a] to [b], the clock at [now]; nothing
    for a record that is not newer than the last ([continue]) *)
Definition rate_update (a b : str) (speed : Z -> double) (tm now : Z) (s : sdn) : option sdn :=
  let flow_dt := s64 (tm - get2 0 a b (time_last_flow s)) in
  if flow_dt <=? 0 then None
  else
    let dt := s64 (now - get2 0 a b (time_rate_update s)) in
    Some (set_rates (set2 a b (new_rate (get2 zero a b (txRates s)) (speed flow_dt) dt) (txRates s))
            (set2 a b (s64 tm) (time_last_flow s)) (set2 a b now (time_rate_update s)) s).

(** [amount.tx * 8 * 1000000000 / flow_dt], all in 64 bits without sign *)
Definition tx_speed (tx flow_dt : Z) : double := of_ll (u64 (u64 (tx * 8) * 1000000000) / u64 flow_dt).
(** [amount.rx * 8 * 1000000000 / (double)(flow_dt)] *)
Definition rx_speed (rx flow_dt : Z) : double := ddiv (of_ll (u64 (u64 (rx * 8) * 1000000000))) (of_ll flow_dt).

(** One record of [add_send_rec]; [now_tx] and [now_rx] are what the clock says in each branch *)
Definition add_rec (T : topology) (a : Amount) (now_tx now_rx : Z) (s : sdn) : sdn :=
  let sip := cstr (am_ip a) in
  let dip := cstr (am_gid a) in
  if negb (check_ip T dip) then s
  else
    match (if 4096 <? am_tx a then rate_update sip dip (tx_speed (am_tx a)) (am_tm a) now_tx s else Some s) with
    | None => s
    | Some s =>
      if 4096 <? am_rx a then default s (rate_update dip sip (rx_speed (am_rx a)) (am_tm a) now_rx s) else s
    end.

(** [add_send_rec(amount, len)]: the records up to the first without a destination *)
Fixpoint add_send_rec (T : topology) (l : list (Amount * (Z * Z))) (s : sdn) : sdn :=
  match l with
  | [] => s
  | (a, (t1, t2)) :: l => if bool_decide (cstr (am_gid a) = []) then s else add_send_rec T l (add_rec T a t1 t2 s)
  end.

(** * The search for a path *)

Section Search.
Context (T : topology) (st : sdn) (sip dip : str).

Definition n_switch : nat := length (nodes T).

(** [links[switch_idx_to_name(i)][switch_idx_to_name(j)].size()] *)
Definition n_links (i j : nat) : nat :=
  match switch_idx_to_name T i, switch_idx_to_name T j with
  | Some a, Some b => length (links_of a b st)
  | _, _ => 0%nat
  end.

(** The links from a visited switch to one that is not, in the order of the three loops *)
Definition candidates (visit : list bool) : list (nat * nat * nat) :=
  i ← base.filter (fun i => visit !! i = Some true) (List.seq 0 n_switch);
  j ← base.filter (fun j => visit !! j = Some false) (List.seq 0 n_switch);
  k ← List.seq 0 (n_links i j);
  [(i, j, k)].

(** [if (rate < _u)]: the link becomes the best so far; [_u] is a [long long] *)
Definition consider (acc : (nat * nat * nat) * Z) (c : nat * nat * nat) : option ((nat * nat * nat) * Z) :=
  rate ← get_interface_rate T st c.1.1 c.1.2 c.2 sip dip;
  if dlt rate (of_ll acc.2) then (u ← to_ll rate; Some (c, u)) else Some acc.

Fixpoint scan (l : list (nat * nat * nat)) (acc : (nat * nat * nat) * Z) : option ((nat * nat * nat) * Z) :=
  match l with
  | [] => Some acc
  | c :: l => acc ← consider acc c; scan l acc
  end.

Definition rate_limit : Z := 4000000000000.

(** [while (true)]: one more switch per pass, until it is [d].  The result is [pre]: the switch
    before and the number of the link, by switch. *)
Fixpoint search (fuel : nat) (d : nat) (visit : list bool) (pre : list (nat * nat)) : res (list (nat * nat)) :=
  match fuel with
  | O => Hang
  | S fuel =>
    best <~ lift_opt (scan (candidates visit) ((0, 0, 0)%nat, rate_limit));
    let '((s', d', i'), _) := best in
    let visit := <[d' := true]> visit in
    let pre := <[d' := (s', i')]> pre in
    if decide (d' = d) then Ret pre else search fuel d visit pre
  end.

(** [while (sw != s)]: the path from the end, each switch with the port it is entered by *)
Fixpoint trace (fuel : nat) (s : nat) (pre : list (nat * nat)) (sw idx : nat) : res (list (str * str)) :=
  if decide (sw = s) then Ret []
  else match fuel with
  | O => Hang
  | S fuel =>
    p <~ lift_opt (pre !! sw);
    outsw <~ lift_opt (switch_idx_to_name T sw);
    insw <~ lift_opt (switch_idx_to_name T p.1);
    l <~ lift_opt (links_of insw outsw st !! idx);
    q <~ lift_opt (pre !! p.1);
    rest <~ trace fuel s pre p.1 q.2;
    Ret ((outsw, port2 l) :: rest)
  end.

(** The path from switch [s] to switch [d] *)
Definition find_path (fuel s d : nat) : res (list (str * str)) :=
  let visit := <[s := true]> (replicate n_switch false) in
  let pre := <[s := (s, 0%nat)]> (replicate n_switch (0, 0)%nat) in
  pre <~ search fuel d visit pre;
  p <~ lift_opt (pre !! d);
  tmp_route <~ trace n_switch s pre d p.2;
  Ret (reverse tmp_route).
End Search.

(** * Flows on links *)

(** [_link.flows.erase(find(...))] for every link of [links[a][b]] that enters by [port]; erasing
    the end iterator is undefined *)
Fixpoint erase_first (f : str * str) (l : list (str * str)) : list (str * str) :=
  match l with [] => [] | g :: l => if decide (f = g) then l else g :: erase_first f l end.

Definition erase_flow (f : str * str) (port : str) (l : Link) : option Link :=
  if decide (port2 l = port) then
    if decide (f ∈ flows l) then Some (mk_link (port1 l) (port2 l) (erase_first f (flows l))) else None
  else Some l.

Definition add_flow (f : str * str) (port : str) (l : Link) : Link :=
  if decide (port2 l = port) then mk_link (port1 l) (port2 l) (flows l ++ [f]) else l.

Definition erase_flows (f : str * str) (a b port : str) (s : sdn) : option sdn :=
  l ← mapM (erase_flow f port) (links_of a b s);
  Some (set_links (set2 a b l (links s)) s).

Definition add_flows (f : str * str) (a b port : str) (s : sdn) : sdn :=
  set_links (set2 a b (add_flow f port <$> links_of a b s) (links s)) s.

(** Consecutive switches of a path *)
Definition hops (l : list (str * str)) : list ((str * str) * (str * str)) := zip l (tail l).

Definition set_del (v : bool) (r : route) : route :=
  mk_route (r_seq r) v (r_tm r) (indev r) (inport r) (outdev r) (outport r) (pass r).
Definition set_tm (v : Z) (r : route) : route :=
  mk_route (r_seq r) (r_del r) v (indev r) (inport r) (outdev r) (outport r) (pass r).
Definition set_pass (l : list (str * str)) (r : route) : route :=
  mk_route (r_seq r) (r_del r) (r_tm r) (indev r) (inport r) (outdev r) (outport r) l.
Definition set_out (dev port : str) (r : route) : route :=
  mk_route (r_seq r) (r_del r) (r_tm r) (indev r) (inport r) dev port (pass r).

Definition del_route_in_links (T : topology) (sip dip : str) (s : sdn) : option sdn :=
  let r := route_of sip dip s in
  let f := (sip, dip) in
  s ← match pass r with
      | [] => erase_flows f (indev r) (outdev (route_of sip sip s)) (outport r) s
      | p0 :: _ =>
        s ← erase_flows f (map_get [] sip (server_ip_to_switch_name T)) p0.1 p0.2 s;
        s ← foldl (fun s h => s ← s; erase_flows f h.1.1 h.2.1 p0.2 s) (Some s) (hops (pass r));
        let pn := List.last (pass r) p0 in
        erase_flows f pn.1 (outdev r) pn.2 s
      end;
  Some (put_route sip dip (set_del true (route_of sip dip s)) s).

Definition save_route_in_links (T : topology) (sip dip : str) (s : sdn) : sdn :=
  let r := route_of sip dip s in
  let f := (sip, dip) in
  let s :=
    match pass r with
    | [] => add_flows f (indev r) (outdev r) (outport r) s
    | p0 :: _ =>
      let s := add_flows f (map_get [] sip (server_ip_to_switch_name T)) p0.1 p0.2 s in
      let s := foldl (fun s h => add_flows f h.1.1 h.2.1 p0.2 s) s (hops (pass r)) in
      let pn := List.last (pass r) p0 in
      add_flows f pn.1 (outdev r) (outport r) s
    end in
  put_route sip dip (set_del false (route_of sip dip s)) s.

(** * The route of a pair *)

(** Requests to the SDN controller: [del_route] and [save_route] *)
Inductive request : Type :=
| ReqDelete (seq : Z)
| ReqSave (r : route) (sip dip : str).

(** [if (!routes[sip][dip].del) { del_route(...); del_route_in_links(...); }] *)
Definition forget (T : topology) (sip dip : str) (s : sdn) : res (list request * sdn) :=
  let r := route_of sip dip s in
  if r_del r then Ret ([], s)
  else s <~ lift_opt (del_route_in_links T sip dip s); Ret ([ReqDelete (r_seq r)], s).

(** The loop over a path of the same length: the hops from [k] on *)
Fixpoint fix_pass (T : topology) (sip dip : str) (k : nat) (tmp : list (str * str)) (s : sdn)
  : res (bool * list request * sdn) :=
  match tmp with
  | [] => Ret (false, [], s)
  | (dev, port) :: tmp =>
    p <~ lift_opt (pass (route_of sip dip s) !! k);
    a <~ (if decide (p.1 = dev) then Ret (false, [], s)
          else x <~ forget T sip dip s;
               let r := route_of sip dip x.2 in
               Ret (true, x.1, put_route sip dip (set_pass (<[k := (dev, p.2)]> (pass r)) r) x.2));
    let '(u1, q1, s) := a in
    p <~ lift_opt (pass (route_of sip dip s) !! k);
    b <~ (if decide (p.2 = port) then Ret (false, [], s)
          else x <~ forget T sip dip s;
               let r := route_of sip dip x.2 in
               Ret (true, x.1, put_route sip dip (set_pass (<[k := (p.1, port)]> (pass r)) r) x.2));
    let '(u2, q2, s) := b in
    c <~ fix_pass T sip dip (S k) tmp s;
    let '(u3, q3, s) := c in
    Ret (u1 || u2 || u3, q1 ++ q2 ++ q3, s)
  end.

(** The part of [get_route] that stores the new path in the entry of the pair *)
Definition install (T : topology) (sip dip : str) (s0 d0 : nat) (tmp_route : list (str * str)) (s : sdn)
  : res (bool * list request * sdn) :=
  let r := route_of sip dip s in
  let inner := take (length tmp_route - 1) tmp_route in
  a <~ (if r_seq r =? -1 then
          dev <~ lift_opt (switch_idx_to_name T s0);
          ip <~ lift_opt (switch_idx_to_ip T s0);
          idx <~ lift_opt (server_ip_to_if T sip);
          port <~ lift_opt (idx_to_ifname T ip idx);
          Ret (true, [], put_route sip dip
            (mk_route (seq s) false (r_tm r) dev port (outdev r) (outport r) (pass r ++ inner)) (set_seq (s32 (seq s + 1)) s))
        else if negb (Nat.eqb (length tmp_route) (length (pass r) + 1)) then
          x <~ forget T sip dip s;
          Ret (true, x.1, put_route sip dip (set_pass inner (route_of sip dip x.2)) x.2)
        else fix_pass T sip dip 0 inner s);
  let '(u1, q1, s) := a in
  dev <~ lift_opt (switch_idx_to_name T d0);
  e <~ lift_opt (last tmp_route);
  let r := route_of sip dip s in
  let s := put_route sip dip (set_out dev (outport r) r) s in
  b <~ (if decide (outport r = []) then
          Ret (false, [], put_route sip dip (set_out dev e.2 r) s)
        else if decide (outport r = e.2) then Ret (false, [], s)
        else x <~ forget T sip dip s;
             Ret (true, x.1, put_route sip dip (set_out dev e.2 (route_of sip dip x.2)) x.2));
  let '(u2, q2, s) := b in
  let s := if u1 || u2 then save_route_in_links T sip dip s else s in
  Ret (u1 || u2, q1 ++ q2, s).

(** [get_route(sip, dip)]: whether the route changed, the requests sent and the state *)
Definition get_route (fuel : nat) (T : topology) (sip dip : str) (s : sdn) : res (bool * list request * sdn) :=
  let s0 := switch_name_to_idx T (map_get [] sip (server_ip_to_switch_name T)) in
  let d0 := switch_name_to_idx T (map_get [] dip (server_ip_to_switch_name T)) in
  if Nat.eqb s0 d0 then Ret (false, [], s)
  else
    tmp_route <~ find_path T s sip dip fuel s0 d0;
    install T sip dip s0 d0 tmp_route s.

(** * Policy routes *)

Definition route_max : Z := 1000.

(** [while (route_head->tm < routes[sip][dip].tm)] and the node after; the end of the list is a
    null pointer *)
Fixpoint evict (tm : Z) (l : list (str * str * Z)) : option (list (str * str * Z)) :=
  match l with
  | [] => None
  | n :: l => if n.2 <? tm then evict tm l else Some l
  end.

Definition add_route (sip dip : str) (now : Z) (s : sdn) : option sdn :=
  let r := route_of sip dip s in
  l ← (if n_route s =? 0 then Some []
       else if route_max <=? n_route s then
         if r_del r then evict (r_tm r) (route_nodes s) else Some (route_nodes s)
       else Some (route_nodes s));
  Some (put_route sip dip (set_tm now r) (set_route_list (l ++ [(sip, dip, now)]) (n_route s + 1) s)).

(** [update_route()]: every pair with a rate above 0, in order; [clock] is what [add_route] reads
    for each *)
Definition update_pair (fuel : nat) (T : topology) (now : Z) (sip dip : str) (s : sdn) : res (list request * sdn) :=
  x <~ get_route fuel T sip dip s;
  let '(changed, q, s) := x in
  if (changed : bool) then s <~ lift_opt (add_route sip dip now s); Ret (q ++ [ReqSave (route_of sip dip s) sip dip], s)
  else Ret (q, s).

Definition active (s : sdn) : list (str * str) :=
  src ← txRates s; dst ← src.2; if dlt zero dst.2 then [(src.1, dst.1)] else [].

Fixpoint update_pairs (fuel : nat) (T : topology) (clock : str -> str -> Z) (l : list (str * str)) (s : sdn)
  : res (list request * sdn) :=
  match l with
  | [] => Ret ([], s)
  | (sip, dip) :: l =>
    x <~ update_pair fuel T (clock sip dip) sip dip s;
    y <~ update_pairs fuel T clock l x.2;
    Ret (x.1 ++ y.1, y.2)
  end.

Definition update_route (fuel : nat) (T : topology) (clock : str -> str -> Z) (s : sdn) : res (list request * sdn) :=
  update_pairs fuel T clock (active s) s.
