(* ===== verification/ServerPath.v ===== *)
(** The search of the controller for a path (the loops of [get_route] in sync/server.cpp): it ends,
    with a path whose links are each no busier than the busiest link of any other path, rates
    taken in whole bits per second; and it runs forever when no link below the limit enters the
    destination. *)

From stdpp Require Import base numbers list sets.
From S2P Require Import Prelude Types Forecast Double Server.

Section Path.
Context (T : topology) (st : sdn) (sip dip : str).

(** * The graph *)

Abbreviation n := (n_switch T).
Abbreviation rate_at c := (get_interface_rate T st c.1.1 c.1.2 c.2 sip dip).

(** The [k]-th link from [i] to [j] *)
Definition is_link (c : nat * nat * nat) : Prop := (c.1.1 < n)%nat /\ (c.1.2 < n)%nat /\ (c.2 < n_links T st c.1.1 c.1.2)%nat.

(** Its load in whole bits per second *)
Definition load (c : nat * nat * nat) : Z := match rate_at c with Some r => dkey r | None => 0 end.

(** A walk from [s], link by link *)
Inductive link_walk (s : nat) : list (nat * nat * nat) -> nat -> Prop :=
| walk_nil : link_walk s [] s
| walk_snoc es i j k : link_walk s es i -> is_link (i, j, k) -> link_walk s (es ++ [(i, j, k)]) j.

(** The hop a link stands for: the switch it leads to and the port it enters by *)
Definition hop (c : nat * nat * nat) (h : str * str) : Prop :=
  exists a b l, switch_idx_to_name T c.1.1 = Some a /\ switch_idx_to_name T c.1.2 = Some b /\
    links_of a b st !! c.2 = Some l /\ h = (b, port2 l).

Context (Hrates : forall i j k r, get_interface_rate T st i j k sip dip = Some r -> double_ok r).

Lemma name_in i : (i < n)%nat -> exists a, switch_idx_to_name T i = Some a.
Proof. intros Hi. unfold switch_idx_to_name. destruct (lookup_lt_is_Some_2 (nodes T) i Hi) as [x ->]. by exists x.1. Qed.

Lemma link_there c : is_link c -> exists a b l,
  switch_idx_to_name T c.1.1 = Some a /\ switch_idx_to_name T c.1.2 = Some b /\ links_of a b st !! c.2 = Some l.
Proof.
  intros (Hi & Hj & Hk). destruct (name_in _ Hi) as [a Ea], (name_in _ Hj) as [b Eb]. unfold n_links in Hk. rewrite Ea, Eb in Hk.
  destruct (lookup_lt_is_Some_2 _ _ Hk) as [l El]. by exists a, b, l.
Qed.

Lemma link_rate_at c : is_link c -> exists r, rate_at c = Some r /\ double_ok r /\ load c = dkey r.
Proof using Hrates.
  intros Hc. destruct (link_there c Hc) as (a & b & l & Ea & Eb & El).
  assert (E : rate_at c = Some (link_rate st sip dip l)) by (unfold get_interface_rate; by rewrite Ea; simpl; rewrite Eb; simpl; rewrite El).
  exists (link_rate st sip dip l). split; [done|]. split; [by eapply Hrates|]. unfold load. by rewrite E.
Qed.

Lemma hop_there c : is_link c -> exists h, hop c h.
Proof. intros Hc. destruct (link_there c Hc) as (a & b & l & ? & ? & ?). exists (b, port2 l). by exists a, b, l. Qed.

(** * One pass *)

Lemma elem_of_candidates visit c :
  c ∈ candidates T st visit <-> visit !! c.1.1 = Some true /\ visit !! c.1.2 = Some false /\ is_link c.
Proof.
  destruct c as [[i j] k]. unfold candidates, is_link. simpl. rewrite !list_elem_of_bind. setoid_rewrite list_elem_of_bind.
  setoid_rewrite list_elem_of_bind. setoid_rewrite list_elem_of_filter. setoid_rewrite list_elem_of_singleton. split.
  - intros (i' & (j' & (k' & [= -> -> ->] & Hk) & Hj & Hj') & Hi & Hi').
    apply elem_of_seq in Hk, Hj', Hi'. split_and!; try done; lia.
  - intros (Hi & Hj & Hi' & Hj' & Hk). exists i. split; [|split; [done|apply elem_of_seq; lia]].
    exists j. split; [|split; [done|apply elem_of_seq; lia]]. exists k. split; [done|apply elem_of_seq; lia].
Qed.

(** The scan keeps the least load below the bound it starts with, or what it starts with *)
Lemma best_link_spec l c0 u0 :
  Forall is_link l -> 0 <= u0 < 2 ^ 53 ->
  exists c u, scan T st sip dip l (c0, u0) = Some (c, u) /\ (forall c', c' ∈ l -> u <= load c') /\
    ((c = c0 /\ u = u0) \/ (c ∈ l /\ u = load c /\ u < u0)).
Proof using Hrates.
  revert c0 u0. induction l as [|c l IH]; intros c0 u0 Hl Hu; simpl.
  { exists c0, u0. split; [done|]. split; [intros c' Hc'; by apply not_elem_of_nil in Hc'|by left]. }
  apply Forall_cons in Hl as [Hc Hl]. destruct (link_rate_at c Hc) as (r & Er & Hr & Ek).
  unfold consider. rewrite Er. simpl. rewrite (dlt_of_ll r u0 Hr Hu). pose proof (dkey_nonneg r).
  destruct (Z.ltb_spec (dkey r) u0) as [Hlt|Hge].
  - rewrite (to_ll_key r u0 Hr Hu Hlt). simpl. destruct (IH c (dkey r) Hl ltac:(lia)) as (c1 & u1 & -> & Hm & Hw).
    exists c1, u1. split; [done|]. split.
    + intros c' Hc'. apply elem_of_cons in Hc' as [-> |Hc']; [|by apply Hm]. destruct Hw as [[_ ->]|(_ & _ & ?)]; lia.
    + right. destruct Hw as [[-> ->]|(Hin & -> & ?)]; split_and!; try lia; [by left|by right].
  - simpl. destruct (IH c0 u0 Hl Hu) as (c1 & u1 & -> & Hm & Hw). exists c1, u1. split; [done|]. split.
    + intros c' Hc'. apply elem_of_cons in Hc' as [-> |Hc']; [|by apply Hm]. destruct Hw as [[_ ->]|(_ & _ & ?)]; lia.
    + destruct Hw as [?|(Hin & ? & ?)]; [by left|right]. split_and!; try done. by right.
Qed.

(** ** Visited switches *)

(** [ord] are the visited switches, the last first; each but [s] was entered by the link [pre] says
    from one visited before, and no walk from [s] to [d] has all its links below that load *)
Inductive grown (s d : nat) (pre : list (nat * nat)) : list nat -> Prop :=
| grown_start : (s < n)%nat -> grown s d pre [s]
| grown_more ord i j k :
    grown s d pre ord -> i ∈ ord -> (j ∉ ord) -> pre !! j = Some (i, k) -> is_link (i, j, k) -> load (i, j, k) < rate_limit ->
    (forall es, link_walk s es d -> exists e, e ∈ es /\ load (i, j, k) <= load e) ->
    grown s d pre (j :: ord).

Definition visited (visit : list bool) (ord : list nat) : Prop :=
  length visit = n /\ forall i, (i < n)%nat -> visit !! i = Some (bool_decide (i ∈ ord)).

Lemma grown_in s d pre ord : grown s d pre ord -> s ∈ ord /\ NoDup ord /\ Forall (fun i => (i < n)%nat) ord.
Proof.
  induction 1 as [Hs|ord i j k _ (H1 & H2 & H3) _ Hj _ Hl _ _].
  - split_and!; [by left|apply NoDup_singleton|by constructor].
  - split_and!; [by right|by constructor|constructor; [apply Hl|done]].
Qed.

Lemma grown_set s d pre ord x v : grown s d pre ord -> x ∉ ord -> grown s d (<[x := v]> pre) ord.
Proof.
  induction 1 as [Hs|ord i j k _ IH Hi Hj Hp Hl Hlt Hw]; intros Hx; [by constructor|].
  apply not_elem_of_cons in Hx as [Hxj Hx]. econstructor; eauto. by rewrite list_lookup_insert_ne.
Qed.

Lemma visited_set visit ord j : visited visit ord -> (j < n)%nat -> visited (<[j := true]> visit) (j :: ord).
Proof.
  intros [Hlen Hv] Hj. split; [by rewrite length_insert|]. intros i Hi. destruct (decide (i = j)) as [-> |Hne].
  - rewrite list_lookup_insert_eq by lia. f_equal. symmetry. apply bool_decide_eq_true. by left.
  - rewrite list_lookup_insert_ne, Hv by done. f_equal. apply bool_decide_ext. rewrite elem_of_cons. naive_solver.
Qed.

(** A walk that leaves a set of switches does so by a link *)
Lemma walk_leaves s es d (ord : list nat) :
  link_walk s es d -> s ∈ ord -> (d ∉ ord) -> exists i j k, (i, j, k) ∈ es /\ i ∈ ord /\ (j ∉ ord) /\ is_link (i, j, k).
Proof.
  induction 1 as [|es i j k Hw IH Hl]; intros Hs Hd; [done|]. destruct (decide (i ∈ ord)) as [Hi|Hi].
  - exists i, j, k. split_and!; try done. apply elem_of_app. right. by left.
  - destruct (IH Hs Hi) as (i' & j' & k' & Hin & ?). exists i', j', k'. split; [apply elem_of_app; by left|done].
Qed.

(** ** The loop *)

Lemma cand_link visit : Forall is_link (candidates T st visit).
Proof. apply Forall_forall. intros c Hc. by apply elem_of_candidates in Hc as (_ & _ & ?). Qed.

Lemma crossing visit ord i j k :
  visited visit ord -> i ∈ ord -> (j ∉ ord) -> is_link (i, j, k) -> (i, j, k) ∈ candidates T st visit.
Proof.
  intros [_ Hv] Hi Hj Hl. pose proof Hl as (H1 & H2 & _). apply elem_of_candidates. simpl.
  rewrite (Hv i H1), (Hv j H2), bool_decide_eq_true_2, bool_decide_eq_false_2 by done. done.
Qed.

(** A pass takes the least loaded link out of the visited switches, if one is below the limit *)
Lemma pass_spec s d visit pre ord :
  grown s d pre ord -> visited visit ord -> length pre = n -> (d ∉ ord) ->
  (exists i j k u, scan T st sip dip (candidates T st visit) ((0, 0, 0)%nat, rate_limit) = Some ((i, j, k), u) /\
     is_link (i, j, k) /\ load (i, j, k) < rate_limit /\ (j ∉ ord) /\
     grown s d (<[j := (i, k)]> pre) (j :: ord) /\ visited (<[j := true]> visit) (j :: ord)) \/
  (scan T st sip dip (candidates T st visit) ((0, 0, 0)%nat, rate_limit) = Some ((0, 0, 0)%nat, rate_limit) /\
   forall i j k, i ∈ ord -> (j ∉ ord) -> is_link (i, j, k) -> rate_limit <= load (i, j, k)).
Proof using Hrates.
  intros Hg Hv Hlen Hd. destruct (grown_in _ _ _ _ Hg) as (Hs & _ & _).
  destruct (best_link_spec _ (0, 0, 0)%nat rate_limit (cand_link visit) ltac:(by vm_compute)) as (c & u & E & Hm & Hw).
  destruct Hw as [[-> ->]|(Hin & -> & Hlt)].
  - right. split; [done|]. intros i j k Hi Hj Hl. apply Hm. by eapply crossing.
  - left. destruct c as [[i j] k]. exists i, j, k, (load (i, j, k)).
    apply elem_of_candidates in Hin as (Hi & Hj & Hl). simpl in Hi, Hj. pose proof Hl as (L1 & L2 & _). simpl in L1, L2.
    rewrite (proj2 Hv i L1) in Hi. rewrite (proj2 Hv j L2) in Hj. injection Hi as Hi. injection Hj as Hj.
    apply bool_decide_eq_true in Hi. apply bool_decide_eq_false in Hj. split_and!; try done; [|by apply visited_set].
    eapply grown_more; eauto.
    + by apply grown_set.
    + apply list_lookup_insert_eq. lia.
    + intros es Hes. destruct (walk_leaves s es d ord Hes Hs Hd) as (i' & j' & k' & He & Hi' & Hj' & Hl').
      exists (i', j', k'). split; [done|]. apply Hm. by eapply crossing.
Qed.

Lemma search_finds s d fuel visit pre ord :
  (exists es, link_walk s es d /\ Forall (fun e => load e < rate_limit) es) ->
  grown s d pre ord -> visited visit ord -> length pre = n -> (d < n)%nat -> (d ∉ ord) -> (n <= fuel + length ord)%nat ->
  exists pre' ord', search T st sip dip fuel d visit pre = Ret pre' /\ length pre' = n /\ grown s d pre' ord' /\ d ∈ ord'.
Proof using Hrates.
  intros (es & Hes & Hbelow). revert visit pre ord. induction fuel as [|fuel IH]; intros visit pre ord Hg Hv Hlen Hdn Hd Hf.
  { exfalso. destruct (grown_in _ _ _ _ Hg) as (_ & Hnd & Hall).
    assert (length (d :: ord) <= length (List.seq 0 n))%nat; [|rewrite length_seq in *; simpl in *; lia].
    apply submseteq_length, NoDup_submseteq; [by constructor|]. intros x Hx. rewrite Forall_forall in Hall. apply elem_of_seq.
    apply elem_of_cons in Hx as [-> |Hx]; [lia|]. specialize (Hall x Hx). lia. }
  simpl. destruct (pass_spec s d visit pre ord Hg Hv Hlen Hd) as [(i & j & k & u & -> & Hl & Hlt & Hj & Hg' & Hv')|[_ Hno]].
  - simpl. case_decide as Ej.
    + subst j. exists (<[d := (i, k)]> pre), (d :: ord). split_and!; try done; [by rewrite length_insert|by left].
    + apply (IH _ _ (j :: ord)); try done; [by rewrite length_insert|rewrite not_elem_of_cons; naive_solver|simpl; lia].
  - exfalso. destruct (grown_in _ _ _ _ Hg) as (Hs & _). destruct (walk_leaves s es d ord Hes Hs Hd) as (i & j & k & He & Hi & Hj & Hl).
    specialize (Hno i j k Hi Hj Hl). rewrite Forall_forall in Hbelow. specialize (Hbelow _ He). simpl in Hbelow. lia.
Qed.

(** * The path *)

(** What [pre] says of a visited switch *)
Lemma grown_pre s d pre ord v :
  grown s d pre ord -> v ∈ ord -> v <> s ->
  exists ord1 ord2 i k, ord = ord1 ++ v :: ord2 /\ grown s d pre ord2 /\ i ∈ ord2 /\ pre !! v = Some (i, k) /\ is_link (i, v, k) /\
    load (i, v, k) < rate_limit /\ (forall es, link_walk s es d -> exists e, e ∈ es /\ load (i, v, k) <= load e).
Proof.
  induction 1 as [Hs|ord i j k Hg IH Hi Hj Hp Hl Hlt Hw]; intros Hv Hne.
  - apply list_elem_of_singleton in Hv. done.
  - apply elem_of_cons in Hv as [-> |Hv].
    + by exists [], ord, i, k.
    + destruct (IH Hv Hne) as (o1 & o2 & i' & k' & -> & H). by exists (j :: o1), o2, i', k'.
Qed.

Lemma trace_spec s d pre ord fuel v q :
  grown s d pre ord -> length pre = n -> v ∈ ord -> (length ord <= S fuel)%nat -> pre !! v = Some q ->
  exists l es, trace T st fuel s pre v q.2 = Ret l /\ link_walk s es v /\ Forall2 hop es (reverse l) /\
    forall es', link_walk s es' d -> Forall (fun e => exists e', e' ∈ es' /\ load e <= load e') es.
Proof.
  revert ord v q. induction fuel as [|fuel IH]; intros ord v q Hg Hlen Hv Hf Hq; simpl.
  - destruct (decide (v = s)) as [-> |Hne]; [exists [], []; split_and!; try done; constructor|exfalso].
    destruct (grown_pre _ _ _ _ _ Hg Hv Hne) as (o1 & o2 & i & k & -> & Hg2 & Hi & _). rewrite length_app in Hf. simpl in Hf.
    destruct o2; [by apply not_elem_of_nil in Hi|simpl in Hf; lia].
  - destruct (decide (v = s)) as [-> |Hne]; [exists [], []; split_and!; try done; constructor|].
    destruct (grown_pre _ _ _ _ _ Hg Hv Hne) as (o1 & o2 & i & k & -> & Hg2 & Hi & Hp & Hl & _ & Hw).
    rewrite Hp in Hq. injection Hq as <-. rewrite Hp. simpl.
    destruct (link_there _ Hl) as (a & b & l & Ea & Eb & El). simpl in Ea, Eb, El. rewrite Eb. simpl. rewrite Ea. simpl. rewrite El. simpl.
    destruct (grown_in _ _ _ _ Hg2) as (_ & _ & Hall). rewrite Forall_forall in Hall. specialize (Hall i Hi).
    destruct (lookup_lt_is_Some_2 pre i ltac:(lia)) as [q' Eq]. rewrite Eq. simpl.
    destruct (IH o2 i q' Hg2 Hlen Hi) as (rest & es & -> & Hes & Hh & Hb); [rewrite length_app in Hf; simpl in Hf; lia|done|].
    simpl. exists ((b, port2 l) :: rest), (es ++ [(i, v, k)]). split; [done|]. split; [by constructor|]. split.
    + rewrite reverse_cons. apply Forall2_app; [done|]. constructor; [|done]. by exists a, b, l.
    + intros es' Hes'. apply Forall_app. split; [by apply Hb|]. constructor; [by apply Hw|done].
Qed.

(** The start of the search *)
Lemma start_visited s : (s < n)%nat -> visited (<[s := true]> (replicate n false)) [s].
Proof.
  intros Hs. split; [by rewrite length_insert, length_replicate|]. intros i Hi. destruct (decide (i = s)) as [-> |Hne].
  - rewrite list_lookup_insert_eq by (rewrite length_replicate; lia). f_equal. symmetry. apply bool_decide_eq_true. by left.
  - rewrite list_lookup_insert_ne, lookup_replicate_2 by done. f_equal. symmetry. apply bool_decide_eq_false. by intros ->%list_elem_of_singleton.
Qed.

Lemma find_path_spec s d fuel :
  (s < n)%nat -> (d < n)%nat -> s <> d -> (n <= S fuel)%nat ->
  (exists es, link_walk s es d /\ Forall (fun e => load e < rate_limit) es) ->
  exists l es, find_path T st sip dip fuel s d = Ret l /\ link_walk s es d /\ Forall2 hop es l /\
    forall es', link_walk s es' d -> Forall (fun e => exists e', e' ∈ es' /\ load e <= load e') es.
Proof using Hrates.
  intros Hs Hd Hne Hf Hr. unfold find_path.
  destruct (search_finds s d fuel (<[s := true]> (replicate n false)) (<[s := (s, 0%nat)]> (replicate n (0, 0)%nat)) [s]) as (pre & ord & -> & Hlen & Hg & Hin);
    [done|by constructor|by apply start_visited|by rewrite length_insert, length_replicate|done|by intros ->%list_elem_of_singleton|simpl; lia|].
  simpl. destruct (lookup_lt_is_Some_2 pre d ltac:(lia)) as [q Eq]. rewrite Eq. simpl.
  destruct (trace_spec s d pre ord n d q Hg Hlen Hin) as (l & es & -> & Hes & Hh & Hb); [|done|].
  - destruct (grown_in _ _ _ _ Hg) as (_ & Hnd & Hall). transitivity (length (List.seq 0 n)); [|rewrite length_seq; lia].
    apply submseteq_length, NoDup_submseteq; [done|]. intros x Hx. rewrite Forall_forall in Hall. specialize (Hall x Hx). apply elem_of_seq. lia.
  - simpl. by exists (reverse l), es.
Qed.

(** * No way in *)

Lemma search_hangs d fuel visit pre :
  d <> 0%nat -> (forall i k, is_link (i, d, k) -> rate_limit <= load (i, d, k)) ->
  search T st sip dip fuel d visit pre = Hang.
Proof using Hrates.
  intros Hd Hno. revert visit pre. induction fuel as [|fuel IH]; intros visit pre; [done|]. simpl.
  destruct (best_link_spec _ (0, 0, 0)%nat rate_limit (cand_link visit) ltac:(by vm_compute)) as (c & u & -> & _ & Hw). simpl.
  destruct c as [[i j] k]. destruct Hw as [[[= -> -> ->] _]|(Hin & -> & Hlt)].
  - rewrite decide_False by done. apply IH.
  - rewrite decide_False; [apply IH|]. intros ->. apply elem_of_candidates in Hin as (_ & _ & Hl). specialize (Hno i k Hl). lia.
Qed.
End Path.
