(* ===== verification/ServerProps.v ===== *)
(** The tables of the controller: laws of its maps, rates that stay numbers that are not negative,
    and what storing a path changes. *)

From Stdlib Require Import SpecFloat.
From stdpp Require Import base numbers list sets.
From S2P Require Import Prelude Types Forecast Double Server.

(** * Maps *)

Section Maps.
Context {A : Type} (d : A).

Lemma map_get_set_eq k v m : map_get d k (map_set k v m) = v.
Proof.
  induction m as [|[k' v'] m IH]; simpl; [by rewrite decide_True|]. destruct (decide (k = k')) as [|Hne]; simpl; [by rewrite decide_True|].
  destruct (str_ltb k k'); simpl; [by rewrite decide_True|]. by rewrite decide_False.
Qed.

Lemma map_get_set_ne k k' v m : k <> k' -> map_get d k (map_set k' v m) = map_get d k m.
Proof.
  intros Hk. induction m as [|[k1 v1] m IH]; simpl; [by rewrite decide_False|].
  destruct (decide (k' = k1)) as [-> |Hne]; simpl; [by rewrite !decide_False|].
  destruct (str_ltb k' k1); simpl; [by rewrite (decide_False (P := k = k'))|]. by rewrite IH.
Qed.
End Maps.

Lemma get2_set2_eq {A} (d : A) a b v m : get2 d a b (set2 a b v m) = v.
Proof. unfold get2, set2. by rewrite !map_get_set_eq. Qed.

Lemma get2_set2_ne {A} (d : A) a b a' b' v m : (a, b) <> (a', b') -> get2 d a b (set2 a' b' v m) = get2 d a b m.
Proof.
  intros H. unfold get2, set2. destruct (decide (a = a')) as [-> |Ha].
  - rewrite map_get_set_eq. apply map_get_set_ne. congruence.
  - by rewrite map_get_set_ne.
Qed.

(** What all the values and the default are, a lookup is *)
Lemma map_get_all {A} (P : A -> Prop) d k m : P d -> Forall (fun x => P (snd x)) m -> P (map_get d k m).
Proof. intros Hd H. induction H as [|[k' v] m Hv _ IH]; simpl; [done|]. by case_decide. Qed.

Lemma get2_all {A} (P : A -> Prop) d a b m : P d -> Forall (fun x => Forall (fun y => P (snd y)) (snd x)) m -> P (get2 d a b m).
Proof. intros Hd H. apply (map_get_all P); [done|]. by apply (map_get_all (Forall (fun y => P (snd y)))). Qed.

Lemma route_of_put sip dip r s : route_of sip dip (put_route sip dip r s) = r.
Proof. apply get2_set2_eq. Qed.

Lemma route_of_put_ne a b sip dip r s : (a, b) <> (sip, dip) -> route_of a b (put_route sip dip r s) = route_of a b s.
Proof. apply get2_set2_ne. Qed.

(** * Rates *)

Definition rates_ok (s : sdn) : Prop := forall a b, double_ok (get2 zero a b (txRates s)).

(** What a conversion or a rounding gives is not the negative zero *)
Lemma of_ll_sign z : 0 <= z -> of_ll z <> S754_zero true.
Proof.
  intros Hz. destruct z as [|p|p]; [done| |lia]. unfold of_ll, binary_normalize, binary_round, binary_round_aux.
  destruct (shl_align _ _ _) as [q f]. destruct (shr_fexp _ _ _ _ _) as [r1 e1]. destruct (shr_fexp _ _ _ _ loc_Exact) as [r2 e2].
  destruct (shr_m r2); try done. by destruct (_ <=? _).
Qed.

Lemma ddiv_of_ll_ok x z : double_ok x -> 0 <= z -> double_ok (ddiv x (of_ll z)).
Proof.
  intros Hx Hz. pose proof (of_ll_ok z Hz) as Hy. pose proof (of_ll_sign z Hz) as Hs.
  destruct (of_ll z) as [sy|sy| |sy my ey].
  - destruct sy; [done|]. destruct x as [sx|sx| |sx mx ex]; simpl in *; try done; [by rewrite Hx|by destruct Hx as [-> _]].
  - simpl in Hy. subst sy. destruct x as [sx|sx| |sx mx ex]; done.
  - by destruct x.
  - destruct Hy as [-> _]. by apply ddiv_ok.
Qed.

Lemma new_rate_ok old speed dt : double_ok old -> double_ok speed -> 0 <= dt -> double_ok (new_rate old speed dt).
Proof.
  intros Ho Hs Hd. unfold new_rate. apply ddiv_of_ll_ok; [|unfold win_s; lia].
  destruct (Z.ltb_spec win_s dt); apply dadd_ok; apply dmul_ok; try done; apply of_ll_ok; lia.
Qed.

Lemma tx_speed_ok tx dt : 0 < dt < 2 ^ 63 -> double_ok (tx_speed tx dt).
Proof.
  intros Hd. apply of_ll_ok, Z.div_pos; [apply Z.mod_pos_bound; lia|]. rewrite u64_small; lia.
Qed.

Lemma rx_speed_ok rx dt : 0 < dt -> double_ok (rx_speed rx dt).
Proof. intros Hd. apply ddiv_of_ll_ok; [|lia]. apply of_ll_ok. apply Z.mod_pos_bound. lia. Qed.

Lemma link_rate_ok s sip dip l : rates_ok s -> double_ok (link_rate s sip dip l).
Proof.
  intros Hr. unfold link_rate. assert (H : forall fs acc, double_ok acc ->
    double_ok (foldl (fun acc f => if decide (f = (sip, dip)) then acc else dadd acc (get2 zero f.1 f.2 (txRates s))) acc fs)).
  { induction fs as [|f fs IH]; intros acc Ha; simpl; [done|]. apply IH. case_decide; [done|]. apply dadd_ok; [done|apply Hr]. }
  by apply H.
Qed.

Lemma interface_rate_ok T s i j k sip dip r :
  rates_ok s -> get_interface_rate T s i j k sip dip = Some r -> double_ok r.
Proof.
  intros Hr E. unfold get_interface_rate in E. destruct (switch_idx_to_name T i); [|done]. simpl in E.
  destruct (switch_idx_to_name T j); [|done]. simpl in E. destruct (_ !! k); [|done]. simpl in E. injection E as <-. by apply link_rate_ok.
Qed.

(** ** Records *)

(** The clock has not been read later than [t] *)
Definition updated_by (t : Z) (s : sdn) : Prop := forall a b, 0 <= get2 0 a b (time_rate_update s) <= t.

Lemma updated_later t t' s : t <= t' -> updated_by t s -> updated_by t' s.
Proof. intros Ht H a b. specialize (H a b). lia. Qed.

Lemma s64_pos x : 0 < s64 x -> 0 < s64 x < 2 ^ 63.
Proof. intros H. unfold s64 in *. pose proof (Z.mod_pos_bound (x + 2 ^ 63) (2 ^ 64) ltac:(lia)). lia. Qed.

Lemma rate_update_ok a b speed tm now t s s' :
  rates_ok s -> updated_by t s -> t <= now < 2 ^ 63 -> (forall dt, 0 < dt < 2 ^ 63 -> double_ok (speed dt)) ->
  rate_update a b speed tm now s = Some s' -> rates_ok s' /\ updated_by now s'.
Proof.
  intros Hr Hu Ht Hs. unfold rate_update. destruct (Z.leb_spec (s64 (tm - get2 0 a b (time_last_flow s))) 0) as [|Hf]; [done|].
  intros [= <-]. pose proof (Hu a b). split.
  - intros x y. simpl. destruct (decide ((x, y) = (a, b))) as [[= -> ->]|Hne]; [|rewrite get2_set2_ne by done; apply Hr].
    rewrite get2_set2_eq. apply new_rate_ok; [apply Hr|apply Hs; by apply s64_pos|]. rewrite s64_small; lia.
  - intros x y. simpl. destruct (decide ((x, y) = (a, b))) as [[= -> ->]|Hne]; [rewrite get2_set2_eq; lia|].
    rewrite get2_set2_ne by done. specialize (Hu x y). lia.
Qed.

(** Clock readings that do not go back *)
Fixpoint clocked (t : Z) (l : list (Amount * (Z * Z))) : Prop :=
  match l with
  | [] => t < 2 ^ 63
  | (_, (t1, t2)) :: l => t <= t1 <= t2 /\ t2 < 2 ^ 63 /\ clocked t2 l
  end.

Lemma add_rec_ok T a t t1 t2 s :
  rates_ok s -> updated_by t s -> t <= t1 <= t2 -> t2 < 2 ^ 63 ->
  rates_ok (add_rec T a t1 t2 s) /\ updated_by t2 (add_rec T a t1 t2 s).
Proof.
  intros Hr Hu Ht H2. unfold add_rec. destruct (negb _); [split; [done|by apply (updated_later t); [lia|]]|].
  set (x := if 4096 <? am_tx a then _ else _). assert (Hx : match x with Some s1 => rates_ok s1 /\ updated_by t1 s1 | None => True end).
  { subst x. destruct (4096 <? am_tx a).
    - destruct (rate_update _ _ _ _ _ _) as [s1|] eqn:E; [|done]. eapply (rate_update_ok _ _ _ _ _ t); [done|done|lia| |done].
      intros dt Hdt. by apply tx_speed_ok.
    - split; [done|]. apply (updated_later t); [lia|done]. }
  destruct x as [s1|]; [|split; [done|by apply (updated_later t); [lia|]]]. destruct Hx as [Hr1 Hu1].
  destruct (4096 <? am_rx a); [|split; [done|by apply (updated_later t1); [lia|]]].
  destruct (rate_update _ _ _ _ _ s1) as [s2|] eqn:E; simpl; [|split; [done|by apply (updated_later t1); [lia|]]].
  eapply (rate_update_ok _ _ _ _ _ t1); [done|done|lia| |done]. intros dt Hdt. apply rx_speed_ok. lia.
Qed.

Lemma add_send_rec_ok T l t s :
  rates_ok s -> updated_by t s -> clocked t l -> rates_ok (add_send_rec T l s).
Proof.
  revert t s. induction l as [|[a [t1 t2]] l IH]; intros t s Hr Hu Hc; simpl; [done|]. destruct Hc as (H1 & H2 & H3).
  destruct (bool_decide _); [done|]. destruct (add_rec_ok T a t t1 t2 s Hr Hu H1 H2) as [Hr' Hu']. by apply (IH t2).
Qed.

(** * Storing a path *)

Definition ports (l : list Link) : list (str * str) := (fun x => (port1 x, port2 x)) <$> l.

(** A step on the route of a pair leaves rates, clocks, numbers, the other routes and the links
    apart from their flows as they are *)
Record pair_only (sip dip : str) (s s' : sdn) : Prop := {
  kp_tx : txRates s' = txRates s;
  kp_lf : time_last_flow s' = time_last_flow s;
  kp_ru : time_rate_update s' = time_rate_update s;
  kp_seq : seq s' = seq s;
  kp_list : route_nodes s' = route_nodes s;
  kp_n : n_route s' = n_route s;
  kp_routes : forall a b, (a, b) <> (sip, dip) -> route_of a b s' = route_of a b s;
  kp_ports : forall a b, ports (links_of a b s') = ports (links_of a b s)
}.

Lemma kept_refl sip dip s : pair_only sip dip s s.
Proof. by split. Qed.

Lemma kept_trans sip dip s1 s2 s3 : pair_only sip dip s1 s2 -> pair_only sip dip s2 s3 -> pair_only sip dip s1 s3.
Proof. intros [] []. split; try congruence. intros a b H. by rewrite kp_routes1, kp_routes0. Qed.

#[export] Instance kept_preorder sip dip : PreOrder (pair_only sip dip).
Proof. split; [intros s; apply kept_refl|intros s1 s2 s3; apply kept_trans]. Qed.

Lemma kept_put sip dip r s : pair_only sip dip s (put_route sip dip r s).
Proof. split; try done. intros a b H. by apply route_of_put_ne. Qed.

Lemma links_set a b l s x y :
  links_of x y (set_links (set2 a b l (links s)) s) = if decide ((x, y) = (a, b)) then l else links_of x y s.
Proof.
  unfold links_of. simpl. case_decide as E; [injection E as -> ->; apply get2_set2_eq|by apply get2_set2_ne].
Qed.

Lemma add_flows_kept sip dip f a b port s : pair_only sip dip s (add_flows f a b port s).
Proof.
  split; try done. intros x y. unfold add_flows. rewrite links_set. case_decide as E; [|done]. injection E as -> ->.
  unfold ports. rewrite <- list_fmap_compose. apply list_fmap_ext. intros i l _. simpl. unfold add_flow. by case_decide.
Qed.

Lemma erase_flows_kept sip dip f a b port s s' :
  erase_flows f a b port s = Some s' -> pair_only sip dip s s' /\ routes s' = routes s.
Proof.
  unfold erase_flows. destruct (mapM _ _) as [l|] eqn:E; [|done]. simpl. intros [= <-]. split; [|done]. split; try done.
  intros x y. rewrite links_set. case_decide as Exy; [|done]. injection Exy as -> ->. clear -E.
  apply mapM_Some_1 in E. unfold ports. induction E as [|x y l k Hx _ IH]; [done|]. rewrite !fmap_cons, IH. f_equal.
  unfold erase_flow in Hx. repeat case_decide; try done; by injection Hx as <-.
Qed.

Lemma hops_erased sip dip f port l s s' :
  foldl (fun s h => s ← s; erase_flows f (fst (fst h)) (fst (snd h)) port s) (Some s) (l : list ((str * str) * (str * str))) = Some s' ->
  pair_only sip dip s s' /\ routes s' = routes s.
Proof.
  revert s. induction l as [|h l IH]; intros s; simpl; [intros [= <-]; by split|].
  destruct (erase_flows f _ _ port s) as [s1|] eqn:E1.
  - intros H. destruct (erase_flows_kept sip dip _ _ _ _ _ _ E1) as [K1 R1]. destruct (IH s1 H) as [K2 R2].
    split; [by transitivity s1|congruence].
  - intros H. exfalso. clear -H. induction l as [|h' l IH]; [done|]. apply IH, H.
Qed.

Lemma del_route_kept T sip dip s s' :
  del_route_in_links T sip dip s = Some s' ->
  pair_only sip dip s s' /\ route_of sip dip s' = set_del true (route_of sip dip s).
Proof.
  unfold del_route_in_links. intros H.
  assert (Hm : exists s1, pair_only sip dip s s1 /\ routes s1 = routes s /\ s' = put_route sip dip (set_del true (route_of sip dip s1)) s1).
  { destruct (pass (route_of sip dip s)) as [|p0 ps].
    - destruct (erase_flows _ _ _ _ _) as [s1|] eqn:E1; [|done]. simpl in H. injection H as <-.
      destruct (erase_flows_kept sip dip _ _ _ _ _ _ E1). by exists s1.
    - destruct (erase_flows _ _ _ _ s) as [s1|] eqn:E1; [|done]. simpl in H.
      destruct (foldl _ _ _) as [s2|] eqn:E2; [|done]. simpl in H.
      destruct (erase_flows _ _ _ _ s2) as [s3|] eqn:E3; [|done]. simpl in H. injection H as <-.
      destruct (erase_flows_kept sip dip _ _ _ _ _ _ E1) as [K1 R1]. destruct (hops_erased sip dip _ _ _ _ _ E2) as [K2 R2].
      destruct (erase_flows_kept sip dip _ _ _ _ _ _ E3) as [K3 R3]. exists s3. split; [|split; [congruence|done]].
      transitivity s1; [done|]. by transitivity s2. }
  destruct Hm as (s1 & K & R & ->). split; [transitivity s1; [done|apply kept_put]|]. rewrite route_of_put. unfold route_of. by rewrite R.
Qed.

Lemma save_route_kept T sip dip s :
  pair_only sip dip s (save_route_in_links T sip dip s) /\
  route_of sip dip (save_route_in_links T sip dip s) = set_del false (route_of sip dip s).
Proof.
  assert (Hm : forall f p l s, pair_only sip dip s (foldl (fun s h => add_flows f (fst (fst h)) (fst (snd h)) p s) s (l : list ((str * str) * (str * str)))) /\
    routes (foldl (fun s h => add_flows f (fst (fst h)) (fst (snd h)) p s) s l) = routes s).
  { intros f p l. induction l as [|h l IH]; intros s0; simpl; [split; [reflexivity|done]|].
    destruct (IH (add_flows f h.1.1 h.2.1 p s0)) as [K R]. split; [|done]. etransitivity; [apply add_flows_kept|exact K]. }
  unfold save_route_in_links. destruct (pass (route_of sip dip s)) as [|p0 ps].
  - split; [|by rewrite route_of_put]. etransitivity; [apply add_flows_kept|apply kept_put].
  - destruct (Hm (sip, dip) p0.2 (hops (p0 :: ps)) (add_flows (sip, dip) (map_get [] sip (server_ip_to_switch_name T)) p0.1 p0.2 s)) as [K R].
    split.
    + etransitivity; [apply add_flows_kept|]. etransitivity; [exact K|]. etransitivity; [apply add_flows_kept|apply kept_put].
    + rewrite route_of_put. unfold route_of. simpl. simpl in R. by rewrite R.
Qed.

Lemma forget_kept T sip dip s q s' :
  forget T sip dip s = Ret (q, s') ->
  pair_only sip dip s s' /\ route_of sip dip s' = set_del true (route_of sip dip s) /\
  q = if r_del (route_of sip dip s) then [] else [ReqDelete (r_seq (route_of sip dip s))].
Proof.
  unfold forget. destruct (r_del (route_of sip dip s)) eqn:Ed.
  - intros [= <- <-]. split; [reflexivity|]. split; [|done]. destruct (route_of sip dip s). simpl in *. by subst.
  - destruct (del_route_in_links T sip dip s) as [s1|] eqn:E; [|done]. simpl. intros [= <- <-].
    destruct (del_route_kept _ _ _ _ _ E) as [K R]. done.
Qed.

(** A change of the stored route: nothing when [P] holds, otherwise the old route is withdrawn
    first *)
Lemma changed_spec T sip dip (P : Prop) `{Decision P} (h : route -> route) s u q s' :
  (if decide P then Ret (false, [], s)
   else x <~ forget T sip dip s; Ret (true, x.1, put_route sip dip (h (route_of sip dip x.2)) x.2)) = Ret (u, q, s') ->
  let r := route_of sip dip s in
  pair_only sip dip s s' /\ route_of sip dip s' = (if u then h (set_del true r) else r) /\ (u = false <-> P) /\
  q = (if u && negb (r_del r) then [ReqDelete (r_seq r)] else []).
Proof.
  intros E r. destruct (decide P) as [HP|HP].
  - injection E as <- <- <-. split_and!; try done.
  - destruct (forget T sip dip s) as [[q1 s1]| |] eqn:Ef; try done. simpl in E. injection E as <- <- <-.
    destruct (forget_kept _ _ _ _ _ _ Ef) as (K & R & ->). split_and!; try done.
    + transitivity s1; [done|apply kept_put].
    + by rewrite route_of_put, R.
    + fold r. by destruct (r_del r).
Qed.

Lemma set_pass_same r l : pass r = l -> set_pass l r = r.
Proof. intros <-. by destruct r. Qed.

(** The loop over the hops of a path of the same length *)
Lemma fix_pass_spec T sip dip tmp k s u q s' :
  length (pass (route_of sip dip s)) = (k + length tmp)%nat -> fix_pass T sip dip k tmp s = Ret (u, q, s') ->
  let r := route_of sip dip s in
  pair_only sip dip s s' /\ route_of sip dip s' = set_pass (take k (pass r) ++ tmp) (if u then set_del true r else r) /\
  (u = false <-> drop k (pass r) = tmp) /\ q = (if u && negb (r_del r) then [ReqDelete (r_seq r)] else []).
Proof.
  revert k s u q s'. induction tmp as [|[dev port] tmp IH]; intros k s u q s' Hlen E r; simpl in E.
  { injection E as <- <- <-. simpl in Hlen. fold r in Hlen. rewrite app_nil_r, take_ge, drop_ge by lia.
    split_and!; try done. symmetry. by apply set_pass_same. }
  simpl in Hlen. fold r in Hlen. destruct (lookup_lt_is_Some_2 (pass r) k ltac:(lia)) as [[p1 p2] Ep]. fold r in E. rewrite Ep in E. simpl in E.
  set (A := if decide (p1 = dev) then _ else _) in E. destruct A as [[[u1 q1] s1]| |] eqn:EA; try done. subst A. simpl in E.
  apply (changed_spec T sip dip (p1 = dev) (fun r => set_pass (<[k := (dev, p2)]> (pass r)) r)) in EA as (K1 & R1 & U1 & Q1). fold r in R1, Q1.
  assert (Ep1 : pass (route_of sip dip s1) !! k = Some (dev, p2)).
  { rewrite R1. destruct u1; [|rewrite Ep; f_equal; f_equal; by apply U1]. simpl. apply list_lookup_insert_eq. lia. }
  rewrite Ep1 in E. simpl in E.
  set (A := if decide (p2 = port) then _ else _) in E. destruct A as [[[u2 q2] s2]| |] eqn:EA; try done. subst A. simpl in E.
  apply (changed_spec T sip dip (p2 = port) (fun r => set_pass (<[k := (dev, port)]> (pass r)) r)) in EA as (K2 & R2 & U2 & Q2).
  assert (R12 : route_of sip dip s2 = set_pass (<[k := (dev, port)]> (pass r)) (if u1 || u2 then set_del true r else r)).
  { rewrite R2, R1. destruct u1, u2; simpl.
    - by rewrite list_insert_insert_eq.
    - unfold set_pass. simpl. do 3 f_equal. by apply U2.
    - unfold set_pass. simpl. done.
    - symmetry. apply set_pass_same. symmetry. apply list_insert_id. rewrite Ep. do 2 f_equal; [by apply U1|by apply U2]. }
  destruct (fix_pass T sip dip (S k) tmp s2) as [[[u3 q3] s3]| |] eqn:E3; try done. simpl in E. injection E as <- <- <-.
  apply IH in E3 as (K3 & R3 & U3 & Q3); [|rewrite R12; simpl; rewrite length_insert; lia].
  rewrite R12 in R3, U3, Q3. simpl in R3, U3, Q3.
  split; [transitivity s1; [done|]; by transitivity s2|]. split_and!.
  - rewrite R3. rewrite (take_S_r _ k (dev, port)) by (apply list_lookup_insert_eq; lia). rewrite take_insert_ge by lia.
    rewrite <- app_assoc. simpl. by destruct u1, u2, u3.
  - rewrite orb_false_iff, orb_false_iff, U1, U2, U3. rewrite drop_insert_lt by lia. rewrite (drop_S _ _ _ Ep). naive_solver.
  - rewrite Q3, Q2, Q1. rewrite R1. destruct u1, u2, u3; simpl; try done; by destruct (r_del r).
Qed.
