(* ===== verification/ServerSpec.v ===== *)
(** What the controller promises: the route it stores for a pair of hosts is the path whose busiest
    link is least busy, requests follow exactly the changes, and its tables stay well formed; with
    the cases in which it fails. *)

From stdpp Require Import base numbers list sets.
From S2P Require Import Prelude Types Forecast Double Server ServerPath ServerProps.

(** * Well-formed tables *)

Definition src_switch (T : topology) (ip : str) : nat := switch_name_to_idx T (map_get [] ip (server_ip_to_switch_name T)).

(** The path of a route, from the switch after the first *)
Definition route_path (r : route) : list (str * str) := pass r ++ [(outdev r, outport r)].

(** An entry of [routes]: fresh, or holding a route that is in force *)
Definition route_entry_ok (T : topology) (dip : str) (r : route) : Prop :=
  (r_seq r = -1 /\ pass r = [] /\ outport r = []) \/
  (1 <= r_seq r /\ r_del r = false /\ outport r <> [] /\ switch_idx_to_name T (src_switch T dip) = Some (outdev r)).

(** Ports have names *)
Definition ports_named (s : sdn) : Prop := forall a b p, p ∈ ports (links_of a b s) -> p.2 <> [].

Record sdn_ok (T : topology) (s : sdn) : Prop := {
  ok_rates : rates_ok s;
  ok_routes : forall a b, route_entry_ok T b (route_of a b s);
  ok_ports : ports_named s;
  ok_seq : 1 <= seq s;
  ok_list : n_route s = Z.of_nat (length (route_nodes s))
}.

(** * Withdrawing a route *)

(** Whether withdrawing is defined depends on the links and on two routes only *)
Lemma erase_flows_same f a b port s1 s2 s1' :
  links s1 = links s2 -> erase_flows f a b port s1 = Some s1' ->
  exists s2', erase_flows f a b port s2 = Some s2' /\ links s1' = links s2'.
Proof.
  unfold erase_flows, links_of. intros <-. destruct (mapM _ _) as [l|]; [|done]. intros [= <-]. simpl. eauto.
Qed.

Lemma hops_erased_same f port l s1 s2 s1' :
  links s1 = links s2 ->
  foldl (fun s h => s ← s; erase_flows f (fst (fst h)) (fst (snd h)) port s) (Some s1) (l : list ((str * str) * (str * str))) = Some s1' ->
  exists s2', foldl (fun s h => s ← s; erase_flows f (fst (fst h)) (fst (snd h)) port s) (Some s2) l = Some s2' /\ links s1' = links s2'.
Proof.
  revert s1 s2. induction l as [|h l IH]; intros s1 s2 Hl; simpl; [intros [= <-]; eauto|].
  destruct (erase_flows f _ _ port s1) as [t1|] eqn:E1.
  - destruct (erase_flows_same _ _ _ _ _ _ _ Hl E1) as (t2 & -> & Ht). by apply IH.
  - intros H. exfalso. clear -H. induction l as [|h' l IH]; [done|]. apply IH, H.
Qed.

Lemma del_route_same T sip dip s1 s2 :
  links s1 = links s2 -> route_of sip dip s1 = route_of sip dip s2 -> route_of sip sip s1 = route_of sip sip s2 ->
  is_Some (del_route_in_links T sip dip s1) -> is_Some (del_route_in_links T sip dip s2).
Proof.
  intros Hl Hr Hs [s' H]. unfold del_route_in_links in *. rewrite Hr, Hs in H. destruct (pass (route_of sip dip s2)) as [|p0 ps].
  - destruct (erase_flows _ _ _ _ s1) as [t1|] eqn:E1; [|done].
    destruct (erase_flows_same _ _ _ _ _ _ _ Hl E1) as (t2 & -> & _). simpl. eauto.
  - destruct (erase_flows _ _ _ _ s1) as [t1|] eqn:E1; [|done]. simpl in H.
    destruct (erase_flows_same _ _ _ _ _ _ _ Hl E1) as (t2 & -> & Ht). simpl.
    destruct (foldl _ (Some t1) _) as [u1|] eqn:E2; [|done]. simpl in H.
    destruct (hops_erased_same _ _ _ _ _ _ Ht E2) as (u2 & E2' & Hu). simpl in E2'. rewrite E2'. simpl.
    destruct (erase_flows _ _ _ _ u1) as [v1|] eqn:E3; [|done].
    destruct (erase_flows_same _ _ _ _ _ _ _ Hu E3) as (v2 & -> & _). simpl. eauto.
Qed.

(** The old route can be withdrawn *)
Definition withdrawable (T : topology) (sip dip : str) (s : sdn) : Prop :=
  r_del (route_of sip dip s) = true \/ is_Some (del_route_in_links T sip dip s).

Lemma forget_total T sip dip s : withdrawable T sip dip s -> exists q s', forget T sip dip s = Ret (q, s').
Proof.
  unfold forget. intros [-> |[s' ->]]; [by eauto|]. destruct (r_del _); simpl; eauto.
Qed.

Lemma changed_total T sip dip (P : Prop) `{Decision P} (h : route -> route) s :
  (forall r, r_del (h r) = r_del r) -> withdrawable T sip dip s ->
  exists u q s', (if decide P then Ret (false, [], s)
   else x <~ forget T sip dip s; Ret (true, x.1, put_route sip dip (h (route_of sip dip x.2)) x.2)) = Ret (u, q, s') /\
   (u = false -> s' = s) /\ withdrawable T sip dip s'.
Proof.
  intros Hh Hw. destruct (decide P); [by eauto 7|]. destruct (forget_total _ _ _ _ Hw) as (q & s' & E). rewrite E. simpl.
  eexists _, _, _. split; [done|]. split; [done|]. left. apply forget_kept in E as (_ & R & _). by rewrite route_of_put, Hh, R.
Qed.

Lemma fix_pass_total T sip dip tmp k s :
  length (pass (route_of sip dip s)) = (k + length tmp)%nat -> withdrawable T sip dip s ->
  exists u q s', fix_pass T sip dip k tmp s = Ret (u, q, s') /\ (u = false -> s' = s).
Proof.
  revert k s. induction tmp as [|[dev port] tmp IH]; intros k s Hlen Hw; simpl; [by eexists _, _, _|]. simpl in Hlen.
  destruct (lookup_lt_is_Some_2 (pass (route_of sip dip s)) k ltac:(lia)) as [[p1 p2] Ep]. rewrite Ep. simpl.
  destruct (changed_total T sip dip (p1 = dev) (fun r => set_pass (<[k := (dev, p2)]> (pass r)) r) s (fun _ => eq_refl) Hw) as (u1 & q1 & s1 & E1 & N1 & W1).
  pose proof (changed_spec T sip dip (p1 = dev) (fun r => set_pass (<[k := (dev, p2)]> (pass r)) r) s u1 q1 s1 E1) as (_ & R1 & U1 & _). rewrite E1. simpl.
  assert (Ep1 : pass (route_of sip dip s1) !! k = Some (dev, p2)).
  { rewrite R1. destruct u1; [|rewrite Ep; do 2 f_equal; by apply U1]. simpl. apply list_lookup_insert_eq. lia. }
  assert (Hlen1 : length (pass (route_of sip dip s1)) = (k + S (length tmp))%nat) by (rewrite R1; destruct u1; simpl; rewrite ?length_insert; lia).
  rewrite Ep1. simpl.
  destruct (changed_total T sip dip (p2 = port) (fun r => set_pass (<[k := (dev, port)]> (pass r)) r) s1 (fun _ => eq_refl) W1) as (u2 & q2 & s2 & E2 & N2 & W2).
  pose proof (changed_spec T sip dip (p2 = port) (fun r => set_pass (<[k := (dev, port)]> (pass r)) r) s1 u2 q2 s2 E2) as (_ & R2 & _). rewrite E2. simpl.
  destruct (IH (S k) s2) as (u3 & q3 & s3 & E3 & N3); [rewrite R2; destruct u2; simpl; rewrite ?length_insert; lia|done|].
  rewrite E3. simpl. eexists _, _, _. split; [done|]. intros [[-> ->]%orb_false_iff ->]%orb_false_iff. rewrite N3, N2, N1; done.
Qed.

(** * Storing a path *)

(** The change of the entry of the pair when it holds a route *)
Definition pass_stage (T : topology) (sip dip : str) (tmp : list (str * str)) (s : sdn) : res (bool * list request * sdn) :=
  let r := route_of sip dip s in
  let inner := take (length tmp - 1) tmp in
  if negb (Nat.eqb (length tmp) (length (pass r) + 1)) then
    x <~ forget T sip dip s;
    Ret (true, x.1, put_route sip dip (set_pass inner (route_of sip dip x.2)) x.2)
  else fix_pass T sip dip 0 inner s.

Lemma length_inner {A} (tmp : list A) : tmp <> [] -> length tmp = S (length (take (length tmp - 1) tmp)).
Proof. intros H. rewrite length_take. destruct tmp; [done|simpl; lia]. Qed.

Lemma pass_stage_spec T sip dip tmp s u q s' :
  tmp <> [] -> pass_stage T sip dip tmp s = Ret (u, q, s') ->
  let r := route_of sip dip s in
  let inner := take (length tmp - 1) tmp in
  pair_only sip dip s s' /\ route_of sip dip s' = set_pass inner (if u then set_del true r else r) /\
  (u = false <-> pass r = inner) /\ q = (if u && negb (r_del r) then [ReqDelete (r_seq r)] else []).
Proof.
  intros Hne E r inner. pose proof (length_inner tmp Hne) as Hi. fold inner in Hi. unfold pass_stage in E. fold r inner in E.
  destruct (Nat.eqb_spec (length tmp) (length (pass r) + 1)) as [Hl|Hl]; simpl in E.
  - apply fix_pass_spec in E as (K & R & U & Q); [|fold r; lia]. fold r in R, U, Q. by rewrite drop_0 in U.
  - destruct (forget T sip dip s) as [[q1 s1]| |] eqn:Ef; try done. simpl in E. injection E as <- <- <-.
    apply forget_kept in Ef as (K & R & ->). fold r in R |- *. rewrite route_of_put, R. split_and!; try done.
    + transitivity s1; [done|apply kept_put].
    + split; [done|]. intros Hp. rewrite Hp in Hl. lia.
    + by destruct (r_del r).
Qed.

Lemma pass_stage_total T sip dip tmp s :
  tmp <> [] -> withdrawable T sip dip s ->
  exists u q s', pass_stage T sip dip tmp s = Ret (u, q, s') /\ withdrawable T sip dip s'.
Proof.
  intros Hne Hw. pose proof (length_inner tmp Hne) as Hi.
  assert (H : exists u q s', pass_stage T sip dip tmp s = Ret (u, q, s') /\ (u = false -> s' = s)).
  { unfold pass_stage. destruct (Nat.eqb_spec (length tmp) (length (pass (route_of sip dip s)) + 1)) as [Hl|Hl]; simpl.
    - apply fix_pass_total; [lia|done].
    - destruct (forget_total _ _ _ _ Hw) as (q & s' & ->). simpl. by eexists _, _, _. }
  destruct H as (u & q & s' & E & N). exists u, q, s'. split; [done|]. destruct u; [|by rewrite N].
  apply pass_stage_spec in E as (_ & R & _); [|done]. left. by rewrite R.
Qed.

Lemma take_last {A} (l : list A) e : last l = Some e -> take (length l - 1) l ++ [e] = l.
Proof.
  intros H. apply last_Some in H as [l' ->]. rewrite length_app. simpl. rewrite take_app_le, take_ge by lia. done.
Qed.

Lemma set_out_same r dev port : outdev r = dev -> outport r = port -> set_out dev port r = r.
Proof. intros <- <-. by destruct r. Qed.

(** The second half of [install] for an entry that holds a route to [dev] *)
Definition out_stage (T : topology) (sip dip dev port : str) (s : sdn) : res (bool * list request * sdn) :=
  let r := route_of sip dip s in
  let s := put_route sip dip (set_out dev (outport r) r) s in
  if decide (outport r = []) then Ret (false, [], put_route sip dip (set_out dev port r) s)
  else if decide (outport r = port) then Ret (false, [], s)
  else x <~ forget T sip dip s;
       Ret (true, x.1, put_route sip dip (set_out dev port (route_of sip dip x.2)) x.2).

Lemma out_stage_spec T sip dip dev port s u q s' :
  let r := route_of sip dip s in
  outdev r = dev -> outport r <> [] -> out_stage T sip dip dev port s = Ret (u, q, s') ->
  pair_only sip dip s s' /\ route_of sip dip s' = set_out dev port (if u then set_del true r else r) /\
  (u = false <-> outport r = port) /\ q = (if u && negb (r_del r) then [ReqDelete (r_seq r)] else []).
Proof.
  intros r Hd Hp E. unfold out_stage in E. fold r in E. rewrite decide_False in E by done. set (s1 := put_route _ _ _ s) in E.
  assert (Hr1 : route_of sip dip s1 = r) by (unfold s1; rewrite route_of_put; by apply set_out_same).
  pose proof (changed_spec T sip dip (outport r = port) (set_out dev port) s1 u q s' E) as (K & R & U & Q). rewrite Hr1 in R, Q.
  split; [transitivity s1; [apply kept_put|done]|]. split_and!; try done.
  destruct u; [done|]. rewrite R. symmetry. apply set_out_same; [done|by apply U].
Qed.

Lemma out_stage_total T sip dip dev port s :
  let r := route_of sip dip s in
  outdev r = dev -> outport r <> [] -> withdrawable T sip dip s ->
  exists x, out_stage T sip dip dev port s = Ret x.
Proof.
  intros r Hd Hp Hw. unfold out_stage. fold r. rewrite decide_False by done. set (s1 := put_route _ _ _ s).
  assert (Hr1 : route_of sip dip s1 = r) by (unfold s1; rewrite route_of_put; by apply set_out_same).
  assert (Hw1 : withdrawable T sip dip s1).
  { destruct Hw as [Hw|Hw]; [left; by rewrite Hr1|right]. revert Hw. apply del_route_same; [done|done|].
    destruct (decide (sip = dip)) as [<- |Hne]; [done|]. unfold s1. rewrite route_of_put_ne; congruence. }
  destruct (changed_total T sip dip (outport r = port) (set_out dev port) s1 (fun _ => eq_refl) Hw1) as (u & q & s' & E & _). eauto.
Qed.

(** The port of the source is known *)
Definition in_port (T : topology) (sip : str) : option str :=
  ip ← switch_idx_to_ip T (src_switch T sip);
  idx ← server_ip_to_if T sip;
  idx_to_ifname T ip idx.

(** What a change of the route of a pair may touch *)
Definition moved (sip dip : str) (s s' : sdn) : Prop := pair_only sip dip (set_seq (seq s') s) s'.

Lemma save_if T sip dip (u : bool) s :
  let s' := if u then save_route_in_links T sip dip s else s in
  pair_only sip dip s s' /\ route_of sip dip s' = (if u then set_del false (route_of sip dip s) else route_of sip dip s).
Proof. destruct u; [apply save_route_kept|by split]. Qed.

Lemma fresh_install T sip dip (tmp : list (str * str)) s (dd port : str) :
  let r := route_of sip dip s in
  last tmp = Some (dd, port) -> port <> [] -> switch_idx_to_name T (src_switch T dip) = Some dd ->
  r_seq r = -1 -> pass r = [] -> outport r = [] -> is_Some (in_port T sip) -> 1 <= seq s < 2 ^ 31 - 1 ->
  exists s', install T sip dip (src_switch T sip) (src_switch T dip) tmp s = Ret (true, [], s') /\
    route_path (route_of sip dip s') = tmp /\ route_entry_ok T dip (route_of sip dip s') /\ r_seq (route_of sip dip s') = seq s /\
    seq s' = seq s + 1 /\ moved sip dip s s'.
Proof.
  intros r Hl Hp Hd Hq Hpa Ho [ifn Hin] Hs. unfold install. fold r. rewrite Hq, Z.eqb_refl, Hd. unfold in_port in Hin.
  destruct (switch_idx_to_ip T _) as [ip|] eqn:Eip; [|done]. simpl in Hin. destruct (server_ip_to_if T sip) as [idx|]; [|done]. simpl in Hin.
  assert (exists dev, switch_idx_to_name T (src_switch T sip) = Some dev) as [dev ->].
  { unfold switch_idx_to_ip, switch_idx_to_name in *. destruct (nodes T !! src_switch T sip) as [x|]; [by exists x.1|done]. }
  simpl. rewrite Hin, Hl. simpl. rewrite !route_of_put. simpl. rewrite Ho, decide_True by done. simpl. rewrite Hpa. simpl.
  set (s1 := put_route _ _ _ (put_route _ _ _ _)). destruct (save_route_kept T sip dip s1) as [K R].
  eexists. split; [done|]. rewrite R. replace (route_of sip dip s1) with (mk_route (seq s) false (r_tm r) dev ifn dd port (take (length tmp - 1) tmp)) by (unfold s1; by rewrite route_of_put). split_and!.
  - unfold route_path. simpl. by apply take_last.
  - right. simpl. split_and!; try done. lia.
  - done.
  - etransitivity; [apply (kp_seq _ _ _ _ K)|]. simpl. rewrite s32_small; lia.
  - unfold moved. rewrite (kp_seq _ _ _ _ K). etransitivity; [|exact K]. unfold s1. simpl.
    etransitivity; [|apply kept_put]. etransitivity; [|apply kept_put]. apply kept_put.
Qed.

Lemma install_stages T sip dip s0 d0 tmp s dd port :
  r_seq (route_of sip dip s) <> -1 -> switch_idx_to_name T d0 = Some dd -> last tmp = Some (dd, port) ->
  install T sip dip s0 d0 tmp s =
    (a <~ pass_stage T sip dip tmp s;
     b <~ out_stage T sip dip dd port a.2;
     Ret (a.1.1 || b.1.1, a.1.2 ++ b.1.2, if a.1.1 || b.1.1 then save_route_in_links T sip dip b.2 else b.2)).
Proof.
  intros Hq Hd Hl. unfold install. destruct (Z.eqb_spec (r_seq (route_of sip dip s)) (-1)) as [|_]; [done|]. fold (pass_stage T sip dip tmp s).
  destruct (pass_stage T sip dip tmp s) as [[[u1 q1] s1]| |]; simpl; try done. rewrite Hd, Hl. simpl. fold (out_stage T sip dip dd port s1).
  by destruct (out_stage T sip dip dd port s1) as [[[u2 q2] s2]| |].
Qed.

Lemma next_install T sip dip (tmp : list (str * str)) s (dd port : str) s0 u q s' :
  let r := route_of sip dip s in
  last tmp = Some (dd, port) -> port <> [] -> switch_idx_to_name T (src_switch T dip) = Some dd ->
  route_entry_ok T dip r -> r_seq r <> -1 -> install T sip dip s0 (src_switch T dip) tmp s = Ret (u, q, s') ->
  route_path (route_of sip dip s') = tmp /\ route_entry_ok T dip (route_of sip dip s') /\ r_seq (route_of sip dip s') = r_seq r /\
  (u = false <-> route_path r = tmp) /\ q = (if u then [ReqDelete (r_seq r)] else []) /\ pair_only sip dip s s'.
Proof.
  intros r Hl Hp Hd [?|(Hq & Hdel & Ho & Hod)] Hne E; [naive_solver|]. rewrite (install_stages _ _ _ _ _ _ _ dd port) in E by done.
  destruct (pass_stage T sip dip tmp s) as [[[u1 q1] s1]| |] eqn:E1; try done. simpl in E.
  destruct (out_stage T sip dip dd port s1) as [[[u2 q2] s2]| |] eqn:E2; try done. simpl in E. injection E as <- <- <-.
  apply pass_stage_spec in E1 as (K1 & R1 & U1 & Q1); [|by intros ->]. fold r in R1, U1, Q1. assert (Hod' : outdev r = dd) by congruence.
  apply out_stage_spec in E2 as (K2 & R2 & U2 & Q2); [|rewrite R1; by destruct u1|rewrite R1; destruct u1; exact Ho].
  destruct (save_if T sip dip (u1 || u2) s2) as [K3 R3]. rewrite R3, R2, R1. pose proof (take_last _ _ Hl) as Ht. split_and!.
  - etransitivity; [|exact Ht]. by destruct u1, u2.
  - right. split_and!; [by destruct u1, u2|by destruct u1, u2|by destruct u1, u2|]. rewrite Hd. by destruct u1, u2.
  - by destruct u1, u2.
  - rewrite orb_false_iff, U1, U2, R1. unfold route_path. rewrite Hod'. split.
    + intros [Hpa Hop]. rewrite Hpa. etransitivity; [|exact Ht]. do 3 f_equal. by destruct u1.
    + intros Hpa. rewrite <- Ht in Hpa at 1. apply app_inj_tail in Hpa as [Hpa [= <-]]. split; [done|]. by destruct u1.
  - rewrite Q1, Q2, R1. destruct u1, u2; simpl; by rewrite ?Hdel.
  - transitivity s1; [done|]. transitivity s2; [done|done].
Qed.

Lemma next_install_total T sip dip (tmp : list (str * str)) s (dd port : str) s0 :
  let r := route_of sip dip s in
  last tmp = Some (dd, port) -> switch_idx_to_name T (src_switch T dip) = Some dd ->
  route_entry_ok T dip r -> r_seq r <> -1 -> withdrawable T sip dip s ->
  exists x, install T sip dip s0 (src_switch T dip) tmp s = Ret x.
Proof.
  intros r Hl Hd [?|(Hq & Hdel & Ho & Hod)] Hne Hw; [naive_solver|]. rewrite (install_stages _ _ _ _ _ _ _ dd port) by done.
  assert (Hnil : tmp <> []) by (by intros ->). destruct (pass_stage_total T sip dip tmp s Hnil Hw) as (u1 & q1 & s1 & E1 & W1).
  rewrite E1. simpl. apply pass_stage_spec in E1 as (_ & R1 & _); [|done]. fold r in R1.
  destruct (out_stage_total T sip dip dd port s1) as [x E2]; [rewrite R1; destruct u1; simpl; congruence|rewrite R1; destruct u1; exact Ho|done|].
  rewrite E2. simpl. eauto.
Qed.

(** * The route of a pair *)

Lemma index_of_lt f (l : list (str * str)) i : l <> [] -> (index_of i f l < i + length l)%nat.
Proof.
  revert i. induction l as [|x l IH]; intros i Hl; [done|]. simpl. destruct (f x); [lia|].
  destruct l as [|y l]; [simpl; lia|]. specialize (IH (S i) ltac:(done)). simpl in *. lia.
Qed.

Lemma switches_in T a b : src_switch T a <> src_switch T b -> (src_switch T a < n_switch T)%nat /\ (src_switch T b < n_switch T)%nat.
Proof.
  unfold src_switch, switch_name_to_idx, n_switch. intros H. destruct (decide (nodes T = [])) as [E|E]; [by rewrite E in H|].
  split; by apply (index_of_lt _ _ 0).
Qed.

Lemma walk_end T s x es d (l : list (str * str)) :
  link_walk T s x es d -> x <> d -> Forall2 (hop T s) es l ->
  exists b p, last l = Some (b, p) /\ switch_idx_to_name T d = Some b /\ exists a p1, (p1, p) ∈ ports (links_of a b s).
Proof.
  intros Hw Hne Hf. destruct Hw as [|es i j k _ Hl]; [done|]. apply Forall2_app_inv_l in Hf as (l1 & l2 & _ & Hf & ->).
  apply Forall2_cons_inv_l in Hf as (h & l3 & (a & b & lk & _ & Eb & El & ->) & Hf & ->). apply Forall2_nil_inv_l in Hf as ->.
  exists b, (port2 lk). rewrite last_snoc. split_and!; try done. exists a, (port1 lk). unfold ports.
  apply list_elem_of_fmap. exists lk. split; [done|]. by eapply list_elem_of_lookup_2.
Qed.

Lemma kept_moved sip dip s s' : pair_only sip dip s s' -> moved sip dip s s'.
Proof. intros K. unfold moved. rewrite (kp_seq _ _ _ _ K). destruct s. exact K. Qed.

Lemma moved_ok T sip dip s s' :
  sdn_ok T s -> moved sip dip s s' -> route_entry_ok T dip (route_of sip dip s') -> seq s <= seq s' -> sdn_ok T s'.
Proof.
  intros [H1 H2 H3 H4 H5] [] He Hs. split.
  - intros a b. rewrite kp_tx. apply H1.
  - intros a b. destruct (decide ((a, b) = (sip, dip))) as [[= -> ->]|Hne]; [done|]. rewrite kp_routes by done. apply H2.
  - intros a b p. rewrite kp_ports. apply H3.
  - lia.
  - rewrite kp_n, kp_list. apply H5.
Qed.

(** A first route needs the port of its source *)
Lemma install_in_port T sip dip d0 tmp s x :
  r_seq (route_of sip dip s) = -1 -> install T sip dip (src_switch T sip) d0 tmp s = Ret x -> is_Some (in_port T sip).
Proof.
  intros Hq. unfold install, in_port. rewrite Hq. simpl. destruct (switch_idx_to_name T _) as [dev|]; [|done].
  simpl. destruct (switch_idx_to_ip T _) as [ip|]; [|done]. simpl. destruct (server_ip_to_if T sip) as [idx|]; [|done]. simpl.
  destruct (idx_to_ifname T ip idx) as [ifn|]; [|done]. eauto.
Qed.

(** Storing a path, whatever the entry holds *)
Lemma install_spec T sip dip (tmp : list (str * str)) s (dd port : str) u q s' :
  let r := route_of sip dip s in
  sdn_ok T s -> seq s < 2 ^ 31 - 1 -> last tmp = Some (dd, port) -> port <> [] -> switch_idx_to_name T (src_switch T dip) = Some dd ->
  install T sip dip (src_switch T sip) (src_switch T dip) tmp s = Ret (u, q, s') ->
  route_path (route_of sip dip s') = tmp /\ (u = false <-> r_seq r <> -1 /\ route_path r = tmp) /\
  q = (if u && negb (r_seq r =? -1) then [ReqDelete (r_seq r)] else []) /\
  sdn_ok T s' /\ moved sip dip s s' /\ r_seq (route_of sip dip s') <> -1 /\ seq s' <= seq s + 1.
Proof.
  intros r Hok Hs Hl Hp Hd E. pose proof (ok_routes _ _ Hok sip dip) as He. fold r in He. pose proof (ok_seq _ _ Hok) as H1.
  destruct (Z.eqb_spec (r_seq r) (-1)) as [Hq|Hq].
  - destruct He as [(_ & Hpa & Ho)|(? & _)]; [|lia]. pose proof (install_in_port _ _ _ _ _ _ _ Hq E) as Hin.
    destruct (fresh_install T sip dip tmp s dd port Hl Hp Hd Hq Hpa Ho Hin ltac:(lia)) as (s1 & E' & P & He' & Q & S & M).
    rewrite E' in E. injection E as <- <- <-. split_and!; try done; [naive_solver|by eapply moved_ok; eauto; lia|lia|lia].
  - destruct (next_install T sip dip tmp s dd port _ _ _ _ Hl Hp Hd He Hq E) as (P & He' & Q & U & -> & K). fold r in U, Q.
    pose proof (kp_seq _ _ _ _ K).
    split_and!; try done; [naive_solver|by destruct u|eapply moved_ok; [done|by apply kept_moved|done|lia]|by apply kept_moved| |lia]. by rewrite Q.
Qed.

Lemma install_total T sip dip (tmp : list (str * str)) s (dd port : str) :
  let r := route_of sip dip s in
  sdn_ok T s -> seq s < 2 ^ 31 - 1 -> is_Some (in_port T sip) -> (r_seq r <> -1 -> withdrawable T sip dip s) ->
  last tmp = Some (dd, port) -> port <> [] -> switch_idx_to_name T (src_switch T dip) = Some dd ->
  exists x, install T sip dip (src_switch T sip) (src_switch T dip) tmp s = Ret x.
Proof.
  intros r Hok Hs Hin Hw Hl Hp Hd. pose proof (ok_routes _ _ Hok sip dip) as He. fold r in He. pose proof (ok_seq _ _ Hok) as H1.
  destruct (Z.eqb_spec (r_seq r) (-1)) as [Hq|Hq].
  - destruct He as [(_ & Hpa & Ho)|(? & _)]; [|lia].
    destruct (fresh_install T sip dip tmp s dd port Hl Hp Hd Hq Hpa Ho Hin ltac:(lia)) as (s1 & E' & _). eauto.
  - by apply (next_install_total _ _ _ _ _ dd port); auto.
Qed.


(** ** When it does not return *)


(** * Steps *)

Lemma trace_last T s fuel x pre sw idx l :
  sw <> x -> trace T s fuel x pre sw idx = Ret l ->
  exists b p l', l = (b, p) :: l' /\ switch_idx_to_name T sw = Some b /\ exists a p1, (p1, p) ∈ ports (links_of a b s).
Proof.
  intros Hne. destruct fuel; simpl; rewrite decide_False by done; [done|]. destruct (pre !! sw) as [p|]; [|done]. simpl.
  destruct (switch_idx_to_name T sw) as [b|]; [|done]. simpl. destruct (switch_idx_to_name T p.1) as [a|]; [|done]. simpl.
  destruct (links_of a b s !! idx) as [lk|] eqn:El; [|done]. simpl. destruct (pre !! p.1) as [q|]; [|done]. simpl.
  destruct (trace _ _ _ _ _ _ _) as [rest| |]; try done. intros [= <-]. exists b, (port2 lk), rest. split_and!; try done.
  exists a, (port1 lk). apply list_elem_of_fmap. exists lk. split; [done|]. by eapply list_elem_of_lookup_2.
Qed.

Lemma find_path_last T s sip dip fuel x d tmp :
  x <> d -> find_path T s sip dip fuel x d = Ret tmp ->
  exists b p, last tmp = Some (b, p) /\ switch_idx_to_name T d = Some b /\ exists a p1, (p1, p) ∈ ports (links_of a b s).
Proof.
  intros Hne. unfold find_path. destruct (search _ _ _ _ _ _ _ _) as [pre| |]; try done. simpl.
  destruct (pre !! d) as [q|]; [|done]. simpl. destruct (trace _ _ _ _ _ _ _) as [l| |] eqn:E; try done. simpl. intros [= <-].
  apply trace_last in E as (b & p & l' & -> & Hb & Hp); [|done]. exists b, p. by rewrite reverse_cons, last_snoc.
Qed.

(** Whenever [get_route] returns *)
Lemma get_route_spec fuel T sip dip s u q s' :
  sdn_ok T s -> seq s < 2 ^ 31 - 1 -> get_route fuel T sip dip s = Ret (u, q, s') ->
  sdn_ok T s' /\ moved sip dip s s' /\ seq s' <= seq s + 1 /\ (u = true -> r_seq (route_of sip dip s') <> -1) /\
  q = (if u && negb (r_seq (route_of sip dip s) =? -1) then [ReqDelete (r_seq (route_of sip dip s))] else []).
Proof.
  intros Hok Hs E. unfold get_route in E. fold (src_switch T sip) (src_switch T dip) in E.
  destruct (Nat.eqb_spec (src_switch T sip) (src_switch T dip)) as [Heq|Hne].
  - injection E as <- <- <-. split; [done|]. split; [apply kept_moved; reflexivity|]. split; [lia|]. done.
  - destruct (find_path _ _ _ _ _ _ _) as [tmp| |] eqn:Ef; try done. simpl in E.
    apply find_path_last in Ef as (b & p & Hl & Hb & a & p1 & Hport); [|done].
    apply (install_spec T sip dip tmp s b p u q s' Hok Hs Hl (ok_ports _ _ Hok _ _ _ Hport) Hb) in E as (_ & _ & -> & H1 & H2 & H3 & H4). done.
Qed.

(** The list of policy routes grows by one: the entry is in force, so [add_route] takes nothing
    off, however long the list is *)
Lemma add_route_spec T sip dip now s :
  sdn_ok T s -> r_seq (route_of sip dip s) <> -1 ->
  exists s', add_route sip dip now s = Some s' /\ sdn_ok T s' /\ route_nodes s' = route_nodes s ++ [(sip, dip, now)] /\
    n_route s' = n_route s + 1 /\ txRates s' = txRates s /\ time_rate_update s' = time_rate_update s /\ seq s' = seq s.
Proof.
  intros Hok Hq. pose proof Hok as [H1 H2 H3 H4 H5]. unfold add_route. pose proof (H2 sip dip) as [?|(Hq' & Hdel & Ho & Hd)]; [naive_solver|].
  set (l := if n_route s =? 0 then _ else _). assert (Hl : l = Some (route_nodes s)).
  { unfold l. rewrite Hdel. destruct (Z.eqb_spec (n_route s) 0) as [E|]; [|by destruct (route_max <=? n_route s)].
    destruct (route_nodes s); [done|simpl in H5; lia]. }
  rewrite Hl. simpl. eexists. split; [done|]. split_and!; try done. split; try done.
  - intros a b. destruct (decide ((a, b) = (sip, dip))) as [[= -> ->]|Hne]; [rewrite route_of_put; right; done|].
    rewrite route_of_put_ne by done. apply H2.
  - simpl. rewrite length_app. simpl. lia.
Qed.

(** The pairs whose routes a list of requests saves *)
Definition saved (q : list request) : list (str * str) :=
  omap (fun x => match x with ReqSave _ sip dip => Some (sip, dip) | ReqDelete _ => None end) q.

Lemma update_pair_spec fuel T now sip dip s q s' :
  sdn_ok T s -> seq s < 2 ^ 31 - 1 -> update_pair fuel T now sip dip s = Ret (q, s') ->
  sdn_ok T s' /\ txRates s' = txRates s /\ time_rate_update s' = time_rate_update s /\ seq s' <= seq s + 1 /\
  exists new, route_nodes s' = route_nodes s ++ new /\ fst <$> new = saved q.
Proof.
  intros Hok Hs. unfold update_pair. destruct (get_route fuel T sip dip s) as [[[u q1] s1]| |] eqn:E; try done. simpl.
  apply get_route_spec in E as (Hok1 & M & Hs1 & Hu & ->); [|done|done]. set (dels := if u && _ then _ else _).
  assert (Hd : saved dels = []) by (unfold dels; by destruct (u && _)). destruct u.
  - destruct (add_route_spec T sip dip now s1 Hok1 (Hu eq_refl)) as (s2 & -> & Hok2 & Hr & _ & Ht & Hc & Hs2). simpl. intros [= <- <-].
    split_and!; [done|rewrite Ht; apply (kp_tx _ _ _ _ M)|rewrite Hc; apply (kp_ru _ _ _ _ M)|lia|]. exists [(sip, dip, now)]. rewrite Hr, (kp_list _ _ _ _ M).
    split; [done|]. unfold saved in *. by rewrite omap_app, Hd.
  - intros [= <- <-]. split_and!; [done|apply (kp_tx _ _ _ _ M)|apply (kp_ru _ _ _ _ M)|lia|]. exists []. rewrite app_nil_r, Hd. split; [apply (kp_list _ _ _ _ M)|done].
Qed.

Lemma update_pairs_spec fuel T clock l s q s' :
  sdn_ok T s -> seq s + Z.of_nat (length l) < 2 ^ 31 - 1 -> update_pairs fuel T clock l s = Ret (q, s') ->
  sdn_ok T s' /\ txRates s' = txRates s /\ time_rate_update s' = time_rate_update s /\
  exists new, route_nodes s' = route_nodes s ++ new /\ fst <$> new = saved q.
Proof.
  revert s q s'. induction l as [|[sip dip] l IH]; intros s q s' Hok Hs; simpl.
  { intros [= <- <-]. split_and!; [done|done|done|]. exists []. by rewrite app_nil_r. }
  simpl in Hs. destruct (update_pair fuel T _ sip dip s) as [[q1 s1]| |] eqn:E1; try done. simpl.
  apply update_pair_spec in E1 as (Hok1 & Ht1 & Hc1 & Hs1 & new1 & Hr1 & Hn1); [|done|lia].
  destruct (update_pairs fuel T clock l s1) as [[q2 s2]| |] eqn:E2; try done. simpl. intros [= <- <-].
  apply IH in E2 as (Hok2 & Ht2 & Hc2 & new2 & Hr2 & Hn2); [|done|lia]. split_and!; [done|congruence|congruence|]. exists (new1 ++ new2).
  rewrite Hr2, Hr1, app_assoc. split; [done|]. unfold saved in *. by rewrite fmap_app, omap_app, Hn1, Hn2.
Qed.

Lemma add_rec_tables T a t1 t2 s :
  let s' := add_rec T a t1 t2 s in
  links s' = links s /\ routes s' = routes s /\ seq s' = seq s /\ route_nodes s' = route_nodes s /\ n_route s' = n_route s.
Proof.
  assert (H : forall x y f tm now s0 s1, rate_update x y f tm now s0 = Some s1 ->
    links s1 = links s0 /\ routes s1 = routes s0 /\ seq s1 = seq s0 /\ route_nodes s1 = route_nodes s0 /\ n_route s1 = n_route s0).
  { intros x y f tm now s0 s1. unfold rate_update. case_match; [done|]. by intros [= <-]. }
  simpl. unfold add_rec. destruct (negb _); [done|]. set (o := if 4096 <? am_tx a then _ else _).
  assert (Ho : match o with Some s1 => links s1 = links s /\ routes s1 = routes s /\ seq s1 = seq s /\ route_nodes s1 = route_nodes s /\ n_route s1 = n_route s | None => True end).
  { unfold o. destruct (4096 <? am_tx a); [|done]. destruct (rate_update _ _ _ _ _ _) as [s1|] eqn:E; [by apply H in E|done]. }
  destruct o as [s1|]; [|done]. destruct (4096 <? am_rx a); [|done]. destruct (rate_update _ _ _ _ _ s1) as [s2|] eqn:E; [|done].
  apply H in E as (? & ? & ? & ? & ?). simpl. destruct Ho as (? & ? & ? & ? & ?). split_and!; congruence.
Qed.

Lemma add_send_rec_tables T l s :
  let s' := add_send_rec T l s in
  links s' = links s /\ routes s' = routes s /\ seq s' = seq s /\ route_nodes s' = route_nodes s /\ n_route s' = n_route s.
Proof.
  revert s. induction l as [|[a [t1 t2]] l IH]; intros s; simpl; [done|]. destruct (bool_decide _); [done|].
  destruct (IH (add_rec T a t1 t2 s)) as (-> & -> & -> & -> & ->). apply add_rec_tables.
Qed.

(** The records of a client, read while the clock does not run backwards, and a round of route
    updates keep the tables well formed *)
Lemma records_keep_ok T l t s : sdn_ok T s -> updated_by t s -> clocked t l -> sdn_ok T (add_send_rec T l s).
Proof.
  intros Hok Hu Hc. pose proof Hok as [H1 H2 H3 H4 H5]. destruct (add_send_rec_tables T l s) as (E1 & E2 & E3 & E4 & E5).
  split; [by apply (add_send_rec_ok T l t)| | | |].
  - intros a b. unfold route_of. rewrite E2. apply H2.
  - intros a b p. unfold links_of. rewrite E1. apply H3.
  - by rewrite E3.
  - by rewrite E4, E5.
Qed.

Lemma routes_keep_ok fuel T clock s q s' :
  sdn_ok T s -> seq s + Z.of_nat (length (active s)) < 2 ^ 31 - 1 -> update_route fuel T clock s = Ret (q, s') ->
  sdn_ok T s' /\ time_rate_update s' = time_rate_update s.
Proof. intros Hok Hs E. by apply update_pairs_spec in E as (? & _ & ? & _). Qed.

(** A round of route updates never takes a policy route off the list: the list after it is
    the list before and one entry for each route saved, also when it holds [route_max] or more.
    The test of [del] in [add_route] comes after [get_route] has put the route in force. *)
Theorem policy_routes_only_grow fuel T clock s q s' :
  sdn_ok T s -> seq s + Z.of_nat (length (active s)) < 2 ^ 31 - 1 -> update_route fuel T clock s = Ret (q, s') ->
  (exists new, route_nodes s' = route_nodes s ++ new /\ fst <$> new = saved q) /\
  n_route s' = n_route s + Z.of_nat (length (saved q)).
Proof.
  intros Hok Hs E. apply update_pairs_spec in E as (Hok' & _ & _ & new & Hr & Hn); [|done|done]. split; [eauto|].
  rewrite (ok_list _ _ Hok'), (ok_list _ _ Hok), Hr, <- Hn, length_app, length_fmap. lia.
Qed.

(** * Flows that stay behind *)

Lemma mapM_erase_none f port l : Forall (fun x => port2 x <> port) l -> mapM (erase_flow f port) l = Some l.
Proof.
  intros H. induction H as [|x l Hx _ IH]; [done|]. simpl.
  assert (erase_flow f port x = Some x) as -> by (unfold erase_flow; by case_decide). simpl. by rewrite IH.
Qed.

Lemma erase_flows_other f a b port s s' x y :
  erase_flows f a b port s = Some s' -> (x, y) <> (a, b) -> links_of x y s' = links_of x y s.
Proof. unfold erase_flows. destruct (mapM _ _) as [l|]; [|done]. intros [= <-] Hne. rewrite links_set. by case_decide. Qed.

Lemma erase_flows_none f a b port s s' x y :
  Forall (fun l => port2 l <> port) (links_of a b s) -> erase_flows f a b port s = Some s' -> links_of x y s' = links_of x y s.
Proof.
  intros H. unfold erase_flows. rewrite mapM_erase_none by done. intros [= <-]. rewrite links_set. case_decide as E; [|done]. by injection E as -> ->.
Qed.

Lemma erase_flows_undefined f a b port s l :
  l ∈ links_of a b s -> port2 l = port -> (f ∉ flows l) -> erase_flows f a b port s = None.
Proof.
  intros Hl Hp Hf. unfold erase_flows. destruct (mapM _ _) as [l'|] eqn:E; [|done]. exfalso. apply mapM_Some_1 in E.
  apply list_elem_of_lookup in Hl as [i Hi]. destruct (Forall2_lookup_l _ _ _ _ _ E Hi) as (y & _ & Hy). unfold erase_flow in Hy.
  by repeat case_decide.
Qed.

(** Withdrawing a route through one more switch looks for its last link by the port at which the
    path enters that switch, not by the port at which it enters the last one: without a link of
    that port the flow stays on the last link; with one that does not carry the flow, the end
    of a vector is erased, which is undefined.  Withdrawing a direct route looks at the route of
    the source to itself and leaves every flow when that has no switch. *)
Theorem withdraw_misses_last_hop T sip dip s :
  let r := route_of sip dip s in
  (forall p s', pass r = [p] -> (map_get [] sip (server_ip_to_switch_name T), p.1) <> (p.1, outdev r) ->
     Forall (fun l => port2 l <> p.2) (links_of p.1 (outdev r) s) ->
     del_route_in_links T sip dip s = Some s' -> links_of p.1 (outdev r) s' = links_of p.1 (outdev r) s) /\
  (forall p l, pass r = [p] -> (map_get [] sip (server_ip_to_switch_name T), p.1) <> (p.1, outdev r) ->
     l ∈ links_of p.1 (outdev r) s -> port2 l = p.2 -> (sip, dip) ∉ flows l -> del_route_in_links T sip dip s = None) /\
  (forall a b s', pass r = [] -> links_of (indev r) (outdev (route_of sip sip s)) s = [] ->
     del_route_in_links T sip dip s = Some s' -> links_of a b s' = links_of a b s).
Proof.
  intros r. unfold del_route_in_links. fold r. split_and!.
  - intros p s' Hp Hne Hno. rewrite Hp. simpl. destruct (erase_flows _ _ p.1 _ s) as [s1|] eqn:E1; [|done]. simpl.
    pose proof (erase_flows_other _ _ _ _ _ _ p.1 (outdev r) E1 (not_eq_sym Hne)) as H1.
    destruct (erase_flows _ p.1 _ _ s1) as [s2|] eqn:E2; [|done]. simpl. intros [= <-].
    rewrite <- H1 in Hno |- *. exact (erase_flows_none _ _ _ _ _ _ p.1 (outdev r) Hno E2).
  - intros p l Hp Hne Hl Hpo Hf. rewrite Hp. simpl. destruct (erase_flows _ _ p.1 _ s) as [s1|] eqn:E1; [|done]. simpl.
    pose proof (erase_flows_other _ _ _ _ _ _ p.1 (outdev r) E1 (not_eq_sym Hne)) as H1.
    rewrite (erase_flows_undefined _ _ _ _ _ l); [done|by rewrite H1|done|done].
  - intros a b s' Hp Hl. rewrite Hp. destruct (erase_flows _ _ _ _ s) as [s1|] eqn:E1; [|done]. simpl. intros [= <-].
    apply (erase_flows_none _ _ _ _ _ _ a b) in E1; [done|by rewrite Hl].
Qed.

(** * Speeds *)

(** The speed of a forecast of [tx] bytes is exact, rounded down to whole bits per second and to
    the nearest double, below 2^64 / (8 * 10^9) bytes; from there on the product wraps: 2305843010
    bytes in a second count as 6 bits per second. *)
Theorem tx_speed_wraps tx dt :
  0 < dt < 2 ^ 63 -> 0 <= tx ->
  (tx * 8000000000 < 2 ^ 64 -> tx_speed tx dt = of_ll (tx * 8000000000 / dt)) /\ tx_speed 2305843010 1000000000 = of_ll 6.
Proof.
  intros Hd Ht. split; [|by vm_compute]. intros H. unfold tx_speed. rewrite !u64_small by (rewrite ?u64_small; lia). do 2 f_equal. lia.
Qed.

(** * An example: two leaves, two spines *)

Module Demo.
Definition leaf1 : str := [76; 49].
Definition leaf2 : str := [76; 50].
Definition spine1 : str := [83; 49].
Definition spine2 : str := [83; 50].
Definition host1 : str := [49].
Definition host2 : str := [50].
Definition host3 : str := [51].

Definition topo : topology :=
  let servers := get_server_list [(leaf1, [mk_server host1 [1] 100; mk_server host3 [2] 100]); (leaf2, [mk_server host2 [1] 100])] in
  mk_topo [(leaf1, [10]); (leaf2, [11]); (spine1, [12]); (spine2, [13])]
    [([10], [([1], [101]); ([2], [102])]); ([11], [([1], [101])])] servers.1 servers.2.

Definition wires : map2 (list Link) :=
  get_links [((leaf1, [201]), (spine1, [1])); ((leaf1, [202]), (spine2, [1])); ((leaf2, [201]), (spine1, [2])); ((leaf2, [202]), (spine2, [2]))].

Definition st0 : sdn := mk_sdn wires [] (set2 host3 host2 (of_ll 9000) (set2 host1 host2 (of_ll 5000) [])) [] [] 1 [] 0.
(** Without wires *)
Definition dark : sdn := set_links [] st0.

Lemma st0_ok : sdn_ok topo st0.
Proof.
  assert (Hr : forall a b, route_of a b st0 = junk) by done. split; [| | |done|done].
  - intros a b. apply (get2_all double_ok); [done|]. vm_compute. repeat constructor.
  - intros a b. left. by rewrite Hr.
  - intros a b p Hp. revert p Hp. apply Forall_forall. apply (get2_all (fun l => Forall (fun p => p.2 <> []) (ports l))); [by constructor|].
    vm_compute. repeat constructor; done.
Qed.

Lemma st0_path : exists es, link_walk topo st0 0 es 1 /\ Forall (fun e => load topo st0 host1 host2 e < rate_limit) es.
Proof.
  exists ([] ++ [(0, 2, 0)%nat] ++ [(2, 1, 0)%nat]). split; [|repeat constructor; by vm_compute].
  apply (walk_snoc _ _ _ [(0, 2, 0)%nat]); [apply (walk_snoc _ _ _ []); [constructor|]|]; unfold is_link; vm_compute; lia.
Qed.

(** Both pairs are routed, over different spines *)
Example demo_routes :
  match update_route 3 topo (fun _ _ => 7) st0 with
  | Ret (q, s) => saved q = [(host1, host2); (host3, host2)] /\
      route_path (route_of host1 host2 s) = [(spine1, [1]); (leaf2, [201])] /\
      route_path (route_of host3 host2 s) = [(spine2, [1]); (leaf2, [202])]
  | _ => False
  end.
Proof. vm_compute. done. Qed.

End Demo.
Import Demo.



Lemma policy_routes_only_grow_witness :
  match update_route 3 topo (fun _ _ => 7) st0 with Ret (q, s) => n_route s = 0 + Z.of_nat (length (saved q)) | _ => False end.
Proof.
  destruct (update_route 3 topo (fun _ _ => 7) st0) as [[q s]| |] eqn:E; [|by vm_compute in E|by vm_compute in E].
  refine (proj2 (policy_routes_only_grow 3 topo (fun _ _ => 7) st0 q s st0_ok _ E)). by vm_compute.
Defined.
