(* ===== verification/SyncWire.v ===== *)
(** Between client and controller: records as bytes, the socket loops of sync/common.hpp and the
    main loop of sync/server.cpp; from the append of a forecast to the tables of the controller.

    A socket is what its calls return, in order.  A write takes some bytes, is interrupted or
    fails; a read gives some bytes (none at the end of the stream) or fails, also when there is
    nothing yet, because the controller's sockets do not block. *)

From stdpp Require Import base numbers list.
From S2P Require Import Prelude Types Forecast FlowSync Double Server ServerProps ServerSpec.

(** * Records as bytes *)

Fixpoint le_enc (n : nat) (x : Z) : list Z :=
  match n with O => [] | S n => x mod 256 :: le_enc n (x / 256) end.
Fixpoint le_dec (l : list Z) : Z := match l with [] => 0 | b :: l => b + 256 * le_dec l end.

(** [Amount] in memory; no padding, 136 bytes *)
Definition encode (a : Amount) : list Z :=
  am_gid a ++ am_name a ++ am_ip a ++ le_enc 8 (am_tx a) ++ le_enc 8 (am_rx a) ++ le_enc 8 (am_tm a).

Definition decode (l : list Z) : Amount :=
  mk_amount (take 16 l) (take 64 (drop 16 l)) (take 32 (drop 80 l))
    (le_dec (take 8 (drop 112 l))) (le_dec (take 8 (drop 120 l))) (le_dec (take 8 (drop 128 l))).

Definition sizeof_Amount : nat := 136.
Definition amount_size : Z := Z.of_nat sizeof_Amount * FLOW_NUM.

Fixpoint decode_all (n : nat) (l : list Z) : list Amount :=
  match n with O => [] | S n => decode (take sizeof_Amount l) :: decode_all n (drop sizeof_Amount l) end.

(** * Sockets *)

Inductive wr : Type := WrOk (n : Z) | WrIntr | WrFail.
Inductive rd : Type := RdData (l : list Z) | RdErr.

(** [sock_write]: the bytes handed over, and the result ([-1] for a failure; [Hang] when the
    calls given do not reach the end).  A write takes at most what it is given. *)
Fixpoint sock_write (buf : list Z) (ws : list wr) : list Z * res Z :=
  match buf with
  | [] => ([], Ret 0)
  | _ =>
    match ws with
    | [] => ([], Hang)
    | WrOk n :: ws =>
      if n <=? 0 then ([], Ret (-1))
      else
        let k := Nat.min (Z.to_nat n) (length buf) in
        let '(out, r) := sock_write (drop k buf) ws in
        (take k buf ++ out, t <~ r; Ret (if t <? 0 then t else Z.of_nat k + t))
    | WrIntr :: ws => sock_write buf ws
    | WrFail :: _ => ([], Ret (-1))
    end
  end.

(** [sock_read]: what it has read, and the calls that are left.  A result of -1 ends the loop; the
    tests inside it for an interrupted call are never reached. *)
Fixpoint sock_read (len : Z) (rs : list rd) : list Z * list rd :=
  if len =? 0 then ([], rs)
  else
    match rs with
    | [] => ([], [])
    | RdErr :: rs => ([], rs)
    | RdData [] :: rs => ([], rs)
    | RdData l :: rs =>
      if Z.of_nat (length l) <=? len then
        let '(out, rs) := sock_read (len - Z.of_nat (length l)) rs in (l ++ out, rs)
      else (take (Z.to_nat len) l, RdData (drop (Z.to_nat len) l) :: rs)
    end.

(** * The main loop of the controller *)

(** [sock_read(fds[i], cli_amount, amount_size)] and the records [add_send_rec] gets *)
Definition receive (rs : list rd) : list Amount * list rd :=
  let '(bytes, rs) := sock_read amount_size rs in
  (decode_all (length bytes / sizeof_Amount) bytes, rs).

(** One client; [clk] is what the clock says for each record *)
Definition serve (T : topology) (clk : nat -> Z * Z) (rs : list rd) (s : sdn) : sdn * list rd :=
  let '(l, rs) := receive rs in (add_send_rec T (imap (fun i a => (a, clk i)) l) s, rs).

Fixpoint serve_clients (T : topology) (clk : nat -> nat -> Z * Z) (i : nat) (socks : list (list rd)) (s : sdn)
  : sdn * list (list rd) :=
  match socks with
  | [] => (s, [])
  | rs :: socks =>
    let '(s, rs) := serve T (clk i) rs s in
    let '(s, socks) := serve_clients T clk (S i) socks s in
    (s, rs :: socks)
  end.

(** One pass of [main]: routes once a second, then every client.  The result is [start], the
    requests sent, the tables and the sockets. *)
Definition main_pass (fuel : nat) (T : topology) (now : Z) (clock : str -> str -> Z) (clk : nat -> nat -> Z * Z)
    (start : Z) (s : sdn) (socks : list (list rd)) : res (Z * list request * sdn * list (list rd)) :=
  x <~ (if start + 1000000000 <? now then y <~ update_route fuel T clock s; Ret (now, y.1, y.2) else Ret (start, [], s));
  let '(start, q, s) := x in
  let '(s, socks) := serve_clients T clk 0 socks s in
  Ret (start, q, s, socks).

(** * Round trips *)

Definition is_u64 (x : Z) : Prop := 0 <= x < 2 ^ 64.

Record amount_wf (a : Amount) : Prop := {
  aw_gid : length (am_gid a) = 16%nat;
  aw_name : length (am_name a) = 64%nat;
  aw_ip : length (am_ip a) = 32%nat;
  aw_tx : is_u64 (am_tx a);
  aw_rx : is_u64 (am_rx a);
  aw_tm : is_u64 (am_tm a)
}.

Lemma length_le_enc n x : length (le_enc n x) = n.
Proof. revert x. induction n as [|n IH]; intros x; simpl; [done|]. by rewrite IH. Qed.

Lemma le_dec_enc n x : 0 <= x < 256 ^ Z.of_nat n -> le_dec (le_enc n x) = x.
Proof.
  revert x. induction n as [|n IH]; intros x Hx; [simpl in *; lia|]. rewrite Nat2Z.inj_succ, Z.pow_succ_r in Hx by lia. simpl.
  rewrite IH; [|split; [apply Z.div_pos; lia|apply Z.div_lt_upper_bound; lia]]. pose proof (Z.div_mod x 256 ltac:(lia)). lia.
Qed.

Lemma length_encode a : amount_wf a -> length (encode a) = sizeof_Amount.
Proof. intros []. unfold encode. rewrite !length_app, !length_le_enc, aw_gid0, aw_name0, aw_ip0. done. Qed.

(** Cutting a field out of a concatenation *)
Lemma field_at (l1 l2 l3 : list Z) n k : length l1 = n -> length l2 = k -> take k (drop n (l1 ++ l2 ++ l3)) = l2.
Proof. intros <- <-. rewrite drop_app_length. apply take_app_length. Qed.

Lemma decode_encode a : amount_wf a -> decode (encode a) = a.
Proof.
  intros [H1 H2 H3 H4 H5 H6]. unfold decode, encode. destruct a as [gid name ip tx rx tm]. simpl am_gid in *. simpl am_name in *. simpl am_ip in *.
  cbn [am_tx am_rx am_tm] in *. set (e1 := le_enc 8 tx). set (e2 := le_enc 8 rx). set (e3 := le_enc 8 tm).
  assert (L1 : length e1 = 8%nat) by apply length_le_enc. assert (L2 : length e2 = 8%nat) by apply length_le_enc.
  assert (L3 : length e3 = 8%nat) by apply length_le_enc. f_equal.
  - by apply take_app_length'.
  - by apply field_at.
  - rewrite (app_assoc gid). apply field_at; [rewrite length_app; lia|done].
  - rewrite !(app_assoc _ _ (e1 ++ e2 ++ e3)). rewrite field_at; [|rewrite !length_app; lia|done]. by apply (le_dec_enc 8).
  - rewrite !(app_assoc _ _ (e2 ++ e3)). rewrite field_at; [|rewrite !length_app; lia|done]. by apply (le_dec_enc 8).
  - rewrite !(app_assoc _ _ e3). rewrite drop_app_length' by (rewrite !length_app; lia). rewrite take_ge by lia. by apply (le_dec_enc 8).
Qed.

(** The bytes of a list of records *)
Definition bytes_of (l : list Amount) : list Z := concat (encode <$> l).

Lemma length_bytes_of l : Forall amount_wf l -> length (bytes_of l) = (sizeof_Amount * length l)%nat.
Proof.
  induction 1 as [|a l Ha _ IH]; [done|]. change (bytes_of (a :: l)) with (encode a ++ bytes_of l).
  rewrite length_app, length_encode, IH by done. simpl length. lia.
Qed.

Lemma bytes_of_app l1 l2 : bytes_of (l1 ++ l2) = bytes_of l1 ++ bytes_of l2.
Proof. unfold bytes_of. by rewrite fmap_app, concat_app. Qed.

Lemma decode_all_bytes l : Forall amount_wf l -> decode_all (length l) (bytes_of l) = l.
Proof.
  induction 1 as [|a l Ha _ IH]; [done|]. change (bytes_of (a :: l)) with (encode a ++ bytes_of l). simpl decode_all.
  rewrite take_app_length', drop_app_length', decode_encode by (done || (symmetry; by apply length_encode)). by rewrite IH.
Qed.

(** ** Writing *)

(** When no call fails, [sock_write] hands over the whole buffer, however it is cut up *)
Lemma sock_write_all buf ws :
  Forall (fun w => match w with WrOk n => 0 < n | WrIntr => True | WrFail => False end) ws ->
  match sock_write buf ws with
  | (out, Ret n) => out = buf /\ n = Z.of_nat (length buf)
  | (out, Hang) => out `prefix_of` buf
  | (_, Fault) => False
  end.
Proof.
  intros H. revert buf. induction H as [|w ws Hw _ IH]; intros [|b buf]; try done.
  { simpl. apply prefix_nil. }
  destruct w as [n| |]; [|apply IH|done]. simpl. destruct (Z.leb_spec n 0); [lia|].
  destruct (Z.to_nat n) as [|k] eqn:Ek; [lia|]. simpl. specialize (IH (drop (k `min` length buf) buf)).
  destruct (sock_write (drop (k `min` length buf) buf) ws) as [out [m| |]]; simpl.
  - destruct IH as [-> ->]. rewrite take_drop. split; [done|]. rewrite length_drop. destruct (Z.ltb_spec (Z.of_nat (length buf - k `min` length buf)) 0); lia.
  - done.
  - destruct IH as [r Hr]. exists r. simpl. f_equal. rewrite <- app_assoc, <- Hr. by rewrite take_drop.
Qed.

(** ** Reading *)

Fixpoint flat (rs : list rd) : list Z :=
  match rs with [] => [] | RdData l :: rs => l ++ flat rs | RdErr :: rs => flat rs end.

(** Between two failures there is a whole number of records, [k] bytes of which came before *)
Fixpoint framed (k : nat) (rs : list rd) : Prop :=
  match rs with
  | [] => (k mod sizeof_Amount)%nat = 0%nat
  | RdErr :: rs => (k mod sizeof_Amount)%nat = 0%nat /\ framed 0 rs
  | RdData l :: rs => l <> [] /\ framed (k + length l) rs
  end.

Lemma mod_add a b : ((a + b) mod sizeof_Amount = (a mod sizeof_Amount + b mod sizeof_Amount) mod sizeof_Amount)%nat.
Proof. apply Nat.Div0.add_mod. Qed.

Lemma framed_mod k k' rs : (k mod sizeof_Amount = k' mod sizeof_Amount)%nat -> framed k rs -> framed k' rs.
Proof.
  revert k k'. induction rs as [|[l|] rs IH]; intros k k' E; cbn [framed].
  - by rewrite E.
  - intros [Hl H]. split; [done|]. revert H. apply IH. by rewrite !(mod_add _ (length l)), E.
  - intros [H0 H]. by rewrite <- E.
Qed.

Lemma sock_read_framed rs len k out rs' :
  0 <= len -> framed k rs -> ((k + Z.to_nat len) mod sizeof_Amount)%nat = 0%nat -> sock_read len rs = (out, rs') ->
  flat rs = out ++ flat rs' /\ framed 0 rs' /\ ((k + length out) mod sizeof_Amount)%nat = 0%nat.
Proof.
  revert len k out rs'. induction rs as [|r rs IH]; intros len k out rs' Hlen Hf Hk; cbn [sock_read].
  { case_match; intros [= <- <-]; cbn [framed length] in *; rewrite Nat.add_0_r; done. }
  destruct (Z.eqb_spec len 0) as [-> |Hne].
  { intros [= <- <-]. rewrite Nat.add_0_r in *. split_and!; [done| |done]. revert Hf. apply framed_mod. by rewrite Hk. }
  destruct r as [[|b l]|]; cbn [framed] in Hf; [by destruct Hf| |].
  - destruct Hf as [_ Hf]. destruct (Z.leb_spec (Z.of_nat (length (b :: l))) len) as [Hle|Hgt]; simpl length in *.
    + destruct (sock_read _ rs) as [out1 rs1] eqn:E. intros [= <- <-]. apply (IH _ (k + S (length l))%nat) in E as (H1 & H2 & H3); [|lia|done|].
      * cbn [flat]. rewrite H1. split_and!; [by rewrite app_assoc|done|]. rewrite <- H3. cbn [length]. rewrite length_app.
        apply (f_equal (fun x => (x mod sizeof_Amount)%nat)). lia.
      * rewrite <- Hk. apply (f_equal (fun x => (x mod sizeof_Amount)%nat)). lia.
    + intros [= <- <-]. rewrite length_take. simpl length. replace (Z.to_nat len `min` S (length l))%nat with (Z.to_nat len) by lia.
      split_and!; [|split|done].
      * cbn [flat]. rewrite app_assoc, take_drop. done.
      * intros E. apply (f_equal length) in E. rewrite length_drop in E. simpl in E. lia.
      * revert Hf. apply framed_mod. rewrite length_drop. cbn [length].
        replace (k + S (length l))%nat with ((k + Z.to_nat len) + (S (length l) - Z.to_nat len))%nat by lia. by rewrite mod_add, Hk, Nat.add_0_l, Nat.Div0.mod_mod.
  - destruct Hf as [H0 Hf]. intros [= <- <-]. rewrite Nat.add_0_r. done.
Qed.

(** What is left gets smaller *)
Definition unread (rs : list rd) : nat := length rs + length (flat rs).

Lemma sock_read_pending rs len out rs' :
  0 <= len -> sock_read len rs = (out, rs') ->
  (unread rs' <= unread rs)%nat /\ (0 < len -> rs <> [] -> (unread rs' < unread rs)%nat).
Proof.
  unfold unread. revert len out rs'. induction rs as [|r rs IH]; intros len out rs' Hlen; cbn [sock_read].
  { case_match; intros [= <- <-]; (split; [lia|done]). }
  destruct (Z.eqb_spec len 0) as [-> |Hne]; [intros [= <- <-]; split; lia|].
  destruct r as [[|b l]|]; cbn [length flat app]; [intros [= <- <-]; split; lia| |intros [= <- <-]; split; lia].
  destruct (Z.leb_spec (Z.of_nat (S (length l))) len) as [Hle|Hgt].
  - destruct (sock_read _ rs) as [o r] eqn:E. intros [= <- <-]. apply IH in E as [E _]; [|lia]. rewrite length_app. split; lia.
  - intros [= <- <-]. cbn [flat length]. rewrite !length_app, length_drop. cbn [length]. split; lia.
Qed.

(** [receive] until nothing is left *)
Fixpoint receive_all (n : nat) (rs : list rd) : list Amount :=
  match n with
  | O => []
  | S n => let '(l, rs) := receive rs in l ++ receive_all n rs
  end.

Lemma cut_bytes l out rest :
  Forall amount_wf l -> bytes_of l = out ++ rest -> (length out mod sizeof_Amount = 0)%nat ->
  exists l1 l2, l = l1 ++ l2 /\ out = bytes_of l1 /\ rest = bytes_of l2 /\ (length out / sizeof_Amount = length l1)%nat.
Proof.
  intros Hl E Hm. set (m := (length out / sizeof_Amount)%nat). assert (Ho : length out = (sizeof_Amount * m)%nat).
  { pose proof (Nat.div_mod_eq (length out) sizeof_Amount). unfold m. lia. }
  clearbody m.
  pose proof (f_equal length E) as El. rewrite length_bytes_of, length_app in El by done.
  assert (Hm' : (m <= length l)%nat) by (unfold sizeof_Amount in *; lia).
  assert (H1 : length (bytes_of (take m l)) = length out).
  { rewrite length_bytes_of by (by apply Forall_take). rewrite length_take. rewrite Ho. f_equal. lia. }
  exists (take m l), (drop m l). rewrite <- (take_drop m l) in E at 1. rewrite bytes_of_app in E. apply app_inj_1 in E as [E1 E2]; [|done].
  split_and!; [by rewrite take_drop|done|done|rewrite length_take; lia].
Qed.

Lemma receive_framed rs ws l rs' :
  framed 0 rs -> flat rs = bytes_of ws -> Forall amount_wf ws -> receive rs = (l, rs') ->
  exists ws', ws = l ++ ws' /\ framed 0 rs' /\ flat rs' = bytes_of ws' /\ (rs <> [] -> (unread rs' < unread rs)%nat).
Proof.
  intros Hf Hb Hw. unfold receive. destruct (sock_read amount_size rs) as [out rs1] eqn:E. intros [<- <-]%pair_eq.
  assert (Hp : 0 < amount_size) by done. pose proof (sock_read_pending _ _ _ _ (Z.lt_le_incl _ _ Hp) E) as [_ Hpend].
  apply (sock_read_framed rs amount_size 0) in E as (H1 & H2 & H3); [|done|done|].
  - rewrite Hb in H1. destruct (cut_bytes ws out (flat rs1) Hw H1 H3) as (l1 & l2 & -> & -> & Hr & ->). exists l2.
    apply Forall_app in Hw as [Hw1 _]. rewrite decode_all_bytes by done. split_and!; auto.
  - unfold amount_size. rewrite Nat.add_0_l, Z2Nat.inj_mul, Nat2Z.id by done. rewrite Nat.mul_comm. apply Nat.Div0.mod_mul.
Qed.

Lemma receive_all_framed n rs ws :
  framed 0 rs -> flat rs = bytes_of ws -> Forall amount_wf ws -> (unread rs <= n)%nat -> receive_all n rs = ws.
Proof.
  revert rs ws. induction n as [|n IH]; intros rs ws Hf Hb Hw Hn; simpl.
  - unfold unread in Hn. assert (Hl : length (flat rs) = 0%nat) by lia. rewrite Hb, length_bytes_of in Hl by done. destruct ws; [done|].
    unfold sizeof_Amount in Hl. simpl in Hl. lia.
  - destruct (receive rs) as [l rs'] eqn:E. destruct (receive_framed rs ws l rs' Hf Hb Hw E) as (ws' & -> & Hf' & Hb' & Hp).
    apply Forall_app in Hw as [_ Hw]. f_equal. apply IH; try done. destruct rs as [|r rs].
    + vm_compute in E. injection E as <- <-. unfold unread. simpl. lia.
    + specialize (Hp ltac:(done)). lia.
Qed.

(** ** From the producer to the controller *)

(** What [flow_forecast] appends *)
Definition arg_ok (p : push_args) : Prop := is_u64 (pa_tx p) /\ is_u64 (pa_rx p) /\ is_u64 (pa_tm p).

Definition records_ok (s : SHM) : Prop := Forall amount_wf (shm_amount s).

Lemma length_strncpy dst src n : length dst = n -> length (strncpy dst src n) = n.
Proof. intros H. unfold strncpy. rewrite length_app, length_strncpy_chars, length_drop. lia. Qed.

Lemma zero_amount_wf : amount_wf zero_amount.
Proof. by split. Qed.

Lemma nth_wf i l : Forall amount_wf l -> amount_wf (nth i l zero_amount).
Proof.
  intros H. destruct (decide (i < length l)%nat) as [Hi|Hi].
  - eapply Forall_forall; [exact H|]. by apply list_elem_of_In, nth_In.
  - rewrite nth_overflow by lia. apply zero_amount_wf.
Qed.

Lemma fill_ip_wf n a : amount_wf a -> amount_wf (fill_ip n a).
Proof. intros []. split; try done. simpl. by apply length_strncpy. Qed.

Lemma push_records_ok p s : arg_ok p -> records_ok s -> records_ok (push p s).
Proof.
  intros (H1 & H2 & H3) H. apply Forall_insert; [done|]. destruct (nth_wf (Z.to_nat (shm_h s)) _ H). split; try done; by apply length_strncpy.
Qed.

Lemma fill_range_ok n i k l : Forall amount_wf l -> Forall amount_wf (fill_range n i k l).
Proof.
  revert i l. induction k as [|k IH]; intros i l H; simpl; [done|]. apply IH, Forall_insert; [done|]. by apply fill_ip_wf, nth_wf.
Qed.

Lemma slice_ok i j l : Forall amount_wf l -> Forall amount_wf (slice i j l).
Proof. intros H. by apply Forall_take, Forall_drop. Qed.

#[local] Hint Resolve fill_range_ok slice_ok : core.

Lemma drain_records_ok n s : records_ok s -> Forall amount_wf (client_drain n s).1 /\ records_ok (client_drain n s).2.
Proof.
  unfold records_ok. intros H. unfold client_drain, drain_up. repeat (case_match; simplify_eq/=; auto).
  split; [apply Forall_app; split; auto 6|auto 6].
Qed.

Lemma run_ops_ok n ops s :
  Forall arg_ok (pushes ops) -> records_ok s ->
  Forall amount_wf (run_ops (qpush := push) (qdrain := client_drain n) ops s).1.
Proof.
  revert s. induction ops as [|[p|] ops IH]; intros s Ha Hs; simpl; [done| |].
  - simpl in Ha. apply Forall_cons in Ha as [Hp Ha]. apply IH; [done|by apply push_records_ok].
  - destruct (drain_records_ok n s Hs) as [H1 H2]. destruct (client_drain n s) as [w s1]. simpl in *. specialize (IH s1 Ha H2).
    destruct (run_ops ops s1) as [ws s2]. simpl in *. apply Forall_app. by split.
Qed.


(** A read that finds nothing in the middle of a record loses the bytes before it: the record
    after it is put together from the ends of two, and so are all that follow. *)
Theorem split_record_lost a b k rest :
  amount_wf a -> amount_wf b -> (0 < k < sizeof_Amount)%nat ->
  exists rs, receive (RdData (take k (encode a)) :: RdErr :: RdData (drop k (encode a) ++ encode b) :: RdErr :: rest) = ([], rs) /\
    receive rs = ([decode (drop k (encode a) ++ take k (encode b))], rest).
Proof.
  intros Ha Hb Hk. pose proof (length_encode a Ha) as La. pose proof (length_encode b Hb) as Lb. unfold sizeof_Amount in *.
  assert (H1 : forall l rs, (0 < length l < 272)%nat -> sock_read amount_size (RdData l :: RdErr :: rs) = (l, rs)).
  { intros [|x l] rs Hl; [simpl in Hl; lia|]. change amount_size with 1360000. cbn [sock_read].
    destruct (Z.leb_spec (Z.of_nat (length (x :: l))) 1360000); [|lia].
    destruct (Z.eqb_spec (1360000 - Z.of_nat (length (x :: l))) 0); [lia|]. by rewrite app_nil_r. }
  eexists. unfold receive, sizeof_Amount. rewrite H1 by (rewrite length_take; lia). rewrite length_take.
  replace (k `min` length (encode a))%nat with k by lia. rewrite Nat.div_small by lia. split; [done|].
  rewrite H1 by (rewrite length_app, length_drop; lia). rewrite length_app, length_drop, La, Lb.
  replace ((136 - k + 136) / 136)%nat with 1%nat by (apply (Nat.div_unique _ _ _ (136 - k)); lia).
  simpl decode_all. unfold sizeof_Amount. rewrite take_app_ge by (rewrite length_drop; lia). rewrite length_drop, La. do 5 f_equal. lia.
Qed.

(** ** The main loop *)

(** The clock as the loop reads it: for each client from [base i] on, in order *)
Record clock_ok (base : nat -> Z) (clk : nat -> nat -> Z * Z) : Prop := {
  ck_first : forall i j, base i <= (clk i j).1 <= (clk i j).2;
  ck_next : forall i j, (clk i j).2 <= (clk i (S j)).1;
  ck_base : forall i j, (clk i j).2 <= base (S i);
  ck_mono : forall i, base i <= base (S i) < 2 ^ 63
}.

Lemma imap_clocked base clk i l k t :
  clock_ok base clk -> base i <= t < 2 ^ 63 -> t <= (clk i k).1 -> clocked t (imap (fun j a => (a, clk i (k + j)%nat)) l).
Proof.
  intros Hc. revert k t. induction l as [|a l IH]; intros k t Ht Hk; simpl; [lia|]. rewrite Nat.add_0_r.
  pose proof (ck_first _ _ Hc i k). pose proof (ck_base _ _ Hc i k). pose proof (ck_mono _ _ Hc i).
  destruct (clk i k) as [t1 t2] eqn:E. simpl in *. split_and!; try lia.
  replace (imap _ l) with (imap (fun j a => (a, clk i (S k + j)%nat)) l) by (apply imap_ext; intros j x _; simpl; do 2 f_equal; lia).
  apply IH; [lia|]. pose proof (ck_next _ _ Hc i k) as Hn. by rewrite E in Hn.
Qed.

Lemma records_updated T l t B s :
  rates_ok s -> updated_by t s -> clocked t l -> Forall (fun x => x.2.2 <= B) l -> t <= B -> updated_by B (add_send_rec T l s).
Proof.
  revert t s. induction l as [|[a [t1 t2]] l IH]; intros t s Hr Hu Hc HB Ht; simpl; [by apply (updated_later t)|].
  destruct Hc as (H1 & H2 & H3). apply Forall_cons in HB as [HB1 HB]. simpl in HB1. destruct (bool_decide _); [by apply (updated_later t)|].
  destruct (add_rec_ok T a t t1 t2 s Hr Hu H1 H2) as [Hr' Hu']. by apply (IH t2).
Qed.

Lemma serve_clients_ok T base clk socks i s :
  clock_ok base clk -> sdn_ok T s -> updated_by (base i) s -> sdn_ok T (serve_clients T clk i socks s).1.
Proof.
  intros Hc. revert i s. induction socks as [|rs socks IH]; intros i s Hok Hu; simpl; [done|].
  unfold serve. destruct (receive rs) as [l rs']. set (s1 := add_send_rec T _ s).
  pose proof (ck_first _ _ Hc i 0) as H0. pose proof (ck_mono _ _ Hc i) as Hm.
  assert (Hcl : clocked (base i) (imap (fun j a => (a, clk i j)) l)) by (apply (imap_clocked base clk i l 0); [done|lia|lia]).
  assert (H1 : sdn_ok T s1) by (by apply (records_keep_ok T _ (base i))).
  assert (H2 : updated_by (base (S i)) s1).
  { apply (records_updated T _ (base i)); [apply (ok_rates _ _ Hok)|done|done| |lia]. apply Forall_forall. intros x Hx.
    apply list_elem_of_lookup in Hx as [j Hj]. rewrite list_lookup_imap in Hj. destruct (l !! j); [|done]. injection Hj as <-. apply (ck_base _ _ Hc). }
  specialize (IH (S i) s1 H1 H2). by destruct (serve_clients T clk (S i) socks s1).
Qed.

(** C36. A pass of the controller's main loop that returns keeps its tables well formed,
    whatever the clients send: every rate is a number that is not negative (never NaN and never
    -0; +infinity is possible), every entry of the routes is fresh or holds a route in force that
    ends at the switch of its destination, ports have names, sequence numbers are positive and the
    count of policy routes is the length of their list. *)
Theorem main_pass_tables_ok fuel T now clock clk base start s socks x :
  sdn_ok T s -> updated_by (base 0%nat) s -> clock_ok base clk -> seq s + Z.of_nat (length (active s)) < 2 ^ 31 - 1 ->
  main_pass fuel T now clock clk start s socks = Ret x -> sdn_ok T x.1.2.
Proof.
  intros Hok Hu Hc Hs. unfold main_pass.
  assert (H : forall start' q s1, sdn_ok T s1 -> updated_by (base 0%nat) s1 ->
    (let '(s, socks) := serve_clients T clk 0 socks s1 in Ret (start', q, s, socks)) = Ret x -> sdn_ok T x.1.2).
  { intros start' q s1 H1 H2. pose proof (serve_clients_ok T base clk socks 0 s1 Hc H1 H2) as H.
    destruct (serve_clients T clk 0 socks s1) as [s2 socks']. by intros [= <-]. }
  destruct (_ <? now); simpl; [|by apply H]. destruct (update_route fuel T clock s) as [[q s1]| |] eqn:E; try done. simpl.
  apply routes_keep_ok in E as [H1 H2]; [|done|done]. apply H; [done|]. intros a b. rewrite H2. apply Hu.
Qed.

(** * An example *)

Module WireDemo.
(** Two forecasts, written by two passes of the client and read in two pieces *)
Definition sent : list Amount := (run_ops (qpush := push) (qdrain := client_drain (fun _ => [])) push_ab shm_init).1.
Definition stream : list rd := [RdData (take 100 (bytes_of sent)); RdData (drop 100 (bytes_of sent)); RdErr].

End WireDemo.
Import WireDemo.


(** A pass that updates the routes and serves one client *)
Lemma main_pass_tables_ok_witness :
  match main_pass 3 Demo.topo 2000000000 (fun _ _ => 7) (fun _ _ => (10, 10)) 0 Demo.st0 [stream] with
  | Ret x => sdn_ok Demo.topo x.1.2
  | _ => False
  end.
Proof.
  destruct (main_pass 3 Demo.topo 2000000000 (fun _ _ => 7) (fun _ _ => (10, 10)) 0 Demo.st0 [stream]) as [x| |] eqn:E;
    [|by vm_compute in E|by vm_compute in E].
  refine (main_pass_tables_ok 3 Demo.topo 2000000000 (fun _ _ => 7) (fun _ _ => (10, 10)) (fun _ => 10) 0 Demo.st0 [stream] x Demo.st0_ok _ _ _ E).
  - intros a b. change (0 <= 0 <= 10). lia.
  - split; intros; simpl; lia.
  - by vm_compute.
Defined.
