(* ===== verification/IntervalSet.v ===== *)
(** Sets of ranges of addresses (util/interval_set.c), the free I/O addresses of a device driven
    from user space.  The list is the linked list of ranges in its order; each call runs under the
    mutex of the set, so it is one step. *)

From stdpp Require Import base numbers list.
From S2P Require Import Prelude Types.

Definition ENOSPC : Z := 28.

Record iset_range := IR { r_start : Z; r_length : Z }.
Abbreviation iset := (list iset_range).

#[export] Instance iset_range_eq_dec : EqDecision iset_range.
Proof. solve_decision. Defined.

(** [iset_create], with the answer of [calloc] *)
Definition iset_create (got : bool) : option iset := if got then Some [] else None.

Definition range_overlap (s1 len1 s2 len2 : Z) : bool :=
  if ((s1 <? s2) && (u64 (s1 + len1 - 1) <? s2)) || ((s2 <? s1) && (u64 (s2 + len2 - 1) <? s1))
  then false else true.

(** [create_range], with the answer of [calloc] *)
Definition create_range (start length : Z) (got : bool) : option iset_range :=
  if got then Some (IR start length) else None.

(** [check_do_combine]: [p] and [n] are the places in the list of the neighbours, where there are any *)
Definition check_do_combine (l : iset) (p n : option nat) (start length : Z) : iset * bool :=
  let '(l, combined2prev) :=
    match p with
    | Some i =>
      match l !! i with
      | Some r =>
        if u64 (r.(r_start) + r.(r_length)) =? start
        then (<[i := IR r.(r_start) (u64 (r.(r_length) + length))]> l, true) else (l, false)
      | None => (l, false)
      end
    | None => (l, false)
    end in
  match n with
  | Some j =>
    match l !! j with
    | Some rn =>
      if u64 (start + length) =? rn.(r_start) then
        if combined2prev then
          match p with
          | Some i =>
            (delete j (alter (fun r => IR r.(r_start) (u64 (r.(r_length) + rn.(r_length)))) i l), true)
          | None => (l, true)
          end
        else (<[j := IR start (u64 (rn.(r_length) + length))]> l, true)
      else (l, combined2prev)
    | None => (l, combined2prev)
    end
  | None => (l, combined2prev)
  end.

(** The loop of [iset_insert_range]: [inl tt] is a range that overlaps, [inr (prev, r)] the places
    of the last range below and of the first one above *)
Fixpoint insert_scan (l : iset) (i : nat) (prev : option nat) (start length : Z) : unit + option nat * option nat :=
  match l with
  | [] => inr (prev, None)
  | r :: l =>
    if range_overlap r.(r_start) r.(r_length) start length then inl tt
    else if start <? r.(r_start) then inr (prev, Some i)
    else insert_scan l (S i) (Some i) start length
  end.

(** [list_add_before] the element at [i] *)
Definition list_add_before {A} (l : list A) (i : nat) (x : A) : list A := take i l ++ x :: drop i l.

Definition iset_insert_range (l : iset) (start length : Z) (got : bool) : Z * iset :=
  if (length =? 0) || (u64 (start + length - 1) <? start) then (EINVAL, l)
  else
    match insert_scan l 0 None start length with
    | inl _ => (EINVAL, l)
    | inr (prev, r) =>
      let '(l, combined) := check_do_combine l prev r start length in
      if combined then (0, l)
      else
        match create_range start length got with
        | None => (ENOMEM, l)
        | Some rnew => (0, match r with None => l ++ [rnew] | Some i => list_add_before l i rnew end)
        end
    end.

Definition power_of_two (x : Z) : bool := negb (x =? 0) && (Z.land x (u64 (x - 1)) =? 0).

(** The loop of [iset_alloc_range]: the place and the range found, and the aligned address in it *)
Fixpoint alloc_scan (l : iset) (i : nat) (length : Z) : option (nat * iset_range * Z) :=
  match l with
  | [] => None
  | r :: l =>
    let astart := align r.(r_start) length in
    if (astart <=? u64 (astart + length - 1)) &&
       (u64 (astart + length - 1) <=? u64 (r.(r_start) + r.(r_length) - 1))
    then Some (i, r, astart) else alloc_scan l (S i) length
  end.

(** [iset_alloc_range]: the result, the set and, when the result is 0, the address *)
Definition iset_alloc_range (l : iset) (length : Z) (got : bool) : Z * iset * option Z :=
  if negb (power_of_two length) then (EINVAL, l, None)
  else
    match alloc_scan l 0 length with
    | None => (ENOSPC, l, None)
    | Some (i, r, astart) =>
      if r.(r_start) =? astart then
        if r.(r_length) =? length then (0, delete i l, Some astart)
        else (0, <[i := IR (u64 (r.(r_start) + length)) (u64 (r.(r_length) - length))]> l, Some astart)
      else
        let rend := u64 (r.(r_start) + r.(r_length)) in
        let cut := <[i := IR r.(r_start) (u64 (astart - r.(r_start)))]> in
        if u64 (astart + length) =? rend then (0, cut l, Some astart)
        else
          match create_range (u64 (astart + length)) (u64 (rend - astart - length)) got with
          | None => (ENOMEM, l, None)
          | Some rnew => (0, cut (list_add_before l (S i) rnew), Some astart)
          end
    end.
