(* ===== verification/IntervalProps.v ===== *)
(** The sets of ranges as sets of addresses: the list is the one list of maximal ranges of its
    set, insertion is union, allocation takes the lowest aligned block. *)

From stdpp Require Import base numbers list.
From S2P Require Import Prelude Types IntervalSet.

(** * Sets of addresses *)

Definition r_end (r : iset_range) : Z := r.(r_start) + r.(r_length).

Definition in_range (r : iset_range) (x : Z) : Prop := r.(r_start) <= x < r_end r.

Definition covers (l : iset) (x : Z) : Prop := Exists (fun r => in_range r x) l.

(** Ranges in order from [lo] on, none empty, none past the last address, none next to the one
    before *)
Fixpoint iset_from (lo : Z) (l : iset) : Prop :=
  match l with
  | [] => True
  | r :: l => lo <= r.(r_start) /\ 0 < r.(r_length) /\ r_end r <= 2 ^ 64 /\ iset_from (r_end r + 1) l
  end.

Definition iset_wf (l : iset) : Prop := iset_from 0 l.

Fixpoint end_of (lo : Z) (l : iset) : Z :=
  match l with [] => lo | r :: l => end_of (r_end r + 1) l end.

Lemma iset_from_mono lo lo' l : lo' <= lo -> iset_from lo l -> iset_from lo' l.
Proof. destruct l; simpl; intuition lia. Qed.

Lemma iset_from_app lo l1 l2 : iset_from lo (l1 ++ l2) <-> iset_from lo l1 /\ iset_from (end_of lo l1) l2.
Proof. revert lo. induction l1 as [|r l1 IH]; intros lo; simpl; [tauto|]. rewrite IH. tauto. Qed.

Lemma end_of_snoc lo l r : end_of lo (l ++ [r]) = r_end r + 1.
Proof. revert lo. induction l; intros lo; simpl; auto. Qed.

Lemma iset_from_snoc lo l r :
  iset_from lo (l ++ [r]) <-> iset_from lo l /\ end_of lo l <= r.(r_start) /\ 0 < r.(r_length) /\ r_end r <= 2 ^ 64.
Proof. rewrite iset_from_app. simpl. tauto. Qed.

Lemma covers_app l1 l2 x : covers (l1 ++ l2) x <-> covers l1 x \/ covers l2 x.
Proof. apply Exists_app. Qed.

Lemma covers_cons r l x : covers (r :: l) x <-> in_range r x \/ covers l x.
Proof. apply Exists_cons. Qed.

Lemma covers_nil x : covers [] x <-> False.
Proof. apply Exists_nil. Qed.

Lemma covers_from lo l x : iset_from lo l -> covers l x -> lo <= x < 2 ^ 64.
Proof.
  revert lo. induction l as [|r l IH]; intros lo; simpl; rewrite ?covers_nil, ?covers_cons; [done|].
  unfold in_range, r_end in *. intros (H1 & H2 & H3 & H4) [?|Hc]; [lia|]. apply (IH _ H4) in Hc. lia.
Qed.

Lemma covers_before lo l x : iset_from lo l -> covers l x -> x + 1 < end_of lo l.
Proof.
  revert lo. induction l as [|r l IH]; intros lo; simpl; rewrite ?covers_nil, ?covers_cons; [done|].
  intros (H1 & H2 & H3 & H4) [Hr|Hc]; [|by apply IH].
  assert (r_end r + 1 <= end_of (r_end r + 1) l); [|unfold in_range in *; lia].
  clear -H4. generalize dependent (r_end r + 1). induction l as [|q l IH]; intros lo; simpl; [lia|].
  intros (H1 & H2 & H3 & H4). specialize (IH _ H4). unfold r_end in *. lia.
Qed.

Lemma from_elem lo l r :
  iset_from lo l -> r ∈ l -> lo <= r.(r_start) /\ 0 < r.(r_length) /\ r_end r <= 2 ^ 64.
Proof.
  revert lo. induction l as [|q l IH]; intros lo Hw Hr; [by apply elem_of_nil in Hr|].
  destruct Hw as (H1 & H2 & H3 & H4). apply elem_of_cons in Hr as [->|Hr]; [done|].
  specialize (IH _ H4 Hr). unfold r_end in *. lia.
Qed.

(** The list is a function of the set: two lists of the same addresses are the same. *)
Lemma iset_ext l1 : forall lo1 lo2 l2,
  iset_from lo1 l1 -> iset_from lo2 l2 -> (forall x, covers l1 x <-> covers l2 x) -> l1 = l2.
Proof.
  assert (forall r l lo, iset_from lo (r :: l) -> covers (r :: l) (r_start r) /\
    forall x, covers (r :: l) x -> r_start r <= x) as Hmin.
  { intros r l lo (H1 & H2 & H3 & H4). rewrite covers_cons. unfold in_range, r_end in *. split; [left; lia|].
    intros x [?|Hc]%covers_cons; [unfold in_range, r_end in *; lia|]. apply (covers_from _ _ _ H4) in Hc. lia. }
  assert (forall r l lo, iset_from lo (r :: l) ->
    (forall x, r_start r <= x < r_end r -> covers (r :: l) x) /\ (covers (r :: l) (r_end r) -> False)) as Hend.
  { intros r l lo (H1 & H2 & H3 & H4). split.
    - intros x Hx. apply covers_cons. by left.
    - intros [?|Hc]%covers_cons; [unfold in_range in *; lia|]. apply (covers_from _ _ _ H4) in Hc. lia. }
  induction l1 as [|r1 l1 IH]; intros lo1 lo2 [|r2 l2] W1 W2 Hx; [done| | |].
  - destruct (Hmin _ _ _ W2) as [Hc _]. apply Hx in Hc. by apply covers_nil in Hc.
  - destruct (Hmin _ _ _ W1) as [Hc _]. apply Hx in Hc. by apply covers_nil in Hc.
  - destruct (Hmin _ _ _ W1) as [C1 M1], (Hmin _ _ _ W2) as [C2 M2], (Hend _ _ _ W1) as [I1 E1], (Hend _ _ _ W2) as [I2 E2].
    assert (r_start r1 = r_start r2) as Es
      by (pose proof (M1 _ (proj2 (Hx _) C2)); pose proof (M2 _ (proj1 (Hx _) C1)); lia).
    destruct W1 as (A1 & A2 & A3 & A4), W2 as (B1 & B2 & B3 & B4).
    assert (r_end r1 = r_end r2) as Ee.
    { destruct (Z.lt_trichotomy (r_end r1) (r_end r2)) as [Hlt|[?|Hlt]]; [exfalso|done|exfalso].
      - apply E1, Hx, I2. unfold r_end in *. lia.
      - apply E2, Hx, I1. unfold r_end in *. lia. }
    assert (r1 = r2) as -> by (destruct r1, r2; unfold r_end in *; simpl in *; f_equal; lia).
    f_equal. apply (IH _ _ _ A4 B4). intros x. specialize (Hx x). rewrite !covers_cons in Hx.
    split; intros Hc; [pose proof (covers_from _ _ _ A4 Hc)|pose proof (covers_from _ _ _ B4 Hc)];
      (destruct Hx as [Hx1 Hx2]; unfold in_range in *; destruct (decide (r_start r2 <= x < r_end r2)); [lia|tauto]).
Qed.

(** * Insertion *)

Lemma insert_mid {A} (l1 l2 : list A) x y n : n = length l1 -> <[n := y]> (l1 ++ x :: l2) = l1 ++ y :: l2.
Proof. intros ->. rewrite <- (Nat.add_0_r (length l1)), insert_app_r. done. Qed.

Lemma alter_mid {A} (f : A -> A) (l1 l2 : list A) x n :
  n = length l1 -> alter f n (l1 ++ x :: l2) = l1 ++ f x :: l2.
Proof. intros ->. rewrite <- (Nat.add_0_r (length l1)), alter_app_r. done. Qed.

Lemma delete_second {A} (l1 l2 : list A) x y n : n = S (length l1) -> delete n (l1 ++ x :: y :: l2) = l1 ++ x :: l2.
Proof.
  intros ->. replace (S (length l1)) with (length (l1 ++ [x])) by (rewrite length_app; simpl; lia).
  rewrite (cons_middle x l1 (y :: l2)), app_assoc, delete_middle. by rewrite <- app_assoc.
Qed.

Lemma lookup_second {A} (l1 l2 : list A) x y : (l1 ++ x :: y :: l2) !! S (length l1) = Some y.
Proof. rewrite lookup_app_r by lia. by replace (S (length l1) - length l1)%nat with 1%nat by lia. Qed.

Lemma insert_second {A} (l1 l2 : list A) x y z : <[S (length l1) := z]> (l1 ++ x :: y :: l2) = l1 ++ x :: z :: l2.
Proof. rewrite <- Nat.add_1_r, insert_app_r. done. Qed.

Lemma overlap_below r start len :
  0 <= r.(r_start) -> 0 < r.(r_length) -> r_end r <= 2 ^ 64 -> 0 <= start -> 0 < len -> start + len <= 2 ^ 64 ->
  range_overlap r.(r_start) r.(r_length) start len = false <-> r_end r <= start \/ start + len <= r.(r_start).
Proof.
  intros. unfold range_overlap, r_end in *. rewrite !u64_small by lia.
  destruct (Z.ltb_spec (r_start r) start), (Z.ltb_spec (r_start r + r_length r - 1) start),
    (Z.ltb_spec start (r_start r)), (Z.ltb_spec (start + len - 1) (r_start r)); simpl; intuition (try congruence; lia).
Qed.

(** Where the scan stops: [l1] is below the new range, [l2] above it *)
Definition scan_at (i : nat) (prev : option nat) (l1 l2 : iset) : option nat * option nat :=
  (match l1 with [] => prev | _ => Some (i + length l1 - 1)%nat end,
   match l2 with [] => None | _ => Some (i + length l1)%nat end).

Lemma insert_scan_spec start len : 0 <= start -> 0 < len -> start + len <= 2 ^ 64 ->
  forall l lo i prev, 0 <= lo -> iset_from lo l ->
  (insert_scan l i prev start len = inl tt /\ exists x, start <= x < start + len /\ covers l x) \/
  exists l1 l2, l = l1 ++ l2 /\ insert_scan l i prev start len = inr (scan_at i prev l1 l2) /\
    Forall (fun r => r_end r <= start) l1 /\ Forall (fun r => start + len <= r.(r_start)) l2.
Proof.
  intros Hs Hl He. induction l as [|r l IH]; intros lo i prev Hlo Hw.
  - right. exists [], []. split_and!; [done..|constructor|constructor].
  - destruct Hw as (H1 & H2 & H3 & H4). cbn [insert_scan].
    pose proof (overlap_below r start len ltac:(lia) H2 H3 Hs Hl He) as Ho.
    destruct (range_overlap _ _ _ _) eqn:Eo.
    + left. split; [done|]. exists (Z.max (r_start r) start). rewrite covers_cons. unfold in_range, r_end in *.
      destruct (Z.le_gt_cases (r_start r + r_length r) start); [intuition congruence|].
      destruct (Z.le_gt_cases (start + len) (r_start r)); [intuition congruence|]. split; [lia|left; lia].
    + destruct (Z.ltb_spec start (r_start r)).
      * right. exists [], (r :: l). split_and!; [done|unfold scan_at; simpl; do 3 f_equal; lia|constructor|].
        constructor; [unfold r_end in *; intuition lia|]. apply Forall_forall. intros q Hq.
        apply (from_elem _ _ _ H4) in Hq. unfold r_end in *. intuition lia.
      * destruct (IH (r_end r + 1) (S i) (Some i)) as [[E (x & Hx & Hc)]|(l1 & l2 & -> & E & F1 & F2)];
          [unfold r_end in *; lia|done| |].
        -- left. split; [done|]. exists x. split; [done|]. apply covers_cons. by right.
        -- right. exists (r :: l1), l2. split_and!; [done| |constructor; [unfold r_end in *; intuition lia|done]|done].
           rewrite E. f_equal. unfold scan_at. f_equal; [|destruct l2; simpl; [done|f_equal; lia]].
           destruct l1; simpl; f_equal; lia.
Qed.

(** The neighbours of a new range that starts at [start] above [l1] and ends at [stop] below
    [l2]: those it touches are joined to it *)
Definition left_join (l1 : iset) (start : Z) (k1 : iset) (lo : Z) : Prop :=
  (l1 = k1 /\ lo = start /\ Forall (fun r => r_end r < start) l1) \/
  exists p, l1 = k1 ++ [p] /\ r_start p = lo /\ r_end p = start.

Definition right_join (l2 : iset) (stop : Z) (k2 : iset) (hi : Z) : Prop :=
  (l2 = k2 /\ hi = stop /\ Forall (fun r => stop < r.(r_start)) l2) \/
  exists n, l2 = n :: k2 /\ r_start n = stop /\ r_end n = hi.

Lemma end_of_bound lo l b :
  lo <= b -> Forall (fun r => r_end r < b) l -> end_of lo l <= b.
Proof.
  intros Hl Hf. revert lo Hl. induction Hf as [|r l Hr _ IH]; intros lo Hl; simpl; [done|]. apply IH. lia.
Qed.

Lemma left_join_from lo l1 start k1 lo' :
  lo <= start -> iset_from lo l1 -> left_join l1 start k1 lo' ->
  iset_from lo k1 /\ end_of lo k1 <= lo' /\ lo' <= start /\
  forall x, covers l1 x <-> covers k1 x \/ lo' <= x < start.
Proof.
  intros Hlo Hw [(<- & -> & Hf)|(p & -> & <- & Hp)].
  - split_and!; [done|by apply end_of_bound|lia|]. intros x. split; [by left|intros [?|?]; [done|lia]].
  - apply iset_from_snoc in Hw as (H1 & H2 & H3 & H4). split_and!; [done..|unfold r_end in *; lia|].
    intros x. rewrite covers_app, covers_cons, covers_nil. unfold in_range. rewrite Hp. tauto.
Qed.

Lemma right_join_from lo l2 stop k2 hi :
  iset_from lo l2 -> right_join l2 stop k2 hi -> stop <= 2 ^ 64 ->
  iset_from (hi + 1) k2 /\ stop <= hi <= 2 ^ 64 /\ forall x, covers l2 x <-> covers k2 x \/ stop <= x < hi.
Proof.
  intros Hw [(<- & -> & Hf)|(n & -> & <- & <-)] Hs.
  - split_and!; [|lia|lia|].
    + destruct Hf as [|r l2 Hr Hf]; [done|]. simpl in *. intuition lia.
    + intros x. split; [by left|intros [?|?]; [done|lia]].
  - simpl in Hw. unfold in_range, r_end in *. split_and!; try (intuition lia). intros x. rewrite covers_cons.
    unfold in_range, r_end. intuition lia.
Qed.

(** The joined list is the list of the union. *)
Lemma joined_spec lo l1 l2 start stop k1 k2 lo' hi :
  0 <= lo <= start -> start < stop <= 2 ^ 64 -> iset_from lo (l1 ++ l2) ->
  left_join l1 start k1 lo' -> right_join l2 stop k2 hi ->
  iset_from lo (k1 ++ IR lo' (hi - lo') :: k2) /\
  forall x, covers (k1 ++ IR lo' (hi - lo') :: k2) x <-> covers (l1 ++ l2) x \/ start <= x < stop.
Proof.
  intros Hlo Hs [W1 W2]%iset_from_app L R.
  destruct (left_join_from lo l1 start _ _ ltac:(lia) W1 L) as (Wk1 & He & Hl & C1).
  destruct (right_join_from _ l2 stop _ _ W2 R ltac:(lia)) as (Wk2 & Hh & C2). split.
  - apply iset_from_app. split; [done|]. simpl. unfold r_end. simpl.
    replace (lo' + (hi - lo') + 1) with (hi + 1) by lia. intuition lia.
  - intros x. rewrite !covers_app, covers_cons, C1, C2. unfold in_range, r_end. simpl.
    replace (lo' + (hi - lo')) with hi by lia.
    destruct (decide (lo' <= x < start)), (decide (start <= x < stop)), (decide (stop <= x < hi)); intuition lia.
Qed.

Lemma snoc_or_nil {A} (l : list A) : l = [] \/ exists k x, l = k ++ [x].
Proof. destruct l as [|x k _] using rev_ind; [by left|right; by exists k, x]. Qed.

Lemma from_snoc_below lo l p start :
  iset_from lo (l ++ [p]) -> r_end p < start -> Forall (fun r => r_end r < start) (l ++ [p]).
Proof.
  intros Hw Hp. assert (forall x, covers (l ++ [p]) x -> x < r_end p) as Hc.
  { intros x Hx. apply (covers_before _ _ _ Hw) in Hx. rewrite end_of_snoc in Hx. lia. }
  apply Forall_forall. intros r Hr. pose proof (from_elem _ _ _ Hw Hr) as (_ & Hl & _).
  assert (covers (l ++ [p]) (r_end r - 1)) as Hx.
  { apply Exists_exists. exists r. split; [done|]. unfold in_range, r_end in *. lia. }
  apply Hc in Hx. lia.
Qed.

Lemma from_cons_above lo n l stop :
  iset_from lo (n :: l) -> stop < r_start n -> Forall (fun r => stop < r.(r_start)) (n :: l).
Proof.
  intros (H1 & H2 & H3 & H4) Hn. constructor; [done|]. apply Forall_forall. intros r Hr.
  apply (from_elem _ _ _ H4) in Hr. unfold r_end in *. lia.
Qed.

Lemma scan_at_snoc k p l2 :
  scan_at 0 None (k ++ [p]) l2 =
    (Some (length k), match l2 with [] => None | _ => Some (S (length k)) end).
Proof.
  unfold scan_at. destruct k; simpl; [done|]. rewrite length_app. simpl.
  f_equal; [|destruct l2; [done|]]; f_equal; lia.
Qed.

(** [check_do_combine] on the two parts: the joined list, or the old one when nothing touches *)
Lemma check_do_combine_spec lo l1 l2 start len :
  0 <= lo -> 0 <= start -> 0 < len -> start + len <= 2 ^ 64 -> iset_from lo (l1 ++ l2) ->
  Forall (fun r => r_end r <= start) l1 -> Forall (fun r => start + len <= r.(r_start)) l2 ->
  exists k1 k2 lo' hi, left_join l1 start k1 lo' /\ right_join l2 (start + len) k2 hi /\
    check_do_combine (l1 ++ l2) (scan_at 0 None l1 l2).1 (scan_at 0 None l1 l2).2 start len =
      if decide (lo' = start /\ hi = start + len) then (l1 ++ l2, false)
      else (k1 ++ IR lo' (u64 (hi - lo')) :: k2, true).
Proof.
  intros Hlo Hs Hl He Hw F1 F2. pose proof (proj1 (iset_from_app _ _ _) Hw) as [W1 W2].
  assert (forall n k2, l2 = n :: k2 -> u64 (start + len) = start + len) as Hu.
  { intros n k2 ->. apply Forall_cons_1 in F2 as [Hn _]. destruct W2 as (_ & X2 & X3 & _). unfold r_end in X3.
    apply u64_small. lia. }
  assert (forall n k2, l2 = n :: k2 -> start + len <> r_start n -> right_join l2 (start + len) l2 (start + len)) as HR.
  { intros n k2 -> Hn. left. split_and!; [done..|]. apply Forall_cons_1 in F2 as [Hn' _].
    eapply from_cons_above; [exact W2|lia]. }
  assert (right_join [] (start + len) [] (start + len)) as HR0 by (left; by repeat constructor).
  destruct (snoc_or_nil l1) as [->|(k1 & p & ->)].
  - assert (left_join [] start [] start) as HL by (left; by repeat constructor).
    destruct l2 as [|n k2]; unfold check_do_combine; simpl.
    + exists [], [], start, (start + len). by rewrite decide_True by done.
    + rewrite (Hu n k2) by done. destruct (Z.eqb_spec (start + len) (r_start n)) as [En|En].
      * exists [], k2, start, (r_end n). split_and!; [done|right; by exists n|].
        pose proof W2 as (_ & X2 & _ & _).
        rewrite decide_False by (unfold r_end; lia). simpl. do 4 f_equal. unfold r_end. lia.
      * exists [], (n :: k2), start, (start + len). rewrite decide_True by done. eauto.
  - rewrite scan_at_snoc, <- app_assoc. apply Forall_app in F1 as [_ F1]. apply Forall_cons_1 in F1 as [Hp _].
    apply iset_from_snoc in W1 as W1'. destruct W1' as (_ & P1 & P2 & P3).
    assert (0 <= r_start p) as P0 by (apply (from_elem lo (k1 ++ [p]) p) in W1; [lia|apply elem_of_app; right; constructor]).
    assert (r_end p <> start -> left_join (k1 ++ [p]) start (k1 ++ [p]) start) as HL.
    { intros Hne. left. split_and!; [done..|]. eapply from_snoc_below; [exact W1|lia]. }
    assert (r_end p = start -> left_join (k1 ++ [p]) start k1 (r_start p)) as HL' by (right; by exists p).
    unfold check_do_combine. simpl. rewrite list_lookup_middle by done.
    replace (u64 (r_start p + r_length p)) with (r_end p) by (unfold r_end in *; by rewrite u64_small by lia).
    destruct (Z.eqb_spec (r_end p) start) as [Ep|Ep].
    + rewrite insert_mid by done. destruct l2 as [|n k2].
      * exists k1, [], (r_start p), (start + len). rewrite decide_False by (unfold r_end in *; lia). split_and!; [auto..|].
        do 4 f_equal. unfold r_end in *. f_equal. lia.
      * rewrite lookup_second.
        rewrite (Hu n k2) by done. destruct (Z.eqb_spec (start + len) (r_start n)) as [En|En].
        -- exists k1, k2, (r_start p), (r_end n). destruct W2 as (_ & N2 & _ & _).
           rewrite decide_False by (unfold r_end in *; lia). split_and!; [auto|right; by exists n|].
           rewrite alter_mid, delete_second by done. cbn [r_start r_length]. do 4 f_equal.
           unfold u64. rewrite Zplus_mod_idemp_l. f_equal. unfold r_end in *. lia.
        -- exists k1, (n :: k2), (r_start p), (start + len). rewrite decide_False by (unfold r_end in *; lia).
           split_and!; [auto|by eapply HR|]. do 4 f_equal. unfold r_end in *. f_equal. lia.
    + specialize (HL Ep). destruct l2 as [|n k2].
      * exists (k1 ++ [p]), [], start, (start + len). rewrite decide_True by done. auto.
      * rewrite lookup_second.
        rewrite (Hu n k2) by done. destruct (Z.eqb_spec (start + len) (r_start n)) as [En|En].
        -- exists (k1 ++ [p]), k2, start, (r_end n). destruct W2 as (_ & N2 & _ & _).
           rewrite decide_False by (unfold r_end in *; lia). split_and!; [auto|right; by exists n|].
           rewrite insert_second, <- app_assoc. simpl. do 6 f_equal. unfold r_end. lia.
        -- exists (k1 ++ [p]), (n :: k2), start, (start + len). rewrite decide_True by done.
           split_and!; [auto|by eapply HR|done].
Qed.

(** Some address stays out of the set: the length of the whole address space is not a length. *)
Definition room (l : iset) (start len : Z) : Prop :=
  exists x, 0 <= x < 2 ^ 64 /\ ~ covers l x /\ ~ start <= x < start + len.

Definition overlaps (l : iset) (start len : Z) : Prop := exists x, start <= x < start + len /\ covers l x.

(** The new set is the union, when memory was found or the range touches one that is there. *)
Lemma insert_apart l start len got :
  iset_wf l -> 0 <= start -> 0 < len -> start + len <= 2 ^ 64 -> room l start len -> ~ overlaps l start len ->
  (exists l', iset_insert_range l start len got = (0, l') /\ iset_wf l' /\
     forall x, covers l' x <-> covers l x \/ start <= x < start + len) \/
  (got = false /\ iset_insert_range l start len got = (ENOMEM, l)).
Proof.
  intros Hw Hs Hl He Hr Ho. unfold iset_insert_range.
  assert ((len =? 0) || (u64 (start + len - 1) <? start) = false) as ->.
  { rewrite u64_small by lia. apply orb_false_iff. split; [apply Z.eqb_neq|apply Z.ltb_ge]; lia. }
  destruct (insert_scan_spec start len Hs Hl He l 0 0 None ltac:(lia) Hw) as [[_ Hov]|(l1 & l2 & -> & -> & F1 & F2)];
    [by destruct Ho|].
  destruct (check_do_combine_spec 0 l1 l2 start len) as (k1 & k2 & lo' & hi & L & R & E); [done || lia..|].
  destruct (joined_spec 0 l1 l2 start (start + len) k1 k2 lo' hi) as [W C]; [lia..|done|done|done|].
  assert (u64 (hi - lo') = hi - lo') as Hu.
  { pose proof W as W'. apply iset_from_app in W' as [_ (W1 & W2 & W3 & _)]. unfold r_end in W3. simpl in W1, W2, W3.
    apply u64_small. split; [lia|]. destruct Hr as (x & Hx & Hc & Hn).
    destruct (decide (hi - lo' < 2 ^ 64)); [done|]. exfalso.
    assert (covers (k1 ++ IR lo' (hi - lo') :: k2) x) as Hcx.
    { apply covers_app. right. apply covers_cons. left. unfold in_range, r_end. simpl.
      assert (0 <= lo'); [|lia]. apply (from_elem 0 _ (IR lo' (hi - lo'))) in W; [simpl in W; lia|].
      apply elem_of_app. right. constructor. }
    apply C in Hcx as [?|?]; tauto. }
  rewrite Hu in E. unfold scan_at in *. simpl in E |- *. rewrite E. case_decide as Hd.
  - destruct Hd as [-> ->]. unfold create_range. destruct got; [left|right; done].
    eexists. split; [reflexivity|]. replace (start + len - start) with len in * by lia.
    assert (k1 = l1) as -> by (destruct L as [(->&_)|(p & -> & <- & Hp)]; [done|]; exfalso;
      apply Forall_app in F1 as [_ F1]; apply iset_from_app in Hw as [Hw _]; apply iset_from_snoc in Hw as (_ & _ & ? & _);
      unfold r_end in *; lia).
    assert (k2 = l2) as -> by (destruct R as [(->&_)|(n & -> & Hn & Hn')]; [done|]; exfalso;
      apply iset_from_app in Hw as [_ (_ & ? & _)]; unfold r_end in *; lia).
    destruct l2; simpl; [by rewrite app_nil_r in *|]. unfold list_add_before. rewrite take_app_length, drop_app_length. done.
  - left. eexists. split; [reflexivity|done].
Qed.

Lemma insert_einval l start len got :
  iset_wf l -> 0 <= start < 2 ^ 64 -> 0 <= len < 2 ^ 64 ->
  len = 0 \/ 2 ^ 64 < start + len \/ overlaps l start len -> iset_insert_range l start len got = (EINVAL, l).
Proof.
  intros Hw Hs Hl Hc. unfold iset_insert_range.
  destruct (Z.eqb_spec len 0); [done|]. simpl. destruct (Z.ltb_spec (u64 (start + len - 1)) start) as [Hlt|Hge]; [done|].
  assert (start + len <= 2 ^ 64) as He.
  { destruct (Z.le_gt_cases (start + len) (2 ^ 64)); [done|]. exfalso.
    assert (u64 (start + len - 1) = start + len - 1 - 2 ^ 64); [|lia].
    unfold u64. symmetry. apply (Z.mod_unique_pos _ _ 1); lia. }
  destruct (insert_scan_spec start len ltac:(lia) ltac:(lia) He l 0 0 None ltac:(lia) Hw)
    as [[-> _]|(l1 & l2 & -> & _ & F1 & F2)]; [done|exfalso].
  destruct Hc as [?|[?|(x & Hx & Hc)]]; [lia..|]. apply covers_app in Hc as [Hc|Hc]; apply Exists_exists in Hc as (r & Hr & Hi).
  - rewrite Forall_forall in F1. specialize (F1 _ Hr). unfold in_range in Hi. lia.
  - rewrite Forall_forall in F2. specialize (F2 _ Hr). unfold in_range in Hi. lia.
Qed.

(** * Allocation *)

Lemma power_of_two_spec x : 0 <= x < 2 ^ 64 -> power_of_two x = true <-> exists k, 0 <= k < 64 /\ x = 2 ^ k.
Proof.
  intros Hx. unfold power_of_two. split.
  - intros [H0 Hl]%andb_true_iff. apply negb_true_iff, Z.eqb_neq in H0. apply Z.eqb_eq in Hl.
    rewrite u64_small in Hl by lia. exists (Z.log2 x). pose proof (Z.log2_spec x ltac:(lia)) as Hs.
    pose proof (Z.log2_nonneg x) as Hk. split.
    { split; [lia|]. apply Z.log2_lt_pow2; lia. }
    destruct (Z.eq_dec x (2 ^ Z.log2 x)); [done|]. exfalso.
    assert (Z.testbit (Z.land x (x - 1)) (Z.log2 x) = true) as Hb; [|by rewrite Hl, Z.bits_0 in Hb].
    rewrite Z.land_spec, Z.bit_log2 by lia.
    replace (Z.log2 x) with (Z.log2 (x - 1)); [by rewrite Z.bit_log2 by lia|].
    apply Z.log2_unique; lia.
  - intros (k & Hk & ->). assert (0 < 2 ^ k) by (apply Z.pow_pos_nonneg; lia).
    rewrite (proj2 (Z.eqb_neq _ 0)), u64_small by lia. simpl. apply Z.eqb_eq.
    replace (2 ^ k - 1) with (Z.ones k) by (rewrite Z.ones_equiv; lia).
    rewrite Z.land_ones by lia. apply Z_mod_same_full.
Qed.

Section Alloc.
Context (k : Z) (Hk : 0 <= k < 64).

(** A block of the wanted size at a multiple of it *)
Definition block_at (P : Z -> Prop) (a : Z) : Prop := (2 ^ k | a) /\ forall x, a <= x < a + 2 ^ k -> P x.

(** No range starts so close to the last address that rounding up wraps. *)
Definition aligns (l : iset) : Prop := Forall (fun r => r.(r_start) + 2 ^ k - 1 < 2 ^ 64) l.

(** The address the scan tries in a range is the lowest one aligned; the test is that it fits. *)
Lemma try_range r : 0 <= r.(r_start) -> 0 < r.(r_length) -> r_end r <= 2 ^ 64 -> r.(r_start) + 2 ^ k - 1 < 2 ^ 64 ->
  let a := align r.(r_start) (2 ^ k) in
  (2 ^ k | a) /\ r.(r_start) <= a /\ a + 2 ^ k <= 2 ^ 64 /\ (forall b, (2 ^ k | b) -> r.(r_start) <= b -> a <= b) /\
  (a <=? u64 (a + 2 ^ k - 1)) && (u64 (a + 2 ^ k - 1) <=? u64 (r.(r_start) + r.(r_length) - 1)) = (a + 2 ^ k <=? r_end r).
Proof using Hk.
  intros Hs Hl He Hw a. assert (0 < 2 ^ k) as Hp by (apply Z.pow_pos_nonneg; lia).
  assert (a = 2 ^ k * ((r_start r + 2 ^ k - 1) / 2 ^ k)) as Ea by (apply align_up; lia).
  pose proof (Z.div_mod (r_start r + 2 ^ k - 1) (2 ^ k) ltac:(lia)) as Hd.
  pose proof (Z.mod_pos_bound (r_start r + 2 ^ k - 1) (2 ^ k) ltac:(lia)) as Hm.
  assert (2 ^ 64 = 2 ^ k * 2 ^ (64 - k)) as H64 by (rewrite <- Z.pow_add_r by lia; f_equal; lia).
  assert ((2 ^ k | a)) as Ha by (rewrite Ea; apply Z.divide_factor_l).
  assert (a + 2 ^ k <= 2 ^ 64) as Ht.
  { rewrite Ea, H64. set (q := _ / _) in *. set (m := 2 ^ (64 - k)) in *.
    assert (q < m) by (apply (Z.mul_lt_mono_pos_l (2 ^ k)); lia). nia. }
  split_and!; [done|lia|done| |].
  - intros b [q ->] Hb. rewrite Ea. set (p := _ / _) in *.
    assert (p < q + 1) by (apply (Z.mul_lt_mono_pos_l (2 ^ k)); lia). nia.
  - unfold r_end in *. rewrite !u64_small by lia. rewrite (proj2 (Z.leb_le _ _)) by lia. simpl.
    destruct (Z.leb_spec (a + 2 ^ k - 1) (r_start r + r_length r - 1)), (Z.leb_spec (a + 2 ^ k) (r_start r + r_length r)); lia.
Qed.

(** A block of a set lies in one of its ranges. *)
Lemma block_in_range lo l a :
  iset_from lo l -> block_at (covers l) a -> exists r, r ∈ l /\ r.(r_start) <= a /\ a + 2 ^ k <= r_end r.
Proof using Hk.
  intros Hw [Ha Hb]. assert (0 < 2 ^ k) as Hp by (apply Z.pow_pos_nonneg; lia).
  revert lo Hw Hb. induction l as [|r l IH]; intros lo Hw Hb.
  - destruct (proj1 (covers_nil a) (Hb a ltac:(lia))).
  - destruct Hw as (H1 & H2 & H3 & H4). destruct (decide (a < r_end r)) as [Hlt|Hge].
    + exists r. split; [constructor|]. pose proof (Hb a ltac:(lia)) as [Hc|Hc]%covers_cons;
        [|apply (covers_from _ _ _ H4) in Hc; lia]. unfold in_range in Hc. split; [lia|].
      destruct (Z.le_gt_cases (a + 2 ^ k) (r_end r)) as [?|Hgt]; [done|]. exfalso.
      pose proof (Hb (r_end r) ltac:(lia)) as [Hc'|Hc']%covers_cons; [unfold in_range in Hc'; lia|].
      apply (covers_from _ _ _ H4) in Hc'. lia.
    + destruct (IH _ H4) as (q & Hq & ?); [|exists q; split; [by constructor|done]].
      intros x Hx. destruct (proj1 (covers_cons _ _ _) (Hb x Hx)) as [Hc|]; [unfold in_range in Hc; lia|done].
Qed.

Lemma alloc_scan_spec l : forall lo i, 0 <= lo -> iset_from lo l -> aligns l ->
  match alloc_scan l i (2 ^ k) with
  | None => forall a, ~ block_at (covers l) a
  | Some (j, r, a) => exists l1 l2, l = l1 ++ r :: l2 /\ j = (i + length l1)%nat /\
      (2 ^ k | a) /\ r.(r_start) <= a /\ a + 2 ^ k <= r_end r /\ forall b, block_at (covers l) b -> a <= b
  end.
Proof using Hk.
  induction l as [|r l IH]; intros lo i Hlo Hw Hal; simpl.
  - intros a [_ Hb]. apply (covers_nil a), Hb. assert (0 < 2 ^ k) by (apply Z.pow_pos_nonneg; lia). lia.
  - apply Forall_cons_1 in Hal as [Hr Hal]. pose proof Hw as (H1 & H2 & H3 & H4).
    destruct (try_range r ltac:(lia) H2 H3 Hr) as (T1 & T2 & T3 & T4 & ->).
    assert (forall b, block_at (covers (r :: l)) b ->
      (r_start r <= b /\ b + 2 ^ k <= r_end r) \/ (r_end r < b /\ block_at (covers l) b)) as Hb.
    { intros b Hb. destruct (block_in_range _ _ _ Hw Hb) as (q & [->|Hq]%elem_of_cons & Hq1 & Hq2); [by left|right].
      pose proof (from_elem _ _ _ H4 Hq) as Hq3. split; [lia|]. destruct Hb as [Hb1 Hb2]. split; [done|].
      intros x Hx. destruct (proj1 (covers_cons _ _ _) (Hb2 x Hx)) as [Hc|]; [unfold in_range in Hc; lia|done]. }
    destruct (Z.leb_spec (align (r_start r) (2 ^ k) + 2 ^ k) (r_end r)) as [Hf|Hf].
    + exists [], l. split_and!; [done|simpl; lia|done..|].
      intros b Hbb. destruct (Hb b Hbb) as [[Hb1 _]|[Hb1 _]]; [apply T4; [apply Hbb|done]|].
      assert (0 < 2 ^ k) by (apply Z.pow_pos_nonneg; lia). lia.
    + specialize (IH (r_end r + 1) (S i) ltac:(unfold r_end in *; lia) H4 Hal).
      destruct (alloc_scan l (S i) (2 ^ k)) as [[[j q] a]|].
      * destruct IH as (l1 & l2 & -> & -> & A1 & A2 & A3 & A4). exists (r :: l1), l2.
        split_and!; [done|simpl; lia|done..|]. intros b Hbb. destruct (Hb b Hbb) as [[Hb1 Hb2]|[_ Hb1]]; [|by apply A4].
        specialize (T4 b ltac:(apply Hbb) Hb1). lia.
      * intros b Hbb. destruct (Hb b Hbb) as [[Hb1 Hb2]|[_ Hb1]]; [|by apply (IH b)].
        specialize (T4 b ltac:(apply Hbb) Hb1). lia.
Qed.

(** What is left of a range when the block at [a] is taken out *)
Definition carve (r : iset_range) (a : Z) : iset :=
  (if decide (r.(r_start) = a) then [] else [IR r.(r_start) (a - r.(r_start))]) ++
  (if decide (a + 2 ^ k = r_end r) then [] else [IR (a + 2 ^ k) (r_end r - a - 2 ^ k)]).

Lemma carve_spec lo l1 r l2 a :
  iset_from lo (l1 ++ r :: l2) -> r.(r_start) <= a -> a + 2 ^ k <= r_end r ->
  iset_from lo (l1 ++ carve r a ++ l2) /\
  forall x, covers (l1 ++ carve r a ++ l2) x <-> covers (l1 ++ r :: l2) x /\ ~ a <= x < a + 2 ^ k.
Proof using Hk.
  intros Hw Ha He. assert (0 < 2 ^ k) as Hp by (apply Z.pow_pos_nonneg; lia).
  pose proof Hw as [W1 W2]%iset_from_app. pose proof W2 as (X1 & X2 & X3 & X4).
  assert (forall x, covers l1 x -> x < r_start r) as B1 by (intros x Hc%(covers_before _ _ _ W1); lia).
  assert (forall x, covers l2 x -> r_end r <= x) as B2 by (intros x Hc%(covers_from _ _ _ X4); lia). split.
  - apply iset_from_app. split; [done|]. unfold carve. apply iset_from_app. split.
    + case_decide; case_decide; simpl; unfold r_end in *; simpl; intuition lia.
    + eapply iset_from_mono; [|exact X4].
      case_decide; case_decide; simpl; unfold r_end in *; simpl; lia.
  - intros x. rewrite !covers_app, covers_cons. unfold carve, in_range. rewrite covers_app.
    assert (covers (if decide (r_start r = a) then [] else [IR (r_start r) (a - r_start r)]) x <-> r_start r <= x < a) as ->.
    { case_decide; rewrite ?covers_cons, covers_nil; unfold in_range, r_end; simpl; intuition lia. }
    assert (covers (if decide (a + 2 ^ k = r_end r) then [] else [IR (a + 2 ^ k) (r_end r - a - 2 ^ k)]) x <->
      a + 2 ^ k <= x < r_end r) as ->.
    { case_decide; rewrite ?covers_cons, covers_nil; unfold in_range, r_end in *; simpl; intuition lia. }
    specialize (B1 x). specialize (B2 x). destruct (decide (a <= x < a + 2 ^ k)); intuition lia.
Qed.

Lemma alloc_exact l got :
  iset_wf l -> aligns l ->
  (exists a l', iset_alloc_range l (2 ^ k) got = (0, l', Some a) /\ block_at (covers l) a /\
     (forall b, block_at (covers l) b -> a <= b) /\ iset_wf l' /\
     forall x, covers l' x <-> covers l x /\ ~ a <= x < a + 2 ^ k) \/
  (iset_alloc_range l (2 ^ k) got = (ENOSPC, l, None) /\ forall a, ~ block_at (covers l) a) \/
  (got = false /\ iset_alloc_range l (2 ^ k) got = (ENOMEM, l, None)).
Proof using Hk.
  intros Hw Hal. assert (0 < 2 ^ k) as Hp by (apply Z.pow_pos_nonneg; lia).
  assert (2 ^ k < 2 ^ 64) as Hp' by (apply Z.pow_lt_mono_r; lia).
  unfold iset_alloc_range. rewrite (proj2 (power_of_two_spec (2 ^ k) ltac:(lia))) by eauto. simpl.
  pose proof (alloc_scan_spec l 0 0 ltac:(lia) Hw Hal) as Hs.
  destruct (alloc_scan l 0 (2 ^ k)) as [[[j r] a]|]; [|right; by left].
  destruct Hs as (l1 & l2 & -> & -> & A1 & A2 & A3 & A4). rewrite Nat.add_0_l.
  destruct (carve_spec 0 l1 r l2 a Hw A2 A3) as [W C].
  assert (block_at (covers (l1 ++ r :: l2)) a) as Hb.
  { split; [done|]. intros x Hx. apply covers_app. right. apply covers_cons. left. unfold in_range. lia. }
  assert (r ∈ l1 ++ r :: l2) as Hr by (apply elem_of_app; right; constructor).
  pose proof (from_elem _ _ _ Hw Hr) as (R1 & R2 & R3). unfold r_end in A3, R3.
  assert (forall l', l' = l1 ++ carve r a ++ l2 -> exists a0 l'0, (0, l', Some a) = (0, l'0, Some a0) /\
    block_at (covers (l1 ++ r :: l2)) a0 /\ (forall b, block_at (covers (l1 ++ r :: l2)) b -> a0 <= b) /\ iset_wf l'0 /\
    forall x, covers l'0 x <-> covers (l1 ++ r :: l2) x /\ ~ a0 <= x < a0 + 2 ^ k) as Hok.
  { intros l' ->. eexists _, _. by split_and!. }
  unfold carve, r_end in Hok. destruct (Z.eqb_spec (r_start r) a) as [Es|Es].
  - rewrite decide_True in Hok by done. destruct (Z.eqb_spec (r_length r) (2 ^ k)) as [El|El]; left; apply Hok.
    + rewrite decide_True by lia. by rewrite delete_middle.
    + rewrite decide_False by lia. rewrite insert_mid by done. simpl. do 3 f_equal; rewrite u64_small; lia.
  - rewrite decide_False in Hok by done. simpl in Hok.
    destruct (decide (a + 2 ^ k = 2 ^ 64)) as [Et|Et].
    + assert (u64 (a + 2 ^ k) = u64 (r_start r + r_length r)) as -> by (f_equal; lia). rewrite Z.eqb_refl. left. apply Hok.
      rewrite decide_True by lia. rewrite insert_mid by done. simpl. do 3 f_equal. rewrite u64_small; lia.
    + rewrite (u64_small (a + 2 ^ k)) by lia. destruct (decide (a + 2 ^ k = r_start r + r_length r)) as [Ee|Ee].
      * rewrite <- Ee, u64_small, Z.eqb_refl by lia. left. apply Hok. rewrite insert_mid by done. simpl. do 3 f_equal.
        rewrite u64_small; lia.
      * assert (u64 (u64 (r_start r + r_length r) - a - 2 ^ k) = r_start r + r_length r - a - 2 ^ k) as ->.
        { unfold u64. rewrite <- Z.sub_add_distr, Zminus_mod_idemp_l. rewrite Z.mod_small; lia. }
        destruct (Z.eqb_spec (a + 2 ^ k) (u64 (r_start r + r_length r))) as [Ex|Ex].
        { exfalso. destruct (decide (r_start r + r_length r = 2 ^ 64)) as [E64|E64].
          - rewrite E64 in Ex. change (u64 (2 ^ 64)) with 0 in Ex. lia.
          - rewrite u64_small in Ex by lia. lia. }
        unfold create_range. destruct got; [left|right; by right]. apply Hok. unfold list_add_before.
        rewrite (cons_middle r l1 l2), app_assoc.
        rewrite (take_app_length' (l1 ++ [r])), (drop_app_length' (l1 ++ [r])) by (rewrite length_app; simpl; lia).
        rewrite <- app_assoc. cbn [app]. rewrite insert_mid by done. do 3 f_equal. rewrite u64_small; lia.
Qed.

End Alloc.

(** * The set as a whole *)

(** The calls of a history, with the answers of the allocator of memory *)
Inductive iset_op :=
| OpInsert (start len : Z) (got : bool)
| OpAlloc (len : Z) (got : bool).

Definition iset_do (l : iset) (op : iset_op) : Z * iset * option Z :=
  match op with
  | OpInsert start len got => let '(ret, l) := iset_insert_range l start len got in (ret, l, None)
  | OpAlloc len got => iset_alloc_range l len got
  end.

Fixpoint iset_run (l : iset) (ops : list iset_op) : iset * list (Z * option Z) :=
  match ops with
  | [] => (l, [])
  | op :: ops =>
    let '(ret, l, a) := iset_do l op in
    let '(l, rets) := iset_run l ops in (l, (ret, a) :: rets)
  end.

(** What a set of addresses promises: a call, its result and the set after it *)
Inductive set_step (S : Z -> Prop) : iset_op -> Z * option Z -> (Z -> Prop) -> Prop :=
| insert_invalid start len got S' :
    len = 0 \/ 2 ^ 64 < start + len \/ (exists x, start <= x < start + len /\ S x) ->
    (forall x, S' x <-> S x) -> set_step S (OpInsert start len got) (EINVAL, None) S'
| insert_ok start len got S' :
    0 < len -> start + len <= 2 ^ 64 -> (forall x, start <= x < start + len -> ~ S x) ->
    (forall x, S' x <-> S x \/ start <= x < start + len) -> set_step S (OpInsert start len got) (0, None) S'
| insert_nomem start len S' :
    (forall x, S' x <-> S x) -> set_step S (OpInsert start len false) (ENOMEM, None) S'
| alloc_invalid len got S' :
    (forall k, 0 <= k -> len <> 2 ^ k) -> (forall x, S' x <-> S x) -> set_step S (OpAlloc len got) (EINVAL, None) S'
| alloc_ok k got a S' :
    0 <= k -> block_at k S a -> (forall b, block_at k S b -> a <= b) ->
    (forall x, S' x <-> S x /\ ~ a <= x < a + 2 ^ k) -> set_step S (OpAlloc (2 ^ k) got) (0, Some a) S'
| alloc_none k got S' :
    0 <= k -> (forall b, ~ block_at k S b) -> (forall x, S' x <-> S x) -> set_step S (OpAlloc (2 ^ k) got) (ENOSPC, None) S'
| alloc_nomem len S' :
    (forall x, S' x <-> S x) -> set_step S (OpAlloc len false) (ENOMEM, None) S'.

Inductive set_run (S : Z -> Prop) : list iset_op -> list (Z * option Z) -> (Z -> Prop) -> Prop :=
| set_run_nil S' : (forall x, S' x <-> S x) -> set_run S [] [] S'
| set_run_cons op ops ret rets S1 S' :
    set_step S op ret S1 -> set_run S1 ops rets S' -> set_run S (op :: ops) (ret :: rets) S'.

(** Arguments are 64-bit words, ranges end in the lower half of the address space and blocks are
    at most that half. *)
Definition op_ok (op : iset_op) : Prop :=
  match op with
  | OpInsert start len _ => 0 <= start < 2 ^ 64 /\ 0 <= len < 2 ^ 64 /\ (start + len <= 2 ^ 64 -> start + len <= 2 ^ 63)
  | OpAlloc len _ => 0 <= len <= 2 ^ 63
  end.

(** The sets the calls keep *)
Definition iset_ok (l : iset) : Prop := iset_wf l /\ forall x, covers l x -> x < 2 ^ 63.

Lemma iset_ok_aligns k l : 0 <= k <= 63 -> iset_ok l -> aligns k l.
Proof.
  intros Hk [Hw Hb]. apply Forall_forall. intros r Hr. pose proof (from_elem _ _ _ Hw Hr) as (H1 & H2 & _).
  assert (covers l (r_start r)) as Hc%Hb by (apply Exists_exists; exists r; unfold in_range, r_end; split; [done|lia]).
  assert (2 ^ k <= 2 ^ 63) by (apply Z.pow_le_mono_r; lia). lia.
Qed.

Lemma overlaps_dec l start len : iset_wf l -> 0 <= start -> 0 < len -> start + len <= 2 ^ 64 ->
  overlaps l start len \/ ~ overlaps l start len.
Proof.
  intros Hw Hs Hl He. destruct (insert_scan_spec start len Hs Hl He l 0 0 None ltac:(lia) Hw) as [[_ Ho]|(l1 & l2 & -> & _ & F1 & F2)];
    [by left|right]. rewrite Forall_forall in F1, F2.
  intros (x & Hx & [Hc|Hc]%covers_app); apply Exists_exists in Hc as (r & Hr & Hi); unfold in_range in Hi;
    [specialize (F1 r Hr)|specialize (F2 r Hr)]; lia.
Qed.

Lemma iset_do_refines l op :
  iset_ok l -> op_ok op ->
  exists ret l' a, iset_do l op = (ret, l', a) /\ iset_ok l' /\ set_step (covers l) op (ret, a) (covers l').
Proof.
  intros [Hw Hb] Hop. destruct op as [start len got|len got]; simpl in *.
  - destruct Hop as (Hs & Hl & He).
    destruct (decide (len = 0 \/ 2 ^ 64 < start + len)) as [Hi|Hi].
    { rewrite insert_einval by (done || tauto). eexists _, _, _. split; [done|]. split; [done|]. constructor; tauto. }
    destruct (overlaps_dec l start len) as [Ho|Ho]; [done|lia..| |].
    { rewrite insert_einval by (done || tauto). eexists _, _, _. split; [done|]. split; [done|]. constructor; tauto. }
    assert (room l start len) as Hr by (exists (2 ^ 64 - 1); split_and!; [lia|lia|intros ?%Hb; lia|lia]).
    destruct (insert_apart l start len got) as [(l' & -> & W & C)|(-> & ->)]; [done || lia..| |].
    + eexists _, _, _. split; [done|]. split; [split; [done|]; intros x [?%Hb|?]%C; lia|].
      apply insert_ok; [lia..| |done]. intros x Hx Hc. apply Ho. by exists x.
    + eexists _, _, _. split; [done|]. split; [done|]. by constructor.
  - destruct (power_of_two len) eqn:Ep.
    + apply power_of_two_spec in Ep as (k & Hk & ->); [|lia].
      destruct (alloc_exact k Hk l got Hw) as [(a & l' & -> & B & L & W & C)|[[-> Hn]|[-> ->]]];
        [apply iset_ok_aligns; [lia|done]|..].
      * eexists _, _, _. split; [done|]. split; [split; [done|]; intros x [?%Hb _]%C; lia|]. by constructor; [lia|..].
      * eexists _, _, _. split; [done|]. split; [done|]. by constructor; [lia|..].
      * eexists _, _, _. split; [done|]. split; [done|]. by constructor.
    + unfold iset_alloc_range. rewrite Ep. simpl. eexists _, _, _. split; [done|]. split; [done|]. constructor; [|done].
      intros k Hk ->. assert (k < 64) by (apply (Z.pow_lt_mono_r_iff 2); lia).
      by rewrite (proj2 (power_of_two_spec (2 ^ k) ltac:(lia))) in Ep by eauto with lia.
Qed.

Lemma iset_run_ok ops : forall l, iset_ok l -> Forall op_ok ops ->
  let '(l', rets) := iset_run l ops in iset_ok l' /\ set_run (covers l) ops rets (covers l').
Proof.
  induction ops as [|op ops IH]; intros l Hl Ho; simpl; [split; [done|]; by constructor|].
  apply Forall_cons_1 in Ho as [Ho Hos].
  destruct (iset_do_refines l op Hl Ho) as (ret & l1 & a & -> & H1 & S1).
  specialize (IH l1 H1 Hos). destruct (iset_run l1 ops) as [l' rets]. destruct IH as [H2 S2].
  split; [done|]. econstructor; [exact S1|exact S2].
Qed.

(** C32. Every history of calls on a new set gives the results of a set of addresses: insertion is
    union or fails where the ranges overlap, allocation takes the lowest free aligned block or
    fails where there is none; and the list depends on nothing but the set. *)
Theorem interval_set_refines ops :
  Forall op_ok ops ->
  let '(l, rets) := iset_run [] ops in
  set_run (covers []) ops rets (covers l) /\
  forall ops' l' rets', Forall op_ok ops' -> iset_run [] ops' = (l', rets') ->
    (forall x, covers l x <-> covers l' x) -> l = l'.
Proof.
  intros Ho. assert (iset_ok []) as H0 by (split; [done|]; intros x []%covers_nil).
  pose proof (iset_run_ok ops [] H0 Ho) as Hr. destruct (iset_run [] ops) as [l rets]. destruct Hr as [Hl Hs].
  split; [done|]. intros ops' l' rets' Ho' E Hx. pose proof (iset_run_ok ops' [] H0 Ho') as Hr. rewrite E in Hr.
  apply (iset_ext l 0 0 l'); [apply Hl|apply Hr|done].
Qed.

(** The legacy ranges, a page, a block of 2 MB and the page given back *)
Definition legacy_ops : list iset_op :=
  [OpInsert 0x10000 0xFEDF0000 true; OpInsert 0xFEF00000 0x7F01100000 true; OpAlloc 0x1000 true;
   OpAlloc 0x200000 true; OpInsert 0x10000 0x1000 true; OpAlloc 3 true; OpInsert 0x20000 0x1000 true].

Lemma interval_set_refines_witness :
  iset_run [] legacy_ops =
    ([IR 0x10000 0x1F0000; IR 0x400000 0xFEA00000; IR 0xFEF00000 0x7F01100000],
     [(0, None); (0, None); (0, Some 0x10000); (0, Some 0x200000); (0, None); (EINVAL, None); (EINVAL, None)]) /\
  let '(l, rets) := iset_run [] legacy_ops in
  set_run (covers []) legacy_ops rets (covers l) /\
  forall ops' l' rets', Forall op_ok ops' -> iset_run [] ops' = (l', rets') ->
    (forall x, covers l x <-> covers l' x) -> l = l'.
Proof.
  split; [vm_compute; reflexivity|]. apply (interval_set_refines legacy_ops).
  unfold legacy_ops. repeat (constructor; [simpl; lia|]). constructor.
Defined.

(** ** What the bounds keep out *)

(** The guard against wrapping tests the end of the block and not the rounding of its start: a
    block is handed out that is not in the set, and the set then holds addresses it never had. *)
Theorem iset_alloc_wraps :
  let l := [IR (2 ^ 64 - 100) 50] in
  let '(ret, l', a) := iset_alloc_range l 4096 true in
  iset_wf l /\ ret = 0 /\ a = Some 0 /\ ~ covers l 0 /\ l' = [IR (2 ^ 64 - 100) 100; IR 4096 (2 ^ 64 - 50 - 4096)].
Proof.
  cbv zeta. replace (iset_alloc_range _ _ _)
    with (0, [IR (2 ^ 64 - 100) 100; IR 4096 (2 ^ 64 - 50 - 4096)], Some 0) by (vm_compute; reflexivity).
  split_and!; [unfold iset_wf; simpl; unfold r_end; simpl; lia|done|done| |done].
  intros [H|[]%covers_nil]%covers_cons. unfold in_range in H. simpl in H. lia.
Qed.
