(* ===== verification/Vfio.v ===== *)
(** The device driven from user space (providers/mlx5/mlx5_vfio.c, mlx5_vfio.h): the addresses of
    the device and their mappings, the pages lent to the firmware, and the mailboxes of commands.

    A failed [assert] and an access to memory that was given back are [None].  The answers of
    [calloc], [posix_memalign] and [ioctl] come from one sequence [v_sys], of which each call takes
    the next: a pointer or 0 for the allocators, 0 or an error for [ioctl]; those of the requests to
    unmap are in a sequence of their own, [v_unmap], with the same count of calls.  The calls run under
    the locks of the context, so each is one step. *)

From stdpp Require Import base numbers list gmap.
From S2P Require Import Prelude Types Mem Bitmap BitmapOps IntervalSet.

(** * The context *)

Definition MLX5_ADAPTER_PAGE_SIZE : Z := 4096.
Definition MLX5_VFIO_BLOCK_SIZE : Z := 2 * 1024 * 1024.
Definition MLX5_VFIO_BLOCK_NUM_PAGES : Z := MLX5_VFIO_BLOCK_SIZE / MLX5_ADAPTER_PAGE_SIZE.
Definition MLX5_CMD_DATA_BLOCK_SIZE : Z := 512.

Record page_block := PB { page_ptr : Z; pb_iova : Z; free_pages : bitmap }.

(** A mapping of the container: device addresses [iova, iova + size) are memory at [vaddr] *)
Record dma_map := DM { dm_vaddr : Z; dm_iova : Z; dm_size : Z }.

Record mlx5_cmd_mailbox := MB { mb_buf : Z; mb_iova : Z; mb_next : Z }.

#[export] Instance mlx5_cmd_mailbox_eq_dec : EqDecision mlx5_cmd_mailbox.
Proof. solve_decision. Defined.

(** A message: its length and its first mailbox, 0 for none *)
Record mlx5_cmd_msg := MSG { msg_len : Z; msg_next : Z }.

Record vfio := VFIO {
  v_mem : mem;                          (* memory of the process *)
  v_iova : iset;                        (* iova_alloc *)
  v_dma : list dma_map;                 (* mappings of the container *)
  v_blocks : list page_block;           (* mem_alloc.block_list *)
  v_boxes : gmap Z mlx5_cmd_mailbox;    (* mailboxes in use, by address *)
  v_sys : nat -> Z;                     (* answers of the system *)
  v_unmap : nat -> Z;                   (* .. to requests to unmap *)
  v_tick : nat;                         (* .. and how many were taken *)
}.

Definition set_mem (f : mem -> mem) (c : vfio) : vfio :=
  VFIO (f c.(v_mem)) c.(v_iova) c.(v_dma) c.(v_blocks) c.(v_boxes) c.(v_sys) c.(v_unmap) c.(v_tick).
Definition set_iova (l : iset) (c : vfio) : vfio :=
  VFIO c.(v_mem) l c.(v_dma) c.(v_blocks) c.(v_boxes) c.(v_sys) c.(v_unmap) c.(v_tick).
Definition set_dma (d : list dma_map) (c : vfio) : vfio :=
  VFIO c.(v_mem) c.(v_iova) d c.(v_blocks) c.(v_boxes) c.(v_sys) c.(v_unmap) c.(v_tick).
Definition set_blocks (b : list page_block) (c : vfio) : vfio :=
  VFIO c.(v_mem) c.(v_iova) c.(v_dma) b c.(v_boxes) c.(v_sys) c.(v_unmap) c.(v_tick).
Definition set_boxes (b : gmap Z mlx5_cmd_mailbox) (c : vfio) : vfio :=
  VFIO c.(v_mem) c.(v_iova) c.(v_dma) c.(v_blocks) b c.(v_sys) c.(v_unmap) c.(v_tick).

(** The next answer of the system *)
Definition ask (c : vfio) : Z * vfio :=
  (c.(v_sys) c.(v_tick), VFIO c.(v_mem) c.(v_iova) c.(v_dma) c.(v_blocks) c.(v_boxes) c.(v_sys) c.(v_unmap) (S c.(v_tick))).

(** * Addresses of the device *)

(** [iset_alloc_range] and [iset_insert_range] on [ctx->iova_alloc] *)
Definition iova_take (c : vfio) (length : Z) : Z * option Z * vfio :=
  let '(got, c) := ask c in
  let '(ret, l, start) := iset_alloc_range c.(v_iova) length (negb (got =? 0)) in (ret, start, set_iova l c).

Definition iova_give (c : vfio) (start length : Z) : Z * vfio :=
  let '(got, c) := ask c in
  let '(ret, l) := iset_insert_range c.(v_iova) start length (negb (got =? 0)) in (ret, set_iova l c).

Definition mlx5_vfio_register_mem (c : vfio) (vaddr iova size : Z) : Z * vfio :=
  let '(ret, c) := ask c in
  (ret, if ret =? 0 then set_dma (DM vaddr iova size :: c.(v_dma)) c else c).

(** The kernel drops the mappings inside the range *)
Definition mapped_in (iova size : Z) (d : dma_map) : bool :=
  (iova <=? d.(dm_iova)) && (d.(dm_iova) + d.(dm_size) <=? iova + size).

Definition mlx5_vfio_unregister_mem (c : vfio) (iova size : Z) : option vfio :=
  let ret := c.(v_unmap) c.(v_tick) in
  let '(_, c) := ask c in
  if ret =? 0 then Some (set_dma (filter (fun d => mapped_in iova size d = false) c.(v_dma)) c) else None.

(** * Pages *)

Definition mlx5_vfio_new_block (c : vfio) : option (option page_block * vfio) :=
  let '(p, c) := ask c in
  if p =? 0 then Some (None, c)
  else
    let '(ptr, c) := ask c in
    if ptr =? 0 then Some (None, c)
    else
      match iova_take c MLX5_VFIO_BLOCK_SIZE with
      | (_, None, c) => Some (None, c)
      | (_, Some iova, c) =>
        bm ← bitmap_fill (replicate (bitmap_nwords MLX5_VFIO_BLOCK_NUM_PAGES) 0) MLX5_VFIO_BLOCK_NUM_PAGES;
        let block := PB ptr iova bm in
        let '(err, c) := mlx5_vfio_register_mem c ptr iova MLX5_VFIO_BLOCK_SIZE in
        if err =? 0 then Some (Some block, set_blocks (block :: c.(v_blocks)) c)
        else let '(_, c) := iova_give c iova MLX5_VFIO_BLOCK_SIZE in Some (None, c)
      end.

(** [mlx5_vfio_free_block] of the block at place [i] of the list *)
Definition mlx5_vfio_free_block (c : vfio) (i : nat) : option vfio :=
  b ← c.(v_blocks) !! i;
  c ← mlx5_vfio_unregister_mem c b.(pb_iova) MLX5_VFIO_BLOCK_SIZE;
  let '(_, c) := iova_give c b.(pb_iova) MLX5_VFIO_BLOCK_SIZE in
  Some (set_blocks (delete i c.(v_blocks)) c).

(** The first free page of the list: its address and the list without it *)
Fixpoint find_free_page (l : list page_block) : option (option (Z * list page_block)) :=
  match l with
  | [] => Some None
  | b :: l =>
    pg ← bitmap_ffs b.(free_pages) 0 MLX5_VFIO_BLOCK_NUM_PAGES;
    if negb (pg =? MLX5_VFIO_BLOCK_NUM_PAGES) then
      bm ← bitmap_clear_bit b.(free_pages) pg;
      Some (Some (u64 (b.(pb_iova) + pg * MLX5_ADAPTER_PAGE_SIZE), PB b.(page_ptr) b.(pb_iova) bm :: l))
    else
      r ← find_free_page l;
      Some (match r with Some (iova, l) => Some (iova, b :: l) | None => None end)
  end.

(** [mlx5_vfio_alloc_page]: the page, or [None] for -1.  The loop adds a block when no page is
    free; [fuel] bounds its rounds *)
Fixpoint mlx5_vfio_alloc_page (fuel : nat) (c : vfio) : option (option Z * vfio) :=
  match fuel with
  | O => None
  | S fuel =>
    r ← find_free_page c.(v_blocks);
    match r with
    | Some (iova, l) => Some (Some iova, set_blocks l c)
    | None =>
      n ← mlx5_vfio_new_block c;
      match n with
      | (Some _, c) => mlx5_vfio_alloc_page fuel c
      | (None, c) => Some (None, c)
      end
    end
  end.

(** The block of the list that holds an address, from place [i] on *)
Fixpoint block_holding (l : list page_block) (i : nat) (iova : Z) : option (nat * page_block) :=
  match l with
  | [] => None
  | b :: l =>
    if (iova <? b.(pb_iova)) || (u64 (b.(pb_iova) + MLX5_VFIO_BLOCK_SIZE) <=? iova)
    then block_holding l (S i) iova else Some (i, b)
  end.

Definition mlx5_vfio_free_page (c : vfio) (iova : Z) : option vfio :=
  '(i, b) ← block_holding c.(v_blocks) 0 iova;
  let pg := u64 (iova - b.(pb_iova)) / MLX5_ADAPTER_PAGE_SIZE in
  free ← bitmap_test_bit b.(free_pages) pg;
  if (free : bool) then None
  else
    bm ← bitmap_set_bit b.(free_pages) pg;
    let c := set_blocks (<[i := PB b.(page_ptr) b.(pb_iova) bm]> c.(v_blocks)) c in
    full ← bitmap_full bm MLX5_VFIO_BLOCK_NUM_PAGES;
    if (full : bool) then mlx5_vfio_free_block c i else Some c.

(** * Start and end *)

Definition MLX5_VFIO_IOVA_MIN1 : Z := 0x10000.
Definition MLX5_VFIO_IOVA_MAX1 : Z := 0xFEDFFFFF.
Definition MLX5_VFIO_IOVA_MIN2 : Z := 0xFEF00000.
Definition MLX5_VFIO_IOVA_MAX2 : Z := Z.shiftl 1 39 - 1.

(** Ranges from [first] to [last] made free, in order, until one fails *)
Fixpoint insert_ranges (c : vfio) (ranges : list (Z * Z)) : Z * vfio :=
  match ranges with
  | [] => (0, c)
  | (first, last) :: ranges =>
    let '(ret, c) := iova_give c first (u64 (last - first + 1)) in
    if ret =? 0 then insert_ranges c ranges else (ret, c)
  end.

(** [mlx5_vfio_get_iommu_info]: [info] is what the kernel answered, an error or the ranges of the
    device, if it reports any *)
Definition mlx5_vfio_get_iommu_info (c : vfio) (info : Z + option (list (Z * Z))) : Z * vfio :=
  match info with
  | inl err => (err, c)
  | inr (Some ranges) => insert_ranges c ranges
  | inr None =>
    insert_ranges c [(MLX5_VFIO_IOVA_MIN1, MLX5_VFIO_IOVA_MAX1); (MLX5_VFIO_IOVA_MIN2, MLX5_VFIO_IOVA_MAX2)]
  end.

(** [mlx5_vfio_init_device_dma]: the set, the ranges and a first block *)
Definition mlx5_vfio_init_device_dma (c : vfio) (info : Z + option (list (Z * Z))) : option (Z * vfio) :=
  let '(p, c) := ask c in
  if p =? 0 then Some (-1, c)
  else
    let c := set_blocks [] (set_iova [] c) in
    let '(ret, c) := mlx5_vfio_get_iommu_info c info in
    if negb (ret =? 0) then Some (-1, set_iova [] c)
    else
      r ← mlx5_vfio_new_block c;
      match r with
      | (Some _, c) => Some (0, c)
      | (None, c) => Some (-1, set_iova [] c)
      end.

(** [mlx5_vfio_clean_device_dma]: every block from the first on, then the set *)
Fixpoint free_blocks (k : nat) (c : vfio) : option vfio :=
  match k with
  | O => Some c
  | S k => c ← mlx5_vfio_free_block c 0; free_blocks k c
  end.

Definition mlx5_vfio_clean_device_dma (c : vfio) : option vfio :=
  c ← free_blocks (length c.(v_blocks)) c; Some (set_iova [] c).
