(* ===== verification/VfioCmd.v ===== *)
(** Commands to the firmware over mailboxes and the events that complete them
    (providers/mlx5/mlx5_vfio.c): messages, the command queue, page requests and the event queue.
    A context is [vfio] with the slots of the command queue and the event queue. *)

From stdpp Require Import base numbers list gmap.
From S2P Require Import Prelude Types Mem IntervalSet Vfio.

(** * Fields of device structures (mlx5dv.h) *)

Definition devx_dw_bit_off (bit_sz bit_off : Z) : Z := 32 - bit_sz - Z.land bit_off 0x1f.
Definition devx_mask (bit_sz : Z) : Z := u32 (Z.shiftl 1 bit_sz - 1).
Definition devx_dw_mask (bit_sz bit_off : Z) : Z := u32 (Z.shiftl (devx_mask bit_sz) (devx_dw_bit_off bit_sz bit_off)).

Definition devx_set (p value bit_off bit_sz : Z) (m : mem) : mem :=
  let fld := p + 4 * (bit_off / 32) in
  store_be 4 fld (Z.lor (Z.land (load_be 4 fld m) (u32 (Z.lnot (devx_dw_mask bit_sz bit_off))))
                    (u32 (Z.shiftl (Z.land value (devx_mask bit_sz)) (devx_dw_bit_off bit_sz bit_off)))) m.

Definition devx_get (p bit_off bit_sz : Z) (m : mem) : Z :=
  Z.land (Z.shiftr (load_be 4 (p + 4 * (bit_off / 32)) m) (devx_dw_bit_off bit_sz bit_off)) (devx_mask bit_sz).

Definition devx_set64 (p v bit_off : Z) (m : mem) : mem := store_be 8 (p + 8 * (bit_off / 64)) v m.
Definition devx_get64 (p bit_off : Z) (m : mem) : Z := load_be 8 (p + 8 * (bit_off / 64)) m.

(** * Mailboxes *)

(** Offsets in [struct mlx5_cmd_block], which a mailbox's buffer holds *)
Definition off_blk_next : Z := 560.
Definition off_blk_num : Z := 568.

Definition free_cmd_box (c : vfio) (p : Z) : option vfio :=
  b ← c.(v_boxes) !! p;
  c ← mlx5_vfio_unregister_mem c b.(mb_iova) MLX5_ADAPTER_PAGE_SIZE;
  let '(_, c) := iova_give c b.(mb_iova) MLX5_ADAPTER_PAGE_SIZE in
  Some (set_boxes (delete p c.(v_boxes)) c).

(** [alloc_cmd_box]: the mailbox, 0 for none *)
Definition alloc_cmd_box (c : vfio) : Z * vfio :=
  let '(p, c) := ask c in
  if p =? 0 then (0, c)
  else
    let '(buf, c) := ask c in
    if buf =? 0 then (0, c)
    else
      let c := set_mem (memset buf 0 MLX5_ADAPTER_PAGE_SIZE) c in
      match iova_take c MLX5_ADAPTER_PAGE_SIZE with
      | (_, None, c) => (0, c)
      | (_, Some iova, c) =>
        let '(ret, c) := mlx5_vfio_register_mem c buf iova MLX5_ADAPTER_PAGE_SIZE in
        if ret =? 0 then (p, set_boxes (<[p := MB buf iova 0]> c.(v_boxes)) c)
        else let '(_, c) := iova_give c iova MLX5_ADAPTER_PAGE_SIZE in (0, c)
      end.

(** [int size = msg_len] and [DIV_ROUND_UP], which is unsigned *)
Definition mlx5_calc_cmd_blocks (len : Z) : Z :=
  let size := s32 len in
  let blen := size - Z.min 16 size in
  s32 (DIV_ROUND_UP (u64 blen) MLX5_CMD_DATA_BLOCK_SIZE).

(** Giving back the mailboxes from [head] on; [fuel] bounds their number *)
Fixpoint free_chain (fuel : nat) (c : vfio) (head : Z) : option vfio :=
  if head =? 0 then Some c
  else
    match fuel with
    | O => None
    | S fuel => b ← c.(v_boxes) !! head; c ← free_cmd_box c head; free_chain fuel c b.(mb_next)
    end.

Definition free_boxes (c : vfio) (head : Z) : option vfio := free_chain (size c.(v_boxes)) c head.

(** [mlx5_vfio_free_cmd_msg] leaves [msg->next] as it is *)
Definition mlx5_vfio_free_cmd_msg (c : vfio) (msg : mlx5_cmd_msg) : option (vfio * mlx5_cmd_msg) :=
  c ← free_boxes c msg.(msg_next); Some (c, MSG 0 msg.(msg_next)).

(** A new mailbox in front of [head]: [tmp->next], [block->next] and [block->block_num] *)
Definition push_box (c : vfio) (tmp head num : Z) : option vfio :=
  b ← c.(v_boxes) !! tmp;
  iova ← (if head =? 0 then Some 0 else b ← c.(v_boxes) !! head; Some b.(mb_iova));
  let c := set_boxes (<[tmp := MB b.(mb_buf) b.(mb_iova) head]> c.(v_boxes)) c in
  Some (set_mem (store_be 4 (b.(mb_buf) + off_blk_num) num)
         (set_mem (store_be 8 (b.(mb_buf) + off_blk_next) iova) c)).

(** The loop of [mlx5_vfio_alloc_cmd_msg]: [k] more boxes; the flag is false when one failed, and
    then the head is of those that are left *)
Fixpoint alloc_boxes (k : nat) (c : vfio) (head : Z) : option (bool * vfio * Z) :=
  match k with
  | O => Some (true, c, head)
  | S k =>
    let '(tmp, c) := alloc_cmd_box c in
    if tmp =? 0 then Some (false, c, head)
    else c ← push_box c tmp head (Z.of_nat k); alloc_boxes k c tmp
  end.

(** [mlx5_vfio_alloc_cmd_msg]: a failed call leaves [msg->next] as it was *)
Definition mlx5_vfio_alloc_cmd_msg (c : vfio) (size : Z) (msg : mlx5_cmd_msg) : option (Z * vfio * mlx5_cmd_msg) :=
  r ← alloc_boxes (Z.to_nat (mlx5_calc_cmd_blocks size)) c 0;
  match r with
  | (true, c, head) => Some (0, c, MSG size head)
  | (false, c, head) => c ← free_boxes c head; Some (-1, c, MSG 0 msg.(msg_next))
  end.

(** * Messages *)

(** Offsets in [struct mlx5_cmd_layout] *)
Definition off_type : Z := 0.
Definition off_ilen : Z := 4.
Definition off_iptr : Z := 8.
Definition off_in : Z := 16.
Definition off_out : Z := 32.
Definition off_optr : Z := 48.
Definition off_olen : Z := 56.
Definition off_status_own : Z := 63.
Definition sizeof_lay_in : Z := 16.

(** The loops of [mlx5_copy_to_msg] and [mlx5_copy_from_msg]: [size] bytes over the mailboxes from
    [next] on, [to_box] for the direction; a missing mailbox fails the assertion.  Each round
    copies a byte or more, so [fuel] is the size. *)
Fixpoint copy_boxes (fuel : nat) (to_box : bool) (c : vfio) (next p size : Z) : option vfio :=
  if size =? 0 then Some c
  else
    match fuel with
    | O => None
    | S fuel =>
      b ← c.(v_boxes) !! next;
      let copy := Z.min size MLX5_CMD_DATA_BLOCK_SIZE in
      let c := set_mem (if to_box then memcpy b.(mb_buf) p copy else memcpy p b.(mb_buf) copy) c in
      copy_boxes fuel to_box c b.(mb_next) (p + copy) (size - copy)
    end.

Definition mlx5_copy_to_msg (c : vfio) (to : mlx5_cmd_msg) (from size lay : Z) : option vfio :=
  let copy := Z.min size sizeof_lay_in in
  let c := set_mem (memcpy (lay + off_in) from copy) c in
  copy_boxes (Z.to_nat size) true c to.(msg_next) (from + copy) (size - copy).

Definition mlx5_copy_from_msg (c : vfio) (to : Z) (from : mlx5_cmd_msg) (size lay : Z) : option vfio :=
  let copy := Z.min size sizeof_lay_in in
  let c := set_mem (memcpy to (lay + off_out) copy) c in
  copy_boxes (Z.to_nat size) false c from.(msg_next) (to + copy) (size - copy).

(** [mlx5_vfio_enlarge_cmd_msg]: the old mailboxes go first; [is_in] chooses the field of the layout
    that points to the first mailbox *)
Definition mlx5_vfio_enlarge_cmd_msg (c : vfio) (msg : mlx5_cmd_msg) (lay len : Z) (is_in : bool)
    : option (Z * vfio * mlx5_cmd_msg) :=
  '(c, msg) ← mlx5_vfio_free_cmd_msg c msg;
  r ← mlx5_vfio_alloc_cmd_msg c len msg;
  let '(err, c, msg) := r in
  if negb (err =? 0) then Some (err, c, msg)
  else
    b ← c.(v_boxes) !! msg.(msg_next);
    Some (0, set_mem (store_be 8 (lay + if is_in then off_iptr else off_optr) b.(mb_iova)) c, msg).

Definition mlx5_vfio_cmd_prep_in (c : vfio) (cmd_in : mlx5_cmd_msg) (lay in_ ilen : Z)
    : option (Z * vfio * mlx5_cmd_msg) :=
  r ← (if cmd_in.(msg_len) <? u32 ilen then mlx5_vfio_enlarge_cmd_msg c cmd_in lay ilen true
       else Some (0, c, cmd_in));
  let '(err, c, cmd_in) := r in
  if negb (err =? 0) then Some (err, c, cmd_in)
  else
    c ← mlx5_copy_to_msg c cmd_in in_ ilen lay;
    Some (0, set_mem (store_be 4 (lay + off_ilen) ilen) c, cmd_in).

(** Zeroing the output mailboxes, [olen] bytes and more *)
Fixpoint zero_boxes (fuel : nat) (c : vfio) (tmp olen : Z) : option vfio :=
  if olen <=? 0 then Some c
  else
    match fuel with
    | O => None
    | S fuel =>
      b ← c.(v_boxes) !! tmp;
      let c := set_mem (memset b.(mb_buf) 0 MLX5_CMD_DATA_BLOCK_SIZE) c in
      let olen := olen - MLX5_CMD_DATA_BLOCK_SIZE in
      if (b.(mb_next) =? 0) && negb (olen <=? 0) then None else zero_boxes fuel c b.(mb_next) olen
    end.

Definition mlx5_vfio_cmd_prep_out (c : vfio) (cmd_out : mlx5_cmd_msg) (lay olen : Z)
    : option (Z * vfio * mlx5_cmd_msg) :=
  let c := set_mem (store_be 4 (lay + off_olen) olen) c in
  let c := set_mem (memset (lay + off_out) 0 sizeof_lay_in) c in
  if cmd_out.(msg_len) <? u32 olen then mlx5_vfio_enlarge_cmd_msg c cmd_out lay olen false
  else
    c ← zero_boxes (Z.to_nat olen) c cmd_out.(msg_next) (olen - Z.min olen sizeof_lay_in);
    Some (0, c, cmd_out).

(** * The command queue *)

Definition MLX5_MAX_COMMANDS : nat := 32.
Definition MLX5_PCI_CMD_XPORT : Z := 7.

Record cmd_async_data := AD { buff_in : Z; a_ilen : Z; buff_out : Z; a_olen : Z }.

(** [vfio_cmd_slot_comp]: [mlx5_vfio_cmd_comp] or [mlx5_vfio_process_page_request_comp] *)
Inductive vfio_cmd_slot_comp := CmdComp | PageRequestComp.

Record mlx5_vfio_cmd_slot := SLOT {
  lay : Z; cs_in : mlx5_cmd_msg; cs_out : mlx5_cmd_msg;
  completions : Z;                      (* the counter of completion_event_fd *)
  comp_func : option vfio_cmd_slot_comp;
  in_use : bool; curr : cmd_async_data; is_pending : bool; pending : cmd_async_data;
}.

Record mlx5_eq := EQ { eq_vaddr : Z; nent : Z; cons_index : Z; eqn : Z }.

Record vctx := VCTX {
  x_v : vfio;
  cmds : list mlx5_vfio_cmd_slot;
  async_eq : mlx5_eq;
  have_eq : bool;
  cmd_bells : list Z;                   (* writes of init_seg->cmd_dbell, the last first *)
  eq_bells : list (bool * Z);           (* writes of the doorbell of the event queue *)
  bufs : gset Z;                        (* input and output buffers in use *)
}.

Definition set_v (v : vfio) (x : vctx) : vctx :=
  VCTX v x.(cmds) x.(async_eq) x.(have_eq) x.(cmd_bells) x.(eq_bells) x.(bufs).
Definition set_cmds (l : list mlx5_vfio_cmd_slot) (x : vctx) : vctx :=
  VCTX x.(x_v) l x.(async_eq) x.(have_eq) x.(cmd_bells) x.(eq_bells) x.(bufs).
Definition set_live_bufs (b : gset Z) (x : vctx) : vctx :=
  VCTX x.(x_v) x.(cmds) x.(async_eq) x.(have_eq) x.(cmd_bells) x.(eq_bells) b.
Definition ring_cmd (v : Z) (x : vctx) : vctx :=
  VCTX x.(x_v) x.(cmds) x.(async_eq) x.(have_eq) (v :: x.(cmd_bells)) x.(eq_bells) x.(bufs).

Definition set_slot (i : nat) (s : mlx5_vfio_cmd_slot) (x : vctx) : vctx := set_cmds (<[i := s]> x.(cmds)) x.

(** [calloc(1, size)] of a buffer, 0 for none, and [free], which faults on one not in use *)
Definition buf_calloc (x : vctx) (size : Z) : Z * vctx :=
  let '(p, v) := ask x.(x_v) in
  if p =? 0 then (0, set_v v x) else (p, set_live_bufs ({[p]} ∪ x.(bufs)) (set_v (set_mem (memset p 0 size) v) x)).
Definition buf_free (x : vctx) (p : Z) : option vctx :=
  if decide (p ∈ x.(bufs)) then Some (set_live_bufs (x.(bufs) ∖ {[p]}) x) else None.

Definition slot_msgs (i o : mlx5_cmd_msg) (s : mlx5_vfio_cmd_slot) : mlx5_vfio_cmd_slot :=
  SLOT s.(lay) i o s.(completions) s.(comp_func) s.(in_use) s.(curr) s.(is_pending) s.(pending).
Definition slot_curr (d : cmd_async_data) (s : mlx5_vfio_cmd_slot) : mlx5_vfio_cmd_slot :=
  SLOT s.(lay) s.(cs_in) s.(cs_out) s.(completions) s.(comp_func) true d s.(is_pending) s.(pending).
Definition slot_pending (d : cmd_async_data) (s : mlx5_vfio_cmd_slot) : mlx5_vfio_cmd_slot :=
  SLOT s.(lay) s.(cs_in) s.(cs_out) s.(completions) s.(comp_func) s.(in_use) s.(curr) true d.
Definition slot_finish (s : mlx5_vfio_cmd_slot) : mlx5_vfio_cmd_slot :=
  SLOT s.(lay) s.(cs_in) s.(cs_out) s.(completions) s.(comp_func) false s.(curr) s.(is_pending) s.(pending).
Definition slot_unpend (s : mlx5_vfio_cmd_slot) : mlx5_vfio_cmd_slot :=
  SLOT s.(lay) s.(cs_in) s.(cs_out) s.(completions) s.(comp_func) s.(in_use) s.(curr) false s.(pending).
Definition slot_complete (s : mlx5_vfio_cmd_slot) : mlx5_vfio_cmd_slot :=
  SLOT s.(lay) s.(cs_in) s.(cs_out) (s.(completions) + 1) s.(comp_func) s.(in_use) s.(curr) s.(is_pending) s.(pending).
(** reading [completion_event_fd] takes all of its count *)
Definition slot_read (s : mlx5_vfio_cmd_slot) : mlx5_vfio_cmd_slot :=
  SLOT s.(lay) s.(cs_in) s.(cs_out) 0 s.(comp_func) s.(in_use) s.(curr) s.(is_pending) s.(pending).

Definition mlx5_vfio_post_cmd (x : vctx) (in_ ilen out olen : Z) (slot : nat) (async : bool) : option (Z * vctx) :=
  s ← x.(cmds) !! slot;
  if async && s.(in_use) then
    if s.(is_pending) then None
    else Some (0, set_slot slot (slot_pending (AD in_ ilen out olen) s) x)
  else
    r ← mlx5_vfio_cmd_prep_in x.(x_v) s.(cs_in) s.(lay) in_ ilen;
    let '(err, v, i) := r in
    let x := set_slot slot (slot_msgs i s.(cs_out) s) (set_v v x) in
    if negb (err =? 0) then Some (err, x)
    else
      r ← mlx5_vfio_cmd_prep_out v s.(cs_out) s.(lay) olen;
      let '(err, v, o) := r in
      let s := slot_msgs i o s in
      let x := set_slot slot s (set_v v x) in
      if negb (err =? 0) then Some (err, x)
      else
        let x := if async then set_slot slot (slot_curr (AD in_ ilen out olen) s) x else x in
        let x := set_v (set_mem (store_be 1 (s.(lay) + off_status_own) 1) x.(x_v)) x in
        Some (0, ring_cmd (u32 (Z.shiftl 1 (Z.of_nat slot))) x).

(** [mlx5_vfio_setup_cmd_slot]: [vaddr] is the page of the command queue and [log_stride] the logarithm of
    the distance of two layouts; the next answer of the system is 0 when [eventfd] gave a descriptor *)
Definition mlx5_vfio_setup_cmd_slot (x : vctx) (vaddr log_stride : Z) (slot : nat) : option (Z * vctx) :=
  s ← x.(cmds) !! slot;
  r ← mlx5_vfio_alloc_cmd_msg x.(x_v) 4096 s.(cs_in);
  let '(ret, v, i) := r in
  let x := set_slot slot (slot_msgs i s.(cs_out) s) (set_v v x) in
  if negb (ret =? 0) then Some (ret, x)
  else
    r ← mlx5_vfio_alloc_cmd_msg v 4096 s.(cs_out);
    let '(ret, v, o) := r in
    if negb (ret =? 0) then
      '(v, i) ← mlx5_vfio_free_cmd_msg v i;
      Some (ret, set_slot slot (slot_msgs i o s) (set_v v x))
    else
      let cmd_lay := vaddr + Z.of_nat slot * Z.shiftl 1 log_stride in
      bi ← v.(v_boxes) !! i.(msg_next);
      bo ← v.(v_boxes) !! o.(msg_next);
      let v := set_mem (fun m => store_be 8 (cmd_lay + off_optr) bo.(mb_iova)
                 (store_be 8 (cmd_lay + off_iptr) bi.(mb_iova) (store_be 1 (cmd_lay + off_type) MLX5_PCI_CMD_XPORT m))) v in
      let '(fd, v) := ask v in
      if negb (fd =? 0) then
        '(v, o) ← mlx5_vfio_free_cmd_msg v o;
        '(v, i) ← mlx5_vfio_free_cmd_msg v i;
        Some (-1, set_slot slot (SLOT cmd_lay i o 0 s.(comp_func) s.(in_use) s.(curr) s.(is_pending) s.(pending)) (set_v v x))
      else
        let f := if decide (slot = MLX5_MAX_COMMANDS - 1)%nat then PageRequestComp else CmdComp in
        Some (0, set_slot slot (SLOT cmd_lay i o 0 (Some f) s.(in_use) s.(curr) s.(is_pending) s.(pending)) (set_v v x)).

(** [mlx5_vfio_free_cmd_slot]; closing the descriptor changes nothing of the model *)
Definition mlx5_vfio_free_cmd_slot (x : vctx) (slot : nat) : option vctx :=
  s ← x.(cmds) !! slot;
  '(v, i) ← mlx5_vfio_free_cmd_msg x.(x_v) s.(cs_in);
  '(v, o) ← mlx5_vfio_free_cmd_msg v s.(cs_out);
  Some (set_slot slot (slot_msgs i o s) (set_v v x)).

(** Errors of errno.h *)
Definition EIO : Z := 5.
Definition EAGAIN : Z := 11.
Definition CMD_EBUSY : Z := 16.
Definition ETIMEDOUT : Z := 110.

Definition cmd_status_to_err (status : Z) : Z :=
  match status with
  | 0 => 0                              (* MLX5_CMD_STAT_OK *)
  | 0x1 => EIO                          (* MLX5_CMD_STAT_INT_ERR *)
  | 0x2 => EINVAL                       (* MLX5_CMD_STAT_BAD_OP_ERR *)
  | 0x3 => EINVAL                       (* MLX5_CMD_STAT_BAD_PARAM_ERR *)
  | 0x4 => EIO                          (* MLX5_CMD_STAT_BAD_SYS_STATE_ERR *)
  | 0x5 => EINVAL                       (* MLX5_CMD_STAT_BAD_RES_ERR *)
  | 0x6 => CMD_EBUSY                    (* MLX5_CMD_STAT_RES_BUSY *)
  | 0x8 => ENOMEM                       (* MLX5_CMD_STAT_LIM_ERR *)
  | 0x9 => EINVAL                       (* MLX5_CMD_STAT_BAD_RES_STATE_ERR *)
  | 0xa => EINVAL                       (* MLX5_CMD_STAT_IX_ERR *)
  | 0xf => EAGAIN                       (* MLX5_CMD_STAT_NO_RES_ERR *)
  | 0x50 => EIO                         (* MLX5_CMD_STAT_BAD_INP_LEN_ERR *)
  | 0x51 => EIO                         (* MLX5_CMD_STAT_BAD_OUTP_LEN_ERR *)
  | 0x10 => EINVAL                      (* MLX5_CMD_STAT_BAD_QP_STATE_ERR *)
  | 0x30 => EINVAL                      (* MLX5_CMD_STAT_BAD_PKT_ERR *)
  | 0x40 => EINVAL                      (* MLX5_CMD_STAT_BAD_SIZE_OUTS_CQES_ERR *)
  | _ => EIO
  end.

(** [mlx5_vfio_cmd_check] without its message: the first byte of the output is the status *)
Definition mlx5_vfio_cmd_check (m : mem) (out : Z) : Z :=
  let status := devx_get out 0 8 m in
  if status =? 0 then 0 else cmd_status_to_err status.

(** * Page requests *)

Definition MLX5_CMD_OP_MANAGE_PAGES : Z := 0x108.
Definition MLX5_PAGES_GIVE : Z := 1.
Definition MLX5_PAGES_TAKE : Z := 2.

(** [manage_pages_in] and [manage_pages_out]: sizes without the pages, and the pages *)
Definition manage_pages_sz : Z := 16.
Definition off_pas (i : Z) : Z := 0x80 + 0x40 * i.

(** The header of a MANAGE_PAGES command *)
Definition manage_pages_hdr (in_ op_mod func_id npages : Z) (m : mem) : mem :=
  devx_set in_ npages 0x60 0x20 (devx_set in_ func_id 0x50 0x10
    (devx_set in_ op_mod 0x30 0x10 (devx_set in_ MLX5_CMD_OP_MANAGE_PAGES 0 0x10 m))).

Definition page_slot : nat := MLX5_MAX_COMMANDS - 1.

Definition mlx5_vfio_reclaim_pages (x : vctx) (func_id npages : Z) : option (Z * vctx) :=
  let inlen := manage_pages_sz in
  let outlen := s32 (manage_pages_sz + npages * 8) in
  let '(out, x) := buf_calloc x outlen in
  if out =? 0 then Some (ENOMEM, x)
  else
    let '(in_, x) := buf_calloc x inlen in
    if in_ =? 0 then x ← buf_free x out; Some (ENOMEM, x)
    else
      let x := set_v (set_mem (manage_pages_hdr in_ MLX5_PAGES_TAKE func_id npages) x.(x_v)) x in
      r ← mlx5_vfio_post_cmd x in_ inlen out outlen page_slot true;
      let '(err, x) := r in
      if err =? 0 then Some (0, x)
      else x ← buf_free x in_; x ← buf_free x out; Some (err, x).

(** The loop that takes pages [i] to [i + k - 1] and lists them in the command; the flag is false
    when one failed, with the number of those taken *)
Fixpoint take_pages (k : nat) (v : vfio) (in_ i : Z) : option (bool * Z * vfio) :=
  match k with
  | O => Some (true, i, v)
  | S k =>
    r ← mlx5_vfio_alloc_page 2 v;
    match r with
    | (None, v) => Some (false, i, v)
    | (Some iova, v) => take_pages k (set_mem (devx_set64 in_ iova (off_pas i)) v) in_ (i + 1)
    end
  end.

(** Pages [k - 1] down to 0 of the list given back *)
Fixpoint hand_back (k : nat) (v : vfio) (p : Z) : option vfio :=
  match k with
  | O => Some v
  | S k => v ← mlx5_vfio_free_page v (devx_get64 p (off_pas (Z.of_nat k)) v.(v_mem)); hand_back k v p
  end.

(** [mlx5_vfio_give_pages]: [exec] is how the command is carried out, with the output
    at the given address ([mlx5_vfio_post_cmd] for an event, [mlx5_vfio_cmd_exec] at start up, with
    an output buffer on the stack) *)
Definition mlx5_vfio_give_pages (x : vctx) (func_id npages : Z) (is_event : bool) (stack : Z)
    (exec : vctx -> Z -> Z -> Z -> Z -> option (Z * vctx)) : option (Z * vctx) :=
  let inlen := s32 (manage_pages_sz + npages * 8) in
  let '(in_, x) := buf_calloc x inlen in
  if in_ =? 0 then Some (ENOMEM, x)
  else
    let '(outp, x) := if is_event then buf_calloc x manage_pages_sz
                      else (stack, set_v (set_mem (memset stack 0 manage_pages_sz) x.(x_v)) x) in
    if is_event && (outp =? 0) then x ← buf_free x in_; Some (ENOMEM, x)
    else
      let fail err i x :=
        x ← (if is_event then buf_free x outp else Some x);
        v ← hand_back (Z.to_nat i) x.(x_v) in_;
        x ← buf_free (set_v v x) in_; Some (err, x) in
      r ← take_pages (Z.to_nat npages) x.(x_v) in_ 0;
      match r with
      | (false, i, v) => fail (-1) i (set_v v x)
      | (true, i, v) =>
        let x := set_v (set_mem (manage_pages_hdr in_ MLX5_PAGES_GIVE func_id npages) v) x in
        r ← exec x in_ inlen outp manage_pages_sz;
        let '(err, x) := r in
        if err =? 0 then
          if is_event then Some (0, x) else x ← buf_free x in_; Some (0, x)
        else fail err i x
      end.

(** [mlx5_vfio_post_cmd] on the slot of page commands *)
Definition post_page_cmd (x : vctx) (in_ inlen out outlen : Z) : option (Z * vctx) :=
  mlx5_vfio_post_cmd x in_ inlen out outlen page_slot true.

Definition give_pages_event (x : vctx) (func_id npages : Z) : option (Z * vctx) :=
  mlx5_vfio_give_pages x func_id npages true 0 post_page_cmd.

(** Pages [i] to [i + k - 1] of the answer, which the firmware returned *)
Fixpoint free_claimed (k : nat) (v : vfio) (out i : Z) : option vfio :=
  match k with
  | O => Some v
  | S k => v ← mlx5_vfio_free_page v (devx_get64 out (off_pas i) v.(v_mem)); free_claimed k v out (i + 1)
  end.

(** The answer to a MANAGE_PAGES command: the error, and the context after pages were given back *)
Definition page_request_answer (d : cmd_async_data) (v : vfio) : option (Z * vfio) :=
  let ret := mlx5_vfio_cmd_check v.(v_mem) d.(buff_out) in
  if negb (ret =? 0) then Some (ret, v)
  else if devx_get d.(buff_in) 0x30 0x10 v.(v_mem) =? MLX5_PAGES_GIVE then Some (0, v)
  else
    let num_claimed := devx_get d.(buff_out) 0x40 0x20 v.(v_mem) in
    if devx_get d.(buff_in) 0x60 0x20 v.(v_mem) <? num_claimed then Some (EINVAL, v)
    else v ← free_claimed (Z.to_nat (s32 num_claimed)) v d.(buff_out) 0; Some (0, v).

Definition mlx5_vfio_process_page_request_comp (x : vctx) (slot : nat) : option (Z * vctx) :=
  s ← x.(cmds) !! slot;
  let d := s.(curr) in
  v ← mlx5_copy_from_msg x.(x_v) d.(buff_out) s.(cs_out) d.(a_olen) s.(lay);
  r ← page_request_answer d v;
  let '(ret, v) := r in
  x ← buf_free (set_v v x) d.(buff_in);
  x ← buf_free x d.(buff_out);
  let s := slot_finish s in
  if (ret =? 0) && s.(is_pending) then
    let p := s.(pending) in
    mlx5_vfio_post_cmd (set_slot slot (slot_unpend s) x) p.(buff_in) p.(a_ilen) p.(buff_out) p.(a_olen) slot true
  else Some (ret, set_slot slot s x).

(** [mlx5_vfio_cmd_comp]: the next answer of the system is 0 when [write] wrote all *)
Definition mlx5_vfio_cmd_comp (x : vctx) (slot : nat) : option (Z * vctx) :=
  s ← x.(cmds) !! slot;
  let '(ret, v) := ask x.(x_v) in
  let x := set_v v x in
  if ret =? 0 then Some (0, set_slot slot (slot_complete s) x) else Some (-1, x).

Definition run_comp (f : vfio_cmd_slot_comp) (x : vctx) (slot : nat) : option (Z * vctx) :=
  match f with
  | CmdComp => mlx5_vfio_cmd_comp x slot
  | PageRequestComp => mlx5_vfio_process_page_request_comp x slot
  end.

(** * The event queue *)

Definition MLX5_EQE_SIZE : Z := 64.
Definition MLX5_NUM_SPARE_EQE : Z := 0x80.
Definition MLX5_EVENT_TYPE_CMD : Z := 0x0a.
Definition MLX5_EVENT_TYPE_PAGE_REQUEST : Z := 0xb.

(** Offsets in [struct mlx5_eqe] *)
Definition off_eqe_type : Z := 1.
Definition off_eqe_data : Z := 32.
Definition off_eqe_owner : Z := 63.

Definition get_eqe (eq : mlx5_eq) (entry : Z) : Z := eq.(eq_vaddr) + entry * MLX5_EQE_SIZE.

(** [init_eq_buf]: entries [i] to [i + k - 1] belong to the device *)
Definition MLX5_EQE_OWNER_INIT_VAL : Z := 1.

Fixpoint init_eqes (k : nat) (eq : mlx5_eq) (i : Z) (m : mem) : mem :=
  match k with
  | O => m
  | S k => init_eqes k eq (i + 1) (store_be 1 (get_eqe eq i + off_eqe_owner) MLX5_EQE_OWNER_INIT_VAL m)
  end.

Definition init_eq_buf (eq : mlx5_eq) (m : mem) : mem := init_eqes (Z.to_nat eq.(nent)) eq 0 m.

(** [mlx5_eq_get_eqe]: the entry when the device has written it *)
Definition mlx5_eq_get_eqe (eq : mlx5_eq) (cc : Z) (m : mem) : option Z :=
  let ci := u32 (eq.(cons_index) + cc) in
  let eqe := get_eqe eq (Z.land ci (eq.(nent) - 1)) in
  if xorb (Z.testbit (m (eqe + off_eqe_owner)) 0) (negb (Z.land ci eq.(nent) =? 0)) then None else Some eqe.

Definition eq_update_ci (x : vctx) (cc : Z) (arm : bool) : vctx :=
  let eq := x.(async_eq) in
  let ci := u32 (eq.(cons_index) + cc) in
  let val := Z.lor (Z.land ci 0xffffff) (u32 (Z.shiftl eq.(eqn) 24)) in
  VCTX x.(x_v) x.(cmds) (EQ eq.(eq_vaddr) eq.(nent) ci eq.(eqn)) x.(have_eq) x.(cmd_bells)
    ((arm, val) :: x.(eq_bells)) x.(bufs).

Definition mlx5_eq_update_cc (x : vctx) (cc : Z) : vctx * Z :=
  if MLX5_NUM_SPARE_EQE <=? cc then (eq_update_ci x cc false, 0) else (x, cc).

Definition mlx5_vfio_handle_page_req_event (x : vctx) (eqe : Z) : option (Z * vctx) :=
  let m := x.(x_v).(v_mem) in
  let func_id := load_be 2 (eqe + off_eqe_data + 2) m in
  let num_pages := s32 (load_be 4 (eqe + off_eqe_data + 4) m) in
  if 0 <? num_pages then give_pages_event x func_id num_pages
  else mlx5_vfio_reclaim_pages x func_id (s32 (-1 * num_pages)).

(** The loop of [mlx5_vfio_process_cmd_eqe] over slots [slot] to [slot + k - 1]: the error, the bits
    of the vector left and the number of commands completed *)
Fixpoint comp_slots (k : nat) (x : vctx) (vector : Z) (slot : nat) (count : Z) : option (Z * vctx * Z * Z) :=
  match k with
  | O => Some (0, x, vector, count)
  | S k =>
    if Z.testbit vector (Z.of_nat slot) then
      s ← x.(cmds) !! slot;
      f ← s.(comp_func);
      r ← run_comp f x slot;
      let '(ret, x) := r in
      if negb (ret =? 0) then Some (ret, x, vector, count)
      else comp_slots k x (Z.clearbit vector (Z.of_nat slot)) (S slot) (count + 1)
    else comp_slots k x vector (S slot) count
  end.

Definition mlx5_vfio_process_cmd_eqe (x : vctx) (eqe : Z) : option (Z * vctx) :=
  let vector := load_be 4 (eqe + off_eqe_data) x.(x_v).(v_mem) in
  r ← comp_slots MLX5_MAX_COMMANDS x vector 0 0;
  let '(ret, x, vector, count) := r in
  if negb (ret =? 0) then Some (ret, x)
  else if (vector =? 0) && negb (count =? 0) then Some (0, x) else None.

Definition process_eqe (x : vctx) (eqe : Z) : option (Z * vctx) :=
  let type := x.(x_v).(v_mem) (eqe + off_eqe_type) in
  if type =? MLX5_EVENT_TYPE_CMD then mlx5_vfio_process_cmd_eqe x eqe
  else if type =? MLX5_EVENT_TYPE_PAGE_REQUEST then mlx5_vfio_handle_page_req_event x eqe
  else Some (0, x).

(** The loop of [mlx5_vfio_process_async_events]: the error and the entries not yet reported *)
Fixpoint async_events (fuel : nat) (x : vctx) (cc : Z) : option (Z * vctx * Z) :=
  match mlx5_eq_get_eqe x.(async_eq) cc x.(x_v).(v_mem) with
  | None => Some (0, x, cc)
  | Some eqe =>
    match fuel with
    | O => None
    | S fuel =>
      r ← process_eqe x eqe;
      let '(ret, x) := r in
      let '(x, cc) := mlx5_eq_update_cc x (cc + 1) in
      if negb (ret =? 0) then Some (ret, x, cc) else async_events fuel x cc
    end
  end.

Definition mlx5_vfio_process_async_events (fuel : nat) (x : vctx) : option (Z * vctx) :=
  r ← async_events fuel x 0;
  let '(ret, x, cc) := r in Some (ret, eq_update_ci x cc true).

(** * Carrying out a command *)

(** What the device does to memory while the driver waits *)
Definition device (f : mem -> mem) (x : vctx) : vctx := set_v (set_mem f x.(x_v)) x.

(** A round of [mlx5_vfio_wait_event]: what the device did, an error of [poll], then for each of
    the two descriptors whether it is ready and an error of [read] *)
Record wait_round := WR {
  w_dev : mem -> mem; w_err : option Z;
  w_cmd : bool; w_cmd_err : option Z; w_slot : bool; w_slot_err : option Z;
}.

Fixpoint mlx5_vfio_wait_event (fuel : nat) (x : vctx) (slot : nat) (rounds : list wait_round) : option (Z * vctx) :=
  match rounds with
  | [] => None
  | w :: rounds =>
    let x := device w.(w_dev) x in
    match w.(w_err) with
    | Some e => Some (e, x)
    | None =>
      r ← (if w.(w_cmd) then
             match w.(w_cmd_err) with
             | Some e => Some (e, x)
             | None => mlx5_vfio_process_async_events fuel x
             end
           else Some (0, x));
      let '(err, x) := r in
      if negb (err =? 0) then Some (err, x)
      else if w.(w_slot) then
        match w.(w_slot_err) with
        | Some e => Some (e, x)
        | None =>
          s ← x.(cmds) !! slot;
          let x := set_slot slot (slot_read s) x in
          if Z.testbit (x.(x_v).(v_mem) (s.(lay) + off_status_own)) 0
          then mlx5_vfio_wait_event fuel x slot rounds else Some (0, x)
        end
      else mlx5_vfio_wait_event fuel x slot rounds
    end
  end.

Definition MLX5_CMD_TIMEOUT_MSEC : Z := 60 * 1000.

(** [mlx5_vfio_poll_timeout]: each round is what the device did and the time after it *)
Fixpoint mlx5_vfio_poll_timeout (x : vctx) (layout start : Z) (rounds : list ((mem -> mem) * Z)) : option (Z * vctx) :=
  match rounds with
  | [] => None
  | (f, now) :: rounds =>
    let x := device f x in
    if Z.testbit (x.(x_v).(v_mem) (layout + off_status_own)) 0 then
      if u64 (now - start) <? MLX5_CMD_TIMEOUT_MSEC then mlx5_vfio_poll_timeout x layout start rounds
      else Some (ETIMEDOUT, x)
    else Some (0, x)
  end.

(** What the device and the clock do while a command is carried out *)
Record wait_world := WW { ww_fuel : nat; ww_events : list wait_round; ww_start : Z; ww_polls : list ((mem -> mem) * Z) }.

Definition mlx5_vfio_cmd_exec (w : wait_world) (x : vctx) (in_ ilen out olen : Z) (slot : nat) : option (Z * vctx) :=
  r ← mlx5_vfio_post_cmd x in_ ilen out olen slot false;
  let '(err, x) := r in
  if negb (err =? 0) then Some (err, x)
  else
    s ← x.(cmds) !! slot;
    r ← (if x.(have_eq) then mlx5_vfio_wait_event w.(ww_fuel) x slot w.(ww_events)
         else mlx5_vfio_poll_timeout x s.(lay) w.(ww_start) w.(ww_polls));
    let '(err, x) := r in
    if negb (err =? 0) then Some (err, x)
    else
      s ← x.(cmds) !! slot;
      v ← mlx5_copy_from_msg x.(x_v) out s.(cs_out) olen s.(lay);
      Some (mlx5_vfio_cmd_check v.(v_mem) out, set_v v x).

Definition give_pages_boot (w : wait_world) (x : vctx) (func_id npages stack : Z) : option (Z * vctx) :=
  mlx5_vfio_give_pages x func_id npages false stack
    (fun x in_ inlen out outlen => mlx5_vfio_cmd_exec w x in_ inlen out outlen page_slot).

(** [mlx5_vfio_query_pages] and [mlx5_vfio_satisfy_startup_pages]; [inb] and [outb] are the buffers on
    the stack *)
Definition mlx5_vfio_query_pages (w : wait_world) (x : vctx) (boot : bool) (inb outb : Z)
    : option (Z * Z * Z * vctx) :=
  let x := set_v (set_mem (fun m =>
    devx_set inb (if boot then 1 else 2) 0x30 0x10 (devx_set inb 0x107 0 0x10
      (memset outb 0 16 (memset inb 0 16 m)))) x.(x_v)) x in
  r ← mlx5_vfio_cmd_exec w x inb 16 outb 16 0;
  let '(err, x) := r in
  let m := x.(x_v).(v_mem) in
  Some (err, devx_get outb 0x50 0x10 m, s32 (devx_get outb 0x60 0x20 m), x).

Definition mlx5_vfio_satisfy_startup_pages (w1 w2 : wait_world) (x : vctx) (boot : bool) (inb outb stack : Z)
    : option (Z * vctx) :=
  r ← mlx5_vfio_query_pages w1 x boot inb outb;
  let '(err, func_id, npages, x) := r in
  if negb (err =? 0) then Some (err, x) else give_pages_boot w2 x func_id npages stack.
