(* ===== verification/VfioProps.v ===== *)
(** The addresses and pages of a device driven from user space: every address is free, or in one
    mapping; every page lent to the firmware is in a mapped block and in no other use. *)

From stdpp Require Import base numbers list gmap.
From S2P Require Import Prelude Types Mem Bitmap BitmapProps BitmapOps IntervalSet IntervalProps Vfio VfioCmd.

Create HintDb vfio.

#[local] Arguments ask : simpl never.

Lemma ask_eq c : ask c = ((ask c).1, (ask c).2).
Proof. done. Qed.

(** * Mappings *)

Definition dm_end (d : dma_map) : Z := d.(dm_iova) + d.(dm_size).

Definition in_map (d : dma_map) (x : Z) : Prop := d.(dm_iova) <= x < dm_end d.

Definition map_wf (d : dma_map) : Prop := 0 <= d.(dm_iova) /\ 0 < d.(dm_size) /\ dm_end d <= 2 ^ 63.

(** The free addresses and the mappings share no address. *)
Record dma_ok (l : iset) (D : list dma_map) : Prop := {
  dma_free : iset_ok l;
  dma_wf : forall d, d ∈ D -> map_wf d;
  dma_apart : forall d d', d ∈ D -> d' ∈ D -> d = d' \/ dm_end d <= d'.(dm_iova) \/ dm_end d' <= d.(dm_iova);
  dma_not_free : forall d x, d ∈ D -> in_map d x -> ~ covers l x;
}.

(** Mapping a block that was taken out of the free addresses. *)
Lemma dma_ok_map l l' D vaddr a k :
  0 <= k <= 62 -> dma_ok l D -> iset_ok l' -> block_at k (covers l) a ->
  (forall x, covers l' x <-> covers l x /\ ~ a <= x < a + 2 ^ k) ->
  dma_ok l' (DM vaddr a (2 ^ k) :: D) /\ DM vaddr a (2 ^ k) ∉ D.
Proof.
  intros Hk [F W A N] F' [Ha Hb] C. assert (0 < 2 ^ k) as Hp by (apply Z.pow_pos_nonneg; lia).
  pose proof (Hb a ltac:(lia)) as H0. pose proof (Hb (a + 2 ^ k - 1) ltac:(lia)) as H1.
  assert (map_wf (DM vaddr a (2 ^ k))) as Hw.
  { destruct F as [Fw Fb]. apply (covers_from _ _ _ Fw) in H0. apply Fb in H1. unfold map_wf, dm_end. simpl. lia. }
  assert (forall d, d ∈ D -> a + 2 ^ k <= dm_iova d \/ dm_end d <= a) as Hap.
  { intros d Hd. pose proof (W d Hd) as (W1 & W2 & W3). unfold dm_end in *.
    destruct (decide (a + 2 ^ k <= dm_iova d \/ dm_iova d + dm_size d <= a)); [done|exfalso].
    apply (N d (Z.max a (dm_iova d)) Hd); [unfold in_map, dm_end; lia|]. apply Hb. lia. }
  split.
  - split; [done| | |].
    + intros d [->|Hd]%elem_of_cons; auto.
    + intros d d' [->|Hd]%elem_of_cons [->|Hd']%elem_of_cons; [by left| | |by apply A]; right;
        [specialize (Hap _ Hd')|specialize (Hap _ Hd)]; unfold dm_end in *; simpl in *; lia.
    + intros d x [->|Hd]%elem_of_cons Hx [Hc Hn]%C; [|by apply (N d x)]. unfold in_map, dm_end in Hx. simpl in Hx. tauto.
  - intros Hd. specialize (Hap _ Hd). unfold dm_end in Hap. simpl in Hap. lia.
Qed.

(** Unmapping a mapping drops it and no other. *)
Lemma dma_unmap l D d d' :
  dma_ok l D -> d ∈ D ->
  d' ∈ filter (fun e => mapped_in d.(dm_iova) d.(dm_size) e = false) D <-> d' ∈ D /\ d' <> d.
Proof.
  intros [F W A N] Hd. rewrite list_elem_of_filter. unfold mapped_in. split.
  - intros [Hm Hd']. split; [done|]. intros ->. rewrite andb_false_iff, Z.leb_gt, Z.leb_gt in Hm. lia.
  - intros [Hd' Hne]. split; [|done]. destruct (A _ _ Hd Hd') as [->|Ho]; [done|].
    pose proof (W _ Hd) as (_ & ? & _). pose proof (W _ Hd') as (_ & ? & _). unfold dm_end in *.
    rewrite andb_false_iff, Z.leb_gt, Z.leb_gt. lia.
Qed.

Lemma dma_ok_unmap l l' D D' d :
  dma_ok l D -> d ∈ D -> (forall e, e ∈ D' <-> e ∈ D /\ e <> d) -> iset_ok l' ->
  (forall x, covers l' x -> covers l x \/ in_map d x) -> dma_ok l' D'.
Proof.
  intros [F W A N] Hd HD F' C. split; [done| | |].
  - intros e [He _]%HD. auto.
  - intros e e' [He _]%HD [He' _]%HD. auto.
  - intros e x [He Hne]%HD Hx [Hc|Hc]%C; [by apply (N e x)|].
    destruct (A _ _ He Hd) as [?|Ho]; [done|]. unfold in_map in *. lia.
Qed.

(** ** Taking and giving back *)

Lemma iova_take_spec k c :
  0 <= k <= 62 -> iset_ok c.(v_iova) ->
  exists ret r c', iova_take c (2 ^ k) = (ret, r, c') /\ iset_ok c'.(v_iova) /\
    c' = set_iova c'.(v_iova) (ask c).2 /\
    match r with
    | Some a => ret = 0 /\ block_at k (covers c.(v_iova)) a /\
        forall x, covers c'.(v_iova) x <-> covers c.(v_iova) x /\ ~ a <= x < a + 2 ^ k
    | None => ret <> 0 /\ c'.(v_iova) = c.(v_iova)
    end.
Proof.
  intros Hk Hok. unfold iova_take. simpl. pose proof Hok as [Hw Hb].
  destruct (alloc_exact k ltac:(lia) c.(v_iova) (negb (v_sys c (v_tick c) =? 0)) Hw)
    as [(a & l' & -> & B & L & W & C)|[[-> Hn]|[_ ->]]]; [apply iset_ok_aligns; [lia|done]|..].
  - eexists _, _, _. split; [reflexivity|]. simpl. split_and!; [|done|done..].
    split; [done|]. intros x [Hc _]%C. auto.
  - eexists _, _, _. split; [reflexivity|]. by split_and!.
  - eexists _, _, _. split; [reflexivity|]. by split_and!.
Qed.

(** Giving back a range that is not free; it is free again unless no memory was found. *)
Lemma iova_give_spec c start len :
  iset_ok c.(v_iova) -> 0 <= start -> 0 < len -> start + len <= 2 ^ 63 ->
  (forall x, start <= x < start + len -> ~ covers c.(v_iova) x) ->
  exists ret c', iova_give c start len = (ret, c') /\ iset_ok c'.(v_iova) /\
    c' = set_iova c'.(v_iova) (ask c).2 /\
    (forall x, covers c'.(v_iova) x -> covers c.(v_iova) x \/ start <= x < start + len) /\
    (forall x, covers c.(v_iova) x -> covers c'.(v_iova) x) /\
    ((ask c).1 <> 0 -> forall x, start <= x < start + len -> covers c'.(v_iova) x).
Proof.
  intros Hok Hs Hl He Hn. unfold iova_give. simpl. pose proof Hok as [Hw Hb].
  destruct (insert_apart c.(v_iova) start len (negb (v_sys c (v_tick c) =? 0))) as [(l' & -> & W & C)|(Eg & ->)];
    [done|done|done|lia| | | |].
  - exists (2 ^ 64 - 1). split_and!; [lia|lia|intros ?%Hb; lia|lia].
  - intros (x & Hx & Hc). by apply (Hn x).
  - eexists _, _. split; [reflexivity|]. simpl. split_and!; [|done|..].
    + split; [done|]. intros x [Hc|Hc]%C; [auto|lia].
    + intros x [Hc|Hc]%C; auto.
    + intros x Hc. apply C. auto.
    + intros _ x Hx. apply C. auto.
  - eexists _, _. split; [reflexivity|]. simpl. split_and!; [done|done|auto|auto|].
    apply negb_false_iff, Z.eqb_eq in Eg. done.
Qed.

(** * The context *)

Definition block_map (b : page_block) : dma_map := DM b.(page_ptr) b.(pb_iova) MLX5_VFIO_BLOCK_SIZE.
Definition box_map (b : mlx5_cmd_mailbox) : dma_map := DM b.(mb_buf) b.(mb_iova) MLX5_ADAPTER_PAGE_SIZE.

(** The mappings of the blocks and of the mailboxes *)
Definition owned (c : vfio) : list dma_map :=
  (block_map <$> c.(v_blocks)) ++ (box_map ∘ snd <$> map_to_list c.(v_boxes)).

Definition block_wf (b : page_block) : Prop :=
  (MLX5_VFIO_BLOCK_SIZE | b.(pb_iova)) /\ length b.(free_pages) = bitmap_nwords MLX5_VFIO_BLOCK_NUM_PAGES /\
  bm_wf b.(free_pages).

Record vfio_ok (c : vfio) : Prop := {
  ok_dma : dma_ok c.(v_iova) c.(v_dma);
  ok_owned : forall d, d ∈ owned c -> d ∈ c.(v_dma);
  ok_nodup : NoDup (owned c);
  ok_blocks : Forall block_wf c.(v_blocks);
  ok_null : c.(v_boxes) !! 0 = None;
}.

(** A page of a block that is lent, and its address *)
Definition lent (b : page_block) (a : Z) : Prop :=
  exists pg, 0 <= pg < MLX5_VFIO_BLOCK_NUM_PAGES /\ bit b.(free_pages) pg = false /\
    a = b.(pb_iova) + pg * MLX5_ADAPTER_PAGE_SIZE.

Definition used (c : vfio) (a : Z) : Prop := Exists (fun b => lent b a) c.(v_blocks).

Lemma block_bits b : block_wf b -> bm_size b.(free_pages) = MLX5_VFIO_BLOCK_NUM_PAGES.
Proof. intros (_ & L & _). unfold bm_size. rewrite L. reflexivity. Qed.

Lemma num_pages : MLX5_VFIO_BLOCK_NUM_PAGES = 512.
Proof. reflexivity. Qed.

(** ** The first free page *)

Definition take_bit (b : page_block) (pg : Z) (bm : bitmap) : Prop :=
  becomes b.(free_pages) bm (fun i => negb (i =? pg) && bit b.(free_pages) i).

Lemma find_free_page_spec l :
  Forall block_wf l ->
  exists r, find_free_page l = Some r /\
  match r with
  | None => forall b pg, b ∈ l -> 0 <= pg < MLX5_VFIO_BLOCK_NUM_PAGES -> bit b.(free_pages) pg = false
  | Some (a, l') => exists l1 b l2 pg bm, l = l1 ++ b :: l2 /\
      l' = l1 ++ PB b.(page_ptr) b.(pb_iova) bm :: l2 /\ 0 <= pg < MLX5_VFIO_BLOCK_NUM_PAGES /\
      bit b.(free_pages) pg = true /\ take_bit b pg bm /\ a = u64 (b.(pb_iova) + pg * MLX5_ADAPTER_PAGE_SIZE)
  end.
Proof.
  induction 1 as [|b l Hb Hl IH]; simpl; [exists None; split; [done|]; intros b pg []%elem_of_nil|].
  pose proof (block_bits b Hb) as Hs. pose proof Hb as (_ & _ & Hw). pose proof num_pages as H512.
  destruct (ffs_is_first b.(free_pages) 0 MLX5_VFIO_BLOCK_NUM_PAGES) as (pg & -> & Hf1 & Hf2 & Hf3); [done|lia..|].
  simpl. destruct (Z.eqb_spec pg MLX5_VFIO_BLOCK_NUM_PAGES) as [->|Hne]; simpl.
  - destruct IH as (r & -> & Hr). destruct r as [[a l']|]; simpl; eexists; (split; [reflexivity|]).
    + destruct Hr as (l1 & b' & l2 & pg & bm & -> & -> & Hr). by exists (b :: l1), b', l2, pg, bm.
    + intros b' pg [->|Hb']%elem_of_cons Hpg; [by apply Hf2|by apply Hr].
  - destruct (clear_bit_spec b.(free_pages) pg Hw) as (bm & -> & B); [lia|]. simpl. eexists. split; [reflexivity|].
    exists [], b, l, pg, bm. split_and!; [done|done|lia|lia|apply Hf3; lia|done|done].
Qed.

(** ** Blocks *)

Lemma owned_insert c p b :
  c.(v_boxes) !! p = None ->
  owned (set_boxes (<[p := b]> c.(v_boxes)) c) ≡ₚ box_map b :: owned c.
Proof.
  intros Hp. unfold owned. simpl. rewrite map_to_list_insert by done. simpl. by rewrite Permutation_middle.
Qed.

Lemma owned_delete c p b :
  c.(v_boxes) !! p = Some b -> owned c ≡ₚ box_map b :: owned (set_boxes (delete p c.(v_boxes)) c).
Proof.
  intros Hp. unfold owned. simpl. rewrite <- (map_to_list_delete _ _ _ Hp). simpl. by rewrite Permutation_middle.
Qed.

(** Adding a mapping that is owned by someone new *)
Lemma vfio_ok_own c c' d :
  vfio_ok c -> owned c' ≡ₚ d :: owned c -> c'.(v_dma) = d :: c.(v_dma) -> dma_ok c'.(v_iova) c'.(v_dma) ->
  d ∉ c.(v_dma) -> Forall block_wf c'.(v_blocks) -> c'.(v_boxes) !! 0 = None -> vfio_ok c'.
Proof.
  intros [D O N B Z0] P E D' Hd B' Z'. split; [done| | |done|done].
  - intros e. rewrite P, E. intros [->|He]%elem_of_cons; [constructor|]. apply elem_of_cons. auto.
  - rewrite P. constructor; [|done]. auto.
Qed.

(** Removing one *)
Lemma vfio_ok_disown c c' d :
  vfio_ok c -> owned c ≡ₚ d :: owned c' -> (forall e, e ∈ c'.(v_dma) <-> e ∈ c.(v_dma) /\ e <> d) ->
  dma_ok c'.(v_iova) c'.(v_dma) -> Forall block_wf c'.(v_blocks) -> c'.(v_boxes) !! 0 = None -> vfio_ok c'.
Proof.
  intros [D O N B Z0] P E D' B' Z'. rewrite P in N. apply NoDup_cons in N as [Hd N]. split; [done| |done..].
  intros e He. apply E. split; [|by intros ->]. apply O. rewrite P. by constructor.
Qed.

Lemma vfio_ok_iova c l :
  vfio_ok c -> dma_ok l c.(v_dma) -> vfio_ok (set_iova l c).
Proof. intros [D O N B Z0] D'. by split. Qed.

Lemma vfio_ok_ask c : vfio_ok c -> vfio_ok (ask c).2.
Proof. by intros [D O N B Z0]. Qed.

Lemma vfio_ok_mem c f : vfio_ok c -> vfio_ok (set_mem f c).
Proof. by intros [D O N B Z0]. Qed.

Lemma dma_ok_less l l' D :
  dma_ok l D -> iset_ok l' -> (forall x, covers l' x -> covers l x) -> dma_ok l' D.
Proof. intros [F W A N] F' C. split; [done..|]. intros d x Hd Hx Hc. by apply (N d x), C. Qed.

#[export] Hint Resolve vfio_ok_ask vfio_ok_mem vfio_ok_iova : vfio.

(** Taking a range for a mapping, with the mapping; a failure gives the range back. *)
Definition map_new (k : Z) (c : vfio) (vaddr : Z) : option Z * vfio :=
  match iova_take c (2 ^ k) with
  | (_, None, c) => (None, c)
  | (_, Some iova, c) =>
    let '(err, c) := mlx5_vfio_register_mem c vaddr iova (2 ^ k) in
    if err =? 0 then (Some iova, c) else let '(_, c) := iova_give c iova (2 ^ k) in (None, c)
  end.

(** What such a call leaves as it was *)
Definition same_owners (c c' : vfio) : Prop :=
  c'.(v_blocks) = c.(v_blocks) /\ c'.(v_boxes) = c.(v_boxes) /\ c'.(v_mem) = c.(v_mem).

Lemma map_new_spec k c vaddr :
  0 <= k <= 62 -> vfio_ok c ->
  exists r c', map_new k c vaddr = (r, c') /\ same_owners c c' /\
  match r with
  | None => vfio_ok c'
  | Some a => (2 ^ k | a) /\ (DM vaddr a (2 ^ k) ∉ c.(v_dma)) /\ c'.(v_dma) = DM vaddr a (2 ^ k) :: c.(v_dma) /\
      dma_ok c'.(v_iova) c'.(v_dma) /\ c'.(v_sys) = c.(v_sys) /\ c'.(v_tick) = (2 + c.(v_tick))%nat
  end.
Proof.
  intros Hk Hok. assert (0 < 2 ^ k) as Hp by (apply Z.pow_pos_nonneg; lia).
  pose proof (ok_dma _ Hok) as Hd. unfold map_new.
  destruct (iova_take_spec k c Hk (dma_free _ _ Hd)) as (ret & r & c1 & -> & I1 & E1 & Hr).
  destruct r as [a|].
  - destruct Hr as (_ & Hb & C). destruct (dma_ok_map _ _ _ vaddr a k Hk Hd I1 Hb C) as [Hd1 Hn].
    unfold mlx5_vfio_register_mem. rewrite ask_eq. destruct (Z.eqb_spec (ask c1).1 0) as [Er|Er].
    + eexists _, _. split; [reflexivity|]. rewrite E1 in *. split_and!; [done|apply Hb|done..].
    + destruct (iova_give_spec (ask c1).2 a (2 ^ k)) as (ret' & c2 & -> & I2 & E2 & C2 & _); [done|..].
      * apply (dma_wf _ _ Hd1 _ (list_elem_of_here _ _)).
      * done.
      * apply (dma_wf _ _ Hd1 _ (list_elem_of_here _ _)).
      * intros x Hx [_ Hc]%C. tauto.
      * eexists _, _. split; [reflexivity|]. rewrite E1 in E2.
        change (c2 = set_iova c2.(v_iova) (ask (ask (ask c).2).2).2) in E2. rewrite E2. split; [done|].
        apply vfio_ok_iova; [by auto with vfio|]. simpl. eapply dma_ok_less; [exact Hd|exact I2|].
        intros x [[? _]%C|Hx]%C2; [done|]. by apply Hb.
  - destruct Hr as [_ Ei]. eexists _, _. split; [reflexivity|]. rewrite E1, Ei. split; [done|].
    apply vfio_ok_iova; auto with vfio.
Qed.

Lemma new_block_eq c :
  mlx5_vfio_new_block c =
  let '(p, c) := ask c in
  if p =? 0 then Some (None, c)
  else
    let '(ptr, c) := ask c in
    if ptr =? 0 then Some (None, c)
    else
      match map_new 21 c ptr with
      | (None, c) => Some (None, c)
      | (Some iova, c) =>
        let block := PB ptr iova (replicate 8 ALL_ONES) in Some (Some block, set_blocks (block :: c.(v_blocks)) c)
      end.
Proof.
  unfold mlx5_vfio_new_block, map_new. change (2 ^ 21) with MLX5_VFIO_BLOCK_SIZE.
  change (bitmap_fill _ _) with (Some (replicate 8 ALL_ONES)). cbn [mbind option_bind].
  destruct (ask c) as [p c1]. destruct (p =? 0); [done|]. destruct (ask c1) as [ptr c2]. destruct (ptr =? 0); [done|].
  destruct (iova_take c2 MLX5_VFIO_BLOCK_SIZE) as [[ret [iova|]] c3]; [|done].
  destruct (mlx5_vfio_register_mem c3 ptr iova MLX5_VFIO_BLOCK_SIZE) as [err c4]. destruct (err =? 0); [done|].
  by destruct (iova_give c4 iova MLX5_VFIO_BLOCK_SIZE).
Qed.

Lemma new_block_spec c :
  vfio_ok c ->
  exists r c', mlx5_vfio_new_block c = Some (r, c') /\ vfio_ok c' /\ c'.(v_boxes) = c.(v_boxes) /\
  c'.(v_mem) = c.(v_mem) /\
  match r with
  | None => c'.(v_blocks) = c.(v_blocks)
  | Some b => c'.(v_blocks) = b :: c.(v_blocks) /\ b.(free_pages) = replicate 8 ALL_ONES
  end.
Proof.
  intros Hok. rewrite new_block_eq, ask_eq.
  destruct ((ask c).1 =? 0); [eexists _, _; split; [reflexivity|]; split_and!; auto with vfio|].
  rewrite ask_eq. destruct ((ask (ask c).2).1 =? 0); [eexists _, _; split; [reflexivity|]; split_and!; auto with vfio|].
  set (c2 := (ask (ask c).2).2). set (ptr := (ask (ask c).2).1).
  assert (vfio_ok c2) as H2 by (unfold c2; auto with vfio).
  destruct (map_new_spec 21 c2 ptr) as ([a|] & c3 & -> & (S1 & S2 & S3) & Hr); [lia|done| |].
  - destruct Hr as (Ha & Hn & Ed & Hd & Hsys & Htick). eexists _, _. split; [reflexivity|].
    split_and!; [|done|done|simpl; by rewrite S1|done].
    eapply vfio_ok_own; [exact H2| |exact Ed|done|done| |].
    + unfold owned. simpl. by rewrite S1, S2.
    + simpl. constructor; [|rewrite S1; apply (ok_blocks _ H2)]. split_and!; [exact Ha|done|].
      repeat (constructor; [unfold word, ALL_ONES; lia|]). constructor.
    + simpl. rewrite S2. apply (ok_null _ H2).
  - eexists _, _. split; [reflexivity|]. by split_and!.
Qed.

(** ** Pages *)

Lemma lent_apart c b b' x x' :
  vfio_ok c -> b ∈ c.(v_blocks) -> b' ∈ c.(v_blocks) -> in_map (block_map b) x -> in_map (block_map b') x' ->
  x = x' -> block_map b = block_map b'.
Proof.
  intros Hok Hb Hb' Hx Hx' <-.
  assert (forall b, b ∈ v_blocks c -> block_map b ∈ v_dma c) as Hin.
  { intros e He. apply (ok_owned _ Hok). unfold owned. apply elem_of_app. left. by apply list_elem_of_fmap_2. }
  destruct (dma_apart _ _ (ok_dma _ Hok) _ _ (Hin _ Hb) (Hin _ Hb')) as [?|Ho]; [done|]. unfold in_map in *. lia.
Qed.

(** A page of a block lies in the block's mapping. *)
Lemma page_in_block b pg x :
  0 <= pg < MLX5_VFIO_BLOCK_NUM_PAGES -> 0 <= x < MLX5_ADAPTER_PAGE_SIZE ->
  in_map (block_map b) (b.(pb_iova) + pg * MLX5_ADAPTER_PAGE_SIZE + x).
Proof.
  rewrite num_pages. unfold in_map, dm_end, block_map, MLX5_ADAPTER_PAGE_SIZE, MLX5_VFIO_BLOCK_SIZE. simpl. lia.
Qed.

Lemma block_range c b :
  vfio_ok c -> b ∈ c.(v_blocks) -> 0 <= b.(pb_iova) /\ b.(pb_iova) + MLX5_VFIO_BLOCK_SIZE <= 2 ^ 63.
Proof.
  intros Hok Hb. assert (block_map b ∈ v_dma c) as Hin.
  { apply (ok_owned _ Hok). unfold owned. apply elem_of_app. left. by apply list_elem_of_fmap_2. }
  apply (dma_wf _ _ (ok_dma _ Hok)) in Hin as (? & _ & ?). done.
Qed.

(** A block with another bitmap *)
Lemma vfio_ok_bitmap c l1 b l2 bm f :
  vfio_ok c -> c.(v_blocks) = l1 ++ b :: l2 -> becomes b.(free_pages) bm f ->
  vfio_ok (set_blocks (l1 ++ PB b.(page_ptr) b.(pb_iova) bm :: l2) c).
Proof.
  intros [D O N B Z0] E (L & W & _).
  assert (owned (set_blocks (l1 ++ PB b.(page_ptr) b.(pb_iova) bm :: l2) c) = owned c) as Eo.
  { unfold owned. simpl. rewrite E, !fmap_app. done. }
  split; simpl; [done|by rewrite Eo|by rewrite Eo| |done]. rewrite E in B.
  apply Forall_app in B as [B1 B2]. apply Forall_cons_1 in B2 as [(Hb1 & Hb2 & _) B2].
  apply Forall_app. split; [done|]. constructor; [|done]. split_and!; [done|simpl; congruence|done].
Qed.

(** The address the code computes is that of the page. *)
Lemma page_addr c b pg :
  vfio_ok c -> b ∈ c.(v_blocks) -> 0 <= pg < MLX5_VFIO_BLOCK_NUM_PAGES ->
  u64 (b.(pb_iova) + pg * MLX5_ADAPTER_PAGE_SIZE) = b.(pb_iova) + pg * MLX5_ADAPTER_PAGE_SIZE.
Proof.
  intros Hok Hb Hpg. pose proof (block_range c b Hok Hb) as Hr. rewrite num_pages in Hpg.
  apply u64_small. unfold MLX5_ADAPTER_PAGE_SIZE, MLX5_VFIO_BLOCK_SIZE in *. lia.
Qed.

(** The blocks of two pages with a common address are at one place of the list. *)
Lemma page_one_block c l1 b l2 b' pg pg' :
  vfio_ok c -> c.(v_blocks) = l1 ++ b :: l2 -> b' ∈ l1 ++ l2 ->
  0 <= pg < MLX5_VFIO_BLOCK_NUM_PAGES -> 0 <= pg' < MLX5_VFIO_BLOCK_NUM_PAGES ->
  b.(pb_iova) + pg * MLX5_ADAPTER_PAGE_SIZE <> b'.(pb_iova) + pg' * MLX5_ADAPTER_PAGE_SIZE.
Proof.
  intros Hok E Hb' Hpg Hpg' Ha. assert (b ∈ v_blocks c) as Hb by (rewrite E; apply elem_of_app; right; constructor).
  assert (b' ∈ v_blocks c) as Hbc by (rewrite E; apply elem_of_app in Hb' as [?|?]; apply elem_of_app; [by left|right; by constructor]).
  assert (block_map b = block_map b') as Em.
  { eapply (lent_apart c b b'); [done..| | |exact Ha].
    - rewrite <- (Z.add_0_r (_ + _ * _)). apply page_in_block; [done|unfold MLX5_ADAPTER_PAGE_SIZE; lia].
    - rewrite <- (Z.add_0_r (_ + _ * _)). apply page_in_block; [done|unfold MLX5_ADAPTER_PAGE_SIZE; lia]. }
  pose proof (ok_nodup _ Hok) as N. unfold owned in N. apply NoDup_app in N as [N _]. rewrite E, fmap_app in N. simpl in N.
  rewrite <- Permutation_middle, <- fmap_app in N. apply NoDup_cons in N as [N _]. apply N. rewrite Em.
  by apply list_elem_of_fmap_2.
Qed.

(** The pages lent when one bitmap changes *)
Lemma used_bitmap c l1 b l2 bm a :
  c.(v_blocks) = l1 ++ b :: l2 ->
  used (set_blocks (l1 ++ PB b.(page_ptr) b.(pb_iova) bm :: l2) c) a <->
  lent (PB b.(page_ptr) b.(pb_iova) bm) a \/ Exists (fun b => lent b a) (l1 ++ l2).
Proof. intros E. unfold used. simpl. rewrite !Exists_app, Exists_cons. tauto. Qed.

Lemma used_split c l1 b l2 a :
  c.(v_blocks) = l1 ++ b :: l2 -> used c a <-> lent b a \/ Exists (fun b => lent b a) (l1 ++ l2).
Proof. intros E. unfold used. rewrite E, !Exists_app, Exists_cons. tauto. Qed.

(** Lending a page that was free *)
Lemma lend_page c l1 b l2 pg bm :
  vfio_ok c -> c.(v_blocks) = l1 ++ b :: l2 -> 0 <= pg < MLX5_VFIO_BLOCK_NUM_PAGES ->
  bit b.(free_pages) pg = true -> take_bit b pg bm ->
  let c' := set_blocks (l1 ++ PB b.(page_ptr) b.(pb_iova) bm :: l2) c in
  let a := b.(pb_iova) + pg * MLX5_ADAPTER_PAGE_SIZE in
  vfio_ok c' /\ ~ used c a /\ forall x, used c' x <-> used c x \/ x = a.
Proof.
  intros Hok E Hpg Hbit B c' a. split; [eapply vfio_ok_bitmap; [done|exact E|exact B]|].
  destruct B as (_ & _ & B). split.
  - rewrite (used_split c l1 b l2 a E). intros [(pg' & H1 & H2 & H3)|Hx].
    + assert (pg = pg') as <- by (unfold a, MLX5_ADAPTER_PAGE_SIZE in H3; lia). congruence.
    + apply Exists_exists in Hx as (b' & Hb' & pg' & H1 & H2 & H3). by apply (page_one_block c l1 b l2 b' pg pg') in H3.
  - intros x. unfold c'. rewrite (used_bitmap c l1 b l2 bm x E), (used_split c l1 b l2 x E).
    assert (lent (PB (page_ptr b) (pb_iova b) bm) x <-> lent b x \/ x = a) as ->; [|tauto]. unfold lent. simpl. split.
    + intros (q & H1 & H2 & ->). rewrite B in H2 by lia. destruct (Z.eqb_spec q pg) as [->|Hne]; [by right|left].
      exists q. simpl in H2. done.
    + intros [(q & H1 & H2 & ->)| ->]; [exists q|exists pg]; (split_and!; [lia|lia| |done]); rewrite B by lia;
        [by rewrite H2, andb_false_r|by rewrite Z.eqb_refl].
Qed.

(** A new block lends no page. *)
Lemma full_block_free b a : b.(free_pages) = replicate 8 ALL_ONES -> ~ lent b a.
Proof.
  intros Hf (q & Q1 & Q2 & _). rewrite Hf in Q2. unfold bit, BITMAP_WORD, BITMAP_WORD_BITS in Q2. rewrite num_pages in Q1.
  rewrite lookup_replicate_2 in Q2 by (apply Nat2Z.inj_lt; rewrite Z2Nat.id; div_lia).
  rewrite all_ones_bit in Q2 by (apply Z.mod_pos_bound; lia). done.
Qed.

(** [mlx5_vfio_alloc_page] returns within two rounds: a page that was not lent, or none when no
    block could be added. *)
Lemma alloc_page_spec c :
  vfio_ok c ->
  exists r c', mlx5_vfio_alloc_page 2 c = Some (r, c') /\ vfio_ok c' /\ c'.(v_boxes) = c.(v_boxes) /\
  c'.(v_mem) = c.(v_mem) /\
  match r with
  | Some a => (MLX5_ADAPTER_PAGE_SIZE | a) /\ ~ used c a /\ forall x, used c' x <-> used c x \/ x = a
  | None => forall x, used c' x <-> used c x
  end.
Proof.
  intros Hok.
  assert (forall c fuel r a l', vfio_ok c -> find_free_page c.(v_blocks) = Some r -> r = Some (a, l') ->
    mlx5_vfio_alloc_page (S fuel) c = Some (Some a, set_blocks l' c) /\ vfio_ok (set_blocks l' c) /\
    (MLX5_ADAPTER_PAGE_SIZE | a) /\ ~ used c a /\ forall x, used (set_blocks l' c) x <-> used c x \/ x = a) as Hfound.
  { clear. intros c fuel r a l' Hok Ef ->. destruct (find_free_page_spec _ (ok_blocks _ Hok)) as (r & Er & Hr).
    rewrite Ef in Er. injection Er as <-. destruct Hr as (l1 & b & l2 & pg & bm & E & -> & Hpg & Hb & B & ->).
    assert (b ∈ v_blocks c) as Hin by (rewrite E; apply elem_of_app; right; constructor).
    rewrite (page_addr c b pg Hok Hin Hpg) in *. split; [simpl; by rewrite Ef|].
    destruct (lend_page c l1 b l2 pg bm Hok E Hpg Hb B) as (H1 & H2 & H3). split_and!; [done| |done..].
    pose proof (ok_blocks _ Hok) as Hbs. rewrite Forall_forall in Hbs. destruct (Hbs b Hin) as ([q ->] & _).
    exists (q * 512 + pg). unfold MLX5_VFIO_BLOCK_SIZE, MLX5_ADAPTER_PAGE_SIZE. lia. }
  destruct (find_free_page_spec _ (ok_blocks _ Hok)) as ([[a l']|] & Ef & Hr).
  - destruct (Hfound c 1%nat _ a l' Hok Ef eq_refl) as (-> & H1 & H2 & H3). eexists _, _. split; [reflexivity|]. split_and!; [done|done|done|done|apply H3|apply H3].
  - cbn [mlx5_vfio_alloc_page]. rewrite Ef. cbn [mbind option_bind].
    destruct (new_block_spec c Hok) as ([b|] & c1 & -> & H1 & H2 & H3 & H4); cbn [mbind option_bind].
    + destruct H4 as [Eb Hf]. destruct (find_free_page_spec _ (ok_blocks _ H1)) as ([[a l']|] & Ef1 & Hr1).
      * destruct (Hfound c1 0%nat _ a l' H1 Ef1 eq_refl) as (E & K1 & K2 & K3 & K4).
        assert (forall x, used c1 x <-> used c x) as Hu.
        { intros x. unfold used. rewrite Eb, Exists_cons. pose proof (full_block_free b x Hf). tauto. }
        cbn [mlx5_vfio_alloc_page] in E. rewrite E. eexists _, _. split; [reflexivity|].
        split_and!; [done..|by rewrite <- Hu|]. intros x. by rewrite K4, Hu.
      * exfalso. specialize (Hr1 b 0). rewrite Eb, num_pages in Hr1. specialize (Hr1 ltac:(constructor) ltac:(lia)).
        rewrite Hf in Hr1. vm_compute in Hr1. done.
    + eexists _, _. split; [reflexivity|]. split_and!; [done..|]. intros x. unfold used. by rewrite H4.
Qed.

(** Unmapping a mapping and giving its addresses back; the kernel's refusal is a failed assertion. *)
Lemma unmap_give_spec c d :
  vfio_ok c -> d ∈ c.(v_dma) ->
  (v_unmap c (v_tick c) <> 0 /\ mlx5_vfio_unregister_mem c d.(dm_iova) d.(dm_size) = None) \/
  exists c1 ret c2, mlx5_vfio_unregister_mem c d.(dm_iova) d.(dm_size) = Some c1 /\
    c1.(v_blocks) = c.(v_blocks) /\ c1.(v_boxes) = c.(v_boxes) /\
    iova_give c1 d.(dm_iova) d.(dm_size) = (ret, c2) /\ same_owners c c2 /\
    dma_ok c2.(v_iova) c2.(v_dma) /\ (forall e, e ∈ c2.(v_dma) <-> e ∈ c.(v_dma) /\ e <> d) /\
    ((ask c1).1 <> 0 -> forall x, covers c2.(v_iova) x <-> covers c.(v_iova) x \/ in_map d x).
Proof.
  intros Hok Hd. pose proof (ok_dma _ Hok) as Hdma. unfold mlx5_vfio_unregister_mem. rewrite ask_eq.
  destruct (Z.eqb_spec (v_unmap c (v_tick c)) 0) as [Ea|Ea]; [right|by left].
  set (c1 := set_dma _ _). pose proof (dma_wf _ _ Hdma d Hd) as (W1 & W2 & W3).
  destruct (iova_give_spec c1 d.(dm_iova) d.(dm_size)) as (ret & c2 & E & I2 & E2 & C2 & C3 & C4);
    [apply (dma_free _ _ Hdma)|done..|intros x Hx; by apply (dma_not_free _ _ Hdma d x)|].
  exists c1, ret, c2. split; [done|]. split; [done|]. split; [done|]. split; [exact E|]. rewrite E2. simpl.
  split; [done|]. split; [|split].
  - eapply dma_ok_unmap; [exact Hdma|exact Hd| |exact I2|].
    + intros e. apply (dma_unmap _ _ d e Hdma Hd).
    + intros x Hx. by apply C2.
  - intros e. apply (dma_unmap _ _ d e Hdma Hd).
  - intros Hg x. split; [apply C2|]. intros [?|?]; [by apply C3|by apply C4].
Qed.

Lemma free_block_spec c l1 b l2 :
  vfio_ok c -> c.(v_blocks) = l1 ++ b :: l2 ->
  (v_unmap c (v_tick c) <> 0 /\ mlx5_vfio_free_block c (length l1) = None) \/
  exists c', mlx5_vfio_free_block c (length l1) = Some c' /\ vfio_ok c' /\ c'.(v_blocks) = l1 ++ l2 /\
    c'.(v_boxes) = c.(v_boxes) /\ c'.(v_mem) = c.(v_mem).
Proof.
  intros Hok E. unfold mlx5_vfio_free_block. rewrite E, list_lookup_middle by done. cbn [mbind option_bind].
  assert (block_map b ∈ v_dma c) as Hd.
  { apply (ok_owned _ Hok). unfold owned. rewrite E, fmap_app. apply elem_of_app. left. apply elem_of_app. right. constructor. }
  destruct (unmap_give_spec c (block_map b) Hok Hd) as [[Ha En]|(c1 & ret & c2 & E1 & B1 & X1 & E2 & (S1 & S2 & S3) & D2 & M2 & _)];
    cbn [block_map dm_iova dm_size] in *.
  - left. by rewrite En.
  - right. rewrite E1. cbn [mbind option_bind]. rewrite E2. eexists. split; [reflexivity|]. simpl.
    rewrite S1, E, delete_middle. split_and!; [|done..].
    eapply (vfio_ok_disown c _ (block_map b) Hok); [|exact M2|exact D2| |].
    + unfold owned. simpl. rewrite E, S2, !fmap_app. simpl. by rewrite <- Permutation_middle.
    + simpl. pose proof (ok_blocks _ Hok) as B. rewrite E in B. apply Forall_app in B as [? B].
      apply Forall_cons_1 in B as [_ ?]. by apply Forall_app.
    + simpl. rewrite S2. apply (ok_null _ Hok).
Qed.

Lemma block_of_spec c l1 b l2 a :
  vfio_ok c -> c.(v_blocks) = l1 ++ b :: l2 -> in_map (block_map b) a -> block_holding c.(v_blocks) 0 a = Some (length l1, b).
Proof.
  intros Hok E Ha.
  assert (forall b', b' ∈ l1 -> in_map (block_map b') a -> False) as Hno.
  { intros b' Hb' Ha'. pose proof (ok_nodup _ Hok) as N. unfold owned in N. apply NoDup_app in N as [N _].
    rewrite E, fmap_app in N. apply NoDup_app in N as (_ & N & _). apply (N (block_map b')).
    - by apply list_elem_of_fmap_2.
    - assert (block_map b' = block_map b) as ->; [|constructor].
      eapply (lent_apart c b' b); [done|rewrite E; apply elem_of_app; by left|rewrite E; apply elem_of_app; right; constructor|done|exact Ha|done]. }
  assert (forall b', b' ∈ v_blocks c ->
    (a <? b'.(pb_iova)) || (u64 (b'.(pb_iova) + MLX5_VFIO_BLOCK_SIZE) <=? a) = negb (bool_decide (in_map (block_map b') a))) as Ht.
  { intros b' Hb'. pose proof (block_range c b' Hok Hb') as Hr. rewrite u64_small by (unfold MLX5_VFIO_BLOCK_SIZE in *; lia).
    unfold in_map, dm_end, block_map. simpl.
    destruct (Z.ltb_spec a (pb_iova b')), (Z.leb_spec (pb_iova b' + MLX5_VFIO_BLOCK_SIZE) a); simpl; symmetry;
      rewrite ?negb_true_iff, ?negb_false_iff, ?bool_decide_eq_true, ?bool_decide_eq_false; lia. }
  rewrite E in Ht |- *. clear E. change (length l1) with (0 + length l1)%nat. generalize 0%nat as i.
  induction l1 as [|b' l1 IH]; intros i; simpl.
  - rewrite Ht by constructor. rewrite bool_decide_true by done. simpl. by rewrite Nat.add_0_r.
  - rewrite Ht by constructor. rewrite bool_decide_false by (intros Hx; apply (Hno b'); [constructor|done]). simpl.
    rewrite IH; [do 2 f_equal; lia| |].
    + intros b'' Hb''. apply Hno. by constructor.
    + intros b'' Hb''. apply Ht. simpl. by constructor.
Qed.

(** [mlx5_vfio_free_page] of a lent page takes it out of use; a block with no page lent is given
    back, where the kernel's refusal is a failed assertion. *)
Lemma free_page_spec c a :
  vfio_ok c -> used c a ->
  (v_unmap c (v_tick c) <> 0 /\ mlx5_vfio_free_page c a = None) \/
  exists c', mlx5_vfio_free_page c a = Some c' /\ vfio_ok c' /\ c'.(v_boxes) = c.(v_boxes) /\ c'.(v_mem) = c.(v_mem) /\
    forall x, used c' x <-> used c x /\ x <> a.
Proof.
  intros Hok Hu. unfold used in Hu. apply Exists_exists in Hu as (b & Hb & pg & Hpg & Hbit & ->).
  apply list_elem_of_split in Hb as (l1 & l2 & E).
  assert (b ∈ v_blocks c) as Hin by (rewrite E; apply elem_of_app; right; constructor).
  pose proof (block_range c b Hok Hin) as Hr. pose proof (ok_blocks _ Hok) as Hbs. rewrite Forall_forall in Hbs.
  pose proof (Hbs b Hin) as Hwf. pose proof (block_bits b Hwf) as Hsz. pose proof Hwf as (_ & _ & Hw).
  pose proof num_pages as H512. unfold mlx5_vfio_free_page.
  set (a := pb_iova b + pg * MLX5_ADAPTER_PAGE_SIZE).
  rewrite (block_of_spec c l1 b l2 a Hok E)
    by (unfold a; rewrite <- (Z.add_0_r (_ + _ * _)); apply page_in_block; [done|unfold MLX5_ADAPTER_PAGE_SIZE; lia]).
  cbn [mbind option_bind].
  replace (u64 (a - pb_iova b) / MLX5_ADAPTER_PAGE_SIZE) with pg.
  2:{ unfold a. replace (pb_iova b + pg * MLX5_ADAPTER_PAGE_SIZE - pb_iova b) with (pg * MLX5_ADAPTER_PAGE_SIZE) by lia.
      rewrite u64_small by (unfold MLX5_ADAPTER_PAGE_SIZE; lia). by rewrite Z.div_mul. }
  rewrite test_bit_spec, Hbit by (done || lia). cbn [mbind option_bind].
  destruct (set_bit_spec b.(free_pages) pg Hw ltac:(lia)) as (bm & -> & B). cbn [mbind option_bind].
  rewrite E, insert_mid by done. set (c1 := set_blocks _ c).
  assert (vfio_ok c1) as H1 by (eapply vfio_ok_bitmap; [done|exact E|exact B]).
  assert (forall x, used c1 x <-> used c x /\ x <> a) as Hu1.
  { intros x. unfold c1. rewrite (used_bitmap c l1 b l2 bm x E), (used_split c l1 b l2 x E). destruct B as (_ & _ & B).
    assert (lent (PB (page_ptr b) (pb_iova b) bm) x <-> lent b x /\ x <> a) as ->.
    { unfold lent. simpl. split.
      - intros (q & Q1 & Q2 & ->). rewrite B in Q2 by lia. apply orb_false_iff in Q2 as [Q2 Q3]. apply Z.eqb_neq in Q2.
        split; [by exists q|]. unfold a, MLX5_ADAPTER_PAGE_SIZE. lia.
      - intros [(q & Q1 & Q2 & ->) Hne]. exists q. split_and!; [lia|lia| |done]. rewrite B by lia.
        apply orb_false_iff. split; [apply Z.eqb_neq|done]. intros ->. by apply Hne. }
    split; [|tauto]. intros [?|Hx]; [tauto|]. split; [by right|]. intros ->.
    apply Exists_exists in Hx as (b' & Hb' & q & Q1 & _ & Q3). by apply (page_one_block c l1 b l2 b' pg q) in Q3. }
  assert (bm_size bm = MLX5_VFIO_BLOCK_NUM_PAGES) as Hbm by (destruct B as (L & _); unfold bm_size in *; lia).
  destruct (full_spec bm bm MLX5_VFIO_BLOCK_NUM_PAGES) as (r & -> & Hfull); [apply B|apply B|lia..|]. cbn [mbind option_bind].
  destruct r; [|right; exists c1; by split_and!].
  destruct (free_block_spec c1 l1 (PB b.(page_ptr) b.(pb_iova) bm) l2 H1 eq_refl)
    as [[Ha ->]|(c2 & -> & H2 & Eb & Ex & Em)]; [by left|right]. exists c2. split_and!; [done..|].
  intros x. rewrite <- Hu1. unfold used. rewrite Eb. unfold c1. simpl. rewrite !Exists_app, Exists_cons.
  split; [tauto|]. intros [?|[(q & Q1 & Q2 & _)|?]]; [tauto| |tauto]. exfalso. simpl in Q2.
  by rewrite (proj1 Hfull eq_refl q ltac:(lia)) in Q2.
Qed.

(** * Mailboxes *)

Lemma alloc_cmd_box_eq c :
  alloc_cmd_box c =
  let '(p, c) := ask c in
  if p =? 0 then (0, c)
  else
    let '(buf, c) := ask c in
    if buf =? 0 then (0, c)
    else
      match map_new 12 (set_mem (memset buf 0 MLX5_ADAPTER_PAGE_SIZE) c) buf with
      | (None, c) => (0, c)
      | (Some iova, c) => (p, set_boxes (<[p := MB buf iova 0]> c.(v_boxes)) c)
      end.
Proof.
  unfold alloc_cmd_box, map_new. change (2 ^ 12) with MLX5_ADAPTER_PAGE_SIZE.
  destruct (ask c) as [p c1]. destruct (p =? 0); [done|]. destruct (ask c1) as [buf c2]. destruct (buf =? 0); [done|].
  destruct (iova_take _ MLX5_ADAPTER_PAGE_SIZE) as [[ret [iova|]] c3]; [|done].
  destruct (mlx5_vfio_register_mem c3 buf iova MLX5_ADAPTER_PAGE_SIZE) as [err c4]. destruct (err =? 0); [done|].
  by destruct (iova_give c4 iova MLX5_ADAPTER_PAGE_SIZE).
Qed.

(** A new mailbox at an address [calloc] gave, which was not in use *)
Lemma alloc_cmd_box_spec c :
  vfio_ok c -> c.(v_boxes) !! (ask c).1 = None ->
  exists p c', alloc_cmd_box c = (p, c') /\ vfio_ok c' /\ c'.(v_blocks) = c.(v_blocks) /\
  (p = 0 /\ c'.(v_boxes) = c.(v_boxes) /\
     (forall a, ~ (ask (ask c).2).1 <= a < (ask (ask c).2).1 + MLX5_ADAPTER_PAGE_SIZE -> c'.(v_mem) a = c.(v_mem) a) \/
   p <> 0 /\ p = (ask c).1 /\ exists iova, let buf := (ask (ask c).2).1 in
     buf <> 0 /\ c'.(v_boxes) = <[p := MB buf iova 0]> c.(v_boxes) /\
     c'.(v_mem) = memset buf 0 MLX5_ADAPTER_PAGE_SIZE c.(v_mem) /\
     c'.(v_sys) = c.(v_sys) /\ c'.(v_tick) = (4 + c.(v_tick))%nat).
Proof.
  intros Hok Hfr. rewrite alloc_cmd_box_eq, ask_eq.
  destruct (Z.eqb_spec (ask c).1 0) as [Ep|Ep].
  { eexists _, _. split; [reflexivity|]. split_and!; [auto with vfio|done|by left]. }
  rewrite ask_eq. set (c2 := (ask (ask c).2).2). set (buf := (ask (ask c).2).1).
  assert (vfio_ok c2) as H2 by (unfold c2; auto with vfio).
  destruct (Z.eqb_spec buf 0) as [Eb|Eb]. { eexists _, _. split; [reflexivity|]. split_and!; [done|done|by left]. }
  set (c3 := set_mem _ c2). assert (vfio_ok c3) as H3 by (by apply vfio_ok_mem).
  destruct (map_new_spec 12 c3 buf) as ([iova|] & c4 & -> & (S1 & S2 & S3) & Hr); [lia|done| |].
  - destruct Hr as (Ha & Hn & Ed & Hd & Hsys & Htick). eexists _, _. split; [reflexivity|].
    assert (v_boxes c4 !! (ask c).1 = None) as Hfr4 by (rewrite S2; exact Hfr). split_and!.
    + eapply (vfio_ok_own c3); [exact H3| |exact Ed|exact Hd|done| |].
      * rewrite owned_insert by done. unfold owned. rewrite S1, S2. done.
      * simpl. rewrite S1. apply (ok_blocks _ H3).
      * simpl. rewrite lookup_insert_ne by done. rewrite S2. apply (ok_null _ H3).
    + simpl. by rewrite S1.
    + right. split_and!; [done|done|]. exists iova. split_and!; [done|simpl; by rewrite S2|simpl; by rewrite S3|done|].
      simpl. by rewrite Htick.
  - eexists _, _. split; [reflexivity|]. split_and!; [done|by rewrite S1|left; split_and!; [done|by rewrite S2|]].
    intros a Hx. change (~ buf <= a < buf + MLX5_ADAPTER_PAGE_SIZE) in Hx. rewrite S3. apply memset_outside. lia.
Qed.

Lemma free_cmd_box_spec c p b :
  vfio_ok c -> c.(v_boxes) !! p = Some b ->
  (v_unmap c (v_tick c) <> 0 /\ free_cmd_box c p = None) \/
  exists c', free_cmd_box c p = Some c' /\ vfio_ok c' /\ c'.(v_blocks) = c.(v_blocks) /\
    c'.(v_boxes) = delete p c.(v_boxes) /\ c'.(v_mem) = c.(v_mem).
Proof.
  intros Hok Hp. unfold free_cmd_box. rewrite Hp. cbn [mbind option_bind].
  assert (box_map b ∈ v_dma c) as Hd by (apply (ok_owned _ Hok); rewrite (owned_delete c p b Hp); constructor).
  destruct (unmap_give_spec c (box_map b) Hok Hd) as [[Ha En]|(c1 & ret & c2 & E1 & B1 & X1 & E2 & (S1 & S2 & S3) & D2 & M2 & _)];
    cbn [box_map dm_iova dm_size] in *.
  - left. by rewrite En.
  - right. rewrite E1. cbn [mbind option_bind]. rewrite E2. eexists. split; [reflexivity|]. simpl. rewrite S1, S2, S3.
    split_and!; [|done..]. eapply (vfio_ok_disown c _ (box_map b) Hok); [|exact M2|exact D2| |].
    + rewrite (owned_delete c p b Hp). unfold owned. simpl. by rewrite S1.
    + simpl. rewrite S1. apply (ok_blocks _ Hok).
    + simpl. apply lookup_delete_None. right. apply (ok_null _ Hok).
Qed.

(** * All histories *)

(** A step of the driver or of the device: pages lent and returned, mailboxes made at an address
    [calloc] gave and freed, and memory changed *)
Inductive vfio_step (c : vfio) : vfio -> Prop :=
| step_alloc_page r c' : mlx5_vfio_alloc_page 2 c = Some (r, c') -> vfio_step c c'
| step_free_page a c' : used c a -> mlx5_vfio_free_page c a = Some c' -> vfio_step c c'
| step_alloc_box p c' : c.(v_boxes) !! (ask c).1 = None -> alloc_cmd_box c = (p, c') -> vfio_step c c'
| step_free_box p b c' : c.(v_boxes) !! p = Some b -> free_cmd_box c p = Some c' -> vfio_step c c'
| step_memory f : vfio_step c (set_mem f c).

Lemma vfio_step_ok c c' : vfio_ok c -> vfio_step c c' -> vfio_ok c'.
Proof.
  intros Hok [r d E|a d Hu E|p d Hf E|p b d Hb E|f].
  - destruct (alloc_page_spec c Hok) as (r' & c1 & E1 & H1 & _). by assert (d = c1) as -> by congruence.
  - destruct (free_page_spec c a Hok Hu) as [[_ E1]|(c1 & E1 & H1 & _)]; [congruence|]. by assert (d = c1) as -> by congruence.
  - destruct (alloc_cmd_box_spec c Hok Hf) as (q & c1 & E1 & H1 & _). by assert (d = c1) as -> by congruence.
  - destruct (free_cmd_box_spec c p b Hok Hb) as [[_ E1]|(c1 & E1 & H1 & _)]; [congruence|]. by assert (d = c1) as -> by congruence.
  - auto with vfio.
Qed.

Lemma vfio_steps_ok c c' : vfio_ok c -> rtc vfio_step c c' -> vfio_ok c'.
Proof. intros Hok. induction 1 as [|? ? ? Hs _ IH]; [done|]. apply IH. by eapply vfio_step_ok. Qed.

(** A context with free addresses and nothing mapped *)
Definition vfio_start (l : iset) (sys unmap : nat -> Z) : vfio := VFIO (fun _ => 0) l [] [] ∅ sys unmap 0.

Lemma vfio_start_ok l sys unmap : iset_ok l -> vfio_ok (vfio_start l sys unmap).
Proof.
  intros Hl. split; simpl.
  - split; [done| | |]; intros; by match goal with H : _ ∈ [] |- _ => apply elem_of_nil in H end.
  - unfold owned. simpl. rewrite map_to_list_empty. intros d []%elem_of_nil.
  - unfold owned. simpl. rewrite map_to_list_empty. constructor.
  - constructor.
  - apply lookup_empty.
Qed.

(** Where a page of the device is: the memory its mapping points to *)
Definition translate (c : vfio) (x va : Z) : Prop :=
  exists d, d ∈ c.(v_dma) /\ in_map d x /\ va = d.(dm_vaddr) + (x - d.(dm_iova)).


(** The legacy range of addresses, with an allocator that always finds memory *)
Definition legacy_iova : iset := [IR 0x10000 0xFEDF0000].

Definition fresh_sys (i : nat) : Z := if (i <? 3)%nat then 0x7000000 + Z.of_nat i * 0x1000000 else 0.

Lemma legacy_iova_ok : iset_ok legacy_iova.
Proof.
  split; [unfold iset_wf; simpl; unfold r_end; simpl; lia|]. intros x [Hx|[]%covers_nil]%covers_cons.
  unfold in_range, r_end in Hx. simpl in Hx. lia.
Qed.

(** The first page lent: a block is mapped, and its page 0 is the page *)
Definition first_page : vfio := match mlx5_vfio_alloc_page 2 (vfio_start legacy_iova fresh_sys (fun _ => 0)) with
  | Some (_, c) => c | None => vfio_start legacy_iova fresh_sys (fun _ => 0) end.

Lemma first_page_eq :
  mlx5_vfio_alloc_page 2 (vfio_start legacy_iova fresh_sys (fun _ => 0)) = Some (Some 0x200000, first_page).
Proof.
  assert (fst <$> mlx5_vfio_alloc_page 2 (vfio_start legacy_iova fresh_sys (fun _ => 0)) = Some (Some 0x200000)) as E
    by (vm_compute; reflexivity).
  unfold first_page. destruct (mlx5_vfio_alloc_page 2 _) as [[r c]|]; [|done]. by injection E as ->.
Qed.

Lemma first_page_used : used first_page 0x200000.
Proof.
  assert (v_blocks first_page = [PB 0x8000000 0x200000 (2 ^ 63 - 1 :: replicate 7 ALL_ONES)]) as E by (vm_compute; reflexivity).
  unfold used. rewrite E. constructor. exists 0. split_and!; vm_compute; done.
Qed.

