(* ===== verification/VfioMsg.v ===== *)
(** What the device reads is what the driver wrote: messages over chains of mailboxes, seen through
    the addresses of the device. *)

From stdpp Require Import base numbers list gmap.
From S2P Require Import Prelude Types Mem IntervalSet IntervalProps Vfio VfioCmd VfioProps.

(** * Chains of mailboxes *)

(** Two windows of memory, as address and size, that share no byte *)
Definition apart (w w' : Z * Z) : Prop := w.1 + w.2 <= w'.1 \/ w'.1 + w'.2 <= w.1.

Definition win (b : mlx5_cmd_mailbox) : Z * Z := (b.(mb_buf), MLX5_ADAPTER_PAGE_SIZE).

(** The buffers of a chain are apart from each other and from the windows [W]. *)
Fixpoint bufs_apart (l : list mlx5_cmd_mailbox) (W : list (Z * Z)) : Prop :=
  match l with
  | [] => True
  | b :: l => Forall (apart (win b)) ((win <$> l) ++ W) /\ bufs_apart l W
  end.

Definition first_iova (l : list mlx5_cmd_mailbox) : Z := match l with [] => 0 | b :: _ => b.(mb_iova) end.

(** The mailboxes from [p] on are [l]: the driver's links, and in memory the device's links and
    the numbers from [num] on *)
Fixpoint linked (c : vfio) (p num : Z) (l : list mlx5_cmd_mailbox) : Prop :=
  match l with
  | [] => p = 0
  | b :: l =>
    p <> 0 /\ c.(v_boxes) !! p = Some b /\
    load_be 8 (b.(mb_buf) + off_blk_next) c.(v_mem) = first_iova l /\
    load_be 4 (b.(mb_buf) + off_blk_num) c.(v_mem) = num /\
    linked c b.(mb_next) (num + 1) l
  end.

(** The place of byte [i] of the data of a chain *)
Definition data_at (l : list mlx5_cmd_mailbox) (i : Z) : Z :=
  match l !! Z.to_nat (i / MLX5_CMD_DATA_BLOCK_SIZE) with
  | Some b => b.(mb_buf) + i mod MLX5_CMD_DATA_BLOCK_SIZE
  | None => 0
  end.

Lemma data_at_head b l i : 0 <= i < MLX5_CMD_DATA_BLOCK_SIZE -> data_at (b :: l) i = b.(mb_buf) + i.
Proof. intros Hi. unfold data_at. by rewrite Z.div_small, Z.mod_small. Qed.

Lemma data_at_tail b l i :
  MLX5_CMD_DATA_BLOCK_SIZE <= i -> data_at (b :: l) i = data_at l (i - MLX5_CMD_DATA_BLOCK_SIZE).
Proof.
  unfold data_at, MLX5_CMD_DATA_BLOCK_SIZE. intros Hi.
  replace (Z.to_nat (i / 512)) with (S (Z.to_nat ((i - 512) / 512))) by div_lia. simpl.
  by replace ((i - 512) mod 512) with (i mod 512) by div_lia.
Qed.

(** Data lies in the first 512 bytes of a buffer. *)
Lemma data_in l i :
  0 <= i < MLX5_CMD_DATA_BLOCK_SIZE * Z.of_nat (length l) ->
  exists b, b ∈ l /\ b.(mb_buf) <= data_at l i < b.(mb_buf) + MLX5_CMD_DATA_BLOCK_SIZE.
Proof.
  intros Hi. unfold data_at. destruct (l !! Z.to_nat (i / MLX5_CMD_DATA_BLOCK_SIZE)) as [b|] eqn:E.
  - exists b. split; [by eapply list_elem_of_lookup_2|]. unfold MLX5_CMD_DATA_BLOCK_SIZE in *. div_lia.
  - apply lookup_ge_None in E. unfold MLX5_CMD_DATA_BLOCK_SIZE in *. div_lia.
Qed.

(** A byte outside the data of every buffer of a chain *)
Definition off_data (l : list mlx5_cmd_mailbox) (a : Z) : Prop :=
  Forall (fun b => ~ b.(mb_buf) <= a < b.(mb_buf) + MLX5_CMD_DATA_BLOCK_SIZE) l.

Lemma linked_frame c c' l : forall p num,
  linked c p num l ->
  (forall q b, b ∈ l -> c.(v_boxes) !! q = Some b -> c'.(v_boxes) !! q = Some b) ->
  (forall b a, b ∈ l -> b.(mb_buf) + off_blk_next <= a < b.(mb_buf) + MLX5_ADAPTER_PAGE_SIZE ->
     c'.(v_mem) a = c.(v_mem) a) ->
  linked c' p num l.
Proof.
  induction l as [|b l IH]; intros p num Hl Hb Hm; simpl in *; [done|]. destruct Hl as (H1 & H2 & H3 & H4 & H5).
  assert (forall n k, off_blk_next <= k -> k + Z.of_nat n <= MLX5_ADAPTER_PAGE_SIZE ->
    load_be n (mb_buf b + k) (v_mem c') = load_be n (mb_buf b + k) (v_mem c)) as Hld.
  { intros n k Hk1 Hk2. apply load_be_ext. intros a Ha. apply (Hm b); [constructor|lia]. }
  split_and!; [done|apply Hb; [constructor|done]| | |].
  - rewrite Hld; [done|unfold off_blk_next; lia|unfold off_blk_next, MLX5_ADAPTER_PAGE_SIZE; lia].
  - rewrite Hld; [done|unfold off_blk_next, off_blk_num; lia|unfold off_blk_num, MLX5_ADAPTER_PAGE_SIZE; lia].
  - apply IH; [done| |]; intros; [apply Hb; [by constructor|done]|eapply Hm; [by constructor|done]].
Qed.

Lemma bufs_apart_sub l W W' :
  bufs_apart l W ->
  (forall w', w' ∈ W' -> exists w, w ∈ W /\ w.1 <= w'.1 /\ w'.1 + w'.2 <= w.1 + w.2) -> bufs_apart l W'.
Proof.
  intros Hl Hw. induction l as [|b l IH]; simpl in *; [done|]. destruct Hl as [Ha Hl]. split; [|by apply IH].
  apply Forall_app in Ha as [Ha1 Ha2]. apply Forall_app. split; [done|]. rewrite Forall_forall in Ha2.
  apply Forall_forall. intros w' Hw'. destruct (Hw w' Hw') as (w & Hin & H1 & H2). specialize (Ha2 w Hin).
  unfold apart in *. lia.
Qed.

Lemma bufs_apart_elem l W b w : bufs_apart l W -> b ∈ l -> w ∈ W -> apart (win b) w.
Proof.
  intros Hl Hb Hw. induction l as [|b' l IH]; [by apply elem_of_nil in Hb|]. destruct Hl as [Ha Hl].
  apply elem_of_cons in Hb as [->|Hb]; [|by apply IH]. rewrite Forall_forall in Ha. apply Ha, elem_of_app. by right.
Qed.

(** A byte of one buffer is off the data of the buffers behind it. *)
Lemma off_data_apart b l W a :
  bufs_apart (b :: l) W -> b.(mb_buf) <= a < b.(mb_buf) + MLX5_ADAPTER_PAGE_SIZE -> off_data l a.
Proof.
  intros [Ha _] Hx. apply Forall_app in Ha as [Ha _]. rewrite Forall_fmap in Ha. eapply Forall_impl; [exact Ha|].
  intros b' Hb'. unfold apart, win, MLX5_ADAPTER_PAGE_SIZE, MLX5_CMD_DATA_BLOCK_SIZE in *. simpl in *. lia.
Qed.

(** A write of the data of one buffer leaves the links behind it. *)
Lemma linked_other c f b l W p num :
  bufs_apart (b :: l) W -> Writes f b.(mb_buf) (b.(mb_buf) + MLX5_CMD_DATA_BLOCK_SIZE) ->
  linked c p num l -> linked (set_mem f c) p num l.
Proof.
  intros [Ha _] Hw Hl. eapply linked_frame; [exact Hl|done|]. intros b' a Hb' Hx. simpl. apply Hw.
  apply Forall_app in Ha as [Ha _]. rewrite Forall_fmap, Forall_forall in Ha. specialize (Ha b' Hb').
  unfold apart, win, MLX5_ADAPTER_PAGE_SIZE, MLX5_CMD_DATA_BLOCK_SIZE, off_blk_next in *. simpl in *. lia.
Qed.

(** ** Copying into a chain *)

Lemma set_mem_set_mem f g c : set_mem g (set_mem f c) = set_mem (fun m => g (f m)) c.
Proof. done. Qed.

Lemma copy_boxes_to l : forall c next num p size fuel,
  linked c next num l -> bufs_apart l [(p, size)] ->
  0 <= size <= MLX5_CMD_DATA_BLOCK_SIZE * Z.of_nat (length l) -> size <= Z.of_nat fuel ->
  exists m, copy_boxes fuel true c next p size = Some (set_mem (fun _ => m) c) /\
    (forall i, 0 <= i < size -> m (data_at l i) = c.(v_mem) (p + i)) /\
    (forall a, off_data l a -> m a = c.(v_mem) a).
Proof.
  induction l as [|b l IH]; intros c next num p size fuel Hl Ha Hs Hf; simpl in Hs.
  - assert (size = 0) as -> by lia. exists c.(v_mem). destruct fuel; simpl; (split; [by destruct c|]); split; (lia || done).
  - destruct (Z.eqb_spec size 0) as [->|Hn].
    { exists c.(v_mem). destruct fuel; simpl; (split; [by destruct c|]); split; (lia || done). }
    destruct fuel as [|fuel]; [lia|]. simpl. rewrite (proj2 (Z.eqb_neq size 0)) by done.
    destruct Hl as (Hp & Hb & _ & _ & Hl). rewrite Hb. cbn [mbind option_bind].
    destruct Ha as [Ha Hal]. apply Forall_app in Ha as [Ha1 Ha2]. apply Forall_cons_1 in Ha2 as [Ha2 _].
    set (copy := Z.min size MLX5_CMD_DATA_BLOCK_SIZE). set (c1 := set_mem _ c).
    assert (0 < copy <= MLX5_CMD_DATA_BLOCK_SIZE) as Hc by (unfold copy, MLX5_CMD_DATA_BLOCK_SIZE in *; lia).
    assert (forall a, ~ mb_buf b <= a < mb_buf b + MLX5_CMD_DATA_BLOCK_SIZE -> v_mem c1 a = v_mem c a) as Hout
      by (intros a Hx; apply memcpy_outside; lia).
    destruct (IH c1 (mb_next b) (num + 1) (p + copy) (size - copy) fuel) as (m & E & D & O).
    { eapply (linked_other c _ b l [(p, size)]); [by split; [apply Forall_app; split; [|constructor]|]| |done].
      intros m a Hx. apply memcpy_outside. lia. }
    { eapply bufs_apart_sub; [exact Hal|]. intros w' Hw'. apply list_elem_of_singleton in Hw' as ->.
      exists (p, size). split; [constructor|]. simpl. lia. }
    { unfold copy, MLX5_CMD_DATA_BLOCK_SIZE in *. lia. }
    { lia. }
    exists m. split; [exact E|]. split.
    + intros i Hi. destruct (decide (i < MLX5_CMD_DATA_BLOCK_SIZE)) as [Hlt|Hge].
      * rewrite data_at_head by lia. rewrite O.
        2:{ eapply (off_data_apart b l [(p, size)]); [split; [apply Forall_app; split; [done|by constructor]|done]|].
            unfold MLX5_ADAPTER_PAGE_SIZE, MLX5_CMD_DATA_BLOCK_SIZE in *. lia. }
        simpl. rewrite memcpy_inside by (unfold copy; lia). f_equal. lia.
      * rewrite data_at_tail by lia. assert (copy = MLX5_CMD_DATA_BLOCK_SIZE) as Ec by (unfold copy; lia).
        rewrite <- Ec. rewrite D by lia. replace (p + copy + (i - copy)) with (p + i) by lia. apply Hout.
        unfold apart, win, MLX5_ADAPTER_PAGE_SIZE, MLX5_CMD_DATA_BLOCK_SIZE in *. simpl in *. lia.
    + intros a [Hx1 Hx2]%Forall_cons_1. rewrite O by done. by apply Hout.
Qed.

(** ** Copying out of a chain *)

Lemma copy_boxes_from l : forall c next num p size fuel,
  linked c next num l -> bufs_apart l [(p, size)] ->
  0 <= size <= MLX5_CMD_DATA_BLOCK_SIZE * Z.of_nat (length l) -> size <= Z.of_nat fuel ->
  exists m, copy_boxes fuel false c next p size = Some (set_mem (fun _ => m) c) /\
    (forall i, 0 <= i < size -> m (p + i) = c.(v_mem) (data_at l i)) /\
    (forall a, ~ p <= a < p + size -> m a = c.(v_mem) a).
Proof.
  induction l as [|b l IH]; intros c next num p size fuel Hl Ha Hs Hf; simpl in Hs.
  - assert (size = 0) as -> by lia. exists c.(v_mem). destruct fuel; simpl; (split; [by destruct c|]); split; (lia || done).
  - destruct (Z.eqb_spec size 0) as [->|Hn].
    { exists c.(v_mem). destruct fuel; simpl; (split; [by destruct c|]); split; (lia || done). }
    destruct fuel as [|fuel]; [lia|]. simpl. rewrite (proj2 (Z.eqb_neq size 0)) by done.
    pose proof Ha as [Ha0 Hal]. destruct Hl as (Hp & Hb & _ & _ & Hl). rewrite Hb. cbn [mbind option_bind].
    pose proof (bufs_apart_elem _ _ b (p, size) Ha ltac:(constructor) ltac:(constructor)) as Hbp.
    set (copy := Z.min size MLX5_CMD_DATA_BLOCK_SIZE). set (c1 := set_mem _ c).
    assert (0 < copy <= MLX5_CMD_DATA_BLOCK_SIZE) as Hc by (unfold copy, MLX5_CMD_DATA_BLOCK_SIZE in *; lia).
    assert (forall b' a, b' ∈ b :: l -> b'.(mb_buf) <= a < b'.(mb_buf) + MLX5_ADAPTER_PAGE_SIZE -> v_mem c1 a = v_mem c a) as Hout.
    { intros b' a Hb' Hx. apply memcpy_outside.
      pose proof (bufs_apart_elem _ _ b' (p, size) Ha Hb' ltac:(constructor)) as Hap. unfold apart, win in Hap. simpl in Hap.
      unfold copy. lia. }
    destruct (IH c1 (mb_next b) (num + 1) (p + copy) (size - copy) fuel) as (m & E & D & O).
    { eapply linked_frame; [exact Hl|done|]. intros b' a Hb' Hx. apply (Hout b'); [by constructor|unfold off_blk_next in Hx; lia]. }
    { eapply bufs_apart_sub; [exact Hal|]. intros w' Hw'. apply list_elem_of_singleton in Hw' as ->.
      exists (p, size). split; [constructor|]. simpl. lia. }
    { unfold copy, MLX5_CMD_DATA_BLOCK_SIZE in *. lia. }
    { lia. }
    exists m. split; [exact E|]. split.
    + intros i Hi. destruct (decide (i < MLX5_CMD_DATA_BLOCK_SIZE)) as [Hlt|Hge].
      * rewrite data_at_head by lia. rewrite O by (unfold copy; lia). simpl.
        rewrite memcpy_inside by (unfold copy; lia). f_equal. lia.
      * rewrite data_at_tail by lia. assert (copy = MLX5_CMD_DATA_BLOCK_SIZE) as Ec by (unfold copy; lia).
        rewrite <- Ec. replace (p + i) with (p + copy + (i - copy)) by lia. rewrite D by lia.
        destruct (data_in l (i - copy)) as (b' & Hb' & Hd); [unfold copy, MLX5_CMD_DATA_BLOCK_SIZE in *; lia|].
        apply (Hout b'); [by constructor|]. unfold MLX5_ADAPTER_PAGE_SIZE, MLX5_CMD_DATA_BLOCK_SIZE in *. lia.
    + intros a Hx. rewrite O by lia. apply memcpy_outside. lia.
Qed.

(** * What the device reads *)

(** The memory behind an address of the device *)
Fixpoint dma_find (D : list dma_map) (x : Z) : option Z :=
  match D with
  | [] => None
  | d :: D =>
    if (d.(dm_iova) <=? x) && (x <? d.(dm_iova) + d.(dm_size)) then Some (d.(dm_vaddr) + (x - d.(dm_iova)))
    else dma_find D x
  end.

Definition dev_addr (c : vfio) (x : Z) : option Z := dma_find c.(v_dma) x.

Definition bytes_at (m : mem) (p n : Z) : list Z := (fun i => m (p + Z.of_nat i)) <$> seq 0 (Z.to_nat n).

(** [n] bytes of data from the block at [x] on, over the links in memory *)
Fixpoint dev_read (fuel : nat) (c : vfio) (x n : Z) : option (list Z) :=
  if n <=? 0 then Some []
  else
    match fuel with
    | O => None
    | S fuel =>
      va ← dev_addr c x;
      rest ← dev_read fuel c (load_be 8 (va + off_blk_next) c.(v_mem)) (n - MLX5_CMD_DATA_BLOCK_SIZE);
      Some (bytes_at c.(v_mem) va (Z.min n MLX5_CMD_DATA_BLOCK_SIZE) ++ rest)
    end.

(** A command: its length, its first bytes in the layout and the rest in mailboxes *)
Definition dev_command (fuel : nat) (c : vfio) (layout : Z) : option (list Z) :=
  let m := c.(v_mem) in
  let ilen := load_be 4 (layout + off_ilen) m in
  rest ← dev_read fuel c (load_be 8 (layout + off_iptr) m) (ilen - sizeof_lay_in);
  Some (bytes_at m (layout + off_in) (Z.min ilen sizeof_lay_in) ++ rest).

Lemma dma_find_spec l D d x :
  dma_ok l D -> d ∈ D -> in_map d x -> dma_find D x = Some (d.(dm_vaddr) + (x - d.(dm_iova))).
Proof.
  intros Hok Hd Hx. assert (forall d', d' ∈ D -> in_map d' x -> d' = d) as Hone.
  { intros d' Hd' Hx'. destruct (dma_apart _ _ Hok _ _ Hd' Hd) as [?|Ho]; [done|]. unfold in_map in *. lia. }
  clear Hok. induction D as [|e D IH]; [by apply elem_of_nil in Hd|]. simpl.
  destruct (Z.leb_spec (dm_iova e) x), (Z.ltb_spec x (dm_iova e + dm_size e)); simpl;
    try (apply elem_of_cons in Hd as [->|Hd]; [unfold in_map, dm_end in Hx; lia|apply IH; [done|]; intros; apply Hone; [by constructor|done]]).
  rewrite (Hone e); [done|constructor|]. unfold in_map, dm_end. lia.
Qed.

Lemma box_addr c p b : vfio_ok c -> c.(v_boxes) !! p = Some b -> dev_addr c b.(mb_iova) = Some b.(mb_buf).
Proof.
  intros Hok Hb. unfold dev_addr. rewrite (dma_find_spec _ _ (box_map b) _ (ok_dma _ Hok)).
  - simpl. f_equal. lia.
  - apply (ok_owned _ Hok). rewrite (owned_delete c p b Hb). constructor.
  - unfold in_map, dm_end, box_map, MLX5_ADAPTER_PAGE_SIZE. simpl. lia.
Qed.

Lemma bytes_at_ext m m' p p' n :
  (forall i, 0 <= i < n -> m (p + i) = m' (p' + i)) -> bytes_at m p n = bytes_at m' p' n.
Proof.
  intros H. unfold bytes_at. apply list_eq. intros i. rewrite !list_lookup_fmap.
  destruct (seq 0 (Z.to_nat n) !! i) as [j|] eqn:E; [|done]. apply lookup_seq in E as [-> Hi]. simpl. f_equal.
  apply H. lia.
Qed.

Lemma bytes_at_app m p n k : 0 <= n -> 0 <= k -> bytes_at m p (n + k) = bytes_at m p n ++ bytes_at m (p + n) k.
Proof.
  intros Hn Hk. unfold bytes_at. rewrite Z2Nat.inj_add, seq_app, fmap_app by lia. f_equal.
  rewrite Nat.add_0_l, <- (Nat.add_0_r (Z.to_nat n)), <- fmap_add_seq, <- list_fmap_compose.
  apply list_fmap_ext. intros i j _. simpl. f_equal. lia.
Qed.

(** The device follows the chain the driver made, whatever the addresses are. *)
Lemma dev_read_chain c l : forall p num n fuel,
  vfio_ok c -> linked c p num l -> n <= MLX5_CMD_DATA_BLOCK_SIZE * Z.of_nat (length l) -> (length l <= fuel)%nat ->
  dev_read fuel c (first_iova l) n = Some ((fun i => c.(v_mem) (data_at l (Z.of_nat i))) <$> seq 0 (Z.to_nat n)).
Proof.
  induction l as [|b l IH]; intros p num n fuel Hok Hl Hn Hf; simpl in Hn.
  - assert (n <= 0) as H0 by lia. destruct fuel; simpl; rewrite (proj2 (Z.leb_le n 0)) by done;
      by rewrite (Z2Nat.nonpos n) by done.
  - destruct (Z.leb_spec n 0) as [H0|H0].
    { destruct fuel; simpl; rewrite (proj2 (Z.leb_le n 0)) by done; by rewrite (Z2Nat.nonpos n) by done. }
    destruct fuel as [|fuel]; [simpl in Hf; lia|]. simpl. rewrite (proj2 (Z.leb_gt n 0)) by done.
    destruct Hl as (Hp & Hb & Hnx & _ & Hl). rewrite (box_addr c p b Hok Hb). cbn [mbind option_bind]. rewrite Hnx.
    rewrite (IH (mb_next b) (num + 1)) by (done || (simpl in Hf; unfold MLX5_CMD_DATA_BLOCK_SIZE in *; lia)).
    cbn [mbind option_bind]. f_equal. unfold bytes_at.
    set (k := Z.min n MLX5_CMD_DATA_BLOCK_SIZE).
    replace (Z.to_nat n) with (Z.to_nat k + Z.to_nat (n - MLX5_CMD_DATA_BLOCK_SIZE))%nat
      by (unfold k, MLX5_CMD_DATA_BLOCK_SIZE; lia).
    rewrite seq_app, fmap_app. f_equal.
    + apply list_fmap_ext. intros i j [-> Hj]%lookup_seq. simpl.
      rewrite data_at_head by (unfold k, MLX5_CMD_DATA_BLOCK_SIZE in *; lia). done.
    + rewrite Nat.add_0_l. destruct (decide (n <= MLX5_CMD_DATA_BLOCK_SIZE)) as [Hle|Hgt].
      { by rewrite (Z2Nat.nonpos (n - _)) by lia. }
      rewrite <- (Nat.add_0_r (Z.to_nat k)), <- fmap_add_seq, <- list_fmap_compose.
      apply list_fmap_ext. intros i j [-> Hj]%lookup_seq. simpl.
      rewrite data_at_tail by (unfold k, MLX5_CMD_DATA_BLOCK_SIZE in *; lia). do 2 f_equal. unfold k. lia.
Qed.

(** * Making a message *)

(** The answers of the allocators for the next mailboxes, four calls each: the mailbox, its buffer,
    the range of the set and the mapping *)
Definition ans_box (c : vfio) (i : nat) : Z := c.(v_sys) (c.(v_tick) + 4 * i)%nat.
Definition ans_buf (c : vfio) (i : nat) : Z := c.(v_sys) (c.(v_tick) + 4 * i + 1)%nat.

(** They are not in use, and no two are the same memory. *)
Definition fresh_answers (c : vfio) (k : nat) (W : list (Z * Z)) : Prop :=
  forall i, (i < k)%nat ->
    c.(v_boxes) !! ans_box c i = None /\ Forall (apart (ans_buf c i, MLX5_ADAPTER_PAGE_SIZE)) W /\
    forall j, (i < j < k)%nat -> ans_box c i <> ans_box c j /\
      apart (ans_buf c j, MLX5_ADAPTER_PAGE_SIZE) (ans_buf c i, MLX5_ADAPTER_PAGE_SIZE).

Lemma box_iova_range c p b : vfio_ok c -> c.(v_boxes) !! p = Some b -> 0 <= b.(mb_iova) < 2 ^ 63.
Proof.
  intros Hok Hb. assert (box_map b ∈ v_dma c) as Hd by (apply (ok_owned _ Hok); rewrite (owned_delete c p b Hb); constructor).
  apply (dma_wf _ _ (ok_dma _ Hok)) in Hd as (? & ? & ?). unfold dm_end in *. simpl in *. lia.
Qed.

Lemma push_box_spec c tmp buf iova head num l W :
  vfio_ok c -> c.(v_boxes) !! tmp = Some (MB buf iova 0) -> tmp <> 0 -> linked c head (num + 1) l ->
  (forall q b, b ∈ l -> c.(v_boxes) !! q = Some b -> q <> tmp) ->
  bufs_apart (MB buf iova head :: l) W -> 0 <= num < 2 ^ 32 ->
  exists c', push_box c tmp head num = Some c' /\ vfio_ok c' /\ c'.(v_blocks) = c.(v_blocks) /\
    c'.(v_boxes) = <[tmp := MB buf iova head]> c.(v_boxes) /\ c'.(v_sys) = c.(v_sys) /\ c'.(v_tick) = c.(v_tick) /\
    linked c' tmp num (MB buf iova head :: l) /\
    forall a, ~ buf <= a < buf + MLX5_ADAPTER_PAGE_SIZE -> c'.(v_mem) a = c.(v_mem) a.
Proof.
  intros Hok Ht Hn Hl Hd Ha Hnum.
  assert ((if head =? 0 then Some 0 else b ← c.(v_boxes) !! head; Some b.(mb_iova)) = Some (first_iova l)) as Hf.
  { destruct l as [|b l]; simpl in Hl; [by subst head|]. destruct Hl as (H1 & H2 & _). rewrite (proj2 (Z.eqb_neq _ _)) by done.
    by rewrite H2. }
  assert (0 <= first_iova l < 2 ^ 64) as Hio.
  { destruct l as [|b l]; simpl; [lia|]. destruct Hl as (_ & H2 & _). pose proof (box_iova_range c head b Hok H2). lia. }
  unfold push_box. rewrite Ht. cbn [mbind option_bind]. rewrite Hf. cbn [mbind option_bind mb_buf mb_iova].
  eexists. split; [reflexivity|]. split_and!; [|done..| |].
  - do 2 apply vfio_ok_mem. destruct Hok as [D O N B Z0].
    assert (owned (set_boxes (<[tmp := MB buf iova head]> c.(v_boxes)) c) ≡ₚ owned c) as Eo.
    { rewrite (owned_delete c tmp _ Ht). rewrite <- insert_delete_eq.
      change (set_boxes (<[tmp := MB buf iova head]> (delete tmp c.(v_boxes))) c)
        with (set_boxes (<[tmp := MB buf iova head]> (set_boxes (delete tmp c.(v_boxes)) c).(v_boxes))
               (set_boxes (delete tmp c.(v_boxes)) c)).
      rewrite owned_insert by (simpl; apply lookup_delete_eq). done. }
    split; simpl; [done|intros d; rewrite Eo; apply O|by rewrite Eo|done|].
    rewrite lookup_insert_ne by done. done.
  - simpl. split_and!; [done|apply lookup_insert_eq| | |].
    + unfold off_blk_next, off_blk_num. rewrite load_store_other, load_store_same by lia. apply Z.mod_small.
      change (2 ^ (8 * Z.of_nat 8)) with (2 ^ 64). lia.
    + rewrite load_store_same. apply Z.mod_small. change (2 ^ (8 * Z.of_nat 4)) with (2 ^ 32). lia.
    + eapply linked_frame; [exact Hl| |].
      * intros q b Hb Hq. simpl. rewrite lookup_insert_ne; [done|]. intros ->. by apply (Hd q b Hb Hq).
      * intros b a Hb Hx. simpl. destruct Ha as [Ha _]. apply Forall_app in Ha as [Ha _].
        rewrite Forall_fmap, Forall_forall in Ha. specialize (Ha b Hb).
        unfold apart, win, MLX5_ADAPTER_PAGE_SIZE, off_blk_next, off_blk_num in *. simpl in *.
        rewrite !store_be_outside by lia. done.
  - intros a Hx. simpl. unfold MLX5_ADAPTER_PAGE_SIZE, off_blk_next, off_blk_num in *. rewrite !store_be_outside by lia. done.
Qed.

Lemma fresh_next c c' k buf W :
  fresh_answers c (S k) W -> c'.(v_sys) = c.(v_sys) -> c'.(v_tick) = (4 + c.(v_tick))%nat -> buf = ans_buf c 0 ->
  (forall q, q <> ans_box c 0 -> c'.(v_boxes) !! q = c.(v_boxes) !! q) ->
  fresh_answers c' k ((buf, MLX5_ADAPTER_PAGE_SIZE) :: W).
Proof.
  intros Hf Hs Ht -> Hb i Hi.
  assert (forall i, ans_box c' i = ans_box c (S i) /\ ans_buf c' i = ans_buf c (S i)) as Ha.
  { intros j. unfold ans_box, ans_buf. rewrite Hs, Ht. split; f_equal; lia. }
  destruct (Hf (S i) ltac:(lia)) as (F1 & F2 & F3). destruct (Hf 0%nat ltac:(lia)) as (_ & _ & F0).
  destruct (F0 (S i) ltac:(lia)) as [G1 G2]. rewrite !(proj1 (Ha i)), !(proj2 (Ha i)). split_and!.
  - rewrite Hb by done. done.
  - constructor; [exact G2|done].
  - intros j Hj. rewrite (proj1 (Ha j)), (proj2 (Ha j)). apply F3. lia.
Qed.

Lemma apart_self b : ~ apart (win b) (win b).
Proof. unfold apart, win, MLX5_ADAPTER_PAGE_SIZE. simpl. lia. Qed.

Lemma apart_sym w w' : apart w w' -> apart w' w.
Proof. unfold apart. tauto. Qed.

Lemma alloc_boxes_spec n k : forall c head l W,
  Z.of_nat k < 2 ^ 32 -> vfio_ok c -> linked c head (Z.of_nat k) l -> bufs_apart l W ->
  fresh_answers c (k + n) ((win <$> l) ++ W) ->
  exists ok c' head' new, alloc_boxes k c head = Some (ok, c', head') /\ vfio_ok c' /\ c'.(v_blocks) = c.(v_blocks) /\
    linked c' head' (Z.of_nat k - Z.of_nat (length new)) (new ++ l) /\ bufs_apart (new ++ l) W /\
    (ok = true -> length new = k /\ fresh_answers c' n ((win <$> new ++ l) ++ W)) /\
    (forall q b, c.(v_boxes) !! q = Some b -> c'.(v_boxes) !! q = Some b) /\
    (forall a, Forall (fun b => ~ b.(mb_buf) <= a < b.(mb_buf) + MLX5_ADAPTER_PAGE_SIZE) new -> c'.(v_mem) a = c.(v_mem) a \/ ok = false).
Proof.
  induction k as [|k IH]; intros c head l W Hk Hok Hl Ha Hf.
  - exists true, c, head, []. split; [done|]. split_and!; [done|done| |done|by intros _|done|by left].
    simpl. by rewrite Z.sub_0_r.
  - cbn [alloc_boxes]. destruct (Hf 0%nat ltac:(lia)) as (F1 & F2 & F3).
    assert (ans_box c 0 = (ask c).1) as Eb by (unfold ans_box; simpl; by rewrite Nat.add_0_r).
    assert (ans_buf c 0 = (ask (ask c).2).1) as Ef by (unfold ans_buf; simpl; f_equal; lia).
    rewrite Eb in F1. destruct (alloc_cmd_box_spec c Hok F1) as (p & c1 & -> & H1 & B1 & [(-> & X1 & M1)|(Hp & Ep & iova & Hbuf & X1 & M1 & S1 & T1)]).
    + exists false, c1, head, []. split; [done|]. simpl. split_and!; [done|done| |done|done|by rewrite X1|by right].
      rewrite Z.sub_0_r. eapply linked_frame; [exact Hl|by rewrite X1|]. intros b a Hb Hx. apply M1. rewrite <- Ef.
      apply Forall_app in F2 as [F2 _]. rewrite Forall_fmap, Forall_forall in F2. specialize (F2 b Hb).
      unfold apart, win, off_blk_next in *. simpl in *. lia.
    + rewrite (proj2 (Z.eqb_neq p 0)) by done. cbv zeta in *. rewrite <- Ef in *. rewrite <- Eb in *. set (buf := ans_buf c 0) in *.
      assert (bufs_apart (MB buf iova head :: l) W) as Ha1 by (split; [exact F2|exact Ha]).
      assert (linked c1 head (Z.of_nat k + 1) l) as Hl1.
      { replace (Z.of_nat k + 1) with (Z.of_nat (S k)) by lia. eapply linked_frame; [exact Hl| |].
        - intros q b _ Hq. rewrite X1, lookup_insert_ne; [done|]. intros <-. congruence.
        - intros b a Hb Hx. rewrite M1. apply memset_outside. apply Forall_app in F2 as [F2 _].
          rewrite Forall_fmap, Forall_forall in F2. specialize (F2 b Hb). unfold apart, win, off_blk_next in *. simpl in *. lia. }
      destruct (push_box_spec c1 p buf iova head (Z.of_nat k) l W) as (c2 & -> & H2 & B2 & X2 & S2 & T2 & L2 & M2);
        [done|rewrite X1; apply lookup_insert_eq|done|exact Hl1| |done|lia|].
      { intros q b Hb Hq ->. rewrite X1, lookup_insert_eq in Hq. injection Hq as <-.
        apply (apart_self (MB buf iova 0)). destruct Ha1 as [Ha1 _]. rewrite Forall_forall in Ha1. apply Ha1.
        apply elem_of_app. left. apply (list_elem_of_fmap_2 win) in Hb. done. }
      cbn [mbind option_bind].
      destruct (IH c2 p (MB buf iova head :: l) W) as (ok & c3 & head' & new & E & H3 & B3 & L3 & A3 & K3 & X3 & M3); [lia|done|done|done| |].
      { simpl. eapply (fresh_next c); [exact Hf|congruence|congruence|done|].
        intros q Hq. rewrite X2, X1, !lookup_insert_ne by congruence. done. }
      exists ok, c3, head', (new ++ [MB buf iova head]). rewrite length_app. simpl. rewrite <- app_assoc. simpl.
      split; [done|]. split_and!; [done|congruence| |done|intros ->; destruct (K3 eq_refl); split; [lia|done]| |].
      * replace (Z.of_nat (S k) - Z.of_nat (length new + 1)) with (Z.of_nat k - Z.of_nat (length new)) by lia. done.
      * intros q b Hq. apply X3. rewrite X2, X1, !lookup_insert_ne by congruence. done.
      * intros a [Hx1 Hx2]%Forall_app. apply Forall_cons_1 in Hx2 as [Hx2 _]. simpl in Hx2. destruct (M3 a Hx1) as [E3|?]; [left|by right].
        rewrite E3, M2, M1 by done. apply memset_outside. lia.
Qed.

Lemma calc_cmd_blocks_spec len :
  0 <= len < 2 ^ 31 ->
  0 <= mlx5_calc_cmd_blocks len < 2 ^ 31 /\ len <= 16 + MLX5_CMD_DATA_BLOCK_SIZE * mlx5_calc_cmd_blocks len.
Proof.
  intros Hl. unfold mlx5_calc_cmd_blocks, DIV_ROUND_UP, MLX5_CMD_DATA_BLOCK_SIZE.
  rewrite (s32_small len) by lia. rewrite (u64_small (len - _)) by lia. rewrite u64_small by lia.
  rewrite s32_small by div_lia. div_lia.
Qed.

(** The chains of a slot: for each message the mailboxes that hold its length, the first one in
    the layout, and no two buffers or the layout share a byte *)
Record slot_ready (c : vfio) (s : mlx5_vfio_cmd_slot) (lin lout : list mlx5_cmd_mailbox) : Prop := {
  sr_in : linked c s.(cs_in).(msg_next) 0 lin;
  sr_out : linked c s.(cs_out).(msg_next) 0 lout;
  sr_iptr : load_be 8 (s.(lay) + off_iptr) c.(v_mem) = first_iova lin;
  sr_optr : load_be 8 (s.(lay) + off_optr) c.(v_mem) = first_iova lout;
  sr_ilen : s.(cs_in).(msg_len) <= 16 + MLX5_CMD_DATA_BLOCK_SIZE * Z.of_nat (length lin);
  sr_olen : s.(cs_out).(msg_len) <= 16 + MLX5_CMD_DATA_BLOCK_SIZE * Z.of_nat (length lout);
  sr_apart : bufs_apart (lin ++ lout) [(s.(lay), 64)];
}.

Lemma bufs_apart_app l1 l2 W :
  bufs_apart (l1 ++ l2) W <-> bufs_apart l1 ((win <$> l2) ++ W) /\ bufs_apart l2 W.
Proof.
  induction l1 as [|b l1 IH]; simpl; [tauto|]. rewrite IH, fmap_app, app_assoc. tauto.
Qed.

Lemma off_data_far l W w a :
  bufs_apart l W -> w ∈ W -> w.1 <= a < w.1 + w.2 -> off_data l a.
Proof.
  intros Hl Hw Ha. apply Forall_forall. intros b Hb. pose proof (bufs_apart_elem _ _ _ _ Hl Hb Hw) as Hap.
  unfold apart, win, MLX5_ADAPTER_PAGE_SIZE, MLX5_CMD_DATA_BLOCK_SIZE in *. simpl in *. lia.
Qed.

(** ** Zeroing a chain *)

Lemma zero_boxes_spec l : forall c tmp num W n fuel,
  linked c tmp num l -> bufs_apart l W ->
  n <= MLX5_CMD_DATA_BLOCK_SIZE * Z.of_nat (length l) -> n <= Z.of_nat fuel ->
  exists m, zero_boxes fuel c tmp n = Some (set_mem (fun _ => m) c) /\
    (forall i, 0 <= i < n -> m (data_at l i) = 0) /\ (forall a, off_data l a -> m a = c.(v_mem) a).
Proof.
  induction l as [|b l IH]; intros c tmp num W n fuel Hl Ha Hs Hf; simpl in Hs.
  - exists c.(v_mem). destruct fuel; simpl; rewrite (proj2 (Z.leb_le n 0)) by lia; (split; [by destruct c|]); split; (lia || done).
  - destruct (Z.leb_spec n 0) as [Hn|Hn].
    { exists c.(v_mem). destruct fuel; simpl; rewrite (proj2 (Z.leb_le n 0)) by lia; (split; [by destruct c|]); split; (lia || done). }
    destruct fuel as [|fuel]; [lia|]. simpl. rewrite (proj2 (Z.leb_gt n 0)) by done.
    destruct Hl as (Hp & Hb & _ & _ & Hl). rewrite Hb. cbn [mbind option_bind]. set (c1 := set_mem _ c).
    assert ((mb_next b =? 0) && negb (n - MLX5_CMD_DATA_BLOCK_SIZE <=? 0) = false) as ->.
    { destruct l as [|b' l]; simpl in Hl, Hs.
      - rewrite (proj2 (Z.leb_le _ 0)) by (unfold MLX5_CMD_DATA_BLOCK_SIZE in *; lia). apply andb_false_r.
      - destruct Hl as (Hnx & _). by rewrite (proj2 (Z.eqb_neq _ 0)). }
    destruct (IH c1 (mb_next b) (num + 1) W (n - MLX5_CMD_DATA_BLOCK_SIZE) fuel) as (m & E & D & O).
    { eapply (linked_other c _ b l W); [done| |done]. intros m a Hx. apply memset_outside. lia. }
    { apply Ha. }
    { unfold MLX5_CMD_DATA_BLOCK_SIZE in *. lia. }
    { unfold MLX5_CMD_DATA_BLOCK_SIZE in *. lia. }
    exists m. split; [exact E|]. split.
    + intros i Hi. destruct (decide (i < MLX5_CMD_DATA_BLOCK_SIZE)) as [Hlt|Hge].
      * rewrite data_at_head by lia. rewrite O.
        2:{ eapply (off_data_apart b l W); [done|]. unfold MLX5_ADAPTER_PAGE_SIZE, MLX5_CMD_DATA_BLOCK_SIZE in *. lia. }
        simpl. unfold memset. rewrite (proj2 (Z.leb_le _ _)), (proj2 (Z.ltb_lt _ _)) by lia. done.
      * rewrite data_at_tail by lia. apply D. lia.
    + intros a [Hx1 Hx2]%Forall_cons_1. rewrite O by done. apply memset_outside. lia.
Qed.

(** ** A command posted *)

Lemma copy_to_msg_spec c msg l from size layout :
  linked c msg.(msg_next) 0 l -> bufs_apart l [(from, size); (layout, 64)] -> apart (from, size) (layout, 64) ->
  0 <= size <= 16 + MLX5_CMD_DATA_BLOCK_SIZE * Z.of_nat (length l) ->
  exists m, mlx5_copy_to_msg c msg from size layout = Some (set_mem (fun _ => m) c) /\
    (forall i, 0 <= i < Z.min size 16 -> m (layout + off_in + i) = c.(v_mem) (from + i)) /\
    (forall i, 0 <= i < size - 16 -> m (data_at l i) = c.(v_mem) (from + 16 + i)) /\
    (forall a, off_data l a -> ~ layout + off_in <= a < layout + off_in + 16 -> m a = c.(v_mem) a).
Proof.
  intros Hl Ha Hap Hs. unfold mlx5_copy_to_msg, sizeof_lay_in. set (copy := Z.min size 16). set (c1 := set_mem _ c).
  assert (forall a, ~ layout + off_in <= a < layout + off_in + 16 -> v_mem c1 a = v_mem c a) as Hout
    by (intros a Hx; apply memcpy_outside; unfold copy; lia).
  assert (forall b a, b ∈ l -> b.(mb_buf) <= a < b.(mb_buf) + MLX5_ADAPTER_PAGE_SIZE -> v_mem c1 a = v_mem c a) as Hbuf.
  { intros b a Hb Hx. apply Hout. pose proof (bufs_apart_elem _ _ b (layout, 64) Ha Hb ltac:(repeat constructor)) as Hq.
    unfold apart, win, off_in in *. simpl in *. lia. }
  destruct (copy_boxes_to l c1 msg.(msg_next) 0 (from + copy) (size - copy) (Z.to_nat size)) as (m & E & D & O).
  { eapply linked_frame; [exact Hl|done|]. intros b a Hb Hx. apply (Hbuf b); [done|unfold off_blk_next in Hx; lia]. }
  { eapply bufs_apart_sub; [exact Ha|]. intros w' ->%list_elem_of_singleton. exists (from, size).
    split; [constructor|]. simpl. unfold copy. lia. }
  { unfold copy, MLX5_CMD_DATA_BLOCK_SIZE in *. lia. }
  { unfold copy. lia. }
  exists m. split; [exact E|]. split_and!.
  - intros i Hi. rewrite O.
    + simpl. rewrite memcpy_inside by (unfold copy; lia). f_equal. lia.
    + eapply (off_data_far l _ (layout, 64)); [exact Ha|repeat constructor|]. simpl. unfold off_in. lia.
  - intros i Hi. rewrite D by (unfold copy; lia). replace (from + copy + i) with (from + 16 + i) by (unfold copy; lia).
    apply Hout. unfold apart, off_in in *. simpl in *. lia.
  - intros a Hx Hy. rewrite O by done. by apply Hout.
Qed.

Lemma bufs_apart_windows l W1 W2 : bufs_apart l W1 -> bufs_apart l W2 -> bufs_apart l (W1 ++ W2).
Proof.
  induction l as [|b l IH]; simpl; [done|]. intros [A1 B1] [A2 B2]. split; [|by apply IH].
  apply Forall_app in A1 as [A1 A1']. apply Forall_app in A2 as [_ A2']. rewrite !Forall_app. done.
Qed.

Lemma bufs_apart_incl l W W' : bufs_apart l W -> W' ⊆ W -> bufs_apart l W'.
Proof. intros Hl Hi. eapply bufs_apart_sub; [exact Hl|]. intros w Hw. exists w. split; [by apply Hi|lia]. Qed.

Lemma data_off lin lout L i :
  bufs_apart lin ((win <$> lout) ++ [(L, 64)]) -> 0 <= i < MLX5_CMD_DATA_BLOCK_SIZE * Z.of_nat (length lin) ->
  off_data lout (data_at lin i) /\ ~ L <= data_at lin i < L + 64.
Proof.
  intros Ha Hi. destruct (data_in lin i Hi) as (b & Hb & Hd). split.
  - apply Forall_forall. intros b' Hb'.
    pose proof (bufs_apart_elem _ _ b (win b') Ha Hb ltac:(apply elem_of_app; left; by apply list_elem_of_fmap_2)) as Hap.
    unfold apart, win, MLX5_ADAPTER_PAGE_SIZE, MLX5_CMD_DATA_BLOCK_SIZE in *. simpl in *. lia.
  - pose proof (bufs_apart_elem _ _ b (L, 64) Ha Hb ltac:(apply elem_of_app; right; constructor)) as Hap.
    unfold apart, win, MLX5_ADAPTER_PAGE_SIZE, MLX5_CMD_DATA_BLOCK_SIZE in *. simpl in *. lia.
Qed.

(** Preparing a command that fits the mailboxes: nothing is allocated, and only the layout and the
    data of the two chains change. *)
Lemma prep_spec c s lin lout in_ ilen olen :
  slot_ready c s lin lout ->
  0 <= ilen <= s.(cs_in).(msg_len) -> 0 <= olen <= s.(cs_out).(msg_len) -> s.(cs_in).(msg_len) < 2 ^ 31 ->
  s.(cs_out).(msg_len) < 2 ^ 31 -> bufs_apart lin [(in_, ilen)] -> apart (in_, ilen) (s.(lay), 64) ->
  exists m1 m2,
    mlx5_vfio_cmd_prep_in c s.(cs_in) s.(lay) in_ ilen = Some (0, set_mem (fun _ => m1) c, s.(cs_in)) /\
    mlx5_vfio_cmd_prep_out (set_mem (fun _ => m1) c) s.(cs_out) s.(lay) olen = Some (0, set_mem (fun _ => m2) c, s.(cs_out)) /\
    (forall i, 0 <= i < Z.min ilen 16 -> m2 (s.(lay) + off_in + i) = c.(v_mem) (in_ + i)) /\
    (forall i, 0 <= i < ilen - 16 -> m2 (data_at lin i) = c.(v_mem) (in_ + 16 + i)) /\
    load_be 4 (s.(lay) + off_ilen) m2 = ilen /\ load_be 4 (s.(lay) + off_olen) m2 = olen /\
    (forall i, 0 <= i < 16 -> m2 (s.(lay) + off_out + i) = 0) /\
    (forall i, 0 <= i < olen - 16 -> m2 (data_at lout i) = 0) /\
    (forall a, off_data lin a -> off_data lout a ->
       ~ s.(lay) <= a < s.(lay) + 64 \/ s.(lay) + off_iptr <= a < s.(lay) + off_in \/ s.(lay) + off_optr <= a < s.(lay) + off_olen ->
       m2 a = c.(v_mem) a).
Proof.
  intros [Sin Sout Sip Sop Sil Sol Sap] Hil Hol Hi31 Ho31 Hain Hapl.
  apply bufs_apart_app in Sap as [Sapi Sapo].
  assert (bufs_apart lin [(lay s, 64)]) as Sapl by (eapply bufs_apart_incl; [exact Sapi|apply list_subseteq_app_r; done]).
  unfold mlx5_vfio_cmd_prep_in. rewrite (u32_small ilen), (proj2 (Z.ltb_ge _ _)) by lia. cbn [mbind option_bind negb Z.eqb].
  destruct (copy_to_msg_spec c (cs_in s) lin in_ ilen (lay s)) as (m1 & -> & D1 & D2 & D3);
    [done|by apply (bufs_apart_windows lin [(in_, ilen)] [(lay s, 64)])|done|lia|].
  cbn [mbind option_bind]. set (L := lay s) in *. eexists (store_be 4 (L + off_ilen) ilen m1).
  set (m1' := store_be 4 (L + off_ilen) ilen m1).
  unfold mlx5_vfio_cmd_prep_out. rewrite (u32_small olen), (proj2 (Z.ltb_ge _ _)) by lia.
  set (c2 := set_mem (memset _ 0 _) _). fold L in c2 |- *.
  assert (forall a, ~ L <= a < L + 64 -> off_data lin a -> v_mem c2 a = v_mem c a) as Hfar.
  { intros a Hx Hd. unfold c2, m1'. simpl. rewrite memset_outside, !store_be_outside by (unfold off_out, off_olen, off_ilen, sizeof_lay_in; lia).
    apply D3; [done|]. unfold off_in. lia. }
  assert (linked c2 (msg_next (cs_out s)) 0 lout) as Sout2.
  { eapply linked_frame; [exact Sout|done|]. intros b a Hb Hx.
    pose proof (bufs_apart_elem _ _ b (L, 64) Sapo Hb ltac:(constructor)) as Hap. apply Hfar.
    - unfold apart, win, off_blk_next in *. simpl in *. lia.
    - apply Forall_forall. intros b' Hb'.
      pose proof (bufs_apart_elem _ _ b' (win b) Sapi Hb' ltac:(apply elem_of_app; left; by apply list_elem_of_fmap_2)) as Hap'.
      unfold apart, win, MLX5_ADAPTER_PAGE_SIZE, MLX5_CMD_DATA_BLOCK_SIZE, off_blk_next in *. simpl in *. lia. }
  destruct (zero_boxes_spec lout c2 (msg_next (cs_out s)) 0 [(L, 64)] (olen - olen `min` sizeof_lay_in) (Z.to_nat olen))
    as (m2 & E2 & Z1 & Z2); [done|done|unfold sizeof_lay_in, MLX5_CMD_DATA_BLOCK_SIZE in *; lia|unfold sizeof_lay_in; lia|].
  assert (forall a, L <= a < L + 64 -> off_data lin a /\ off_data lout a) as Hlay.
  { intros a Hx. split; [eapply (off_data_far lin _ (L, 64) a Sapl)|eapply (off_data_far lout _ (L, 64) a Sapo)];
      try constructor; simpl; lia. }
  assert (forall n k, 0 <= k -> k + Z.of_nat n <= 64 -> load_be n (L + k) m2 = load_be n (L + k) (v_mem c2)) as Hld.
  { intros n k Hk1 Hk2. apply load_be_ext. intros a Hx. apply Z2, Hlay. lia. }
  exists m2. split; [done|]. split; [by rewrite E2|].
  unfold off_in, off_ilen, off_out, off_olen, off_iptr, off_optr, sizeof_lay_in in *. split_and!.
  - intros i Hi. rewrite Z2 by (apply Hlay; lia). simpl. unfold m1'. rewrite memset_outside, !store_be_outside by lia. by apply D1.
  - intros i Hi. destruct (data_off lin lout L i Sapi) as [F1 F2]; [unfold MLX5_CMD_DATA_BLOCK_SIZE in *; lia|].
    rewrite Z2 by done. simpl. unfold m1'. rewrite memset_outside, !store_be_outside by lia. by apply D2.
  - rewrite Hld by lia. simpl. unfold m1'. load_solve. apply Z.mod_small. change (2 ^ (8 * Z.of_nat 4)) with (2 ^ 32). lia.
  - rewrite Hld by lia. simpl. unfold m1'. load_solve. apply Z.mod_small. change (2 ^ (8 * Z.of_nat 4)) with (2 ^ 32). lia.
  - intros i Hi. rewrite Z2 by (apply Hlay; lia). simpl. unfold memset.
    rewrite (proj2 (Z.leb_le _ _)), (proj2 (Z.ltb_lt _ _)) by lia. done.
  - intros i Hi. apply Z1. lia.
  - intros a H1 H2 H3. rewrite Z2 by done. simpl. unfold m1'. rewrite memset_outside, !store_be_outside by lia. apply D3; [done|lia].
Qed.

(** The memory of the process in a window that posting does not write *)
Lemma linked_apart c m l l' L p num :
  linked c p num l -> bufs_apart l ((win <$> l') ++ [(L, 64)]) ->
  (forall a, off_data l a -> off_data l' a -> ~ L <= a < L + 64 -> m a = c.(v_mem) a) ->
  bufs_apart l [] -> linked (set_mem (fun _ => m) c) p num l.
Proof.
  intros Hl Ha Hm Hs. eapply linked_frame; [exact Hl|done|]. intros b a Hb Hx. simpl. apply Hm.
  - apply Forall_forall. intros b' Hb'. destruct (decide (b = b')) as [<-|Hne].
    + unfold off_blk_next, MLX5_CMD_DATA_BLOCK_SIZE in *. lia.
    + assert (apart (win b) (win b')) as Hap.
      { clear -Hs Hb Hb' Hne. induction l as [|q l IH]; [by apply elem_of_nil in Hb|]. destruct Hs as [Hf Hs].
        apply Forall_app in Hf as [Hf _]. rewrite Forall_fmap, Forall_forall in Hf.
        apply elem_of_cons in Hb as [->|Hb], Hb' as [->|Hb']; [done|by apply Hf|apply apart_sym; by apply Hf|by apply IH]. }
      unfold apart, win, MLX5_ADAPTER_PAGE_SIZE, MLX5_CMD_DATA_BLOCK_SIZE, off_blk_next in *. simpl in *. lia.
  - apply Forall_forall. intros b' Hb'.
    pose proof (bufs_apart_elem _ _ b (win b') Ha Hb ltac:(apply elem_of_app; left; by apply list_elem_of_fmap_2)) as Hap.
    unfold apart, win, MLX5_ADAPTER_PAGE_SIZE, MLX5_CMD_DATA_BLOCK_SIZE, off_blk_next in *. simpl in *. lia.
  - pose proof (bufs_apart_elem _ _ b (L, 64) Ha Hb ltac:(apply elem_of_app; right; constructor)) as Hap.
    unfold apart, win, off_blk_next in *. simpl in *. lia.
Qed.

Lemma bufs_apart_swap l1 l2 W : bufs_apart (l1 ++ l2) W -> bufs_apart (l2 ++ l1) W.
Proof.
  intros [A1 A2]%bufs_apart_app. apply bufs_apart_app. split.
  - apply bufs_apart_windows; [|done]. clear -A1 A2. induction l2 as [|b l2 IH]; [done|]. destruct A2 as [F A2]. split.
    + apply Forall_app in F as [F _]. apply Forall_app. split; [done|]. apply Forall_fmap, Forall_forall. intros b' Hb'. simpl.
      apply apart_sym. eapply bufs_apart_elem; [exact A1|done|]. simpl. constructor.
    + apply IH; [|done]. eapply bufs_apart_incl; [exact A1|]. simpl. set_solver.
  - eapply bufs_apart_incl; [exact A1|]. set_solver.
Qed.

(** Posting a command that fits the mailboxes of its idle slot returns 0: the device, which follows
    its own addresses from the layout on, reads the bytes of the input; the output area is zero,
    ownership is the device's, the doorbell of the slot is rung, and the mailboxes are linked as
    they were. *)
Lemma post_cmd_spec x slot s lin lout in_ ilen out olen async :
  x.(cmds) !! slot = Some s -> async && s.(in_use) = false -> vfio_ok x.(x_v) -> slot_ready x.(x_v) s lin lout ->
  0 <= ilen <= s.(cs_in).(msg_len) -> 0 <= olen <= s.(cs_out).(msg_len) -> s.(cs_in).(msg_len) < 2 ^ 31 ->
  s.(cs_out).(msg_len) < 2 ^ 31 -> bufs_apart lin [(in_, ilen)] -> apart (in_, ilen) (s.(lay), 64) ->
  exists x', mlx5_vfio_post_cmd x in_ ilen out olen slot async = Some (0, x') /\
    vfio_ok x'.(x_v) /\ slot_ready x'.(x_v) s lin lout /\
    dev_command (length lin) x'.(x_v) s.(lay) = Some (bytes_at x.(x_v).(v_mem) in_ ilen) /\
    load_be 4 (s.(lay) + off_olen) x'.(x_v).(v_mem) = olen /\
    (forall i, 0 <= i < 16 -> x'.(x_v).(v_mem) (s.(lay) + off_out + i) = 0) /\
    (forall i, 0 <= i < olen - 16 -> x'.(x_v).(v_mem) (data_at lout i) = 0) /\
    x'.(x_v).(v_mem) (s.(lay) + off_status_own) = 1 /\
    x'.(cmd_bells) = u32 (Z.shiftl 1 (Z.of_nat slot)) :: x.(cmd_bells) /\
    x'.(cmds) !! slot = Some (if async then slot_curr (AD in_ ilen out olen) s else s) /\
    x'.(have_eq) = x.(have_eq).
Proof.
  intros Hs Hidle Hok SR Hil Hol Hi31 Ho31 Hain Hapl.
  destruct (prep_spec x.(x_v) s lin lout in_ ilen olen) as (m1 & m2 & E1 & E2 & P1 & P2 & P3 & P4 & P5 & P6 & P7); [done..|].
  pose proof SR as [Sin Sout Sip Sop Sil Sol Sap].
  pose proof (proj1 (bufs_apart_app _ _ _) Sap) as [Ai _].
  pose proof (proj1 (bufs_apart_app _ _ _) (bufs_apart_swap _ _ _ Sap)) as [Ao _].
  unfold mlx5_vfio_post_cmd. rewrite Hs. cbn [mbind option_bind]. rewrite Hidle, E1. cbn [mbind option_bind negb Z.eqb].
  rewrite E2. cbn [mbind option_bind negb Z.eqb].
  replace (slot_msgs (cs_in s) (cs_out s) s) with s by (by destruct s).
  set (L := lay s) in *. set (m3 := store_be 1 (L + off_status_own) 1 m2).
  assert (forall a, a <> L + off_status_own -> m3 a = m2 a) as H3
    by (intros a Hx; apply store_be_outside; change (Z.of_nat 1) with 1; lia).
  assert (vfio_ok (set_mem (fun _ => m3) x.(x_v))) as Hok3 by (by apply vfio_ok_mem).
  assert (forall a, off_data lin a -> off_data lout a -> ~ L <= a < L + 64 -> m3 a = v_mem (x_v x) a) as H3'.
  { intros a Ha1 Ha2 Ha3. rewrite H3 by (unfold off_status_own; lia). apply P7; [done..|by left]. }
  assert (forall l, bufs_apart l [(L, 64)] -> bufs_apart l []) as Hnil
    by (intros l Hl; eapply bufs_apart_incl; [exact Hl|set_solver]).
  assert (bufs_apart lin [(L, 64)] /\ bufs_apart lout [(L, 64)]) as [Ai' Ao']
    by (split; [eapply bufs_apart_incl; [exact Ai|set_solver]|eapply bufs_apart_incl; [exact Ao|set_solver]]).
  assert (forall n k, 0 <= k -> k + Z.of_nat n <= 63 -> load_be n (L + k) m3 = load_be n (L + k) m2) as Hld.
  { intros n k Hk1 Hk2. apply load_be_ext. intros a Ha. apply H3. unfold off_status_own. lia. }
  assert (forall k, (k = off_iptr \/ k = off_optr) -> load_be 8 (L + k) m2 = load_be 8 (L + k) (v_mem (x_v x))) as Hptr.
  { intros k Hk. apply load_be_ext. intros a Ha. change (Z.of_nat 8) with 8 in Ha.
    unfold off_iptr, off_optr, off_in, off_olen in *. apply P7.
    - eapply (off_data_far lin _ (L, 64)); [exact Ai'|constructor|simpl; lia].
    - eapply (off_data_far lout _ (L, 64)); [exact Ao'|constructor|simpl; lia].
    - right. lia. }
  assert (slot_ready (set_mem (fun _ => m3) x.(x_v)) s lin lout) as SR3.
  { split; [| | | |done..].
    - eapply (linked_apart _ m3 lin lout L); [done|exact Ai|exact H3'|by apply Hnil].
    - eapply (linked_apart _ m3 lout lin L); [done|exact Ao|intros; by apply H3'|by apply Hnil].
    - simpl. fold L. rewrite Hld, Hptr by (auto || (unfold off_iptr; lia)). done.
    - simpl. fold L. rewrite Hld, Hptr by (auto || (unfold off_optr; lia)). done. }
  assert (dev_command (length lin) (set_mem (fun _ => m3) x.(x_v)) L = Some (bytes_at x.(x_v).(v_mem) in_ ilen)) as Hdev.
  { unfold dev_command. change (v_mem (set_mem (fun _ => m3) (x_v x))) with m3.
    rewrite (Hld 4%nat), P3 by (unfold off_ilen; lia). pose proof (sr_iptr _ _ _ _ SR3) as Hip. simpl in Hip. fold L in Hip. rewrite Hip.
    rewrite (dev_read_chain _ lin (msg_next (cs_in s)) 0) by
      (done || apply (sr_in _ _ _ _ SR3) || (unfold sizeof_lay_in, MLX5_CMD_DATA_BLOCK_SIZE in *; lia)).
    cbn [mbind option_bind]. f_equal. unfold sizeof_lay_in.
    assert (bytes_at (v_mem (x_v x)) in_ ilen =
      bytes_at (v_mem (x_v x)) in_ (Z.min ilen 16) ++ bytes_at (v_mem (x_v x)) (in_ + Z.min ilen 16) (ilen - Z.min ilen 16)) as ->
      by (rewrite <- bytes_at_app by lia; f_equal; lia).
    f_equal.
    - apply bytes_at_ext. intros i Hi. rewrite H3 by (unfold off_in, off_status_own; lia). by apply P1.
    - destruct (decide (ilen <= 16)) as [Hle|Hgt].
      { rewrite Z2Nat.nonpos by lia. unfold bytes_at. by rewrite (Z2Nat.nonpos (ilen - ilen `min` 16)) by lia. }
      unfold bytes_at. replace (ilen `min` 16) with 16 by lia. apply list_fmap_ext. intros i j [-> Hj]%lookup_seq. simpl.
      destruct (data_off lin lout L (Z.of_nat i) Ai) as [_ Ho]; [unfold MLX5_CMD_DATA_BLOCK_SIZE in *; lia|].
      rewrite H3 by (unfold off_status_own; lia). apply P2. lia. }
  assert (slot < length (cmds x))%nat as Hlt by (by eapply lookup_lt_Some).
  assert (forall i, 0 <= i < olen - 16 -> m3 (data_at lout i) = 0) as Hz.
  { intros i Hi. destruct (data_off lout lin L i Ao) as [_ Ho]; [unfold MLX5_CMD_DATA_BLOCK_SIZE in *; lia|].
    rewrite H3 by (unfold off_status_own; lia). by apply P6. }
  assert (load_be 4 (L + off_olen) m3 = olen) as Hol3 by (rewrite Hld by (unfold off_olen; lia); done).
  assert (forall i, 0 <= i < 16 -> m3 (L + off_out + i) = 0) as Hout3
    by (intros i Hi; rewrite H3 by (unfold off_out, off_status_own; lia); by apply P5).
  assert (m3 (L + off_status_own) = 1) as Hst by (unfold m3; rewrite store_be_inside by (change (Z.of_nat 1) with 1; lia);
    replace (L + off_status_own + Z.of_nat 1 - 1 - (L + off_status_own)) with 0 by lia; done).
  destruct async; (eexists; split; [reflexivity|]); split_and!; try done;
    cbn; rewrite ?list_insert_insert_eq, list_lookup_insert_eq by (rewrite ?length_insert; done); done.
Qed.

(** ** An answer *)

(** The answer as the device sees it: its first bytes in the layout and the rest in mailboxes *)
Definition dev_answer (fuel : nat) (c : vfio) (layout olen : Z) : option (list Z) :=
  rest ← dev_read fuel c (load_be 8 (layout + off_optr) c.(v_mem)) (olen - sizeof_lay_in);
  Some (bytes_at c.(v_mem) (layout + off_out) (Z.min olen sizeof_lay_in) ++ rest).

Lemma bytes_at_split m p n k : 0 <= k <= n -> bytes_at m p n = bytes_at m p k ++ bytes_at m (p + k) (n - k).
Proof. intros Hk. rewrite <- bytes_at_app by lia. f_equal. lia. Qed.

(** The driver's copy of an answer is what the device wrote. *)
Lemma copy_from_msg_spec c s lin lout to olen :
  vfio_ok c -> slot_ready c s lin lout -> 0 <= olen <= s.(cs_out).(msg_len) ->
  bufs_apart lout [(to, olen)] -> apart (to, olen) (s.(lay), 64) ->
  exists m, mlx5_copy_from_msg c to s.(cs_out) olen s.(lay) = Some (set_mem (fun _ => m) c) /\
    dev_answer (length lout) c s.(lay) olen = Some (bytes_at m to olen) /\
    forall a, ~ to <= a < to + olen -> m a = c.(v_mem) a.
Proof.
  intros Hok SR Ho Ha Hap. pose proof SR as [Sin Sout Sip Sop Sil Sol Sap].
  unfold mlx5_copy_from_msg, sizeof_lay_in. set (copy := Z.min olen 16). set (c1 := set_mem _ c).
  assert (forall a, ~ to <= a < to + olen -> v_mem c1 a = v_mem c a) as Hout by (intros a Hx; apply memcpy_outside; unfold copy; lia).
  assert (forall b a, b ∈ lout -> b.(mb_buf) <= a < b.(mb_buf) + MLX5_ADAPTER_PAGE_SIZE -> v_mem c1 a = v_mem c a) as Hbuf.
  { intros b a Hb Hx. apply Hout. pose proof (bufs_apart_elem _ _ b (to, olen) Ha Hb ltac:(constructor)) as Hq.
    unfold apart, win in *. simpl in *. lia. }
  destruct (copy_boxes_from lout c1 s.(cs_out).(msg_next) 0 (to + copy) (olen - copy) (Z.to_nat olen)) as (m & E & D & O).
  { eapply linked_frame; [exact Sout|done|]. intros b a Hb Hx. apply (Hbuf b); [done|unfold off_blk_next in Hx; lia]. }
  { eapply bufs_apart_sub; [exact Ha|]. intros w' ->%list_elem_of_singleton. exists (to, olen).
    split; [constructor|]. simpl. unfold copy. lia. }
  { unfold copy, MLX5_CMD_DATA_BLOCK_SIZE in *. lia. }
  { unfold copy. lia. }
  exists m. split; [exact E|]. split.
  - unfold dev_answer. rewrite Sop. rewrite (dev_read_chain c lout s.(cs_out).(msg_next) 0)
      by (done || (unfold sizeof_lay_in, MLX5_CMD_DATA_BLOCK_SIZE in *; lia)).
    cbn [mbind option_bind]. f_equal. unfold sizeof_lay_in. fold copy.
    rewrite (bytes_at_split m to olen copy) by (unfold copy; lia). f_equal.
    + apply bytes_at_ext. intros i Hi. rewrite O by lia. simpl. rewrite memcpy_inside by lia. f_equal. lia.
    + replace (olen - copy) with (Z.max 0 (olen - 16)) by (unfold copy; lia).
      replace (Z.to_nat (olen - 16)) with (Z.to_nat (Z.max 0 (olen - 16))) by lia. unfold bytes_at.
      apply list_fmap_ext. intros i j [-> Hj]%lookup_seq. simpl. rewrite D by (unfold copy; lia).
      destruct (data_in lout (Z.of_nat i)) as (b & Hb & Hd); [unfold MLX5_CMD_DATA_BLOCK_SIZE in *; lia|].
      symmetry. apply (Hbuf b _ Hb). unfold MLX5_ADAPTER_PAGE_SIZE, MLX5_CMD_DATA_BLOCK_SIZE in *. lia.
  - intros a Hx. rewrite O by (unfold copy; lia). by apply Hout.
Qed.

(** What the device may write while it carries out a command: the answer in the layout and in the
    mailboxes of the output, and the byte of ownership, which it clears *)
Record device_answers (s : mlx5_vfio_cmd_slot) (lout : list mlx5_cmd_mailbox) (f : mem -> mem) : Prop := {
  da_only : forall m a, off_data lout a -> ~ s.(lay) + off_out <= a < s.(lay) + off_optr ->
    a <> s.(lay) + off_status_own -> f m a = m a;
  da_done : forall m, Z.testbit (f m (s.(lay) + off_status_own)) 0 = false;
}.

Lemma answered_ready c s lin lout f :
  slot_ready c s lin lout -> device_answers s lout f -> slot_ready (set_mem f c) s lin lout.
Proof.
  intros [Sin Sout Sip Sop Sil Sol Sap] [Donly _].
  pose proof (proj1 (bufs_apart_app _ _ _) Sap) as [Ai _].
  pose proof (proj1 (bufs_apart_app _ _ _) (bufs_apart_swap _ _ _ Sap)) as [Ao _].
  assert (bufs_apart lout [(lay s, 64)]) as Ao' by (eapply bufs_apart_incl; [exact Ao|set_solver]).
  assert (forall k, (k = off_iptr \/ k = off_optr) -> load_be 8 (lay s + k) (f (v_mem c)) = load_be 8 (lay s + k) (v_mem c)) as Hptr.
  { intros k Hk. apply load_be_ext. intros a Hx. change (Z.of_nat 8) with 8 in Hx.
    unfold off_iptr, off_optr, off_out, off_status_own in *. apply Donly; [|lia|lia].
    eapply (off_data_far lout _ (lay s, 64)); [exact Ao'|constructor|simpl; lia]. }
  split; [| |simpl; rewrite Hptr; auto|simpl; rewrite Hptr; auto|done..].
  - eapply (linked_apart c (f (v_mem c)) lin lout (lay s)); [done|exact Ai| |eapply bufs_apart_incl; [exact Ai|set_solver]].
    intros a _ H2 H3. unfold off_out, off_optr, off_status_own in *. apply Donly; [done|unfold off_out, off_optr; lia|unfold off_status_own; lia].
  - eapply (linked_apart c (f (v_mem c)) lout lin (lay s)); [done|exact Ao| |eapply bufs_apart_incl; [exact Ao|set_solver]].
    intros a H1 _ H3. apply Donly; [done|unfold off_out, off_optr; lia|unfold off_status_own; lia].
Qed.

(** C34. A command carried out by polling: the device was given the bytes of the input, the output
    buffer holds the bytes the device answered, and the result is the status of the answer. *)
Theorem command_roundtrip x slot s lin lout in_ ilen out olen f now w :
  x.(cmds) !! slot = Some s -> x.(have_eq) = false -> vfio_ok x.(x_v) -> slot_ready x.(x_v) s lin lout ->
  0 <= ilen <= s.(cs_in).(msg_len) -> 0 <= olen <= s.(cs_out).(msg_len) -> s.(cs_in).(msg_len) < 2 ^ 31 ->
  s.(cs_out).(msg_len) < 2 ^ 31 -> bufs_apart lin [(in_, ilen)] -> apart (in_, ilen) (s.(lay), 64) ->
  bufs_apart lout [(out, olen)] -> apart (out, olen) (s.(lay), 64) ->
  device_answers s lout f -> w.(ww_polls) = [(f, now)] ->
  exists posted x', x'.(cmds) !! slot = Some s /\
    dev_command (length lin) posted s.(lay) = Some (bytes_at x.(x_v).(v_mem) in_ ilen) /\
    mlx5_vfio_cmd_exec w x in_ ilen out olen slot = Some (mlx5_vfio_cmd_check x'.(x_v).(v_mem) out, x') /\
    dev_answer (length lout) (set_mem f posted) s.(lay) olen = Some (bytes_at x'.(x_v).(v_mem) out olen).
Proof.
  intros Hs He Hok SR Hil Hol Hi31 Ho31 Hain Hapl Haout Haplo Hdev Hw.
  destruct (post_cmd_spec x slot s lin lout in_ ilen out olen false)
    as (x1 & E & Hok1 & SR1 & Hd & _ & _ & _ & _ & _ & Hs1 & He1); [done..|].
  pose proof (answered_ready _ _ _ _ _ SR1 Hdev) as SR2. pose proof (vfio_ok_mem _ f Hok1) as Hok2.
  destruct (copy_from_msg_spec _ s lin lout out olen Hok2 SR2 Hol Haout Haplo) as (m & E2 & Ha & _).
  exists x1.(x_v), (set_v (set_mem (fun _ => m) (set_mem f x1.(x_v))) (device f x1)).
  split; [done|]. split; [done|]. split; [|done].
  unfold mlx5_vfio_cmd_exec. rewrite E. cbn [mbind option_bind negb Z.eqb]. rewrite Hs1. cbn [mbind option_bind].
  rewrite He1, He, Hw. cbn [mlx5_vfio_poll_timeout]. unfold device. cbn [x_v set_v v_mem set_mem].
  rewrite (da_done _ _ _ Hdev). cbn [mbind option_bind negb Z.eqb]. change (cmds (set_v ?v ?y)) with (cmds y). rewrite Hs1. cbn [mbind option_bind].
  change (x_v (set_v ?v ?y)) with v. rewrite E2. done.
Qed.

(** * Setting up a slot *)

Lemma alloc_cmd_msg_spec n c size msg W c' msg' (k := Z.to_nat (mlx5_calc_cmd_blocks size)) :
  0 <= size < 2 ^ 31 -> vfio_ok c -> fresh_answers c (k + n) W ->
  mlx5_vfio_alloc_cmd_msg c size msg = Some (0, c', msg') ->
  exists l, vfio_ok c' /\ msg'.(msg_len) = size /\ linked c' msg'.(msg_next) 0 l /\ length l = k /\ bufs_apart l W /\
    fresh_answers c' n ((win <$> l) ++ W) /\
    (forall q b, c.(v_boxes) !! q = Some b -> c'.(v_boxes) !! q = Some b) /\
    (forall a, Forall (fun b => ~ b.(mb_buf) <= a < b.(mb_buf) + MLX5_ADAPTER_PAGE_SIZE) l -> c'.(v_mem) a = c.(v_mem) a).
Proof.
  intros Hs Hok Hf E. pose proof (calc_cmd_blocks_spec size Hs) as [Hk _].
  destruct (alloc_boxes_spec n k c 0 [] W) as (ok & c1 & head & new & E1 & H1 & _ & L1 & A1 & K1 & X1 & M1);
    [unfold k; lia|done|done|done|done|].
  unfold mlx5_vfio_alloc_cmd_msg in E. fold k in E. rewrite E1 in E. cbn [mbind option_bind] in E.
  destruct ok; [|destruct (free_boxes c1 head); done]. injection E as <- <-. destruct (K1 eq_refl) as [Hlen Hfr].
  rewrite app_nil_r in *. exists new. split_and!; [done|done| |done|done|done|done|].
  - rewrite Hlen, Z.sub_diag in L1. done.
  - intros a Ha. by destruct (M1 a Ha).
Qed.

Lemma fresh_mono c k n W W' : (k <= n)%nat -> W' ⊆ W -> fresh_answers c n W -> fresh_answers c k W'.
Proof.
  intros Hk HW Hf i Hi. destruct (Hf i ltac:(lia)) as (F1 & F2 & F3). split_and!; [done| |intros j Hj; apply F3; lia].
  rewrite Forall_forall in F2. apply Forall_forall. intros w Hw. by apply F2, HW.
Qed.

(** A slot that was set up holds messages of 4096 bytes and is ready for commands, whatever it held
    before; its buffers are apart from all memory the allocators keep. *)
Lemma setup_slot_ready x vaddr log_stride slot x' W (cmd_lay := vaddr + Z.of_nat slot * Z.shiftl 1 log_stride) :
  vfio_ok x.(x_v) -> fresh_answers x.(x_v) 16 ((cmd_lay, 64) :: W) ->
  mlx5_vfio_setup_cmd_slot x vaddr log_stride slot = Some (0, x') ->
  exists s lin lout, x'.(cmds) !! slot = Some s /\ vfio_ok x'.(x_v) /\ slot_ready x'.(x_v) s lin lout /\
    s.(lay) = cmd_lay /\ s.(cs_in).(msg_len) = 4096 /\ s.(cs_out).(msg_len) = 4096 /\
    s.(comp_func) = Some (if decide (slot = 31)%nat then PageRequestComp else CmdComp) /\
    bufs_apart (lin ++ lout) W.
Proof.
  intros Hok Hf. unfold mlx5_vfio_setup_cmd_slot. destruct (cmds x !! slot) as [s|] eqn:Es; [|done]. cbn [mbind option_bind].
  destruct (mlx5_vfio_alloc_cmd_msg (x_v x) 4096 (cs_in s)) as [[[ret c1] i]|] eqn:E1; [|done]. cbn [mbind option_bind].
  destruct (Z.eqb_spec ret 0) as [->|Hr]; cbn [negb]; [|intros [= ? _]; done].
  destruct (alloc_cmd_msg_spec 8 _ 4096 _ ((cmd_lay, 64) :: W) _ _ ltac:(lia) Hok Hf E1) as (lin & H1 & Hi & L1 & N1 & A1 & F1 & X1 & M1).
  destruct (mlx5_vfio_alloc_cmd_msg c1 4096 (cs_out s)) as [[[ret c2] o]|] eqn:E2; [|done]. cbn [mbind option_bind].
  destruct (Z.eqb_spec ret 0) as [->|Hr]; cbn [negb].
  2:{ destruct (mlx5_vfio_free_cmd_msg c2 i) as [[v i']|]; [|done]. cbn. intros [= ? _]. done. }
  destruct (alloc_cmd_msg_spec 0 _ 4096 _ ((win <$> lin) ++ (cmd_lay, 64) :: W) _ _ ltac:(lia) H1 F1 E2)
    as (lout & H2 & Ho & L2 & N2 & A2 & _ & X2 & M2).
  change (Z.to_nat (mlx5_calc_cmd_blocks 4096)) with 8%nat in N1, N2.
  assert (bufs_apart (lin ++ lout) ((cmd_lay, 64) :: W)) as AallW.
  { apply bufs_apart_swap, bufs_apart_app. done. }
  assert (bufs_apart (lin ++ lout) [(cmd_lay, 64)]) as Aall by (eapply bufs_apart_incl; [exact AallW|set_solver]).
  destruct lin as [|bi lin]; [done|]. destruct lout as [|bo lout]; [done|].
  assert (v_boxes c2 !! msg_next i = Some bi) as Bi by (apply X2, L1).
  assert (v_boxes c2 !! msg_next o = Some bo) as Bo by apply L2. rewrite Bi. cbn [mbind option_bind]. rewrite Bo. cbn [mbind option_bind].
  fold cmd_lay. set (c3 := set_mem _ c2). unfold ask. cbn [v_sys v_tick].
  destruct (Z.eqb_spec (v_sys c3 (v_tick c3)) 0) as [_|Hr]; cbn [negb].
  2:{ destruct (mlx5_vfio_free_cmd_msg _ o) as [[v o']|]; [|done]. cbn [mbind option_bind].
      destruct (mlx5_vfio_free_cmd_msg v i) as [[v' i']|]; [|done]. cbn. intros [= ? _]. }
  intros [= <-].
  assert (forall b a, b ∈ (bi :: lin) ++ bo :: lout -> mb_buf b + off_blk_next <= a < mb_buf b + MLX5_ADAPTER_PAGE_SIZE ->
    v_mem c3 a = v_mem c2 a) as M3.
  { intros b a Hb Hx. pose proof (bufs_apart_elem _ _ b (cmd_lay, 64) Aall Hb ltac:(constructor)) as Hap. unfold c3. simpl.
    unfold apart, win, off_blk_next, off_optr, off_iptr, off_type in *. simpl in Hap.
    rewrite !store_be_outside by (change (Z.of_nat 8) with 8; change (Z.of_nat 1) with 1; lia). done. }
  pose proof (box_iova_range c2 _ _ H2 Bi). pose proof (box_iova_range c2 _ _ H2 Bo).
  eexists _, (bi :: lin), (bo :: lout). split; [simpl; apply list_lookup_insert_eq; rewrite length_insert; by eapply lookup_lt_Some|].
  split; [exact (vfio_ok_ask c3 (vfio_ok_mem _ _ H2))|]. split_and!; [|done|done|done|done|eapply bufs_apart_incl; [exact AallW|set_solver]].
  split.
  - eapply (linked_frame c1); [exact L1|by intros q b _ Hq; apply X2|]. intros b a Hb Hx.
    etransitivity; [apply (M3 b); [apply elem_of_app; by left|done]|]. apply M2. apply Forall_forall. intros b' Hb'.
    pose proof (bufs_apart_elem _ _ b' (win b) A2 Hb' ltac:(apply elem_of_app; left; by apply list_elem_of_fmap_2)) as Hap.
    unfold apart, win, off_blk_next in *. simpl in Hap. lia.
  - eapply (linked_frame c2); [exact L2|done|]. intros b a Hb Hx. apply (M3 b); [apply elem_of_app; by right|done].
  - simpl. unfold off_optr, off_iptr, off_type. rewrite load_store_other, load_store_same by lia.
    apply Z.mod_small. change (2 ^ (8 * Z.of_nat 8)) with (2 ^ 64). lia.
  - simpl. rewrite load_store_same. apply Z.mod_small. change (2 ^ (8 * Z.of_nat 8)) with (2 ^ 64). lia.
  - simpl cs_in. rewrite Hi, N1. unfold MLX5_CMD_DATA_BLOCK_SIZE. lia.
  - simpl cs_out. rewrite Ho, N2. unfold MLX5_CMD_DATA_BLOCK_SIZE. lia.
  - exact Aall.
Qed.

(** A slot set up over the legacy range of addresses, and a command of 600 bytes over it *)
Definition demo_sys (i : nat) : Z :=
  if (i <? 64)%nat then
    match (i mod 4)%nat with
    | 0%nat => 0x1000 + 64 * Z.of_nat i
    | 1%nat => 0x100000 + 0x1000 * Z.of_nat i
    | 2%nat => 1
    | _ => 0
    end
  else 0.

Definition demo_slot : mlx5_vfio_cmd_slot := SLOT 0 (MSG 0 0) (MSG 0 0) 0 None false (AD 0 0 0 0) false (AD 0 0 0 0).

Definition cmd_demo_ctx : vctx :=
  VCTX (vfio_start legacy_iova demo_sys (fun _ => 0)) (replicate 32 demo_slot) (EQ 0 256 0 0) false [] [] ∅.

Definition cmd_demo_ready : vctx :=
  match mlx5_vfio_setup_cmd_slot cmd_demo_ctx 0x8000 6 0 with Some (_, x) => x | None => cmd_demo_ctx end.

Lemma demo_setup : mlx5_vfio_setup_cmd_slot cmd_demo_ctx 0x8000 6 0 = Some (0, cmd_demo_ready).
Proof.
  assert (fst <$> mlx5_vfio_setup_cmd_slot cmd_demo_ctx 0x8000 6 0 = Some 0) as E by (vm_compute; reflexivity).
  unfold cmd_demo_ready. destruct (mlx5_vfio_setup_cmd_slot cmd_demo_ctx 0x8000 6 0) as [[r x]|]; [|done]. by injection E as ->.
Qed.

Lemma demo_fresh : fresh_answers cmd_demo_ctx.(x_v) 16 [(0x8000, 64); (0x9000, 600); (0xA000, 16)].
Proof.
  assert (forall i, (i < 16)%nat -> ans_box cmd_demo_ctx.(x_v) i = 0x1000 + 64 * (4 * Z.of_nat i) /\
    ans_buf cmd_demo_ctx.(x_v) i = 0x100000 + 0x1000 * (4 * Z.of_nat i + 1)) as Ha.
  { intros i Hi. do 16 (destruct i as [|i]; [vm_compute; done|]). lia. }
  intros i Hi. destruct (Ha i Hi) as [-> ->]. split_and!; [apply lookup_empty| |].
  - repeat (constructor; [unfold apart, MLX5_ADAPTER_PAGE_SIZE; simpl; lia|]). constructor.
  - intros j Hj. destruct (Ha j ltac:(lia)) as [-> ->]. unfold apart, MLX5_ADAPTER_PAGE_SIZE. simpl. lia.
Qed.

(** A device that answers status 0 and a syndrome *)
Definition demo_device (m : mem) : mem := store_be 1 (0x8000 + off_status_own) 0 (store_be 4 (0x8000 + off_out + 4) 0x1234 m).

Lemma demo_answers s lout : s.(lay) = 0x8000 -> device_answers s lout demo_device.
Proof.
  intros E. split; rewrite E; unfold demo_device, off_out, off_optr, off_status_own.
  - intros m a _ H1 H2. rewrite !store_be_outside by (change (Z.of_nat 1) with 1; change (Z.of_nat 4) with 4; lia). done.
  - intros m. rewrite store_be_inside by (change (Z.of_nat 1) with 1; lia). reflexivity.
Qed.

Definition demo_world : wait_world := WW 0 [] 0 [(demo_device, 1)].

Lemma bufs_apart_two l1 l2 w1 w2 : bufs_apart (l1 ++ l2) [w1; w2] -> bufs_apart l1 [w1] /\ bufs_apart l2 [w2].
Proof.
  intros [H1 H2]%bufs_apart_app.
  split; [eapply bufs_apart_incl; [exact H1|set_solver]|eapply bufs_apart_incl; [exact H2|set_solver]].
Qed.

Lemma command_roundtrip_witness :
  mlx5_vfio_setup_cmd_slot cmd_demo_ctx 0x8000 6 0 = Some (0, cmd_demo_ready) /\
  exists n posted x', dev_command n posted 0x8000 = Some (bytes_at cmd_demo_ready.(x_v).(v_mem) 0x9000 600) /\
    mlx5_vfio_cmd_exec demo_world cmd_demo_ready 0x9000 600 0xA000 16 0 =
      Some (mlx5_vfio_cmd_check x'.(x_v).(v_mem) 0xA000, x').
Proof.
  split; [exact demo_setup|].
  assert (vfio_ok cmd_demo_ctx.(x_v)) as H0 by exact (vfio_start_ok _ _ _ legacy_iova_ok).
  destruct (setup_slot_ready cmd_demo_ctx 0x8000 6 0 cmd_demo_ready [(0x9000, 600); (0xA000, 16)] H0 demo_fresh demo_setup)
    as (s & lin & lout & Hs & Hok & SR & El & Ei & Eo & _ & Ha).
  change (0x8000 + Z.of_nat 0 * Z.shiftl 1 6) with 0x8000 in El.
  assert (bufs_apart lin [(0x9000, 600)] /\ bufs_apart lout [(0xA000, 16)]) as [Hi Ho].
  { exact (bufs_apart_two _ _ _ _ Ha). }
  assert (have_eq cmd_demo_ready = false) as He by (vm_compute; reflexivity).
  destruct (command_roundtrip cmd_demo_ready 0 s lin lout 0x9000 600 0xA000 16 demo_device 1 demo_world Hs He Hok SR
    ltac:(rewrite Ei; lia) ltac:(rewrite Eo; lia) ltac:(rewrite Ei; lia) ltac:(rewrite Eo; lia) Hi
    ltac:(rewrite El; unfold apart; simpl; lia) Ho ltac:(rewrite El; unfold apart; simpl; lia)
    (demo_answers s lout El) eq_refl) as (posted & x' & _ & Hd & Hx & _).
  exists (length lin), posted, x'. rewrite El in Hd. split; [exact Hd|exact Hx].
Defined.
