(* ===== verification/VfioEvents.v ===== *)
(** Pages given to the firmware and the queue of events: what a page request does on every path,
    which entries of the queue are events, and what a failed allocation leaves behind. *)

From stdpp Require Import base numbers list gmap.
From S2P Require Import Prelude Types Mem Bitmap BitmapOps IntervalSet IntervalProps Vfio VfioCmd VfioProps VfioMsg.

(** * Giving pages *)

Lemma pas_offset p i : 0 <= i -> p + 8 * (off_pas i / 64) = p + 16 + 8 * i.
Proof. intros Hi. unfold off_pas. replace (0x80 + 0x40 * i) with ((2 + i) * 64) by lia. rewrite Z.div_mul by lia. lia. Qed.

(** The pages from [i] on that a command at [p] lists *)
Definition lists_pages (p i : Z) (pages : list Z) (m : mem) : Prop :=
  forall j a, pages !! j = Some a -> devx_get64 p (off_pas (i + Z.of_nat j)) m = a.

Lemma lists_pages_frame p i pages m m' :
  0 <= i -> lists_pages p i pages m ->
  (forall a, p + 16 + 8 * i <= a < p + 16 + 8 * (i + Z.of_nat (length pages)) -> m' a = m a) ->
  lists_pages p i pages m'.
Proof.
  intros Hi Hl Hm j a Hj. rewrite <- (Hl j a Hj). unfold devx_get64. rewrite pas_offset by lia. apply load_be_ext.
  intros b Hb. apply Hm. apply lookup_lt_Some in Hj. change (Z.of_nat 8) with 8 in Hb. lia.
Qed.

Lemma used_range c a : vfio_ok c -> used c a -> 0 <= a < 2 ^ 63.
Proof.
  intros Hok Hu. unfold used in Hu. apply Exists_exists in Hu as (b & Hb & pg & Hpg & _ & ->).
  pose proof (block_range c b Hok Hb). rewrite num_pages in Hpg. unfold MLX5_ADAPTER_PAGE_SIZE, MLX5_VFIO_BLOCK_SIZE in *. lia.
Qed.

(** No call changes what the kernel answers. *)
Lemma iova_give_unmap c start len ret c' : iova_give c start len = (ret, c') -> v_unmap c' = v_unmap c.
Proof. unfold iova_give. rewrite ask_eq. destruct (iset_insert_range _ _ _ _). intros H. by injection H as _ <-. Qed.

Lemma new_block_unmap c r c' : mlx5_vfio_new_block c = Some (r, c') -> v_unmap c' = v_unmap c.
Proof.
  unfold mlx5_vfio_new_block. rewrite ask_eq. destruct (_ =? 0); [intros H; by injection H as _ <-|].
  rewrite ask_eq. destruct (_ =? 0); [intros H; by injection H as _ <-|].
  unfold iova_take. rewrite ask_eq. destruct (iset_alloc_range _ _ _) as [[ret l] [a|]]; [|intros H; by injection H as _ <-].
  destruct (bitmap_fill _ _); [|done]. cbn [mbind option_bind]. unfold mlx5_vfio_register_mem. rewrite ask_eq.
  destruct (_ =? 0); [intros H; by injection H as _ <-|].
  destruct (iova_give _ _ _) as [e c1] eqn:E. apply iova_give_unmap in E. intros H. by injection H as _ <-.
Qed.

Lemma alloc_page_unmap fuel : forall c r c', mlx5_vfio_alloc_page fuel c = Some (r, c') -> v_unmap c' = v_unmap c.
Proof.
  induction fuel as [|fuel IH]; intros c r c'; simpl; [done|]. destruct (find_free_page _) as [[[a l]|]|]; [..|done]; cbn [mbind option_bind].
  - intros H. by injection H as _ <-.
  - destruct (mlx5_vfio_new_block c) as [[[b|] c1]|] eqn:E; [..|done]; cbn [mbind option_bind]; apply new_block_unmap in E as <-.
    + apply IH.
    + intros H. by injection H as _ <-.
Qed.

Lemma free_page_unmap c a c' : mlx5_vfio_free_page c a = Some c' -> v_unmap c' = v_unmap c.
Proof.
  unfold mlx5_vfio_free_page. destruct (block_holding _ _ _) as [[i b]|]; [|done]. cbn [mbind option_bind].
  destruct (bitmap_test_bit _ _) as [[]|]; [done| |done]. cbn [mbind option_bind].
  destruct (bitmap_set_bit _ _) as [bm|]; [|done]. cbn [mbind option_bind].
  destruct (bitmap_full _ _) as [[]|]; [..|done]; cbn [mbind option_bind]; [|intros H; by injection H as <-].
  unfold mlx5_vfio_free_block. destruct (_ !! _) as [b'|]; [|done]. cbn [mbind option_bind].
  unfold mlx5_vfio_unregister_mem. rewrite ask_eq. destruct (_ =? 0); [|done]. cbn [mbind option_bind].
  destruct (iova_give _ _ _) as [e c1] eqn:E. apply iova_give_unmap in E. intros H. by injection H as <-.
Qed.

(** The loop that takes pages always returns: the pages taken are new, distinct and listed in the
    command; it stops early only when a page could not be had. *)
Lemma take_pages_spec k : forall v in_ i,
  vfio_ok v -> 0 <= i ->
  exists ok v' pages, take_pages k v in_ i = Some (ok, i + Z.of_nat (length pages), v') /\ vfio_ok v' /\
    NoDup pages /\ (forall a, used v' a <-> used v a \/ a ∈ pages) /\ (forall a, a ∈ pages -> ~ used v a) /\
    (ok = true -> length pages = k) /\ (length pages <= k)%nat /\ v_unmap v' = v_unmap v /\ lists_pages in_ i pages v'.(v_mem) /\
    (forall a, ~ in_ + 16 + 8 * i <= a < in_ + 16 + 8 * (i + Z.of_nat k) -> v'.(v_mem) a = v.(v_mem) a).
Proof.
  induction k as [|k IH]; intros v in_ i Hok Hi; cbn [take_pages].
  - exists true, v, []. simpl. rewrite Z.add_0_r. split_and!; [done|done|constructor| |by intros a Ha%elem_of_nil|done|lia|done|done|done].
    intros a. rewrite elem_of_nil. tauto.
  - destruct (alloc_page_spec v Hok) as ([a|] & v1 & Ea & H1 & _ & M1 & Hr); rewrite Ea; apply alloc_page_unmap in Ea as Q1; cbn [mbind option_bind].
    + destruct Hr as (_ & Hn & Hu).
      destruct (IH (set_mem (devx_set64 in_ a (off_pas i)) v1) in_ (i + 1)) as (ok & v' & pages & E & H' & N' & U' & F' & K' & K2' & Q' & L' & O');
        [by apply vfio_ok_mem|lia|].
      assert (forall x, used (set_mem (devx_set64 in_ a (off_pas i)) v1) x <-> used v x \/ x = a) as Hu1 by done.
      exists ok, v', (a :: pages). simpl length. rewrite E.
      split; [do 3 f_equal; lia|]. split_and!; [done| | | |intros ->; simpl; by rewrite K'|lia|by rewrite Q'| |].
      * constructor; [|done]. intros Ha. apply (F' a Ha). apply Hu1. by right.
      * intros x. rewrite U', Hu1, elem_of_cons. tauto.
      * intros x [->|Hx]%elem_of_cons; [done|]. intros Hux. apply (F' x Hx). apply Hu1. by left.
      * intros j x Hj. destruct j as [|j]; simpl in Hj.
        -- injection Hj as <-. change (Z.of_nat 0) with 0. rewrite Z.add_0_r. unfold devx_get64. rewrite pas_offset by lia.
           rewrite (load_be_ext 8 _ _ (v_mem (set_mem (devx_set64 in_ a (off_pas i)) v1))).
           ++ simpl. unfold devx_set64. rewrite pas_offset by lia. rewrite load_store_same. apply Z.mod_small.
              assert (used v1 a) as Hua by (apply Hu; by right). pose proof (used_range v1 a H1 Hua).
              change (2 ^ (8 * Z.of_nat 8)) with (2 ^ 64). lia.
           ++ intros b Hb. apply O'. change (Z.of_nat 8) with 8 in Hb. lia.
        -- replace (i + Z.of_nat (S j)) with (i + 1 + Z.of_nat j) by lia. by apply L'.
      * intros x Hx. rewrite O' by lia. simpl. unfold devx_set64. rewrite pas_offset by lia.
        rewrite store_be_outside by (change (Z.of_nat 8) with 8; lia). by rewrite M1.
    + exists false, v1, []. simpl. rewrite Z.add_0_r. split_and!; [done|done|constructor| |by intros a Ha%elem_of_nil|done|lia|done|done|by rewrite M1].
      intros a. rewrite elem_of_nil, Hr. tauto.
Qed.

(** The kernel unmaps what it has mapped. *)
Definition unmaps (v : vfio) : Prop := forall i, v_unmap v i = 0.

(** Pages listed in a command given back, the last first *)
Lemma hand_back_spec pages : forall v p,
  vfio_ok v -> unmaps v -> NoDup pages -> (forall a, a ∈ pages -> used v a) -> lists_pages p 0 pages v.(v_mem) ->
  exists v', hand_back (length pages) v p = Some v' /\
  vfio_ok v' /\ v'.(v_mem) = v.(v_mem) /\ forall a, used v' a <-> used v a /\ a ∉ pages.
Proof.
  induction pages as [|a pages IH] using rev_ind; intros v p Hok Q N U L; simpl.
  - exists v. split_and!; [done..|]. intros a. rewrite elem_of_nil. tauto.
  - rewrite length_app, Nat.add_1_r. cbn [hand_back].
    change (Z.of_nat (length pages)) with (0 + Z.of_nat (length pages)).
    rewrite (L (length pages) a) by (rewrite lookup_app_r, Nat.sub_diag by lia; done).
    destruct (free_page_spec v a Hok (U a ltac:(apply elem_of_app; right; constructor))) as [[Hq _]|(v1 & E1 & H1 & _ & M1 & U1)].
    { by rewrite Q in Hq. }
    rewrite E1. apply free_page_unmap in E1. cbn [mbind option_bind]. apply NoDup_app in N as (N1 & N2 & _).
    destruct (IH v1 p) as (v' & E & H2 & M2 & U2); [done|intros i; by rewrite E1|done| | |].
    + intros x Hx. apply U1. split; [apply U, elem_of_app; by left|]. intros ->. apply (N2 a Hx). constructor.
    + rewrite M1. intros j x Hj. apply L. by apply lookup_app_l_Some.
    + exists v'. split_and!; [done|done|congruence|]. intros x. rewrite U2, U1, elem_of_app, list_elem_of_singleton. tauto.
Qed.

(** The header of the command is in front of its pages. *)
Lemma devx_set_outside p v off sz m a : 0 <= off < 128 -> a < p \/ p + 16 <= a -> devx_set p v off sz m a = m a.
Proof.
  intros Ho Ha. unfold devx_set. apply store_be_outside. change (Z.of_nat 4) with 4.
  assert (0 <= off / 32 < 4) by div_lia. lia.
Qed.

Lemma manage_pages_hdr_window in_ op fid n : Writes (manage_pages_hdr in_ op fid n) in_ (in_ + 16).
Proof. intros m a Ha. unfold manage_pages_hdr. rewrite !devx_set_outside by lia. done. Qed.

(** What the request relies on of the way its command is carried out: it comes to an end, the pages
    and buffers in use are the same after it and, when it fails, so is the command. *)
Definition exec_keeps (exec : vctx -> Z -> Z -> Z -> Z -> option (Z * vctx)) (x : vctx) : Prop :=
  forall y in_ ilen out olen, y.(cmds) = x.(cmds) -> vfio_ok y.(x_v) ->
    exists err y', exec y in_ ilen out olen = Some (err, y') /\
    vfio_ok y'.(x_v) /\ (forall a, used y'.(x_v) a <-> used y.(x_v) a) /\ y'.(bufs) = y.(bufs) /\
    v_unmap y'.(x_v) = v_unmap y.(x_v) /\
    (err <> 0 -> forall a, in_ <= a < in_ + ilen -> y'.(x_v).(v_mem) a = y.(x_v).(v_mem) a).

Lemma buf_calloc_spec x size p x' :
  vfio_ok x.(x_v) -> buf_calloc x size = (p, x') ->
  p = (ask x.(x_v)).1 /\ x'.(x_v).(v_tick) = S x.(x_v).(v_tick) /\ v_sys x'.(x_v) = v_sys x.(x_v) /\
  vfio_ok x'.(x_v) /\ x'.(cmds) = x.(cmds) /\ (forall a, used x'.(x_v) a <-> used x.(x_v) a) /\
  v_unmap x'.(x_v) = v_unmap x.(x_v) /\ (p <> 0 -> x'.(bufs) = {[p]} ∪ x.(bufs)) /\ (p = 0 -> x'.(bufs) = x.(bufs)).
Proof.
  intros Hok. unfold buf_calloc. change (ask (x_v x)) with ((ask (x_v x)).1, (ask (x_v x)).2).
  cbv beta iota. destruct (Z.eqb_spec (ask (x_v x)).1 0) as [E|E]; intros Heq; injection Heq as Hp Hx;
    subst p x'; (split; [done|split; [done|split; [done|split]]]).
  - exact (vfio_ok_ask _ Hok).
  - split_and!; done || (intros; congruence).
  - exact (vfio_ok_mem _ _ (vfio_ok_ask _ Hok)).
  - split_and!; done || (intros; congruence).
Qed.

Lemma buf_free_same x p x' : buf_free x p = Some x' -> x'.(cmds) = x.(cmds) /\ x'.(x_v) = x.(x_v).
Proof. unfold buf_free. case_decide; [|done]. intros Heq. by injection Heq as <-. Qed.

Lemma buf_free_ok x p : p ∈ x.(bufs) -> buf_free x p = Some (set_live_bufs (x.(bufs) ∖ {[p]}) x).
Proof. intros Hp. unfold buf_free. by rewrite decide_True. Qed.

(** The way out of a request that failed: its pages are given back and its buffers are free. *)
Lemma give_back_fails y (is_event : bool) in_ outp pages (err : Z) :
  vfio_ok y.(x_v) -> unmaps y.(x_v) -> NoDup pages -> (forall a, a ∈ pages -> used y.(x_v) a) ->
  lists_pages in_ 0 pages y.(x_v).(v_mem) ->
  in_ ∈ y.(bufs) -> (is_event = true -> outp ∈ y.(bufs) /\ outp <> in_) ->
  exists y', (z ← (if is_event then buf_free y outp else Some y);
    v ← hand_back (length pages) z.(x_v) in_; z ← buf_free (set_v v z) in_; Some (err, z)) = Some (err, y') /\
    vfio_ok y'.(x_v) /\ y'.(bufs) = y.(bufs) ∖ (if is_event then {[outp]} else ∅) ∖ {[in_]} /\
    forall a, used y'.(x_v) a <-> used y.(x_v) a /\ a ∉ pages.
Proof.
  intros Hy Q N U L Hin Hout.
  assert (exists z, (if is_event then buf_free y outp else Some y) = Some z /\ x_v z = x_v y /\
    bufs z = bufs y ∖ (if is_event then {[outp]} else ∅) /\ in_ ∈ bufs z) as (z & -> & Ev & Eb & Hz).
  { destruct is_event.
    - destruct (Hout eq_refl) as [Ho Hne]. rewrite (buf_free_ok _ _ Ho). eexists. split; [done|]. simpl. set_solver.
    - exists y. split_and!; [done|done|set_solver|done]. }
  cbn [mbind option_bind]. rewrite Ev. destruct (hand_back_spec pages (x_v y) in_ Hy Q N U L) as (v & -> & Hv & _ & Uv).
  cbn [mbind option_bind]. rewrite buf_free_ok by done. cbn [mbind option_bind]. eexists. split; [done|]. simpl.
  rewrite Eb. done.
Qed.

(** The buffer of the output: a new one for an event, the caller's at start up *)
Definition out_buffer (is_event : bool) (stack : Z) (x : vctx) : Z * vctx :=
  if is_event then buf_calloc x manage_pages_sz else (stack, set_v (set_mem (memset stack 0 manage_pages_sz) x.(x_v)) x).

Lemma out_buffer_spec x is_event stack :
  vfio_ok x.(x_v) ->
  exists outp x', out_buffer is_event stack x = (outp, x') /\ vfio_ok x'.(x_v) /\ x'.(cmds) = x.(cmds) /\
    (forall a, used x'.(x_v) a <-> used x.(x_v) a) /\ v_unmap x'.(x_v) = v_unmap x.(x_v) /\
    bufs x' = (if is_event && negb (outp =? 0) then {[outp]} else ∅) ∪ bufs x /\
    (is_event = true -> outp = v_sys x.(x_v) (v_tick x.(x_v))).
Proof.
  intros Hok. destruct is_event; simpl.
  - destruct (buf_calloc x manage_pages_sz) as [outp x'] eqn:E. exists outp, x'.
    destruct (buf_calloc_spec _ _ _ _ Hok E) as (-> & _ & _ & H2 & C2 & U2 & Q2 & B2 & B2').
    split_and!; [done..| |done]. destruct (Z.eqb_spec (ask (x_v x)).1 0) as [e|e]; simpl; [rewrite B2' by done; set_solver|by apply B2].
  - eexists _, _. split; [done|]. split_and!; [by apply vfio_ok_mem|done|done|done|simpl; set_solver|done].
Qed.

(** The rest of the request, with its buffers in use: the pages taken, the command carried out, and
    the way back when one of them fails *)
Lemma give_pages_rest x func_id npages (is_event : bool) in_ outp exec (fail := fun err i x =>
    x ← (if is_event then buf_free x outp else Some x);
    v ← hand_back (Z.to_nat i) x.(x_v) in_;
    x ← buf_free (set_v v x) in_; Some (err, x)) :
  vfio_ok x.(x_v) -> 0 < npages < 2 ^ 27 -> exec_keeps exec x -> unmaps x.(x_v) ->
  in_ ∈ bufs x -> (is_event = true -> outp ∈ bufs x /\ outp <> in_) ->
  exists ret x', (r ← take_pages (Z.to_nat npages) x.(x_v) in_ 0;
      match r with
      | (false, i, v) => fail (-1) i (set_v v x)
      | (true, i, v) =>
        let x := set_v (set_mem (manage_pages_hdr in_ MLX5_PAGES_GIVE func_id npages) v) x in
        r ← exec x in_ (16 + npages * 8) outp manage_pages_sz;
        let '(err, x) := r in
        if err =? 0 then
          if is_event then Some (0, x) else x ← buf_free x in_; Some (0, x)
        else fail err i x
      end) = Some (ret, x') /\
  vfio_ok x'.(x_v) /\
  (ret = 0 -> exists pages, length pages = Z.to_nat npages /\ NoDup pages /\
     (forall a, a ∈ pages -> ~ used x.(x_v) a) /\ forall a, used x'.(x_v) a <-> used x.(x_v) a \/ a ∈ pages) /\
  (ret <> 0 -> x'.(bufs) = x.(bufs) ∖ (if is_event then {[outp]} else ∅) ∖ {[in_]} /\
     forall a, used x'.(x_v) a <-> used x.(x_v) a).
Proof.
  intros Hok Hn Hex Q Hin Hout.
  destruct (take_pages_spec (Z.to_nat npages) x.(x_v) in_ 0 Hok ltac:(lia))
    as (ok & v3 & pages & -> & H3 & N3 & U3 & F3 & K3 & K3' & Q3 & L3 & O3).
  cbn [mbind option_bind]. rewrite Z.add_0_l.
  assert (forall y err, err <> 0 -> vfio_ok y.(x_v) -> v_unmap y.(x_v) = v_unmap x.(x_v) -> (forall a, used y.(x_v) a <-> used v3 a) ->
    lists_pages in_ 0 pages y.(x_v).(v_mem) -> bufs y = bufs x ->
    exists ret x', fail err (Z.of_nat (length pages)) y = Some (ret, x') /\ vfio_ok x'.(x_v) /\ ret <> 0 /\
      bufs x' = x.(bufs) ∖ (if is_event then {[outp]} else ∅) ∖ {[in_]} /\ forall a, used x'.(x_v) a <-> used x.(x_v) a) as Hfail.
  { intros y err He Hy Qy Uy Ly By. unfold fail. rewrite Nat2Z.id.
    destruct (give_back_fails y is_event in_ outp pages err Hy) as (y' & E & Hy' & By' & Uy');
      [intros i; by rewrite Qy|done| |done|by rewrite By|by rewrite By|]; [intros a Ha; apply Uy, U3; by right|].
    exists err, y'. split_and!; [exact E|done|done|by rewrite By', By|].
    intros a. rewrite Uy', Uy, U3. specialize (F3 a). tauto. }
  destruct ok; [|destruct (Hfail (set_v v3 x) (-1) ltac:(lia) H3 Q3 (fun a => iff_refl _) L3 eq_refl) as (ret & x' & E & R);
    exists ret, x'; split; [exact E|]; tauto].
  set (y := set_v _ x). specialize (K3 eq_refl). assert (vfio_ok y.(x_v)) as Hy by (by apply vfio_ok_mem).
  destruct (Hex y in_ (16 + npages * 8) outp manage_pages_sz eq_refl Hy)
    as (err & y' & -> & Hy' & Uy' & By' & Qy' & My'). cbn [mbind option_bind].
  destruct (Z.eqb_spec err 0) as [->|He].
  - assert (exists z, (if is_event then Some (0, y') else (z ← buf_free y' in_; Some (0, z))) = Some (0, z) /\ x_v z = x_v y')
      as (z & -> & Ez).
    { destruct is_event; [by exists y'|]. rewrite buf_free_ok by (rewrite By'; exact Hin). by eexists. }
    eexists _, _. split; [done|]. rewrite Ez. split_and!; [done| |done]. intros _. exists pages. split_and!; [done|done|done|].
    intros a. rewrite Uy'. apply U3.
  - destruct (Hfail y' err He Hy') as (ret & x' & E & R); [by rewrite Qy'|exact Uy'| |exact By'|exists ret, x'; split; [exact E|]; tauto].
    eapply lists_pages_frame; [lia|exact L3|]. intros a Ha. rewrite My' by (done || lia). simpl.
    apply manage_pages_hdr_window. lia.
Qed.


(** While a page command is in the slot, a new one is kept for later, which changes no page. *)
Lemma post_busy_keeps x s :
  x.(cmds) !! page_slot = Some s -> s.(in_use) = true -> s.(is_pending) = false ->
  exec_keeps post_page_cmd x.
Proof.
  intros Hs Hu Hp y in_ ilen out olen Hc Hy. unfold post_page_cmd, mlx5_vfio_post_cmd. rewrite Hc, Hs. cbn [mbind option_bind].
  rewrite Hu, Hp. cbn [andb]. eexists _, _. by split_and!.
Qed.

Definition busy_slot : mlx5_vfio_cmd_slot := SLOT 0 (MSG 0 0) (MSG 0 0) 0 (Some PageRequestComp) true (AD 0 0 0 0) false (AD 0 0 0 0).

Definition busy_sys (i : nat) : Z := if (i <? 5)%nat then 0x7000000 + Z.of_nat i * 0x1000000 else 0.

Definition busy_ctx : vctx :=
  VCTX (vfio_start legacy_iova busy_sys (fun _ => 0)) (replicate 31 demo_slot ++ [busy_slot]) (EQ 0 256 0 0) true [] [] ∅.

Definition busy_given : vctx :=
  match mlx5_vfio_give_pages busy_ctx 0 3 true 0 post_page_cmd with Some (_, x) => x | None => busy_ctx end.

Lemma busy_give : mlx5_vfio_give_pages busy_ctx 0 3 true 0 post_page_cmd = Some (0, busy_given).
Proof.
  assert (fst <$> mlx5_vfio_give_pages busy_ctx 0 3 true 0 post_page_cmd = Some 0) as E by (vm_compute; reflexivity).
  unfold busy_given. destruct (mlx5_vfio_give_pages busy_ctx 0 3 true 0 post_page_cmd) as [[r x]|]; [|done]. by injection E as ->.
Qed.

Lemma busy_ctx_ok : vfio_ok (x_v busy_ctx).
Proof. exact (vfio_start_ok _ _ _ legacy_iova_ok). Qed.


(** * The queue of events *)

(** The device has written the events up to index [pi]: the bit of ownership of an entry is the
    parity of the last round in which it was written, and entries not yet written have that of
    the round before the first. *)
Definition eq_filled (eq : mlx5_eq) (pi : Z) (m : mem) : Prop :=
  forall j, pi - eq.(nent) <= j < pi ->
    Z.testbit (m (get_eqe eq (j mod eq.(nent)) + off_eqe_owner)) 0 = Z.odd (j / eq.(nent)).

Lemma init_eqes_other eq n : forall i m a,
  a < eq.(eq_vaddr) + i * MLX5_EQE_SIZE -> init_eqes n eq i m a = m a.
Proof.
  induction n as [|n IH]; intros i m a Ha; simpl; [done|]. rewrite IH by (unfold MLX5_EQE_SIZE in *; lia).
  apply store_be_outside. unfold get_eqe, MLX5_EQE_SIZE, off_eqe_owner in *. lia.
Qed.

Lemma init_eqes_owner eq n : forall i m j,
  i <= j < i + Z.of_nat n -> init_eqes n eq i m (get_eqe eq j + off_eqe_owner) = 1.
Proof.
  induction n as [|n IH]; intros i m j Hj; [lia|]. simpl. destruct (decide (j = i)) as [->|Hne]; [|apply IH; lia].
  rewrite init_eqes_other by (unfold get_eqe, MLX5_EQE_SIZE, off_eqe_owner; lia).
  rewrite store_be_inside by (change (Z.of_nat 1) with 1; lia).
  replace (get_eqe eq i + off_eqe_owner + Z.of_nat 1 - 1 - (get_eqe eq i + off_eqe_owner)) with 0 by lia. reflexivity.
Qed.

Section EventQueue.
Context (eq : mlx5_eq) (k : Z) (Hk : 0 <= k <= 31) (Hnent : eq.(nent) = 2 ^ k).

Lemma entry_index i : 0 <= i -> Z.land (u32 i) (eq.(nent) - 1) = i mod eq.(nent).
Proof using All.
  intros Hi. rewrite Hnent. replace (2 ^ k - 1) with (Z.ones k) by (rewrite Z.ones_equiv; lia). rewrite Z.land_ones by lia.
  unfold u32. apply Z.mod_mod_divide.
  exists (2 ^ (32 - k)). rewrite <- Z.pow_add_r by lia. f_equal. lia.
Qed.

Lemma entry_round i : 0 <= i -> negb (Z.land (u32 i) eq.(nent) =? 0) = Z.odd (i / eq.(nent)).
Proof using All.
  intros Hi. rewrite Hnent, <- Z.shiftr_div_pow2, <- Z.bit0_odd, Z.shiftr_spec, Z.add_0_l by lia.
  assert (Z.testbit (u32 i) k = Z.testbit i k) as <- by (unfold u32; apply Z.mod_pow2_bits_low; lia).
  destruct (Z.testbit (u32 i) k) eqn:E.
  - apply negb_true_iff, Z.eqb_neq. intros H0.
    assert (Z.testbit (Z.land (u32 i) (2 ^ k)) k = true) as Hb by (rewrite Z.land_spec, E, Z.pow2_bits_true by lia; done).
    by rewrite H0, Z.bits_0 in Hb.
  - apply negb_false_iff, Z.eqb_eq. apply Z.bits_inj'. intros j Hj. rewrite Z.land_spec, Z.bits_0.
    destruct (decide (j = k)) as [->|Hne]; [by rewrite E|]. by rewrite Z.pow2_bits_false, andb_false_r by lia.
Qed.

(** A new queue holds no event. *)
Lemma init_eq_filled m : eq_filled eq 0 (init_eq_buf eq m).
Proof using All.
  assert (0 < 2 ^ k) as Hp by (apply Z.pow_pos_nonneg; lia). intros j Hj. unfold init_eq_buf. rewrite Hnent in *.
  assert (j / 2 ^ k = -1) as -> by (symmetry; apply (Z.div_unique _ _ _ (j + 2 ^ k)); lia).
  rewrite init_eqes_owner; [done|]. rewrite Z2Nat.id by lia. pose proof (Z.mod_pos_bound j (2 ^ k) Hp). lia.
Qed.

(** The driver finds an event exactly where the device has written one and the driver has not
    passed it, however often the queue and the 32-bit index have gone round. *)
Theorem event_owned_exact pi i cc m :
  eq.(cons_index) = u32 i -> 0 <= i -> 0 <= cc -> i + cc <= pi -> pi - eq.(nent) <= i + cc -> eq_filled eq pi m ->
  mlx5_eq_get_eqe eq cc m =
    if decide (i + cc < pi) then Some (get_eqe eq ((i + cc) mod eq.(nent))) else None.
Proof using All.
  intros Hci Hi Hcc Hpi Hlo Hf. assert (0 < 2 ^ k) as Hp by (apply Z.pow_pos_nonneg; lia).
  unfold mlx5_eq_get_eqe. rewrite Hci, u32_add_l, entry_index, entry_round by lia. case_decide as Hd.
  - rewrite (Hf (i + cc)) by lia. by rewrite xorb_nilpotent.
  - assert (i + cc = pi) as -> by lia. specialize (Hf (pi - eq.(nent))). rewrite Hnent in *.
    replace (pi - 2 ^ k) with (pi + (-1) * 2 ^ k) in Hf by lia. rewrite Z.mod_add, Z.div_add in Hf by lia.
    rewrite Hf by lia. rewrite Z.odd_add. by destruct (Z.odd (pi / 2 ^ k)).
Qed.

End EventQueue.

Lemma event_owned_exact_witness :
  let m := init_eq_buf (EQ 0x4000 256 0 0) (fun _ => 0) in
  mlx5_eq_get_eqe (EQ 0x4000 256 0 0) 0 m = if decide (0 + 0 < 0) then Some (get_eqe (EQ 0x4000 256 0 0) ((0 + 0) mod 256)) else None.
Proof.
  cbv zeta. apply (event_owned_exact (EQ 0x4000 256 0 0) 8 ltac:(lia) eq_refl 0 0 0); try (simpl; lia); [reflexivity|].
  apply (init_eq_filled (EQ 0x4000 256 0 0) 8 ltac:(lia) eq_refl).
Defined.

(** * Start *)

Definition range_ok (r : Z * Z) : Prop := 0 <= r.1 <= r.2 /\ r.2 < 2 ^ 63.

Lemma insert_ranges_ok ranges : forall c,
  iset_ok c.(v_iova) -> Forall range_ok ranges ->
  exists ret c', insert_ranges c ranges = (ret, c') /\ iset_ok c'.(v_iova) /\ c'.(v_dma) = c.(v_dma) /\ same_owners c c'.
Proof.
  induction ranges as [|[first last] ranges IH]; intros c Hc Hr; simpl; [eexists _, _; split; [reflexivity|done]|].
  apply Forall_cons_1 in Hr as [[Hr1 Hr2] Hr]. simpl in Hr1, Hr2. unfold iova_give, ask.
  rewrite u64_small by lia.
  destruct (iset_do_refines c.(v_iova) (OpInsert first (last - first + 1) (negb (v_sys c (v_tick c) =? 0))) Hc)
    as (ret & l' & a & E & Hl & _); [simpl; lia|].
  simpl in E |- *. destruct (iset_insert_range (v_iova c) first (last - first + 1) _) as [ret' l''] eqn:Ei.
  injection E as -> -> _. destruct (ret =? 0); [|eexists _, _; split; [reflexivity|]; by split_and!].
  match goal with |- context [insert_ranges ?d ranges] => destruct (IH d) as (r & c' & -> & H1 & H2 & H3); [done|done|] end.
  eexists _, _. split; [reflexivity|]. by split_and!.
Qed.

(** The context a device starts with: one block is mapped and no page is lent. *)
Lemma init_device_dma_spec sys unmap info c :
  match info with inr (Some ranges) => Forall range_ok ranges | _ => True end ->
  mlx5_vfio_init_device_dma (vfio_start [] sys unmap) info = Some (0, c) ->
  vfio_ok c /\ length c.(v_blocks) = 1%nat /\ forall a, ~ used c a.
Proof.
  intros Hi. unfold mlx5_vfio_init_device_dma, ask. simpl. destruct (sys 0%nat =? 0); [done|].
  set (c0 := set_blocks _ _).
  assert (iset_ok c0.(v_iova)) as H0 by (split; [done|]; intros x []%covers_nil).
  assert (exists ret c1, mlx5_vfio_get_iommu_info c0 info = (ret, c1) /\ iset_ok c1.(v_iova) /\ c1.(v_dma) = [] /\ same_owners c0 c1)
    as (ret & c1 & -> & H1 & D1 & (S1 & S2 & _)).
  { destruct info as [err|[ranges|]]; unfold mlx5_vfio_get_iommu_info.
    - eexists _, _. split; [reflexivity|]. by split_and!.
    - destruct (insert_ranges_ok ranges c0 H0 Hi) as (r & c1 & -> & ?). eauto.
    - destruct (insert_ranges_ok [(MLX5_VFIO_IOVA_MIN1, MLX5_VFIO_IOVA_MAX1); (MLX5_VFIO_IOVA_MIN2, MLX5_VFIO_IOVA_MAX2)] c0 H0) as (r & c1 & -> & ?).
      + repeat (constructor; [vm_compute; intuition congruence|]). constructor.
      + eauto. }
  destruct (ret =? 0); simpl; [|intros [= ? _]; done].
  assert (vfio_ok c1) as Hok.
  { split.
    - rewrite D1. split; [done| | |]; intros; by match goal with H : _ ∈ [] |- _ => apply elem_of_nil in H end.
    - unfold owned. rewrite S1, S2. simpl. rewrite map_to_list_empty. intros d Hd. by apply elem_of_nil in Hd.
    - unfold owned. rewrite S1, S2. simpl. rewrite map_to_list_empty. constructor.
    - rewrite S1. constructor.
    - rewrite S2. apply lookup_empty. }
  destruct (new_block_spec c1 Hok) as ([b|] & c2 & -> & H2 & _ & _ & Hb); simpl; [|done].
  intros [= <-]. destruct Hb as [Eb Ef]. rewrite S1 in Eb. split_and!; [done|by rewrite Eb|].
  intros a Hu. unfold used in Hu. rewrite Eb in Hu. apply Exists_cons in Hu as [Hu|Hu]; [|by apply Exists_nil in Hu].
  by apply (full_block_free b a Ef).
Qed.

(** * What failures leave behind *)

(** A command that needs more mailboxes frees the old ones first; when the new ones cannot be had, the
    message keeps the address of the first old one, and the next command that does not fit the length 0
    frees it again. *)
Theorem failed_enlarge_dangles :
  match mlx5_vfio_post_cmd cmd_demo_ready 0x9000 5000 0xA000 16 0 false with
  | Some (ret, x) => ret = -1 /\ mlx5_vfio_post_cmd x 0x9000 16 0xA000 16 0 false = None
  | None => False
  end.
Proof. vm_compute. split; reflexivity. Qed.

(** A completion with an error leaves the command that waited where it is: the next request is
    posted before it, and the one after that finds the place of the waiting command taken, which
    is a failed assertion. *)
Theorem failed_completion_strands x s lin lout d v ret x1 :
  x.(cmds) !! page_slot = Some s -> s.(in_use) = true -> s.(is_pending) = true -> d = s.(curr) ->
  mlx5_copy_from_msg x.(x_v) d.(buff_out) s.(cs_out) d.(a_olen) s.(lay) = Some v ->
  ret <> 0 -> page_request_answer d v = Some (ret, v) ->
  mlx5_vfio_process_page_request_comp x page_slot = Some (ret, x1) ->
  vfio_ok x1.(x_v) -> slot_ready x1.(x_v) s lin lout -> s.(cs_in).(msg_len) = 4096 -> s.(cs_out).(msg_len) = 4096 ->
  forall in_ ilen out olen, 0 <= ilen <= 4096 -> 0 <= olen <= 4096 ->
    bufs_apart lin [(in_, ilen)] -> apart (in_, ilen) (s.(lay), 64) ->
  exists x2, mlx5_vfio_post_cmd x1 in_ ilen out olen page_slot true = Some (0, x2) /\
    forall in' ilen' out' olen', mlx5_vfio_post_cmd x2 in' ilen' out' olen' page_slot true = None.
Proof.
  intros Hs Hu Hp -> Ev Hr Ea E Hok SR Hi Ho in_ ilen out olen Hil Hol Ha1 Ha2.
  unfold mlx5_vfio_process_page_request_comp in E. rewrite Hs in E. cbn [mbind option_bind] in E. rewrite Ev in E.
  cbn [mbind option_bind] in E. rewrite Ea in E. cbn [mbind option_bind] in E.
  destruct (buf_free (set_v v x) (buff_in (curr s))) as [y1|] eqn:E1; [|done]. cbn [mbind option_bind] in E.
  destruct (buf_free y1 (buff_out (curr s))) as [y2|] eqn:E2; [|done]. cbn [mbind option_bind] in E.
  rewrite (proj2 (Z.eqb_neq ret 0)) in E by done. cbn [andb] in E. injection E as <-.
  assert (cmds y2 = cmds x) as Ec.
  { apply buf_free_same in E1 as [E1 _]. apply buf_free_same in E2 as [E2 _]. etransitivity; [exact E2|exact E1]. }
  assert (page_slot < length (cmds x))%nat as Hlt by (by eapply lookup_lt_Some).
  destruct (post_cmd_spec (set_slot page_slot (slot_finish s) y2) page_slot (slot_finish s) lin lout in_ ilen out olen true)
    as (x2 & E3 & _ & _ & _ & _ & _ & _ & _ & _ & Hs2 & _).
  - simpl. rewrite Ec. by apply list_lookup_insert_eq.
  - done.
  - exact Hok.
  - destruct SR. by split.
  - simpl. by rewrite Hi.
  - simpl. by rewrite Ho.
  - simpl. rewrite Hi. lia.
  - simpl. rewrite Ho. lia.
  - done.
  - done.
  - exists x2. split; [exact E3|]. intros in' ilen' out' olen'. unfold mlx5_vfio_post_cmd. rewrite Hs2.
    cbn [mbind option_bind]. simpl. by rewrite Hp.
Qed.
